(* ===== verification/_CoqProject ===== *)
-Q . S2P
Prelude.v
Dec.v
DecText.v
Params.v
Sharding.v
Networks.v
Bls.v
Mask.v
SigBitmap.v
Shard.v
HeaderV0.v
HeaderV1.v
HeaderV2.v
HeaderV3.v
Header.v
CXReceipt.v
Receipt.v
Block.v
CrossShard.v
CrossSafety.v
FbftLog.v
FbftMessage.v
VotePower.v
Quorum.v
QuorumSafety.v
Aggregate.v
Succession.v
Decider.v
ViewChange.v
ViewChangeSafety.v
Delegation.v
Effective.v
Validator.v
Availability.v
Slash.v
StakingVerifier.v
StakingSafety.v
MsgSender.v
LeaderRotation.v
Consensus.v
FbftView.v
FbftCommit.v
FbftHandlers.v
FbftSafety.v
FbftToy.v
AccessList.v
StateObject.v
StateDB.v
StateView.v
StateJournal.v
StateSafety.v
StateRevert.v
StateRewards.v
Opcodes.v
EvmCode.v
Gas.v
EvmMemory.v
Precompiles.v
StakingAbi.v
EvmState.v
EvmGas.v
EvmOps.v
EvmTable.v
Evm.v
EvmWp.v
EvmBytes.v
EvmOpsSafety.v
EvmGasSafety.v
EvmSafety.v
EvmLoop.v
EvmCalls.v
StateTransition.v
EvmToy.v
Election.v
Reward.v
Engine.v
