(* ===== verification/Prelude.v ===== *)
(** * A verification library for the Intelchain node

    Intelchain is a sharded proof-of-stake blockchain node written in Go.  Each
    shard runs an FBFT consensus with BLS signatures: the committee's leader
    announces a block, collects a quorum of PREPARE and then of COMMIT
    signatures, and every node adds the block.  Committees are elected per
    epoch from validators' stakes (effective proof of stake); a validator that
    signs two blocks of one view is slashed, one that signs too few is taken out
    of the auction.  Transfers between shards leave a receipt in the source
    shard's block that the destination shard verifies with a merkle proof and
    credits once.  This library models that core and proves what makes it
    correct.

    ** Conventions

    A call returns an [outcome]: [Ok], [Err] (a non-nil Go error, named) or
    [Panic].  Stateful methods take and return the state, or are values of the
    monad [SM] of this file.  Machine integers are [Z]; [u64 x] and the like
    write the wrap-around out where the source can overflow.  [*big.Int] is [Z],
    or [option Z] where nil is tested.  Hashes, addresses and serialised keys are
    the big-endian value of their bytes.  Maps are stdpp maps; where the source
    ranges over one, the order of the walk is an argument or a relation and the
    theorem holds for all.  Code that is not part of the repository (the BLS
    library, Keccak, RLP, protobuf, the trie, the p2p host, LevelDB) is a record
    of operations ([BLSLib], [Hashes], [CrossLib], [TxLib], [ChainLib],
    [NodeLib], ...), with the facts that are relied on as a class of laws
    ([BLSLaws], [SigLaws], ...), each with a concrete instance in a witness.

    ** The parts and where they are

    - Arithmetic: [Dec], [DecText] (numeric/decimal.go).  Rounding is half to
      even with an exact overflow bound; decimals print and parse back.
    - Configuration: [Params] (internal/params/config.go), [Sharding] and
      [Networks] (internal/configs/sharding).  A valid configuration respects
      the order of features; the block/epoch arithmetic of each network refines
      a piecewise linear reference.
    - Keys and masks: [Bls], [Mask], [SigBitmap] (crypto/bls, multibls,
      consensus/signature, internal/chain/sig.go).  A mask's aggregate key is the
      sum of the enabled keys; signature-and-bitmap payloads round-trip.
    - Data: [Shard] (shard), [HeaderV0]-[HeaderV3] and [Header] (block),
      [CXReceipt], [Receipt], [Block] (core/types).
    - Cross-shard transfers: [CrossShard] (the pieces in core, core/rawdb and
      consensus), with [CrossSafety]: served proofs are accepted, accepted ones
      are sound, a spent position is refused.
    - Voting: [VotePower] (consensus/votepower), [Quorum], [Decider]
      (consensus/quorum), with [QuorumSafety], [Aggregate], [Succession]: tallies
      are voting power, two quorums intersect in more than a third, failed calls
      change nothing, leader succession terminates (or not).
    - Consensus: [FbftLog], [FbftMessage], [MsgSender],
      [LeaderRotation], [ViewChange], then the node itself in [Consensus] (the
      struct and its services), [FbftView] (view change), [FbftCommit]
      (committing) and [FbftHandlers] (message handlers), all of consensus/.
      [ViewChangeSafety], [FbftSafety]: the NEWVIEW, PREPARED and
      COMMITTED messages a correct leader makes are accepted by correct
      validators.  [FbftToy] runs the protocol on a committee of three.
    - Staking: [Delegation], [Validator] (staking/types), [Effective]
      (staking/effective), [Availability] (staking/availability), [Slash]
      (staking/slash), [StakingVerifier] (core/staking_verifier.go), with
      [StakingSafety]: every message and slashing conserve tokens and keep
      wrappers sane.
    - The state database (core/state): [AccessList], [StateObject] (accounts),
      [StateDB] (the database and its journal).  [StateView] says what a
      database shows, [StateJournal] and [StateSafety] that the journal undoes
      every operation, [StateRevert] that reverting to a snapshot restores what
      every getter answers.  [StateRewards]: a block reward is distributed in
      full, and the database runs on a trie that is a map.
    - The virtual machine (core/vm): [Opcodes], [EvmCode] (jump destinations),
      [Gas] (constants, intrinsic gas), [EvmMemory], [Precompiles], [StakingAbi]
      (calls of the staking precompile), [EvmState] (machine, frame, contract,
      the interface of the state), [EvmGas] (dynamic gas), [EvmOps]
      (instructions), [EvmTable] (the tables of every fork), [Evm] (the loop,
      calls, creation).  [EvmWp] is a logic of postconditions for it, with the
      laws that are asked of the state; [EvmBytes],
      [EvmOpsSafety], [EvmGasSafety], [EvmSafety], [EvmLoop] and
      [EvmCalls] take every piece to the whole: a call or a creation with
      any code ends, gains no gas and panics only where the state does.
      [EvmToy] runs contracts on a toy state.
    - Applying messages (core/state_transition.go, gaspool.go):
      [StateTransition] buys gas, checks nonces, runs the machine, refunds and
      collects fees, for messages and staking messages, and shows
      who pays what, over any state that keeps balances and nonces;
      [EvmToy] applies one.
    - Electing committees (shard/committee/assignment.go): [Election] collects
      the orders of the auction, runs it and seats the winners;
      an election is fair and total, and one is held.
    - Block rewards (internal/chain/reward.go and the packages it uses):
      [Reward] pays the signers of a block and of its cross links in every era;
      what is reported is what is booked, a cross link's payouts sum to its
      reward, and [AddReward] is tied to the state database's.
    - The consensus engine (internal/chain/engine.go, supply.go): [Engine]
      verifies headers and cross links behind its caches and finalises blocks;
      what it accepts a quorum signed, and at the end of an epoch everybody is
      paid what is unlocked.

    ** How they interact

    The consensus calls the decider through the interface of [Decider], its log
    ([FbftLog]) and its view change state ([ViewChange]) directly, and the chain
    through [ChainLib]; [FbftHandlers.HandleMessageUpdate] is the entry point
    and the goroutines a handler starts are [Task]s that [run_task] runs.
    [Quorum]'s stake decider gets its powers from [VotePower.Compute] of a
    [Shard] committee, and counts masks of [Mask].  [Availability] and [Slash]
    change the validator wrappers of [Validator], [StakingVerifier] returns
    changed wrappers for the state database to store.

    ** Bounds and fuel

    Loops that are not structural have a measure that is proved to be enough
    ([LeaderRotation.rotation_rebuilt], [Succession.NthNextValidator_terminates])
    or recurse over the list they walk.  [Consensus]'s catching up walks block
    numbers with the number of logged messages as fuel: each turn needs a
    message of its own.  The turns of the virtual machine's loop are bounded by
    the gas: fuel above the gas of a call is enough ([EvmCalls.Call_ends]).

    ** Not modelled

    Networking, synchronisation, RPC, command line, key stores, explorer and
    metrics: input and output around the core.  Databases, tries, RLP, protobuf
    and the cryptographic libraries are parameters.  Of the core: the
    transaction pool, inserting and reorganising chains, and proposing blocks
    but for their cross-shard receipts and leader rotation; the state's
    snapshots, prefetcher and dumps, which are go-ethereum's; tracers and
    loggers; VRF and VDF generation.  Locks are left out: a method is one step,
    and goroutines are tasks that run later. *)

From Stdlib Require Export ZArith Lia Zquot.
From stdpp Require Export sorting numbers strings fin_maps gmap base list.

#[global] Open Scope Z_scope.

(** ** Outcomes: what a Go call can do

    A call returns a value, returns a non-nil [error], or panics.  Errors are
    named by the Go variable that holds them (or by their message when the
    code builds them in place), panics by their message. *)
Inductive outcome (A : Type) : Type :=
| Ok (a : A)
| Err (e : string)
| Panic (why : string).
Arguments Ok {A} a.
Arguments Err {A} e.
Arguments Panic {A} why.

#[export] Instance outcome_ret : MRet outcome := fun A a => Ok a.
#[export] Instance outcome_bind : MBind outcome := fun A B f m =>
  match m with Ok a => f a | Err e => Err e | Panic w => Panic w end.
#[export] Instance outcome_fmap : FMap outcome := fun A B f m =>
  match m with Ok a => Ok (f a) | Err e => Err e | Panic w => Panic w end.

#[export] Instance outcome_eq_dec {A} `{EqDecision A} : EqDecision (outcome A).
Proof. solve_decision. Defined.

(** What the runtime says when a nil pointer is followed. *)
Definition nil_deref : string := "nil pointer dereference".

Definition is_Ok {A} (m : outcome A) : bool :=
  match m with Ok _ => true | _ => false end.

Lemma is_Ok_ex {A} (m : outcome A) : is_Ok m = true -> exists a, m = Ok a.
Proof. destruct m as [a| |]; [by exists a|done|done]. Qed.

(** The value of a call that is known to succeed. *)
Definition Ok_or {A} (d : A) (m : outcome A) : A := match m with Ok a => a | _ => d end.
Lemma Ok_or_eq {A} (d : A) (m : outcome A) : is_Ok m = true -> m = Ok (Ok_or d m).
Proof. by destruct m. Qed.

Declare Scope go_scope.
Delimit Scope go_scope with go.
Notation "'let!' x ':=' m 'in' k" := (mbind (fun x => k) m)
  (at level 10, x binder, m at level 200, k at level 200,
   format "'[v' 'let!'  x  ':='  m  'in'  '/' k ']'") : go_scope.
#[global] Open Scope go_scope.

Lemma bind_Ok {A B} (m : outcome A) (f : A -> outcome B) (b : B) :
  mbind f m = Ok b <-> exists a, m = Ok a /\ f a = Ok b.
Proof. destruct m as [a| |]; split; simpl; [by exists a|by intros (? & [= ->] & ?)|done| |done|];
  by intros (? & ? & ?). Qed.

Lemma bind_ret {A B} (a : A) (f : A -> outcome B) : mbind f (Ok a) = f a.
Proof. done. Qed.

Lemma bind_assoc {A B C} (m : outcome A) (f : A -> outcome B) (g : B -> outcome C) :
  mbind g (mbind f m) = mbind (fun a => mbind g (f a)) m.
Proof. by destruct m. Qed.

Lemma bind_not_Panic {A B} (m : outcome A) (f : A -> outcome B) w :
  m <> Panic w -> (forall a, f a <> Panic w) -> mbind f m <> Panic w.
Proof. intros Hm Hf. destruct m as [a| |w']; [apply Hf|done|]. cbn. congruence. Qed.

Lemma Ok_inj {A} (a b : A) : Ok a = Ok b -> a = b.
Proof. by intros [= ->]. Qed.

(** [outcome_inv]: turn every [mbind .. = Ok _] and [if .. then .. else ..]
    of the context into the facts that make it succeed. *)
Ltac outcome_step :=
  match goal with
  | H : mbind _ _ = Ok _ |- _ =>
      apply bind_Ok in H as (? & ? & H)
  | H : Ok _ = Ok _ |- _ => apply Ok_inj in H; subst
  | H : Err _ = Ok _ |- _ => discriminate H
  | H : Panic _ = Ok _ |- _ => discriminate H
  | H : (if ?b then _ else _) = Ok _ |- _ => destruct b eqn:?
  end.
Ltac outcome_inv := repeat outcome_step.

(** Folding a fallible step over a list. *)
Fixpoint foldM {A B} (f : B -> A -> outcome B) (l : list A) (b : B) : outcome B :=
  match l with
  | [] => Ok b
  | a :: l' => let! b' := f b a in foldM f l' b'
  end.

Lemma foldM_app {A B} (f : B -> A -> outcome B) l1 l2 b :
  foldM f (l1 ++ l2) b = let! b' := foldM f l1 b in foldM f l2 b'.
Proof.
  revert b; induction l1 as [|a l1 IH]; intros b; simpl; [done|].
  rewrite bind_assoc. by destruct (f b a); simpl.
Qed.

(** The invariant rule for [foldM]: [P] is indexed by the elements consumed. *)
Lemma foldM_inv {A B} (P : list A -> B -> Prop) (f : B -> A -> outcome B) l b r :
  P [] b ->
  (forall done_ a b b', P done_ b -> a ∈ l -> f b a = Ok b' -> P (done_ ++ [a]) b') ->
  foldM f l b = Ok r -> P l r.
Proof.
  intros H0 Hstep.
  enough (forall d b, P d b -> foldM f l b = Ok r -> P (d ++ l) r) as Hgen
    by (intros; by apply (Hgen [] b)).
  clear H0 b. induction l as [|a l IH]; intros d b Hd Hf; simpl in Hf; outcome_inv.
  - by rewrite app_nil_r.
  - rewrite cons_middle, (app_assoc d [a] l).
    eapply IH; [|eapply Hstep; [done|set_solver|done]|done].
    intros; eapply Hstep; [done|set_solver|done].
Qed.

(** ** Machine integers *)

Definition u64 (x : Z) : Z := x mod 2 ^ 64.
Definition u32 (x : Z) : Z := x mod 2 ^ 32.
Definition u8 (x : Z) : Z := x mod 2 ^ 8.
Definition i64 (x : Z) : Z := (x + 2 ^ 63) mod 2 ^ 64 - 2 ^ 63.

Lemma u64_small x : 0 <= x < 2 ^ 64 -> u64 x = x.
Proof. apply Z.mod_small. Qed.
Lemma u64_range x : 0 <= u64 x < 2 ^ 64.
Proof. apply Z.mod_pos_bound. lia. Qed.
Lemma i64_small x : - 2 ^ 63 <= x < 2 ^ 63 -> i64 x = x.
Proof. intros. unfold i64. rewrite Z.mod_small; lia. Qed.
Lemma i64_range x : - 2 ^ 63 <= i64 x < 2 ^ 63.
Proof.
  unfold i64. pose proof (Z.mod_pos_bound (x + 2 ^ 63) (2 ^ 64) ltac:(lia)). lia.
Qed.

Lemma i64_zero x : i64 x = 0 <-> x mod 2 ^ 64 = 0.
Proof.
  unfold i64. split; intros H.
  - pose proof (Z.div_mod (x + 2 ^ 63) (2 ^ 64) ltac:(lia)) as E.
    replace x with ((x + 2 ^ 63) / 2 ^ 64 * 2 ^ 64) by lia. apply Z.mod_mul. lia.
  - pose proof (Z.div_mod x (2 ^ 64) ltac:(lia)) as E.
    replace (x + 2 ^ 63) with (2 ^ 63 + x / 2 ^ 64 * 2 ^ 64) by lia. rewrite Z.mod_add by lia. done.
Qed.

(** ** Indexing: a Go slice indexed out of range panics *)

Definition idx {A} (l : list A) (i : Z) : outcome A :=
  if i <? 0 then Panic "index out of range"
  else match l !! Z.to_nat i with Some a => Ok a | None => Panic "index out of range" end.

Definition upd {A} (l : list A) (i : Z) (a : A) : outcome (list A) :=
  if (i <? 0) || (Z.of_nat (length l) <=? i) then Panic "index out of range"
  else Ok (<[Z.to_nat i := a]> l).

Lemma idx_Ok {A} (l : list A) i a : 0 <= i -> l !! Z.to_nat i = Some a -> idx l i = Ok a.
Proof. intros Hi Hl. unfold idx. by rewrite (proj2 (Z.ltb_ge i 0) Hi), Hl. Qed.

Lemma idx_nat {A} (l : list A) (i : nat) a : l !! i = Some a -> idx l (Z.of_nat i) = Ok a.
Proof. intros. apply idx_Ok; [lia|]. by rewrite Nat2Z.id. Qed.

Lemma idx_inv {A} (l : list A) i a :
  idx l i = Ok a -> 0 <= i < Z.of_nat (length l) /\ l !! Z.to_nat i = Some a.
Proof.
  unfold idx. case_match eqn:Hi; [done|]. case_match eqn:Hl; [|done]. intros [= ->].
  apply lookup_lt_Some in Hl as ?. split; [lia|done].
Qed.

Lemma idx_total {A} (l : list A) i : 0 <= i < Z.of_nat (length l) -> exists a, idx l i = Ok a.
Proof.
  intros Hi. destruct (lookup_lt_is_Some_2 l (Z.to_nat i)) as [a Ha]; [lia|].
  exists a. apply idx_Ok; [lia|done].
Qed.

Lemma upd_Ok {A} (l : list A) i a :
  0 <= i < Z.of_nat (length l) -> upd l i a = Ok (<[Z.to_nat i := a]> l).
Proof. intros Hi. unfold upd. by rewrite (proj2 (Z.ltb_ge i 0)), (proj2 (Z.leb_gt _ _)) by lia. Qed.

Lemma insert_alter_lookup {A} (f : A -> A) (l : list A) i a :
  l !! i = Some a -> <[i := f a]> l = alter f i l.
Proof.
  revert i. induction l as [|x l IH]; intros [|i] H; try done; [by injection H as ->|].
  cbn. f_equal. by apply IH.
Qed.

(** [for i := range l]: the indexes of a slice. *)
Definition range {A} (l : list A) : list Z := seqZ 0 (Z.of_nat (length l)).

Lemma elem_of_range {A} (l : list A) i : i ∈ range l <-> 0 <= i < Z.of_nat (length l).
Proof. unfold range. rewrite elem_of_seqZ. lia. Qed.

(** Total correctness of a fold: the step never fails where the invariant
    holds.  [foldM_range] is the rule for [for i := range l]. *)
Lemma foldM_total {A B} (P : list A -> B -> Prop) (f : B -> A -> outcome B) l b :
  P [] b ->
  (forall d a rest b, l = d ++ a :: rest -> P d b -> exists b', f b a = Ok b' /\ P (d ++ [a]) b') ->
  exists r, foldM f l b = Ok r /\ P l r.
Proof.
  intros H0 Hstep.
  enough (forall d l' b, l = d ++ l' -> P d b -> exists r, foldM f l' b = Ok r /\ P l r) as Hgen
    by (by apply (Hgen [] l b)).
  clear H0 b. intros d l'. revert d. induction l' as [|a l' IH]; intros d b El Hd; simpl.
  - rewrite app_nil_r in El. subst. eauto.
  - destruct (Hstep d a l' b El Hd) as (b' & -> & Hb'). simpl. apply (IH (d ++ [a])); [|done].
    by rewrite <- app_assoc.
Qed.

Lemma foldM_range {A B} (P : nat -> B -> Prop) (f : B -> Z -> outcome B) (l : list A) b :
  P 0%nat b ->
  (forall i b, (i < length l)%nat -> P i b -> exists b', f b (Z.of_nat i) = Ok b' /\ P (S i) b') ->
  exists r, foldM f (range l) b = Ok r /\ P (length l) r.
Proof.
  intros H0 Hstep.
  destruct (foldM_total (fun d r => P (length d) r) f (range l) b) as (r & Hr & HP); [done| |].
  - intros d a rest b' El Hd. unfold range in El.
    assert (seqZ 0 (Z.of_nat (length l)) !! length d = Some a) as Ha
      by (rewrite El; by apply list_lookup_middle).
    apply lookup_seqZ in Ha as [-> ?]. rewrite length_app. simpl.
    replace (length d + 1)%nat with (S (length d)) by lia. apply Hstep; [lia|done].
  - exists r. split; [done|]. revert HP. unfold range. by rewrite length_seqZ, Nat2Z.id.
Qed.

(** ** [math/big]: the standard library's integers, as the code uses them *)
Module Big.
(** [BitLen]: length of the absolute value in bits; 0 for 0. *)
Definition BitLen (x : Z) : Z := if x =? 0 then 0 else Z.log2 (Z.abs x) + 1.

Definition Sign (x : Z) : Z := Z.sgn x.

(** [Quo]/[Rem] truncate towards zero, [Div]/[Mod] are Euclidean (the
    remainder is never negative); all four panic on a zero divisor. *)
Definition Quo (x y : Z) : outcome Z :=
  if y =? 0 then Panic "division by zero" else Ok (Z.quot x y).
Definition Rem (x y : Z) : outcome Z :=
  if y =? 0 then Panic "division by zero" else Ok (Z.rem x y).
Definition Mod (x y : Z) : outcome Z :=
  if y =? 0 then Panic "division by zero" else Ok (x mod Z.abs y).
Definition Div (x y : Z) : outcome Z :=
  if y =? 0 then Panic "division by zero"
  else Ok (if 0 <? y then x / y else - (x / - y)).

(** [Int64]/[Uint64] return the low 64 bits. *)
Definition Int64 (x : Z) : Z := i64 x.
Definition Uint64 (x : Z) : Z := u64 x.
Definition IsInt64 (x : Z) : bool := (- 2 ^ 63 <=? x) && (x <? 2 ^ 63).
Definition IsUint64 (x : Z) : bool := (0 <=? x) && (x <? 2 ^ 64).

Lemma BitLen_nonneg x : 0 <= BitLen x.
Proof. unfold BitLen. case_match; [lia|]. pose proof (Z.log2_nonneg (Z.abs x)). lia. Qed.

Lemma BitLen_le x n : 0 <= n -> BitLen x <= n <-> Z.abs x < 2 ^ n.
Proof.
  intros Hn. unfold BitLen. destruct (Z.eqb_spec x 0) as [->|Hx].
  - simpl. split; [|lia]. intros. apply Z.pow_pos_nonneg; lia.
  - rewrite Z.log2_lt_pow2 by lia. lia.
Qed.

(** The Euclidean law that defines [Div] and [Mod]. *)
Lemma Div_Mod x y q m :
  Div x y = Ok q -> Mod x y = Ok m -> x = y * q + m /\ 0 <= m < Z.abs y.
Proof.
  unfold Div, Mod. destruct (Z.eqb_spec y 0); [done|].
  intros [= <-] [= <-]. destruct (Z.ltb_spec 0 y).
  - rewrite Z.abs_eq by lia. pose proof (Z.div_mod x y). 
    pose proof (Z.mod_pos_bound x y). lia.
  - rewrite Z.abs_neq by lia. pose proof (Z.div_mod x (-y)).
    pose proof (Z.mod_pos_bound x (-y)). lia.
Qed.

Lemma Div_pos x y : 0 < y -> Div x y = Ok (x / y).
Proof.
  intros. unfold Div. destruct (Z.eqb_spec y 0); [lia|].
  by destruct (Z.ltb_spec 0 y); [|lia].
Qed.

Lemma big_Quo_Ok x y : y <> 0 -> Quo x y = Ok (Z.quot x y).
Proof. intros. unfold Quo. by destruct (Z.eqb_spec y 0). Qed.
End Big.

(** ** Sums *)

Definition sumZ {A} (f : A -> Z) (l : list A) : Z := foldr (fun a s => f a + s) 0 l.

Section sums.
Context {A : Type}.
Implicit Types (f g : A -> Z) (l : list A).

Lemma sumZ_cons f a l : sumZ f (a :: l) = f a + sumZ f l.
Proof. done. Qed.
Lemma sumZ_app f l1 l2 : sumZ f (l1 ++ l2) = sumZ f l1 + sumZ f l2.
Proof. induction l1 as [|a l1 IH]; [done|]. cbn [app]. rewrite !sumZ_cons. lia. Qed.
Lemma sumZ_perm f l1 l2 : l1 ≡ₚ l2 -> sumZ f l1 = sumZ f l2.
Proof. induction 1; rewrite ?sumZ_cons; [done|lia|lia|lia]. Qed.
Lemma sumZ_nonneg f l : (forall a, a ∈ l -> 0 <= f a) -> 0 <= sumZ f l.
Proof.
  induction l as [|a l IH]; intros Hf; [done|]. rewrite sumZ_cons.
  pose proof (Hf a ltac:(set_solver)). pose proof (IH ltac:(set_solver)). lia.
Qed.
Lemma sumZ_ext f g l : (forall a, a ∈ l -> f a = g a) -> sumZ f l = sumZ g l.
Proof.
  induction l as [|a l IH]; intros Hf; [done|]. rewrite !sumZ_cons.
  rewrite (Hf a), IH by set_solver. done.
Qed.
Lemma sumZ_le f g l : (forall a, a ∈ l -> f a <= g a) -> sumZ f l <= sumZ g l.
Proof.
  induction l as [|a l IH]; intros Hf; [done|]. rewrite !sumZ_cons.
  pose proof (Hf a ltac:(set_solver)). pose proof (IH ltac:(set_solver)). lia.
Qed.
Lemma sumZ_insert f l i a b :
  l !! i = Some a -> sumZ f (<[i:=b]> l) = sumZ f l - f a + f b.
Proof.
  intros Hi. rewrite (take_drop_middle _ _ _ Hi) at 2 || idtac.
  pose proof (take_drop_middle l i a Hi) as E.
  rewrite <- E at 2. rewrite insert_take_drop by (by eapply lookup_lt_Some).
  rewrite !sumZ_app, !sumZ_cons. lia.
Qed.
End sums.
Lemma sumZ_map {A B} (f : B -> Z) (g : A -> B) (l : list A) :
  sumZ f (map g l) = sumZ (fun a => f (g a)) l.
Proof. induction l as [|a l IH]; [done|]. cbn [map]. by rewrite !sumZ_cons, IH. Qed.
Lemma sumZ_plus {A} (f g : A -> Z) (l : list A) : sumZ (fun a => f a + g a) l = sumZ f l + sumZ g l.
Proof. induction l as [|a l IH]; [done|]. rewrite !sumZ_cons, IH. lia. Qed.
Lemma sumZ_zero {A} (f : A -> Z) (l : list A) : (forall a, a ∈ l -> f a = 0) -> sumZ f l = 0.
Proof.
  induction l as [|a l IH]; intros Hf; [done|]. rewrite sumZ_cons, (Hf a), IH; [done| |by left].
  intros b Hb. apply Hf. by right.
Qed.
#[global] Arguments sumZ : simpl never.

Lemma filter_all {A} (f : A -> bool) l : Forall (fun a => f a = true) l -> List.filter f l = l.
Proof. induction 1 as [|a l Ha _ IH]; cbn [List.filter]; [done|]. by rewrite Ha, IH. Qed.
Lemma filter_none {A} (f : A -> bool) l : Forall (fun a => f a = false) l -> List.filter f l = [].
Proof. induction 1 as [|a l Ha _ IH]; cbn [List.filter]; [done|]. by rewrite Ha. Qed.
Lemma lookup_map {A B} (g : A -> B) (l : list A) i : map g l !! i = g <$> l !! i.
Proof. apply list_lookup_fmap. Qed.
Lemma sumZ_nil {A} (f : A -> Z) : sumZ f [] = 0.
Proof. done. Qed.
Lemma foldl_sumZ {A} (f : A -> Z) l a : foldl (fun t x => t + f x) a l = a + sumZ f l.
Proof.
  revert a. induction l as [|x l IH]; intros a; cbn [foldl]; [rewrite sumZ_nil; lia|].
  rewrite IH, sumZ_cons. lia.
Qed.

(** [for k, v := range m]: the sum of a function over a map. *)
Section map_sum.
Context {K V : Type} `{Countable K} (f : V -> Z).
Definition map_sum (m : gmap K V) : Z := sumZ (fun kv => f kv.2) (map_to_list m).

Lemma map_sum_empty : map_sum ∅ = 0.
Proof. unfold map_sum. by rewrite map_to_list_empty. Qed.

Lemma map_sum_insert_fresh m k v : m !! k = None -> map_sum (<[k := v]> m) = f v + map_sum m.
Proof.
  intros Hk. unfold map_sum. rewrite (sumZ_perm _ _ _ (map_to_list_insert m k v Hk)). by rewrite sumZ_cons.
Qed.

Lemma map_sum_delete m k v : m !! k = Some v -> map_sum m = f v + map_sum (delete k m).
Proof. intros Hk. unfold map_sum. by rewrite <- (sumZ_perm _ _ _ (map_to_list_delete m k v Hk)), sumZ_cons. Qed.

Lemma map_sum_insert m k v v' : m !! k = Some v ->
  map_sum (<[k := v']> m) = map_sum m - f v + f v'.
Proof.
  intros Hk. rewrite <- insert_delete_eq, map_sum_insert_fresh by apply lookup_delete_eq.
  rewrite (map_sum_delete m k v Hk). lia.
Qed.

Lemma map_sum_nonneg m : (forall k v, m !! k = Some v -> 0 <= f v) -> 0 <= map_sum m.
Proof. intros Hf. apply sumZ_nonneg. intros [k v] Hkv%elem_of_map_to_list. by eapply Hf. Qed.
End map_sum.


Create HintDb go discriminated.
Create Rewrite HintDb go.
#[export] Hint Rewrite @sumZ_cons @sumZ_app @sumZ_map : go.
#[export] Hint Rewrite @bind_ret @bind_assoc : go.

(** ** [sort.SliceStable]

    The standard library promises the permutation of the slice that is sorted
    for [less] and keeps equal elements in their original order; for a strict
    weak order that permutation is unique ([SliceStable_unique]), so an
    insertion sort computes it. *)
Section stable_sort.
Context {A : Type} (less : A -> A -> bool).

Fixpoint insert_stable (x : A) (l : list A) : list A :=
  match l with
  | [] => [x]
  | y :: l' => if less y x then y :: insert_stable x l' else x :: l
  end.

Definition SliceStable (l : list A) : list A := foldr insert_stable [] l.

(** "not out of order" *)
Definition ordered (x y : A) : Prop := less y x = false.

Lemma insert_stable_perm x l : insert_stable x l ≡ₚ x :: l.
Proof.
  induction l as [|y l IH]; simpl; [done|]. case_match; [|done].
  rewrite IH. apply Permutation_swap.
Qed.

Lemma SliceStable_perm l : SliceStable l ≡ₚ l.
Proof.
  induction l as [|x l IH]; simpl; [done|]. by rewrite insert_stable_perm, IH.
Qed.

Lemma SliceStable_length l : length (SliceStable l) = length l.
Proof. apply Permutation_length, SliceStable_perm. Qed.

Lemma elem_of_SliceStable x l : x ∈ SliceStable l <-> x ∈ l.
Proof. by rewrite SliceStable_perm. Qed.

(** A sorted list is left alone. *)
Lemma SliceStable_sorted_id l : StronglySorted ordered l -> SliceStable l = l.
Proof.
  induction 1 as [|x l Hs IH Hx]; simpl; [done|]. rewrite IH.
  destruct l as [|y l]; simpl; [done|].
  apply Forall_cons in Hx as [Hxy _]. unfold ordered in Hxy. by rewrite Hxy.
Qed.

Section weak_order.
  (** [less] is a strict weak order *)
Context (less_asym : forall x y, less x y = true -> less y x = false).
Context (less_neg_trans : forall x y z,
    less y x = false -> less z y = false -> less z x = false).

Lemma insert_stable_sorted x l :
    StronglySorted ordered l -> StronglySorted ordered (insert_stable x l).
Proof.
    induction 1 as [|y l Hs IH Hy]; simpl; [by repeat constructor|].
    destruct (less y x) eqn:Hyx.
    - constructor; [done|]. rewrite insert_stable_perm.
      constructor; [by apply less_asym|done].
    - constructor; [by constructor|]. constructor; [done|].
      eapply Forall_impl; [done|]. intros z Hz. by eapply less_neg_trans.
Qed.

Lemma SliceStable_sorted l : StronglySorted ordered (SliceStable l).
Proof.
    induction l as [|x l IH]; simpl; [constructor|]. by apply insert_stable_sorted.
Qed.

  (** Sorting twice is sorting once. *)
Lemma SliceStable_idemp l : SliceStable (SliceStable l) = SliceStable l.
Proof. apply SliceStable_sorted_id, SliceStable_sorted. Qed.

  (** When no two different elements are tied the result depends on the
      elements only, not on the order they came in. *)
Lemma SliceStable_unique l1 l2 :
    (forall x y, x ∈ l1 -> y ∈ l1 -> less x y = false -> less y x = false -> x = y) ->
    l1 ≡ₚ l2 -> SliceStable l1 = SliceStable l2.
Proof.
    intros Hinj Hp.
    pose proof (SliceStable_sorted l1) as S1. pose proof (SliceStable_sorted l2) as S2.
    assert (SliceStable l1 ≡ₚ SliceStable l2) as HP by by rewrite !SliceStable_perm.
    assert (forall x y, x ∈ SliceStable l1 -> y ∈ SliceStable l1 ->
              ordered x y -> ordered y x -> x = y) as Hin.
    { intros x y. rewrite !elem_of_SliceStable. unfold ordered. eauto. }
    clear Hinj Hp. revert S1 S2 HP Hin.
    generalize (SliceStable l1) as k1, (SliceStable l2) as k2. clear l1 l2.
    intros k1 k2 S1. revert k2. induction S1 as [|x k1 S1 IH Hx]; intros k2 S2 HP Hin.
    { by apply Permutation_nil_l in HP. }
    destruct k2 as [|y k2]; [by apply Permutation_nil_r in HP|].
    inversion S2 as [|? ? S2' Hy]; subst.
    assert (x = y) as ->.
    { assert (y ∈ x :: k1) as Hyk by (rewrite HP; set_solver).
      assert (x ∈ y :: k2) as Hxk by (rewrite <- HP; set_solver).
      rewrite elem_of_cons in Hyk, Hxk.
      destruct Hyk as [->|Hyk]; [done|]. destruct Hxk as [->|Hxk]; [done|].
      rewrite Forall_forall in Hx, Hy.
      apply Hin; [set_solver|set_solver|by apply Hx|by apply Hy]. }
    f_equal. apply IH; [done|by apply Permutation_cons_inv in HP|].
    intros a b Ha Hb. apply Hin; set_solver.
Qed.
End weak_order.
End stable_sort.

(** Comparison by an integer key gives a strict weak order. *)
Lemma key_less_asym {A} (f : A -> Z) x y : (f x <? f y) = true -> (f y <? f x) = false.
Proof. rewrite Z.ltb_lt, Z.ltb_ge. lia. Qed.
Lemma key_less_neg_trans {A} (f : A -> Z) x y z :
  (f y <? f x) = false -> (f z <? f y) = false -> (f z <? f x) = false.
Proof. rewrite !Z.ltb_ge. lia. Qed.
#[export] Hint Resolve key_less_asym key_less_neg_trans : go.

(** ** Stateful calls

    A method that reads and writes its receiver: it gives the new state and the
    outcome, and what it wrote before an error or a panic stays written. *)
Definition SM (S A : Type) : Type := S -> S * outcome A.

#[export] Instance SM_ret {S} : MRet (SM S) := fun A a s => (s, Ok a).
#[export] Instance SM_bind {S} : MBind (SM S) := fun A B f m s =>
  match m s with
  | (s, Ok a) => f a s
  | (s, Err e) => (s, Err e)
  | (s, Panic w) => (s, Panic w)
  end.
Definition lift {S A} (m : outcome A) : SM S A := fun s => (s, m).
Definition gets {S A} (f : S -> A) : SM S A := fun s => (s, Ok (f s)).
Definition modify {S} (f : S -> S) : SM S unit := fun s => (f s, Ok tt).
Definition sm_when {S} (b : bool) (m : SM S unit) : SM S unit := if b then m else mret tt.
(** [return] with an error, or out of a method without result. *)
Definition stop {S A} (why : string) : SM S A := lift (Err why).
(** The outcome of a call whose error the caller looks at. *)
Definition caught {S A} (m : SM S A) : SM S (option string) := fun s =>
  match m s with
  | (s, Ok _) => (s, Ok None)
  | (s, Err e) => (s, Ok (Some e))
  | (s, Panic w) => (s, Panic w)
  end.
(** A method without result returns whether it stopped early or not. *)
Definition handled {S A} (m : SM S A) : SM S unit := let! _ := caught m in mret tt.
(** [for _, a := range l { f(a) }] *)
Fixpoint sm_for {S A} (l : list A) (f : A -> SM S unit) : SM S unit :=
  match l with [] => mret tt | a :: l => let! _ := f a in sm_for l f end.

Lemma SM_bind_Ok {S A B} (m : SM S A) (f : A -> SM S B) s s' b :
  mbind f m s = (s', Ok b) <-> exists s1 a, m s = (s1, Ok a) /\ f a s1 = (s', Ok b).
Proof.
  unfold mbind, SM_bind. destruct (m s) as [s1 [a|e|w]]; split; try done.
  - intros Hf. by exists s1, a.
  - by intros (? & ? & [= <- <-] & ?).
  - by intros (? & ? & ? & ?).
  - by intros (? & ? & ? & ?).
Qed.

Lemma bind_lift_Ok {S A B} (a : A) (f : A -> SM S B) : mbind f (lift (Ok a)) = f a.
Proof. done. Qed.

(** [keeps I m]: [m] leaves [I] true, however it ends. *)
Definition keeps {S A} (I : S -> Prop) (m : SM S A) : Prop := forall s, I s -> I (fst (m s)).

Section keeps.
Context {S : Type} (I : S -> Prop).
Lemma keeps_ret {A} (a : A) : keeps I (mret a : SM S A).
Proof. by intros s Hs. Qed.
Lemma keeps_lift {A} (m : outcome A) : keeps I (lift m : SM S A).
Proof. by intros s Hs. Qed.
Lemma keeps_stop {A} e : keeps I (stop e : SM S A).
Proof. by intros s Hs. Qed.
Lemma keeps_gets {A} (f : S -> A) : keeps I (gets f).
Proof. by intros s Hs. Qed.
Lemma keeps_modify f : (forall s, I s -> I (f s)) -> keeps I (modify f).
Proof. intros Hf s Hs. by apply Hf. Qed.
Lemma keeps_bind {A B} (m : SM S A) (f : A -> SM S B) : keeps I m -> (forall a, keeps I (f a)) -> keeps I (mbind f m).
Proof.
  intros Hm Hf s Hs. unfold mbind, SM_bind. specialize (Hm s Hs). destruct (m s) as [s1 [a|e|w]]; [|done|done]. by apply Hf.
Qed.
Lemma keeps_when b m : keeps I m -> keeps I (sm_when b m).
Proof. intros Hm. destruct b; [done|apply keeps_ret]. Qed.
Lemma keeps_caught {A} (m : SM S A) : keeps I m -> keeps I (caught m).
Proof. intros Hm s Hs. specialize (Hm s Hs). unfold caught. by destruct (m s) as [s1 []]. Qed.
Lemma keeps_handled {A} (m : SM S A) : keeps I m -> keeps I (handled m).
Proof. intros Hm. apply keeps_bind; [by apply keeps_caught|intros; apply keeps_ret]. Qed.
Lemma keeps_for {A} (l : list A) f : (forall a, a ∈ l -> keeps I (f a)) -> keeps I (sm_for l f).
Proof.
  induction l as [|a l IH]; intros Hf; [apply keeps_ret|]. apply keeps_bind; [apply Hf; by left|].
  intros _. apply IH. intros b Hb. apply Hf. by right.
Qed.
End keeps.
Create HintDb sm discriminated.
#[export] Hint Resolve keeps_ret keeps_lift keeps_stop keeps_gets keeps_when keeps_caught keeps_handled : sm.
(** [sm_keeps]: walk down a stateful definition, case by case. *)
Ltac sm_keeps_step :=
  match goal with
  | |- keeps _ (mbind _ _) => apply keeps_bind; [|intros ?]
  | |- keeps _ (sm_for _ _) => apply keeps_for; intros ? ?
  | |- keeps _ (handled _) => apply keeps_handled
  | |- keeps _ (caught _) => apply keeps_caught
  | |- keeps _ (sm_when _ _) => apply keeps_when
  | |- keeps _ (if ?b then _ else _) => destruct b eqn:?
  | |- keeps _ (match ?x with _ => _ end) => destruct x eqn:?
  | |- keeps _ _ => solve [auto 2 with sm nocore]
  end.
Ltac sm_keeps := repeat sm_keeps_step.

(** ** Map walks

    Go ranges over a map in no particular order: [walk] is any such order. *)

Class Walk := {
  walk {K V : Type} `{Countable K} : gmap K V -> list (K * V);
  walk_perm {K V : Type} `{Countable K} (m : gmap K V) : walk m ≡ₚ map_to_list m
}.

Lemma elem_of_walk {W : Walk} {K V} `{Countable K} (m : gmap K V) k v :
  (k, v) ∈ walk m <-> m !! k = Some v.
Proof. by rewrite walk_perm, elem_of_map_to_list. Qed.

(** The order of [map_to_list] is one. *)
#[export] Instance listed_walk : Walk := {| walk K V _ _ := map_to_list; walk_perm K V _ _ m := reflexivity _ |}.
