(* ===== verification/Dec.v ===== *)
(** * [numeric/decimal.go]: fixed-point decimals with 18 fractional digits

    A non-nil [numeric.Dec] is its [big.Int], the decimal scaled by 10^18.
    The arithmetic that checks the size of its result panics when the result
    needs more than 255 + 60 bits; it is modelled in [outcome].  The nil [Dec]
    (the zero value of the struct) is only looked at by [IsNil], [Copy] and
    [MarshalJSON]; the type [NDec] adds it. *)

From S2P Require Import Prelude.

Definition Dec : Type := Z.
Definition NDec : Type := option Dec.

(** ** Constants *)

Definition Precision : Z := 18.
Definition DecimalPrecisionBits : Z := 60.
Definition precisionReuse : Z := 10 ^ Precision.
Definition fivePrecision : Z := Z.quot precisionReuse 2.
Definition zeroInt : Z := 0.
Definition oneInt : Z := 1.
Definition tenInt : Z := 10.

Definition errTooMuchPrecision : string := "too much precision, maximum 18".

Definition calcPrecisionMultiplier (prec : Z) : outcome Z :=
  if Precision <? prec then Panic errTooMuchPrecision
  else
    let zerosToAdd := Precision - prec in
    Ok (tenInt ^ zerosToAdd).

(** The table filled by [init]. *)
Definition precisionMultipliers : list Z :=
  map (fun i => tenInt ^ (Precision - Z.of_nat i)) (seq 0 (Z.to_nat Precision + 1)).

Definition precisionMultiplier (prec : Z) : outcome Z :=
  if Precision <? prec then Panic errTooMuchPrecision
  else if prec <? 0 then Panic "index out of range"
  else match precisionMultipliers !! Z.to_nat prec with
       | Some m => Ok m
       | None => Panic "index out of range"
       end.

(** ** Constructors *)

Definition ZeroDec : Dec := zeroInt.
Definition OneDec : Dec := precisionReuse.
Definition SmallestDec : Dec := oneInt.

Definition NewDecWithPrec (i prec : Z) : outcome Dec :=
  let! m := precisionMultiplier prec in Ok (i * m).

Definition NewDecFromBigIntWithPrec (i prec : Z) : outcome Dec :=
  let! m := precisionMultiplier prec in Ok (i * m).

Definition NewDecFromIntWithPrec (i prec : Z) : outcome Dec :=
  let! m := precisionMultiplier prec in Ok (i * m).

(** The constructors for whole numbers call the ones above with [prec = 0],
    where the multiplier is 10^18 ([NewDec_prec] and the lemmas after it). *)
Definition NewDec (i : Z) : Dec := i * precisionReuse.
Definition NewDecFromBigInt (i : Z) : Dec := i * precisionReuse.
Definition NewDecFromInt (i : Z) : Dec := i * precisionReuse.

Definition Copy (d : NDec) : NDec :=
  match d with None => None | Some i => Some i end.

(** ** Predicates *)

Definition IsNil (d : NDec) : bool := match d with None => true | Some _ => false end.
Definition IsZero (d : Dec) : bool := Big.Sign d =? 0.
Definition IsNegative (d : Dec) : bool := Big.Sign d =? -1.
Definition IsPositive (d : Dec) : bool := Big.Sign d =? 1.
Definition Equal (d d2 : Dec) : bool := d =? d2.
Definition GT (d d2 : Dec) : bool := d2 <? d.
Definition GTE (d d2 : Dec) : bool := d2 <=? d.
Definition LT (d d2 : Dec) : bool := d <? d2.
Definition LTE (d d2 : Dec) : bool := d <=? d2.
Definition Neg (d : Dec) : Dec := - d.
Definition Abs (d : Dec) : Dec := Z.abs d.

(** ** Rounding *)

(** The part of [chopPrecisionAndRound] after the sign test. *)
Definition chopPrecisionAndRound_pos (d : Z) : Z :=
  let quo := Z.quot d precisionReuse in
  let rem := Z.rem d precisionReuse in
  if rem =? 0 then quo
  else match rem ?= fivePrecision with
       | Lt => quo
       | Gt => quo + oneInt
       | Eq => if negb (Z.testbit quo 0) then quo else quo + oneInt
       end.

Definition chopPrecisionAndRound (d : Z) : Z :=
  if Big.Sign d =? -1 then - chopPrecisionAndRound_pos (- d)
  else chopPrecisionAndRound_pos d.

Definition chopPrecisionAndTruncate (d : Z) : Z := Z.quot d precisionReuse.

Definition chopPrecisionAndRoundUp (d : Z) : Z :=
  if Big.Sign d =? -1 then - chopPrecisionAndTruncate (- d)
  else
    let quo := Z.quot d precisionReuse in
    let rem := Z.rem d precisionReuse in
    if rem =? 0 then quo else quo + oneInt.

Definition chopPrecisionAndRoundNonMutative (d : Z) : Z :=
  let tmp := d in chopPrecisionAndRound tmp.
Definition chopPrecisionAndTruncateNonMutative (d : Z) : Z :=
  let tmp := d in chopPrecisionAndTruncate tmp.

(** ** Arithmetic *)

(** The size test every checked operation ends with. *)
Definition checked (res : Z) : outcome Dec :=
  if 255 + DecimalPrecisionBits <? Big.BitLen res then Panic "Int overflow" else Ok res.

Definition Add (d d2 : Dec) : outcome Dec := let res := d + d2 in checked res.
Definition Sub (d d2 : Dec) : outcome Dec := let res := d - d2 in checked res.

Definition Mul (d d2 : Dec) : outcome Dec :=
  let mul := d * d2 in
  let chopped := chopPrecisionAndRound mul in
  checked chopped.

Definition MulTruncate (d d2 : Dec) : outcome Dec :=
  let mul := d * d2 in
  let chopped := chopPrecisionAndTruncate mul in
  checked chopped.

Definition MulInt (d i : Z) : outcome Dec := let mul := d * i in checked mul.
Definition MulInt64 (d i : Z) : outcome Dec := let mul := d * i in checked mul.

(** [Div] of the embedded integers, with no scaling. *)
Definition Div (d d2 : Dec) : outcome Dec := Big.Div d d2.

Definition Quo (d d2 : Dec) : outcome Dec :=
  let mul := d * precisionReuse * precisionReuse in
  let! quo := Big.Quo mul d2 in
  let chopped := chopPrecisionAndRound quo in
  checked chopped.

Definition QuoTruncate (d d2 : Dec) : outcome Dec :=
  let mul := d * precisionReuse * precisionReuse in
  let! quo := Big.Quo mul d2 in
  let chopped := chopPrecisionAndTruncate quo in
  checked chopped.

Definition QuoRoundUp (d d2 : Dec) : outcome Dec :=
  let mul := d * precisionReuse * precisionReuse in
  let! quo := Big.Quo mul d2 in
  let chopped := chopPrecisionAndRoundUp quo in
  checked chopped.

Definition QuoInt (d i : Z) : outcome Dec := Big.Quo d i.
Definition QuoInt64 (d i : Z) : outcome Dec := Big.Quo d i.

Definition IsInteger (d : Dec) : bool := Big.Sign (Z.rem d precisionReuse) =? 0.

(** ** Conversions to integers *)

Definition errInt64Bound : string := "Int64() out of bound".

Definition RoundInt64 (d : Dec) : outcome Z :=
  let chopped := chopPrecisionAndRoundNonMutative d in
  if negb (Big.IsInt64 chopped) then Panic errInt64Bound else Ok (Big.Int64 chopped).
Definition RoundInt (d : Dec) : Z := chopPrecisionAndRoundNonMutative d.

Definition TruncateInt64 (d : Dec) : outcome Z :=
  let chopped := chopPrecisionAndTruncateNonMutative d in
  if negb (Big.IsInt64 chopped) then Panic errInt64Bound else Ok (Big.Int64 chopped).
Definition TruncateInt (d : Dec) : Z := chopPrecisionAndTruncateNonMutative d.
Definition TruncateDec (d : Dec) : Dec :=
  NewDecFromBigInt (chopPrecisionAndTruncateNonMutative d).

Definition Ceil (d : Dec) : Dec :=
  let tmp := d in
  let quo := Z.quot tmp precisionReuse in
  let rem := Z.rem tmp precisionReuse in
  if rem =? zeroInt then NewDecFromBigInt quo
  else if Big.Sign rem =? -1 then NewDecFromBigInt quo
  else NewDecFromBigInt (quo + oneInt).

(** ** Helpers *)

(** [d2s[i]] is in range since the lengths were compared first. *)
Fixpoint DecsEqual_loop (d1s d2s : list Dec) : bool :=
  match d1s, d2s with
  | d1 :: d1s', d2 :: d2s' => if negb (Equal d1 d2) then false else DecsEqual_loop d1s' d2s'
  | _, _ => true
  end.
Definition DecsEqual (d1s d2s : list Dec) : bool :=
  if negb (Nat.eqb (length d1s) (length d2s)) then false else DecsEqual_loop d1s d2s.

Definition MinDec (d1 d2 : Dec) : Dec := if LT d1 d2 then d1 else d2.
Definition MaxDec (d1 d2 : Dec) : Dec := if LT d1 d2 then d2 else d1.

(** * Facts *)

#[local] Abbreviation P := precisionReuse.

Lemma precisionReuse_val : precisionReuse = 1000000000000000000.
Proof. reflexivity. Qed.
Lemma fivePrecision_val : fivePrecision = 500000000000000000.
Proof. reflexivity. Qed.
Lemma precisionReuse_pos : 0 < precisionReuse.
Proof. by rewrite precisionReuse_val. Qed.
#[export] Hint Resolve precisionReuse_pos : go.
#[global] Opaque precisionReuse fivePrecision.

(** The multipliers of the table are the powers that [init] stores. *)
Lemma precisionMultiplier_calc prec :
  0 <= prec -> precisionMultiplier prec = calcPrecisionMultiplier prec.
Proof.
  intros Hp. unfold precisionMultiplier, calcPrecisionMultiplier.
  destruct (Z.ltb_spec Precision prec) as [|Hle]; [done|].
  destruct (Z.ltb_spec prec 0); [lia|]. unfold precisionMultipliers, Precision in *.
  rewrite list_lookup_fmap, lookup_seq_lt by lia. simpl. by rewrite Z2Nat.id.
Qed.

Lemma NewDec_prec i : NewDecWithPrec i 0 = Ok (NewDec i).
Proof. reflexivity. Qed.
Lemma NewDecFromBigInt_prec i : NewDecFromBigIntWithPrec i 0 = Ok (NewDecFromBigInt i).
Proof. reflexivity. Qed.
Lemma NewDecFromInt_prec i : NewDecFromIntWithPrec i 0 = Ok (NewDecFromInt i).
Proof. reflexivity. Qed.
Lemma NewDecWithPrec_18 i : NewDecFromBigIntWithPrec i 18 = Ok i.
Proof. unfold NewDecFromBigIntWithPrec. simpl. by rewrite Z.mul_1_r. Qed.

(** ** The size test *)

Definition fits (x : Z) : Prop := Z.abs x < 2 ^ 315.

Lemma checked_spec x : checked x = if Z.abs x <? 2 ^ 315 then Ok x else Panic "Int overflow".
Proof.
  unfold checked, DecimalPrecisionBits. change (255 + 60) with 315.
  destruct (Z.ltb_spec 315 (Big.BitLen x)) as [H|H];
    rewrite ?Big.BitLen_le in H by lia.
  - destruct (Z.ltb_spec (Z.abs x) (2 ^ 315)) as [H'|]; [|done].
    apply Big.BitLen_le in H'; lia.
  - by destruct (Z.ltb_spec (Z.abs x) (2 ^ 315)); [|lia].
Qed.

Lemma checked_Ok x d : checked x = Ok d <-> d = x /\ fits x.
Proof.
  rewrite checked_spec. unfold fits. destruct (Z.ltb_spec (Z.abs x) (2 ^ 315)).
  - split; [by intros [= ->]|by intros [-> _]].
  - split; [done|]. intros []; lia.
Qed.
Lemma checked_fits x : fits x -> checked x = Ok x.
Proof. intros. by apply checked_Ok. Qed.

Lemma Add_Ok a b d : Add a b = Ok d <-> d = a + b /\ fits (a + b).
Proof. apply checked_Ok. Qed.
Lemma Sub_Ok a b d : Sub a b = Ok d <-> d = a - b /\ fits (a - b).
Proof. apply checked_Ok. Qed.
(** The checked operations panic on overflow; they never return an error. *)
Lemma checked_not_Err x e : checked x <> Err e.
Proof. rewrite checked_spec. by case_match. Qed.
Lemma Add_not_Err a b e : Add a b <> Err e.
Proof. apply checked_not_Err. Qed.
Lemma Sub_not_Err a b e : Sub a b <> Err e.
Proof. apply checked_not_Err. Qed.
#[global] Opaque Add Sub.

Lemma Add_fits a b : fits (a + b) -> Add a b = Ok (a + b).
Proof. intros. by apply Add_Ok. Qed.
Lemma Sub_fits a b : fits (a - b) -> Sub a b = Ok (a - b).
Proof. intros. by apply Sub_Ok. Qed.

(** ** Rounding *)

(** [nearest x d]: [x] units of 10^18 are as close to [d] as units can be,
    and on a tie [x] is even. *)
Definition nearest (x d : Z) : Prop :=
  2 * Z.abs (x * P - d) <= P /\ (2 * Z.abs (x * P - d) = P -> Z.even x = true).

Lemma nearest_unique x y d : nearest x d -> nearest y d -> x = y.
Proof.
  unfold nearest. rewrite precisionReuse_val. intros [Hx Ex] [Hy Ey].
  assert (x = y \/ x = y + 1 \/ y = x + 1) as [->|[->| ->]] by lia; [done| |].
  - assert (Z.even y = true) by (apply Ey; lia).
    assert (Z.even (y + 1) = true) as E by (apply Ex; lia).
    rewrite Z.even_add in E. by rewrite H in E.
  - assert (Z.even x = true) by (apply Ex; lia).
    assert (Z.even (x + 1) = true) as E by (apply Ey; lia).
    rewrite Z.even_add in E. by rewrite H in E.
Qed.

Lemma nearest_opp x d : nearest x d -> nearest (- x) (- d).
Proof.
  unfold nearest. rewrite Z.even_opp.
  replace (- x * P - - d) with (- (x * P - d)) by lia. by rewrite Z.abs_opp.
Qed.

Lemma quot_rem_P d : 0 <= d ->
  d = P * Z.quot d P + Z.rem d P /\ 0 <= Z.rem d P < P /\ 0 <= Z.quot d P.
Proof.
  intros. pose proof precisionReuse_pos. pose proof (Z.quot_rem' d P).
  pose proof (Z.rem_bound_pos d P). pose proof (Z.quot_pos d P). lia.
Qed.

Lemma chopPrecisionAndRound_pos_nearest d : 0 <= d -> nearest (chopPrecisionAndRound_pos d) d.
Proof.
  intros Hd. destruct (quot_rem_P d Hd) as (E & R & Q).
  unfold chopPrecisionAndRound_pos, nearest, oneInt.
  set (q := Z.quot d P) in *. set (r := Z.rem d P) in *. clearbody q r.
  rewrite Z.bit0_odd, Z.negb_odd, fivePrecision_val.
  rewrite precisionReuse_val in *. subst d.
  destruct (Z.eqb_spec r 0); [lia|].
  destruct (Z.compare_spec r 500000000000000000); [|lia|lia].
  destruct (Z.even q) eqn:Eq; [split; [lia|done]|]. split; [lia|]. intros _.
  rewrite Z.even_add, Eq. done.
Qed.

Lemma chopPrecisionAndRound_nearest d : nearest (chopPrecisionAndRound d) d.
Proof.
  unfold chopPrecisionAndRound, Big.Sign. destruct (Z.eqb_spec (Z.sgn d) (-1)) as [H|H].
  - rewrite <- (Z.opp_involutive d) at 2. apply nearest_opp, chopPrecisionAndRound_pos_nearest. lia.
  - apply chopPrecisionAndRound_pos_nearest. lia.
Qed.

Lemma chopPrecisionAndRound_exact x : chopPrecisionAndRound (x * P) = x.
Proof.
  eapply nearest_unique; [apply chopPrecisionAndRound_nearest|].
  unfold nearest. pose proof precisionReuse_pos. split; [lia|].
  rewrite Z.sub_diag. simpl. lia.
Qed.

(** Rounding is monotone. *)
Lemma chopPrecisionAndRound_mono a b :
  a <= b -> chopPrecisionAndRound a <= chopPrecisionAndRound b.
Proof.
  intros Hab. pose proof (chopPrecisionAndRound_nearest a) as Ha.
  pose proof (chopPrecisionAndRound_nearest b) as Hb.
  set (x := chopPrecisionAndRound a) in *. set (y := chopPrecisionAndRound b) in *. clearbody x y.
  destruct (Z.le_gt_cases x y) as [|Hgt]; [done|]. exfalso.
  destruct Ha as [Ha Ea], Hb as [Hb Eb]. rewrite precisionReuse_val in *.
  assert (x = y + 1) as -> by lia.
  assert (Z.even y = true) as Ey by (apply Eb; lia).
  assert (Z.even (y + 1) = true) as Ex by (apply Ea; lia).
  rewrite Z.even_add, Ey in Ex. done.
Qed.

Lemma chopPrecisionAndRound_nonneg a : 0 <= a -> 0 <= chopPrecisionAndRound a.
Proof.
  intros H. rewrite <- (chopPrecisionAndRound_exact 0). by apply chopPrecisionAndRound_mono.
Qed.

(** ** Multiplication and division *)

Lemma Mul_Ok a b c :
  Mul a b = Ok c <-> c = chopPrecisionAndRound (a * b) /\ fits c.
Proof. unfold Mul. rewrite checked_Ok. split; intros [-> ?]; done. Qed.

Lemma Quo_Ok a b c :
  Quo a b = Ok c <->
  b <> 0 /\ c = chopPrecisionAndRound (Z.quot (a * P * P) b) /\ fits c.
Proof.
  unfold Quo, Big.Quo. destruct (Z.eqb_spec b 0) as [->|Hb]; simpl.
  - split; [done|]. by intros [].
  - rewrite checked_Ok. split; [intros [-> ?]; done|intros (_ & -> & ?); done].
Qed.

Lemma Mul_nonneg a b c : 0 <= a -> 0 <= b -> Mul a b = Ok c -> 0 <= c.
Proof. intros ?? [-> _]%Mul_Ok. apply chopPrecisionAndRound_nonneg. nia. Qed.

Lemma Quo_nonneg a b c : 0 <= a -> 0 < b -> Quo a b = Ok c -> 0 <= c.
Proof.
  intros ?? (_ & -> & _)%Quo_Ok. apply chopPrecisionAndRound_nonneg, Z.quot_pos; [|done].
  pose proof precisionReuse_pos. nia.
Qed.

(** [1 * a = a], [a / 1 = a], [a / a = 1]. *)
Lemma Mul_OneDec_r a c : Mul a OneDec = Ok c -> c = a.
Proof. intros [-> _]%Mul_Ok. apply chopPrecisionAndRound_exact. Qed.
Lemma Quo_OneDec a c : Quo a OneDec = Ok c -> c = a.
Proof.
  intros (_ & -> & _)%Quo_Ok. unfold OneDec. rewrite Z.quot_mul by (pose proof precisionReuse_pos; lia).
  apply chopPrecisionAndRound_exact.
Qed.
Lemma Quo_self a c : Quo a a = Ok c -> c = OneDec.
Proof.
  intros (Ha & -> & _)%Quo_Ok. replace (a * P * P) with (P * P * a) by lia.
  rewrite Z.quot_mul by done. apply chopPrecisionAndRound_exact.
Qed.

(** Fractions stay fractions: when these operations cannot fail. *)
Lemma fits_le a b : 0 <= a <= b -> fits b -> fits a.
Proof. unfold fits. lia. Qed.

Lemma fits_OneDec : fits OneDec.
Proof. unfold fits, OneDec. rewrite precisionReuse_val. by vm_compute. Qed.

Lemma Quo_intro a b :
  b <> 0 -> fits (chopPrecisionAndRound (Z.quot (a * P * P) b)) ->
  Quo a b = Ok (chopPrecisionAndRound (Z.quot (a * P * P) b)).
Proof. intros. by apply Quo_Ok. Qed.

Lemma Quo_fraction a b : 0 <= a <= b -> 0 < b -> exists c, Quo a b = Ok c /\ 0 <= c <= OneDec.
Proof.
  intros Ha Hb. pose proof precisionReuse_pos as HP.
  assert (0 <= chopPrecisionAndRound (Z.quot (a * P * P) b) <= OneDec) as Hc.
  { split; [apply chopPrecisionAndRound_nonneg, Z.quot_pos; nia|].
    rewrite <- (chopPrecisionAndRound_exact OneDec). unfold OneDec.
    apply chopPrecisionAndRound_mono. apply Z.quot_le_upper_bound; [done|]. nia. }
  eexists. split; [|exact Hc]. apply Quo_intro; [lia|]. eapply fits_le; [exact Hc|apply fits_OneDec].
Qed.

Lemma Quo_shrink a n : 0 <= a -> OneDec <= n -> fits a -> exists c, Quo a n = Ok c /\ 0 <= c <= a.
Proof.
  intros Ha Hn Hf. pose proof precisionReuse_pos as HP. unfold OneDec in Hn.
  assert (0 <= chopPrecisionAndRound (Z.quot (a * P * P) n) <= a) as Hc.
  { split; [apply chopPrecisionAndRound_nonneg, Z.quot_pos; nia|].
    etrans; [|apply Z.eq_le_incl, (chopPrecisionAndRound_exact a)].
    apply chopPrecisionAndRound_mono. apply Z.quot_le_upper_bound; [lia|]. nia. }
  eexists. split; [|exact Hc]. apply Quo_intro; [lia|]. by eapply fits_le.
Qed.

Lemma Mul_fraction a b : 0 <= a -> 0 <= b <= OneDec -> fits a -> exists c, Mul a b = Ok c /\ 0 <= c <= a.
Proof.
  intros Ha Hb Hf. pose proof precisionReuse_pos as HP. unfold OneDec in Hb.
  assert (0 <= chopPrecisionAndRound (a * b) <= a) as Hc.
  { split; [apply chopPrecisionAndRound_nonneg; nia|].
    etrans; [|apply Z.eq_le_incl, (chopPrecisionAndRound_exact a)].
    apply chopPrecisionAndRound_mono. nia. }
  eexists. split; [|exact Hc]. apply Mul_Ok. split; [done|]. by eapply fits_le.
Qed.

(** Truncation loses less than one unit. *)
Lemma Zquot_error x y : y <> 0 -> Z.abs (Z.quot x y * y - x) < Z.abs y.
Proof.
  intros Hy. pose proof (Z.quot_rem' x y). pose proof (Z.rem_bound_abs x y Hy). lia.
Qed.

(** ** Properties *)

(** C33: [Mul] is the exact product rounded to the nearest 10^-18, ties to the
    even neighbour (banker's rounding), for every pair of signs; it panics
    exactly when that rounded product does not fit 315 bits. *)
Theorem Mul_bankers a b :
  exists c, nearest c (a * b) /\
    Mul a b = if Z.abs c <? 2 ^ 315 then Ok c else Panic "Int overflow".
Proof.
  exists (chopPrecisionAndRound (a * b)). split; [apply chopPrecisionAndRound_nearest|].
  unfold Mul. apply checked_spec.
Qed.

(** [Quo] panics on a zero divisor; otherwise a returned quotient [c]
    of [a] by [b] is within half a unit, plus the 10^-18th of a unit that the
    first truncation may lose, of the exact quotient, and it is exact whenever
    the exact quotient is a multiple of 10^-18. *)
Theorem Quo_error_bound a b :
  match Quo a b with
  | Ok c => b <> 0 /\ P * (2 * Z.abs (c * b - a * P)) < (P + 2) * Z.abs b /\
            (forall x, a * P = x * b -> c = x)
  | Err _ => False
  | Panic w => if b =? 0 then w = "division by zero" else w = "Int overflow"
  end.
Proof.
  destruct (Quo a b) as [c|e|w] eqn:E.
  - apply Quo_Ok in E as (Hb & -> & _). split_and!; [done| |].
    + pose proof (Zquot_error (a * P * P) b Hb) as H1.
      pose proof (chopPrecisionAndRound_nearest (Z.quot (a * P * P) b)) as [H2 _].
      set (q := Z.quot (a * P * P) b) in *. set (c := chopPrecisionAndRound q) in *.
      clearbody q c. pose proof precisionReuse_pos as HP. set (p := P) in *. clearbody p.
      assert (2 * Z.abs (c * p * b - q * b) <= p * Z.abs b) as H3.
      { replace (c * p * b - q * b) with ((c * p - q) * b) by lia. rewrite Z.abs_mul. nia. }
      replace (p * (2 * Z.abs (c * b - a * p))) with (2 * Z.abs (c * p * b - a * p * p)); [lia|].
      replace (c * p * b - a * p * p) with (p * (c * b - a * p)) by lia.
      rewrite Z.abs_mul, (Z.abs_eq p) by lia. lia.
    + intros x Hx. rewrite Hx. replace (x * b * P) with (x * P * b) by lia.
      rewrite Z.quot_mul by done. apply chopPrecisionAndRound_exact.
  - revert E. unfold Quo, Big.Quo. destruct (b =? 0); simpl; [done|].
    rewrite checked_spec. by case_match.
  - revert E. unfold Quo, Big.Quo. destruct (b =? 0); simpl; [by intros [= <-]|].
    rewrite checked_spec. case_match; [done|by intros [= <-]].
Qed.

(** [QuoRoundUp] truncates at 10^-36 before it rounds up, so a positive
    quotient below that is rounded down to 0. *)
Lemma QuoRoundUp_not_up :
  exists d d2, 0 < d /\ 0 < d2 /\ QuoRoundUp d d2 = Ok 0.
Proof. exists 1, (10 ^ 37). split_and!; [lia|lia|]. vm_compute. reflexivity. Qed.

(** [Ceil] is the least whole decimal that is not below its argument. *)
Lemma Ceil_spec d : exists n, Ceil d = n * P /\ d <= n * P < d + P.
Proof.
  pose proof precisionReuse_pos as HP. pose proof (Z.quot_rem' d P) as E.
  pose proof (Z.rem_bound_abs d P ltac:(lia)) as B.
  unfold Ceil, zeroInt, oneInt, NewDecFromBigInt, Big.Sign.
  set (q := Z.quot d P) in *. set (r := Z.rem d P) in *. clearbody q r.
  destruct (Z.eqb_spec r 0); [exists q; lia|].
  destruct (Z.eqb_spec (Z.sgn r) (-1)); [exists q; lia|]. exists (q + 1). lia.
Qed.

Lemma MinDec_spec a b : MinDec a b = Z.min a b.
Proof. unfold MinDec, LT. destruct (Z.ltb_spec a b); lia. Qed.
Lemma MaxDec_spec a b : MaxDec a b = Z.max a b.
Proof. unfold MaxDec, LT. destruct (Z.ltb_spec a b); lia. Qed.
Lemma TruncateInt_spec d : TruncateInt d = Z.quot d P.
Proof. done. Qed.
