(* ===== verification/DecText.v ===== *)
(** * [numeric/decimal.go]: decimals as text

    [NewDecFromStr], [String] and [IsZeroes], with the parts of the standard
    library they call: [strings.Split], [big.Int.SetString] in base 10,
    [big.Int.MarshalText] and the zero padding of [fmt.Sprintf].  Go strings
    and byte slices are lists of bytes here ([list ascii]); the functions that
    take or return a Go [string] do so with Rocq's [string]. *)

From Stdlib Require Import Ascii.
From Stdlib Require String.
From S2P Require Import Prelude Dec.
#[local] Abbreviation list_ascii_of_string := Stdlib.Strings.String.list_ascii_of_string.
#[local] Abbreviation string_of_list_ascii := Stdlib.Strings.String.string_of_list_ascii.

#[local] Open Scope char_scope.
#[local] Open Scope Z_scope.

(** ** Decimal digits *)

(** Least significant digit first; the fuel is the number of binary digits. *)
Fixpoint digits_go (fuel : nat) (n : Z) : list Z :=
  match fuel with
  | O => []
  | S f => if n <? 10 then [n] else n mod 10 :: digits_go f (n / 10)
  end.
Definition digits (n : Z) : list Z := reverse (digits_go (S (Z.to_nat (Z.log2 n))) n).

Definition digit_char (d : Z) : ascii := ascii_of_N (Z.to_N (48 + d)).
Definition char_digit (c : ascii) : option Z :=
  let v := Z.of_N (N_of_ascii c) - 48 in
  if (0 <=? v) && (v <=? 9) then Some v else None.

(** Value of a list of digits, most significant first. *)
Definition value (ds : list Z) : Z := foldl (fun acc d => acc * 10 + d) 0 ds.

(** [big.Int.MarshalText] for [n >= 0]. *)
Definition MarshalText (n : Z) : list ascii := map digit_char (digits n).

(** [big.Int.SetString(s, 10)]: an optional sign, then one or more digits and
    nothing else. *)
Definition parse_digits (s : list ascii) : option Z :=
  match s with
  | [] => None
  | _ => value <$> mapM char_digit s
  end.
Definition SetString10 (s : list ascii) : option Z :=
  match s with
  | "-" :: r => Z.opp <$> parse_digits r
  | "+" :: r => parse_digits r
  | _ => parse_digits s
  end.

(** [strings.Split(s, ".")] *)
Fixpoint Split (sep : ascii) (s : list ascii) : list (list ascii) :=
  match s with
  | [] => [[]]
  | c :: r =>
      if bool_decide (c = sep) then [] :: Split sep r
      else match Split sep r with
           | p :: ps => (c :: p) :: ps
           | [] => [[c]]
           end
  end.

(** ** The source's functions *)

Definition errEmpty : string := "decimal string is empty".
Definition errBadLength : string := "bad decimal length".
Definition errPeriods : string := "too many periods to be a decimal string".
Definition errPrecision : string := "too much precision".
Definition errConversion : string := "bad string to integer conversion".

(** [NewDecFromStr] from the split on: [str] has its sign removed. *)
Definition NewDecFromStr_unsigned (neg : bool) (str : list ascii) : outcome Dec :=
  let strs := Split "." str in
  let combinedStr := default [] (strs !! 0%nat) in
  let! lc :=
    match strs with
    | [_; frac] =>
        let lenDecs := length frac in
        if (Nat.eqb lenDecs 0) || (Nat.eqb (length combinedStr) 0) then Err errBadLength
        else Ok (lenDecs, combinedStr ++ frac)
    | _ => if Nat.ltb 2 (length strs) then Err errPeriods else Ok (0%nat, combinedStr)
    end in
  let '(lenDecs, combinedStr) := lc in
  if Precision <? Z.of_nat lenDecs then Err errPrecision
  else
    let zerosToAdd := Z.to_nat (Precision - Z.of_nat lenDecs) in
    let zeros := replicate zerosToAdd "0" in
    let combinedStr := combinedStr ++ zeros in
    match SetString10 combinedStr with
    | None => Err errConversion
    | Some combined => Ok (if neg then - combined else combined)
    end.

Definition NewDecFromStr (s : string) : outcome Dec :=
  match list_ascii_of_string s with
  | [] => Err errEmpty
  | c :: r =>
      let neg := bool_decide (c = "-") in
      let str := if neg then r else c :: r in
      match str with
      | [] => Err errEmpty
      | _ => NewDecFromStr_unsigned neg str
      end
  end.

Definition MustNewDecFromStr (s : string) : outcome Dec :=
  match NewDecFromStr s with
  | Err e => Panic e
  | r => r
  end.

Definition IsZeroes (b : list ascii) : bool := forallb (fun c => bool_decide (c = "0")) b.

(** The loop [for len(bzInt) > 0 { if !IsZeroes(bzInt) { append bzInt[0] }; bzInt = bzInt[1:] }]. *)
Fixpoint final_digits (bzInt : list ascii) : list ascii :=
  match bzInt with
  | [] => []
  | c :: r => if negb (IsZeroes bzInt) then c :: final_digits r else final_digits r
  end.

(** [String] between the sign tests: [d] is not negative. *)
Definition DecString_unsigned (d : Dec) : list ascii :=
  let bzInt := MarshalText d in
  let inputSize := length bzInt in
  let prec := Z.to_nat Precision in
  if Nat.leb inputSize prec then
    (* case 1, purely decimal *)
    "0" :: (if negb (IsZeroes bzInt) then
              "." :: replicate (prec - inputSize) "0" ++ final_digits bzInt
            else [])
  else
    let decPointPlace := (inputSize - prec)%nat in
    take decPointPlace bzInt
    ++ (if negb (IsZeroes (drop decPointPlace bzInt)) then ["."] else [])
    ++ final_digits (drop decPointPlace bzInt).

Definition DecString (d : Dec) : string :=
  let isNeg := IsNegative d in
  let d := if isNeg then Neg d else d in
  let bzStr := DecString_unsigned d in
  string_of_list_ascii (if isNeg then "-" :: bzStr else bzStr).

Example DecString_ex1 : DecString 1500000000000000000 = "1.5"%string.
Proof. vm_compute. reflexivity. Qed.
Example DecString_ex2 : DecString (-10) = "-0.00000000000000001"%string.
Proof. vm_compute. reflexivity. Qed.
Example NewDecFromStr_ex : NewDecFromStr "-123.456" = Ok (-123456000000000000000).
Proof. vm_compute. reflexivity. Qed.

(** * Facts *)

Definition is_digit (d : Z) : Prop := 0 <= d <= 9.

Lemma char_digit_char d : is_digit d -> char_digit (digit_char d) = Some d.
Proof.
  intros [H1 H2].
  assert (d = 0 \/ d = 1 \/ d = 2 \/ d = 3 \/ d = 4 \/ d = 5 \/ d = 6 \/ d = 7 \/ d = 8 \/ d = 9)
    as Hd by lia.
  repeat destruct Hd as [->|Hd]; try reflexivity. by subst.
Qed.

Lemma digit_char_not c d : is_digit d -> c ∈ ["."; "-"; "+"] -> digit_char d <> c.
Proof.
  intros Hd Hc E. apply char_digit_char in Hd. rewrite E in Hd.
  rewrite !elem_of_cons, elem_of_nil in Hc.
  destruct Hc as [->|[->|[->|[]]]]; discriminate Hd.
Qed.

Lemma value_snoc l d : value (l ++ [d]) = value l * 10 + d.
Proof. unfold value. by rewrite foldl_app. Qed.

Lemma value_app l1 l2 : value (l1 ++ l2) = value l1 * 10 ^ Z.of_nat (length l2) + value l2.
Proof.
  induction l2 as [|d l2 IH] using rev_ind.
  - rewrite app_nil_r. simpl. unfold value at 3. simpl. lia.
  - rewrite app_assoc, !value_snoc, IH, length_app. simpl.
    rewrite Nat2Z.inj_add, Z.pow_add_r by lia. simpl. lia.
Qed.

Lemma value_zeros k : value (replicate k 0) = 0.
Proof.
  induction k as [|k IH]; [done|].
  rewrite replicate_S_end, value_snoc, IH. done.
Qed.

Lemma digits_go_digit fuel n : 0 <= n -> Forall is_digit (digits_go fuel n).
Proof.
  revert n; induction fuel as [|f IH]; intros n Hn; simpl; [constructor|].
  destruct (Z.ltb_spec n 10).
  - repeat constructor; lia.
  - constructor.
    + pose proof (Z.mod_pos_bound n 10). unfold is_digit. lia.
    + apply IH. apply Z.div_pos; lia.
Qed.

Lemma digits_go_value fuel n :
  0 <= n -> n < 2 ^ Z.of_nat fuel -> value (reverse (digits_go fuel n)) = n.
Proof.
  revert n; induction fuel as [|f IH]; intros n Hn Hf; simpl.
  - simpl in Hf. assert (n = 0) as -> by lia. done.
  - destruct (Z.ltb_spec n 10); [done|].
    rewrite reverse_cons, value_snoc, IH.
    + pose proof (Z.div_mod n 10). lia.
    + apply Z.div_pos; lia.
    + rewrite Nat2Z.inj_succ, Z.pow_succ_r in Hf by lia.
      pose proof (Z.div_mod n 10). pose proof (Z.mod_pos_bound n 10).
      assert (0 < 2 ^ Z.of_nat f) by (apply Z.pow_pos_nonneg; lia). lia.
Qed.

Lemma digits_value n : 0 <= n -> value (digits n) = n.
Proof.
  intros Hn. apply digits_go_value; [done|].
  rewrite Nat2Z.inj_succ, Z2Nat.id by apply Z.log2_nonneg.
  destruct (Z.eq_dec n 0) as [->|]; [done|]. apply Z.log2_spec. lia.
Qed.
Lemma digits_digit n : 0 <= n -> Forall is_digit (digits n).
Proof. intros. apply Forall_reverse. by apply digits_go_digit. Qed.
Lemma digits_nonempty n : digits n <> [].
Proof.
  unfold digits. intros H%(f_equal length). rewrite length_reverse in H. revert H.
  simpl. by case_match.
Qed.

(** ** Text of digits *)

Definition text (ds : list Z) : list ascii := map digit_char ds.
Lemma text_cons d ds : text (d :: ds) = digit_char d :: text ds.
Proof. done. Qed.
Lemma text_app l1 l2 : text (l1 ++ l2) = text l1 ++ text l2.
Proof. apply map_app. Qed.
Lemma text_length ds : length (text ds) = length ds.
Proof. apply length_map. Qed.
Lemma text_zeros k : text (replicate k 0) = replicate k "0".
Proof. induction k as [|k IH]; [done|]. cbn [replicate]. by rewrite text_cons, IH. Qed.

Lemma parse_text ds : ds <> [] -> Forall is_digit ds -> parse_digits (text ds) = Some (value ds).
Proof.
  intros Hne Hd.
  assert (mapM char_digit (text ds) = Some ds) as E.
  { apply mapM_Some_2, Forall2_fmap_l, Forall_Forall2_diag.
    eapply Forall_impl; [done|]. intros. by apply char_digit_char. }
  unfold parse_digits. destruct ds as [|d ds]; [done|]. by rewrite E.
Qed.

Lemma SetString10_text ds :
  ds <> [] -> Forall is_digit ds -> SetString10 (text ds) = Some (value ds).
Proof.
  intros Hne Hd. rewrite <- parse_text by done. destruct ds as [|d ds]; [done|].
  apply Forall_cons in Hd as [Hd _].
  pose proof (digit_char_not "-" d Hd ltac:(set_solver)).
  pose proof (digit_char_not "+" d Hd ltac:(set_solver)).
  simpl. destruct (digit_char d) as [[] [] [] [] [] [] [] []]; done.
Qed.

Lemma Split_no_sep ds : Forall is_digit ds -> Split "." (text ds) = [text ds].
Proof.
  induction 1 as [|d ds Hd _ IH]; [done|]. rewrite text_cons. cbn [Split].
  rewrite bool_decide_false by (apply digit_char_not; [done|set_solver]). by rewrite IH.
Qed.

Lemma Split_one_sep ds1 ds2 :
  Forall is_digit ds1 -> Forall is_digit ds2 ->
  Split "." (text ds1 ++ "." :: text ds2) = [text ds1; text ds2].
Proof.
  intros H1 H2. induction H1 as [|d ds1 Hd _ IH].
  - cbn [text map app Split]. by rewrite bool_decide_true, Split_no_sep.
  - rewrite text_cons. cbn [app Split].
    rewrite bool_decide_false by (apply digit_char_not; [done|set_solver]). by rewrite IH.
Qed.

(** ** Trailing zeros *)

Fixpoint strip (ds : list Z) : list Z :=
  match ds with
  | [] => []
  | d :: r => if forallb (Z.eqb 0) ds then strip r else d :: strip r
  end.

Lemma IsZeroes_text ds : Forall is_digit ds -> IsZeroes (text ds) = forallb (Z.eqb 0) ds.
Proof.
  unfold IsZeroes. induction 1 as [|d ds Hd _ IH]; [done|].
  rewrite text_cons. cbn [forallb]. rewrite IH. f_equal. destruct (Z.eqb_spec 0 d) as [<-|Hne]; [done|].
  apply bool_decide_false. intros E. apply char_digit_char in Hd. rewrite E in Hd.
  by injection Hd.
Qed.

Lemma final_digits_text ds : Forall is_digit ds -> final_digits (text ds) = text (strip ds).
Proof.
  induction 1 as [|d ds Hd Hds IH]; [done|].
  pose proof (IsZeroes_text (d :: ds) ltac:(by constructor)) as E.
  rewrite text_cons in *. cbn [final_digits strip]. rewrite E, IH.
  by destruct (forallb (Z.eqb 0) (d :: ds)).
Qed.

Lemma strip_digit ds : Forall is_digit ds -> Forall is_digit (strip ds).
Proof.
  induction 1; simpl; [constructor|]. case_match; [done|by constructor].
Qed.

Lemma forallb_zeros ds : forallb (Z.eqb 0) ds = true -> ds = replicate (length ds) 0.
Proof.
  induction ds as [|d ds IH]; [done|]. cbn [forallb length replicate].
  intros [Hd%Z.eqb_eq Hr]%andb_prop. by rewrite <- Hd, <- IH.
Qed.

Lemma strip_zeros ds : forallb (Z.eqb 0) ds = true -> strip ds = [].
Proof.
  induction ds as [|d ds IH]; [done|]. intros H. cbn [strip]. rewrite H. apply IH.
  simpl in H. by apply andb_prop in H as [].
Qed.

Lemma strip_spec ds :
  (length (strip ds) <= length ds)%nat /\
  strip ds ++ replicate (length ds - length (strip ds)) 0 = ds.
Proof.
  induction ds as [|d ds [IH1 IH2]]; [done|].
  destruct (forallb (Z.eqb 0) (d :: ds)) eqn:E.
  - rewrite (strip_zeros _ E). simpl length. split; [lia|].
    rewrite Nat.sub_0_r. symmetry. by apply forallb_zeros.
  - cbn [strip]. rewrite E. simpl. split; [lia|]. by f_equal.
Qed.

Lemma strip_nonempty ds : forallb (Z.eqb 0) ds = false -> strip ds <> [].
Proof.
  intros H E. pose proof (strip_spec ds) as [_ S]. rewrite E in S. simpl in S.
  rewrite <- S in H. clear -H.
  induction (length ds - 0)%nat as [|k IH]; [done|]. by apply IH.
Qed.

(** ** The round trip *)

(** What the parser makes of "<int digits>.<fraction digits>". *)
Lemma NewDecFromStr_unsigned_point neg ip fp :
  Forall is_digit ip -> Forall is_digit fp -> ip <> [] -> fp <> [] ->
  (length fp <= 18)%nat ->
  NewDecFromStr_unsigned neg (text ip ++ "." :: text fp) =
    Ok (let v := value (ip ++ fp ++ replicate (18 - length fp) 0) in if neg then - v else v).
Proof.
  intros Hi Hf Ni Nf Hlen. unfold NewDecFromStr_unsigned.
  rewrite Split_one_sep by done.
  cbn [lookup list_lookup default from_option id]. rewrite !text_length.
  destruct (Nat.eqb_spec (length fp) 0); [by destruct fp|].
  destruct (Nat.eqb_spec (length ip) 0); [by destruct ip|].
  cbn [orb mbind outcome_bind]. unfold Precision.
  destruct (Z.ltb_spec 18 (Z.of_nat (length fp))); [lia|].
  replace (Z.to_nat (18 - Z.of_nat (length fp))) with (18 - length fp)%nat by lia.
  rewrite <- text_zeros, <- app_assoc, <- !text_app, SetString10_text; [done| |].
  - by destruct ip.
  - by repeat apply Forall_app_2; [..|apply Forall_replicate; unfold is_digit; lia].
Qed.

Lemma NewDecFromStr_unsigned_int neg ip :
  Forall is_digit ip -> ip <> [] ->
  NewDecFromStr_unsigned neg (text ip) =
    Ok (let v := value (ip ++ replicate 18 0) in if neg then - v else v).
Proof.
  intros Hi Ni. unfold NewDecFromStr_unsigned. rewrite Split_no_sep by done.
  cbn [length Nat.ltb Nat.leb mbind outcome_bind lookup list_lookup default from_option id].
  destruct (Z.ltb_spec Precision (Z.of_nat 0)); [unfold Precision in *; lia|].
  change (Z.to_nat (Precision - Z.of_nat 0)) with 18%nat.
  rewrite <- text_zeros, <- text_app, SetString10_text; [done|by destruct ip|].
  apply Forall_app_2; [done|]. apply Forall_replicate. unfold is_digit. lia.
Qed.

(** The body printed for [n >= 0] starts with a digit and parses back. *)
Lemma DecString_unsigned_parse neg n :
  0 <= n ->
  NewDecFromStr_unsigned neg (DecString_unsigned n) = Ok (if neg then - n else n) /\
  exists d r, is_digit d /\ DecString_unsigned n = digit_char d :: r.
Proof.
  intros Hn. unfold DecString_unsigned, MarshalText. change (Z.to_nat Precision) with 18%nat.
  pose proof (digits_value n Hn) as Hv. pose proof (digits_digit n Hn) as Hd.
  pose proof (digits_nonempty n) as Hne. revert Hv Hd Hne. generalize (digits n) as ds.
  intros ds Hv Hd Hne. fold (text ds). rewrite text_length.
  assert (Forall is_digit [0]) as Z0 by (repeat constructor; lia).
  assert (forall k, Forall is_digit (replicate k 0)) as Zk
    by (intros; apply Forall_replicate; unfold is_digit; lia).
  destruct (Nat.leb_spec (length ds) 18) as [Hl|Hl].
  - (* purely decimal *)
    split; [|exists 0; eexists; split; [unfold is_digit; lia|reflexivity]].
    rewrite IsZeroes_text by done. destruct (forallb (Z.eqb 0) ds) eqn:Ez; cbn [negb].
    + change ["0"] with (text [0]). rewrite NewDecFromStr_unsigned_int by done.
      apply forallb_zeros in Ez. rewrite Ez, value_zeros in Hv. subst n. by destruct neg.
    + rewrite final_digits_text, <- text_zeros, <- text_app by done.
      change ("0" :: "." :: ?x) with (text [0] ++ "." :: x).
      pose proof (strip_spec ds) as [Sl Se]. pose proof (strip_nonempty ds Ez) as Sn.
      assert (length (strip ds) <> 0)%nat by (by destruct (strip ds)).
      rewrite NewDecFromStr_unsigned_point; [|done|by apply Forall_app_2, strip_digit|done| |].
      * f_equal. enough (value ([0] ++ (replicate (18 - length ds) 0 ++ strip ds) ++
          replicate (18 - length (replicate (18 - length ds) 0 ++ strip ds)) 0) = n) as -> by done.
        rewrite length_app, length_replicate.
        replace (18 - (18 - length ds + length (strip ds)))%nat
          with (length ds - length (strip ds))%nat by lia.
        rewrite <- app_assoc, Se, !value_app, value_zeros. change (value [0]) with 0. lia.
      * by destruct (strip ds), (replicate (18 - length ds) 0).
      * rewrite length_app, length_replicate. lia.
  - (* integer part, then the fraction if it is not zero *)
    set (k := (length ds - 18)%nat).
    assert (length (take k ds) = k) as Lt by (rewrite length_take; lia).
    assert (length (drop k ds) = 18%nat) as Ld by (rewrite length_drop; lia).
    assert (take k ds <> []) as Nt by (destruct (take k ds); simpl in *; [lia|done]).
    assert (Forall is_digit (take k ds)) as Ht by by apply Forall_take.
    assert (Forall is_digit (drop k ds)) as Hdr by by apply Forall_drop.
    unfold text. rewrite <- !firstn_map, <- !skipn_map || idtac.
    change (map digit_char ds) with (digit_char <$> ds).
    rewrite <- fmap_take, <- fmap_drop. fold (text (take k ds)) (text (drop k ds)).
    change (digit_char <$> take k ds) with (text (take k ds)).
    change (digit_char <$> drop k ds) with (text (drop k ds)).
    rewrite IsZeroes_text, final_digits_text by done.
    split.
    + destruct (forallb (Z.eqb 0) (drop k ds)) eqn:Ez; cbn [negb app].
      * rewrite (strip_zeros _ Ez), app_nil_r, NewDecFromStr_unsigned_int by done.
        rewrite <- Ld at 1 || idtac.
        replace 18%nat with (length (drop k ds)) by done.
        rewrite <- (forallb_zeros _ Ez), take_drop, Hv. done.
      * pose proof (strip_spec (drop k ds)) as [Sl Se].
        pose proof (strip_nonempty _ Ez) as Sn. rewrite Ld in Sl, Se.
        rewrite NewDecFromStr_unsigned_point; [|done|by apply strip_digit|done|done|done].
        rewrite Se, take_drop, Hv. done.
    + destruct (take k ds) as [|d r]; [done|]. apply Forall_cons in Ht as [Ht _].
      exists d. eexists. split; [done|]. reflexivity.
Qed.

(** C35: [NewDecFromStr] reads back exactly what [String] prints, for every
    decimal: sign, leading zeros of the fraction and stripped trailing zeros
    included. *)
Theorem DecString_roundtrip d : NewDecFromStr (DecString d) = Ok d.
Proof.
  unfold NewDecFromStr, DecString, IsNegative, Big.Sign, Neg.
  rewrite Stdlib.Strings.String.list_ascii_of_string_of_list_ascii.
  destruct (Z.eqb_spec (Z.sgn d) (-1)) as [Hs|Hs].
  - destruct (DecString_unsigned_parse true (- d) ltac:(lia)) as (Hp & c & r & Hc & Hr).
    rewrite bool_decide_true by done. rewrite Hr in Hp |- *. rewrite Hp. f_equal. lia.
  - destruct (DecString_unsigned_parse false d ltac:(lia)) as (Hp & c & r & Hc & Hr).
    rewrite Hr in Hp |- *. rewrite bool_decide_false by (apply digit_char_not; [done|set_solver]).
    done.
Qed.

(** Two minus signs cancel: [NewDecFromStr] strips the first one and leaves
    the second to [SetString]. *)
Lemma NewDecFromStr_double_minus : NewDecFromStr "--5" = Ok (NewDec 5).
Proof. vm_compute. reflexivity. Qed.
