(* ===== verification/Params.v ===== *)
(** * [internal/params]: chain configurations and fork epochs

    A [ChainConfig] is a table of epochs; [isForked] decides whether a feature
    is active.  Every [*big.Int] is an [option Z] ([None] for nil).  The
    configurations of all networks are here with the values of the source. *)

From S2P Require Import Prelude.

(** ** Chain identifiers *)

Definition MainnetChainID : Z := 1.
Definition TestnetChainID : Z := 2.
Definition PangaeaChainID : Z := 3.
Definition PartnerChainID : Z := 4.
Definition StressnetChainID : Z := 5.
Definition TestChainID : Z := 99.
Definition AllProtocolChangesChainID : Z := 100.
Definition EthMainnetShard0ChainID : Z := 1888800000.
Definition EthTestnetShard0ChainID : Z := 1888700000.
Definition EthPangaeaShard0ChainID : Z := 1888900000.
Definition EthPartnerShard0ChainID : Z := 1889000000.
Definition EthStressnetShard0ChainID : Z := 1887000000.
Definition EthTestShard0ChainID : Z := 1887100000.
Definition EthAllProtocolChangesShard0ChainID : Z := 1887200000.
Definition EpochTBD : Z := 10000000.

(** ** The configuration record *)

Record ChainConfig := mkChainConfig {
  ChainID : option Z;
  EthCompatibleChainID : option Z;
  EthCompatibleShard0ChainID : option Z;
  EthCompatibleEpoch : option Z;
  CrossTxEpoch : option Z;
  CrossLinkEpoch : option Z;
  AggregatedRewardEpoch : option Z;
  StakingEpoch : option Z;
  PreStakingEpoch : option Z;
  QuickUnlockEpoch : option Z;
  FiveSecondsEpoch : option Z;
  TwoSecondsEpoch : option Z;
  SixtyPercentEpoch : option Z;
  RedelegationEpoch : option Z;
  NoEarlyUnlockEpoch : option Z;
  VRFEpoch : option Z;
  PrevVRFEpoch : option Z;
  MinDelegation100Epoch : option Z;
  MinCommissionRateEpoch : option Z;
  MinCommissionPromoPeriod : option Z;
  EPoSBound35Epoch : option Z;
  EIP155Epoch : option Z;
  S3Epoch : option Z;
  DataCopyFixEpoch : option Z;
  IstanbulEpoch : option Z;
  ReceiptLogEpoch : option Z;
  SHA3Epoch : option Z;
  HIP6And8Epoch : option Z;
  StakingPrecompileEpoch : option Z;
  ChainIdFixEpoch : option Z;
  SlotsLimitedEpoch : option Z;
  CrossShardXferPrecompileEpoch : option Z;
  AllowlistEpoch : option Z;
  LeaderRotationInternalValidatorsEpoch : option Z;
  LeaderRotationExternalValidatorsEpoch : option Z;
  FeeCollectEpoch : option Z;
  ValidatorCodeFixEpoch : option Z;
  HIP30Epoch : option Z;
  DevnetExternalEpoch : option Z;
  TestnetExternalEpoch : option Z;
  BlockGas30MEpoch : option Z;
  MaxRateEpoch : option Z;
  TopMaxRateEpoch : option Z
}.

(** ** The networks *)

Definition MainnetChainConfig : ChainConfig := {|
  ChainID := Some MainnetChainID;
  EthCompatibleChainID := Some EthMainnetShard0ChainID;
  EthCompatibleShard0ChainID := Some EthMainnetShard0ChainID;
  EthCompatibleEpoch := Some 442;
  CrossTxEpoch := Some 28;
  CrossLinkEpoch := Some 186;
  AggregatedRewardEpoch := Some 689;
  StakingEpoch := Some 186;
  PreStakingEpoch := Some 185;
  QuickUnlockEpoch := Some 191;
  FiveSecondsEpoch := Some 230;
  TwoSecondsEpoch := Some 366;
  SixtyPercentEpoch := Some 530;
  RedelegationEpoch := Some 290;
  NoEarlyUnlockEpoch := Some 530;
  VRFEpoch := Some 631;
  PrevVRFEpoch := Some 689;
  MinDelegation100Epoch := Some 631;
  MinCommissionRateEpoch := Some 631;
  MinCommissionPromoPeriod := Some 100;
  EPoSBound35Epoch := Some 631;
  EIP155Epoch := Some 28;
  S3Epoch := Some 28;
  DataCopyFixEpoch := Some 689;
  IstanbulEpoch := Some 314;
  ReceiptLogEpoch := Some 101;
  SHA3Epoch := Some 725;
  HIP6And8Epoch := Some 725;
  StakingPrecompileEpoch := Some 871;
  ChainIdFixEpoch := Some 1323;
  SlotsLimitedEpoch := Some 999;
  CrossShardXferPrecompileEpoch := Some 1323;
  AllowlistEpoch := Some EpochTBD;
  LeaderRotationInternalValidatorsEpoch := Some EpochTBD;
  LeaderRotationExternalValidatorsEpoch := Some EpochTBD;
  FeeCollectEpoch := Some 1535;
  ValidatorCodeFixEpoch := Some 1535;
  HIP30Epoch := Some 1673;
  DevnetExternalEpoch := Some EpochTBD;
  TestnetExternalEpoch := Some EpochTBD;
  BlockGas30MEpoch := Some 1673;
  MaxRateEpoch := Some 1733;
  TopMaxRateEpoch := Some 1976
|}.

Definition TestnetChainConfig : ChainConfig := {|
  ChainID := Some TestnetChainID;
  EthCompatibleChainID := Some EthTestnetShard0ChainID;
  EthCompatibleShard0ChainID := Some EthTestnetShard0ChainID;
  EthCompatibleEpoch := Some 0;
  CrossTxEpoch := Some 0;
  CrossLinkEpoch := Some 2;
  AggregatedRewardEpoch := Some 2;
  StakingEpoch := Some 2;
  PreStakingEpoch := Some 1;
  QuickUnlockEpoch := Some 0;
  FiveSecondsEpoch := Some 0;
  TwoSecondsEpoch := Some 2;
  SixtyPercentEpoch := Some 2;
  RedelegationEpoch := Some 2;
  NoEarlyUnlockEpoch := Some 2;
  VRFEpoch := Some 2;
  PrevVRFEpoch := Some 2;
  MinDelegation100Epoch := Some 2;
  MinCommissionRateEpoch := Some 2;
  MinCommissionPromoPeriod := Some 2;
  EPoSBound35Epoch := Some 2;
  EIP155Epoch := Some 0;
  S3Epoch := Some 0;
  DataCopyFixEpoch := Some 0;
  IstanbulEpoch := Some 0;
  ReceiptLogEpoch := Some 0;
  SHA3Epoch := Some 0;
  HIP6And8Epoch := Some 2;
  StakingPrecompileEpoch := Some 2;
  ChainIdFixEpoch := Some 0;
  SlotsLimitedEpoch := Some 2;
  CrossShardXferPrecompileEpoch := Some 2;
  AllowlistEpoch := Some 2;
  LeaderRotationInternalValidatorsEpoch := Some 3044;
  LeaderRotationExternalValidatorsEpoch := Some 3044;
  FeeCollectEpoch := Some 1296;
  ValidatorCodeFixEpoch := Some 1296;
  HIP30Epoch := Some 2176;
  DevnetExternalEpoch := Some EpochTBD;
  TestnetExternalEpoch := Some 3044;
  BlockGas30MEpoch := Some 2176;
  MaxRateEpoch := Some 2520;
  TopMaxRateEpoch := Some EpochTBD
|}.

Definition PangaeaChainConfig : ChainConfig := {|
  ChainID := Some PangaeaChainID;
  EthCompatibleChainID := Some EthPangaeaShard0ChainID;
  EthCompatibleShard0ChainID := Some EthPangaeaShard0ChainID;
  EthCompatibleEpoch := Some 0;
  CrossTxEpoch := Some 0;
  CrossLinkEpoch := Some 2;
  AggregatedRewardEpoch := Some 3;
  StakingEpoch := Some 2;
  PreStakingEpoch := Some 1;
  QuickUnlockEpoch := Some 0;
  FiveSecondsEpoch := Some 0;
  TwoSecondsEpoch := Some 0;
  SixtyPercentEpoch := Some 0;
  RedelegationEpoch := Some 0;
  NoEarlyUnlockEpoch := Some 0;
  VRFEpoch := Some 0;
  PrevVRFEpoch := Some 0;
  MinDelegation100Epoch := Some 0;
  MinCommissionRateEpoch := Some 0;
  MinCommissionPromoPeriod := Some 10;
  EPoSBound35Epoch := Some 0;
  EIP155Epoch := Some 0;
  S3Epoch := Some 0;
  DataCopyFixEpoch := Some 0;
  IstanbulEpoch := Some 0;
  ReceiptLogEpoch := Some 0;
  SHA3Epoch := Some 0;
  HIP6And8Epoch := Some 0;
  StakingPrecompileEpoch := Some 2;
  ChainIdFixEpoch := Some 0;
  SlotsLimitedEpoch := Some EpochTBD;
  CrossShardXferPrecompileEpoch := Some 1;
  AllowlistEpoch := Some EpochTBD;
  LeaderRotationInternalValidatorsEpoch := Some EpochTBD;
  LeaderRotationExternalValidatorsEpoch := Some EpochTBD;
  FeeCollectEpoch := Some EpochTBD;
  ValidatorCodeFixEpoch := Some EpochTBD;
  HIP30Epoch := Some EpochTBD;
  DevnetExternalEpoch := Some EpochTBD;
  TestnetExternalEpoch := Some EpochTBD;
  BlockGas30MEpoch := Some 0;
  MaxRateEpoch := Some EpochTBD;
  TopMaxRateEpoch := Some EpochTBD
|}.

Definition PartnerChainConfig : ChainConfig := {|
  ChainID := Some PartnerChainID;
  EthCompatibleChainID := Some EthPartnerShard0ChainID;
  EthCompatibleShard0ChainID := Some EthPartnerShard0ChainID;
  EthCompatibleEpoch := Some 0;
  CrossTxEpoch := Some 0;
  CrossLinkEpoch := Some 2;
  AggregatedRewardEpoch := Some 3;
  StakingEpoch := Some 2;
  PreStakingEpoch := Some 1;
  QuickUnlockEpoch := Some 0;
  FiveSecondsEpoch := Some 0;
  TwoSecondsEpoch := Some 0;
  SixtyPercentEpoch := Some EpochTBD;
  RedelegationEpoch := Some 0;
  NoEarlyUnlockEpoch := Some 0;
  VRFEpoch := Some 0;
  PrevVRFEpoch := Some 0;
  MinDelegation100Epoch := Some 0;
  MinCommissionRateEpoch := Some 0;
  MinCommissionPromoPeriod := Some 10;
  EPoSBound35Epoch := Some 0;
  EIP155Epoch := Some 0;
  S3Epoch := Some 0;
  DataCopyFixEpoch := Some 0;
  IstanbulEpoch := Some 0;
  ReceiptLogEpoch := Some 0;
  SHA3Epoch := Some 0;
  HIP6And8Epoch := Some 0;
  StakingPrecompileEpoch := Some 5;
  ChainIdFixEpoch := Some 5;
  SlotsLimitedEpoch := Some EpochTBD;
  CrossShardXferPrecompileEpoch := Some 5;
  AllowlistEpoch := Some EpochTBD;
  LeaderRotationInternalValidatorsEpoch := Some 144;
  LeaderRotationExternalValidatorsEpoch := Some 144;
  FeeCollectEpoch := Some 5;
  ValidatorCodeFixEpoch := Some 5;
  HIP30Epoch := Some 7;
  DevnetExternalEpoch := Some 144;
  TestnetExternalEpoch := Some EpochTBD;
  BlockGas30MEpoch := Some 7;
  MaxRateEpoch := Some EpochTBD;
  TopMaxRateEpoch := Some EpochTBD
|}.

Definition StressnetChainConfig : ChainConfig := {|
  ChainID := Some StressnetChainID;
  EthCompatibleChainID := Some EthStressnetShard0ChainID;
  EthCompatibleShard0ChainID := Some EthStressnetShard0ChainID;
  EthCompatibleEpoch := Some 0;
  CrossTxEpoch := Some 0;
  CrossLinkEpoch := Some 2;
  AggregatedRewardEpoch := Some 3;
  StakingEpoch := Some 2;
  PreStakingEpoch := Some 1;
  QuickUnlockEpoch := Some 0;
  FiveSecondsEpoch := Some 0;
  TwoSecondsEpoch := Some 0;
  SixtyPercentEpoch := Some 10;
  RedelegationEpoch := Some 0;
  NoEarlyUnlockEpoch := Some 0;
  VRFEpoch := Some 0;
  PrevVRFEpoch := Some 0;
  MinDelegation100Epoch := Some 0;
  MinCommissionRateEpoch := Some 0;
  MinCommissionPromoPeriod := Some 10;
  EPoSBound35Epoch := Some 0;
  EIP155Epoch := Some 0;
  S3Epoch := Some 0;
  DataCopyFixEpoch := Some 0;
  IstanbulEpoch := Some 0;
  ReceiptLogEpoch := Some 0;
  SHA3Epoch := Some 0;
  HIP6And8Epoch := Some 0;
  StakingPrecompileEpoch := Some 2;
  ChainIdFixEpoch := Some 0;
  SlotsLimitedEpoch := Some EpochTBD;
  CrossShardXferPrecompileEpoch := Some 1;
  AllowlistEpoch := Some EpochTBD;
  LeaderRotationInternalValidatorsEpoch := Some EpochTBD;
  LeaderRotationExternalValidatorsEpoch := Some EpochTBD;
  FeeCollectEpoch := Some EpochTBD;
  ValidatorCodeFixEpoch := Some EpochTBD;
  HIP30Epoch := Some EpochTBD;
  DevnetExternalEpoch := Some EpochTBD;
  TestnetExternalEpoch := Some EpochTBD;
  BlockGas30MEpoch := Some 0;
  MaxRateEpoch := Some EpochTBD;
  TopMaxRateEpoch := Some 0
|}.

Definition LocalnetChainConfig : ChainConfig := {|
  ChainID := Some TestnetChainID;
  EthCompatibleChainID := Some EthTestnetShard0ChainID;
  EthCompatibleShard0ChainID := Some EthTestnetShard0ChainID;
  EthCompatibleEpoch := Some 0;
  CrossTxEpoch := Some 0;
  CrossLinkEpoch := Some 2;
  AggregatedRewardEpoch := Some 3;
  StakingEpoch := Some 2;
  PreStakingEpoch := Some 0;
  QuickUnlockEpoch := Some 0;
  FiveSecondsEpoch := Some 0;
  TwoSecondsEpoch := Some 0;
  SixtyPercentEpoch := Some EpochTBD;
  RedelegationEpoch := Some 0;
  NoEarlyUnlockEpoch := Some 0;
  VRFEpoch := Some 0;
  PrevVRFEpoch := Some 0;
  MinDelegation100Epoch := Some 0;
  MinCommissionRateEpoch := Some 0;
  MinCommissionPromoPeriod := Some 10;
  EPoSBound35Epoch := Some 0;
  EIP155Epoch := Some 0;
  S3Epoch := Some 0;
  DataCopyFixEpoch := Some 0;
  IstanbulEpoch := Some 0;
  ReceiptLogEpoch := Some 0;
  SHA3Epoch := Some 0;
  HIP6And8Epoch := Some EpochTBD;
  StakingPrecompileEpoch := Some 2;
  ChainIdFixEpoch := Some 0;
  SlotsLimitedEpoch := Some EpochTBD;
  CrossShardXferPrecompileEpoch := Some 1;
  AllowlistEpoch := Some EpochTBD;
  LeaderRotationInternalValidatorsEpoch := Some 5;
  LeaderRotationExternalValidatorsEpoch := Some 6;
  FeeCollectEpoch := Some 2;
  ValidatorCodeFixEpoch := Some 2;
  HIP30Epoch := Some EpochTBD;
  DevnetExternalEpoch := Some EpochTBD;
  TestnetExternalEpoch := Some EpochTBD;
  BlockGas30MEpoch := Some 0;
  MaxRateEpoch := Some EpochTBD;
  TopMaxRateEpoch := Some EpochTBD
|}.

Definition AllProtocolChanges : ChainConfig := {|
  ChainID := Some AllProtocolChangesChainID;
  EthCompatibleChainID := Some EthAllProtocolChangesShard0ChainID;
  EthCompatibleShard0ChainID := Some EthAllProtocolChangesShard0ChainID;
  EthCompatibleEpoch := Some 0;
  CrossTxEpoch := Some 0;
  CrossLinkEpoch := Some 0;
  AggregatedRewardEpoch := Some 0;
  StakingEpoch := Some 0;
  PreStakingEpoch := Some 0;
  QuickUnlockEpoch := Some 0;
  FiveSecondsEpoch := Some 0;
  TwoSecondsEpoch := Some 0;
  SixtyPercentEpoch := Some 0;
  RedelegationEpoch := Some 0;
  NoEarlyUnlockEpoch := Some 0;
  VRFEpoch := Some 0;
  PrevVRFEpoch := Some 0;
  MinDelegation100Epoch := Some 0;
  MinCommissionRateEpoch := Some 0;
  MinCommissionPromoPeriod := Some 10;
  EPoSBound35Epoch := Some 0;
  EIP155Epoch := Some 0;
  S3Epoch := Some 0;
  DataCopyFixEpoch := Some 0;
  IstanbulEpoch := Some 0;
  ReceiptLogEpoch := Some 0;
  SHA3Epoch := Some 0;
  HIP6And8Epoch := Some 0;
  StakingPrecompileEpoch := Some 0;
  ChainIdFixEpoch := Some 0;
  SlotsLimitedEpoch := Some 0;
  CrossShardXferPrecompileEpoch := Some 1;
  AllowlistEpoch := Some 0;
  LeaderRotationInternalValidatorsEpoch := Some 1;
  LeaderRotationExternalValidatorsEpoch := Some 1;
  FeeCollectEpoch := Some 0;
  ValidatorCodeFixEpoch := Some 0;
  HIP30Epoch := Some 0;
  DevnetExternalEpoch := Some 0;
  TestnetExternalEpoch := Some 0;
  BlockGas30MEpoch := Some 0;
  MaxRateEpoch := Some 0;
  TopMaxRateEpoch := Some 0
|}.

Definition TestChainConfig : ChainConfig := {|
  ChainID := Some TestChainID;
  EthCompatibleChainID := Some EthTestShard0ChainID;
  EthCompatibleShard0ChainID := Some EthTestShard0ChainID;
  EthCompatibleEpoch := Some 0;
  CrossTxEpoch := Some 0;
  CrossLinkEpoch := Some 0;
  AggregatedRewardEpoch := Some 0;
  StakingEpoch := Some 0;
  PreStakingEpoch := Some 0;
  QuickUnlockEpoch := Some 0;
  FiveSecondsEpoch := Some 0;
  TwoSecondsEpoch := Some 0;
  SixtyPercentEpoch := Some 0;
  RedelegationEpoch := Some 0;
  NoEarlyUnlockEpoch := Some 0;
  VRFEpoch := Some 0;
  PrevVRFEpoch := Some 0;
  MinDelegation100Epoch := Some 0;
  MinCommissionRateEpoch := Some 0;
  MinCommissionPromoPeriod := Some 10;
  EPoSBound35Epoch := Some 0;
  EIP155Epoch := Some 0;
  S3Epoch := Some 0;
  DataCopyFixEpoch := Some 0;
  IstanbulEpoch := Some 0;
  ReceiptLogEpoch := Some 0;
  SHA3Epoch := Some 0;
  HIP6And8Epoch := Some 0;
  StakingPrecompileEpoch := Some 0;
  ChainIdFixEpoch := Some 0;
  SlotsLimitedEpoch := Some 0;
  CrossShardXferPrecompileEpoch := Some 1;
  AllowlistEpoch := Some 0;
  LeaderRotationInternalValidatorsEpoch := Some 1;
  LeaderRotationExternalValidatorsEpoch := Some 1;
  FeeCollectEpoch := Some 0;
  ValidatorCodeFixEpoch := Some 0;
  HIP30Epoch := Some 0;
  DevnetExternalEpoch := Some 0;
  TestnetExternalEpoch := Some 0;
  BlockGas30MEpoch := Some 0;
  MaxRateEpoch := Some 0;
  TopMaxRateEpoch := Some 0
|}.

(** ** Fork tests *)

(** [isForked(s, epoch)]: is a fork scheduled at [s] active at [epoch]? *)
Definition isForked (s epoch : option Z) : bool :=
  match s, epoch with
  | Some s, Some epoch => s <=? epoch
  | _, _ => false
  end.

Definition IsEIP155 (c : ChainConfig) (epoch : option Z) : bool := isForked (c.(EIP155Epoch)) epoch.
Definition HasCrossTxFields (c : ChainConfig) (epoch : option Z) : bool := isForked (c.(CrossTxEpoch)) epoch.
Definition IsEthCompatible (c : ChainConfig) (epoch : option Z) : bool := isForked (c.(EthCompatibleEpoch)) epoch.
Definition IsAggregatedRewardEpoch (c : ChainConfig) (epoch : option Z) : bool := isForked (c.(AggregatedRewardEpoch)) epoch.
Definition IsStaking (c : ChainConfig) (epoch : option Z) : bool := isForked (c.(StakingEpoch)) epoch.
Definition IsSlotsLimited (c : ChainConfig) (epoch : option Z) : bool := isForked (c.(SlotsLimitedEpoch)) epoch.
Definition IsFiveSeconds (c : ChainConfig) (epoch : option Z) : bool := isForked (c.(FiveSecondsEpoch)) epoch.
Definition IsTwoSeconds (c : ChainConfig) (epoch : option Z) : bool := isForked (c.(TwoSecondsEpoch)) epoch.
Definition IsSixtyPercent (c : ChainConfig) (epoch : option Z) : bool := isForked (c.(SixtyPercentEpoch)) epoch.
Definition IsRedelegation (c : ChainConfig) (epoch : option Z) : bool := isForked (c.(RedelegationEpoch)) epoch.
Definition IsNoEarlyUnlock (c : ChainConfig) (epoch : option Z) : bool := isForked (c.(NoEarlyUnlockEpoch)) epoch.
Definition IsVRF (c : ChainConfig) (epoch : option Z) : bool := isForked (c.(VRFEpoch)) epoch.
Definition IsPrevVRF (c : ChainConfig) (epoch : option Z) : bool := isForked (c.(PrevVRFEpoch)) epoch.
Definition IsMinDelegation100 (c : ChainConfig) (epoch : option Z) : bool := isForked (c.(MinDelegation100Epoch)) epoch.
Definition IsMinCommissionRate (c : ChainConfig) (epoch : option Z) : bool := isForked (c.(MinCommissionRateEpoch)) epoch.
Definition IsEPoSBound35 (c : ChainConfig) (epoch : option Z) : bool := isForked (c.(EPoSBound35Epoch)) epoch.
Definition IsPreStaking (c : ChainConfig) (epoch : option Z) : bool := isForked (c.(PreStakingEpoch)) epoch.
Definition IsQuickUnlock (c : ChainConfig) (epoch : option Z) : bool := isForked (c.(QuickUnlockEpoch)) epoch.
Definition IsCrossLink (c : ChainConfig) (epoch : option Z) : bool := isForked (c.(CrossLinkEpoch)) epoch.
Definition IsS3 (c : ChainConfig) (epoch : option Z) : bool := isForked (c.(S3Epoch)) epoch.
Definition IsDataCopyFixEpoch (c : ChainConfig) (epoch : option Z) : bool := isForked (c.(DataCopyFixEpoch)) epoch.
Definition IsIstanbul (c : ChainConfig) (epoch : option Z) : bool := isForked (c.(IstanbulEpoch)) epoch.
Definition IsReceiptLog (c : ChainConfig) (epoch : option Z) : bool := isForked (c.(ReceiptLogEpoch)) epoch.
Definition IsSHA3 (c : ChainConfig) (epoch : option Z) : bool := isForked (c.(SHA3Epoch)) epoch.
Definition IsHIP6And8Epoch (c : ChainConfig) (epoch : option Z) : bool := isForked (c.(HIP6And8Epoch)) epoch.
Definition IsStakingPrecompile (c : ChainConfig) (epoch : option Z) : bool := isForked (c.(StakingPrecompileEpoch)) epoch.
Definition IsCrossShardXferPrecompile (c : ChainConfig) (epoch : option Z) : bool := isForked (c.(CrossShardXferPrecompileEpoch)) epoch.
Definition IsChainIdFix (c : ChainConfig) (epoch : option Z) : bool := isForked (c.(ChainIdFixEpoch)) epoch.
Definition IsAllowlistEpoch (c : ChainConfig) (epoch : option Z) : bool := isForked (c.(AllowlistEpoch)) epoch.
Definition IsLeaderRotationInternalValidators (c : ChainConfig) (epoch : option Z) : bool := isForked (c.(LeaderRotationInternalValidatorsEpoch)) epoch.
Definition IsBlockGas30M (c : ChainConfig) (epoch : option Z) : bool := isForked (c.(BlockGas30MEpoch)) epoch.
Definition IsLeaderRotationExternalValidatorsAllowed (c : ChainConfig) (epoch : option Z) : bool := isForked (c.(LeaderRotationExternalValidatorsEpoch)) epoch.
Definition IsFeeCollectEpoch (c : ChainConfig) (epoch : option Z) : bool := isForked (c.(FeeCollectEpoch)) epoch.
Definition IsValidatorCodeFix (c : ChainConfig) (epoch : option Z) : bool := isForked (c.(ValidatorCodeFixEpoch)) epoch.
Definition IsHIP30 (c : ChainConfig) (epoch : option Z) : bool := isForked (c.(HIP30Epoch)) epoch.
Definition IsDevnetExternalEpoch (c : ChainConfig) (epoch : option Z) : bool := isForked (c.(DevnetExternalEpoch)) epoch.
Definition IsTestnetExternalEpoch (c : ChainConfig) (epoch : option Z) : bool := isForked (c.(TestnetExternalEpoch)) epoch.
Definition IsMaxRate (c : ChainConfig) (epoch : option Z) : bool := isForked (c.(MaxRateEpoch)) epoch.
Definition IsTopMaxRate (c : ChainConfig) (epoch : option Z) : bool := isForked (c.(TopMaxRateEpoch)) epoch.

(** [new(big.Int).Add(c.CrossTxEpoch, common.Big1)] dereferences the field. *)
Definition AcceptsCrossTx (c : ChainConfig) (epoch : option Z) : outcome bool :=
  match c.(CrossTxEpoch) with
  | None => Panic "nil pointer dereference"
  | Some e => let crossTxEpoch := e + 1 in Ok (isForked (Some crossTxEpoch) epoch)
  end.

Definition IsOneEpochBeforeHIP30 (c : ChainConfig) (epoch : option Z) : outcome bool :=
  match c.(HIP30Epoch), epoch with
  | Some h, Some e => Ok (h - e =? 1)
  | _, _ => Panic "nil pointer dereference"
  end.

(** ** Validation at start-up *)

Definition require (cond : outcome bool) (err : string) : outcome unit :=
  let! b := cond in if negb b then Panic err else Ok tt.

(** [a.Cmp(b)] compared with 0 by [rel]; both pointers are dereferenced. *)
Definition Cmp (rel : Z -> Z -> bool) (a b : option Z) : outcome bool :=
  match a, b with
  | Some a, Some b => Ok (rel a b)
  | _, _ => Panic "nil pointer dereference"
  end.

Definition mustValid (c : ChainConfig) : outcome unit :=
  (* to ensure at least RewardFrequency blocks have passed *)
  let! _ := require (Cmp Z.gtb c.(AggregatedRewardEpoch) (Some 0))
    "must satisfy: AggregatedRewardEpoch > 0" in
  (* before staking epoch, fees were sent to coinbase *)
  let! _ := require (Cmp Z.geb c.(FeeCollectEpoch) c.(StakingEpoch))
    "must satisfy: FeeCollectEpoch >= StakingEpoch" in
  let! _ := require (Cmp Z.ltb c.(PreStakingEpoch) c.(StakingEpoch))
    "must satisfy: PreStakingEpoch < StakingEpoch" in
  (* delegations can be made starting at PreStakingEpoch *)
  let! _ := require (Cmp Z.geb c.(StakingPrecompileEpoch) c.(PreStakingEpoch))
    "must satisfy: StakingPrecompileEpoch >= PreStakingEpoch" in
  (* main functionality must come before the precompile *)
  let! _ := require (Cmp Z.gtb c.(CrossShardXferPrecompileEpoch) c.(CrossTxEpoch))
    "must satisfy: CrossShardXferPrecompileEpoch > CrossTxEpoch" in
  let! _ := require (Cmp Z.geb c.(ValidatorCodeFixEpoch) c.(EthCompatibleEpoch))
    "must satisfy: ValidatorCodeFixEpoch >= EthCompatibleEpoch" in
  let! _ := require (Cmp Z.geb c.(ValidatorCodeFixEpoch) c.(PreStakingEpoch))
    "must satisfy: ValidatorCodeFixEpoch >= PreStakingEpoch" in
  (* staking epoch must pass for validator count reduction *)
  let! _ := require (Cmp Z.gtb c.(HIP30Epoch) c.(StakingEpoch))
    "must satisfy: HIP30Epoch > StakingEpoch" in
  (* min commission increase 2.0 must happen on or after 1.0 *)
  let! _ := require (Cmp Z.geb c.(HIP30Epoch) c.(MinCommissionRateEpoch))
    "must satisfy: HIP30Epoch > MinCommissionRateEpoch" in
  let! _ := require (Cmp Z.geb c.(HIP30Epoch) c.(AggregatedRewardEpoch))
    "must satisfy: HIP30Epoch >= MinCommissionRateEpoch" in
  let! _ := require (Cmp Z.geb c.(HIP30Epoch) c.(S3Epoch))
    "must satisfy: HIP30Epoch >= S3Epoch" in
  let! _ := require (Cmp Z.gtb c.(HIP30Epoch) c.(CrossTxEpoch))
    "must satisfy: HIP30Epoch > CrossTxEpoch" in
  require (Cmp Z.geb c.(MaxRateEpoch) c.(HIP30Epoch))
    "must satisfy: MaxRateEpoch >= HIP30Epoch".

(** The package's [init]. *)
Definition init : outcome unit :=
  foldM (fun _ c => mustValid c)
    [MainnetChainConfig; TestnetChainConfig; PangaeaChainConfig; PartnerChainConfig;
     StressnetChainConfig; LocalnetChainConfig] tt.

(** ** Ethereum-compatible chain ids *)

(** The package-level configurations and the [once] that guards their update. *)
Record Globals := mkGlobals { once_done : bool; configs : list ChainConfig }.
Definition initial_globals : Globals := {|
  once_done := false;
  configs := [MainnetChainConfig; TestnetChainConfig; PangaeaChainConfig; PartnerChainConfig;
              StressnetChainConfig; LocalnetChainConfig; AllProtocolChanges; TestChainConfig]
|}.

Definition set_EthCompatibleChainID (c : ChainConfig) (v : option Z) : ChainConfig := {|
  ChainID := c.(ChainID);
  EthCompatibleChainID := v;
  EthCompatibleShard0ChainID := c.(EthCompatibleShard0ChainID);
  EthCompatibleEpoch := c.(EthCompatibleEpoch);
  CrossTxEpoch := c.(CrossTxEpoch);
  CrossLinkEpoch := c.(CrossLinkEpoch);
  AggregatedRewardEpoch := c.(AggregatedRewardEpoch);
  StakingEpoch := c.(StakingEpoch);
  PreStakingEpoch := c.(PreStakingEpoch);
  QuickUnlockEpoch := c.(QuickUnlockEpoch);
  FiveSecondsEpoch := c.(FiveSecondsEpoch);
  TwoSecondsEpoch := c.(TwoSecondsEpoch);
  SixtyPercentEpoch := c.(SixtyPercentEpoch);
  RedelegationEpoch := c.(RedelegationEpoch);
  NoEarlyUnlockEpoch := c.(NoEarlyUnlockEpoch);
  VRFEpoch := c.(VRFEpoch);
  PrevVRFEpoch := c.(PrevVRFEpoch);
  MinDelegation100Epoch := c.(MinDelegation100Epoch);
  MinCommissionRateEpoch := c.(MinCommissionRateEpoch);
  MinCommissionPromoPeriod := c.(MinCommissionPromoPeriod);
  EPoSBound35Epoch := c.(EPoSBound35Epoch);
  EIP155Epoch := c.(EIP155Epoch);
  S3Epoch := c.(S3Epoch);
  DataCopyFixEpoch := c.(DataCopyFixEpoch);
  IstanbulEpoch := c.(IstanbulEpoch);
  ReceiptLogEpoch := c.(ReceiptLogEpoch);
  SHA3Epoch := c.(SHA3Epoch);
  HIP6And8Epoch := c.(HIP6And8Epoch);
  StakingPrecompileEpoch := c.(StakingPrecompileEpoch);
  ChainIdFixEpoch := c.(ChainIdFixEpoch);
  SlotsLimitedEpoch := c.(SlotsLimitedEpoch);
  CrossShardXferPrecompileEpoch := c.(CrossShardXferPrecompileEpoch);
  AllowlistEpoch := c.(AllowlistEpoch);
  LeaderRotationInternalValidatorsEpoch := c.(LeaderRotationInternalValidatorsEpoch);
  LeaderRotationExternalValidatorsEpoch := c.(LeaderRotationExternalValidatorsEpoch);
  FeeCollectEpoch := c.(FeeCollectEpoch);
  ValidatorCodeFixEpoch := c.(ValidatorCodeFixEpoch);
  HIP30Epoch := c.(HIP30Epoch);
  DevnetExternalEpoch := c.(DevnetExternalEpoch);
  TestnetExternalEpoch := c.(TestnetExternalEpoch);
  BlockGas30MEpoch := c.(BlockGas30MEpoch);
  MaxRateEpoch := c.(MaxRateEpoch);
  TopMaxRateEpoch := c.(TopMaxRateEpoch)
|}.

(** [c.EthCompatibleChainID = big.NewInt(0).Add(c.EthCompatibleChainID, shardID)] *)
Definition add_shard (shardID : Z) (c : ChainConfig) : outcome ChainConfig :=
  match c.(EthCompatibleChainID) with
  | None => Panic "nil pointer dereference"
  | Some id => Ok (set_EthCompatibleChainID c (Some (id + shardID)))
  end.

Definition UpdateEthChainIDByShard (shardID : Z) (g : Globals) : outcome Globals :=
  if g.(once_done) then Ok g
  else
    let! cs := foldM (fun acc c => let! c' := add_shard shardID c in Ok (acc ++ [c'])) g.(configs) [] in
    Ok {| once_done := true; configs := cs |}.

(** The package function [IsEthCompatible(chainID)]. *)
Definition IsEthCompatibleID (chainID : Z) : bool := EthMainnetShard0ChainID <=? chainID.

(** ** Gas tables *)

Record GasTable := mkGasTable {
  ExtcodeSize : Z; ExtcodeCopy : Z; ExtcodeHash : Z; Balance : Z; SLoad : Z;
  Calls : Z; Suicide : Z; ExpByte : Z; CreateBySuicide : Z
}.
Definition GasTableR3 : GasTable := {|
  ExtcodeSize := 20; ExtcodeCopy := 20; ExtcodeHash := 0; Balance := 20; SLoad := 50;
  Calls := 40; Suicide := 0; ExpByte := 10; CreateBySuicide := 0
|}.
Definition GasTableS3 : GasTable := {|
  ExtcodeSize := 700; ExtcodeCopy := 700; ExtcodeHash := 400; Balance := 400; SLoad := 200;
  Calls := 700; Suicide := 5000; ExpByte := 50; CreateBySuicide := 25000
|}.

Definition GasTableFor (c : ChainConfig) (epoch : option Z) : GasTable :=
  match epoch with
  | None => GasTableR3
  | Some _ => if IsS3 c epoch then GasTableS3 else GasTableR3
  end.

(** ** Rules *)

Record RulesT := mkRules {
  rChainID : Z; rEthChainID : Z; rIsS3 : bool; rIsIstanbul : bool; rIsVRF : bool;
  rIsPrevVRF : bool; rIsSHA3 : bool; rIsStakingPrecompile : bool;
  rIsCrossShardXferPrecompile : bool; rIsChainIdFix : bool; rIsValidatorCodeFix : bool
}.

Definition Rules (c : ChainConfig) (epoch : option Z) : RulesT :=
  let chainID := default 0 c.(ChainID) in
  let ethChainID := default 0 c.(EthCompatibleChainID) in
  {| rChainID := chainID;
     rEthChainID := ethChainID;
     rIsS3 := IsS3 c epoch;
     rIsIstanbul := IsIstanbul c epoch;
     rIsVRF := IsVRF c epoch;
     rIsPrevVRF := IsPrevVRF c epoch;
     rIsSHA3 := IsSHA3 c epoch;
     rIsStakingPrecompile := IsStakingPrecompile c epoch;
     rIsCrossShardXferPrecompile := IsCrossShardXferPrecompile c epoch;
     rIsChainIdFix := IsChainIdFix c epoch;
     rIsValidatorCodeFix := IsValidatorCodeFix c epoch |}.

(** * Facts *)

(** A fork that is active at an epoch is active at every later one. *)
Lemma isForked_mono s e e' : isForked s (Some e) = true -> e <= e' -> isForked s (Some e') = true.
Proof. unfold isForked. destruct s; [|done]. rewrite !Z.leb_le. lia. Qed.

(** If fork [b] is scheduled no later than fork [a], [a] implies [b]. *)
Lemma isForked_le a b (sa sb : Z) e :
  a = Some sa -> b = Some sb -> sb <= sa -> isForked a (Some e) = true -> isForked b (Some e) = true.
Proof. intros -> -> ?. unfold isForked. rewrite !Z.leb_le. lia. Qed.

Lemma require_Ok c err u : require c err = Ok u -> c = Ok true.
Proof. unfold require. intros H. outcome_inv. by destruct x. Qed.
Lemma Cmp_Ok rel a b r : Cmp rel a b = Ok r -> exists x y, a = Some x /\ b = Some y /\ rel x y = r.
Proof. unfold Cmp. destruct a, b; try done. intros [= <-]. eauto. Qed.

Ltac inv_mustValid :=
  repeat match goal with
  | H : require _ _ = Ok _ |- _ => apply require_Ok in H
  | H : Cmp _ _ _ = Ok true |- _ =>
      let x := fresh "x" in let y := fresh "y" in
      let Hx := fresh "Hx" in let Hy := fresh "Hy" in
      apply Cmp_Ok in H as (x & y & Hx & Hy & H)
  end.



(** The testnet's (and stressnet's) own Ethereum chain id is below the one
    the package function compares with: its transactions are not recognised
    as Ethereum compatible. *)
Lemma IsEthCompatibleID_testnet :
  (IsEthCompatibleID <$> TestnetChainConfig.(EthCompatibleChainID)) = Some false /\
  (IsEthCompatibleID <$> StressnetChainConfig.(EthCompatibleChainID)) = Some false /\
  (IsEthCompatibleID <$> MainnetChainConfig.(EthCompatibleChainID)) = Some true.
Proof. split_and!; reflexivity. Qed.

(** Only the first [UpdateEthChainIDByShard] has an effect. *)
Lemma UpdateEthChainIDByShard_once s s' g g' :
  UpdateEthChainIDByShard s g = Ok g' -> UpdateEthChainIDByShard s' g' = Ok g'.
Proof.
  unfold UpdateEthChainIDByShard. destruct (once_done g) eqn:E.
  - intros [= <-]. by rewrite E.
  - intros H. outcome_inv. done.
Qed.
