(* ===== verification/Sharding.v ===== *)
(** * Sharding configuration (internal/configs/sharding)

    [instance] is one immutable sharding configuration, [NewInstance] its
    validating constructor (instance.go); [Schedule] is the Go interface that
    maps block numbers to epochs and epochs to instances
    (shardingconfig.go); [ScheduleLaws] states what the rest of the node
    relies on when it uses a schedule, and the [Networks] file shows that each
    network's schedule keeps those laws.

    The account tables of internal/genesis are data: [AccountTable] names
    them, and the schedules are parameterised by their contents. *)
From Stdlib Require Import Ascii Floats.SpecFloat.
From S2P Require Import Prelude Dec DecText Params.
Local Open Scope Z_scope.

(** ** Data *)

Inductive NetworkID :=
  MainNet | TestNet | LocalNet | Pangaea | Partner | StressNet | DevNet.
#[export] Instance NetworkID_eq_dec : EqDecision NetworkID.
Proof. solve_decision. Defined.

Record DeployAccount := mkDeployAccount {
  daIndex : string; daAddress : string; daBLSPublicKey : string; daShardID : Z
}.

Inductive AccountTable :=
| IntelchainAccounts | IntelchainAccountsPostHIP30
| FoundationalNodeAccounts | FoundationalNodeAccountsV0_1 | FoundationalNodeAccountsV0_2
| FoundationalNodeAccountsV0_3 | FoundationalNodeAccountsV0_4 | FoundationalNodeAccountsV1
| FoundationalNodeAccountsV1_1 | FoundationalNodeAccountsV1_2 | FoundationalNodeAccountsV1_3
| FoundationalNodeAccountsV1_4 | FoundationalNodeAccountsV1_5
| TNIntelchainAccounts | TNIntelchainAccountsV1 | TNFoundationalAccounts
| LocalIntelchainAccounts | LocalIntelchainAccountsV1 | LocalIntelchainAccountsV2
| LocalFnAccounts | LocalFnAccountsV1 | LocalFnAccountsV2.

(** The allow list keeps the hexadecimal text of its keys. *)
Record Allowlist := mkAllowlist { MaxLimitPerShard : Z; BLSPublicKeys : list string }.
Definition emptyAllowlist : Allowlist := {| MaxLimitPerShard := 0; BLSPublicKeys := [] |}.
Definition mainnetAllowlisV3_TBD : Allowlist := {| MaxLimitPerShard := 0; BLSPublicKeys := [] |}.
Definition testnetAllowlistV3_3 : Allowlist := {|
  MaxLimitPerShard := 4;
  BLSPublicKeys := [
    "7915b9cbae9d675af510cb252362b80ae6d68a3684bbea203bc30d2f5fda25ffcedfa3cf2a6c1d3051469379920a418d";
    "cf8dad79f5da460462b190a4996f1701589139aa0d8a2202bdd10004ad3b0d9299165278f8002bcb49599444b3607802";
    "a7b563a180629a121a3f78d2864b3d5c5b76d1672a3f9de9349fde9c7a3dad0922bf9a4e68cb38d033d6a9ddef754709";
    "0a62ca435c5e48983b6124768b383d3f0b2d358326604aec692189c7833f4a52dff865c1515c32f315eb8e78eaceec11"]
|}.
Definition localnetAllowlist : Allowlist := {| MaxLimitPerShard := 0; BLSPublicKeys := [] |}.

(** Addresses are their 160-bit values; [ethCommon.Address{}] is 0. *)
Definition FeeCollectors : Type := gmap Z Dec.

Record instance := mkInstance {
  numShards : Z;
  numNodesPerShard : Z;
  numIntelchainOperatedNodesPerShard : Z;
  intelchainVotePercent : Dec;
  externalVotePercent : Dec;
  itcAccounts : list DeployAccount;
  fnAccounts : list DeployAccount;
  reshardingEpoch : list (option Z);
  blocksPerEpoch : Z;
  slotsLimit : Z;
  allowlist : Allowlist;
  feeCollectors : FeeCollectors;
  emissionFraction : Dec;
  recoveryAddress : Z
}.

(** ** Construction *)

(** [for _, v := range feeCollectors { total = total.Add(v) }] *)
Definition sum_fees (fc : FeeCollectors) : outcome Dec :=
  foldM (fun total kv => Dec.Add total kv.2) (map_to_list fc) ZeroDec.

Definition NewInstance (numShards numNodesPerShard numOperated slotsLimit : Z)
    (intelchainVotePercent : Dec) (itcAccounts fnAccounts : list DeployAccount)
    (allowlist : Allowlist) (feeCollectors : FeeCollectors)
    (emissionFractionToRecovery : Dec) (recoveryAddress : Z)
    (reshardingEpoch : list (option Z)) (blocksE : Z) : outcome instance :=
  if numShards <? 1 then Err "sharding config must have at least one shard"
  else if numNodesPerShard <? 1 then Err "each shard must have at least one node"
  else if numOperated <? 0 then Err "intelchain-operated nodes cannot be negative"
  else if numNodesPerShard <? numOperated then
    Err "number of intelchain-operated nodes cannot exceed overall number of nodes per shard"
  else if slotsLimit <? 0 then Err "SlotsLimit cannot be negative"
  else if LT intelchainVotePercent ZeroDec || GT intelchainVotePercent OneDec then
    Err "total voting power of intelchain nodes should be within [0, 1]"
  else
    let! _ := (if 0 <? Z.of_nat (size feeCollectors) then
        let! total := sum_fees feeCollectors in
        if negb (Dec.Equal total OneDec) then
          Err "total fee collection percentage should be 1"
        else Ok tt
      else Ok tt) in
    if LT emissionFractionToRecovery ZeroDec || GT emissionFractionToRecovery OneDec then
      Err "emission split must be within [0, 1]"
    else if negb (Dec.Equal emissionFractionToRecovery ZeroDec) && (recoveryAddress =? 0) then
      Err "have non-zero emission split but no target address"
    else if negb (recoveryAddress =? 0) && Dec.Equal emissionFractionToRecovery ZeroDec then
      Err "have target address but no emission split"
    else
      let! ext := Dec.Sub OneDec intelchainVotePercent in
      Ok {| numShards := numShards;
            numNodesPerShard := numNodesPerShard;
            numIntelchainOperatedNodesPerShard := numOperated;
            intelchainVotePercent := intelchainVotePercent;
            externalVotePercent := ext;
            itcAccounts := itcAccounts;
            fnAccounts := fnAccounts;
            reshardingEpoch := reshardingEpoch;
            blocksPerEpoch := blocksE;
            slotsLimit := slotsLimit;
            allowlist := allowlist;
            feeCollectors := feeCollectors;
            emissionFraction := emissionFractionToRecovery;
            recoveryAddress := recoveryAddress |}.

(** [float32]: binary floating point with 24 bits of precision; the three
    literals the schedules use. *)
Definition float32_zero : spec_float := S754_zero false.
Definition float32_0_06 : spec_float := S754_finite false 16106127 (-28).
Definition float32_0_15 : spec_float := S754_finite false 10066330 (-26).

(** [int(f)] truncates towards zero. *)
Definition float_to_int (f : spec_float) : Z :=
  match f with
  | S754_finite s m e =>
      let a := if 0 <=? e then Zpos m * 2 ^ e else Zpos m / 2 ^ (- e) in
      if s then - a else a
  | _ => 0
  end.

(** [int(float32(numNodesPerShard-numIntelchainOperatedNodesPerShard) * slotsLimitPercent)] *)
Definition slots_limit (numNodesPerShard numOperated : Z) (slotsLimitPercent : spec_float) : Z :=
  float_to_int
    (SFmul 24 128 (binary_normalize 24 128 (numNodesPerShard - numOperated) 0 false)
       slotsLimitPercent).

Definition MustNewInstance (numShards numNodesPerShard numOperated : Z)
    (slotsLimitPercent : spec_float) (intelchainVotePercent : Dec)
    (itcAccounts fnAccounts : list DeployAccount) (allowlist : Allowlist)
    (feeCollectors : FeeCollectors) (emissionFractionToRecovery : Dec)
    (recoveryAddress : Z) (reshardingEpoch : list (option Z)) (blocksPerEpoch : Z)
    : outcome instance :=
  let slotsLimit := slots_limit numNodesPerShard numOperated slotsLimitPercent in
  match NewInstance numShards numNodesPerShard numOperated slotsLimit intelchainVotePercent
          itcAccounts fnAccounts allowlist feeCollectors emissionFractionToRecovery
          recoveryAddress reshardingEpoch blocksPerEpoch with
  | Err e => Panic e
  | r => r
  end.

(** ** Accessors *)

Definition BlocksPerEpoch (sc : instance) : Z := sc.(blocksPerEpoch).
Definition NumShards (sc : instance) : Z := sc.(numShards).
Definition SlotsLimit (sc : instance) : Z := sc.(slotsLimit).
Definition IntelchainVotePercent (sc : instance) : Dec := sc.(intelchainVotePercent).
Definition ExternalVotePercent (sc : instance) : Dec := sc.(externalVotePercent).
Definition NumNodesPerShard (sc : instance) : Z := sc.(numNodesPerShard).
Definition NumIntelchainOperatedNodesPerShard (sc : instance) : Z :=
  sc.(numIntelchainOperatedNodesPerShard).
Definition ItcAccounts (sc : instance) : list DeployAccount := sc.(itcAccounts).
Definition FnAccounts (sc : instance) : list DeployAccount := sc.(fnAccounts).
Definition ReshardingEpoch (sc : instance) : list (option Z) := sc.(reshardingEpoch).
Definition ExternalAllowlist (sc : instance) : list string := sc.(allowlist).(BLSPublicKeys).
Definition ExternalAllowlistLimit (sc : instance) : Z := sc.(allowlist).(MaxLimitPerShard).
Definition HIP30RecoveryAddress (sc : instance) : Z := sc.(recoveryAddress).
Definition HIP30EmissionFraction (sc : instance) : Dec := sc.(emissionFraction).

(** One range loop of [FindAccount]: the first account with the key, its
    shard id rewritten to its index modulo [numShards], and its index. *)
Fixpoint find_account (numShards : Z) (blsPubKey : string) (i : Z) (l : list DeployAccount)
    : outcome (option (Z * DeployAccount)) :=
  match l with
  | [] => Ok None
  | item :: l' =>
      if Stdlib.Strings.String.eqb item.(daBLSPublicKey) blsPubKey then
        if numShards =? 0 then Panic "integer divide by zero"
        else Ok (Some (u32 i,
               {| daIndex := item.(daIndex); daAddress := item.(daAddress);
                  daBLSPublicKey := item.(daBLSPublicKey);
                  daShardID := u32 i mod numShards |}))
      else find_account numShards blsPubKey (i + 1) l'
  end.

Definition FindAccount (sc : instance) (blsPubKey : string)
    : outcome (bool * option DeployAccount) :=
  let! r := find_account sc.(numShards) blsPubKey 0 sc.(itcAccounts) in
  match r with
  | Some (i, item) => Ok (i <? sc.(numShards), Some item)
  | None =>
      let! r := find_account sc.(numShards) blsPubKey 0 sc.(fnAccounts) in
      match r with
      | Some (_, item) => Ok (false, Some item)
      | None => Ok (false, None)
      end
  end.

(** ** The sharding structure an RPC answers with *)

Record ShardLink := mkShardLink { slCurrent : bool; slShardID : Z; slHttp : string; slWs : string }.

(** [fmt.Sprintf(pattern, i)] for a pattern whose only verb is one [%d]. *)
Definition Sprint_int (i : Z) : string :=
  Stdlib.Strings.String.string_of_list_ascii
    (if i <? 0 then "-"%char :: MarshalText (- i) else MarshalText i).
Fixpoint Sprintf_d (pattern : string) (i : Z) : string :=
  match pattern with
  | EmptyString => EmptyString
  | String "%"%char (String "d"%char rest) => Stdlib.Strings.String.append (Sprint_int i) rest
  | String c rest => String c (Sprintf_d rest i)
  end.

Definition shard_range (shardNum : Z) : list Z := seqZ 0 shardNum.

Definition genShardingStructure (shardNum shardID : Z) (httpPattern wsPattern : string)
    : list ShardLink :=
  map (fun i => {| slCurrent := shardID =? i; slShardID := i;
                   slHttp := Sprintf_d httpPattern i; slWs := Sprintf_d wsPattern i |})
    (shard_range shardNum).

(** ** Schedules *)

Definition RewardFrequency_default : Z := 64.

(** The Go interface [Schedule]: a dictionary of its methods. *)
Record Schedule := mkSchedule {
  InstanceForEpoch : option Z -> outcome instance;
  CalcEpochNumber : Z -> outcome Z;
  IsLastBlock : Z -> outcome bool;
  EpochLastBlock : Z -> outcome Z;
  VdfDifficulty : Z;
  GetNetworkID : NetworkID;
  GetShardingStructure : Z -> Z -> list ShardLink;
  IsSkippedEpoch : Z -> option Z -> outcome bool;
  RewardFrequency : Z
}.

(** [p.Uint64()] of a [*big.Int], a nil pointer included. *)
Definition Uint64 (p : option Z) : outcome Z :=
  match p with Some x => Ok (Big.Uint64 x) | None => Panic "nil pointer dereference" end.

(** What a client of a schedule relies on, for the block numbers and the
    epochs (below [emax]) a chain can reach; past them [uint64] would wrap. *)
Definition block_ok (b : Z) : Prop := 0 <= b < 2 ^ 62.

Class ScheduleLaws (s : Schedule) (emax : Z) : Prop := {
  calc_total b : block_ok b -> exists e, CalcEpochNumber s b = Ok e /\ 0 <= e;
  calc_mono b1 b2 e1 e2 : block_ok b1 -> block_ok b2 -> b1 <= b2 ->
    CalcEpochNumber s b1 = Ok e1 -> CalcEpochNumber s b2 = Ok e2 -> e1 <= e2;
  last_total e : 0 <= e < emax ->
    exists l, EpochLastBlock s e = Ok l /\ block_ok l /\ block_ok (l + 1);
  last_in_epoch e l : 0 <= e < emax -> EpochLastBlock s e = Ok l ->
    CalcEpochNumber s l = Ok e /\ CalcEpochNumber s (l + 1) = Ok (e + 1);
  is_last_iff b e : block_ok b -> CalcEpochNumber s b = Ok e ->
    exists r, IsLastBlock s b = Ok r /\ (r = true <-> EpochLastBlock s e = Ok b);
  instance_total e : exists i, InstanceForEpoch s (Some e) = Ok i /\ 1 <= NumShards i
}.

(** ** Valid configurations *)

(** What [NewInstance] guarantees of the configuration it returns. *)
Definition instance_valid (i : instance) : bool :=
  (1 <=? i.(numShards)) && (1 <=? i.(numNodesPerShard)) &&
  (0 <=? i.(numIntelchainOperatedNodesPerShard)) &&
  (i.(numIntelchainOperatedNodesPerShard) <=? i.(numNodesPerShard)) &&
  (0 <=? i.(slotsLimit)) &&
  (0 <=? i.(intelchainVotePercent)) && (0 <=? i.(externalVotePercent)) &&
  (i.(intelchainVotePercent) + i.(externalVotePercent) =? OneDec) &&
  ((Z.of_nat (size i.(feeCollectors)) =? 0) ||
   (sumZ snd (map_to_list i.(feeCollectors)) =? OneDec)) &&
  (0 <=? i.(emissionFraction)) && (i.(emissionFraction) <=? OneDec) &&
  Bool.eqb (i.(emissionFraction) =? 0) (i.(recoveryAddress) =? 0).

Lemma sum_fees_Ok fc total : sum_fees fc = Ok total -> total = sumZ snd (map_to_list fc).
Proof.
  intros H.
  apply (foldM_inv (fun l t => t = sumZ snd l)) in H; [done|done|].
  intros d a b b' -> _ [-> _]%Add_Ok. rewrite sumZ_app, sumZ_cons. change (sumZ snd []) with 0. by rewrite Z.add_0_r.
Qed.

Lemma NewInstance_is_valid n nodes op sl pct itc fn al fc em rc re be i :
  NewInstance n nodes op sl pct itc fn al fc em rc re be = Ok i -> instance_valid i = true.
Proof.
  unfold NewInstance. intros H. outcome_inv.
  all: repeat match goal with
    | H : (_ || _)%bool = false |- _ => apply orb_false_iff in H as [? ?]
    | H : Dec.Sub _ _ = Ok _ |- _ => apply Sub_Ok in H as [-> _]
    end.
  all: unfold instance_valid, LT, GT, Dec.Equal in *; cbn [numShards numNodesPerShard
    numIntelchainOperatedNodesPerShard slotsLimit intelchainVotePercent externalVotePercent
    feeCollectors emissionFraction recoveryAddress].
  all: repeat (apply andb_true_intro; split); try (unfold ZeroDec, zeroInt in *; lia).
  all: try match goal with
    | H : negb ?a && ?b = false |- Bool.eqb _ _ = true =>
        unfold ZeroDec, zeroInt in *; destruct (em =? 0), (rc =? 0); simpl in *; congruence
    end.
  - apply sum_fees_Ok in H; subst. apply negb_false_iff in Heqb9.
    apply orb_true_intro. right. exact Heqb9.
  - apply orb_true_intro. left. apply Z.ltb_ge in Heqb8.
    by apply Z.eqb_eq, Z.le_antisymm; [|apply Nat2Z.is_nonneg].
Qed.

Lemma MustNewInstance_valid n nodes op pct32 pct itc fn al fc em rc re be i :
  MustNewInstance n nodes op pct32 pct itc fn al fc em rc re be = Ok i -> instance_valid i = true.
Proof.
  unfold MustNewInstance. destruct (NewInstance _ _ _ _ _ _ _ _ _ _ _ _ _) eqn:E; intros [= <-].
  by eapply NewInstance_is_valid.
Qed.

(** ** Account lookup *)

Definition same_account (a b : DeployAccount) : Prop :=
  a.(daIndex) = b.(daIndex) /\ a.(daAddress) = b.(daAddress) /\
  a.(daBLSPublicKey) = b.(daBLSPublicKey).

(** The first account of a table with a key, at a position. *)
Definition first_with (key : string) (l : list DeployAccount) (j : nat) (a : DeployAccount) : Prop :=
  l !! j = Some a /\ a.(daBLSPublicKey) = key /\
  forall j' a', (j' < j)%nat -> l !! j' = Some a' -> a'.(daBLSPublicKey) <> key.

Lemma find_account_spec n key i l : 0 < n ->
  (find_account n key i l = Ok None /\ Forall (fun a => a.(daBLSPublicKey) <> key) l) \/
  (exists j a item, find_account n key i l = Ok (Some (u32 (i + Z.of_nat j), item)) /\
    first_with key l j a /\ same_account item a /\ item.(daShardID) = u32 (i + Z.of_nat j) mod n).
Proof.
  intros Hn. revert i. induction l as [|a l IH]; intros i; [by left|]. cbn [find_account].
  rewrite (proj2 (Z.eqb_neq n 0)) by lia.
  destruct (Stdlib.Strings.String.eqb_spec (daBLSPublicKey a) key) as [E|E].
  - right. exists 0%nat, a. eexists. rewrite Z.add_0_r. split; [done|].
    split; [|done]. split; [done|]. split; [done|]. intros; lia.
  - destruct (IH (i + 1)) as [[-> ?]|(j & b & item & -> & (Hj & Hb & Hm) & ? & ?)];
      [left; by auto using Forall_cons_2|].
    right. exists (S j), b, item. replace (i + Z.of_nat (S j)) with (i + 1 + Z.of_nat j) by lia.
    split; [done|]. split; [|done]. split; [done|]. split; [done|].
    intros [|j'] a' ?; cbn; [by intros [= <-]|]. intros; eapply Hm; [|done]; lia.
Qed.

(** [FindAccount] of a valid configuration never fails.  It answers with
    the first Intelchain account holding the key, else with the first
    foundational one, on the shard given by the account's position, which is a
    shard that exists; it says "leader" exactly when that position is below
    the number of shards in the Intelchain table; and it finds nothing only
    when no account has the key. *)
Theorem FindAccount_spec sc key :
  instance_valid sc = true ->
  Z.of_nat (length sc.(itcAccounts)) < 2 ^ 32 -> Z.of_nat (length sc.(fnAccounts)) < 2 ^ 32 ->
  (exists j a item,
    FindAccount sc key = Ok (Z.of_nat j <? sc.(numShards), Some item) /\
    first_with key sc.(itcAccounts) j a /\ same_account item a /\
    item.(daShardID) = Z.of_nat j mod sc.(numShards) /\ 0 <= item.(daShardID) < sc.(numShards)) \/
  (exists j a item,
    FindAccount sc key = Ok (false, Some item) /\
    Forall (fun a => a.(daBLSPublicKey) <> key) sc.(itcAccounts) /\
    first_with key sc.(fnAccounts) j a /\ same_account item a /\
    item.(daShardID) = Z.of_nat j mod sc.(numShards) /\ 0 <= item.(daShardID) < sc.(numShards)) \/
  (FindAccount sc key = Ok (false, None) /\
    Forall (fun a => a.(daBLSPublicKey) <> key) (sc.(itcAccounts) ++ sc.(fnAccounts))).
Proof.
  intros Hv Hi Hf. assert (1 <= numShards sc) as Hn.
  { unfold instance_valid in Hv. repeat (apply andb_prop in Hv as [Hv _]). lia. }
  assert (forall (l : list DeployAccount) j a,
    Z.of_nat (length l) < 2 ^ 32 -> l !! j = Some a -> u32 (0 + Z.of_nat j) = Z.of_nat j) as Hu.
  { intros l j a Hl Hj. apply lookup_lt_Some in Hj. unfold u32. rewrite Z.mod_small; lia. }
  pose proof (fun x => Z.mod_pos_bound x (numShards sc) ltac:(lia)) as Hmod.
  unfold FindAccount.
  destruct (find_account_spec (numShards sc) key 0 (itcAccounts sc)) as
    [[-> Hno]|(j & a & item & -> & Hfst & Hsame & Hsh)]; [lia| |].
  - right. rewrite bind_ret.
    destruct (find_account_spec (numShards sc) key 0 (fnAccounts sc)) as
      [[-> Hno']|(j & a & item & -> & Hfst & Hsame & Hsh)]; [lia| |]; rewrite bind_ret.
    + right. split; [done|]. by apply Forall_app.
    + left. exists j, a, item. pose proof Hfst as [Hj _].
      rewrite (Hu _ _ _ Hf Hj) in Hsh. rewrite Hsh. split_and!; first [done|apply Hsame|apply Hmod|apply Hfst].
  - left. exists j, a, item. rewrite bind_ret. pose proof Hfst as [Hj _].
    rewrite (Hu _ _ _ Hi Hj) in *. rewrite Hsh. split_and!; first [done|apply Hsame|apply Hmod|apply Hfst].
Qed.

Lemma FindAccount_spec_witness :
  let sc := mkInstance 2 4 4 OneDec 0 [mkDeployAccount "0" "a0" "k0" 0; mkDeployAccount "1" "a1" "k1" 0;
    mkDeployAccount "2" "a2" "k2" 0] [] [] 16 0 emptyAllowlist ∅ 0 0 in
  instance_valid sc = true /\ exists item, FindAccount sc "k2" = Ok (false, Some item).
Proof.
  intros sc. split; [by vm_compute|].
  destruct (FindAccount_spec sc "k2") as [(j & a & item & H & (Hj & Hk & _) & _)|[(j & a & item & H & Hn & _)|[H Hn]]];
    [by vm_compute|by vm_compute|by vm_compute| | |].
  - exists item. rewrite H. destruct j as [|[|[|j]]]; cbn in Hj; [..|done]; injection Hj as <-; done.
  - by exists item.
  - exfalso. do 2 (apply Forall_cons in Hn as [_ Hn]). by apply Forall_cons in Hn as [Hn _].
Defined.
