(* ===== verification/Networks.v ===== *)
(** * The networks' sharding schedules (internal/configs/sharding)

    For each network: its constants, its configuration instances, its
    [InstanceForEpoch], and its block/epoch arithmetic on [uint64], as
    mainnet.go, testnet.go, localnet.go, partner.go, pangaea.go, stress.go and
    fixedschedule.go have them.  The second half proves that every network's
    schedule keeps [ScheduleLaws], by reducing its arithmetic to a piecewise
    linear reference ([Epochs]). *)
From S2P Require Import Prelude Dec DecText Params Sharding.
Local Open Scope Z_scope.

(** A Go [switch] without a tag: the first case that holds. *)
Fixpoint switch {A : Type} (cases : list (outcome bool * outcome A)%type) (dflt : outcome A) : outcome A :=
  match cases with
  | [] => dflt
  | (c, a) :: rest => let! (b : bool) := c in if b then a else switch rest dflt
  end.

(** [mustAddress] parses a hexadecimal address: the numerals below are its results. *)
Definition feeCollectorsMainnet : outcome FeeCollectors :=
  let! d1 := MustNewDecFromStr "0.5" in
  let! d2 := MustNewDecFromStr "0.5" in
  Ok (<[0xbdFeE8587d347Cd8df002E6154763325265Fa84c := d2]> (<[0xa0c395A83503ad89613E43397e9fE1f8E93B6384 := d1]> ∅)).
Definition hip30CollectionAddress : Z := 0xD8194284df879f465ed61DBA6fa8300940cacEA3.
Definition feeCollectorsTestnet : outcome FeeCollectors :=
  let! d1 := MustNewDecFromStr "0.5" in
  let! d2 := MustNewDecFromStr "0.5" in
  Ok (<[0xb41B6B8d9e68fD44caC8342BC2EEf4D59531d7d7 := d2]> (<[0xb728AEaBF60fD01816ee9e756c18bc01dC91ba5D := d1]> ∅)).
Definition hip30CollectionAddressTestnet : Z := 0x58dB8BeCe892F343350D125ff22B242784a8BA38.
Definition feeCollectorsLocalnet : outcome FeeCollectors :=
  let! d1 := MustNewDecFromStr "0.5" in
  let! d2 := MustNewDecFromStr "0.5" in
  Ok (<[0x1563915e194D8CfBA1943570603F7606A3115508 := d2]> (<[0x19E7E376E7C213B7E7e7e46cc70A5dD086DAff2A := d1]> ∅)).
Definition hip30CollectionAddressLocalnet : Z := 0x5CbDd86a2FA8Dc4bDdd8a8f69dBa48572EeC07FB.
Definition feeCollectorsDevnet_1 : outcome FeeCollectors :=
  let! d1 := MustNewDecFromStr "0.5" in
  let! d2 := MustNewDecFromStr "0.5" in
  Ok (<[0xb41B6B8d9e68fD44caC8342BC2EEf4D59531d7d7 := d2]> (<[0xb728AEaBF60fD01816ee9e756c18bc01dC91ba5D := d1]> ∅)).

Section networks.

(** The contents of the account tables of internal/genesis. *)
Context (accounts : AccountTable -> list DeployAccount).

(** ** mainnet.go *)

Definition mainnetEpochBlock1 : Z := 344064.
Definition blocksPerEpoch : Z := 16384.
Definition blocksPerEpochV2 : Z := 32768.
Definition mainnetVdfDifficulty : Z := 50000.
Definition mainnetV0_1Epoch : Z := 1.
Definition mainnetV0_2Epoch : Z := 5.
Definition mainnetV0_3Epoch : Z := 8.
Definition mainnetV0_4Epoch : Z := 10.
Definition mainnetV1Epoch : Z := 12.
Definition mainnetV1_1Epoch : Z := 19.
Definition mainnetV1_2Epoch : Z := 25.
Definition mainnetV1_3Epoch : Z := 36.
Definition mainnetV1_4Epoch : Z := 46.
Definition mainnetV1_5Epoch : Z := 54.
Definition mainnetV2_0Epoch : Z := 185.
Definition mainnetV2_1Epoch : Z := 208.
Definition mainnetV2_2Epoch : Z := 231.
Definition MainNetHTTPPattern : string := "https://api.s%d.t.intelchain.org".
Definition MainNetWSPattern : string := "wss://ws.s%d.t.intelchain.org".

Definition mainnet_BlocksPerEpochOld : Z := blocksPerEpoch.
Definition mainnet_BlocksPerEpoch : Z := blocksPerEpochV2.

Definition mainnetReshardingEpoch : list (option Z) := [
    Some 0; Some mainnetV0_1Epoch; Some mainnetV0_2Epoch; Some mainnetV0_3Epoch;
    Some mainnetV0_4Epoch; Some mainnetV1Epoch; Some mainnetV1_1Epoch;
    Some mainnetV1_2Epoch; Some mainnetV1_3Epoch; Some mainnetV1_4Epoch;
    Some mainnetV1_5Epoch; Some mainnetV2_0Epoch; Some mainnetV2_1Epoch;
    Some mainnetV2_2Epoch; MainnetChainConfig.(TwoSecondsEpoch);
    MainnetChainConfig.(SixtyPercentEpoch); MainnetChainConfig.(HIP6And8Epoch)].

Definition mainnetV0 : outcome instance :=
  MustNewInstance 4 150 112 float32_zero OneDec
    (accounts IntelchainAccounts) (accounts FoundationalNodeAccounts)
    emptyAllowlist ∅ ZeroDec 0
    mainnetReshardingEpoch mainnet_BlocksPerEpochOld.

Definition mainnetV0_1 : outcome instance :=
  MustNewInstance 4 152 112 float32_zero OneDec
    (accounts IntelchainAccounts) (accounts FoundationalNodeAccountsV0_1)
    emptyAllowlist ∅ ZeroDec 0
    mainnetReshardingEpoch mainnet_BlocksPerEpochOld.

Definition mainnetV0_2 : outcome instance :=
  MustNewInstance 4 200 148 float32_zero OneDec
    (accounts IntelchainAccounts) (accounts FoundationalNodeAccountsV0_2)
    emptyAllowlist ∅ ZeroDec 0
    mainnetReshardingEpoch mainnet_BlocksPerEpochOld.

Definition mainnetV0_3 : outcome instance :=
  MustNewInstance 4 210 148 float32_zero OneDec
    (accounts IntelchainAccounts) (accounts FoundationalNodeAccountsV0_3)
    emptyAllowlist ∅ ZeroDec 0
    mainnetReshardingEpoch mainnet_BlocksPerEpochOld.

Definition mainnetV0_4 : outcome instance :=
  MustNewInstance 4 216 148 float32_zero OneDec
    (accounts IntelchainAccounts) (accounts FoundationalNodeAccountsV0_4)
    emptyAllowlist ∅ ZeroDec 0
    mainnetReshardingEpoch mainnet_BlocksPerEpochOld.

Definition mainnetV1 : outcome instance :=
  MustNewInstance 4 250 170 float32_zero OneDec
    (accounts IntelchainAccounts) (accounts FoundationalNodeAccountsV1)
    emptyAllowlist ∅ ZeroDec 0
    mainnetReshardingEpoch mainnet_BlocksPerEpochOld.

Definition mainnetV1_1 : outcome instance :=
  MustNewInstance 4 250 170 float32_zero OneDec
    (accounts IntelchainAccounts) (accounts FoundationalNodeAccountsV1_1)
    emptyAllowlist ∅ ZeroDec 0
    mainnetReshardingEpoch mainnet_BlocksPerEpochOld.

Definition mainnetV1_2 : outcome instance :=
  MustNewInstance 4 250 170 float32_zero OneDec
    (accounts IntelchainAccounts) (accounts FoundationalNodeAccountsV1_2)
    emptyAllowlist ∅ ZeroDec 0
    mainnetReshardingEpoch mainnet_BlocksPerEpochOld.

Definition mainnetV1_3 : outcome instance :=
  MustNewInstance 4 250 170 float32_zero OneDec
    (accounts IntelchainAccounts) (accounts FoundationalNodeAccountsV1_3)
    emptyAllowlist ∅ ZeroDec 0
    mainnetReshardingEpoch mainnet_BlocksPerEpochOld.

Definition mainnetV1_4 : outcome instance :=
  MustNewInstance 4 250 170 float32_zero OneDec
    (accounts IntelchainAccounts) (accounts FoundationalNodeAccountsV1_4)
    emptyAllowlist ∅ ZeroDec 0
    mainnetReshardingEpoch mainnet_BlocksPerEpochOld.

Definition mainnetV1_5 : outcome instance :=
  MustNewInstance 4 250 170 float32_zero OneDec
    (accounts IntelchainAccounts) (accounts FoundationalNodeAccountsV1_5)
    emptyAllowlist ∅ ZeroDec 0
    mainnetReshardingEpoch mainnet_BlocksPerEpochOld.

Definition mainnetV2_0 : outcome instance :=
  let! d1 := MustNewDecFromStr "0.68" in
  MustNewInstance 4 250 170 float32_zero d1
    (accounts IntelchainAccounts) (accounts FoundationalNodeAccountsV1_5)
    emptyAllowlist ∅ ZeroDec 0
    mainnetReshardingEpoch mainnet_BlocksPerEpochOld.

Definition mainnetV2_1 : outcome instance :=
  let! d1 := MustNewDecFromStr "0.68" in
  MustNewInstance 4 250 130 float32_zero d1
    (accounts IntelchainAccounts) (accounts FoundationalNodeAccountsV1_5)
    emptyAllowlist ∅ ZeroDec 0
    mainnetReshardingEpoch mainnet_BlocksPerEpochOld.

Definition mainnetV2_2 : outcome instance :=
  let! d1 := MustNewDecFromStr "0.68" in
  MustNewInstance 4 250 90 float32_zero d1
    (accounts IntelchainAccounts) (accounts FoundationalNodeAccountsV1_5)
    emptyAllowlist ∅ ZeroDec 0
    mainnetReshardingEpoch mainnet_BlocksPerEpochOld.

Definition mainnetV3 : outcome instance :=
  let! d1 := MustNewDecFromStr "0.68" in
  MustNewInstance 4 250 90 float32_zero d1
    (accounts IntelchainAccounts) (accounts FoundationalNodeAccountsV1_5)
    emptyAllowlist ∅ ZeroDec 0
    mainnetReshardingEpoch mainnet_BlocksPerEpoch.

Definition mainnetV3_1 : outcome instance :=
  let! d1 := MustNewDecFromStr "0.60" in
  MustNewInstance 4 250 50 float32_zero d1
    (accounts IntelchainAccounts) (accounts FoundationalNodeAccountsV1_5)
    emptyAllowlist ∅ ZeroDec 0
    mainnetReshardingEpoch mainnet_BlocksPerEpoch.

Definition mainnetV3_2 : outcome instance :=
  let! d1 := MustNewDecFromStr "0.49" in
  MustNewInstance 4 250 25 float32_zero d1
    (accounts IntelchainAccounts) (accounts FoundationalNodeAccountsV1_5)
    emptyAllowlist ∅ ZeroDec 0
    mainnetReshardingEpoch mainnet_BlocksPerEpoch.

Definition mainnetV3_3 : outcome instance :=
  let! d1 := MustNewDecFromStr "0.49" in
  MustNewInstance 4 250 25 float32_0_06 d1
    (accounts IntelchainAccounts) (accounts FoundationalNodeAccountsV1_5)
    emptyAllowlist ∅ ZeroDec 0
    mainnetReshardingEpoch mainnet_BlocksPerEpoch.

Definition mainnetV3_4 : outcome instance :=
  let! d1 := MustNewDecFromStr "0.49" in
  let! fc := feeCollectorsMainnet in
  MustNewInstance 4 250 25 float32_0_06 d1
    (accounts IntelchainAccounts) (accounts FoundationalNodeAccountsV1_5)
    emptyAllowlist fc ZeroDec 0
    mainnetReshardingEpoch mainnet_BlocksPerEpoch.

Definition mainnetV4 : outcome instance :=
  let! d1 := MustNewDecFromStr "0.49" in
  let! fc := feeCollectorsMainnet in
  let! d3 := MustNewDecFromStr "0.25" in
  MustNewInstance 2 200 20 float32_0_06 d1
    (accounts IntelchainAccountsPostHIP30) (accounts FoundationalNodeAccountsV1_5)
    emptyAllowlist fc d3 hip30CollectionAddress
    mainnetReshardingEpoch mainnet_BlocksPerEpoch.

Definition mainnet_InstanceForEpoch (epoch : option Z) : outcome instance :=
  switch [
    (Ok (IsHIP30 MainnetChainConfig epoch), mainnetV4);
    (Ok (IsFeeCollectEpoch MainnetChainConfig epoch), mainnetV3_4);
    (Ok (IsSlotsLimited MainnetChainConfig epoch), mainnetV3_3);
    (Ok (IsHIP6And8Epoch MainnetChainConfig epoch), mainnetV3_2);
    (Ok (IsSixtyPercent MainnetChainConfig epoch), mainnetV3_1);
    (Ok (IsTwoSeconds MainnetChainConfig epoch), mainnetV3);
    (Cmp Z.geb epoch (Some mainnetV2_2Epoch), mainnetV2_2);
    (Cmp Z.geb epoch (Some mainnetV2_1Epoch), mainnetV2_1);
    (Cmp Z.geb epoch (Some mainnetV2_0Epoch), mainnetV2_0);
    (Cmp Z.geb epoch (Some mainnetV1_5Epoch), mainnetV1_5);
    (Cmp Z.geb epoch (Some mainnetV1_4Epoch), mainnetV1_4);
    (Cmp Z.geb epoch (Some mainnetV1_3Epoch), mainnetV1_3);
    (Cmp Z.geb epoch (Some mainnetV1_2Epoch), mainnetV1_2);
    (Cmp Z.geb epoch (Some mainnetV1_1Epoch), mainnetV1_1);
    (Cmp Z.geb epoch (Some mainnetV1Epoch), mainnetV1);
    (Cmp Z.geb epoch (Some mainnetV0_4Epoch), mainnetV0_4);
    (Cmp Z.geb epoch (Some mainnetV0_3Epoch), mainnetV0_3);
    (Cmp Z.geb epoch (Some mainnetV0_2Epoch), mainnetV0_2);
    (Cmp Z.geb epoch (Some mainnetV0_1Epoch), mainnetV0_1)
  ] mainnetV0.

Definition mainnet_twoSecondsFirstBlock : outcome Z :=
  let! t := Uint64 MainnetChainConfig.(TwoSecondsEpoch) in
  if t =? 0 then Ok 0
  else Ok (u64 (u64 (u64 (t - 1) * mainnet_BlocksPerEpochOld) + mainnetEpochBlock1)).

Definition mainnet_CalcEpochNumber (blockNum : Z) : outcome Z :=
  let oldEpochNumber :=
    if mainnetEpochBlock1 <=? blockNum
    then i64 (i64 (u64 (blockNum - mainnetEpochBlock1) / mainnet_BlocksPerEpochOld) + 1)
    else 0 in
  let! firstBlock2s := mainnet_twoSecondsFirstBlock in
  if IsTwoSeconds MainnetChainConfig (Some oldEpochNumber) then
    let! t := Uint64 MainnetChainConfig.(TwoSecondsEpoch) in
    Ok (i64 (u64 (u64 (blockNum - firstBlock2s) / mainnet_BlocksPerEpoch + t)))
  else Ok oldEpochNumber.

Definition mainnet_IsLastBlock (blockNum : Z) : outcome bool :=
  if blockNum <? mainnetEpochBlock1 - 1 then Ok false
  else if blockNum =? mainnetEpochBlock1 - 1 then Ok true
  else
    let! firstBlock2s := mainnet_twoSecondsFirstBlock in
    if firstBlock2s <=? blockNum then
      Ok (u64 (blockNum - firstBlock2s) mod mainnet_BlocksPerEpoch
          =? u64 (mainnet_BlocksPerEpoch - 1))
    else
      Ok (u64 (blockNum - mainnetEpochBlock1) mod mainnet_BlocksPerEpochOld
          =? u64 (mainnet_BlocksPerEpochOld - 1)).

Definition mainnet_EpochLastBlock (epochNum : Z) : outcome Z :=
  if epochNum =? 0 then Ok (mainnetEpochBlock1 - 1)
  else
    let! firstBlock2s := mainnet_twoSecondsFirstBlock in
    if IsTwoSeconds MainnetChainConfig (Some (i64 epochNum)) then
      let! t := Uint64 MainnetChainConfig.(TwoSecondsEpoch) in
      Ok (u64 (u64 (firstBlock2s - 1)
               + u64 (mainnet_BlocksPerEpoch * u64 (u64 (epochNum - t) + 1))))
    else Ok (u64 (mainnetEpochBlock1 - 1 + u64 (mainnet_BlocksPerEpochOld * epochNum))).

(** Epochs skipped on a shard when staking launched. *)
Definition skippedEpochs : gmap Z (list Z) :=
  list_to_map [(1, [181; 182; 183; 184; 185]); (2, [184; 185]); (3, [183; 184; 185])].
Definition mainnet_IsSkippedEpoch (shardID : Z) (epoch : option Z) : outcome bool :=
  match skippedEpochs !! shardID with
  | Some skipped =>
      match epoch with
      | None => Panic "nil pointer dereference"
      | Some e => Ok (existsb (Z.eqb e) skipped)
      end
  | None => Ok false
  end.

Definition mainnet_VdfDifficulty : Z := mainnetVdfDifficulty.
Definition mainnet_GetNetworkID : NetworkID := MainNet.
Definition mainnet_GetShardingStructure (numShard shardID : Z) : list ShardLink :=
  genShardingStructure numShard shardID MainNetHTTPPattern MainNetWSPattern.
Definition mainnet_RewardFrequency : Z := RewardFrequency_default.
Definition mainnetSchedule : Schedule := {|
  InstanceForEpoch := mainnet_InstanceForEpoch; CalcEpochNumber := mainnet_CalcEpochNumber;
  IsLastBlock := mainnet_IsLastBlock; EpochLastBlock := mainnet_EpochLastBlock;
  VdfDifficulty := mainnet_VdfDifficulty; GetNetworkID := mainnet_GetNetworkID;
  GetShardingStructure := mainnet_GetShardingStructure; IsSkippedEpoch := mainnet_IsSkippedEpoch;
  RewardFrequency := mainnet_RewardFrequency
|}.

(** ** testnet.go *)

Definition ninetyPercentEpoch : Z := 399.
Definition shardReductionEpoch : Z := 486.
Definition testnetBlocksPerEpoch : Z := 38.
Definition testnetBlocksPerEpochV2 : Z := 8192.
Definition testnetVdfDifficulty : Z := 10000.
Definition TestNetHTTPPattern : string := "https://api.s%d.b.hmny.io".
Definition TestNetWSPattern : string := "wss://ws.s%d.b.hmny.io".

Definition testnet_BlocksPerEpochOld : Z := testnetBlocksPerEpoch.
Definition testnet_BlocksPerEpoch : Z := testnetBlocksPerEpochV2.

Definition testnetReshardingEpoch : list (option Z) := [
    Some 0; TestnetChainConfig.(StakingEpoch); TestnetChainConfig.(TwoSecondsEpoch)].

Definition testnetV0 : outcome instance :=
  MustNewInstance 4 8 8 float32_zero OneDec
    (accounts TNIntelchainAccounts) (accounts TNFoundationalAccounts)
    emptyAllowlist ∅ ZeroDec 0
    testnetReshardingEpoch testnet_BlocksPerEpoch.

Definition testnetV1 : outcome instance :=
  let! d1 := MustNewDecFromStr "0.70" in
  MustNewInstance 4 30 8 float32_0_15 d1
    (accounts TNIntelchainAccounts) (accounts TNFoundationalAccounts)
    emptyAllowlist ∅ ZeroDec 0
    testnetReshardingEpoch testnet_BlocksPerEpoch.

Definition testnetV2 : outcome instance :=
  let! d1 := MustNewDecFromStr "0.90" in
  MustNewInstance 4 30 8 float32_0_15 d1
    (accounts TNIntelchainAccounts) (accounts TNFoundationalAccounts)
    emptyAllowlist ∅ ZeroDec 0
    testnetReshardingEpoch testnet_BlocksPerEpoch.

Definition testnetV3 : outcome instance :=
  let! d1 := MustNewDecFromStr "0.90" in
  MustNewInstance 2 30 8 float32_0_15 d1
    (accounts TNIntelchainAccountsV1) (accounts TNFoundationalAccounts)
    emptyAllowlist ∅ ZeroDec 0
    testnetReshardingEpoch testnet_BlocksPerEpoch.

Definition testnetV4 : outcome instance :=
  let! d1 := MustNewDecFromStr "0.90" in
  let! fc := feeCollectorsTestnet in
  MustNewInstance 2 30 8 float32_0_15 d1
    (accounts TNIntelchainAccountsV1) (accounts TNFoundationalAccounts)
    emptyAllowlist fc ZeroDec 0
    testnetReshardingEpoch testnet_BlocksPerEpoch.

Definition testnetV5 : outcome instance :=
  let! d1 := MustNewDecFromStr "0.90" in
  let! fc := feeCollectorsTestnet in
  let! d3 := MustNewDecFromStr "0.25" in
  MustNewInstance 2 30 8 float32_0_15 d1
    (accounts TNIntelchainAccountsV1) (accounts TNFoundationalAccounts)
    emptyAllowlist fc d3 hip30CollectionAddressTestnet
    testnetReshardingEpoch testnet_BlocksPerEpoch.

Definition testnetV6 : outcome instance :=
  let! d1 := MustNewDecFromStr "0.0" in
  let! fc := feeCollectorsTestnet in
  let! d3 := MustNewDecFromStr "0.25" in
  MustNewInstance 2 30 0 float32_zero d1
    (accounts TNIntelchainAccountsV1) (accounts TNFoundationalAccounts)
    emptyAllowlist fc d3 hip30CollectionAddressTestnet
    testnetReshardingEpoch testnet_BlocksPerEpoch.

Definition testnetV6_1 : outcome instance :=
  let! d1 := MustNewDecFromStr "0.9" in
  let! fc := feeCollectorsTestnet in
  let! d3 := MustNewDecFromStr "0.25" in
  MustNewInstance 2 30 0 float32_zero d1
    (accounts TNIntelchainAccountsV1) (accounts TNFoundationalAccounts)
    emptyAllowlist fc d3 hip30CollectionAddressTestnet
    testnetReshardingEpoch testnet_BlocksPerEpoch.

Definition testnetV6_2 : outcome instance :=
  let! d1 := MustNewDecFromStr "0.9" in
  let! fc := feeCollectorsTestnet in
  let! d3 := MustNewDecFromStr "0.25" in
  MustNewInstance 2 30 8 float32_zero d1
    (accounts TNIntelchainAccountsV1) (accounts TNFoundationalAccounts)
    emptyAllowlist fc d3 hip30CollectionAddressTestnet
    testnetReshardingEpoch testnet_BlocksPerEpoch.

Definition testnet_InstanceForEpoch (epoch : option Z) : outcome instance :=
  switch [
    (Cmp Z.geb epoch (Some 3392), testnetV6_2);
    (Cmp Z.geb epoch (Some 3388), testnetV6_1);
    (Ok (IsTestnetExternalEpoch TestnetChainConfig epoch), testnetV6);
    (Ok (IsHIP30 TestnetChainConfig epoch), testnetV5);
    (Ok (IsFeeCollectEpoch TestnetChainConfig epoch), testnetV4);
    (Cmp Z.geb epoch (Some shardReductionEpoch), testnetV3);
    (Cmp Z.geb epoch (Some ninetyPercentEpoch), testnetV2);
    (Ok (IsStaking TestnetChainConfig epoch), testnetV1)
  ] testnetV0.

Definition testnet_CalcEpochNumber (blockNum : Z) : outcome Z :=
  let! t := Uint64 TestnetChainConfig.(TwoSecondsEpoch) in
  let firstBlock2s := u64 (t * testnet_BlocksPerEpochOld) in
  if firstBlock2s <=? blockNum then
    Ok (i64 (u64 (u64 (blockNum - firstBlock2s) / testnet_BlocksPerEpoch + t)))
  else Ok (i64 (blockNum / testnet_BlocksPerEpochOld)).

Definition testnet_IsLastBlock (blockNum : Z) : outcome bool :=
  let! t := Uint64 TestnetChainConfig.(TwoSecondsEpoch) in
  let firstBlock2s := u64 (t * testnet_BlocksPerEpochOld) in
  if firstBlock2s <=? blockNum then
    Ok (u64 (blockNum - firstBlock2s) mod testnet_BlocksPerEpoch
        =? u64 (testnet_BlocksPerEpoch - 1))
  else Ok (u64 (blockNum + 1) mod testnet_BlocksPerEpochOld =? 0).

Definition testnet_EpochLastBlock (epochNum : Z) : outcome Z :=
  let! t := Uint64 TestnetChainConfig.(TwoSecondsEpoch) in
  let firstBlock2s := u64 (t * testnet_BlocksPerEpochOld) in
  if IsTwoSeconds TestnetChainConfig (Some (i64 epochNum)) then
    Ok (u64 (u64 (firstBlock2s - 1)
             + u64 (testnet_BlocksPerEpoch * u64 (u64 (epochNum - t) + 1))))
  else Ok (u64 (u64 (testnet_BlocksPerEpochOld * u64 (epochNum + 1)) - 1)).

Definition testnet_VdfDifficulty : Z := testnetVdfDifficulty.
Definition testnet_GetNetworkID : NetworkID := TestNet.
Definition testnet_GetShardingStructure (numShard shardID : Z) : list ShardLink :=
  genShardingStructure numShard shardID TestNetHTTPPattern TestNetWSPattern.
Definition testnet_IsSkippedEpoch (shardID : Z) (epoch : option Z) : outcome bool := Ok false.
Definition testnet_RewardFrequency : Z := RewardFrequency_default.
Definition testnetSchedule : Schedule := {|
  InstanceForEpoch := testnet_InstanceForEpoch; CalcEpochNumber := testnet_CalcEpochNumber;
  IsLastBlock := testnet_IsLastBlock; EpochLastBlock := testnet_EpochLastBlock;
  VdfDifficulty := testnet_VdfDifficulty; GetNetworkID := testnet_GetNetworkID;
  GetShardingStructure := testnet_GetShardingStructure; IsSkippedEpoch := testnet_IsSkippedEpoch;
  RewardFrequency := testnet_RewardFrequency
|}.

(** ** localnet.go *)

Definition localnetV1Epoch : Z := 1.
Definition localnetEpochBlock1 : Z := 5.
Definition localnetBlocksPerEpoch : Z := 16.
Definition localnetBlocksPerEpochV2 : Z := 16.
Definition localnetVdfDifficulty : Z := 5000.

Definition localnet_BlocksPerEpochOld : Z := localnetBlocksPerEpoch.
Definition localnet_BlocksPerEpoch : Z := localnetBlocksPerEpochV2.

Definition localnetReshardingEpoch : list (option Z) := [
    Some 0; Some localnetV1Epoch; LocalnetChainConfig.(StakingEpoch);
    LocalnetChainConfig.(TwoSecondsEpoch)].

Definition localnetV0 : outcome instance :=
  MustNewInstance 2 7 5 float32_zero OneDec
    (accounts LocalIntelchainAccounts) (accounts LocalFnAccounts)
    emptyAllowlist ∅ ZeroDec 0
    localnetReshardingEpoch localnet_BlocksPerEpochOld.

Definition localnetV1 : outcome instance :=
  MustNewInstance 2 8 5 float32_zero OneDec
    (accounts LocalIntelchainAccountsV1) (accounts LocalFnAccountsV1)
    emptyAllowlist ∅ ZeroDec 0
    localnetReshardingEpoch localnet_BlocksPerEpochOld.

Definition localnetV2 : outcome instance :=
  let! d1 := MustNewDecFromStr "0.68" in
  MustNewInstance 2 9 6 float32_zero d1
    (accounts LocalIntelchainAccountsV2) (accounts LocalFnAccountsV2)
    emptyAllowlist ∅ ZeroDec 0
    localnetReshardingEpoch localnet_BlocksPerEpochOld.

Definition localnetV3 : outcome instance :=
  let! d1 := MustNewDecFromStr "0.68" in
  MustNewInstance 2 9 6 float32_zero d1
    (accounts LocalIntelchainAccountsV2) (accounts LocalFnAccountsV2)
    emptyAllowlist ∅ ZeroDec 0
    localnetReshardingEpoch localnet_BlocksPerEpoch.

Definition localnetV3_1 : outcome instance :=
  let! d1 := MustNewDecFromStr "0.68" in
  MustNewInstance 2 9 6 float32_zero d1
    (accounts LocalIntelchainAccountsV2) (accounts LocalFnAccountsV2)
    emptyAllowlist ∅ ZeroDec 0
    localnetReshardingEpoch localnet_BlocksPerEpoch.

Definition localnetV3_2 : outcome instance :=
  let! d1 := MustNewDecFromStr "0.68" in
  let! fc := feeCollectorsLocalnet in
  MustNewInstance 2 9 6 float32_zero d1
    (accounts LocalIntelchainAccountsV2) (accounts LocalFnAccountsV2)
    emptyAllowlist fc ZeroDec 0
    localnetReshardingEpoch localnet_BlocksPerEpoch.

Definition localnetV4 : outcome instance :=
  let! d1 := MustNewDecFromStr "0.68" in
  let! fc := feeCollectorsLocalnet in
  let! d3 := MustNewDecFromStr "0.25" in
  MustNewInstance 2 9 6 float32_zero d1
    (accounts LocalIntelchainAccountsV2) (accounts LocalFnAccountsV2)
    emptyAllowlist fc d3 hip30CollectionAddressLocalnet
    localnetReshardingEpoch localnet_BlocksPerEpoch.

Definition localnet_InstanceForEpoch (epoch : option Z) : outcome instance :=
  switch [
    (Ok (IsHIP30 LocalnetChainConfig epoch), localnetV4);
    (Ok (IsFeeCollectEpoch LocalnetChainConfig epoch), localnetV3_2);
    (Ok (IsSixtyPercent LocalnetChainConfig epoch), localnetV3_1);
    (Ok (IsTwoSeconds LocalnetChainConfig epoch), localnetV3);
    (Ok (IsStaking LocalnetChainConfig epoch), localnetV2);
    (Cmp Z.geb epoch (Some localnetV1Epoch), localnetV1)
  ] localnetV0.

Definition localnet_twoSecondsFirstBlock : outcome Z :=
  let! t := Uint64 LocalnetChainConfig.(TwoSecondsEpoch) in
  if t =? 0 then Ok 0
  else Ok (u64 (u64 (u64 (t - 1) * localnet_BlocksPerEpochOld) + localnetEpochBlock1)).

Definition localnet_CalcEpochNumber (blockNum : Z) : outcome Z :=
  let! firstBlock2s := localnet_twoSecondsFirstBlock in
  if blockNum <? localnetEpochBlock1 then Ok 0
  else if blockNum <? firstBlock2s then
    Ok (i64 (u64 (u64 (blockNum - localnetEpochBlock1) / localnet_BlocksPerEpochOld + 1)))
  else
    let '(blockNum, extra) :=
      if firstBlock2s =? 0 then (u64 (blockNum - localnetEpochBlock1), 1) else (blockNum, 0) in
    let! t := Uint64 LocalnetChainConfig.(TwoSecondsEpoch) in
    Ok (i64 (u64 (u64 (extra + u64 (blockNum - firstBlock2s) / localnet_BlocksPerEpoch) + t))).

Definition localnet_IsLastBlock (blockNum : Z) : outcome bool :=
  if blockNum <? localnetEpochBlock1 - 1 then Ok false
  else if blockNum =? localnetEpochBlock1 - 1 then Ok true
  else
    let! firstBlock2s := localnet_twoSecondsFirstBlock in
    if firstBlock2s <=? blockNum then
      let blockNum :=
        if firstBlock2s =? 0 then u64 (blockNum - localnetEpochBlock1) else blockNum in
      Ok (u64 (blockNum - firstBlock2s) mod localnet_BlocksPerEpoch
          =? u64 (localnet_BlocksPerEpoch - 1))
    else
      let blocks := localnet_BlocksPerEpochOld in
      Ok (u64 (blockNum - localnetEpochBlock1) mod blocks =? u64 (blocks - 1)).

Definition localnet_EpochLastBlock (epochNum : Z) : outcome Z :=
  if epochNum =? 0 then Ok (localnetEpochBlock1 - 1)
  else if IsTwoSeconds LocalnetChainConfig (Some (i64 epochNum)) then
    let blocks := localnet_BlocksPerEpoch in
    let! firstBlock2s := localnet_twoSecondsFirstBlock in
    let! t := Uint64 LocalnetChainConfig.(TwoSecondsEpoch) in
    let block2s := u64 (u64 (u64 (1 + epochNum) - t) * blocks) in
    if firstBlock2s =? 0 then
      Ok (u64 (u64 (u64 (block2s - blocks) + localnetEpochBlock1) - 1))
    else Ok (u64 (u64 (firstBlock2s + block2s) - 1))
  else
    let blocks := localnet_BlocksPerEpochOld in
    Ok (u64 (u64 (localnetEpochBlock1 + u64 (blocks * epochNum)) - 1)).

Definition localnet_VdfDifficulty : Z := localnetVdfDifficulty.
Definition localnet_GetNetworkID : NetworkID := LocalNet.
Definition localnet_GetShardingStructure (numShard shardID : Z) : list ShardLink :=
  map (fun i => {| slCurrent := shardID =? i; slShardID := i;
                   slHttp := Sprintf_d "http://127.0.0.1:%d" (9500 + 2 * i);
                   slWs := Sprintf_d "ws://127.0.0.1:%d" (9800 + 2 * i) |})
    (shard_range numShard).
Definition localnet_IsSkippedEpoch (shardID : Z) (epoch : option Z) : outcome bool := Ok false.
Definition localnet_RewardFrequency : Z := 16.
Definition localnetSchedule : Schedule := {|
  InstanceForEpoch := localnet_InstanceForEpoch; CalcEpochNumber := localnet_CalcEpochNumber;
  IsLastBlock := localnet_IsLastBlock; EpochLastBlock := localnet_EpochLastBlock;
  VdfDifficulty := localnet_VdfDifficulty; GetNetworkID := localnet_GetNetworkID;
  GetShardingStructure := localnet_GetShardingStructure; IsSkippedEpoch := localnet_IsSkippedEpoch;
  RewardFrequency := localnet_RewardFrequency
|}.

(** ** partner.go *)

Definition partnerBlocksPerEpoch : Z := 900.
Definition partnerVdfDifficulty : Z := 10000.
Definition PartnerHTTPPattern : string := "https://api.s%d.ps.hmny.io".
Definition PartnerWSPattern : string := "wss://ws.s%d.ps.hmny.io".

Definition partner_BlocksPerEpoch : Z := partnerBlocksPerEpoch.

Definition partnerReshardingEpoch : list (option Z) := [
    Some 0; PartnerChainConfig.(StakingEpoch)].

Definition partnerV0 : outcome instance :=
  MustNewInstance 2 5 5 float32_zero OneDec
    (accounts TNIntelchainAccounts) (accounts TNFoundationalAccounts)
    emptyAllowlist ∅ ZeroDec 0
    partnerReshardingEpoch partner_BlocksPerEpoch.

Definition partnerV1 : outcome instance :=
  let! d1 := MustNewDecFromStr "0.9" in
  MustNewInstance 2 15 4 float32_zero d1
    (accounts TNIntelchainAccounts) (accounts TNFoundationalAccounts)
    emptyAllowlist ∅ ZeroDec 0
    partnerReshardingEpoch partner_BlocksPerEpoch.

Definition partnerV2 : outcome instance :=
  let! d1 := MustNewDecFromStr "0.9" in
  let! fc := feeCollectorsDevnet_1 in
  let! d3 := MustNewDecFromStr "0.25" in
  MustNewInstance 2 20 4 float32_zero d1
    (accounts TNIntelchainAccounts) (accounts TNFoundationalAccounts)
    emptyAllowlist fc d3 hip30CollectionAddressTestnet
    partnerReshardingEpoch partner_BlocksPerEpoch.

Definition partnerV3 : outcome instance :=
  let! d1 := MustNewDecFromStr "0.0" in
  let! fc := feeCollectorsDevnet_1 in
  let! d3 := MustNewDecFromStr "0.25" in
  MustNewInstance 2 20 0 float32_zero d1
    (accounts TNIntelchainAccounts) (accounts TNFoundationalAccounts)
    emptyAllowlist fc d3 hip30CollectionAddressTestnet
    partnerReshardingEpoch partner_BlocksPerEpoch.

Definition partnerV3_1 : outcome instance :=
  let! d1 := MustNewDecFromStr "0.9" in
  let! fc := feeCollectorsDevnet_1 in
  let! d3 := MustNewDecFromStr "0.25" in
  MustNewInstance 2 20 4 float32_zero d1
    (accounts TNIntelchainAccounts) (accounts TNFoundationalAccounts)
    emptyAllowlist fc d3 hip30CollectionAddressTestnet
    partnerReshardingEpoch partner_BlocksPerEpoch.

Definition partner_InstanceForEpoch (epoch : option Z) : outcome instance :=
  switch [
    (Cmp Z.geb epoch (Some 2207), partnerV3_1);
    (Ok (IsDevnetExternalEpoch PartnerChainConfig epoch), partnerV3);
    (Ok (IsHIP30 PartnerChainConfig epoch), partnerV2);
    (Cmp Z.geb epoch PartnerChainConfig.(StakingEpoch), partnerV1)
  ] partnerV0.

Definition partner_CalcEpochNumber (blockNum : Z) : outcome Z :=
  let epoch := blockNum / partner_BlocksPerEpoch in Ok (i64 epoch).
Definition partner_IsLastBlock (blockNum : Z) : outcome bool :=
  Ok (u64 (blockNum + 1) mod partner_BlocksPerEpoch =? 0).
Definition partner_EpochLastBlock (epochNum : Z) : outcome Z :=
  Ok (u64 (u64 (partner_BlocksPerEpoch * u64 (epochNum + 1)) - 1)).

Definition partner_VdfDifficulty : Z := partnerVdfDifficulty.
Definition partner_GetNetworkID : NetworkID := Partner.
Definition partner_GetShardingStructure (numShard shardID : Z) : list ShardLink :=
  genShardingStructure numShard shardID PartnerHTTPPattern PartnerWSPattern.
Definition partner_IsSkippedEpoch (shardID : Z) (epoch : option Z) : outcome bool := Ok false.
Definition partner_RewardFrequency : Z := RewardFrequency_default.
Definition partnerSchedule : Schedule := {|
  InstanceForEpoch := partner_InstanceForEpoch; CalcEpochNumber := partner_CalcEpochNumber;
  IsLastBlock := partner_IsLastBlock; EpochLastBlock := partner_EpochLastBlock;
  VdfDifficulty := partner_VdfDifficulty; GetNetworkID := partner_GetNetworkID;
  GetShardingStructure := partner_GetShardingStructure; IsSkippedEpoch := partner_IsSkippedEpoch;
  RewardFrequency := partner_RewardFrequency
|}.

(** ** pangaea.go *)

Definition pangaeaBlocksPerEpoch : Z := 450.
Definition pangaeaVdfDifficulty : Z := 10000.
Definition PangaeaHTTPPattern : string := "https://api.s%d.os.hmny.io".
Definition PangaeaWSPattern : string := "wss://ws.s%d.os.hmny.io".

Definition pangaea_BlocksPerEpoch : Z := pangaeaBlocksPerEpoch.

Definition pangaeaReshardingEpoch : list (option Z) := [
    Some 0; PangaeaChainConfig.(StakingEpoch)].

Definition pangaeaV0 : outcome instance :=
  MustNewInstance 4 30 30 float32_zero OneDec
    (accounts TNIntelchainAccounts) (accounts TNFoundationalAccounts)
    emptyAllowlist ∅ ZeroDec 0
    pangaeaReshardingEpoch pangaea_BlocksPerEpoch.

Definition pangaeaV1 : outcome instance :=
  let! d1 := MustNewDecFromStr "0.68" in
  MustNewInstance 4 110 30 float32_zero d1
    (accounts TNIntelchainAccounts) (accounts TNFoundationalAccounts)
    emptyAllowlist ∅ ZeroDec 0
    pangaeaReshardingEpoch pangaea_BlocksPerEpoch.

Definition pangaea_InstanceForEpoch (epoch : option Z) : outcome instance :=
  switch [
    (Cmp Z.geb epoch PangaeaChainConfig.(StakingEpoch), pangaeaV1)
  ] pangaeaV0.

Definition pangaea_CalcEpochNumber (blockNum : Z) : outcome Z :=
  let epoch := blockNum / pangaea_BlocksPerEpoch in Ok (i64 epoch).
Definition pangaea_IsLastBlock (blockNum : Z) : outcome bool :=
  Ok (u64 (blockNum + 1) mod pangaea_BlocksPerEpoch =? 0).
Definition pangaea_EpochLastBlock (epochNum : Z) : outcome Z :=
  Ok (u64 (u64 (pangaea_BlocksPerEpoch * u64 (epochNum + 1)) - 1)).

Definition pangaea_VdfDifficulty : Z := pangaeaVdfDifficulty.
Definition pangaea_GetNetworkID : NetworkID := Pangaea.
Definition pangaea_GetShardingStructure (numShard shardID : Z) : list ShardLink :=
  genShardingStructure numShard shardID PangaeaHTTPPattern PangaeaWSPattern.
Definition pangaea_IsSkippedEpoch (shardID : Z) (epoch : option Z) : outcome bool := Ok false.
Definition pangaea_RewardFrequency : Z := RewardFrequency_default.
Definition pangaeaSchedule : Schedule := {|
  InstanceForEpoch := pangaea_InstanceForEpoch; CalcEpochNumber := pangaea_CalcEpochNumber;
  IsLastBlock := pangaea_IsLastBlock; EpochLastBlock := pangaea_EpochLastBlock;
  VdfDifficulty := pangaea_VdfDifficulty; GetNetworkID := pangaea_GetNetworkID;
  GetShardingStructure := pangaea_GetShardingStructure; IsSkippedEpoch := pangaea_IsSkippedEpoch;
  RewardFrequency := pangaea_RewardFrequency
|}.

(** ** stress.go *)

Definition stressnetBlocksPerEpoch : Z := 1024.
Definition stressnetVdfDifficulty : Z := 10000.
Definition StressNetHTTPPattern : string := "https://api.s%d.stn.hmny.io".
Definition StressNetWSPattern : string := "wss://ws.s%d.stn.hmny.io".

Definition stressnet_BlocksPerEpoch : Z := stressnetBlocksPerEpoch.

Definition stressnetReshardingEpoch : list (option Z) := [
    Some 0; StressnetChainConfig.(StakingEpoch)].

Definition stressnetV0 : outcome instance :=
  MustNewInstance 2 10 10 float32_zero OneDec
    (accounts TNIntelchainAccounts) (accounts TNFoundationalAccounts)
    emptyAllowlist ∅ ZeroDec 0
    stressnetReshardingEpoch stressnet_BlocksPerEpoch.

Definition stressnetV1 : outcome instance :=
  let! d1 := MustNewDecFromStr "0.9" in
  MustNewInstance 2 30 10 float32_zero d1
    (accounts TNIntelchainAccounts) (accounts TNFoundationalAccounts)
    emptyAllowlist ∅ ZeroDec 0
    stressnetReshardingEpoch stressnet_BlocksPerEpoch.

Definition stressnetV2 : outcome instance :=
  let! d1 := MustNewDecFromStr "0.6" in
  MustNewInstance 2 30 10 float32_zero d1
    (accounts TNIntelchainAccounts) (accounts TNFoundationalAccounts)
    emptyAllowlist ∅ ZeroDec 0
    stressnetReshardingEpoch stressnet_BlocksPerEpoch.

Definition stressnet_InstanceForEpoch (epoch : option Z) : outcome instance :=
  switch [
    (Ok (IsSixtyPercent StressnetChainConfig epoch), stressnetV2);
    (Cmp Z.geb epoch StressnetChainConfig.(StakingEpoch), stressnetV1)
  ] stressnetV0.

Definition stressnet_CalcEpochNumber (blockNum : Z) : outcome Z :=
  let epoch := blockNum / stressnet_BlocksPerEpoch in Ok (i64 epoch).
Definition stressnet_IsLastBlock (blockNum : Z) : outcome bool :=
  Ok (u64 (blockNum + 1) mod stressnet_BlocksPerEpoch =? 0).
Definition stressnet_EpochLastBlock (epochNum : Z) : outcome Z :=
  Ok (u64 (u64 (stressnet_BlocksPerEpoch * u64 (epochNum + 1)) - 1)).

Definition stressnet_VdfDifficulty : Z := stressnetVdfDifficulty.
Definition stressnet_GetNetworkID : NetworkID := StressNet.
Definition stressnet_GetShardingStructure (numShard shardID : Z) : list ShardLink :=
  genShardingStructure numShard shardID StressNetHTTPPattern StressNetWSPattern.
Definition stressnet_IsSkippedEpoch (shardID : Z) (epoch : option Z) : outcome bool := Ok false.
Definition stressnet_RewardFrequency : Z := RewardFrequency_default.
Definition stressnetSchedule : Schedule := {|
  InstanceForEpoch := stressnet_InstanceForEpoch; CalcEpochNumber := stressnet_CalcEpochNumber;
  IsLastBlock := stressnet_IsLastBlock; EpochLastBlock := stressnet_EpochLastBlock;
  VdfDifficulty := stressnet_VdfDifficulty; GetNetworkID := stressnet_GetNetworkID;
  GetShardingStructure := stressnet_GetShardingStructure; IsSkippedEpoch := stressnet_IsSkippedEpoch;
  RewardFrequency := stressnet_RewardFrequency
|}.

(** ** fixedschedule.go *)

Definition VLBPE : Z := 1000000000000.
Definition fixed_InstanceForEpoch (inst : instance) (epoch : option Z) : outcome instance :=
  Ok inst.
Definition fixed_BlocksPerEpoch : Z := VLBPE.
Definition fixed_CalcEpochNumber (blockNum : Z) : outcome Z :=
  Ok (i64 (blockNum / fixed_BlocksPerEpoch)).
Definition fixed_IsLastBlock (blockNum : Z) : outcome bool :=
  let blocks := fixed_BlocksPerEpoch in Ok (blockNum mod blocks =? u64 (blocks - 1)).
Definition fixed_EpochLastBlock (epochNum : Z) : outcome Z :=
  let blocks := fixed_BlocksPerEpoch in
  Ok (u64 (u64 (blocks * u64 (epochNum + 1)) - 1)).
Definition fixed_VdfDifficulty : Z := mainnetVdfDifficulty.
Definition fixed_GetNetworkID : NetworkID := DevNet.
Definition fixed_GetShardingStructure (numShard shardID : Z) : list ShardLink :=
  genShardingStructure numShard shardID TestNetHTTPPattern TestNetHTTPPattern.
Definition fixed_IsSkippedEpoch (shardID : Z) (epoch : option Z) : outcome bool := Ok false.
Definition fixed_RewardFrequency : Z := RewardFrequency_default.
Definition NewFixedSchedule (inst : instance) : Schedule := {|
  InstanceForEpoch := fixed_InstanceForEpoch inst; CalcEpochNumber := fixed_CalcEpochNumber;
  IsLastBlock := fixed_IsLastBlock; EpochLastBlock := fixed_EpochLastBlock;
  VdfDifficulty := fixed_VdfDifficulty; GetNetworkID := fixed_GetNetworkID;
  GetShardingStructure := fixed_GetShardingStructure; IsSkippedEpoch := fixed_IsSkippedEpoch;
  RewardFrequency := fixed_RewardFrequency
|}.

End networks.

(** ** A piecewise linear reference for the epoch arithmetic

    Every network's epochs are: epoch 0, of [first1] blocks; epochs of [bpe1]
    blocks until [switch_epoch]; epochs of [bpe2] blocks from there on. *)
Record Phases := mkPhases { first1 : Z; bpe1 : Z; switch_epoch : Z; bpe2 : Z }.

Definition first2 (p : Phases) : Z := p.(first1) + (p.(switch_epoch) - 1) * p.(bpe1).
Definition calc_ref (p : Phases) (b : Z) : Z :=
  if b <? p.(first1) then 0
  else if b <? first2 p then (b - p.(first1)) / p.(bpe1) + 1
  else (b - first2 p) / p.(bpe2) + p.(switch_epoch).
Definition last_ref (p : Phases) (e : Z) : Z :=
  if e =? 0 then p.(first1) - 1
  else if e <? p.(switch_epoch) then p.(first1) + p.(bpe1) * e - 1
  else first2 p + p.(bpe2) * (e - p.(switch_epoch) + 1) - 1.

Definition phases_wf (p : Phases) : Prop :=
  0 < p.(first1) /\ 0 < p.(bpe1) /\ 0 < p.(bpe2) /\ 1 <= p.(switch_epoch).

(** [div_unique_at]: how a quotient by a variable is computed below. *)
Lemma div_unique_at a k q : 0 < k -> k * q <= a < k * (q + 1) -> a / k = q.
Proof. intros Hk Ha. symmetry. apply Z.div_unique with (a - k * q); lia. Qed.

Section phases.
Context (p : Phases) (Hwf : phases_wf p).

Lemma first2_ge : p.(first1) <= first2 p.
Proof. destruct Hwf as (?&?&?&?). unfold first2. nia. Qed.

Lemma calc_ref_nonneg b : 0 <= calc_ref p b.
Proof.
  destruct Hwf as (?&?&?&?). unfold calc_ref. repeat case_match; [lia| |].
  - pose proof (Z.div_pos (b - first1 p) (bpe1 p)). lia.
  - pose proof (Z.div_pos (b - first2 p) (bpe2 p)). lia.
Qed.

(** Below the switch, an epoch of the first phase is below [switch_epoch]. *)
Lemma phase1_lt b : first1 p <= b < first2 p -> (b - first1 p) / bpe1 p + 1 < switch_epoch p.
Proof.
  destruct Hwf as (?&?&?&?). unfold first2. intros Hb.
  enough ((b - first1 p) / bpe1 p < switch_epoch p - 1) by lia.
  apply Z.div_lt_upper_bound; lia.
Qed.

Lemma calc_ref_mono b1 b2 : b1 <= b2 -> calc_ref p b1 <= calc_ref p b2.
Proof.
  destruct Hwf as (?&?&?&?). intros Hb. pose proof first2_ge.
  pose proof (calc_ref_nonneg b2) as Hn. pose proof (phase1_lt b1) as Hp1. revert Hn.
  pose proof (Z.div_le_mono (b1 - first1 p) (b2 - first1 p) (bpe1 p)) as Hm1.
  pose proof (Z.div_le_mono (b1 - first2 p) (b2 - first2 p) (bpe2 p)) as Hm2.
  pose proof (Z.div_pos (b2 - first2 p) (bpe2 p)) as Hp.
  unfold calc_ref. repeat case_match; lia.
Qed.

Lemma calc_last_ref e : 0 <= e ->
  calc_ref p (last_ref p e) = e /\ calc_ref p (last_ref p e + 1) = e + 1.
Proof.
  destruct Hwf as (?&?&?&?). intros He. unfold calc_ref, last_ref.
  assert (e = 0 \/ 0 < e < switch_epoch p \/ switch_epoch p <= e) as [->|[Hr|Hr]] by lia.
  - rewrite Z.eqb_refl. pose proof first2_ge. unfold first2 in *.
    split; repeat case_match; try lia; erewrite (div_unique_at _ _ 0); nia.
  - rewrite (proj2 (Z.eqb_neq e 0)), (proj2 (Z.ltb_lt e _)) by lia. unfold first2.
    assert (bpe1 p * e <= (switch_epoch p - 1) * bpe1 p) by nia.
    assert (bpe1 p <= bpe1 p * e) by nia.
    split; repeat case_match; try lia.
    + erewrite (div_unique_at _ _ (e - 1)); nia.
    + erewrite (div_unique_at _ _ e); nia.
    + erewrite (div_unique_at _ _ 0); [|lia|]; assert (e + 1 = switch_epoch p) by nia; nia.
  - pose proof first2_ge.
    rewrite (proj2 (Z.eqb_neq e 0)), (proj2 (Z.ltb_ge e _)) by lia.
    assert (bpe2 p <= bpe2 p * (e - switch_epoch p + 1)) by nia.
    split; repeat case_match; try lia.
    + erewrite (div_unique_at _ _ (e - switch_epoch p)); nia.
    + erewrite (div_unique_at _ _ (e - switch_epoch p + 1)); nia.
Qed.

Lemma last_ref_mono e1 e2 : 0 <= e1 <= e2 -> last_ref p e1 <= last_ref p e2.
Proof.
  intros [? ?]. destruct (decide (last_ref p e1 <= last_ref p e2)) as [|Hgt]; [done|].
  pose proof (calc_ref_mono (last_ref p e2 + 1) (last_ref p e1) ltac:(lia)) as Hm.
  rewrite (proj1 (calc_last_ref e1 ltac:(lia))), (proj2 (calc_last_ref e2 ltac:(lia))) in Hm. lia.
Qed.

Lemma last_ref_nonneg e : 0 <= e -> 0 <= last_ref p e.
Proof.
  intros He. destruct Hwf as (?&?&?&?).
  trans (last_ref p 0); [unfold last_ref; simpl; lia|apply last_ref_mono; lia].
Qed.

Lemma last_ref_ge e : 0 <= e -> e <= last_ref p e.
Proof. destruct Hwf as (?&?&?&?). intros. unfold last_ref, first2. repeat case_match; nia. Qed.

Lemma calc_ref_upper b : 0 <= b -> b <= last_ref p (calc_ref p b).
Proof.
  intros Hb. pose proof (calc_ref_nonneg b) as Hn.
  destruct (decide (b <= last_ref p (calc_ref p b))) as [|Hgt]; [done|].
  pose proof (calc_ref_mono (last_ref p (calc_ref p b) + 1) b ltac:(lia)) as Hm.
  rewrite (proj2 (calc_last_ref _ Hn)) in Hm. lia.
Qed.

(** The last block of a block's epoch is less than an epoch away. *)
Lemma last_calc_ref_bound b : 0 <= b ->
  last_ref p (calc_ref p b) <= b + first1 p + bpe1 p + bpe2 p.
Proof.
  destruct Hwf as (?&?&?&?). intros Hb. pose proof first2_ge.
  pose proof (phase1_lt b) as Hp1.
  pose proof (Z.div_pos (b - first1 p) (bpe1 p)). pose proof (Z.div_pos (b - first2 p) (bpe2 p)).
  pose proof (Z.mul_div_le (b - first1 p) (bpe1 p)).
  pose proof (Z.mul_div_le (b - first2 p) (bpe2 p)).
  unfold calc_ref, last_ref. repeat case_match; try lia.
Qed.
End phases.

(** ** Refinement: a schedule that computes as a reference does keeps the laws *)

Class RefinesPhases (s : Schedule) (p : Phases) : Prop := {
  ref_wf : phases_wf p;
  ref_small : p.(first1) + p.(bpe1) + p.(bpe2) < 2 ^ 61;
  ref_calc b : block_ok b -> CalcEpochNumber s b = Ok (calc_ref p b);
  ref_last e : 0 <= e -> last_ref p e < 2 ^ 63 -> EpochLastBlock s e = Ok (last_ref p e);
  ref_is_last b : block_ok b -> IsLastBlock s b = Ok (b =? last_ref p (calc_ref p b))
}.

Lemma refines_laws s p emax `{!RefinesPhases s p} :
  last_ref p emax < 2 ^ 62 ->
  (forall e, exists i, InstanceForEpoch s (Some e) = Ok i /\ 1 <= NumShards i) ->
  ScheduleLaws s emax.
Proof.
  intros Hmax Hinst. pose proof ref_wf as Hwf. pose proof Hwf as (?&?&?&?).
  assert (forall e, 0 <= e < emax -> block_ok (last_ref p e) /\ block_ok (last_ref p e + 1)) as Hblk.
  { intros e He. pose proof (last_ref_nonneg p Hwf e). pose proof (last_ref_mono p Hwf e emax).
    destruct (calc_last_ref p Hwf e) as [E1 E2]; [lia|].
    assert (last_ref p e + 1 <= last_ref p (e + 1)) by
      (rewrite <- E2; apply calc_ref_upper; [done|lia]).
    pose proof (last_ref_mono p Hwf (e + 1) emax).
    unfold block_ok. lia. }
  assert (forall e, 0 <= e < emax -> EpochLastBlock s e = Ok (last_ref p e)) as Hlast.
  { intros e He. apply ref_last; [lia|]. destruct (Hblk e He) as [[_ Hb] _]. lia. }
  split.
  - intros b Hb. rewrite ref_calc by done. eauto using calc_ref_nonneg.
  - intros b1 b2 e1 e2 ?? ?. rewrite !ref_calc by done. intros [= <-] [= <-].
    by apply calc_ref_mono.
  - intros e He. rewrite Hlast by done. eexists; split; [done|]. by apply Hblk.
  - intros e l He. rewrite Hlast by done. intros [= <-]. destruct (Hblk e He).
    rewrite !ref_calc by done. destruct (calc_last_ref p Hwf e) as [-> ->]; [lia|done].
  - intros b e Hb. rewrite ref_calc, ref_is_last by done. intros [= <-].
    eexists; split; [done|]. rewrite ref_last; [|by apply calc_ref_nonneg|].
    + rewrite Z.eqb_eq. split; [by intros <-|by intros [= ->]].
    + pose proof (last_calc_ref_bound p Hwf b). pose proof ref_small. destruct Hb. lia.
  - done.
Qed.

(** ** The networks refine their phases *)

Definition mainnet_phases : Phases := mkPhases 344064 16384 366 32768.
Definition testnet_phases : Phases := mkPhases 38 38 2 8192.
Definition localnet_phases : Phases := mkPhases 5 16 1 16.
Definition uniform_phases (bpe : Z) : Phases := mkPhases bpe bpe 1 bpe.

(** [wrap]: remove the [uint64]/[int64] wrappers whose argument is in range. *)
Ltac wrap :=
  rewrite ?bind_ret; repeat match goal with
  | |- context [u64 ?x] =>
      lazymatch x with context [u64 _] => fail | context [i64 _] => fail | _ => idtac end;
      rewrite (u64_small x) by (Z.to_euclidean_division_equations; lia)
  | |- context [i64 ?x] =>
      lazymatch x with context [u64 _] => fail | context [i64 _] => fail | _ => idtac end;
      rewrite (i64_small x) by (Z.to_euclidean_division_equations; lia)
  end.
(** Decide the comparisons of a goal, unwrap, and compare quotients. *)
Ltac no_if t := lazymatch t with context [if _ then _ else _] => fail | _ => idtac end.
Ltac arith_case :=
  match goal with
  | |- context [if ?a <? ?b then _ else _] => no_if a; no_if b; destruct (Z.ltb_spec a b)
  | |- context [if ?a <=? ?b then _ else _] => no_if a; no_if b; destruct (Z.leb_spec a b)
  | |- context [if ?a =? ?b then _ else _] => no_if a; no_if b; destruct (Z.eqb_spec a b)
  end.
Ltac split_ifs := repeat (case_match; try lia).
Ltac euclid := Z.to_euclidean_division_equations; lia.
Ltac arith :=
  repeat (wrap; arith_case; try (exfalso; intros; euclid)); intros; wrap; f_equal; try euclid.

Lemma mainnet_twoSecondsFirstBlock_eq : mainnet_twoSecondsFirstBlock = Ok 6324224.
Proof. reflexivity. Qed.
Lemma localnet_twoSecondsFirstBlock_eq : localnet_twoSecondsFirstBlock = Ok 0.
Proof. reflexivity. Qed.

(** [refine_calc], [refine_last], [refine_is_last]: the three obligations of
    a network, after unfolding its definitions with [u]. *)
Ltac refine_calc u p :=
  intros ? [? ?]; unfold calc_ref, first2, p; cbn [first1 bpe1 switch_epoch bpe2]; u; arith.
Ltac refine_last u p :=
  let e := fresh "e" in let He := fresh in let Hl := fresh in
  intros e He Hl;
  lazymatch type of Hl with last_ref ?q _ < _ =>
    assert (e < 2 ^ 63) by (pose proof (last_ref_ge q ltac:(done) e He); lia) end;
  revert Hl; unfold last_ref, first2, p; cbn [first1 bpe1 switch_epoch bpe2]; u; arith.
Ltac refine_is_last u p :=
  intros ? [? ?]; unfold last_ref, calc_ref, first2, p; cbn [first1 bpe1 switch_epoch bpe2];
  u; arith.

Ltac mainnet_unfold :=
  unfold mainnet_CalcEpochNumber, mainnet_EpochLastBlock, mainnet_IsLastBlock,
    mainnetEpochBlock1, mainnet_BlocksPerEpochOld, blocksPerEpoch;
  rewrite mainnet_twoSecondsFirstBlock_eq, ?bind_ret; change (Uint64 _) with (Ok 366);
  rewrite ?bind_ret; unfold mainnet_BlocksPerEpoch, blocksPerEpochV2, IsTwoSeconds, isForked;
  cbn [MainnetChainConfig TwoSecondsEpoch].

#[export] Instance mainnet_refines accounts :
  RefinesPhases (mainnetSchedule accounts) mainnet_phases.
Proof.
  split; [done|done|..]; unfold mainnetSchedule; cbn [CalcEpochNumber EpochLastBlock IsLastBlock].
  - refine_calc mainnet_unfold mainnet_phases.
  - refine_last mainnet_unfold mainnet_phases.
  - refine_is_last mainnet_unfold mainnet_phases.
Qed.

Ltac testnet_unfold :=
  unfold testnet_CalcEpochNumber, testnet_EpochLastBlock, testnet_IsLastBlock,
    testnet_BlocksPerEpochOld, testnetBlocksPerEpoch;
  change (Uint64 _) with (Ok 2); rewrite ?bind_ret; change (u64 (2 * 38)) with 76;
  unfold testnet_BlocksPerEpoch, testnetBlocksPerEpochV2, IsTwoSeconds, isForked;
  cbn [TestnetChainConfig TwoSecondsEpoch].

#[export] Instance testnet_refines accounts :
  RefinesPhases (testnetSchedule accounts) testnet_phases.
Proof.
  split; [done|done|..]; unfold testnetSchedule; cbn [CalcEpochNumber EpochLastBlock IsLastBlock].
  - refine_calc testnet_unfold testnet_phases.
  - refine_last testnet_unfold testnet_phases.
  - refine_is_last testnet_unfold testnet_phases.
Qed.

Ltac localnet_unfold :=
  unfold localnet_CalcEpochNumber, localnet_EpochLastBlock, localnet_IsLastBlock,
    localnetEpochBlock1, localnet_BlocksPerEpochOld, localnetBlocksPerEpoch;
  rewrite localnet_twoSecondsFirstBlock_eq, ?bind_ret; change (Uint64 _) with (Ok 0);
  rewrite ?bind_ret; unfold localnet_BlocksPerEpoch, localnetBlocksPerEpochV2, IsTwoSeconds, isForked;
  cbn [LocalnetChainConfig TwoSecondsEpoch]; cbn [Z.eqb]; cbv beta iota.

#[export] Instance localnet_refines accounts :
  RefinesPhases (localnetSchedule accounts) localnet_phases.
Proof.
  split; [done|done|..]; unfold localnetSchedule; cbn [CalcEpochNumber EpochLastBlock IsLastBlock].
  - refine_calc localnet_unfold localnet_phases.
  - refine_last localnet_unfold localnet_phases.
  - refine_is_last localnet_unfold localnet_phases.
Qed.

(** Partner, Pangaea, stressnet and the fixed schedule have one phase. *)
Ltac partner_unfold :=
  unfold partner_CalcEpochNumber, partner_EpochLastBlock, partner_IsLastBlock,
    partner_BlocksPerEpoch, partnerBlocksPerEpoch.
Ltac pangaea_unfold :=
  unfold pangaea_CalcEpochNumber, pangaea_EpochLastBlock, pangaea_IsLastBlock,
    pangaea_BlocksPerEpoch, pangaeaBlocksPerEpoch.
Ltac stressnet_unfold :=
  unfold stressnet_CalcEpochNumber, stressnet_EpochLastBlock, stressnet_IsLastBlock,
    stressnet_BlocksPerEpoch, stressnetBlocksPerEpoch.
Ltac fixed_unfold :=
  unfold fixed_CalcEpochNumber, fixed_EpochLastBlock, fixed_IsLastBlock,
    fixed_BlocksPerEpoch, VLBPE.
Ltac refine_uniform u :=
  split; [done|done|..];
  unfold partnerSchedule, pangaeaSchedule, stressnetSchedule, NewFixedSchedule;
  cbn [CalcEpochNumber EpochLastBlock IsLastBlock];
  [refine_calc u uniform_phases|refine_last u uniform_phases|refine_is_last u uniform_phases].

#[export] Instance partner_refines accounts :
  RefinesPhases (partnerSchedule accounts) (uniform_phases partnerBlocksPerEpoch).
Proof. refine_uniform partner_unfold. Qed.
#[export] Instance pangaea_refines accounts :
  RefinesPhases (pangaeaSchedule accounts) (uniform_phases pangaeaBlocksPerEpoch).
Proof. refine_uniform pangaea_unfold. Qed.
#[export] Instance stressnet_refines accounts :
  RefinesPhases (stressnetSchedule accounts) (uniform_phases stressnetBlocksPerEpoch).
Proof. refine_uniform stressnet_unfold. Qed.
#[export] Instance fixed_refines inst :
  RefinesPhases (NewFixedSchedule inst) (uniform_phases VLBPE).
Proof. refine_uniform fixed_unfold. Qed.

(** ** Instances *)

Section switch.
Context {A : Type} (P : outcome A -> Prop).
Definition arm_ok (ca : outcome bool * outcome A) : Prop := (is_Ok ca.1 = true /\ P ca.2)%type.

Lemma switch_P cs d : Forall arm_ok cs -> P d -> P (switch cs d).
Proof.
  intros Hcs Hd. induction Hcs as [|[c a] cs [Hc Ha] _ IH]; [done|]. simpl in *.
  destruct c as [[|]| |]; done.
Qed.

(** Up to the first arm whose condition is known to hold. *)
Lemma switch_until cs1 a cs2 d : Forall arm_ok cs1 -> P a -> P (switch (cs1 ++ (Ok true, a) :: cs2) d).
Proof.
  intros Hcs Ha. induction Hcs as [|[c a'] cs [Hc Ha'] _ IH]; [done|]. simpl in *.
  destruct c as [[|]| |]; done.
Qed.

(** Arms whose condition is known not to hold are skipped. *)
Lemma switch_skip (cs1 cs2 : list (outcome bool * outcome A)%type) d :
  Forall (fun ca => ca.1 = Ok false) cs1 -> switch (cs1 ++ cs2) d = switch cs2 d.
Proof. induction 1 as [|[c a] cs Hc _ IH]; [done|]. simpl in *. by rewrite Hc. Qed.
End switch.

(** A configuration that was built, and satisfies [q]. *)
Definition built (q : instance -> bool) (m : outcome instance) : Prop :=
  match m with Ok i => q i = true | _ => False end.

Definition sound (i : instance) : bool := instance_valid i && (1 <=? NumShards i).

Ltac eval_arms := repeat (apply Forall_cons; split; [split; vm_compute; reflexivity|]); apply Forall_nil; done.

Ltac arms :=
  match goal with |- built ?q (?f ?a ?e) => unfold f end;
  apply (switch_P (built _)); [eval_arms|by vm_compute].

Lemma mainnet_built accounts e : built sound (mainnet_InstanceForEpoch accounts (Some e)).
Proof. arms. Qed.
Lemma testnet_built accounts e : built sound (testnet_InstanceForEpoch accounts (Some e)).
Proof. arms. Qed.
Lemma localnet_built accounts e : built sound (localnet_InstanceForEpoch accounts (Some e)).
Proof. arms. Qed.
Lemma partner_built accounts e : built sound (partner_InstanceForEpoch accounts (Some e)).
Proof. arms. Qed.
Lemma pangaea_built accounts e : built sound (pangaea_InstanceForEpoch accounts (Some e)).
Proof. arms. Qed.
Lemma stressnet_built accounts e : built sound (stressnet_InstanceForEpoch accounts (Some e)).
Proof. arms. Qed.

Lemma built_Ok q m : built q m <-> exists i, m = Ok i /\ q i = true.
Proof. destruct m as [i| |]; simpl; split; [by eauto|by intros (? & [= ->] & ?)|done| |done|];
  by intros (? & ? & ?). Qed.

Lemma built_sound_shards m : built sound m -> exists i, m = Ok i /\ 1 <= NumShards i.
Proof. intros (i & -> & Hi)%built_Ok. exists i. unfold sound in Hi. split; [done|lia]. Qed.

(** The networks a node can run, and their schedules. *)
Definition network_schedules (accounts : AccountTable -> list DeployAccount) : list Schedule :=
  [mainnetSchedule accounts; testnetSchedule accounts; localnetSchedule accounts;
   partnerSchedule accounts; pangaeaSchedule accounts; stressnetSchedule accounts].


(** Whatever the account tables, every epoch of every network has a
    configuration (no [MustNewInstance] panics) whose shard and slot counts
    are in range, whose internal and external voting powers sum to one, whose
    fee collectors are paid exactly the whole fee, and which splits emission
    exactly when it has a recovery address. *)
Theorem networks_instances_valid accounts e :
  Forall (fun s => exists i, InstanceForEpoch s (Some e) = Ok i /\ instance_valid i = true)
    (network_schedules accounts).
Proof.
  assert (forall m, built sound m -> exists i, m = Ok i /\ instance_valid i = true) as Hb.
  { intros m (i & -> & Hi)%built_Ok. exists i. unfold sound in Hi. by destruct (instance_valid i). }
  repeat apply Forall_cons_2; [..|by apply Forall_nil_2]; apply Hb.
  - apply mainnet_built.
  - apply testnet_built.
  - apply localnet_built.
  - apply partner_built.
  - apply pangaea_built.
  - apply stressnet_built.
Qed.

Lemma isForked_off s e : e < s -> isForked (Some s) (Some e) = false.
Proof. apply Z.leb_gt. Qed.

Lemma mainnet_blocks_new accounts e : 366 <= e ->
  built (fun i => BlocksPerEpoch i =? 32768) (mainnet_InstanceForEpoch accounts (Some e)).
Proof.
  intros He. unfold mainnet_InstanceForEpoch.
  match goal with |- built _ (switch ?cs ?d) =>
    change (switch cs d) with (switch (take 5 cs ++ drop 5 cs) d) end.
  cbn [take drop]. unfold IsTwoSeconds at 1, isForked. cbn [TwoSecondsEpoch MainnetChainConfig].
  rewrite (proj2 (Z.leb_le 366 e) He).
  apply (switch_until (built _)); [eval_arms|by vm_compute].
Qed.

Lemma mainnet_blocks_old accounts e : e < 366 ->
  built (fun i => BlocksPerEpoch i =? 16384) (mainnet_InstanceForEpoch accounts (Some e)).
Proof.
  intros He. unfold mainnet_InstanceForEpoch.
  match goal with |- built _ (switch ?cs ?d) =>
    change (switch cs d) with (switch (take 6 cs ++ drop 6 cs) d) end.
  rewrite switch_skip.
  - cbn [drop]. apply (switch_P (built _)); [eval_arms|by vm_compute].
  - cbn [take]. repeat (apply Forall_cons_2; [apply (f_equal Ok), isForked_off; lia|]). by apply Forall_nil_2.
Qed.

(** On mainnet the length every configuration records for its epoch is
    the length the block arithmetic gives that epoch, genesis apart: the
    switch to 32768-block epochs happens at the same epoch in both. *)
Theorem mainnet_epoch_length accounts e l l' :
  1 <= e < 2 ^ 40 ->
  EpochLastBlock (mainnetSchedule accounts) (e - 1) = Ok l ->
  EpochLastBlock (mainnetSchedule accounts) e = Ok l' ->
  exists i, InstanceForEpoch (mainnetSchedule accounts) (Some e) = Ok i /\
    BlocksPerEpoch i = l' - l.
Proof.
  intros He. assert (forall e', 0 <= e' <= e -> last_ref mainnet_phases e' < 2 ^ 63).
  { intros e' He'. unfold last_ref, first2, mainnet_phases; cbn [first1 bpe1 switch_epoch bpe2].
    repeat case_match; lia. }
  rewrite !ref_last by (auto with lia). intros [= <-] [= <-].
  destruct (decide (366 <= e)) as [Hn|Ho].
  - destruct (proj1 (built_Ok _ _) (mainnet_blocks_new accounts e Hn)) as (i & Hi & Hb).
    exists i. split; [done|]. apply Z.eqb_eq in Hb as ->.
    unfold last_ref, first2, mainnet_phases; cbn [first1 bpe1 switch_epoch bpe2].
    repeat case_match; lia.
  - destruct (proj1 (built_Ok _ _) (mainnet_blocks_old accounts e ltac:(lia))) as (i & Hi & Hb).
    exists i. split; [done|]. apply Z.eqb_eq in Hb as ->.
    unfold last_ref, first2, mainnet_phases; cbn [first1 bpe1 switch_epoch bpe2].
    repeat case_match; lia.
Qed.

Lemma mainnet_epoch_length_witness :
  exists i, InstanceForEpoch (mainnetSchedule (fun _ => [])) (Some 366) = Ok i /\
    BlocksPerEpoch i = 6356991 - 6324223.
Proof. apply (mainnet_epoch_length (fun _ => []) 366 6324223 6356991); [lia|reflexivity|reflexivity]. Defined.

(** On the testnet the two disagree before the switch: the configuration of
    epoch 1 records 8192 blocks, the arithmetic gives it 38. *)
Lemma testnet_epoch_length_differs accounts :
  EpochLastBlock (testnetSchedule accounts) 0 = Ok 37 /\
  EpochLastBlock (testnetSchedule accounts) 1 = Ok 75 /\
  exists i, InstanceForEpoch (testnetSchedule accounts) (Some 1) = Ok i /\ BlocksPerEpoch i = 8192.
Proof. split; [reflexivity|]. split; [reflexivity|]. eexists. split; reflexivity. Qed.
