(* ===== verification/Bls.v ===== *)
(** * BLS keys and signatures (crypto/bls/bls.go, multibls, internal/utils/bytes.go)

    The BLS12-381 library is foreign code: [BLSLib] lists the operations the
    node calls, [BLSLaws] the documented facts it relies on (points form a
    commutative group, serialisation round-trips).  Serialised keys, addresses
    and hashes are fixed-length byte arrays, kept as the big-endian value of
    their bytes: [bytes_compare_value] shows that [bytes.Compare] of two such
    arrays is the comparison of those values. *)
From S2P Require Import Prelude.
Local Open Scope Z_scope.

(** ** Byte strings *)

Definition is_byte (b : Z) : Prop := 0 <= b < 256.
Definition be_value (bs : list Z) : Z := foldl (fun acc b => acc * 256 + b) 0 bs.

(** [bytes.Compare]: lexicographic. *)
Fixpoint bytes_Compare (a b : list Z) : comparison :=
  match a, b with
  | [], [] => Eq
  | [], _ => Lt
  | _, [] => Gt
  | x :: a', y :: b' => match x ?= y with Eq => bytes_Compare a' b' | c => c end
  end.

Lemma be_value_acc bs acc :
  foldl (fun acc b => acc * 256 + b) acc bs = acc * 256 ^ Z.of_nat (length bs) + be_value bs.
Proof.
  unfold be_value. revert acc. induction bs as [|b bs IH]; intros acc; cbn [foldl length]; [lia|].
  rewrite IH, (IH (0 * 256 + b)), Nat2Z.inj_succ, Z.pow_succ_r by lia. lia.
Qed.

Lemma be_value_cons b bs : be_value (b :: bs) = b * 256 ^ Z.of_nat (length bs) + be_value bs.
Proof. unfold be_value at 1. cbn [foldl]. by rewrite be_value_acc. Qed.

Lemma be_value_range bs : Forall is_byte bs -> 0 <= be_value bs < 256 ^ Z.of_nat (length bs).
Proof.
  induction 1 as [|b bs Hb _ IH]; [done|]. rewrite be_value_cons. cbn [length].
  rewrite Nat2Z.inj_succ, Z.pow_succ_r by lia. unfold is_byte in Hb. nia.
Qed.

Lemma bytes_compare_value a b :
  length a = length b -> Forall is_byte a -> Forall is_byte b ->
  bytes_Compare a b = (be_value a ?= be_value b).
Proof.
  intros Hlen Ha. revert b Hlen. induction Ha as [|x a Hx Ha IH]; intros [|y b] Hlen Hb; try done.
  apply Forall_cons in Hb as [Hy Hb]. injection Hlen as Hlen. cbn [bytes_Compare].
  rewrite !be_value_cons, <- Hlen.
  pose proof (be_value_range a Ha). pose proof (be_value_range b Hb) as Hrb. rewrite <- Hlen in Hrb.
  destruct (Z.compare_spec x y) as [->|Hc|Hc].
  - rewrite (IH b Hlen Hb). symmetry. apply Zcompare_plus_compat.
  - symmetry. apply Z.compare_lt_iff. nia.
  - symmetry. apply Z.compare_gt_iff. nia.
Qed.

(** The bytes of a key: [key[:]]. *)
Fixpoint be_bytes (n : nat) (v : Z) : list Z :=
  match n with
  | O => []
  | S n' => (v / 256 ^ Z.of_nat n') mod 256 :: be_bytes n' v
  end.

Lemma be_bytes_length n v : length (be_bytes n v) = n.
Proof. induction n; simpl; congruence. Qed.

Lemma be_bytes_value n v : be_value (be_bytes n v) = v mod 256 ^ Z.of_nat n.
Proof.
  induction n as [|n IH]; [by rewrite Z.mod_1_r|]. cbn [be_bytes].
  rewrite be_value_cons, be_bytes_length, IH, Nat2Z.inj_succ, Z.pow_succ_r by lia.
  rewrite (Z.mul_comm 256), Z.rem_mul_r by lia. lia.
Qed.
Lemma be_bytes_inj n a b : 0 <= a < 256 ^ Z.of_nat n -> 0 <= b < 256 ^ Z.of_nat n -> be_bytes n a = be_bytes n b -> a = b.
Proof. intros Ha Hb E. apply (f_equal be_value) in E. by rewrite !be_bytes_value, !Z.mod_small in E. Qed.

(** [[]byte(s)] *)
Definition string_bytes (s : string) : list Z :=
  map (fun a => Z.of_N (Ascii.N_of_ascii a)) (Stdlib.Strings.String.list_ascii_of_string s).

Definition PublicKeySizeInBytes : nat := 48.
Definition BLSSignatureSizeInBytes : nat := 96.

Definition SerializedPublicKey : Type := Z.
Definition Address : Type := Z.
Definition emptyBLSPubKey : SerializedPublicKey := 0.
Definition key_ok (k : SerializedPublicKey) : Prop := 0 <= k < 256 ^ 48.

Definition Bytes (pk : SerializedPublicKey) : list Z := be_bytes PublicKeySizeInBytes pk.
Definition IsEmpty (pk : SerializedPublicKey) : bool := pk =? emptyBLSPubKey.

Lemma Bytes_inj k1 k2 : key_ok k1 -> key_ok k2 -> Bytes k1 = Bytes k2 -> k1 = k2.
Proof.
  unfold key_ok, Bytes, PublicKeySizeInBytes. intros H1 H2 E.
  apply (f_equal be_value) in E. rewrite !be_bytes_value in E.
  change (256 ^ Z.of_nat 48) with (256 ^ 48) in E. by rewrite !Z.mod_small in E.
Qed.

(** ** The BLS library *)

Class BLSLib := {
  PublicKey : Type;
  Sign : Type;
  pk_eq_dec :: EqDecision PublicKey;   (* IsEqual *)
  pk_zero : PublicKey;
  pk_add : PublicKey -> PublicKey -> PublicKey;
  pk_sub : PublicKey -> PublicKey -> PublicKey;
  pk_Deserialize : list Z -> outcome PublicKey;
  pk_Serialize : PublicKey -> list Z;
  sig_zero : Sign;
  sig_add : Sign -> Sign -> Sign;
  sig_Deserialize : list Z -> option Sign;
  sig_Serialize : Sign -> list Z
}.

Class BLSLaws (L : BLSLib) : Prop := {
  pk_add_comm a b : pk_add a b = pk_add b a;
  pk_add_assoc a b c : pk_add a (pk_add b c) = pk_add (pk_add a b) c;
  pk_add_0 a : pk_add a pk_zero = a;
  pk_sub_add a b : pk_sub (pk_add a b) b = a;
  sig_add_comm a b : sig_add a b = sig_add b a;
  sig_add_assoc a b c : sig_add a (sig_add b c) = sig_add (sig_add a b) c;
  sig_add_0 a : sig_add a sig_zero = a;
  sig_roundtrip s : sig_Deserialize (sig_Serialize s) = Some s
}.

(** A model of the laws: points and signatures are integers. *)
#[export] Instance ZBLS : BLSLib := {|
  PublicKey := Z; Sign := Z; pk_eq_dec := _; pk_zero := 0; pk_add := Z.add; pk_sub := Z.sub;
  pk_Deserialize := fun bs => if decide (length bs = PublicKeySizeInBytes)
                              then Ok (be_value bs) else Err "err blsPublicKeyDeserialize";
  pk_Serialize := fun k => be_bytes PublicKeySizeInBytes k;
  sig_zero := 0; sig_add := Z.add;
  sig_Deserialize := fun bs => match bs with s :: _ => Some s | [] => None end;
  sig_Serialize := fun s => s :: replicate 95 0
|}.
#[export] Instance ZBLS_laws : BLSLaws ZBLS.
Proof. split; simpl; intros; try lia; done. Qed.

(** What the code calls of the BLS library to check a signature, and Keccak. *)
Class SigCheck (L : BLSLib) := {
  VerifyHash : Sign -> PublicKey -> list Z -> bool;
  Keccak256 : list Z -> list Z
}.

(** Secret keys: [SignHash] may return nil. *)
Class Signer (L : BLSLib) := {
  SecretKey : Type;
  SignHash : SecretKey -> list Z -> option Sign;
  GetPublicKey : SecretKey -> PublicKey
}.

(** Serialised signatures have 96 bytes; the sum of signatures of one hash is a
    signature by the sum of the keys; a key verifies what its secret signs. *)
Class SigLaws (L : BLSLib) (S : SigCheck L) (G : Signer L) : Prop := {
  sig_Serialize_length s : length (sig_Serialize s) = 96%nat;
  VerifyHash_add s1 s2 k1 k2 h : VerifyHash s1 k1 h = true -> VerifyHash s2 k2 h = true ->
    VerifyHash (sig_add s1 s2) (pk_add k1 k2) h = true;
  SignHash_verifies sk h s : SignHash sk h = Some s -> VerifyHash s (GetPublicKey sk) h = true
}.

#[export] Instance ZCheck : SigCheck ZBLS := {| VerifyHash := fun s pk h => s =? pk; Keccak256 := fun bs => bs |}.
#[export] Instance ZSigner : Signer ZBLS := {| SecretKey := Z; SignHash := fun sk _ => Some sk; GetPublicKey := fun sk => sk |}.
#[export] Instance ZSig_laws : SigLaws ZBLS ZCheck ZSigner.
Proof.
  split; [done| |].
  - intros s1 s2 k1 k2 h. cbn. rewrite !Z.eqb_eq. lia.
  - intros sk h s [= ->]. apply Z.eqb_refl.
Qed.

(** [binary.LittleEndian.PutUint32], [PutUint64] *)
Definition PutUint32 (v : Z) : list Z := rev (be_bytes 4 v).
Definition PutUint64 (v : Z) : list Z := rev (be_bytes 8 v).

Section bls.
Context {L : BLSLib}.

Record PublicKeyWrapper := mkWrapper { wBytes : SerializedPublicKey; Object : PublicKey }.

(** ** Deserialisation behind an LRU cache (mask.go)

    [lru] is foreign: a lookup may reorder the entries, an insertion may
    evict any of them; neither makes one up. *)
Class LRU := {
  Cache : Type;
  lru_Get : Cache -> list Z -> option PublicKey * Cache;
  lru_Add : Cache -> list Z -> PublicKey -> Cache
}.
Class LRULaws (C : LRU) : Prop := {
  Get_keeps c k k' v : fst (lru_Get (snd (lru_Get c k)) k') = Some v -> fst (lru_Get c k') = Some v;
  Add_keeps c k v k' v' : fst (lru_Get (lru_Add c k v) k') = Some v' ->
    (k' = k /\ v' = v) \/ fst (lru_Get c k') = Some v'
}.

Definition errEmptyInput : string := "BytesToBLSPublicKey: empty input".

Definition BytesToBLSPublicKey {C : LRU} (cache : Cache) (bytes : list Z)
    : outcome PublicKey * Cache :=
  match bytes with
  | [] => (Err errEmptyInput, cache)
  | _ =>
      let '(hit, cache) := lru_Get cache bytes in
      match hit with
      | Some pk => (Ok pk, cache)
      | None =>
          match pk_Deserialize bytes with
          | Ok pubKey => (Ok pubKey, lru_Add cache bytes pubKey)
          | r => (r, cache)
          end
      end
  end.

(** What the cache-free function would answer. *)
Definition deserialize_key (bytes : list Z) : outcome PublicKey :=
  match bytes with [] => Err errEmptyInput | _ => pk_Deserialize bytes end.

Definition cache_ok {C : LRU} (cache : Cache) : Prop :=
  forall bytes pk, fst (lru_Get cache bytes) = Some pk -> pk_Deserialize bytes = Ok pk.

(** The key cache is transparent.  From a cache whose entries are right,
    [BytesToBLSPublicKey] answers exactly what deserialising the bytes would
    answer (errors included), and the cache it leaves is right again. *)
Theorem BytesToBLSPublicKey_transparent {C : LRU} (laws : LRULaws C) cache bytes :
  cache_ok cache ->
  fst (BytesToBLSPublicKey cache bytes) = deserialize_key bytes /\
  cache_ok (snd (BytesToBLSPublicKey cache bytes)).
Proof.
  intros Hc. destruct bytes as [|b bs]; [done|]. unfold BytesToBLSPublicKey, deserialize_key.
  pose proof (Get_keeps cache (b :: bs)) as Hkeep. pose proof (Hc (b :: bs)) as Hhit.
  destruct (lru_Get cache (b :: bs)) as [[pk|] cache'] eqn:E; cbn [fst snd] in *.
  - rewrite (Hhit pk eq_refl). split; [done|]. intros k v Hk. eauto.
  - assert (cache_ok cache') by (intros k v Hk; eauto).
    destruct (pk_Deserialize (b :: bs)) as [pk| |] eqn:D; cbn [fst snd]; [|done..].
    split; [done|]. intros k v [[-> ->]|Hk]%Add_keeps; [done|]. eauto.
Qed.

(** ** Commit signatures *)

(** [SeparateSigAndMask]: 96 signature bytes, then the bitmap. *)
Definition SeparateSigAndMask (commitSigs : list Z) : outcome (list Z * list Z) :=
  if (length commitSigs <? BLSSignatureSizeInBytes)%nat then Err "no mask data found in commit sigs"
  else Ok (take BLSSignatureSizeInBytes commitSigs, drop BLSSignatureSizeInBytes commitSigs).

(** [SeparateSigAndMask] undoes the concatenation a leader sends, and
    fails exactly on payloads shorter than a signature. *)
Theorem SeparateSigAndMask_roundtrip sig bitmap payload :
  (length sig = BLSSignatureSizeInBytes ->
   SeparateSigAndMask (sig ++ bitmap) = Ok (sig, bitmap)) /\
  (SeparateSigAndMask payload = Ok (sig, bitmap) ->
   payload = sig ++ bitmap /\ length sig = BLSSignatureSizeInBytes) /\
  (is_Ok (SeparateSigAndMask payload) = false <->
   (length payload < BLSSignatureSizeInBytes)%nat).
Proof.
  unfold SeparateSigAndMask. split_and!.
  - intros Hs. rewrite length_app, Hs.
    rewrite (proj2 (Nat.ltb_ge _ _)) by lia. by rewrite <- Hs, take_app_length, drop_app_length.
  - destruct (Nat.ltb_spec (length payload) BLSSignatureSizeInBytes); [done|].
    intros [= <- <-]. rewrite take_drop, length_take. split; [done|lia].
  - destruct (Nat.ltb_spec (length payload) BLSSignatureSizeInBytes); simpl; split; try done; lia.
Qed.

(** ** multibls *)

Section multibls.
Context {G : Signer L}.
Record PrivateKeyWrapper := mkPrivate { Pri : SecretKey; Pub : PublicKeyWrapper }.

Definition Contains (multiKey : list PublicKeyWrapper) (pubKey : PublicKey) : bool :=
  existsb (fun key => bool_decide (key.(Object) = pubKey)) multiKey.

Definition GetPublicKeys (multiKey : list PrivateKeyWrapper) : list PublicKeyWrapper :=
  map Pub multiKey.

Fixpoint Dedup_loop (uniqueKeys : gset SerializedPublicKey) (multiKey : list PrivateKeyWrapper)
    : list PrivateKeyWrapper :=
  match multiKey with
  | [] => []
  | priKey :: rest =>
      if decide (priKey.(Pub).(wBytes) ∈ uniqueKeys) then Dedup_loop uniqueKeys rest
      else priKey :: Dedup_loop ({[priKey.(Pub).(wBytes)]} ∪ uniqueKeys) rest
  end.
Definition Dedup (multiKey : list PrivateKeyWrapper) : list PrivateKeyWrapper :=
  Dedup_loop ∅ multiKey.

Definition key_of (p : PrivateKeyWrapper) : SerializedPublicKey := p.(Pub).(wBytes).

Lemma Dedup_loop_spec seen l :
  NoDup (map key_of (Dedup_loop seen l)) /\
  (forall p, p ∈ Dedup_loop seen l -> key_of p ∉ seen /\ p ∈ l) /\
  (forall p, p ∈ l -> key_of p ∉ seen -> key_of p ∈ map key_of (Dedup_loop seen l)).
Proof.
  revert seen. induction l as [|a l IH]; intros seen; simpl.
  - split; [by constructor|]. split; intros p Hp; by apply elem_of_nil in Hp.
  - case_decide as Ha.
    + destruct (IH seen) as (? & H2 & H3). split; [done|]. split.
      * intros p Hp. destruct (H2 p Hp). by auto using list_elem_of_further.
      * intros p [->|Hp]%elem_of_cons ?; [done|auto].
    + destruct (IH ({[key_of a]} ∪ seen)) as (H1 & H2 & H3). split; [|split].
      * constructor; [|done]. intros Hin. apply list_elem_of_In, in_map_iff in Hin as (p & Hp & Hin%list_elem_of_In).
        destruct (H2 p Hin) as [Hn _]. apply Hn. rewrite Hp. set_solver.
      * intros p [->|Hp]%elem_of_cons; [split; [done|by left]|].
        destruct (H2 p Hp) as [Hn ?]. split; [set_solver|by right].
      * intros p [->|Hp]%elem_of_cons Hn; [by left|].
        destruct (decide (key_of p = key_of a)) as [->|]; [by left|].
        right. apply H3; [done|]. set_solver.
Qed.
End multibls.
End bls.

(** ** Witnesses *)

(** A cache that holds at most one entry. *)
#[export] Instance one_entry : LRU (L := ZBLS) := {|
  Cache := option (list Z * Z);
  lru_Get := fun c k => (match c with Some (k', v) => if decide (k = k') then Some v else None
                         | None => None end, c);
  lru_Add := fun _ k v => Some (k, v)
|}.
#[export] Instance one_entry_laws : LRULaws one_entry.
Proof.
  split; simpl; [done|]. intros c k v k' v'. case_decide; [intros [= <-]; by left|done].
Qed.

Lemma BytesToBLSPublicKey_transparent_witness :
  fst (BytesToBLSPublicKey (C := one_entry) None (be_bytes 48 77)) = Ok 77.
Proof.
  destruct (BytesToBLSPublicKey_transparent (C := one_entry) one_entry_laws None (be_bytes 48 77)
    ltac:(intros ? ?; simpl; discriminate)) as [-> _]. reflexivity.
Defined.

Lemma SeparateSigAndMask_roundtrip_witness :
  SeparateSigAndMask (replicate 96 7 ++ [3; 4]) = Ok (replicate 96 7, [3; 4]).
Proof. apply (proj1 (SeparateSigAndMask_roundtrip (replicate 96 7) [3; 4] [])). reflexivity. Defined.
