(* ===== verification/Mask.v ===== *)
(** * Participation bitmasks (crypto/bls/mask.go)

    A [Mask] is a bitmap over an ordered list of public keys together with the
    aggregate of the enabled keys.  The invariant [mask_wf] ties the three
    together: the bitmap has the right length, and the aggregate public key is
    the sum of exactly the keys whose bit is set. *)
From S2P Require Import Prelude Bls.
Local Open Scope Z_scope.

Section mask.
Context {L : BLSLib}.

Record Mask := mkMask {
  Bitmap : list Z;
  Publics : list PublicKeyWrapper;
  PublicsIndex : gmap SerializedPublicKey Z;
  AggregatePublic : PublicKey
}.

Definition with_bitmap (m : Mask) (bm : list Z) (agg : PublicKey) : Mask :=
  {| Bitmap := bm; Publics := m.(Publics); PublicsIndex := m.(PublicsIndex);
     AggregatePublic := agg |}.

(** ** Operations *)

(** [len(m.Publics)+7 >> 3] *)
Definition Len (m : Mask) : Z := Z.shiftr (Z.of_nat (length m.(Publics)) + 7) 3.

Definition make_bytes (n : Z) : list Z := replicate (Z.to_nat n) 0.

Definition index_of_keys (publics : list PublicKeyWrapper) : gmap SerializedPublicKey Z :=
  foldl (fun index ik => <[ik.2.(wBytes) := ik.1]> index) ∅ (zip (range publics) publics).

Definition NewMask (publics : list PublicKeyWrapper) : Mask :=
  let m := {| Bitmap := []; Publics := publics; PublicsIndex := index_of_keys publics;
              AggregatePublic := pk_zero |} in
  with_bitmap m (make_bytes (Len m)) pk_zero.

Definition Clear (m : Mask) : Mask := with_bitmap m (make_bytes (Len m)) pk_zero.

(** [byt := i >> 3], [msk := byte(1) << uint(i&7)] *)
Definition byt (i : Z) : Z := Z.shiftr i 3.
Definition msk (i : Z) : Z := u8 (Z.shiftl 1 (Z.land i 7)).

(** [m.Bitmap[byt] ^= msk; m.AggregatePublic.Add/Sub(m.Publics[i].Object)] *)
Definition flip (m : Mask) (i : Z) (op : PublicKey -> PublicKey -> PublicKey) : outcome Mask :=
  let! b := idx m.(Bitmap) (byt i) in
  let! bm := upd m.(Bitmap) (byt i) (Z.lxor b (msk i)) in
  let! p := idx m.(Publics) i in
  Ok (with_bitmap m bm (op m.(AggregatePublic) p.(Object))).

(** Bit [i] is raised when it is 0 and [want]ed, lowered when it is 1 and not. *)
Definition set_bit_to (m : Mask) (i : Z) (want : bool) : outcome Mask :=
  let! b := idx m.(Bitmap) (byt i) in
  let! m := (if (Z.land b (msk i) =? 0) && want then flip m i pk_add else Ok m) in
  let! b := idx m.(Bitmap) (byt i) in
  if negb (Z.land b (msk i) =? 0) && negb want then flip m i pk_sub else Ok m.

Definition SetMask (m : Mask) (mask : list Z) : outcome Mask :=
  if negb (Len m =? Z.of_nat (length mask)) then Err "mismatching bitmap lengths"
  else
    foldM (fun m i =>
        let! b := idx mask (byt i) in set_bit_to m i (negb (Z.land b (msk i) =? 0)))
      (range m.(Publics)) m.

Definition SetBit (m : Mask) (i : Z) (enable : bool) : outcome Mask :=
  if Z.of_nat (length m.(Publics)) <=? i then Err "index out of range"
  else set_bit_to m i enable.

Definition bit_enabled (bm : list Z) (i : Z) : outcome bool :=
  let! b := idx bm (byt i) in Ok (negb (Z.land b (msk i) =? 0)).

Definition GetPubKeyFromMask (m : Mask) (flag : bool) : outcome (list PublicKey) :=
  foldM (fun pubKeys i =>
      let! (on : bool) := bit_enabled m.(Bitmap) i in
      if Bool.eqb on flag then
        let! p := idx m.(Publics) i in Ok (pubKeys ++ [p.(Object)])
      else Ok pubKeys)
    (range m.(Publics)) [].

Definition GetSignedPubKeysFromBitmap (m : Mask) (bitmap : list Z) : outcome (list PublicKeyWrapper) :=
  if negb (Len m =? Z.of_nat (length bitmap)) then Err "mismatching bitmap lengths"
  else
    foldM (fun pubKeys i =>
        let! (on : bool) := bit_enabled bitmap i in
        if on then let! p := idx m.(Publics) i in Ok (pubKeys ++ [p]) else Ok pubKeys)
      (range m.(Publics)) [].

Definition IndexEnabled (m : Mask) (i : Z) : outcome bool :=
  if Z.of_nat (length m.(Publics)) <=? i then Err "index out of range"
  else bit_enabled m.(Bitmap) i.

Definition KeyEnabled (m : Mask) (public : SerializedPublicKey) : outcome bool :=
  match m.(PublicsIndex) !! public with
  | Some i => IndexEnabled m i
  | None => Err "key not found"
  end.

Definition SetKey (m : Mask) (public : SerializedPublicKey) (enable : bool) : outcome Mask :=
  match m.(PublicsIndex) !! public with
  | Some i => SetBit m i enable
  | None => Err "key not found"
  end.

Definition SetKeysAtomic (m : Mask) (publics : list PublicKeyWrapper) (enable : bool)
    : outcome Mask :=
  let! indexes := foldM (fun indexes key =>
      match m.(PublicsIndex) !! key.(wBytes) with
      | Some index => Ok (indexes ++ [index])
      | None => Err "key not found"
      end) publics [] in
  foldM (fun m index => SetBit m index enable) indexes m.

Definition CountEnabled (m : Mask) : outcome Z :=
  foldM (fun hw i => let! (on : bool) := bit_enabled m.(Bitmap) i in Ok (if on then hw + 1 else hw))
    (range m.(Publics)) 0.

Definition CountTotal (m : Mask) : Z := Z.of_nat (length m.(Publics)).

(** [AggregateMasks]: bitwise or of two bitmaps of one length. *)
Definition AggregateMasks (a b : list Z) : outcome (list Z) :=
  if negb (length a =? length b)%nat then Err "mismatching Bitmap lengths"
  else Ok (zip_with Z.lor a b).

(** Policies. *)
Definition CompletePolicy_Check (m : Mask) : outcome bool :=
  let! n := CountEnabled m in Ok (n =? CountTotal m).
Definition ThresholdPolicy_Check (thold : Z) (m : Mask) : outcome bool :=
  let! n := CountEnabled m in Ok (thold <=? n).

(** internal/utils/bytes.go *)
Definition halfByteLookup : list Z := [0; 1; 1; 2; 1; 2; 2; 3; 1; 2; 2; 3; 2; 3; 3; 4].
Definition countOneBitsInByte (by_ : Z) : outcome Z :=
  let! lo := idx halfByteLookup (Z.land by_ 15) in
  let! hi := idx halfByteLookup (Z.shiftr by_ 4) in
  Ok (lo + hi).
Definition CountOneBits (arr : list Z) : outcome Z :=
  foldM (fun count b => let! n := countOneBitsInByte b in Ok (count + n)) arr 0.

(** ** Bits of a bitmap *)

(** Bit [i] of a bitmap, little-endian within and across bytes. *)
Definition bit (bm : list Z) (i : nat) : bool :=
  match bm !! (i / 8)%nat with Some b => Z.testbit b (Z.of_nat (i mod 8)) | None => false end.

(** The reference meaning of a mask: the keys whose bit, counted from [k],
    is [flag], in order; and the sum of points. *)
Fixpoint keys_from (bm : list Z) (flag : bool) (k : nat) (l : list PublicKeyWrapper)
    : list PublicKeyWrapper :=
  match l with
  | [] => []
  | p :: l' =>
      if Bool.eqb (bit bm k) flag then p :: keys_from bm flag (S k) l' else keys_from bm flag (S k) l'
  end.
Definition pk_sum (l : list PublicKeyWrapper) : PublicKey :=
  foldr (fun p s => pk_add p.(Object) s) pk_zero l.

Record mask_wf (m : Mask) : Prop := {
  wf_len : Z.of_nat (length m.(Bitmap)) = Len m;
  wf_bytes : Forall is_byte m.(Bitmap);
  wf_tail : forall j, (length m.(Publics) <= j)%nat -> bit m.(Bitmap) j = false;
  wf_agg : m.(AggregatePublic) = pk_sum (keys_from m.(Bitmap) true 0 m.(Publics));
  wf_index : forall k i, m.(PublicsIndex) !! k = Some i ->
    0 <= i /\ exists p, m.(Publics) !! Z.to_nat i = Some p /\ p.(wBytes) = k;
  wf_keys : forall p, p ∈ m.(Publics) -> is_Some (m.(PublicsIndex) !! p.(wBytes))
}.

(** ** Single bits *)

Lemma byt_nat i : byt (Z.of_nat i) = Z.of_nat (i / 8).
Proof. unfold byt. rewrite Z.shiftr_div_pow2, Nat2Z.inj_div by lia. done. Qed.

Lemma land_7 i : Z.land (Z.of_nat i) 7 = Z.of_nat (i mod 8).
Proof. change 7 with (Z.ones 3). by rewrite Z.land_ones, Nat2Z.inj_mod by lia. Qed.

Lemma msk_nat i : msk (Z.of_nat i) = 2 ^ Z.of_nat (i mod 8).
Proof.
  unfold msk. rewrite land_7, Z.shiftl_1_l. unfold u8. apply Z.mod_small.
  pose proof (Nat.mod_upper_bound i 8 ltac:(lia)). split; [lia|].
  apply Z.pow_lt_mono_r; lia.
Qed.

(** Facts of bytes, by enumeration. *)
Definition all_bytes (q : Z -> nat -> bool) : bool :=
  forallb (fun b => forallb (fun k => q b k) (seq 0 8)) (seqZ 0 256).

Lemma all_bytes_spec q b k :
  all_bytes q = true -> is_byte b -> (k < 8)%nat -> q b k = true.
Proof.
  unfold all_bytes. intros H Hb Hk. rewrite forallb_forall in H.
  specialize (H b). rewrite forallb_forall in H. apply H.
  - apply list_elem_of_In, elem_of_seqZ. unfold is_byte in Hb. lia.
  - apply in_seq. lia.
Qed.

Lemma land_msk b k : is_byte b -> (k < 8)%nat ->
  (Z.land b (2 ^ Z.of_nat k) =? 0) = negb (Z.testbit b (Z.of_nat k)).
Proof.
  intros Hb Hk. apply Bool.eqb_prop.
  apply (all_bytes_spec (fun b k => Bool.eqb (Z.land b (2 ^ Z.of_nat k) =? 0)
    (negb (Z.testbit b (Z.of_nat k))))); [by vm_compute|done|done].
Qed.

Lemma lxor_msk b k : is_byte b -> (k < 8)%nat ->
  is_byte (Z.lxor b (2 ^ Z.of_nat k)) /\
  forall j, (j < 8)%nat -> Z.testbit (Z.lxor b (2 ^ Z.of_nat k)) (Z.of_nat j) =
    if decide (k = j) then negb (Z.testbit b (Z.of_nat j)) else Z.testbit b (Z.of_nat j).
Proof.
  intros Hb Hk. split.
  - pose proof (all_bytes_spec (fun b k => (0 <=? Z.lxor b (2 ^ Z.of_nat k)) &&
      (Z.lxor b (2 ^ Z.of_nat k) <? 256)) b k ltac:(by vm_compute) Hb Hk) as E.
    apply andb_prop in E as [E1%Z.leb_le E2%Z.ltb_lt]. done.
  - intros j Hj. rewrite Z.lxor_spec, Z.pow2_bits_eqb by lia. case_decide as E.
    + subst. by rewrite Z.eqb_refl, xorb_true_r.
    + rewrite (proj2 (Z.eqb_neq _ _)) by lia. by rewrite xorb_false_r.
Qed.

Lemma mod8 i : (i mod 8 < 8)%nat.
Proof. apply Nat.mod_upper_bound. lia. Qed.
#[local] Hint Resolve mod8 : core.

(** [put]: what writing one bit does to a bitmap. *)
Definition put (bm : list Z) (i : nat) (w : bool) : list Z :=
  if Bool.eqb (bit bm i) w then bm
  else alter (fun b => Z.lxor b (2 ^ Z.of_nat (i mod 8))) (i / 8)%nat bm.

Lemma put_length bm i w : length (put bm i w) = length bm.
Proof. unfold put. case_match; [done|]. apply length_alter. Qed.

Lemma put_bytes bm i w : Forall is_byte bm -> Forall is_byte (put bm i w).
Proof.
  intros Hb. unfold put. case_match; [done|]. apply Forall_alter; [done|].
  intros b _ Hb'. by apply lxor_msk.
Qed.

Lemma bit_put bm i j w : Forall is_byte bm -> (i / 8 < length bm)%nat ->
  bit (put bm i w) j = if decide (i = j) then w else bit bm j.
Proof.
  intros Hb Hi. unfold put. destruct (Bool.eqb (bit bm i) w) eqn:E.
  { apply Bool.eqb_prop in E. by case_decide as Hij; [subst|]. }
  unfold bit at 1. destruct (decide (i / 8 = j / 8)%nat) as [Eb|Nb].
  - rewrite <- Eb, list_lookup_alter_eq. destruct (lookup_lt_is_Some_2 bm (i / 8) Hi) as [b Hl].
    rewrite Hl. cbn [fmap option_fmap option_map]. rewrite Forall_lookup in Hb. pose proof (Hb _ _ Hl) as Hbb.
    rewrite (proj2 (lxor_msk b (i mod 8) Hbb (mod8 i))) by apply mod8.
    assert (bit bm j = Z.testbit b (Z.of_nat (j mod 8))) as Ej by (unfold bit; by rewrite <- Eb, Hl).
    destruct (decide (i = j)) as [->|Hne].
    + rewrite decide_True by done. rewrite <- Ej. destruct (bit bm j), w; done.
    + rewrite decide_False; [done|]. intros Em. apply Hne.
      rewrite (Nat.div_mod_eq i 8), (Nat.div_mod_eq j 8). lia.
  - rewrite list_lookup_alter_ne by done.
    rewrite decide_False by congruence. done.
Qed.

Lemma bit_enabled_Ok bm i : Forall is_byte bm -> (i / 8 < length bm)%nat ->
  bit_enabled bm (Z.of_nat i) = Ok (bit bm i).
Proof.
  intros Hb Hi. unfold bit_enabled, bit. rewrite byt_nat.
  destruct (lookup_lt_is_Some_2 bm (i / 8) Hi) as [b Hl].
  rewrite (idx_nat _ _ _ Hl), Hl, bind_ret, msk_nat. rewrite Forall_lookup in Hb.
  rewrite land_msk by eauto. by rewrite negb_involutive.
Qed.

(** ** Sums of enabled keys *)

Lemma keys_from_ext a b flag k l :
  (forall j, (k <= j < k + length l)%nat -> bit a j = bit b j) ->
  keys_from a flag k l = keys_from b flag k l.
Proof.
  revert k. induction l as [|p l IH]; intros k Hab; [done|]. cbn [keys_from].
  rewrite (Hab k) by (simpl; lia). rewrite (IH (S k)); [done|].
  intros j Hj. apply Hab. simpl. lia.
Qed.

Context (laws : BLSLaws L).

Lemma pk_add_swap a b c : pk_add a (pk_add b c) = pk_add b (pk_add a c).
Proof. by rewrite !pk_add_assoc, (pk_add_comm a b). Qed.

(** Raising bit [i] adds the key at [i] to the sum. *)
Lemma pk_sum_raise a b k i l p :
  l !! i = Some p -> bit a (k + i) = false -> bit b (k + i) = true ->
  (forall j, j <> (k + i)%nat -> bit a j = bit b j) ->
  pk_sum (keys_from b true k l) = pk_add p.(Object) (pk_sum (keys_from a true k l)).
Proof.
  revert k i. induction l as [|q l IH]; intros k i Hl Ha Hb Hab; [done|]. cbn [keys_from].
  destruct i as [|i].
  - rewrite Nat.add_0_r in *. injection Hl as ->. rewrite Ha, Hb. cbn [Bool.eqb pk_sum foldr].
    f_equal. f_equal. apply keys_from_ext. intros j Hj. symmetry. apply Hab. lia.
  - rewrite (Hab k) by lia. replace (k + S i)%nat with (S k + i)%nat in * by lia.
    pose proof (IH (S k) i Hl Ha Hb Hab) as Hi.
    destruct (Bool.eqb (bit b k) true); [|done].
    cbn [pk_sum foldr]. fold (pk_sum (keys_from b true (S k) l)).
    fold (pk_sum (keys_from a true (S k) l)). rewrite Hi. apply pk_add_swap.
Qed.

(** ** [set_bit_to] *)

Lemma flip_Ok m i op p :
  (i / 8 < length m.(Bitmap))%nat -> m.(Publics) !! i = Some p ->
  flip m (Z.of_nat i) op = Ok (with_bitmap m
    (alter (fun b => Z.lxor b (2 ^ Z.of_nat (i mod 8))) (i / 8)%nat m.(Bitmap))
    (op m.(AggregatePublic) p.(Object))).
Proof.
  intros Hi Hp. unfold flip. rewrite byt_nat, msk_nat.
  destruct (lookup_lt_is_Some_2 _ _ Hi) as [b Hl].
  rewrite (idx_nat _ _ _ Hl), bind_ret, upd_Ok, bind_ret, (idx_nat _ _ _ Hp), bind_ret by lia.
  rewrite Nat2Z.id. by rewrite <- (insert_alter_lookup _ _ _ _ Hl).
Qed.

Lemma Len_bound m i : (i < length m.(Publics))%nat -> Z.of_nat (length m.(Bitmap)) = Len m ->
  (i / 8 < length m.(Bitmap))%nat.
Proof.
  unfold Len. rewrite Z.shiftr_div_pow2 by lia. intros Hi Hl.
  apply Nat2Z.inj_lt. rewrite Hl, Nat2Z.inj_div. apply Z.div_lt_upper_bound; [lia|].
  pose proof (Z.mod_pos_bound (Z.of_nat (length (Publics m)) + 7) 8 ltac:(lia)).
  pose proof (Z.div_mod (Z.of_nat (length (Publics m)) + 7) 8 ltac:(lia)). simpl Z.of_nat.
  change (2 ^ 3) with 8. lia.
Qed.

(** The shape of every bit operation: the bitmap written at one place, and
    the aggregate following it. *)
Definition agg_after (v w : bool) (agg p : PublicKey) : PublicKey :=
  if Bool.eqb v w then agg else if w then pk_add agg p else pk_sub agg p.

Lemma set_bit_to_eq m i w p : Forall is_byte m.(Bitmap) -> (i / 8 < length m.(Bitmap))%nat ->
  m.(Publics) !! i = Some p ->
  set_bit_to m (Z.of_nat i) w = Ok (with_bitmap m (put m.(Bitmap) i w)
    (agg_after (bit m.(Bitmap) i) w m.(AggregatePublic) p.(Object))).
Proof.
  intros Hby Hi Hp. destruct (lookup_lt_is_Some_2 _ _ Hi) as [b Hl].
  assert (is_byte b) as Hb by (rewrite Forall_lookup in Hby; eauto).
  assert (bit m.(Bitmap) i = Z.testbit b (Z.of_nat (i mod 8))) as Hv by (unfold bit; by rewrite Hl).
  unfold set_bit_to, put, agg_after. rewrite byt_nat, msk_nat, (idx_nat _ _ _ Hl), bind_ret.
  rewrite land_msk, <- Hv by auto.
  destruct (bit m.(Bitmap) i) eqn:Ev, w; cbn [negb andb Bool.eqb];
    rewrite ?(flip_Ok _ _ _ _ Hi Hp), ?bind_ret; cbn [Bitmap with_bitmap].
  - rewrite (idx_nat _ _ _ Hl), bind_ret, andb_false_r. by destruct m.
  - rewrite (idx_nat _ _ _ Hl), bind_ret, land_msk, <- Hv by auto. cbn [negb andb].
    by rewrite (flip_Ok _ _ _ _ Hi Hp).
  - erewrite idx_nat by (by rewrite list_lookup_alter_eq, Hl). rewrite bind_ret, andb_false_r. done.
  - rewrite (idx_nat _ _ _ Hl), bind_ret, land_msk, <- Hv by auto. by destruct m.
Qed.

Definition same_keys (m m' : Mask) : Prop :=
  m'.(Publics) = m.(Publics) /\ m'.(PublicsIndex) = m.(PublicsIndex).

Lemma set_bit_to_wf m i w : mask_wf m -> (i < length m.(Publics))%nat ->
  exists m', set_bit_to m (Z.of_nat i) w = Ok m' /\ mask_wf m' /\ same_keys m m' /\
    forall j, bit m'.(Bitmap) j = if decide (i = j) then w else bit m.(Bitmap) j.
Proof.
  intros [Hlen Hby Htl Hagg Hix Hks] Hi. pose proof (Len_bound m i Hi Hlen) as Hib.
  destruct (lookup_lt_is_Some_2 _ _ Hi) as [p Hp].
  pose proof (fun j => bit_put m.(Bitmap) i j w Hby Hib) as Hput.
  rewrite (set_bit_to_eq m i w p Hby Hib Hp). eexists. split; [done|].
  split; [|by split; [|apply Hput]]. split; cbn; [by rewrite put_length|by apply put_bytes| | |done|done].
  - intros j Hj. rewrite Hput, decide_False by lia. by apply Htl.
  - rewrite Hagg. unfold agg_after. destruct (Bool.eqb (bit (Bitmap m) i) w) eqn:E.
    { unfold put. by rewrite E. }
    assert (bit (put (Bitmap m) i w) i = w) as Hw by by rewrite Hput, decide_True.
    assert (forall j, j <> i -> bit (put (Bitmap m) i w) j = bit (Bitmap m) j) as Hne
      by (intros; by rewrite Hput, decide_False).
    destruct w, (bit (Bitmap m) i) eqn:Ev; try done.
    + rewrite (pk_sum_raise (Bitmap m) (put (Bitmap m) i true) 0 i _ p); try done;
        [apply pk_add_comm|]. intros; symmetry; by apply Hne.
    + rewrite (pk_sum_raise (put (Bitmap m) i false) (Bitmap m) 0 i _ p); try done.
      by rewrite (pk_add_comm (Object p)), pk_sub_add.
Qed.

(** ** Construction *)

Lemma index_of_keys_spec (l : list PublicKeyWrapper) :
  (forall k i, index_of_keys l !! k = Some i ->
    0 <= i /\ exists p, l !! Z.to_nat i = Some p /\ p.(wBytes) = k) /\
  (forall p, p ∈ l -> is_Some (index_of_keys l !! p.(wBytes))).
Proof.
  unfold index_of_keys, range. induction l as [|x l IH] using rev_ind.
  { change (seqZ 0 _) with (@nil Z). cbn.
    split; [intros k i; by rewrite lookup_empty|intros p Hp; by apply elem_of_nil in Hp]. }
  rewrite length_app, Nat.add_1_r, seqZ_S, zip_with_app by (rewrite length_seqZ; lia).
  rewrite foldl_app, Z.add_0_l. cbn [zip_with foldl fst snd].
  match goal with |- context [<[_ := _]> ?f] => set (ix := f) in * end.
  destruct IH as [IH1 IH2]. split.
  - intros k i. destruct (decide (x.(wBytes) = k)) as [<-|Hk].
    + rewrite lookup_insert_eq. intros [= <-]. split; [lia|]. exists x. split; [|done].
      rewrite Nat2Z.id. by apply list_lookup_middle.
    + rewrite lookup_insert_ne by done. intros (? & p & Hp & ?)%IH1. split; [done|].
      exists p. split; [|done]. by apply lookup_app_l_Some.
  - intros p [Hp|Hp%list_elem_of_singleton]%elem_of_app; [|subst p].
    + destruct (decide (x.(wBytes) = p.(wBytes))) as [->|]; [by rewrite lookup_insert_eq|].
      rewrite lookup_insert_ne by done. by apply IH2.
    + by rewrite lookup_insert_eq.
Qed.

Lemma zeros_bit n j : bit (make_bytes n) j = false.
Proof.
  unfold bit, make_bytes. destruct (_ !! _) as [b|] eqn:E; [|done].
  apply lookup_replicate in E as [-> _]. apply Z.bits_0.
Qed.

Lemma zeros_keys n k l : keys_from (make_bytes n) true k l = [].
Proof. revert k. induction l as [|p l IH]; intros k; [done|]. cbn [keys_from]. rewrite zeros_bit. apply IH. Qed.

Lemma Clear_wf m :
  (forall k i, m.(PublicsIndex) !! k = Some i ->
    0 <= i /\ exists p, m.(Publics) !! Z.to_nat i = Some p /\ p.(wBytes) = k) ->
  (forall p, p ∈ m.(Publics) -> is_Some (m.(PublicsIndex) !! p.(wBytes))) -> mask_wf (Clear m).
Proof.
  intros Hi Hk. split; cbn; [| |intros; apply zeros_bit|by rewrite zeros_keys|done|done].
  - unfold make_bytes. rewrite length_replicate, Z2Nat.id; [done|].
    unfold Len. apply Z.shiftr_nonneg. lia.
  - unfold make_bytes. apply Forall_replicate. done.
Qed.

Lemma NewMask_wf publics : mask_wf (NewMask publics).
Proof. apply (Clear_wf (mkMask [] publics (index_of_keys publics) pk_zero)); apply index_of_keys_spec. Qed.

(** ** Whole-mask operations *)

Lemma same_keys_refl m : same_keys m m.
Proof. by split. Qed.
Lemma same_keys_trans m1 m2 m3 : same_keys m1 m2 -> same_keys m2 m3 -> same_keys m1 m3.
Proof. intros [? ?] [? ?]. split; congruence. Qed.

(** [SetMask], for the files that use it. *)
Lemma SetMask_total m mask : mask_wf m -> Forall is_byte mask ->
  if decide (Z.of_nat (length mask) = Len m) then
    exists m', SetMask m mask = Ok m' /\ mask_wf m' /\ same_keys m m' /\
      forall j, (j < length m.(Publics))%nat -> bit m'.(Bitmap) j = bit mask j
  else SetMask m mask = Err "mismatching bitmap lengths".
Proof.
  intros Hwf Hmask. unfold SetMask. case_decide as Hlen.
  2: { by rewrite (proj2 (Z.eqb_neq _ _)) by congruence. }
  rewrite Hlen, Z.eqb_refl. cbn [negb].
  destruct (foldM_range (fun n m' => mask_wf m' /\ same_keys m m' /\
      forall j, (j < n)%nat -> bit m'.(Bitmap) j = bit mask j)
    (fun m i => let! b := idx mask (byt i) in set_bit_to m i (negb (Z.land b (msk i) =? 0)))
    m.(Publics) m) as (m' & -> & ? & ? & ?); [|..|by exists m'].
  { split; [done|]. split; [apply same_keys_refl|lia]. }
  intros i m1 Hi (Hwf1 & Hsk & Hbits).
  assert (i / 8 < length mask)%nat as Him.
  { apply Nat2Z.inj_lt. rewrite Hlen, <- (wf_len m Hwf). apply inj_lt, Len_bound; [done|apply Hwf]. }
  pose proof (bit_enabled_Ok mask i Hmask Him) as Eb. unfold bit_enabled in Eb.
  destruct (idx mask _) as [b| |]; [|done..]. injection Eb as Eb. rewrite bind_ret, Eb.
  destruct (set_bit_to_wf m1 i (bit mask i) Hwf1) as (m2 & -> & ? & ? & Hput);
    [destruct Hsk as [-> _]; done|].
  exists m2. split; [done|]. split; [done|]. split; [by eapply same_keys_trans|].
  intros j Hj. rewrite Hput. case_decide; [by subst|]. apply Hbits. lia.
Qed.

(** [SetMask] on a well-formed mask refuses exactly the bitmaps of a
    wrong length; on the others it succeeds, every participant's bit becomes
    the given one, and the mask stays well formed: in particular the aggregate
    key it maintained by additions and subtractions is the sum of exactly the
    keys now enabled. *)
Theorem SetMask_spec m mask : mask_wf m -> Forall is_byte mask ->
  if decide (Z.of_nat (length mask) = Len m) then
    exists m', SetMask m mask = Ok m' /\ mask_wf m' /\ same_keys m m' /\
      forall j, (j < length m.(Publics))%nat -> bit m'.(Bitmap) j = bit mask j
  else SetMask m mask = Err "mismatching bitmap lengths".
Proof. apply SetMask_total. Qed.

(** The bit of a key of a well-formed mask. *)
Definition key_bit (m : Mask) (k : SerializedPublicKey) : bool :=
  match m.(PublicsIndex) !! k with Some i => bit m.(Bitmap) (Z.to_nat i) | None => false end.

Lemma SetBit_wf m i w : mask_wf m -> 0 <= i < Z.of_nat (length m.(Publics)) ->
  exists m', SetBit m i w = Ok m' /\ mask_wf m' /\ same_keys m m' /\
    forall j, bit m'.(Bitmap) j = if decide (Z.to_nat i = j) then w else bit m.(Bitmap) j.
Proof.
  intros Hwf Hi. unfold SetBit. rewrite (proj2 (Z.leb_gt _ _)) by lia.
  destruct (set_bit_to_wf m (Z.to_nat i) w Hwf) as (m' & H & ?); [lia|].
  rewrite Z2Nat.id in H by lia. by exists m'.
Qed.

Lemma index_range m k i : mask_wf m -> m.(PublicsIndex) !! k = Some i ->
  0 <= i < Z.of_nat (length m.(Publics)).
Proof. intros Hwf (? & p & Hp%lookup_lt_Some & _)%(wf_index m Hwf). lia. Qed.

Lemma key_index_inj m k1 k2 i1 i2 : mask_wf m ->
  m.(PublicsIndex) !! k1 = Some i1 -> m.(PublicsIndex) !! k2 = Some i2 ->
  Z.to_nat i1 = Z.to_nat i2 -> k1 = k2.
Proof.
  intros Hwf (? & p & Hp & <-)%(wf_index m Hwf) (? & q & Hq & <-)%(wf_index m Hwf) E.
  rewrite E in Hp. congruence.
Qed.

Lemma SetBits_spec (m : Mask) (ks : list (SerializedPublicKey * Z)) enable : mask_wf m ->
  (forall k i, (k, i) ∈ ks -> m.(PublicsIndex) !! k = Some i) ->
  exists m', foldM (fun m index => SetBit m index enable) (map snd ks) m = Ok m' /\
    mask_wf m' /\ same_keys m m' /\
    forall k, is_Some (m.(PublicsIndex) !! k) ->
      key_bit m' k = if decide (k ∈ map fst ks) then enable else key_bit m k.
Proof.
  revert m. induction ks as [|[k i] ks IH]; intros m Hwf Hks; simpl.
  { exists m. split_and!; [done|done|apply same_keys_refl|]. done. }
  assert (m.(PublicsIndex) !! k = Some i) as Hk by (apply Hks; left).
  destruct (SetBit_wf m i enable Hwf) as (m1 & -> & Hwf1 & Hsk1 & Hb1); [by eapply index_range|].
  rewrite bind_ret. pose proof Hsk1 as [Hp1 Hx1].
  destruct (IH m1 Hwf1) as (m2 & -> & Hwf2 & Hsk2 & Hb2).
  { intros k' i' Hin. rewrite Hx1. apply Hks. by right. }
  exists m2. split; [done|]. split; [done|]. split; [by eapply same_keys_trans|].
  intros k' [i' Hk']. rewrite Hb2 by (rewrite Hx1; eauto).
  destruct (decide (k' ∈ map fst ks)) as [Hin|Hnin].
  { rewrite decide_True by (by right). done. }
  unfold key_bit. rewrite Hx1, Hk', Hb1.
  destruct (decide (Z.to_nat i = Z.to_nat i')) as [E|E].
  - assert (k = k') as <- by (by apply (key_index_inj m k k' i i')). rewrite decide_True by left. done.
  - rewrite decide_False; [done|]. intros [->|?]%elem_of_cons; [congruence|done].
Qed.

Lemma collect_indexes m publics acc :
  foldM (fun indexes key =>
      match m.(PublicsIndex) !! key.(wBytes) with
      | Some index => Ok (indexes ++ [index])
      | None => Err "key not found"
      end) publics acc
  = if decide (Forall (fun key => is_Some (m.(PublicsIndex) !! key.(wBytes))) publics)
    then Ok (acc ++ map (fun key => default 0 (m.(PublicsIndex) !! key.(wBytes))) publics)
    else Err "key not found".
Proof.
  revert acc. induction publics as [|k ks IH]; intros acc; cbn [foldM map].
  { rewrite decide_True by constructor. by rewrite app_nil_r. }
  destruct (m.(PublicsIndex) !! k.(wBytes)) as [i|] eqn:E.
  - rewrite bind_ret, IH. case_decide as Hks.
    + rewrite decide_True by (constructor; eauto). by rewrite <- app_assoc.
    + rewrite decide_False; [done|]. by intros [_ ?]%Forall_cons.
  - rewrite decide_False; [done|]. intros [[? ?] _]%Forall_cons. congruence.
Qed.

(** [SetKeysAtomic], for the files that use it. *)
Lemma SetKeysAtomic_total m publics enable : mask_wf m ->
  if decide (Forall (fun key => is_Some (m.(PublicsIndex) !! key.(wBytes))) publics) then
    exists m', SetKeysAtomic m publics enable = Ok m' /\ mask_wf m' /\ same_keys m m' /\
      forall k, is_Some (m.(PublicsIndex) !! k) ->
        key_bit m' k = if decide (k ∈ map wBytes publics) then enable else key_bit m k
  else SetKeysAtomic m publics enable = Err "key not found".
Proof.
  intros Hwf. unfold SetKeysAtomic. rewrite collect_indexes.
  case_decide as Hks; [|done]. rewrite bind_ret. cbn [app].
  set (pairs := map (fun key => (key.(wBytes), default 0 (m.(PublicsIndex) !! key.(wBytes)))) publics).
  destruct (SetBits_spec m pairs enable Hwf) as (m' & Hm & ? & ? & Hb).
  { intros k i Hin. subst pairs. apply list_elem_of_In, in_map_iff in Hin as (p & [= <- <-] & Hp).
    rewrite Forall_forall in Hks. apply list_elem_of_In in Hp.
    destruct (Hks p Hp) as [i Hi]. by rewrite Hi. }
  subst pairs. rewrite map_map in Hm. simpl in Hm. exists m'. split; [done|]. split; [done|].
  split; [done|]. intros k Hk. rewrite (Hb k Hk), map_map. done.
Qed.

(** [SetKeysAtomic] is all or nothing: when every given key is a
    participant it sets the bit of each of them and of nobody else, keeping the
    mask well formed; when one is not, it reports it and the mask is left as
    it was. *)
Theorem SetKeysAtomic_spec m publics enable : mask_wf m ->
  if decide (Forall (fun key => is_Some (m.(PublicsIndex) !! key.(wBytes))) publics) then
    exists m', SetKeysAtomic m publics enable = Ok m' /\ mask_wf m' /\ same_keys m m' /\
      forall k, is_Some (m.(PublicsIndex) !! k) ->
        key_bit m' k = if decide (k ∈ map wBytes publics) then enable else key_bit m k
  else SetKeysAtomic m publics enable = Err "key not found".
Proof. apply SetKeysAtomic_total. Qed.

(** ** Counting *)

Definition count_bits (bm : list Z) (n : nat) : Z :=
  sumZ (fun j => if bit bm j then 1 else 0) (seq 0 n).

Lemma count_bits_S bm n : count_bits bm (S n) = count_bits bm n + (if bit bm n then 1 else 0).
Proof.
  unfold count_bits. rewrite seq_S, sumZ_app, sumZ_cons. change (sumZ _ []) with 0. simpl. lia.
Qed.

Lemma CountEnabled_eq m : mask_wf m ->
  CountEnabled m = Ok (count_bits m.(Bitmap) (length m.(Publics))).
Proof.
  intros Hwf. unfold CountEnabled.
  destruct (foldM_range (fun n hw => hw = count_bits m.(Bitmap) n)
    (fun hw i => let! (on : bool) := bit_enabled m.(Bitmap) i in Ok (if on then hw + 1 else hw))
    m.(Publics) 0) as (r & -> & ->); [done| |done].
  intros i hw Hi ->. rewrite bit_enabled_Ok, bind_ret, count_bits_S;
    [|apply Hwf|by apply Len_bound; [|apply Hwf]].
  eexists. split; [done|]. case_match; lia.
Qed.

Lemma countOneBitsInByte_eq b : is_byte b ->
  countOneBitsInByte b = Ok (sumZ (fun j => if Z.testbit b (Z.of_nat j) then 1 else 0) (seq 0 8)).
Proof.
  intros Hb.
  pose proof (all_bytes_spec (fun b _ => bool_decide (countOneBitsInByte b =
    Ok (sumZ (fun j => if Z.testbit b (Z.of_nat j) then 1 else 0) (seq 0 8)))) b 0
    ltac:(by vm_compute) Hb ltac:(lia)) as E.
  by apply bool_decide_eq_true in E.
Qed.

Lemma count_bits_cons b bm n : count_bits (b :: bm) (8 + n) =
  sumZ (fun j => if Z.testbit b (Z.of_nat j) then 1 else 0) (seq 0 8) + count_bits bm n.
Proof.
  unfold count_bits. rewrite seq_app, sumZ_app. f_equal.
  cbn [plus]. rewrite <- (Nat.add_0_r 8) at 1. rewrite <- fmap_add_seq.
  rewrite (sumZ_map _ (Nat.add 8)). apply sumZ_ext. intros j _. unfold bit.
  replace ((8 + j) / 8)%nat with (S (j / 8)) by (rewrite (Nat.add_comm 8), <- (Nat.mul_1_l 8),
    Nat.div_add by lia; lia).
  replace ((8 + j) mod 8)%nat with (j mod 8)%nat; [done|].
  rewrite <- (Nat.Div0.mod_add j 1 8). f_equal. lia.
Qed.

Lemma CountOneBits_eq bm : Forall is_byte bm ->
  CountOneBits bm = Ok (count_bits bm (8 * length bm)).
Proof.
  intros Hb. unfold CountOneBits.
  enough (forall acc, foldM (fun count b => let! n := countOneBitsInByte b in Ok (count + n)) bm acc
    = Ok (acc + count_bits bm (8 * length bm))) as E by apply (E 0).
  induction Hb as [|b bm Hb Hbm IH]; intros acc; cbn [foldM].
  { change (count_bits [] (8 * length [])) with 0. by rewrite Z.add_0_r. }
  rewrite countOneBitsInByte_eq, !bind_ret, IH by done. cbn [length].
  replace (8 * S (length bm))%nat with (8 + 8 * length bm)%nat by lia.
  rewrite count_bits_cons. f_equal. lia.
Qed.

Lemma count_bits_tail bm n k : (forall j, (n <= j)%nat -> bit bm j = false) ->
  count_bits bm (n + k) = count_bits bm n.
Proof.
  intros Hj. induction k as [|k IH]; [by rewrite Nat.add_0_r|].
  rewrite Nat.add_succ_r, count_bits_S, IH, Hj by lia. lia.
Qed.

Lemma Len_8 m : mask_wf m -> (length m.(Publics) <= 8 * length m.(Bitmap))%nat.
Proof.
  intros Hwf. destruct (decide (length m.(Publics) = 0)%nat); [lia|].
  pose proof (Len_bound m (length m.(Publics) - 1) ltac:(lia) (wf_len m Hwf)) as Hl.
  pose proof (Nat.div_mod_eq (length m.(Publics) - 1) 8).
  pose proof (mod8 (length m.(Publics) - 1)). lia.
Qed.

(** Counting participants two ways agrees.  On a well-formed mask the
    number [CountEnabled] computes bit by bit (used by the signature policies)
    is the number [CountOneBits] computes from its bitmap with a lookup table
    (used by the uniform quorum rule); it lies between 0 and [CountTotal]. *)
Theorem CountEnabled_CountOneBits m : mask_wf m ->
  exists n, CountEnabled m = Ok n /\ CountOneBits m.(Bitmap) = Ok n /\ 0 <= n <= CountTotal m.
Proof.
  intros Hwf. exists (count_bits m.(Bitmap) (length m.(Publics))).
  rewrite CountEnabled_eq, CountOneBits_eq by (done || apply Hwf). split; [done|]. split.
  - pose proof (Len_8 m Hwf).
    replace (8 * length m.(Bitmap))%nat with
      (length m.(Publics) + (8 * length m.(Bitmap) - length m.(Publics)))%nat by lia.
    by rewrite count_bits_tail by apply Hwf.
  - unfold count_bits, CountTotal. split; [apply sumZ_nonneg; intros; case_match; lia|].
    etrans; [apply (sumZ_le _ (fun _ => 1)); intros; case_match; lia|].
    generalize 0%nat. induction (length m.(Publics)) as [|k IH]; intros s; [done|].
    cbn [seq]. rewrite sumZ_cons. pose proof (IH (S s)). lia.
Qed.

(** Masks of different signers are merged bit by bit. *)
Lemma AggregateMasks_spec a b : length a = length b ->
  exists c, AggregateMasks a b = Ok c /\ length c = length a /\
    forall j, bit c j = bit a j || bit b j.
Proof.
  intros Hl. unfold AggregateMasks. rewrite (proj2 (Nat.eqb_eq _ _) Hl). eexists. split; [done|].
  split; [by rewrite length_zip_with_l by lia|]. intros j. unfold bit. rewrite lookup_zip_with.
  destruct (a !! (j / 8)%nat) as [x|] eqn:Ex, (b !! (j / 8)%nat) as [y|] eqn:Ey; cbn.
  - by rewrite Z.lor_spec.
  - apply lookup_lt_Some in Ex. apply lookup_ge_None in Ey. lia.
  - apply lookup_lt_Some in Ey. apply lookup_ge_None in Ex. lia.
  - done.
Qed.

End mask.

(** ** Witnesses, with points taken to be integers *)

Definition three_keys : list (@PublicKeyWrapper ZBLS) :=
  [mkWrapper (L := ZBLS) 11 100; mkWrapper (L := ZBLS) 12 20; mkWrapper (L := ZBLS) 13 3].

Lemma SetMask_spec_witness :
  exists m', SetMask (NewMask three_keys) [5] = Ok m' /\ AggregatePublic m' = 103.
Proof.
  pose proof (SetMask_spec ZBLS_laws (NewMask three_keys) [5] (NewMask_wf three_keys)
    ltac:(by repeat constructor)) as H.
  rewrite decide_True in H by reflexivity. destruct H as (m' & H & _).
  exists m'. split; [done|].
  assert ((let! m := SetMask (NewMask three_keys) [5] in Ok (AggregatePublic m)) = Ok 103) as E
    by (vm_compute; reflexivity).
  rewrite H in E. by injection E.
Defined.

Lemma SetKeysAtomic_spec_witness :
  exists m', SetKeysAtomic (NewMask three_keys) [mkWrapper (L := ZBLS) 12 20] true = Ok m' /\
    Bitmap m' = [2].
Proof.
  pose proof (SetKeysAtomic_spec ZBLS_laws (NewMask three_keys) [mkWrapper (L := ZBLS) 12 20] true
    (NewMask_wf three_keys)) as H.
  rewrite decide_True in H by (repeat constructor; eexists; vm_compute; reflexivity).
  destruct H as (m' & H & _). exists m'. split; [done|].
  assert ((let! m := SetKeysAtomic (NewMask three_keys) [mkWrapper (L := ZBLS) 12 20] true in
           Ok (Bitmap m)) = Ok [2]) as E by (vm_compute; reflexivity).
  rewrite H in E. by injection E.
Defined.

Lemma CountEnabled_CountOneBits_witness :
  exists n, CountEnabled (NewMask three_keys) = Ok n /\ n = 0.
Proof.
  destruct (CountEnabled_CountOneBits (NewMask three_keys) (NewMask_wf three_keys))
    as (n & H & _). exists n. split; [done|]. vm_compute in H. by injection H as <-.
Defined.
