(* ===== verification/SigBitmap.v ===== *)
(** * Commit payloads, signatures with bitmaps (consensus/signature/signature.go, internal/chain/sig.go)

    [ConstructCommitPayload] is what committee members sign for a block.  A
    leader sends an aggregated signature followed by the bitmap of its signers;
    [ReadSignatureBitmapByPublicKeys] reads the pair back against a committee. *)
From S2P Require Import Prelude Bls Mask Params.
Local Open Scope Z_scope.

Definition ConstructCommitPayload (config : ChainConfig) (epoch : option Z) (blockHash blockNum viewID : Z)
    : list Z :=
  let commitPayload := PutUint64 blockNum ++ be_bytes 32 blockHash in
  if negb (IsStaking config epoch) then commitPayload else commitPayload ++ PutUint64 viewID.

Section sig.
Context {L : BLSLib}.

Definition ParseCommitSigAndBitmap (payload : list Z) : outcome (list Z * list Z) :=
  if (length payload <? BLSSignatureSizeInBytes)%nat then Err "payload not have enough length"
  else Ok (take BLSSignatureSizeInBytes payload, drop BLSSignatureSizeInBytes payload).

Definition DecodeSigBitmap (sigBytes bitmap : list Z) (pubKeys : list PublicKeyWrapper) : outcome (Sign * Mask) :=
  match sig_Deserialize sigBytes with
  | None => Err "unable to deserialize multi-signature from payload"
  | Some aggSig =>
      match SetMask (NewMask pubKeys) bitmap with
      | Ok mask => Ok (aggSig, mask)
      | Err _ => Err "mask.SetMask failed"
      | Panic w => Panic w
      end
  end.

Definition ReadSignatureBitmapByPublicKeys (recvPayload : list Z) (publicKeys : list PublicKeyWrapper)
    : outcome (Sign * Mask) :=
  let! p := ParseCommitSigAndBitmap recvPayload in
  let '(sig, bitmap) := p in
  DecodeSigBitmap sig bitmap publicKeys.

(** ** Masks are their bits *)

Lemma bitmap_ext a b : length a = length b -> Forall is_byte a -> Forall is_byte b ->
  (forall j, bit a j = bit b j) -> a = b.
Proof.
  intros Hlen Ha Hb Hbit. apply list_eq. intros i.
  destruct (a !! i) as [x|] eqn:Ex, (b !! i) as [y|] eqn:Ey; [|exfalso|exfalso|done].
  2: { apply lookup_lt_Some in Ex. apply lookup_ge_None in Ey. lia. }
  2: { apply lookup_lt_Some in Ey. apply lookup_ge_None in Ex. lia. }
  f_equal. rewrite Forall_lookup in Ha, Hb. pose proof (Ha _ _ Ex) as Hx. pose proof (Hb _ _ Ey) as Hy.
  unfold is_byte in *. apply Z.bits_inj'. intros n Hn. destruct (Z.lt_ge_cases n 8) as [Hn8|Hn8].
  - specialize (Hbit (8 * i + Z.to_nat n)%nat). unfold bit in Hbit.
    assert ((8 * i + Z.to_nat n) / 8 = i)%nat as Hd by (rewrite Nat.mul_comm, Nat.div_add_l, Nat.div_small; lia).
    assert ((8 * i + Z.to_nat n) mod 8 = Z.to_nat n)%nat as Hm
      by (rewrite Nat.mul_comm, Nat.add_comm, Nat.Div0.mod_add, Nat.mod_small; lia).
    rewrite Hd, Hm, Ex, Ey, Z2Nat.id in Hbit by lia. done.
  - assert (forall z, 0 <= z < 256 -> Z.testbit z n = false) as Hz; [|by rewrite !Hz].
    intros z Hz. destruct (Z.eq_dec z 0) as [->|]; [apply Z.bits_0|]. apply Z.bits_above_log2; [lia|].
    apply Z.log2_lt_pow2; [lia|]. pose proof (Z.pow_le_mono_r 2 8 n ltac:(lia) Hn8). lia.
Qed.

Lemma mask_ext m m' : mask_wf m -> mask_wf m' -> same_keys m m' ->
  (forall j, (j < length m.(Publics))%nat -> bit m'.(Bitmap) j = bit m.(Bitmap) j) -> m' = m.
Proof.
  intros Hm Hm' [Hp Hx] Hb.
  assert (Bitmap m' = Bitmap m) as E.
  { apply bitmap_ext; [|apply Hm'|apply Hm|].
    - apply Nat2Z.inj. rewrite (wf_len _ Hm), (wf_len _ Hm'). unfold Len. by rewrite Hp.
    - intros j. destruct (Nat.lt_ge_cases j (length m.(Publics))) as [Hj|Hj]; [by apply Hb|].
      rewrite (wf_tail _ Hm j Hj). apply (wf_tail _ Hm'). by rewrite Hp. }
  pose proof (wf_agg _ Hm) as E1. pose proof (wf_agg _ Hm') as E2.
  destruct m as [bm ps ix ag], m' as [bm' ps' ix' ag']; cbn in *. congruence.
Qed.

(** The index of a mask made by [NewMask] is a function of its keys. *)
Definition mask_of (keys : list PublicKeyWrapper) (m : Mask) : Prop :=
  mask_wf m /\ same_keys (NewMask keys) m.

Context (laws : BLSLaws L).

Lemma NewMask_mask_of keys : mask_of keys (NewMask keys).
Proof. split; [apply NewMask_wf|apply same_keys_refl]. Qed.

Lemma DecodeSigBitmap_total sigBytes bitmap keys : Forall is_byte bitmap ->
  match DecodeSigBitmap sigBytes bitmap keys with
  | Ok (s, m) => sig_Deserialize sigBytes = Some s /\ Z.of_nat (length bitmap) = Len (NewMask keys) /\ mask_of keys m /\
                 forall j, (j < length keys)%nat -> bit m.(Bitmap) j = bit bitmap j
  | Err _ => sig_Deserialize sigBytes = None \/ Z.of_nat (length bitmap) <> Len (NewMask keys)
  | Panic _ => False
  end.
Proof.
  intros Hb. unfold DecodeSigBitmap. destruct (sig_Deserialize sigBytes) as [s|]; [|by left].
  pose proof (SetMask_total laws (NewMask keys) bitmap (NewMask_wf keys) Hb) as Hs. case_decide as Hl.
  - destruct Hs as (m & -> & Hwf & Hsk & Hbits). by split_and!.
  - rewrite Hs. by right.
Qed.

Lemma ReadSignatureBitmap_written (S : SigCheck L) (G : Signer L) (slaws : SigLaws L S G) keys s m :
  mask_of keys m -> ReadSignatureBitmapByPublicKeys (sig_Serialize s ++ m.(Bitmap)) keys = Ok (s, m).
Proof.
  intros [Hwf Hsk]. unfold ReadSignatureBitmapByPublicKeys, ParseCommitSigAndBitmap, BLSSignatureSizeInBytes.
  pose proof (sig_Serialize_length s) as Hls. rewrite length_app.
  rewrite (proj2 (Nat.ltb_ge _ _)) by lia. cbn [mbind outcome_bind].
  rewrite take_app_le, take_ge by lia. rewrite drop_app_le, drop_ge by lia. cbn [app].
  pose proof (DecodeSigBitmap_total (sig_Serialize s) m.(Bitmap) keys (wf_bytes _ Hwf)) as Hd.
  rewrite sig_roundtrip in Hd. destruct (DecodeSigBitmap _ _ _) as [[s' m']|e|w]; [| |done].
  - destruct Hd as ([= <-] & _ & [Hwf' Hsk'] & Hbits). f_equal. f_equal. apply mask_ext; [done|done| |].
    + destruct Hsk as [? ?], Hsk' as [? ?]. split; congruence.
    + intros j Hj. apply Hbits. destruct Hsk as [Hp _]. by rewrite Hp in Hj.
  - exfalso. destruct Hd as [?|Hl]; [done|]. apply Hl. rewrite (wf_len _ Hwf). unfold Len. destruct Hsk as [-> _]. done.
Qed.

(** C17: What a leader writes a validator reads back, and nothing else is
    accepted.  Reading a signature and bitmap against a committee never panics;
    it fails exactly when the payload is shorter than a signature, the signature
    does not decode or the bitmap has not the committee's length; when it
    succeeds the mask is well-formed over the committee (its aggregated key is
    the sum of exactly the keys whose bit the payload sets); and reading the
    concatenation of a serialised signature and the bitmap of a well-formed mask
    of the committee gives both back. *)
Theorem ReadSignatureBitmap_roundtrip (S : SigCheck L) (G : Signer L) (slaws : SigLaws L S G) keys payload :
  Forall is_byte (drop BLSSignatureSizeInBytes payload) ->
  (match ReadSignatureBitmapByPublicKeys payload keys with
   | Ok (s, m) => (BLSSignatureSizeInBytes <= length payload)%nat /\
       sig_Deserialize (take BLSSignatureSizeInBytes payload) = Some s /\
       Z.of_nat (length (drop BLSSignatureSizeInBytes payload)) = Len (NewMask keys) /\ mask_of keys m /\
       forall j, (j < length keys)%nat -> bit m.(Bitmap) j = bit (drop BLSSignatureSizeInBytes payload) j
   | Err _ => (length payload < BLSSignatureSizeInBytes)%nat \/
       sig_Deserialize (take BLSSignatureSizeInBytes payload) = None \/
       Z.of_nat (length (drop BLSSignatureSizeInBytes payload)) <> Len (NewMask keys)
   | Panic _ => False
   end) /\
  forall s m, mask_of keys m -> ReadSignatureBitmapByPublicKeys (sig_Serialize s ++ m.(Bitmap)) keys = Ok (s, m).
Proof.
  intros Hb. split; [|intros s m; by apply (ReadSignatureBitmap_written S G)].
  unfold ReadSignatureBitmapByPublicKeys, ParseCommitSigAndBitmap.
  destruct (Nat.ltb_spec (length payload) BLSSignatureSizeInBytes) as [Hl|Hl]; cbn [mbind outcome_bind]; [by left|].
  pose proof (DecodeSigBitmap_total (take BLSSignatureSizeInBytes payload) _ keys Hb) as Hd.
  destruct (DecodeSigBitmap _ _ _) as [[s m]| |]; [|by right|done]. by split.
Qed.
End sig.

(** ** Witness *)

Lemma ReadSignatureBitmap_roundtrip_witness :
  let payload := sig_Serialize (BLSLib := ZBLS) 40 ++ [5] in
  exists m, ReadSignatureBitmapByPublicKeys payload three_keys = Ok (40, m) /\ bit m.(Bitmap) 2 = true.
Proof.
  intros payload.
  destruct (ReadSignatureBitmap_roundtrip ZBLS_laws ZCheck ZSigner ZSig_laws three_keys payload) as [Hr _].
  { by repeat constructor. }
  assert (is_Ok (ReadSignatureBitmapByPublicKeys payload three_keys) = true) as Hok by (by vm_compute).
  destruct (ReadSignatureBitmapByPublicKeys payload three_keys) as [[s m]| |]; [|done|done].
  destruct Hr as (_ & [= <-] & _ & _ & Hbits). exists m. split; [done|]. rewrite Hbits; [done|].
  unfold three_keys. cbn. lia.
Defined.
