(* ===== verification/Shard.v ===== *)
(** * Committees and the sharding state (shard/shard_state.go, shard/values.go)

    [State] is the super-committee: per shard a [Committee] of [Slot]s.  A slot
    with no effective stake is run by Intelchain; one with a stake is an
    external validator's.  Pointers to a [Committee] or [State] that may be nil
    are options.  RLP and Keccak are foreign and enter as parameters. *)
From S2P Require Import Prelude Dec Bls Params Sharding.
Local Open Scope Z_scope.

(** ** Data *)

Record Slot := mkSlot {
  EcdsaAddress : Address;
  BLSPublicKey : SerializedPublicKey;
  EffectiveStake : option Dec
}.
#[export] Instance Slot_eq_dec : EqDecision Slot.
Proof. solve_decision. Defined.
Definition SlotList : Type := list Slot.

Record Committee := mkCommittee { ShardID : Z; Slots : SlotList }.
#[export] Instance Committee_eq_dec : EqDecision Committee.
Proof. solve_decision. Defined.

Record State := mkState { Epoch : option Z; Shards : list Committee }.

(** Pre-staking structures, kept for decoding old chain data. *)
Record SlotLegacy := mkSlotLegacy { lEcdsaAddress : Address; lBLSPublicKey : SerializedPublicKey }.
Definition SlotListLegacy : Type := list SlotLegacy.
Record CommitteeLegacy := mkCommitteeLegacy { lShardID : Z; lSlots : SlotListLegacy }.
Definition StateLegacy : Type := list CommitteeLegacy.

Definition ErrShardIDNotInSuperCommittee : string := "shardID not in super committee".
Definition ErrValidNotInCommittee : string := "slot signer not this slot's subcommittee".
Definition ErrSubCommitteeNil : string := "subcommittee is nil pointer".
Definition ErrSuperCommitteeNil : string := "supercommittee is nil pointer".
Definition BeaconChainShardID : Z := 0.

(** ** Encoding *)

(** The RLP codec of the two generations of the structure. *)
Class ShardRLP := {
  Data : Type;
  rlp_Encode : State -> outcome Data;
  rlp_EncodeLegacy : StateLegacy -> outcome Data;
  rlp_Decode : Data -> outcome State;
  rlp_DecodeLegacy : Data -> outcome StateLegacy
}.

(** A nil epoch does not survive RLP (it reads back as 0), and a legacy
    structure, a list of lists, never reads as a state, whose first field is
    an integer. *)
Class ShardRLPLaws (R : ShardRLP) : Prop := {
  rlp_roundtrip s d : is_Some s.(Epoch) -> rlp_Encode s = Ok d -> rlp_Decode d = Ok s;
  rlp_legacy_roundtrip s d : rlp_EncodeLegacy s = Ok d -> rlp_DecodeLegacy d = Ok s;
  rlp_legacy_not_state s d : rlp_EncodeLegacy s = Ok d -> exists e, rlp_Decode d = Err e
}.

Definition to_legacy (s : State) : StateLegacy :=
  map (fun c => {| lShardID := c.(ShardID);
                   lSlots := map (fun s => {| lEcdsaAddress := s.(EcdsaAddress);
                                              lBLSPublicKey := s.(BLSPublicKey) |}) c.(Slots) |})
    s.(Shards).

Definition of_legacy (old : StateLegacy) : State :=
  {| Epoch := None;
     Shards := map (fun c => {| ShardID := c.(lShardID);
                                Slots := map (fun s => {| EcdsaAddress := s.(lEcdsaAddress);
                                                          BLSPublicKey := s.(lBLSPublicKey);
                                                          EffectiveStake := None |}) c.(lSlots) |})
                 old |}.

Definition DecodeWrapper {R : ShardRLP} (shardState : Data) : outcome State :=
  match rlp_Decode shardState with
  | Ok newSS => Ok newSS
  | Panic w => Panic w
  | Err _ =>
      match rlp_DecodeLegacy shardState with
      | Ok oldSS => Ok (of_legacy oldSS)
      | Panic w => Panic w
      | Err err2 => Err err2
      end
  end.

Definition EncodeWrapper {R : ShardRLP} (shardState : State) (isStaking : bool) : outcome Data :=
  if isStaking then rlp_Encode shardState else rlp_EncodeLegacy (to_legacy shardState).

(** ** Staked slots *)

Record StakedSlots := mkStakedSlots {
  CountStakedValidator : Z;
  CountStakedBLSKey : Z;
  Addrs : list Address;
  LookupSet : gset Address;
  TotalEffectiveStaked : Dec
}.

Definition no_staked : StakedSlots := {|
  CountStakedValidator := 0; CountStakedBLSKey := 0; Addrs := []; LookupSet := ∅;
  TotalEffectiveStaked := ZeroDec
|}.

(** One slot of the loop body both functions share. *)
Definition staked_step (r : StakedSlots) (slot : Slot) : outcome StakedSlots :=
  match slot.(EffectiveStake) with
  | None => Ok r
  | Some stake =>
      let addr := slot.(EcdsaAddress) in
      let! total := Dec.Add r.(TotalEffectiveStaked) stake in
      let seen := bool_decide (addr ∈ r.(LookupSet)) in
      Ok {| CountStakedValidator :=
              if seen then r.(CountStakedValidator) else r.(CountStakedValidator) + 1;
            CountStakedBLSKey := r.(CountStakedBLSKey) + 1;
            Addrs := if seen then r.(Addrs) else r.(Addrs) ++ [addr];
            LookupSet := if seen then r.(LookupSet) else {[addr]} ∪ r.(LookupSet);
            TotalEffectiveStaked := total |}
  end.

Definition StakedValidators (c : Committee) : outcome StakedSlots :=
  foldM staked_step c.(Slots) no_staked.

(** The super-committee's method of the same name. *)
Definition StakedValidators_State (ss : State) : outcome StakedSlots :=
  foldM (fun r shard => foldM staked_step shard.(Slots) r) ss.(Shards) no_staked.

(** ** Lookup and copying *)

Definition FindCommitteeByID (ss : option State) (shardID : Z) : outcome Committee :=
  match ss with
  | None => Err ErrShardIDNotInSuperCommittee
  | Some ss =>
      match find (fun c => c.(ShardID) =? shardID) ss.(Shards) with
      | Some c => Ok c
      | None => Err ErrShardIDNotInSuperCommittee
      end
  end.

Definition AddressForBLSKey (c : option Committee) (key : SerializedPublicKey) : outcome Address :=
  match c with
  | None => Err ErrSubCommitteeNil
  | Some c =>
      match find (fun slot => slot.(BLSPublicKey) =? key) c.(Slots) with
      | Some slot => Ok slot.(EcdsaAddress)
      | None => Err ErrValidNotInCommittee
      end
  end.

Definition DeepCopy_SlotList (l : SlotList) : SlotList := [] ++ l.
Definition DeepCopy_Committee (c : Committee) : Committee :=
  {| ShardID := c.(ShardID); Slots := DeepCopy_SlotList c.(Slots) |}.
Definition DeepCopy (ss : State) : State :=
  {| Epoch := ss.(Epoch); Shards := foldl (fun r c => r ++ [DeepCopy_Committee c]) [] ss.(Shards) |}.

(** [for j := range c.Slots], with the key cache of [BytesToBLSPublicKey]
    left out: it is transparent. *)
Definition BLSPublicKeys {L : BLSLib} (c : option Committee) : outcome (list PublicKeyWrapper) :=
  match c with
  | None => Err ErrSubCommitteeNil
  | Some c =>
      foldM (fun slice slot =>
          let! pubKey := deserialize_key (Bytes slot.(BLSPublicKey)) in
          Ok (slice ++ [{| wBytes := slot.(BLSPublicKey); Object := pubKey |}]))
        c.(Slots) []
  end.

(** ** Comparison *)

Definition cmp (a b : Z) : Z := match a ?= b with Lt => -1 | Eq => 0 | Gt => 1 end.

Definition CompareBLSPublicKey (k1 k2 : SerializedPublicKey) : Z := cmp k1 k2.
Definition CompareNodeID (id1 id2 : Slot) : Z :=
  let c := cmp id1.(EcdsaAddress) id2.(EcdsaAddress) in
  if negb (c =? 0) then c
  else
    let c := CompareBLSPublicKey id1.(BLSPublicKey) id2.(BLSPublicKey) in
    if negb (c =? 0) then c else 0.

(** The loop over the common prefix, then the lengths. *)
Fixpoint CompareNodeIDList (l1 l2 : SlotList) : Z :=
  match l1, l2 with
  | a :: l1', b :: l2' =>
      let c := CompareNodeID a b in if negb (c =? 0) then c else CompareNodeIDList l1' l2'
  | _, _ =>
      if (length l1 <? length l2)%nat then -1
      else if (length l2 <? length l1)%nat then 1 else 0
  end.

Definition CompareCommittee (c1 c2 : Committee) : Z :=
  if c1.(ShardID) <? c2.(ShardID) then -1
  else if c2.(ShardID) <? c1.(ShardID) then 1
  else
    let c := CompareNodeIDList c1.(Slots) c2.(Slots) in
    if negb (c =? 0) then c else 0.

(** ** Hashing *)

Section hash.
(** Keccak-256, foreign. *)
Context (keccak : list Z -> list Z).

Definition AddressLength : nat := 20.

Definition Serialize (n : Slot) : list Z := be_bytes AddressLength n.(EcdsaAddress) ++ Bytes n.(BLSPublicKey).

Definition GetHashFromNodeList (nodeList : list Slot) : list Z :=
  match nodeList with
  | [] => []
  | _ => keccak (concat (map Serialize nodeList))
  end.

(** [sort.Slice] is not stable; [SliceStable] is one of its possible results,
    and the only one when the shard ids differ (see [Hash_order_irrelevant]). *)
Definition Hash (ss : State) : list Z :=
  let copy := DeepCopy ss in
  let shards := SliceStable (fun a b => a.(ShardID) <? b.(ShardID)) copy.(Shards) in
  keccak (concat (map (fun c => GetHashFromNodeList c.(Slots)) shards)).
End hash.

(** ** External slots *)

Definition ExternalSlotsAvailableForEpoch (Schedule : Schedule) (epoch : option Z) : outcome Z :=
  let! instance := InstanceForEpoch Schedule epoch in
  let stakedSlots :=
    (NumNodesPerShard instance - NumIntelchainOperatedNodesPerShard instance) * NumShards instance in
  (* the log line of the zero case reads epoch.Uint64() *)
  if stakedSlots =? 0 then let! _ := Uint64 epoch in Ok stakedSlots else Ok stakedSlots.

(** ** Properties *)

Lemma DeepCopy_eq ss : DeepCopy ss = ss.
Proof.
  destruct ss as [e l]. unfold DeepCopy. f_equal.
  enough (forall acc, foldl (fun r c => r ++ [DeepCopy_Committee c]) acc l = acc ++ l) as H by apply H.
  induction l as [|c l IH]; intros acc; simpl; [by rewrite app_nil_r|].
  rewrite IH, <- app_assoc. by destruct c.
Qed.

(** What a legacy encoding keeps of a state. *)
Definition forget_stake (s : State) : State :=
  {| Epoch := None;
     Shards := map (fun c => {| ShardID := c.(ShardID);
                                Slots := map (fun s => {| EcdsaAddress := s.(EcdsaAddress);
                                                          BLSPublicKey := s.(BLSPublicKey);
                                                          EffectiveStake := None |}) c.(Slots) |})
                 s.(Shards) |}.

(** [DecodeWrapper] inverts [EncodeWrapper] in both generations: staking
    states come back whole, pre-staking ones come back with no epoch and no
    effective stake, and never as something else. *)
Theorem DecodeWrapper_EncodeWrapper {R : ShardRLP} (laws : ShardRLPLaws R) s isStaking d :
  is_Some s.(Epoch) -> EncodeWrapper s isStaking = Ok d ->
  DecodeWrapper d = Ok (if isStaking then s else forget_stake s).
Proof.
  intros He Hd. unfold EncodeWrapper, DecodeWrapper in *. destruct isStaking.
  - by rewrite (rlp_roundtrip s d He Hd).
  - destruct (rlp_legacy_not_state _ d Hd) as [e ->].
    rewrite (rlp_legacy_roundtrip _ d Hd). unfold of_legacy, to_legacy, forget_stake. f_equal. f_equal.
    rewrite map_map. apply map_ext. intros c. simpl. f_equal. by rewrite map_map.
Qed.

(** A toy codec for the witness. *)
#[export] Instance toy_rlp : ShardRLP := {|
  Data := State + StateLegacy;
  rlp_Encode := fun s => Ok (inl s); rlp_EncodeLegacy := fun s => Ok (inr s);
  rlp_Decode := fun d => match d with inl s => Ok s | inr _ => Err "expected input list" end;
  rlp_DecodeLegacy := fun d => match d with inr s => Ok s | inl _ => Err "expected list" end
|}.
#[export] Instance toy_rlp_laws : ShardRLPLaws toy_rlp.
Proof. split; simpl; [by intros ? ? _ [= <-]|by intros ? ? [= <-]|intros ? ? [= <-]; eauto]. Qed.

Lemma DecodeWrapper_EncodeWrapper_witness :
  let s := mkState (Some 3) [mkCommittee 0 [mkSlot 1 2 (Some 5)]] in
  DecodeWrapper (R := toy_rlp) (inr (to_legacy s)) = Ok (mkState None [mkCommittee 0 [mkSlot 1 2 None]]).
Proof.
  intros s. apply (DecodeWrapper_EncodeWrapper (R := toy_rlp) toy_rlp_laws s false (inr (to_legacy s)));
    [by eexists|reflexivity].
Defined.

(** *** Comparison is a total order on committees up to effective stake *)

Lemma cmp_eq a b : cmp a b = 0 <-> a = b.
Proof. unfold cmp. destruct (Z.compare_spec a b); split; intros; try lia; done. Qed.
Lemma cmp_anti a b : cmp b a = - cmp a b.
Proof. unfold cmp. rewrite (Z.compare_antisym a b). by destruct (a ?= b). Qed.

Lemma opp_eqb_0 x : (- x =? 0) = (x =? 0).
Proof. by destruct x. Qed.

Lemma CompareNodeID_anti a b : CompareNodeID b a = - CompareNodeID a b.
Proof.
  unfold CompareNodeID, CompareBLSPublicKey.
  rewrite (cmp_anti (EcdsaAddress a)), (cmp_anti (BLSPublicKey a)), !opp_eqb_0.
  by repeat case_match.
Qed.

Definition node_id (s : Slot) : Address * SerializedPublicKey := (s.(EcdsaAddress), s.(BLSPublicKey)).

Lemma CompareNodeID_eq a b : CompareNodeID a b = 0 <-> node_id a = node_id b.
Proof.
  unfold CompareNodeID, CompareBLSPublicKey, node_id.
  destruct (Z.eqb_spec (cmp (EcdsaAddress a) (EcdsaAddress b)) 0) as [H|H]; cbn.
  - apply (proj1 (cmp_eq _ _)) in H. rewrite H.
    destruct (Z.eqb_spec (cmp (BLSPublicKey a) (BLSPublicKey b)) 0) as [H'|H']; cbn.
    + apply (proj1 (cmp_eq _ _)) in H'. by rewrite H'.
    + split; [done|]. intros [= E]. exfalso. apply H'. by apply cmp_eq.
  - split; [done|]. intros [= E _]. exfalso. apply H. by apply cmp_eq.
Qed.

Lemma CompareNodeIDList_anti l1 l2 : CompareNodeIDList l2 l1 = - CompareNodeIDList l1 l2.
Proof.
  revert l2. induction l1 as [|a l1 IH]; intros [|b l2]; try done. cbn [CompareNodeIDList].
  rewrite (CompareNodeID_anti a b), opp_eqb_0. destruct (CompareNodeID a b =? 0); cbn; [apply IH|done].
Qed.

Lemma CompareNodeIDList_eq l1 l2 : CompareNodeIDList l1 l2 = 0 <-> map node_id l1 = map node_id l2.
Proof.
  revert l2. induction l1 as [|a l1 IH]; intros [|b l2]; try done. cbn [CompareNodeIDList map].
  destruct (Z.eqb_spec (CompareNodeID a b) 0) as [H|H]; cbn.
  - rewrite IH. apply CompareNodeID_eq in H. rewrite H. split; [by intros ->|by intros [= ->]].
  - split; [done|]. intros [= E1 E2 _]. exfalso. apply H, CompareNodeID_eq. unfold node_id. congruence.
Qed.

(** [CompareCommittee] is antisymmetric, and answers 0 exactly on
    committees with the same shard and the same members in the same order;
    effective stake is not compared. *)
Theorem CompareCommittee_order c1 c2 :
  CompareCommittee c2 c1 = - CompareCommittee c1 c2 /\
  (CompareCommittee c1 c2 = 0 <->
   c1.(ShardID) = c2.(ShardID) /\ map node_id c1.(Slots) = map node_id c2.(Slots)).
Proof.
  unfold CompareCommittee. rewrite (CompareNodeIDList_anti c1.(Slots) c2.(Slots)).
  pose proof (CompareNodeIDList_eq c1.(Slots) c2.(Slots)) as He.
  destruct (Z.ltb_spec (ShardID c1) (ShardID c2)), (Z.ltb_spec (ShardID c2) (ShardID c1)); try lia.
  destruct (Z.eqb_spec (CompareNodeIDList (Slots c1) (Slots c2)) 0) as [Hz|Hz]; cbn.
  - rewrite Hz. split; [done|]. split; [intros _; split; [lia|by apply He]|done].
  - rewrite opp_eqb_0, (proj2 (Z.eqb_neq _ 0) Hz). split; [done|]. split; [done|].
    intros [_ H']. by apply He in H'.
Qed.

(** *** Hashing does not depend on the order the shards are listed in *)

Lemma SliceStable_shards l1 l2 : NoDup (map ShardID l1) -> l1 ≡ₚ l2 ->
  SliceStable (fun a b => a.(ShardID) <? b.(ShardID)) l1 =
  SliceStable (fun a b => a.(ShardID) <? b.(ShardID)) l2.
Proof.
  intros Hnd HP. apply SliceStable_unique; [apply key_less_asym|apply key_less_neg_trans| |done].
  intros x y Hx Hy ?%Z.ltb_ge ?%Z.ltb_ge. apply list_elem_of_lookup in Hx as [i Hi].
  apply list_elem_of_lookup in Hy as [j Hj].
  assert (i = j) as <- by (apply (NoDup_lookup _ i j x.(ShardID) Hnd);
    rewrite list_lookup_fmap, ?Hi, ?Hj; cbn; f_equal; lia).
  congruence.
Qed.

(** The hash of the sharding state is that of its shards sorted by id:
    listing the same shards in another order gives the same hash. *)
Theorem Hash_order_irrelevant keccak e l1 l2 :
  NoDup (map ShardID l1) -> l1 ≡ₚ l2 -> Hash keccak (mkState e l1) = Hash keccak (mkState e l2).
Proof. intros Hnd HP. unfold Hash. rewrite !DeepCopy_eq. cbn [Shards]. by rewrite (SliceStable_shards l1 l2). Qed.

Lemma Hash_order_irrelevant_witness :
  Hash (fun b => b) (mkState None [mkCommittee 1 [mkSlot 7 8 None]; mkCommittee 0 [mkSlot 5 6 None]]) =
  Hash (fun b => b) (mkState None [mkCommittee 0 [mkSlot 5 6 None]; mkCommittee 1 [mkSlot 7 8 None]]).
Proof.
  apply (Hash_order_irrelevant (fun b => b) None
    [mkCommittee 1 [mkSlot 7 8 None]; mkCommittee 0 [mkSlot 5 6 None]]).
  - apply (bool_decide_unpack _). by vm_compute.
  - apply perm_swap.
Defined.

(** *** Staked slots *)

Lemma StakedValidators_State_concat ss :
  StakedValidators_State ss = foldM staked_step (concat (map Slots ss.(Shards))) no_staked.
Proof.
  unfold StakedValidators_State. generalize no_staked.
  induction ss.(Shards) as [|c l IH]; intros r; [done|]. cbn [foldM map concat]. rewrite foldM_app.
  destruct (foldM staked_step c.(Slots) r) as [r'| |]; cbn; [apply IH|done|done].
Qed.

Definition stake_of (s : Slot) : Dec := default 0 s.(EffectiveStake).
Definition is_staked (s : Slot) : bool := match s.(EffectiveStake) with Some _ => true | None => false end.

(** What the summary says of the slots it was computed from. *)
Record slots_summary (slots : list Slot) (r : StakedSlots) : Prop := {
  sum_total : r.(TotalEffectiveStaked) = sumZ stake_of slots;
  sum_keys : r.(CountStakedBLSKey) = Z.of_nat (length (List.filter is_staked slots));
  sum_validators : r.(CountStakedValidator) = Z.of_nat (length r.(Addrs));
  sum_nodup : NoDup r.(Addrs);
  sum_lookup : forall a, a ∈ r.(LookupSet) <-> a ∈ r.(Addrs);
  sum_addrs : forall a, a ∈ r.(Addrs) <->
    exists s, s ∈ slots /\ is_staked s = true /\ s.(EcdsaAddress) = a
}.

Lemma staked_step_summary slots r s r' :
  slots_summary slots r -> staked_step r s = Ok r' -> slots_summary (slots ++ [s]) r'.
Proof.
  intros [H1 H2 H3 H4 H5 H6]. unfold staked_step.
  destruct s as [addr key [stake|]]; cbn [EffectiveStake EcdsaAddress].
  2: { intros [= <-]. split; try done.
    - rewrite sumZ_app, sumZ_cons. change (sumZ _ []) with 0. cbn. unfold Dec in *. lia.
    - by rewrite List.filter_app, length_app, Nat.add_0_r.
    - intros a. rewrite H6. split; intros (s & Hs & ? & ?); exists s; (split; [|done]).
      + set_solver.
      + apply elem_of_app in Hs as [?|Hs%list_elem_of_singleton]; [done|by subst]. }
  intros H. outcome_inv. apply Add_Ok in H0 as [-> _].
  split; cbn [CountStakedValidator CountStakedBLSKey Addrs LookupSet TotalEffectiveStaked].
  - rewrite H1, sumZ_app, sumZ_cons. change (sumZ _ []) with 0. cbn. unfold Dec in *. lia.
  - rewrite List.filter_app, length_app, H2. cbn. lia.
  - rewrite H3. case_bool_decide; [done|]. rewrite length_app. cbn. lia.
  - case_bool_decide as Hs; [done|]. apply NoDup_app. split_and!; [done| |apply NoDup_singleton].
    intros x Hx ->%list_elem_of_singleton. apply Hs. by apply H5.
  - intros a. case_bool_decide; [apply H5|]. rewrite elem_of_app, list_elem_of_singleton, <- H5. set_solver.
  - intros a. transitivity (a = addr \/ a ∈ r.(Addrs)).
    + case_bool_decide as Hs; [|rewrite elem_of_app, list_elem_of_singleton; tauto].
      apply H5 in Hs. split; [tauto|]. by intros [->|?].
    + rewrite H6. split.
      * intros [->|(s & Hs & ? & ?)]; [|exists s; set_solver].
        eexists. split; [apply elem_of_app; right; by apply list_elem_of_singleton|done].
      * intros (s & [Hs|Hs%list_elem_of_singleton]%elem_of_app & ? & Ha); [right; by exists s|].
        left. by subst.
Qed.

(** The staked-slot summary of the sharding state counts what it says.
    When the stakes are non-negative and their total fits a [Dec] it is
    computed without failure; the total is the sum of the effective stakes,
    the key count the number of staked slots, and the addresses the distinct
    validators that own one. *)
Theorem StakedValidators_summary ss :
  let slots := concat (map Slots ss.(Shards)) in
  (forall s, s ∈ slots -> 0 <= stake_of s) -> fits (sumZ stake_of slots) ->
  exists r, StakedValidators_State ss = Ok r /\ slots_summary slots r.
Proof.
  intros slots Hpos Hfit. rewrite StakedValidators_State_concat. fold slots.
  apply (foldM_total slots_summary).
  { split; [done|done|done|apply NoDup_nil_2|intros a; cbn; set_solver|].
    intros a. split; [by intros ?%elem_of_nil|]. by intros (? & ?%elem_of_nil & _). }
  intros d s rest r El Hd.
  assert (exists r', staked_step r s = Ok r') as [r' Hr'].
  { unfold staked_step. destruct (EffectiveStake s) as [stake|] eqn:E; [|by eexists].
    rewrite Add_fits; [by eexists|]. rewrite (sum_total _ _ Hd).
    assert (stake = stake_of s) as -> by (unfold stake_of; by rewrite E).
    assert (0 <= sumZ stake_of d) by (apply sumZ_nonneg; intros; apply Hpos; rewrite El; set_solver).
    assert (0 <= stake_of s) by (apply Hpos; rewrite El; set_solver).
    assert (0 <= sumZ stake_of rest) by (apply sumZ_nonneg; intros; apply Hpos; rewrite El; set_solver).
    unfold fits in *. rewrite El, sumZ_app, sumZ_cons in Hfit. unfold Dec in *. lia. }
  exists r'. split; [done|]. by eapply staked_step_summary.
Qed.

Lemma StakedValidators_summary_witness :
  exists r, StakedValidators_State (mkState None [mkCommittee 0 [mkSlot 1 10 (Some 5); mkSlot 1 11 (Some 6)];
    mkCommittee 1 [mkSlot 2 12 None; mkSlot 3 13 (Some 7)]]) = Ok r /\ TotalEffectiveStaked r = 18.
Proof.
  destruct (StakedValidators_summary (mkState None [mkCommittee 0 [mkSlot 1 10 (Some 5); mkSlot 1 11 (Some 6)];
    mkCommittee 1 [mkSlot 2 12 None; mkSlot 3 13 (Some 7)]])) as (r & H & Hr).
  - intros s Hs. cbn in Hs. repeat (apply elem_of_cons in Hs as [->|Hs]; [by vm_compute|]).
    by apply elem_of_nil in Hs.
  - by vm_compute.
  - exists r. split; [exact H|]. by rewrite (sum_total _ _ Hr).
Defined.
