(* ===== verification/HeaderV2.v ===== *)
(** * Block header, version 2 (block/v2/header.go): adds the crosslinks.

    Getters and setters copy what they return and store, so a header is a value;
    the slices that [append(x[:0:0], x...)] copies are lists.  Setters of a field
    the version does not have log a warning and store nothing.  Hashes and
    addresses are the value of their bytes.  JSON, RLP, size and logging are not
    modelled. *)
From S2P Require Import Prelude.
Local Open Scope Z_scope.

Record headerFields := mkFields {
  fParentHash : Z;
  fCoinbase : Z;
  fRoot : Z;
  fTxHash : Z;
  fReceiptHash : Z;
  fOutgoingReceiptHash : Z;
  fIncomingReceiptHash : Z;
  fBloom : Z;
  fNumber : Z;
  fGasLimit : Z;
  fGasUsed : Z;
  fTime : Z;
  fExtra : list Z;
  fMixDigest : Z;
  fViewID : Z;
  fEpoch : Z;
  fShardID : Z;
  fLastCommitSignature : list Z;
  fLastCommitBitmap : list Z;
  fShardStateHash : Z;
  fVrf : list Z;
  fVdf : list Z;
  fShardState : list Z;
  fCrossLinks : list Z
}.

Record Header := mkHeader { fields : headerFields }.

Definition NewHeader : Header := mkHeader {|
  fParentHash := 0;
  fCoinbase := 0;
  fRoot := 0;
  fTxHash := 0;
  fReceiptHash := 0;
  fOutgoingReceiptHash := 0;
  fIncomingReceiptHash := 0;
  fBloom := 0;
  fNumber := 0;
  fGasLimit := 0;
  fGasUsed := 0;
  fTime := 0;
  fExtra := [];
  fMixDigest := 0;
  fViewID := 0;
  fEpoch := 0;
  fShardID := 0;
  fLastCommitSignature := replicate 96 0;
  fLastCommitBitmap := [];
  fShardStateHash := 0;
  fVrf := [];
  fVdf := [];
  fShardState := [];
  fCrossLinks := []
|}.

Definition ParentHash (h : Header) : Z := h.(fields).(fParentHash).
Definition SetParentHash (h : Header) (newParentHash : Z) : Header :=
  mkHeader (mkFields newParentHash h.(fields).(fCoinbase) h.(fields).(fRoot) h.(fields).(fTxHash)
    h.(fields).(fReceiptHash) h.(fields).(fOutgoingReceiptHash) h.(fields).(fIncomingReceiptHash)
    h.(fields).(fBloom) h.(fields).(fNumber) h.(fields).(fGasLimit) h.(fields).(fGasUsed)
    h.(fields).(fTime) h.(fields).(fExtra) h.(fields).(fMixDigest) h.(fields).(fViewID)
    h.(fields).(fEpoch) h.(fields).(fShardID) h.(fields).(fLastCommitSignature)
    h.(fields).(fLastCommitBitmap) h.(fields).(fShardStateHash) h.(fields).(fVrf) h.(fields).(fVdf)
    h.(fields).(fShardState) h.(fields).(fCrossLinks)).
Definition Coinbase (h : Header) : Z := h.(fields).(fCoinbase).
Definition SetCoinbase (h : Header) (newCoinbase : Z) : Header :=
  mkHeader (mkFields h.(fields).(fParentHash) newCoinbase h.(fields).(fRoot) h.(fields).(fTxHash)
    h.(fields).(fReceiptHash) h.(fields).(fOutgoingReceiptHash) h.(fields).(fIncomingReceiptHash)
    h.(fields).(fBloom) h.(fields).(fNumber) h.(fields).(fGasLimit) h.(fields).(fGasUsed)
    h.(fields).(fTime) h.(fields).(fExtra) h.(fields).(fMixDigest) h.(fields).(fViewID)
    h.(fields).(fEpoch) h.(fields).(fShardID) h.(fields).(fLastCommitSignature)
    h.(fields).(fLastCommitBitmap) h.(fields).(fShardStateHash) h.(fields).(fVrf) h.(fields).(fVdf)
    h.(fields).(fShardState) h.(fields).(fCrossLinks)).
Definition Root (h : Header) : Z := h.(fields).(fRoot).
Definition SetRoot (h : Header) (newRoot : Z) : Header :=
  mkHeader (mkFields h.(fields).(fParentHash) h.(fields).(fCoinbase) newRoot h.(fields).(fTxHash)
    h.(fields).(fReceiptHash) h.(fields).(fOutgoingReceiptHash) h.(fields).(fIncomingReceiptHash)
    h.(fields).(fBloom) h.(fields).(fNumber) h.(fields).(fGasLimit) h.(fields).(fGasUsed)
    h.(fields).(fTime) h.(fields).(fExtra) h.(fields).(fMixDigest) h.(fields).(fViewID)
    h.(fields).(fEpoch) h.(fields).(fShardID) h.(fields).(fLastCommitSignature)
    h.(fields).(fLastCommitBitmap) h.(fields).(fShardStateHash) h.(fields).(fVrf) h.(fields).(fVdf)
    h.(fields).(fShardState) h.(fields).(fCrossLinks)).
Definition TxHash (h : Header) : Z := h.(fields).(fTxHash).
Definition SetTxHash (h : Header) (newTxHash : Z) : Header :=
  mkHeader (mkFields h.(fields).(fParentHash) h.(fields).(fCoinbase) h.(fields).(fRoot) newTxHash
    h.(fields).(fReceiptHash) h.(fields).(fOutgoingReceiptHash) h.(fields).(fIncomingReceiptHash)
    h.(fields).(fBloom) h.(fields).(fNumber) h.(fields).(fGasLimit) h.(fields).(fGasUsed)
    h.(fields).(fTime) h.(fields).(fExtra) h.(fields).(fMixDigest) h.(fields).(fViewID)
    h.(fields).(fEpoch) h.(fields).(fShardID) h.(fields).(fLastCommitSignature)
    h.(fields).(fLastCommitBitmap) h.(fields).(fShardStateHash) h.(fields).(fVrf) h.(fields).(fVdf)
    h.(fields).(fShardState) h.(fields).(fCrossLinks)).
Definition ReceiptHash (h : Header) : Z := h.(fields).(fReceiptHash).
Definition SetReceiptHash (h : Header) (newReceiptHash : Z) : Header :=
  mkHeader (mkFields h.(fields).(fParentHash) h.(fields).(fCoinbase) h.(fields).(fRoot)
    h.(fields).(fTxHash) newReceiptHash h.(fields).(fOutgoingReceiptHash)
    h.(fields).(fIncomingReceiptHash) h.(fields).(fBloom) h.(fields).(fNumber)
    h.(fields).(fGasLimit) h.(fields).(fGasUsed) h.(fields).(fTime) h.(fields).(fExtra)
    h.(fields).(fMixDigest) h.(fields).(fViewID) h.(fields).(fEpoch) h.(fields).(fShardID)
    h.(fields).(fLastCommitSignature) h.(fields).(fLastCommitBitmap) h.(fields).(fShardStateHash)
    h.(fields).(fVrf) h.(fields).(fVdf) h.(fields).(fShardState) h.(fields).(fCrossLinks)).
Definition OutgoingReceiptHash (h : Header) : Z := h.(fields).(fOutgoingReceiptHash).
Definition SetOutgoingReceiptHash (h : Header) (newOutgoingReceiptHash : Z) : Header :=
  mkHeader (mkFields h.(fields).(fParentHash) h.(fields).(fCoinbase) h.(fields).(fRoot)
    h.(fields).(fTxHash) h.(fields).(fReceiptHash) newOutgoingReceiptHash
    h.(fields).(fIncomingReceiptHash) h.(fields).(fBloom) h.(fields).(fNumber)
    h.(fields).(fGasLimit) h.(fields).(fGasUsed) h.(fields).(fTime) h.(fields).(fExtra)
    h.(fields).(fMixDigest) h.(fields).(fViewID) h.(fields).(fEpoch) h.(fields).(fShardID)
    h.(fields).(fLastCommitSignature) h.(fields).(fLastCommitBitmap) h.(fields).(fShardStateHash)
    h.(fields).(fVrf) h.(fields).(fVdf) h.(fields).(fShardState) h.(fields).(fCrossLinks)).
Definition IncomingReceiptHash (h : Header) : Z := h.(fields).(fIncomingReceiptHash).
Definition SetIncomingReceiptHash (h : Header) (newIncomingReceiptHash : Z) : Header :=
  mkHeader (mkFields h.(fields).(fParentHash) h.(fields).(fCoinbase) h.(fields).(fRoot)
    h.(fields).(fTxHash) h.(fields).(fReceiptHash) h.(fields).(fOutgoingReceiptHash)
    newIncomingReceiptHash h.(fields).(fBloom) h.(fields).(fNumber) h.(fields).(fGasLimit)
    h.(fields).(fGasUsed) h.(fields).(fTime) h.(fields).(fExtra) h.(fields).(fMixDigest)
    h.(fields).(fViewID) h.(fields).(fEpoch) h.(fields).(fShardID)
    h.(fields).(fLastCommitSignature) h.(fields).(fLastCommitBitmap) h.(fields).(fShardStateHash)
    h.(fields).(fVrf) h.(fields).(fVdf) h.(fields).(fShardState) h.(fields).(fCrossLinks)).
Definition Bloom (h : Header) : Z := h.(fields).(fBloom).
Definition SetBloom (h : Header) (newBloom : Z) : Header :=
  mkHeader (mkFields h.(fields).(fParentHash) h.(fields).(fCoinbase) h.(fields).(fRoot)
    h.(fields).(fTxHash) h.(fields).(fReceiptHash) h.(fields).(fOutgoingReceiptHash)
    h.(fields).(fIncomingReceiptHash) newBloom h.(fields).(fNumber) h.(fields).(fGasLimit)
    h.(fields).(fGasUsed) h.(fields).(fTime) h.(fields).(fExtra) h.(fields).(fMixDigest)
    h.(fields).(fViewID) h.(fields).(fEpoch) h.(fields).(fShardID)
    h.(fields).(fLastCommitSignature) h.(fields).(fLastCommitBitmap) h.(fields).(fShardStateHash)
    h.(fields).(fVrf) h.(fields).(fVdf) h.(fields).(fShardState) h.(fields).(fCrossLinks)).
Definition Number (h : Header) : Z := h.(fields).(fNumber).
Definition SetNumber (h : Header) (newNumber : Z) : Header :=
  mkHeader (mkFields h.(fields).(fParentHash) h.(fields).(fCoinbase) h.(fields).(fRoot)
    h.(fields).(fTxHash) h.(fields).(fReceiptHash) h.(fields).(fOutgoingReceiptHash)
    h.(fields).(fIncomingReceiptHash) h.(fields).(fBloom) newNumber h.(fields).(fGasLimit)
    h.(fields).(fGasUsed) h.(fields).(fTime) h.(fields).(fExtra) h.(fields).(fMixDigest)
    h.(fields).(fViewID) h.(fields).(fEpoch) h.(fields).(fShardID)
    h.(fields).(fLastCommitSignature) h.(fields).(fLastCommitBitmap) h.(fields).(fShardStateHash)
    h.(fields).(fVrf) h.(fields).(fVdf) h.(fields).(fShardState) h.(fields).(fCrossLinks)).
Definition GasLimit (h : Header) : Z := h.(fields).(fGasLimit).
Definition SetGasLimit (h : Header) (newGasLimit : Z) : Header :=
  mkHeader (mkFields h.(fields).(fParentHash) h.(fields).(fCoinbase) h.(fields).(fRoot)
    h.(fields).(fTxHash) h.(fields).(fReceiptHash) h.(fields).(fOutgoingReceiptHash)
    h.(fields).(fIncomingReceiptHash) h.(fields).(fBloom) h.(fields).(fNumber) newGasLimit
    h.(fields).(fGasUsed) h.(fields).(fTime) h.(fields).(fExtra) h.(fields).(fMixDigest)
    h.(fields).(fViewID) h.(fields).(fEpoch) h.(fields).(fShardID)
    h.(fields).(fLastCommitSignature) h.(fields).(fLastCommitBitmap) h.(fields).(fShardStateHash)
    h.(fields).(fVrf) h.(fields).(fVdf) h.(fields).(fShardState) h.(fields).(fCrossLinks)).
Definition GasUsed (h : Header) : Z := h.(fields).(fGasUsed).
Definition SetGasUsed (h : Header) (newGasUsed : Z) : Header :=
  mkHeader (mkFields h.(fields).(fParentHash) h.(fields).(fCoinbase) h.(fields).(fRoot)
    h.(fields).(fTxHash) h.(fields).(fReceiptHash) h.(fields).(fOutgoingReceiptHash)
    h.(fields).(fIncomingReceiptHash) h.(fields).(fBloom) h.(fields).(fNumber)
    h.(fields).(fGasLimit) newGasUsed h.(fields).(fTime) h.(fields).(fExtra)
    h.(fields).(fMixDigest) h.(fields).(fViewID) h.(fields).(fEpoch) h.(fields).(fShardID)
    h.(fields).(fLastCommitSignature) h.(fields).(fLastCommitBitmap) h.(fields).(fShardStateHash)
    h.(fields).(fVrf) h.(fields).(fVdf) h.(fields).(fShardState) h.(fields).(fCrossLinks)).
Definition Time (h : Header) : Z := h.(fields).(fTime).
Definition SetTime (h : Header) (newTime : Z) : Header :=
  mkHeader (mkFields h.(fields).(fParentHash) h.(fields).(fCoinbase) h.(fields).(fRoot)
    h.(fields).(fTxHash) h.(fields).(fReceiptHash) h.(fields).(fOutgoingReceiptHash)
    h.(fields).(fIncomingReceiptHash) h.(fields).(fBloom) h.(fields).(fNumber)
    h.(fields).(fGasLimit) h.(fields).(fGasUsed) newTime h.(fields).(fExtra)
    h.(fields).(fMixDigest) h.(fields).(fViewID) h.(fields).(fEpoch) h.(fields).(fShardID)
    h.(fields).(fLastCommitSignature) h.(fields).(fLastCommitBitmap) h.(fields).(fShardStateHash)
    h.(fields).(fVrf) h.(fields).(fVdf) h.(fields).(fShardState) h.(fields).(fCrossLinks)).
Definition Extra (h : Header) : list Z := h.(fields).(fExtra).
Definition SetExtra (h : Header) (newExtra : list Z) : Header :=
  mkHeader (mkFields h.(fields).(fParentHash) h.(fields).(fCoinbase) h.(fields).(fRoot)
    h.(fields).(fTxHash) h.(fields).(fReceiptHash) h.(fields).(fOutgoingReceiptHash)
    h.(fields).(fIncomingReceiptHash) h.(fields).(fBloom) h.(fields).(fNumber)
    h.(fields).(fGasLimit) h.(fields).(fGasUsed) h.(fields).(fTime) newExtra
    h.(fields).(fMixDigest) h.(fields).(fViewID) h.(fields).(fEpoch) h.(fields).(fShardID)
    h.(fields).(fLastCommitSignature) h.(fields).(fLastCommitBitmap) h.(fields).(fShardStateHash)
    h.(fields).(fVrf) h.(fields).(fVdf) h.(fields).(fShardState) h.(fields).(fCrossLinks)).
Definition MixDigest (h : Header) : Z := h.(fields).(fMixDigest).
Definition SetMixDigest (h : Header) (newMixDigest : Z) : Header :=
  mkHeader (mkFields h.(fields).(fParentHash) h.(fields).(fCoinbase) h.(fields).(fRoot)
    h.(fields).(fTxHash) h.(fields).(fReceiptHash) h.(fields).(fOutgoingReceiptHash)
    h.(fields).(fIncomingReceiptHash) h.(fields).(fBloom) h.(fields).(fNumber)
    h.(fields).(fGasLimit) h.(fields).(fGasUsed) h.(fields).(fTime) h.(fields).(fExtra)
    newMixDigest h.(fields).(fViewID) h.(fields).(fEpoch) h.(fields).(fShardID)
    h.(fields).(fLastCommitSignature) h.(fields).(fLastCommitBitmap) h.(fields).(fShardStateHash)
    h.(fields).(fVrf) h.(fields).(fVdf) h.(fields).(fShardState) h.(fields).(fCrossLinks)).
Definition ViewID (h : Header) : Z := h.(fields).(fViewID).
Definition SetViewID (h : Header) (newViewID : Z) : Header :=
  mkHeader (mkFields h.(fields).(fParentHash) h.(fields).(fCoinbase) h.(fields).(fRoot)
    h.(fields).(fTxHash) h.(fields).(fReceiptHash) h.(fields).(fOutgoingReceiptHash)
    h.(fields).(fIncomingReceiptHash) h.(fields).(fBloom) h.(fields).(fNumber)
    h.(fields).(fGasLimit) h.(fields).(fGasUsed) h.(fields).(fTime) h.(fields).(fExtra)
    h.(fields).(fMixDigest) newViewID h.(fields).(fEpoch) h.(fields).(fShardID)
    h.(fields).(fLastCommitSignature) h.(fields).(fLastCommitBitmap) h.(fields).(fShardStateHash)
    h.(fields).(fVrf) h.(fields).(fVdf) h.(fields).(fShardState) h.(fields).(fCrossLinks)).
Definition Epoch (h : Header) : Z := h.(fields).(fEpoch).
Definition SetEpoch (h : Header) (newEpoch : Z) : Header :=
  mkHeader (mkFields h.(fields).(fParentHash) h.(fields).(fCoinbase) h.(fields).(fRoot)
    h.(fields).(fTxHash) h.(fields).(fReceiptHash) h.(fields).(fOutgoingReceiptHash)
    h.(fields).(fIncomingReceiptHash) h.(fields).(fBloom) h.(fields).(fNumber)
    h.(fields).(fGasLimit) h.(fields).(fGasUsed) h.(fields).(fTime) h.(fields).(fExtra)
    h.(fields).(fMixDigest) h.(fields).(fViewID) newEpoch h.(fields).(fShardID)
    h.(fields).(fLastCommitSignature) h.(fields).(fLastCommitBitmap) h.(fields).(fShardStateHash)
    h.(fields).(fVrf) h.(fields).(fVdf) h.(fields).(fShardState) h.(fields).(fCrossLinks)).
Definition ShardID (h : Header) : Z := h.(fields).(fShardID).
Definition SetShardID (h : Header) (newShardID : Z) : Header :=
  mkHeader (mkFields h.(fields).(fParentHash) h.(fields).(fCoinbase) h.(fields).(fRoot)
    h.(fields).(fTxHash) h.(fields).(fReceiptHash) h.(fields).(fOutgoingReceiptHash)
    h.(fields).(fIncomingReceiptHash) h.(fields).(fBloom) h.(fields).(fNumber)
    h.(fields).(fGasLimit) h.(fields).(fGasUsed) h.(fields).(fTime) h.(fields).(fExtra)
    h.(fields).(fMixDigest) h.(fields).(fViewID) h.(fields).(fEpoch) newShardID
    h.(fields).(fLastCommitSignature) h.(fields).(fLastCommitBitmap) h.(fields).(fShardStateHash)
    h.(fields).(fVrf) h.(fields).(fVdf) h.(fields).(fShardState) h.(fields).(fCrossLinks)).
Definition LastCommitSignature (h : Header) : list Z := h.(fields).(fLastCommitSignature).
Definition SetLastCommitSignature (h : Header) (newLastCommitSignature : list Z) : Header :=
  mkHeader (mkFields h.(fields).(fParentHash) h.(fields).(fCoinbase) h.(fields).(fRoot)
    h.(fields).(fTxHash) h.(fields).(fReceiptHash) h.(fields).(fOutgoingReceiptHash)
    h.(fields).(fIncomingReceiptHash) h.(fields).(fBloom) h.(fields).(fNumber)
    h.(fields).(fGasLimit) h.(fields).(fGasUsed) h.(fields).(fTime) h.(fields).(fExtra)
    h.(fields).(fMixDigest) h.(fields).(fViewID) h.(fields).(fEpoch) h.(fields).(fShardID)
    newLastCommitSignature h.(fields).(fLastCommitBitmap) h.(fields).(fShardStateHash)
    h.(fields).(fVrf) h.(fields).(fVdf) h.(fields).(fShardState) h.(fields).(fCrossLinks)).
Definition LastCommitBitmap (h : Header) : list Z := h.(fields).(fLastCommitBitmap).
Definition SetLastCommitBitmap (h : Header) (newLastCommitBitmap : list Z) : Header :=
  mkHeader (mkFields h.(fields).(fParentHash) h.(fields).(fCoinbase) h.(fields).(fRoot)
    h.(fields).(fTxHash) h.(fields).(fReceiptHash) h.(fields).(fOutgoingReceiptHash)
    h.(fields).(fIncomingReceiptHash) h.(fields).(fBloom) h.(fields).(fNumber)
    h.(fields).(fGasLimit) h.(fields).(fGasUsed) h.(fields).(fTime) h.(fields).(fExtra)
    h.(fields).(fMixDigest) h.(fields).(fViewID) h.(fields).(fEpoch) h.(fields).(fShardID)
    h.(fields).(fLastCommitSignature) newLastCommitBitmap h.(fields).(fShardStateHash)
    h.(fields).(fVrf) h.(fields).(fVdf) h.(fields).(fShardState) h.(fields).(fCrossLinks)).
Definition ShardStateHash (h : Header) : Z := h.(fields).(fShardStateHash).
Definition SetShardStateHash (h : Header) (newShardStateHash : Z) : Header :=
  mkHeader (mkFields h.(fields).(fParentHash) h.(fields).(fCoinbase) h.(fields).(fRoot)
    h.(fields).(fTxHash) h.(fields).(fReceiptHash) h.(fields).(fOutgoingReceiptHash)
    h.(fields).(fIncomingReceiptHash) h.(fields).(fBloom) h.(fields).(fNumber)
    h.(fields).(fGasLimit) h.(fields).(fGasUsed) h.(fields).(fTime) h.(fields).(fExtra)
    h.(fields).(fMixDigest) h.(fields).(fViewID) h.(fields).(fEpoch) h.(fields).(fShardID)
    h.(fields).(fLastCommitSignature) h.(fields).(fLastCommitBitmap) newShardStateHash
    h.(fields).(fVrf) h.(fields).(fVdf) h.(fields).(fShardState) h.(fields).(fCrossLinks)).
Definition Vrf (h : Header) : list Z := h.(fields).(fVrf).
Definition SetVrf (h : Header) (newVrf : list Z) : Header :=
  mkHeader (mkFields h.(fields).(fParentHash) h.(fields).(fCoinbase) h.(fields).(fRoot)
    h.(fields).(fTxHash) h.(fields).(fReceiptHash) h.(fields).(fOutgoingReceiptHash)
    h.(fields).(fIncomingReceiptHash) h.(fields).(fBloom) h.(fields).(fNumber)
    h.(fields).(fGasLimit) h.(fields).(fGasUsed) h.(fields).(fTime) h.(fields).(fExtra)
    h.(fields).(fMixDigest) h.(fields).(fViewID) h.(fields).(fEpoch) h.(fields).(fShardID)
    h.(fields).(fLastCommitSignature) h.(fields).(fLastCommitBitmap) h.(fields).(fShardStateHash)
    newVrf h.(fields).(fVdf) h.(fields).(fShardState) h.(fields).(fCrossLinks)).
Definition Vdf (h : Header) : list Z := h.(fields).(fVdf).
Definition SetVdf (h : Header) (newVdf : list Z) : Header :=
  mkHeader (mkFields h.(fields).(fParentHash) h.(fields).(fCoinbase) h.(fields).(fRoot)
    h.(fields).(fTxHash) h.(fields).(fReceiptHash) h.(fields).(fOutgoingReceiptHash)
    h.(fields).(fIncomingReceiptHash) h.(fields).(fBloom) h.(fields).(fNumber)
    h.(fields).(fGasLimit) h.(fields).(fGasUsed) h.(fields).(fTime) h.(fields).(fExtra)
    h.(fields).(fMixDigest) h.(fields).(fViewID) h.(fields).(fEpoch) h.(fields).(fShardID)
    h.(fields).(fLastCommitSignature) h.(fields).(fLastCommitBitmap) h.(fields).(fShardStateHash)
    h.(fields).(fVrf) newVdf h.(fields).(fShardState) h.(fields).(fCrossLinks)).
Definition ShardState (h : Header) : list Z := h.(fields).(fShardState).
Definition SetShardState (h : Header) (newShardState : list Z) : Header :=
  mkHeader (mkFields h.(fields).(fParentHash) h.(fields).(fCoinbase) h.(fields).(fRoot)
    h.(fields).(fTxHash) h.(fields).(fReceiptHash) h.(fields).(fOutgoingReceiptHash)
    h.(fields).(fIncomingReceiptHash) h.(fields).(fBloom) h.(fields).(fNumber)
    h.(fields).(fGasLimit) h.(fields).(fGasUsed) h.(fields).(fTime) h.(fields).(fExtra)
    h.(fields).(fMixDigest) h.(fields).(fViewID) h.(fields).(fEpoch) h.(fields).(fShardID)
    h.(fields).(fLastCommitSignature) h.(fields).(fLastCommitBitmap) h.(fields).(fShardStateHash)
    h.(fields).(fVrf) h.(fields).(fVdf) newShardState h.(fields).(fCrossLinks)).
Definition CrossLinks (h : Header) : list Z := h.(fields).(fCrossLinks).
Definition SetCrossLinks (h : Header) (newCrossLinks : list Z) : Header :=
  mkHeader (mkFields h.(fields).(fParentHash) h.(fields).(fCoinbase) h.(fields).(fRoot)
    h.(fields).(fTxHash) h.(fields).(fReceiptHash) h.(fields).(fOutgoingReceiptHash)
    h.(fields).(fIncomingReceiptHash) h.(fields).(fBloom) h.(fields).(fNumber)
    h.(fields).(fGasLimit) h.(fields).(fGasUsed) h.(fields).(fTime) h.(fields).(fExtra)
    h.(fields).(fMixDigest) h.(fields).(fViewID) h.(fields).(fEpoch) h.(fields).(fShardID)
    h.(fields).(fLastCommitSignature) h.(fields).(fLastCommitBitmap) h.(fields).(fShardStateHash)
    h.(fields).(fVrf) h.(fields).(fVdf) h.(fields).(fShardState) newCrossLinks).
Definition Slashes (h : Header) : list Z := [].
Definition SetSlashes (h : Header) (newSlashes : list Z) : Header := h.
Definition Copy (h : Header) : Header := mkHeader h.(fields).
