(* ===== verification/Header.v ===== *)
(** * Block headers (block/header.go, block/interface, block/factory)

    [Header] wraps the interface implemented by the four header versions of
    HeaderV0 to HeaderV3: a value of one of them.  The interface's methods
    dispatch on the version; [NewHeader] picks the version a chain configuration
    asks for.  [stores] says which version keeps which field: a setter changes
    exactly that field where the version keeps it and nothing elsewhere
    ([zset_laws], [bset_laws]), and the factory's headers keep every field that
    the features of their epoch need ([NewHeader_supports]). *)
From S2P Require Import Prelude Params Sharding Shard HeaderV0 HeaderV1 HeaderV2 HeaderV3.
Local Open Scope Z_scope.

Inductive Header := V0 (h : HeaderV0.Header) | V1 (h : HeaderV1.Header) | V2 (h : HeaderV2.Header) | V3 (h : HeaderV3.Header).

(** ** The interface *)

Definition ParentHash (h : Header) : Z :=
  match h with V0 h => HeaderV0.ParentHash h | V1 h => HeaderV1.ParentHash h | V2 h => HeaderV2.ParentHash h | V3 h => HeaderV3.ParentHash h end.
Definition SetParentHash (h : Header) (x : Z) : Header :=
  match h with
  | V0 h => V0 (HeaderV0.SetParentHash h x) | V1 h => V1 (HeaderV1.SetParentHash h x)
  | V2 h => V2 (HeaderV2.SetParentHash h x) | V3 h => V3 (HeaderV3.SetParentHash h x)
  end.
Definition Coinbase (h : Header) : Z :=
  match h with V0 h => HeaderV0.Coinbase h | V1 h => HeaderV1.Coinbase h | V2 h => HeaderV2.Coinbase h | V3 h => HeaderV3.Coinbase h end.
Definition SetCoinbase (h : Header) (x : Z) : Header :=
  match h with
  | V0 h => V0 (HeaderV0.SetCoinbase h x) | V1 h => V1 (HeaderV1.SetCoinbase h x)
  | V2 h => V2 (HeaderV2.SetCoinbase h x) | V3 h => V3 (HeaderV3.SetCoinbase h x)
  end.
Definition Root (h : Header) : Z :=
  match h with V0 h => HeaderV0.Root h | V1 h => HeaderV1.Root h | V2 h => HeaderV2.Root h | V3 h => HeaderV3.Root h end.
Definition SetRoot (h : Header) (x : Z) : Header :=
  match h with
  | V0 h => V0 (HeaderV0.SetRoot h x) | V1 h => V1 (HeaderV1.SetRoot h x)
  | V2 h => V2 (HeaderV2.SetRoot h x) | V3 h => V3 (HeaderV3.SetRoot h x)
  end.
Definition TxHash (h : Header) : Z :=
  match h with V0 h => HeaderV0.TxHash h | V1 h => HeaderV1.TxHash h | V2 h => HeaderV2.TxHash h | V3 h => HeaderV3.TxHash h end.
Definition SetTxHash (h : Header) (x : Z) : Header :=
  match h with
  | V0 h => V0 (HeaderV0.SetTxHash h x) | V1 h => V1 (HeaderV1.SetTxHash h x)
  | V2 h => V2 (HeaderV2.SetTxHash h x) | V3 h => V3 (HeaderV3.SetTxHash h x)
  end.
Definition ReceiptHash (h : Header) : Z :=
  match h with V0 h => HeaderV0.ReceiptHash h | V1 h => HeaderV1.ReceiptHash h | V2 h => HeaderV2.ReceiptHash h | V3 h => HeaderV3.ReceiptHash h end.
Definition SetReceiptHash (h : Header) (x : Z) : Header :=
  match h with
  | V0 h => V0 (HeaderV0.SetReceiptHash h x) | V1 h => V1 (HeaderV1.SetReceiptHash h x)
  | V2 h => V2 (HeaderV2.SetReceiptHash h x) | V3 h => V3 (HeaderV3.SetReceiptHash h x)
  end.
Definition OutgoingReceiptHash (h : Header) : Z :=
  match h with V0 h => HeaderV0.OutgoingReceiptHash h | V1 h => HeaderV1.OutgoingReceiptHash h | V2 h => HeaderV2.OutgoingReceiptHash h | V3 h => HeaderV3.OutgoingReceiptHash h end.
Definition SetOutgoingReceiptHash (h : Header) (x : Z) : Header :=
  match h with
  | V0 h => V0 (HeaderV0.SetOutgoingReceiptHash h x) | V1 h => V1 (HeaderV1.SetOutgoingReceiptHash h x)
  | V2 h => V2 (HeaderV2.SetOutgoingReceiptHash h x) | V3 h => V3 (HeaderV3.SetOutgoingReceiptHash h x)
  end.
Definition IncomingReceiptHash (h : Header) : Z :=
  match h with V0 h => HeaderV0.IncomingReceiptHash h | V1 h => HeaderV1.IncomingReceiptHash h | V2 h => HeaderV2.IncomingReceiptHash h | V3 h => HeaderV3.IncomingReceiptHash h end.
Definition SetIncomingReceiptHash (h : Header) (x : Z) : Header :=
  match h with
  | V0 h => V0 (HeaderV0.SetIncomingReceiptHash h x) | V1 h => V1 (HeaderV1.SetIncomingReceiptHash h x)
  | V2 h => V2 (HeaderV2.SetIncomingReceiptHash h x) | V3 h => V3 (HeaderV3.SetIncomingReceiptHash h x)
  end.
Definition Bloom (h : Header) : Z :=
  match h with V0 h => HeaderV0.Bloom h | V1 h => HeaderV1.Bloom h | V2 h => HeaderV2.Bloom h | V3 h => HeaderV3.Bloom h end.
Definition SetBloom (h : Header) (x : Z) : Header :=
  match h with
  | V0 h => V0 (HeaderV0.SetBloom h x) | V1 h => V1 (HeaderV1.SetBloom h x)
  | V2 h => V2 (HeaderV2.SetBloom h x) | V3 h => V3 (HeaderV3.SetBloom h x)
  end.
Definition Number (h : Header) : Z :=
  match h with V0 h => HeaderV0.Number h | V1 h => HeaderV1.Number h | V2 h => HeaderV2.Number h | V3 h => HeaderV3.Number h end.
Definition SetNumber (h : Header) (x : Z) : Header :=
  match h with
  | V0 h => V0 (HeaderV0.SetNumber h x) | V1 h => V1 (HeaderV1.SetNumber h x)
  | V2 h => V2 (HeaderV2.SetNumber h x) | V3 h => V3 (HeaderV3.SetNumber h x)
  end.
Definition GasLimit (h : Header) : Z :=
  match h with V0 h => HeaderV0.GasLimit h | V1 h => HeaderV1.GasLimit h | V2 h => HeaderV2.GasLimit h | V3 h => HeaderV3.GasLimit h end.
Definition SetGasLimit (h : Header) (x : Z) : Header :=
  match h with
  | V0 h => V0 (HeaderV0.SetGasLimit h x) | V1 h => V1 (HeaderV1.SetGasLimit h x)
  | V2 h => V2 (HeaderV2.SetGasLimit h x) | V3 h => V3 (HeaderV3.SetGasLimit h x)
  end.
Definition GasUsed (h : Header) : Z :=
  match h with V0 h => HeaderV0.GasUsed h | V1 h => HeaderV1.GasUsed h | V2 h => HeaderV2.GasUsed h | V3 h => HeaderV3.GasUsed h end.
Definition SetGasUsed (h : Header) (x : Z) : Header :=
  match h with
  | V0 h => V0 (HeaderV0.SetGasUsed h x) | V1 h => V1 (HeaderV1.SetGasUsed h x)
  | V2 h => V2 (HeaderV2.SetGasUsed h x) | V3 h => V3 (HeaderV3.SetGasUsed h x)
  end.
Definition Time (h : Header) : Z :=
  match h with V0 h => HeaderV0.Time h | V1 h => HeaderV1.Time h | V2 h => HeaderV2.Time h | V3 h => HeaderV3.Time h end.
Definition SetTime (h : Header) (x : Z) : Header :=
  match h with
  | V0 h => V0 (HeaderV0.SetTime h x) | V1 h => V1 (HeaderV1.SetTime h x)
  | V2 h => V2 (HeaderV2.SetTime h x) | V3 h => V3 (HeaderV3.SetTime h x)
  end.
Definition Extra (h : Header) : list Z :=
  match h with V0 h => HeaderV0.Extra h | V1 h => HeaderV1.Extra h | V2 h => HeaderV2.Extra h | V3 h => HeaderV3.Extra h end.
Definition SetExtra (h : Header) (x : list Z) : Header :=
  match h with
  | V0 h => V0 (HeaderV0.SetExtra h x) | V1 h => V1 (HeaderV1.SetExtra h x)
  | V2 h => V2 (HeaderV2.SetExtra h x) | V3 h => V3 (HeaderV3.SetExtra h x)
  end.
Definition MixDigest (h : Header) : Z :=
  match h with V0 h => HeaderV0.MixDigest h | V1 h => HeaderV1.MixDigest h | V2 h => HeaderV2.MixDigest h | V3 h => HeaderV3.MixDigest h end.
Definition SetMixDigest (h : Header) (x : Z) : Header :=
  match h with
  | V0 h => V0 (HeaderV0.SetMixDigest h x) | V1 h => V1 (HeaderV1.SetMixDigest h x)
  | V2 h => V2 (HeaderV2.SetMixDigest h x) | V3 h => V3 (HeaderV3.SetMixDigest h x)
  end.
Definition ViewID (h : Header) : Z :=
  match h with V0 h => HeaderV0.ViewID h | V1 h => HeaderV1.ViewID h | V2 h => HeaderV2.ViewID h | V3 h => HeaderV3.ViewID h end.
Definition SetViewID (h : Header) (x : Z) : Header :=
  match h with
  | V0 h => V0 (HeaderV0.SetViewID h x) | V1 h => V1 (HeaderV1.SetViewID h x)
  | V2 h => V2 (HeaderV2.SetViewID h x) | V3 h => V3 (HeaderV3.SetViewID h x)
  end.
Definition Epoch (h : Header) : Z :=
  match h with V0 h => HeaderV0.Epoch h | V1 h => HeaderV1.Epoch h | V2 h => HeaderV2.Epoch h | V3 h => HeaderV3.Epoch h end.
Definition SetEpoch (h : Header) (x : Z) : Header :=
  match h with
  | V0 h => V0 (HeaderV0.SetEpoch h x) | V1 h => V1 (HeaderV1.SetEpoch h x)
  | V2 h => V2 (HeaderV2.SetEpoch h x) | V3 h => V3 (HeaderV3.SetEpoch h x)
  end.
Definition ShardID (h : Header) : Z :=
  match h with V0 h => HeaderV0.ShardID h | V1 h => HeaderV1.ShardID h | V2 h => HeaderV2.ShardID h | V3 h => HeaderV3.ShardID h end.
Definition SetShardID (h : Header) (x : Z) : Header :=
  match h with
  | V0 h => V0 (HeaderV0.SetShardID h x) | V1 h => V1 (HeaderV1.SetShardID h x)
  | V2 h => V2 (HeaderV2.SetShardID h x) | V3 h => V3 (HeaderV3.SetShardID h x)
  end.
Definition LastCommitSignature (h : Header) : list Z :=
  match h with V0 h => HeaderV0.LastCommitSignature h | V1 h => HeaderV1.LastCommitSignature h | V2 h => HeaderV2.LastCommitSignature h | V3 h => HeaderV3.LastCommitSignature h end.
Definition SetLastCommitSignature (h : Header) (x : list Z) : Header :=
  match h with
  | V0 h => V0 (HeaderV0.SetLastCommitSignature h x) | V1 h => V1 (HeaderV1.SetLastCommitSignature h x)
  | V2 h => V2 (HeaderV2.SetLastCommitSignature h x) | V3 h => V3 (HeaderV3.SetLastCommitSignature h x)
  end.
Definition LastCommitBitmap (h : Header) : list Z :=
  match h with V0 h => HeaderV0.LastCommitBitmap h | V1 h => HeaderV1.LastCommitBitmap h | V2 h => HeaderV2.LastCommitBitmap h | V3 h => HeaderV3.LastCommitBitmap h end.
Definition SetLastCommitBitmap (h : Header) (x : list Z) : Header :=
  match h with
  | V0 h => V0 (HeaderV0.SetLastCommitBitmap h x) | V1 h => V1 (HeaderV1.SetLastCommitBitmap h x)
  | V2 h => V2 (HeaderV2.SetLastCommitBitmap h x) | V3 h => V3 (HeaderV3.SetLastCommitBitmap h x)
  end.
Definition ShardStateHash (h : Header) : Z :=
  match h with V0 h => HeaderV0.ShardStateHash h | V1 h => HeaderV1.ShardStateHash h | V2 h => HeaderV2.ShardStateHash h | V3 h => HeaderV3.ShardStateHash h end.
Definition SetShardStateHash (h : Header) (x : Z) : Header :=
  match h with
  | V0 h => V0 (HeaderV0.SetShardStateHash h x) | V1 h => V1 (HeaderV1.SetShardStateHash h x)
  | V2 h => V2 (HeaderV2.SetShardStateHash h x) | V3 h => V3 (HeaderV3.SetShardStateHash h x)
  end.
Definition Vrf (h : Header) : list Z :=
  match h with V0 h => HeaderV0.Vrf h | V1 h => HeaderV1.Vrf h | V2 h => HeaderV2.Vrf h | V3 h => HeaderV3.Vrf h end.
Definition SetVrf (h : Header) (x : list Z) : Header :=
  match h with
  | V0 h => V0 (HeaderV0.SetVrf h x) | V1 h => V1 (HeaderV1.SetVrf h x)
  | V2 h => V2 (HeaderV2.SetVrf h x) | V3 h => V3 (HeaderV3.SetVrf h x)
  end.
Definition Vdf (h : Header) : list Z :=
  match h with V0 h => HeaderV0.Vdf h | V1 h => HeaderV1.Vdf h | V2 h => HeaderV2.Vdf h | V3 h => HeaderV3.Vdf h end.
Definition SetVdf (h : Header) (x : list Z) : Header :=
  match h with
  | V0 h => V0 (HeaderV0.SetVdf h x) | V1 h => V1 (HeaderV1.SetVdf h x)
  | V2 h => V2 (HeaderV2.SetVdf h x) | V3 h => V3 (HeaderV3.SetVdf h x)
  end.
Definition ShardState (h : Header) : list Z :=
  match h with V0 h => HeaderV0.ShardState h | V1 h => HeaderV1.ShardState h | V2 h => HeaderV2.ShardState h | V3 h => HeaderV3.ShardState h end.
Definition SetShardState (h : Header) (x : list Z) : Header :=
  match h with
  | V0 h => V0 (HeaderV0.SetShardState h x) | V1 h => V1 (HeaderV1.SetShardState h x)
  | V2 h => V2 (HeaderV2.SetShardState h x) | V3 h => V3 (HeaderV3.SetShardState h x)
  end.
Definition CrossLinks (h : Header) : list Z :=
  match h with V0 h => HeaderV0.CrossLinks h | V1 h => HeaderV1.CrossLinks h | V2 h => HeaderV2.CrossLinks h | V3 h => HeaderV3.CrossLinks h end.
Definition SetCrossLinks (h : Header) (x : list Z) : Header :=
  match h with
  | V0 h => V0 (HeaderV0.SetCrossLinks h x) | V1 h => V1 (HeaderV1.SetCrossLinks h x)
  | V2 h => V2 (HeaderV2.SetCrossLinks h x) | V3 h => V3 (HeaderV3.SetCrossLinks h x)
  end.
Definition Slashes (h : Header) : list Z :=
  match h with V0 h => HeaderV0.Slashes h | V1 h => HeaderV1.Slashes h | V2 h => HeaderV2.Slashes h | V3 h => HeaderV3.Slashes h end.
Definition SetSlashes (h : Header) (x : list Z) : Header :=
  match h with
  | V0 h => V0 (HeaderV0.SetSlashes h x) | V1 h => V1 (HeaderV1.SetSlashes h x)
  | V2 h => V2 (HeaderV2.SetSlashes h x) | V3 h => V3 (HeaderV3.SetSlashes h x)
  end.

Definition Copy (h : Header) : Header :=
  match h with
  | V0 h => V0 (HeaderV0.Copy h) | V1 h => V1 (HeaderV1.Copy h)
  | V2 h => V2 (HeaderV2.Copy h) | V3 h => V3 (HeaderV3.Copy h)
  end.

(** ** block/header.go *)

Definition NumberU64 (h : Header) : Z := Big.Uint64 (Number h).
Definition IsLastBlockInEpoch (h : Header) : bool := (0 <? length (ShardState h))%nat.
Definition GetShardState {R : ShardRLP} (of_bytes : list Z -> Data) (h : Header) : outcome State :=
  DecodeWrapper (of_bytes (ShardState h)).

(** The chain of setters of headerfieldsetter.go. *)
Record HeaderFieldSetter := mkSetter { h : Header }.
Definition With (h : Header) : HeaderFieldSetter := mkSetter h.
Definition With_ParentHash (s : HeaderFieldSetter) (x : Z) : HeaderFieldSetter := mkSetter (SetParentHash s.(h) x).
Definition With_Coinbase (s : HeaderFieldSetter) (x : Z) : HeaderFieldSetter := mkSetter (SetCoinbase s.(h) x).
Definition With_Root (s : HeaderFieldSetter) (x : Z) : HeaderFieldSetter := mkSetter (SetRoot s.(h) x).
Definition With_TxHash (s : HeaderFieldSetter) (x : Z) : HeaderFieldSetter := mkSetter (SetTxHash s.(h) x).
Definition With_ReceiptHash (s : HeaderFieldSetter) (x : Z) : HeaderFieldSetter := mkSetter (SetReceiptHash s.(h) x).
Definition With_OutgoingReceiptHash (s : HeaderFieldSetter) (x : Z) : HeaderFieldSetter := mkSetter (SetOutgoingReceiptHash s.(h) x).
Definition With_IncomingReceiptHash (s : HeaderFieldSetter) (x : Z) : HeaderFieldSetter := mkSetter (SetIncomingReceiptHash s.(h) x).
Definition With_Bloom (s : HeaderFieldSetter) (x : Z) : HeaderFieldSetter := mkSetter (SetBloom s.(h) x).
Definition With_Number (s : HeaderFieldSetter) (x : Z) : HeaderFieldSetter := mkSetter (SetNumber s.(h) x).
Definition With_GasLimit (s : HeaderFieldSetter) (x : Z) : HeaderFieldSetter := mkSetter (SetGasLimit s.(h) x).
Definition With_GasUsed (s : HeaderFieldSetter) (x : Z) : HeaderFieldSetter := mkSetter (SetGasUsed s.(h) x).
Definition With_Time (s : HeaderFieldSetter) (x : Z) : HeaderFieldSetter := mkSetter (SetTime s.(h) x).
Definition With_Extra (s : HeaderFieldSetter) (x : list Z) : HeaderFieldSetter := mkSetter (SetExtra s.(h) x).
Definition With_MixDigest (s : HeaderFieldSetter) (x : Z) : HeaderFieldSetter := mkSetter (SetMixDigest s.(h) x).
Definition With_ViewID (s : HeaderFieldSetter) (x : Z) : HeaderFieldSetter := mkSetter (SetViewID s.(h) x).
Definition With_Epoch (s : HeaderFieldSetter) (x : Z) : HeaderFieldSetter := mkSetter (SetEpoch s.(h) x).
Definition With_ShardID (s : HeaderFieldSetter) (x : Z) : HeaderFieldSetter := mkSetter (SetShardID s.(h) x).
Definition With_LastCommitSignature (s : HeaderFieldSetter) (x : list Z) : HeaderFieldSetter := mkSetter (SetLastCommitSignature s.(h) x).
Definition With_LastCommitBitmap (s : HeaderFieldSetter) (x : list Z) : HeaderFieldSetter := mkSetter (SetLastCommitBitmap s.(h) x).
Definition With_ShardStateHash (s : HeaderFieldSetter) (x : Z) : HeaderFieldSetter := mkSetter (SetShardStateHash s.(h) x).
Definition With_Vrf (s : HeaderFieldSetter) (x : list Z) : HeaderFieldSetter := mkSetter (SetVrf s.(h) x).
Definition With_Vdf (s : HeaderFieldSetter) (x : list Z) : HeaderFieldSetter := mkSetter (SetVdf s.(h) x).
Definition With_ShardState (s : HeaderFieldSetter) (x : list Z) : HeaderFieldSetter := mkSetter (SetShardState s.(h) x).
Definition With_CrossLinks (s : HeaderFieldSetter) (x : list Z) : HeaderFieldSetter := mkSetter (SetCrossLinks s.(h) x).
Definition With_Header (s : HeaderFieldSetter) : Header := s.(h).

(** ** block/factory *)

Record factory := mkFactory { chainConfig : ChainConfig }.
Definition NewFactory (chainConfig : ChainConfig) : factory := mkFactory chainConfig.
Definition NewHeader (f : factory) (epoch : Z) : Header :=
  let c := f.(chainConfig) in
  let impl :=
    if IsPreStaking c (Some epoch) || IsStaking c (Some epoch) then V3 HeaderV3.NewHeader
    else if IsCrossLink c (Some epoch) then V2 HeaderV2.NewHeader
    else if HasCrossTxFields c (Some epoch) then V1 HeaderV1.NewHeader
    else V0 HeaderV0.NewHeader in
  SetEpoch impl epoch.

(** ** Fields *)

Inductive version := Version0 | Version1 | Version2 | Version3.
Definition version_of (h : Header) : version :=
  match h with V0 _ => Version0 | V1 _ => Version1 | V2 _ => Version2 | V3 _ => Version3 end.

(** The fields that are numbers, hashes and addresses, and those that are bytes. *)
Inductive zfield :=
| FParentHash | FCoinbase | FRoot | FTxHash | FReceiptHash
| FOutgoingReceiptHash | FIncomingReceiptHash | FBloom | FNumber | FGasLimit
| FGasUsed | FTime | FMixDigest | FViewID | FEpoch
| FShardID | FShardStateHash.
Inductive bfield :=
| BExtra | BLastCommitSignature | BLastCommitBitmap | BVrf | BVdf
| BShardState | BCrossLinks | BSlashes.
#[export] Instance zfield_eq_dec : EqDecision zfield.
Proof. solve_decision. Defined.
#[export] Instance bfield_eq_dec : EqDecision bfield.
Proof. solve_decision. Defined.

Definition zget (f : zfield) (h : Header) : Z :=
  match f with
  | FParentHash => ParentHash h
  | FCoinbase => Coinbase h
  | FRoot => Root h
  | FTxHash => TxHash h
  | FReceiptHash => ReceiptHash h
  | FOutgoingReceiptHash => OutgoingReceiptHash h
  | FIncomingReceiptHash => IncomingReceiptHash h
  | FBloom => Bloom h
  | FNumber => Number h
  | FGasLimit => GasLimit h
  | FGasUsed => GasUsed h
  | FTime => Time h
  | FMixDigest => MixDigest h
  | FViewID => ViewID h
  | FEpoch => Epoch h
  | FShardID => ShardID h
  | FShardStateHash => ShardStateHash h
  end.
Definition zset (f : zfield) (h : Header) (x : Z) : Header :=
  match f with
  | FParentHash => SetParentHash h x
  | FCoinbase => SetCoinbase h x
  | FRoot => SetRoot h x
  | FTxHash => SetTxHash h x
  | FReceiptHash => SetReceiptHash h x
  | FOutgoingReceiptHash => SetOutgoingReceiptHash h x
  | FIncomingReceiptHash => SetIncomingReceiptHash h x
  | FBloom => SetBloom h x
  | FNumber => SetNumber h x
  | FGasLimit => SetGasLimit h x
  | FGasUsed => SetGasUsed h x
  | FTime => SetTime h x
  | FMixDigest => SetMixDigest h x
  | FViewID => SetViewID h x
  | FEpoch => SetEpoch h x
  | FShardID => SetShardID h x
  | FShardStateHash => SetShardStateHash h x
  end.
Definition bget (f : bfield) (h : Header) : list Z :=
  match f with
  | BExtra => Extra h
  | BLastCommitSignature => LastCommitSignature h
  | BLastCommitBitmap => LastCommitBitmap h
  | BVrf => Vrf h
  | BVdf => Vdf h
  | BShardState => ShardState h
  | BCrossLinks => CrossLinks h
  | BSlashes => Slashes h
  end.
Definition bset (f : bfield) (h : Header) (x : list Z) : Header :=
  match f with
  | BExtra => SetExtra h x
  | BLastCommitSignature => SetLastCommitSignature h x
  | BLastCommitBitmap => SetLastCommitBitmap h x
  | BVrf => SetVrf h x
  | BVdf => SetVdf h x
  | BShardState => SetShardState h x
  | BCrossLinks => SetCrossLinks h x
  | BSlashes => SetSlashes h x
  end.

Definition zstores (v : version) (f : zfield) : bool :=
  match f, v with
  | (FOutgoingReceiptHash | FIncomingReceiptHash), Version0 => false
  | FShardStateHash, Version3 => false
  | _, _ => true
  end.
Definition bstores (v : version) (f : bfield) : bool :=
  match f, v with
  | (BVrf | BVdf), Version0 => false
  | BCrossLinks, (Version0 | Version1) => false
  | BSlashes, (Version0 | Version1 | Version2) => false
  | _, _ => true
  end.

(** The setters of a header.  A version that keeps the field returns what
    was set and no other field, numeric or bytes, changes; a version that does
    not keep it is left alone; the version never changes. *)
Theorem zset_laws f h x :
  version_of (zset f h x) = version_of h /\
  (if zstores (version_of h) f then zget f (zset f h x) = x else zset f h x = h) /\
  (forall g, g <> f -> zget g (zset f h x) = zget g h) /\
  (forall g, bget g (zset f h x) = bget g h).
Proof.
  destruct h as [[[]]|[[]]|[[]]|[[]]]; destruct f; (split_and!; [done|done| |]);
    intros []; done.
Qed.

Theorem bset_laws f h x :
  version_of (bset f h x) = version_of h /\
  (if bstores (version_of h) f then bget f (bset f h x) = x else bset f h x = h) /\
  (forall g, zget g (bset f h x) = zget g h) /\
  (forall g, g <> f -> bget g (bset f h x) = bget g h).
Proof.
  destruct h as [[[]]|[[]]|[[]]|[[]]]; destruct f; (split_and!; [done|done| |]);
    intros []; done.
Qed.

(** A header is determined by its version and what its getters return. *)
Lemma header_ext h1 h2 : version_of h1 = version_of h2 ->
  (forall f, zget f h1 = zget f h2) -> (forall f, bget f h1 = bget f h2) -> h1 = h2.
Proof.
  intros Hv Hz Hb.
  destruct h1 as [[[]]|[[]]|[[]]|[[]]], h2 as [[[]]|[[]]|[[]]|[[]]]; try done; repeat f_equal;
        first [ exact (Hz FParentHash) | exact (Hz FCoinbase) | exact (Hz FRoot) | exact (Hz
      FTxHash) | exact (Hz FReceiptHash) | exact (Hz FOutgoingReceiptHash) | exact (Hz
      FIncomingReceiptHash) | exact (Hz FBloom) | exact (Hz FNumber) | exact (Hz FGasLimit) |
      exact (Hz FGasUsed) | exact (Hz FTime) | exact (Hz FMixDigest) | exact (Hz FViewID) |
      exact (Hz FEpoch) | exact (Hz FShardID) | exact (Hz FShardStateHash) | exact (Hb BExtra)
      | exact (Hb BLastCommitSignature) | exact (Hb BLastCommitBitmap) | exact (Hb BVrf) |
      exact (Hb BVdf) | exact (Hb BShardState) | exact (Hb BCrossLinks) | exact (Hb BSlashes) ].
Qed.

Lemma Copy_id h : Copy h = h.
Proof. by destruct h as [[]|[]|[]|[]]. Qed.

(** ** The factory *)

Lemma version_NewHeader f e : version_of (NewHeader f e) =
  if IsPreStaking f.(chainConfig) (Some e) || IsStaking f.(chainConfig) (Some e) then Version3
  else if IsCrossLink f.(chainConfig) (Some e) then Version2
  else if HasCrossTxFields f.(chainConfig) (Some e) then Version1 else Version0.
Proof. unfold NewHeader. repeat case_match; done. Qed.

(** A new header carries its epoch, and is otherwise empty. *)
Lemma NewHeader_Epoch f e : Epoch (NewHeader f e) = e /\ Number (NewHeader f e) = 0 /\ IsLastBlockInEpoch (NewHeader f e) = false.
Proof. unfold NewHeader. repeat case_match; done. Qed.

Definition version_number (v : version) : Z :=
  match v with Version0 => 0 | Version1 => 1 | Version2 => 2 | Version3 => 3 end.

Lemma implb_isForked s e e' : e <= e' -> implb (isForked s (Some e)) (isForked s (Some e')) = true.
Proof.
  intros Hle. destruct (isForked s (Some e)) eqn:E; [|done]. cbn [implb]. by eapply isForked_mono.
Qed.

(** The version as a function of the four features. *)
Definition pick (pre stk cl cx : bool) : version :=
  if pre || stk then Version3 else if cl then Version2 else if cx then Version1 else Version0.

Lemma pick_mono p s l x p' s' l' x' :
  implb p p' = true -> implb s s' = true -> implb l l' = true -> implb x x' = true ->
  version_number (pick p s l x) <= version_number (pick p' s' l' x').
Proof.
  destruct p, p'; try discriminate; destruct s, s'; try discriminate;
    destruct l, l'; try discriminate; destruct x, x'; try discriminate; intros; cbn; lia.
Qed.

(** C31: What the header factory promises.  The header made for an epoch is
    fresh (number 0, that epoch, not the last of its epoch); whatever features
    the chain configuration switches on in the epoch, the header keeps the fields
    they need: the receipt roots, VRF and VDF for cross-shard transactions, the
    crosslinks for crosslinking, the slashes for staking; and the version never
    goes down from one epoch to a later one. *)
Theorem NewHeader_supports f e e' :
  let c := f.(chainConfig) in let v := version_of (NewHeader f e) in
  (Epoch (NewHeader f e) = e /\ Number (NewHeader f e) = 0 /\ IsLastBlockInEpoch (NewHeader f e) = false) /\
  (HasCrossTxFields c (Some e) = true ->
     zstores v FOutgoingReceiptHash = true /\ zstores v FIncomingReceiptHash = true /\
     bstores v BVrf = true /\ bstores v BVdf = true) /\
  (IsCrossLink c (Some e) = true -> bstores v BCrossLinks = true) /\
  (IsPreStaking c (Some e) = true \/ IsStaking c (Some e) = true -> bstores v BSlashes = true) /\
  (e <= e' -> version_number v <= version_number (version_of (NewHeader f e'))).
Proof.
  cbv zeta. split; [apply NewHeader_Epoch|]. rewrite !version_NewHeader. split_and!.
  - intros ->. by repeat case_match.
  - intros ->. by repeat case_match.
  - intros [->| ->]; [done|]. by rewrite orb_true_r.
  - intros Hle. apply pick_mono; by apply implb_isForked.
Qed.

Lemma NewHeader_supports_witness :
  version_of (NewHeader (NewFactory MainnetChainConfig) 1000) = Version3 /\
  bstores (version_of (NewHeader (NewFactory MainnetChainConfig) 1000)) BSlashes = true.
Proof.
  split; [by vm_compute|].
  destruct (NewHeader_supports (NewFactory MainnetChainConfig) 1000 1000) as (_ & _ & _ & H & _).
  apply H. left. by vm_compute.
Defined.
