(* ===== verification/CXReceipt.v ===== *)
(** * Cross-shard receipts and crosslinks (core/types: cx_receipt.go, derive_sha.go, crosslink.go)

    A cross-shard transfer leaves a [CXReceipt] in the source shard's block; a
    [CXReceiptsProof] carries the receipts of one block for one destination
    shard, with the merkle proof that ties them to the header.  Hashing, tries
    and RLP are foreign code: [Hashes] lists what is called.  Nil pointers and
    nil slices that the code tests for are options. *)
From S2P Require Import Prelude Bls Header.
Local Open Scope Z_scope.

Record CXReceipt := mkCXReceipt {
  cxTxHash : Z; cxFrom : Address; cxTo : option Address;
  cxShardID : Z; cxToShardID : Z; cxAmount : Z
}.
#[export] Instance CXReceipt_eq_dec : EqDecision CXReceipt.
Proof. solve_decision. Defined.

Definition CXReceipts : Type := list CXReceipt.

Record CXMerkleProof := mkMerkleProof {
  mpBlockNum : Z; mpBlockHash : Z; mpShardID : Z; mpCXReceiptHash : Z;
  mpShardIDs : list Z; mpCXShardHashes : list Z
}.

Record CXReceiptsProof := mkCXProof {
  pReceipts : option CXReceipts;
  pMerkleProof : option CXMerkleProof;
  pHeader : option Header;
  pCommitSig : list Z;
  pCommitBitmap : list Z
}.
Definition CXReceiptsProofs : Type := list CXReceiptsProof.

Definition receipts_of (cxp : CXReceiptsProof) : CXReceipts := default [] cxp.(pReceipts).

(** go-ethereum's Keccak256Hash, trie and RLP, and [hash.FromRLP] of a header. *)
Class Hashes := {
  Keccak256Hash : list Z -> Z;
  trie_Hash : list (list Z * list Z) -> Z;   (* the root after these updates of an empty trie *)
  rlp_uint : Z -> list Z;
  cx_rlp : CXReceipt -> list Z;
  cxp_rlp : CXReceiptsProof -> list Z;
  header_Hash : Header -> Z
}.

(** Two different inputs of Keccak256 with one hash. *)
Definition collision {H : Hashes} : Prop := exists x y, x <> y /\ Keccak256Hash x = Keccak256Hash y.

Section receipts.
Context {H : Hashes}.

(** ** Lists whose root is derived *)

Definition HashLength : nat := 32.
Definition hash_bytes (h : Z) : list Z := be_bytes HashLength h.
Definition shard_bytes (s : Z) : list Z := be_bytes 4 s.   (* binary.BigEndian.PutUint32 *)

Class DerivableList (A : Type) := {
  dl_Len : list A -> nat;
  dl_GetRlp : list A -> nat -> list Z;
  dl_ToShardID : list A -> nat -> Z;
  dl_MaxToShardID : list A -> Z
}.

Definition GetRlp {A} (enc : A -> list Z) (cs : list A) (i : nat) : list Z :=
  match cs with [] => [] | _ => from_option enc [] (cs !! i) end.

Definition ToShardID (cs : CXReceipts) (i : nat) : Z :=
  match cs with [] => 0 | _ => from_option cxToShardID 0 (cs !! i) end.
Definition MaxToShardID (cs : CXReceipts) : Z :=
  foldl (fun maxShardID c => if maxShardID <? c.(cxToShardID) then c.(cxToShardID) else maxShardID) 0 cs.

#[export] Instance CXReceipts_derivable : DerivableList CXReceipt := {|
  dl_Len := @length _; dl_GetRlp := GetRlp cx_rlp; dl_ToShardID := ToShardID; dl_MaxToShardID := MaxToShardID
|}.
#[export] Instance CXReceiptsProofs_derivable : DerivableList CXReceiptsProof := {|
  dl_Len := @length _; dl_GetRlp := GetRlp cxp_rlp; dl_ToShardID := fun _ _ => 0; dl_MaxToShardID := fun _ => 0
|}.

(** [DeriveSha] over one list, [num] being the next key. *)
Definition derive_entries {A} `{DerivableList A} (num : Z) (l : list A) : list (list Z * list Z) :=
  map (fun i => (rlp_uint (num + Z.of_nat i), dl_GetRlp l i)) (seq 0 (dl_Len l)).
Definition DeriveSha {A} `{DerivableList A} (l : list A) : Z := trie_Hash (derive_entries 0 l).
(** The call with two lists: the keys go on counting. *)
Definition DeriveSha2 {A B} `{DerivableList A} `{DerivableList B} (l1 : list A) (l2 : list B) : Z :=
  trie_Hash (derive_entries 0 l1 ++ derive_entries (Z.of_nat (dl_Len l1)) l2).

(** The legacy root of the receipts of all shards. *)
Definition DeriveOneShardSha {A} `{DerivableList A} (l : list A) (shardID : Z) : Z :=
  trie_Hash (map (fun i => (rlp_uint (Z.of_nat i), dl_GetRlp l i))
    (List.filter (fun i => dl_ToShardID l i =? shardID) (seq 0 (dl_Len l)))).
Definition shards_upto (m : Z) : list Z := seqZ 0 (m + 1).
Definition DeriveMultipleShardsSha {A} `{DerivableList A} (EmptyRoot : Z) (l : list A) : Z :=
  if (dl_Len l =? 0)%nat then EmptyRoot
  else
    let by_ := concat (map (fun i =>
      let shardHash := DeriveOneShardSha l i in
      if shardHash =? EmptyRoot then [] else shard_bytes i ++ hash_bytes shardHash)
      (shards_upto (dl_MaxToShardID l))) in
    match by_ with [] => EmptyRoot | _ => Keccak256Hash by_ end.

(** core/types: [EmptyRootHash], the root derived from no transactions. *)
Definition EmptyRootHash : Z := DeriveSha (A := CXReceipt) [].

(** ** Receipts *)

Definition Copy_CXReceipts (cs : CXReceipts) : option CXReceipts := match cs with [] => None | _ => Some cs end.

Definition GetToShardReceipts (cs : CXReceipts) (shardID : Z) : CXReceipts :=
  List.filter (fun cx => cx.(cxToShardID) =? shardID) cs.

(** One shard's part of the buffer that [ComputeMerkleRoot] hashes. *)
Definition shard_entry (cs : CXReceipts) (i : Z) : list Z :=
  match GetToShardReceipts cs i with
  | [] => []
  | shardReceipts => shard_bytes i ++ hash_bytes (DeriveSha shardReceipts)
  end.
Definition ComputeMerkleRoot (cs : CXReceipts) : Z :=
  match concat (map (shard_entry cs) (shards_upto (MaxToShardID cs))) with
  | [] => EmptyRootHash
  | byteBuffer => Keccak256Hash byteBuffer
  end.

(** ** Proofs *)

Definition Copy_CXMerkleProof (m : option CXMerkleProof) : option CXMerkleProof := m.

(** The copy's bitmap is read off the signature, as the code has it. *)
Definition Copy_CXReceiptsProof (cxp : CXReceiptsProof) : CXReceiptsProof := {|
  pReceipts := Copy_CXReceipts (receipts_of cxp);
  pMerkleProof := Copy_CXMerkleProof cxp.(pMerkleProof);
  pHeader := Copy <$> cxp.(pHeader);
  pCommitSig := cxp.(pCommitSig);
  pCommitBitmap := cxp.(pCommitSig)
|}.
Definition Copy_CXReceiptsProofs (cs : CXReceiptsProofs) : CXReceiptsProofs := map Copy_CXReceiptsProof cs.

Fixpoint GetToShardID_loop (shardID : Z) (rest : CXReceipts) : outcome Z :=
  match rest with
  | [] => Ok shardID
  | cx :: rest => if shardID =? cx.(cxToShardID) then GetToShardID_loop shardID rest
                  else Err "[GetShardID] CXReceiptsProof contains distinct ToShardID"
  end.
Definition GetToShardID (cxp : option CXReceiptsProof) : outcome Z :=
  match cxp with
  | None => Err "[GetShardID] CXReceiptsProof or its receipts is NIL"
  | Some cxp =>
      match receipts_of cxp with
      | [] => Err "[GetShardID] CXReceiptsProof or its receipts is NIL"
      | cx :: rest => GetToShardID_loop cx.(cxToShardID) rest
      end
  end.

Definition ContainsEmptyField (cxp : option CXReceiptsProof) : bool :=
  match cxp with
  | None => true
  | Some cxp =>
      let anyNil := negb (bool_decide (is_Some cxp.(pReceipts))) || negb (bool_decide (is_Some cxp.(pMerkleProof)))
                    || negb (bool_decide (is_Some cxp.(pHeader))) in
      let anyZero := (length cxp.(pCommitSig) + length cxp.(pCommitBitmap) =? 0)%nat in
      anyNil || anyZero
  end.

(** ** Crosslinks *)

Record CrossLink := mkCrossLink {
  HashF : Z; BlockNumberF : Z; ViewIDF : Z; SignatureF : list Z; BitmapF : list Z; ShardIDF : Z; EpochF : Z
}.
Definition NewCrossLink (header : Header) (parentHeader : option Header) : CrossLink :=
  let parent := match parentHeader with
                | Some p => (Number p, ViewID p, Epoch p)
                | None => (0, 0, 0)
                end in
  {| HashF := ParentHash header; BlockNumberF := parent.1.1; ViewIDF := parent.1.2;
     SignatureF := LastCommitSignature header; BitmapF := LastCommitBitmap header;
     ShardIDF := ShardID header; EpochF := parent.2 |}.
Definition BlockNum (cl : CrossLink) : Z := Big.Uint64 cl.(BlockNumberF).
(** The order of [Sort] and [IsSorted]. *)
Definition crosslink_less (a b : CrossLink) : bool :=
  if negb (a.(ShardIDF) =? b.(ShardIDF)) then a.(ShardIDF) <? b.(ShardIDF)
  else if negb (a.(BlockNumberF) =? b.(BlockNumberF)) then a.(BlockNumberF) <? b.(BlockNumberF)
  else a.(ViewIDF) <? b.(ViewIDF).
Definition Sort (cls : list CrossLink) : list CrossLink := SliceStable crosslink_less cls.
(** [sort.SliceIsSorted]: no element is less than the one before it. *)
Fixpoint IsSorted (cls : list CrossLink) : bool :=
  match cls with
  | a :: (b :: _) as rest => negb (crosslink_less b a) && IsSorted rest
  | _ => true
  end.

(** ** Lemmas *)

Lemma GetToShardReceipts_spec cs s cx : cx ∈ GetToShardReceipts cs s <-> cx ∈ cs /\ cx.(cxToShardID) = s.
Proof.
  unfold GetToShardReceipts. rewrite !list_elem_of_In, List.filter_In, Z.eqb_eq. tauto.
Qed.

Lemma GetToShardReceipts_idemp cs s : GetToShardReceipts (GetToShardReceipts cs s) s = GetToShardReceipts cs s.
Proof.
  apply filter_all. apply Forall_forall. intros cx Hcx%GetToShardReceipts_spec. apply Z.eqb_eq, Hcx.
Qed.

Lemma MaxToShardID_bound cs : 0 <= MaxToShardID cs /\ Forall (fun cx => cx.(cxToShardID) <= MaxToShardID cs) cs.
Proof.
  unfold MaxToShardID.
  enough (forall m, m <= foldl (fun maxShardID c => if maxShardID <? c.(cxToShardID) then c.(cxToShardID) else maxShardID) m cs
    /\ Forall (fun cx => cx.(cxToShardID) <= foldl (fun maxShardID c => if maxShardID <? c.(cxToShardID) then c.(cxToShardID) else maxShardID) m cs) cs) as Hg
    by apply Hg.
  induction cs as [|c cs IH]; intros m; cbn [foldl]; [split; [lia|constructor]|].
  destruct (IH (if m <? cxToShardID c then cxToShardID c else m)) as [H1 H2].
  destruct (Z.ltb_spec m (cxToShardID c)); split; try lia; constructor; try lia; done.
Qed.

Lemma GetToShardID_Ok cxp s : GetToShardID (Some cxp) = Ok s <->
  receipts_of cxp <> [] /\ Forall (fun cx => cx.(cxToShardID) = s) (receipts_of cxp).
Proof.
  unfold GetToShardID. destruct (receipts_of cxp) as [|cx rest]; [by split; [|intros []]|].
  assert (forall r, GetToShardID_loop (cxToShardID cx) r = Ok s <->
    cxToShardID cx = s /\ Forall (fun c => cxToShardID c = cxToShardID cx) r) as ->.
  { induction r as [|c r IH]; cbn [GetToShardID_loop].
    - split; [intros [= ->]; by split|by intros [-> _]].
    - destruct (Z.eqb_spec (cxToShardID cx) (cxToShardID c)) as [E|E].
      + rewrite IH, Forall_cons. intuition congruence.
      + split; [done|]. intros [_ [Hc _]%Forall_cons]. congruence. }
  rewrite Forall_cons. split.
  - intros [<- Hr]. by split_and!.
  - intros (_ & <- & Hr). by split.
Qed.

Lemma crosslink_less_asym a b : crosslink_less a b = true -> crosslink_less b a = false.
Proof.
  unfold crosslink_less. rewrite (Z.eqb_sym (ShardIDF b)), (Z.eqb_sym (BlockNumberF b)).
  repeat case_match; rewrite !Z.ltb_lt, !Z.ltb_ge; lia.
Qed.
Lemma crosslink_less_neg_trans a b c :
  crosslink_less b a = false -> crosslink_less c b = false -> crosslink_less c a = false.
Proof.
  unfold crosslink_less. repeat case_match; rewrite ?negb_true_iff, ?negb_false_iff, ?Z.eqb_eq, ?Z.eqb_neq in *;
    rewrite !Z.ltb_ge; lia.
Qed.

(** [Sort] gives a list that [IsSorted] accepts, with the same crosslinks. *)
Lemma Sort_sorted cls : IsSorted (Sort cls) = true /\ Sort cls ≡ₚ cls.
Proof.
  split; [|apply SliceStable_perm].
  pose proof (SliceStable_sorted crosslink_less crosslink_less_asym crosslink_less_neg_trans cls) as Hs.
  fold (Sort cls) in Hs. induction Hs as [|a l Hs IH Ha]; [done|]. cbn [IsSorted].
  destruct l as [|b l]; [done|]. rewrite Forall_cons in Ha. destruct Ha as [Hab _].
  unfold ordered in Hab. by rewrite Hab, IH.
Qed.

(** Copying a proof loses its bitmap unless it equals the signature. *)
Lemma Copy_CXReceiptsProof_bitmap cxp :
  (Copy_CXReceiptsProof cxp).(pCommitBitmap) = cxp.(pCommitSig) /\
  (cxp.(pCommitBitmap) <> cxp.(pCommitSig) -> Copy_CXReceiptsProof cxp <> cxp).
Proof. split; [done|]. intros Hne E. apply Hne. by rewrite <- E at 1. Qed.
End receipts.
