(* ===== verification/Receipt.v ===== *)
(** * Transaction receipts, logs and bloom filters (core/types: receipt.go, log.go, bloom9.go)

    A receipt's consensus form replaces the status by bytes; the bloom filter of
    a block is the union of three bits per logged address and topic.  The main
    results: the consensus form of a receipt reads back ([receipt_roundtrip]) and
    the filter has no false negatives ([CreateBloom_complete]). *)
From S2P Require Import Prelude Bls Header CXReceipt.
Local Open Scope Z_scope.

Record Log := mkLog {
  lAddress : Address; lTopics : list Z; lData : list Z;
  lBlockNumber : Z; lTxHash : Z; lTxIndex : Z; lBlockHash : Z; lIndex : Z; lRemoved : bool
}.

Record Receipt := mkReceipt {
  PostState : list Z; Status : Z; CumulativeGasUsed : Z; rBloom : Z; Logs : list Log;
  rTxHash : Z; ContractAddress : Address; rGasUsed : Z
}.

Definition receiptStatusFailedRLP : list Z := [].
Definition receiptStatusSuccessfulRLP : list Z := [1].
Definition ReceiptStatusFailed : Z := 0.
Definition ReceiptStatusSuccessful : Z := 1.

Definition NewReceipt (root : list Z) (failed : bool) (cumulativeGasUsed : Z) : Receipt := {|
  PostState := root; Status := if failed then ReceiptStatusFailed else ReceiptStatusSuccessful;
  CumulativeGasUsed := cumulativeGasUsed; rBloom := 0; Logs := [];
  rTxHash := 0; ContractAddress := 0; rGasUsed := 0
|}.

(** The consensus and the storage form; the RLP of these is foreign. *)
Record receiptRLP := mkReceiptRLP {
  cPostStateOrStatus : list Z; cCumulativeGasUsed : Z; cBloom : Z; cLogs : list Log
}.
Record receiptStorageRLP := mkReceiptStorageRLP {
  sPostStateOrStatus : list Z; sCumulativeGasUsed : Z; sBloom : Z; sTxHash : Z;
  sContractAddress : Address; sLogs : list Log; sGasUsed : Z
}.

Definition statusEncoding (r : Receipt) : list Z :=
  match r.(PostState) with
  | [] => if r.(Status) =? ReceiptStatusFailed then receiptStatusFailedRLP else receiptStatusSuccessfulRLP
  | _ => r.(PostState)
  end.

Definition with_status (r : Receipt) (post : list Z) (status : Z) : Receipt := {|
  PostState := post; Status := status; CumulativeGasUsed := r.(CumulativeGasUsed); rBloom := r.(rBloom);
  Logs := r.(Logs); rTxHash := r.(rTxHash); ContractAddress := r.(ContractAddress); rGasUsed := r.(rGasUsed)
|}.

Definition setStatus (r : Receipt) (postStateOrStatus : list Z) : outcome Receipt :=
  if bool_decide (postStateOrStatus = receiptStatusSuccessfulRLP)
  then Ok (with_status r r.(PostState) ReceiptStatusSuccessful)
  else if bool_decide (postStateOrStatus = receiptStatusFailedRLP)
  then Ok (with_status r r.(PostState) ReceiptStatusFailed)
  else if (length postStateOrStatus =? HashLength)%nat
  then Ok (with_status r postStateOrStatus r.(Status))
  else Err "invalid receipt status".

(** The zero receipt a decoder starts from. *)
Definition zero_receipt : Receipt := NewReceipt [] true 0.

Definition EncodeRLP (r : Receipt) : receiptRLP :=
  mkReceiptRLP (statusEncoding r) r.(CumulativeGasUsed) r.(rBloom) r.(Logs).
Definition DecodeRLP (r : Receipt) (dec : receiptRLP) : outcome Receipt :=
  let! r := setStatus r dec.(cPostStateOrStatus) in
  Ok {| PostState := r.(PostState); Status := r.(Status); CumulativeGasUsed := dec.(cCumulativeGasUsed);
        rBloom := dec.(cBloom); Logs := dec.(cLogs); rTxHash := r.(rTxHash);
        ContractAddress := r.(ContractAddress); rGasUsed := r.(rGasUsed) |}.

Definition EncodeRLP_storage (r : Receipt) : receiptStorageRLP :=
  mkReceiptStorageRLP (statusEncoding r) r.(CumulativeGasUsed) r.(rBloom) r.(rTxHash) r.(ContractAddress)
    r.(Logs) r.(rGasUsed).
Definition DecodeRLP_storage (r : Receipt) (dec : receiptStorageRLP) : outcome Receipt :=
  let! r := setStatus r dec.(sPostStateOrStatus) in
  Ok {| PostState := r.(PostState); Status := r.(Status); CumulativeGasUsed := dec.(sCumulativeGasUsed);
        rBloom := dec.(sBloom); Logs := dec.(sLogs); rTxHash := dec.(sTxHash);
        ContractAddress := dec.(sContractAddress); rGasUsed := dec.(sGasUsed) |}.

Definition FindLogsWithTopic (receipt : Receipt) (targetTopic : Z) : list Log :=
  List.filter (fun log => existsb (fun topic => topic =? targetTopic) log.(lTopics)) receipt.(Logs).

(** ** Bloom filters *)

Definition BloomByteLength : nat := 256.

Section bloom.
Context {H : Hashes}.

(** The 11-bit index of two bytes of the hash. *)
Definition bloom_bit (h : list Z) (i : nat) : Z :=
  Z.land (default 0 (h !! S i) + Z.shiftl (default 0 (h !! i)) 8) 2047.
Definition bloom9 (b : list Z) : Z :=
  let b := hash_bytes (Keccak256Hash b) in
  foldl (fun r i => Z.lor r (Z.shiftl 1 (bloom_bit b i))) 0 [0%nat; 2%nat; 4%nat].

Definition address_bytes (a : Address) : list Z := be_bytes 20 a.
Definition LogsBloom (logs : list Log) : Z :=
  foldl (fun bin log =>
      foldl (fun bin b => Z.lor bin (bloom9 (hash_bytes b)))
        (Z.lor bin (bloom9 (address_bytes log.(lAddress)))) log.(lTopics))
    0 logs.

(** [Bloom.SetBytes] panics when the bytes do not fit. *)
Definition BytesToBloom (bin : Z) : outcome Z :=
  if 256 ^ Z.of_nat BloomByteLength <=? bin then Panic "bloom bytes too big" else Ok bin.
Definition CreateBloom (receipts : list Receipt) : outcome Z :=
  BytesToBloom (foldl (fun bin receipt => Z.lor bin (LogsBloom receipt.(Logs))) 0 receipts).

Definition BloomLookup (bin : Z) (topic : list Z) : bool :=
  let cmp := bloom9 topic in Z.land bin cmp =? cmp.

(** ** Lemmas *)

Definition covers (a b : Z) : Prop := Z.land a b = b.

Lemma covers_bits a b : covers a b <-> forall n, 0 <= n -> Z.testbit b n = true -> Z.testbit a n = true.
Proof.
  unfold covers. split.
  - intros E n Hn Hb. rewrite <- E, Z.land_spec in Hb. by apply andb_prop in Hb as [? _].
  - intros Hab. apply Z.bits_inj'. intros n Hn. rewrite Z.land_spec.
    destruct (Z.testbit b n) eqn:Eb; [rewrite (Hab n Hn Eb); done|by rewrite andb_false_r].
Qed.

Lemma covers_lor_l a b c : covers a c -> covers (Z.lor a b) c.
Proof. rewrite !covers_bits. intros Ha n Hn Hc. rewrite Z.lor_spec, (Ha n Hn Hc). done. Qed.
Lemma covers_lor_r a b : covers (Z.lor a b) b.
Proof. apply covers_bits. intros n Hn Hb. by rewrite Z.lor_spec, Hb, orb_true_r. Qed.

(** A fold of unions covers what it started from and each of its members. *)
Lemma foldl_lor_start {A} (f : A -> Z) l a c : covers a c -> covers (foldl (fun b x => Z.lor b (f x)) a l) c.
Proof. revert a. induction l as [|x l IH]; intros a Ha; [done|]. cbn [foldl]. by apply IH, covers_lor_l. Qed.
Lemma foldl_lor_elem {A} (f : A -> Z) l a c x : x ∈ l -> covers (f x) c -> covers (foldl (fun b x => Z.lor b (f x)) a l) c.
Proof.
  intros Hx Hc. revert a. induction Hx as [x l|x y l Hx IH]; intros a; cbn [foldl]; [|by apply IH].
  apply foldl_lor_start. apply covers_bits. intros n Hn Hb. rewrite covers_bits in Hc.
  by rewrite Z.lor_spec, (Hc n Hn Hb), orb_true_r.
Qed.
Lemma covers_refl a : covers a a.
Proof. apply Z.land_diag. Qed.

(** What a log puts in the filter. *)
Definition logged (log : Log) (item : list Z) : Prop :=
  item = address_bytes log.(lAddress) \/ exists t, t ∈ log.(lTopics) /\ item = hash_bytes t.

Lemma LogsBloom_covers logs log item : log ∈ logs -> logged log item -> covers (LogsBloom logs) (bloom9 item).
Proof.
  unfold LogsBloom. generalize 0. intros a Hlog Hitem. revert a.
  assert (forall logs a c, covers a c -> covers (foldl (fun bin log =>
      foldl (fun bin b => Z.lor bin (bloom9 (hash_bytes b)))
        (Z.lor bin (bloom9 (address_bytes log.(lAddress)))) log.(lTopics)) a logs) c) as Hstart.
  { clear. induction logs as [|l logs IH]; intros a c Hc; [done|]. cbn [foldl].
    by apply IH, (foldl_lor_start (fun b => bloom9 (hash_bytes b))), covers_lor_l. }
  induction Hlog as [log logs|log l logs Hlog IH]; intros a; cbn [foldl]; [|by apply IH].
  apply Hstart. destruct Hitem as [->|(t & Ht & ->)].
  - apply (foldl_lor_start (fun b => bloom9 (hash_bytes b))), covers_lor_r.
  - by apply (foldl_lor_elem (fun b => bloom9 (hash_bytes b)) _ _ _ t), covers_refl.
Qed.

(** Every filter the code builds fits in a bloom. *)
Lemma lor_small n a b : 0 <= n -> 0 <= a < 2 ^ n -> 0 <= b < 2 ^ n -> 0 <= Z.lor a b < 2 ^ n.
Proof.
  intros Hn Ha Hb. rewrite <- (Z.mod_small a (2 ^ n)), <- (Z.mod_small b (2 ^ n)) by done.
  rewrite <- !Z.land_ones, <- Z.land_lor_distr_l, Z.land_ones by done.
  apply Z.mod_pos_bound. lia.
Qed.
Lemma foldl_lor_small {A} n (f : A -> Z) l a : 0 <= n -> 0 <= a < 2 ^ n -> (forall x, 0 <= f x < 2 ^ n) ->
  0 <= foldl (fun b x => Z.lor b (f x)) a l < 2 ^ n.
Proof. intros Hn Ha Hf. revert a Ha. induction l as [|x l IH]; intros a Ha; [done|]. by apply IH, lor_small. Qed.

Lemma bloom9_small b : 0 <= bloom9 b < 2 ^ 2048.
Proof.
  unfold bloom9. generalize (hash_bytes (Keccak256Hash b)). intros h.
  apply (foldl_lor_small 2048 (fun i => Z.shiftl 1 (bloom_bit h i))); [lia|split; [lia|]|].
  { apply Z.pow_pos_nonneg; lia. }
  intros i. rewrite Z.shiftl_1_l. unfold bloom_bit. change 2047 with (Z.ones 11). rewrite Z.land_ones by lia.
  match goal with |- context [Z.modulo ?x _] => pose proof (Z.mod_pos_bound x (2 ^ 11) ltac:(lia)) as Hb end.
  split; [apply Z.pow_nonneg; lia|]. apply Z.pow_lt_mono_r; [lia|lia|]. change (2 ^ 11) with 2048 in *. lia.
Qed.

Lemma LogsBloom_small logs : 0 <= LogsBloom logs < 2 ^ 2048.
Proof.
  unfold LogsBloom.
  assert (forall a, 0 <= a < 2 ^ 2048 -> 0 <= foldl (fun bin log =>
      foldl (fun bin b => Z.lor bin (bloom9 (hash_bytes b)))
        (Z.lor bin (bloom9 (address_bytes log.(lAddress)))) log.(lTopics)) a logs < 2 ^ 2048) as Hg.
  { induction logs as [|log logs IH]; intros a Ha; [done|]. cbn [foldl].
    apply IH, (foldl_lor_small 2048 (fun b => bloom9 (hash_bytes b))); [lia| |intros; apply bloom9_small].
    apply lor_small; [lia|done|apply bloom9_small]. }
  apply Hg. split; [lia|apply Z.pow_pos_nonneg; lia].
Qed.

(** C30: Bloom filters have no false negatives.  Building the filter of a
    block's receipts never panics, and looking up the address or any topic of any
    log of any of these receipts succeeds. *)
Theorem CreateBloom_complete receipts :
  exists bloom, CreateBloom receipts = Ok bloom /\
    forall r log item, r ∈ receipts -> log ∈ r.(Logs) -> logged log item -> BloomLookup bloom item = true.
Proof.
  unfold CreateBloom, BytesToBloom. set (bin := foldl _ 0 receipts). exists bin.
  assert (0 <= bin < 2 ^ 2048) as Hb.
  { apply (foldl_lor_small 2048 (fun r => LogsBloom r.(Logs))); [lia| |intros; apply LogsBloom_small].
    split; [lia|apply Z.pow_pos_nonneg; lia]. }
  change (256 ^ Z.of_nat BloomByteLength) with (2 ^ 2048). rewrite (proj2 (Z.leb_gt _ _)) by apply Hb.
  split; [done|]. intros r log item Hr Hlog Hitem. apply Z.eqb_eq.
  apply (foldl_lor_elem (fun r => LogsBloom r.(Logs)) _ _ _ r Hr). by eapply LogsBloom_covers.
Qed.
End bloom.

(** The consensus form of a receipt loses the implementation fields only, the
    storage form nothing; a 32-byte post state hides the status. *)
Lemma receipt_roundtrip (r : Receipt) :
  (r.(PostState) = [] /\ (r.(Status) = 0 \/ r.(Status) = 1)) \/
  (length r.(PostState) = HashLength /\ r.(Status) = 0) ->
  DecodeRLP_storage zero_receipt (EncodeRLP_storage r) = Ok r /\
  exists r', DecodeRLP zero_receipt (EncodeRLP r) = Ok r' /\
    PostState r' = PostState r /\ Status r' = Status r /\ CumulativeGasUsed r' = CumulativeGasUsed r /\
    rBloom r' = rBloom r /\ Logs r' = Logs r.
Proof.
  destruct r as [post status cum bl logs th ca gu]. cbn [PostState Status].
  unfold DecodeRLP_storage, DecodeRLP, EncodeRLP_storage, EncodeRLP, statusEncoding, setStatus.
  intros [[-> [-> | ->]]|[Hl ->]]; cbn [PostState Status cPostStateOrStatus sPostStateOrStatus]; cbn.
  - split; [done|]. eexists. by split_and!.
  - split; [done|]. eexists. by split_and!.
  - destruct post as [|x post]; [done|]. rewrite !bool_decide_false by (try (intros [=]; subst; done); done).
    rewrite Hl. cbn. split; [done|]. eexists. by split_and!.
Qed.
