(* ===== verification/Block.v ===== *)
(** * Blocks and block bodies (core/types: block.go, bodyv0.go, bodyv1.go, bodyv2.go, bodyfieldsetter.go)

    A [Block] is a header with its transactions, staking transactions, uncles and
    incoming cross-shard receipts; the commit signature that the consensus
    attaches is not part of its encoding.  Three body formats and three encoded
    forms exist, chosen by the header's version.  Transactions are opaque here
    ([TxLib]); RLP of the three tagged forms is foreign.  The cached hash and
    size are left out: [Block.Hash] recomputes. *)
From S2P Require Import Prelude Bls Header CXReceipt Receipt.
Local Open Scope Z_scope.

Class TxLib := {
  Transaction : Type;
  StakingTransaction : Type;
  tx_rlp : Transaction -> list Z;
  stk_rlp : StakingTransaction -> list Z;
  receipt_rlp : receiptRLP -> list Z
}.

Section block.
Context {H : Hashes} {T : TxLib}.

Definition CopyHeader (h : option Header) : option Header := Copy <$> h.

(** ** Bodies *)

Record BodyV0 := mkBodyV0 { b0Transactions : list Transaction; b0Uncles : list Header }.
Record BodyV1 := mkBodyV1 { b1Transactions : list Transaction; b1Uncles : list Header; b1IncomingReceipts : CXReceiptsProofs }.
Record BodyV2 := mkBodyV2 {
  b2Transactions : list Transaction; b2StakingTransactions : list StakingTransaction;
  b2Uncles : list Header; b2IncomingReceipts : CXReceiptsProofs
}.
Inductive Body := Body0 (b : BodyV0) | Body1 (b : BodyV1) | Body2 (b : BodyV2).

Definition NewBodyForMatchingHeader (h : Header) : Body :=
  match h with
  | V3 _ => Body2 (mkBodyV2 [] [] [] [])
  | V2 _ | V1 _ => Body1 (mkBodyV1 [] [] [])
  | V0 _ => Body0 (mkBodyV0 [] [])
  end.

Definition Transactions (b : Body) : list Transaction :=
  match b with Body0 b => b.(b0Transactions) | Body1 b => b.(b1Transactions) | Body2 b => b.(b2Transactions) end.
Definition StakingTransactions (b : Body) : list StakingTransaction :=
  match b with Body0 _ | Body1 _ => [] | Body2 b => b.(b2StakingTransactions) end.
Definition Uncles (b : Body) : list Header :=
  map Copy (match b with Body0 b => b.(b0Uncles) | Body1 b => b.(b1Uncles) | Body2 b => b.(b2Uncles) end).
Definition IncomingReceipts (b : Body) : CXReceiptsProofs :=
  match b with
  | Body0 _ => []
  | Body1 b => Copy_CXReceiptsProofs b.(b1IncomingReceipts)
  | Body2 b => Copy_CXReceiptsProofs b.(b2IncomingReceipts)
  end.

(** [index < 0 || index >= len(..)]: nil. *)
Definition at_index {A} (l : list A) (index : Z) : option A :=
  if (index <? 0) || (Z.of_nat (length l) <=? index) then None else l !! Z.to_nat index.
Definition TransactionAt (b : Body) (index : Z) : option Transaction := at_index (Transactions b) index.
Definition StakingTransactionAt (b : Body) (index : Z) : option StakingTransaction :=
  match b with Body0 _ | Body1 _ => None | Body2 b => at_index b.(b2StakingTransactions) index end.

Fixpoint CXReceiptAt_loop (cxps : CXReceiptsProofs) (index : Z) : option CXReceipt :=
  match cxps with
  | [] => None
  | cxp :: rest =>
      let cxs := receipts_of cxp in
      if index <? Z.of_nat (length cxs) then cxs !! Z.to_nat index
      else CXReceiptAt_loop rest (index - Z.of_nat (length cxs))
  end.
Definition CXReceiptAt (b : Body) (index : Z) : option CXReceipt :=
  let loop cxps := if index <? 0 then None else CXReceiptAt_loop cxps index in
  match b with
  | Body0 _ => None
  | Body1 b => loop b.(b1IncomingReceipts)
  | Body2 b => loop b.(b2IncomingReceipts)
  end.

Definition SetTransactions (b : Body) (txs : list Transaction) : Body :=
  match b with
  | Body0 b => Body0 (mkBodyV0 txs b.(b0Uncles))
  | Body1 b => Body1 (mkBodyV1 txs b.(b1Uncles) b.(b1IncomingReceipts))
  | Body2 b => Body2 (mkBodyV2 txs b.(b2StakingTransactions) b.(b2Uncles) b.(b2IncomingReceipts))
  end.
Definition SetStakingTransactions (b : Body) (txs : list StakingTransaction) : Body :=
  match b with
  | Body0 _ | Body1 _ => b
  | Body2 b => Body2 (mkBodyV2 b.(b2Transactions) txs b.(b2Uncles) b.(b2IncomingReceipts))
  end.
Definition SetUncles (b : Body) (newUncle : list Header) : Body :=
  let uncles := map Copy newUncle in
  match b with
  | Body0 b => Body0 (mkBodyV0 b.(b0Transactions) uncles)
  | Body1 b => Body1 (mkBodyV1 b.(b1Transactions) uncles b.(b1IncomingReceipts))
  | Body2 b => Body2 (mkBodyV2 b.(b2Transactions) b.(b2StakingTransactions) uncles b.(b2IncomingReceipts))
  end.
Definition SetIncomingReceipts (b : Body) (newIncomingReceipts : CXReceiptsProofs) : Body :=
  match b with
  | Body0 _ => b
  | Body1 b => Body1 (mkBodyV1 b.(b1Transactions) b.(b1Uncles) (Copy_CXReceiptsProofs newIncomingReceipts))
  | Body2 b => Body2 (mkBodyV2 b.(b2Transactions) b.(b2StakingTransactions) b.(b2Uncles)
                        (Copy_CXReceiptsProofs newIncomingReceipts))
  end.

(** ** Blocks *)

Record Block := mkBlock {
  header : Header;
  uncles : list Header;
  transactions : list Transaction;
  stakingTransactions : list StakingTransaction;
  incomingReceipts : CXReceiptsProofs;
  commitSigAndBitmap : list Z
}.

Definition with_header (b : Block) (h : Header) : Block :=
  mkBlock h b.(uncles) b.(transactions) b.(stakingTransactions) b.(incomingReceipts) b.(commitSigAndBitmap).

Definition Block_Hash (b : Block) : Z := header_Hash b.(header).
Definition Block_NumberU64 (b : Block) : Z := NumberU64 b.(header).
Definition Block_Header (b : Block) : Header := Copy b.(header).
Definition Block_Epoch (b : Block) : Z := Epoch b.(header).
Definition Block_ParentHash (b : Block) : Z := ParentHash b.(header).
Definition Block_ShardID (b : Block) : Z := ShardID b.(header).
Definition Block_IsLastBlockInEpoch (b : Block) : bool := IsLastBlockInEpoch b.(header).

(** [copy(sig2[:], sig)] into 96 zero bytes. *)
Definition copy_into (n : nat) (src : list Z) : list Z := take n src ++ replicate (n - length src) 0.
Lemma be_bytes_copy n v : be_bytes n (be_value (copy_into n (be_bytes n v))) = be_bytes n v.
Proof.
  unfold copy_into. rewrite be_bytes_length, Nat.sub_diag, app_nil_r, take_ge, be_bytes_value by (by rewrite be_bytes_length).
  assert (forall k, (k <= n)%nat -> be_bytes k (v mod 256 ^ Z.of_nat n) = be_bytes k v) as Hg; [|by apply Hg].
  induction k as [|k IH]; intros Hk; [done|]. cbn [be_bytes]. rewrite IH by lia. f_equal.
  replace (Z.of_nat n) with (Z.of_nat k + Z.of_nat (n - k)) by lia. rewrite Z.pow_add_r by lia.
  rewrite Z.rem_mul_r, Z.mul_comm, Z.div_add, Z.div_small by (try apply Z.mod_pos_bound; lia).
  rewrite Z.add_0_l. destruct (n - k)%nat as [|d] eqn:Ed; [lia|].
  rewrite Nat2Z.inj_succ, Z.pow_succ_r by lia. by rewrite Z.rem_mul_r, Z.mul_comm, Z_mod_plus_full, Z.mod_mod by lia.
Qed.
Definition SetLastCommitSig (b : Block) (sig signers : list Z) : Block :=
  with_header b (SetLastCommitBitmap (SetLastCommitSignature b.(header) (copy_into 96 sig)) signers).
Definition SetCurrentCommitSig (b : Block) (sigAndBitmap : list Z) : Block :=
  mkBlock b.(header) b.(uncles) b.(transactions) b.(stakingTransactions) b.(incomingReceipts) sigAndBitmap.
Definition GetCurrentCommitSig (b : Block) : list Z := b.(commitSigAndBitmap).
Definition AddVrf (b : Block) (vrf : list Z) : Block := with_header b (SetVrf b.(header) vrf).
Definition AddVdf (b : Block) (vdf : list Z) : Block := with_header b (SetVdf b.(header) vdf).

Definition Block_Body (b : Block) : Body :=
  let body := NewBodyForMatchingHeader b.(header) in
  let body := SetTransactions body b.(transactions) in
  let body := SetStakingTransactions body b.(stakingTransactions) in
  let body := SetUncles body b.(uncles) in
  SetIncomingReceipts body b.(incomingReceipts).

Definition NewBlockWithHeader (h : Header) : Block := mkBlock (Copy h) [] [] [] [] [].
Definition WithBody (b : Block) (txs : list Transaction) (stks : list StakingTransaction)
    (us : list Header) (incxs : CXReceiptsProofs) : Block :=
  mkBlock (Copy b.(header)) (map Copy us) txs stks incxs [].

(** The lists whose trie roots go in the header. *)
#[export] Instance Transactions_derivable : DerivableList Transaction := {|
  dl_Len := @length _; dl_GetRlp := GetRlp tx_rlp; dl_ToShardID := fun _ _ => 0; dl_MaxToShardID := fun _ => 0 |}.
#[export] Instance StakingTransactions_derivable : DerivableList StakingTransaction := {|
  dl_Len := @length _; dl_GetRlp := GetRlp stk_rlp; dl_ToShardID := fun _ _ => 0; dl_MaxToShardID := fun _ => 0 |}.
#[export] Instance Receipts_derivable : DerivableList Receipt := {|
  dl_Len := @length _; dl_GetRlp := GetRlp (fun r => receipt_rlp (EncodeRLP r));
  dl_ToShardID := fun _ _ => 0; dl_MaxToShardID := fun _ => 0 |}.

(** [NewBlock]: nil when the numbers of receipts and transactions differ. *)
Definition NewBlock (h : Header) (txs : list Transaction) (receipts : list Receipt) (outcxs : CXReceipts)
    (incxs : CXReceiptsProofs) (stks : list StakingTransaction) : outcome (option Block) :=
  if negb (length receipts =? length txs + length stks)%nat then Ok None
  else
    let h := Copy h in
    let no_txs := (length txs =? 0)%nat && (length stks =? 0)%nat in
    let h := SetTxHash h (if no_txs then EmptyRootHash else DeriveSha2 txs stks) in
    let! h := match receipts with
              | [] => Ok (SetReceiptHash h EmptyRootHash)
              | _ => let! bloom := CreateBloom receipts in
                     Ok (SetBloom (SetReceiptHash h (DeriveSha receipts)) bloom)
              end in
    let h := SetOutgoingReceiptHash h (ComputeMerkleRoot outcxs) in
    let h := SetIncomingReceiptHash h (match incxs with [] => EmptyRootHash | _ => DeriveSha incxs end) in
    Ok (Some (mkBlock h [] (if no_txs then [] else txs) (if no_txs then [] else stks) incxs [])).

(** ** The encoded forms *)

Inductive extblock :=
| ext0 (h : Header) (txs : list Transaction) (us : list Header)
| ext1 (h : Header) (txs : list Transaction) (us : list Header) (incxs : CXReceiptsProofs)
| ext2 (h : Header) (txs : list Transaction) (stks : list StakingTransaction) (us : list Header) (incxs : CXReceiptsProofs).

Class BlockRLP := {
  registry_Encode : extblock -> list Z;
  registry_Decode : list Z -> option extblock
}.
Class BlockRLPLaws (R : BlockRLP) : Prop := {
  registry_roundtrip e : registry_Decode (registry_Encode e) = Some e
}.

Definition to_ext (b : Block) : outcome extblock :=
  match b.(header) with
  | V3 _ => Ok (ext2 b.(header) b.(transactions) b.(stakingTransactions) b.(uncles) b.(incomingReceipts))
  | V2 _ | V1 _ => Ok (ext1 b.(header) b.(transactions) b.(uncles) b.(incomingReceipts))
  | V0 _ => match b.(incomingReceipts) with
            | _ :: _ => Err "incomingReceipts unsupported in v0 block"
            | [] => Ok (ext0 b.(header) b.(transactions) b.(uncles))
            end
  end.
Definition of_ext (eb : extblock) : Block :=
  match eb with
  | ext2 h txs stks us incxs => mkBlock h us txs stks incxs []
  | ext1 h txs us incxs => mkBlock h us txs [] incxs []
  | ext0 h txs us => mkBlock h us txs [] [] []
  end.
Definition Block_EncodeRLP {R : BlockRLP} (b : Block) : outcome (list Z) :=
  let! eb := to_ext b in Ok (registry_Encode eb).
Definition Block_DecodeRLP {R : BlockRLP} (s : list Z) : outcome Block :=
  match registry_Decode s with Some eb => Ok (of_ext eb) | None => Err "rlp" end.

(** ** Properties *)

(** The contents a header version can carry. *)
Definition carried (b : Block) : Block :=
  mkBlock b.(header) b.(uncles) b.(transactions)
    (match version_of b.(header) with Version3 => b.(stakingTransactions) | _ => [] end)
    b.(incomingReceipts) [].

Lemma of_to_ext b eb : to_ext b = Ok eb -> (of_ext eb).(header) = b.(header).
Proof. destruct b as [[] us txs stks [] sig]; cbn; by intros [= <-]. Qed.

(** Blocks survive their encoding.  Encoding fails exactly on a version-0
    block with incoming receipts; otherwise decoding gives back the header (and
    so the hash), uncles, transactions and incoming receipts, and the staking
    transactions exactly when the header is of version 3: earlier versions drop
    them without an error. *)
Theorem Block_roundtrip {R : BlockRLP} (laws : BlockRLPLaws R) b :
  (is_Ok (Block_EncodeRLP b) = false <-> version_of b.(header) = Version0 /\ b.(incomingReceipts) <> []) /\
  (forall s, Block_EncodeRLP b = Ok s ->
     Block_DecodeRLP s = Ok (carried b) /\ Block_Hash (carried b) = Block_Hash b /\
     (version_of b.(header) = Version3 \/ b.(stakingTransactions) = [] -> b.(commitSigAndBitmap) = [] -> carried b = b)).
Proof.
  unfold Block_EncodeRLP, Block_DecodeRLP, carried, Block_Hash.
  destruct b as [h us txs stks incxs sig]; cbn [header incomingReceipts stakingTransactions commitSigAndBitmap].
  split.
  - destruct h, incxs; cbn; intuition congruence.
  - intros s Hs. destruct h as [h|h|h|h]; cbn [to_ext] in Hs.
    1: destruct incxs; [|done].
    all: apply Ok_inj in Hs as <-; rewrite registry_roundtrip; cbn; (split_and!; [done|done|]);
      intros [?|?] ?; try done; congruence.
Qed.

(** The body of a block has its transactions; its incoming receipts are copies,
    twice over, and so have signatures for bitmaps. *)
Lemma Block_Body_spec b :
  Transactions (Block_Body b) = b.(transactions) /\
  StakingTransactions (Block_Body b) = (match version_of b.(header) with Version3 => b.(stakingTransactions) | _ => [] end) /\
  Uncles (Block_Body b) = b.(uncles) /\
  IncomingReceipts (Block_Body b) =
    (match version_of b.(header) with Version0 => [] | _ =>
       Copy_CXReceiptsProofs (Copy_CXReceiptsProofs b.(incomingReceipts)) end).
Proof.
  assert (forall l, map Copy (map Copy l) = l) as Hc.
  { intros l. rewrite map_map. rewrite <- (map_id l) at 2. apply map_ext. intros h. by rewrite !Copy_id. }
  destruct b as [[] us txs stks incxs sig]; unfold Uncles; cbn; rewrite ?Hc; done.
Qed.

Lemma body_bitmaps_lost b cxp : version_of b.(header) <> Version0 -> cxp ∈ b.(incomingReceipts) ->
  exists cxp', cxp' ∈ IncomingReceipts (Block_Body b) /\ cxp'.(pReceipts) = Copy_CXReceipts (receipts_of cxp) /\
    cxp'.(pCommitSig) = cxp.(pCommitSig) /\ cxp'.(pCommitBitmap) = cxp.(pCommitSig).
Proof.
  intros Hv Hin. exists (Copy_CXReceiptsProof (Copy_CXReceiptsProof cxp)).
  destruct (Block_Body_spec b) as (_ & _ & _ & ->). split_and!; [|unfold Copy_CXReceiptsProof at 1, receipts_of at 1; cbn; destruct (receipts_of cxp); done|done|done].
  destruct (version_of (header b)); [done| | |]; unfold Copy_CXReceiptsProofs; apply list_elem_of_In, in_map, in_map;
    by apply list_elem_of_In.
Qed.

(** [CXReceiptAt] indexes the concatenation of the proofs' receipts. *)
Lemma CXReceiptAt_concat cxps i : 0 <= i ->
  CXReceiptAt_loop cxps i = concat (map receipts_of cxps) !! Z.to_nat i.
Proof.
  revert i. induction cxps as [|cxp cxps IH]; intros i Hi; cbn [CXReceiptAt_loop map concat]; [done|].
  destruct (Z.ltb_spec i (Z.of_nat (length (receipts_of cxp)))).
  - by rewrite lookup_app_l by lia.
  - rewrite lookup_app_r by lia. rewrite IH by lia. f_equal. lia.
Qed.

(** The header [NewBlock] completes commits to the block's contents. *)
Lemma NewBlock_roots h txs receipts outcxs incxs stks b :
  NewBlock h txs receipts outcxs incxs stks = Ok (Some b) ->
  length receipts = (length txs + length stks)%nat /\
  transactions b = txs /\ stakingTransactions b = stks /\ incomingReceipts b = incxs /\
  TxHash b.(header) = (match txs, stks with [], [] => EmptyRootHash | _, _ => DeriveSha2 txs stks end) /\
  ReceiptHash b.(header) = (match receipts with [] => EmptyRootHash | _ => DeriveSha receipts end) /\
  (version_of h <> Version0 -> OutgoingReceiptHash b.(header) = ComputeMerkleRoot outcxs /\
     IncomingReceiptHash b.(header) = (match incxs with [] => EmptyRootHash | _ => DeriveSha incxs end)).
Proof.
  unfold NewBlock. destruct (Nat.eqb_spec (length receipts) (length txs + length stks)); [|done]. cbn [negb].
  intros Hb. destruct receipts as [|r receipts].
  - outcome_inv. injection Hb as <-. destruct txs, stks; try done. destruct h; cbn; by split_and!.
  - cbn [mbind outcome_bind] in Hb. destruct (CreateBloom (r :: receipts)) as [bl| |]; [|done|done]. cbn in Hb.
    injection Hb as <-.
    destruct txs as [|t txs], stks as [|s stks]; try done; destruct h; cbn; by split_and!.
Qed.
End block.

(** ** A toy instance of the parameters *)

(** A hash of 32-byte values; transactions are integers. *)
Definition toy_keccak (b : list Z) : Z := foldl (fun acc x => (acc * 257 + x + 1) mod 256 ^ 32) 7 b.
#[export] Instance toy_hashes : Hashes := {|
  Keccak256Hash := toy_keccak;
  trie_Hash := fun l => match l with [] => toy_keccak [128] | _ => toy_keccak (concat (map (fun kv => kv.1 ++ kv.2) l)) end;
  rlp_uint := fun n => [n];
  cx_rlp := fun c => [c.(cxTxHash); c.(cxFrom); default (-1) c.(cxTo); c.(cxShardID); c.(cxToShardID); c.(cxAmount)];
  cxp_rlp := fun c => c.(pCommitSig);
  header_Hash := fun h => toy_keccak [Number h; Epoch h; OutgoingReceiptHash h; IncomingReceiptHash h]
|}.
#[export] Instance toy_txs : TxLib := {|
  Transaction := Z; StakingTransaction := Z; tx_rlp := fun t => [t]; stk_rlp := fun t => [t];
  receipt_rlp := fun r => [r.(cCumulativeGasUsed)] |}.
