(* ===== verification/CrossShard.v ===== *)
(** * Cross-shard transfers (core/block_validator.go, core/blockchain_impl.go, core/rawdb,
      core/state_processor.go, core/offchain.go, consensus/consensus_block_proposing.go)

    The source shard stores a block's outgoing receipts per destination and
    serves a merkle proof ([CXMerkleProof]); the destination keeps proofs it
    receives in a pending pool ([AddPendingReceipts]), proposes them
    ([proposeReceiptsProof]), verifies those of a block
    ([VerifyIncomingReceipts]), credits their receivers
    ([ApplyIncomingReceipt]) and marks them spent ([WriteCXReceiptsProofSpent]).

    The database is a map from key bytes to value bytes, with the key functions
    of rawdb; the RLP codec of receipts and the engine's header signature check
    are parameters ([CrossLib]). *)
From S2P Require Import Prelude Bls Params Sharding Header CXReceipt Receipt Block.
Local Open Scope Z_scope.

(** ** Database keys *)

Definition cxReceiptPrefix : list Z := string_bytes "cxReceipt".
Definition cxReceiptSpentPrefix : list Z := string_bytes "cxReceiptSpent".
Definition encodeBlockNumber (number : Z) : list Z := be_bytes 8 number.
Definition cxReceiptKey (shardID number hash : Z) : list Z :=
  ((cxReceiptPrefix ++ shard_bytes shardID) ++ encodeBlockNumber number) ++ hash_bytes hash.
Definition cxReceiptSpentKey (shardID number : Z) : list Z :=
  (cxReceiptSpentPrefix ++ shard_bytes shardID) ++ encodeBlockNumber number.

Notation DB := (gmap (list Z) (list Z)).

Definition SpentByte : Z := 0.
Definition NAByte : Z := 2.
Definition MsgNoShardStateFromDB : string := "failed to read shard state from DB".
Definition errDoubleSpent : string := "[verifyIncomingReceipts] Double Spent".
Definition ErrUnknownAncestor : string := "unknown ancestor".
Definition IncomingReceiptsLimit : Z := 6000.
Definition maxCrossTxnSize : Z := 4096.

(** [strings.Contains]. *)
Definition strings_Contains (s sub : string) : bool :=
  match Stdlib.Strings.String.index 0 sub s with Some _ => true | None => false end.

Class CrossLib := {
  cxs_Encode : CXReceipts -> list Z;
  cxs_Decode : list Z -> outcome CXReceipts;
  VerifyHeaderSignature : Header -> list Z -> list Z -> outcome unit
}.
(** RLP of a receipt list is never the empty string, and decodes back. *)
Class CrossLibLaws (C : CrossLib) : Prop := {
  cxs_nonempty cs : cxs_Encode cs <> [];
  cxs_roundtrip cs : cxs_Decode (cxs_Encode cs) = Ok cs
}.

Section cross.
Context {H : Hashes} {T : TxLib} {C : CrossLib}.

(** ** rawdb *)

Definition ReadCXReceipts (db : DB) (shardID number hash : Z) : outcome CXReceipts :=
  match db !! cxReceiptKey shardID number hash with
  | None => Err "not found"
  | Some [] => Ok []
  | Some data => cxs_Decode data
  end.
Definition WriteCXReceipts (db : DB) (shardID number hash : Z) (receipts : CXReceipts) : DB :=
  <[cxReceiptKey shardID number hash := cxs_Encode receipts]> db.
Definition ReadCXReceiptsProofSpent (db : DB) (shardID number : Z) : outcome Z :=
  match db !! cxReceiptSpentKey shardID number with
  | None | Some [] => Err "[ReadCXReceiptsProofSpent] Cannot find the key"
  | Some (b :: _) => Ok b
  end.
Definition rawdb_WriteCXReceiptsProofSpent (db : DB) (cxp : CXReceiptsProof) : outcome DB :=
  match cxp.(pMerkleProof) with
  | None => Panic nil_deref
  | Some mp => Ok (<[cxReceiptSpentKey mp.(mpShardID) (Big.Uint64 mp.(mpBlockNum)) := [SpentByte]]> db)
  end.

(** ** blockchain_impl.go *)

Definition WriteCXReceiptsProofSpent (db : DB) (cxps : CXReceiptsProofs) : outcome DB :=
  foldM rawdb_WriteCXReceiptsProofSpent cxps db.

Definition IsSpent (db : DB) (cxp : CXReceiptsProof) : outcome bool :=
  match cxp.(pMerkleProof) with
  | None => Panic nil_deref
  | Some mp =>
      let by_ := match ReadCXReceiptsProofSpent db mp.(mpShardID) (Big.Uint64 mp.(mpBlockNum)) with
                 | Ok b => b | _ => NAByte end in
      Ok (by_ =? SpentByte)
  end.

(** One shard's turn in [CXMerkleProof]: nothing is added on an error. *)
Definition proof_entry (db : DB) (block : Header) (i : Z) : option (Z * Z) :=
  match ReadCXReceipts db i (NumberU64 block) (header_Hash block) with
  | Ok (c :: cs) => Some (i, DeriveSha (c :: cs))
  | _ => None
  end.
Definition CXMerkleProof (db : DB) (shardNum : Z) (block : Header) : option CXReceipt.CXMerkleProof :=
  let entries := omap (proof_entry db block) (seqZ 0 shardNum) in
  match entries with
  | [] => None
  | _ => Some {| mpBlockNum := Number block; mpBlockHash := header_Hash block; mpShardID := ShardID block;
                 mpCXReceiptHash := OutgoingReceiptHash block;
                 mpShardIDs := map fst entries; mpCXShardHashes := map snd entries |}
  end.

(** offchain.go: what committing a block does to the cross-shard tables. *)
Definition CommitCXReceipts (db : DB) (hasCrossTxFields : bool) (shardNum : Z) (block : Block) (cxReceipts : CXReceipts)
    : outcome DB :=
  if hasCrossTxFields then
    let db := foldl (fun db i =>
        if i =? Block_ShardID block then db
        else WriteCXReceipts db i (Block_NumberU64 block) (Block_Hash block) (GetToShardReceipts cxReceipts i))
      db (seqZ 0 shardNum) in
    WriteCXReceiptsProofSpent db block.(incomingReceipts)
  else Ok db.

(** ** block_validator.go *)

(** The loop over the merkle proof: the bytes written, and the last hash found
    for the destination. *)
Record ProofScan := mkScan { byteBuffer : list Z; shardRoot : Z; foundMatchingShardID : bool }.
Definition scan_step (mp : CXReceipt.CXMerkleProof) (toShardID : Z) (s : ProofScan) (j : Z) : outcome ProofScan :=
  let! id := idx mp.(mpShardIDs) j in
  let! h := idx mp.(mpCXShardHashes) j in
  let buf := s.(byteBuffer) ++ shard_bytes id ++ hash_bytes h in
  Ok (if id =? toShardID then mkScan buf h true else mkScan buf s.(shardRoot) s.(foundMatchingShardID)).
Definition scan_proof (mp : CXReceipt.CXMerkleProof) (toShardID : Z) : outcome ProofScan :=
  foldM (scan_step mp toShardID) (range mp.(mpShardIDs)) (mkScan [] 0 false).

Definition ValidateCXReceiptsProof (config : ChainConfig) (cxp : CXReceiptsProof) : outcome unit :=
  match cxp.(pHeader) with
  | None => Panic nil_deref
  | Some hdr =>
      let! (ok : bool) := AcceptsCrossTx config (Some (Epoch hdr)) in
      if negb ok then Err "[ValidateCXReceiptsProof] cross shard receipt received before cx fork"
      else
        let! toShardID := GetToShardID (Some cxp) in
        match cxp.(pMerkleProof) with
        | None => Panic nil_deref
        | Some merkleProof =>
            let! s := scan_proof merkleProof toShardID in
            if negb s.(foundMatchingShardID)
            then Err "[ValidateCXReceiptsProof] Didn't find matching toShardID (no receipts for my shard)"
            else if negb (DeriveSha (receipts_of cxp) =? s.(shardRoot))
            then Err "[ValidateCXReceiptsProof] Trie Root of ReadCXReceipts Not Match"
            else
              let outgoing := match s.(byteBuffer) with [] => EmptyRootHash | b => Keccak256Hash b end in
              if negb (outgoing =? merkleProof.(mpCXReceiptHash))
              then Err "[ValidateCXReceiptsProof] IncomingReceiptRootHash from source shard not match"
              else if negb (header_Hash hdr =? merkleProof.(mpBlockHash))
                      || negb (OutgoingReceiptHash hdr =? merkleProof.(mpCXReceiptHash))
              then Err "[ValidateCXReceiptsProof] BlockHash or OutgoingReceiptHash not match in block Header"
              else VerifyHeaderSignature hdr (copy_into 96 cxp.(pCommitSig)) cxp.(pCommitBitmap)
        end
  end.

(** blockchain_impl.go: [VerifyIncomingReceipts]; [m] is the set of block hashes
    seen so far. *)
Fixpoint VerifyIncoming_loop (config : ChainConfig) (db : DB) (shard : Z) (m : gset Z) (cxps : CXReceiptsProofs)
    : outcome unit :=
  match cxps with
  | [] => Ok tt
  | cxp :: rest =>
      let! (spent : bool) := IsSpent db cxp in
      if spent then Err errDoubleSpent
      else match cxp.(pMerkleProof) with
      | None => Panic nil_deref
      | Some mp =>
          let hash := mp.(mpBlockHash) in
          if bool_decide (hash ∈ m) then Err errDoubleSpent
          else if existsb (fun item => negb (item.(cxToShardID) =? shard)) (receipts_of cxp)
          then Err "[verifyIncomingReceipts] Invalid ToShardID"
          else
            let! _ := ValidateCXReceiptsProof config cxp in
            VerifyIncoming_loop config db shard ({[hash]} ∪ m) rest
      end
  end.
Definition VerifyIncomingReceipts (config : ChainConfig) (db : DB) (shard : Z) (block : Block) : outcome unit :=
  let cxps := block.(incomingReceipts) in
  let! _ := VerifyIncoming_loop config db shard ∅ cxps in
  let incomingReceiptHash := match cxps with [] => EmptyRootHash | _ => DeriveSha cxps end in
  if negb (incomingReceiptHash =? IncomingReceiptHash (Block_Header block))
  then Err "[verifyIncomingReceipts] Invalid IncomingReceiptHash in block header" else Ok tt.

(** ** state_processor.go: crediting the receivers *)

Notation Balances := (gmap Address Z).
Definition balance (st : Balances) (a : Address) : Z := default 0 (st !! a).
(** [Exist]/[CreateAccount]/[AddBalance], seen through the balances. *)
Definition AddBalance (st : Balances) (a : Address) (amount : Z) : Balances := <[a := balance st a + amount]> st.
Definition ApplyIncomingReceipt (st : Balances) (cxp : option CXReceiptsProof) : outcome Balances :=
  match cxp with
  | None => Ok st
  | Some cxp =>
      foldM (fun st cx => match cx.(cxTo) with
                          | None => Err "ApplyIncomingReceipts: Invalid incomingReceipt!"
                          | Some to => Ok (AddBalance st to cx.(cxAmount))
                          end) (receipts_of cxp) st
  end.

(** ** consensus_block_proposing.go: the pending pool *)

Notation Pending := (gmap (Z * Z) CXReceiptsProof).   (* keyed by GetPendingCXKey *)
Definition GetPendingCXKey (shardID blockNum : Z) : Z * Z := (shardID, blockNum).

Definition AddPendingReceipts (config : ChainConfig) (shard : Z) (pending : Pending) (receipts : option CXReceiptsProof)
    : outcome Pending :=
  match receipts with
  | None => Ok pending
  | Some cxp =>
      if ContainsEmptyField (Some cxp) then Ok pending
      else match cxp.(pHeader) with
      | None => Panic nil_deref
      | Some hdr =>
          let blockNum := NumberU64 hdr in
          let shardID := ShardID hdr in
          let add :=
            if shard =? shardID then Ok pending
            else
              let! (meaningful : bool) := (if blockNum =? 0 then Ok false else AcceptsCrossTx config (Some (Epoch hdr))) in
              if negb meaningful then Ok pending
              else
                let key := GetPendingCXKey shardID blockNum in
                if maxCrossTxnSize <=? Z.of_nat (size pending) then Ok pending
                else match pending !! key with
                     | Some _ => Ok pending
                     | None => Ok (<[key := cxp]> pending)
                     end in
          match ValidateCXReceiptsProof config cxp with
          | Panic w => Panic w
          | Err e => if negb (strings_Contains e MsgNoShardStateFromDB) then Ok pending else add
          | Ok _ => add
          end
      end
  end.

Record Proposing := mkProposing {
  numProposed : Z; seen : gset Z; validReceipts : CXReceiptsProofs; stillPending : CXReceiptsProofs
}.
Definition propose_step (config : ChainConfig) (db : DB) (shard : Z) (p : Proposing) (cxp : CXReceiptsProof)
    : outcome Proposing :=
  if IncomingReceiptsLimit <? p.(numProposed)
  then Ok (mkProposing p.(numProposed) p.(seen) p.(validReceipts) (p.(stillPending) ++ [cxp]))
  else
    let! (spent : bool) := IsSpent db cxp in
    if spent then Ok p
    else match cxp.(pMerkleProof) with
    | None => Panic nil_deref
    | Some mp =>
        let hash := mp.(mpBlockHash) in
        if bool_decide (hash ∈ p.(seen)) then Ok p
        else
          let m := {[hash]} ∪ p.(seen) in
          if existsb (fun item => negb (item.(cxToShardID) =? shard)) (receipts_of cxp)
          then Ok (mkProposing p.(numProposed) m p.(validReceipts) p.(stillPending))
          else match ValidateCXReceiptsProof config cxp with
          | Panic w => Panic w
          | Err e => Ok (mkProposing p.(numProposed) m p.(validReceipts)
                      (if strings_Contains e MsgNoShardStateFromDB then p.(stillPending) ++ [cxp] else p.(stillPending)))
          | Ok _ => Ok (mkProposing (p.(numProposed) + Z.of_nat (length (receipts_of cxp))) m
                      (p.(validReceipts) ++ [cxp]) p.(stillPending))
          end
    end.

(** The pool is walked in the order the map gives, [order] (the sorted list the
    code builds is not used); what stays pending is put back under the key of
    its header. *)
Definition proposeReceiptsProof (config : ChainConfig) (db : DB) (shard : Z) (curEpoch : option Z) (order : CXReceiptsProofs)
    (pending : Pending) : outcome (CXReceiptsProofs * Pending) :=
  if negb (HasCrossTxFields config curEpoch) then Ok ([], pending)
  else
    let! p := foldM (propose_step config db shard) order (mkProposing 0 ∅ [] []) in
    let! pending := foldM (fun pending v => match v.(pHeader) with
        | None => Panic nil_deref
        | Some hdr => Ok (<[GetPendingCXKey (ShardID hdr) (NumberU64 hdr) := v]> pending)
        end) p.(stillPending) ∅ in
    Ok (p.(validReceipts), pending).
End cross.
