(* ===== verification/CrossSafety.v ===== *)
(** * Safety of cross-shard transfers

    What the definitions of CrossShard.v guarantee: the proof a source shard
    serves is accepted ([CXMerkleProof_accepted]); an accepted proof shows the
    receipts that the header's root commits to, or exhibits a hash collision
    ([ValidateCXReceiptsProof_sound]); a leader's choice of proofs passes the
    validators' check ([propose_verified]); and a spent position stays refused
    ([spent_refused]).  [position_not_checked] and [replay_accepted] show what
    the last one is worth: the position is read from a part of the proof that
    nothing ties to the header. *)
From S2P Require Import Prelude Bls Params Sharding Header CXReceipt Receipt Block CrossShard.
Local Open Scope Z_scope.

(** Hashes are 32 bytes, and the empty trie's root is the hash of the RLP of
    the empty string. *)
Class HashLaws (H : Hashes) : Prop := {
  keccak_range b : 0 <= Keccak256Hash b < 256 ^ 32;
  trie_range l : 0 <= trie_Hash l < 256 ^ 32;
  trie_empty : trie_Hash [] = Keccak256Hash [128]
}.


Section safety.
Context {H : Hashes} {T : TxLib} {C : CrossLib}.

(** ** The scan of a merkle proof *)

Definition entry_bytes (e : Z * Z) : list Z := shard_bytes e.1 ++ hash_bytes e.2.
Definition scan_entry (to : Z) (s : ProofScan) (e : Z * Z) : ProofScan :=
  let buf := s.(byteBuffer) ++ shard_bytes e.1 ++ hash_bytes e.2 in
  if e.1 =? to then mkScan buf e.2 true else mkScan buf s.(shardRoot) s.(foundMatchingShardID).
Definition scan_list (to : Z) (es : list (Z * Z)) : ProofScan := foldl (scan_entry to) (mkScan [] 0 false) es.

Lemma scan_proof_eq mp to : (length mp.(mpShardIDs) <= length mp.(mpCXShardHashes))%nat ->
  scan_proof mp to = Ok (scan_list to (zip mp.(mpShardIDs) mp.(mpCXShardHashes))).
Proof.
  intros Hlen. unfold scan_proof. set (es := zip _ _).
  assert (length es = length mp.(mpShardIDs)) as Hes by (unfold es; rewrite length_zip; lia).
  destruct (foldM_range (fun i s => s = scan_list to (take i es)) (scan_step mp to) mp.(mpShardIDs) (mkScan [] 0 false))
    as (r & -> & ->).
  - done.
  - intros i s Hi ->.
    destruct (lookup_lt_is_Some_2 mp.(mpShardIDs) i Hi) as [id Eid].
    destruct (lookup_lt_is_Some_2 mp.(mpCXShardHashes) i ltac:(lia)) as [h Eh].
    unfold scan_step. rewrite (idx_nat _ _ _ Eid), (idx_nat _ _ _ Eh). cbn [mbind outcome_bind].
    eexists. split; [done|].
    rewrite (take_S_r es i (id, h)).
    + unfold scan_list. rewrite foldl_app. cbn [foldl]. unfold scan_entry. cbn [fst snd]. by destruct (id =? to).
    + unfold es. rewrite lookup_zip_with, Eid, Eh. done.
  - rewrite <- Hes, take_ge by done. done.
Qed.

(** A proof with more shards than hashes makes the node index out of range. *)
Lemma scan_proof_panics mp to : (length mp.(mpCXShardHashes) < length mp.(mpShardIDs))%nat ->
  exists w, scan_proof mp to = Panic w.
Proof.
  intros Hlen. unfold scan_proof, range.
  assert (forall (n : nat) (k : nat) s, (n + k = length mp.(mpShardIDs))%nat -> (n <= length mp.(mpCXShardHashes))%nat ->
    exists w, foldM (scan_step mp to) (seqZ (Z.of_nat n) (Z.of_nat k)) s = Panic w) as Hg.
  { intros n k. revert n. induction k as [|k IH]; intros n s Hnk Hn; [lia|].
    rewrite seqZ_cons by lia. cbn [foldM]. replace (Z.pred (Z.of_nat (S k))) with (Z.of_nat k) by lia.
    replace (Z.succ (Z.of_nat n)) with (Z.of_nat (S n)) by lia.
    destruct (lookup_lt_is_Some_2 mp.(mpShardIDs) n ltac:(lia)) as [id Eid].
    unfold scan_step at 2. rewrite (idx_nat _ _ _ Eid). cbn [mbind outcome_bind].
    destruct (decide (n < length mp.(mpCXShardHashes))%nat) as [Hlt|Hge].
    - destruct (lookup_lt_is_Some_2 mp.(mpCXShardHashes) n Hlt) as [h Eh].
      rewrite (idx_nat _ _ _ Eh). cbn [mbind outcome_bind]. apply IH; lia.
    - unfold idx at 1. rewrite (proj2 (Z.ltb_ge _ _)) by lia. rewrite Nat2Z.id, (proj2 (lookup_ge_None _ _)) by lia.
      by eexists. }
  apply (Hg 0%nat (length mp.(mpShardIDs))); lia.
Qed.

Lemma scan_list_spec to es :
  byteBuffer (scan_list to es) = concat (map entry_bytes es) /\
  (foundMatchingShardID (scan_list to es) = true <-> to ∈ map fst es) /\
  (forall h, (to, h) ∈ es -> NoDup (map fst es) -> shardRoot (scan_list to es) = h).
Proof.
  induction es as [|e es IH] using rev_ind.
  - cbn. split_and!; [done|split; [done|intros Hin; by apply elem_of_nil in Hin]|intros h Hin; by apply elem_of_nil in Hin].
  - destruct IH as (Hb & Hf & Hr). unfold scan_list in *. rewrite foldl_app. cbn [foldl].
    remember (foldl (scan_entry to) (mkScan [] 0 false) es) as s eqn:Es. clear Es.
    rewrite !map_app, concat_app. cbn [map concat]. rewrite app_nil_r. unfold scan_entry.
    split_and!.
    + destruct (e.1 =? to); cbn [byteBuffer]; by rewrite Hb.
    + rewrite elem_of_app, list_elem_of_singleton.
      destruct (Z.eqb_spec e.1 to) as [->|Hne]; cbn [foundMatchingShardID]; [tauto|]. rewrite Hf. intuition congruence.
    + intros h Hin Hnd. rewrite NoDup_app in Hnd. destruct Hnd as (Hnd & Hdis & _).
      apply elem_of_app in Hin as [Hin|Hin%list_elem_of_singleton].
      * destruct (Z.eqb_spec e.1 to) as [E|]; [|cbn [shardRoot]; by apply Hr].
        exfalso. apply (Hdis to); [apply (list_elem_of_fmap_2' fst es (to, h)); done|]. rewrite E. by left.
      * subst e. cbn [fst snd]. by rewrite Z.eqb_refl.
Qed.

(** ** The entries that a block's root commits to *)

Definition root_entry (cs : CXReceipts) (i : Z) : option (Z * Z) :=
  match GetToShardReceipts cs i with [] => None | rs => Some (i, DeriveSha rs) end.
Definition root_entries (cs : CXReceipts) (l : list Z) : list (Z * Z) := omap (root_entry cs) l.

Lemma concat_shard_entry cs l : concat (map (shard_entry cs) l) = concat (map entry_bytes (root_entries cs l)).
Proof.
  induction l as [|i l IH]; [done|]. cbn [map concat root_entries omap list_omap].
  unfold root_entry at 1, shard_entry at 1. destruct (GetToShardReceipts cs i); [done|].
  cbn [map concat]. by rewrite IH.
Qed.

Lemma elem_of_root_entries cs l s h : (s, h) ∈ root_entries cs l <->
  s ∈ l /\ GetToShardReceipts cs s <> [] /\ h = DeriveSha (GetToShardReceipts cs s).
Proof.
  unfold root_entries. rewrite list_elem_of_omap. unfold root_entry. split.
  - intros (i & Hi & Hr). destruct (GetToShardReceipts cs i) eqn:E; [done|]. injection Hr as <- <-.
    by rewrite E.
  - intros (Hs & Hne & ->). exists s. split; [done|]. by destruct (GetToShardReceipts cs s).
Qed.

Lemma fst_root_entries cs l : map fst (root_entries cs l) = List.filter (fun i => negb (bool_decide (GetToShardReceipts cs i = []))) l.
Proof.
  induction l as [|i l IH]; [done|]. cbn [root_entries omap list_omap List.filter]. unfold root_entry at 1.
  destruct (GetToShardReceipts cs i); cbn; [done|]. f_equal. apply IH.
Qed.

Lemma NoDup_root_entries cs l : NoDup l -> NoDup (map fst (root_entries cs l)).
Proof. intros Hl. rewrite fst_root_entries. apply NoDup_ListNoDup, List.NoDup_filter, NoDup_ListNoDup, Hl. Qed.

(** Shards beyond the largest destination add nothing. *)
Lemma root_entries_extend cs n : MaxToShardID cs + 1 <= n ->
  root_entries cs (seqZ 0 n) = root_entries cs (shards_upto (MaxToShardID cs)).
Proof.
  intros Hn. unfold shards_upto, root_entries. destruct (MaxToShardID_bound cs) as [Hm Hall].
  replace n with ((MaxToShardID cs + 1) + (n - MaxToShardID cs - 1)) by lia.
  rewrite seqZ_app, omap_app by lia.
  assert (omap (root_entry cs) (seqZ (0 + (MaxToShardID cs + 1)) (n - MaxToShardID cs - 1)) = []) as ->;
    [|by rewrite app_nil_r].
  apply elem_of_nil_inv. intros [s h] Hin. apply (elem_of_root_entries cs _ s h) in Hin as (Hs & Hne & _).
  apply elem_of_seqZ in Hs. destruct (GetToShardReceipts cs s) as [|cx rs] eqn:E; [done|].
  assert (cx ∈ GetToShardReceipts cs s) as (Hcx & Hto)%GetToShardReceipts_spec by (rewrite E; by left).
  rewrite Forall_forall in Hall. pose proof (Hall cx Hcx). lia.
Qed.

(** [ComputeMerkleRoot], said with entries. *)
Lemma ComputeMerkleRoot_entries cs n : MaxToShardID cs + 1 <= n ->
  ComputeMerkleRoot cs =
    match concat (map entry_bytes (root_entries cs (seqZ 0 n))) with [] => EmptyRootHash | b => Keccak256Hash b end.
Proof. intros Hn. unfold ComputeMerkleRoot. by rewrite concat_shard_entry, (root_entries_extend cs n). Qed.

(** ** Keys *)

Lemma key_length s n h : length (cxReceiptKey s n h) = 53%nat /\ length (cxReceiptSpentKey s n) = 26%nat.
Proof.
  unfold cxReceiptKey, cxReceiptSpentKey, shard_bytes, encodeBlockNumber, hash_bytes, HashLength.
  rewrite !length_app, !be_bytes_length. done.
Qed.

Lemma cxReceiptKey_inj s1 s2 n h : 0 <= s1 < 2 ^ 32 -> 0 <= s2 < 2 ^ 32 ->
  cxReceiptKey s1 n h = cxReceiptKey s2 n h -> s1 = s2.
Proof.
  unfold cxReceiptKey. intros H1 H2 E. apply app_inv_tail, app_inv_tail, app_inv_head in E.
  by apply (be_bytes_inj 4).
Qed.

Lemma cxReceiptSpentKey_inj s1 s2 n1 n2 : 0 <= s1 < 2 ^ 32 -> 0 <= s2 < 2 ^ 32 -> 0 <= n1 < 2 ^ 64 -> 0 <= n2 < 2 ^ 64 ->
  cxReceiptSpentKey s1 n1 = cxReceiptSpentKey s2 n2 -> s1 = s2 /\ n1 = n2.
Proof.
  unfold cxReceiptSpentKey. rewrite <- !app_assoc. intros H1 H2 H3 H4 E. apply app_inv_head in E.
  apply app_inj_1 in E as [E1 E2]; [|by unfold shard_bytes; rewrite !be_bytes_length].
  split; [by apply (be_bytes_inj 4)|by apply (be_bytes_inj 8)].
Qed.

(** ** What committing a block stores *)

Lemma writes_lookup own num hash cs l db i : 0 <= i < 2 ^ 32 -> (forall j, j ∈ l -> 0 <= j < 2 ^ 32) ->
  foldl (fun db j => if j =? own then db else WriteCXReceipts db j num hash (GetToShardReceipts cs j)) db l
    !! cxReceiptKey i num hash =
  if decide (i ∈ l /\ i <> own) then Some (cxs_Encode (GetToShardReceipts cs i)) else db !! cxReceiptKey i num hash.
Proof.
  intros Hi. revert db. induction l as [|j l IH]; intros db Hl; cbn [foldl].
  - rewrite decide_False; [done|]. intros [Hin _]. by apply elem_of_nil in Hin.
  - rewrite IH by (intros k Hk; apply Hl; by right). specialize (Hl j ltac:(by left)).
    destruct (decide (i ∈ l /\ i <> own)) as [[Hin Hne]|Hn].
    { rewrite decide_True; [done|]. split; [by right|done]. }
    destruct (Z.eqb_spec j own) as [->|Hj].
    + destruct (decide (i ∈ own :: l /\ i <> own)) as [[[->|Hin]%elem_of_cons Hne]|]; [done|tauto|done].
    + unfold WriteCXReceipts. destruct (decide (i = j)) as [->|Hij].
      * rewrite lookup_insert_eq, decide_True; [done|]. split; [by left|done].
      * rewrite lookup_insert_ne by (intros E; by apply cxReceiptKey_inj in E).
        destruct (decide (i ∈ j :: l /\ i <> own)) as [[[->|Hin]%elem_of_cons Hne]|]; [done|tauto|done].
Qed.

(** Marking proofs spent touches spent keys only, and only sets them. *)
Lemma spend_lookup db cxps db' k : WriteCXReceiptsProofSpent db cxps = Ok db' ->
  (length k <> 26%nat -> db' !! k = db !! k) /\
  (db !! k = Some [SpentByte] -> db' !! k = Some [SpentByte]) /\
  (forall cxp mp, cxp ∈ cxps -> cxp.(pMerkleProof) = Some mp ->
     k = cxReceiptSpentKey mp.(mpShardID) (Big.Uint64 mp.(mpBlockNum)) -> db' !! k = Some [SpentByte]).
Proof.
  unfold WriteCXReceiptsProofSpent. revert db. induction cxps as [|cxp cxps IH]; intros db Hdb; cbn [foldM] in Hdb.
  - outcome_inv. split_and!; [done|done|]. intros ? ? Hin. by apply elem_of_nil in Hin.
  - apply bind_Ok in Hdb as (db1 & Hw & Hdb). destruct (IH db1 Hdb) as (H1 & H2 & H3).
    unfold rawdb_WriteCXReceiptsProofSpent in Hw. destruct (pMerkleProof cxp) as [mp|] eqn:Emp; [|done].
    apply Ok_inj in Hw as <-. set (k0 := cxReceiptSpentKey _ _) in *. split_and!.
    + intros Hk. rewrite H1 by done. apply lookup_insert_ne. intros <-. apply Hk, (proj2 (key_length _ _ 0)).
    + intros Hk. apply H2. destruct (decide (k0 = k)) as [<-|]; [apply lookup_insert_eq|by rewrite lookup_insert_ne].
    + intros cxp' mp' [->|Hin]%elem_of_cons Hmp' ->; [|by eapply H3].
      rewrite Emp in Hmp'. injection Hmp' as <-. apply H2, lookup_insert_eq.
Qed.

Lemma Read_after_commit db shardNum block cs db' i {CL : CrossLibLaws C} :
  CommitCXReceipts db true shardNum block cs = Ok db' -> shardNum <= 2 ^ 32 -> 0 <= i < shardNum ->
  (forall j, db !! cxReceiptKey j (Block_NumberU64 block) (Block_Hash block) = None) ->
  ReadCXReceipts db' i (Block_NumberU64 block) (Block_Hash block) =
    if i =? Block_ShardID block then Err "not found" else Ok (GetToShardReceipts cs i).
Proof.
  intros Hc Hn Hi Hfresh. unfold CommitCXReceipts in Hc.
  destruct (spend_lookup _ _ _ (cxReceiptKey i (Block_NumberU64 block) (Block_Hash block)) Hc) as (Hk & _ & _).
  unfold ReadCXReceipts. rewrite Hk by (rewrite (proj1 (key_length _ _ _)); lia). clear Hk.
  rewrite writes_lookup; [|lia|intros j Hj%elem_of_seqZ; lia].
  destruct (Z.eqb_spec i (Block_ShardID block)) as [E|Hne].
  - rewrite decide_False by tauto. by rewrite Hfresh.
  - rewrite decide_True by (split; [apply elem_of_seqZ; lia|done]).
    pose proof (cxs_nonempty (GetToShardReceipts cs i)) as Hne'. pose proof (cxs_roundtrip (GetToShardReceipts cs i)) as Hrt.
    by destruct (cxs_Encode _).
Qed.

(** ** The proof that is served is accepted *)

Lemma served_entries db' shardNum block cs : 
  (forall i, 0 <= i < shardNum -> ReadCXReceipts db' i (Block_NumberU64 block) (Block_Hash block) =
     if i =? Block_ShardID block then Err "not found" else Ok (GetToShardReceipts cs i)) ->
  GetToShardReceipts cs (Block_ShardID block) = [] ->
  omap (proof_entry db' block.(header)) (seqZ 0 shardNum) = root_entries cs (seqZ 0 shardNum).
Proof.
  intros Hread Hown. unfold root_entries.
  assert (forall l, (forall i, i ∈ l -> 0 <= i < shardNum) ->
    omap (M := list) (proof_entry db' block.(header)) l = omap (M := list) (root_entry cs) l) as Hg.
  { induction l as [|i l IH]; intros Hl; [done|]. cbn [omap list_omap].
    rewrite IH by (intros j Hj; apply Hl; by right). f_equal.
    unfold proof_entry, root_entry. change (NumberU64 (header block)) with (Block_NumberU64 block).
    change (header_Hash (header block)) with (Block_Hash block). rewrite (Hread i (Hl i ltac:(by left))).
    destruct (Z.eqb_spec i (Block_ShardID block)) as [->|]; [by rewrite Hown|]. by destruct (GetToShardReceipts cs i). }
  apply Hg. intros i Hi%elem_of_seqZ. lia.
Qed.

(** C27: The cross-shard proof the source shard serves is accepted at the
    destination.  Once a block with outgoing receipts [cs] (all to other shards
    of the network, the header committing to their merkle root) is stored, the
    node serves for each destination that gets a receipt a proof and the
    receipts, and [ValidateCXReceiptsProof] accepts them, provided the fork is
    active and the block's commit signature verifies. *)
Theorem CXMerkleProof_accepted {CL : CrossLibLaws C} config db shardNum block cs db' to sig bitmap :
  CommitCXReceipts db true shardNum block cs = Ok db' ->
  (forall j, db !! cxReceiptKey j (Block_NumberU64 block) (Block_Hash block) = None) ->
  shardNum <= 2 ^ 32 ->
  OutgoingReceiptHash block.(header) = ComputeMerkleRoot cs ->
  (forall cx, cx ∈ cs -> 0 <= cx.(cxToShardID) < shardNum /\ cx.(cxToShardID) <> Block_ShardID block) ->
  GetToShardReceipts cs to <> [] ->
  AcceptsCrossTx config (Some (Block_Epoch block)) = Ok true ->
  VerifyHeaderSignature block.(header) (copy_into 96 sig) bitmap = Ok tt ->
  exists mp receipts,
    CXMerkleProof db' shardNum block.(header) = Some mp /\
    ReadCXReceipts db' to (Block_NumberU64 block) (Block_Hash block) = Ok receipts /\
    receipts = GetToShardReceipts cs to /\
    ValidateCXReceiptsProof config {| pReceipts := Some receipts; pMerkleProof := Some mp;
      pHeader := Some block.(header); pCommitSig := sig; pCommitBitmap := bitmap |} = Ok tt.
Proof.
  intros Hc Hfresh Hn Hroot Hcs Hto Hfork Hsig.
  pose proof (fun i Hi => Read_after_commit db shardNum block cs db' i Hc Hn Hi Hfresh) as Hread.
  destruct (GetToShardReceipts cs to) as [|cx rs] eqn:Ers; [done|]. clear Hto.
  assert (cx ∈ GetToShardReceipts cs to) as (Hcx & Hcxto)%GetToShardReceipts_spec by (rewrite Ers; by left).
  destruct (Hcs cx Hcx) as [Hrange Hother]. rewrite Hcxto in Hrange, Hother.
  assert (GetToShardReceipts cs (Block_ShardID block) = []) as Hown.
  { apply elem_of_nil_inv. intros c (Hin & Hs)%GetToShardReceipts_spec. by apply (Hcs c Hin). }
  pose proof (served_entries db' shardNum block cs Hread Hown) as Hentries.
  set (es := root_entries cs (seqZ 0 shardNum)) in *.
  assert ((to, DeriveSha (cx :: rs)) ∈ es) as Hin.
  { rewrite <- Ers. apply elem_of_root_entries. split_and!; [apply elem_of_seqZ; lia|by rewrite Ers|done]. }
  assert (MaxToShardID cs + 1 <= shardNum) as Hmax.
  { unfold MaxToShardID. assert (forall m, m < shardNum -> foldl (fun maxShardID c =>
      if maxShardID <? c.(cxToShardID) then c.(cxToShardID) else maxShardID) m cs < shardNum) as Hg; [|specialize (Hg 0); lia].
    clear - Hcs. induction cs as [|c cs IH]; intros m Hm; [done|]. cbn [foldl].
    apply IH; [intros; apply Hcs; by right|]. pose proof (Hcs c ltac:(by left)). by case_match; lia. }
  unfold CXMerkleProof. rewrite Hentries. destruct es as [|e0 es'] eqn:Ees; [by apply elem_of_nil in Hin|].
  rewrite <- Ees in *. eexists _, _. split_and!; [done| |done|].
  { rewrite (Hread to Hrange). by rewrite (proj2 (Z.eqb_neq _ _) Hother), Ers. }
  unfold ValidateCXReceiptsProof. cbn [pHeader pMerkleProof]. unfold Block_Epoch in Hfork. rewrite Hfork. cbn [mbind outcome_bind negb].
  rewrite (proj2 (GetToShardID_Ok _ to)).
  2:{ unfold receipts_of. cbn [pReceipts default]. unfold id. split; [by rewrite Ers|]. apply Forall_forall. by intros c (_ & ?)%GetToShardReceipts_spec. }
  cbn [mbind outcome_bind]. rewrite scan_proof_eq by (cbn; rewrite !length_map; done). cbn [mbind outcome_bind].
  cbn [mpShardIDs mpCXShardHashes].
  assert (zip (map fst es) (map snd es) = es) as -> by (clear; induction es as [|[] ? IH]; cbn; congruence).
  destruct (scan_list_spec to es) as (Hb & Hf & Hr).
  rewrite (proj2 Hf) by (by apply (list_elem_of_fmap_2' fst es (to, DeriveSha (cx :: rs)))). cbn [negb].
  rewrite (Hr _ Hin) by (subst es; apply NoDup_root_entries, NoDup_seqZ).
  unfold receipts_of. cbn [pReceipts default]. unfold id. rewrite Ers, Z.eqb_refl. cbn [negb].
  rewrite Hb, Hroot, (ComputeMerkleRoot_entries cs shardNum Hmax). fold es.
  cbn [mpCXReceiptHash mpBlockHash]. by rewrite !Z.eqb_refl.
Qed.

(** ** An accepted proof is right *)

Definition entry_ok (e : Z * Z) : Prop := 0 <= e.1 < 2 ^ 32 /\ 0 <= e.2 < 256 ^ 32.

Lemma entry_bytes_length e : length (entry_bytes e) = 36%nat.
Proof. unfold entry_bytes, shard_bytes, hash_bytes. by rewrite length_app, !be_bytes_length. Qed.

Lemma entry_bytes_inj e e' : entry_ok e -> entry_ok e' -> entry_bytes e = entry_bytes e' -> e = e'.
Proof.
  intros [H1 H2] [H3 H4] E. apply app_inj_1 in E as [E1 E2]; [|by unfold shard_bytes; rewrite !be_bytes_length].
  apply (be_bytes_inj 4) in E1; [|done|done]. apply (be_bytes_inj 32) in E2; [|done|done].
  destruct e, e'. cbn in *. by subst.
Qed.

(** The bytes under a root determine the entries. *)
Lemma entries_inj es es' : Forall entry_ok es -> Forall entry_ok es' ->
  concat (map entry_bytes es) = concat (map entry_bytes es') -> es = es'.
Proof.
  intros Hes. revert es'. induction Hes as [|e es He Hes IH]; intros es' Hes' E; destruct Hes' as [|e' es' He' Hes'].
  - done.
  - apply (f_equal length) in E. cbn [map concat] in E. rewrite length_app, entry_bytes_length in E. cbn in E. lia.
  - apply (f_equal length) in E. cbn [map concat] in E. rewrite length_app, entry_bytes_length in E. cbn in E. lia.
  - cbn [map concat] in E. apply app_inj_1 in E as [E1 E2]; [|by rewrite !entry_bytes_length].
    apply entry_bytes_inj in E1 as ->; [|done|done]. f_equal. by apply IH.
Qed.

(** A merkle proof as the wire format types it: 4-byte shards, 32-byte hashes. *)
Definition proof_typed (mp : CXReceipt.CXMerkleProof) : Prop :=
  Forall (fun s => 0 <= s < 2 ^ 32) mp.(mpShardIDs) /\ Forall (fun h => 0 <= h < 256 ^ 32) mp.(mpCXShardHashes).

Lemma proof_entries_ok mp : proof_typed mp -> Forall entry_ok (zip mp.(mpShardIDs) mp.(mpCXShardHashes)).
Proof.
  intros [Hs Hh]. rewrite Forall_forall in Hs, Hh. apply Forall_forall. intros [s h] Hin.
  split; [apply Hs; by eapply elem_of_zip_l|apply Hh; by eapply elem_of_zip_r].
Qed.

Lemma root_entries_ok {HL : HashLaws H} cs l : (forall i, i ∈ l -> 0 <= i < 2 ^ 32) -> Forall entry_ok (root_entries cs l).
Proof.
  intros Hl. apply Forall_forall. intros [s h] (Hs & _ & ->)%elem_of_root_entries.
  split; [by apply Hl|]. apply trie_range.
Qed.

(** What acceptance says before any reasoning about hashes. *)
Lemma ValidateCXReceiptsProof_Ok config cxp : ValidateCXReceiptsProof config cxp = Ok tt ->
  exists hdr mp to es, cxp.(pHeader) = Some hdr /\ cxp.(pMerkleProof) = Some mp /\
    AcceptsCrossTx config (Some (Epoch hdr)) = Ok true /\
    receipts_of cxp <> [] /\ Forall (fun cx => cx.(cxToShardID) = to) (receipts_of cxp) /\
    es = zip mp.(mpShardIDs) mp.(mpCXShardHashes) /\ to ∈ map fst es /\
    shardRoot (scan_list to es) = DeriveSha (receipts_of cxp) /\
    Keccak256Hash (concat (map entry_bytes es)) = mp.(mpCXReceiptHash) /\
    header_Hash hdr = mp.(mpBlockHash) /\ OutgoingReceiptHash hdr = mp.(mpCXReceiptHash) /\
    VerifyHeaderSignature hdr (copy_into 96 cxp.(pCommitSig)) cxp.(pCommitBitmap) = Ok tt.
Proof.
  unfold ValidateCXReceiptsProof. intros Hv. destruct (pHeader cxp) as [hdr|]; [|done].
  apply bind_Ok in Hv as (ok & Hfork & Hv). destruct ok; [|done]. cbn [negb] in Hv.
  apply bind_Ok in Hv as (to & [Hne Hto]%GetToShardID_Ok & Hv). destruct (pMerkleProof cxp) as [mp|]; [|done].
  apply bind_Ok in Hv as (s & Hs & Hv).
  assert (length mp.(mpShardIDs) <= length mp.(mpCXShardHashes))%nat as Hlen.
  { destruct (decide (length mp.(mpShardIDs) <= length mp.(mpCXShardHashes))%nat) as [|Hlt]; [done|].
    destruct (scan_proof_panics mp to) as [w Ew]; [lia|]. congruence. }
  rewrite (scan_proof_eq mp to Hlen) in Hs. apply Ok_inj in Hs as <-.
  set (es := zip _ _) in *. destruct (scan_list_spec to es) as (Hb & Hf & _).
  destruct (foundMatchingShardID (scan_list to es)) eqn:Efound; [|done]. cbn [negb] in Hv.
  destruct (Z.eqb_spec (DeriveSha (receipts_of cxp)) (shardRoot (scan_list to es))) as [Esha|]; [|done]. cbn [negb] in Hv.
  rewrite Hb in Hv. pose proof (proj1 Hf eq_refl) as Hin.
  destruct (concat (map entry_bytes es)) as [|b0 bs] eqn:Ebuf.
  { exfalso. destruct es as [|e es']; [by apply elem_of_nil in Hin|]. apply (f_equal length) in Ebuf.
    cbn [map concat] in Ebuf. rewrite length_app, entry_bytes_length in Ebuf. cbn in Ebuf. lia. }
  rewrite <- Ebuf in *. destruct (Z.eqb_spec (Keccak256Hash (concat (map entry_bytes es))) (mpCXReceiptHash mp)) as [Ek|]; [|done].
  cbn [negb] in Hv. destruct (Z.eqb_spec (header_Hash hdr) (mpBlockHash mp)) as [Eh|]; [|done].
  destruct (Z.eqb_spec (OutgoingReceiptHash hdr) (mpCXReceiptHash mp)) as [Eo|]; [|done]. cbn [negb orb] in Hv.
  exists hdr, mp, to, es. by split_and!.
Qed.


(** ** Verifying and proposing *)

(** What the verification of a block's incoming receipts demands of each proof. *)
Definition acceptable (config : ChainConfig) (db : DB) (shard : Z) (cxp : CXReceiptsProof) : Prop :=
  exists mp, cxp.(pMerkleProof) = Some mp /\ IsSpent db cxp = Ok false /\
    Forall (fun cx => cx.(cxToShardID) = shard) (receipts_of cxp) /\ ValidateCXReceiptsProof config cxp = Ok tt.
Definition block_hash_of (cxp : CXReceiptsProof) : Z := from_option mpBlockHash 0 cxp.(pMerkleProof).

Lemma existsb_shard shard cs : existsb (fun item => negb (item.(cxToShardID) =? shard)) cs = false <->
  Forall (fun cx => cx.(cxToShardID) = shard) cs.
Proof.
  induction cs as [|c cs IH]; cbn [existsb]; [by split|]. rewrite orb_false_iff, IH, Forall_cons.
  destruct (Z.eqb_spec (cxToShardID c) shard); cbn; intuition congruence.
Qed.

Lemma VerifyIncoming_loop_Ok config db shard m cxps :
  VerifyIncoming_loop config db shard m cxps = Ok tt <->
  Forall (acceptable config db shard) cxps /\ NoDup (map block_hash_of cxps) /\
  (forall cxp, cxp ∈ cxps -> block_hash_of cxp ∉ m).
Proof.
  revert m. induction cxps as [|cxp cxps IH]; intros m; cbn [VerifyIncoming_loop map].
  - split; [intros _; split_and!; [constructor|constructor|intros ? Hin; by apply elem_of_nil in Hin]|done].
  - unfold IsSpent at 1. rewrite Forall_cons, NoDup_cons. unfold acceptable at 1, IsSpent at 1, block_hash_of at 1.
    destruct (pMerkleProof cxp) as [mp|] eqn:Emp; [|split; [done|intros (((? & ? & _) & _) & _); done]].
    cbn [mbind outcome_bind from_option].
    set (sp := match ReadCXReceiptsProofSpent _ _ _ with Ok b => b | _ => NAByte end =? SpentByte).
    destruct sp. { split; [done|]. intros (((? & _ & ? & _) & _) & _). congruence. }
    destruct (bool_decide_reflect (mpBlockHash mp ∈ m)) as [Hm|Hm].
    { split; [done|]. intros (_ & _ & Hnot). exfalso. apply (Hnot cxp ltac:(by left)). unfold block_hash_of. by rewrite Emp. }
    destruct (existsb _ _) eqn:Ee.
    { split; [done|]. intros (((? & _ & _ & Hf & _) & _) & _). apply existsb_shard in Hf. congruence. }
    apply existsb_shard in Ee. rewrite bind_Ok. split.
    + intros ([] & Hv & Hrest). apply IH in Hrest as (H1 & H2 & H3). split_and!; [by exists mp|done| |done|].
      * intros (c & Hc & Hcin)%list_elem_of_fmap. apply (H3 c Hcin). rewrite <- Hc. set_solver.
      * intros c [->|Hc]%elem_of_cons; [unfold block_hash_of; by rewrite Emp|]. specialize (H3 c Hc). set_solver.
    + intros (((? & _ & _ & _ & Hv) & Hall) & (Hn & Hnd) & Hnot). exists tt. split; [done|]. apply IH. split_and!; [done|done|].
      intros c Hc Hin. apply elem_of_union in Hin as [Hin%elem_of_singleton|Hin]; [|by apply (Hnot c ltac:(by right))].
      apply Hn. rewrite <- Hin. by apply (list_elem_of_fmap_2 block_hash_of).
Qed.

(** [propose_step] keeps a list that verifies, whatever comes. *)
Record proposing_inv (config : ChainConfig) (db : DB) (shard : Z) (p : Proposing) : Prop := {
  pi_valid : Forall (acceptable config db shard) p.(validReceipts);
  pi_nodup : NoDup (map block_hash_of p.(validReceipts));
  pi_seen : forall cxp, cxp ∈ p.(validReceipts) -> block_hash_of cxp ∈ p.(seen)
}.

Lemma propose_step_inv config db shard p cxp p' :
  propose_step config db shard p cxp = Ok p' -> proposing_inv config db shard p -> proposing_inv config db shard p'.
Proof.
  intros Hs [Hv Hn Hseen]. unfold propose_step in Hs.
  destruct (IncomingReceiptsLimit <? numProposed p); [apply Ok_inj in Hs as <-; by constructor|].
  apply bind_Ok in Hs as (spent & Hspent & Hs). destruct spent; [apply Ok_inj in Hs as <-; by constructor|].
  destruct (pMerkleProof cxp) as [mp|] eqn:Emp; [|done].
  case_bool_decide as Hin; [apply Ok_inj in Hs as <-; by constructor|].
  assert (forall b, b ∈ seen p -> b ∈ {[mpBlockHash mp]} ∪ seen p) as Hmono by set_solver.
  destruct (existsb _ _) eqn:Ee.
  { apply Ok_inj in Hs as <-. constructor; cbn; [done|done|]. auto. }
  apply existsb_shard in Ee. destruct (ValidateCXReceiptsProof config cxp) as [[]|e|w] eqn:Ev.
  - apply Ok_inj in Hs as <-. constructor; cbn.
    + apply Forall_app. split; [done|]. constructor; [by exists mp|constructor].
    + rewrite map_app. cbn. apply NoDup_app. split_and!; [done| |apply NoDup_singleton].
      intros b (c & -> & Hc)%list_elem_of_fmap Hb%list_elem_of_singleton. apply Hin.
      specialize (Hseen c Hc). rewrite Hb in Hseen. unfold block_hash_of in Hseen. by rewrite Emp in Hseen.
    + intros c [Hc|Hc%list_elem_of_singleton]%elem_of_app; [auto|]. subst. unfold block_hash_of. rewrite Emp. set_solver.
  - apply Ok_inj in Hs as <-. constructor; cbn; [done|done|]. auto.
  - done.
Qed.

Lemma proposed_acceptable config db shard curEpoch order pending valid pending' :
  proposeReceiptsProof config db shard curEpoch order pending = Ok (valid, pending') ->
  Forall (acceptable config db shard) valid /\ NoDup (map block_hash_of valid).
Proof.
  unfold proposeReceiptsProof. destruct (negb _); [intros [= <- _]; split; constructor|].
  intros (p & Hp & (pd & _ & Hret)%bind_Ok)%bind_Ok. apply Ok_inj in Hret.
  assert (validReceipts p = valid) as <- by congruence.
  assert (proposing_inv config db shard p) as [? ? _]; [|done].
  refine (foldM_inv (fun _ p => proposing_inv config db shard p) _ _ _ _ _ _ Hp).
  - constructor; cbn; [constructor|constructor|intros ? Hx; by apply elem_of_nil in Hx].
  - intros _ p0 c p1 Hi _ Hst. by eapply propose_step_inv.
Qed.

(** C29: What a leader proposes, validators accept.  The proofs
    [proposeReceiptsProof] picks from the pending pool, in whatever order it is
    walked, put in a block made by [NewBlock] with a header that stores the
    incoming root, pass [VerifyIncomingReceipts] on the same database. *)
Theorem propose_verified config db shard curEpoch order pending valid pending' h txs receipts outcxs stks b :
  proposeReceiptsProof config db shard curEpoch order pending = Ok (valid, pending') ->
  NewBlock h txs receipts outcxs valid stks = Ok (Some b) -> version_of h <> Version0 ->
  VerifyIncomingReceipts config db shard b = Ok tt.
Proof.
  intros Hp Hb Hver. destruct (NewBlock_roots _ _ _ _ _ _ _ Hb) as (_ & _ & _ & Hin & _ & _ & Hroots).
  destruct (Hroots Hver) as [_ Hir].
  destruct (proposed_acceptable _ _ _ _ _ _ _ _ Hp) as [Hv Hn].
  unfold VerifyIncomingReceipts. rewrite Hin, (proj2 (VerifyIncoming_loop_Ok _ _ _ _ _)).
  2:{ split_and!; [done|done|]. intros c _. apply not_elem_of_empty. }
  cbn [mbind outcome_bind]. unfold Block_Header. rewrite Copy_id, Hir.
  destruct valid; by rewrite Z.eqb_refl.
Qed.

(** ** Spending *)

Definition same_position (cxp1 cxp2 : CXReceiptsProof) : Prop :=
  exists mp1 mp2, cxp1.(pMerkleProof) = Some mp1 /\ cxp2.(pMerkleProof) = Some mp2 /\
    mp1.(mpShardID) = mp2.(mpShardID) /\ Big.Uint64 mp1.(mpBlockNum) = Big.Uint64 mp2.(mpBlockNum).

Lemma IsSpent_marked db mp cxp : cxp.(pMerkleProof) = Some mp ->
  db !! cxReceiptSpentKey mp.(mpShardID) (Big.Uint64 mp.(mpBlockNum)) = Some [SpentByte] -> IsSpent db cxp = Ok true.
Proof. intros Emp E. unfold IsSpent, ReadCXReceiptsProofSpent. rewrite Emp, E. done. Qed.

(** Committing any further blocks leaves what is spent spent. *)
Inductive later (db : DB) : DB -> Prop :=
| later_here : later db db
| later_commit db1 db2 has shardNum block cs :
    later db db1 -> CommitCXReceipts db1 has shardNum block cs = Ok db2 -> later db db2.

Lemma writes_other own num hash cs l db k : length k = 26%nat ->
  foldl (fun db j => if j =? own then db else WriteCXReceipts db j num hash (GetToShardReceipts cs j)) db l !! k = db !! k.
Proof.
  intros Hk. revert db. induction l as [|j l IH]; intros db; cbn [foldl]; [done|]. rewrite IH.
  destruct (j =? own); [done|]. apply lookup_insert_ne. intros <-. rewrite (proj1 (key_length _ _ _)) in Hk. done.
Qed.

Lemma later_spent db db' k : later db db' -> length k = 26%nat -> db !! k = Some [SpentByte] -> db' !! k = Some [SpentByte].
Proof.
  intros Hl Hk. induction Hl as [|db1 db2 has n block cs _ IH Hc]; intros E; [done|]. specialize (IH E).
  unfold CommitCXReceipts in Hc. destruct has; [|by apply Ok_inj in Hc as <-].
  apply (spend_lookup _ _ _ k Hc). by rewrite writes_other.
Qed.

(** C28: A position of the source shard is spent once.  After a block with a
    proof among its incoming receipts is committed, and after any further
    commits, no block passes [VerifyIncomingReceipts] that has a proof for the
    same source shard and block number, and a leader never proposes one. *)
Theorem spent_refused config db shardNum block cs db1 db2 cxp cxp' shard block' curEpoch order pending valid pending' :
  CommitCXReceipts db true shardNum block cs = Ok db1 -> later db1 db2 ->
  cxp ∈ block.(incomingReceipts) -> same_position cxp cxp' ->
  (cxp' ∈ block'.(incomingReceipts) -> VerifyIncomingReceipts config db2 shard block' <> Ok tt) /\
  (proposeReceiptsProof config db2 shard curEpoch order pending = Ok (valid, pending') -> cxp' ∉ valid).
Proof.
  intros Hc Hl Hin (mp & mp' & Emp & Emp' & Es & En).
  assert (IsSpent db2 cxp' = Ok true) as Hspent.
  { eapply IsSpent_marked; [done|]. rewrite <- Es, <- En. eapply later_spent; [done|apply (proj2 (key_length _ _ 0))|].
    unfold CommitCXReceipts in Hc. destruct (spend_lookup _ _ _ (cxReceiptSpentKey mp.(mpShardID) (Big.Uint64 mp.(mpBlockNum))) Hc)
      as (_ & _ & Hmark). by eapply Hmark. }
  assert (forall l, Forall (acceptable config db2 shard) l -> cxp' ∉ l) as Hno.
  { intros l Hl' Hin'. rewrite Forall_forall in Hl'. destruct (Hl' cxp' Hin') as (? & _ & Hu & _). congruence. }
  split.
  - intros Hin' Hv. unfold VerifyIncomingReceipts in Hv. apply bind_Ok in Hv as ([] & Hv & _).
    apply VerifyIncoming_loop_Ok in Hv as (Hv & _ & _). by apply (Hno _ Hv).
  - intros Hp. apply Hno. by apply (proposed_acceptable _ _ _ _ _ _ _ _ Hp).
Qed.

(** Findings: the position under which a proof is spent is not tied to the
    header.  Changing the block number and the shard in the merkle proof changes
    nothing for [ValidateCXReceiptsProof]. *)
Definition move (cxp : CXReceiptsProof) (shard num : Z) : CXReceiptsProof := {|
  pReceipts := cxp.(pReceipts);
  pMerkleProof := (fun mp => {| mpBlockNum := num; mpBlockHash := mp.(mpBlockHash); mpShardID := shard;
     mpCXReceiptHash := mp.(mpCXReceiptHash); mpShardIDs := mp.(mpShardIDs); mpCXShardHashes := mp.(mpCXShardHashes) |})
     <$> cxp.(pMerkleProof);
  pHeader := cxp.(pHeader); pCommitSig := cxp.(pCommitSig); pCommitBitmap := cxp.(pCommitBitmap) |}.

Lemma position_not_checked config cxp shard num :
  ValidateCXReceiptsProof config (move cxp shard num) = ValidateCXReceiptsProof config cxp.
Proof.
  unfold ValidateCXReceiptsProof, move, receipts_of. cbn [pHeader pMerkleProof pReceipts pCommitSig pCommitBitmap].
  destruct (pHeader cxp) as [hdr|]; [|done]. destruct (AcceptsCrossTx _ _) as [[]| |]; try done. cbn [mbind outcome_bind negb].
  unfold GetToShardID, receipts_of. cbn [pReceipts]. destruct (default [] (pReceipts cxp)); [done|].
  destruct (GetToShardID_loop _ _); [|done|done]. cbn [mbind outcome_bind].
  by destruct (pMerkleProof cxp).
Qed.

(** So receipts that were already credited pass the check of a later block: for
    every accepted proof there is one with the same receipts that is accepted at
    any position that is not spent yet. *)
Lemma replay_accepted config db shard cxp num :
  acceptable config db shard cxp -> is_Ok (ReadCXReceiptsProofSpent db shard (Big.Uint64 num)) = false ->
  receipts_of (move cxp shard num) = receipts_of cxp /\
  acceptable config db shard (move cxp shard num) /\
  (forall db', WriteCXReceiptsProofSpent db [cxp] = Ok db' ->
     (forall mp, cxp.(pMerkleProof) = Some mp ->
        cxReceiptSpentKey mp.(mpShardID) (Big.Uint64 mp.(mpBlockNum)) <> cxReceiptSpentKey shard (Big.Uint64 num)) ->
     acceptable config db' shard (move cxp shard num)).
Proof.
  intros (mp & Emp & Hsp & Hto & Hv) Hfree.
  assert (forall db0, db0 !! cxReceiptSpentKey shard (Big.Uint64 num) = db !! cxReceiptSpentKey shard (Big.Uint64 num) ->
    acceptable config db0 shard (move cxp shard num)) as Hacc.
  { intros db0 Hdb0. eexists. split_and!; [unfold move; cbn; by rewrite Emp| |done|by rewrite position_not_checked].
    unfold IsSpent, move. cbn. rewrite Emp. cbn. unfold ReadCXReceiptsProofSpent in *. rewrite Hdb0.
    destruct (db !! cxReceiptSpentKey shard (Big.Uint64 num)) as [[|]|]; done. }
  split_and!; [done|by apply Hacc|]. intros db' Hw Hk. apply Hacc.
  cbn in Hw. unfold rawdb_WriteCXReceiptsProofSpent in Hw. rewrite Emp in Hw. cbn in Hw. apply Ok_inj in Hw as <-.
  apply lookup_insert_ne. by apply Hk.
Qed.

(** A proof that lists more shards than hashes stops the node that checks it. *)
Lemma short_proof_panics config cxp hdr mp to : cxp.(pHeader) = Some hdr -> cxp.(pMerkleProof) = Some mp ->
  AcceptsCrossTx config (Some (Epoch hdr)) = Ok true -> GetToShardID (Some cxp) = Ok to ->
  (length mp.(mpCXShardHashes) < length mp.(mpShardIDs))%nat ->
  exists w, ValidateCXReceiptsProof config cxp = Panic w.
Proof.
  intros Eh Em Hf Hto Hlen. destruct (scan_proof_panics mp to Hlen) as [w Ew]. exists w.
  unfold ValidateCXReceiptsProof. rewrite Eh, Hf. cbn [mbind outcome_bind negb]. rewrite Hto. cbn [mbind outcome_bind].
  by rewrite Em, Ew.
Qed.

(** ** Crediting *)

Lemma AddBalance_balance st a amount b : balance (AddBalance st a amount) b = balance st b + (if decide (b = a) then amount else 0).
Proof.
  unfold balance, AddBalance. destruct (decide (b = a)) as [->|]; [by rewrite lookup_insert_eq|].
  rewrite lookup_insert_ne by done. lia.
Qed.

Lemma AddBalance_sum st a amount : map_sum id (AddBalance st a amount) = map_sum id st + amount.
Proof.
  unfold AddBalance, balance. destruct (st !! a) as [v|] eqn:E; cbn [default].
  - rewrite (map_sum_insert id st a v) by done. unfold id. lia.
  - rewrite map_sum_insert_fresh by done. unfold id. lia.
Qed.

(** The destination credits exactly what the receipts say.  Applying a
    proof's receipts fails only when a receipt has no receiver; otherwise each
    account grows by the amounts sent to it and the total of all balances by the
    sum of the amounts, no more and no less. *)
Theorem ApplyIncomingReceipt_spec st cxp :
  let cs := receipts_of cxp in
  (is_Ok (ApplyIncomingReceipt st (Some cxp)) = true <-> Forall (fun cx => is_Some cx.(cxTo)) cs) /\
  forall st', ApplyIncomingReceipt st (Some cxp) = Ok st' ->
    map_sum id st' = map_sum id st + sumZ cxAmount cs /\
    forall a, balance st' a = balance st a + sumZ (fun cx => if decide (cx.(cxTo) = Some a) then cx.(cxAmount) else 0) cs.
Proof.
  cbv zeta. unfold ApplyIncomingReceipt. generalize (receipts_of cxp). clear cxp. intros cs. revert st.
  induction cs as [|cx cs IH]; intros st; cbn [foldM].
  - split; [by split|]. intros st' [= <-]. rewrite !sumZ_nil. split; [lia|]. intros a. rewrite sumZ_nil. lia.
  - rewrite Forall_cons. destruct (cxTo cx) as [to|] eqn:Eto; cbn [mbind outcome_bind].
    + destruct (IH (AddBalance st to (cxAmount cx))) as [H1 H2]. split.
      * rewrite H1. split; [intros Hf; split; [by eexists|done]|tauto].
      * intros st' Hst'. destruct (H2 st' Hst') as [Hs Hb]. rewrite sumZ_cons. split.
        { rewrite Hs, AddBalance_sum. lia. }
        intros a. rewrite Hb, AddBalance_balance, sumZ_cons, Eto.
        destruct (decide (a = to)) as [E1|E1], (decide (Some to = Some a)) as [E2|E2]; try congruence; lia.
    + split; [|done]. split; [done|]. intros [[? ?] _]. done.
Qed.
End safety.

(** ** Witnesses *)

#[export] Instance CXReceipt_countable : Countable CXReceipt.
Proof.
  refine (inj_countable' (fun c => (c.(cxTxHash), c.(cxFrom), c.(cxTo), c.(cxShardID), c.(cxToShardID), c.(cxAmount)))
    (fun t => let '(h, f, t, s, ts, a) := t in mkCXReceipt h f t s ts a) _).
  by intros [].
Defined.

Lemma toy_keccak_range b : 0 <= toy_keccak b < 256 ^ 32.
Proof.
  unfold toy_keccak. assert (forall a, 0 <= a < 256 ^ 32 -> 0 <= foldl (fun acc x => (acc * 257 + x + 1) mod 256 ^ 32) a b < 256 ^ 32)
    as Hg; [|apply Hg; lia].
  induction b as [|x b IH]; intros a Ha; [done|]. cbn [foldl]. apply IH, Z.mod_pos_bound. lia.
Qed.
#[export] Instance toy_laws : HashLaws toy_hashes.
Proof. split; [apply toy_keccak_range| |done]. intros []; apply toy_keccak_range. Qed.
#[export] Instance toy_cross : CrossLib := {|
  cxs_Encode := fun cs => [Z.pos (encode cs)];
  cxs_Decode := fun b => match b with
                         | [Z.pos p] => match decode p with Some cs => Ok cs | None => Err "rlp" end
                         | _ => Err "rlp" end;
  VerifyHeaderSignature := fun _ sig _ => if bool_decide (sig !! 0%nat = Some 7) then Ok tt else Err "signature"
|}.
#[export] Instance toy_cross_laws : CrossLibLaws toy_cross.
Proof. split; [done|]. intros cs. simpl. by rewrite decode_encode. Qed.

(** Block 5 of shard 0 sends 100 to account 20 and 30 to account 21, both in
    shard 1. *)
Definition two_receipts : CXReceipts := [mkCXReceipt 1 10 (Some 20) 0 1 100; mkCXReceipt 2 11 (Some 21) 0 1 30].
Definition source_header : Header :=
  SetOutgoingReceiptHash (SetNumber (NewHeader (NewFactory MainnetChainConfig) 1000) 5) (ComputeMerkleRoot two_receipts).
Definition source_block : Block := mkBlock source_header [] [] [] [] [].
Definition source_db : DB :=
  Ok_or ∅ (CommitCXReceipts ∅ true 2 source_block two_receipts).
Definition source_proof : CXReceiptsProof := {|
  pReceipts := Some (GetToShardReceipts two_receipts 1);
  pMerkleProof := CXMerkleProof source_db 2 source_header;
  pHeader := Some source_header; pCommitSig := [7]; pCommitBitmap := [1] |}.
Definition source_mp : CXReceipt.CXMerkleProof := Eval vm_compute in
  match CXMerkleProof source_db 2 source_header with Some mp => mp | None => mkMerkleProof 0 0 0 0 [] [] end.

Lemma two_receipts_shard cx : cx ∈ two_receipts -> cx.(cxToShardID) = 1.
Proof. unfold two_receipts. rewrite !elem_of_cons, elem_of_nil. by intros [->|[->|[]]]. Qed.

Lemma CXMerkleProof_accepted_witness :
  exists mp receipts, CXMerkleProof source_db 2 source_header = Some mp /\
    ValidateCXReceiptsProof MainnetChainConfig {| pReceipts := Some receipts; pMerkleProof := Some mp;
      pHeader := Some source_header; pCommitSig := [7]; pCommitBitmap := [1] |} = Ok tt.
Proof.
  destruct (CXMerkleProof_accepted MainnetChainConfig ∅ 2 source_block two_receipts source_db 1 [7] [1])
    as (mp & receipts & Hmp & _ & _ & Hv).
  - apply Ok_or_eq. by vm_compute.
  - intros j. apply lookup_empty.
  - lia.
  - by vm_compute.
  - intros cx Hcx. rewrite (two_receipts_shard cx Hcx). split; [lia|]. by vm_compute.
  - by vm_compute.
  - by vm_compute.
  - by vm_compute.
  - exists mp, receipts. split; [exact Hmp|exact Hv].
Defined.

Lemma source_proof_valid : ValidateCXReceiptsProof MainnetChainConfig source_proof = Ok tt.
Proof. by vm_compute. Qed.


(** The destination: shard 1 proposes and verifies the proof. *)
Definition dest_pool : gmap (Z * Z) CXReceiptsProof := {[ (0, 5) := source_proof ]}.
Definition dest_header : Header := NewHeader (NewFactory MainnetChainConfig) 1001.
Definition proposed : outcome (CXReceiptsProofs * gmap (Z * Z) CXReceiptsProof) :=
  proposeReceiptsProof MainnetChainConfig ∅ 1 (Some 1001) [source_proof] dest_pool.
Lemma proposed_eq : (match proposed with Ok p => p.1 | _ => [] end) = [source_proof] /\ is_Ok proposed = true.
Proof. split; by vm_compute. Qed.

Definition dest_block : Block :=
  match NewBlock dest_header [] [] [] [source_proof] [] with Ok (Some b) => b | _ => NewBlockWithHeader dest_header end.

Lemma propose_verified_witness : VerifyIncomingReceipts MainnetChainConfig ∅ 1 dest_block = Ok tt.
Proof.
  destruct proposed_eq as [E1 E2]. destruct (is_Ok_ex _ E2) as [[valid pending'] E]. rewrite E in E1. cbn in E1. subst valid.
  unfold proposed in E.
  refine (propose_verified MainnetChainConfig ∅ 1 (Some 1001) [source_proof] dest_pool [source_proof] pending'
    dest_header [] [] [] [] dest_block E _ _).
  - by vm_compute.
  - by vm_compute.
Defined.

Definition dest_db : DB := Ok_or ∅ (CommitCXReceipts ∅ true 2 dest_block []).

Lemma spent_refused_witness : VerifyIncomingReceipts MainnetChainConfig dest_db 1 dest_block <> Ok tt.
Proof.
  refine (proj1 (spent_refused MainnetChainConfig ∅ 2 dest_block [] dest_db dest_db source_proof source_proof 1 dest_block
    None [] ∅ [] ∅ _ _ _ _) _).
  - apply Ok_or_eq. by vm_compute.
  - constructor.
  - assert (incomingReceipts dest_block = [source_proof]) as -> by by vm_compute. by left.
  - exists source_mp, source_mp. by vm_compute.
  - assert (incomingReceipts dest_block = [source_proof]) as -> by by vm_compute. by left.
Defined.

(** The same receipts again, one block number later: refused as they were, and
    accepted once the number is changed. *)
Definition replayed_block : Block :=
  match NewBlock dest_header [] [] [] [move source_proof 0 6] [] with Ok (Some b) => b | _ => NewBlockWithHeader dest_header end.
Lemma replay_example :
  VerifyIncomingReceipts MainnetChainConfig dest_db 1 dest_block = Err errDoubleSpent /\
  map receipts_of (incomingReceipts replayed_block) = map receipts_of (incomingReceipts dest_block) /\
  VerifyIncomingReceipts MainnetChainConfig dest_db 1 replayed_block = Ok tt.
Proof. split_and!; by vm_compute. Qed.

Lemma ApplyIncomingReceipt_spec_witness : exists st', ApplyIncomingReceipt {[20 := 5]} (Some source_proof) = Ok st' /\
  map_sum id st' = 135 /\ balance st' 20 = 105.
Proof.
  destruct (ApplyIncomingReceipt_spec {[20 := 5]} source_proof) as [_ H].
  destruct (is_Ok_ex (ApplyIncomingReceipt {[20 := 5]} (Some source_proof))) as [st' E]; [by vm_compute|].
  exists st'. split; [exact E|]. destruct (H st' E) as [-> Hb]. rewrite Hb. split; by vm_compute.
Defined.
