(* ===== verification/FbftLog.v ===== *)
(** * The FBFT message log (consensus/fbft_log.go)

    Consensus messages as a node keeps them ([FBFTMessage]), the identifier
    under which the log stores them ([id]) and the log itself: blocks by hash,
    the set of verified block hashes, messages by identifier.

    The log stores pointers; every method that changes a stored message or block
    stores it again under the same key at once, so values are enough here.  Go
    walks a map in no particular order: [Walk] is any such order. *)
From S2P Require Import Prelude Bls Mask Header CXReceipt Block.
Local Open Scope Z_scope.

(** ** Message types (api/proto/message/intelchainmessage.proto) *)

Definition MessageType_ANNOUNCE : Z := 1.
Definition MessageType_PREPARE : Z := 2.
Definition MessageType_PREPARED : Z := 3.
Definition MessageType_COMMIT : Z := 4.
Definition MessageType_COMMITTED : Z := 5.
Definition MessageType_VIEWCHANGE : Z := 6.
Definition MessageType_NEWVIEW : Z := 7.

Definition idTypeBytes : nat := 4.
Definition idViewIDBytes : nat := 8.
Definition idHashBytes : nat := 32.
Definition idSenderBytes : nat := PublicKeySizeInBytes.
Definition idBytes : nat := idTypeBytes + idViewIDBytes + idHashBytes + idSenderBytes.

Section log.
Context {L : BLSLib} {H : Hashes} {T : TxLib} {W : Walk}.

(** ** Messages *)

Record FBFTMessage := mkMsg {
  MessageType : Z;
  ViewID : Z;
  BlockNum : Z;
  BlockHash : Z;
  mBlock : list Z;
  SenderPubkeys : list PublicKeyWrapper;
  SenderPubkeyBitmap : list Z;
  LeaderPubkey : option PublicKeyWrapper;
  Payload : list Z;
  ViewchangeSig : option Sign;
  ViewidSig : option Sign;
  M2AggSig : option Sign;
  M2Bitmap : option Mask;
  M3AggSig : option Sign;
  M3Bitmap : option Mask;
  Verified : bool
}.

(** [FBFTMessage{MessageType: ..., ViewID: ..., BlockNum: ...}]: the other
    fields are zero. *)
Definition zero_msg (typ viewID blockNum : Z) : FBFTMessage :=
  mkMsg typ viewID blockNum 0 [] [] [] None [] None None None None None None false.

Definition with_verified (m : FBFTMessage) (v : bool) : FBFTMessage :=
  mkMsg m.(MessageType) m.(ViewID) m.(BlockNum) m.(BlockHash) m.(mBlock) m.(SenderPubkeys) m.(SenderPubkeyBitmap)
    m.(LeaderPubkey) m.(Payload) m.(ViewchangeSig) m.(ViewidSig) m.(M2AggSig) m.(M2Bitmap) m.(M3AggSig) m.(M3Bitmap) v.
Definition with_mBlock (m : FBFTMessage) (b : list Z) : FBFTMessage :=
  mkMsg m.(MessageType) m.(ViewID) m.(BlockNum) m.(BlockHash) b m.(SenderPubkeys) m.(SenderPubkeyBitmap)
    m.(LeaderPubkey) m.(Payload) m.(ViewchangeSig) m.(ViewidSig) m.(M2AggSig) m.(M2Bitmap) m.(M3AggSig) m.(M3Bitmap)
    m.(Verified).

Definition HasSingleSender (m : FBFTMessage) : bool := (length m.(SenderPubkeys) =? 1)%nat.

(** 92 bytes: type, view, block hash, sender (a key, or the start of the bitmap). *)
Definition id (m : FBFTMessage) : list Z :=
  PutUint32 m.(MessageType) ++ PutUint64 m.(ViewID) ++ be_bytes idHashBytes m.(BlockHash) ++
    match m.(SenderPubkeys) with
    | [key] => Bytes key.(wBytes)
    | _ => copy_into idSenderBytes m.(SenderPubkeyBitmap)
    end.

(** ** The log *)

Record FBFTLog := mkLog {
  blocks : gmap Z Block;
  verifiedBlocks : gset Z;
  messages : gmap (list Z) FBFTMessage
}.

Definition NewFBFTLog : FBFTLog := mkLog ∅ ∅ ∅.

Definition AddBlock (log : FBFTLog) (block : Block) : FBFTLog :=
  mkLog (<[Block_Hash block := block]> log.(blocks)) log.(verifiedBlocks) log.(messages).
Definition MarkBlockVerified (log : FBFTLog) (block : Block) : FBFTLog :=
  mkLog log.(blocks) ({[Block_Hash block]} ∪ log.(verifiedBlocks)) log.(messages).
Definition IsBlockVerified (log : FBFTLog) (hash : Z) : bool := bool_decide (hash ∈ log.(verifiedBlocks)).
Definition GetBlockByHash (log : FBFTLog) (hash : Z) : option Block := log.(blocks) !! hash.
Definition GetBlocksByNumber (log : FBFTLog) (number : Z) : list Block :=
  List.filter (fun block => Block_NumberU64 block =? number) (map snd (walk log.(blocks))).

(** [for h, block := range log.blocks { if gone(block) { delete both } }] *)
Definition delete_blocks (log : FBFTLog) (gone : Block -> bool) : FBFTLog :=
  foldl (fun log hb =>
      if gone hb.2 then mkLog (delete hb.1 log.(blocks)) (log.(verifiedBlocks) ∖ {[hb.1]}) log.(messages) else log)
    log (walk log.(blocks)).
Definition deleteBlocksLessThan (log : FBFTLog) (number : Z) : FBFTLog :=
  delete_blocks log (fun block => Block_NumberU64 block <? number).
Definition DeleteBlockByNumber (log : FBFTLog) (number : Z) : FBFTLog :=
  delete_blocks log (fun block => Block_NumberU64 block =? number).
Definition deleteMessagesLessThan (log : FBFTLog) (number : Z) : FBFTLog :=
  foldl (fun log hm =>
      if hm.2.(BlockNum) <? number then mkLog log.(blocks) log.(verifiedBlocks) (delete hm.1 log.(messages)) else log)
    log (walk log.(messages)).

Definition AddMessage (log : FBFTLog) (msg : FBFTMessage) : FBFTLog :=
  mkLog log.(blocks) log.(verifiedBlocks) (<[id msg := msg]> log.(messages)).
Definition AddVerifiedMessage (log : FBFTLog) (msg : FBFTMessage) : FBFTLog :=
  AddMessage log (with_verified msg true).
Definition AddNotVerifiedMessage (log : FBFTLog) (msg : FBFTMessage) : FBFTLog :=
  AddMessage log (with_verified msg false).

(** [for _, msg := range log.messages { if wanted(msg) { append } }] *)
Definition find_messages (log : FBFTLog) (wanted : FBFTMessage -> bool) : list FBFTMessage :=
  List.filter wanted (map snd (walk log.(messages))).

Definition GetNotVerifiedCommittedMessages (log : FBFTLog) (blockNum viewID blockHash : Z) : list FBFTMessage :=
  find_messages log (fun msg => (msg.(MessageType) =? MessageType_COMMITTED) && (msg.(BlockNum) =? blockNum) &&
    (msg.(ViewID) =? viewID) && (msg.(BlockHash) =? blockHash) && negb msg.(Verified)).
Definition GetMessagesByTypeSeqViewHash (log : FBFTLog) (typ blockNum viewID blockHash : Z) : list FBFTMessage :=
  find_messages log (fun msg => (msg.(MessageType) =? typ) && (msg.(BlockNum) =? blockNum) &&
    (msg.(ViewID) =? viewID) && (msg.(BlockHash) =? blockHash) && msg.(Verified)).
Definition GetMessagesByTypeSeq (log : FBFTLog) (typ blockNum : Z) : list FBFTMessage :=
  find_messages log (fun msg => (msg.(MessageType) =? typ) && (msg.(BlockNum) =? blockNum) && msg.(Verified)).
Definition GetMessagesByTypeSeqHash (log : FBFTLog) (typ blockNum blockHash : Z) : list FBFTMessage :=
  find_messages log (fun msg => (msg.(MessageType) =? typ) && (msg.(BlockNum) =? blockNum) &&
    (msg.(BlockHash) =? blockHash) && msg.(Verified)).
(** [&&] binds tighter than [||] in the condition that skips a message. *)
Definition GetMessagesByTypeSeqView (log : FBFTLog) (typ blockNum viewID : Z) : list FBFTMessage :=
  find_messages log (fun msg => negb (negb (msg.(MessageType) =? typ) || negb (msg.(BlockNum) =? blockNum) ||
    (negb (msg.(ViewID) =? viewID) && msg.(Verified)))).

Definition HasMatchingAnnounce (log : FBFTLog) (blockNum blockHash : Z) : bool :=
  (1 <=? length (GetMessagesByTypeSeqHash log MessageType_ANNOUNCE blockNum blockHash))%nat.
Definition HasMatchingViewAnnounce (log : FBFTLog) (blockNum viewID blockHash : Z) : bool :=
  (1 <=? length (GetMessagesByTypeSeqViewHash log MessageType_ANNOUNCE blockNum viewID blockHash))%nat.
Definition HasMatchingPrepared (log : FBFTLog) (blockNum blockHash : Z) : bool :=
  (1 <=? length (GetMessagesByTypeSeqHash log MessageType_PREPARED blockNum blockHash))%nat.
Definition HasMatchingViewPrepared (log : FBFTLog) (blockNum viewID blockHash : Z) : bool :=
  (1 <=? length (GetMessagesByTypeSeqViewHash log MessageType_PREPARED blockNum viewID blockHash))%nat.

(** [maxIdx] starts at -1 but [ViewID >= 0] always holds, so a message is found. *)
Definition FindMessageByMaxViewID (msgs : list FBFTMessage) : option FBFTMessage :=
  fst (foldl (fun acc v => if snd acc <=? v.(ViewID) then (Some v, v.(ViewID)) else acc) (None, 0) msgs).

Definition errFBFTLogNotFound : string := "FBFT log not found".

Fixpoint committed_loop (log : FBFTLog) (msgs : list FBFTMessage) : outcome (Block * FBFTMessage) :=
  match msgs with
  | [] => Err errFBFTLogNotFound
  | msg :: rest =>
      match GetBlockByHash log msg.(BlockHash) with
      | None => committed_loop log rest
      | Some block => Ok (block, msg)
      end
  end.
Definition GetCommittedBlockAndMsgsFromNumber (log : FBFTLog) (bn : Z) : outcome (Block * FBFTMessage) :=
  committed_loop log (GetMessagesByTypeSeq log MessageType_COMMITTED bn).

(** [bn - 1] is computed on 64 bits. *)
Definition PruneCacheBeforeBlock (log : FBFTLog) (bn : Z) : FBFTLog :=
  deleteMessagesLessThan (deleteBlocksLessThan log (u64 (bn - 1))) (u64 (bn - 1)).

(** ** Lookups *)

Lemma elem_of_find log wanted m :
  m ∈ find_messages log wanted <-> (exists k, log.(messages) !! k = Some m) /\ wanted m = true.
Proof.
  unfold find_messages. rewrite list_elem_of_In, filter_In, <- list_elem_of_In, list_elem_of_fmap.
  split; intros [Hex Hw]; (split; [|done]).
  - destruct Hex as ([k v] & -> & Hk%elem_of_walk). by exists k.
  - destruct Hex as (k & Hk). exists (k, m). split; [done|]. by apply elem_of_walk.
Qed.

Lemma find_messages_nonempty log wanted :
  (1 <=? length (find_messages log wanted))%nat = true <-> exists m, m ∈ find_messages log wanted.
Proof.
  rewrite Nat.leb_le. destruct (find_messages log wanted) as [|m l]; cbn [length]; split; try lia.
  - intros [m Hm]. by apply elem_of_nil in Hm.
  - intros _. exists m. by left.
Qed.

(** [deleteMessagesLessThan] and the block deletions keep what they should. *)
Lemma deleteMessages_lookup log n :
  blocks (deleteMessagesLessThan log n) = blocks log /\ verifiedBlocks (deleteMessagesLessThan log n) = verifiedBlocks log /\
  forall k, messages (deleteMessagesLessThan log n) !! k =
    (m ← messages log !! k; if BlockNum m <? n then None else Some m).
Proof.
  unfold deleteMessagesLessThan.
  set (f := fun _ _ => _).
  assert (forall l lg, let r := foldl f lg l in blocks r = blocks lg /\ verifiedBlocks r = verifiedBlocks lg /\
    forall k, messages r !! k = if decide (Exists (fun hm => hm.1 = k /\ (BlockNum hm.2 <? n) = true) l)
      then None else messages lg !! k) as Hgen.
  { induction l as [|[h m] l IH]; intros lg; cbn [foldl].
    { split_and!; [done|done|]. intros k. rewrite decide_False; [done|]. intros Hx. inversion Hx. }
    destruct (IH (f lg (h, m))) as (-> & -> & Hm). unfold f at 1 2. cbn [fst snd].
    split_and!; [by case_match|by case_match|]. intros k. rewrite Hm. unfold f. cbn [fst snd].
    destruct (decide (Exists _ l)) as [H1|H1], (decide (Exists _ (_ :: l))) as [H2|H2];
      rewrite Exists_cons in H2; cbn [fst snd] in H2; try tauto.
    - destruct (BlockNum m <? n) eqn:E; [|intuition congruence]. destruct (decide (h = k)) as [->|]; [|tauto].
      cbn. by rewrite lookup_delete_eq.
    - destruct (BlockNum m <? n) eqn:E; [|done]. cbn. rewrite lookup_delete_ne; [done|]. tauto. }
  destruct (Hgen (walk (messages log)) log) as (-> & -> & Hm). split_and!; [done|done|]. intros k. rewrite Hm.
  case_decide as HE.
  - apply Exists_exists in HE as ([h m] & Hin%elem_of_walk & <- & Hn). cbn [fst snd] in *. rewrite Hin. cbn. by rewrite Hn.
  - destruct (messages log !! k) as [m|] eqn:E; [|done]. cbn. case_match eqn:Hn; [|done]. exfalso. apply HE.
    apply Exists_exists. exists (k, m). split; [by apply elem_of_walk|done].
Qed.

Lemma delete_blocks_lookup log gone :
  messages (delete_blocks log gone) = messages log /\
  (forall h, blocks (delete_blocks log gone) !! h = (b ← blocks log !! h; if gone b then None else Some b)) /\
  (forall h, h ∈ verifiedBlocks (delete_blocks log gone) <->
     h ∈ verifiedBlocks log /\ forall b, blocks log !! h = Some b -> gone b = false).
Proof.
  unfold delete_blocks. set (f := fun _ _ => _).
  assert (forall l lg, let r := foldl f lg l in messages r = messages lg /\
    (forall k, blocks r !! k = if decide (Exists (fun hb => hb.1 = k /\ gone hb.2 = true) l) then None else blocks lg !! k) /\
    (forall k, k ∈ verifiedBlocks r <-> k ∈ verifiedBlocks lg /\ ~ Exists (fun hb => hb.1 = k /\ gone hb.2 = true) l)) as Hgen.
  { induction l as [|[h b] l IH]; intros lg; cbn [foldl].
    { split_and!; [done| |].
      - intros k. rewrite decide_False; [done|]. intros Hx. inversion Hx.
      - intros k. rewrite Exists_nil. tauto. }
    destruct (IH (f lg (h, b))) as (-> & Hb & Hv). unfold f at 1. cbn [fst snd].
    split_and!; [by case_match| |].
    - intros k. rewrite Hb. unfold f. cbn [fst snd].
      destruct (decide (Exists _ l)) as [H1|H1], (decide (Exists _ (_ :: l))) as [H2|H2];
        rewrite Exists_cons in H2; cbn [fst snd] in H2; try tauto.
      + destruct (gone b) eqn:E; [|intuition congruence]. destruct (decide (h = k)) as [->|]; [|tauto].
        cbn. by rewrite lookup_delete_eq.
      + destruct (gone b) eqn:E; [|done]. cbn. rewrite lookup_delete_ne; [done|]. tauto.
    - intros k. rewrite Hv, Exists_cons. unfold f. cbn [fst snd]. destruct (gone b) eqn:E; cbn [verifiedBlocks].
      + rewrite elem_of_difference, elem_of_singleton. intuition.
      + intuition congruence. }
  destruct (Hgen (walk (blocks log)) log) as (-> & Hb & Hv).
  assert (forall h, Exists (fun hb => hb.1 = h /\ gone hb.2 = true) (walk (blocks log)) <->
    exists b, blocks log !! h = Some b /\ gone b = true) as Hex.
  { intros h. rewrite Exists_exists. split.
    - intros ([h' b] & Hin%elem_of_walk & <- & Hg). by exists b.
    - intros (b & Hin & Hg). exists (h, b). split; [by apply elem_of_walk|done]. }
  split_and!; [done| |].
  - intros h. rewrite Hb. case_decide as HE; rewrite Hex in HE.
    + destruct HE as (b & -> & Hg). cbn. by rewrite Hg.
    + destruct (blocks log !! h) as [b|] eqn:E; [|done]. cbn. case_match eqn:Hg; [|done]. exfalso. eauto.
  - intros h. rewrite Hv, Hex. split; intros [Hin Hn]; (split; [done|]).
    + intros b Hl. destruct (gone b) eqn:Hg; [|done]. exfalso. eauto.
    + intros (b & Hl & Hg). rewrite (Hn b Hl) in Hg. done.
Qed.

(** ** Properties *)

(** What a message must satisfy for its identifier to say who it is. *)
Definition msg_typed (m : FBFTMessage) : Prop :=
  0 <= m.(MessageType) < 2 ^ 32 /\ 0 <= m.(ViewID) < 2 ^ 64 /\ 0 <= m.(BlockHash) < 256 ^ 32 /\
  exists key, m.(SenderPubkeys) = [key] /\ key_ok key.(wBytes).


Lemma id_length m : length (id m) = idBytes.
Proof.
  unfold id, PutUint32, PutUint64, Bytes, copy_into, idBytes, idTypeBytes, idViewIDBytes, idHashBytes, idSenderBytes.
  rewrite !length_app, !length_rev, !be_bytes_length.
  assert (forall l, length (take PublicKeySizeInBytes l ++ replicate (PublicKeySizeInBytes - length l) 0) = PublicKeySizeInBytes) as Hl.
  { intros l. rewrite length_app, length_take, length_replicate. lia. }
  destruct (SenderPubkeys m) as [|k [|? ?]]; rewrite ?be_bytes_length, ?Hl; done.
Qed.

Lemma id_inj m1 m2 : msg_typed m1 -> msg_typed m2 -> id m1 = id m2 ->
  MessageType m1 = MessageType m2 /\ ViewID m1 = ViewID m2 /\ BlockHash m1 = BlockHash m2 /\
  map wBytes (SenderPubkeys m1) = map wBytes (SenderPubkeys m2).
Proof.
  intros (Ht1 & Hv1 & Hh1 & k1 & Ek1 & Hk1) (Ht2 & Hv2 & Hh2 & k2 & Ek2 & Hk2) E. unfold id in E.
  rewrite Ek1, Ek2 in *. cbn [map].
  apply app_inj_1 in E as [E1 E]; [|by unfold PutUint32; rewrite !length_rev, !be_bytes_length].
  apply app_inj_1 in E as [E2 E]; [|by unfold PutUint64; rewrite !length_rev, !be_bytes_length].
  apply app_inj_1 in E as [E3 E4]; [|by rewrite !be_bytes_length].
  unfold PutUint32, PutUint64 in *. apply rev_inj in E1, E2.
  split_and!; [by apply (be_bytes_inj 4)|by apply (be_bytes_inj 8)|by apply (be_bytes_inj 32)|].
  f_equal. by apply Bytes_inj.
Qed.

(** Every block is stored under its hash, every message under its identifier. *)
Record log_wf (log : FBFTLog) : Prop := {
  wf_block h b : log.(blocks) !! h = Some b -> Block_Hash b = h;
  wf_msg k m : log.(messages) !! k = Some m -> id m = k
}.

Lemma id_verified m v : id (with_verified m v) = id m.
Proof. done. Qed.

Lemma NewFBFTLog_wf : log_wf NewFBFTLog.
Proof. split; cbn; intros ? ? Hx; by rewrite lookup_empty in Hx. Qed.
Lemma AddBlock_wf log b : log_wf log -> log_wf (AddBlock log b).
Proof.
  intros [Hb Hm]. split; [|done]. intros h b'. cbn. destruct (decide (Block_Hash b = h)) as [<-|].
  - rewrite lookup_insert_eq. intros [= <-]. done.
  - rewrite lookup_insert_ne by done. apply Hb.
Qed.
Lemma AddMessage_wf log m : log_wf log -> log_wf (AddMessage log m).
Proof.
  intros [Hb Hm]. split; [done|]. intros k m'. cbn. destruct (decide (id m = k)) as [<-|].
  - rewrite lookup_insert_eq. by intros [= <-].
  - rewrite lookup_insert_ne by done. apply Hm.
Qed.
Lemma MarkBlockVerified_wf log b : log_wf log -> log_wf (MarkBlockVerified log b).
Proof. by intros [Hb Hm]. Qed.
Lemma delete_blocks_wf log gone : log_wf log -> log_wf (delete_blocks log gone).
Proof.
  intros [Hb Hm]. destruct (delete_blocks_lookup log gone) as (E & El & _). split.
  - intros h b. rewrite El. destruct (blocks log !! h) as [b'|] eqn:E'; [|done]. cbn. case_match; [done|].
    intros [= <-]. by apply Hb.
  - rewrite E. apply Hm.
Qed.
Lemma deleteMessagesLessThan_wf log n : log_wf log -> log_wf (deleteMessagesLessThan log n).
Proof.
  intros [Hb Hm]. destruct (deleteMessages_lookup log n) as (Eb & _ & El). split; [by rewrite Eb|].
  intros k m. rewrite El. destruct (messages log !! k) as [m'|] eqn:E'; [|done]. cbn. case_match; [done|].
  intros [= <-]. by apply Hm.
Qed.

(** Pruning keeps exactly the recent past.  [PruneCacheBeforeBlock] at a
    positive block number keeps the messages and blocks of the block before it
    and of every later one, forgets all others, and keeps a verification mark
    exactly when its block is kept or was never there; the log stays
    well-formed.  (At block 0 the bound wraps around and everything below
    2^64-1 goes.) *)
Theorem PruneCacheBeforeBlock_spec log bn :
  log_wf log -> 0 < bn <= 2 ^ 64 ->
  let log' := PruneCacheBeforeBlock log bn in
  log_wf log' /\
  (forall k m, log'.(messages) !! k = Some m <-> log.(messages) !! k = Some m /\ bn - 1 <= m.(BlockNum)) /\
  (forall h b, log'.(blocks) !! h = Some b <-> log.(blocks) !! h = Some b /\ bn - 1 <= Block_NumberU64 b) /\
  (forall h, IsBlockVerified log' h = true <->
     IsBlockVerified log h = true /\ forall b, log.(blocks) !! h = Some b -> bn - 1 <= Block_NumberU64 b).
Proof.
  intros Hwf Hbn. cbv zeta. unfold PruneCacheBeforeBlock, deleteBlocksLessThan. rewrite u64_small by lia.
  set (lg := delete_blocks _ _).
  destruct (deleteMessages_lookup lg (bn - 1)) as (Eb & Ev & Em).
  destruct (delete_blocks_lookup log (fun block => Block_NumberU64 block <? bn - 1)) as (Em' & Eb' & Ev'). fold lg in Em', Eb', Ev'.
  split_and!.
  - by apply deleteMessagesLessThan_wf, delete_blocks_wf.
  - intros k m. rewrite Em, Em'. destruct (messages log !! k) as [m'|]; cbn; [|intuition done].
    destruct (Z.ltb_spec (BlockNum m') (bn - 1)).
    + split; [done|]. intros [[= <-] ?]. lia.
    + split; [intros [= <-]; by split|by intros [[= <-] ?]].
  - intros h b. rewrite Eb, Eb'. destruct (blocks log !! h) as [b'|]; cbn; [|intuition done].
    destruct (Z.ltb_spec (Block_NumberU64 b') (bn - 1)).
    + split; [done|]. intros [[= <-] ?]. lia.
    + split; [intros [= <-]; by split|by intros [[= <-] ?]].
  - intros h. unfold IsBlockVerified. rewrite !bool_decide_eq_true, Ev, Ev'.
    split; intros [Hin Hb]; (split; [done|]); intros b Hl; specialize (Hb b Hl); lia.
Qed.

(** Finding: the condition of [GetMessagesByTypeSeqView] lets an unverified
    message of any view through. *)
Lemma GetMessagesByTypeSeqView_other_view log m v :
  AddNotVerifiedMessage NewFBFTLog m = log ->
  GetMessagesByTypeSeqView log m.(MessageType) m.(BlockNum) v = [with_verified m false].
Proof.
  intros <-. unfold GetMessagesByTypeSeqView, find_messages, AddNotVerifiedMessage, AddMessage, NewFBFTLog. cbn [messages].
  assert (walk {[id (with_verified m false) := with_verified m false]} = [(id (with_verified m false), with_verified m false)]) as E.
  { apply Permutation_singleton_r. by rewrite walk_perm, map_to_list_singleton. }
  rewrite insert_empty, E. cbn. by rewrite !Z.eqb_refl, andb_false_r.
Qed.
End log.

(** ** Witness *)

Definition toy_msg (typ view num hash : Z) : @FBFTMessage ZBLS :=
  mkMsg (L := ZBLS) typ view num hash [] [mkWrapper (L := ZBLS) 5 5] [] None [] None None None None None None true.
Definition toy_log : FBFTLog (L := ZBLS) (T := toy_txs) :=
  AddMessage (AddMessage NewFBFTLog (toy_msg MessageType_PREPARED 7 9 1)) (toy_msg MessageType_PREPARED 8 12 2).

Lemma PruneCacheBeforeBlock_spec_witness :
  (exists k, toy_log.(messages) !! k = Some (toy_msg MessageType_PREPARED 7 9 1)) /\
  forall k, messages (PruneCacheBeforeBlock toy_log 12) !! k <> Some (toy_msg MessageType_PREPARED 7 9 1).
Proof.
  split.
  { exists (id (toy_msg MessageType_PREPARED 7 9 1)). unfold toy_log, AddMessage, NewFBFTLog. cbn [messages].
    rewrite lookup_insert_ne by (by vm_compute). by rewrite lookup_insert_eq. }
  intros k Hk.
  destruct (PruneCacheBeforeBlock_spec toy_log 12) as (_ & Hm & _).
  - by apply AddMessage_wf, AddMessage_wf, NewFBFTLog_wf.
  - lia.
  - apply Hm in Hk as [_ Hb]. cbn in Hb. lia.
Defined.
