(* ===== verification/FbftMessage.v ===== *)
(** * Consensus messages on the wire (api/proto/message, consensus/fbft_log.go, consensus/view_change_msg.go)

    The protobuf messages of the protocol and their parsing into
    [FBFTMessage]s.  Getters of an absent request return a nil pointer, whose
    fields panic.  Public keys are read through a cache that does not show. *)
From S2P Require Import Prelude Bls Mask Header CXReceipt Block FbftLog.
Local Open Scope Z_scope.

Record ConsensusRequest := mkConsensusRequest {
  crViewId : Z; crBlockNum : Z; crShardId : Z; crBlockHash : list Z; crBlock : list Z;
  crSenderPubkey : list Z; crPayload : list Z; crSenderPubkeyBitmap : list Z
}.
Record ViewChangeRequest := mkViewChangeRequest {
  vrViewId : Z; vrBlockNum : Z; vrShardId : Z; vrSenderPubkey : list Z; vrLeaderPubkey : list Z;
  vrPayload : list Z; vrViewchangeSig : list Z; vrViewidSig : list Z;
  vrM2Aggsigs : list Z; vrM2Bitmap : list Z; vrM3Aggsigs : list Z; vrM3Bitmap : list Z; vrPreparedBlock : list Z
}.
Inductive Request := Message_Consensus (r : ConsensusRequest) | Message_Viewchange (r : ViewChangeRequest) | Message_Other.

(** [ServiceType_CONSENSUS] is 0; a nil byte slice is the empty one. *)
Record Message := mkMessage { msgServiceType : Z; msgType : Z; msgSignature : list Z; msgRequest : Request }.

Definition ServiceType_CONSENSUS : Z := 0.
Definition GetConsensus (m : Message) : option ConsensusRequest :=
  match m.(msgRequest) with Message_Consensus r => Some r | _ => None end.
Definition GetViewchange (m : Message) : option ViewChangeRequest :=
  match m.(msgRequest) with Message_Viewchange r => Some r | _ => None end.

Definition nilable {A} (p : option A) : outcome A := match p with Some a => Ok a | None => Panic nil_deref end.

Definition errNilMessage : string := "Nil protobuf message".
Definition errIncorrectMessageType : string := "Incorrect message type".

Section parse.
Context {L : BLSLib}.

(** [copy(key.Bytes[:], bs)] *)
Definition key_bytes (bs : list Z) : SerializedPublicKey := be_value (copy_into PublicKeySizeInBytes bs).
Definition parse_key (bs : list Z) : outcome PublicKeyWrapper :=
  let! pubKey := deserialize_key bs in Ok (mkWrapper (key_bytes bs) pubKey).
Definition parse_sig (bs : list Z) : outcome Sign :=
  match sig_Deserialize bs with Some s => Ok s | None => Err "err blsSignatureDeserialize" end.

Definition parseFBFTMessage (multiSigBitmap : option Mask) (msg : Message) : outcome FBFTMessage :=
  let! r := nilable (GetConsensus msg) in
  let! keys :=
    match r.(crSenderPubkey) with
    | _ :: _ => let! k := parse_key r.(crSenderPubkey) in Ok [k]
    | [] => let! mask := nilable multiSigBitmap in GetSignedPubKeysFromBitmap mask r.(crSenderPubkeyBitmap)
    end in
  Ok (mkMsg msg.(msgType) r.(crViewId) r.(crBlockNum) (be_value (copy_into 32 r.(crBlockHash))) r.(crBlock) keys
        r.(crSenderPubkeyBitmap) None r.(crPayload) None None None None None None false).

Definition ParseViewChangeMessage (msg : option Message) : outcome FBFTMessage :=
  match msg with
  | None => Err errNilMessage
  | Some msg =>
      let! v := nilable (GetViewchange msg) in
      if negb (msg.(msgType) =? MessageType_VIEWCHANGE) then Err errIncorrectMessageType
      else
        let! pubKey := deserialize_key v.(vrSenderPubkey) in
        let! leaderKey := deserialize_key v.(vrLeaderPubkey) in
        let! vcSig := parse_sig v.(vrViewchangeSig) in
        let! vcSig1 := parse_sig v.(vrViewidSig) in
        Ok (mkMsg msg.(msgType) v.(vrViewId) v.(vrBlockNum) 0 v.(vrPreparedBlock)
              [mkWrapper (key_bytes v.(vrSenderPubkey)) pubKey] []
              (Some (mkWrapper (key_bytes v.(vrLeaderPubkey)) leaderKey)) v.(vrPayload)
              (Some vcSig) (Some vcSig1) None None None None false)
  end.

(** [mask.SetMask(bitmap)] with its error ignored: SetMask fails before it
    changes anything. *)
Definition mask_with (members : list PublicKeyWrapper) (bitmap : list Z) : outcome Mask :=
  match SetMask (NewMask members) bitmap with
  | Ok m => Ok m | Err _ => Ok (NewMask members) | Panic w => Panic w
  end.
Definition parse_agg (members : list PublicKeyWrapper) (aggsigs bitmap : list Z) : outcome (option Sign * option Mask) :=
  match aggsigs with
  | [] => Ok (None, None)
  | _ => let! s := parse_sig aggsigs in let! m := mask_with members bitmap in Ok (Some s, Some m)
  end.

Definition ParseNewViewMessage (msg : option Message) (members : list PublicKeyWrapper) : outcome FBFTMessage :=
  match msg with
  | None => Err errNilMessage
  | Some msg =>
      let! v := nilable (GetViewchange msg) in
      if negb (msg.(msgType) =? MessageType_NEWVIEW) then Err errIncorrectMessageType
      else
        let! pubKey := deserialize_key v.(vrSenderPubkey) in
        let! m3 := parse_agg members v.(vrM3Aggsigs) v.(vrM3Bitmap) in
        let! m2 := parse_agg members v.(vrM2Aggsigs) v.(vrM2Bitmap) in
        Ok (mkMsg msg.(msgType) v.(vrViewId) v.(vrBlockNum) 0 v.(vrPreparedBlock)
              [mkWrapper (key_bytes v.(vrSenderPubkey)) pubKey] [] None v.(vrPayload)
              None None m2.1 m2.2 m3.1 m3.2 false)
  end.
End parse.

(** ** Timers (internal/utils/timer.go)

    A timer is inactive, active since [start], or has been seen expired.  Time
    is an integer number of nanoseconds; the clock is read by the caller. *)

Inductive TimeoutState := Active | Inactive | Expired.
#[export] Instance TimeoutState_eq_dec : EqDecision TimeoutState.
Proof. solve_decision. Defined.

Record Timeout := mkTimeout { state : TimeoutState; d : Z; startedAt : Z }.

Definition NewTimeout (now dur : Z) : Timeout := mkTimeout Inactive dur now.
Definition Start (now : Z) (t : Timeout) : Timeout := mkTimeout Active t.(d) now.
Definition Stop (now : Z) (t : Timeout) : Timeout := mkTimeout Inactive t.(d) now.
Definition CheckExpired (now : Z) (t : Timeout) : Timeout * bool :=
  let t := if bool_decide (t.(state) = Active) && (t.(d) <? now - t.(startedAt))
           then mkTimeout Expired t.(d) t.(startedAt) else t in
  (t, bool_decide (t.(state) = Expired)).
Definition Duration (t : Timeout) : Z := t.(d).
Definition SetDuration (nd : Z) (t : Timeout) : Timeout := mkTimeout t.(state) nd t.(startedAt).
Definition IsActive (t : Timeout) : bool := bool_decide (t.(state) = Active).

(** A started timer expires exactly after its duration, and stays expired
    until it is started or stopped. *)
Lemma CheckExpired_started t now now' : snd (CheckExpired now' (Start now t)) = true <-> t.(d) < now' - now.
Proof.
  unfold CheckExpired, Start. cbn [state d startedAt]. rewrite bool_decide_eq_true_2 by done. cbn [andb].
  destruct (Z.ltb_spec (d t) (now' - now)); cbn; split; try done; lia.
Qed.
Lemma CheckExpired_stopped t now now' : CheckExpired now' (Stop now t) = (Stop now t, false).
Proof. done. Qed.
Lemma CheckExpired_sticky t now now' : snd (CheckExpired now t) = true ->
  snd (CheckExpired now' (fst (CheckExpired now t))) = true.
Proof. unfold CheckExpired. destruct t as [[] dd s]; cbn; [|done|done]. by destruct (dd <? now - s). Qed.
