(* ===== verification/VotePower.v ===== *)
(** * Voting power (consensus/votepower/roster.go)

    [Compute] turns a committee into a [Roster]: Intelchain's slots share the
    internal voting percentage equally, external slots share the external one
    by effective stake, and the rounding difference goes to the last staked
    slot so that the powers sum to one.

    [lastStakedVoter] is a pointer to the member built for the last staked
    slot.  That member is in [Voters] only when its key had not been seen
    before, so the model keeps, with the pointed-to value, whether the map
    holds that very object ([attached]). *)
From S2P Require Import Prelude Dec Bls Mask Params Sharding Networks Shard.
Local Open Scope Z_scope.

Definition ErrVotingPowerNotEqualOne : string := "voting power not equal to one".

Record Ballot := mkBallot {
  SignerPubKeys : list SerializedPublicKey;
  BlockHeaderHash : Z;
  Signature : list Z;
  Height : Z;
  ViewID : Z
}.

(** A round of voting; several keys may share one ballot. *)
Record Round {L : BLSLib} := mkRound {
  AggregatedVote : Sign;
  BallotBox : gmap SerializedPublicKey Ballot
}.
Arguments mkRound {L} _ _.
Definition NewRound {L : BLSLib} : Round := mkRound sig_zero ∅.

(** [PureStakedVote] and the two fields [AccommodateIntelchainVote] adds. *)
Record PureStakedVote := mkPureStakedVote {
  EarningAccount : Address;
  Identity : SerializedPublicKey;
  GroupPercent : Dec;
  vEffectiveStake : Dec;
  RawStake : Dec
}.
Record AccommodateIntelchainVote := mkVote {
  pure_vote : PureStakedVote;
  IsIntelchainNode : bool;
  OverallPercent : Dec
}.
Definition with_OverallPercent (v : AccommodateIntelchainVote) (p : Dec) : AccommodateIntelchainVote :=
  {| pure_vote := v.(pure_vote); IsIntelchainNode := v.(IsIntelchainNode); OverallPercent := p |}.

Record Roster := mkRoster {
  Voters : gmap SerializedPublicKey AccommodateIntelchainVote;
  rShardID : Z;
  OrderedSlots : list SerializedPublicKey;
  OurVotingPowerTotalPercentage : Dec;
  TheirVotingPowerTotalPercentage : Dec;
  TotalEffectiveStake : Dec;
  ITCSlotCount : Z
}.

Record VoteOnSubcomittee := mkVoteOn { vote : AccommodateIntelchainVote; vShardID : Z }.

Definition NewRoster (shardID : Z) : Roster := {|
  Voters := ∅; rShardID := shardID; OrderedSlots := [];
  OurVotingPowerTotalPercentage := ZeroDec; TheirVotingPowerTotalPercentage := ZeroDec;
  TotalEffectiveStake := ZeroDec; ITCSlotCount := 0
|}.

(** ** Compute *)

(** The first loop: total stake and number of Intelchain slots. *)
Definition count_stake (acc : Dec * Z) (slot : Slot) : outcome (Dec * Z) :=
  match slot.(EffectiveStake) with
  | Some e => let! total := Dec.Add acc.1 e in Ok (total, acc.2)
  | None => Ok (acc.1, i64 (acc.2 + 1))
  end.

(** State of the second loop. *)
Record VoterPtr := mkPtr {
  ptr_key : SerializedPublicKey; attached : bool; pointee : AccommodateIntelchainVote
}.
Record Acc := mkAcc {
  a_voters : gmap SerializedPublicKey AccommodateIntelchainVote;
  ourPercentage : Dec;
  theirPercentage : Dec;
  lastStakedVoter : option VoterPtr
}.

Section compute.
Context (total : Dec) (asDecITCSlotCount intelchainPercent externalPercent : Dec).

(** The member of one slot, and the two running percentages. *)
Definition make_member (our their : Dec) (slot : Slot)
    : outcome (AccommodateIntelchainVote * Dec * Dec) :=
  match slot.(EffectiveStake) with
  | Some e =>
      let! es := Dec.Add ZeroDec e in
      let! gp := Dec.Quo e total in
      let! op := Mul gp externalPercent in
      let! their := Dec.Add their op in
      Ok (mkVote (mkPureStakedVote slot.(EcdsaAddress) slot.(BLSPublicKey) gp es ZeroDec) false op,
          our, their)
  | None =>
      let! op := Dec.Quo intelchainPercent asDecITCSlotCount in
      let! gp := Dec.Quo op intelchainPercent in
      let! our := Dec.Add our op in
      Ok (mkVote (mkPureStakedVote slot.(EcdsaAddress) slot.(BLSPublicKey) gp ZeroDec ZeroDec) true op,
          our, their)
  end.

Definition add_member (a : Acc) (slot : Slot) : outcome Acc :=
  let! '(member, our, their) := make_member a.(ourPercentage) a.(theirPercentage) slot in
  let key := slot.(BLSPublicKey) in
  let fresh := match a.(a_voters) !! key with None => true | Some _ => false end in
  Ok {| a_voters := if fresh then <[key := member]> a.(a_voters) else a.(a_voters);
        ourPercentage := our;
        theirPercentage := their;
        lastStakedVoter :=
          match slot.(EffectiveStake) with
          | Some _ => Some {| ptr_key := key; attached := fresh; pointee := member |}
          | None => a.(lastStakedVoter)
          end |}.
End compute.

(** The block that makes voting power sum to one. *)
Definition settle (a : Acc) : outcome Acc :=
  let! sum := Dec.Add a.(ourPercentage) a.(theirPercentage) in
  let! diff := Dec.Sub OneDec sum in
  match a.(lastStakedVoter) with
  | None => Ok a
  | Some p =>
      let! a :=
        (if negb (IsZero diff) then
           let! op := Dec.Add p.(pointee).(OverallPercent) diff in
           let! their := Dec.Add a.(theirPercentage) diff in
           let v := with_OverallPercent p.(pointee) op in
           Ok {| a_voters := if p.(attached) then <[p.(ptr_key) := v]> a.(a_voters) else a.(a_voters);
                 ourPercentage := a.(ourPercentage);
                 theirPercentage := their;
                 lastStakedVoter := Some (mkPtr p.(ptr_key) p.(attached) v) |}
         else Ok a) in
      let! sum := Dec.Add a.(ourPercentage) a.(theirPercentage) in
      if negb (Dec.Equal sum OneDec) then Err ErrVotingPowerNotEqualOne else Ok a
  end.

Definition Compute (Schedule : Schedule) (subComm : Committee) (epoch : option Z) : outcome Roster :=
  match epoch with
  | None => Err "nil epoch for roster compute"
  | Some _ =>
      let staked := subComm.(Slots) in
      let! '(total, itc) := foldM count_stake staked (ZeroDec, 0) in
      let asDecITCSlotCount := NewDec itc in
      let! inst := InstanceForEpoch Schedule epoch in
      let intelchainPercent := IntelchainVotePercent inst in
      let externalPercent := ExternalVotePercent inst in
      let! a := foldM (add_member total asDecITCSlotCount intelchainPercent externalPercent) staked
                  {| a_voters := ∅; ourPercentage := ZeroDec; theirPercentage := ZeroDec;
                     lastStakedVoter := None |} in
      let! a := settle a in
      Ok {| Voters := a.(a_voters);
            rShardID := subComm.(ShardID);
            OrderedSlots := map BLSPublicKey staked;
            OurVotingPowerTotalPercentage := a.(ourPercentage);
            TheirVotingPowerTotalPercentage := a.(theirPercentage);
            TotalEffectiveStake := total;
            ITCSlotCount := itc |}
  end.

(** ** Reading a roster *)

Definition VotePowerByMask {L : BLSLib} (r : Roster) (mask : Mask) : outcome Dec :=
  foldM (fun res ki =>
      match IndexEnabled mask ki.2 with
      | Panic w => Panic w
      | Ok true =>
          match r.(Voters) !! ki.1 with
          | Some voter => Dec.Add res voter.(OverallPercent)
          | None => Ok res
          end
      | _ => Ok res
      end)
    (map_to_list mask.(PublicsIndex)) ZeroDec.

Definition AggregateRosters (rosters : list Roster) : gmap Address (list VoteOnSubcomittee) :=
  foldl (fun result roster =>
      foldl (fun result kv =>
          let voteCard := kv.2 in
          if negb voteCard.(IsIntelchainNode) then
            let voterID := {| vote := voteCard; vShardID := roster.(rShardID) |} in
            let account := voteCard.(pure_vote).(EarningAccount) in
            <[account := default [] (result !! account) ++ [voterID]]> result
          else result)
        result (map_to_list roster.(Voters)))
    ∅ (SliceStable (fun a b => a.(rShardID) <? b.(rShardID)) rosters).

(** ** Properties of [Compute] *)

Definition power_of (m : gmap SerializedPublicKey AccommodateIntelchainVote) : Z := map_sum OverallPercent m.

Definition distinct_keys (c : Committee) : Prop := NoDup (map BLSPublicKey c.(Slots)).
Definition has_staked (c : Committee) : Prop := exists s, s ∈ c.(Slots) /\ is_staked s = true.

Record acc_inv (seen : list Slot) (a : Acc) : Prop := {
  inv_dom : forall k, is_Some (a.(a_voters) !! k) <-> k ∈ map BLSPublicKey seen;
  inv_sum : NoDup (map BLSPublicKey seen) ->
    power_of a.(a_voters) = a.(ourPercentage) + a.(theirPercentage);
  inv_ptr : forall p, a.(lastStakedVoter) = Some p -> p.(attached) = true ->
    a.(a_voters) !! p.(ptr_key) = Some p.(pointee);
  inv_att : NoDup (map BLSPublicKey seen) -> forall p, a.(lastStakedVoter) = Some p ->
    p.(attached) = true;
  inv_last : is_Some a.(lastStakedVoter) <-> exists s, s ∈ seen /\ is_staked s = true
}.

Lemma make_member_sum total n ip ep our their slot m our' their' :
  make_member total n ip ep our their slot = Ok (m, our', their') ->
  our' + their' = our + their + m.(OverallPercent).
Proof.
  unfold make_member. destruct (EffectiveStake slot) as [e|]; intros H.
  - apply bind_Ok in H as (es & _ & H). apply bind_Ok in H as (gp & _ & H).
    apply bind_Ok in H as (op & _ & H). apply bind_Ok in H as (t & Ht & H).
    apply Add_Ok in Ht as [-> _]. injection H as <- <- <-. cbn. unfold Dec in *. lia.
  - apply bind_Ok in H as (op & _ & H). apply bind_Ok in H as (gp & _ & H).
    apply bind_Ok in H as (t & Ht & H).
    apply Add_Ok in Ht as [-> _]. injection H as <- <- <-. cbn. unfold Dec in *. lia.
Qed.

Lemma add_member_inv total n ip ep seen a slot a' :
  acc_inv seen a -> add_member total n ip ep a slot = Ok a' -> acc_inv (seen ++ [slot]) a'.
Proof.
  intros [Hdom Hsum Hptr Hatt Hlast]. unfold add_member. intros H.
  apply bind_Ok in H as ([[m our'] their'] & Hm & H). injection H as <-.
  apply make_member_sum in Hm.
  assert (forall k, k ∈ map BLSPublicKey (seen ++ [slot]) <->
    k ∈ map BLSPublicKey seen \/ k = BLSPublicKey slot) as Hin.
  { intros k. rewrite map_app, elem_of_app. cbn. by rewrite list_elem_of_singleton. }
  assert (NoDup (map BLSPublicKey (seen ++ [slot])) ->
    NoDup (map BLSPublicKey seen) /\ a_voters a !! BLSPublicKey slot = None) as Hnd.
  { rewrite map_app. intros (? & Hd & _)%NoDup_app. split; [done|].
    apply eq_None_not_Some. intros Hk%Hdom. apply (Hd _ Hk). by left. }
  split; cbn [a_voters ourPercentage theirPercentage lastStakedVoter].
  - intros k. rewrite Hin, <- Hdom. destruct (a_voters a !! BLSPublicKey slot) eqn:E.
    + split; [tauto|]. intros [?| ->]; [done|]. by rewrite E.
    + destruct (decide (k = BLSPublicKey slot)) as [->|Hne].
      * rewrite lookup_insert_eq. split; [by right|by eexists].
      * rewrite lookup_insert_ne by done. tauto.
  - intros [Hs Hf]%Hnd. rewrite Hf. unfold power_of. rewrite map_sum_insert_fresh by done.
    unfold power_of in Hsum. rewrite Hsum by done. unfold Dec in *. lia.
  - intros p. destruct (EffectiveStake slot).
    + intros [= <-]. cbn. destruct (a_voters a !! BLSPublicKey slot) eqn:E; [done|].
      intros _. apply lookup_insert_eq.
    + intros Hp Ha. pose proof (Hptr p Hp Ha) as Hv.
      destruct (a_voters a !! BLSPublicKey slot) eqn:E; [done|].
      rewrite lookup_insert_ne; [done|]. intros Ek. congruence.
  - intros [Hs Hf]%Hnd p. rewrite Hf. destruct (EffectiveStake slot); [by intros [= <-]|].
    by apply Hatt.
  - assert ((exists s, s ∈ seen ++ [slot] /\ is_staked s = true) <->
      (exists s, s ∈ seen /\ is_staked s = true) \/ is_staked slot = true) as ->.
    { split.
      - intros (s & [?|Hs%list_elem_of_singleton]%elem_of_app & ?); [left; by exists s|].
        right. by subst.
      - intros [(s & ? & ?)|?]; [exists s; split; [|done]; apply elem_of_app; by left|].
        exists slot. split; [|done]. apply elem_of_app. right. by apply list_elem_of_singleton. }
    rewrite <- Hlast. unfold is_staked. destruct (EffectiveStake slot).
    + split; [by right|by eexists].
    + split; [by left|]. by intros [?|?].
Qed.

(** [settle] never reports [ErrVotingPowerNotEqualOne]; with a staked slot the
    percentages it leaves sum to one, and so do the voters' powers when no key
    is listed twice. *)
Lemma settle_spec seen a : acc_inv seen a ->
  (forall e, settle a <> Err e) /\
  forall a', settle a = Ok a' ->
    (forall k, is_Some (a'.(a_voters) !! k) <-> k ∈ map BLSPublicKey seen) /\
    ((exists s, s ∈ seen /\ is_staked s = true) ->
       a'.(ourPercentage) + a'.(theirPercentage) = OneDec) /\
    (NoDup (map BLSPublicKey seen) ->
       power_of a'.(a_voters) = a'.(ourPercentage) + a'.(theirPercentage)).
Proof.
  intros [Hdom Hsum Hptr Hatt Hlast]. unfold settle.
  destruct (Dec.Add (ourPercentage a) (theirPercentage a)) as [sum|e|] eqn:Es; cbn;
    [|by apply Add_not_Err in Es|done].
  apply Add_Ok in Es as [-> _].
  destruct (Dec.Sub OneDec _) as [diff|e|] eqn:Ed; cbn; [|by apply Sub_not_Err in Ed|done].
  apply Sub_Ok in Ed as [-> _].
  destruct (lastStakedVoter a) as [p|] eqn:Ep.
  2: { split; [done|]. intros a' [= <-]. split; [done|]. split; [|done].
       intros Hst%Hlast. by destruct Hst. }
  set (total := ourPercentage a + theirPercentage a) in *. unfold IsZero.
  destruct (Big.Sign (OneDec - total) =? 0) eqn:Ez; cbn [negb mbind outcome_bind].
  - destruct (Dec.Add (ourPercentage a) (theirPercentage a)) as [sum|e|] eqn:Es; cbn;
      [|by apply Add_not_Err in Es|done].
    apply Add_Ok in Es as [-> _]. fold total.
    assert (total = OneDec) as E by (unfold Big.Sign in Ez; lia).
    rewrite E. unfold Dec.Equal. rewrite Z.eqb_refl. cbn. split; [done|]. intros a' [= <-]. auto.
  - destruct (Dec.Add (OverallPercent (pointee p)) _) as [op|e|] eqn:Eo; cbn;
      [|by apply Add_not_Err in Eo|done].
    destruct (Dec.Add (theirPercentage a) _) as [their|e|] eqn:Et; cbn;
      [|by apply Add_not_Err in Et|done].
    apply Add_Ok in Eo as [-> _]. apply Add_Ok in Et as [-> _].
    destruct (Dec.Add (ourPercentage a) _) as [sum|e|] eqn:Es; cbn;
      [|by apply Add_not_Err in Es|done].
    apply Add_Ok in Es as [-> _].
    assert (ourPercentage a + (theirPercentage a + (OneDec - total)) = OneDec) as E
      by (subst total; unfold Dec in *; lia).
    rewrite E. unfold Dec.Equal. rewrite Z.eqb_refl. cbn. split; [done|]. intros a' [= <-].
    cbn [a_voters ourPercentage theirPercentage]. split; [|split; [done|]].
    + intros k. rewrite <- Hdom. destruct (attached p) eqn:Ea; [|done].
      destruct (decide (k = ptr_key p)) as [->|]; [|by rewrite lookup_insert_ne].
      rewrite lookup_insert_eq, (Hptr p eq_refl Ea). split; intros _; by eexists.
    + intros Hnd. rewrite (Hatt Hnd p eq_refl). unfold power_of in *.
      rewrite (map_sum_insert _ _ _ _ _ (Hptr p eq_refl (Hatt Hnd p eq_refl))), Hsum by done.
      cbn. subst total. unfold Dec in *. lia.
Qed.

(** ** When [Compute] succeeds, and what it computes *)

Definition itc_slots (slots : list Slot) : Z := sumZ (fun s => if is_staked s then 0 else 1) slots.

Lemma count_stake_spec slots :
  (forall s, s ∈ slots -> 0 <= stake_of s) -> fits (sumZ stake_of slots) ->
  Z.of_nat (length slots) < 2 ^ 62 ->
  foldM count_stake slots (ZeroDec, 0) = Ok (sumZ stake_of slots, itc_slots slots).
Proof.
  intros Hpos Hfit Hlen.
  destruct (foldM_total (fun d (r : Dec * Z) => r = (sumZ stake_of d, itc_slots d)) count_stake slots (ZeroDec, 0))
    as (r & -> & ->); [done| |done].
  intros d s rest r El ->. eexists. rewrite sumZ_app. unfold itc_slots. rewrite sumZ_app, !sumZ_cons.
  change (sumZ _ []) with 0. fold (itc_slots d). split; [|done].
  assert (forall l, (forall s, s ∈ l -> s ∈ slots) -> 0 <= sumZ stake_of l) as Hl
    by (intros l Hsub; apply sumZ_nonneg; auto).
  assert (0 <= sumZ stake_of d) by (apply Hl; rewrite El; set_solver).
  assert (0 <= sumZ stake_of rest) by (apply Hl; rewrite El; set_solver).
  assert (0 <= stake_of s) by (apply Hpos; rewrite El; set_solver).
  assert (0 <= itc_slots d <= Z.of_nat (length d)) as Hi.
  { unfold itc_slots. split; [apply sumZ_nonneg; intros; case_match; lia|].
    clear. induction d as [|x d IH]; [done|]. rewrite sumZ_cons. cbn [length]. case_match; lia. }
  rewrite El, length_app in Hlen. rewrite El, sumZ_app, sumZ_cons in Hfit.
  unfold count_stake. cbn [fst snd]. destruct (EffectiveStake s) as [e|] eqn:E.
  - assert (stake_of s = e) as Ee by (unfold stake_of; by rewrite E).
    assert (is_staked s = true) as -> by (unfold is_staked; by rewrite E). rewrite Ee in *.
    rewrite Add_fits by (unfold fits in *; unfold Dec in *; lia). cbn. repeat f_equal; unfold Dec in *; lia.
  - assert (stake_of s = 0) as -> by (unfold stake_of; by rewrite E).
    assert (is_staked s = false) as -> by (unfold is_staked; by rewrite E).
    rewrite i64_small by lia. repeat f_equal; unfold Dec in *; lia.
Qed.

Section compute_total.
Context (sched : Schedule) (c : Committee) (e : Z) (inst : instance).
Context (Hinst : InstanceForEpoch sched (Some e) = Ok inst).

(** What a committee of a running network satisfies. *)
Record committee_ok : Prop := {
  ok_internal : 0 <= IntelchainVotePercent inst;
  ok_external : 0 <= ExternalVotePercent inst;
  ok_percents : IntelchainVotePercent inst + ExternalVotePercent inst = OneDec;
  ok_stakes : forall s, s ∈ c.(Slots) -> is_staked s = true -> 0 < stake_of s;
  ok_fits : fits (sumZ stake_of c.(Slots));
  ok_length : Z.of_nat (length c.(Slots)) < 2 ^ 32;
  ok_internal_pos : 0 < itc_slots c.(Slots) -> 0 < IntelchainVotePercent inst
}.

Context (Hok : committee_ok).
Let total := sumZ stake_of c.(Slots).
Let itc := itc_slots c.(Slots).

Lemma stake_nonneg s : s ∈ c.(Slots) -> 0 <= stake_of s.
Proof.
  intros Hs. pose proof (ok_stakes Hok s Hs) as H. unfold is_staked, stake_of in *.
  destruct (EffectiveStake s); [apply Z.lt_le_incl; by apply H|done].
Qed.

Lemma stake_le_total s : s ∈ c.(Slots) -> stake_of s <= total.
Proof.
  intros Hs. subst total. apply list_elem_of_split in Hs as (l1 & l2 & El).
  pose proof stake_nonneg as Hn. rewrite El in *. rewrite sumZ_app, sumZ_cons.
  assert (0 <= sumZ stake_of l1) by (apply sumZ_nonneg; intros; apply Hn; set_solver).
  assert (0 <= sumZ stake_of l2) by (apply sumZ_nonneg; intros; apply Hn; set_solver). lia.
Qed.

Lemma itc_slots_pos s : s ∈ c.(Slots) -> is_staked s = false -> 1 <= itc.
Proof.
  intros Hs Hf. subst itc. apply list_elem_of_split in Hs as (l1 & l2 & El). rewrite El.
  unfold itc_slots. rewrite sumZ_app, sumZ_cons, Hf.
  assert (forall l, 0 <= sumZ (fun s => if is_staked s then 0 else 1) l) as Hl
    by (intros l; apply sumZ_nonneg; intros; case_match; lia).
  pose proof (Hl l1). pose proof (Hl l2). lia.
Qed.

Lemma OneDec_bounds : 0 < OneDec < 2 ^ 60.
Proof. unfold OneDec. rewrite precisionReuse_val. lia. Qed.

Lemma small_fits x : - 2 ^ 300 < x < 2 ^ 300 -> fits x.
Proof. unfold fits. lia. Qed.

Lemma make_member_total our their s :
  s ∈ c.(Slots) -> 0 <= our < 2 ^ 100 -> 0 <= their < 2 ^ 100 ->
  exists m our' their',
    make_member total (NewDec itc) (IntelchainVotePercent inst) (ExternalVotePercent inst) our their s
      = Ok (m, our', their') /\
    0 <= m.(OverallPercent) <= OneDec /\ our <= our' <= our + OneDec /\ their <= their' <= their + OneDec.
Proof.
  intros Hs Ho Ht. pose proof OneDec_bounds as HO.
  pose proof (ok_internal Hok). pose proof (ok_external Hok). pose proof (ok_percents Hok).
  unfold make_member. destruct (EffectiveStake s) as [st|] eqn:E.
  - assert (0 < st <= total) as Hst.
    { replace st with (stake_of s) by (unfold stake_of; by rewrite E).
      split; [apply (ok_stakes Hok); [done|unfold is_staked; by rewrite E]|by apply stake_le_total]. }
    assert (fits st) by (eapply (fits_le _ total); [lia|apply (ok_fits Hok)]).
    rewrite Add_fits by done. cbn [mbind outcome_bind].
    destruct (Quo_fraction st total) as (gp & -> & Hgp); [lia..|]. cbn [mbind outcome_bind].
    destruct (Mul_fraction gp (ExternalVotePercent inst)) as (op & -> & Hop);
      [lia|unfold Dec in *; lia|apply small_fits; lia|]. cbn [mbind outcome_bind].
    rewrite Add_fits by (apply small_fits; unfold Dec in *; lia). cbn [mbind outcome_bind].
    do 3 eexists. split; [done|]. cbn. unfold Dec in *. lia.
  - assert (1 <= itc) as Hi by (apply (itc_slots_pos s); [done|unfold is_staked; by rewrite E]).
    pose proof (ok_internal_pos Hok ltac:(subst itc; lia)) as Hp.
    destruct (Quo_shrink (IntelchainVotePercent inst) (NewDec itc)) as (op & -> & Hop);
      [done|unfold NewDec, OneDec in *; nia|apply small_fits; unfold Dec in *; lia|].
    cbn [mbind outcome_bind].
    destruct (Quo_fraction op (IntelchainVotePercent inst)) as (gp & -> & Hgp); [done..|].
    cbn [mbind outcome_bind].
    rewrite Add_fits by (apply small_fits; unfold Dec in *; lia). cbn [mbind outcome_bind].
    do 3 eexists. split; [done|]. cbn. unfold Dec in *. lia.
Qed.

(** The loop: the invariant, and bounds that keep every sum representable. *)
Record loop_inv (seen : list Slot) (a : Acc) : Prop := {
  l_inv : acc_inv seen a;
  l_our : 0 <= a.(ourPercentage) <= Z.of_nat (length seen) * OneDec;
  l_their : 0 <= a.(theirPercentage) <= Z.of_nat (length seen) * OneDec;
  l_ptr : forall p, a.(lastStakedVoter) = Some p -> 0 <= p.(pointee).(OverallPercent) <= OneDec
}.

Definition empty_acc : Acc :=
  {| a_voters := ∅; ourPercentage := ZeroDec; theirPercentage := ZeroDec; lastStakedVoter := None |}.

Lemma empty_acc_inv : loop_inv [] empty_acc.
Proof.
  split; [|done|done|done]. split; cbn.
  - intros k. rewrite lookup_empty. split; [by intros []|by intros ?%elem_of_nil].
  - intros _. unfold power_of. by rewrite map_sum_empty.
  - done.
  - done.
  - split; [by intros []|]. by intros (? & ?%elem_of_nil & _).
Qed.

Lemma loop_total : exists a,
  foldM (add_member total (NewDec itc) (IntelchainVotePercent inst) (ExternalVotePercent inst))
    c.(Slots) empty_acc = Ok a /\ loop_inv c.(Slots) a.
Proof.
  apply (foldM_total loop_inv); [apply empty_acc_inv|].
  intros d s rest a El [Hinv Ho Ht Hp]. pose proof OneDec_bounds as HO.
  assert (Z.of_nat (length d) < 2 ^ 32) as Hd.
  { pose proof (ok_length Hok) as Hl. rewrite El, length_app in Hl. lia. }
  destruct (make_member_total a.(ourPercentage) a.(theirPercentage) s) as (m & our & their & Hm & Hb & Hbo & Hbt);
    [rewrite El; set_solver|nia|nia|].
  assert (exists a', add_member total (NewDec itc) (IntelchainVotePercent inst)
    (ExternalVotePercent inst) a s = Ok a') as [a' Ha'] by (unfold add_member; rewrite Hm; by eexists).
  exists a'. split; [done|]. split; [by eapply add_member_inv|..];
    unfold add_member in Ha'; rewrite Hm in Ha'; injection Ha' as <-; cbn; rewrite ?length_app; cbn [length].
  - lia.
  - lia.
  - intros p. destruct (EffectiveStake s); [by intros [= <-]|apply Hp].
Qed.

Lemma settle_total a : loop_inv c.(Slots) a -> exists a', settle a = Ok a'.
Proof.
  intros [Hinv Ho Ht Hp]. pose proof OneDec_bounds as HO. pose proof (ok_length Hok) as Hl.
  assert (0 <= ourPercentage a < 2 ^ 100) by (split; [lia|nia]).
  assert (0 <= theirPercentage a < 2 ^ 100) by (split; [lia|nia]).
  destruct (settle_spec _ a Hinv) as [Hne _].
  destruct (settle a) as [a'|err|w] eqn:E; [by eexists|by destruct (Hne err)|]. exfalso. revert E.
  unfold settle. rewrite Add_fits by (apply small_fits; lia). cbn [mbind outcome_bind].
  rewrite Sub_fits by (apply small_fits; lia). cbn [mbind outcome_bind].
  destruct (lastStakedVoter a) as [p|]; [|done]. specialize (Hp p eq_refl).
  case_match; cbn [mbind outcome_bind].
  - rewrite Add_fits by (apply small_fits; lia). cbn [mbind outcome_bind].
    rewrite Add_fits by (apply small_fits; lia). cbn [mbind outcome_bind ourPercentage theirPercentage].
    rewrite Add_fits by (apply small_fits; lia). cbn [mbind outcome_bind]. by case_match.
  - rewrite Add_fits by (apply small_fits; lia). cbn [mbind outcome_bind]. by case_match.
Qed.

(** What the roster says of the committee. *)
Record roster_ok (r : Roster) : Prop := {
  ro_shard : r.(rShardID) = c.(ShardID);
  ro_ordered : r.(OrderedSlots) = map BLSPublicKey c.(Slots);
  ro_stake : r.(TotalEffectiveStake) = sumZ stake_of c.(Slots);
  ro_itc : r.(ITCSlotCount) = itc_slots c.(Slots);
  ro_voters : forall k, is_Some (r.(Voters) !! k) <-> k ∈ map BLSPublicKey c.(Slots);
  ro_total : has_staked c ->
    r.(OurVotingPowerTotalPercentage) + r.(TheirVotingPowerTotalPercentage) = OneDec;
  ro_powers : distinct_keys c ->
    power_of r.(Voters) = r.(OurVotingPowerTotalPercentage) + r.(TheirVotingPowerTotalPercentage)
}.

(** C5: voting power sums to one.  For a committee within the stated bounds
    [Compute] succeeds; its voters are the committee's keys; its two total
    percentages sum to exactly one as soon as one slot is staked, rounding
    notwithstanding; and when no BLS key is listed twice these totals are the
    sum of the individual voting powers.  [ErrVotingPowerNotEqualOne] is
    unreachable. *)
Theorem Compute_total_power : exists r, Compute sched c (Some e) = Ok r /\ roster_ok r.
Proof.
  unfold Compute. rewrite count_stake_spec; [|apply stake_nonneg|apply (ok_fits Hok)|pose proof (ok_length Hok); lia].
  cbn [mbind outcome_bind]. rewrite Hinst. cbn [mbind outcome_bind].
  destruct loop_total as (a & Ha & Hinv). unfold empty_acc, total, itc in Ha. rewrite Ha. cbn [mbind outcome_bind].
  destruct (settle_total a Hinv) as (a' & Ha'). rewrite Ha'. cbn [mbind outcome_bind].
  destruct (settle_spec _ a (l_inv _ _ Hinv)) as [_ Hs]. destruct (Hs a' Ha') as (Hdom & Htot & Hpow).
  eexists. split; [done|]. by split.
Qed.
End compute_total.

(** ** The voting power of a set of keys *)

Definition overall (r : Roster) (k : SerializedPublicKey) : Z :=
  match r.(Voters) !! k with Some v => v.(OverallPercent) | None => 0 end.

Definition power_set (r : Roster) (S : gset SerializedPublicKey) : Z := sumZ (overall r) (elements S).

(** Powers are not negative, and their total fits a [Dec]. *)
Record powers_ok (r : Roster) : Prop := {
  po_nonneg : forall k v, r.(Voters) !! k = Some v -> 0 <= v.(OverallPercent);
  po_fits : fits (power_of r.(Voters))
}.

Section power.
Context (r : Roster).

Lemma overall_nonneg k : powers_ok r -> 0 <= overall r k.
Proof. intros Hok. unfold overall. destruct (_ !! k) eqn:E; [by eapply po_nonneg|done]. Qed.

(** A power as a sum over any duplicate-free list that covers the set. *)
Lemma power_set_over S U : NoDup U -> (forall k, k ∈ S -> k ∈ U) ->
  power_set r S = sumZ (fun k => if decide (k ∈ S) then overall r k else 0) U.
Proof.
  intros HU HS. unfold power_set.
  rewrite (sumZ_perm _ U (elements S ++ filter (fun k => k ∉ S) U)).
  - rewrite sumZ_app, (sumZ_zero _ (filter _ U)), Z.add_0_r.
    + apply sumZ_ext. intros k Hk%elem_of_elements. by rewrite decide_True.
    + intros k [Hk _]%list_elem_of_filter. by rewrite decide_False.
  - apply NoDup_Permutation; [done| |].
    + apply NoDup_app. split_and!; [apply NoDup_elements| |by apply NoDup_filter].
      intros k Hk%elem_of_elements [? _]%list_elem_of_filter. done.
    + intros k. rewrite elem_of_app, elem_of_elements, list_elem_of_filter.
      destruct (decide (k ∈ S)); naive_solver.
Qed.

Lemma power_set_union_inter S T :
  power_set r (S ∪ T) + power_set r (S ∩ T) = power_set r S + power_set r T.
Proof.
  assert (NoDup (elements (S ∪ T))) as HU by apply NoDup_elements.
  rewrite (power_set_over (S ∪ T) _ HU), (power_set_over (S ∩ T) _ HU), (power_set_over S _ HU),
    (power_set_over T _ HU) by (intros; rewrite elem_of_elements; set_solver).
  rewrite <- !sumZ_plus. apply sumZ_ext. intros k Hk%elem_of_elements.
  repeat case_decide; set_solver by lia.
Qed.

Lemma power_set_mono S T : powers_ok r -> S ⊆ T -> power_set r S <= power_set r T.
Proof.
  intros Hok Hsub. assert (NoDup (elements T)) as HU by apply NoDup_elements.
  rewrite (power_set_over S _ HU), (power_set_over T _ HU) by (intros; rewrite elem_of_elements; set_solver).
  apply sumZ_le. intros k _. pose proof (overall_nonneg k Hok).
  repeat case_decide; set_solver by lia.
Qed.

Lemma power_set_voters : power_set r (dom r.(Voters)) = power_of r.(Voters).
Proof.
  unfold power_set, power_of, map_sum.
  rewrite (sumZ_perm _ (elements (dom (Voters r))) (map fst (map_to_list r.(Voters)))).
  - rewrite sumZ_map. apply sumZ_ext. intros [k v] Hkv%elem_of_map_to_list. unfold overall. cbn.
    by rewrite Hkv.
  - apply NoDup_Permutation; [apply NoDup_elements|apply NoDup_fst_map_to_list|].
    intros k. rewrite elem_of_elements, elem_of_dom. split.
    + intros [v Hv]. apply list_elem_of_In, in_map_iff. exists (k, v). split; [done|].
      by apply list_elem_of_In, elem_of_map_to_list.
    + intros Hk. apply list_elem_of_In, in_map_iff in Hk as ([k' v] & <- & Hv).
      apply list_elem_of_In, elem_of_map_to_list in Hv. by eexists.
Qed.

Lemma power_set_dom S : power_set r S = power_set r (S ∩ dom r.(Voters)).
Proof.
  assert (NoDup (elements S)) as HU by apply NoDup_elements.
  rewrite (power_set_over S _ HU), (power_set_over (S ∩ _) _ HU) by (intros; rewrite elem_of_elements; set_solver).
  apply sumZ_ext. intros k Hk%elem_of_elements. rewrite (decide_True (P := k ∈ S)) by done.
  case_decide as Hd; [done|]. unfold overall. destruct (Voters r !! k) eqn:E; [|done].
  exfalso. apply Hd. apply elem_of_intersection. split; [done|]. apply elem_of_dom. by eexists.
Qed.

Lemma power_set_le_total S : powers_ok r -> power_set r S <= power_of r.(Voters).
Proof.
  intros Hok. rewrite <- power_set_voters, (power_set_dom S). apply power_set_mono; [done|set_solver].
Qed.

Lemma power_set_nonneg S : powers_ok r -> 0 <= power_set r S.
Proof. intros Hok. apply sumZ_nonneg. intros. by apply overall_nonneg. Qed.

Lemma power_set_empty : power_set r ∅ = 0.
Proof. unfold power_set. by rewrite elements_empty. Qed.

Lemma power_set_insert k S : k ∉ S -> power_set r ({[k]} ∪ S) = overall r k + power_set r S.
Proof.
  intros Hk. unfold power_set. rewrite (sumZ_perm _ _ _ (elements_union_singleton S k Hk)).
  apply sumZ_cons.
Qed.
End power.

(** ** [VotePowerByMask] *)

Section by_mask.
Context {L : BLSLib}.

(** The keys whose bit is set. *)
Definition enabled_set (m : Mask) : gset SerializedPublicKey :=
  dom (filter (fun ki => bit m.(Bitmap) (Z.to_nat ki.2) = true) m.(PublicsIndex)).

Lemma elem_of_enabled_set m k : k ∈ enabled_set m <-> key_bit m k = true.
Proof.
  unfold enabled_set, key_bit. rewrite elem_of_dom. split.
  - intros [i [Hi Hb]%map_lookup_filter_Some]. by rewrite Hi.
  - destruct (_ !! k) as [i|] eqn:Hi; [|done]. intros Hb. exists i.
    by apply map_lookup_filter_Some.
Qed.

Definition masked (m : Mask) (r : Roster) (ki : SerializedPublicKey * Z) : Z :=
  if bit m.(Bitmap) (Z.to_nat ki.2) then overall r ki.1 else 0.

Lemma masked_sum m r : sumZ (masked m r) (map_to_list m.(PublicsIndex)) = power_set r (enabled_set m).
Proof.
  rewrite (power_set_over r _ (map fst (map_to_list m.(PublicsIndex)))).
  - rewrite sumZ_map. apply sumZ_ext. intros [k i] Hki%elem_of_map_to_list. unfold masked. cbn.
    assert (k ∈ enabled_set m <-> bit (Bitmap m) (Z.to_nat i) = true) as Hiff
      by (rewrite elem_of_enabled_set; unfold key_bit; by rewrite Hki).
    destruct (bit _ _); case_decide; try done; exfalso; naive_solver.
  - apply NoDup_fst_map_to_list.
  - intros k Hk. unfold enabled_set in Hk.
    apply elem_of_dom in Hk as [i [Hi _]%map_lookup_filter_Some].
    apply list_elem_of_In, in_map_iff. exists (k, i). split; [done|].
    by apply list_elem_of_In, elem_of_map_to_list.
Qed.

Lemma VotePowerByMask_total r m : mask_wf m -> powers_ok r ->
  VotePowerByMask r m = Ok (power_set r (enabled_set m)).
Proof.
  intros Hwf Hok.
  pose proof (power_set_le_total r (enabled_set m) Hok) as Hle. rewrite <- masked_sum in Hle |- *.
  unfold VotePowerByMask.
  match goal with |- foldM ?f _ _ = _ =>
    destruct (foldM_total (fun d (res : Dec) => res = sumZ (masked m r) d) f
      (map_to_list m.(PublicsIndex)) ZeroDec) as (res & Hres & ->) end; [done| |exact Hres].
  intros d [k i] rest res El ->. cbn [fst snd].
  assert (m.(PublicsIndex) !! k = Some i) as Hk
    by (apply elem_of_map_to_list; rewrite El; set_solver).
  pose proof (index_range m k i Hwf Hk) as Hi.
  assert (forall l, 0 <= sumZ (masked m r) l) as Hnn.
  { intros l. apply sumZ_nonneg. intros ki _. unfold masked. case_match; [by apply overall_nonneg|done]. }
  pose proof (Hnn d). pose proof (Hnn rest). pose proof (Hnn [(k, i)]) as H1.
  rewrite sumZ_cons in H1. change (sumZ (masked m r) []) with 0 in H1.
  rewrite El, sumZ_app, sumZ_cons in Hle. pose proof (po_fits r Hok) as Hfit.
  unfold IndexEnabled. rewrite (proj2 (Z.leb_gt _ _)) by lia.
  assert (bit_enabled m.(Bitmap) i = Ok (bit m.(Bitmap) (Z.to_nat i))) as ->.
  { rewrite <- (Z2Nat.id i) at 1 by lia.
    apply bit_enabled_Ok; [apply Hwf|apply Len_bound; [lia|apply Hwf]]. }
  rewrite sumZ_app, sumZ_cons. change (sumZ _ []) with 0. rewrite Z.add_0_r.
  change (masked m r (k, i)) with (if bit (Bitmap m) (Z.to_nat i) then overall r k else 0) in *.
  destruct (bit (Bitmap m) (Z.to_nat i)); [|eexists; split; [done|cbn; unfold Dec in *; lia]].
  unfold overall in *. destruct (Voters r !! k) as [v|]; [|eexists; split; [done|cbn; unfold Dec in *; lia]].
  rewrite Add_fits; [by eexists|]. unfold fits in *. unfold Dec in *. lia.
Qed.

(** The voting power of a mask.  On a well-formed mask and a roster with
    non-negative powers, [VotePowerByMask] succeeds and is the power of the set
    of enabled keys, whatever order Go walks the index in; it lies between 0
    and the roster's total, and keys outside the roster count for nothing. *)
Theorem VotePowerByMask_spec r m : mask_wf m -> powers_ok r ->
  VotePowerByMask r m = Ok (power_set r (enabled_set m)) /\
  0 <= power_set r (enabled_set m) <= power_of r.(Voters) /\
  power_set r (enabled_set m) = power_set r (enabled_set m ∩ dom r.(Voters)).
Proof.
  intros Hwf Hok. split; [by apply VotePowerByMask_total|].
  split; [split; [by apply power_set_nonneg|by apply power_set_le_total]|apply power_set_dom].
Qed.
End by_mask.

(** ** Witnesses and a limit of the guarantee *)

(** 68% internal, two Intelchain slots and two staked ones with stakes 1 and 2. *)
Definition sample_instance : instance :=
  mkInstance 4 250 170 (68 * 10 ^ 16) (32 * 10 ^ 16) [] [] [] 16384 0 emptyAllowlist ∅ 0 0.
Definition sample_committee : Committee :=
  mkCommittee 1 [mkSlot 1 11 None; mkSlot 2 12 None; mkSlot 3 13 (Some 1); mkSlot 4 14 (Some 2)].

Lemma Compute_total_power_witness :
  exists r, Compute (NewFixedSchedule sample_instance) sample_committee (Some 7) = Ok r /\
    power_of r.(Voters) = OneDec.
Proof.
  destruct (Compute_total_power (NewFixedSchedule sample_instance) sample_committee 7 sample_instance)
    as (r & H & Hr).
  - reflexivity.
  - split; [by vm_compute|by vm_compute|by vm_compute| |by vm_compute|by vm_compute|by vm_compute].
    intros s Hs. cbn in Hs. repeat (apply elem_of_cons in Hs as [->|Hs]; [by vm_compute|]).
    by apply elem_of_nil in Hs.
  - exists r. split; [exact H|]. rewrite (ro_powers _ _ Hr).
    + apply (ro_total _ _ Hr). exists (mkSlot 3 13 (Some 1)). split; [|done]. apply list_elem_of_In. cbn. auto.
    + apply (bool_decide_unpack _). by vm_compute.
Defined.

(** When a BLS key is listed twice the rounding difference may go to a voter
    object the roster does not hold, and the second slot's power is lost: the
    powers no longer sum to one although the two totals do. *)
Definition duplicate_committee : Committee :=
  mkCommittee 1 [mkSlot 1 11 None; mkSlot 3 13 (Some 1); mkSlot 3 13 (Some 2)].
Lemma Compute_duplicate_key :
  exists r, Compute (NewFixedSchedule sample_instance) duplicate_committee (Some 7) = Ok r /\
    r.(OurVotingPowerTotalPercentage) + r.(TheirVotingPowerTotalPercentage) = OneDec /\
    power_of r.(Voters) < OneDec.
Proof. eexists. split; [vm_compute; reflexivity|]. split; by vm_compute. Qed.

Definition sample_voters : gmap SerializedPublicKey AccommodateIntelchainVote :=
  list_to_map [(11, mkVote (mkPureStakedVote 1 11 0 0 0) true (7 * 10 ^ 17));
               (12, mkVote (mkPureStakedVote 2 12 0 0 0) false (3 * 10 ^ 17))].
Definition sample_roster : Roster := mkRoster sample_voters 1 [11; 12] 0 0 0 1.

Lemma VotePowerByMask_spec_witness :
  VotePowerByMask sample_roster (NewMask three_keys) = Ok 0.
Proof.
  assert (powers_ok sample_roster) as Hok.
  { split; [|by vm_compute]. intros k v Hk. apply elem_of_list_to_map_2 in Hk.
    repeat (apply elem_of_cons in Hk as [[= -> ->]|Hk]; [by vm_compute|]). by apply elem_of_nil in Hk. }
  destruct (VotePowerByMask_spec sample_roster (NewMask three_keys) (NewMask_wf three_keys) Hok) as [H _].
  rewrite H. by vm_compute.
Defined.
