(* ===== verification/Quorum.v ===== *)
(** * Quorum (consensus/quorum)

    [cIdentities] keeps the participants of a committee and, per FBFT phase,
    the ballots received; [stakedVoteWeight] and [uniformVoteWeight] are the
    two deciders built on it, [stakeVerifier] and [uniformVerifier] the two
    verifiers that judge a finished bitmap.

    Methods that mutate and may fail return the new state with the outcome.
    [threadSafeDeciderImpl] only adds a mutex around these methods and is not
    modelled.  Logging is left out. *)
From S2P Require Import Prelude Dec Bls Mask Params Sharding Shard VotePower.
Local Open Scope Z_scope.

(** ** Phases and policies *)

(** [type Phase byte]: three known phases, and any other byte. *)
Inductive Phase := Prepare | Commit | ViewChange | OtherPhase (b : Z).
#[export] Instance Phase_eq_dec : EqDecision Phase.
Proof. solve_decision. Defined.
Inductive Policy := SuperMajorityVote | SuperMajorityStake | OtherPolicy (b : Z).

(** The byte that indexes the maps keyed by phase. *)
Definition phase_byte (p : Phase) : Z :=
  match p with Prepare => 0 | Commit => 1 | ViewChange => 2 | OtherPhase b => b end.

Definition errPhaseUnknown : string := "invariant of known phase violated".

(** [numeric.NewDec(2).Quo(numeric.NewDec(3))] *)
Definition twoThird : Dec := match Dec.Quo (NewDec 2) (NewDec 3) with Ok d => d | _ => 0 end.

#[export] Instance Ballot_eq_dec : EqDecision Ballot.
Proof. solve_decision. Defined.

Section quorum.
Context {L : BLSLib}.

(** ** Identities and ballots *)

Record cIdentities := mkIdentities {
  publicKeys : list PublicKeyWrapper;
  keyIndexMap : gmap SerializedPublicKey Z;
  prepare : Round;
  commit : Round;
  viewChange : Round;
  participantsCount : Z
}.

Definition newCIdentities : cIdentities := {|
  publicKeys := []; keyIndexMap := ∅; prepare := NewRound; commit := NewRound;
  viewChange := NewRound; participantsCount := 0
|}.

(** The ballot box of a phase; an unknown phase reads an empty one. *)
Definition box (s : cIdentities) (p : Phase) : gmap SerializedPublicKey Ballot :=
  match p with
  | Prepare => s.(prepare).(BallotBox)
  | Commit => s.(commit).(BallotBox)
  | ViewChange => s.(viewChange).(BallotBox)
  | OtherPhase _ => ∅
  end.

Definition with_round (s : cIdentities) (p : Phase) (r : Round) : cIdentities :=
  match p with
  | Prepare => mkIdentities s.(publicKeys) s.(keyIndexMap) r s.(commit) s.(viewChange) s.(participantsCount)
  | Commit => mkIdentities s.(publicKeys) s.(keyIndexMap) s.(prepare) r s.(viewChange) s.(participantsCount)
  | ViewChange => mkIdentities s.(publicKeys) s.(keyIndexMap) s.(prepare) s.(commit) r s.(participantsCount)
  | OtherPhase _ => s
  end.

Definition round (s : cIdentities) (p : Phase) : Round :=
  match p with
  | Commit => s.(commit) | ViewChange => s.(viewChange) | _ => s.(prepare)
  end.

Definition ReadBallot (s : cIdentities) (p : Phase) (pubkey : SerializedPublicKey) : option Ballot :=
  box s p !! pubkey.

(** Go walks a map in no particular order; this list is one such order. *)
Definition ReadAllBallots (s : cIdentities) (p : Phase) : list Ballot :=
  map snd (map_to_list (box s p)).

(** One ballot of [AggregateVotes]' loop: skipped when one of its keys was
    collected before. *)
Definition collect (acc : gset SerializedPublicKey * list Sign) (ballot : Ballot)
    : gset SerializedPublicKey * list Sign :=
  let '(collectedKeys, sigs) := acc in
  let alreadyCollected := existsb (fun key => bool_decide (key ∈ collectedKeys)) ballot.(SignerPubKeys) in
  if alreadyCollected then (collectedKeys, sigs)
  else
    (* an error of DeserializeHexStr is ignored and leaves the zero signature *)
    let sig := default sig_zero (sig_Deserialize ballot.(Signature)) in
    (list_to_set ballot.(SignerPubKeys) ∪ collectedKeys, sigs ++ [sig]).

(** crypto/bls: [AggregateSig]. *)
Definition AggregateSig (sigs : list Sign) : Sign := foldl sig_add sig_zero sigs.

Definition AggregateBallots (ballots : list Ballot) : Sign :=
  AggregateSig (snd (foldl collect (∅, []) ballots)).
Definition AggregateVotes (s : cIdentities) (p : Phase) : Sign := AggregateBallots (ReadAllBallots s p).

Definition ParticipantsCount (s : cIdentities) : Z := s.(participantsCount).
Definition Participants (s : cIdentities) : list PublicKeyWrapper := s.(publicKeys).

Definition IndexOf (s : cIdentities) (pubKey : SerializedPublicKey) : Z :=
  match s.(keyIndexMap) !! pubKey with Some index => index | None => -1 end.

(** Go's [%] truncates; a zero divisor panics. *)
Definition go_rem (a b : Z) : outcome Z :=
  if b =? 0 then Panic "integer divide by zero" else Ok (Z.rem a b).

Definition clamp_nodes (s : cIdentities) (numNodes : Z) : Z :=
  if (numNodes <=? 0) || (Z.of_nat (length s.(publicKeys)) <? numNodes)
  then Z.of_nat (length s.(publicKeys)) else numNodes.

Definition NthNext (s : cIdentities) (pubKey : PublicKeyWrapper) (next : Z)
    : outcome (bool * PublicKeyWrapper) :=
  let idx0 := IndexOf s pubKey.(wBytes) in
  let found := negb (idx0 =? -1) in
  let numNodes := clamp_nodes s (ParticipantsCount s) in
  let! i := go_rem (idx0 + next) numNodes in
  let! key := idx s.(publicKeys) i in
  Ok (found, key).

Definition NthNextItc (s : cIdentities) (instance : instance) (pubKey : PublicKeyWrapper) (next : Z)
    : outcome (bool * PublicKeyWrapper) :=
  let idx0 := IndexOf s pubKey.(wBytes) in
  let found := negb (idx0 =? -1) in
  let numNodes := clamp_nodes s (NumIntelchainOperatedNodesPerShard instance) in
  let! i := go_rem (idx0 + next) numNodes in
  let! key := idx s.(publicKeys) i in
  Ok (found, key).

(** [publicToAddress]: later slots overwrite earlier ones; a missing key reads
    as the zero address. *)
Definition public_to_address (slotList : SlotList) : gmap SerializedPublicKey Address :=
  foldl (fun m slot => <[slot.(BLSPublicKey) := slot.(EcdsaAddress)]> m) ∅ slotList.
Definition address_of (m : gmap SerializedPublicKey Address) (k : SerializedPublicKey) : Address :=
  default 0 (m !! k).

(** The [for] loop of [NthNextValidator] does not always end: it runs on fuel,
    and [None] means that the fuel ran out. *)
Fixpoint NthNextValidator_loop (fuel : nat) (keys : list PublicKeyWrapper)
    (addr : SerializedPublicKey -> Address) (pubKey : PublicKeyWrapper) (next i : Z)
    : option (outcome PublicKeyWrapper) :=
  match fuel with
  | O => None
  | S fuel =>
      match (let! i := go_rem (i + next) (Z.of_nat (length keys)) in
             let! key := idx keys i in Ok (i, key)) with
      | Ok (i, key) =>
          if addr key.(wBytes) =? addr pubKey.(wBytes)
          then NthNextValidator_loop fuel keys addr pubKey next (i + 1)
          else Some (Ok key)
      | Err e => Some (Err e)
      | Panic w => Some (Panic w)
      end
  end.

Definition NthNextValidator (fuel : nat) (s : cIdentities) (slotList : SlotList)
    (pubKey : PublicKeyWrapper) (next : Z) : option (outcome (bool * PublicKeyWrapper)) :=
  match s.(publicKeys) with
  | [] => Some (Ok (false, pubKey))
  | _ =>
      if next <? 0 then Some (Ok (false, pubKey))
      else
        let publicToAddress := public_to_address slotList in
        let idx0 := IndexOf s pubKey.(wBytes) in
        let found := negb (idx0 =? -1) in
        match NthNextValidator_loop fuel s.(publicKeys) (address_of publicToAddress) pubKey next idx0 with
        | Some r => Some (let! key := r in Ok (found, key))
        | None => None
        end
  end.

Definition FirstParticipant (s : cIdentities) (instance : instance) : outcome PublicKeyWrapper :=
  idx s.(publicKeys) 0.

Definition UpdateParticipants (s : cIdentities) (pubKeys allowlist : list PublicKeyWrapper) : cIdentities :=
  {| publicKeys := pubKeys; keyIndexMap := index_of_keys pubKeys;
     prepare := s.(prepare); commit := s.(commit); viewChange := s.(viewChange);
     participantsCount := Z.of_nat (length pubKeys) |}.

Definition SignersCount (s : cIdentities) (p : Phase) : Z := Z.of_nat (size (box s p)).

(** The first loop of [submitVote]: no key twice, none already voted. *)
Fixpoint check_votes (s : cIdentities) (p : Phase) (seenKeys : gset SerializedPublicKey)
    (pubkeys : list SerializedPublicKey) : outcome unit :=
  match pubkeys with
  | [] => Ok tt
  | pubKey :: rest =>
      if decide (pubKey ∈ seenKeys) then Err "duplicate key found in votes"
      else match ReadBallot s p pubKey with
           | Some _ => Err "vote is already submitted"
           | None => check_votes s p ({[pubKey]} ∪ seenKeys) rest
           end
  end.

Definition submitVote (s : cIdentities) (p : Phase) (pubkeys : list SerializedPublicKey) (sig : Sign)
    (headerHash height viewID : Z) : outcome (cIdentities * Ballot) :=
  let! _ := check_votes s p ∅ pubkeys in
  let ballot := {| SignerPubKeys := pubkeys; BlockHeaderHash := headerHash;
                   Signature := sig_Serialize sig; Height := height; ViewID := viewID |} in
  let! s := foldM (fun s pubKey =>
      match p with
      | OtherPhase _ => Err errPhaseUnknown
      | _ => Ok (with_round s p (mkRound (round s p).(AggregatedVote) (<[pubKey := ballot]> (box s p))))
      end) pubkeys s in
  Ok (s, ballot).

Definition reset (s : cIdentities) (ps : list Phase) : cIdentities :=
  foldl (fun s p => with_round s p NewRound) s ps.

Definition TwoThirdsSignersCount (s : cIdentities) : Z :=
  i64 (Z.quot (i64 (ParticipantsCount s * 2)) 3 + 1).

(** ** The staked decider *)

Record TallyResult := mkTallyResult { ourPercent : Dec; theirPercent : Dec }.
Record tallyAndQuorum := mkTally { tally : Dec; quorumAchieved : bool }.
Record VoteTally := mkVoteTally {
  tPrepare : tallyAndQuorum; tCommit : tallyAndQuorum; tViewChange : tallyAndQuorum
}.
Definition zero_tally : tallyAndQuorum := mkTally (NewDec 0) false.
Definition newVoteTally : VoteTally := mkVoteTally zero_tally zero_tally zero_tally.

Record stakedVoteWeight := mkStaked {
  cid : cIdentities;
  roster : Roster;
  voteTally : VoteTally;
  lastPower : gmap Z Dec
}.

Definition with_tally (t : VoteTally) (p : Phase) (x : tallyAndQuorum) : VoteTally :=
  match p with
  | Prepare => mkVoteTally x t.(tCommit) t.(tViewChange)
  | Commit => mkVoteTally t.(tPrepare) x t.(tViewChange)
  | ViewChange => mkVoteTally t.(tPrepare) t.(tCommit) x
  | OtherPhase _ => t
  end.
Definition tally_of (t : VoteTally) (p : Phase) : option tallyAndQuorum :=
  match p with
  | Prepare => Some t.(tPrepare) | Commit => Some t.(tCommit) | ViewChange => Some t.(tViewChange)
  | OtherPhase _ => None
  end.

Definition QuorumThreshold (v : stakedVoteWeight) : Dec := twoThird.

(** Membership, and one account per multi-signature unless Intelchain's. *)
Fixpoint check_signers (r : Roster) (signerAddr : option Address) (pubKeys : list PublicKeyWrapper)
    : outcome unit :=
  match pubKeys with
  | [] => Ok tt
  | pubKey :: rest =>
      match r.(Voters) !! pubKey.(wBytes) with
      | None => Err "Signer not in committee"
      | Some voter =>
          let account := voter.(pure_vote).(EarningAccount) in
          match signerAddr with
          | None => check_signers r (Some account) rest
          | Some a =>
              if negb (a =? account) && negb voter.(IsIntelchainNode)
              then Err "Multiple signer accounts used in multi-sig"
              else check_signers r (Some a) rest
          end
      end
  end.

Definition additional_power (r : Roster) (keys : list SerializedPublicKey) : outcome Dec :=
  foldM (fun acc k =>
      match r.(Voters) !! k with
      | Some voter => Dec.Add acc voter.(OverallPercent)
      | None => Panic "nil pointer dereference"
      end) keys (NewDec 0).

Definition AddNewVote (v : stakedVoteWeight) (p : Phase) (pubKeys : list PublicKeyWrapper) (sig : Sign)
    (headerHash height viewID : Z) : stakedVoteWeight * outcome Ballot :=
  match check_signers v.(roster) None pubKeys with
  | Err e => (v, Err e) | Panic w => (v, Panic w)
  | Ok _ =>
      let pubKeysBytes := map wBytes pubKeys in
      match submitVote v.(cid) p pubKeysBytes sig headerHash height viewID with
      | Err e => (v, Err e) | Panic w => (v, Panic w)
      | Ok (cid', ballot) =>
          let v := mkStaked cid' v.(roster) v.(voteTally) v.(lastPower) in
          match additional_power v.(roster) pubKeysBytes with
          | Err e => (v, Err e) | Panic w => (v, Panic w)
          | Ok additionalVotePower =>
              match tally_of v.(voteTally) p with
              | None => (v, Err "stakedVoteWeight not cache this phase")
              | Some tq =>
                  match Dec.Add tq.(tally) additionalVotePower with
                  | Err e => (v, Err e) | Panic w => (v, Panic w)
                  | Ok t =>
                      let qa := if negb tq.(quorumAchieved) then GT t (QuorumThreshold v)
                                else tq.(quorumAchieved) in
                      (mkStaked v.(cid) v.(roster) (with_tally v.(voteTally) p (mkTally t qa)) v.(lastPower),
                       Ok ballot)
                  end
              end
          end
      end
  end.

Definition IsQuorumAchieved (v : stakedVoteWeight) (p : Phase) : bool :=
  match tally_of v.(voteTally) p with Some tq => tq.(quorumAchieved) | None => false end.

(** [computeTotalPowerByMask]: the loop of [VotePowerByMask] written again. *)
Definition computeTotalPowerByMask (v : stakedVoteWeight) (mask : Mask) : outcome Dec :=
  foldM (fun currentTotal ki =>
      match IndexEnabled mask ki.2 with
      | Panic w => Panic w
      | Ok true =>
          match v.(roster).(Voters) !! ki.1 with
          | Some voter => Dec.Add currentTotal voter.(OverallPercent)
          | None => Ok currentTotal
          end
      | _ => Ok currentTotal
      end)
    (map_to_list mask.(PublicsIndex)) ZeroDec.

Definition IsQuorumAchievedByMask (v : stakedVoteWeight) (mask : option Mask) : outcome bool :=
  let threshold := QuorumThreshold v in
  match mask with
  | None => Ok false
  | Some mask =>
      let! currentTotalPower := computeTotalPowerByMask v mask in
      Ok (GT currentTotalPower threshold)
  end.

Definition IsAllSigsCollected (v : stakedVoteWeight) : bool :=
  Dec.Equal v.(voteTally).(tCommit).(tally) (NewDec 1).

Definition ResetPrepareAndCommitVotes (v : stakedVoteWeight) : stakedVoteWeight :=
  {| cid := reset v.(cid) [Prepare; Commit];
     roster := v.(roster);
     voteTally := mkVoteTally zero_tally zero_tally v.(voteTally).(tViewChange);
     lastPower := <[phase_byte Commit := v.(voteTally).(tCommit).(tally)]>
                    (<[phase_byte Prepare := v.(voteTally).(tPrepare).(tally)]> v.(lastPower)) |}.

Definition ResetViewChangeVotes (v : stakedVoteWeight) : stakedVoteWeight :=
  {| cid := reset v.(cid) [ViewChange];
     roster := v.(roster);
     voteTally := mkVoteTally v.(voteTally).(tPrepare) v.(voteTally).(tCommit) zero_tally;
     lastPower := <[phase_byte ViewChange := v.(voteTally).(tViewChange).(tally)]> v.(lastPower) |}.

Definition SetVoters (sched : Schedule) (v : stakedVoteWeight) (subCommittee : Committee)
    (epoch : option Z) : stakedVoteWeight * outcome TallyResult :=
  let v := ResetViewChangeVotes (ResetPrepareAndCommitVotes v) in
  match Compute sched subCommittee epoch with
  | Err e => (v, Err e) | Panic w => (v, Panic w)
  | Ok r => (mkStaked v.(cid) r v.(voteTally) v.(lastPower),
             Ok (mkTallyResult r.(OurVotingPowerTotalPercentage) r.(TheirVotingPowerTotalPercentage)))
  end.

Definition SetRawStake (v : stakedVoteWeight) (key : SerializedPublicKey) (d : Dec) : stakedVoteWeight :=
  match v.(roster).(Voters) !! key with
  | Some voter =>
      let pv := voter.(pure_vote) in
      let pv' := mkPureStakedVote pv.(EarningAccount) pv.(Identity) pv.(GroupPercent) pv.(vEffectiveStake) d in
      let voter' := mkVote pv' voter.(IsIntelchainNode) voter.(OverallPercent) in
      let r := v.(roster) in
      mkStaked v.(cid)
        (mkRoster (<[key := voter']> r.(Voters)) r.(rShardID) r.(OrderedSlots)
           r.(OurVotingPowerTotalPercentage) r.(TheirVotingPowerTotalPercentage)
           r.(TotalEffectiveStake) r.(ITCSlotCount))
        v.(voteTally) v.(lastPower)
  | None => v
  end.

Definition CurrentTotalPower (v : stakedVoteWeight) (p : Phase) : outcome Dec :=
  match v.(lastPower) !! phase_byte p with
  | Some power => Ok power
  | None => Err "stakedVoteWeight not cache this phase"
  end.

(** ** The uniform decider *)

Record uniformVoteWeight := mkUniform {
  ucid : cIdentities;
  lastPowerSignersCountCache : gmap Z Z;
  lastParticipantsCount : Z
}.

Definition uAddNewVote (v : uniformVoteWeight) (p : Phase) (pubKeys : list PublicKeyWrapper) (sig : Sign)
    (headerHash height viewID : Z) : uniformVoteWeight * outcome Ballot :=
  match submitVote v.(ucid) p (map wBytes pubKeys) sig headerHash height viewID with
  | Ok (cid', ballot) =>
      (mkUniform cid' v.(lastPowerSignersCountCache) v.(lastParticipantsCount), Ok ballot)
  | Err e => (v, Err e)
  | Panic w => (v, Panic w)
  end.

Definition uIsQuorumAchieved (v : uniformVoteWeight) (p : Phase) : bool :=
  TwoThirdsSignersCount v.(ucid) <=? SignersCount v.(ucid) p.

Definition uIsQuorumAchievedByMask (v : uniformVoteWeight) (mask : option Mask) : outcome bool :=
  match mask with
  | None => Ok false
  | Some mask =>
      let threshold := TwoThirdsSignersCount v.(ucid) in
      let! currentTotalPower := CountOneBits mask.(Bitmap) in
      Ok (negb (currentTotalPower <? threshold))
  end.

Definition uQuorumThreshold (v : uniformVoteWeight) : Dec := NewDec (TwoThirdsSignersCount v.(ucid)).
Definition uIsAllSigsCollected (v : uniformVoteWeight) : bool :=
  SignersCount v.(ucid) Commit =? ParticipantsCount v.(ucid).
Definition uSetVoters (v : uniformVoteWeight) (subCommittee : Committee) (epoch : option Z)
    : uniformVoteWeight * outcome (option TallyResult) := (v, Ok None).

Definition uResetPrepareAndCommitVotes (v : uniformVoteWeight) : uniformVoteWeight :=
  {| ucid := reset v.(ucid) [Prepare; Commit];
     lastPowerSignersCountCache :=
       <[phase_byte Commit := SignersCount v.(ucid) Commit]>
         (<[phase_byte Prepare := SignersCount v.(ucid) Prepare]> v.(lastPowerSignersCountCache));
     lastParticipantsCount := ParticipantsCount v.(ucid) |}.

Definition uResetViewChangeVotes (v : uniformVoteWeight) : uniformVoteWeight :=
  {| ucid := reset v.(ucid) [ViewChange];
     lastPowerSignersCountCache :=
       <[phase_byte ViewChange := SignersCount v.(ucid) ViewChange]> v.(lastPowerSignersCountCache);
     lastParticipantsCount := ParticipantsCount v.(ucid) |}.

Definition uCurrentTotalPower (v : uniformVoteWeight) (p : Phase) : outcome Dec :=
  if v.(lastParticipantsCount) =? 0 then Err "uniformVoteWeight not cache last participants count"
  else match v.(lastPowerSignersCountCache) !! phase_byte p with
       | Some n => Dec.Quo (NewDec n) (NewDec v.(lastParticipantsCount))
       | None => Err "uniformVoteWeight not cache this phase"
       end.

(** [NewDecider]; an unknown policy gives a nil interface. *)
Definition NewDecider (p : Policy) (shardID : Z) : option (uniformVoteWeight + stakedVoteWeight) :=
  match p with
  | SuperMajorityVote => Some (inl (mkUniform newCIdentities ∅ 0))
  | SuperMajorityStake => Some (inr (mkStaked newCIdentities (NewRoster shardID) newVoteTally ∅))
  | OtherPolicy _ => None
  end.

(** ** Verifiers (verifier.go) *)

Record stakeVerifier := mkStakeVerifier { sv_r : Roster }.
Record uniformVerifier := mkUniformVerifier { pubKeyCnt : Z }.

Definition newStakeVerifier (sched : Schedule) (committee : Committee) (epoch : option Z)
    : outcome stakeVerifier :=
  match Compute sched committee epoch with
  | Ok r => Ok (mkStakeVerifier r)
  | Err e => Err e   (* wrapped with "compute staking vote-power" *)
  | Panic w => Panic w
  end.

Definition svThreshold : Dec := twoThird.
Definition svIsQuorumAchievedByMask (sv : stakeVerifier) (mask : option Mask) : outcome bool :=
  match mask with
  | None => Ok false
  | Some mask => let! vp := VotePowerByMask sv.(sv_r) mask in Ok (GT vp svThreshold)
  end.

Definition newUniformVerifier (committee : option Committee) : outcome uniformVerifier :=
  let! keys := BLSPublicKeys committee in Ok (mkUniformVerifier (Z.of_nat (length keys))).

Definition thresholdKeyCount (uv : uniformVerifier) : Z :=
  i64 (Z.quot (i64 (uv.(pubKeyCnt) * 2)) 3 + 1).
Definition uvIsQuorumAchievedByMask (uv : uniformVerifier) (mask : option Mask) : outcome bool :=
  match mask with
  | None => Panic "nil pointer dereference"
  | Some mask =>
      let got := Z.of_nat (length mask.(Publics)) in
      let exp := thresholdKeyCount uv in
      Ok (exp <? got)
  end.

Definition NewVerifier (sched : Schedule) (committee : Committee) (epoch : option Z) (isStaking : bool)
    : outcome (uniformVerifier + stakeVerifier) :=
  if isStaking then let! v := newStakeVerifier sched committee epoch in Ok (inr v)
  else let! v := newUniformVerifier (Some committee) in Ok (inl v).

End quorum.
