(* ===== verification/QuorumSafety.v ===== *)
(** * Properties of the quorum component

    Votes: what [submitVote] accepts and records, and that the aggregated
    signature does not depend on the order Go walks the ballot box in.
    Tallies: in every reachable state of the staked decider each phase's tally
    is the voting power of the keys that voted, and the quorum flag says
    whether it exceeds two thirds.  Safety: two quorums share more than a third
    of the power.  Agreement of deciders and verifiers.  Leader succession. *)
From Stdlib Require Import Znumtheory.
From S2P Require Import Prelude Dec Bls Mask Params Sharding Networks Shard VotePower Quorum.
Local Open Scope Z_scope.

Section votes.
Context {L : BLSLib}.

Definition known (p : Phase) : Prop := match p with OtherPhase _ => False | _ => True end.
#[export] Instance known_dec p : Decision (known p).
Proof. destruct p; simpl; apply _. Defined.

(** ** [submitVote] *)

Lemma check_votes_spec s p seen keys :
  check_votes s p seen keys = Ok tt <->
  NoDup keys /\ (forall k, k ∈ keys -> k ∉ seen /\ box s p !! k = None).
Proof.
  revert seen. induction keys as [|k keys IH]; intros seen; simpl.
  { split; [|done]. intros _. split; [constructor|]. by intros k ?%elem_of_nil. }
  unfold ReadBallot. case_decide as Hk.
  { split; [done|]. intros [_ H]. destruct (H k); [by left|done]. }
  destruct (box s p !! k) as [b|] eqn:Eb.
  { split; [done|]. intros [_ H]. destruct (H k) as [_ ?]; [by left|congruence]. }
  rewrite IH, NoDup_cons. split.
  - intros [Hnd H]. split_and!; [|done|].
    + intros Hin. destruct (H k Hin) as [Hn _]. set_solver.
    + intros k' [->|Hin]%elem_of_cons; [done|]. destruct (H k' Hin). set_solver.
  - intros [[Hn Hnd] H]. split; [done|]. intros k' Hin.
    destruct (H k') as [? ?]; [by right|]. split; [|done].
    intros [->%elem_of_singleton|?]%elem_of_union; done.
Qed.

Lemma check_votes_not_Panic s p seen keys w : check_votes s p seen keys <> Panic w.
Proof. revert seen. induction keys; intros seen; simpl; [done|]. repeat case_match; auto. Qed.

(** The ballot box after a vote. *)
Definition record_votes (m : gmap SerializedPublicKey Ballot) (b : Ballot) (keys : list SerializedPublicKey) :=
  foldl (fun m k => <[k := b]> m) m keys.

Lemma lookup_record_votes m b keys k :
  record_votes m b keys !! k = if decide (k ∈ keys) then Some b else m !! k.
Proof.
  unfold record_votes. revert m. induction keys as [|x keys IH]; intros m; cbn [foldl].
  { rewrite decide_False; [done|]. by intros ?%elem_of_nil. }
  rewrite IH. destruct (decide (k ∈ keys)) as [Hin|Hn].
  { rewrite decide_True; [done|]. by right. }
  destruct (decide (k = x)) as [->|Hne].
  - rewrite lookup_insert_eq, decide_True; [done|]. by left.
  - rewrite lookup_insert_ne, decide_False; [done| |done]. intros [?|?]%elem_of_cons; done.
Qed.

Lemma round_with_round s p r : known p -> round (with_round s p r) p = r.
Proof. by destruct p. Qed.
Lemma box_round s p : known p -> box s p = (round s p).(BallotBox).
Proof. by destruct p. Qed.
Lemma box_with_round s p r : known p -> box (with_round s p r) p = r.(BallotBox).
Proof. by destruct p. Qed.
Lemma box_with_round_ne s p q r : p <> q -> box (with_round s p r) q = box s q.
Proof. by destruct p, q. Qed.
Lemma with_round_twice s p r1 r2 : with_round (with_round s p r1) p r2 = with_round s p r2.
Proof. by destruct p. Qed.
Lemma with_round_id s p : with_round s p (round s p) = s.
Proof. by destruct s, p. Qed.

Lemma submit_loop s p b keys : known p ->
  foldM (fun s pubKey =>
      match p with
      | OtherPhase _ => Err errPhaseUnknown
      | _ => Ok (with_round s p (mkRound (round s p).(AggregatedVote) (<[pubKey := b]> (box s p))))
      end) keys s
  = Ok (with_round s p (mkRound (round s p).(AggregatedVote) (record_votes (box s p) b keys))).
Proof.
  intros Hp. revert s. induction keys as [|k keys IH]; intros s; cbn [foldM].
  { unfold record_votes. cbn. rewrite box_round by done. f_equal.
    rewrite <- (with_round_id s p) at 1. by destruct (round s p). }
  destruct p; try done; cbn [mbind outcome_bind]; rewrite IH; f_equal; by destruct s.
Qed.

(** The ballot a submission records. *)
Definition ballot_of (keys : list SerializedPublicKey) (sig : Sign) (h height view : Z) : Ballot :=
  mkBallot keys h (sig_Serialize sig) height view.

(** [submitVote] accepts a multi-signature in a known phase exactly when
    none of its keys is repeated in it or has voted before in this phase.  It
    then records the one ballot under each of the keys and changes nothing
    else: no other key, and no other phase.  Otherwise it reports an error. *)
Theorem submitVote_spec s p keys sig h height view : known p ->
  if decide (NoDup keys /\ Forall (fun k => ReadBallot s p k = None) keys) then
    exists s', submitVote s p keys sig h height view = Ok (s', ballot_of keys sig h height view) /\
      (forall k, ReadBallot s' p k =
         if decide (k ∈ keys) then Some (ballot_of keys sig h height view) else ReadBallot s p k) /\
      (forall q k, q <> p -> ReadBallot s' q k = ReadBallot s q k) /\
      Participants s' = Participants s
  else exists e, submitVote s p keys sig h height view = Err e.
Proof.
  intros Hp. unfold submitVote. case_decide as Hc.
  - rewrite (proj2 (check_votes_spec s p ∅ keys)).
    2: { destruct Hc as [? Hk]. rewrite Forall_forall in Hk. split; [done|].
         intros k Hin. split; [set_solver|by apply Hk]. }
    cbn [mbind outcome_bind]. rewrite submit_loop by done. cbn [mbind outcome_bind].
    eexists. split; [done|]. unfold ReadBallot. split_and!.
    + intros k. rewrite box_with_round by done. apply lookup_record_votes.
    + intros q k Hq. by rewrite box_with_round_ne.
    + by destruct p.
  - destruct (check_votes s p ∅ keys) as [[]|e|w] eqn:E; cbn; [|by eexists|].
    + exfalso. apply Hc. apply check_votes_spec in E as [? Hk]. split; [done|].
      apply Forall_forall. intros k Hin. by apply Hk.
    + by apply check_votes_not_Panic in E.
Qed.

Lemma submitVote_inv s p keys sig h height view s' b : known p ->
  submitVote s p keys sig h height view = Ok (s', b) ->
  NoDup keys /\ (forall k, k ∈ keys -> box s p !! k = None) /\ b.(SignerPubKeys) = keys /\
  s' = with_round s p (mkRound (round s p).(AggregatedVote) (record_votes (box s p) b keys)).
Proof.
  intros Hp H. unfold submitVote in H. apply bind_Ok in H as ([] & Hc & H).
  apply check_votes_spec in Hc as [Hnd Hk]. rewrite submit_loop in H by done.
  cbn [mbind outcome_bind] in H. injection H as <- <-. split; [done|].
  split; [intros k Hin; by apply Hk|done].
Qed.

(** ** Coherent ballot boxes *)

(** Every key of a recorded ballot is recorded with that ballot. *)
Definition coherent (m : gmap SerializedPublicKey Ballot) : Prop :=
  forall k b, m !! k = Some b ->
    k ∈ b.(SignerPubKeys) /\ forall k', k' ∈ b.(SignerPubKeys) -> m !! k' = Some b.

Lemma coherent_empty : coherent ∅.
Proof. intros k b. by rewrite lookup_empty. Qed.

Lemma coherent_record m b :
  coherent m -> (forall k, k ∈ b.(SignerPubKeys) -> m !! k = None) ->
  coherent (record_votes m b b.(SignerPubKeys)).
Proof.
  intros Hm Hb k b'. rewrite lookup_record_votes. case_decide as Hk.
  - intros [= <-]. split; [done|]. intros k' Hk'. by rewrite lookup_record_votes, decide_True.
  - intros [Hin Hall]%Hm. split; [done|]. intros k' Hk'. rewrite lookup_record_votes.
    rewrite decide_False; [by apply Hall|]. intros Hc. apply Hb in Hc. rewrite Hall in Hc; done.
Qed.

(** ** Aggregation *)

Context (laws : BLSLaws L).

Definition sig_of (b : Ballot) : Sign := default sig_zero (sig_Deserialize b.(Signature)).
Definition sig_sum (l : list Sign) : Sign := foldr sig_add sig_zero l.

Lemma sig_sum_app l1 l2 : sig_sum (l1 ++ l2) = sig_add (sig_sum l1) (sig_sum l2).
Proof.
  induction l1 as [|s l1 IH]; simpl.
  - by rewrite sig_add_comm, sig_add_0.
  - fold (sig_sum (l1 ++ l2)). by rewrite IH, sig_add_assoc.
Qed.

Lemma sig_sum_perm l1 l2 : l1 ≡ₚ l2 -> sig_sum l1 = sig_sum l2.
Proof.
  induction 1 as [|s l1 l2 _ IH|s s' l|l1 l2 l3 _ IH1 _ IH2]; simpl; [done| | |by rewrite IH1].
  - f_equal. exact IH.
  - by rewrite !sig_add_assoc, (sig_add_comm s').
Qed.

Lemma AggregateSig_sum l : AggregateSig l = sig_sum l.
Proof.
  unfold AggregateSig.
  enough (forall a, foldl sig_add a l = sig_add a (sig_sum l)) as H
    by (by rewrite H, sig_add_comm, sig_add_0).
  induction l as [|s l IH]; intros a; simpl; [by rewrite sig_add_0|].
  rewrite IH. fold (sig_sum l). by rewrite sig_add_assoc.
Qed.

Section aggregate.
Context (m : gmap SerializedPublicKey Ballot) (Hm : coherent m).

Definition in_box (b : Ballot) : Prop := exists k, m !! k = Some b.

Lemma in_box_keys b k : in_box b -> k ∈ b.(SignerPubKeys) -> m !! k = Some b.
Proof. intros [k' Hk'] Hk. by apply (Hm k' b Hk'). Qed.

Lemma in_box_signer b : in_box b -> exists k, k ∈ b.(SignerPubKeys).
Proof. intros [k' Hk']. exists k'. by apply (Hm k' b Hk'). Qed.

(** The loop keeps the first copy of each ballot that was not collected. *)
Lemma collect_kept ballots seen K sigs :
  Forall in_box ballots -> Forall in_box seen ->
  (forall k, k ∈ K <-> exists b, b ∈ seen /\ k ∈ b.(SignerPubKeys)) ->
  exists kept, snd (foldl collect (K, sigs) ballots) = sigs ++ map sig_of kept /\ NoDup kept /\
    forall b, b ∈ kept <-> b ∈ ballots /\ b ∉ seen.
Proof.
  intros Hb. revert seen K sigs. induction Hb as [|b ballots Hb _ IH]; intros seen K sigs Hs HK.
  { exists []. split; [by rewrite app_nil_r|]. split; [constructor|]. set_solver. }
  cbn [foldl].
  assert (existsb (fun key => bool_decide (key ∈ K)) b.(SignerPubKeys) = bool_decide (b ∈ seen)) as Hex.
  { apply Bool.eq_iff_eq_true. rewrite existsb_exists, bool_decide_eq_true. split.
    - intros (k & Hk%list_elem_of_In & Hin%bool_decide_eq_true). apply HK in Hin as (b' & Hb' & Hk').
      rewrite Forall_forall in Hs. pose proof (in_box_keys b' k (Hs _ Hb') Hk').
      pose proof (in_box_keys b k Hb Hk). congruence.
    - intros Hin. destruct (in_box_signer b Hb) as [k Hk]. exists k.
      split; [by apply list_elem_of_In|]. apply bool_decide_eq_true, HK. by exists b. }
  assert (collect (K, sigs) b = if bool_decide (b ∈ seen) then (K, sigs)
    else (list_to_set b.(SignerPubKeys) ∪ K, sigs ++ [sig_of b])) as -> by (unfold collect; by rewrite Hex).
  case_bool_decide as Hseen.
  - destruct (IH seen K sigs Hs HK) as (kept & -> & Hnd & Hin). exists kept. split; [done|].
    split; [done|]. intros b'. rewrite Hin. set_solver.
  - destruct (IH (b :: seen) (list_to_set b.(SignerPubKeys) ∪ K) (sigs ++ [sig_of b])) as
      (kept & E & Hnd & Hin).
    + by constructor.
    + intros k. rewrite elem_of_union, elem_of_list_to_set, HK. set_solver.
    + exists (b :: kept). split; [by rewrite E, <- app_assoc|]. split.
      * constructor; [|done]. rewrite Hin. set_solver.
      * clear IH E Hex Hs HK Hb. intros b'. rewrite elem_of_cons, Hin, !elem_of_cons. split.
        -- intros [->|[? Hn]]; [by split; [left|]|]. split; [by right|]. intros ?. apply Hn. by right.
        -- intros [[->|?] ?]; [by left|]. destruct (decide (b' = b)); [by left|]. right.
           split; [done|]. by intros [?|?].
Qed.
End aggregate.

Lemma ReadAllBallots_in_box s p b : b ∈ ReadAllBallots s p <-> in_box (box s p) b.
Proof.
  unfold ReadAllBallots, in_box. rewrite list_elem_of_In, in_map_iff. split.
  - intros ([k b'] & <- & Hkb%list_elem_of_In%elem_of_map_to_list). by exists k.
  - intros [k Hk]. exists (k, b). split; [done|]. by apply list_elem_of_In, elem_of_map_to_list.
Qed.

(** [AggregateVotes], for the files that use it. *)
Lemma AggregateVotes_distinct s p ballots :
  coherent (box s p) -> ballots ≡ₚ ReadAllBallots s p ->
  AggregateBallots ballots = AggregateVotes s p /\
  exists distinct, NoDup distinct /\ (forall b, b ∈ distinct <-> b ∈ ReadAllBallots s p) /\
    AggregateVotes s p = sig_sum (map sig_of distinct).
Proof.
  intros Hc HP.
  assert (forall l, (forall b, b ∈ l <-> b ∈ ReadAllBallots s p) ->
    exists kept, NoDup kept /\ (forall b, b ∈ kept <-> b ∈ ReadAllBallots s p) /\
      AggregateBallots l = sig_sum (map sig_of kept)) as Hagg.
  { intros l Hl. destruct (collect_kept (box s p) Hc l [] ∅ []) as (kept & E & Hnd & Hin).
    - apply Forall_forall. intros b Hb%Hl. by apply ReadAllBallots_in_box.
    - constructor.
    - set_solver.
    - exists kept. split; [done|]. split; [intros b; rewrite Hin, Hl; set_solver|].
      unfold AggregateBallots. rewrite E. by rewrite AggregateSig_sum. }
  destruct (Hagg ballots) as (k1 & Hn1 & Hi1 & E1); [intros b; by rewrite HP|].
  destruct (Hagg (ReadAllBallots s p)) as (k2 & Hn2 & Hi2 & E2); [done|].
  split; [|by exists k2]. unfold AggregateVotes. rewrite E1, E2. apply sig_sum_perm, Permutation_map.
  apply NoDup_Permutation; [done..|]. intros b. by rewrite Hi1, Hi2.
Qed.

(** The aggregated signature is well defined.  When every recorded ballot
    is recorded under each of its keys, as [submitVote] leaves the box,
    [AggregateVotes] returns the sum of the signatures of the distinct ballots,
    each counted once however many keys signed it, in whatever order Go walks
    the map. *)
Theorem AggregateVotes_well_defined s p ballots :
  coherent (box s p) -> ballots ≡ₚ ReadAllBallots s p ->
  AggregateBallots ballots = AggregateVotes s p /\
  exists distinct, NoDup distinct /\ (forall b, b ∈ distinct <-> b ∈ ReadAllBallots s p) /\
    AggregateVotes s p = sig_sum (map sig_of distinct).
Proof. apply AggregateVotes_distinct. Qed.
End votes.

(** ** Tallies *)

Section tally.
Context {L : BLSLib} (sched : Schedule).

Record decider_inv (v : stakedVoteWeight) : Prop := {
  di_coherent : forall p, coherent (box v.(cid) p);
  di_members : forall p k, is_Some (box v.(cid) p !! k) -> is_Some (v.(roster).(Voters) !! k);
  di_tally : forall p tq, tally_of v.(voteTally) p = Some tq ->
    tq.(tally) = power_set v.(roster) (dom (box v.(cid) p));
  di_below : forall p tq, tally_of v.(voteTally) p = Some tq ->
    tq.(quorumAchieved) = false -> tq.(tally) <= twoThird;
  di_above : (forall k, 0 <= overall v.(roster) k) -> forall p tq, tally_of v.(voteTally) p = Some tq ->
    tq.(quorumAchieved) = true -> twoThird < tq.(tally)
}.

(** A call to the decider, the calls that report an error included.  A call
    that panics takes the process down and is not a step. *)
Inductive vstep : stakedVoteWeight -> stakedVoteWeight -> Prop :=
| step_vote v p keys sig h height view v' r :
    AddNewVote v p keys sig h height view = (v', r) -> (forall w, r <> Panic w) -> vstep v v'
| step_reset_pc v : vstep v (ResetPrepareAndCommitVotes v)
| step_reset_vc v : vstep v (ResetViewChangeVotes v)
| step_set_voters v c epoch : vstep v (fst (SetVoters sched v c epoch))
| step_raw_stake v k d : vstep v (SetRawStake v k d)
| step_participants v pubKeys al :
    vstep v (mkStaked (UpdateParticipants v.(cid) pubKeys al) v.(roster) v.(voteTally) v.(lastPower)).

Definition initial (shardID : Z) : stakedVoteWeight :=
  mkStaked newCIdentities (NewRoster shardID) newVoteTally ∅.

Lemma initial_NewDecider shardID : NewDecider SuperMajorityStake shardID = Some (inr (initial shardID)).
Proof. done. Qed.

Lemma check_signers_members r a keys : check_signers r a keys = Ok tt ->
  forall k, k ∈ map wBytes keys -> is_Some (r.(Voters) !! k).
Proof.
  revert a. induction keys as [|x keys IH]; intros a H k; cbn [map]; [by intros ?%elem_of_nil|].
  cbn [check_signers] in H. destruct (Voters r !! wBytes x) as [v|] eqn:Ex; [|done].
  intros [->|Hk]%elem_of_cons; [by eexists|].
  destruct a as [a|]; [|by eapply IH]. case_match; [done|]. by eapply IH.
Qed.

Lemma additional_power_sum r keys a : additional_power r keys = Ok a -> a = sumZ (overall r) keys.
Proof.
  intros H. unfold additional_power in H.
  apply (foldM_inv (fun d x => x = sumZ (overall r) d)) in H; [done|done|].
  intros d k b b' -> _ Hb. rewrite sumZ_app, sumZ_cons. change (sumZ _ []) with 0. unfold overall at 2.
  destruct (Voters r !! k); [|done]. apply Add_Ok in Hb as [-> _]. unfold Dec in *. lia.
Qed.

Lemma additional_power_not_Err r keys e : additional_power r keys <> Err e.
Proof.
  unfold additional_power. generalize (NewDec 0). induction keys as [|k keys IH]; intros d; cbn [foldM]; [done|].
  destruct (Voters r !! k); [|done]. destruct (Dec.Add d _) eqn:E; cbn; [apply IH| |done].
  by apply Add_not_Err in E.
Qed.

Lemma power_set_list r keys : NoDup keys -> power_set r (list_to_set keys) = sumZ (overall r) keys.
Proof.
  intros Hnd. rewrite (power_set_over r _ keys Hnd) by (intros k; by rewrite elem_of_list_to_set).
  apply sumZ_ext. intros k Hk. by rewrite decide_True by (by rewrite elem_of_list_to_set).
Qed.

Lemma power_set_record r m b keys : NoDup keys -> (forall k, k ∈ keys -> m !! k = None) ->
  power_set r (dom (record_votes m b keys)) = power_set r (dom m) + sumZ (overall r) keys.
Proof.
  intros Hnd Hk. pose proof (power_set_union_inter r (dom m) (list_to_set keys)) as Hu.
  assert (dom m ∩ list_to_set keys = (∅ : gset SerializedPublicKey)) as Hi.
  { apply set_eq. intros k. rewrite elem_of_intersection, elem_of_dom, elem_of_list_to_set.
    split; [|by intros ?%not_elem_of_empty]. intros [[? ?] ?%Hk]. congruence. }
  assert (power_set r (dom m ∩ list_to_set keys) = 0) as E by (rewrite Hi; apply power_set_empty).
  rewrite E, (power_set_list r keys Hnd), Z.add_0_r in Hu. rewrite <- Hu. f_equal.
  apply set_eq. intros k. rewrite elem_of_dom, lookup_record_votes, elem_of_union, elem_of_dom,
    elem_of_list_to_set. case_decide; split; [by right|by eexists|by left|by intros [?|?]].
Qed.

Lemma power_set_ext r r' S : (forall k, overall r k = overall r' k) -> power_set r S = power_set r' S.
Proof. intros H. by apply sumZ_ext. Qed.

Lemma tally_with_tally t p q x tq : known p ->
  tally_of (with_tally t p x) q = Some tq -> (q = p /\ tq = x) \/ (q <> p /\ tally_of t q = Some tq).
Proof. destruct p, q; simpl; intros ? [= <-]; auto. Qed.

(** Accepting a vote keeps the invariant. *)
Lemma AddNewVote_inv v p keys sig h height view v' r :
  decider_inv v -> AddNewVote v p keys sig h height view = (v', r) -> (forall w, r <> Panic w) ->
  decider_inv v'.
Proof.
  intros Hinv. unfold AddNewVote.
  destruct (check_signers _ _ _) as [[]| |] eqn:Ecs; [|by intros [= <- <-]..].
  pose proof (check_signers_members _ _ _ Ecs) as Hmem.
  destruct (submitVote _ _ _ _ _ _ _) as [[cid' b]| |] eqn:Esv; [|by intros [= <- <-]..].
  destruct (additional_power _ _) as [a| |] eqn:Eap;
    [|by apply additional_power_not_Err in Eap|intros [= <- <-] Hw; by destruct (Hw why)].
  apply additional_power_sum in Eap as ->.
  destruct (tally_of _ _) as [tq|] eqn:Etq.
  2: { intros [= <- <-] _. destruct p; try done. unfold submitVote in Esv.
       destruct (map wBytes keys) as [|k ks]; cbn in Esv; [injection Esv as <- <-; by destruct v|].
       apply bind_Ok in Esv as (? & _ & Esv). done. }
  destruct (Dec.Add _ _) as [t| |] eqn:Et;
    [|by apply Add_not_Err in Et|intros [= <- <-] Hw; by destruct (Hw why)].
  apply Add_Ok in Et as [-> _]. intros [= <- _] _.
  assert (known p) as Hp by (by destruct p).
  destruct (submitVote_inv _ _ _ _ _ _ _ _ _ Hp Esv) as (Hnd & Hfree & Hkeys & ->).
  assert (tally tq = power_set (roster v) (dom (box (cid v) p))) as Htq by (by apply (di_tally v Hinv)).
  assert (forall q, box (with_round (cid v) p (mkRound (AggregatedVote (round (cid v) p))
      (record_votes (box (cid v) p) b (map wBytes keys)))) q =
    if decide (q = p) then record_votes (box (cid v) p) b (map wBytes keys) else box (cid v) q) as Hbox.
  { intros q. case_decide as Hq; [subst; by apply box_with_round|by apply box_with_round_ne]. }
  split; cbn [cid roster voteTally lastPower].
  - intros q. rewrite Hbox. case_decide; [|apply (di_coherent v Hinv)]. rewrite <- Hkeys.
    apply coherent_record; [apply (di_coherent v Hinv)|by rewrite Hkeys].
  - intros q k. rewrite Hbox. case_decide as Hq; [subst|apply (di_members v Hinv)].
    rewrite lookup_record_votes. case_decide as Hk; [intros _; by apply Hmem|].
    apply (di_members v Hinv).
  - intros q tq' [[-> ->]|[Hq Hq']]%tally_with_tally; [| |done]; rewrite Hbox.
    + rewrite decide_True by done. rewrite power_set_record by done. cbn. by rewrite Htq.
    + rewrite decide_False by done. by apply (di_tally v Hinv).
  - intros q tq' [[-> ->]|[Hq Hq']]%tally_with_tally; [| |done]; [|by apply (di_below v Hinv q)].
    cbn [tally quorumAchieved]. unfold GT, QuorumThreshold.
    destruct (quorumAchieved tq); cbn; [done|]. apply Z.ltb_ge.
  - intros Hnn q tq' [[-> ->]|[Hq Hq']]%tally_with_tally; [| |done]; [|by apply (di_above v Hinv Hnn q)].
    cbn [tally quorumAchieved]. unfold GT, QuorumThreshold.
    destruct (quorumAchieved tq) eqn:Eq; cbn; [|apply Z.ltb_lt]. intros _.
    pose proof (di_above v Hinv Hnn p tq Etq Eq). pose proof (sumZ_nonneg (overall (roster v))
      (map wBytes keys) ltac:(by intros)). unfold Dec in *. lia.
Qed.

(** One phase of the invariant, to argue phase by phase about resets. *)
Record phase_inv (r : Roster) (m : gmap SerializedPublicKey Ballot) (otq : option tallyAndQuorum) : Prop := {
  pi_coherent : coherent m;
  pi_members : forall k, is_Some (m !! k) -> is_Some (r.(Voters) !! k);
  pi_tally : forall tq, otq = Some tq -> tq.(tally) = power_set r (dom m);
  pi_below : forall tq, otq = Some tq -> tq.(quorumAchieved) = false -> tq.(tally) <= twoThird;
  pi_above : (forall k, 0 <= overall r k) -> forall tq, otq = Some tq ->
    tq.(quorumAchieved) = true -> twoThird < tq.(tally)
}.

Lemma decider_inv_phases v :
  decider_inv v <-> forall p, phase_inv v.(roster) (box v.(cid) p) (tally_of v.(voteTally) p).
Proof.
  split.
  - intros [H1 H2 H3 H4 H5] p. split; eauto.
  - intros H. split; intros; by (eapply H).
Qed.

Lemma phase_inv_empty r otq : otq = Some zero_tally \/ otq = None -> phase_inv r ∅ otq.
Proof.
  intros Ho. split.
  - apply coherent_empty.
  - intros k. rewrite lookup_empty. by intros [].
  - intros tq Htq. destruct Ho as [->| ->]; [injection Htq as <-|done]. by rewrite dom_empty_L, power_set_empty.
  - intros tq Htq _. destruct Ho as [->| ->]; [injection Htq as <-|done]. by vm_compute.
  - intros _ tq Htq. destruct Ho as [->| ->]; [by injection Htq as <-|done].
Qed.

Lemma ResetPrepareAndCommitVotes_inv v : decider_inv v -> decider_inv (ResetPrepareAndCommitVotes v).
Proof.
  rewrite !decider_inv_phases. intros H p.
  destruct p; [apply phase_inv_empty; by left|apply phase_inv_empty; by left|apply (H ViewChange)|
    apply phase_inv_empty; by right].
Qed.

Lemma ResetViewChangeVotes_inv v : decider_inv v -> decider_inv (ResetViewChangeVotes v).
Proof.
  rewrite !decider_inv_phases. intros H p.
  destruct p; [apply (H Prepare)|apply (H Commit)|apply phase_inv_empty; by left|
    apply phase_inv_empty; by right].
Qed.

(** Once all phases are reset the roster may change freely. *)
Lemma SetVoters_inv v c epoch : decider_inv v -> decider_inv (fst (SetVoters sched v c epoch)).
Proof.
  intros H. unfold SetVoters.
  destruct (Compute sched c epoch) as [r| |]; cbn [fst];
    [|by apply ResetViewChangeVotes_inv, ResetPrepareAndCommitVotes_inv..].
  apply decider_inv_phases. intros p.
  destruct p; apply phase_inv_empty; first [by left|by right].
Qed.

Lemma overall_SetRawStake v k d k' : overall (SetRawStake v k d).(roster) k' = overall v.(roster) k'.
Proof.
  unfold SetRawStake. destruct (Voters (roster v) !! k) as [vt|] eqn:E; [|done].
  unfold overall. cbn. destruct (decide (k = k')) as [<-|]; [|by rewrite lookup_insert_ne].
  by rewrite lookup_insert_eq, E.
Qed.

Lemma SetRawStake_inv v k d : decider_inv v -> decider_inv (SetRawStake v k d).
Proof.
  intros H. rewrite decider_inv_phases in *. intros p. pose proof (overall_SetRawStake v k d) as Ho.
  destruct (H p) as [H1 H2 H3 H4 H5].
  assert (cid (SetRawStake v k d) = cid v /\ voteTally (SetRawStake v k d) = voteTally v) as [-> ->]
    by (unfold SetRawStake; by case_match).
  split; [done| |..|done|].
  - intros k' Hk'. apply H2 in Hk'. unfold SetRawStake. case_match; [|done]. cbn.
    destruct (decide (k = k')) as [<-|]; [rewrite lookup_insert_eq; by eexists|by rewrite lookup_insert_ne].
  - intros tq Htq. rewrite (H3 tq Htq). apply power_set_ext. intros. by rewrite Ho.
  - intros Hnn. apply H5. intros k'. rewrite <- Ho. apply Hnn.
Qed.

Lemma vstep_inv v v' : vstep v v' -> decider_inv v -> decider_inv v'.
Proof.
  intros Hs Hinv. destruct Hs.
  - by eapply AddNewVote_inv.
  - by apply ResetPrepareAndCommitVotes_inv.
  - by apply ResetViewChangeVotes_inv.
  - by apply SetVoters_inv.
  - by apply SetRawStake_inv.
  - rewrite decider_inv_phases in *. intros p. specialize (Hinv p). by destruct p.
Qed.

Definition reachable (v : stakedVoteWeight) : Prop := exists shardID, rtc vstep (initial shardID) v.

Lemma reachable_inv v : reachable v -> decider_inv v.
Proof.
  intros [shardID Hr]. assert (decider_inv (initial shardID)) as H0.
  { apply decider_inv_phases. intros p. destruct p; apply phase_inv_empty; first [by left|by right]. }
  induction Hr as [|x y z Hs _ IH]; [done|]. apply IH. by eapply vstep_inv.
Qed.

(** C3: the tally is the truth.  In every state the staked decider can reach,
    whatever calls were made and whichever of them failed, each phase's tally
    is exactly the voting power of the keys whose vote is recorded; those keys
    belong to the roster; and, the powers being non-negative,
    [IsQuorumAchieved] says precisely whether that power exceeds two thirds. *)
Theorem tally_is_power v p : reachable v -> known p -> powers_ok v.(roster) ->
  (forall k, is_Some (ReadBallot v.(cid) p k) -> is_Some (v.(roster).(Voters) !! k)) /\
  (forall tq, tally_of v.(voteTally) p = Some tq ->
     tq.(tally) = power_set v.(roster) (dom (box v.(cid) p))) /\
  (IsQuorumAchieved v p = true <-> twoThird < power_set v.(roster) (dom (box v.(cid) p))).
Proof.
  intros Hr Hp Hok. pose proof (proj1 (decider_inv_phases v) (reachable_inv v Hr) p) as [H1 H2 H3 H4 H5].
  split; [done|]. split; [done|]. unfold IsQuorumAchieved.
  destruct (tally_of (voteTally v) p) as [tq|] eqn:E; [|by destruct p]. rewrite <- (H3 tq eq_refl).
  split.
  - apply H5; [|done]. intros k. by apply overall_nonneg.
  - intros Hlt. destruct (quorumAchieved tq) eqn:Eq; [done|]. pose proof (H4 tq eq_refl Eq). lia.
Qed.

(** ** Quorum intersection *)

Lemma two_quorums r (S T : gset SerializedPublicKey) :
  powers_ok r -> power_of r.(Voters) = OneDec ->
  twoThird < power_set r S -> twoThird < power_set r T ->
  OneDec < 3 * power_set r (S ∩ T).
Proof.
  intros Hok Hone HS HT. pose proof (power_set_union_inter r S T) as Hu.
  pose proof (power_set_le_total r (S ∪ T) Hok) as Hle. rewrite Hone in Hle.
  assert (twoThird = 666666666666666667) as E by by vm_compute.
  unfold OneDec in *. rewrite precisionReuse_val in *. unfold Dec in *. lia.
Qed.


(** What a mask is worth to the staked decider. *)
Lemma mask_quorum v m : mask_wf m -> powers_ok v.(roster) ->
  IsQuorumAchievedByMask v (Some m) = Ok (bool_decide (twoThird < power_set v.(roster) (enabled_set m))).
Proof.
  intros Hwf Hok. unfold IsQuorumAchievedByMask.
  change (computeTotalPowerByMask v m) with (VotePowerByMask v.(roster) m).
  rewrite (VotePowerByMask_total _ m Hwf Hok). cbn [mbind outcome_bind].
  unfold GT, QuorumThreshold. f_equal. by case_bool_decide as Hb; apply Z.ltb_lt || apply Z.ltb_ge; lia.
Qed.

(** The mask-based judgements agree.  After [SetVoters] succeeds the
    decider and the staking verifier built from the same committee give the
    same verdict, panics included, on every mask; on a well-formed one that
    verdict is whether the enabled keys hold more than two thirds. *)
Theorem decider_agrees_with_verifier v c epoch v' t mask :
  SetVoters sched v c epoch = (v', Ok t) ->
  exists sv, NewVerifier sched c epoch true = Ok (inr sv) /\
    svIsQuorumAchievedByMask sv mask = IsQuorumAchievedByMask v' mask /\
    forall m, mask = Some m -> mask_wf m -> powers_ok v'.(roster) ->
      IsQuorumAchievedByMask v' mask = Ok (bool_decide (twoThird < power_set v'.(roster) (enabled_set m))).
Proof.
  unfold SetVoters, NewVerifier, newStakeVerifier. destruct (Compute sched c epoch) as [r| |]; [|done..].
  intros [= <- _]. cbn [mbind outcome_bind]. eexists. split; [done|]. split; [done|].
  intros m -> Hwf Hok. by apply mask_quorum.
Qed.

(** ** [AddNewVote] is atomic *)

Lemma check_signers_not_Panic r a keys w : check_signers r a keys <> Panic w.
Proof.
  revert a. induction keys as [|x keys IH]; intros a; cbn [check_signers]; [done|].
  repeat case_match; auto.
Qed.

Lemma submitVote_not_Panic s p keys sig h height view w : submitVote s p keys sig h height view <> Panic w.
Proof.
  unfold submitVote.
  destruct (check_votes s p ∅ keys) as [[]| |] eqn:E; [|done|by apply check_votes_not_Panic in E].
  cbn [mbind outcome_bind]. destruct (decide (known p)); [by rewrite submit_loop|].
  destruct p; try (exfalso; naive_solver). by destruct keys.
Qed.

Lemma additional_power_total r keys : powers_ok r -> NoDup keys ->
  (forall k, k ∈ keys -> is_Some (r.(Voters) !! k)) -> additional_power r keys = Ok (sumZ (overall r) keys).
Proof.
  intros Hok Hnd Hin. unfold additional_power.
  match goal with |- foldM ?f _ _ = _ =>
    destruct (foldM_total (fun d (x : Dec) => x = sumZ (overall r) d) f keys (NewDec 0)) as (x & Hx & ->) end;
    [done| |exact Hx].
  intros d k rest x El ->. destruct (Hin k) as [v Hv]; [rewrite El; set_solver|]. rewrite Hv.
  rewrite sumZ_app, sumZ_cons. change (sumZ _ []) with 0.
  assert (overall r k = v.(OverallPercent)) as Ek by (unfold overall; by rewrite Hv). rewrite Ek.
  pose proof (power_set_le_total r (list_to_set keys) Hok) as Hle.
  rewrite power_set_list, El, sumZ_app, sumZ_cons, Ek in Hle by done.
  pose proof (fun l => sumZ_nonneg (overall r) l (fun k _ => overall_nonneg r k Hok)) as Hnn.
  pose proof (Hnn d). pose proof (Hnn rest). pose proof (overall_nonneg r k Hok).
  pose proof (po_fits r Hok). rewrite Add_fits by (unfold fits in *; unfold Dec in *; lia).
  eexists. split; [done|]. unfold Dec in *. lia.
Qed.

Lemma submitVote_ballot s p keys sig h height view s' b :
  submitVote s p keys sig h height view = Ok (s', b) -> b = ballot_of keys sig h height view.
Proof. unfold submitVote. intros (? & _ & (? & _ & [= _ <-])%bind_Ok)%bind_Ok. done. Qed.

Lemma AddNewVote_cases v p keys sig h height view v' r :
  decider_inv v -> powers_ok v.(roster) -> AddNewVote v p keys sig h height view = (v', r) ->
  match r with
  | Panic _ => False
  | Err _ => v' = v
  | Ok b => known p /\ NoDup (map wBytes keys) /\ (forall k, k ∈ map wBytes keys -> box v.(cid) p !! k = None) /\
      b = ballot_of (map wBytes keys) sig h height view /\
      (forall k, k ∈ map wBytes keys -> is_Some (v.(roster).(Voters) !! k)) /\ v'.(roster) = v.(roster) /\
      v'.(cid) = with_round v.(cid) p (mkRound (round v.(cid) p).(AggregatedVote) (record_votes (box v.(cid) p) b (map wBytes keys)))
  end.
Proof.
  intros Hinv Hok. unfold AddNewVote.
  destruct (check_signers _ _ _) as [[]| |] eqn:Ecs; [|by intros [= <- <-]|by apply check_signers_not_Panic in Ecs].
  pose proof (check_signers_members _ _ _ Ecs) as Hmem.
  destruct (submitVote _ _ _ _ _ _ _) as [[cid' b]| |] eqn:Esv;
    [|by intros [= <- <-]|by apply submitVote_not_Panic in Esv].
  destruct (decide (known p)) as [Hp|Hp].
  2: { destruct p; try (exfalso; by apply Hp). unfold submitVote in Esv.
       destruct (map wBytes keys) as [|k ks]; cbn in Esv.
       - injection Esv as <- <-. cbn. intros [= <- <-]. by destruct v.
       - apply bind_Ok in Esv as (? & _ & Esv). done. }
  destruct (submitVote_inv _ _ _ _ _ _ _ _ _ Hp Esv) as (Hnd & Hfree & Hkeys & ->).
  rewrite additional_power_total by done. cbn [voteTally roster].
  destruct (tally_of (voteTally v) p) as [tq|] eqn:Etq; [|by destruct p].
  pose proof (di_tally v Hinv p tq Etq) as Htq.
  pose proof (power_set_record v.(roster) (box (cid v) p) b (map wBytes keys) Hnd Hfree) as Hrec.
  rewrite Add_fits.
  - intros [= <- <-]. pose proof (submitVote_ballot _ _ _ _ _ _ _ _ _ Esv) as ->. by split_and!.
  - rewrite Htq, <- Hrec. pose proof (po_fits _ Hok). unfold fits in *.
    match goal with |- Z.abs (power_set _ ?S) < _ =>
      pose proof (power_set_le_total _ S Hok); pose proof (power_set_nonneg _ S Hok) end.
    unfold Dec in *. lia.
Qed.

(** C4: [AddNewVote] is all or nothing.  In a reachable state, for a roster
    whose powers are non-negative, it never panics; when it reports an error
    (an outsider, a multi-signature mixing accounts, a repeated key, a second
    vote, an unknown phase) the decider is exactly as before; and when it
    accepts, the tally grows by the power of the signers. *)
Theorem AddNewVote_atomic v p keys sig h height view v' r :
  reachable v -> powers_ok v.(roster) -> AddNewVote v p keys sig h height view = (v', r) ->
  match r with
  | Panic _ => False
  | Err _ => v' = v
  | Ok b => known p /\ b.(SignerPubKeys) = map wBytes keys /\ v'.(roster) = v.(roster) /\
      power_set v.(roster) (dom (box v'.(cid) p)) =
        power_set v.(roster) (dom (box v.(cid) p)) + sumZ (overall v.(roster)) (map wBytes keys)
  end.
Proof.
  intros Hr Hok E. pose proof (AddNewVote_cases _ _ _ _ _ _ _ _ _ (reachable_inv v Hr) Hok E) as Hc.
  destruct r as [b|e|w]; [|done|done]. destruct Hc as (Hp & Hnd & Hfree & -> & _ & Hr' & ->). split_and!; [done|done|done|].
  rewrite box_with_round by done. by apply power_set_record.
Qed.
End tally.

(** ** Uniform voting *)

Section uniform.
Context {L : BLSLib}.

(** The two-thirds rule of the uniform decider, without wrap-around. *)
Lemma TwoThirdsSignersCount_eq (s : cIdentities) : 0 <= ParticipantsCount s < 2 ^ 62 ->
  TwoThirdsSignersCount s = 2 * ParticipantsCount s / 3 + 1.
Proof.
  intros Hn. unfold TwoThirdsSignersCount. rewrite (i64_small (_ * 2)) by lia.
  rewrite Z.quot_div_nonneg by lia. rewrite (Z.mul_comm 2).
  apply i64_small. Z.to_euclidean_division_equations. lia.
Qed.

(** Two uniform quorums overlap.  If the participants of two states are
    the same [n] keys and only participants voted, two phases that both reached
    quorum have more than a third of the participants in common. *)
Theorem uniform_quorum_intersection (v1 v2 : uniformVoteWeight) p1 p2 (members : gset SerializedPublicKey) :
  Z.of_nat (size members) < 2 ^ 62 ->
  ParticipantsCount v1.(ucid) = Z.of_nat (size members) ->
  ParticipantsCount v2.(ucid) = Z.of_nat (size members) ->
  dom (box v1.(ucid) p1) ⊆ members -> dom (box v2.(ucid) p2) ⊆ members ->
  uIsQuorumAchieved v1 p1 = true -> uIsQuorumAchieved v2 p2 = true ->
  Z.of_nat (size members) < 3 * Z.of_nat (size (dom (box v1.(ucid) p1) ∩ dom (box v2.(ucid) p2))).
Proof.
  intros Hn H1 H2 Hs1 Hs2 Hq1%Z.leb_le Hq2%Z.leb_le.
  rewrite TwoThirdsSignersCount_eq in Hq1, Hq2 by lia. rewrite H1 in Hq1. rewrite H2 in Hq2.
  unfold SignersCount in *.
  rewrite <- (size_dom (D := gset SerializedPublicKey) (box (ucid v1) p1)) in Hq1.
  rewrite <- (size_dom (D := gset SerializedPublicKey) (box (ucid v2) p2)) in Hq2.
  set (A := dom (box (ucid v1) p1)) in *. set (B := dom (box (ucid v2) p2)) in *.
  pose proof (size_union_alt A B) as Hu. pose proof (subseteq_size (A ∪ B) members ltac:(set_solver)) as Hle.
  assert (size B = size (B ∖ A) + size (A ∩ B))%nat as HB.
  { rewrite <- size_union by set_solver. f_equal. apply set_eq. intros k.
    destruct (decide (k ∈ A)); set_solver. }
  revert Hq1 Hq2. Z.to_euclidean_division_equations. lia.
Qed.
End uniform.

(** ** The uniform verifier *)

Section uniform_verifier.
Context {L : BLSLib}.

(** The staked verifier counts the signatures of a bitmap;
    [uvIsQuorumAchievedByMask] counts the keys the mask was built from, so once
    a mask of the whole committee passes, it passes with no signature at all. *)
Lemma uniform_verifier_ignores_bitmap (uv : uniformVerifier) (m : Mask) :
  uvIsQuorumAchievedByMask uv (Some m) = uvIsQuorumAchievedByMask uv (Some (NewMask m.(Publics))).
Proof. reflexivity. Qed.
End uniform_verifier.

(** ** Concrete runs *)

Definition powers_okb {L : BLSLib} (r : Roster) : bool :=
  forallb (fun kv => 0 <=? kv.2.(OverallPercent)) (map_to_list r.(Voters)) &&
  bool_decide (fits (power_of r.(Voters))).
Lemma powers_okb_sound {L : BLSLib} r : powers_okb r = true -> powers_ok r.
Proof.
  intros [H1 H2%bool_decide_eq_true]%andb_prop. split; [|done]. intros k v Hk.
  rewrite forallb_forall in H1. specialize (H1 (k, v)). cbn in H1. apply Z.leb_le, H1.
  by apply list_elem_of_In, elem_of_map_to_list.
Qed.

Definition run_sched : Schedule := NewFixedSchedule sample_instance.
Definition seated : @stakedVoteWeight ZBLS := fst (SetVoters run_sched (initial 1) sample_committee (Some 7)).
Definition key (k : Z) : @PublicKeyWrapper ZBLS := mkWrapper (L := ZBLS) k k.
Definition voted : @stakedVoteWeight ZBLS := fst (AddNewVote seated Commit [key 11] 5 99 1 1).

Lemma seated_reachable : reachable run_sched seated.
Proof. exists 1. eapply rtc_once. apply step_set_voters. Qed.
Lemma seated_ok : powers_ok seated.(roster).
Proof. apply powers_okb_sound. by vm_compute. Qed.

Lemma submitVote_spec_witness :
  exists s', submitVote (L := ZBLS) newCIdentities Commit [10; 11] 5 99 1 1
    = Ok (s', ballot_of (L := ZBLS) [10; 11] 5 99 1 1).
Proof.
  pose proof (submitVote_spec (L := ZBLS) newCIdentities Commit [10; 11] 5 99 1 1 I) as H.
  rewrite decide_True in H.
  - destruct H as (s' & H & _). exists s'. exact H.
  - split; [|repeat constructor]. apply NoDup_cons. split; [|apply NoDup_singleton].
    intros E%list_elem_of_singleton. discriminate.
Defined.

Definition one_ballot : @cIdentities ZBLS :=
  with_round newCIdentities Commit
    (mkRound (L := ZBLS) 0 (record_votes ∅ (ballot_of (L := ZBLS) [10; 11] 5 99 1 1) [10; 11])).
Lemma AggregateVotes_well_defined_witness :
  AggregateBallots (rev (ReadAllBallots one_ballot Commit)) = AggregateVotes one_ballot Commit.
Proof.
  apply (AggregateVotes_well_defined ZBLS_laws one_ballot Commit).
  - exact (coherent_record ∅ (ballot_of (L := ZBLS) [10; 11] 5 99 1 1) coherent_empty
      (fun k _ => lookup_empty k)).
  - symmetry. apply Permutation_rev.
Defined.

Lemma voted_reachable : reachable run_sched voted.
Proof.
  destruct seated_reachable as [s Hs]. exists s. eapply rtc_r; [exact Hs|].
  eapply (step_vote _ _ Commit [key 11] 5 99 1 1 _ (snd (AddNewVote seated Commit [key 11] 5 99 1 1))).
  - by destruct (AddNewVote seated Commit [key 11] 5 99 1 1) eqn:E; unfold voted; rewrite E.
  - intros w. assert (match snd (AddNewVote seated Commit [key 11] 5 99 1 1) with Panic _ => false | _ => true end
      = true) as H by (by vm_compute). by destruct (snd _).
Qed.

Lemma tally_is_power_witness : IsQuorumAchieved voted Commit = true <->
  twoThird < power_set voted.(roster) (dom (box voted.(cid) Commit)).
Proof.
  apply (tally_is_power run_sched voted Commit voted_reachable I). apply powers_okb_sound. by vm_compute.
Defined.


Lemma decider_agrees_with_verifier_witness :
  exists sv, NewVerifier (L := ZBLS) run_sched sample_committee (Some 7) true = Ok (inr sv).
Proof.
  destruct (SetVoters run_sched (initial 1) sample_committee (Some 7)) as [v' [t|e|w]] eqn:E.
  - destruct (decider_agrees_with_verifier run_sched (initial 1) sample_committee (Some 7) v' t None E)
      as (sv & H & _). by exists sv.
  - exfalso. assert (match snd (SetVoters run_sched (initial 1) sample_committee (Some 7)) with Ok _ => true | _ => false end
      = true) as H by (by vm_compute). by rewrite E in H.
  - exfalso. assert (match snd (SetVoters run_sched (initial 1) sample_committee (Some 7)) with Ok _ => true | _ => false end
      = true) as H by (by vm_compute). by rewrite E in H.
Defined.

Lemma AddNewVote_atomic_witness :
  fst (AddNewVote seated Commit [key 99] 5 99 1 1) = seated.
Proof.
  destruct (AddNewVote seated Commit [key 99] 5 99 1 1) as [v' r] eqn:E.
  pose proof (AddNewVote_atomic run_sched seated Commit [key 99] 5 99 1 1 v' r seated_reachable seated_ok E) as H.
  assert (match snd (AddNewVote seated Commit [key 99] 5 99 1 1) with Err _ => true | _ => false end = true) as He
    by (by vm_compute).
  rewrite E in He. destruct r; [discriminate He|exact H|destruct H].
Defined.

(** Three of three participants voted for commit and for prepare. *)
Definition three_votes : @uniformVoteWeight ZBLS :=
  let b := ballot_of (L := ZBLS) [1; 2; 3] 5 99 1 1 in
  let boxes := record_votes ∅ b [1; 2; 3] in
  mkUniform (mkIdentities [] ∅ (mkRound (L := ZBLS) 0 boxes) (mkRound (L := ZBLS) 0 boxes) NewRound 3) ∅ 0.
Lemma uniform_quorum_intersection_witness :
  Z.of_nat (size ({[1; 2; 3]} : gset Z)) < 3 * Z.of_nat (size (dom (box three_votes.(ucid) Prepare) ∩ dom (box three_votes.(ucid) Commit))).
Proof.
  apply (uniform_quorum_intersection (L := ZBLS) three_votes three_votes Prepare Commit ({[1; 2; 3]} : gset Z)).
  - by vm_compute.
  - by vm_compute.
  - by vm_compute.
  - apply (bool_decide_unpack _). by vm_compute.
  - apply (bool_decide_unpack _). by vm_compute.
  - by vm_compute.
  - by vm_compute.
Defined.
