(* ===== verification/Aggregate.v ===== *)
(** * Aggregated signatures and the bitmaps beside them

    Several parts of the protocol send the sum of some members' signatures with
    the bitmap of who signed: both voting phases and both halves of a view
    change.  Here is why a receiver can check them: if the bitmap marks exactly
    the keys whose signatures were summed, each verified on its own, the sum
    verifies under the aggregated key the receiver computes from the bitmap. *)
From S2P Require Import Prelude Dec Bls Mask SigBitmap Params Sharding Shard VotePower Quorum QuorumSafety.
Local Open Scope Z_scope.

Section aggregate.
Context {L : BLSLib} {S : SigCheck L} {G : Signer L}.
Context (laws : BLSLaws L) (slaws : SigLaws L S G).

(** ** The enabled keys *)

Definition enabled (m : Mask) : list PublicKeyWrapper := keys_from m.(Bitmap) true 0 m.(Publics).

Lemma elem_of_keys_from bm k l p : p ∈ keys_from bm true k l <-> exists i, l !! i = Some p /\ bit bm (k + i) = true.
Proof.
  revert k. induction l as [|q l IH]; intros k; cbn [keys_from].
  { split; [by intros ?%elem_of_nil|]. by intros (i & Hi & _). }
  destruct (bit bm k) eqn:E; cbn [Bool.eqb]; rewrite ?elem_of_cons, IH; split.
  - intros [->|(i & Hi & Hb)]; [exists O; by rewrite Nat.add_0_r|]. exists (Datatypes.S i). by rewrite Nat.add_succ_r.
  - intros ([|i] & Hi & Hb); [left; by injection Hi|]. right. exists i. by rewrite Nat.add_succ_r in Hb.
  - intros (i & Hi & Hb). exists (Datatypes.S i). by rewrite Nat.add_succ_r.
  - intros ([|i] & Hi & Hb); [by rewrite Nat.add_0_r, E in Hb|]. exists i. by rewrite Nat.add_succ_r in Hb.
Qed.

Lemma NoDup_keys_from bm k l : NoDup (map wBytes l) -> NoDup (map wBytes (keys_from bm true k l)).
Proof.
  revert k. induction l as [|q l IH]; intros k; cbn [keys_from map]; [done|]. intros [Hn Hl]%NoDup_cons.
  destruct (Bool.eqb _ _); [|by apply IH]. cbn [map]. apply NoDup_cons. split; [|by apply IH].
  rewrite list_elem_of_In, in_map_iff. intros (p & E & Hp%list_elem_of_In%elem_of_keys_from). apply Hn.
  destruct Hp as (i & Hi & _). rewrite <- E. apply list_elem_of_In, in_map, list_elem_of_In. by eapply list_elem_of_lookup_2.
Qed.

Lemma wBytes_inj (keys : list PublicKeyWrapper) p q :
  NoDup (map wBytes keys) -> p ∈ keys -> q ∈ keys -> p.(wBytes) = q.(wBytes) -> p = q.
Proof.
  intros Hnd [i Hi]%list_elem_of_lookup [j Hj]%list_elem_of_lookup E.
  assert (i = j) as ->; [|congruence]. eapply NoDup_lookup; [exact Hnd| |]; rewrite lookup_map.
  - by rewrite Hi.
  - by rewrite Hj, E.
Qed.

Lemma elem_of_enabled keys m p : mask_of keys m -> NoDup (map wBytes keys) ->
  p ∈ enabled m <-> p ∈ keys /\ key_bit m p.(wBytes) = true.
Proof.
  intros [Hwf [Hp Hx]] Hnd. cbn [Publics NewMask with_bitmap] in Hp. unfold enabled. rewrite elem_of_keys_from, Hp. cbn [Nat.add].
  unfold key_bit. split.
  - intros (i & Hi & Hb). assert (p ∈ keys) as Hin by (by eapply list_elem_of_lookup_2). split; [done|].
    destruct (wf_keys m Hwf p) as [z Hz]; [by rewrite Hp|]. rewrite Hz.
    destruct (wf_index m Hwf _ _ Hz) as (Hz0 & q & Hq & Eq). rewrite Hp in Hq.
    assert (Z.to_nat z = i) as ->; [|done]. eapply NoDup_lookup; [exact Hnd| |]; rewrite lookup_map.
    + by rewrite Hq.
    + cbn. by rewrite Hi, Eq.
  - intros [Hin Hb]. destruct (PublicsIndex m !! wBytes p) as [z|] eqn:Hz; [|done].
    destruct (wf_index m Hwf _ _ Hz) as (Hz0 & q & Hq & Eq). rewrite Hp in Hq.
    exists (Z.to_nat z). split; [|done]. rewrite Hq. f_equal.
    apply (wBytes_inj keys); [done|by eapply list_elem_of_lookup_2|done|done].
Qed.

(** ** Sums of keys and signatures *)

Lemma pk_sum_app l1 l2 : pk_sum (l1 ++ l2) = pk_add (pk_sum l1) (pk_sum l2).
Proof.
  induction l1 as [|p l1 IH]; cbn [app].
  - cbn. by rewrite pk_add_comm, pk_add_0.
  - cbn [pk_sum foldr]. fold (pk_sum (l1 ++ l2)) (pk_sum l1). by rewrite IH, pk_add_assoc.
Qed.
Lemma pk_sum_perm l1 l2 : l1 ≡ₚ l2 -> pk_sum l1 = pk_sum l2.
Proof.
  induction 1 as [|p l1 l2 _ IH|p q l|l1 l2 l3 _ IH1 _ IH2]; cbn [pk_sum foldr]; [done| | |by rewrite IH1].
  - f_equal. exact IH.
  - by apply pk_add_swap.
Qed.
(** [signerPubKey.Add(pubKey.Object)] for each key, from the zero point. *)
Lemma foldl_pk_add l : foldl (fun acc p => pk_add acc p.(Object)) pk_zero l = pk_sum l.
Proof.
  enough (forall a, foldl (fun acc p => pk_add acc p.(Object)) a l = pk_add a (pk_sum l)) as Hg
    by (by rewrite Hg, pk_add_comm, pk_add_0).
  induction l as [|p l IH]; intros a; cbn [foldl]; [cbn; by rewrite pk_add_0|].
  rewrite IH. cbn [pk_sum foldr]. by rewrite pk_add_assoc.
Qed.

(** A list of signatures, each with the keys that made it. *)
Definition signs (h : list Z) (e : Sign * list PublicKeyWrapper) : Prop := VerifyHash e.1 (pk_sum e.2) h = true.

Lemma sum_verifies h (l : list (Sign * list PublicKeyWrapper)) : l <> [] -> Forall (signs h) l ->
  VerifyHash (sig_sum (map fst l)) (pk_sum (concat (map snd l))) h = true.
Proof.
  intros Hne Hl. induction Hl as [|[s ks] l Hs Hl IH]; [done|]. cbn [map concat fst snd]. rewrite pk_sum_app.
  unfold signs in Hs. cbn [fst snd] in Hs. destruct l as [|e l].
  - cbn. by rewrite sig_add_0, pk_add_0.
  - cbn [sig_sum foldr]. fold (sig_sum (map fst (e :: l))). apply VerifyHash_add; [done|]. by apply IH.
Qed.

Lemma sum_verifies_mask h keys m (l : list (Sign * list PublicKeyWrapper)) :
  mask_of keys m -> l <> [] -> Forall (signs h) l -> enabled m ≡ₚ concat (map snd l) ->
  VerifyHash (sig_sum (map fst l)) m.(AggregatePublic) h = true.
Proof.
  intros [Hwf _] Hne Hl HP. rewrite (wf_agg m Hwf). fold (enabled m). rewrite (pk_sum_perm _ _ HP).
  by apply sum_verifies.
Qed.

(** ** Ballots *)

(** The ballots of a box are signatures of [h] by members. *)
Record box_signed (keys : list PublicKeyWrapper) (h : list Z) (b : gmap SerializedPublicKey Ballot) : Prop := {
  bs_coherent : coherent b;
  bs_signed : forall k v, b !! k = Some v -> NoDup v.(SignerPubKeys) /\
    exists ws, map wBytes ws = v.(SignerPubKeys) /\ (forall w, w ∈ ws -> w ∈ keys) /\ signs h (sig_of v, ws)
}.
(** The bitmap beside a box marks who voted. *)
Definition marks (keys : list PublicKeyWrapper) (b : gmap SerializedPublicKey Ballot) (m : Mask) : Prop :=
  mask_of keys m /\ forall k, key_bit m k = true <-> is_Some (b !! k).

Lemma box_signed_empty keys h : box_signed keys h ∅.
Proof. split; [apply coherent_empty|]. intros k v. by rewrite lookup_empty. Qed.

Lemma marks_empty keys : marks keys ∅ (NewMask keys).
Proof.
  split; [apply NewMask_mask_of|]. intros k. rewrite lookup_empty. split; [|by intros []].
  unfold key_bit. cbn [PublicsIndex NewMask with_bitmap Bitmap]. destruct (_ !! k); [|done].
  unfold bit, make_bytes. intros Hb. destruct (replicate _ 0 !! _) as [x|] eqn:E; [|done].
  apply lookup_replicate in E as [-> _]. by rewrite Z.bits_0 in Hb.
Qed.

Lemma signers_of keys (b : gmap SerializedPublicKey Ballot) h bs :
  box_signed keys h b -> NoDup bs -> (forall v, v ∈ bs <-> in_box b v) ->
  exists l : list (Sign * list PublicKeyWrapper), map fst l = map sig_of bs /\ Forall (signs h) l /\
    NoDup (map wBytes (concat (map snd l))) /\
    map wBytes (concat (map snd l)) = concat (map SignerPubKeys bs) /\
    forall w, w ∈ concat (map snd l) -> w ∈ keys /\ exists v, v ∈ bs /\ b !! w.(wBytes) = Some v.
Proof.
  intros [Hc Hs] Hnd Hbs.
  assert (forall v, v ∈ bs -> in_box b v) as Hin by (intros v; by apply Hbs). clear Hbs.
  assert (exists l : list (Sign * list PublicKeyWrapper), map fst l = map sig_of bs /\ Forall (signs h) l /\
    map (fun e => map wBytes e.2) l = map SignerPubKeys bs /\
    forall w, w ∈ concat (map snd l) -> w ∈ keys /\ exists v, v ∈ bs /\ b !! w.(wBytes) = Some v) as (l & H1 & H2 & H3 & H4).
  { clear Hnd. induction bs as [|v bs IH].
    { exists []. split_and!; [done|done|done|]. intros w Hw. by apply elem_of_nil in Hw. }
    destruct IH as (l & H1 & H2 & H3 & H4); [intros v' Hv'; apply Hin; by right|].
    destruct (Hin v) as [k Hk]; [by left|]. destruct (Hs k v Hk) as (_ & ws & Hws & Hk' & Hv).
    exists ((sig_of v, ws) :: l). cbn [map fst snd concat]. split_and!; [by rewrite H1|by constructor|by rewrite Hws, H3|].
    intros w [Hw|Hw]%elem_of_app.
    - split; [by apply Hk'|]. exists v. split; [by left|]. apply (Hc k v Hk). rewrite <- Hws.
      by apply list_elem_of_In, in_map, list_elem_of_In.
    - destruct (H4 w Hw) as (? & v' & ? & ?). split; [done|]. exists v'. split; [by right|done]. }
  enough (map wBytes (concat (map snd l)) = concat (map SignerPubKeys bs) /\ NoDup (concat (map SignerPubKeys bs))) as [E Hnd'].
  { exists l. rewrite E. by split_and!. }
  split; [by rewrite concat_map, map_map, <- H3|].
  clear H1 H2 H3 H4 l. induction bs as [|v bs IH]; [constructor|]. cbn [map concat].
  apply NoDup_cons in Hnd as [Hv Hnd]. apply NoDup_app. split_and!.
  - destruct (Hin v) as [k Hk]; [by left|]. by apply (Hs k v Hk).
  - intros k Hk Hk'. apply list_elem_of_In, in_concat in Hk' as (ks & (v' & <- & Hv'%list_elem_of_In)%in_map_iff & Hk'%list_elem_of_In).
    destruct (Hin v) as [k1 Hk1]; [by left|]. destruct (Hin v') as [k2 Hk2]; [by right|].
    assert (b !! k = Some v) as E1 by (by apply (Hc k1 v Hk1)). assert (b !! k = Some v') as E2 by (by apply (Hc k2 v' Hk2)).
    apply Hv. congruence.
  - apply IH; [done|]. intros v' Hv'. apply Hin. by right.
Qed.

(** The aggregated votes of a phase verify under its bitmap's key. *)
Lemma votes_verify keys h s p m :
  NoDup (map wBytes keys) -> box_signed keys h (box s p) -> marks keys (box s p) m -> box s p <> ∅ ->
  VerifyHash (AggregateVotes s p) m.(AggregatePublic) h = true.
Proof.
  intros Hnd Hbox [Hm Hbits] Hne.
  destruct (AggregateVotes_distinct laws s p _ (bs_coherent _ _ _ Hbox) (reflexivity _)) as (_ & bs & Hnd' & Hin & ->).
  assert (forall v, v ∈ bs <-> in_box (box s p) v) as Hbs by (intros v; by rewrite Hin, ReadAllBallots_in_box).
  destruct (signers_of keys _ h bs Hbox Hnd' Hbs) as (l & El & Hl & Hndl & Ecat & Hmem). rewrite <- El.
  apply (sum_verifies_mask h keys m l Hm); [|done|].
  - intros ->. destruct bs; [|done]. apply Hne. apply map_eq. intros k. rewrite lookup_empty.
    destruct (box s p !! k) as [v|] eqn:Ev; [|done]. exfalso. by apply (not_elem_of_nil v), Hbs; exists k.
  - apply NoDup_Permutation.
    + eapply NoDup_fmap_1. apply (NoDup_keys_from (Bitmap m) 0 (Publics m)). by destruct Hm as [_ [-> _]].
    + by eapply NoDup_fmap_1.
    + intros w. rewrite (elem_of_enabled keys m w Hm Hnd), Hbits. split.
      * intros [Hw [v Hv]]. assert (v ∈ bs) as Hvb by (apply Hbs; by exists (wBytes w)).
        assert (wBytes w ∈ map wBytes (concat (map snd l))) as Hwb.
        { rewrite Ecat. apply list_elem_of_In, in_concat. exists (SignerPubKeys v).
          split; [by apply in_map, list_elem_of_In|]. apply list_elem_of_In.
          by apply (bs_coherent _ _ _ Hbox (wBytes w) v). }
        apply list_elem_of_In, in_map_iff in Hwb as (w' & Ew & Hw'%list_elem_of_In).
        destruct (Hmem w' Hw') as [Hin' _]. by rewrite <- (wBytes_inj keys w' w Hnd Hin' Hw Ew).
      * intros Hw. destruct (Hmem w Hw) as (? & v & _ & ?). split; [done|by exists v].
Qed.

(** ** Signatures kept one per key *)

(** One half of the view change bookkeeping: a member's key has a signature of
    [h] exactly when its bit is set. *)
Definition keyed (keys : list PublicKeyWrapper) (h : list Z) (sigs : gmap SerializedPublicKey (option Sign)) (m : Mask) : Prop :=
  mask_of keys m /\ (forall k, key_bit m k = true <-> is_Some (sigs !! k)) /\
  forall k so, sigs !! k = Some so -> exists s w, so = Some s /\ w ∈ keys /\ w.(wBytes) = k /\ VerifyHash s w.(Object) h = true.

Lemma keyed_verify keys h sigs m (order : list (SerializedPublicKey * option Sign)) ss :
  NoDup (map wBytes keys) -> keyed keys h sigs m -> order ≡ₚ map_to_list sigs -> map snd order = map Some ss ->
  ss <> [] -> VerifyHash (AggregateSig ss) m.(AggregatePublic) h = true.
Proof.
  intros Hnd (Hm & Hbits & Hsigs) HP Hss Hne. rewrite (AggregateSig_sum laws).
  assert (forall k so, (k, so) ∈ order <-> sigs !! k = Some so) as Hin
    by (intros k so; by rewrite HP, elem_of_map_to_list).
  assert (NoDup (map fst order)) as Hndo by (rewrite HP; apply NoDup_fst_map_to_list).
  assert (exists l : list (Sign * list PublicKeyWrapper), map fst l = ss /\ Forall (signs h) l /\
    map wBytes (concat (map snd l)) = map fst order /\ forall w, w ∈ concat (map snd l) -> w ∈ keys) as (l & El & Hl & Ek & Hmem).
  { assert (forall k so, (k, so) ∈ order -> sigs !! k = Some so) as Hin' by (intros k so; apply Hin). clear Hin HP Hndo Hne.
    revert ss Hss. induction order as [|[k so] order IH]; intros [|s ss] Hss; try done.
    { exists []. split_and!; [done|done|done|]. intros w Hw. by apply elem_of_nil in Hw. }
    injection Hss as Hso Hss. cbn in Hso. subst so.
    destruct (IH ltac:(intros k' so' ?; apply Hin'; by right) ss Hss) as (l & <- & Hl & Ek & Hmem).
    destruct (Hsigs k (Some s)) as (s' & w & [= <-] & Hw & Ew & Hv); [apply Hin'; by left|].
    exists ((s, [w]) :: l). cbn [map fst snd concat app]. split_and!; [done| |by rewrite Ew, Ek|].
    - constructor; [|done]. unfold signs. cbn. by rewrite pk_add_0.
    - intros w' [->|?]%elem_of_cons; [done|by apply Hmem]. }
  subst ss. apply (sum_verifies_mask h keys m l Hm); [by intros ->|done|].
  apply NoDup_Permutation.
  - eapply NoDup_fmap_1. apply (NoDup_keys_from (Bitmap m) 0 (Publics m)). by destruct Hm as [_ [-> _]].
  - apply (NoDup_fmap_1 wBytes). change (NoDup (map wBytes (concat (map snd l)))). by rewrite Ek.
  - intros w. rewrite (elem_of_enabled keys m w Hm Hnd), Hbits. split.
    + intros [Hw [so Hso%Hin]]. assert (wBytes w ∈ map wBytes (concat (map snd l))) as Hwb.
      { rewrite Ek. apply list_elem_of_In, in_map_iff. exists (wBytes w, so). split; [done|by apply list_elem_of_In]. }
      apply list_elem_of_In, in_map_iff in Hwb as (w' & Ew & Hw'%list_elem_of_In).
      by rewrite <- (wBytes_inj keys w' w Hnd (Hmem _ Hw') Hw Ew).
    + intros Hw. split; [by apply Hmem|]. assert (wBytes w ∈ map fst order) as Hwo.
      { rewrite <- Ek. by apply list_elem_of_In, in_map, list_elem_of_In. }
      apply list_elem_of_In, in_map_iff in Hwo as ([k so] & E & Hko%list_elem_of_In). cbn in E. subst k.
      exists so. by apply Hin.
Qed.

Lemma keyed_empty keys h : keyed keys h ∅ (NewMask keys).
Proof.
  destruct (marks_empty keys) as [Hm Hb]. split; [done|]. split.
  - intros k. rewrite Hb, !lookup_empty. done.
  - intros k so. by rewrite lookup_empty.
Qed.

(** ** Marking one more key *)

Lemma SetKey_marks keys m w : mask_of keys m -> w ∈ keys -> exists m',
  SetKey m w.(wBytes) true = Ok m' /\ mask_of keys m' /\
  forall k, key_bit m' k = true <-> k = w.(wBytes) \/ key_bit m k = true.
Proof.
  intros [Hwf Hsk] Hw. destruct (wf_keys m Hwf w) as [i Hi].
  { destruct Hsk as [-> _]. done. }
  destruct (SetBits_spec laws m [(w.(wBytes), i)] true Hwf) as (m' & Hm' & Hwf' & Hsk' & Hb).
  { intros k j Hkj%list_elem_of_singleton. by injection Hkj as -> ->. }
  cbn [map fst snd foldM] in Hm', Hb. apply bind_Ok in Hm' as (m1 & Hm1 & [= ->]).
  exists m'. unfold SetKey. rewrite Hi. split; [done|]. split; [split; [done|by eapply same_keys_trans]|].
  intros k. destruct (PublicsIndex m !! k) as [j|] eqn:Hk.
  - rewrite Hb by (by rewrite Hk). case_decide as Hin; rewrite list_elem_of_singleton in Hin; intuition.
  - assert (key_bit m k = false) as -> by (unfold key_bit; by rewrite Hk).
    assert (key_bit m' k = false) as -> by (unfold key_bit; destruct Hsk' as [_ ->]; by rewrite Hk).
    split; [done|]. intros [->|?]; [congruence|done].
Qed.

Lemma SetKey_absent keys m k : mask_of keys m -> k ∉ map wBytes keys -> SetKey m k true = Err "key not found".
Proof.
  intros [Hwf [Hp Hx]] Hk. unfold SetKey. destruct (PublicsIndex m !! k) as [i|] eqn:Hi; [|done].
  destruct (wf_index m Hwf _ _ Hi) as (_ & p & Hp' & E). exfalso. apply Hk. rewrite Hp in Hp'. cbn in Hp'.
  rewrite <- E. apply list_elem_of_In, in_map, list_elem_of_In. by eapply list_elem_of_lookup_2.
Qed.

Lemma keyed_add keys h sigs m w s : keyed keys h sigs m -> w ∈ keys -> VerifyHash s w.(Object) h = true ->
  exists m', SetKey m w.(wBytes) true = Ok m' /\ keyed keys h (<[w.(wBytes) := Some s]> sigs) m'.
Proof.
  intros (Hm & Hb & Hs) Hw Hv. destruct (SetKey_marks keys m w Hm Hw) as (m' & E & Hm' & Hb').
  exists m'. split; [done|]. split; [done|]. split.
  - intros k. rewrite Hb', Hb. destruct (decide (k = wBytes w)) as [->|Hne].
    + rewrite lookup_insert_eq. split; [by eexists|by left].
    + rewrite lookup_insert_ne by done. split; [by intros [?|?]|by right].
  - intros k so. destruct (decide (wBytes w = k)) as [<-|Hne].
    + rewrite lookup_insert_eq. intros [= <-]. by exists s, w.
    + rewrite lookup_insert_ne by done. apply Hs.
Qed.
End aggregate.
