(* ===== verification/Succession.v ===== *)
(** * Leader succession (consensus/quorum/quorum.go: NthNext, NthNextItc, NthNextValidator)

    Who leads after [pubKey].  [NthNext] and [NthNextItc] step through the key
    list; [NthNextValidator] keeps stepping until it meets a key of another
    validator.  Its loop advances by [next + 1] positions modulo the number of
    keys, so it is only sure to end when [next + 1] is coprime to that number;
    otherwise it can spin for ever although another validator exists, while the
    caller holds the decider's lock. *)
From Stdlib Require Import Znumtheory.
From S2P Require Import Prelude Dec Bls Mask Params Sharding Shard VotePower Quorum.
Local Open Scope Z_scope.

Section succession.
Context {L : BLSLib}.

Definition of_keys (s : cIdentities) (keys : list PublicKeyWrapper) : cIdentities :=
  UpdateParticipants s keys [].

Lemma IndexOf_range s keys k : - 1 <= IndexOf (of_keys s keys) k < Z.of_nat (length keys) /\
  (IndexOf (of_keys s keys) k = -1 <-> k ∉ map wBytes keys).
Proof.
  unfold IndexOf, of_keys, UpdateParticipants; cbn [keyIndexMap].
  destruct (index_of_keys_spec keys) as [H1 H2].
  destruct (index_of_keys keys !! k) as [i|] eqn:E.
  - destruct (H1 k i E) as (Hi & p & Hp & <-). apply lookup_lt_Some in Hp as Hlt. split; [lia|].
    split; [lia|]. intros Hn. exfalso. apply Hn. apply list_elem_of_In, in_map.
    apply list_elem_of_In. by eapply list_elem_of_lookup_2.
  - split; [lia|]. split; [|done]. intros _ Hin. apply list_elem_of_In, in_map_iff in Hin as (p & <- & Hp).
    apply list_elem_of_In, H2 in Hp. by rewrite E in Hp; destruct Hp.
Qed.

Lemma idx_mod {A} (l : list A) i : l <> [] -> exists a, idx l (i mod Z.of_nat (length l)) = Ok a /\ a ∈ l.
Proof.
  intros Hl. assert (0 < Z.of_nat (length l)) by (destruct l; [done|cbn; lia]).
  destruct (idx_total l (i mod Z.of_nat (length l))) as [a Ha]; [apply Z.mod_pos_bound; lia|].
  exists a. split; [done|]. apply idx_inv in Ha as [_ Ha]. by eapply list_elem_of_lookup_2.
Qed.

Lemma go_rem_nonneg a b : 0 <= a -> 0 < b -> go_rem a b = Ok (a mod b).
Proof. intros. unfold go_rem. rewrite (proj2 (Z.eqb_neq b 0)) by lia. by rewrite Z.rem_mod_nonneg. Qed.

(** [NthNext] of the participants last installed walks forward: for a
    participant and [next >= 0] it finds it and answers the key [next]
    positions further, wrapping around; for an outsider it starts just before
    the first key, says it was not found, and needs [next >= 1]. *)
Theorem NthNext_forward s keys pubKey next :
  keys <> [] -> 0 <= next ->
  (pubKey.(wBytes) ∉ map wBytes keys -> 1 <= next) ->
  exists key,
    NthNext (of_keys s keys) pubKey next =
      Ok (bool_decide (pubKey.(wBytes) ∈ map wBytes keys), key) /\
    idx keys ((IndexOf (of_keys s keys) pubKey.(wBytes) + next) mod Z.of_nat (length keys)) = Ok key.
Proof.
  intros Hk Hn Hout. destruct (IndexOf_range s keys pubKey.(wBytes)) as [Hr Hi].
  assert (0 < Z.of_nat (length keys)) by (destruct keys; [done|cbn; lia]).
  destruct (idx_mod keys (IndexOf (of_keys s keys) pubKey.(wBytes) + next) Hk) as (key & Hkey & _).
  exists key. split; [|done]. unfold NthNext, clamp_nodes.
  change (publicKeys (of_keys s keys)) with keys.
  change (ParticipantsCount (of_keys s keys)) with (Z.of_nat (length keys)).
  rewrite (proj2 (Z.leb_gt _ 0)), Z.ltb_irrefl by lia. cbn [orb].
  assert (0 <= IndexOf (of_keys s keys) (wBytes pubKey) + next) as Hpos.
  { destruct (decide (wBytes pubKey ∈ map wBytes keys)) as [Hin|Hin]; [|specialize (Hout Hin); lia].
    assert (IndexOf (of_keys s keys) (wBytes pubKey) <> -1) by (by intros ?%Hi). lia. }
  rewrite go_rem_nonneg by done. cbn [mbind outcome_bind]. rewrite Hkey. cbn [mbind outcome_bind].
  f_equal. f_equal. case_bool_decide as Hin.
  - rewrite (proj2 (Z.eqb_neq _ _)); [done|]. by intros ?%Hi.
  - by rewrite (proj2 Hi Hin).
Qed.

(** ** The loop of [NthNextValidator] *)

Section loop.
Context (keys : list PublicKeyWrapper) (addr : SerializedPublicKey -> Address) (pubKey : PublicKeyWrapper).
Context (next : Z) (Hkeys : keys <> []) (Hnext : 0 <= next).
Let n := Z.of_nat (length keys).

Definition other (key : PublicKeyWrapper) : Prop := addr key.(wBytes) <> addr pubKey.(wBytes).

Lemma n_pos : 0 < n.
Proof. subst n. destruct keys; [done|cbn; lia]. Qed.

Lemma loop_step fuel i : 0 <= i + next -> exists key,
  idx keys ((i + next) mod n) = Ok key /\ key ∈ keys /\
  NthNextValidator_loop (S fuel) keys addr pubKey next i =
    if addr key.(wBytes) =? addr pubKey.(wBytes)
    then NthNextValidator_loop fuel keys addr pubKey next ((i + next) mod n + 1) else Some (Ok key).
Proof.
  intros Hi. pose proof n_pos. destruct (idx_mod keys (i + next) Hkeys) as (key & Hkey & Hin).
  exists key. split; [done|]. split; [done|]. cbn [NthNextValidator_loop].
  rewrite go_rem_nonneg by (unfold n in *; lia). cbn [mbind outcome_bind]. by rewrite Hkey.
Qed.

Lemma loop_hits fuel i k : 0 <= i -> 0 <= k < Z.of_nat fuel ->
  (exists key, idx keys ((i + next + k * (next + 1)) mod n) = Ok key /\ other key) ->
  exists key, NthNextValidator_loop fuel keys addr pubKey next i = Some (Ok key) /\ other key /\ key ∈ keys.
Proof.
  revert i k. induction fuel as [|fuel IH]; intros i k Hi Hk (key & Hkey & Hoth); [lia|].
  destruct (loop_step fuel i ltac:(lia)) as (key0 & Hkey0 & Hin & ->). pose proof n_pos.
  destruct (Z.eqb_spec (addr (wBytes key0)) (addr (wBytes pubKey))) as [E|E]; [|by exists key0].
  assert (k <> 0).
  { intros ->. rewrite Z.mul_0_l, Z.add_0_r, Hkey0 in Hkey. injection Hkey as <-. by apply Hoth. }
  apply (IH _ (k - 1)); [pose proof (Z.mod_pos_bound (i + next) n ltac:(lia)); lia|lia|].
  exists key. split; [|done]. rewrite <- Hkey. f_equal.
  replace ((i + next) mod n + 1 + next + (k - 1) * (next + 1))
    with ((i + next) mod n + k * (next + 1)) by lia.
  by rewrite Zplus_mod_idemp_l.
Qed.

(** Steps of a length coprime to [n] reach every position within [n] steps. *)
Lemma coprime_reaches a t : Z.gcd (next + 1) n = 1 -> 0 <= t < n ->
  exists k, 0 <= k < n /\ (a + k * (next + 1)) mod n = t.
Proof.
  intros Hg Ht. pose proof n_pos.
  pose proof (Zgcd_is_gcd (next + 1) n) as Hz. rewrite Hg in Hz.
  destruct (Zis_gcd_bezout _ _ _ Hz) as [u v Huv].
  exists (((t - a) * u) mod n). split; [apply Z.mod_pos_bound; lia|].
  rewrite <- Zplus_mod_idemp_r, Zmult_mod_idemp_l, Zplus_mod_idemp_r.
  assert (u * (next + 1) = 1 - v * n) as Hu by lia.
  rewrite <- Z.mul_assoc, Hu.
  replace (a + (t - a) * (1 - v * n)) with (t + (- ((t - a) * v)) * n) by ring.
  rewrite Z.mod_add by lia. by apply Z.mod_small.
Qed.

Lemma loop_all_same fuel i : 0 <= i -> (forall key, key ∈ keys -> ~ other key) ->
  NthNextValidator_loop fuel keys addr pubKey next i = None.
Proof.
  revert i. induction fuel as [|fuel IH]; intros i Hi Hall; [done|].
  destruct (loop_step fuel i ltac:(lia)) as (key & _ & Hin & ->). pose proof n_pos.
  destruct (Z.eqb_spec (addr (wBytes key)) (addr (wBytes pubKey))) as [E|E]; [|by destruct (Hall key Hin)].
  apply IH; [|done]. pose proof (Z.mod_pos_bound (i + next) n ltac:(lia)). lia.
Qed.

(** The loop runs out of fuel exactly when the positions it visits all hold
    the caller's own validator. *)
Lemma loop_None fuel i : 0 <= i + next ->
  NthNextValidator_loop fuel keys addr pubKey next i = None <->
  forall k, 0 <= k < Z.of_nat fuel -> exists key,
    idx keys ((i + next + k * (next + 1)) mod n) = Ok key /\ ~ other key.
Proof.
  revert i. induction fuel as [|fuel IH]; intros i Hi; [split; [intros; lia|done]|].
  destruct (loop_step fuel i Hi) as (key0 & Hkey0 & _ & ->). pose proof n_pos.
  pose proof (Z.mod_pos_bound (i + next) n ltac:(lia)).
  assert (forall k, ((i + next) mod n + 1 + next + k * (next + 1)) mod n = (i + next + (k + 1) * (next + 1)) mod n) as Hpos.
  { intros k. replace ((i + next) mod n + 1 + next + k * (next + 1)) with ((i + next) mod n + (k + 1) * (next + 1)) by lia.
    by rewrite Zplus_mod_idemp_l. }
  unfold other in *. destruct (Z.eqb_spec (addr (wBytes key0)) (addr (wBytes pubKey))) as [E|E].
  - rewrite IH by lia. setoid_rewrite Hpos. split.
    + intros Hall k Hk. destruct (Z.eq_dec k 0) as [->|].
      { rewrite Z.mul_0_l, Z.add_0_r. exists key0. split; [done|]. by intros ?. }
      destruct (Hall (k - 1) ltac:(lia)) as (key & Hkey & Ho). exists key. by replace (k - 1 + 1) with k in Hkey by lia.
    + intros Hall k Hk. apply Hall. lia.
  - split; [done|]. intros Hall. destruct (Hall 0 ltac:(lia)) as (key & Hkey & Ho).
    rewrite Z.mul_0_l, Z.add_0_r, Hkey0 in Hkey. injection Hkey as <-. by destruct Ho.
Qed.

(** A call that has not returned after as many turns as there are keys never
    does. *)
Lemma loop_bound fuel i : 0 <= i + next ->
  NthNextValidator_loop (length keys) keys addr pubKey next i = None ->
  NthNextValidator_loop fuel keys addr pubKey next i = None.
Proof.
  intros Hi. rewrite !loop_None by done. pose proof n_pos. intros Hall k Hk.
  destruct (Hall (k mod n)) as (key & Hkey & Ho); [by apply Z.mod_pos_bound|]. exists key. split; [|done].
  rewrite <- Hkey. f_equal. rewrite <- (Zplus_mod_idemp_r (k * (next + 1))), <- (Zplus_mod_idemp_r (k mod n * (next + 1))).
  by rewrite Zmult_mod_idemp_l.
Qed.
End loop.

(** C34: when [NthNextValidator] is sure to end.  For a participant, if some
    participant's key belongs to another validator and [next + 1] is coprime to
    the number of keys, the loop ends within that many turns, and answers a
    participant of another validator. *)
Theorem NthNextValidator_terminates s keys slots pubKey next key :
  pubKey.(wBytes) ∈ map wBytes keys -> 0 <= next ->
  Z.gcd (next + 1) (Z.of_nat (length keys)) = 1 ->
  key ∈ keys ->
  address_of (public_to_address slots) key.(wBytes) <> address_of (public_to_address slots) pubKey.(wBytes) ->
  exists key', NthNextValidator (length keys) (of_keys s keys) slots pubKey next = Some (Ok (true, key')) /\
    key' ∈ keys /\
    address_of (public_to_address slots) key'.(wBytes) <> address_of (public_to_address slots) pubKey.(wBytes).
Proof.
  intros Hin Hn Hg Hkey Hoth.
  assert (keys <> []) as Hne by (intros ->; by apply elem_of_nil in Hkey).
  destruct (IndexOf_range s keys pubKey.(wBytes)) as [Hr Hi].
  assert (IndexOf (of_keys s keys) (wBytes pubKey) <> -1) as Hf by (by intros ?%Hi).
  apply list_elem_of_lookup in Hkey as [t Ht]. apply lookup_lt_Some in Ht as Hlt.
  destruct (coprime_reaches keys next Hne (IndexOf (of_keys s keys) (wBytes pubKey) + next) (Z.of_nat t) Hg)
    as (k & Hk & Hmod); [lia|].
  destruct (loop_hits keys (address_of (public_to_address slots)) pubKey next Hne Hn (length keys)
    (IndexOf (of_keys s keys) (wBytes pubKey)) k) as (key' & Hloop & Ho & Hin').
  - lia.
  - done.
  - exists key. split; [|done]. rewrite Hmod. by apply idx_nat.
  - exists key'. split; [|done]. unfold NthNextValidator.
    change (publicKeys (of_keys s keys)) with keys. destruct keys as [|x xs]; [done|].
    rewrite (proj2 (Z.ltb_ge next 0) Hn), Hloop, (proj2 (Z.eqb_neq _ _) Hf). done.
Qed.

(** And when it never does.  If every key belongs to the caller's own
    validator, no amount of turns ends the loop. *)
Theorem NthNextValidator_spins s keys slots pubKey next fuel :
  pubKey.(wBytes) ∈ map wBytes keys -> 0 <= next ->
  (forall key, key ∈ keys ->
     address_of (public_to_address slots) key.(wBytes) = address_of (public_to_address slots) pubKey.(wBytes)) ->
  NthNextValidator fuel (of_keys s keys) slots pubKey next = None.
Proof.
  intros Hin Hn Hall. assert (keys <> []) as Hne by (intros ->; by apply elem_of_nil in Hin).
  destruct (IndexOf_range s keys pubKey.(wBytes)) as [Hr Hi].
  assert (IndexOf (of_keys s keys) (wBytes pubKey) <> -1) as Hf by (by intros ?%Hi).
  unfold NthNextValidator. change (publicKeys (of_keys s keys)) with keys.
  destruct keys as [|x xs] eqn:Ek; [done|]. rewrite <- Ek in *.
  rewrite (proj2 (Z.ltb_ge next 0) Hn), loop_all_same; [done|done|done|lia|].
  intros key Hk Ho. apply Ho. by apply Hall.
Qed.
End succession.

(** ** Concrete committees *)

Definition wrap (k : Z) : @PublicKeyWrapper ZBLS := mkWrapper (L := ZBLS) k k.
Definition four : list (@PublicKeyWrapper ZBLS) := [wrap 10; wrap 11; wrap 12; wrap 13].
Definition four_ids : @cIdentities ZBLS := of_keys newCIdentities four.

(** Validators A, A, B, A: from the first key with [next = 1] the loop only
    ever visits the second and the fourth key, so B is never found. *)
Definition AABA : SlotList :=
  [mkSlot 1 10 None; mkSlot 1 11 None; mkSlot 2 12 None; mkSlot 1 13 None].

Lemma NthNextValidator_spins_although_B_exists fuel :
  NthNextValidator fuel four_ids AABA (wrap 10) 1 = None.
Proof.
  assert (forall fuel, forall i, i = 0 \/ i = 2 \/ i = 4 ->
    NthNextValidator_loop fuel four (address_of (public_to_address AABA)) (wrap 10) 1 i = None) as H.
  { clear fuel. induction fuel as [|fuel IH]; intros i Hi; [done|].
    destruct Hi as [-> |[-> | ->]]; cbn -[address_of public_to_address];
      change (address_of (public_to_address AABA) 10) with 1;
      change (address_of (public_to_address AABA) 11) with 1;
      change (address_of (public_to_address AABA) 13) with 1; apply IH; auto. }
  unfold NthNextValidator. change (publicKeys four_ids) with four. cbn [four].
  change (1 <? 0) with false. cbv iota. change (IndexOf four_ids (wBytes (wrap 10))) with 0.
  by rewrite (H fuel 0) by auto.
Qed.

(** [next] can be a negative number, says the comment of [NthNext]; the index
    then goes negative as well. *)
Lemma NthNext_negative_panics : NthNext four_ids (wrap 10) (-1) = Panic "index out of range".
Proof. reflexivity. Qed.

Lemma NthNext_forward_witness :
  exists key, NthNext four_ids (wrap 13) 2 = Ok (true, key) /\ key = wrap 11.
Proof.
  destruct (NthNext_forward (L := ZBLS) newCIdentities four (wrap 13) 2) as (key & H & Hk).
  - done.
  - lia.
  - lia.
  - exists key. split; [exact H|].
    assert (Ok key = Ok (wrap 11)) as E by (rewrite <- Hk; reflexivity). by injection E.
Defined.

Lemma NthNextValidator_terminates_witness :
  exists key', NthNextValidator 4 four_ids AABA (wrap 10) 2 = Some (Ok (true, key')) /\ key' ∈ four.
Proof.
  destruct (NthNextValidator_terminates (L := ZBLS) newCIdentities four AABA (wrap 10) 2 (wrap 12))
    as (key' & H & Hin & _).
  - left.
  - lia.
  - reflexivity.
  - right. right. left.
  - discriminate.
  - by exists key'.
Defined.

Lemma NthNextValidator_spins_witness :
  NthNextValidator 1000 four_ids [mkSlot 1 10 None; mkSlot 1 11 None; mkSlot 1 12 None; mkSlot 1 13 None]
    (wrap 10) 3 = None.
Proof.
  apply (NthNextValidator_spins (L := ZBLS) newCIdentities four).
  - left.
  - lia.
  - intros key Hk. unfold four in Hk.
    repeat (apply elem_of_cons in Hk as [->|Hk]; [reflexivity|]). by apply elem_of_nil in Hk.
Defined.
