(* ===== verification/Decider.v ===== *)
(** * The decider interface (consensus/quorum/quorum.go: Decider)

    The consensus talks to whichever of the two deciders of Quorum.v its epoch
    uses.  A [Decider] is one of them and the methods dispatch; those of
    [Participant] and [SignatureReader] are promoted from the embedded
    [cIdentities]. *)
From S2P Require Import Prelude Dec Bls Mask Params Sharding Shard VotePower Quorum.
Local Open Scope Z_scope.

Section decider.
Context {L : BLSLib}.

Definition Decider : Type := uniformVoteWeight + stakedVoteWeight.

Definition ids (d : Decider) : cIdentities := match d with inl u => u.(ucid) | inr v => v.(cid) end.

Definition d_Policy (d : Decider) : Policy := match d with inl _ => SuperMajorityVote | inr _ => SuperMajorityStake end.
Definition d_Participants (d : Decider) : list PublicKeyWrapper := Participants (ids d).
Definition d_ParticipantsCount (d : Decider) : Z := ParticipantsCount (ids d).
Definition d_IndexOf (d : Decider) (key : SerializedPublicKey) : Z := IndexOf (ids d) key.
Definition d_ReadBallot (d : Decider) (p : Phase) (key : SerializedPublicKey) : option Ballot := ReadBallot (ids d) p key.
Definition d_SignersCount (d : Decider) (p : Phase) : Z := SignersCount (ids d) p.
Definition d_AggregateVotes (d : Decider) (p : Phase) : Sign := AggregateVotes (ids d) p.
Definition d_FirstParticipant (d : Decider) (i : instance) : outcome PublicKeyWrapper := FirstParticipant (ids d) i.
Definition d_NthNextItc (d : Decider) (i : instance) (key : PublicKeyWrapper) (next : Z) :
    outcome (bool * PublicKeyWrapper) := NthNextItc (ids d) i key next.

(** [NthNextValidator] visits every index it can within as many turns as there
    are keys, so a call that has not returned by then never does. *)
Definition never_returns : string := "NthNextValidator never returns".
Definition d_NthNextValidator (d : Decider) (slots : SlotList) (key : PublicKeyWrapper) (next : Z) :
    outcome (bool * PublicKeyWrapper) :=
  match NthNextValidator (S (length (ids d).(publicKeys))) (ids d) slots key next with
  | Some r => r
  | None => Panic never_returns
  end.

Definition d_UpdateParticipants (d : Decider) (pubKeys allowlist : list PublicKeyWrapper) : Decider :=
  match d with
  | inl u => inl (mkUniform (UpdateParticipants u.(ucid) pubKeys allowlist) u.(lastPowerSignersCountCache) u.(lastParticipantsCount))
  | inr v => inr (mkStaked (UpdateParticipants v.(cid) pubKeys allowlist) v.(roster) v.(voteTally) v.(lastPower))
  end.

Definition d_AddNewVote (d : Decider) (p : Phase) (pubKeys : list PublicKeyWrapper) (sig : Sign)
    (headerHash height viewID : Z) : Decider * outcome Ballot :=
  match d with
  | inl u => let '(u', r) := uAddNewVote u p pubKeys sig headerHash height viewID in (inl u', r)
  | inr v => let '(v', r) := AddNewVote v p pubKeys sig headerHash height viewID in (inr v', r)
  end.
Definition d_IsQuorumAchieved (d : Decider) (p : Phase) : bool :=
  match d with inl u => uIsQuorumAchieved u p | inr v => IsQuorumAchieved v p end.
Definition d_IsQuorumAchievedByMask (d : Decider) (mask : option Mask) : outcome bool :=
  match d with inl u => uIsQuorumAchievedByMask u mask | inr v => IsQuorumAchievedByMask v mask end.
Definition d_ResetPrepareAndCommitVotes (d : Decider) : Decider :=
  match d with inl u => inl (uResetPrepareAndCommitVotes u) | inr v => inr (ResetPrepareAndCommitVotes v) end.
Definition d_ResetViewChangeVotes (d : Decider) : Decider :=
  match d with inl u => inl (uResetViewChangeVotes u) | inr v => inr (ResetViewChangeVotes v) end.
Definition d_SetVoters (sched : Schedule) (d : Decider) (subCommittee : Committee) (epoch : option Z) : Decider * outcome unit :=
  match d with
  | inl u => let '(u', r) := uSetVoters u subCommittee epoch in (inl u', let! _ := r in Ok tt)
  | inr v => let '(v', r) := SetVoters sched v subCommittee epoch in (inr v', let! _ := r in Ok tt)
  end.
End decider.
