(* ===== verification/ViewChange.v ===== *)
(** * View change bookkeeping (consensus/view_change_construct.go)

    While a view change is under way a node collects, per view, three kinds of
    signatures: M1 on a prepared block, M2 on [NIL], M3 on the view number; each
    kind with a bitmap of its signers ([viewChange]).  The next leader makes the
    NEWVIEW message of them.

    Methods get the message log, which [verifyBlock] marks blocks in, so the
    state here is the pair of both ([VCState]).  The maps keyed by the
    hexadecimal text of a public key are keyed by the key. *)
From S2P Require Import Prelude Dec Bls SigBitmap Mask Params Sharding Shard Header CXReceipt Block VotePower Quorum Decider FbftLog.
Local Open Scope Z_scope.

(** 32 bytes of block hash, then a signature. *)
Definition ValidPayloadLength : nat := 32 + BLSSignatureSizeInBytes.
Definition NIL : list Z := [1].

Definition errDupM1 : string := "received M1 (prepared) message already".
Definition errDupM2 : string := "received M2 (NIL) message already".
Definition errDupM3 : string := "received M3 (ViewID) message already".
Definition errVerifyM1 : string := "failed to verfiy signature for M1 message".
Definition errVerifyM2 : string := "failed to verfiy signature for M2 message".
Definition errM1Payload : string := "failed to verify multi signature for M1 prepared payload".
Definition errNoQuorum : string := "no quorum on M1 (prepared) payload".
Definition errIncorrectSender : string := "multiple senders not allowed".

(** What a nil pointer is worth. *)
Definition deref {A} (p : option A) : outcome A := match p with Some a => Ok a | None => Panic nil_deref end.

Section viewchange.
Context {L : BLSLib} {S : SigCheck L} {G : Signer L} {H : Hashes} {T : TxLib} {R : BlockRLP} {W : Walk}.

Notation Sigs := (gmap Z (gmap SerializedPublicKey (option Sign))).
Notation Bitmaps := (gmap Z Mask).

Record viewChange_ := mkVC {
  bhpSigs : Sigs;
  nilSigs : Sigs;
  viewIDSigs : Sigs;
  bhpBitmap : Bitmaps;
  nilBitmap : Bitmaps;
  viewIDBitmap : Bitmaps;
  newViewMsg : gmap Z (gmap SerializedPublicKey Z);
  m1Payload : list Z
}.

(** [Reset] leaves [viewChangeDuration], which nothing reads. *)
Definition Reset : viewChange_ := mkVC ∅ ∅ ∅ ∅ ∅ ∅ ∅ [].
Definition newViewChange : viewChange_ := Reset.

Definition VCState : Type := viewChange_ * FBFTLog.
Notation VC := (SM VCState).

(** ** Access *)

Definition has_sig (m : Sigs) (viewID : Z) (key : SerializedPublicKey) : bool :=
  bool_decide (is_Some (default ∅ (m !! viewID) !! key)).
(** [if _, ok := m[viewID]; !ok { m[viewID] = {} }; m[viewID][key] = sig] *)
Definition put_sig (m : Sigs) (viewID : Z) (key : SerializedPublicKey) (sig : option Sign) : Sigs :=
  <[viewID := <[key := sig]> (default ∅ (m !! viewID))]> m.
(** [if _, ok := m[viewID]; !ok { m[viewID] = NewMask(members) }] *)
Definition with_mask (m : Bitmaps) (viewID : Z) (members : list PublicKeyWrapper) : Bitmaps :=
  match m !! viewID with Some _ => m | None => <[viewID := NewMask members]> m end.
(** ... followed by [SetKey(key, true)], whose error is returned beside. *)
Definition put_bit (m : Bitmaps) (viewID : Z) (members : list PublicKeyWrapper) (key : SerializedPublicKey)
    : outcome (Bitmaps * bool) :=
  let m := with_mask m viewID members in
  match SetKey (default (NewMask members) (m !! viewID)) key true with
  | Ok mask => Ok (<[viewID := mask]> m, true)
  | Err _ => Ok (m, false)
  | Panic w => Panic w
  end.

Definition set_bhp (v : viewChange_) (s : Sigs) (b : Bitmaps) : viewChange_ :=
  mkVC s v.(nilSigs) v.(viewIDSigs) b v.(nilBitmap) v.(viewIDBitmap) v.(newViewMsg) v.(m1Payload).
Definition set_nil (v : viewChange_) (s : Sigs) (b : Bitmaps) : viewChange_ :=
  mkVC v.(bhpSigs) s v.(viewIDSigs) v.(bhpBitmap) b v.(viewIDBitmap) v.(newViewMsg) v.(m1Payload).
Definition set_viewID (v : viewChange_) (s : Sigs) (b : Bitmaps) : viewChange_ :=
  mkVC v.(bhpSigs) v.(nilSigs) s v.(bhpBitmap) v.(nilBitmap) b v.(newViewMsg) v.(m1Payload).
Definition set_m1Payload (v : viewChange_) (p : list Z) : viewChange_ :=
  mkVC v.(bhpSigs) v.(nilSigs) v.(viewIDSigs) v.(bhpBitmap) v.(nilBitmap) v.(viewIDBitmap) v.(newViewMsg) p.
Definition set_newViewMsg (v : viewChange_) (m : gmap Z (gmap SerializedPublicKey Z)) : viewChange_ :=
  mkVC v.(bhpSigs) v.(nilSigs) v.(viewIDSigs) v.(bhpBitmap) v.(nilBitmap) v.(viewIDBitmap) m v.(m1Payload).

Definition on_vc (f : viewChange_ -> viewChange_) : VC unit := modify (fun s => (f s.1, s.2)).
Definition on_log (f : FBFTLog -> FBFTLog) : VC unit := modify (fun s => (s.1, f s.2)).

Definition isM1PayloadEmpty (v : viewChange_) : bool := (length v.(m1Payload) =? 0)%nat.
Definition GetViewIDBitmap (v : viewChange_) (viewID : Z) : option Mask := v.(viewIDBitmap) !! viewID.
Definition GetM1Payload (v : viewChange_) : list Z := v.(m1Payload).

Definition with_view (m : Sigs) (viewID : Z) : Sigs :=
  match m !! viewID with Some _ => m | None => <[viewID := ∅]> m end.
Definition AddViewIDKeyIfNotExist (v : viewChange_) (viewID : Z) (members : list PublicKeyWrapper) : viewChange_ :=
  let v := set_bhp v (with_view v.(bhpSigs) viewID) v.(bhpBitmap) in
  let v := set_nil v (with_view v.(nilSigs) viewID) v.(nilBitmap) in
  let v := set_viewID v (with_view v.(viewIDSigs) viewID) v.(viewIDBitmap) in
  let v := set_bhp v v.(bhpSigs) (with_mask v.(bhpBitmap) viewID members) in
  let v := set_nil v v.(nilSigs) (with_mask v.(nilBitmap) viewID members) in
  set_viewID v v.(viewIDSigs) (with_mask v.(viewIDBitmap) viewID members).

(** One signature is kept and its signer marked.  When the signer is not in the
    committee [SetKey] fails: a received signature is kept all the same, one of
    the node's own is not. *)
Definition record_sig (received : bool) (put : viewChange_ -> Sigs -> Bitmaps -> viewChange_)
    (sigs : viewChange_ -> Sigs) (bitmaps : viewChange_ -> Bitmaps) (viewID : Z) (members : list PublicKeyWrapper)
    (key : SerializedPublicKey) (sig : option Sign) : VC unit :=
  let! v := @gets VCState _ fst in
  let! (bits : Bitmaps * bool) := lift (put_bit (bitmaps v) viewID members key) in
  on_vc (fun v : viewChange_ =>
    put v (if received || bits.2 then put_sig (sigs v) viewID key sig else sigs v) bits.1).

(** ** What the new leader sends *)

Definition GetPreparedBlock (v : viewChange_) (fbftlog : FBFTLog) : option (list Z * list Z) :=
  if isM1PayloadEmpty v then None
  else
    let blockHash := be_value (copy_into 32 (GetM1Payload v)) in
    if negb (IsBlockVerified fbftlog blockHash) then None
    else match GetBlockByHash fbftlog blockHash with
         | None => None
         | Some block =>
             match Block_EncodeRLP block with
             | Ok (b :: bs) => Some (v.(m1Payload), b :: bs)
             | _ => None
             end
         end.

(** The signatures of a view; adding a nil one to a sum panics. *)
Definition sigs_of (m : Sigs) (viewID : Z) : outcome (list Sign) :=
  foldM (fun acc kv => let! s := deref kv.2 in Ok (acc ++ [s])) (walk (K := SerializedPublicKey) (default ∅ (m !! viewID))) [].
Definition aggregated (sigs : Sigs) (bitmaps : Bitmaps) (viewID : Z) : outcome (option (list Z * list Z)) :=
  let! arr := sigs_of sigs viewID in
  match arr with
  | [] => Ok None
  | _ => let! mask := deref (bitmaps !! viewID) in Ok (Some (sig_Serialize (AggregateSig arr), mask.(Bitmap)))
  end.
Definition GetM2Bitmap (v : viewChange_) (viewID : Z) : outcome (option (list Z * list Z)) :=
  aggregated v.(nilSigs) v.(nilBitmap) viewID.
Definition GetM3Bitmap (v : viewChange_) (viewID : Z) : outcome (option (list Z * list Z)) :=
  aggregated v.(viewIDSigs) v.(viewIDBitmap) viewID.

(** ** Verifying a NEWVIEW message *)

Section verify.
Context (verifyBlock : FBFTLog -> Block -> FBFTLog * outcome unit).

Definition verify_block (b : Block) : VC unit := fun s => let '(log, r) := verifyBlock s.2 b in ((s.1, log), r).
Definition check (b : bool) (why : string) : VC unit := if b then mret tt else stop why.

Definition decode_block (bs : list Z) (why : string) : VC Block :=
  match Block_DecodeRLP bs with Ok b => mret b | Err _ => stop why | Panic w => lift (Panic w) end.

Definition VerifyNewViewMsg (recvMsg : FBFTMessage) : VC (option Block) :=
  match recvMsg.(M3AggSig), recvMsg.(M3Bitmap) with
  | Some m3Sig, Some m3Mask =>
      let! senderKey := lift (idx recvMsg.(SenderPubkeys) 0) in
      let view := recvMsg.(ViewID) in
      let! _ := on_vc (fun v => set_newViewMsg v
        (<[view := <[senderKey.(wBytes) := recvMsg.(BlockNum)]> (default ∅ (v.(newViewMsg) !! view))]> v.(newViewMsg))) in
      let! _ := check (VerifyHash m3Sig m3Mask.(AggregatePublic) (PutUint64 view))
                  "[VerifyNewViewMsg] Unable to Verify Aggregated Signature of M3 (ViewID) payload" in
      let! _ := match recvMsg.(M2AggSig) with
                | None => mret tt
                | Some m2Sig =>
                    let! m2Mask := lift (deref recvMsg.(M2Bitmap)) in
                    check (VerifyHash m2Sig m2Mask.(AggregatePublic) NIL)
                      "[VerifyNewViewMsg] Unable to Verify Aggregated Signature of M2 (NIL) payload"
                end in
      if (ValidPayloadLength <=? length recvMsg.(Payload))%nat && negb (length recvMsg.(mBlock) =? 0)%nat then
        let! preparedBlock := decode_block recvMsg.(mBlock) "[VerifyNewViewMsg] Unparseable prepared block data" in
        let! _ := check (bool_decide (be_bytes 32 (Block_Hash preparedBlock) = take 32 recvMsg.(Payload)))
                    "[VerifyNewViewMsg] Prepared block hash doesn't match msg block hash" in
        let! _ := verify_block preparedBlock in
        mret (Some preparedBlock)
      else mret None
  | _, _ => stop "[VerifyNewViewMsg] M3AggSig or M3Bitmap is nil"
  end.

(** ** Collecting a VIEWCHANGE message *)

(** The M3 part, of both kinds of message. *)
Definition add_M3 (decider : Decider) (recvMsg : FBFTMessage) (key : SerializedPublicKey) : VC unit :=
  record_sig true set_viewID viewIDSigs viewIDBitmap recvMsg.(ViewID) (d_Participants decider) key recvMsg.(ViewidSig).

Definition ProcessViewChangeMsg (decider : Decider) (recvMsg : FBFTMessage) : VC unit :=
  if negb (HasSingleSender recvMsg) then stop errIncorrectSender
  else
    let! senderKey := lift (idx recvMsg.(SenderPubkeys) 0) in
    let key := senderKey.(wBytes) in
    let view := recvMsg.(ViewID) in
    let payload := recvMsg.(Payload) in
    let! v := @gets VCState _ fst in
    if has_sig v.(viewIDSigs) view key then stop errDupM3
    else if (ValidPayloadLength <=? length payload)%nat && negb (length recvMsg.(mBlock) =? 0)%nat then
      let! preparedBlock := decode_block recvMsg.(mBlock) "rlp" in
      let! _ := verify_block preparedBlock in
      let! _ := check (negb (has_sig v.(bhpSigs) view key)) errDupM1 in
      let! sig := lift (deref recvMsg.(ViewchangeSig)) in
      let! _ := check (VerifyHash sig senderKey.(Object) payload) errVerifyM1 in
      let! am := lift (ReadSignatureBitmapByPublicKeys (drop 32 payload) (d_Participants decider)) in
      let '(aggSig, mask) := am in
      let! (q : bool) := lift (d_IsQuorumAchievedByMask decider (Some mask)) in
      let! _ := check q errNoQuorum in
      let! _ := check (VerifyHash aggSig mask.(AggregatePublic) (take 32 payload)) errM1Payload in
      let! _ := record_sig true set_bhp bhpSigs bhpBitmap view (d_Participants decider) key recvMsg.(ViewchangeSig) in
      let! _ := add_M3 decider recvMsg key in
      if isM1PayloadEmpty v then
        let! _ := on_vc (fun v => set_m1Payload v payload) in
        let! leader := lift (deref recvMsg.(LeaderPubkey)) in
        let preparedMsg := mkMsg MessageType_PREPARED view recvMsg.(BlockNum) (be_value (take 32 payload)) []
          [leader] [] None (drop 32 payload) None None None None None None false in
        let! _ := on_log (fun log => AddVerifiedMessage log preparedMsg) in
        on_log (fun log => AddBlock log preparedBlock)
      else mret tt
    else
      let! _ := check (negb (has_sig v.(nilSigs) view key)) errDupM2 in
      let! sig := lift (deref recvMsg.(ViewchangeSig)) in
      let! _ := check (VerifyHash sig senderKey.(Object) NIL) errVerifyM2 in
      let! _ := record_sig true set_nil nilSigs nilBitmap view (d_Participants decider) key recvMsg.(ViewchangeSig) in
      add_M3 decider recvMsg key.

(** ** A node's own part *)

(** One private key signs. *)
Definition add_own (put : viewChange_ -> Sigs -> Bitmaps -> viewChange_) (sigs : viewChange_ -> Sigs)
    (bitmaps : viewChange_ -> Bitmaps) (viewID : Z) (members : list PublicKeyWrapper) (toSign : list Z)
    (key : PrivateKeyWrapper) : VC unit :=
  record_sig false put sigs bitmaps viewID members key.(Pub).(wBytes) (SignHash key.(Pri) toSign).

Definition my_key_has (privKeys : list PrivateKeyWrapper) (has : SerializedPublicKey -> bool) : bool :=
  existsb (fun key => has key.(Pub).(wBytes)) privKeys.

(** The prepared message and block this node can vouch for. *)
Definition find_prepared (blockNum : Z) : VC (option FBFTMessage) :=
  let! log := @gets VCState _ snd in
  match FindMessageByMaxViewID (GetMessagesByTypeSeq log MessageType_PREPARED blockNum) with
  | None => mret None
  | Some preparedMsg =>
      match GetBlockByHash log preparedMsg.(BlockHash) with
      | None => mret None
      | Some preparedBlock =>
          let! e := caught (verify_block preparedBlock) in
          mret (match e with None => Some preparedMsg | Some _ => None end)
      end
  end.

Definition InitPayload (viewID blockNum : Z) (privKeys : list PrivateKeyWrapper) (members : list PublicKeyWrapper)
    : VC unit :=
  let! v := @gets VCState _ fst in
  let! _ := sm_when (negb (my_key_has privKeys (fun k => has_sig v.(bhpSigs) viewID k || has_sig v.(nilSigs) viewID k)))
    (let! prepared := find_prepared blockNum in
     match prepared with
     | Some preparedMsg =>
         let msgToSign := be_bytes 32 preparedMsg.(BlockHash) ++ preparedMsg.(Payload) in
         let! _ := sm_for privKeys (add_own set_bhp bhpSigs bhpBitmap viewID members msgToSign) in
         on_vc (fun v => if isM1PayloadEmpty v then set_m1Payload v msgToSign else v)
     | None => sm_for privKeys (add_own set_nil nilSigs nilBitmap viewID members NIL)
     end) in
  let! v := @gets VCState _ fst in
  sm_when (negb (my_key_has privKeys (fun k => has_sig v.(viewIDSigs) viewID k)))
    (sm_for privKeys (add_own set_viewID viewIDSigs viewIDBitmap viewID members (PutUint64 viewID))).
End verify.
End viewchange.
