(* ===== verification/ViewChangeSafety.v ===== *)
(** * The new leader's NEWVIEW message verifies

    In every state the view change bookkeeping can reach, each bitmap marks
    exactly the members whose signature is kept and each kept signature verifies
    ([vc_inv]); so the aggregates the new leader sends are accepted by every
    validator of the committee ([NEWVIEW_verifies]). *)
From S2P Require Import Prelude Dec Bls SigBitmap Mask Params Sharding Shard Header CXReceipt Block VotePower Quorum QuorumSafety.
From S2P Require Import FbftLog FbftMessage Aggregate Decider ViewChange.
Local Open Scope Z_scope.

Section safety.
Context {L : BLSLib} {S : SigCheck L} {G : Signer L} {H : Hashes} {T : TxLib} {R : BlockRLP} {W : Walk}.
Context (laws : BLSLaws L) (slaws : SigLaws L S G).
Context (members : list PublicKeyWrapper) (Hnd : NoDup (map wBytes members)).

(** ** The invariant *)

(** One kind of signature, with what is signed for each view. *)
Definition half (h : Z -> list Z) (sigs : gmap Z (gmap SerializedPublicKey (option Sign))) (bitmaps : gmap Z Mask) : Prop :=
  forall view, match bitmaps !! view with
               | Some m => keyed members (h view) (default ∅ (sigs !! view)) m
               | None => default ∅ (sigs !! view) = ∅
               end.
Record vc_inv (v : viewChange_) : Prop := {
  vi_nil : half (fun _ => NIL) v.(nilSigs) v.(nilBitmap);
  vi_view : half PutUint64 v.(viewIDSigs) v.(viewIDBitmap)
}.

Lemma half_empty h : half h ∅ ∅.
Proof. intros view. by rewrite !lookup_empty. Qed.

Lemma half_with_view h sigs bm view : half h sigs bm -> half h (with_view sigs view) bm.
Proof.
  intros Hh view'. specialize (Hh view'). unfold with_view. destruct (sigs !! view) eqn:E; [done|].
  destruct (decide (view = view')) as [<-|]; [|by rewrite lookup_insert_ne]. rewrite E in Hh. by rewrite lookup_insert_eq.
Qed.

Lemma half_with_mask h sigs bm view : half h sigs bm -> half h sigs (with_mask bm view members).
Proof.
  intros Hh view'. pose proof (Hh view') as Hv. unfold with_mask. destruct (bm !! view) eqn:E; [done|].
  destruct (decide (view = view')) as [<-|]; [|by rewrite lookup_insert_ne]. rewrite E in Hv. rewrite lookup_insert_eq, Hv.
  apply keyed_empty.
Qed.

Lemma with_mask_keyed h sigs bm view : half h sigs bm -> exists m,
  with_mask bm view members !! view = Some m /\ keyed members (h view) (default ∅ (sigs !! view)) m.
Proof.
  intros Hh. pose proof (half_with_mask h sigs bm view Hh view) as Hv.
  destruct (with_mask bm view members !! view) as [m|] eqn:E; [by exists m|].
  unfold with_mask in E. destruct (bm !! view) eqn:E'; [congruence|]. by rewrite lookup_insert_eq in E.
Qed.

(** Recording a member's signature. *)
Lemma half_put h sigs bm view w s : half h sigs bm -> w ∈ members -> VerifyHash s w.(Object) (h view) = true ->
  exists bm', put_bit bm view members w.(wBytes) = Ok (bm', true) /\ half h (put_sig sigs view w.(wBytes) (Some s)) bm'.
Proof.
  intros Hh Hw Hv. destruct (with_mask_keyed h sigs bm view Hh) as (m & Em & Hk).
  destruct (keyed_add laws members _ _ m w s Hk Hw Hv) as (m' & E & Hk').
  unfold put_bit. rewrite Em. cbn [default]. unfold Datatypes.id. rewrite E. eexists. split; [done|].
  intros view'. unfold put_sig. destruct (decide (view = view')) as [<-|]; [by rewrite !lookup_insert_eq|].
  rewrite !lookup_insert_ne by done. by apply half_with_mask.
Qed.

Lemma half_skip h sigs bm view k : half h sigs bm -> k ∉ map wBytes members ->
  put_bit bm view members k = Ok (with_mask bm view members, false).
Proof.
  intros Hh Hk. destruct (with_mask_keyed h sigs bm view Hh) as (m & Em & (Hm & _)).
  unfold put_bit. rewrite Em. cbn [default]. unfold Datatypes.id. by rewrite (SetKey_absent members m k Hm Hk).
Qed.

(** ** Preservation *)

Notation VC := (SM VCState).
Notation I := (fun s : VCState => vc_inv s.1).
Context (verifyBlock : FBFTLog -> Block -> FBFTLog * outcome unit).

Lemma Reset_inv : vc_inv Reset.
Proof. split; apply half_empty. Qed.

Lemma AddViewIDKey_inv v view : vc_inv v -> vc_inv (AddViewIDKeyIfNotExist v view members).
Proof. intros [Hn Hv]. split; cbn; by apply half_with_mask, half_with_view. Qed.

Lemma on_log_keeps f : keeps I (on_log f).
Proof. apply keeps_modify. done. Qed.
Lemma verify_block_keeps b : keeps I (verify_block verifyBlock b).
Proof. intros [v log] Hv. unfold verify_block. cbn. by destruct (verifyBlock log b). Qed.
Lemma check_keeps b e : keeps I (check b e).
Proof. unfold check. sm_keeps. Qed.
Lemma keeps_check_then b e (m : VC unit) : (b = true -> keeps I m) -> keeps I (let! _ := check b e in m).
Proof. destruct b; intros Hm; [by apply Hm|by intros s]. Qed.
Lemma decode_block_keeps bs e : keeps I (decode_block bs e).
Proof. unfold decode_block. sm_keeps. Qed.
Hint Resolve on_log_keeps verify_block_keeps check_keeps decode_block_keeps : sm.
Lemma on_vc_other_keeps f : (forall v, vc_inv v -> vc_inv (f v)) -> keeps I (on_vc f).
Proof. intros Hf. apply keeps_modify. intros s. apply Hf. Qed.

(** A VIEWCHANGE message of a member whose view signature was checked. *)
Definition member_msg (m : FBFTMessage) : Prop :=
  exists w s, m.(SenderPubkeys) = [w] /\ w ∈ members /\ m.(ViewidSig) = Some s /\
    VerifyHash s w.(Object) (PutUint64 m.(ViewID)) = true.


(** Recording a signature that verifies keeps the invariant; recording for a
    key outside the committee does when the signature is the node's own. *)
Lemma record_keeps received put sigs bitmaps h view w s :
  (forall v, vc_inv v -> half h (sigs v) (bitmaps v)) ->
  (forall v a b, vc_inv v -> half h a b -> vc_inv (put v a b)) ->
  w ∈ members -> VerifyHash s w.(Object) (h view) = true ->
  keeps I (record_sig received put sigs bitmaps view members w.(wBytes) (Some s)).
Proof.
  intros Hget Hput Hw Hs [v log] Hv. cbn in Hv. unfold record_sig, mbind, SM_bind, gets, lift, on_vc, modify. cbn [fst snd].
  destruct (half_put h _ _ view w s (Hget v Hv) Hw Hs) as (bm & -> & Hh). cbn [fst snd]. rewrite orb_true_r. by apply Hput.
Qed.

Lemma record_own_keeps put sigs bitmaps h view key sig :
  (forall v, vc_inv v -> half h (sigs v) (bitmaps v)) ->
  (forall v a b, vc_inv v -> half h a b -> vc_inv (put v a b)) ->
  key ∉ map wBytes members ->
  keeps I (record_sig false put sigs bitmaps view members key sig).
Proof.
  intros Hget Hput Hk [v log] Hv. cbn in Hv. unfold record_sig, mbind, SM_bind, gets, lift, on_vc, modify. cbn [fst snd].
  rewrite (half_skip h (sigs v) _ view key (Hget v Hv) Hk). cbn [fst snd orb]. apply Hput; [done|].
  apply half_with_mask. by apply Hget.
Qed.

(** M1 signatures are not part of the invariant. *)
Lemma record_bhp_keeps received view ms key sig : keeps I (record_sig received set_bhp bhpSigs bhpBitmap view ms key sig).
Proof.
  intros [v log] [Hn Hv]. unfold record_sig, mbind, SM_bind, gets, lift, on_vc, modify. cbn [fst snd].
  destruct (put_bit _ _ _ _) as [bits| |]; cbn [fst snd]; by split.
Qed.
Hint Resolve record_bhp_keeps : sm.

Lemma set_nil_inv v a b : vc_inv v -> half (fun _ => NIL) a b -> vc_inv (set_nil v a b).
Proof. intros [Hn Hv] Hh. by split. Qed.
Lemma set_viewID_inv v a b : vc_inv v -> half PutUint64 a b -> vc_inv (set_viewID v a b).
Proof. intros [Hn Hv] Hh. by split. Qed.

Lemma ProcessViewChangeMsg_inv decider m : d_Participants decider = members -> member_msg m ->
  keeps I (ProcessViewChangeMsg verifyBlock decider m).
Proof.
  intros Hd (w & s & Hw & Hin & Hsig & Hv). unfold ProcessViewChangeMsg.
  assert (keeps I (add_M3 decider m w.(wBytes))) as HM3.
  { unfold add_M3. rewrite Hd, Hsig. apply (record_keeps true _ _ _ PutUint64); [by intros v []|apply set_viewID_inv|done|done]. }
  rewrite Hw. destruct (negb _); [apply keeps_stop|]. change (idx [w] 0) with (Ok w).
  rewrite bind_lift_Ok. set (key := wBytes w) in *.
  apply keeps_bind; [apply keeps_gets|]. intros v. destruct (has_sig _ _ _); [apply keeps_stop|].
  destruct (_ && _).
  - sm_keeps; try (by apply HM3); apply on_vc_other_keeps; intros v' [? ?]; by split.
  - apply keeps_check_then. intros _. destruct (ViewchangeSig m) as [sig|] eqn:Esig; [|by intros st].
    change (deref (Some sig)) with (Ok sig). rewrite bind_lift_Ok. apply keeps_check_then. intros Hn.
    apply keeps_bind; [|intros _; apply HM3]. rewrite Hd.
    apply (record_keeps true _ _ _ (fun _ => NIL)); [by intros ? []|apply set_nil_inv|done|done].
Qed.

(** The node's own keys: a key of the committee is listed with its public key,
    and signing succeeds. *)
Definition own_keys (privKeys : list PrivateKeyWrapper) : Prop := forall key, key ∈ privKeys ->
  (key.(Pub) ∈ members \/ key.(Pub).(wBytes) ∉ map wBytes members) /\
  GetPublicKey key.(Pri) = key.(Pub).(Object) /\ forall h, is_Some (SignHash key.(Pri) h).

Lemma add_own_keeps put sigs bitmaps h view key privKeys :
  (forall v, vc_inv v -> half h (sigs v) (bitmaps v)) ->
  (forall v a b, vc_inv v -> half h a b -> vc_inv (put v a b)) ->
  own_keys privKeys -> key ∈ privKeys -> keeps I (add_own put sigs bitmaps view members (h view) key).
Proof.
  intros Hget Hput Hown Hin. unfold add_own. destruct (Hown key Hin) as ([Hm|Hm] & Hpub & Hsign).
  - destruct (Hsign (h view)) as [s Es]. rewrite Es. apply (record_keeps false _ _ _ h); [done|done|done|].
    rewrite <- Hpub. by apply SignHash_verifies.
  - by apply (record_own_keeps _ _ _ h).
Qed.

Lemma InitPayload_inv view blockNum privKeys : own_keys privKeys ->
  keeps I (InitPayload verifyBlock view blockNum privKeys members).
Proof.
  intros Hown. unfold InitPayload.
  assert (forall x, keeps I (find_prepared verifyBlock x)) as Hfind.
  { intros x. unfold find_prepared. sm_keeps. }
  apply keeps_bind; [apply keeps_gets|]. intros v. apply keeps_bind; [apply keeps_when|].
  - apply keeps_bind; [apply Hfind|]. intros [pm|].
    + apply keeps_bind; [|intros _; apply on_vc_other_keeps; intros v' [? ?]; case_match; by split].
      apply keeps_for. intros key _. apply record_bhp_keeps.
    + apply keeps_for. intros key Hin. apply (add_own_keeps _ _ _ (fun _ => NIL) view key privKeys); [by intros ? []|apply set_nil_inv|done|done].
  - intros _. apply keeps_bind; [apply keeps_gets|]. intros v2. apply keeps_when, keeps_for. intros key Hin.
    apply (add_own_keeps _ _ _ PutUint64 view key privKeys); [by intros ? []|apply set_viewID_inv|done|done].
Qed.

Lemma VerifyNewViewMsg_inv m : keeps I (VerifyNewViewMsg verifyBlock m).
Proof.
  unfold VerifyNewViewMsg. sm_keeps. apply on_vc_other_keeps. intros v [? ?]. by split.
Qed.

(** ** Reachable states *)

Inductive vc_step (decider : Decider) (privKeys : list PrivateKeyWrapper) : VCState -> VCState -> Prop :=
| vc_reset s : vc_step decider privKeys s (Reset, s.2)
| vc_add s view : vc_step decider privKeys s (AddViewIDKeyIfNotExist s.1 view members, s.2)
| vc_init s view num : vc_step decider privKeys s (fst (InitPayload verifyBlock view num privKeys members s))
| vc_process s m : member_msg m -> vc_step decider privKeys s (fst (ProcessViewChangeMsg verifyBlock decider m s))
| vc_newview s m : vc_step decider privKeys s (fst (VerifyNewViewMsg verifyBlock m s))
| vc_log s log : vc_step decider privKeys s (s.1, log).

Definition vc_reachable (decider : Decider) (privKeys : list PrivateKeyWrapper) (s : VCState) : Prop :=
  rtc (vc_step decider privKeys) (newViewChange, NewFBFTLog) s.

Lemma vc_reachable_inv decider privKeys s : d_Participants decider = members -> own_keys privKeys ->
  vc_reachable decider privKeys s -> vc_inv s.1.
Proof.
  intros Hd Hown Hr. unfold vc_reachable in Hr.
  enough (forall a, rtc (vc_step decider privKeys) a s -> vc_inv a.1 -> vc_inv s.1) as Hg
    by (apply (Hg _ Hr); apply Reset_inv).
  clear Hr. intros a Ha. induction Ha as [|a b c Hab _ IH]; [done|]. intros Hinv. apply IH. destruct Hab; cbn.
  - apply Reset_inv.
  - by apply AddViewIDKey_inv.
  - by apply InitPayload_inv.
  - by apply (ProcessViewChangeMsg_inv decider m).
  - by apply (VerifyNewViewMsg_inv m).
  - done.
Qed.

(** ** The message *)

Lemma sigs_of_Ok h sigs bm view : half h sigs bm -> exists ss, sigs_of sigs view = Ok ss /\
  map snd (walk (K := SerializedPublicKey) (default ∅ (sigs !! view))) = map Some ss.
Proof.
  intros Hh. specialize (Hh view).
  assert (forall (k : SerializedPublicKey) so, (k, so) ∈ walk (K := SerializedPublicKey) (default ∅ (sigs !! view)) -> exists s, so = Some s) as Hsome.
  { intros k so Hin%elem_of_walk. destruct (bm !! view) as [m|].
    - destruct Hh as (_ & _ & Hs). destruct (Hs k so Hin) as (s & _ & -> & _). by exists s.
    - rewrite Hh in Hin. by rewrite lookup_empty in Hin. }
  assert (forall l : list (SerializedPublicKey * option Sign), (forall k so, (k, so) ∈ l -> exists s, so = Some s) ->
    forall acc, exists ss, foldM (fun acc kv => let! s := deref kv.2 in Ok (acc ++ [s])) l acc = Ok (acc ++ ss) /\
      map snd l = map Some ss) as Hg; [|exact (Hg _ Hsome [])].
  clear. induction l as [|[k so] l IH]; intros Hsome acc; cbn [foldM map].
  { exists []. by rewrite app_nil_r. }
  destruct (Hsome k so ltac:(by left)) as [s ->]. cbn [deref snd mbind outcome_bind].
  destruct (IH ltac:(intros k' so' ?; apply (Hsome k' so'); by right) (acc ++ [s])) as (ss & -> & E).
  exists (s :: ss). rewrite <- app_assoc. split; [done|]. cbn. by rewrite E.
Qed.

(** What a receiver makes of the pair [aggregated] gives. *)
Lemma aggregated_verifies h sigs bm view : half h sigs bm ->
  exists o, aggregated sigs bm view = Ok o /\
  (o = None <-> default ∅ (sigs !! view) = ∅) /\
  forall sig bitmap, o = Some (sig, bitmap) -> exists s m,
    parse_agg members sig bitmap = Ok (Some s, Some m) /\ mask_of members m /\
    (forall k, key_bit m k = true <-> is_Some (default ∅ (sigs !! view) !! k)) /\
    VerifyHash s m.(AggregatePublic) (h view) = true.
Proof.
  intros Hh. destruct (sigs_of_Ok h sigs bm view Hh) as (ss & Ess & Ewalk). unfold aggregated. rewrite Ess. cbn [mbind outcome_bind].
  specialize (Hh view). destruct ss as [|s0 ss0] eqn:Es.
  { exists None. split; [done|]. split; [|done]. split; [|done]. intros _.
    apply map_to_list_empty_iff, Permutation_nil_r. rewrite <- walk_perm. by destruct (walk _). }
  destruct (bm !! view) as [m|].
  2: { exfalso. rewrite Hh in Ewalk. assert (walk (∅ : gmap SerializedPublicKey (option Sign)) = []) as E0
         by (apply Permutation_nil_r; by rewrite walk_perm, map_to_list_empty). by rewrite E0 in Ewalk. }
  cbn [deref mbind outcome_bind]. eexists. split; [done|]. split.
  { split; [done|]. intros E. rewrite E in Ewalk. assert (walk (∅ : gmap SerializedPublicKey (option Sign)) = []) as E0
         by (apply Permutation_nil_r; by rewrite walk_perm, map_to_list_empty). by rewrite E0 in Ewalk. }
  intros sig bitmap [= <- <-]. destruct Hh as (Hm & Hb & Hs).
  exists (AggregateSig (s0 :: ss0)), m. split_and!; [|done|done|].
  - unfold parse_agg, parse_sig, mask_with. pose proof (sig_Serialize_length (AggregateSig (s0 :: ss0))) as Hl.
    destruct (sig_Serialize (AggregateSig (s0 :: ss0))) as [|b bs] eqn:Eb; [done|]. rewrite <- Eb, sig_roundtrip.
    cbn [mbind outcome_bind]. pose proof (ReadSignatureBitmap_written laws S G slaws members (AggregateSig (s0 :: ss0)) m Hm) as Hr.
    unfold ReadSignatureBitmapByPublicKeys in Hr. apply bind_Ok in Hr as ([a b'] & Hp & Hd).
    unfold ParseCommitSigAndBitmap in Hp. rewrite length_app, sig_Serialize_length in Hp. cbn [Nat.ltb Nat.leb BLSSignatureSizeInBytes Nat.add] in Hp.
    apply Ok_inj in Hp. injection Hp as <- <-.
    rewrite take_app_length' in Hd by (by rewrite sig_Serialize_length).
    rewrite drop_app_length' in Hd by (by rewrite sig_Serialize_length).
    unfold DecodeSigBitmap in Hd. rewrite sig_roundtrip in Hd. destruct (SetMask _ _) as [m'| |]; [|done|done].
    injection Hd as ->. done.
  - eapply keyed_verify; [done|done|exact Hnd|by split|apply walk_perm|exact Ewalk|done].
Qed.

(** C7: The new leader's NEWVIEW message verifies.  Whatever messages of
    committee members a node collected during a view change, in whatever order,
    the failed ones included, building the two aggregates of a NEWVIEW message
    for a view never panics; M3 is present exactly when some signature of the
    view was kept; and any validator of the committee who parses the message
    finds each aggregate verified under its bitmap's key, the bitmap marking
    exactly the members whose signatures were kept. *)
Theorem NEWVIEW_verifies decider privKeys s view :
  d_Participants decider = members -> own_keys privKeys -> vc_reachable decider privKeys s ->
  exists m2 m3, GetM2Bitmap s.1 view = Ok m2 /\ GetM3Bitmap s.1 view = Ok m3 /\
    (m3 = None <-> forall key, has_sig s.1.(viewIDSigs) view key = false) /\
    (forall sig bitmap, m2 = Some (sig, bitmap) -> exists a m, parse_agg members sig bitmap = Ok (Some a, Some m) /\
       (forall k, key_bit m k = has_sig s.1.(nilSigs) view k) /\ VerifyHash a m.(AggregatePublic) NIL = true) /\
    (forall sig bitmap, m3 = Some (sig, bitmap) -> exists a m, parse_agg members sig bitmap = Ok (Some a, Some m) /\
       (forall k, key_bit m k = has_sig s.1.(viewIDSigs) view k) /\ VerifyHash a m.(AggregatePublic) (PutUint64 view) = true).
Proof.
  intros Hd Hown Hr. destruct (vc_reachable_inv _ _ _ Hd Hown Hr) as [Hn Hv].
  destruct (aggregated_verifies _ _ _ view Hn) as (m2 & E2 & _ & H2).
  destruct (aggregated_verifies _ _ _ view Hv) as (m3 & E3 & Hnone & H3).
  exists m2, m3. split_and!; [done|done| | |].
  - rewrite Hnone. unfold has_sig. split.
    + intros E key. rewrite E, lookup_empty. apply bool_decide_eq_false. by intros [].
    + intros Hall. apply map_eq. intros k. rewrite lookup_empty. specialize (Hall k).
      apply bool_decide_eq_false in Hall. destruct (_ !! k); [|done]. exfalso. by apply Hall.
  - intros sig bitmap E. destruct (H2 sig bitmap E) as (a & m & ? & _ & Hb & ?). exists a, m. split_and!; [done| |done].
    intros k. apply Bool.eq_iff_eq_true. unfold has_sig. by rewrite bool_decide_eq_true.
  - intros sig bitmap E. destruct (H3 sig bitmap E) as (a & m & ? & _ & Hb & ?). exists a, m. split_and!; [done| |done].
    intros k. apply Bool.eq_iff_eq_true. unfold has_sig. by rewrite bool_decide_eq_true.
Qed.
End safety.

(** ** Witness *)

Definition toy_decider : Decider (L := ZBLS) := inl (mkUniform (UpdateParticipants newCIdentities three_keys []) ∅ 0).
Definition toy_priv : list (PrivateKeyWrapper (L := ZBLS)) :=
  [mkPrivate (L := ZBLS) 100 (mkWrapper (L := ZBLS) 11 100); mkPrivate (L := ZBLS) 9 (mkWrapper (L := ZBLS) 99 9)].
Definition toy_verify : FBFTLog (L := ZBLS) (T := toy_txs) -> Block (T := toy_txs) -> FBFTLog * outcome unit :=
  fun log b => (log, Ok tt).
Definition toy_vc : VCState (L := ZBLS) (T := toy_txs) :=
  fst (InitPayload toy_verify 7 1 toy_priv three_keys (newViewChange, NewFBFTLog)).

Lemma NEWVIEW_verifies_witness : exists sig bitmap a m,
  GetM3Bitmap toy_vc.1 7 = Ok (Some (sig, bitmap)) /\ parse_agg three_keys sig bitmap = Ok (Some a, Some m) /\
  VerifyHash a m.(AggregatePublic) (PutUint64 7) = true.
Proof.
  destruct (NEWVIEW_verifies (R := {| registry_Encode := fun _ => []; registry_Decode := fun _ => None |}) ZBLS_laws ZSig_laws three_keys ltac:(apply (bool_decide_unpack _); by vm_compute)
    toy_verify toy_decider toy_priv toy_vc 7) as (m2 & m3 & _ & E3 & Hn & _ & H3).
  - done.
  - intros key. unfold toy_priv. rewrite !elem_of_cons. intros [->|[->|[]%elem_of_nil]];
      (split; [|split; [done|intros h; by eexists]]).
    + left. left.
    + right. apply (bool_decide_unpack _). by vm_compute.
  - apply rtc_once. apply vc_init.
  - destruct m3 as [[sig bitmap]|].
    + destruct (H3 sig bitmap eq_refl) as (a & m & Hp & _ & Hv). exists sig, bitmap, a, m. exact (conj E3 (conj Hp Hv)).
    + exfalso. pose proof (proj1 Hn eq_refl 11) as Hc. assert (has_sig toy_vc.1.(viewIDSigs) 7 11 = true) as Ht by (by vm_compute).
      congruence.
Defined.
