(* ===== verification/Delegation.v ===== *)
(** * Delegations (staking/types/delegation.go)

    A delegation holds an active amount, the rewards not yet collected, and the
    undelegations waiting for their lock period, in increasing order of epoch.
    Amounts are [*big.Int]s the delegation owns; methods that mutate the
    receiver return the new delegation. *)
From S2P Require Import Prelude Bls.
Local Open Scope Z_scope.

Definition errInsufficientBalance : string := "insufficient balance to undelegate".
Definition errInvalidAmount : string := "invalid amount, must be positive".

Definition LockPeriodInEpoch : Z := 7.
Definition LockPeriodInEpochV2 : Z := 0.

Record Undelegation := mkUndelegation { uAmount : Z; uEpoch : Z }.
#[export] Instance Undelegation_eq_dec : EqDecision Undelegation.
Proof. solve_decision. Defined.

Record Delegation := mkDelegation {
  DelegatorAddress : Address;
  Amount : Z;
  Reward : Z;
  Undelegations : list Undelegation
}.
#[export] Instance Delegation_eq_dec : EqDecision Delegation.
Proof. solve_decision. Defined.

Definition NewDelegation (delegatorAddr : Address) (amount : Z) : Delegation :=
  mkDelegation delegatorAddr amount 0 [].

(** ** [Undelegate] *)

(** The loop over the entries: the first one of this epoch absorbs the amount. *)
Fixpoint add_to_entry (epoch amt : Z) (l : list Undelegation) : option (list Undelegation) :=
  match l with
  | [] => None
  | entry :: rest =>
      if entry.(uEpoch) =? epoch then Some (mkUndelegation (entry.(uAmount) + amt) entry.(uEpoch) :: rest)
      else match add_to_entry epoch amt rest with Some rest' => Some (entry :: rest') | None => None end
  end.

Definition sort_undelegations (l : list Undelegation) : list Undelegation :=
  SliceStable (fun a b => a.(uEpoch) <? b.(uEpoch)) l.

Definition Undelegate (d : Delegation) (epoch amt : Z) : outcome Delegation :=
  if Z.sgn amt <=? 0 then Err errInvalidAmount
  else if d.(Amount) <? amt then Err errInsufficientBalance
  else
    let undelegations :=
      match add_to_entry epoch amt d.(Undelegations) with
      | Some l => l
      | None => sort_undelegations (d.(Undelegations) ++ [mkUndelegation amt epoch])
      end in
    Ok (mkDelegation d.(DelegatorAddress) (d.(Amount) - amt) d.(Reward) undelegations).

Definition TotalInUndelegation (d : Delegation) : Z :=
  foldl (fun total u => total + u.(uAmount)) 0 d.(Undelegations).

(** ** [DeleteEntry]

    [append(d.Undelegations[:i], d.Undelegations[i+1:]...)] shifts the tail of
    the slice's own array while the [range] loop is walking it; the last cell
    keeps its value.  [entries] starts as an empty, non-nil slice. *)
Definition shift_left (arr : list Undelegation) (i : nat) : list Undelegation :=
  take i arr ++ drop (S i) arr ++ drop (length arr - 1) arr.

Fixpoint delete_loop (n i : nat) (epoch : Z) (arr : list Undelegation) (cut : bool)
    : list Undelegation * bool :=
  match n with
  | O => (arr, cut)
  | S n =>
      match arr !! i with
      | Some entry =>
          if entry.(uEpoch) =? epoch then delete_loop n (S i) epoch (shift_left arr i) true
          else delete_loop n (S i) epoch arr cut
      | None => (arr, cut)
      end
  end.

Definition DeleteEntry (d : Delegation) (epoch : Z) : Delegation :=
  let n := length d.(Undelegations) in
  let '(arr, cut) := delete_loop n 0 epoch d.(Undelegations) false in
  mkDelegation d.(DelegatorAddress) d.(Amount) d.(Reward) (if cut then take (n - 1) arr else []).

(** ** [RemoveUnlockedUndelegations] *)

Section unlock.
Context (curEpoch lastEpochInCommittee lockPeriod : Z) (noEarlyUnlock isMaxRate : bool).

Definition epochsSinceUndelegation (u : Undelegation) : Z := Big.Int64 (curEpoch - u.(uEpoch)).
Definition lockPeriodApplies (u : Undelegation) : bool := lockPeriod <=? epochsSinceUndelegation u.
Definition earlyUnlockPeriodApplies : bool :=
  (lockPeriod <=? Big.Int64 (curEpoch - lastEpochInCommittee)) && negb noEarlyUnlock.
Definition maxRateApplies (u : Undelegation) : bool :=
  isMaxRate && (lockPeriod <? epochsSinceUndelegation u).

Fixpoint unlock_loop (totalWithdraw : Z) (l : list Undelegation) : Z * list Undelegation :=
  match l with
  | [] => (totalWithdraw, [])
  | u :: rest =>
      if lockPeriodApplies u || earlyUnlockPeriodApplies then
        unlock_loop (if negb (maxRateApplies u) then totalWithdraw + u.(uAmount) else totalWithdraw) rest
      else (totalWithdraw, l)
  end.

Definition RemoveUnlockedUndelegations (d : Delegation) : Delegation * Z :=
  let '(totalWithdraw, rest) := unlock_loop 0 d.(Undelegations) in
  (mkDelegation d.(DelegatorAddress) d.(Amount) d.(Reward) rest, totalWithdraw).
End unlock.

(** ** [SetDifference]

    [ysHashed] is filled while it is read: the cells after [i] still hold the
    zero hash.  [Hash] is RLP and Keccak. *)
Definition SetDifference {H : Type} `{EqDecision H} (zero : H) (Hash : Delegation -> H)
    (xs ys : list Delegation) : outcome (list Delegation) :=
  let xsHashed := map Hash xs in
  let! '(diff, _) :=
    foldM (fun acc i =>
        let '(diff, ysHashed) := acc in
        let! y := idx ys i in
        let! ysHashed := upd ysHashed i (Hash y) in
        let! diff := foldM (fun diff j =>
            let! hy := idx ysHashed j in
            let! hx := idx xsHashed j in
            if decide (hy <> hx) then let! yj := idx ys j in Ok (diff ++ [yj]) else Ok diff)
          (range xsHashed) diff in
        Ok (diff, ysHashed))
      (range ys) ([], replicate (length ys) zero) in
  Ok diff.

(** ** Properties *)

(** What is locked, in all and for one epoch. *)
Definition locked (l : list Undelegation) : Z := sumZ uAmount l.
Definition locked_at (e : Z) (l : list Undelegation) : Z :=
  sumZ (fun u => if u.(uEpoch) =? e then u.(uAmount) else 0) l.

(** Entries are kept in strictly increasing order of epoch. *)
Definition by_epoch (a b : Undelegation) : Prop := a.(uEpoch) < b.(uEpoch).
Definition epochs_sorted (l : list Undelegation) : Prop := StronglySorted by_epoch l.

(** All a delegation is worth. *)
Definition funds (d : Delegation) : Z := d.(Amount) + locked d.(Undelegations) + d.(Reward).

Record delegation_nonneg (d : Delegation) : Prop := {
  dn_amount : 0 <= d.(Amount);
  dn_reward : 0 <= d.(Reward);
  dn_locked : Forall (fun u => 0 <= u.(uAmount)) d.(Undelegations)
}.

Lemma TotalInUndelegation_locked d : TotalInUndelegation d = locked d.(Undelegations).
Proof. unfold TotalInUndelegation, locked. by rewrite foldl_sumZ. Qed.

Lemma locked_perm l1 l2 : l1 ≡ₚ l2 -> locked l1 = locked l2.
Proof. apply sumZ_perm. Qed.

Lemma add_to_entry_Some epoch amt l l' : add_to_entry epoch amt l = Some l' ->
  locked l' = locked l + amt /\ map uEpoch l' = map uEpoch l /\
  (forall e, locked_at e l' = locked_at e l + if e =? epoch then amt else 0).
Proof.
  revert l'. induction l as [|u l IH]; intros l'; cbn [add_to_entry]; [done|].
  unfold locked, locked_at in *.
  destruct (Z.eqb_spec (uEpoch u) epoch) as [E|E].
  - intros [= <-]. split; [|split; [done|]].
    + rewrite !sumZ_cons. cbn. lia.
    + intros e. rewrite !sumZ_cons. cbn [uEpoch uAmount].
      destruct (Z.eqb_spec (uEpoch u) e), (Z.eqb_spec e epoch); lia.
  - destruct (add_to_entry epoch amt l) as [l0|]; [|done]. intros [= <-].
    destruct (IH l0 eq_refl) as (H1 & H2 & H3). split; [|split].
    + rewrite !sumZ_cons. lia.
    + cbn. by rewrite H2.
    + intros e. rewrite !sumZ_cons, H3. lia.
Qed.

Lemma add_to_entry_None epoch amt l : add_to_entry epoch amt l = None <-> epoch ∉ map uEpoch l.
Proof.
  induction l as [|u l IH]; cbn [add_to_entry map]; [split; [by intros _ ?%elem_of_nil|done]|].
  rewrite not_elem_of_cons. destruct (Z.eqb_spec (uEpoch u) epoch) as [E|E].
  - split; [done|]. by intros [? _].
  - destruct (add_to_entry epoch amt l); split; [done| |intros _; split; [done|by apply IH]|done].
    intros [_ H]. by apply IH in H.
Qed.

Lemma epochs_sorted_NoDup l : epochs_sorted l <-> StronglySorted Z.lt (map uEpoch l).
Proof.
  unfold epochs_sorted. induction l as [|u l IH]; cbn [map]; [split; constructor|].
  split; intros H; inversion H as [|? ? Hs Hf]; subst; constructor.
  - by apply IH.
  - apply List.Forall_map. exact Hf.
  - by apply IH.
  - exact (proj1 (List.Forall_map uEpoch (Z.lt (uEpoch u)) l) Hf).
Qed.

(** Sorting distinct epochs sorts them strictly. *)
Lemma sort_undelegations_sorted l : NoDup (map uEpoch l) -> epochs_sorted (sort_undelegations l).
Proof.
  intros Hnd. unfold epochs_sorted, sort_undelegations.
  pose proof (SliceStable_sorted (fun a b => uEpoch a <? uEpoch b) (key_less_asym uEpoch)
    (key_less_neg_trans uEpoch) l) as Hs.
  pose proof (SliceStable_perm (fun a b => uEpoch a <? uEpoch b) l) as HP.
  revert HP Hs. generalize (SliceStable (fun a b => uEpoch a <? uEpoch b) l) as k. intros k HP Hs.
  assert (NoDup (map uEpoch k)) as Hk by (rewrite HP; exact Hnd). clear HP Hnd.
  induction Hs as [|u k Hs IH Hf]; [constructor|]. cbn [map] in Hk. apply NoDup_cons in Hk as [Hu Hk].
  constructor; [by apply IH|]. apply Forall_forall. intros v Hv. rewrite Forall_forall in Hf.
  specialize (Hf v Hv). unfold ordered in Hf. apply Z.ltb_ge in Hf. unfold by_epoch.
  assert (uEpoch u <> uEpoch v); [|lia]. intros E. apply Hu. rewrite E.
  apply list_elem_of_In, in_map. by apply list_elem_of_In.
Qed.

Lemma sorted_NoDup_epochs l : epochs_sorted l -> NoDup (map uEpoch l).
Proof.
  rewrite epochs_sorted_NoDup. induction 1 as [|e l0 Hs IH Hf]; constructor; [|done].
  intros Hin. rewrite Forall_forall in Hf. specialize (Hf e Hin). lia.
Qed.

(** The entries after an undelegation of [amt] at [epoch]. *)
Definition undelegated (epoch amt : Z) (l : list Undelegation) : list Undelegation :=
  match add_to_entry epoch amt l with
  | Some l' => l'
  | None => sort_undelegations (l ++ [mkUndelegation amt epoch])
  end.

Lemma undelegated_spec epoch amt l : epochs_sorted l ->
  locked (undelegated epoch amt l) = locked l + amt /\ epochs_sorted (undelegated epoch amt l) /\
  forall e, locked_at e (undelegated epoch amt l) = locked_at e l + if e =? epoch then amt else 0.
Proof.
  intros Hs. unfold undelegated. destruct (add_to_entry epoch amt l) as [l'|] eqn:E.
  - apply add_to_entry_Some in E as (H1 & H2 & H3). split; [done|]. split; [|done].
    apply epochs_sorted_NoDup. rewrite H2. by apply epochs_sorted_NoDup.
  - apply add_to_entry_None in E. pose proof (SliceStable_perm (fun a b => uEpoch a <? uEpoch b)
      (l ++ [mkUndelegation amt epoch])) as HP. fold sort_undelegations in HP. split; [|split].
    + unfold locked. rewrite (sumZ_perm _ _ _ HP), sumZ_app, sumZ_cons. change (sumZ _ []) with 0. cbn. lia.
    + apply sort_undelegations_sorted. rewrite map_app. apply NoDup_app. split; [by apply sorted_NoDup_epochs|].
      split; [|apply NoDup_singleton]. intros e He ->%list_elem_of_singleton. done.
    + intros e. unfold locked_at. rewrite (sumZ_perm _ _ _ HP), sumZ_app, sumZ_cons. change (sumZ _ []) with 0.
      cbn [uEpoch uAmount]. rewrite (Z.eqb_sym epoch e). lia.
Qed.

(** [Undelegate] moves tokens and makes none.  It refuses amounts that are
    not positive or exceed the delegation; otherwise the amount moves from the
    active stake to the entry of the epoch, every other epoch's locked amount
    and the reward are as before, and the entries stay strictly ordered by
    epoch, one per epoch. *)
Lemma Undelegate_spec d epoch amt : epochs_sorted d.(Undelegations) ->
  match Undelegate d epoch amt with
  | Ok d' =>
      0 < amt <= d.(Amount) /\ d'.(Amount) = d.(Amount) - amt /\ d'.(Reward) = d.(Reward) /\
      d'.(DelegatorAddress) = d.(DelegatorAddress) /\
      d'.(Amount) + TotalInUndelegation d' = d.(Amount) + TotalInUndelegation d /\
      epochs_sorted d'.(Undelegations) /\
      forall e, locked_at e d'.(Undelegations) =
        locked_at e d.(Undelegations) + if e =? epoch then amt else 0
  | Err e => if decide (amt <= 0) then e = errInvalidAmount
             else d.(Amount) < amt /\ e = errInsufficientBalance
  | Panic _ => False
  end.
Proof.
  intros Hs. unfold Undelegate. destruct (Z.leb_spec (Z.sgn amt) 0) as [H|H].
  { rewrite decide_True; [done|]. lia. }
  destruct (Z.ltb_spec (Amount d) amt) as [H1|H1].
  { rewrite decide_False; [done|]. lia. }
  fold (undelegated epoch amt (Undelegations d)).
  destruct (undelegated_spec epoch amt _ Hs) as (Hl & Hs' & Ha).
  rewrite !TotalInUndelegation_locked. cbn [Amount Reward DelegatorAddress Undelegations].
  split_and!; [lia|lia|done|done|done|rewrite Hl; lia|done|done].
Qed.

Definition sample_delegation : Delegation :=
  mkDelegation 1 100 7 [mkUndelegation 10 3; mkUndelegation 20 8].
Lemma sample_sorted : epochs_sorted sample_delegation.(Undelegations).
Proof. cbn. repeat constructor. Qed.

(** *** Unlocking *)

Section unlocking.
Context (cur last lockPeriod : Z) (noEarly isMaxRate : bool).
Let early := earlyUnlockPeriodApplies cur last lockPeriod noEarly.
Let unlocked u := lockPeriodApplies cur lockPeriod u || early.
Let paid u := if negb (maxRateApplies cur lockPeriod isMaxRate u) then u.(uAmount) else 0.

Lemma unlock_loop_spec t l : exists taken rest, l = taken ++ rest /\
  unlock_loop cur last lockPeriod noEarly isMaxRate t l = (t + sumZ paid taken, rest) /\
  Forall (fun u => unlocked u = true) taken /\ (forall u rest', rest = u :: rest' -> unlocked u = false).
Proof.
  revert t. induction l as [|u l IH]; intros t; cbn [unlock_loop].
  { exists [], []. split; [done|]. change (sumZ paid []) with 0. rewrite Z.add_0_r. by split_and!. }
  fold early. fold (unlocked u). destruct (unlocked u) eqn:Eu.
  - destruct (IH (if negb (maxRateApplies cur lockPeriod isMaxRate u) then t + uAmount u else t))
      as (taken & rest & -> & -> & Hf & Hr).
    exists (u :: taken), rest. split; [done|]. split; [|split; [by constructor|done]].
    f_equal. rewrite sumZ_cons. unfold paid at 2. destruct (negb _); lia.
  - exists [], (u :: l). split; [done|]. change (sumZ paid []) with 0. rewrite Z.add_0_r.
    split_and!; [done|done|]. by intros ? ? [= -> ->].
Qed.

(** In order, the entries still locked are exactly those that stay. *)
Lemma unlocked_prefix taken rest :
  epochs_sorted (taken ++ rest) -> (forall u, u ∈ taken ++ rest -> - 2 ^ 63 <= cur - uEpoch u < 2 ^ 63) ->
  Forall (fun u => unlocked u = true) taken -> (forall u rest', rest = u :: rest' -> unlocked u = false) ->
  Forall (fun u => unlocked u = false) rest.
Proof.
  intros Hs Hb _ Hr. destruct rest as [|u rest]; [constructor|]. pose proof (Hr u rest eq_refl) as Hu.
  constructor; [done|]. apply Forall_forall. intros v Hv.
  apply StronglySorted_app_1_r in Hs. inversion Hs as [|? ? _ Hf]; subst.
  rewrite Forall_forall in Hf. specialize (Hf v Hv). unfold by_epoch in Hf.
  unfold unlocked in *. apply orb_false_iff in Hu as [Hu ->]. rewrite orb_false_r.
  unfold lockPeriodApplies, epochsSinceUndelegation, Big.Int64 in *.
  pose proof (Hb u ltac:(apply elem_of_app; right; by left)).
  pose proof (Hb v ltac:(apply elem_of_app; right; by right)).
  rewrite i64_small in * by lia. apply Z.leb_gt in Hu. apply Z.leb_gt. lia.
Qed.
End unlocking.

(** [RemoveUnlockedUndelegations] releases exactly what is due.  On
    entries in order of epoch (and epoch distances that fit an [int64]) it
    removes those whose lock period is over, or all of them when the early
    unlock applies, keeps the others untouched, and returns the sum of the
    removed ones, less those the max-rate rule forfeits: nothing else is paid
    and nothing else disappears. *)
Theorem RemoveUnlockedUndelegations_spec cur last lockPeriod noEarly isMaxRate d :
  epochs_sorted d.(Undelegations) ->
  (forall u, u ∈ d.(Undelegations) -> - 2 ^ 63 <= cur - u.(uEpoch) < 2 ^ 63) ->
  let unlocked u := lockPeriodApplies cur lockPeriod u || earlyUnlockPeriodApplies cur last lockPeriod noEarly in
  let '(d', withdraw) := RemoveUnlockedUndelegations cur last lockPeriod noEarly isMaxRate d in
  d'.(Undelegations) = List.filter (fun u => negb (unlocked u)) d.(Undelegations) /\
  withdraw + sumZ uAmount (List.filter (fun u => unlocked u && maxRateApplies cur lockPeriod isMaxRate u)
                             d.(Undelegations))
    = TotalInUndelegation d - TotalInUndelegation d' /\
  (isMaxRate = false -> withdraw = TotalInUndelegation d - TotalInUndelegation d') /\
  d'.(Amount) = d.(Amount) /\ d'.(Reward) = d.(Reward) /\ epochs_sorted d'.(Undelegations).
Proof.
  intros Hs Hb unlocked. unfold RemoveUnlockedUndelegations.
  destruct (unlock_loop_spec cur last lockPeriod noEarly isMaxRate 0 d.(Undelegations))
    as (taken & rest & El & -> & Hf & Hr).
  rewrite El in Hs, Hb. pose proof (unlocked_prefix cur last lockPeriod noEarly taken rest Hs Hb Hf Hr) as Hrest.
  rewrite !TotalInUndelegation_locked, El. cbn [Undelegations Amount Reward]. unfold locked.
  assert (Forall (fun u => negb (unlocked u) = false) taken) as Hf'
    by (eapply Forall_impl; [exact Hf|]; intros u Hu; unfold unlocked; by rewrite Hu).
  assert (Forall (fun u => negb (unlocked u) = true) rest) as Hr'
    by (eapply Forall_impl; [exact Hrest|]; intros u Hu; unfold unlocked; by rewrite Hu).
  rewrite !List.filter_app, (filter_none _ taken Hf'), (filter_all _ rest Hr'), !sumZ_app.
  assert (sumZ uAmount (List.filter (fun u => unlocked u && maxRateApplies cur lockPeriod isMaxRate u) rest) = 0)
    as Hz by (rewrite filter_none; [done|]; eapply Forall_impl; [exact Hrest|]; intros u Hu;
              unfold unlocked; by rewrite Hu).
  rewrite Hz.
  assert (sumZ (fun u => if negb (maxRateApplies cur lockPeriod isMaxRate u) then uAmount u else 0) taken +
    sumZ uAmount (List.filter (fun u => unlocked u && maxRateApplies cur lockPeriod isMaxRate u) taken)
    = sumZ uAmount taken) as Hp.
  { clear -Hf. induction Hf as [|u l Hu _ IH]; [done|]. cbn [List.filter]. unfold unlocked in *. rewrite Hu.
    cbn [andb]. rewrite !sumZ_cons. destruct (maxRateApplies _ _ _ u); rewrite ?sumZ_cons; cbn [negb]; lia. }
  split_and!; [done|lia| |done|done|by apply StronglySorted_app_1_r in Hs].
  intros ->. rewrite (filter_none _ taken) in Hp
    by (apply Forall_forall; intros u _; unfold maxRateApplies; by rewrite andb_false_r).
  change (sumZ uAmount []) with 0 in Hp. lia.
Qed.

Lemma RemoveUnlockedUndelegations_spec_witness :
  snd (RemoveUnlockedUndelegations 12 0 7 true false sample_delegation) = 10.
Proof.
  pose proof (RemoveUnlockedUndelegations_spec 12 0 7 true false sample_delegation sample_sorted) as H.
  destruct (RemoveUnlockedUndelegations 12 0 7 true false sample_delegation) as [d' w] eqn:E.
  destruct H as (H1 & _ & H3 & _).
  - intros u Hu. cbn in Hu. repeat (apply elem_of_cons in Hu as [->|Hu]; [cbn; lia|]). by apply elem_of_nil in Hu.
  - cbn [snd]. rewrite H3, !TotalInUndelegation_locked, H1 by done. by vm_compute.
Defined.

(** ** Two slips *)

(** [DeleteEntry] of an epoch that has no entry deletes all of them. *)
Lemma DeleteEntry_absent d epoch : epoch ∉ map uEpoch d.(Undelegations) ->
  (DeleteEntry d epoch).(Undelegations) = [].
Proof.
  intros Hn. unfold DeleteEntry.
  enough (forall n i, delete_loop n i epoch d.(Undelegations) false = (d.(Undelegations), false)) as H
    by (by rewrite H).
  intros n. induction n as [|n IH]; intros i; cbn [delete_loop]; [done|].
  destruct (Undelegations d !! i) as [u|] eqn:E; [|done]. rewrite (proj2 (Z.eqb_neq _ _)); [apply IH|].
  intros <-. apply Hn. apply list_elem_of_In, in_map, list_elem_of_In. by eapply list_elem_of_lookup_2.
Qed.

(** [SetDifference] finds a difference between a list and itself, whenever it
    has two elements that do not hash to zero. *)
Lemma SetDifference_self {H : Type} `{EqDecision H} (zero : H) (Hash : Delegation -> H) x y :
  Hash y <> zero -> SetDifference zero Hash [x; y] [x; y] = Ok [y].
Proof.
  intros Hy. unfold SetDifference. change (range [x; y]) with [0; 1].
  change (range (map Hash [x; y])) with [0; 1]. lazy -[decide not].
  repeat first [rewrite decide_False by (intros Hc; by apply Hc)|rewrite decide_True by (by apply not_eq_sym)].
  done.
Qed.
