(* ===== verification/Effective.v ===== *)
(** * Effective proof of stake (staking/effective)

    The auction: every validator offers one slot per BLS key at its stake
    divided by its number of keys; the [pull] highest bids win; each winner's
    stake is clamped to a band around the median of the winning bids.

    Go walks [shortHand], a map, in no particular order: [Compute_from] takes
    the walk as an argument. *)
From S2P Require Import Prelude Dec DecText Bls.
Local Open Scope Z_scope.

(** A package variable of a computation that does not fail. *)
Definition unwrap (m : outcome Dec) : Dec := match m with Ok d => d | _ => ZeroDec end.

Definition two : Dec := NewDecFromBigInt 2.
Definition c : Dec := unwrap (NewDecFromStr "0.15").
Definition cV2 : Dec := unwrap (NewDecFromStr "0.35").
Definition onePlusC : Dec := unwrap (Dec.Add OneDec c).
Definition oneMinusC : Dec := unwrap (Dec.Sub OneDec c).
Definition onePlusCV2 : Dec := unwrap (Dec.Add OneDec cV2).
Definition oneMinusCV2 : Dec := unwrap (Dec.Sub OneDec cV2).

Record SlotPurchase := mkPurchase {
  Addr : Address;
  Key : SerializedPublicKey;
  RawStake : Dec;
  EPoSStake : Dec
}.

Record SlotOrder := mkOrder {
  Stake : Z;
  SpreadAmong : list SerializedPublicKey;
  Percentage : Dec
}.

(** [sort.SliceStable(stakes, RawStake.GT)] *)
Definition by_stake (l : list SlotPurchase) : list SlotPurchase :=
  SliceStable (fun a b => GT a.(RawStake) b.(RawStake)) l.

(** [Median] sorts the slice it is given in place: the sorted slice is returned
    with the median. *)
Definition Median (stakes : list SlotPurchase) : outcome (Dec * list SlotPurchase) :=
  match stakes with
  | [] => Ok (ZeroDec, stakes)
  | _ =>
      let stakes := by_stake stakes in
      let l := Z.of_nat (length stakes) in
      if Z.rem l 2 =? 0 then
        let! lo := idx stakes (Z.quot l 2 - 1) in
        let! hi := idx stakes (Z.quot l 2) in
        let! sum := Dec.Add lo.(RawStake) hi.(RawStake) in
        let! m := Dec.Quo sum two in
        Ok (m, stakes)
      else
        let! mid := idx stakes (Z.quot l 2) in
        Ok (mid.(RawStake), stakes)
  end.

(** The slots a validator offers. *)
Definition expand (eposedSlots : list SlotPurchase) (staker : Address * SlotOrder)
    : outcome (list SlotPurchase) :=
  let slotsCount := Z.of_nat (length staker.2.(SpreadAmong)) in
  if slotsCount =? 0 then Ok eposedSlots
  else
    let! spread := QuoInt64 (NewDecFromBigInt staker.2.(Stake)) slotsCount in
    Ok (eposedSlots ++ map (fun key => mkPurchase staker.1 key spread spread) staker.2.(SpreadAmong)).

Definition Compute_from (walk : list (Address * SlotOrder)) (pull : Z)
    : outcome (Dec * list SlotPurchase) :=
  match walk with
  | [] => Ok (ZeroDec, [])
  | _ =>
      (* bytes.Compare on addresses of one length is the order of their values *)
      let shorter := SliceStable (fun a b => a.1 <? b.1) walk in
      let! eposedSlots := foldM expand shorter [] in
      let eposedSlots := by_stake eposedSlots in
      let l := Z.of_nat (length eposedSlots) in
      let pull := if l <? pull then l else pull in
      if pull <? 0 then Panic "slice bounds out of range"
      else
        let picks := take (Z.to_nat pull) eposedSlots in
        match picks with [] => Ok (ZeroDec, []) | _ => Median picks end
  end.

Definition Compute (shortHand : gmap Address SlotOrder) (pull : Z) : outcome (Dec * list SlotPurchase) :=
  Compute_from (map_to_list shortHand) pull.

Definition effectiveStake (min max actual : Dec) : Dec :=
  let newMax := MinDec max actual in
  MaxDec newMax min.

Definition with_EPoSStake (p : SlotPurchase) (s : Dec) : SlotPurchase :=
  mkPurchase p.(Addr) p.(Key) p.(RawStake) s.

Definition Apply (shortHand : gmap Address SlotOrder) (pull : Z) (isExtendedBound : bool)
    : outcome (Dec * list SlotPurchase) :=
  let! '(median, picks) := Compute shortHand pull in
  let! max := Dec.Mul onePlusC median in
  let! min := Dec.Mul oneMinusC median in
  let! '(min, max) :=
    (if isExtendedBound then
       let! max := Dec.Mul onePlusCV2 median in
       let! min := Dec.Mul oneMinusCV2 median in Ok (min, max)
     else Ok (min, max)) in
  Ok (median, map (fun p => with_EPoSStake p (effectiveStake min max p.(RawStake))) picks).

(** ** Eligibility (eligible.go) *)

(** [type Eligibility byte] *)
Inductive Eligibility := Nil | Active | Inactive | Banned | OtherEligibility (b : Z).
#[export] Instance Eligibility_eq_dec : EqDecision Eligibility.
Proof. solve_decision. Defined.

Inductive Candidacy := Unknown | ForeverBanned | Candidate | NotCandidate | Elected.

Definition doubleSigningBanned : string :=
  "banned forever from network because was caught double-signing".

Definition Eligibility_String (e : Eligibility) : string :=
  match e with
  | Active => "active" | Inactive => "inactive" | Banned => doubleSigningBanned | _ => "unknown"
  end.

Definition Candidacy_String (c : Candidacy) : string :=
  match c with
  | ForeverBanned => doubleSigningBanned
  | Candidate => "eligible to be elected next epoch"
  | NotCandidate => "not eligible to be elected next epoch"
  | Elected => "currently elected"
  | Unknown => "unknown"
  end.

Definition ValidatorStatus (currentlyInCommittee : bool) (status : Eligibility) : Candidacy :=
  if bool_decide (status = Banned) then ForeverBanned
  else if currentlyInCommittee then Elected
  else if negb currentlyInCommittee && bool_decide (status = Active) then Candidate
  else if negb currentlyInCommittee && bool_decide (status <> Active) then NotCandidate
  else Unknown.

Lemma ValidatorStatus_known inCommittee status :
  ValidatorStatus inCommittee status <> Unknown /\
  (ValidatorStatus inCommittee status = ForeverBanned <-> status = Banned).
Proof. by destruct inCommittee, status. Qed.

(** ** Properties of the auction *)

(** Bids in decreasing order. *)
Definition descending (l : list SlotPurchase) : Prop :=
  StronglySorted (fun a b => b.(RawStake) <= a.(RawStake)) l.

Lemma by_stake_perm l : by_stake l ≡ₚ l.
Proof. apply SliceStable_perm. Qed.

Lemma by_stake_descending l : descending (by_stake l).
Proof.
  unfold descending, by_stake, GT.
  pose proof (SliceStable_sorted (fun a b => RawStake b <? RawStake a)) as H.
  specialize (H ltac:(intros x y; rewrite Z.ltb_lt, Z.ltb_ge; unfold Dec in *; lia)
                ltac:(intros x y z; rewrite !Z.ltb_ge; unfold Dec in *; lia) l).
  revert H. generalize (SliceStable (fun a b => RawStake b <? RawStake a) l). intros k.
  induction 1 as [|a k' _ IH Hf]; constructor; [done|].
  eapply Forall_impl; [exact Hf|]. intros b Hb. unfold ordered in Hb. apply Z.ltb_ge in Hb. exact Hb.
Qed.

Lemma by_stake_id l : descending l -> by_stake l = l.
Proof.
  intros H. apply SliceStable_sorted_id. induction H as [|a l _ IH Hf]; constructor; [done|].
  eapply Forall_impl; [exact Hf|]. intros b Hb. unfold ordered, GT. apply Z.ltb_ge. exact Hb.
Qed.

Lemma descending_app l1 l2 : descending (l1 ++ l2) ->
  descending l1 /\ forall a b, a ∈ l1 -> b ∈ l2 -> b.(RawStake) <= a.(RawStake).
Proof.
  induction l1 as [|x l1 IH]; intros H.
  - split; [constructor|]. by intros a b ?%elem_of_nil.
  - inversion H as [|? ? Hs Hf]; subst. destruct (IH Hs) as [H1 H2]. rewrite Forall_forall in Hf. split.
    + constructor; [done|]. apply Forall_forall. intros b Hb. apply Hf, elem_of_app. by left.
    + intros a b [->|Ha]%elem_of_cons Hb; [apply Hf, elem_of_app; by right|by apply H2].
Qed.

(** The bids of a validator. *)
Definition spread_of (o : SlotOrder) : Dec :=
  Z.quot (NewDecFromBigInt o.(Stake)) (Z.of_nat (length o.(SpreadAmong))).
Definition bids_of (staker : Address * SlotOrder) : list SlotPurchase :=
  map (fun key => mkPurchase staker.1 key (spread_of staker.2) (spread_of staker.2)) staker.2.(SpreadAmong).

Lemma expand_spec acc staker : expand acc staker = Ok (acc ++ bids_of staker).
Proof.
  unfold expand, bids_of. destruct staker as [a [stake keys pct]]; cbn.
  destruct (Z.eqb_spec (Z.of_nat (length keys)) 0) as [E|E].
  - destruct keys; [by rewrite app_nil_r|done].
  - unfold QuoInt64. by rewrite Big.big_Quo_Ok by done.
Qed.

Lemma expand_all walk acc : foldM expand walk acc = Ok (acc ++ concat (map bids_of walk)).
Proof.
  revert acc. induction walk as [|s walk IH]; intros acc; cbn [foldM map concat]; [by rewrite app_nil_r|].
  rewrite expand_spec. cbn [mbind outcome_bind]. by rewrite IH, app_assoc.
Qed.

(** The middle of a list of bids, as [Median] takes it. *)
Definition median_of (l : list SlotPurchase) (m : Dec) : Prop :=
  let n := length l in
  if Nat.even n then
    exists a b, l !! (n / 2 - 1)%nat = Some a /\ l !! (n / 2)%nat = Some b /\
      Dec.Quo (a.(RawStake) + b.(RawStake)) two = Ok m
  else exists a, l !! (n / 2)%nat = Some a /\ a.(RawStake) = m.

Definition small_stake (o : SlotOrder) : Prop := 0 <= o.(Stake) < 2 ^ 200.
Definition big_bound : Z := 2 ^ 200 * precisionReuse.

Lemma spread_bound o : small_stake o -> 0 <= spread_of o <= big_bound.
Proof.
  intros [H1 H2]. unfold spread_of, NewDecFromBigInt, big_bound. pose proof precisionReuse_pos.
  destruct (Z.eq_dec (Z.of_nat (length (SpreadAmong o))) 0) as [->|Hn].
  - rewrite Zquot_0_r. nia.
  - split; [apply Z.quot_pos; nia|]. rewrite Z.quot_div_nonneg by nia.
    etrans; [apply Z.div_le_upper_bound with (q := Stake o * precisionReuse); nia|nia].
Qed.

(** Halving, rounding included, stays below the larger half. *)
Lemma Quo_two x : 0 <= x -> fits x -> exists m, Dec.Quo x two = Ok m /\ 0 <= m /\ 2 * m <= x + 1.
Proof.
  intros Hx Hf. pose proof precisionReuse_pos as HP.
  assert (Z.quot (x * precisionReuse * precisionReuse) two = Z.quot (x * precisionReuse) 2) as E.
  { unfold two, NewDecFromBigInt. rewrite Z.mul_comm with (n := x * precisionReuse).
    rewrite (Z.mul_comm 2), Z.quot_mul_cancel_l; lia. }
  destruct (Quo_shrink x two) as (m & Hm & Hm0); [done|unfold two, NewDecFromBigInt, OneDec; lia|done|].
  exists m. split; [done|]. split; [lia|].
  apply Quo_Ok in Hm as (_ & -> & _). rewrite E.
  set (q := Z.quot (x * precisionReuse) 2).
  assert (2 * q <= x * precisionReuse) as Hq
    by (unfold q; rewrite Z.quot_div_nonneg by nia; apply Z.mul_div_le; lia).
  destruct (chopPrecisionAndRound_nearest q) as [Hn _]. clearbody q. clear E.
  rewrite precisionReuse_val in *. unfold Dec in *. lia.
Qed.

Lemma half_nat n : Z.quot (Z.of_nat n) 2 = Z.of_nat (n / 2) /\
  (Z.rem (Z.of_nat n) 2 =? 0) = Nat.even n.
Proof.
  rewrite Z.quot_div_nonneg, Z.rem_mod_nonneg by lia. change 2 with (Z.of_nat 2).
  rewrite <- Nat2Z.inj_div, <- Nat2Z.inj_mod. split; [done|].
  rewrite <- Nat.negb_odd. pose proof (Nat.bit0_mod n) as H. rewrite Nat.bit0_odd in H. 
  rewrite <- H. by destruct (Nat.odd n).
Qed.

Lemma Median_total l : l <> [] -> descending l ->
  (forall p, p ∈ l -> 0 <= p.(RawStake) <= big_bound) ->
  exists m, Median l = Ok (m, l) /\ median_of l m /\ 0 <= m <= big_bound.
Proof.
  intros Hne Hd Hb. unfold Median, median_of. destruct l as [|p0 l0] eqn:El; [done|]. rewrite <- El in *.
  rewrite by_stake_id by done. destruct (half_nat (length l)) as [-> ->].
  assert (0 < length l)%nat as Hlen by (subst; cbn; lia).
  assert (length l / 2 < length l)%nat as Hlt by (apply Nat.div_lt; lia).
  destruct (lookup_lt_is_Some_2 l (length l / 2) Hlt) as [b Hlb].
  pose proof (Hb b ltac:(by eapply list_elem_of_lookup_2)) as Hbb.
  destruct (Nat.even (length l)) eqn:Ev.
  - assert (1 <= length l / 2)%nat as H2.
    { destruct l as [|? [|? l']]; [done|done|]. apply Nat.div_le_lower_bound; cbn; lia. }
    destruct (lookup_lt_is_Some_2 l (length l / 2 - 1)) as [a Hla]; [lia|].
    pose proof (Hb a ltac:(by eapply list_elem_of_lookup_2)) as Hba.
    replace (Z.of_nat (length l / 2) - 1) with (Z.of_nat (length l / 2 - 1)) by lia.
    rewrite (idx_nat _ _ _ Hla), (idx_nat _ _ _ Hlb). cbn [mbind outcome_bind].
    assert (fits (RawStake a + RawStake b)) as Hf.
    { unfold fits, big_bound in *. rewrite precisionReuse_val in *. unfold Dec in *. lia. }
    rewrite Add_fits by done. cbn [mbind outcome_bind].
    destruct (Quo_two (RawStake a + RawStake b)) as (m & Hm & Hm1); [unfold Dec in *; lia|done|].
    rewrite Hm. exists m. split; [done|]. split; [by exists a, b|]. unfold Dec in *. lia.
  - rewrite (idx_nat _ _ _ Hlb). exists (RawStake b). split; [done|]. split; [by exists b|done].
Qed.

(** ** What [Compute] picks *)

Section auction.
Context (walk : list (Address * SlotOrder)).
Context (Hsmall : forall a o, (a, o) ∈ walk -> small_stake o).

(** The bids in decreasing order, and the winning prefix. *)
Definition ranked : list SlotPurchase :=
  by_stake (concat (map bids_of (SliceStable (fun a b => a.1 <? b.1) walk))).
Definition picked (pull : Z) : list SlotPurchase :=
  take (Z.to_nat (Z.min pull (Z.of_nat (length ranked)))) ranked.

Lemma ranked_perm : ranked ≡ₚ concat (map bids_of walk).
Proof. unfold ranked. rewrite by_stake_perm. f_equiv. f_equiv. apply SliceStable_perm. Qed.

Lemma ranked_bounds p : p ∈ ranked -> 0 <= p.(RawStake) <= big_bound /\ p.(EPoSStake) = p.(RawStake).
Proof.
  rewrite ranked_perm. intros (bs & Hbs & Hp)%list_elem_of_In%in_concat.
  apply in_map_iff in Hbs as ([a o] & <- & Ho). apply in_map_iff in Hp as (key & <- & _). split; [|done].
  apply (spread_bound o), (Hsmall a), list_elem_of_In, Ho.
Qed.

Lemma picked_app pull : exists losers, ranked = picked pull ++ losers.
Proof. eexists. symmetry. apply take_drop. Qed.

Lemma Compute_from_picked pull : 0 <= pull ->
  exists m, Compute_from walk pull = Ok (m, picked pull) /\ 0 <= m <= big_bound /\
    (picked pull <> [] -> median_of (picked pull) m) /\ (picked pull = [] -> m = 0).
Proof.
  intros Hpull. assert (0 <= big_bound) by (unfold big_bound; rewrite precisionReuse_val; lia).
  destruct (list_eq_nil_dec walk) as [E|E].
  { exists 0. unfold picked, ranked. rewrite E. cbn. rewrite take_nil. by split_and!. }
  assert (forall X : outcome (Dec * list SlotPurchase),
    match walk with [] => Ok (ZeroDec, []) | _ => X end = X) as Hne by (intros X; by destruct walk).
  unfold Compute_from. rewrite Hne.
  rewrite expand_all. cbn [mbind outcome_bind app]. fold ranked.
  assert ((if Z.of_nat (length ranked) <? pull then Z.of_nat (length ranked) else pull)
    = Z.min pull (Z.of_nat (length ranked))) as -> by (destruct (Z.ltb_spec (Z.of_nat (length ranked)) pull); lia).
  rewrite (proj2 (Z.ltb_ge _ _)) by lia. fold (picked pull).
  destruct (picked_app pull) as [losers Hl].
  destruct (list_eq_nil_dec (picked pull)) as [Ep|Ep].
  { exists 0. rewrite Ep. by split_and!. }
  destruct (Median_total (picked pull) Ep) as (m & Hm & Hmed & Hb).
  - pose proof (by_stake_descending (concat (map bids_of (SliceStable (fun a b => a.1 <? b.1) walk)))) as Hd.
    fold ranked in Hd. rewrite Hl in Hd. by apply descending_app in Hd as [? _].
  - intros p Hp. apply ranked_bounds. rewrite Hl. apply elem_of_app. by left.
  - exists m. split; [by destruct (picked pull)|]. split; [done|]. split; [done|]. by intros ?.
Qed.
End auction.

(** Sorting by address makes the walk irrelevant. *)
Lemma sorted_walk (shortHand : gmap Address SlotOrder) walk : walk ≡ₚ map_to_list shortHand ->
  SliceStable (fun a b => a.1 <? b.1) walk = SliceStable (fun a b => a.1 <? b.1) (map_to_list shortHand).
Proof.
  intros HP. apply SliceStable_unique; [apply (key_less_asym fst)|apply (key_less_neg_trans fst)| |done].
  intros [a1 o1] [a2 o2] H1 H2 ?%Z.ltb_ge ?%Z.ltb_ge. cbn in *. assert (a1 = a2) as -> by lia.
  rewrite HP in H1, H2. apply elem_of_map_to_list in H1, H2. congruence.
Qed.

(** The auction does not depend on the order Go walks the map of offers
    in: every node computes the same median and the same winners, in the same
    order. *)
Theorem Compute_walk_irrelevant shortHand walk pull : walk ≡ₚ map_to_list shortHand ->
  Compute_from walk pull = Compute shortHand pull.
Proof.
  intros HP. unfold Compute, Compute_from. rewrite (sorted_walk _ _ HP).
  destruct walk as [|s w], (map_to_list shortHand) as [|s' w'] eqn:E; try done.
  - by apply Permutation_nil_l in HP.
  - by apply Permutation_nil_r in HP.
Qed.

(** What the auction promises about bids, winners and stakes. *)
Record auction_result (bids : list SlotPurchase) (pull : Z) (ext : bool) (median : Dec)
    (winners : list SlotPurchase) : Prop := {
  ar_count : Z.of_nat (length winners) = Z.min pull (Z.of_nat (length bids));
  ar_best : exists losers, map (fun w => with_EPoSStake w w.(RawStake)) winners ++ losers ≡ₚ bids /\
    forall w l, w ∈ winners -> l ∈ losers -> l.(RawStake) <= w.(RawStake);
  ar_order : descending winners;
  ar_median : winners <> [] -> median_of winners median;
  ar_band : exists min max, Dec.Mul (if ext then oneMinusCV2 else oneMinusC) median = Ok min /\
    Dec.Mul (if ext then onePlusCV2 else onePlusC) median = Ok max /\ 0 <= min /\ min <= median <= max /\
    forall w, w ∈ winners -> w.(EPoSStake) = Z.max min (Z.min max w.(RawStake)) /\ min <= w.(EPoSStake) <= max
}.

Lemma effectiveStake_eq min max actual : effectiveStake min max actual = Z.max min (Z.min max actual).
Proof. unfold effectiveStake. rewrite MaxDec_spec, MinDec_spec. lia. Qed.

Lemma Mul_band f m : 0 <= f <= 2 * OneDec -> 0 <= m <= big_bound ->
  exists r, Dec.Mul f m = Ok r /\ 0 <= r /\ (f <= OneDec -> r <= m) /\ (OneDec <= f -> m <= r).
Proof.
  intros Hf Hm. unfold OneDec in *. pose proof precisionReuse_pos as HP.
  assert (chopPrecisionAndRound (f * m) <= 2 * m) as H2.
  { rewrite <- (chopPrecisionAndRound_exact (2 * m)). apply chopPrecisionAndRound_mono. nia. }
  assert (0 <= chopPrecisionAndRound (f * m)) as H0 by (apply chopPrecisionAndRound_nonneg; nia).
  exists (chopPrecisionAndRound (f * m)). split; [|split; [done|split]].
  - apply Mul_Ok. split; [done|]. unfold fits, big_bound in *. rewrite precisionReuse_val in Hm.
    unfold Dec in *. lia.
  - intros Hle. rewrite <- (chopPrecisionAndRound_exact m) at 2. apply chopPrecisionAndRound_mono. nia.
  - intros Hle. rewrite <- (chopPrecisionAndRound_exact m) at 1. apply chopPrecisionAndRound_mono. nia.
Qed.

Lemma factors : 0 <= oneMinusC <= OneDec /\ 0 <= oneMinusCV2 <= OneDec /\
  OneDec <= onePlusC <= 2 * OneDec /\ OneDec <= onePlusCV2 <= 2 * OneDec.
Proof. split_and!; apply Z.leb_le; by vm_compute. Qed.

(** What the auction gives. *)
Lemma Apply_gives shortHand pull ext :
  (forall a o, shortHand !! a = Some o -> small_stake o) -> 0 <= pull ->
  exists median winners, Apply shortHand pull ext = Ok (median, winners) /\
    auction_result (concat (map bids_of (map_to_list shortHand))) pull ext median winners.
Proof.
  intros Hsmall Hpull.
  assert (forall a o, (a, o) ∈ map_to_list shortHand -> small_stake o) as Hs
    by (intros a o Ha%elem_of_map_to_list; by eapply Hsmall).
  destruct (Compute_from_picked _ Hs pull Hpull) as (m & Hc & Hm & Hmed & _).
  pose proof (ranked_perm (map_to_list shortHand)) as HP.
  set (r := ranked (map_to_list shortHand)) in *. set (w := picked (map_to_list shortHand) pull) in *.
  destruct (picked_app (map_to_list shortHand) pull) as [losers Hl]. fold w r in Hl.
  destruct factors as (F1 & F2 & F3 & F4).
  unfold Apply, Compute. rewrite Hc. cbn [mbind outcome_bind].
  destruct (Mul_band onePlusC m) as (mx & Emx & Hmx0 & _ & Hmx); [lia|done|].
  destruct (Mul_band oneMinusC m) as (mn & Emn & Hmn0 & Hmn & _); [lia|done|].
  destruct (Mul_band onePlusCV2 m) as (mx2 & Emx2 & Hmx20 & _ & Hmx2); [lia|done|].
  destruct (Mul_band oneMinusCV2 m) as (mn2 & Emn2 & Hmn20 & Hmn2 & _); [lia|done|].
  rewrite Emx, Emn. cbn [mbind outcome_bind]. rewrite Emx2, Emn2. cbn [mbind outcome_bind].
  set (lo := if ext then mn2 else mn). set (hi := if ext then mx2 else mx).
  assert ((if ext then Ok (mn2, mx2) else Ok (mn, mx)) = Ok (lo, hi)) as -> by (by destruct ext).
  cbn [mbind outcome_bind]. exists m. eexists. split; [done|].
  assert (forall p, p ∈ w -> p.(EPoSStake) = p.(RawStake)) as Hraw.
  { intros p Hp. apply (ranked_bounds _ Hs). fold r. rewrite Hl. apply elem_of_app. by left. }
  assert (map (fun x => with_EPoSStake x (RawStake x))
    (map (fun p => with_EPoSStake p (effectiveStake lo hi (RawStake p))) w) = w) as Hback.
  { rewrite map_map. clear -Hraw. induction w as [|p w IH]; [done|]. cbn [map]. f_equal.
    - pose proof (Hraw p ltac:(by left)) as E. destruct p. cbn in *. by rewrite <- E.
    - apply IH. intros q Hq. apply Hraw. by right. }
  pose proof (by_stake_descending (concat (map bids_of (SliceStable (fun a b => a.1 <? b.1)
    (map_to_list shortHand))))) as Hd. change (descending r) in Hd. rewrite Hl in Hd.
  apply descending_app in Hd as [Hd1 Hd2].
  split.
  - rewrite length_map. unfold w, picked. fold r. rewrite length_take, <- (Permutation_length HP). lia.
  - exists losers. rewrite Hback, <- Hl. split; [done|]. intros x l Hx Hlo.
    apply list_elem_of_In, in_map_iff in Hx as (p & <- & Hp%list_elem_of_In). by apply (Hd2 p l).
  - clear -Hd1. induction Hd1 as [|p w _ IH Hf]; cbn [map]; constructor; [done|].
    apply List.Forall_map. exact Hf.
  - intros Hne. assert (w <> []) as Hw by (by destruct w). specialize (Hmed Hw). clear -Hmed.
    unfold median_of in *. rewrite length_map. destruct (Nat.even (length w)).
    + destruct Hmed as (a & b & Ha & Hb & Hq). do 2 eexists. rewrite !lookup_map, Ha, Hb. by split_and!.
    + destruct Hmed as (a & Ha & E). eexists. rewrite lookup_map, Ha. by split.
  - exists lo, hi. split; [by destruct ext|]. split; [by destruct ext|].
    assert (0 <= lo /\ lo <= m <= hi) as [Hlo Hhi] by (unfold lo, hi; destruct ext; split_and!; [done|lia|lia|done|lia|lia]).
    split; [done|]. split; [done|]. intros x Hx.
    apply list_elem_of_In, in_map_iff in Hx as (p & <- & _). cbn. rewrite effectiveStake_eq.
    split; [done|]. unfold Dec in *. lia.
Qed.
(** The auction gives the slots to the highest bids.  For stakes below
    2^200 and a non-negative number of slots [Apply] succeeds: as many winners
    as there are slots, or bids; no loser bid more than a winner; the median is
    the middle winning bid; and each winner's effective stake is its bid
    clamped to the band around the median, which contains the median. *)
Theorem Apply_spec shortHand pull ext :
  (forall a o, shortHand !! a = Some o -> small_stake o) -> 0 <= pull ->
  exists median winners, Apply shortHand pull ext = Ok (median, winners) /\
    auction_result (concat (map bids_of (map_to_list shortHand))) pull ext median winners.
Proof. apply Apply_gives. Qed.

(** Two validators with one and two keys, three bids for two slots. *)
Definition sample_orders : gmap Address SlotOrder :=
  <[7 := mkOrder 300 [70; 71] 0]> {[5 := mkOrder 100 [50] 0]}.

Lemma sample_small a o : sample_orders !! a = Some o -> small_stake o.
Proof.
  unfold sample_orders, small_stake. intros [[_ <-]|[_ [_ <-]%lookup_singleton_Some]]%lookup_insert_Some; cbn; lia.
Qed.

Lemma Compute_walk_irrelevant_witness :
  Compute_from (rev (map_to_list sample_orders)) 2 = Compute sample_orders 2.
Proof. apply Compute_walk_irrelevant. symmetry. apply Permutation_rev. Defined.

Lemma Apply_spec_witness :
  exists median winners, Apply sample_orders 2 false = Ok (median, winners) /\ length winners = 2%nat.
Proof.
  destruct (Apply_spec sample_orders 2 false sample_small ltac:(lia)) as (m & w & H & Hr).
  exists m, w. split; [exact H|]. pose proof (ar_count _ _ _ _ _ Hr) as Hc.
  assert (Z.min 2 (Z.of_nat (length (concat (map bids_of (map_to_list sample_orders))))) = 2) as E by (by vm_compute).
  rewrite E in Hc. lia.
Defined.
