(* ===== verification/Validator.v ===== *)
(** * Validators (staking/types/validator.go, commission.go, messages.go)

    The validator record, its wrapper with delegations and counters, the sanity
    checks every state change has to pass, and the creation and editing of
    validators from staking messages.

    Commission rates are [numeric.Dec] values that decoding never leaves nil;
    [*big.Int] fields the code tests against nil are options.  The BLS library's
    signature check and Keccak are foreign. *)
From S2P Require Import Prelude Dec Bls Params Sharding Networks Effective Delegation.
Local Open Scope Z_scope.

(** ** Constants and errors *)

Definition MaxNameLength : nat := 140.
Definition MaxIdentityLength : nat := 140.
Definition MaxWebsiteLength : nat := 140.
Definition MaxSecurityContactLength : nat := 140.
Definition MaxDetailsLength : nat := 280.
Definition BLSVerificationStr : string := "zennittians".
Definition TenThousand : Z := 10000.
Definition MaxBLSPerValidator : nat := 106.
Definition oneAsBigInt : Z := 10 ^ 18.
Definition minimumStake : Z := oneAsBigInt * TenThousand.
Definition hundredPercent : Dec := NewDec 1.
Definition zeroPercent : Dec := NewDec 0.

Definition errAddressNotMatch : string := "validator key not match".
Definition ErrInvalidSelfDelegation : string := "self delegation can not be less than min_self_delegation".
Definition errInvalidTotalDelegation : string :=
  "total delegation can not be bigger than max_total_delegation".
Definition errMinSelfDelegationTooSmall : string :=
  "min_self_delegation must be greater than or equal to 10,000 ITC".
Definition errInvalidMaxTotalDelegation : string :=
  "max_total_delegation can not be less than min_self_delegation".
Definition errCommissionRateTooLarge : string :=
  "commission rate and change rate can not be larger than max commission rate".
Definition errInvalidCommissionRate : string :=
  "commission rate, change rate and max rate should be a value ranging from 0.0 to 1.0".
Definition errNeedAtLeastOneSlotKey : string := "need at least one slot key".
Definition errBLSKeysNotMatchSigs : string :=
  "bls keys and corresponding signatures could not be verified".
Definition errNilMinSelfDelegation : string := "MinSelfDelegation can not be nil".
Definition errNilMaxTotalDelegation : string := "MaxTotalDelegation can not be nil".
Definition errSlotKeyToRemoveNotFound : string := "slot key to remove not found".
Definition errSlotKeyToAddExists : string := "slot key to add already exists".
Definition errDuplicateSlotKeys : string := "slot keys can not have duplicates".
Definition ErrExcessiveBLSKeys : string := "more slot keys provided than allowed".
Definition errCannotChangeBannedTrait : string := "cannot change validator banned status".

(** ** Data *)

Record Description := mkDescription {
  Name : string; Identity : string; Website : string; SecurityContact : string; Details : string
}.
Record CommissionRates := mkRates { Rate : Dec; MaxRate : Dec; MaxChangeRate : Dec }.
Record Commission := mkCommission { rates : CommissionRates; UpdateHeight : Z }.

Record Validator := mkValidator {
  vAddress : Address;
  SlotPubKeys : list SerializedPublicKey;
  LastEpochInCommittee : Z;
  MinSelfDelegation : option Z;
  MaxTotalDelegation : option Z;
  Status : Eligibility;
  commission : Commission;
  description : Description;
  CreationHeight : Z
}.

Record counters := mkCounters { NumBlocksToSign : Z; NumBlocksSigned : Z }.
Record ValidatorWrapper := mkWrapper_ {
  validator : Validator;
  Delegations : list Delegation;
  Counters : counters;
  BlockReward : Z
}.
Record ValidatorSnapshot := mkSnapshot { snapValidator : ValidatorWrapper; snapEpoch : option Z }.

(** Messages (messages.go). *)
Record CreateValidator := mkCreateValidator {
  cvValidatorAddress : Address;
  cvDescription : Description;
  cvCommissionRates : CommissionRates;
  cvMinSelfDelegation : option Z;
  cvMaxTotalDelegation : option Z;
  cvSlotPubKeys : list SerializedPublicKey;
  cvSlotKeySigs : list (list Z);
  cvAmount : Z
}.
Record EditValidator := mkEditValidator {
  evValidatorAddress : Address;
  evDescription : Description;
  evCommissionRate : option Dec;
  evMinSelfDelegation : option Z;
  evMaxTotalDelegation : option Z;
  SlotKeyToRemove : option SerializedPublicKey;
  SlotKeyToAdd : option SerializedPublicKey;
  SlotKeyToAddSig : option (list Z);
  EPOSStatus : Eligibility
}.

(** Field updates. *)
Definition with_keys (v : Validator) (keys : list SerializedPublicKey) : Validator :=
  mkValidator v.(vAddress) keys v.(LastEpochInCommittee) v.(MinSelfDelegation) v.(MaxTotalDelegation)
    v.(Status) v.(commission) v.(description) v.(CreationHeight).
Definition with_Status (v : Validator) (s : Eligibility) : Validator :=
  mkValidator v.(vAddress) v.(SlotPubKeys) v.(LastEpochInCommittee) v.(MinSelfDelegation)
    v.(MaxTotalDelegation) s v.(commission) v.(description) v.(CreationHeight).
Definition with_commission (v : Validator) (c : Commission) : Validator :=
  mkValidator v.(vAddress) v.(SlotPubKeys) v.(LastEpochInCommittee) v.(MinSelfDelegation)
    v.(MaxTotalDelegation) v.(Status) c v.(description) v.(CreationHeight).
Definition with_terms (v : Validator) (desc : Description) (rate : option Dec) (minSelf maxTotal : option Z)
    : Validator :=
  let c := v.(commission) in
  let r := c.(rates) in
  mkValidator v.(vAddress) v.(SlotPubKeys) v.(LastEpochInCommittee)
    (match minSelf with Some m => if negb (Z.sgn m =? 0) then Some m else v.(MinSelfDelegation)
     | None => v.(MinSelfDelegation) end)
    (match maxTotal with Some m => if negb (Z.sgn m =? 0) then Some m else v.(MaxTotalDelegation)
     | None => v.(MaxTotalDelegation) end)
    v.(Status)
    (match rate with Some d => mkCommission (mkRates d r.(MaxRate) r.(MaxChangeRate)) c.(UpdateHeight)
     | None => c end)
    desc v.(CreationHeight).
Definition with_validator (w : ValidatorWrapper) (v : Validator) : ValidatorWrapper :=
  mkWrapper_ v w.(Delegations) w.(Counters) w.(BlockReward).
Definition with_Delegations (w : ValidatorWrapper) (ds : list Delegation) : ValidatorWrapper :=
  mkWrapper_ w.(validator) ds w.(Counters) w.(BlockReward).

(** ** Description *)

Definition too_long (s : string) (n : nat) : bool := (n <? Stdlib.Strings.String.length s)%nat.

Definition EnsureLength (d : Description) : outcome Description :=
  if too_long d.(Name) MaxNameLength then Err "exceed maximum name length"
  else if too_long d.(Identity) MaxIdentityLength then Err "exceed Maximum Length identity"
  else if too_long d.(Website) MaxWebsiteLength then Err "exceed Maximum Length website"
  else if too_long d.(SecurityContact) MaxSecurityContactLength then Err "exceed Maximum Length"
  else if too_long d.(Details) MaxDetailsLength then Err "exceed Maximum Length for details"
  else Ok d.

Definition keep_unless_empty (old new : string) : string := if decide (new = ""%string) then old else new.

Definition UpdateDescription (d1 d2 : Description) : outcome Description :=
  EnsureLength {|
    Name := keep_unless_empty d1.(Name) d2.(Name);
    Identity := keep_unless_empty d1.(Identity) d2.(Identity);
    Website := keep_unless_empty d1.(Website) d2.(Website);
    SecurityContact := keep_unless_empty d1.(SecurityContact) d2.(SecurityContact);
    Details := keep_unless_empty d1.(Details) d2.(Details)
  |}.

(** ** Sanity checks *)

(** The loop over [SlotPubKeys] with [allKeys]. *)
Fixpoint no_duplicate_keys (allKeys : gset SerializedPublicKey) (keys : list SerializedPublicKey)
    : outcome unit :=
  match keys with
  | [] => Ok tt
  | k :: rest =>
      if decide (k ∈ allKeys) then Err errDuplicateSlotKeys else no_duplicate_keys ({[k]} ∪ allKeys) rest
  end.

Definition out_of_percent (r : Dec) : bool := LT r zeroPercent || GT r hundredPercent.

Definition Validator_SanityCheck (v : Validator) : outcome unit :=
  let! _ := EnsureLength v.(description) in
  let c := length v.(SlotPubKeys) in
  let r := v.(commission).(rates) in
  if (c =? 0)%nat then Err errNeedAtLeastOneSlotKey
  else if (MaxBLSPerValidator <? c)%nat then Err ErrExcessiveBLSKeys
  else match v.(MinSelfDelegation) with
  | None => Err errNilMinSelfDelegation
  | Some minSelf =>
      match v.(MaxTotalDelegation) with
      | None => Err errNilMaxTotalDelegation
      | Some maxTotal =>
          if minSelf <? minimumStake then Err errMinSelfDelegationTooSmall
          else if maxTotal <? minSelf then Err errInvalidMaxTotalDelegation
          else if out_of_percent r.(Rate) then Err errInvalidCommissionRate
          else if out_of_percent r.(MaxRate) then Err errInvalidCommissionRate
          else if out_of_percent r.(MaxChangeRate) then Err errInvalidCommissionRate
          else if GT r.(Rate) r.(MaxRate) then Err errCommissionRateTooLarge
          else if GT r.(MaxChangeRate) r.(MaxRate) then Err errCommissionRateTooLarge
          else no_duplicate_keys ∅ v.(SlotPubKeys)
      end
  end.

Definition TotalDelegation (w : ValidatorWrapper) : Z :=
  foldl (fun total entry => total + entry.(Amount)) 0 w.(Delegations).

Definition SanityCheck (w : ValidatorWrapper) : outcome unit :=
  let v := w.(validator) in
  let! _ := Validator_SanityCheck v in
  let! _ :=
    (match w.(Delegations) with
     | [] => Err ErrInvalidSelfDelegation
     | d :: _ =>
         (* both bounds were checked not to be nil *)
         if bool_decide (v.(Status) <> Banned) && (d.(Amount) <? default 0 v.(MinSelfDelegation)) then
           if bool_decide (v.(Status) = Active) then Err ErrInvalidSelfDelegation else Ok tt
         else Ok tt
     end) in
  if default 0 v.(MaxTotalDelegation) <? TotalDelegation w then Err errInvalidTotalDelegation else Ok tt.

(** ** Stake per slot *)

(** [pubkey.Big() mod shardCount] *)
Definition shard_of_key (key : SerializedPublicKey) (shardCount : Z) : outcome Z := Big.Mod key shardCount.

(** One key of the loop: counted unless its shard has [slotsLimit] already. *)
Definition count_limited (slotsLimit shardCount : Z) (acc : list Z * Z) (pubkey : SerializedPublicKey)
    : outcome (list Z * Z) :=
  let '(shardSlotsCount, limitedSlotsCount) := acc in
  let! shardIndex := shard_of_key pubkey shardCount in
  let! n := idx shardSlotsCount shardIndex in
  let! shardSlotsCount := upd shardSlotsCount shardIndex (n + 1) in
  Ok (shardSlotsCount, if slotsLimit <? n + 1 then limitedSlotsCount else limitedSlotsCount + 1).

Definition RawStakePerSlot (Schedule : Schedule) (snapshot : ValidatorSnapshot) : outcome Dec :=
  let wrapper := snapshot.(snapValidator) in
  let keys := wrapper.(validator).(SlotPubKeys) in
  let! instance := InstanceForEpoch Schedule snapshot.(snapEpoch) in
  let slotsLimit := SlotsLimit instance in
  if 0 <? slotsLimit then
    let shardCount := NumShards instance in
    let! '(_, limitedSlotsCount) :=
      foldM (count_limited slotsLimit shardCount) keys (replicate (Z.to_nat shardCount) 0, 0) in
    QuoInt64 (NewDecFromBigInt (TotalDelegation wrapper)) limitedSlotsCount
  else if (0 <? length keys)%nat then
    QuoInt64 (NewDecFromBigInt (TotalDelegation wrapper)) (Z.of_nat (length keys))
  else Ok ZeroDec.

(** ** BLS keys: hexadecimal, proof of possession, conflicts with Intelchain's *)

Definition hex_digit (n : Z) : Ascii.ascii := Ascii.ascii_of_N (Z.to_N (if n <? 10 then 48 + n else 87 + n)).
(** [hex.EncodeToString] *)
Definition EncodeToString (bs : list Z) : string :=
  Stdlib.Strings.String.string_of_list_ascii
    (concat (map (fun b => [hex_digit (Z.shiftr b 4); hex_digit (Z.land b 15)]) bs)).
Definition Hex (pk : SerializedPublicKey) : string := EncodeToString (Bytes pk).

Fixpoint containsIntelchainBLSKeys_loop (match1 : SerializedPublicKey -> outcome unit)
    (blsKeys : list SerializedPublicKey) : outcome unit :=
  match blsKeys with
  | [] => Ok tt
  | k :: rest => let! _ := match1 k in containsIntelchainBLSKeys_loop match1 rest
  end.

(** The cache of [matchesIntelchainBLSKey] is local to one call. *)
Definition matchesIntelchainBLSKey (blsKey : SerializedPublicKey) (itcAccounts : list DeployAccount)
    (epoch : option Z) : outcome unit :=
  let cache := map daBLSPublicKey itcAccounts in
  if decide (Hex blsKey ∈ cache) then Err errDuplicateSlotKeys else Ok tt.

Definition containsIntelchainBLSKeys (blsKeys : list SerializedPublicKey)
    (itcAccounts : list DeployAccount) (epoch : option Z) : outcome unit :=
  containsIntelchainBLSKeys_loop (fun k => matchesIntelchainBLSKey k itcAccounts epoch) blsKeys.

Section messages.
Context {L : BLSLib} {S : SigCheck L} (Schedule : Schedule).

(** [BytesToBLSPublicKey] reads through a cache that does not show. *)
Definition VerifyBLSKey (pubKey : SerializedPublicKey) (pubKeySig : option (list Z)) : outcome unit :=
  match deserialize_key (Bytes pubKey) with
  | Panic w => Panic w
  | Err _ => Err errBLSKeysNotMatchSigs
  | Ok blsPubKey =>
      match pubKeySig with
      | None => Panic "nil pointer dereference"
      | Some bs =>
          match sig_Deserialize bs with
          | None => Err "err blsSignatureDeserialize"
          | Some msgSig =>
              let msgHash := Keccak256 (string_bytes BLSVerificationStr) in
              if negb (VerifyHash msgSig blsPubKey msgHash) then Err errBLSKeysNotMatchSigs else Ok tt
          end
      end
  end.

Fixpoint VerifyBLSKeys_loop (pubKeys : list SerializedPublicKey) (pubKeySigs : list (list Z)) : outcome unit :=
  match pubKeys, pubKeySigs with
  | k :: ks, s :: ss => let! _ := VerifyBLSKey k (Some s) in VerifyBLSKeys_loop ks ss
  | _, _ => Ok tt
  end.
Definition VerifyBLSKeys (pubKeys : list SerializedPublicKey) (pubKeySigs : list (list Z)) : outcome unit :=
  if negb (length pubKeys =? length pubKeySigs)%nat then Err errBLSKeysNotMatchSigs
  else VerifyBLSKeys_loop pubKeys pubKeySigs.

Definition CreateValidatorFromNewMsg (val : CreateValidator) (blockNum : Z) (epoch : option Z)
    : outcome Validator :=
  let! desc := EnsureLength val.(cvDescription) in
  let commission := mkCommission val.(cvCommissionRates) blockNum in
  let pubKeys := val.(cvSlotPubKeys) in
  let! instance := InstanceForEpoch Schedule epoch in
  let! _ := containsIntelchainBLSKeys pubKeys (ItcAccounts instance) epoch in
  let! _ := VerifyBLSKeys pubKeys val.(cvSlotKeySigs) in
  Ok {| vAddress := val.(cvValidatorAddress);
        SlotPubKeys := pubKeys;
        LastEpochInCommittee := 0;
        MinSelfDelegation := val.(cvMinSelfDelegation);
        MaxTotalDelegation := val.(cvMaxTotalDelegation);
        Status := Active;
        commission := commission;
        description := desc;
        CreationHeight := blockNum |}.

(** The first occurrence of a key is cut out of the list. *)
Fixpoint remove_first (key : SerializedPublicKey) (keys : list SerializedPublicKey)
    : option (list SerializedPublicKey) :=
  match keys with
  | [] => None
  | k :: rest =>
      if decide (k = key) then Some rest
      else match remove_first key rest with Some r => Some (k :: r) | None => None end
  end.

Definition remove_slot_key (keys : list SerializedPublicKey) (key : option SerializedPublicKey)
    : outcome (list SerializedPublicKey) :=
  match key with
  | None => Ok keys
  | Some key => match remove_first key keys with Some r => Ok r | None => Err errSlotKeyToRemoveNotFound end
  end.

Definition add_slot_key (keys : list SerializedPublicKey) (edit : EditValidator) (epoch : option Z)
    : outcome (list SerializedPublicKey) :=
  match edit.(SlotKeyToAdd) with
  | None => Ok keys
  | Some key =>
      if decide (key ∈ keys) then Err errSlotKeyToAddExists
      else
        let! instance := InstanceForEpoch Schedule epoch in
        let! _ := matchesIntelchainBLSKey key (ItcAccounts instance) epoch in
        let! _ := VerifyBLSKey key edit.(SlotKeyToAddSig) in
        Ok (keys ++ [key])
  end.

(** The validator is edited in place: on an error it keeps what was changed
    before. *)
Definition UpdateValidatorFromEditMsg (validator : Validator) (edit : EditValidator) (epoch : option Z)
    : Validator * outcome unit :=
  if negb (validator.(vAddress) =? edit.(evValidatorAddress)) then (validator, Err errAddressNotMatch)
  else match UpdateDescription validator.(description) edit.(evDescription) with
  | Err e => (validator, Err e)
  | Panic w => (validator, Panic w)
  | Ok desc =>
      let validator := with_terms validator desc edit.(evCommissionRate) edit.(evMinSelfDelegation)
                         edit.(evMaxTotalDelegation) in
      match remove_slot_key validator.(SlotPubKeys) edit.(SlotKeyToRemove) with
      | Err e => (validator, Err e)
      | Panic w => (validator, Panic w)
      | Ok keys =>
          let validator := with_keys validator keys in
          match add_slot_key keys edit epoch with
          | Err e => (validator, Err e)
          | Panic w => (validator, Panic w)
          | Ok keys =>
              let validator := with_keys validator keys in
              match validator.(Status) with
              | Banned => (validator, Err errCannotChangeBannedTrait)
              | _ =>
                  (match edit.(EPOSStatus) with
                   | Active | Inactive => with_Status validator edit.(EPOSStatus)
                   | _ => validator
                   end, Ok tt)
              end
          end
      end
  end.
End messages.

(** ** Properties *)

Record description_ok (d : Description) : Prop := {
  do_name : (Stdlib.Strings.String.length d.(Name) <= MaxNameLength)%nat;
  do_identity : (Stdlib.Strings.String.length d.(Identity) <= MaxIdentityLength)%nat;
  do_website : (Stdlib.Strings.String.length d.(Website) <= MaxWebsiteLength)%nat;
  do_contact : (Stdlib.Strings.String.length d.(SecurityContact) <= MaxSecurityContactLength)%nat;
  do_details : (Stdlib.Strings.String.length d.(Details) <= MaxDetailsLength)%nat
}.

Lemma EnsureLength_Ok d d' : EnsureLength d = Ok d' <-> d' = d /\ description_ok d.
Proof.
  unfold EnsureLength, too_long.
  destruct (Nat.ltb_spec MaxNameLength (Stdlib.Strings.String.length (Name d))) as [H1|H1];
  destruct (Nat.ltb_spec MaxIdentityLength (Stdlib.Strings.String.length (Identity d))) as [H2|H2];
  destruct (Nat.ltb_spec MaxWebsiteLength (Stdlib.Strings.String.length (Website d))) as [H3|H3];
  destruct (Nat.ltb_spec MaxSecurityContactLength (Stdlib.Strings.String.length (SecurityContact d))) as [H4|H4];
  destruct (Nat.ltb_spec MaxDetailsLength (Stdlib.Strings.String.length (Details d))) as [H5|H5];
  (split; [intros H; try discriminate H; injection H as <-; by repeat split|intros [-> []]; try lia; done]).
Qed.

Lemma no_duplicate_keys_Ok seen keys :
  no_duplicate_keys seen keys = Ok tt <-> NoDup keys /\ forall k, k ∈ keys -> k ∉ seen.
Proof.
  revert seen. induction keys as [|k keys IH]; intros seen; cbn [no_duplicate_keys].
  { split; [|done]. intros _. split; [constructor|]. by intros k ?%elem_of_nil. }
  case_decide as Hk.
  - split; [done|]. intros [_ H]. exfalso. apply (H k); [by left|done].
  - rewrite IH, NoDup_cons. split.
    + intros [Hnd H]. split; [split; [|done]|].
      * intros Hin. apply (H k Hin). set_solver.
      * intros k' [->|Hin]%elem_of_cons; [done|]. pose proof (H k' Hin). set_solver.
    + intros [[Hn Hnd] H]. split; [done|]. intros k' Hin [->%elem_of_singleton|Hs]%elem_of_union; [done|].
      apply (H k'); [by right|done].
Qed.

(** What [SanityCheck] demands of a validator and of its wrapper. *)
Definition percent (r : Dec) : Prop := 0 <= r <= OneDec.
Record validator_sane (v : Validator) : Prop := {
  vs_description : description_ok v.(description);
  vs_some_key : v.(SlotPubKeys) <> [];
  vs_few_keys : (length v.(SlotPubKeys) <= MaxBLSPerValidator)%nat;
  vs_keys : NoDup v.(SlotPubKeys);
  vs_bounds : exists minSelf maxTotal, v.(MinSelfDelegation) = Some minSelf /\
    v.(MaxTotalDelegation) = Some maxTotal /\ minimumStake <= minSelf <= maxTotal;
  vs_rate : percent v.(commission).(rates).(Rate);
  vs_max_rate : percent v.(commission).(rates).(MaxRate);
  vs_change : percent v.(commission).(rates).(MaxChangeRate);
  vs_rate_max : v.(commission).(rates).(Rate) <= v.(commission).(rates).(MaxRate);
  vs_change_max : v.(commission).(rates).(MaxChangeRate) <= v.(commission).(rates).(MaxRate)
}.
Record wrapper_sane (w : ValidatorWrapper) : Prop := {
  ws_validator : validator_sane w.(validator);
  ws_self : exists self rest, w.(Delegations) = self :: rest /\
    (w.(validator).(Status) = Active -> default 0 w.(validator).(MinSelfDelegation) <= self.(Amount));
  ws_total : TotalDelegation w <= default 0 w.(validator).(MaxTotalDelegation)
}.

Lemma out_of_percent_spec r : out_of_percent r = false <-> percent r.
Proof.
  unfold out_of_percent, percent, LT, GT. rewrite orb_false_iff, !Z.ltb_ge.
  change zeroPercent with 0. change hundredPercent with OneDec. done.
Qed.

Lemma Validator_SanityCheck_Ok v : Validator_SanityCheck v = Ok tt <-> validator_sane v.
Proof.
  unfold Validator_SanityCheck. split.
  - intros H. apply bind_Ok in H as (d & Hd%EnsureLength_Ok & H). destruct Hd as [_ Hd].
    destruct (Nat.eqb_spec (length (SlotPubKeys v)) 0) as [|Hc]; [done|].
    destruct (Nat.ltb_spec MaxBLSPerValidator (length (SlotPubKeys v))) as [|Hm]; [done|].
    destruct (MinSelfDelegation v) as [minSelf|] eqn:E1; [|done].
    destruct (MaxTotalDelegation v) as [maxTotal|] eqn:E2; [|done].
    destruct (Z.ltb_spec minSelf minimumStake) as [|H1]; [done|].
    destruct (Z.ltb_spec maxTotal minSelf) as [|H2]; [done|].
    destruct (out_of_percent _) eqn:O1 in H; [done|]. destruct (out_of_percent _) eqn:O2 in H; [done|].
    destruct (out_of_percent _) eqn:O3 in H; [done|]. apply out_of_percent_spec in O1, O2, O3.
    unfold GT in H.
    destruct (Z.ltb_spec (MaxRate (rates (commission v))) (Rate (rates (commission v)))) as [|H3]; [done|].
    destruct (Z.ltb_spec (MaxRate (rates (commission v))) (MaxChangeRate (rates (commission v)))) as [|H4]; [done|].
    apply no_duplicate_keys_Ok in H as [Hnd _].
    split; try done; [by intros Hn; rewrite Hn in Hc|by exists minSelf, maxTotal].
  - intros [Hd H1 H2 H3 (minSelf & maxTotal & -> & -> & H4 & H5) H6 H7 H8 H9 H10].
    rewrite (proj2 (EnsureLength_Ok _ _) (conj eq_refl Hd)). cbn [mbind outcome_bind].
    rewrite (proj2 (Nat.eqb_neq _ _)) by (by destruct (SlotPubKeys v)).
    rewrite (proj2 (Nat.ltb_ge _ _)), !(proj2 (Z.ltb_ge _ _)) by lia.
    apply out_of_percent_spec in H6, H7, H8. rewrite H6, H7, H8. unfold GT.
    rewrite !(proj2 (Z.ltb_ge _ _)) by done. apply no_duplicate_keys_Ok. split; [done|]. set_solver.
Qed.

Lemma TotalDelegation_sum w : TotalDelegation w = sumZ Amount w.(Delegations).
Proof. unfold TotalDelegation. by rewrite foldl_sumZ. Qed.

(** All the tokens a validator holds for its delegators. *)
Definition wrapper_funds (w : ValidatorWrapper) : Z := sumZ funds w.(Delegations).

(** The verdict of [SanityCheck], usable by other files. *)
Lemma SanityCheck_Ok w : SanityCheck w = Ok tt <-> wrapper_sane w.
Proof.
  unfold SanityCheck. split.
  - intros H. apply bind_Ok in H as ([] & Hv%Validator_SanityCheck_Ok & H).
    apply bind_Ok in H as ([] & Hs & H).
    destruct (Delegations w) as [|self rest] eqn:Ed; [done|].
    destruct (Z.ltb_spec (default 0 (MaxTotalDelegation (validator w))) (TotalDelegation w)) as [|Ht]; [done|].
    split; [done| |done]. exists self, rest. split; [done|]. intros Ha.
    rewrite Ha in Hs. cbn in Hs. destruct (Z.ltb_spec (Amount self) (default 0 (MinSelfDelegation (validator w)))); [done|lia].
  - intros [Hv (self & rest & Ed & Hself) Ht]. rewrite (proj2 (Validator_SanityCheck_Ok _) Hv).
    cbn [mbind outcome_bind]. rewrite Ed, (proj2 (Z.ltb_ge _ _)) by done.
    destruct (decide (Status (validator w) = Active)) as [Ha|Ha].
    + rewrite (proj2 (Z.ltb_ge _ _)) by (by apply Hself). by rewrite andb_false_r.
    + rewrite (bool_decide_false _ Ha). by destruct (_ && _).
Qed.

Lemma no_duplicate_keys_not_Panic seen keys w : no_duplicate_keys seen keys <> Panic w.
Proof.
  revert seen. induction keys as [|k keys IH]; intros seen; cbn [no_duplicate_keys]; [done|].
  case_decide; [done|apply IH].
Qed.

Lemma Validator_SanityCheck_not_Panic v w : Validator_SanityCheck v <> Panic w.
Proof.
  apply bind_not_Panic; [unfold EnsureLength; by repeat case_match|]. intros _.
  cbv zeta. repeat (case_match; try apply no_duplicate_keys_not_Panic; try discriminate).
Qed.

(** C38: [SanityCheck] accepts exactly the sane validators.  It passes if and
    only if the description is within its limits, there are between 1 and 106
    distinct BLS keys, the self-delegation minimum is at least 10,000 ITC and at
    most the total maximum, the three commission rates are percentages with the
    rate and the rate change below the maximum, the first delegation of an
    active validator reaches its minimum, and the total does not exceed the
    maximum.  It never panics. *)
Theorem SanityCheck_spec w :
  (SanityCheck w = Ok tt <-> wrapper_sane w) /\ (forall e, SanityCheck w <> Panic e).
Proof.
  split; [apply SanityCheck_Ok|]. intros e. unfold SanityCheck.
  apply bind_not_Panic; [apply Validator_SanityCheck_not_Panic|]. intros _.
  apply bind_not_Panic; [by repeat case_match|]. intros _. by case_match.
Qed.

(** *** Editing *)

Lemma remove_first_Some key keys r : remove_first key keys = Some r ->
  exists l1 l2, keys = l1 ++ key :: l2 /\ key ∉ l1 /\ r = l1 ++ l2.
Proof.
  revert r. induction keys as [|k keys IH]; intros r; cbn [remove_first]; [done|].
  case_decide as E.
  - intros [= <-]. exists [], keys. subst. split_and!; [done| |done]. by intros ?%elem_of_nil.
  - destruct (remove_first key keys) as [r0|]; [|done]. intros [= <-].
    destruct (IH r0 eq_refl) as (l1 & l2 & -> & Hn & ->). exists (k :: l1), l2. split_and!; [done| |done].
    intros [?|?]%elem_of_cons; [by subst|done].
Qed.

Section editing.
Context {L : BLSLib} {S : SigCheck L} (Schedule : Schedule).

(** A key whose holder signed the verification string with it. *)
Definition possessed (key : SerializedPublicKey) (sig : option (list Z)) : Prop :=
  exists pk bs s, deserialize_key (Bytes key) = Ok pk /\ sig = Some bs /\ sig_Deserialize bs = Some s /\
    VerifyHash s pk (Keccak256 (string_bytes BLSVerificationStr)) = true.

Lemma VerifyBLSKey_Ok key sig : VerifyBLSKey key sig = Ok tt <-> possessed key sig.
Proof.
  unfold VerifyBLSKey, possessed. split.
  - intros H. destruct (deserialize_key _) as [pk| |]; [|done|done]. destruct sig as [bs|]; [|done].
    destruct (sig_Deserialize bs) as [s|] eqn:Es; [|done].
    destruct (VerifyHash _ _ _) eqn:E; [|done]. exists pk, bs, s. by split_and!.
  - intros (pk & bs & s & -> & -> & -> & ->). done.
Qed.

Lemma VerifyBLSKeys_Ok keys sigs : VerifyBLSKeys keys sigs = Ok tt <->
  Forall2 (fun k s => possessed k (Some s)) keys sigs.
Proof.
  unfold VerifyBLSKeys. revert sigs. induction keys as [|k keys IH]; intros [|s sigs]; cbn.
  - split; [constructor|done].
  - split; [done|]. intros H. inversion H.
  - split; [done|]. intros H. inversion H.
  - cbn [VerifyBLSKeys_loop]. specialize (IH sigs).
    destruct (length keys =? length sigs)%nat eqn:E; cbn [negb] in *.
    + rewrite bind_Ok, Forall2_cons. split.
      * intros ([] & H1%VerifyBLSKey_Ok & H2). split; [done|]. by apply IH.
      * intros [H1%VerifyBLSKey_Ok H2]. exists tt. split; [done|]. by apply IH.
    + split; [done|]. intros H. inversion H; subst. by apply IH in H5.
Qed.

(** What an accepted edit did to the keys. *)
Definition keys_edited (edit : EditValidator) (epoch : option Z) (keys keys' : list SerializedPublicKey) : Prop :=
  exists kept,
    match edit.(SlotKeyToRemove) with
    | None => kept = keys
    | Some k => exists l1 l2, keys = l1 ++ k :: l2 /\ k ∉ l1 /\ kept = l1 ++ l2
    end /\
    match edit.(SlotKeyToAdd) with
    | None => keys' = kept
    | Some k => keys' = kept ++ [k] /\ k ∉ kept /\ possessed k edit.(SlotKeyToAddSig) /\
        exists i, InstanceForEpoch Schedule epoch = Ok i /\ Hex k ∉ map daBLSPublicKey (ItcAccounts i)
    end.

Lemma keys_edited_intro edit epoch keys kept keys' :
  remove_slot_key keys edit.(SlotKeyToRemove) = Ok kept -> add_slot_key Schedule kept edit epoch = Ok keys' ->
  keys_edited edit epoch keys keys'.
Proof.
  unfold remove_slot_key, add_slot_key, keys_edited. intros Hr Ha. exists kept. split.
  - destruct (SlotKeyToRemove edit) as [k|]; [|by injection Hr as ->].
    destruct (remove_first k keys) as [r|] eqn:E; [|done]. injection Hr as <-. by apply remove_first_Some.
  - destruct (SlotKeyToAdd edit) as [k|]; [|by injection Ha as ->]. case_decide as Hk; [done|].
    apply bind_Ok in Ha as (i & Hi & Ha). apply bind_Ok in Ha as ([] & Hm & Ha).
    apply bind_Ok in Ha as ([] & Hv%VerifyBLSKey_Ok & [= <-]). split_and!; [done|done|done|].
    exists i. split; [done|]. unfold matchesIntelchainBLSKey in Hm.
    destruct (decide (Hex k ∈ map daBLSPublicKey (ItcAccounts i))); done.
Qed.

Lemma keys_edited_NoDup edit epoch keys keys' : keys_edited edit epoch keys keys' -> NoDup keys -> NoDup keys'.
Proof.
  intros (kept & Hr & Ha) Hnd. assert (NoDup kept) as Hk.
  { destruct (SlotKeyToRemove edit) as [k|]; [|by subst]. destruct Hr as (l1 & l2 & -> & _ & ->).
    apply NoDup_app in Hnd as (H1 & H2 & H3). apply NoDup_cons in H3 as [H3 H4].
    apply NoDup_app. split; [done|]. split; [|done]. intros x Hx Hx'. apply (H2 x Hx). by right. }
  destruct (SlotKeyToAdd edit) as [k|]; [|by subst]. destruct Ha as (-> & Hn & _).
  apply NoDup_app. split; [done|]. split; [|apply NoDup_singleton]. intros x Hx ->%list_elem_of_singleton. done.
Qed.

(** What an accepted edit can change.  Editing succeeds only for the
    validator's own address and a validator that is not banned; it changes the
    description, the rate, the two delegation bounds, the status (to active or
    inactive only) and the keys, and nothing else; a key is only added when it
    is new, not Intelchain's, and its holder signed for it, so keys stay
    distinct. *)
Lemma UpdateValidatorFromEditMsg_spec v edit epoch v' :
  UpdateValidatorFromEditMsg Schedule v edit epoch = (v', Ok tt) ->
  v.(vAddress) = edit.(evValidatorAddress) /\ v.(Status) <> Banned /\
  (v'.(vAddress), v'.(LastEpochInCommittee), v'.(CreationHeight)) =
    (v.(vAddress), v.(LastEpochInCommittee), v.(CreationHeight)) /\
  v'.(commission).(rates).(MaxRate) = v.(commission).(rates).(MaxRate) /\
  v'.(commission).(rates).(MaxChangeRate) = v.(commission).(rates).(MaxChangeRate) /\
  v'.(commission).(rates).(Rate) = default v.(commission).(rates).(Rate) edit.(evCommissionRate) /\
  description_ok v'.(description) /\
  v'.(Status) = (if decide (edit.(EPOSStatus) = Active \/ edit.(EPOSStatus) = Inactive)
                 then edit.(EPOSStatus) else v.(Status)) /\
  keys_edited edit epoch v.(SlotPubKeys) v'.(SlotPubKeys) /\
  (NoDup v.(SlotPubKeys) -> NoDup v'.(SlotPubKeys)).
Proof.
  unfold UpdateValidatorFromEditMsg.
  destruct (Z.eqb_spec (vAddress v) (evValidatorAddress edit)) as [Ea|]; cbn [negb]; [|done].
  destruct (UpdateDescription _ _) as [desc| |] eqn:Ed; [|done|done].
  assert (description_ok desc) as Hdesc.
  { unfold UpdateDescription in Ed. by apply EnsureLength_Ok in Ed as [-> ?]. }
  change (SlotPubKeys (with_terms v _ _ _ _)) with (SlotPubKeys v).
  destruct (remove_slot_key _ _) as [kept| |] eqn:Er; [|done|done].
  destruct (add_slot_key _ _ _ _) as [keys| |] eqn:Eadd; [|done|done].
  pose proof (keys_edited_intro _ _ _ _ _ Er Eadd) as Hkeys.
  set (v1 := with_keys (with_keys (with_terms v desc (evCommissionRate edit) (evMinSelfDelegation edit)
    (evMaxTotalDelegation edit)) kept) keys). change (Status v1) with (Status v). intros H.
  assert (Status v <> Banned /\ v' = if decide (EPOSStatus edit = Active \/ EPOSStatus edit = Inactive)
    then with_Status v1 (EPOSStatus edit) else v1) as [Hb ->].
  { destruct (Status v); first [done|destruct (EPOSStatus edit); injection H as <-; by split]. }
  assert (forall P : Validator -> Prop, P v1 -> (forall s, P (with_Status v1 s)) ->
    P (if decide (EPOSStatus edit = Active \/ EPOSStatus edit = Inactive)
       then with_Status v1 (EPOSStatus edit) else v1)) as Hcase by (intros P ? ?; by case_decide).
  split_and!; try done.
  - by apply Hcase.
  - apply Hcase; [|intros ?]; cbn; by destruct (evCommissionRate edit).
  - apply Hcase; [|intros ?]; cbn; by destruct (evCommissionRate edit).
  - apply Hcase; [|intros ?]; cbn; by destruct (evCommissionRate edit).
  - by apply Hcase.
  - by case_decide.
  - by apply Hcase.
  - intros Hnd. pose proof (keys_edited_NoDup _ _ _ _ Hkeys Hnd). by apply Hcase.
Qed.

Lemma UpdateValidatorFromEditMsg_identity v edit epoch v' :
  UpdateValidatorFromEditMsg Schedule v edit epoch = (v', Ok tt) ->
  v'.(description).(Identity) = keep_unless_empty v.(description).(Identity) edit.(evDescription).(Identity).
Proof.
  unfold UpdateValidatorFromEditMsg. destruct (negb _); [done|].
  destruct (UpdateDescription _ _) as [desc| |] eqn:Ed; [|done|done].
  unfold UpdateDescription in Ed. apply EnsureLength_Ok in Ed as [-> _].
  destruct (remove_slot_key _ _); [|done|done]. destruct (add_slot_key _ _ _ _); [|done|done]. intros H.
  destruct (Status _) in H; try discriminate H; destruct (EPOSStatus edit); by injection H as <-.
Qed.
End editing.

(** ** A validator *)

Definition sample_validator : Validator :=
  mkValidator 1 [10; 11] 0 (Some (10 ^ 22)) (Some (10 ^ 23)) Active
    (mkCommission (mkRates (10 ^ 17) (9 * 10 ^ 17) (5 * 10 ^ 16)) 0)
    (mkDescription "n" "i" "w" "s" "d") 0.
Definition sample_wrapper : ValidatorWrapper :=
  mkWrapper_ sample_validator [NewDelegation 1 (10 ^ 22); NewDelegation 2 (10 ^ 21)] (mkCounters 0 0) 0.
Example sample_wrapper_sane : SanityCheck sample_wrapper = Ok tt.
Proof. by vm_compute. Qed.

Definition edit_keys : EditValidator :=
  mkEditValidator 1 (mkDescription "" "" "" "" "") (Some (2 * 10 ^ 17)) None None (Some 10) (Some 12)
    (Some [12]) Inactive.
Definition plain_schedule : Schedule :=
  NewFixedSchedule (mkInstance 4 250 170 (68 * 10 ^ 16) (32 * 10 ^ 16) [] [] [] 16384 0 emptyAllowlist ∅ 0 0).
