(* ===== verification/Availability.v ===== *)
(** * Availability (staking/availability/measure.go)

    Who signed a block, the counters of blocks to sign and signed, and the
    rules that put a validator out of the auction or raise its commission.

    Validator wrappers live in the state database, whose [ValidatorWrapper]
    hands out the cached original: mutating it is mutating the store.  The store
    is a map here; an absent validator is [ErrAddressNotPresent].  The snapshot
    reader is an interface of the package and an argument. *)
From S2P Require Import Prelude Dec DecText Bls Mask Shard Effective Delegation Validator.
Local Open Scope Z_scope.

Definition ErrAddressNotPresent : string := "address not present in state".

Notation ValidatorState := (gmap Address ValidatorWrapper).
Definition ValidatorWrapperAt (state : ValidatorState) (addr : Address) : outcome ValidatorWrapper :=
  match state !! addr with Some w => Ok w | None => Err ErrAddressNotPresent end.

Definition measure : Dec := unwrap (Dec.Quo (NewDec 2) (NewDec 3)).
Definition minCommissionRateEra1 : Dec := unwrap (NewDecFromStr "0.05").
Definition minCommissionRateEra2 : Dec := unwrap (NewDecFromStr "0.07").

Definition MinCommissionRate (era1 era2 : bool) : Dec :=
  if era2 then minCommissionRateEra2 else if era1 then minCommissionRateEra1 else ZeroDec.

(** ** Signers of a block *)

(** One turn of the loop: the slot of an enabled index is payable. *)
Definition sort_signer {L : BLSLib} (mask : Mask) (acc : SlotList * SlotList) (im : Z * Slot)
    : outcome (SlotList * SlotList) :=
  let '(payable, missing) := acc in
  let! (signed : bool) := IndexEnabled mask im.1 in
  if signed then Ok (payable ++ [im.2], missing) else Ok (payable, missing ++ [im.2]).

Definition BlockSigners {L : BLSLib} (bitmap : list Z) (parentCommittee : option Committee)
    : outcome (SlotList * SlotList) :=
  let! committerKeys := BLSPublicKeys parentCommittee in
  let! mask := SetMask (NewMask committerKeys) bitmap in
  match parentCommittee with
  | None => Panic "nil pointer dereference"
  | Some c => foldM (sort_signer mask) (zip (range c.(Slots)) c.(Slots)) ([], [])
  end.

Definition BallotResult {L : BLSLib} (lastCommitBitmap : list Z) (parentShardState : option State) (shardID : Z)
    : outcome (SlotList * SlotList * SlotList) :=
  match FindCommitteeByID parentShardState shardID with
  | Err _ => Err "cannot find shard in the shard state"
  | Panic w => Panic w
  | Ok parentCommittee =>
      let! '(payable, missing) := BlockSigners lastCommitBitmap (Some parentCommittee) in
      Ok (parentCommittee.(Slots), payable, missing)
  end.

(** ** Signing counters *)

Definition bump (w : ValidatorWrapper) (didSign : bool) : ValidatorWrapper :=
  let c := w.(Counters) in
  mkWrapper_ w.(validator) w.(Delegations)
    (mkCounters (c.(NumBlocksToSign) + 1) (if didSign then c.(NumBlocksSigned) + 1 else c.(NumBlocksSigned)))
    w.(BlockReward).

(** The inner loop of [bumpCount]; on an error the earlier slots stay counted. *)
Fixpoint bump_slots (state : ValidatorState) (didSign : bool) (stakedAddrSet : gset Address) (slots : SlotList)
    : ValidatorState * outcome unit :=
  match slots with
  | [] => (state, Ok tt)
  | slot :: rest =>
      let addr := slot.(EcdsaAddress) in
      if decide (addr ∈ stakedAddrSet) then
        match ValidatorWrapperAt state addr with
        | Ok wrapper => bump_slots (<[addr := bump wrapper didSign]> state) didSign stakedAddrSet rest
        | Err e => (state, Err e)
        | Panic w => (state, Panic w)
        end
      else bump_slots state didSign stakedAddrSet rest
  end.

Fixpoint bumpCount (state : ValidatorState) (signers : list (bool * SlotList)) (stakedAddrSet : gset Address)
    : ValidatorState * outcome unit :=
  match signers with
  | [] => (state, Ok tt)
  | (didSign, committee) :: rest =>
      match bump_slots state didSign stakedAddrSet committee with
      | (state, Ok _) => bumpCount state rest stakedAddrSet
      | r => r
      end
  end.

Definition IncrementValidatorSigningCounts (staked : StakedSlots) (state : ValidatorState)
    (signers missing : SlotList) : ValidatorState * outcome unit :=
  bumpCount state [(false, missing); (true, signers)] staked.(LookupSet).

(** ** Availability of a validator *)

Record Computed := mkComputed {
  Signed : Z; ToSign : Z; BlocksLeftInEpoch : Z; cPercentage : Dec; IsBelowThreshold : bool
}.

Definition IsBelowSigningThreshold (quotient : Dec) : bool := LTE quotient measure.

Definition ComputeCurrentSigning (snapshot wrapper : ValidatorWrapper) : outcome Computed :=
  let signed := wrapper.(Counters).(NumBlocksSigned) - snapshot.(Counters).(NumBlocksSigned) in
  let toSign := wrapper.(Counters).(NumBlocksToSign) - snapshot.(Counters).(NumBlocksToSign) in
  if toSign =? 0 then Ok (mkComputed signed toSign 0 ZeroDec true)
  else
    let! q := Dec.Quo (NewDecFromBigInt signed) (NewDecFromBigInt toSign) in
    Ok (mkComputed signed toSign 0 q (IsBelowSigningThreshold q)).

Definition ComputeAndMutateEPOSStatus (ReadValidatorSnapshot : Address -> outcome ValidatorSnapshot)
    (state : ValidatorState) (addr : Address) : ValidatorState * outcome unit :=
  match ValidatorWrapperAt state addr with
  | Err e => (state, Err e)
  | Panic w => (state, Panic w)
  | Ok wrapper =>
      if decide (wrapper.(validator).(Status) = Banned) then (state, Ok tt)
      else match (let! snapshot := ReadValidatorSnapshot wrapper.(validator).(vAddress) in
                  ComputeCurrentSigning snapshot.(snapValidator) wrapper) with
           | Err e => (state, Err e)
           | Panic w => (state, Panic w)
           | Ok computed =>
               if computed.(IsBelowThreshold)
               then (<[addr := with_validator wrapper (with_Status wrapper.(validator) Inactive)]> state, Ok tt)
               else (state, Ok tt)
           end
  end.

(** ** Commission rules *)

Definition with_rates (v : Validator) (rate maxRate : Dec) : Validator :=
  with_commission v
    (mkCommission (mkRates rate maxRate v.(commission).(rates).(MaxChangeRate)) v.(commission).(UpdateHeight)).

(** [Rate.SetBytes(minRate.Bytes())] stores the absolute value. *)
Definition UpdateMinimumCommissionFee (electionEpoch : Z) (firstElectionEpoch : Z) (state : ValidatorState)
    (addr : Address) (minRate : Dec) (promoPeriod : Z) : ValidatorState * outcome bool :=
  match ValidatorWrapperAt state addr with
  | Err e => (state, Err e)
  | Panic w => (state, Panic w)
  | Ok wrapper =>
      let first := Big.Uint64 firstElectionEpoch in
      let election := Big.Uint64 electionEpoch in
      let r := wrapper.(validator).(commission).(rates) in
      if negb (first =? 0) && (promoPeriod <=? u64 (election - first)) && (first <=? election) then
        if LT r.(Rate) minRate
        then (<[addr := with_validator wrapper (with_rates wrapper.(validator) (Z.abs minRate) r.(MaxRate))]> state,
              Ok true)
        else (state, Ok false)
      else (state, Ok false)
  end.

Definition UpdateMaxCommissionFee (IsTopMaxRate : bool) (state : ValidatorState) (addr : Address)
    (curRate : Dec) : ValidatorState * outcome unit :=
  match ValidatorWrapperAt state addr with
  | Err e => (state, Err e)
  | Panic w => (state, Panic w)
  | Ok wrapper =>
      let r := wrapper.(validator).(commission).(rates) in
      match Dec.Add curRate r.(MaxChangeRate) with
      | Err e => (state, Err e)
      | Panic w => (state, Panic w)
      | Ok newRate =>
          let newRate := if IsTopMaxRate && GT newRate (NewDec 1) then NewDec 1 else newRate in
          if LT r.(MaxRate) newRate
          then (<[addr := with_validator wrapper (with_rates wrapper.(validator) r.(Rate) (Z.abs newRate))]> state,
                Ok tt)
          else (state, Ok tt)
      end
  end.

(** ** Properties *)

(** Wrappers are stored under their own address. *)
Definition keyed (vs : ValidatorState) : Prop := forall a w, vs !! a = Some w -> w.(validator).(vAddress) = a.

Section signers.
Context {L : BLSLib}.

(** The slots whose bit, counted from [k], is [flag]. *)
Fixpoint slots_from (bm : list Z) (flag : bool) (k : nat) (slots : SlotList) : SlotList :=
  match slots with
  | [] => []
  | s :: rest => if Bool.eqb (bit bm k) flag then s :: slots_from bm flag (S k) rest
                 else slots_from bm flag (S k) rest
  end.

Lemma slots_from_partition bm k slots :
  slots_from bm true k slots ++ slots_from bm false k slots ≡ₚ slots.
Proof.
  revert k. induction slots as [|s slots IH]; intros k; cbn [slots_from]; [done|].
  destruct (bit bm k); cbn [Bool.eqb app]; [by rewrite IH|].
  rewrite <- Permutation_middle. by rewrite IH.
Qed.

Lemma slots_from_ext bm bm' flag k slots :
  (forall j, (k <= j < k + length slots)%nat -> bit bm j = bit bm' j) ->
  slots_from bm flag k slots = slots_from bm' flag k slots.
Proof.
  revert k. induction slots as [|s slots IH]; intros k H; [done|]. cbn [slots_from length] in *.
  rewrite H by lia. rewrite IH; [done|]. intros j Hj. apply H. lia.
Qed.

Lemma BLSPublicKeys_length c keys : BLSPublicKeys (Some c) = Ok keys -> length keys = length c.(Slots).
Proof.
  unfold BLSPublicKeys. intros H.
  apply (foldM_inv (fun d l => length l = length d)) in H; [done|done|].
  intros d s b b' Hb _ E. apply bind_Ok in E as (pk & _ & [= <-]). rewrite !length_app. cbn. lia.
Qed.

Lemma sort_signers_spec (mask : Mask) slots k acc : mask_wf mask ->
  (k + length slots <= length mask.(Publics))%nat ->
  foldM (sort_signer mask) (zip (seqZ (Z.of_nat k) (Z.of_nat (length slots))) slots) acc =
  Ok (acc.1 ++ slots_from mask.(Bitmap) true k slots, acc.2 ++ slots_from mask.(Bitmap) false k slots).
Proof.
  intros Hwf. revert k acc. induction slots as [|s slots IH]; intros k [payable missing] Hk.
  { cbn. by rewrite !app_nil_r. }
  cbn [length] in Hk. rewrite seqZ_cons by (cbn [length]; lia).
  replace (Z.succ (Z.of_nat k)) with (Z.of_nat (S k)) by lia.
  replace (Z.pred (Z.of_nat (length (s :: slots)))) with (Z.of_nat (length slots)) by (cbn [length]; lia).
  cbn [zip zip_with foldM]. unfold sort_signer at 2. unfold IndexEnabled. cbn [fst snd].
  rewrite (proj2 (Z.leb_gt _ _)) by lia.
  rewrite bit_enabled_Ok; [|apply Hwf|apply Len_bound; [lia|apply Hwf]].
  cbn [mbind outcome_bind slots_from]. fold (zip (seqZ (Z.of_nat (S k)) (Z.of_nat (length slots))) slots).
  destruct (bit (Bitmap mask) k); cbn [mbind outcome_bind Bool.eqb]; rewrite IH by lia; cbn [fst snd];
    by rewrite <- app_assoc.
Qed.

Context (laws : BLSLaws L).

(** [BlockSigners] splits the committee by the bitmap.  When the keys of
    the committee deserialise, a bitmap of the wrong length is refused and any
    other gives exactly the slots whose bit is set as payable and the others as
    missing, in committee order: every slot is in one of the two lists, once. *)
Theorem BlockSigners_partition bitmap c keys :
  BLSPublicKeys (Some c) = Ok keys -> Forall is_byte bitmap ->
  if decide (Z.of_nat (length bitmap) = Len (NewMask keys)) then
    BlockSigners bitmap (Some c) =
      Ok (slots_from bitmap true 0 c.(Slots), slots_from bitmap false 0 c.(Slots)) /\
    slots_from bitmap true 0 c.(Slots) ++ slots_from bitmap false 0 c.(Slots) ≡ₚ c.(Slots)
  else BlockSigners bitmap (Some c) = Err "mismatching bitmap lengths".
Proof.
  intros Hkeys Hb. unfold BlockSigners. rewrite Hkeys. cbn [mbind outcome_bind].
  pose proof (SetMask_total laws (NewMask keys) bitmap (NewMask_wf keys) Hb) as H.
  case_decide as Hl; [|by rewrite H].
  destruct H as (m & -> & Hwf & [Hp _] & Hbits). cbn [mbind outcome_bind].
  change (Publics (NewMask keys)) with keys in Hp, Hbits.
  pose proof (BLSPublicKeys_length c keys Hkeys) as Hlen.
  split; [|apply slots_from_partition]. unfold range.
  pose proof (sort_signers_spec m c.(Slots) 0 ([], []) Hwf ltac:(rewrite Hp; lia)) as Hs.
  change (Z.of_nat 0) with 0 in Hs. rewrite Hs. cbn [fst snd app].
  rewrite !(slots_from_ext (Bitmap m) bitmap); [done|intros j Hj; apply Hbits; lia..].
Qed.
End signers.

(** *** Counters *)

Definition advance (toSign signed : Z) (w : ValidatorWrapper) : ValidatorWrapper :=
  mkWrapper_ w.(validator) w.(Delegations)
    (mkCounters (w.(Counters).(NumBlocksToSign) + toSign) (w.(Counters).(NumBlocksSigned) + signed))
    w.(BlockReward).

Lemma advance_0 w : advance 0 0 w = w.
Proof. destruct w as [? ? [? ?] ?]. unfold advance. cbn. by rewrite !Z.add_0_r. Qed.
Lemma advance_advance a b c d w : advance a b (advance c d w) = advance (c + a) (d + b) w.
Proof. unfold advance. cbn. by rewrite !Z.add_assoc. Qed.
Lemma bump_advance w didSign : bump w didSign = advance 1 (if didSign then 1 else 0) w.
Proof. unfold bump, advance. destruct didSign; [done|]. by rewrite Z.add_0_r. Qed.

(** How many of the slots are [a]'s, for a staked [a]. *)
Definition slots_of (staked : gset Address) (a : Address) (slots : SlotList) : Z :=
  sumZ (fun s => if decide (s.(EcdsaAddress) = a /\ a ∈ staked) then 1 else 0) slots.

Lemma slots_of_cons staked a s slots : slots_of staked a (s :: slots) =
  (if decide (s.(EcdsaAddress) = a /\ a ∈ staked) then 1 else 0) + slots_of staked a slots.
Proof. apply sumZ_cons. Qed.

Definition has_wrappers (state : ValidatorState) (staked : gset Address) (slots : SlotList) : Prop :=
  forall s, s ∈ slots -> s.(EcdsaAddress) ∈ staked -> is_Some (state !! s.(EcdsaAddress)).

Lemma bump_slots_spec state didSign staked slots : has_wrappers state staked slots ->
  exists state', bump_slots state didSign staked slots = (state', Ok tt) /\
    forall a, state' !! a = advance (slots_of staked a slots) (if didSign then slots_of staked a slots else 0)
                <$> state !! a.
Proof.
  revert state. induction slots as [|s slots IH]; intros state Hw; cbn [bump_slots].
  { exists state. split; [done|]. intros a. change (slots_of staked a []) with 0.
    destruct (state !! a) as [w|]; [|done]. cbn. destruct didSign; by rewrite advance_0. }
  case_decide as Hs.
  - destruct (Hw s ltac:(by left) Hs) as [w Hlw]. unfold ValidatorWrapperAt. rewrite Hlw.
    destruct (IH (<[EcdsaAddress s := bump w didSign]> state)) as (state' & -> & Ha).
    { intros s' Hs' Hin. destruct (decide (EcdsaAddress s = EcdsaAddress s')) as [->|Hne];
        [rewrite lookup_insert_eq; by eexists|rewrite lookup_insert_ne by done; apply Hw; [by right|done]]. }
    exists state'. split; [done|]. intros a. rewrite Ha, slots_of_cons.
    destruct (decide (EcdsaAddress s = a)) as [<-|Hne].
    + rewrite decide_True by done. rewrite lookup_insert_eq, Hlw. cbn. f_equal.
      rewrite bump_advance, advance_advance. by destruct didSign.
    + rewrite decide_False by tauto. by rewrite lookup_insert_ne, Z.add_0_l by done.
  - destruct (IH state) as (state' & -> & Ha); [intros s' Hs'; apply Hw; by right|].
    exists state'. split; [done|]. intros a. rewrite Ha, slots_of_cons, decide_False; [done|]. by intros [<- ?].
Qed.

(** The signing counters count.  When every staked signer and absentee has
    a wrapper, [IncrementValidatorSigningCounts] adds to each staked validator's
    blocks-to-sign the number of its slots in the committee, to its blocks
    signed the number of those that signed, and touches nothing else of any
    validator; so nobody ever signs more than it had to. *)
Theorem IncrementValidatorSigningCounts_spec staked state signers missing :
  has_wrappers state staked.(LookupSet) (missing ++ signers) ->
  exists state', IncrementValidatorSigningCounts staked state signers missing = (state', Ok tt) /\
    (forall a, state' !! a =
       advance (slots_of staked.(LookupSet) a (missing ++ signers)) (slots_of staked.(LookupSet) a signers)
         <$> state !! a) /\
    forall a w, state !! a = Some w -> exists w', state' !! a = Some w' /\
      w.(Counters).(NumBlocksToSign) - w.(Counters).(NumBlocksSigned) <=
      w'.(Counters).(NumBlocksToSign) - w'.(Counters).(NumBlocksSigned).
Proof.
  intros Hw. unfold IncrementValidatorSigningCounts. cbn [bumpCount].
  destruct (bump_slots_spec state false staked.(LookupSet) missing) as (s1 & -> & H1).
  { intros s Hs. apply Hw, elem_of_app. by left. }
  destruct (bump_slots_spec s1 true staked.(LookupSet) signers) as (s2 & -> & H2).
  { intros s Hs Hin. rewrite H1. apply fmap_is_Some, Hw; [|done]. apply elem_of_app. by right. }
  assert (forall a, s2 !! a = advance (slots_of staked.(LookupSet) a (missing ++ signers))
    (slots_of staked.(LookupSet) a signers) <$> state !! a) as H.
  { intros a. rewrite H2, H1. destruct (state !! a) as [w|]; [|done]. cbn. f_equal.
    rewrite advance_advance. unfold slots_of. by rewrite sumZ_app. }
  exists s2. split; [done|]. split; [done|]. intros a w Ha. rewrite H, Ha. eexists. split; [done|].
  cbn. unfold slots_of. rewrite sumZ_app.
  assert (0 <= slots_of staked.(LookupSet) a missing) by (apply sumZ_nonneg; intros; by case_decide).
  unfold slots_of in *. lia.
Qed.

(** *** The signing threshold *)

Lemma measure_val : 3 * measure = 2 * precisionReuse + 1.
Proof. by vm_compute. Qed.

Lemma signing_quotient signed toSign : 0 <= signed <= toSign -> 0 < toSign <= 10 ^ 17 ->
  exists q, Dec.Quo (NewDecFromBigInt signed) (NewDecFromBigInt toSign) = Ok q /\
    (q <= measure <-> 3 * signed <= 2 * toSign).
Proof.
  intros Hs Ht. pose proof precisionReuse_pos as HP. unfold NewDecFromBigInt.
  destruct (Quo_fraction (signed * precisionReuse) (toSign * precisionReuse)) as (q & Hq & _); [nia|nia|].
  exists q. split; [done|]. apply Quo_Ok in Hq as (_ & -> & _).
  assert (Z.quot (signed * precisionReuse * precisionReuse * precisionReuse) (toSign * precisionReuse)
    = signed * precisionReuse * precisionReuse / toSign) as ->.
  { rewrite Z.quot_mul_cancel_r by lia. apply Z.quot_div_nonneg; nia. }
  set (x := signed * precisionReuse * precisionReuse / toSign).
  assert (toSign * x <= signed * precisionReuse * precisionReuse < toSign * (x + 1)) as Hx.
  { unfold x. pose proof (Z.mul_div_le (signed * precisionReuse * precisionReuse) toSign ltac:(lia)).
    pose proof (Z.mul_succ_div_gt (signed * precisionReuse * precisionReuse) toSign ltac:(lia)). lia. }
  clearbody x. destruct (chopPrecisionAndRound_nearest x) as [Hn _].
  set (p := chopPrecisionAndRound x) in *. clearbody p. pose proof measure_val as Hm.
  rewrite precisionReuse_val in *. change (10 ^ 17) with 100000000000000000 in Ht. unfold Dec in *. split; intros H.
  - destruct (Z.le_gt_cases (3 * signed) (2 * toSign)) as [|Hgt]; [done|exfalso].
    assert (toSign * (3 * x + 3) > (2 * toSign + 1) * 1000000000000000000 * 1000000000000000000) by nia.
    nia.
  - nia.
Qed.

(** The two-thirds rule, exactly.  For a validator whose snapshot is known
    and at most 10^17 blocks to sign, [ComputeAndMutateEPOSStatus] puts a
    validator that is not banned out of the auction if and only if it signed at
    most two thirds of its blocks since the snapshot, none to sign included;
    the rounding of the percentage never tips the verdict, and nothing else
    changes. *)
Theorem ComputeAndMutateEPOSStatus_spec rd state addr w snap :
  let signed := w.(Counters).(NumBlocksSigned) - snap.(snapValidator).(Counters).(NumBlocksSigned) in
  let toSign := w.(Counters).(NumBlocksToSign) - snap.(snapValidator).(Counters).(NumBlocksToSign) in
  state !! addr = Some w -> rd w.(validator).(vAddress) = Ok snap ->
  0 <= signed <= toSign -> toSign <= 10 ^ 17 ->
  ComputeAndMutateEPOSStatus rd state addr =
    (if decide (w.(validator).(Status) <> Banned /\ 3 * signed <= 2 * toSign)
     then <[addr := with_validator w (with_Status w.(validator) Inactive)]> state else state, Ok tt).
Proof.
  intros signed toSign Hw Hrd Hs Ht. unfold ComputeAndMutateEPOSStatus, ValidatorWrapperAt. rewrite Hw.
  destruct (decide (Status (validator w) = Banned)) as [Hb|Hb].
  { rewrite decide_False; [done|]. by intros [? _]. }
  rewrite Hrd. cbn [mbind outcome_bind]. unfold ComputeCurrentSigning. fold signed toSign.
  destruct (Z.eqb_spec toSign 0) as [E|E].
  { cbn [IsBelowThreshold]. rewrite decide_True; [done|]. split; [done|lia]. }
  destruct (signing_quotient signed toSign) as (q & -> & Hq); [done|lia|].
  cbn [mbind outcome_bind IsBelowThreshold]. unfold IsBelowSigningThreshold, LTE.
  destruct (Z.leb_spec q measure) as [H|H].
  - rewrite decide_True; [done|]. split; [done|]. by apply Hq.
  - rewrite decide_False; [done|]. intros [_ H3]. apply Hq in H3. unfold Dec in *. lia.
Qed.

(** *** Commissions *)

(** After [UpdateMaxCommissionFee] with the current rate, the rate is at most
    the maximum; with the cap of [IsTopMaxRate] the maximum stays a percentage. *)
Lemma UpdateMaxCommissionFee_room top state addr w : state !! addr = Some w ->
  percent w.(validator).(commission).(rates).(Rate) -> percent w.(validator).(commission).(rates).(MaxRate) ->
  percent w.(validator).(commission).(rates).(MaxChangeRate) ->
  exists state' w', UpdateMaxCommissionFee top state addr w.(validator).(commission).(rates).(Rate) = (state', Ok tt) /\
    state' !! addr = Some w' /\
    w'.(validator).(commission).(rates).(Rate) = w.(validator).(commission).(rates).(Rate) /\
    w.(validator).(commission).(rates).(Rate) <= w'.(validator).(commission).(rates).(MaxRate) /\
    (top = true -> percent w'.(validator).(commission).(rates).(MaxRate)).
Proof.
  intros Hw [H1 H2] [H3 H4] [H5 H6]. unfold UpdateMaxCommissionFee, ValidatorWrapperAt. rewrite Hw.
  set (r := rates (commission (validator w))) in *. unfold OneDec in *. rewrite precisionReuse_val in *.
  rewrite Add_fits by (unfold fits; unfold Dec in *; lia).
  set (n := if top && GT (Rate r + MaxChangeRate r) (NewDec 1) then NewDec 1 else Rate r + MaxChangeRate r).
  assert (Rate r <= n /\ 0 <= n /\ (top = true -> n <= 1000000000000000000)) as (Hn1 & Hn0 & Hn2).
  { unfold n, GT. change (NewDec 1) with 1000000000000000000. unfold Dec in *. destruct top; cbn [andb].
    - destruct (Z.ltb_spec 1000000000000000000 (Rate r + MaxChangeRate r)); lia.
    - lia. }
  unfold LT. destruct (Z.ltb_spec (MaxRate r) n) as [Hlt|Hge].
  - do 2 eexists. split; [done|]. rewrite lookup_insert_eq. split; [done|]. cbn. fold r.
    rewrite Z.abs_eq by done. unfold percent, OneDec. rewrite precisionReuse_val. unfold Dec in *.
    split_and!; [done|lia|]. intros Ht. specialize (Hn2 Ht). lia.
  - exists state, w. split; [done|]. split; [done|]. fold r. unfold percent, OneDec. rewrite precisionReuse_val.
    unfold Dec in *. split_and!; [done|lia|]. intros _. lia.
Qed.

(** ** Concrete committees *)

Definition two_slots : Committee := mkCommittee 0 [mkSlot 1 10 (Some 5); mkSlot 2 11 (Some 6)].
Lemma BlockSigners_partition_witness :
  BlockSigners (L := ZBLS) [2] (Some two_slots) = Ok ([mkSlot 2 11 (Some 6)], [mkSlot 1 10 (Some 5)]).
Proof.
  pose proof (BlockSigners_partition (L := ZBLS) ZBLS_laws [2] two_slots [mkWrapper (L := ZBLS) 10 10; mkWrapper (L := ZBLS) 11 11]
    ltac:(reflexivity) ltac:(repeat constructor; lia)) as H.
  rewrite decide_True in H by reflexivity. exact (proj1 H).
Defined.

Definition two_wrappers : ValidatorState :=
  <[1 := sample_wrapper]> {[2 := with_validator sample_wrapper (with_keys sample_validator [12])]}.
Definition two_staked : StakedSlots :=
  match StakedValidators two_slots with Ok r => r | _ => no_staked end.
Lemma IncrementValidatorSigningCounts_spec_witness :
  snd (IncrementValidatorSigningCounts two_staked two_wrappers [mkSlot 2 11 (Some 6)] [mkSlot 1 10 (Some 5)]) = Ok tt.
Proof.
  destruct (IncrementValidatorSigningCounts_spec two_staked two_wrappers [mkSlot 2 11 (Some 6)] [mkSlot 1 10 (Some 5)])
    as (s & H & _).
  - intros x Hx _. cbn in Hx. unfold two_wrappers.
    apply elem_of_cons in Hx as [->|Hx]; [rewrite lookup_insert_eq; by eexists|].
    apply list_elem_of_singleton in Hx as ->. cbn. rewrite lookup_insert_ne by done.
    rewrite lookup_singleton_eq. by eexists.
  - by rewrite H.
Defined.

Lemma ComputeAndMutateEPOSStatus_spec_witness :
  snd (ComputeAndMutateEPOSStatus (fun _ => Ok (mkSnapshot sample_wrapper (Some 3))) two_wrappers 1) = Ok tt.
Proof.
  rewrite (ComputeAndMutateEPOSStatus_spec (fun _ => Ok (mkSnapshot sample_wrapper (Some 3))) two_wrappers 1
    sample_wrapper (mkSnapshot sample_wrapper (Some 3))).
  - reflexivity.
  - unfold two_wrappers. by rewrite lookup_insert_eq.
  - reflexivity.
  - cbn. lia.
  - cbn. lia.
Defined.
