(* ===== verification/Slash.v ===== *)
(** * Slashing (staking/slash/double-sign.go, consensus/signature)

    [Verify] judges the evidence of a double signature, [Apply] takes the stake
    away.  Balances are [*big.Int]s mutated in place; the functions return the
    new values.  [Apply]'s error discards the block being built, and the state
    with it, so the state is only returned on success.

    The chain reader is an interface and enters as arguments; RLP with Keccak
    ([hash.FromRLPNew256]) and the BLS library are foreign. *)
From S2P Require Import Prelude Dec DecText Bls SigBitmap Params Sharding Networks Shard Effective Delegation Validator Availability.
Local Open Scope Z_scope.

Definition errNoMatchingDoubleSignKeys : string := "no matching double sign keys".
Definition errReporterAndOffenderSame : string := "reporter and offender cannot be same".
Definition errAlreadyBannedValidator : string := "cannot slash on already banned validator".
Definition errSlashFromFutureEpoch : string := "cannot have slash from future epoch".
Definition errSlashBeforeStakingEpoch : string := "cannot have slash before staking epoch".
Definition errSlashBlockNoConflict : string := "cannot slash for signing on non-conflicting blocks".
Definition errValidatorNotFoundDuringSlash : string := "validator not found".
Definition errFailVerifySlash : string := "could not verify bls key signature on slash".
Definition errBallotsNotDiff : string := "ballots submitted must be different".

(** ** Data *)

Record Moment := mkMoment { mEpoch : option Z; mShardID : Z; mHeight : Z; mViewID : Z }.
Record Vote := mkVote_ { vSignerPubKeys : list SerializedPublicKey; vBlockHeaderHash : Z; vSignature : list Z }.
Record ConflictingVotes := mkConflict { FirstVote : Vote; SecondVote : Vote }.
Record Evidence := mkEvidence { moment : Moment; votes : ConflictingVotes; Offender : Address }.
Record Record_ := mkRecord { evidence : Evidence; Reporter : Address }.
Record Application := mkApplication { TotalSlashed : Z; TotalBeneficiaryReward : Z }.

(** The part of the state database slashing touches. *)
Record SlashState := mkSlashState { validators : ValidatorState; balances : gmap Address Z }.
Definition AddBalance (s : SlashState) (a : Address) (amount : Z) : SlashState :=
  mkSlashState s.(validators) (<[a := default 0 (s.(balances) !! a) + amount]> s.(balances)).

(** ** Verification *)

(** Each key of the first vote that the second has too. *)
Definition double_sign_keys (first second : Vote) : list SerializedPublicKey :=
  List.filter (fun k1 => existsb (fun k2 => CompareBLSPublicKey k1 k2 =? 0) second.(vSignerPubKeys))
    first.(vSignerPubKeys).

Section verify.
Context {L : BLSLib} {S : SigCheck L} {H : Type} `{EqDecision H} (FromRLPNew256 : Vote -> H).
Context (config : ChainConfig) (ReadShardState : option Z -> outcome State) (currentEpoch : Z).

(** One ballot's signature against the sum of its keys. *)
Definition verify_ballot (m : Moment) (ballot : Vote) : outcome unit :=
  match sig_Deserialize ballot.(vSignature) with
  | None => Err "err blsSignatureDeserialize"
  | Some signature =>
      let! publicKey := foldM (fun publicKey pubKey =>
          let! publicKeyObj := deserialize_key (Bytes pubKey) in
          Ok (pk_add publicKey publicKeyObj)) ballot.(vSignerPubKeys) pk_zero in
      let commitPayload :=
        ConstructCommitPayload config m.(mEpoch) ballot.(vBlockHeaderHash) m.(mHeight) m.(mViewID) in
      if negb (VerifyHash signature publicKey commitPayload) then Err errFailVerifySlash else Ok tt
  end.

(** The addresses of the double signers. *)
Definition signer_addrs (subCommittee : Committee) (keys : list SerializedPublicKey) : outcome (list Address) :=
  foldM (fun addrs pubKey =>
      let! addr := AddressForBLSKey (Some subCommittee) pubKey in Ok (addrs ++ [addr])) keys [].

Definition Verify (state : ValidatorState) (candidate : Record_) : outcome unit :=
  let ev := candidate.(evidence) in
  let m := ev.(moment) in
  let first := ev.(votes).(FirstVote) in
  let second := ev.(votes).(SecondVote) in
  let! wrapper := ValidatorWrapperAt state ev.(Offender) in
  if negb (IsStaking config m.(mEpoch)) then Err errSlashBeforeStakingEpoch
  else if decide (wrapper.(validator).(Status) = Banned) then Err errAlreadyBannedValidator
  else if ev.(Offender) =? candidate.(Reporter) then Err errReporterAndOffenderSame
  (* the key size check cannot fail: keys are arrays *)
  else if first.(vBlockHeaderHash) =? second.(vBlockHeaderHash) then Err errSlashBlockNoConflict
  else
    let doubleSignKeys := double_sign_keys first second in
    match doubleSignKeys with
    | [] => Err errNoMatchingDoubleSignKeys
    | _ =>
        match m.(mEpoch) with
        | None => Panic "nil pointer dereference"
        | Some epoch =>
            if currentEpoch <? epoch then Err errSlashFromFutureEpoch
            else
              let! superCommittee := ReadShardState m.(mEpoch) in
              let! subCommittee := FindCommitteeByID (Some superCommittee) m.(mShardID) in
              let! addrs := signer_addrs subCommittee doubleSignKeys in
              if (1 <? length addrs)%nat then Err "multiple double signer addresses found"
              else if negb (existsb (fun a => a =? ev.(Offender)) addrs)
              then Err "offender address does not match the signer's address"
              else if decide (FromRLPNew256 first = FromRLPNew256 second) then Err errBallotsNotDiff
              else
                let! _ := verify_ballot m first in
                verify_ballot m second
        end
    end.
End verify.

(** [SetDifference]: the records of [ys] whose hash [r] does not have. *)
Definition Records_SetDifference {H : Type} `{Countable H} (Hash : Record_ -> H) (r ys : list Record_)
    : list Record_ :=
  let set : gset H := list_to_set (map Hash r) in
  List.filter (fun y => bool_decide (Hash y ∉ set)) ys.

(** ** Taking stake away *)

Definition applySlashRate (amount : Z) (rate : Dec) : outcome Z :=
  let! d := Dec.Mul (NewDecFromBigInt amount) rate in Ok (TruncateInt d).

(** [payDown] mutates its three arguments. *)
Definition payDown (balance debt totalSlashed : Z) : Z * Z * Z :=
  let slashAmount := if balance <? debt then balance else debt in
  (balance - slashAmount, debt - slashAmount, totalSlashed + slashAmount).

Fixpoint slash_undelegations (doubleSignEpoch : Z) (l : list Undelegation) (debt slashed : Z)
    : list Undelegation * Z * Z :=
  match l with
  | [] => ([], debt, slashed)
  | u :: rest =>
      if Z.sgn debt =? 0 then (l, debt, slashed)
      else
        let '(amount, debt, slashed) :=
          (if doubleSignEpoch <=? u.(uEpoch) then payDown u.(uAmount) debt slashed
           else (u.(uAmount), debt, slashed)) in
        let '(rest, debt, slashed) := slash_undelegations doubleSignEpoch rest debt slashed in
        (mkUndelegation amount u.(uEpoch) :: rest, debt, slashed)
  end.

Definition applySlashingToDelegation (delegation : Delegation) (doubleSignEpoch slashDebt : Z)
    : Delegation * Z :=
  let '(amount, debt, slashed) := payDown delegation.(Amount) slashDebt 0 in
  let '(undelegations, debt, slashed) :=
    slash_undelegations doubleSignEpoch delegation.(Undelegations) debt slashed in
  let '(reward, slashed) :=
    (if Z.sgn debt =? 1 then let '(r, _, s) := payDown delegation.(Reward) debt slashed in (r, s)
     else (delegation.(Reward), slashed)) in
  (mkDelegation delegation.(DelegatorAddress) amount reward undelegations, slashed).

(** [makeSlashList]: positions in the snapshot and now of the delegators that
    are in both, and the snapshot's total stake. *)
Definition slash_positions (snapshot : ValidatorWrapper) : gmap Address Z :=
  foldl (fun m i_d => <[i_d.2.(DelegatorAddress) := i_d.1]> m) ∅
    (zip (range snapshot.(Delegations)) snapshot.(Delegations)).

Definition makeSlashList (snapshot current : ValidatorWrapper) : list (Z * Z) * Z :=
  let slashDelegations := slash_positions snapshot in
  let totalStake := foldl (fun t d => t + d.(Amount)) 0 snapshot.(Delegations) in
  (omap (fun i_d =>
     match slashDelegations !! i_d.2.(DelegatorAddress) with
     | Some oldIndex => Some (oldIndex, i_d.1)
     | None => None
     end) (zip (range current.(Delegations)) current.(Delegations)),
   totalStake).

(** One external delegator. *)
Definition slash_external (snapshot : ValidatorWrapper) (aggregateDebt totalExternalStake doubleSignEpoch : Z)
    (acc : list Delegation * Z) (indexPair : Z * Z) : outcome (list Delegation * Z) :=
  let '(delegations, totalSlashed) := acc in
  let! delegationSnapshot := idx snapshot.(Delegations) indexPair.1 in
  let! delegationCurrent := idx delegations indexPair.2 in
  let! slashDebt := Big.Div (delegationSnapshot.(Amount) * aggregateDebt) totalExternalStake in
  let '(d, slashed) := applySlashingToDelegation delegationCurrent doubleSignEpoch slashDebt in
  let! delegations := upd delegations indexPair.2 d in
  Ok (delegations, totalSlashed + slashed).

Definition eightyPercent : outcome Dec := NewDecFromStr "0.8".

(** The new delegations and the total slashed. *)
Definition slash_delegations (snapshot current : ValidatorWrapper) (validatorDebt doubleSignEpoch : Z)
    : outcome (list Delegation * Z) :=
  let '(slashIndexPairs, totalStake) := makeSlashList snapshot current in
  let! validatorDelegation := idx current.(Delegations) 0 in
  let totalExternalStake := totalStake - validatorDelegation.(Amount) in
  let '(d0, validatorSlashed) := applySlashingToDelegation validatorDelegation doubleSignEpoch validatorDebt in
  let! delegations := upd current.(Delegations) 0 d0 in
  let! rate := eightyPercent in
  let! aggregateDebt := applySlashRate validatorSlashed rate in
  match slashIndexPairs with
  | [] => Panic "slice bounds out of range"
  | _ :: pairs =>
      foldM (slash_external snapshot aggregateDebt totalExternalStake doubleSignEpoch) pairs
        (delegations, validatorSlashed)
  end.

Definition delegatorSlashApplyDebt (snapshot current : ValidatorWrapper) (state : SlashState)
    (validatorDebt : Z) (rewardBeneficiary : Address) (doubleSignEpoch : Z) (slashTrack : Application)
    : outcome (ValidatorWrapper * SlashState * Application) :=
  let! '(delegations, totalSlashed) := slash_delegations snapshot current validatorDebt doubleSignEpoch in
  let current := with_Delegations current delegations in
  let current := with_validator current (with_Status current.(validator) Banned) in
  let! _ := SanityCheck current in
  let state := mkSlashState (<[current.(validator).(vAddress) := current]> state.(validators)) state.(balances) in
  let! beneficiaryReward := Big.Div totalSlashed 2 in
  let state := AddBalance state rewardBeneficiary beneficiaryReward in
  Ok (current, state,
      mkApplication (slashTrack.(TotalSlashed) + totalSlashed)
                    (slashTrack.(TotalBeneficiaryReward) + beneficiaryReward)).

Definition delegatorSlashApply (snapshot current : ValidatorWrapper) (state : SlashState)
    (rewardBeneficiary : Address) (doubleSignEpoch : Z) (slashTrack : Application)
    : outcome (ValidatorWrapper * SlashState * Application) :=
  let! self := idx snapshot.(Delegations) 0 in
  let! validatorDebt := Big.Div self.(Amount) 2 in
  delegatorSlashApplyDebt snapshot current state validatorDebt rewardBeneficiary doubleSignEpoch slashTrack.

(** [current] is the cached original: what is done to it is done to the store. *)
Definition apply_one (ReadValidatorSnapshotAtEpoch : option Z -> Address -> outcome ValidatorSnapshot)
    (rewardBeneficiary : Address) (acc : SlashState * Application) (slash : Record_)
    : outcome (SlashState * Application) :=
  let '(state, slashDiff) := acc in
  let ev := slash.(evidence) in
  match ReadValidatorSnapshotAtEpoch ev.(moment).(mEpoch) ev.(Offender) with
  | Err _ => Err "could not find validator"
  | Panic w => Panic w
  | Ok snapshot =>
      match ValidatorWrapperAt state.(validators) ev.(Offender) with
      | Err _ => Err errValidatorNotFoundDuringSlash
      | Panic w => Panic w
      | Ok current =>
          let! epoch := (match ev.(moment).(mEpoch) with Some e => Ok e
                         | None => Panic "nil pointer dereference" end) in
          let! '(current, state, slashDiff) :=
            delegatorSlashApply snapshot.(snapValidator) current state rewardBeneficiary epoch slashDiff in
          Ok (mkSlashState (<[ev.(Offender) := current]> state.(validators)) state.(balances), slashDiff)
      end
  end.

Definition Apply (ReadValidatorSnapshotAtEpoch : option Z -> Address -> outcome ValidatorSnapshot)
    (state : SlashState) (slashes : list Record_) (rewardBeneficiary : Address)
    : outcome (SlashState * Application) :=
  foldM (apply_one ReadValidatorSnapshotAtEpoch rewardBeneficiary) slashes (state, mkApplication 0 0).

Definition IsBanned (wrapper : ValidatorWrapper) : bool :=
  bool_decide (wrapper.(validator).(Status) = Banned).

(** ** Nothing is lost or made *)

(** What slashing may reach of a delegation: entries undelegated before the double sign
    are safe. *)
Definition slashable_locked (e : Z) (l : list Undelegation) : Z :=
  sumZ (fun u => if e <=? u.(uEpoch) then u.(uAmount) else 0) l.
Definition slashable (e : Z) (d : Delegation) : Z :=
  d.(Amount) + slashable_locked e d.(Undelegations) + d.(Reward).

Lemma slashable_locked_nonneg e l : Forall (fun u => 0 <= uAmount u) l -> 0 <= slashable_locked e l.
Proof. intros Hl. apply sumZ_nonneg. intros u Hu. rewrite Forall_forall in Hl. case_match; [by apply Hl|done]. Qed.

Lemma slash_undelegations_funds e l debt slashed :
  let '(l', debt', slashed') := slash_undelegations e l debt slashed in
  locked l' + slashed' = locked l + slashed /\ debt' + slashed' = debt + slashed /\
  map uEpoch l' = map uEpoch l.
Proof.
  revert debt slashed. induction l as [|u l IH]; intros debt slashed; cbn [slash_undelegations]; [done|].
  destruct (Z.sgn debt =? 0); [done|].
  assert (exists a1 d1 s1, (if e <=? uEpoch u then payDown (uAmount u) debt slashed else (uAmount u, debt, slashed))
    = (a1, d1, s1) /\ a1 + s1 = uAmount u + slashed /\ d1 + s1 = debt + slashed) as (a1 & d1 & s1 & -> & E1 & E2).
  { destruct (e <=? uEpoch u); unfold payDown; do 3 eexists; (split; [done|]); lia. }
  specialize (IH d1 s1). destruct (slash_undelegations e l d1 s1) as [[l' d'] s'].
  destruct IH as (H1 & H2 & H3). unfold locked in *. rewrite !sumZ_cons. cbn [uAmount map uEpoch].
  rewrite H3. split_and!; [lia|lia|done].
Qed.

Lemma slash_undelegations_min e l debt slashed : Forall (fun u => 0 <= uAmount u) l -> 0 <= debt ->
  let '(l', debt', slashed') := slash_undelegations e l debt slashed in
  Forall (fun u => 0 <= uAmount u) l' /\ slashed' = slashed + Z.min debt (slashable_locked e l).
Proof.
  intros Hl. revert debt slashed. induction Hl as [|u l Hu Hl IH]; intros debt slashed Hd; cbn [slash_undelegations].
  { split; [done|]. change (slashable_locked e []) with 0. lia. }
  pose proof (slashable_locked_nonneg e l Hl) as Hnn.
  assert (slashable_locked e (u :: l) = (if e <=? uEpoch u then uAmount u else 0) + slashable_locked e l) as Ec
    by apply sumZ_cons.
  destruct (Z.eqb_spec (Z.sgn debt) 0) as [E|E].
  { assert (debt = 0) as -> by lia. rewrite Ec. split; [by constructor|]. case_match; lia. }
  assert (exists a1 d1 s1, (if e <=? uEpoch u then payDown (uAmount u) debt slashed else (uAmount u, debt, slashed))
    = (a1, d1, s1) /\ 0 <= a1 /\ 0 <= d1 /\
    s1 = slashed + Z.min debt (if e <=? uEpoch u then uAmount u else 0) /\ d1 + s1 = debt + slashed)
    as (a1 & d1 & s1 & -> & Ha & Hd1 & Es & Ed).
  { destruct (e <=? uEpoch u); unfold payDown.
    - destruct (Z.ltb_spec (uAmount u) debt); do 3 eexists; (split; [done|]); lia.
    - do 3 eexists. split; [done|]. lia. }
  specialize (IH d1 s1 Hd1). destruct (slash_undelegations e l d1 s1) as [[l' d'] s'].
  destruct IH as [H1 H2]. split; [by constructor|]. rewrite H2, Ec.
  destruct (e <=? uEpoch u); lia.
Qed.

(** One delegation: what it loses is what is slashed, whatever the debt; and
    for non-negative balances that is the debt or all that can be slashed. *)
Lemma applySlashingToDelegation_funds d e debt :
  let '(d', slashed) := applySlashingToDelegation d e debt in
  funds d' + slashed = funds d /\ d'.(DelegatorAddress) = d.(DelegatorAddress).
Proof.
  unfold applySlashingToDelegation, payDown at 1. cbv beta iota zeta.
  pose proof (slash_undelegations_funds e d.(Undelegations)
    (debt - (if d.(Amount) <? debt then d.(Amount) else debt)) (0 + (if d.(Amount) <? debt then d.(Amount) else debt))) as H.
  destruct (slash_undelegations _ _ _ _) as [[l' d1] s1]. destruct H as (H1 & _ & _). unfold funds.
  destruct (Z.sgn d1 =? 1); unfold payDown; cbn [Amount Undelegations Reward DelegatorAddress];
    (split; [|done]); lia.
Qed.

Lemma applySlashingToDelegation_min d e debt : delegation_nonneg d -> 0 <= debt ->
  let '(d', slashed) := applySlashingToDelegation d e debt in
  delegation_nonneg d' /\ slashed = Z.min debt (slashable e d).
Proof.
  intros [Ha Hr Hl] Hd. unfold applySlashingToDelegation, payDown at 1. cbv beta iota zeta.
  set (a := if d.(Amount) <? debt then d.(Amount) else debt).
  assert (a = Z.min d.(Amount) debt) as Ea by (unfold a; destruct (Z.ltb_spec (Amount d) debt); lia).
  pose proof (slash_undelegations_min e d.(Undelegations) (debt - a) (0 + a) Hl ltac:(lia)) as H.
  pose proof (slash_undelegations_funds e d.(Undelegations) (debt - a) (0 + a)) as Hf.
  pose proof (slashable_locked_nonneg e _ Hl) as Hnn. unfold slashable.
  destruct (slash_undelegations _ _ _ _) as [[l' d1] s1]. destruct H as [H1 H2]. destruct Hf as (_ & Hf & _).
  destruct (Z.eqb_spec (Z.sgn d1) 1) as [E|E].
  - unfold payDown. destruct (Z.ltb_spec (Reward d) d1); (split; [split; cbn; [lia|lia|done]|lia]).
  - split; [split; cbn; [lia|done|done]|lia].
Qed.

(** The external delegators' loop keeps the sum of what is left and slashed. *)
Lemma slash_external_funds snapshot agg ext e pairs ds t ds' t' :
  foldM (slash_external snapshot agg ext e) pairs (ds, t) = Ok (ds', t') ->
  sumZ funds ds' + t' = sumZ funds ds + t.
Proof.
  intros H. apply (foldM_inv (fun _ acc => sumZ funds acc.1 + acc.2 = sumZ funds ds + t)) in H; [exact H|done|].
  intros _ [i j] [ds1 t1] [ds2 t2] Hi _ Hs. cbn [fst snd] in *. unfold slash_external in Hs.
  apply bind_Ok in Hs as (snap & _ & Hs). apply bind_Ok in Hs as (cur & Hcur & Hs).
  apply bind_Ok in Hs as (debt & _ & Hs). cbn [snd] in *.
  pose proof (applySlashingToDelegation_funds cur e debt) as Hf.
  destruct (applySlashingToDelegation cur e debt) as [d' s]. destruct Hf as [Hf _].
  apply bind_Ok in Hs as (ds3 & Hu & [= <- <-]). apply idx_inv in Hcur as [Hr Hl].
  rewrite upd_Ok in Hu by done. injection Hu as <-. rewrite (sumZ_insert _ _ _ _ _ Hl). lia.
Qed.

Lemma slash_delegations_funds snapshot current debt e ds t :
  slash_delegations snapshot current debt e = Ok (ds, t) -> sumZ funds ds + t = wrapper_funds current.
Proof.
  unfold slash_delegations, wrapper_funds. destruct (makeSlashList snapshot current) as [pairs total].
  intros H. apply bind_Ok in H as (d0 & Hd0 & H).
  pose proof (applySlashingToDelegation_funds d0 e debt) as Hf.
  destruct (applySlashingToDelegation d0 e debt) as [d0' s0]. destruct Hf as [Hf _].
  apply bind_Ok in H as (ds0 & Hu & H). apply bind_Ok in H as (rate & _ & H). apply bind_Ok in H as (agg & _ & H).
  apply idx_inv in Hd0 as [Hr Hl]. rewrite upd_Ok in Hu by done. injection Hu as <-.
  destruct pairs as [|p pairs]; [done|]. apply slash_external_funds in H. rewrite H.
  rewrite (sumZ_insert _ _ _ _ _ Hl). lia.
Qed.

Definition balance (s : SlashState) (a : Address) : Z := default 0 (s.(balances) !! a).

Record slash_effect (st : SlashState) (b : Address) (offenders : list Address)
    (st' : SlashState) (app : Application) : Prop := {
  se_funds : map_sum wrapper_funds st'.(validators) + app.(TotalSlashed) = map_sum wrapper_funds st.(validators);
  se_reward : balance st' b = balance st b + app.(TotalBeneficiaryReward);
  se_others : forall a, a <> b -> st'.(balances) !! a = st.(balances) !! a;
  se_half : 2 * app.(TotalBeneficiaryReward) <= app.(TotalSlashed) <=
            2 * app.(TotalBeneficiaryReward) + Z.of_nat (length offenders);
  se_keyed : keyed st'.(validators);
  se_banned : forall a, a ∈ offenders -> exists w, st'.(validators) !! a = Some w /\ IsBanned w = true;
  se_untouched : forall a, a ∉ offenders -> st'.(validators) !! a = st.(validators) !! a
}.

Lemma apply_one_effect rd b st0 seen st app slash st' app' :
  slash_effect st0 b seen st app -> apply_one rd b (st, app) slash = Ok (st', app') ->
  slash_effect st0 b (seen ++ [slash.(evidence).(Offender)]) st' app'.
Proof.
  intros [H1 H2 H3 H4 H5 H6 H7] H. unfold apply_one in H.
  destruct (rd _ _) as [snap| |]; [|done|done]. unfold ValidatorWrapperAt in H.
  set (off := Offender (evidence slash)) in *.
  destruct (validators st !! off) as [cur|] eqn:Ecur; [|done].
  apply bind_Ok in H as (e & _ & H). apply bind_Ok in H as ([[cur' st1] app1] & Hd & [= <- <-]).
  unfold delegatorSlashApply in Hd. apply bind_Ok in Hd as (self & _ & Hd). apply bind_Ok in Hd as (debt & _ & Hd).
  unfold delegatorSlashApplyDebt in Hd. apply bind_Ok in Hd as ([ds t] & Hs & Hd).
  apply slash_delegations_funds in Hs. apply bind_Ok in Hd as ([] & _ & Hd).
  apply bind_Ok in Hd as (rew & Hrew & Hd).
  set (w' := with_validator (with_Delegations cur ds) (with_Status (validator cur) Banned)) in *.
  change (with_validator (with_Delegations cur ds) (with_Status (validator (with_Delegations cur ds)) Banned))
    with w' in Hd.
  injection Hd as <- <- <-. cbn [validators balances AddBalance].
  assert (vAddress (validator cur) = off) as Ea by apply (H5 off cur Ecur). rewrite Ea, insert_insert_eq.
  assert (wrapper_funds w' = sumZ funds ds) as Ew by done.
  rewrite Big.Div_pos in Hrew by lia. injection Hrew as <-.
  pose proof (Z.mul_div_le t 2 ltac:(lia)). pose proof (Z.mul_succ_div_gt t 2 ltac:(lia)).
  split; cbn [validators balances TotalSlashed TotalBeneficiaryReward].
  - rewrite (map_sum_insert _ _ _ _ _ Ecur), Ew. lia.
  - unfold balance in *. cbn [balances]. rewrite lookup_insert_eq. cbn. lia.
  - intros a Hne. rewrite lookup_insert_ne by done. by apply H3.
  - rewrite length_app. cbn. lia.
  - intros a w [[<- <-]|[Hne Hw]]%lookup_insert_Some; [done|by apply H5].
  - intros a [Ha| ->%list_elem_of_singleton]%elem_of_app.
    + destruct (decide (off = a)) as [->|Hne]; [rewrite lookup_insert_eq; by exists w'|].
      rewrite lookup_insert_ne by done. by apply H6.
    + rewrite lookup_insert_eq. by exists w'.
  - intros a Ha. rewrite lookup_insert_ne by (intros ->; apply Ha, elem_of_app; right; by left).
    apply H7. intros Hin. apply Ha, elem_of_app. by left.
Qed.

(** C20: slashing conserves.  Whatever the records, if [Apply] succeeds then
    what the validators' delegations lost in all is exactly the total slashed;
    the beneficiary gained exactly the total reward, which is half of it up to
    one unit per record; every offender is banned; and no other validator and
    no other balance changed. *)
Theorem Apply_conserves rd st slashes b st' app : keyed st.(validators) ->
  Apply rd st slashes b = Ok (st', app) ->
  slash_effect st b (map (fun s => s.(evidence).(Offender)) slashes) st' app.
Proof.
  intros Hk H. unfold Apply in H.
  apply (foldM_inv (fun d acc => slash_effect st b (map (fun s => Offender (evidence s)) d) acc.1 acc.2)) in H;
    [exact H| |].
  - split; cbn; try done; try (unfold balance; cbn; lia). by intros a ?%elem_of_nil.
  - intros d s [st1 a1] [st2 a2] Hd _ Hs. rewrite map_app. by eapply apply_one_effect.
Qed.

(** ** How much is taken *)

Lemma elem_of_enum {A} (l : list A) i a :
  (i, a) ∈ zip (range l) l <-> 0 <= i /\ l !! Z.to_nat i = Some a.
Proof.
  unfold range. rewrite list_elem_of_lookup. setoid_rewrite lookup_zip_with_Some.
  split.
  - intros (j & x & y & [= -> ->] & [-> Hj]%lookup_seqZ & Hl). split; [lia|].
    by replace (Z.to_nat (0 + Z.of_nat j)) with j by lia.
  - intros [Hi Hl]. exists (Z.to_nat i), i, a. split; [done|]. split; [|done].
    apply lookup_seqZ. apply lookup_lt_Some in Hl. lia.
Qed.

(** A map filled from pairs with distinct keys. *)
Lemma lookup_fill {P} (k : P -> Address) (v : P -> Z) (l : list P) m a i : NoDup (map k l) ->
  foldl (fun m p => <[k p := v p]> m) m l !! a = Some i <->
  (exists p, p ∈ l /\ k p = a /\ v p = i) \/ (a ∉ map k l /\ (m : gmap Address Z) !! a = Some i).
Proof.
  revert m. induction l as [|p l IH]; intros m Hnd; cbn [foldl map].
  { split; [intros H; right; split; [by intros ?%elem_of_nil|done]|]. by intros [(p & ?%elem_of_nil & _)|[_ ?]]. }
  cbn [map] in Hnd. apply NoDup_cons in Hnd as [Hp Hnd]. rewrite IH by done. rewrite lookup_insert_Some. split.
  - intros [(q & Hq & ? & ?)|[Hn [[<- <-]|[Hne Hm]]]].
    + left. exists q. split; [by right|done].
    + left. exists p. split; [by left|done].
    + right. split; [|done]. by intros [->|?]%elem_of_cons.
  - intros [(q & [->|Hq]%elem_of_cons & <- & <-)|[Hn Hm]].
    + right. split; [done|]. by left.
    + left. by exists q.
    + apply not_elem_of_cons in Hn as [Hne Hn]. right. split; [done|]. right. by split.
Qed.

Lemma omap_prefix {A} (g : Z * A -> option (Z * Z)) n l k :
  (forall j d, l !! j = Some d -> g (Z.of_nat (k + j), d) =
     if (k + j <? n)%nat then Some (Z.of_nat (k + j), Z.of_nat (k + j)) else None) ->
  omap g (zip (seqZ (Z.of_nat k) (Z.of_nat (length l))) l) =
  map (fun i => (i, i)) (seqZ (Z.of_nat k) (Z.of_nat (Nat.min (length l) (n - k)))).
Proof.
  revert k. induction l as [|d l IH]; intros k Hg; [done|].
  rewrite seqZ_cons by (cbn [length]; lia).
  replace (Z.succ (Z.of_nat k)) with (Z.of_nat (S k)) by lia.
  replace (Z.pred (Z.of_nat (length (d :: l)))) with (Z.of_nat (length l)) by (cbn [length]; lia).
  cbn [zip zip_with omap list_omap]. pose proof (Hg 0%nat d eq_refl) as H0. rewrite Nat.add_0_r in H0. rewrite H0.
  fold (zip (seqZ (Z.of_nat (S k)) (Z.of_nat (length l))) l). change (list_omap _ _ g) with (omap g).
  rewrite (IH (S k)).
  2: { intros j d' Hj. replace (S k + j)%nat with (k + S j)%nat by lia. by apply Hg. }
  destruct (Nat.ltb_spec k n) as [Hk|Hk].
  - rewrite (seqZ_cons (Z.of_nat k)) by (cbn [length]; lia). cbn [map]. f_equal. f_equal.
    f_equal; [lia|]. cbn [length]. lia.
  - cbn [length]. replace (n - S k)%nat with 0%nat by lia. replace (n - k)%nat with 0%nat by lia.
    by rewrite !Nat.min_0_r.
Qed.

(** Delegators are only ever appended: those of the snapshot come first. *)
Definition grown (ss cs : list Delegation) : Prop :=
  NoDup (map DelegatorAddress cs) /\ exists extra, map DelegatorAddress cs = map DelegatorAddress ss ++ extra.

Lemma makeSlashList_grown snapshot current : grown snapshot.(Delegations) current.(Delegations) ->
  makeSlashList snapshot current =
    (map (fun i => (i, i)) (range snapshot.(Delegations)), sumZ Amount snapshot.(Delegations)).
Proof.
  intros [Hnd [extra Hex]]. set (ss := snapshot.(Delegations)) in *. set (cs := current.(Delegations)) in *.
  unfold makeSlashList. fold ss cs. rewrite foldl_sumZ, Z.add_0_l. f_equal.
  assert (NoDup (map DelegatorAddress ss)) as Hss by (rewrite Hex in Hnd; by apply NoDup_app in Hnd as (? & _)).
  assert (forall a i, slash_positions snapshot !! a = Some i <->
    0 <= i /\ exists d, ss !! Z.to_nat i = Some d /\ d.(DelegatorAddress) = a) as Hpos.
  { intros a i. unfold slash_positions. fold ss. rewrite lookup_fill.
    - split.
      + intros [([j d] & [Hj Hd]%elem_of_enum & <- & <-)|[_ Hm]]; [by split; [|exists d]|done].
      + intros [Hi (d & Hd & <-)]. left. exists (i, d). split; [by apply elem_of_enum|done].
    - rewrite <- (map_map snd DelegatorAddress). fold (zip (range ss) ss).
      assert (map snd (zip (range ss) ss) = ss) as ->; [|done].
      apply snd_zip. unfold range. rewrite length_seqZ. lia. }
  assert (length ss <= length cs)%nat as Hlen.
  { apply (f_equal length) in Hex. rewrite length_app, !length_map in Hex. lia. }
  unfold range. change 0 with (Z.of_nat 0). rewrite (omap_prefix _ (length ss)).
  { f_equal. f_equal. lia. }
  intros j d Hj. cbn [Nat.add fst snd].
  assert (map DelegatorAddress cs !! j = Some (DelegatorAddress d)) as Hmj by (by rewrite lookup_map, Hj).
  destruct (Nat.ltb_spec j (length ss)) as [Hlt|Hge].
  - destruct (lookup_lt_is_Some_2 ss j Hlt) as [s Hs].
    rewrite Hex, lookup_app_l, lookup_map, Hs in Hmj by (by rewrite length_map). injection Hmj as Hmj.
    rewrite (proj2 (Hpos (DelegatorAddress d) (Z.of_nat j))); [done|].
    rewrite Nat2Z.id. split; [lia|]. by exists s.
  - destruct (slash_positions snapshot !! DelegatorAddress d) as [i|] eqn:E; [|done].
    apply Hpos in E as [Hi (s & Hs & Ha)]. exfalso. apply lookup_lt_Some in Hs as Hil.
    assert (map DelegatorAddress cs !! Z.to_nat i = Some (DelegatorAddress d)) as Hmi.
    { by rewrite Hex, lookup_app_l, lookup_map, Hs, <- Ha by (by rewrite length_map). }
    pose proof (NoDup_lookup _ _ _ _ Hnd Hmi Hmj). lia.
Qed.

Lemma applySlashRate_80 v : 0 <= v < 2 ^ 200 ->
  exists rate, eightyPercent = Ok rate /\ applySlashRate v rate = Ok (8 * v / 10).
Proof.
  intros Hv. exists (8 * 10 ^ 17). split; [by vm_compute|]. unfold applySlashRate, NewDecFromBigInt.
  assert (v * precisionReuse * (8 * 10 ^ 17) = v * (8 * 10 ^ 17) * precisionReuse) as E by lia.
  assert (Dec.Mul (v * precisionReuse) (8 * 10 ^ 17) = Ok (v * (8 * 10 ^ 17))) as ->.
  { apply Mul_Ok. rewrite E, chopPrecisionAndRound_exact. split; [done|]. unfold fits. lia. }
  cbn [mbind outcome_bind]. rewrite TruncateInt_spec, precisionReuse_val. f_equal.
  rewrite Z.quot_div_nonneg by lia. replace (v * (8 * 10 ^ 17)) with (8 * v * 10 ^ 17) by lia.
  change 1000000000000000000 with (10 * 10 ^ 17). by rewrite Z.div_mul_cancel_r by lia.
Qed.

Section bounds.
Context (snapshot current : ValidatorWrapper) (validatorDebt e : Z) (s0 c0 : Delegation) (ss cs : list Delegation).

(** A validator whose delegators at the double sign are still there, whose own
    stake has not grown since, and with some external stake if there are
    external delegators. *)
Record slash_case : Prop := {
  sc_snap : snapshot.(Delegations) = s0 :: ss;
  sc_cur : current.(Delegations) = c0 :: cs;
  sc_grown : grown (s0 :: ss) (c0 :: cs);
  sc_nonneg : Forall delegation_nonneg (c0 :: cs);
  sc_snap_nonneg : Forall (fun d => 0 <= d.(Amount)) ss;
  sc_self : c0.(Amount) <= s0.(Amount);
  sc_external : ss = [] \/ c0.(Amount) < s0.(Amount) + sumZ Amount ss;
  sc_debt : 0 <= validatorDebt < 2 ^ 200
}.
Context (Hc : slash_case).

Definition self_slashed : Z := Z.min validatorDebt (slashable e c0).
Definition aggregate : Z := 8 * self_slashed / 10.
Definition external_stake : Z := s0.(Amount) + sumZ Amount ss - c0.(Amount).

(** What delegator [j] of the snapshot owes. *)
Definition debt_of (j : Z) : Z :=
  match (s0 :: ss) !! Z.to_nat j with Some d => d.(Amount) * aggregate / external_stake | None => 0 end.
Definition slashed_of (j : Z) : Z :=
  match (c0 :: cs) !! Z.to_nat j with Some d => Z.min (debt_of j) (slashable e d) | None => 0 end.

Lemma self_slashed_nonneg : 0 <= self_slashed < 2 ^ 200.
Proof.
  pose proof (sc_debt Hc). pose proof (sc_nonneg Hc) as Hn. apply Forall_cons in Hn as [[H1 H2 H3] _].
  unfold self_slashed, slashable. pose proof (slashable_locked_nonneg e _ H3). lia.
Qed.
Lemma aggregate_bound : 0 <= aggregate /\ 10 * aggregate <= 8 * self_slashed.
Proof.
  pose proof self_slashed_nonneg. unfold aggregate. split; [apply Z.div_pos; lia|].
  pose proof (Z.mul_div_le (8 * self_slashed) 10). lia.
Qed.

(** The delegations after the turns in [done_]. *)
Definition after_turns (done_ : list (Z * Z)) (acc : list Delegation * Z) : Prop :=
  length acc.1 = length (c0 :: cs) /\
  (forall j, (0 < j)%nat -> acc.1 !! j =
     (if decide ((Z.of_nat j, Z.of_nat j) ∈ done_)
      then (fun d => fst (applySlashingToDelegation d e (debt_of (Z.of_nat j)))) <$> (c0 :: cs) !! j
      else (c0 :: cs) !! j)) /\
  acc.1 !! 0%nat = Some (fst (applySlashingToDelegation c0 e validatorDebt)) /\
  acc.2 = self_slashed + sumZ (fun p => slashed_of p.1) done_.

Definition externals : list (Z * Z) := map (fun i => (i, i)) (seqZ 1 (Z.of_nat (length ss))).

Lemma external_pos : ss <> [] -> 0 < external_stake.
Proof. intros Hne. destruct (sc_external Hc); [done|]. unfold external_stake. lia. Qed.

Lemma external_turn d0 i rest acc : externals = d0 ++ (i, i) :: rest -> after_turns d0 acc ->
  exists acc', slash_external snapshot aggregate external_stake e acc (i, i) = Ok acc' /\
    after_turns (d0 ++ [(i, i)]) acc'.
Proof.
  intros El (Hlen & Hget & H0 & Ht). destruct acc as [ds t]. cbn [fst snd] in *.
  assert (externals !! length d0 = Some (i, i)) as Hi by (rewrite El; by apply list_lookup_middle).
  unfold externals in Hi. rewrite lookup_map in Hi. apply fmap_Some in Hi as (i' & Hi & [= <- ]).
  apply lookup_seqZ in Hi as [Ei Hlt].
  assert (0 < external_stake) as Hpos by (apply external_pos; intros E; rewrite E in Hlt; cbn in Hlt; lia).
  assert ((Z.of_nat (Z.to_nat i), Z.of_nat (Z.to_nat i)) ∉ d0) as Hfresh.
  { rewrite Z2Nat.id by lia. assert (NoDup externals) as Hnd.
    { assert (Inj eq eq (fun j : Z => (j, j))) as Hinj by (by intros ? ? [=]).
      unfold externals. apply (NoDup_fmap_2 (fun j : Z => (j, j))), NoDup_seqZ. }
    rewrite El in Hnd. apply NoDup_app in Hnd as (_ & Hd & _). intros Hin. apply (Hd _ Hin). by left. }
  pose proof (sc_grown Hc) as [_ [extra Hex]]. apply (f_equal length) in Hex.
  rewrite length_app, !length_map in Hex. cbn [length] in Hex.
  destruct (lookup_lt_is_Some_2 (s0 :: ss) (Z.to_nat i)) as [s Hs]; [cbn [length]; lia|].
  destruct (lookup_lt_is_Some_2 (c0 :: cs) (Z.to_nat i)) as [c Hcu]; [cbn [length]; lia|].
  assert (ds !! Z.to_nat i = Some c) as Hds by (rewrite Hget, decide_False by (done || lia); exact Hcu).
  assert (delegation_nonneg c) as Hcn.
  { pose proof (sc_nonneg Hc) as Hn. rewrite Forall_forall in Hn. apply Hn. by eapply list_elem_of_lookup_2. }
  assert (debt_of i = s.(Amount) * aggregate / external_stake) as Ed by (unfold debt_of; by rewrite Hs).
  assert (0 <= debt_of i) as Hd0.
  { rewrite Ed. destruct aggregate_bound. apply Z.div_pos; [|done]. apply Z.mul_nonneg_nonneg; [|done].
    pose proof (sc_snap_nonneg Hc) as Hn. rewrite Forall_forall in Hn. apply Hn.
    replace (Z.to_nat i) with (S (Z.to_nat (i - 1))) in Hs by lia. by eapply list_elem_of_lookup_2. }
  unfold slash_external. cbn [fst snd]. rewrite (sc_snap Hc).
  rewrite (idx_Ok (s0 :: ss) i s ltac:(lia) Hs). cbn [mbind outcome_bind].
  rewrite (idx_Ok ds i c ltac:(lia) Hds). cbn [mbind outcome_bind].
  rewrite Big.Div_pos, <- Ed by done. cbn [mbind outcome_bind].
  pose proof (applySlashingToDelegation_min c e (debt_of i) Hcn Hd0) as Hm.
  destruct (applySlashingToDelegation c e (debt_of i)) as [c' sl] eqn:Ea. destruct Hm as [_ Hm].
  apply lookup_lt_Some in Hds as Hlt'. rewrite upd_Ok by lia. cbn [mbind outcome_bind].
  eexists. split; [done|]. split_and!; cbn [fst snd].
  - by rewrite length_insert.
  - intros j Hj. destruct (decide (Z.to_nat i = j)) as [Hij|Hij].
    + rewrite <- Hij, list_lookup_insert_eq by done. rewrite decide_True.
      * rewrite Hcu, Z2Nat.id by lia. cbn [fmap option_fmap option_map]. by rewrite Ea.
      * apply elem_of_app. right. rewrite Z2Nat.id by lia. by left.
    + rewrite list_lookup_insert_ne, Hget by done.
      assert ((Z.of_nat j, Z.of_nat j) ∈ d0 ++ [(i, i)] <-> (Z.of_nat j, Z.of_nat j) ∈ d0) as Hiff.
      { rewrite elem_of_app, list_elem_of_singleton. split; [|tauto]. intros [?|[= ? _]]; [done|lia]. }
      destruct (decide ((Z.of_nat j, Z.of_nat j) ∈ d0)); [rewrite decide_True by tauto|rewrite decide_False by tauto]; done.
  - rewrite list_lookup_insert_ne by lia. done.
  - rewrite Ht, sumZ_app, sumZ_cons, sumZ_nil. cbn [fst]. unfold slashed_of. rewrite Hcu. lia.
Qed.

Lemma slash_delegations_turns : exists acc,
  slash_delegations snapshot current validatorDebt e = Ok acc /\ after_turns externals acc.
Proof.
  unfold slash_delegations. rewrite makeSlashList_grown.
  2: { rewrite (sc_snap Hc), (sc_cur Hc). apply (sc_grown Hc). }
  rewrite (sc_snap Hc), (sc_cur Hc). unfold idx at 1. cbn [Z.ltb Z.compare].
  change ((c0 :: cs) !! Z.to_nat 0) with (Some c0). cbn [mbind outcome_bind].
  pose proof (sc_nonneg Hc) as Hn. apply Forall_cons in Hn as [Hc0 _]. pose proof (sc_debt Hc) as Hd.
  pose proof (applySlashingToDelegation_min c0 e validatorDebt Hc0 ltac:(lia)) as Hm.
  destruct (applySlashingToDelegation c0 e validatorDebt) as [c0' v] eqn:Ea. destruct Hm as [_ ->].
  fold self_slashed. rewrite upd_Ok by (cbn [length]; lia). change (Z.to_nat 0) with 0%nat.
  cbn [mbind outcome_bind]. destruct (applySlashRate_80 _ self_slashed_nonneg) as (rate & -> & Hrate).
  cbn [mbind outcome_bind]. rewrite Hrate. cbn [mbind outcome_bind]. fold aggregate.
  rewrite sumZ_cons. fold external_stake. unfold range. rewrite seqZ_cons by (cbn [length]; lia). cbn [map].
  replace (Z.pred (Z.of_nat (length (s0 :: ss)))) with (Z.of_nat (length ss)) by (cbn [length]; lia).
  change (Z.succ 0) with 1. fold externals.
  match goal with |- exists acc, foldM ?f _ ?b = _ /\ _ =>
    destruct (foldM_total after_turns f externals b) as (acc & Hacc & HP) end.
  - split_and!; cbn [fst snd].
    + by rewrite length_insert.
    + intros j Hj. rewrite decide_False by (by intros ?%elem_of_nil). by rewrite list_lookup_insert_ne by lia.
    + by rewrite Ea.
    + rewrite sumZ_nil. lia.
  - intros d0 [i i'] rest acc El Ha. assert (i' = i) as ->.
    { assert ((i, i') ∈ externals) as Hin by (rewrite El; apply elem_of_app; right; by left).
      unfold externals in Hin. apply list_elem_of_In, in_map_iff in Hin as (x & [= <- <-] & _). done. }
    by apply (external_turn d0 i rest).
  - exists acc. by split.
Qed.

(** The external delegators together owe at most the aggregate. *)
Lemma sum_amounts (l : list Delegation) k :
  sumZ (fun p => match l !! Z.to_nat (p.1 - k) with Some d => d.(Amount) | None => 0 end)
    (map (fun i => (i, i)) (seqZ k (Z.of_nat (length l)))) = sumZ Amount l.
Proof.
  revert k. induction l as [|d l IH]; intros k; [done|].
  rewrite seqZ_cons by (cbn [length]; lia). cbn [map]. rewrite !sumZ_cons. cbn [fst].
  replace (Z.pred (Z.of_nat (length (d :: l)))) with (Z.of_nat (length l)) by (cbn [length]; lia).
  change (Z.succ k) with (k + 1). rewrite Z.sub_diag, <- (IH (k + 1)).
  change ((d :: l) !! Z.to_nat 0) with (Some d). f_equal. apply sumZ_ext. intros [i i'] Hin.
  apply list_elem_of_In, in_map_iff in Hin as (x & [= <- <-] & Hx). apply list_elem_of_In, elem_of_seqZ in Hx.
  cbn [fst]. by replace (Z.to_nat (x - k)) with (S (Z.to_nat (x - (k + 1)))) by lia.
Qed.

Lemma externals_bound :
  0 <= sumZ (fun p => slashed_of p.1) externals <= aggregate.
Proof.
  destruct aggregate_bound as [Hagg _]. destruct (list_eq_nil_dec ss) as [E|Hne].
  { assert (externals = []) as -> by (unfold externals; by rewrite E). rewrite sumZ_nil. lia. }
  pose proof (external_pos Hne) as Hpos.
  assert (forall p, p ∈ externals -> 0 <= slashed_of p.1 /\ external_stake * slashed_of p.1 <=
    aggregate * match ss !! Z.to_nat (p.1 - 1) with Some d => d.(Amount) | None => 0 end) as Hp.
  { intros [i i'] Hin. unfold externals in Hin. apply list_elem_of_In, in_map_iff in Hin as (x & [= <- <-] & Hx).
    apply list_elem_of_In, elem_of_seqZ in Hx. cbn [fst].
    destruct (lookup_lt_is_Some_2 ss (Z.to_nat (x - 1))) as [s Hs]; [lia|]. rewrite Hs.
    assert (0 <= s.(Amount)) as Hs0.
    { pose proof (sc_snap_nonneg Hc) as Hn. rewrite Forall_forall in Hn. apply Hn. by eapply list_elem_of_lookup_2. }
    assert (debt_of x = s.(Amount) * aggregate / external_stake) as Ed.
    { unfold debt_of. replace (Z.to_nat x) with (S (Z.to_nat (x - 1))) by lia.
      change ((s0 :: ss) !! S (Z.to_nat (x - 1))) with (ss !! Z.to_nat (x - 1)). by rewrite Hs. }
    pose proof (Z.mul_div_le (s.(Amount) * aggregate) external_stake Hpos).
    assert (0 <= debt_of x) by (rewrite Ed; apply Z.div_pos; [nia|done]).
    unfold slashed_of. destruct ((c0 :: cs) !! Z.to_nat x) as [c|] eqn:Ecx; [|nia].
    pose proof (sc_nonneg Hc) as Hn. rewrite Forall_forall in Hn.
    destruct (Hn c ltac:(by eapply list_elem_of_lookup_2)) as [H1 H2 H3].
    pose proof (slashable_locked_nonneg e _ H3). unfold slashable. rewrite Ed in *. nia. }
  split; [apply sumZ_nonneg; intros; by apply Hp|].
  assert (external_stake * sumZ (fun p => slashed_of p.1) externals <= aggregate * sumZ Amount ss) as Hsum.
  { rewrite <- (sum_amounts ss 1). fold externals. clear -Hp.
    induction externals as [|p l IH]; [rewrite !sumZ_nil; lia|]. rewrite !sumZ_cons.
    pose proof (proj2 (Hp p ltac:(by left))). pose proof (IH ltac:(intros q Hq; apply Hp; by right)).
    lia. }
  pose proof (sc_self Hc). unfold external_stake in *. nia.
Qed.
End bounds.

Lemma elem_of_externals ss j :
  (Z.of_nat j, Z.of_nat j) ∈ externals ss <-> (0 < j <= length ss)%nat.
Proof.
  unfold externals. rewrite list_elem_of_In, in_map_iff. split.
  - intros (x & E & Hx%list_elem_of_In%elem_of_seqZ). injection E as E _. lia.
  - intros Hj. exists (Z.of_nat j). split; [done|]. apply list_elem_of_In, elem_of_seqZ. lia.
Qed.

(** Who pays how much.  In the ordinary case, delegators only appended
    since the snapshot and the validator's own stake not topped up, slashing
    never fails: the validator pays the debt, or all that can be reached of it;
    external delegator [j] of the snapshot pays at most its share of 80% of
    that, proportional to its stake at the double sign; later delegators pay
    nothing; all balances stay non-negative; and the total is between what the
    validator paid and 1.8 times as much. *)
Theorem slash_delegations_shares snapshot current debt e s0 c0 ss cs :
  slash_case snapshot current debt s0 c0 ss cs ->
  exists ds t, slash_delegations snapshot current debt e = Ok (ds, t) /\
    ds !! 0%nat = Some (fst (applySlashingToDelegation c0 e debt)) /\
    (forall j, (0 < j <= length ss)%nat -> ds !! j =
       (fun d => fst (applySlashingToDelegation d e (debt_of debt e s0 c0 ss (Z.of_nat j)))) <$> (c0 :: cs) !! j) /\
    (forall j, (length ss < j)%nat -> ds !! j = (c0 :: cs) !! j) /\
    self_slashed debt e c0 <= t /\ 10 * t <= 18 * self_slashed debt e c0 /\
    Forall delegation_nonneg ds.
Proof.
  intros Hc. destruct (slash_delegations_turns _ _ _ e _ _ _ _ Hc) as ([ds t] & H & _ & Hget & H0 & Ht).
  exists ds, t. cbn [fst snd] in *. split; [done|]. split; [done|].
  assert (forall j, (0 < j <= length ss)%nat -> ds !! j =
    (fun d => fst (applySlashingToDelegation d e (debt_of debt e s0 c0 ss (Z.of_nat j)))) <$> (c0 :: cs) !! j) as Hext.
  { intros j Hj. rewrite Hget by lia. rewrite decide_True; [done|]. by apply elem_of_externals. }
  assert (forall j, (length ss < j)%nat -> ds !! j = (c0 :: cs) !! j) as Hnew.
  { intros j Hj. rewrite Hget by lia. rewrite decide_False; [done|]. intros ?%elem_of_externals. lia. }
  split; [done|]. split; [done|]. rewrite Ht.
  pose proof (externals_bound _ _ _ e _ _ _ _ Hc). destruct (aggregate_bound _ _ _ e _ _ _ _ Hc) as [Ha Hb].
  split; [lia|]. split; [lia|]. pose proof (sc_nonneg _ _ _ _ _ _ _ Hc) as Hn.
  apply Forall_lookup. intros j d Hj. rewrite Forall_lookup in Hn.
  destruct (decide (j = 0)%nat) as [->|Hj0].
  { rewrite H0 in Hj. injection Hj as <-. pose proof (Hn 0%nat c0 eq_refl) as Hc0.
    pose proof (sc_debt _ _ _ _ _ _ _ Hc). pose proof (applySlashingToDelegation_min c0 e debt Hc0 ltac:(lia)) as Hm.
    destruct (applySlashingToDelegation c0 e debt). apply Hm. }
  destruct (decide (j <= length ss)%nat) as [Hle|Hgt].
  2: { rewrite Hnew in Hj by lia. by eapply Hn. }
  rewrite Hext in Hj by lia. apply fmap_Some in Hj as (d0 & Hd0 & ->). pose proof (Hn j d0 Hd0) as Hdn.
  assert (0 <= debt_of debt e s0 c0 ss (Z.of_nat j)) as Hd.
  { unfold debt_of. rewrite Nat2Z.id. destruct ((s0 :: ss) !! j) as [s|] eqn:Es; [|done].
    pose proof (sc_snap_nonneg _ _ _ _ _ _ _ Hc) as Hs. rewrite Forall_lookup in Hs.
    destruct j as [|j]; [done|]. apply Z.div_pos.
    - apply Z.mul_nonneg_nonneg; [by eapply Hs|done].
    - eapply external_pos; [exact Hc|]. by intros ->. }
  pose proof (applySlashingToDelegation_min d0 e _ Hdn Hd) as Hm.
  destruct (applySlashingToDelegation d0 e (debt_of debt e s0 c0 ss (Z.of_nat j))). apply Hm.
Qed.

(** ** Evidence *)

Section evidence.
Context {L : BLSLib} {S : SigCheck L} {H : Type} `{EqDecision H} (FromRLPNew256 : Vote -> H).
Context (config : ChainConfig) (ReadShardState : option Z -> outcome State) (currentEpoch : Z).

(** The sum of the keys of a vote signed its payload. *)
Definition vote_signed (m : Moment) (v : Vote) : Prop :=
  exists s pks, sig_Deserialize v.(vSignature) = Some s /\
    Forall2 (fun k pk => deserialize_key (Bytes k) = Ok pk) v.(vSignerPubKeys) pks /\
    VerifyHash s (foldl pk_add pk_zero pks)
      (ConstructCommitPayload config m.(mEpoch) v.(vBlockHeaderHash) m.(mHeight) m.(mViewID)) = true.

Lemma verify_ballot_signed m v : verify_ballot config m v = Ok tt -> vote_signed m v.
Proof.
  unfold verify_ballot, vote_signed. destruct (sig_Deserialize (vSignature v)) as [s|]; [|done].
  intros Hv. apply bind_Ok in Hv as (pk & Hpk & Hv). destruct (VerifyHash _ _ _) eqn:E; [|done].
  apply (foldM_inv (fun d acc => exists pks, Forall2 (fun k pk => deserialize_key (Bytes k) = Ok pk) d pks /\
    acc = foldl pk_add pk_zero pks)) in Hpk as (pks & Hpks & ->).
  - exists s, pks. by split_and!.
  - exists []. by split; [constructor|].
  - intros d k b b' (pks & Hpks & ->) _ Hk. apply bind_Ok in Hk as (pk' & Hk & [= <-]).
    exists (pks ++ [pk']). split; [|by rewrite foldl_app]. apply Forall2_app; [done|]. by repeat constructor.
Qed.

Lemma CompareBLSPublicKey_eq k1 k2 : (CompareBLSPublicKey k1 k2 =? 0) = true <-> k1 = k2.
Proof. unfold CompareBLSPublicKey, cmp. destruct (Z.compare_spec k1 k2); split; intros; (done || lia). Qed.

Lemma elem_of_double_sign_keys f s k :
  k ∈ double_sign_keys f s <-> k ∈ f.(vSignerPubKeys) /\ k ∈ s.(vSignerPubKeys).
Proof.
  unfold double_sign_keys. rewrite list_elem_of_In, filter_In, existsb_exists, !list_elem_of_In. split.
  - intros [H1 (k2 & H2 & ->%CompareBLSPublicKey_eq)]. done.
  - intros [H1 H2]. split; [done|]. exists k. split; [done|]. by apply CompareBLSPublicKey_eq.
Qed.

Lemma signer_addrs_spec c keys addrs : signer_addrs c keys = Ok addrs ->
  Forall2 (fun k a => AddressForBLSKey (Some c) k = Ok a) keys addrs.
Proof.
  unfold signer_addrs. intros Hs.
  apply (foldM_inv (fun d acc => Forall2 (fun k a => AddressForBLSKey (Some c) k = Ok a) d acc)) in Hs; [done|constructor|].
  intros d k b b' Hd _ Hk. apply bind_Ok in Hk as (a & Ha & [= <-]). apply Forall2_app; [done|]. by repeat constructor.
Qed.

(** What accepted evidence proves. *)
Record convicts (state : ValidatorState) (r : Record_) : Prop := {
  cv_validator : exists w, state !! r.(evidence).(Offender) = Some w /\ IsBanned w = false;
  cv_reporter : r.(evidence).(Offender) <> r.(Reporter);
  cv_epoch : exists e, r.(evidence).(moment).(mEpoch) = Some e /\ e <= currentEpoch /\ IsStaking config (Some e) = true;
  cv_conflict : r.(evidence).(votes).(FirstVote).(vBlockHeaderHash)
                <> r.(evidence).(votes).(SecondVote).(vBlockHeaderHash);
  cv_key : exists ss c key, ReadShardState r.(evidence).(moment).(mEpoch) = Ok ss /\
    FindCommitteeByID (Some ss) r.(evidence).(moment).(mShardID) = Ok c /\
    AddressForBLSKey (Some c) key = Ok r.(evidence).(Offender) /\
    forall k, k ∈ r.(evidence).(votes).(FirstVote).(vSignerPubKeys) /\
              k ∈ r.(evidence).(votes).(SecondVote).(vSignerPubKeys) <-> k = key;
  cv_signed : vote_signed r.(evidence).(moment) r.(evidence).(votes).(FirstVote) /\
              vote_signed r.(evidence).(moment) r.(evidence).(votes).(SecondVote)
}.

(** C37: no innocent is slashed.  [Verify] accepts a record only when the
    offender is a validator not yet banned, other than the reporter; the moment
    is in the staking era and not in the future; exactly one key signed both
    votes, it is the offender's in that epoch's committee of that shard, and
    the votes are for different blocks; and both signatures check against the
    sum of their keys. *)
Theorem Verify_convicts state r :
  Verify FromRLPNew256 config ReadShardState currentEpoch state r = Ok tt -> convicts state r.
Proof.
  unfold Verify. intros Hv. apply bind_Ok in Hv as (w & Hw & Hv). unfold ValidatorWrapperAt in Hw.
  destruct (state !! Offender (evidence r)) as [w0|] eqn:Ew; [|done]. injection Hw as ->.
  destruct (IsStaking config (mEpoch (moment (evidence r)))) eqn:Est; [|done]. cbn [negb] in Hv.
  destruct (decide (Status (validator w) = Banned)) as [|Hnb]; [done|].
  destruct (Z.eqb_spec (Offender (evidence r)) (Reporter r)) as [|Hrep]; [done|].
  destruct (Z.eqb_spec (vBlockHeaderHash (FirstVote (votes (evidence r))))
    (vBlockHeaderHash (SecondVote (votes (evidence r))))) as [|Hconf]; [done|].
  pose proof (elem_of_double_sign_keys (FirstVote (votes (evidence r))) (SecondVote (votes (evidence r)))) as Hds.
  destruct (double_sign_keys _ _) as [|k0 ks] eqn:Ek; [done|].
  destruct (mEpoch (moment (evidence r))) as [e|] eqn:Ee; [|done].
  destruct (Z.ltb_spec currentEpoch e) as [|Hle]; [done|].
  apply bind_Ok in Hv as (ss & Hss & Hv). apply bind_Ok in Hv as (c & Hc & Hv).
  apply bind_Ok in Hv as (addrs & Ha%signer_addrs_spec & Hv).
  destruct (Nat.ltb_spec 1 (length addrs)) as [|Hone]; [done|].
  destruct (existsb _ addrs) eqn:Eex; [|done]. cbn [negb] in Hv. case_decide; [done|].
  apply bind_Ok in Hv as ([] & H1%verify_ballot_signed & H2%verify_ballot_signed).
  inversion Ha as [|? a ? addrs' Ha0 Ha' E1 E2]; subst. destruct addrs' as [|a' addrs']; [|cbn in Hone; lia].
  inversion Ha'; subst. cbn in Eex. rewrite orb_false_r in Eex. apply Z.eqb_eq in Eex as ->.
  split; try done.
  - exists w. split; [done|]. by apply bool_decide_eq_false.
  - exists e. by split_and!.
  - exists ss, c, k0. rewrite Ee. split_and!; [done|done|done|]. intros k. rewrite <- Hds. apply list_elem_of_singleton.
Qed.
End evidence.

(** ** Concrete cases *)

(** Self stake 10^22, one external delegator with 10^21. *)
Definition sample_snapshot : ValidatorSnapshot := mkSnapshot sample_wrapper (Some 5).
Definition sample_slash_state : SlashState := mkSlashState {[1 := sample_wrapper]} ∅.
Definition sample_record : Record_ :=
  mkRecord (mkEvidence (mkMoment (Some 100000) 0 7 3)
    (mkConflict (mkVote_ [10] 1 [10]) (mkVote_ [10] 2 [10])) 1) 9.

Lemma sample_case : slash_case sample_wrapper sample_wrapper (5 * 10 ^ 21)
  (NewDelegation 1 (10 ^ 22)) (NewDelegation 1 (10 ^ 22)) [NewDelegation 2 (10 ^ 21)] [NewDelegation 2 (10 ^ 21)].
Proof.
  assert (forall a m, 0 <= m -> delegation_nonneg (NewDelegation a m)) as Hn by (intros; by split).
  split; [done|done| |repeat (constructor; [by apply Hn|]); constructor|repeat constructor; cbn; lia|cbn; lia|
    right; rewrite sumZ_cons, sumZ_nil; cbn; lia|lia].
  split; [|by exists []]. cbn. apply NoDup_cons. split; [|apply NoDup_singleton].
  intros E%list_elem_of_singleton. discriminate.
Qed.

Lemma slash_delegations_shares_witness :
  exists ds t, slash_delegations sample_wrapper sample_wrapper (5 * 10 ^ 21) 4 = Ok (ds, t) /\
    10 * t <= 18 * (5 * 10 ^ 21).
Proof.
  destruct (slash_delegations_shares _ _ _ 4 _ _ _ _ sample_case) as (ds & t & H & _ & _ & _ & _ & Ht & _).
  exists ds, t. split; [exact H|]. exact Ht.
Defined.

Lemma sample_keyed : keyed sample_slash_state.(validators).
Proof. unfold keyed, sample_slash_state. cbn. by intros a w [<- <-]%lookup_singleton_Some. Qed.

Lemma Apply_conserves_witness :
  exists st' app, Apply (fun _ _ => Ok sample_snapshot) sample_slash_state [sample_record] 9 = Ok (st', app) /\
    balance st' 9 = app.(TotalBeneficiaryReward).
Proof.
  destruct (Apply (fun _ _ => Ok sample_snapshot) sample_slash_state [sample_record] 9) as [[st' app]|e|w] eqn:E.
  - exists st', app. split; [done|].
    apply (se_reward _ _ _ _ _ (Apply_conserves (fun _ _ => Ok sample_snapshot) sample_slash_state [sample_record] 9 st' app
      sample_keyed E)).
  - exfalso. assert (is_Ok (Apply (fun _ _ => Ok sample_snapshot) sample_slash_state [sample_record] 9) = true) as H
      by (by vm_compute). by rewrite E in H.
  - exfalso. assert (is_Ok (Apply (fun _ _ => Ok sample_snapshot) sample_slash_state [sample_record] 9) = true) as H
      by (by vm_compute). by rewrite E in H.
Defined.

Definition sample_shards : State := mkState (Some 100000) [mkCommittee 0 [mkSlot 1 10 (Some 5); mkSlot 1 11 (Some 5)]].
Definition verify_sample (r : Record_) : outcome unit :=
  Verify (L := ZBLS) vBlockHeaderHash MainnetChainConfig (fun _ => Ok sample_shards) 100001 {[1 := sample_wrapper]} r.

Lemma Verify_convicts_witness :
  sample_record.(evidence).(Offender) <> sample_record.(Reporter).
Proof.
  apply (cv_reporter MainnetChainConfig (fun _ => Ok sample_shards) 100001 {[1 := sample_wrapper]} sample_record
    (Verify_convicts (L := ZBLS) vBlockHeaderHash MainnetChainConfig (fun _ => Ok sample_shards) 100001
       {[1 := sample_wrapper]} sample_record ltac:(by vm_compute))).
Defined.

(** *** Slips the model shows *)

(** An external delegator that has undelegated everything stays in the list
    with amount 0.  If it is the only one, the shares divide by zero. *)
Lemma slash_no_external_stake_panics :
  let w := with_Delegations sample_wrapper [NewDelegation 1 (10 ^ 22); NewDelegation 2 0] in
  slash_delegations w w (5 * 10 ^ 21) 4 = Panic "division by zero".
Proof. by vm_compute. Qed.

(** When the validator has since topped up its own stake above the snapshot's
    total, the external stake is negative, and so are the debts: the external
    delegator is paid. *)
Lemma slash_topped_up_pays_delegators :
  let snap := with_Delegations sample_wrapper [NewDelegation 1 100; NewDelegation 2 10] in
  let cur := with_Delegations sample_wrapper [NewDelegation 1 200; NewDelegation 2 10] in
  match slash_delegations snap cur 50 4 with
  | Ok ([_; d], t) => d.(Amount) = 14 /\ t = 46
  | _ => False
  end.
Proof. by vm_compute. Qed.

(** A validator that double-signs with two of its keys is acquitted. *)
Lemma Verify_two_keys_acquitted :
  verify_sample (mkRecord (mkEvidence (mkMoment (Some 100000) 0 7 3)
    (mkConflict (mkVote_ [10; 11] 1 [21]) (mkVote_ [10; 11] 2 [21])) 1) 9)
  = Err "multiple double signer addresses found".
Proof. by vm_compute. Qed.
