(* ===== verification/StakingVerifier.v ===== *)
(** * Staking messages (core/staking_verifier.go)

    One function per staking message: it reads the state, and returns the
    validator wrappers the message changes, for the caller to store, or an
    error.  Wrappers are requested as copies, so nothing is mutated behind the
    caller's back.

    [vm.StateDB] and [ChainContext] are interfaces; the records below hold what
    the code asks of them, and nil interfaces are [None]. *)
From S2P Require Import Prelude Dec Bls Params Sharding Networks Effective Delegation Validator Availability.
Local Open Scope Z_scope.

Definition errStateDBIsMissing : string := "no stateDB was provided".
Definition errChainContextMissing : string := "no chain context was provided".
Definition errEpochMissing : string := "no epoch was provided".
Definition errBlockNumMissing : string := "no block number was provided".
Definition errNegativeAmount : string := "amount can not be negative".
Definition errValidatorExist : string := "staking validator already exists".
Definition errValidatorNotExist : string := "staking validator does not exist".
Definition errInsufficientBalanceForStake : string := "insufficient balance to stake".
Definition errNoDelegationToUndelegate : string := "no delegation to undelegate".
Definition errCommissionRateChangeTooFast : string :=
  "change on commission rate can not be more than max change rate within the same epoch".
Definition errCommissionRateChangeTooHigh : string :=
  "commission rate can not be higher than maximum commission rate".
Definition errCommissionRateChangeTooLowT : string := "commission rate can not be lower than min rate of ".
Definition errNoRewardsToCollect : string := "no rewards to collect".
Definition errDupIdentity : string := "validator identity exists".
Definition errDupBlsKey : string := "BLS key exists".
Definition errDelegationTooSmall : string :=
  "minimum delegation amount for a delegator has to be greater than or equal to 1000 ITC".
Definition errDelegationTooSmallV2 : string :=
  "minimum delegation amount for a delegator has to be greater than or equal to 100 ITC".
Definition errIndexOutOfBound : string := "Delegation index out of bound".
Definition minimumDelegation : Z := oneAsBigInt * 1000.
Definition minimumDelegationV2 : Z := oneAsBigInt * 100.

(** ** What is asked of the state and of the chain *)

Record StateDB := mkStateDB {
  IsValidator : Address -> bool;
  wrappers : ValidatorState;
  GetBalance : Address -> Z;
  GetValidatorFirstElectionEpoch : Address -> Z
}.
Record ChainContext := mkChainContext {
  ReadValidatorList : outcome (list Address);
  ReadValidatorSnapshot : Address -> outcome ValidatorSnapshot;
  Config : ChainConfig
}.

Definition CanTransfer (db : StateDB) (addr : Address) (amount : Z) : bool := amount <=? GetBalance db addr.

(** [delegation.go: DelegationIndex] and the messages of messages.go. *)
Record DelegationIndex := mkIndex { diValidatorAddress : Address; diIndex : Z }.
Record Delegate := mkDelegate { dDelegatorAddress : Address; dValidatorAddress : Address; dAmount : Z }.
Record Undelegate_ := mkUndelegate { unDelegatorAddress : Address; unValidatorAddress : Address; unAmount : Z }.
Record MigrationMsg := mkMigration { From : Address; To : Address }.

(** ** Creation and editing *)

Section create.
Context (state : StateDB) (validator_ : Address) (identity : string) (blsKeys : list SerializedPublicKey).

Fixpoint checkDuplicateFields (addrs : list Address) : outcome unit :=
  match addrs with
  | [] => Ok tt
  | addr :: rest =>
      if validator_ =? addr then checkDuplicateFields rest
      else
        let! wrapper := ValidatorWrapperAt state.(wrappers) addr in
        if bool_decide (identity <> ""%string) && bool_decide (wrapper.(validator).(description).(Identity) = identity)
        then Err errDupIdentity
        else if existsb (fun existingKey => bool_decide (existingKey ∈ blsKeys)) wrapper.(validator).(SlotPubKeys)
        then Err errDupBlsKey
        else checkDuplicateFields rest
  end.
End create.

Section messages.
Context {L : BLSLib} {S : SigCheck L} (Schedule : Schedule).

Definition VerifyAndCreateValidatorFromMsg (stateDB : option StateDB) (chainContext : option ChainContext)
    (epoch blockNum : option Z) (msg : CreateValidator) : outcome ValidatorWrapper :=
  match stateDB, chainContext, epoch, blockNum with
  | None, _, _, _ => Err errStateDBIsMissing
  | _, None, _, _ => Err errChainContextMissing
  | _, _, None, _ => Err errEpochMissing
  | _, _, _, None => Err errBlockNumMissing
  | Some db, Some chain, Some _, Some block =>
      if Z.sgn msg.(cvAmount) =? -1 then Err errNegativeAmount
      else if IsValidator db msg.(cvValidatorAddress) then Err errValidatorExist
      else
        let! addrs := ReadValidatorList chain in
        let! _ := checkDuplicateFields db msg.(cvValidatorAddress) msg.(cvDescription).(Identity)
                    msg.(cvSlotPubKeys) addrs in
        if negb (CanTransfer db msg.(cvValidatorAddress) msg.(cvAmount)) then Err errInsufficientBalanceForStake
        else
          let! v := CreateValidatorFromNewMsg Schedule msg block epoch in
          let wrapper := mkWrapper_ v [NewDelegation v.(vAddress) msg.(cvAmount)] (mkCounters 0 0) 0 in
          let! _ := SanityCheck wrapper in
          Ok wrapper
  end.

Definition VerifyAndEditValidatorFromMsg (stateDB : option StateDB) (chainContext : option ChainContext)
    (epoch blockNum : option Z) (msg : EditValidator) : outcome ValidatorWrapper :=
  match stateDB, chainContext, blockNum with
  | None, _, _ => Err errStateDBIsMissing
  | _, None, _ => Err errChainContextMissing
  | _, _, None => Err errBlockNumMissing
  | Some db, Some chain, Some block =>
      if negb (IsValidator db msg.(evValidatorAddress)) then Err errValidatorNotExist
      else
        let newBlsKeys := match msg.(SlotKeyToAdd) with Some k => [k] | None => [] end in
        let! addrs := ReadValidatorList chain in
        let! _ := checkDuplicateFields db msg.(evValidatorAddress) msg.(evDescription).(Identity) newBlsKeys addrs in
        let! wrapper := ValidatorWrapperAt db.(wrappers) msg.(evValidatorAddress) in
        let! v := (match UpdateValidatorFromEditMsg Schedule wrapper.(validator) msg epoch with
                   | (v, Ok _) => Ok v | (_, Err e) => Err e | (_, Panic w) => Panic w end) in
        let newRate := v.(commission).(rates).(Rate) in
        if GT newRate v.(commission).(rates).(MaxRate) then Err errCommissionRateChangeTooHigh
        else
          let minRate := MinCommissionRate (IsMinCommissionRate (Config chain) epoch) (IsHIP30 (Config chain) epoch) in
          let! _ :=
            (if LT newRate minRate then
               let firstEpoch := GetValidatorFirstElectionEpoch db msg.(evValidatorAddress) in
               match MinCommissionPromoPeriod (Config chain) with
               | None => Panic "nil pointer dereference"
               | Some p =>
                   if negb (Big.Uint64 firstEpoch =? 0) then
                     match epoch with
                     | None => Panic "nil pointer dereference"
                     | Some e => if Big.Int64 p <=? Big.Int64 (e - firstEpoch)
                                 then Err errCommissionRateChangeTooLowT else Ok tt
                     end
                   else Ok tt
               end
             else Ok tt) in
          match ReadValidatorSnapshot chain v.(vAddress) with
          | Err _ => Err "validator snapshot not found."
          | Panic w => Panic w
          | Ok snapshotValidator =>
              let rateAtBeginningOfEpoch := snapshotValidator.(snapValidator).(validator).(commission).(rates).(Rate) in
              let v := if negb (Dec.Equal rateAtBeginningOfEpoch newRate)
                       then with_commission v (mkCommission v.(commission).(rates) block) else v in
              let! change := Dec.Sub newRate rateAtBeginningOfEpoch in
              if GT (Dec.Abs change) v.(commission).(rates).(MaxChangeRate) then Err errCommissionRateChangeTooFast
              else
                let wrapper := with_validator wrapper v in
                let! _ := SanityCheck wrapper in
                Ok wrapper
          end
  end.
End messages.

(** ** Delegation *)

(** The tokens in undelegation that can be used again, oldest first: what is
    left of the entries from the first one not used up, and of the balance. *)
Fixpoint redelegate (epoch : Z) (l : list Undelegation) (delegateBalance : Z) : list Undelegation * Z :=
  match l with
  | [] => ([], delegateBalance)
  | u :: rest =>
      if epoch <=? u.(uEpoch) then (l, delegateBalance)
      else if u.(uAmount) <=? delegateBalance then redelegate epoch rest (delegateBalance - u.(uAmount))
      else (mkUndelegation (u.(uAmount) - delegateBalance) u.(uEpoch) :: rest, 0)
  end.

Definition with_Undelegations (d : Delegation) (l : list Undelegation) : Delegation :=
  mkDelegation d.(DelegatorAddress) d.(Amount) d.(Reward) l.

(** The delegation an index points to. *)
Definition delegation_at (w : ValidatorWrapper) (index : Z) : outcome Delegation :=
  if Z.of_nat (length w.(Delegations)) <=? index then Err errIndexOutOfBound
  else idx w.(Delegations) index.

Record DelegateAcc := mkDelegateAcc {
  delegateBalance : Z;
  updatedValidatorWrappers : list ValidatorWrapper;
  fromLockedTokens : gmap Address Z;
  delegateeWrapper : option nat   (* which of the updated wrappers it is *)
}.

(** One turn of the redelegation loop. *)
Definition redelegate_from (db : StateDB) (epoch : Z) (msg : Delegate) (a : DelegateAcc) (di : DelegationIndex)
    : outcome DelegateAcc :=
  let! wrapper := ValidatorWrapperAt db.(wrappers) di.(diValidatorAddress) in
  let! delegation := delegation_at wrapper di.(diIndex) in
  let startBalance := a.(delegateBalance) in
  let '(rest, balance) := redelegate epoch delegation.(Undelegations) startBalance in
  if balance <? startBalance then
    let! ds := upd wrapper.(Delegations) di.(diIndex) (with_Undelegations delegation rest) in
    let wrapper := with_Delegations wrapper ds in
    let! _ := SanityCheck wrapper in
    Ok {| delegateBalance := balance;
          updatedValidatorWrappers := a.(updatedValidatorWrappers) ++ [wrapper];
          fromLockedTokens := <[di.(diValidatorAddress) := startBalance - balance]> a.(fromLockedTokens);
          delegateeWrapper := if di.(diValidatorAddress) =? msg.(dValidatorAddress)
                              then Some (length a.(updatedValidatorWrappers)) else a.(delegateeWrapper) |}
  else Ok (mkDelegateAcc balance a.(updatedValidatorWrappers) a.(fromLockedTokens) a.(delegateeWrapper)).

Definition add_amount (d : Delegation) (amount : Z) : Delegation :=
  mkDelegation d.(DelegatorAddress) (d.(Amount) + amount) d.(Reward) d.(Undelegations).

(** The loop over the delegatee's delegations: every one of the delegator's
    grows, with a sanity check after each. *)
Fixpoint add_to_delegations (w : ValidatorWrapper) (delegator : Address) (amount : Z)
    (before after_ : list Delegation) (found : bool) : outcome (list Delegation * bool) :=
  match after_ with
  | [] => Ok (before, found)
  | d :: rest =>
      if d.(DelegatorAddress) =? delegator then
        let d := add_amount d amount in
        let! _ := SanityCheck (with_Delegations w (before ++ d :: rest)) in
        add_to_delegations w delegator amount (before ++ [d]) rest true
      else add_to_delegations w delegator amount (before ++ [d]) rest found
  end.

Definition apply_delegation (w : ValidatorWrapper) (msg : Delegate) : outcome ValidatorWrapper :=
  let! '(ds, found) := add_to_delegations w msg.(dDelegatorAddress) msg.(dAmount) [] w.(Delegations) false in
  if negb found then
    let w := with_Delegations w (ds ++ [NewDelegation msg.(dDelegatorAddress) msg.(dAmount)]) in
    let! _ := SanityCheck w in Ok w
  else Ok (with_Delegations w ds).

Definition VerifyAndDelegateFromMsg (stateDB : option StateDB) (epoch : option Z) (msg : Delegate)
    (delegations : list DelegationIndex) (chainConfig : ChainConfig)
    : outcome (list ValidatorWrapper * Z * gmap Address Z) :=
  match stateDB with
  | None => Err errStateDBIsMissing
  | Some db =>
      if negb (IsValidator db msg.(dValidatorAddress)) then Err errValidatorNotExist
      else if Z.sgn msg.(dAmount) =? -1 then Err errNegativeAmount
      else
        let! _ :=
          (if msg.(dAmount) <? minimumDelegation then
             if IsMinDelegation100 chainConfig epoch then
               if msg.(dAmount) <? minimumDelegationV2 then Err errDelegationTooSmallV2 else Ok tt
             else Err errDelegationTooSmall
           else Ok tt) in
        let start := mkDelegateAcc msg.(dAmount) [] ∅ None in
        let! a :=
          (match epoch with
           | Some e => if IsRedelegation chainConfig epoch
                       then foldM (redelegate_from db e msg) delegations start else Ok start
           | None => Ok start   (* a nil epoch is before every fork *)
           end) in
        let! '(ws, k) :=
          (match a.(delegateeWrapper) with
           | Some k => Ok (a.(updatedValidatorWrappers), k)
           | None =>
               let! w := ValidatorWrapperAt db.(wrappers) msg.(dValidatorAddress) in
               Ok (a.(updatedValidatorWrappers) ++ [w], length a.(updatedValidatorWrappers))
           end) in
        let! w := idx ws (Z.of_nat k) in
        let! w := apply_delegation w msg in
        let! ws := upd ws (Z.of_nat k) w in
        if a.(delegateBalance) =? 0 then Ok (ws, 0, a.(fromLockedTokens))
        else if negb (CanTransfer db msg.(dDelegatorAddress) a.(delegateBalance))
        then Err errInsufficientBalanceForStake
        else Ok (ws, a.(delegateBalance), a.(fromLockedTokens))
  end.

(** ** Undelegation *)

(** The first delegation of the delegator is undelegated from. *)
Fixpoint undelegate_first (delegator : Address) (epoch amount : Z) (ds : list Delegation)
    : outcome (list Delegation) :=
  match ds with
  | [] => Err errNoDelegationToUndelegate
  | d :: rest =>
      if d.(DelegatorAddress) =? delegator then let! d := Undelegate d epoch amount in Ok (d :: rest)
      else let! rest := undelegate_first delegator epoch amount rest in Ok (d :: rest)
  end.

(** Falling below the minimum self delegation only makes the validator
    inactive; any other failed check is an error. *)
Definition check_or_deactivate (wrapper : ValidatorWrapper) : outcome ValidatorWrapper :=
  match SanityCheck wrapper with
  | Ok _ => Ok wrapper
  | Err e => if decide (e = ErrInvalidSelfDelegation)
             then Ok (with_validator wrapper (with_Status wrapper.(validator) Inactive)) else Err e
  | Panic w => Panic w
  end.

Definition VerifyAndUndelegateFromMsg (stateDB : option StateDB) (epoch : option Z) (msg : Undelegate_)
    : outcome ValidatorWrapper :=
  match stateDB, epoch with
  | None, _ => Err errStateDBIsMissing
  | _, None => Err errEpochMissing
  | Some db, Some epoch =>
      if Z.sgn msg.(unAmount) =? -1 then Err errNegativeAmount
      else if negb (IsValidator db msg.(unValidatorAddress)) then Err errValidatorNotExist
      else
        let! wrapper := ValidatorWrapperAt db.(wrappers) msg.(unValidatorAddress) in
        let! ds := undelegate_first msg.(unDelegatorAddress) epoch msg.(unAmount) wrapper.(Delegations) in
        check_or_deactivate (with_Delegations wrapper ds)
  end.

(** ** Rewards *)

Definition collect_one (db : StateDB) (acc : list ValidatorWrapper * Z) (di : DelegationIndex)
    : outcome (list ValidatorWrapper * Z) :=
  let '(updated, totalRewards) := acc in
  let! wrapper := ValidatorWrapperAt db.(wrappers) di.(diValidatorAddress) in
  let! delegation := delegation_at wrapper di.(diIndex) in
  if 0 <? delegation.(Reward) then
    let! ds := upd wrapper.(Delegations) di.(diIndex)
                 (mkDelegation delegation.(DelegatorAddress) delegation.(Amount) 0 delegation.(Undelegations)) in
    Ok (updated ++ [with_Delegations wrapper ds], totalRewards + delegation.(Reward))
  else Ok (updated ++ [wrapper], totalRewards).

Definition VerifyAndCollectRewardsFromDelegation (stateDB : option StateDB) (delegations : list DelegationIndex)
    : outcome (list ValidatorWrapper * Z) :=
  match stateDB with
  | None => Err errStateDBIsMissing
  | Some db =>
      let! '(updated, totalRewards) := foldM (collect_one db) delegations ([], 0) in
      if Big.Int64 totalRewards =? 0 then Err errNoRewardsToCollect else Ok (updated, totalRewards)
  end.

(** ** Migration *)

(** One undelegation given to [To]: merged with the entry of its epoch. *)
Definition merge_undelegation (l : list Undelegation) (u : Undelegation) : list Undelegation :=
  match add_to_entry u.(uEpoch) u.(uAmount) l with Some l' => l' | None => l ++ [u] end.

Fixpoint give_to (to_ : Address) (amount : Z) (us : list Undelegation) (ds : list Delegation)
    : option (list Delegation * Z) :=
  match ds with
  | [] => None
  | d :: rest =>
      if d.(DelegatorAddress) =? to_ then
        let merged := sort_undelegations (foldl merge_undelegation d.(Undelegations) us) in
        Some (mkDelegation d.(DelegatorAddress) (d.(Amount) + amount) d.(Reward) merged :: rest,
              d.(Amount) + amount)
      else match give_to to_ amount us rest with
           | Some (rest', total) => Some (d :: rest', total)
           | None => None
           end
  end.

Definition migrate_one (db : StateDB) (msg : MigrationMsg) (acc : list ValidatorWrapper * list Delegate)
    (di : DelegationIndex) : outcome (list ValidatorWrapper * list Delegate) :=
  let '(modifiedWrappers, stakeMsgs) := acc in
  let! wrapper := ValidatorWrapperAt db.(wrappers) di.(diValidatorAddress) in
  let! foundDelegation := delegation_at wrapper di.(diIndex) in
  if negb (foundDelegation.(DelegatorAddress) =? msg.(From)) then Err "Expected From but got another delegator"
  else if (foundDelegation.(Amount) =? 0) && (length foundDelegation.(Undelegations) =? 0)%nat
  then Ok (modifiedWrappers, stakeMsgs)
  else
    let! ds := upd wrapper.(Delegations) di.(diIndex)
                 (mkDelegation foundDelegation.(DelegatorAddress) 0 foundDelegation.(Reward) []) in
    let '(ds, totalAmount) :=
      (match give_to msg.(To) foundDelegation.(Amount) foundDelegation.(Undelegations) ds with
       | Some r => r
       | None => (ds ++ [NewDelegation msg.(To) foundDelegation.(Amount)], foundDelegation.(Amount))
       end) in
    let! wrapper := check_or_deactivate (with_Delegations wrapper ds) in
    Ok (modifiedWrappers ++ [wrapper],
        stakeMsgs ++ [mkDelegate msg.(To) wrapper.(validator).(vAddress) totalAmount]).

Definition VerifyAndMigrateFromMsg (db : StateDB) (msg : MigrationMsg) (fromDelegations : list DelegationIndex)
    : outcome (list ValidatorWrapper * list Delegate) :=
  if msg.(From) =? msg.(To) then Err "From and To are the same address"
  else match fromDelegations with
  | [] => Err "No delegations to migrate"
  | _ => foldM (migrate_one db msg) fromDelegations ([], [])
  end.
