(* ===== verification/StakingSafety.v ===== *)
(** * What the staking messages guarantee

    Token conservation of the messages of [StakingVerifier]: what a delegation
    adds to the validators' wrappers is what leaves the delegator's balance,
    undelegating and migrating only move tokens inside a wrapper, collected
    rewards are exactly the rewards removed.  And the uniqueness of identities
    and BLS keys that creation and editing maintain. *)
From S2P Require Import Prelude Dec Bls Params Sharding Networks Effective Delegation Validator Availability StakingVerifier.
Local Open Scope Z_scope.

Definition wrapper_address (w : ValidatorWrapper) : Address := w.(validator).(vAddress).

(** The wrapper of the state a returned wrapper will replace. *)
Definition old_funds (vs : ValidatorState) (w : ValidatorWrapper) : Z :=
  default 0 (wrapper_funds <$> vs !! wrapper_address w).

(** The active stake of one delegator. *)
Definition staked_by (a : Address) (ds : list Delegation) : Z :=
  sumZ (fun d => if d.(DelegatorAddress) =? a then d.(Amount) else 0) ds.

Record wrapper_ok (w : ValidatorWrapper) : Prop := {
  wo_nonneg : Forall delegation_nonneg w.(Delegations);
  wo_delegators : NoDup (map DelegatorAddress w.(Delegations))
}.
Record state_ok (vs : ValidatorState) : Prop := {
  so_keyed : keyed vs;
  so_wrapper : forall a w, vs !! a = Some w -> wrapper_ok w
}.

(** A returned wrapper is a version of one in the state. *)
Definition version_of (vs : ValidatorState) (w : ValidatorWrapper) : Prop :=
  exists w0, vs !! wrapper_address w = Some w0 /\ w.(validator) = w0.(validator).

Lemma ValidatorWrapperAt_Ok vs a w : ValidatorWrapperAt vs a = Ok w <-> vs !! a = Some w.
Proof. unfold ValidatorWrapperAt. destruct (vs !! a); split; congruence. Qed.

Lemma old_funds_at vs w a w0 : wrapper_address w = a -> vs !! a = Some w0 -> old_funds vs w = wrapper_funds w0.
Proof. unfold old_funds. by intros -> ->. Qed.

Lemma delegation_at_Ok w i d : 0 <= i -> delegation_at w i = Ok d -> w.(Delegations) !! Z.to_nat i = Some d.
Proof. unfold delegation_at. intros Hi. case_match; [done|]. by intros [_ ?]%idx_inv. Qed.

Lemma upd_inv {A} (l l' : list A) i a : upd l i a = Ok l' ->
  0 <= i < Z.of_nat (length l) /\ l' = <[Z.to_nat i := a]> l.
Proof.
  unfold upd. destruct (Z.ltb_spec i 0), (Z.leb_spec (Z.of_nat (length l)) i); cbn [orb]; try done.
  intros [= <-]. split; [lia|done].
Qed.

(** Replacing one delegation by another of the same delegator. *)
Lemma wrapper_ok_insert w i d d' : wrapper_ok w -> w.(Delegations) !! i = Some d ->
  d'.(DelegatorAddress) = d.(DelegatorAddress) -> delegation_nonneg d' ->
  wrapper_ok (with_Delegations w (<[i := d']> w.(Delegations))).
Proof.
  intros [Hn Hd] Hi Ha Hd'. split; cbn.
  - apply Forall_insert; [done|done].
  - change (map DelegatorAddress (<[i:=d']> (Delegations w)))
      with (DelegatorAddress <$> <[i:=d']> (Delegations w)).
    rewrite list_fmap_insert, list_insert_id; [done|]. rewrite list_lookup_fmap, Hi. cbn. by f_equal.
Qed.

Lemma wrapper_funds_insert w i d d' : w.(Delegations) !! i = Some d ->
  wrapper_funds (with_Delegations w (<[i := d']> w.(Delegations))) = wrapper_funds w - funds d + funds d'.
Proof. intros Hi. unfold wrapper_funds. cbn. by apply sumZ_insert. Qed.

(** ** Redelegation of locked tokens *)

Lemma redelegate_spec e l b rest b' : 0 <= b -> Forall (fun u => 0 <= u.(uAmount)) l ->
  redelegate e l b = (rest, b') ->
  0 <= b' <= b /\ locked rest + (b - b') = locked l /\ Forall (fun u => 0 <= u.(uAmount)) rest.
Proof.
  revert b. induction l as [|u l IH]; intros b Hb Hl; cbn [redelegate].
  { intros [= <- <-]. split_and!; [lia|lia|lia|done]. }
  inversion Hl as [|? ? Hu Hl']; subst. unfold locked in *. case_match.
  { intros [= <- <-]. split_and!; [lia|lia|lia|done]. }
  destruct (Z.leb_spec (uAmount u) b) as [Hle|Hgt].
  - intros H0. apply IH in H0 as (H1 & H2 & H3); [|lia|done]. rewrite sumZ_cons. split_and!; [lia|lia|lia|done].
  - intros [= <- <-]. rewrite !sumZ_cons. cbn [uAmount]. split_and!; [lia|lia|lia|].
    constructor; [cbn; lia|done].
Qed.

(** What the redelegation loop maintains after the indexes [seen]. *)
Section redelegation.
Context (db : StateDB) (epoch : Z) (msg : Delegate).
Context (Hst : state_ok db.(wrappers)).
Notation vs := db.(wrappers).

Record loop_ok (seen : list DelegationIndex) (a : DelegateAcc) : Prop := {
  lo_balance : 0 <= a.(delegateBalance) <= msg.(dAmount);
  lo_funds : sumZ wrapper_funds a.(updatedValidatorWrappers) + (msg.(dAmount) - a.(delegateBalance))
             = sumZ (old_funds vs) a.(updatedValidatorWrappers);
  lo_locked : map_sum id a.(fromLockedTokens) = msg.(dAmount) - a.(delegateBalance);
  lo_dom : forall x, is_Some (a.(fromLockedTokens) !! x) -> x ∈ map diValidatorAddress seen;
  lo_addrs : forall x, x ∈ map wrapper_address a.(updatedValidatorWrappers) -> x ∈ map diValidatorAddress seen;
  lo_NoDup : NoDup (map wrapper_address a.(updatedValidatorWrappers));
  lo_wrappers : Forall (fun w => (wrapper_address w <> msg.(dValidatorAddress) -> SanityCheck w = Ok tt) /\
      version_of vs w /\ wrapper_ok w /\
      forall x, staked_by x w.(Delegations) =
        default 0 ((fun w0 => staked_by x w0.(Delegations)) <$> vs !! wrapper_address w))
    a.(updatedValidatorWrappers);
  lo_delegatee : match a.(delegateeWrapper) with
                 | Some k => exists w, a.(updatedValidatorWrappers) !! k = Some w /\
                               wrapper_address w = msg.(dValidatorAddress)
                 | None => msg.(dValidatorAddress) ∉ map wrapper_address a.(updatedValidatorWrappers)
                 end
}.

(** One wrapper with its undelegations used. *)
Lemma redelegated_wrapper a w i d e b rest b' : vs !! a = Some w -> w.(Delegations) !! i = Some d ->
  0 <= b -> redelegate e d.(Undelegations) b = (rest, b') ->
  let w' := with_Delegations w (<[i := with_Undelegations d rest]> w.(Delegations)) in
  0 <= b' <= b /\ wrapper_address w' = a /\ wrapper_funds w' + (b - b') = wrapper_funds w /\ version_of vs w' /\
  wrapper_ok w' /\ forall x, staked_by x w'.(Delegations) = staked_by x w.(Delegations).
Proof.
  intros Hw Hd Hb Hr w'. destruct Hst as [Hk Hok]. pose proof (Hok _ _ Hw) as Hwok.
  assert (delegation_nonneg d) as Hn by (eapply Forall_lookup_1; [apply Hwok|done]).
  apply redelegate_spec in Hr as (H1 & H2 & H3); [|done|apply Hn].
  split; [done|]. split; [exact (Hk a w Hw)|]. split.
  { unfold w'. rewrite (wrapper_funds_insert _ _ _ _ Hd). unfold funds, with_Undelegations. cbn. lia. }
  split; [exists w; split; [by rewrite (Hk a w Hw : wrapper_address w' = a)|done]|]. split.
  - eapply wrapper_ok_insert; [done|done|done|]. destruct Hn. by split.
  - intros x. unfold staked_by, w'. cbn [Delegations with_Delegations].
    rewrite (sumZ_insert _ _ _ _ _ Hd). cbn. lia.
Qed.

Lemma redelegate_from_ok seen di a a' : 0 <= di.(diIndex) ->
  di.(diValidatorAddress) ∉ map diValidatorAddress seen ->
  loop_ok seen a -> redelegate_from db epoch msg a di = Ok a' -> loop_ok (seen ++ [di]) a'.
Proof.
  intros Hi Hnew [B F Lk D A N W De] H. unfold redelegate_from in H.
  apply bind_Ok in H as (w & Hw%ValidatorWrapperAt_Ok & H).
  apply bind_Ok in H as (d & Hd%(delegation_at_Ok _ _ _ Hi) & H).
  destruct (redelegate epoch (Undelegations d) (delegateBalance a)) as [rest b'] eqn:Er.
  pose proof (redelegated_wrapper _ _ _ _ _ _ _ _ Hw Hd (proj1 B) Er) as (R1 & R2 & R3 & R4 & R5 & R6).
  assert (forall x, x ∈ map diValidatorAddress seen -> x ∈ map diValidatorAddress (seen ++ [di])) as Hin
    by (intros x Hx; rewrite map_app; apply elem_of_app; by left).
  destruct (Z.ltb_spec b' (delegateBalance a)) as [Hlt|Hge].
  2:{ injection H as <-. assert (b' = delegateBalance a) as -> by lia. split; cbn; try done; eauto. }
  apply bind_Ok in H as (ds & [Hr ->]%upd_inv & H). apply bind_Ok in H as ([] & Hs & H). injection H as <-.
  set (w' := with_Delegations w _) in *.
  assert (diValidatorAddress di ∉ map wrapper_address (updatedValidatorWrappers a)) as Hfresh by (intros ?%A; done).
  split; cbn [delegateBalance updatedValidatorWrappers fromLockedTokens delegateeWrapper].
  - lia.
  - rewrite !sumZ_app, !sumZ_cons, !sumZ_nil, (old_funds_at vs w' _ w R2 Hw). lia.
  - rewrite map_sum_insert_fresh; [unfold id in *; lia|]. apply eq_None_not_Some. intros ?%D. done.
  - intros x. destruct (decide (diValidatorAddress di = x)) as [<-|Hne].
    + intros _. rewrite map_app. apply elem_of_app. right. by left.
    + rewrite lookup_insert_ne by done. eauto.
  - intros x. rewrite map_app. intros [?|Hx]%elem_of_app; [eauto|].
    apply list_elem_of_singleton in Hx as ->. rewrite R2, map_app. apply elem_of_app. right. by left.
  - rewrite map_app. apply NoDup_app. split; [done|]. split; [|apply NoDup_singleton].
    intros x Hx ->%list_elem_of_singleton. rewrite R2 in Hx. done.
  - apply Forall_app. split; [done|]. constructor; [|done]. split_and!; try done.
    intros x. rewrite R6, R2, Hw. done.
  - destruct (Z.eqb_spec (diValidatorAddress di) (dValidatorAddress msg)) as [E|E].
    + exists w'. split; [|by rewrite R2]. by rewrite lookup_app_r, Nat.sub_diag by done.
    + destruct (delegateeWrapper a) as [k|].
      * destruct De as (w1 & Hl & Ha). exists w1. split; [by apply lookup_app_l_Some|done].
      * rewrite map_app, elem_of_app. intros [?|Hx%list_elem_of_singleton]; [done|]. congruence.
Qed.

Lemma redelegation_loop_ok delegations a : Forall (fun di => 0 <= di.(diIndex)) delegations ->
  NoDup (map diValidatorAddress delegations) -> 0 <= msg.(dAmount) ->
  foldM (redelegate_from db epoch msg) delegations (mkDelegateAcc msg.(dAmount) [] ∅ None) = Ok a ->
  loop_ok delegations a.
Proof.
  intros Hi Hnd Ha H.
  refine (foldM_inv (fun seen a => (exists rest, delegations = seen ++ rest) -> loop_ok seen a)
    _ _ _ _ _ _ H (ex_intro _ [] (eq_sym (app_nil_r _)))).
  - intros _. split; cbn -[sumZ]; rewrite ?sumZ_nil, ?map_sum_empty; try lia; try done; try constructor.
    + intros x Hx. by destruct Hx.
    + by intros ?%elem_of_nil.
  - intros seen di b b' Hb Hin Hstep [rest E]. rewrite <- app_assoc in E.
    eapply redelegate_from_ok; [| |apply Hb; eauto|done].
    + rewrite Forall_forall in Hi. by apply Hi.
    + rewrite E, map_app in Hnd. cbn in Hnd. intros Hx. apply NoDup_app in Hnd as (_ & H0 & _).
      apply (H0 _ Hx). by left.
Qed.
End redelegation.

(** ** Adding the delegation *)

Lemma add_to_absent w a amount before rest found : a ∉ map DelegatorAddress rest ->
  add_to_delegations w a amount before rest found = Ok (before ++ rest, found).
Proof.
  revert before. induction rest as [|d rest IH]; intros before Hn; cbn [add_to_delegations].
  { by rewrite app_nil_r. }
  cbn [map] in Hn. apply not_elem_of_cons in Hn as [H1 H2].
  rewrite (proj2 (Z.eqb_neq _ _)), IH by congruence. by rewrite <- app_assoc.
Qed.

Lemma add_to_present w a amount before l1 d l2 ds found found' :
  a ∉ map DelegatorAddress l1 -> d.(DelegatorAddress) = a -> a ∉ map DelegatorAddress l2 ->
  add_to_delegations w a amount before (l1 ++ d :: l2) found = Ok (ds, found') ->
  ds = before ++ l1 ++ add_amount d amount :: l2 /\ found' = true /\ SanityCheck (with_Delegations w ds) = Ok tt.
Proof.
  intros H1 <- H2. revert before. induction l1 as [|d1 l1 IH]; intros before; cbn [add_to_delegations app].
  - rewrite Z.eqb_refl. intros H. apply bind_Ok in H as ([] & Hs & H).
    rewrite add_to_absent in H by done. injection H as <- <-. rewrite <- app_assoc. done.
  - cbn [map] in H1. apply not_elem_of_cons in H1 as [H1 H1'].
    rewrite (proj2 (Z.eqb_neq _ _)) by congruence. intros H.
    destruct (IH H1' _ H) as (-> & -> & Hs). rewrite <- !app_assoc in *. done.
Qed.

(** One delegation of the delegator grows, or one is added. *)
Lemma apply_delegation_Ok w msg w' : NoDup (map DelegatorAddress w.(Delegations)) ->
  apply_delegation w msg = Ok w' ->
  w'.(validator) = w.(validator) /\ SanityCheck w' = Ok tt /\
  wrapper_funds w' = wrapper_funds w + msg.(dAmount) /\
  forall x, staked_by x w'.(Delegations) =
    staked_by x w.(Delegations) + if x =? msg.(dDelegatorAddress) then msg.(dAmount) else 0.
Proof.
  intros Hnd H. unfold apply_delegation in H. apply bind_Ok in H as ([ds found] & Hl & H).
  unfold wrapper_funds, staked_by.
  destruct (decide (msg.(dDelegatorAddress) ∈ map DelegatorAddress w.(Delegations))) as [Hin|Hn].
  - apply list_elem_of_In, in_map_iff in Hin as (d & Hd & Hin%list_elem_of_In).
    apply list_elem_of_split in Hin as (l1 & l2 & El). rewrite El in Hnd, Hl. rewrite map_app in Hnd. cbn in Hnd.
    apply NoDup_app in Hnd as (_ & Hd1 & [Hd2 _]%NoDup_cons).
    apply add_to_present in Hl as (-> & -> & Hs); [|intros Hx; apply (Hd1 _ Hx); rewrite <- Hd; by left|done
      |by rewrite <- Hd].
    injection H as <-. split; [done|]. split; [done|]. rewrite El. cbn [Delegations with_Delegations app].
    rewrite !sumZ_app, !sumZ_cons. split; [unfold funds, add_amount; cbn; lia|]. intros x.
    rewrite !sumZ_app, !sumZ_cons. cbn [add_amount DelegatorAddress Amount]. rewrite Hd, (Z.eqb_sym x).
    destruct (_ =? x); lia.
  - rewrite add_to_absent in Hl by done. injection Hl as <- <-. cbn [negb app] in H.
    apply bind_Ok in H as ([] & Hs & [= <-]). split; [done|]. split; [done|]. cbn [Delegations with_Delegations].
    rewrite !sumZ_app, !sumZ_cons, !sumZ_nil. split; [unfold funds, locked; cbn; rewrite sumZ_nil; lia|].
    intros x. rewrite !sumZ_app, !sumZ_cons, !sumZ_nil. cbn [NewDelegation DelegatorAddress Amount].
    rewrite (Z.eqb_sym x). destruct (_ =? x); lia.
Qed.

(** The effect of the message on the wrappers of the state. *)
Record delegated (db : StateDB) (msg : Delegate) (ws : list ValidatorWrapper) (fromBalance : Z)
    (fromLocked : gmap Address Z) : Prop := {
  de_balance : 0 <= fromBalance <= msg.(dAmount);
  de_affordable : fromBalance = 0 \/ fromBalance <= GetBalance db msg.(dDelegatorAddress);
  de_sources : fromBalance + map_sum id fromLocked = msg.(dAmount);
  de_NoDup : NoDup (map wrapper_address ws);
  de_wrappers : Forall (fun w => SanityCheck w = Ok tt /\ version_of db.(wrappers) w) ws;
  de_funds : sumZ wrapper_funds ws = sumZ (old_funds db.(wrappers)) ws + fromBalance;
  de_stakes : forall w x, w ∈ ws -> staked_by x w.(Delegations) =
    default 0 ((fun w0 => staked_by x w0.(Delegations)) <$> db.(wrappers) !! wrapper_address w) +
    if (wrapper_address w =? msg.(dValidatorAddress)) && (x =? msg.(dDelegatorAddress)) then msg.(dAmount) else 0;
  de_delegatee : msg.(dValidatorAddress) ∈ map wrapper_address ws
}.

(** The last step: the delegatee's wrapper, with the others as the loop left them. *)
Lemma delegatee_updated db msg seen a k w w' : state_ok db.(wrappers) -> loop_ok db msg seen a ->
  a.(updatedValidatorWrappers) !! k = Some w -> wrapper_address w = msg.(dValidatorAddress) ->
  apply_delegation w msg = Ok w' ->
  (a.(delegateBalance) = 0 \/ a.(delegateBalance) <= GetBalance db msg.(dDelegatorAddress)) ->
  delegated db msg (<[k := w']> a.(updatedValidatorWrappers)) a.(delegateBalance) a.(fromLockedTokens).
Proof.
  intros Hst [B F Lk D A N W De] Hk Ha H Hbal. rewrite Forall_forall in W.
  destruct (W w ltac:(by eapply list_elem_of_lookup_2)) as (_ & Hv & Hok & Hstake).
  apply apply_delegation_Ok in H as (V & S & Fw & St); [|apply Hok].
  assert (wrapper_address w' = wrapper_address w) as Ea by (unfold wrapper_address; by rewrite V).
  assert (map wrapper_address (<[k:=w']> (updatedValidatorWrappers a)) = map wrapper_address (updatedValidatorWrappers a)) as Em.
  { change (wrapper_address <$> <[k:=w']> (updatedValidatorWrappers a) = wrapper_address <$> updatedValidatorWrappers a).
    rewrite list_fmap_insert, list_insert_id; [done|]. by rewrite list_lookup_fmap, Hk, Ea. }
  assert (forall x, x ∈ <[k:=w']> (updatedValidatorWrappers a) -> x = w' \/
    x ∈ updatedValidatorWrappers a /\ wrapper_address x <> msg.(dValidatorAddress)) as Hcase.
  { intros x [i Hx]%list_elem_of_lookup. destruct (decide (i = k)) as [->|Hne].
    - rewrite list_lookup_insert_eq in Hx by (by eapply lookup_lt_Some). left. congruence.
    - rewrite list_lookup_insert_ne in Hx by done. right. split; [by eapply list_elem_of_lookup_2|].
      intros E. apply Hne. eapply (NoDup_lookup _ _ _ (wrapper_address x) N);
        [by rewrite lookup_map, Hx|by rewrite lookup_map, Hk; cbn; rewrite E, Ha]. }
  split; try done.
  - lia.
  - by rewrite Em.
  - apply Forall_forall. intros x [->|[Hx Hne]]%Hcase; [|destruct (W x Hx) as (Hs & Hx' & _); auto].
    split; [done|]. destruct Hv as (w0 & ? & ?). exists w0. by rewrite Ea, V.
  - rewrite !(sumZ_insert _ _ _ _ _ Hk). assert (old_funds (wrappers db) w' = old_funds (wrappers db) w) as ->
      by (unfold old_funds; by rewrite Ea). lia.
  - intros y x [->|[Hy Hne]]%Hcase.
    + rewrite St, Hstake, Ea, Ha, Z.eqb_refl. done.
    + destruct (W y Hy) as (_ & _ & _ & ->). rewrite (proj2 (Z.eqb_neq _ _)) by done. cbn. lia.
  - rewrite Em. apply list_elem_of_In, in_map_iff. exists w. split; [done|].
    apply list_elem_of_In. by eapply list_elem_of_lookup_2.
Qed.

(** The delegatee was not redelegated from: its stored wrapper joins. *)
Lemma delegatee_joins db msg seen a w : state_ok db.(wrappers) -> loop_ok db msg seen a ->
  a.(delegateeWrapper) = None -> db.(wrappers) !! msg.(dValidatorAddress) = Some w ->
  loop_ok db msg (mkIndex msg.(dValidatorAddress) 0 :: seen)
    (mkDelegateAcc a.(delegateBalance) (a.(updatedValidatorWrappers) ++ [w]) a.(fromLockedTokens)
       (Some (length a.(updatedValidatorWrappers)))).
Proof.
  intros [Hk Hok] [B F Lk D A N W De] E Hw. rewrite E in De. pose proof (Hk _ _ Hw : wrapper_address w = _) as Ha.
  split; cbn [delegateBalance updatedValidatorWrappers fromLockedTokens delegateeWrapper map diValidatorAddress];
    try done.
  - rewrite !sumZ_app, !sumZ_cons, !sumZ_nil, (old_funds_at _ w _ w Ha Hw). lia.
  - intros x Hx. right. by apply D.
  - intros x. rewrite map_app. intros [Hx|Hx%list_elem_of_singleton]%elem_of_app;
      [right; by apply A|rewrite Hx, Ha; by left].
  - rewrite map_app. apply NoDup_app. split; [done|]. split; [|apply NoDup_singleton].
    intros x Hx ->%list_elem_of_singleton. by rewrite Ha in Hx.
  - apply Forall_app. split; [done|]. constructor; [|done]. split; [by rewrite Ha|].
    split; [by exists w; rewrite Ha|]. split; [by eapply Hok|]. intros x. by rewrite Ha, Hw.
  - exists w. split; [|done]. by rewrite lookup_app_r, Nat.sub_diag by done.
Qed.

(** C22: delegating conserves tokens.  On a state whose wrappers are stored under
    their own addresses, with at most one delegation per delegator and no
    negative amounts, and for indexes of different validators, whatever
    [VerifyAndDelegateFromMsg] accepts is paid for: what leaves the balance plus
    what is taken out of undelegation, validator by validator, is the message's
    amount; the balance can afford its part; the returned wrappers are sane
    versions of different validators and together hold exactly the tokens they
    held before plus what left the balance; and the only active stake that
    changes is the delegator's with the delegatee, by the whole amount. *)
Theorem VerifyAndDelegateFromMsg_conserves db epoch msg delegations cfg ws fromBalance fromLocked :
  state_ok db.(wrappers) -> Forall (fun di => 0 <= di.(diIndex)) delegations ->
  NoDup (map diValidatorAddress delegations) ->
  VerifyAndDelegateFromMsg (Some db) epoch msg delegations cfg = Ok (ws, fromBalance, fromLocked) ->
  delegated db msg ws fromBalance fromLocked.
Proof.
  intros Hst Hi Hnd H. unfold VerifyAndDelegateFromMsg in H.
  destruct (negb _); [done|]. destruct (Z.eqb_spec (Z.sgn (dAmount msg)) (-1)) as [|Hamt]; [done|].
  apply bind_Ok in H as ([] & _ & H). apply bind_Ok in H as (a & Hloop & H).
  assert (exists seen, loop_ok db msg seen a) as [seen Ha].
  { assert (forall e, foldM (redelegate_from db e msg) delegations (mkDelegateAcc msg.(dAmount) [] ∅ None) = Ok a ->
      loop_ok db msg delegations a) as Hl by (intros e; apply redelegation_loop_ok; [done..|lia]).
    assert (loop_ok db msg [] (mkDelegateAcc msg.(dAmount) [] ∅ None)) as H0.
    { eapply (redelegation_loop_ok db 0 msg Hst []); [done|constructor|lia|done]. }
    destruct epoch as [e|]; [destruct (IsRedelegation cfg (Some e))|]; [by eauto| |];
      injection Hloop as <-; by eauto. }
  apply bind_Ok in H as ([ws0 k] & Hws & H). apply bind_Ok in H as (w & [_ Hk]%idx_inv & H).
  rewrite Nat2Z.id in Hk. apply bind_Ok in H as (w' & Happly & H).
  apply bind_Ok in H as (ws1 & [_ ->]%upd_inv & H). rewrite Nat2Z.id in H.
  assert (fromBalance = a.(delegateBalance) /\ fromLocked = a.(fromLockedTokens) /\ ws = <[k := w']> ws0 /\ 
    (a.(delegateBalance) = 0 \/ a.(delegateBalance) <= GetBalance db msg.(dDelegatorAddress)))
    as (-> & -> & -> & Hbal).
  { unfold CanTransfer in H. destruct (Z.eqb_spec (delegateBalance a) 0) as [E|E].
    - injection H as <- <- <-. rewrite E. tauto.
    - destruct (Z.leb_spec (delegateBalance a) (GetBalance db (dDelegatorAddress msg))); [|done].
      injection H as <- <- <-. tauto. }
  pose proof (lo_delegatee _ _ _ _ Ha) as De. destruct (delegateeWrapper a) as [j|] eqn:Ej.
  - injection Hws as <- <-. destruct De as (w0 & Hl & Haw). rewrite Hl in Hk. injection Hk as ->.
    by eapply delegatee_updated.
  - apply bind_Ok in Hws as (w0 & Hw0%ValidatorWrapperAt_Ok & [= <- <-]).
    rewrite lookup_app_r, Nat.sub_diag in Hk by done. injection Hk as ->.
    pose proof (delegatee_joins db msg seen a w Hst Ha Ej Hw0) as Hj.
    refine (delegatee_updated db msg _ _ _ w w' Hst Hj _ _ Happly Hbal).
    + cbn. by rewrite lookup_app_r, Nat.sub_diag by done.
    + by apply Hst.
Qed.

(** ** Undelegation *)

Lemma undelegate_first_Ok a epoch amount ds ds' : undelegate_first a epoch amount ds = Ok ds' ->
  exists l1 d d' l2, ds = l1 ++ d :: l2 /\ ds' = l1 ++ d' :: l2 /\ d.(DelegatorAddress) = a /\
    a ∉ map DelegatorAddress l1 /\ Undelegate d epoch amount = Ok d'.
Proof.
  revert ds'. induction ds as [|d ds IH]; intros ds'; cbn [undelegate_first]; [done|].
  destruct (Z.eqb_spec (DelegatorAddress d) a) as [E|E]; intros H; apply bind_Ok in H as (x & Hx & [= <-]).
  - exists [], d, x, ds. split_and!; try done. by intros ?%elem_of_nil.
  - destruct (IH _ Hx) as (l1 & d0 & d' & l2 & -> & -> & Hd & Hn & Hu).
    exists (d :: l1), d0, d', l2. split_and!; try done. cbn. rewrite not_elem_of_cons. split; [congruence|done].
Qed.

(** A wrapper that still has delegations within the maximum is kept, inactive
    when its own stake is too small. *)
Lemma check_or_deactivate_Ok w w' : check_or_deactivate w = Ok w' ->
  (w' = w /\ SanityCheck w = Ok tt) \/
  (w' = with_validator w (with_Status w.(validator) Inactive) /\ SanityCheck w = Err ErrInvalidSelfDelegation).
Proof.
  unfold check_or_deactivate. destruct (SanityCheck w) as [[]|e|] eqn:E; [|case_decide; [|done]|done];
    intros [= <-]; [by left|]. right. split; [done|]. by f_equal.
Qed.

Lemma check_or_deactivate_sane w w' : validator_sane w.(validator) -> w.(Delegations) <> [] ->
  TotalDelegation w <= default 0 w.(validator).(MaxTotalDelegation) ->
  check_or_deactivate w = Ok w' -> wrapper_sane w'.
Proof.
  intros Hv Hd Ht [[-> Hs]|[-> _]]%check_or_deactivate_Ok; [by apply SanityCheck_Ok|].
  split; [by destruct Hv; split| |done]. cbn.
  destruct (Delegations w) as [|self rest]; [done|]. exists self, rest. split; [done|]. by intros.
Qed.

Lemma check_or_deactivate_funds w w' : check_or_deactivate w = Ok w' -> w'.(Delegations) = w.(Delegations).
Proof. by intros [[-> _]|[-> _]]%check_or_deactivate_Ok. Qed.

Definition epochs_ok (w : ValidatorWrapper) : Prop :=
  Forall (fun d => epochs_sorted d.(Undelegations)) w.(Delegations).


(** ** Collecting rewards *)

Definition no_reward (d : Delegation) : Delegation :=
  mkDelegation d.(DelegatorAddress) d.(Amount) 0 d.(Undelegations).

(** An index of the state, with what it points to. *)
Definition points_to (vs : ValidatorState) (di : DelegationIndex) (w : ValidatorWrapper) (d : Delegation) : Prop :=
  vs !! di.(diValidatorAddress) = Some w /\ 0 <= di.(diIndex) /\ w.(Delegations) !! Z.to_nat di.(diIndex) = Some d.

Lemma points_to_idx vs di w d : points_to vs di w d ->
  ValidatorWrapperAt vs di.(diValidatorAddress) = Ok w /\ delegation_at w di.(diIndex) = Ok d /\
  forall d', upd w.(Delegations) di.(diIndex) d' = Ok (<[Z.to_nat di.(diIndex) := d']> w.(Delegations)).
Proof.
  intros (Hw & Hi & Hd). split; [by apply ValidatorWrapperAt_Ok|].
  pose proof (lookup_lt_Some _ _ _ Hd) as Hlt. split; [|intros d'; apply upd_Ok; lia].
  unfold delegation_at. rewrite (proj2 (Z.leb_gt _ _)) by lia. by apply idx_Ok.
Qed.

Definition collected (w : ValidatorWrapper) (di : DelegationIndex) (d : Delegation) : ValidatorWrapper :=
  with_Delegations w (<[Z.to_nat di.(diIndex) := no_reward d]> w.(Delegations)).

Lemma collect_one_Ok db acc di w d : points_to db.(wrappers) di w d -> 0 <= d.(Reward) ->
  collect_one db acc di = Ok (acc.1 ++ [collected w di d], acc.2 + d.(Reward)).
Proof.
  intros Hp Hr. destruct acc as [updated total]. unfold collect_one, collected.
  destruct (points_to_idx _ _ _ _ Hp) as (-> & E & Hu). cbn [mbind outcome_bind]. rewrite E.
  cbn [mbind outcome_bind]. destruct (Z.ltb_spec 0 (Reward d)) as [H|H].
  - by rewrite Hu.
  - assert (Reward d = 0) as E0 by lia. rewrite E0, Z.add_0_r. cbn. f_equal. f_equal. f_equal. f_equal.
    destruct Hp as (_ & _ & Hd). rewrite list_insert_id; [by destruct w|].
    rewrite Hd. f_equal. unfold no_reward. rewrite <- E0. by destruct d.
Qed.

Lemma collected_funds vs w di d : points_to vs di w d ->
  wrapper_funds (collected w di d) = wrapper_funds w - d.(Reward) /\
  forall a, staked_by a (collected w di d).(Delegations) = staked_by a w.(Delegations).
Proof.
  intros (_ & _ & Hd). unfold collected. rewrite (wrapper_funds_insert _ _ _ _ Hd). split.
  - unfold funds, no_reward. cbn [Amount Reward Undelegations]. lia.
  - intros a. unfold staked_by. cbn [Delegations with_Delegations]. rewrite (sumZ_insert _ _ _ _ _ Hd). cbn. lia.
Qed.

(** Collecting takes exactly the rewards there are.  For indexes that exist
    in a state without negative amounts, [VerifyAndCollectRewardsFromDelegation]
    returns each indexed wrapper with that delegation's reward set to zero and
    nothing else changed, and the total it pays is the sum of these rewards, so
    wrappers and payment together are worth what the wrappers were; the only
    refusal is a total whose low 64 bits are zero. *)
Theorem VerifyAndCollectRewards_exact db (l : list (DelegationIndex * ValidatorWrapper * Delegation)) :
  Forall (fun '(di, w, d) => points_to db.(wrappers) di w d /\ 0 <= d.(Reward)) l ->
  let total := sumZ (fun x => x.2.(Reward)) l in
  let ws := map (fun x => collected x.1.2 x.1.1 x.2) l in
  VerifyAndCollectRewardsFromDelegation (Some db) (map (fun x => x.1.1) l) =
    (if total mod 2 ^ 64 =? 0 then Err errNoRewardsToCollect else Ok (ws, total)) /\
  sumZ wrapper_funds ws + total = sumZ (fun x => wrapper_funds x.1.2) l /\
  forall a, sumZ (fun w => staked_by a w.(Delegations)) ws = sumZ (fun x => staked_by a x.1.2.(Delegations)) l.
Proof.
  intros Hl total ws. unfold VerifyAndCollectRewardsFromDelegation.
  assert (forall acc, foldM (collect_one db) (map (fun x => x.1.1) l) acc = Ok (acc.1 ++ ws, acc.2 + total)) as ->.
  { unfold ws, total. clear ws total. induction Hl as [|[[di w] d] l [Hp Hr] _ IH]; intros [u t]; cbn [map foldM].
    - by rewrite sumZ_nil, app_nil_r, Z.add_0_r.
    - cbn [fst snd]. rewrite (collect_one_Ok _ _ _ _ _ Hp Hr). cbn [mbind outcome_bind]. rewrite IH.
      cbn [fst snd]. by rewrite sumZ_cons, <- app_assoc, Z.add_assoc. }
  cbn [mbind outcome_bind fst snd app]. rewrite Z.add_0_l. split; [|split].
  - assert ((Big.Int64 total =? 0) = (total mod 2 ^ 64 =? 0)) as ->; [|done].
    unfold Big.Int64. apply eq_bool_prop_intro. rewrite !Is_true_true, !Z.eqb_eq. apply i64_zero.
  - unfold ws, total. clear ws total. induction Hl as [|[[di w] d] l [Hp Hr] _ IH]; [done|]. cbn [map].
    rewrite !sumZ_cons. cbn [fst snd]. rewrite (proj1 (collected_funds _ _ _ _ Hp)). lia.
  - intros a. unfold ws. clear ws total. induction Hl as [|[[di w] d] l [Hp Hr] _ IH]; [done|]. cbn [map].
    rewrite !sumZ_cons. cbn [fst snd]. by rewrite IH, (proj2 (collected_funds _ _ _ _ Hp)).
Qed.

(** ** Migration *)

Lemma merge_locked us l : locked (foldl merge_undelegation l us) = locked l + locked us.
Proof.
  revert l. induction us as [|u us IH]; intros l; cbn [foldl]; [unfold locked; rewrite sumZ_nil; lia|].
  rewrite IH. assert (locked (merge_undelegation l u) = locked l + u.(uAmount)) as ->; [|unfold locked; rewrite sumZ_cons; lia].
  unfold merge_undelegation. destruct (add_to_entry _ _ l) as [l'|] eqn:E.
  - by apply add_to_entry_Some in E as [H _].
  - unfold locked. rewrite sumZ_app, sumZ_cons, sumZ_nil. lia.
Qed.

Lemma locked_sort l : locked (sort_undelegations l) = locked l.
Proof. apply locked_perm, SliceStable_perm. Qed.

Lemma give_to_Some a amount us ds ds' total : give_to a amount us ds = Some (ds', total) ->
  exists l1 d d' l2, ds = l1 ++ d :: l2 /\ ds' = l1 ++ d' :: l2 /\ d.(DelegatorAddress) = a /\
    d'.(DelegatorAddress) = a /\ d'.(Amount) = d.(Amount) + amount /\ total = d'.(Amount) /\
    funds d' = funds d + amount + locked us.
Proof.
  revert ds'. induction ds as [|d ds IH]; intros ds'; cbn [give_to]; [done|].
  destruct (Z.eqb_spec (DelegatorAddress d) a) as [E|E].
  - intros [= <- <-]. exists [], d. eexists. exists ds. split; [done|]. split; [done|].
    split_and!; try done. unfold funds. cbn [Amount Reward Undelegations].
    rewrite locked_sort, merge_locked. lia.
  - destruct (give_to a amount us ds) as [[r t]|]; [|done]. intros [= <- <-].
    destruct (IH _ eq_refl) as (l1 & d0 & d' & l2 & -> & -> & H). exists (d :: l1), d0, d', l2. split; [done|]. split; [done|]. exact H.
Qed.

Lemma give_to_None a amount us ds : give_to a amount us ds = None <-> a ∉ map DelegatorAddress ds.
Proof.
  induction ds as [|d ds IH]; cbn [give_to map]; [split; [by intros _ ?%elem_of_nil|done]|].
  rewrite not_elem_of_cons. destruct (Z.eqb_spec (DelegatorAddress d) a) as [E|E].
  - split; [done|]. by intros [[] _].
  - destruct (give_to a amount us ds) as [[r t]|]; split; try done.
    + intros [_ H]. by apply IH in H.
    + intros _. split; [by apply not_eq_sym|by apply IH].
Qed.

Lemma staked_by_absent a ds : a ∉ map DelegatorAddress ds -> staked_by a ds = 0.
Proof.
  intros Hn. apply sumZ_zero. intros d Hd. destruct (Z.eqb_spec (DelegatorAddress d) a) as [E|E]; [|done].
  exfalso. apply Hn. rewrite <- E. apply list_elem_of_In, in_map. by apply list_elem_of_In.
Qed.

(** A wrapper whose [From] delegation was emptied and given to [To]. *)
Record migrated (vs : ValidatorState) (msg : MigrationMsg) (di : DelegationIndex) (w' : ValidatorWrapper) : Prop := {
  mi_source : exists w d, points_to vs di w d /\ d.(DelegatorAddress) = msg.(From) /\
    wrapper_funds w' =
      wrapper_funds w - (if decide (msg.(To) ∈ map DelegatorAddress w.(Delegations)) then 0
                         else locked d.(Undelegations)) /\
    TotalDelegation w' = TotalDelegation w /\
    staked_by msg.(From) w'.(Delegations) = 0 /\
    staked_by msg.(To) w'.(Delegations) =
      staked_by msg.(To) w.(Delegations) + staked_by msg.(From) w.(Delegations) /\
    (forall x, x <> msg.(From) -> x <> msg.(To) -> staked_by x w'.(Delegations) = staked_by x w.(Delegations)) /\
    (w'.(validator) = w.(validator) \/ w'.(validator) = with_Status w.(validator) Inactive)
}.

(** Whether an index has anything to migrate. *)
Definition has_stake (vs : ValidatorState) (di : DelegationIndex) : bool :=
  match vs !! di.(diValidatorAddress) with
  | Some w => match w.(Delegations) !! Z.to_nat di.(diIndex) with
              | Some d => negb ((d.(Amount) =? 0) && (length d.(Undelegations) =? 0)%nat)
              | None => false
              end
  | None => false
  end.

(** Only one delegation of a delegator counts. *)
Lemma staked_by_one a l1 d l2 : NoDup (map DelegatorAddress (l1 ++ d :: l2)) -> d.(DelegatorAddress) = a ->
  staked_by a l1 = 0 /\ staked_by a l2 = 0.
Proof.
  rewrite map_app. cbn. intros (_ & H1 & [H2 _]%NoDup_cons)%NoDup_app <-.
  split; apply staked_by_absent; [|done]. intros Hin. apply (H1 _ Hin). by left.
Qed.

(** The delegations once the tokens were given. *)
Definition given (to_ : Address) (amount : Z) (us : list Undelegation) (ds : list Delegation)
    : list Delegation * Z :=
  match give_to to_ amount us ds with
  | Some r => r
  | None => (ds ++ [NewDelegation to_ amount], amount)
  end.

Lemma given_spec a amount us ds ds' total : NoDup (map DelegatorAddress ds) ->
  given a amount us ds = (ds', total) ->
  sumZ Amount ds' = sumZ Amount ds + amount /\
  (forall x, staked_by x ds' = staked_by x ds + if x =? a then amount else 0) /\
  total = staked_by a ds' /\
  sumZ funds ds' = sumZ funds ds + amount + (if decide (a ∈ map DelegatorAddress ds) then locked us else 0).
Proof.
  intros Hnd. unfold given. destruct (give_to a amount us ds) as [[r t]|] eqn:E.
  - intros [= <- <-]. apply give_to_Some in E as (l1 & d & d' & l2 & -> & -> & Ha & Ha' & Hm & -> & Hf).
    rewrite decide_True by (rewrite map_app, <- Ha; apply elem_of_app; right; by left).
    destruct (staked_by_one _ _ _ _ Hnd Ha) as [Z1 Z2].
    assert (forall x, staked_by x (l1 ++ d' :: l2) =
      staked_by x (l1 ++ d :: l2) + if x =? a then amount else 0) as Hs.
    { intros x. unfold staked_by. rewrite !sumZ_app, !sumZ_cons, Ha, Ha', (Z.eqb_sym x). destruct (_ =? x); lia. }
    split; [rewrite !sumZ_app, !sumZ_cons; lia|]. split; [done|]. split; [|rewrite !sumZ_app, !sumZ_cons; lia].
    unfold staked_by in *. rewrite sumZ_app, sumZ_cons, Z1, Z2, Ha', Z.eqb_refl. lia.
  - intros [= <- <-]. apply give_to_None in E. rewrite decide_False by done.
    rewrite !sumZ_app, !sumZ_cons, !sumZ_nil. split; [cbn; lia|].
    assert (forall x, staked_by x (ds ++ [NewDelegation a amount]) = staked_by x ds + if x =? a then amount else 0) as Hs.
    { intros x. unfold staked_by. rewrite sumZ_app, sumZ_cons, sumZ_nil. cbn. rewrite (Z.eqb_sym x). destruct (_ =? x); lia. }
    split; [done|]. split; [rewrite Hs, (staked_by_absent _ _ E), Z.eqb_refl; lia|].
    unfold funds at 2. cbn. unfold locked. rewrite sumZ_nil. lia.
Qed.

(** The source emptied, before anything is given. *)
Lemma emptied_spec ds i d : NoDup (map DelegatorAddress ds) -> ds !! i = Some d ->
  let ds0 := <[i := mkDelegation d.(DelegatorAddress) 0 d.(Reward) []]> ds in
  map DelegatorAddress ds0 = map DelegatorAddress ds /\
  sumZ Amount ds0 = sumZ Amount ds - d.(Amount) /\
  sumZ funds ds0 = sumZ funds ds - d.(Amount) - locked d.(Undelegations) /\
  staked_by d.(DelegatorAddress) ds = d.(Amount) /\
  forall x, staked_by x ds0 = if x =? d.(DelegatorAddress) then 0 else staked_by x ds.
Proof.
  intros Hnd Hi ds0.
  assert (staked_by d.(DelegatorAddress) ds = d.(Amount)) as Hs.
  { rewrite <- (take_drop_middle _ _ _ Hi) in Hnd |- *. destruct (staked_by_one _ _ _ _ Hnd eq_refl) as [Z1 Z2].
    unfold staked_by in *. rewrite sumZ_app, sumZ_cons, Z1, Z2, Z.eqb_refl. lia. }
  unfold ds0. split; [|split; [|split; [|split; [done|]]]].
  - change (DelegatorAddress <$> <[i:=mkDelegation d.(DelegatorAddress) 0 d.(Reward) []]> ds
      = DelegatorAddress <$> ds).
    rewrite list_fmap_insert, list_insert_id; [done|]. by rewrite list_lookup_fmap, Hi.
  - rewrite (sumZ_insert _ _ _ _ _ Hi). cbn. lia.
  - rewrite (sumZ_insert _ _ _ _ _ Hi). unfold funds at 2 3. cbn [Amount Reward Undelegations].
    change (locked []) with 0. lia.
  - intros x. unfold staked_by in *. rewrite (sumZ_insert _ _ _ _ _ Hi). cbn [DelegatorAddress Amount].
    rewrite (Z.eqb_sym x). destruct (Z.eqb_spec (DelegatorAddress d) x) as [<-|]; lia.
Qed.

Lemma migrate_one_Ok db msg acc di acc' : state_ok db.(wrappers) -> 0 <= di.(diIndex) ->
  msg.(From) <> msg.(To) -> migrate_one db msg acc di = Ok acc' ->
  if has_stake db.(wrappers) di
  then exists w', migrated db.(wrappers) msg di w' /\
         acc' = (acc.1 ++ [w'], acc.2 ++ [mkDelegate msg.(To) (wrapper_address w') (staked_by msg.(To) w'.(Delegations))])
  else acc' = acc.
Proof.
  intros [_ Hok] Hi Hne H. destruct acc as [ws ms]. unfold migrate_one in H.
  apply bind_Ok in H as (w & Hw%ValidatorWrapperAt_Ok & H).
  apply bind_Ok in H as (d & Hd%(delegation_at_Ok _ _ _ Hi) & H).
  destruct (Z.eqb_spec (DelegatorAddress d) (From msg)) as [Ha|]; cbn [negb] in H; [|done].
  unfold has_stake. rewrite Hw, Hd. destruct (_ && _); cbn [negb]; [by injection H as <-|].
  apply bind_Ok in H as (ds0 & [_ ->]%upd_inv & H).
  destruct (Hok _ _ Hw) as [_ Hnd]. pose proof (emptied_spec _ _ _ Hnd Hd) as (E1 & E2 & E3 & E4 & E5).
  set (ds0 := <[_ := _]> (Delegations w)) in *. rewrite Ha in E4, E5.
  change (match give_to _ _ _ _ with Some r => r | None => _ end)
    with (given msg.(To) d.(Amount) d.(Undelegations) ds0) in H.
  destruct (given _ _ _ ds0) as [ds total] eqn:Eg.
  apply given_spec in Eg as (G1 & G2 & G3 & G4); [|by rewrite E1]. rewrite E1 in G4.
  apply bind_Ok in H as (w' & Hc & [= <-]). pose proof (check_or_deactivate_funds _ _ Hc) as Ed. cbn in Ed.
  exists w'. rewrite Ed, G3. split; [|done]. split. exists w, d.
  rewrite !TotalDelegation_sum, !Ed. unfold wrapper_funds. rewrite Ed, !G2, !E5, Z.eqb_refl.
  rewrite (proj2 (Z.eqb_neq _ _) Hne), (proj2 (Z.eqb_neq _ _) (not_eq_sym Hne)), Z.eqb_refl.
  split; [by split|]. split; [done|]. split; [rewrite G4; case_decide; lia|]. split_and!; [lia|lia|lia| |].
  - intros x H1 H2. rewrite G2, E5, !(proj2 (Z.eqb_neq _ _)) by done. lia.
  - apply check_or_deactivate_Ok in Hc as [[-> _]|[-> _]]; [by left|by right].
Qed.

(** Migrating hands over the whole stake.  An accepted [VerifyAndMigrateFromMsg]
    returns one wrapper, and one message, for each index that had stake or locked
    tokens, in order; in each, all of [From]'s active stake is [To]'s, everybody
    else's is as before, and the message says what [To] has there now.  The
    wrapper keeps its tokens when [To] already had a delegation in it; when it had
    none, the locked tokens of [From] are missing from the new wrapper. *)
Theorem VerifyAndMigrateFromMsg_moves db msg dis ws msgs :
  state_ok db.(wrappers) -> Forall (fun di => 0 <= di.(diIndex)) dis ->
  VerifyAndMigrateFromMsg db msg dis = Ok (ws, msgs) ->
  Forall2 (migrated db.(wrappers) msg) (List.filter (has_stake db.(wrappers)) dis) ws /\
  msgs = map (fun w => mkDelegate msg.(To) (wrapper_address w) (staked_by msg.(To) w.(Delegations))) ws.
Proof.
  intros Hst Hi H. unfold VerifyAndMigrateFromMsg in H.
  destruct (Z.eqb_spec (From msg) (To msg)) as [|Hne]; [done|].
  assert (foldM (migrate_one db msg) dis ([], []) = Ok (ws, msgs)) as Hf by (by destruct dis).
  clear H. apply (foldM_inv (fun seen acc =>
    Forall2 (migrated db.(wrappers) msg) (List.filter (has_stake db.(wrappers)) seen) acc.1 /\
    acc.2 = map (fun w => mkDelegate msg.(To) (wrapper_address w) (staked_by msg.(To) w.(Delegations))) acc.1)) in Hf;
    [done|by split|].
  intros seen di acc acc' [H1 H2] Hin Hstep. rewrite Forall_forall in Hi.
  apply migrate_one_Ok in Hstep; [|done|by apply Hi|done]. rewrite List.filter_app. cbn [List.filter].
  destruct (has_stake _ di).
  - destruct Hstep as (w' & Hm & ->). cbn [fst snd]. split; [by apply Forall2_app; [|constructor]|].
    by rewrite map_app, H2.
  - subst acc'. by rewrite app_nil_r.
Qed.

(** ** No two validators share an identity or a key *)

Definition Identity_of (w : ValidatorWrapper) : string := w.(validator).(description).(Identity).
Definition keys_of (w : ValidatorWrapper) : list SerializedPublicKey := w.(validator).(SlotPubKeys).

(** Two validators that may coexist. *)
Definition distinct_validators (w1 w2 : ValidatorWrapper) : Prop :=
  (Identity_of w1 = ""%string \/ Identity_of w1 <> Identity_of w2) /\
  forall k, k ∈ keys_of w1 -> k ∉ keys_of w2.

(** The invariant of the validator list. *)
Definition all_distinct (vs : ValidatorState) (addrs : list Address) : Prop :=
  forall a b wa wb, a ∈ addrs -> b ∈ addrs -> a <> b -> vs !! a = Some wa -> vs !! b = Some wb ->
    distinct_validators wa wb.

Lemma distinct_validators_sym w1 w2 : distinct_validators w1 w2 -> distinct_validators w2 w1.
Proof.
  intros [H1 H2]. split.
  - destruct (decide (Identity_of w2 = ""%string)); [by left|right]. destruct H1; congruence.
  - intros k H3 H4. by apply (H2 k).
Qed.

Lemma checkDuplicateFields_Ok state v identity blsKeys addrs :
  checkDuplicateFields state v identity blsKeys addrs = Ok tt ->
  forall a, a ∈ addrs -> a <> v -> exists w, state.(wrappers) !! a = Some w /\
    (identity = ""%string \/ Identity_of w <> identity) /\ forall k, k ∈ keys_of w -> k ∉ blsKeys.
Proof.
  induction addrs as [|a0 addrs IH]; cbn [checkDuplicateFields]; [by intros _ a ?%elem_of_nil|].
  destruct (Z.eqb_spec v a0) as [->|Hv].
  - intros H a [->|Ha]%elem_of_cons Hne; [done|]. by apply IH.
  - intros H. apply bind_Ok in H as (w & Hw%ValidatorWrapperAt_Ok & H).
    destruct (bool_decide_reflect (identity <> ""%string)) as [Hid|Hid];
      destruct (bool_decide_reflect (Identity (description (validator w)) = identity)) as [He|He];
      cbn [andb] in H; try discriminate H;
      (destruct (existsb _ _) eqn:Ex; [discriminate H|]);
      (intros a [->|Ha]%elem_of_cons Hne; [|by apply IH]);
      exists w; (split; [done|]); (split; [by first [by right|left; by apply dec_stable]|]);
      intros k Hk Hin; (enough (existsb (fun k => bool_decide (k ∈ blsKeys)) (SlotPubKeys (validator w)) = true)
        by congruence); apply existsb_exists; exists k; (split; [by apply list_elem_of_In|]);
      by apply bool_decide_true.
Qed.

(** Storing a wrapper whose identity and keys were checked, or were its own. *)
Lemma all_distinct_insert vs addrs v w : all_distinct vs addrs ->
  (forall a wa, a ∈ addrs -> a <> v -> vs !! a = Some wa -> distinct_validators wa w) ->
  all_distinct (<[v := w]> vs) (v :: addrs).
Proof.
  intros Hd Hnew a b wa wb Ha Hb Hne. destruct (decide (v = a)) as [<-|Hva].
  - rewrite lookup_insert_eq, lookup_insert_ne by done. intros [= <-] Hwb.
    apply distinct_validators_sym, (Hnew b); [|congruence|done]. by apply elem_of_cons in Hb as [?|?].
  - rewrite lookup_insert_ne by done. destruct (decide (v = b)) as [<-|Hvb].
    + rewrite lookup_insert_eq. intros Hwa [= <-]. apply (Hnew a); [|congruence|done].
      by apply elem_of_cons in Ha as [?|?].
    + rewrite lookup_insert_ne by done. apply Hd; [| |done].
      * by apply elem_of_cons in Ha as [?|?].
      * by apply elem_of_cons in Hb as [?|?].
Qed.

Section uniqueness.
Context {L : BLSLib} {S : SigCheck L} (Sch : Sharding.Schedule).

(** C23: a new validator is sane, paid for and unlike the others.  When
    [VerifyAndCreateValidatorFromMsg] accepts, the sender was no validator and can
    afford the amount, which is all the new wrapper holds; the wrapper passes the
    sanity check; each of its keys is signed for; and if no two listed validators
    shared an identity or a BLS key, none do once the wrapper is stored. *)
Theorem VerifyAndCreateValidator_distinct db chain epoch block msg w addrs :
  ReadValidatorList chain = Ok addrs ->
  VerifyAndCreateValidatorFromMsg Sch (Some db) (Some chain) (Some epoch) (Some block) msg = Ok w ->
  IsValidator db msg.(cvValidatorAddress) = false /\ 0 <= msg.(cvAmount) <= GetBalance db msg.(cvValidatorAddress) /\
  wrapper_address w = msg.(cvValidatorAddress) /\ wrapper_funds w = msg.(cvAmount) /\ wrapper_sane w /\
  keys_of w = msg.(cvSlotPubKeys) /\ Forall2 (fun k s => possessed k (Some s)) (keys_of w) msg.(cvSlotKeySigs) /\
  (all_distinct db.(wrappers) addrs ->
   all_distinct (<[msg.(cvValidatorAddress) := w]> db.(wrappers)) (msg.(cvValidatorAddress) :: addrs)).
Proof.
  intros Haddrs H. unfold VerifyAndCreateValidatorFromMsg in H.
  destruct (Z.eqb_spec (Z.sgn (cvAmount msg)) (-1)) as [|Hneg]; [done|].
  destruct (IsValidator db (cvValidatorAddress msg)) eqn:Ev; [done|]. rewrite Haddrs in H. cbn [mbind outcome_bind] in H.
  apply bind_Ok in H as ([] & Hdup & H). unfold CanTransfer in H.
  destruct (Z.leb_spec (cvAmount msg) (GetBalance db (cvValidatorAddress msg))) as [Hle|]; cbn [negb] in H; [|done].
  apply bind_Ok in H as (v & Hv & H). cbv zeta in H. apply bind_Ok in H as ([] & Hs%SanityCheck_Ok & [= <-]).
  unfold CreateValidatorFromNewMsg in Hv. apply bind_Ok in Hv as (desc & [-> _]%EnsureLength_Ok & Hv).
  apply bind_Ok in Hv as (i & _ & Hv). apply bind_Ok in Hv as ([] & _ & Hv).
  apply bind_Ok in Hv as ([] & Hsigs & [= <-]).
  split; [done|]. split; [lia|]. split; [done|]. split.
  { unfold wrapper_funds, funds, locked. cbn. rewrite sumZ_cons, !sumZ_nil. cbn. rewrite sumZ_nil. lia. }
  split; [done|]. split; [done|]. split; [by apply VerifyBLSKeys_Ok|].
  intros Hd. apply all_distinct_insert; [done|]. intros a wa Ha Hne Hwa.
  destruct (checkDuplicateFields_Ok _ _ _ _ _ Hdup a Ha Hne) as (w' & Hw' & Hid & Hk).
  rewrite Hwa in Hw'. injection Hw' as <-. split; [|done]. unfold Identity_of in *. cbn.
  destruct Hid as [->|Hid]; [|by right]. by destruct (decide (Identity (description (validator wa)) = ""%string)); [left|right].
Qed.

(** What an accepted edit guarantees. *)
Record edited (db : StateDB) (chain : ChainContext) (msg : EditValidator) (addrs : list Address)
    (w w' : ValidatorWrapper) (snap : ValidatorSnapshot) : Prop := {
  ed_sane : wrapper_sane w';
  ed_same : w'.(Delegations) = w.(Delegations) /\ wrapper_address w' = wrapper_address w;
  ed_rate : w'.(validator).(commission).(rates).(Rate) <= w.(validator).(commission).(rates).(MaxRate);
  ed_change : Z.abs (w'.(validator).(commission).(rates).(Rate) -
                     snap.(snapValidator).(validator).(commission).(rates).(Rate))
              <= w.(validator).(commission).(rates).(MaxChangeRate);
  ed_distinct : all_distinct db.(wrappers) addrs -> all_distinct (<[wrapper_address w := w']> db.(wrappers)) addrs
}.

(** The new validator of an accepted edit, against the others. *)
Lemma edit_distinct db msg addrs epoch w v :
  checkDuplicateFields db msg.(evValidatorAddress) msg.(evDescription).(Identity)
    (match msg.(SlotKeyToAdd) with Some k => [k] | None => [] end) addrs = Ok tt ->
  UpdateValidatorFromEditMsg Sch w.(validator) msg epoch = (v, Ok tt) -> wrapper_address w ∈ addrs ->
  db.(wrappers) !! wrapper_address w = Some w -> all_distinct db.(wrappers) addrs ->
  forall c, all_distinct (<[wrapper_address w := with_validator w (with_commission v c)]> db.(wrappers)) addrs.
Proof.
  intros Hdup Hup Hin Hw Hd c.
  destruct (UpdateValidatorFromEditMsg_spec _ _ _ _ _ Hup) as (Ha & _ & _ & _ & _ & _ & _ & _ & (kept & Hr & Hk) & _).
  pose proof (UpdateValidatorFromEditMsg_identity _ _ _ _ _ Hup) as Hid.
  assert (all_distinct (<[wrapper_address w := with_validator w (with_commission v c)]> db.(wrappers))
    (wrapper_address w :: addrs)) as H.
  2:{ intros a b wa wb H1 H2. apply H; by right. }
  apply all_distinct_insert; [done|]. intros a wa Hain Hne Hwa.
  destruct (Hd a (wrapper_address w) wa w Hain Hin Hne Hwa Hw) as [D1 D2].
  assert (a <> evValidatorAddress msg) as Hne' by (unfold wrapper_address in Hne; congruence).
  destruct (checkDuplicateFields_Ok _ _ _ _ _ Hdup a Hain Hne') as (w' & Hw' & C1 & C2).
  rewrite Hwa in Hw'. injection Hw' as <-. split.
  - unfold Identity_of in *. cbn. rewrite Hid. unfold keep_unless_empty. case_decide as E; [done|].
    right. destruct C1 as [?|C1]; [done|exact C1].
  - intros k Hk1 Hk2. unfold keys_of in *. cbn in Hk2.
    assert (k ∈ kept \/ Some k = msg.(SlotKeyToAdd)) as Hcase.
    { destruct (SlotKeyToAdd msg) as [k0|]; [|left; by rewrite Hk in Hk2].
      destruct Hk as (E & _). rewrite E in Hk2. apply elem_of_app in Hk2 as [?| ->%list_elem_of_singleton]; [by left|by right]. }
    destruct Hcase as [Hkk|Hkk].
    + apply (D2 k Hk1). destruct (SlotKeyToRemove msg) as [k0|]; [|by subst].
      destruct Hr as (l1 & l2 & -> & _ & ->). apply elem_of_app in Hkk as [?|?];
        apply elem_of_app; [by left|right; by right].
    + apply (C2 k Hk1). rewrite <- Hkk. by left.
Qed.

(** C24: an accepted edit keeps a validator sane and distinct.  When
    [VerifyAndEditValidatorFromMsg] accepts an edit of a listed validator, the
    edited wrapper passes the sanity check, keeps its address and delegations,
    its rate is at most the validator's maximum and within the maximum change of
    the rate it had in the epoch's snapshot, and if no two listed validators
    shared an identity or a BLS key, none do once it is stored. *)
Theorem VerifyAndEditValidator_keeps db chain epoch block msg w w' addrs snap :
  ReadValidatorList chain = Ok addrs -> keyed db.(wrappers) -> msg.(evValidatorAddress) ∈ addrs ->
  db.(wrappers) !! msg.(evValidatorAddress) = Some w ->
  ReadValidatorSnapshot chain msg.(evValidatorAddress) = Ok snap ->
  VerifyAndEditValidatorFromMsg Sch (Some db) (Some chain) epoch (Some block) msg = Ok w' ->
  edited db chain msg addrs w w' snap.
Proof.
  intros Haddrs Hkeyed Hin Hw Hsnap H. unfold VerifyAndEditValidatorFromMsg in H.
  destruct (negb _); [done|]. rewrite Haddrs in H. cbn [mbind outcome_bind] in H.
  apply bind_Ok in H as ([] & Hdup & H). apply bind_Ok in H as (w0 & Hw0%ValidatorWrapperAt_Ok & H).
  rewrite Hw in Hw0. injection Hw0 as <-. apply bind_Ok in H as (v & Hv & H).
  assert (UpdateValidatorFromEditMsg Sch w.(validator) msg epoch = (v, Ok tt)) as Hup
    by (destruct (UpdateValidatorFromEditMsg _ _ _ _) as [v0 [[]|?|?]]; congruence).
  destruct (UpdateValidatorFromEditMsg_spec _ _ _ _ _ Hup) as (Ha & _ & Hsame & Hmax & Hchg & _).
  unfold GT in H. destruct (Z.ltb_spec (MaxRate (rates (commission v))) (Rate (rates (commission v)))) as [|Hr]; [done|].
  apply bind_Ok in H as ([] & _ & H). injection Hsame as Hva _ _.
  rewrite Hva, Ha, Hsnap in H. cbv zeta in H. apply bind_Ok in H as (change & Hsub & H).
  assert (exists c, c.(rates) = v.(commission).(rates) /\
    (if negb (Dec.Equal (Rate (rates (commission (validator (snapValidator snap))))) (Rate (rates (commission v))))
     then with_commission v (mkCommission (rates (commission v)) block) else v) = with_commission v c) as (c & Hc & Ec).
  { destruct (negb _); [by exists (mkCommission (rates (commission v)) block)|]. exists (commission v). split; [done|]. by destruct v. }
  rewrite Ec in H.
  destruct (Z.ltb_spec (MaxChangeRate (rates (commission (with_commission v c)))) (Dec.Abs change))
    as [|Habs]; [done|].
  apply bind_Ok in H as ([] & Hs%SanityCheck_Ok & [= <-]). assert (wrapper_address w = msg.(evValidatorAddress)) as Eaddr by exact (Hkeyed _ _ Hw).
  apply Dec.Sub_Ok in Hsub as [-> _]. cbn in Habs. rewrite Hc in Habs. split.
  - done.
  - split; [done|]. unfold wrapper_address. cbn. by rewrite Hva.
  - cbn. rewrite Hc, <- Hmax. done.
  - cbn. rewrite Hc, <- Hchg. done.
  - intros Hd. eapply edit_distinct; try done; by rewrite Eaddr.
Qed.
End uniqueness.

(** ** A small state *)

(** One validator with a second delegator that has tokens in undelegation. *)
Definition locked_wrapper : ValidatorWrapper :=
  mkWrapper_ sample_validator
    [mkDelegation 1 (10 ^ 22) 5 []; mkDelegation 2 (10 ^ 21) 7 [mkUndelegation (4 * 10 ^ 20) 3]]
    (mkCounters 0 0) 0.
Definition sample_db : StateDB :=
  mkStateDB (fun a => a =? 1) {[1 := locked_wrapper]} (fun _ => 10 ^ 23) (fun _ => 0).
Definition sample_chain : ChainContext :=
  mkChainContext (Ok [1]) (fun _ => Ok (mkSnapshot locked_wrapper (Some 6))) TestChainConfig.

Lemma sample_lookup a w : sample_db.(wrappers) !! a = Some w <-> 1 = a /\ locked_wrapper = w.
Proof. apply lookup_singleton_Some. Qed.

Lemma sample_at : sample_db.(wrappers) !! 1 = Some locked_wrapper.
Proof. exact (proj2 (sample_lookup 1 locked_wrapper) (conj eq_refl eq_refl)). Qed.

Lemma sample_db_ok : state_ok sample_db.(wrappers).
Proof.
  split; intros a w [<- <-]%sample_lookup; [done|]. split.
  - repeat constructor; cbn; lia.
  - apply NoDup_cons. split; [by intros ?%list_elem_of_singleton|apply NoDup_singleton].
Qed.

Lemma sample_points i d : locked_wrapper.(Delegations) !! i = Some d ->
  points_to sample_db.(wrappers) (mkIndex 1 (Z.of_nat i)) locked_wrapper d.
Proof. intros Hi. split_and!; [exact sample_at|cbn; lia|]. cbn. by rewrite Nat2Z.id. Qed.

(** 10^21 are delegated, 4 * 10^20 of them from undelegation. *)
Definition delegation_msg : Delegate := mkDelegate 2 1 (10 ^ 21).
Definition delegation_result : list ValidatorWrapper * Z * gmap Address Z :=
  match VerifyAndDelegateFromMsg (Some sample_db) (Some 10) delegation_msg [mkIndex 1 1] TestChainConfig with
  | Ok r => r | _ => ([], 0, ∅)
  end.
Lemma VerifyAndDelegateFromMsg_conserves_witness :
  let '(ws, fromBalance, fromLocked) := delegation_result in
  fromBalance = 6 * 10 ^ 20 /\ map_sum id fromLocked = 4 * 10 ^ 20 /\
  sumZ wrapper_funds ws = sumZ (old_funds sample_db.(wrappers)) ws + 6 * 10 ^ 20.
Proof.
  destruct delegation_result as [[ws b] l] eqn:E.
  assert (b = 6 * 10 ^ 20) as -> by (change b with (ws, b, l).1.2; rewrite <- E; reflexivity).
  destruct (VerifyAndDelegateFromMsg_conserves sample_db (Some 10) delegation_msg [mkIndex 1 1] TestChainConfig
    ws (6 * 10 ^ 20) l sample_db_ok) as [_ _ Hs _ _ Hf _ _].
  - repeat constructor. cbn. lia.
  - apply NoDup_singleton.
  - rewrite <- E. reflexivity.
  - split_and!; [done| |done]. change (dAmount delegation_msg) with (10 ^ 21) in Hs. lia.
Defined.


Lemma VerifyAndCollectRewards_exact_witness :
  exists ws, VerifyAndCollectRewardsFromDelegation (Some sample_db) [mkIndex 1 0; mkIndex 1 1] = Ok (ws, 12).
Proof.
  pose proof (VerifyAndCollectRewards_exact sample_db
    [(mkIndex 1 0, locked_wrapper, mkDelegation 1 (10 ^ 22) 5 []);
     (mkIndex 1 1, locked_wrapper, mkDelegation 2 (10 ^ 21) 7 [mkUndelegation (4 * 10 ^ 20) 3])]) as H.
  cbv zeta in H. destruct H as [H _].
  - repeat constructor; try apply (sample_points 0); try apply (sample_points 1); done.
  - eexists. exact H.
Defined.

(** [To] has no delegation with the validator: the locked tokens are gone. *)
Lemma VerifyAndMigrateFromMsg_moves_witness :
  exists ws msgs, VerifyAndMigrateFromMsg sample_db (mkMigration 2 9) [mkIndex 1 1] = Ok (ws, msgs) /\
    length ws = 1%nat.
Proof.
  destruct (is_Ok_ex (VerifyAndMigrateFromMsg sample_db (mkMigration 2 9) [mkIndex 1 1])) as [[ws msgs] E]; [by vm_compute|].
  exists ws, msgs. split; [exact E|].
  refine ((fun H => _) (proj1 (VerifyAndMigrateFromMsg_moves sample_db (mkMigration 2 9) [mkIndex 1 1] ws msgs
    sample_db_ok _ E))).
  2:{ repeat constructor. cbn. lia. }
  apply Forall2_length in H. rewrite <- H. by vm_compute.
Defined.

Lemma migrate_loses_undelegations :
  match VerifyAndMigrateFromMsg sample_db (mkMigration 2 9) [mkIndex 1 1] with
  | Ok ([w], _) => wrapper_funds w = wrapper_funds locked_wrapper - 4 * 10 ^ 20
  | _ => False
  end.
Proof. by vm_compute. Qed.

(** A total of exactly 2^64 counts as no rewards. *)
Lemma rewards_of_2_64_refused :
  VerifyAndCollectRewardsFromDelegation
    (Some (mkStateDB (fun a => a =? 1)
       {[1 := with_Delegations locked_wrapper [mkDelegation 1 (10 ^ 22) (2 ^ 64) []]]} (fun _ => 0) (fun _ => 0)))
    [mkIndex 1 0] = Err errNoRewardsToCollect.
Proof. by vm_compute. Qed.

Definition creation_msg : CreateValidator :=
  mkCreateValidator 5 (mkDescription "m" "j" "w" "s" "d") (mkRates (10 ^ 17) (9 * 10 ^ 17) (5 * 10 ^ 16))
    (Some (10 ^ 22)) (Some (10 ^ 23)) [20] [[20]] (2 * 10 ^ 22).
Lemma sample_distinct : all_distinct sample_db.(wrappers) [1].
Proof. intros a b wa wb ->%list_elem_of_singleton ->%list_elem_of_singleton H. by destruct H. Qed.

Lemma VerifyAndCreateValidator_distinct_witness :
  exists w, VerifyAndCreateValidatorFromMsg plain_schedule (Some sample_db) (Some sample_chain) (Some 7) (Some 100)
    creation_msg = Ok w /\ all_distinct (<[5 := w]> sample_db.(wrappers)) [5; 1].
Proof.
  destruct (is_Ok_ex (VerifyAndCreateValidatorFromMsg plain_schedule (Some sample_db) (Some sample_chain) (Some 7) (Some 100)
    creation_msg)) as [w E]; [by vm_compute|].
  exists w. split; [exact E|].
  destruct (VerifyAndCreateValidator_distinct plain_schedule sample_db sample_chain 7 100 creation_msg w [1]
    eq_refl E) as (_ & _ & _ & _ & _ & _ & _ & H). exact (H sample_distinct).
Defined.

Lemma VerifyAndEditValidator_keeps_witness :
  exists w', VerifyAndEditValidatorFromMsg plain_schedule (Some sample_db) (Some sample_chain) (Some 7) (Some 100)
    (mkEditValidator 1 (mkDescription "" "" "" "" "") (Some (12 * 10 ^ 16)) None None (Some 10) (Some 12)
       (Some [12]) Inactive) = Ok w' /\ wrapper_sane w'.
Proof.
  destruct (is_Ok_ex (VerifyAndEditValidatorFromMsg plain_schedule (Some sample_db) (Some sample_chain) (Some 7) (Some 100)
    (mkEditValidator 1 (mkDescription "" "" "" "" "") (Some (12 * 10 ^ 16)) None None (Some 10) (Some 12)
       (Some [12]) Inactive))) as [w' E]; [by vm_compute|].
  exists w'. split; [exact E|].
  refine (ed_sane _ _ _ _ _ _ _ (VerifyAndEditValidator_keeps plain_schedule sample_db sample_chain (Some 7) 100
    _ locked_wrapper w' [1] (mkSnapshot locked_wrapper (Some 6)) eq_refl (so_keyed _ sample_db_ok) _ _ eq_refl E));
    [by left|exact sample_at].
Defined.
