(* ===== verification/MsgSender.v ===== *)
(** * Sending with retries (consensus/consensus_msg_sender.go, internal/configs/node/group.go)

    A message is sent to its groups at once and sent again every few seconds by
    a goroutine of its own until it is stopped, superseded by another message of
    its type, or has been sent often enough.

    A [*MessageRetry] is its position in [retries], so the goroutine and the map
    [messagesToRetry] share it.  One turn of the goroutine's loop after its sleep
    is [Retry_turn]; which goroutine wakes up next is not determined.  The p2p
    host is foreign: [replies] are its next answers (it accepts once they run
    out), [sent] what it was given. *)
From S2P Require Import Prelude Sharding FbftLog.
Local Open Scope Z_scope.

(** ** Groups *)

Definition GroupID : Type := string.
(** [nodeconfig.NetworkType]; [OtherNetwork] is any other string. *)
Inductive NetworkType := Mainnet | Testnet | Pangaea | Partner | Stressnet | Devnet | Localnet | OtherNetwork.

Definition getNetworkPrefix (t : NetworkType) : string :=
  match t with
  | Mainnet => "intelchain" | Testnet => "itc/testnet" | Pangaea => "itc/pangaea" | Partner => "itc/partner"
  | Stressnet => "itc/stressnet" | Devnet => "itc/devnet" | Localnet => "itc/local" | OtherNetwork => "itc/misc"
  end.
Definition NewGroupIDByShardID (t : NetworkType) (shardID : Z) : GroupID :=
  if shardID =? 0 then Stdlib.Strings.String.append (getNetworkPrefix t) "/0.0.1/node/beacon"
  else Stdlib.Strings.String.append (getNetworkPrefix t)
         (Stdlib.Strings.String.append "/0.0.1/node/shard/" (Sprint_int shardID)).

(** ** The sender *)

Definition RetryIntervalInSec : Z := 7.

Record MessageRetry := mkRetry {
  mrBlockNum : Z; groups : list GroupID; p2pMsg : list Z; mrType : Z; retryCount : Z; isActive : bool
}.
Record MessageSender := mkSender {
  msBlockNum : Z;
  messagesToRetry : gmap Z nat;
  retryTimes : Z;
  retries : list MessageRetry;
  replies : list bool;
  sent : list (list GroupID * list Z)
}.
Notation MS := (SM MessageSender).

(** [phaseDurationSeconds] is [int(phaseDuration.Seconds())]. *)
Definition NewMessageSender (phaseDurationSeconds : Z) (replies : list bool) : MessageSender :=
  mkSender 0 ∅ (Z.quot phaseDurationSeconds RetryIntervalInSec) [] replies [].

Definition set_ms (n : Z) (m : gmap Z nat) (r : list MessageRetry) (s : MessageSender) : MessageSender :=
  mkSender n m s.(retryTimes) r s.(replies) s.(sent).
Definition with_active (a : bool) (r : MessageRetry) : MessageRetry :=
  mkRetry r.(mrBlockNum) r.(groups) r.(p2pMsg) r.(mrType) r.(retryCount) a.
Definition with_count (n : Z) (r : MessageRetry) : MessageRetry :=
  mkRetry r.(mrBlockNum) r.(groups) r.(p2pMsg) r.(mrType) n r.(isActive).

(** [host.SendMessageToGroups] *)
Definition SendMessageToGroups (groups : list GroupID) (msg : list Z) : MS unit := fun s =>
  (mkSender s.(msBlockNum) s.(messagesToRetry) s.(retryTimes) s.(retries) (tail s.(replies)) (s.(sent) ++ [(groups, msg)]),
   match s.(replies) with false :: _ => Err "cannot publish message" | _ => Ok tt end).

Definition StopRetry (msgType : Z) : MS unit := modify (fun s =>
  match s.(messagesToRetry) !! msgType with
  | Some p => set_ms s.(msBlockNum) s.(messagesToRetry) (alter (with_active false) p s.(retries)) s
  | None => s
  end).

(** The retry is made and its goroutine started, when there are any retries. *)
Definition start_retry (blockNum msgType : Z) (groups : list GroupID) (p2pMsg : list Z) : MS unit :=
  let! (times : Z) := gets retryTimes in
  sm_when (negb (times =? 0))
    (let! _ := StopRetry msgType in
     modify (fun s => set_ms s.(msBlockNum) (<[msgType := length s.(retries)]> s.(messagesToRetry))
                        (s.(retries) ++ [mkRetry blockNum groups p2pMsg msgType 0 true]) s)).

Definition SendWithRetry (blockNum msgType : Z) (groups : list GroupID) (p2pMsg : list Z) : MS unit :=
  let! _ := start_retry blockNum msgType groups p2pMsg in SendMessageToGroups groups p2pMsg.
Definition DelayedSendWithRetry (blockNum msgType : Z) (groups : list GroupID) (p2pMsg : list Z) : MS unit :=
  start_retry blockNum msgType groups p2pMsg.
Definition SendWithoutRetry (groups : list GroupID) (p2pMsg : list Z) : MS unit := SendMessageToGroups groups p2pMsg.

Definition not_committed (r : MessageRetry) : bool := negb (r.(mrType) =? MessageType_COMMITTED).

(** [messagesToRetry.Range], in some order. *)
Definition StopAllRetriesExceptCommitted {W : Walk} : MS unit := modify (fun s =>
  set_ms s.(msBlockNum) s.(messagesToRetry)
    (foldl (fun rs kp => alter (fun r => if not_committed r then with_active false r else r) kp.2 rs)
       s.(retries) (walk s.(messagesToRetry))) s).

Definition Reset {W : Walk} (blockNum : Z) : MS unit :=
  let! _ := modify (fun s => set_ms blockNum s.(messagesToRetry) s.(retries) s) in
  let! _ := StopAllRetriesExceptCommitted in
  modify (fun s => set_ms s.(msBlockNum)
    (foldl (fun m kp => match s.(retries) !! kp.2 with
                        | Some r => if not_committed r then delete kp.1 m else m
                        | None => m
                        end) s.(messagesToRetry) (walk s.(messagesToRetry))) s.(retries) s).

(** One turn of the loop of [Retry], after the sleep; the answer tells whether
    the goroutine goes on. *)
Definition Retry_turn (p : nat) : MS bool :=
  let! s := gets (fun s => s) in
  match s.(retries) !! p with
  | None => mret false
  | Some msgRetry =>
      if s.(retryTimes) <=? msgRetry.(retryCount) then mret false
      else if negb msgRetry.(isActive) then mret false
      else if not_committed msgRetry && (msgRetry.(mrBlockNum) <? s.(msBlockNum)) then mret false
      else
        let! _ := modify (fun s => set_ms s.(msBlockNum) s.(messagesToRetry)
                                     (alter (with_count (msgRetry.(retryCount) + 1)) p s.(retries)) s) in
        let! _ := caught (SendMessageToGroups msgRetry.(groups) msgRetry.(p2pMsg)) in
        mret true
  end.

(** ** Invariant *)

(** The map points at retries of its types; a retry that may still be sent is
    the one the map holds for its type; none was sent too often. *)
Record sender_inv (s : MessageSender) : Prop := {
  si_map t p : s.(messagesToRetry) !! t = Some p -> exists r, s.(retries) !! p = Some r /\ r.(mrType) = t;
  si_active p r : s.(retries) !! p = Some r -> r.(isActive) = true -> s.(messagesToRetry) !! r.(mrType) = Some p;
  si_count p r : s.(retries) !! p = Some r -> 0 <= r.(retryCount) <= Z.max 0 s.(retryTimes)
}.

(** What a client and the goroutines do to a sender. *)
Inductive sender_step {W : Walk} : MessageSender -> MessageSender -> Prop :=
| step_SendWithRetry s n t g m : sender_step s (fst (SendWithRetry n t g m s))
| step_DelayedSendWithRetry s n t g m : sender_step s (fst (DelayedSendWithRetry n t g m s))
| step_SendWithoutRetry s g m : sender_step s (fst (SendWithoutRetry g m s))
| step_StopRetry s t : sender_step s (fst (StopRetry t s))
| step_Reset s n : sender_step s (fst (Reset n s))
| step_Retry_turn s p : sender_step s (fst (Retry_turn p s)).

(** [dimmed r r']: [r'] is [r], perhaps stopped and perhaps sent once more. *)
Definition dimmed (r r' : MessageRetry) : Prop :=
  r'.(mrType) = r.(mrType) /\ r'.(mrBlockNum) = r.(mrBlockNum) /\ (r'.(isActive) = true -> r.(isActive) = true).

Lemma dimmed_refl r : dimmed r r.
Proof. done. Qed.
Lemma dimmed_list_refl rs : Forall2 dimmed rs rs.
Proof. induction rs; by constructor. Qed.
Lemma dimmed_alter f p rs : (forall r, dimmed r (f r)) -> Forall2 dimmed rs (alter f p rs).
Proof.
  intros Hf. apply Forall2_same_length_lookup. split; [by rewrite length_alter|]. intros i r r' Hr Hr'.
  destruct (decide (p = i)) as [->|]; [rewrite list_lookup_alter_eq, Hr in Hr'; injection Hr' as <-; apply Hf|].
  rewrite list_lookup_alter_ne in Hr' by done. assert (r = r') as -> by congruence. apply dimmed_refl.
Qed.
Lemma dimmed_trans rs1 rs2 rs3 : Forall2 dimmed rs1 rs2 -> Forall2 dimmed rs2 rs3 -> Forall2 dimmed rs1 rs3.
Proof.
  intros H1. revert rs3. induction H1 as [|a b l1 l2 (? & ? & ?) _ IH]; intros rs3 H2; inversion H2; subst; constructor.
  - unfold dimmed in *. naive_solver congruence.
  - by apply IH.
Qed.
Lemma dimmed_inactive r : dimmed r (with_active false r).
Proof. done. Qed.
Lemma dimmed_lookup rs rs' p r' : Forall2 dimmed rs rs' -> rs' !! p = Some r' -> exists r, rs !! p = Some r /\ dimmed r r'.
Proof. intros H Hp. by apply (Forall2_lookup_r _ _ _ _ _ H) in Hp. Qed.
Lemma dimmed_lookup_l rs rs' p r : Forall2 dimmed rs rs' -> rs !! p = Some r -> exists r', rs' !! p = Some r' /\ dimmed r r'.
Proof. intros H Hp. by apply (Forall2_lookup_l _ _ _ _ _ H) in Hp. Qed.

Definition counts_ok (times : Z) (rs : list MessageRetry) : Prop :=
  Forall (fun r => 0 <= r.(retryCount) <= Z.max 0 times) rs.
Lemma counts_alter times f p rs : counts_ok times rs ->
  (forall r, rs !! p = Some r -> 0 <= r.(retryCount) <= Z.max 0 times -> 0 <= (f r).(retryCount) <= Z.max 0 times) ->
  counts_ok times (alter f p rs).
Proof.
  unfold counts_ok. rewrite !Forall_lookup. intros Hc Hf i r' Hr'.
  destruct (decide (p = i)) as [->|]; [|rewrite list_lookup_alter_ne in Hr' by done; by apply (Hc i)].
  rewrite list_lookup_alter_eq in Hr'. destruct (rs !! i) as [r|] eqn:E; [|done]. injection Hr' as <-. eauto.
Qed.

(** Stopping some retries and counting some keeps the invariant. *)
Lemma inv_dimmed s s' : sender_inv s -> s'.(messagesToRetry) = s.(messagesToRetry) -> s'.(retryTimes) = s.(retryTimes) ->
  Forall2 dimmed s.(retries) s'.(retries) -> counts_ok s.(retryTimes) s'.(retries) -> sender_inv s'.
Proof.
  intros [H1 H2 H3] Em Et Hd Hc. split.
  - rewrite Em. intros t p Hp. destruct (H1 _ _ Hp) as (r & Hr & <-).
    destruct (dimmed_lookup_l _ _ _ _ Hd Hr) as (r' & ? & E & _). by exists r'.
  - intros p r' Hp Ha. destruct (dimmed_lookup _ _ _ _ Hd Hp) as (r & Hr & E & _ & Hi). rewrite Em, E. by apply H2, Hi.
  - rewrite Et. unfold counts_ok in Hc. rewrite Forall_lookup in Hc. done.
Qed.
Lemma inv_counts s : sender_inv s -> counts_ok s.(retryTimes) s.(retries).
Proof. intros [_ _ H]. unfold counts_ok. by apply Forall_lookup. Qed.

Lemma send_inv g m s : sender_inv s -> sender_inv (fst (SendMessageToGroups g m s)).
Proof.
  intros Hinv. apply (inv_dimmed s); [done|done|done|apply dimmed_list_refl|exact (inv_counts _ Hinv)].
Qed.

Lemma StopRetry_dimmed t s : let s' := fst (StopRetry t s) in
  s'.(messagesToRetry) = s.(messagesToRetry) /\ s'.(retryTimes) = s.(retryTimes) /\
  Forall2 dimmed s.(retries) s'.(retries) /\ (counts_ok s.(retryTimes) s.(retries) -> counts_ok s.(retryTimes) s'.(retries)).
Proof.
  unfold StopRetry, modify. cbn [fst]. destruct (_ !! t) as [p|]; cbn; split_and!; try done.
  - by apply dimmed_alter.
  - intros Hc. apply counts_alter; [done|]. by intros r _ ?.
  - apply dimmed_list_refl.
Qed.
Lemma StopRetry_stops t s p r : sender_inv s -> (fst (StopRetry t s)).(retries) !! p = Some r -> r.(mrType) = t ->
  r.(isActive) = false.
Proof.
  intros Hinv Hp Ht. destruct (StopRetry_dimmed t s) as (_ & _ & Hd & _).
  destruct (dimmed_lookup _ _ _ _ Hd Hp) as (r0 & Hr0 & E & _ & Hi).
  destruct (isActive r) eqn:Ea; [|done]. pose proof (si_active _ Hinv p r0 Hr0 (Hi eq_refl)) as Hm.
  rewrite <- E, Ht in Hm. unfold StopRetry, modify in Hp. cbn [fst] in Hp. rewrite Hm in Hp. cbn in Hp.
  rewrite list_lookup_alter_eq, Hr0 in Hp. injection Hp as <-. done.
Qed.

Lemma start_retry_inv n t g m s : sender_inv s -> sender_inv (fst (start_retry n t g m s)).
Proof.
  intros Hinv. unfold start_retry, gets, mbind, SM_bind. cbn [fst]. unfold sm_when. destruct (negb _); [|done].
  pose proof (StopRetry_stops t s) as Hst. destruct (StopRetry_dimmed t s) as (Em & Et & Hd & Hc).
  assert (sender_inv (fst (StopRetry t s))) as Hinv' by (eapply inv_dimmed; try done; by apply Hc, inv_counts).
  cbv beta. change (snd (StopRetry t s)) with (Ok tt) in *. unfold mbind, SM_bind.
  replace (StopRetry t s) with (fst (StopRetry t s), @Ok unit tt) by done. cbn [fst]. unfold modify. cbn [fst].
  set (s1 := fst (StopRetry t s)) in *. clearbody s1. destruct Hinv' as [H1 H2 H3]. split; cbn.
  - intros t' p. destruct (decide (t = t')) as [<-|].
    + rewrite lookup_insert_eq. intros [= <-]. eexists. by rewrite list_lookup_middle.
    + rewrite lookup_insert_ne by done. intros Hp. destruct (H1 _ _ Hp) as (r & Hr & ?). exists r. split; [|done].
      by apply lookup_app_l_Some.
  - intros p r [Hr|[Hl Hr]]%lookup_app_Some Ha.
    + rewrite lookup_insert_ne; [by apply H2|]. intros ->. by rewrite (Hst p r Hinv Hr eq_refl) in Ha.
    + destruct (p - length (retries s1))%nat eqn:E; [|done]. injection Hr as <-. cbn. rewrite lookup_insert_eq. f_equal. lia.
  - intros p r [Hr|[Hl Hr]]%lookup_app_Some; [by apply (H3 p)|].
    destruct (p - length (retries s1))%nat; [|done]. injection Hr as <-. cbn. lia.
Qed.

(** [Range]'s loop stops every retry of a list of entries but the committed. *)
Lemma stop_all_dimmed (l : list (Z * nat)) rs times :
  let rs' := foldl (fun rs kp => alter (fun r => if not_committed r then with_active false r else r) kp.2 rs) rs l in
  Forall2 dimmed rs rs' /\ (counts_ok times rs -> counts_ok times rs') /\
  forall t p r', (t, p) ∈ l -> rs' !! p = Some r' -> not_committed r' = true -> r'.(isActive) = false.
Proof.
  set (f := fun r => if not_committed r then with_active false r else r).
  assert (forall r, dimmed r (f r)) as Hf by (intros r; unfold f; by destruct (not_committed r)).
  revert rs. induction l as [|[t p] l IH]; intros rs; cbn [foldl]; cbv zeta.
  - split_and!; [apply dimmed_list_refl|done|]. intros t p r' Hin. by apply elem_of_nil in Hin.
  - destruct (IH (alter f p rs)) as (Hd & Hc & Hst). split_and!.
    + eapply dimmed_trans; [|exact Hd]. by apply dimmed_alter.
    + intros H. apply Hc, counts_alter; [done|]. intros r _ ?. unfold f. by destruct (not_committed r).
    + intros t' p' r' [[= -> ->]|Hin]%elem_of_cons Hr' Hn; [|by eapply Hst].
      destruct (dimmed_lookup _ _ _ _ Hd Hr') as (r1 & Hr1 & E & _ & Hi).
      destruct (isActive r') eqn:Ea; [|done]. specialize (Hi eq_refl).
      rewrite list_lookup_alter_eq in Hr1. destruct (rs !! p) as [r0|]; [|done]. injection Hr1 as <-.
      unfold f in *. unfold not_committed in *. destruct (negb (mrType r0 =? MessageType_COMMITTED)) eqn:En; [done|]. congruence.
Qed.

Section steps.
Context {W : Walk}.

Lemma sender_Reset_inv n s : sender_inv s -> sender_inv (fst (Reset n s)).
Proof.
  intros Hinv. unfold Reset, StopAllRetriesExceptCommitted, modify, mbind, SM_bind, set_ms. cbn.
  destruct (stop_all_dimmed (walk (messagesToRetry s)) (retries s) (retryTimes s)) as (Hd & Hc & Hst). cbv zeta in *.
  set (rs := foldl _ (retries s) _) in *. clearbody rs.
  set (m := foldl _ (messagesToRetry s) _).
  assert (forall t, m !! t = match messagesToRetry s !! t with
    | Some p => match rs !! p with Some r => if not_committed r then None else Some p | None => Some p end
    | None => None end) as Hm.
  { unfold m. set (g := fun _ _ => _).
    set (gone := fun (t : Z) (kp : Z * nat) => (kp.1 =? t) && match rs !! kp.2 with Some r => not_committed r | None => false end).
    assert (forall l m0 t, foldl g m0 l !! t = if existsb (gone t) l then None else m0 !! t) as Hg.
    { induction l as [|[k p] l IH]; intros m0 t; cbn [foldl existsb]; [done|].
      rewrite IH. destruct (existsb (gone t) l); [by rewrite orb_true_r|]. rewrite orb_false_r.
      unfold g, gone. cbn [fst snd]. destruct (rs !! p) as [r|]; [|by rewrite andb_false_r].
      destruct (not_committed r); [|by rewrite andb_false_r]. rewrite andb_true_r.
      destruct (Z.eqb_spec k t) as [->|]; [apply lookup_delete_eq|by apply lookup_delete_ne]. }
    intros t. rewrite Hg. destruct (existsb _ _) eqn:Ex.
    - apply existsb_exists in Ex as ([k p] & Hin%list_elem_of_In%elem_of_walk & Hgone).
      apply andb_true_iff in Hgone as [E%Z.eqb_eq Hn]. cbn in E, Hn. subst k. rewrite Hin.
      destruct (rs !! p) as [r|]; [by rewrite Hn|done].
    - destruct (messagesToRetry s !! t) as [p|] eqn:Ep; [|done].
      destruct (rs !! p) as [r|] eqn:Er; [|done]. destruct (not_committed r) eqn:En; [|done]. exfalso.
      rewrite <- not_true_iff_false, existsb_exists in Ex. apply Ex. exists (t, p).
      split; [by apply list_elem_of_In, elem_of_walk|]. unfold gone. cbn. by rewrite Z.eqb_refl, Er, En. }
  destruct (inv_dimmed s (mkSender n (messagesToRetry s) (retryTimes s) rs (replies s) (sent s))) as [H1 H2 H3];
    [done|done|done|done|by apply Hc, inv_counts|]. cbn in H1, H2, H3.
  split; cbn.
  - intros t p Hp. apply H1. rewrite Hm in Hp. destruct (messagesToRetry s !! t) as [p'|]; [|done].
    destruct (rs !! p') as [r|]; [|done]. by destruct (not_committed r).
  - intros p r Hr Ha. pose proof (H2 _ _ Hr Ha) as Hmap. rewrite Hm, Hmap, Hr.
    destruct (not_committed r) eqn:En; [|done].
    rewrite (Hst (mrType r) p r) in Ha; [done| |done|done]. by apply elem_of_walk.
  - exact H3.
Qed.

Lemma Retry_turn_inv p s : sender_inv s -> sender_inv (fst (Retry_turn p s)).
Proof.
  intros Hinv. unfold Retry_turn, gets, mbind, SM_bind. destruct (retries s !! p) as [r|] eqn:Er; [|done].
  destruct (Z.leb_spec (retryTimes s) (retryCount r)); [done|].
  destruct (negb (isActive r)); [done|]. destruct (_ && _); [done|]. cbn.
  assert (sender_inv (set_ms (msBlockNum s) (messagesToRetry s) (alter (with_count (retryCount r + 1)) p (retries s)) s)) as H'.
  { eapply (inv_dimmed s); [done|done|done|by apply dimmed_alter|].
    apply counts_alter; [by apply inv_counts|]. intros r0 _ _. pose proof (si_count _ Hinv p r Er). cbn. lia. }
  apply (send_inv (groups r) (p2pMsg r)) in H'. cbn in *.
  unfold caught. cbn. by destruct (MsgSender.replies s) as [|[] ?].
Qed.

Lemma sender_step_inv s s' : sender_step s s' -> sender_inv s -> sender_inv s'.
Proof.
  assert (forall n t g m s, sender_inv s -> sender_inv (fst (SendWithRetry n t g m s))) as Hsend.
  { intros n t g m s0 H0. apply (start_retry_inv n t g m) in H0. unfold SendWithRetry, mbind, SM_bind.
    destruct (start_retry n t g m s0) as [s1 [[]| |]]; cbn in *; [|done|done].
    by apply (send_inv g m). }
  destruct 1 as [s n t g m|s n t g m|s g m|s t|s n|s p]; intros Hinv.
  - by apply Hsend.
  - by apply start_retry_inv.
  - by apply (send_inv g m).
  - destruct (StopRetry_dimmed t s) as (? & ? & ? & Hc). apply (inv_dimmed s); [done|done|done|done|by apply Hc, inv_counts].
  - by apply sender_Reset_inv.
  - by apply Retry_turn_inv.
Qed.

(** A stopped retry stays stopped, and keeps its place and type. *)
Lemma sender_step_stopped s s' p r : sender_step s s' -> s.(retries) !! p = Some r ->
  exists r', s'.(retries) !! p = Some r' /\ dimmed r r'.
Proof.
  assert (forall s1 : MessageSender, s1.(retries) !! p = Some r ->
    exists r', s1.(retries) !! p = Some r' /\ dimmed r r') as Hsame by (intros s1 H1; by exists r).
  assert (forall n t g m s0, s0.(retries) !! p = Some r ->
    exists r', (fst (start_retry n t g m s0)).(retries) !! p = Some r' /\ dimmed r r') as Hstart.
  { intros n t g m s0 H0. unfold start_retry, gets, mbind, SM_bind, sm_when. destruct (negb _); [|by apply Hsame].
    destruct (StopRetry_dimmed t s0) as (_ & _ & Hd & _). destruct (dimmed_lookup_l _ _ _ _ Hd H0) as (r' & Hr' & ?).
    exists r'. split; [|done]. unfold mbind, SM_bind, modify.
    replace (StopRetry t s0) with (fst (StopRetry t s0), @Ok unit tt) by done. cbn. by apply lookup_app_l_Some. }
  destruct 1 as [s n t g m|s n t g m|s g m|s t|s n|s q]; intros Hr.
  - destruct (Hstart n t g m s Hr) as (r' & ? & ?). exists r'. split; [|done].
    unfold SendWithRetry, mbind, SM_bind. by destruct (start_retry n t g m s) as [s1 [[]| |]].
  - by apply Hstart.
  - by apply (Hsame (fst (SendMessageToGroups g m s))).
  - destruct (StopRetry_dimmed t s) as (_ & _ & Hd & _). by eapply dimmed_lookup_l.
  - unfold Reset, StopAllRetriesExceptCommitted, modify, mbind, SM_bind, set_ms. cbn.
    destruct (stop_all_dimmed (walk (messagesToRetry s)) (retries s) (retryTimes s)) as (Hd & _). by eapply dimmed_lookup_l.
  - unfold Retry_turn, gets, mbind, SM_bind. destruct (retries s !! q) as [r1|] eqn:Er; [|by apply Hsame].
    destruct (_ <=? _); [by apply Hsame|]. destruct (negb _); [by apply Hsame|]. destruct (_ && _); [by apply Hsame|]. cbn.
    assert (Forall2 dimmed (retries s) (alter (with_count (retryCount r1 + 1)) q (retries s))) as Hd by (by apply dimmed_alter).
    destruct (dimmed_lookup_l _ _ _ _ Hd Hr) as (r' & ? & ?). exists r'. split; [|done].
    unfold caught, SendMessageToGroups. cbn. destruct (replies s) as [|[] ?]; done.
Qed.

(** C18: Retries are bounded and superseded ones are silent.  Whatever
    messages a node sends and stops, in whatever order its retry goroutines
    wake up: a retry is sent again at most [retryTimes] times; of each message
    type at most one retry is live, the one the map holds for the type; a
    goroutine that wakes up sends its message exactly when its retry is live,
    has turns left, and is a COMMITTED or of a block the sender has not passed,
    and otherwise changes nothing and ends; and a retry that was stopped or
    superseded stays so. *)
Theorem MessageSender_retries secs replies s :
  rtc sender_step (NewMessageSender secs replies) s ->
  (forall p r, s.(retries) !! p = Some r -> 0 <= r.(retryCount) <= Z.max 0 (Z.quot secs RetryIntervalInSec)) /\
  (forall p q r r', s.(retries) !! p = Some r -> s.(retries) !! q = Some r' -> r.(mrType) = r'.(mrType) ->
     r.(isActive) = true -> r'.(isActive) = true -> p = q) /\
  (forall p r, s.(retries) !! p = Some r ->
     if r.(isActive) && (r.(retryCount) <? s.(retryTimes)) && (negb (not_committed r) || (s.(msBlockNum) <=? r.(mrBlockNum)))
     then (fst (Retry_turn p s)).(sent) = s.(sent) ++ [(r.(groups), r.(p2pMsg))] /\ snd (Retry_turn p s) = Ok true
     else Retry_turn p s = (s, Ok false)) /\
  (forall s' p r, rtc sender_step s s' -> s.(retries) !! p = Some r -> r.(isActive) = false ->
     exists r', s'.(retries) !! p = Some r' /\ r'.(isActive) = false).
Proof.
  intros Hr. assert (sender_inv s /\ s.(retryTimes) = Z.quot secs RetryIntervalInSec) as [Hinv Ht].
  { eapply (rtc_ind_r (fun s => sender_inv s /\ retryTimes s = Z.quot secs RetryIntervalInSec) (NewMessageSender secs replies));
      [split; [by split|done]| |exact Hr].
    intros y z _ Hstep [Hy Ey]. split; [by eapply sender_step_inv|]. rewrite <- Ey. clear -Hstep. destruct Hstep; try done.
    - unfold SendWithRetry, start_retry, mbind, SM_bind, gets, sm_when, StopRetry, modify. destruct (negb _); cbn; [|done].
      by destruct (_ !! t).
    - unfold DelayedSendWithRetry, start_retry, mbind, SM_bind, gets, sm_when, StopRetry, modify. destruct (negb _); cbn; [|done].
      by destruct (_ !! t).
    - unfold StopRetry, modify. cbn. by destruct (_ !! t).
    - unfold Retry_turn, gets, mbind, SM_bind. destruct (retries s !! p) as [r1|]; [|done].
      destruct (_ <=? _); [done|]. destruct (negb _); [done|]. destruct (_ && _); [done|]. cbn.
      unfold caught, SendMessageToGroups. cbn. by destruct (MsgSender.replies s) as [|[] ?]. }
  split_and!.
  - rewrite <- Ht. apply (si_count _ Hinv).
  - intros p q r r' Hp Hq Et Ha Ha'. pose proof (si_active _ Hinv p r Hp Ha). pose proof (si_active _ Hinv q r' Hq Ha'). congruence.
  - intros p r Hp. unfold Retry_turn, gets, mbind, SM_bind. rewrite Hp.
    destruct (Z.leb_spec (retryTimes s) (retryCount r)).
    { rewrite (proj2 (Z.ltb_ge _ _)) by lia. by rewrite andb_false_r. }
    rewrite (proj2 (Z.ltb_lt _ _)) by lia. rewrite andb_true_r. destruct (isActive r); [|done].
    rewrite Z.leb_antisym. destruct (not_committed r); cbn; [|by destruct (MsgSender.replies s) as [|[] ?]].
    destruct (mrBlockNum r <? msBlockNum s); cbn; [done|]. unfold caught. cbn. by destruct (MsgSender.replies s) as [|[] ?].
  - clear Hr Hinv Ht. intros s' p r Hrtc Hp Ha. revert r Hp Ha. induction Hrtc as [|x y z Hxy _ IH]; intros r Hp Ha; [by exists r|].
    destruct (sender_step_stopped _ _ _ _ Hxy Hp) as (r' & Hr' & _ & _ & Hi).
    apply (IH r'); [done|]. destruct (isActive r'); [|done]. by rewrite Hi in Ha.
Qed.
End steps.

(** ** Witness *)

Lemma MessageSender_retries_witness :
  let s := fst ((let! _ := SendWithRetry 5 MessageType_ANNOUNCE ["g"%string] [1] in
                 SendWithRetry 5 MessageType_ANNOUNCE ["g"%string] [2]) (NewMessageSender 27 [])) in
  Retry_turn 0 s = (s, Ok false) /\ (fst (Retry_turn 1 s)).(sent) = s.(sent) ++ [(["g"%string], [2])].
Proof.
  intros s.
  assert (rtc sender_step (NewMessageSender 27 []) s) as Hr.
  { eapply rtc_l; [apply (step_SendWithRetry _ 5 MessageType_ANNOUNCE ["g"%string] [1])|].
    eapply rtc_l; [apply (step_SendWithRetry _ 5 MessageType_ANNOUNCE ["g"%string] [2])|]. apply rtc_refl. }
  destruct (MessageSender_retries 27 [] s Hr) as (_ & _ & Hturn & _). split.
  - exact (Hturn 0%nat _ eq_refl).
  - exact (proj1 (Hturn 1%nat _ eq_refl)).
Defined.
