(* ===== verification/LeaderRotation.v ===== *)
(** * Block leaders and their turns (core/blockchain_leader_rotation.go, internal/chain/engine.go)

    The leader that proposed a block is the committee member its coinbase names
    ([GetLeaderPubKeyFromCoinbase]; [BlockChainImpl.getLeaderPubKeyFromCoinbase]
    is the same function).  The chain keeps how many blocks in a row the last
    leader proposed ([LeaderRotationMeta]): block by block while it grows, and
    recomputed from the headers when a node starts
    ([buildLeaderRotationMeta]). *)
From S2P Require Import Prelude Bls Params Sharding Shard Header.
Local Open Scope Z_scope.

Record LeaderRotationMeta := mkMeta { lrPub : list Z; lrEpoch : Z; lrCount : Z }.

(** The meta of a chain that has none. *)
Definition no_meta : LeaderRotationMeta := mkMeta [] 0 0.

(** [s.Count++] is on 64 bits. *)
Definition processRotationMeta (epoch : Z) (blockPubKey : SerializedPublicKey) (s : LeaderRotationMeta)
    : LeaderRotationMeta :=
  let count := if bool_decide (s.(lrPub) = Bytes blockPubKey) && (s.(lrEpoch) =? epoch)
               then u64 (s.(lrCount) + 1) else 1 in
  mkMeta (Bytes blockPubKey) epoch count.

Section leader.
Context {L : BLSLib}.

(** internal/utils: [GetAddressFromBLSPubKeyBytes]; the address of a key is the
    BLS library's. *)
Context (pk_GetAddress : PublicKey -> Address).
Definition GetAddressFromBLSPubKeyBytes (pubKeyBytes : list Z) : outcome Address :=
  match deserialize_key pubKeyBytes with
  | Ok pubKey => Ok (pk_GetAddress pubKey)
  | Err _ => Ok 0
  | Panic w => Panic w
  end.

Context (config : ChainConfig) (ReadShardState : Z -> outcome State).

Fixpoint coinbase_member (isStaking : bool) (coinbase : Address) (slots : SlotList) : outcome PublicKeyWrapper :=
  match slots with
  | [] => Err "cannot find corresponding BLS Public Key coinbase"
  | member :: rest =>
      let key := Bytes member.(BLSPublicKey) in
      let! (addr : Address) := if isStaking then GetAddressFromBLSPubKeyBytes key else Ok member.(EcdsaAddress) in
      if addr =? coinbase
      then let! committerKey := deserialize_key key in Ok (mkWrapper member.(BLSPublicKey) committerKey)
      else coinbase_member isStaking coinbase rest
  end.

Definition GetLeaderPubKeyFromCoinbase (h : Header) : outcome PublicKeyWrapper :=
  let! shardState := ReadShardState (Epoch h) in
  let! committee := FindCommitteeByID (Some shardState) (Header.ShardID h) in
  coinbase_member (IsStaking config (Some (Epoch h))) (Coinbase h) committee.(Slots).

Context (GetHeaderByNumber : Z -> option Header).

Definition saveLeaderRotationMeta (meta : LeaderRotationMeta) (h : Header) : outcome LeaderRotationMeta :=
  let! blockPubKey := GetLeaderPubKeyFromCoinbase h in
  Ok (processRotationMeta (Big.Uint64 (Epoch h)) blockPubKey.(wBytes) meta).

(** [for j := i; j <= cur; j++]: saving the meta of block after block. *)
Definition save_numbered (meta : LeaderRotationMeta) (j : Z) : outcome LeaderRotationMeta :=
  match GetHeaderByNumber j with
  | None => Err "header is nil"
  | Some header => saveLeaderRotationMeta meta header
  end.
Definition save_from (meta : LeaderRotationMeta) (i cur : Z) : outcome LeaderRotationMeta :=
  foldM save_numbered (seqZ i (cur - i + 1)) meta.

(** The search backwards; [i >= 0] always holds of a [uint64], so the loop
    ends only inside its body.  [None]: the fuel ran out. *)
Fixpoint build_loop (fuel : nat) (meta : LeaderRotationMeta) (curHeader : Header) (curPubKey : PublicKeyWrapper) (i : Z)
    : option (outcome LeaderRotationMeta) :=
  match fuel with
  | O => None
  | S fuel =>
      match GetHeaderByNumber i with
      | None => Some (Err "header is nil")
      | Some header =>
          match GetLeaderPubKeyFromCoinbase header with
          | Err e => Some (Err e)
          | Panic w => Some (Panic w)
          | Ok blockPubKey =>
              if negb (curPubKey.(wBytes) =? blockPubKey.(wBytes)) ||
                 negb (Big.Uint64 (Epoch curHeader) =? Big.Uint64 (Epoch header))
              then Some (save_from meta i (NumberU64 curHeader))
              else build_loop fuel meta curHeader curPubKey (u64 (i - 1))
          end
      end
  end.

Definition buildLeaderRotationMeta (fuel : nat) (meta : LeaderRotationMeta) (curHeader : Header)
    : option (outcome LeaderRotationMeta) :=
  if negb (IsLeaderRotationInternalValidators config (Some (Epoch curHeader))) then Some (Ok meta)
  else if NumberU64 curHeader =? 0 then Some (Err "current header is genesis")
  else
    match GetLeaderPubKeyFromCoinbase curHeader with
    | Err e => Some (Err e)
    | Panic w => Some (Panic w)
    | Ok curPubKey => build_loop fuel meta curHeader curPubKey (NumberU64 curHeader - 1)
    end.

(** ** Starting up finds what running had *)

(** The headers of a chain of height [n], their leaders and their turns. *)
Context (n : Z) (hdr : Z -> Header) (key : Z -> PublicKeyWrapper).
Definition turn (j : Z) : SerializedPublicKey * Z := ((key j).(wBytes), Big.Uint64 (Epoch (hdr j))).
Definition meta_of (j count : Z) : LeaderRotationMeta := mkMeta (Bytes (turn j).1) (turn j).2 count.

Record led_chain : Prop := {
  lc_headers j : 0 <= j <= n -> GetHeaderByNumber j = Some (hdr j);
  lc_leaders j : 0 <= j <= n -> GetLeaderPubKeyFromCoinbase (hdr j) = Ok (key j);
  lc_keys j : 0 <= j <= n -> key_ok (turn j).1
}.
Context (Hchain : led_chain).

Lemma save_numbered_Ok s j : 0 <= j <= n -> save_numbered s j = Ok (processRotationMeta (turn j).2 (turn j).1 s).
Proof. intros Hj. unfold save_numbered, saveLeaderRotationMeta. by rewrite (lc_headers Hchain j Hj), (lc_leaders Hchain j Hj). Qed.

Lemma process_same j j' c : 0 <= c < 2 ^ 64 - 1 -> turn j' = turn j ->
  processRotationMeta (turn j').2 (turn j').1 (meta_of j c) = meta_of j' (c + 1).
Proof.
  intros Hc E. unfold processRotationMeta, meta_of. rewrite E. cbn [lrPub lrEpoch lrCount].
  rewrite bool_decide_eq_true_2, Z.eqb_refl by done. cbn [andb]. by rewrite u64_small by lia.
Qed.
Lemma process_new j j' c : 0 <= j <= n -> 0 <= j' <= n -> turn j <> turn j' ->
  processRotationMeta (turn j').2 (turn j').1 (meta_of j c) = meta_of j' 1.
Proof.
  intros Hj Hj' Hne. unfold processRotationMeta, meta_of. cbn [lrPub lrEpoch lrCount]. f_equal.
  destruct (bool_decide _) eqn:E1; [|done]. destruct (Z.eqb_spec (turn j).2 (turn j').2); [|done]. cbn [andb].
  apply bool_decide_eq_true in E1. apply Bytes_inj in E1; [|by apply lc_keys..]. exfalso. apply Hne. by apply injective_projections.
Qed.

(** The meta after a block names its turn. *)
Lemma save_range_turn k j s : 0 <= j -> j + Z.of_nat k <= n -> exists c,
  foldM save_numbered (seqZ j (Z.of_nat k + 1)) s = Ok (meta_of (j + Z.of_nat k) c).
Proof.
  revert j s. induction k as [|k IH]; intros j s Hj Hk.
  - rewrite seqZ_cons by lia. cbn [foldM]. rewrite save_numbered_Ok by lia. cbn. rewrite Z.add_0_r. by eexists.
  - rewrite Nat2Z.inj_succ. rewrite seqZ_cons by lia. cbn [foldM]. rewrite save_numbered_Ok by lia. cbn [mbind outcome_bind].
    replace (Z.pred (Z.succ (Z.of_nat k) + 1)) with (Z.of_nat k + 1) by lia.
    destruct (IH (Z.succ j) (processRotationMeta (turn j).2 (turn j).1 s)) as (c & E); [lia|lia|]. rewrite E.
    exists c. do 2 f_equal. lia.
Qed.

Lemma save_range_same k j c : 0 <= j -> j + Z.of_nat k <= n -> 0 <= c -> c + Z.of_nat k < 2 ^ 64 ->
  (forall j', j < j' <= j + Z.of_nat k -> turn j' = turn j) ->
  foldM save_numbered (seqZ (j + 1) (Z.of_nat k)) (meta_of j c) = Ok (meta_of (j + Z.of_nat k) (c + Z.of_nat k)).
Proof.
  revert j c. induction k as [|k IH]; intros j c Hj Hk Hc Hb Hsame.
  - cbn. by rewrite !Z.add_0_r.
  - rewrite seqZ_cons by lia. cbn [foldM]. rewrite save_numbered_Ok by lia. cbn [mbind outcome_bind].
    rewrite (process_same j) by (try lia; apply Hsame; lia). replace (Z.pred (Z.of_nat (S k))) with (Z.of_nat k) by lia.
    replace (Z.succ (j + 1)) with (j + 1 + 1) by lia. rewrite IH; [do 2 f_equal; lia|lia..|].
    intros j' Hj'. by rewrite (Hsame j'), (Hsame (j + 1)) by lia.
Qed.

Lemma save_from_turns i m s : 0 <= m <= i -> i < n < 2 ^ 64 -> turn i <> turn n ->
  (forall j, i < j <= n -> turn j = turn n) -> save_from s m n = Ok (meta_of n (n - i)).
Proof.
  intros Hm Hi Hne Hsame. unfold save_from.
  replace (n - m + 1) with ((Z.of_nat (Z.to_nat (i - m)) + 1) + (1 + Z.of_nat (Z.to_nat (n - i - 1)))) by lia.
  rewrite seqZ_app by lia. rewrite foldM_app. destruct (save_range_turn (Z.to_nat (i - m)) m s) as (c & ->); [lia|lia|].
  cbn [mbind outcome_bind]. rewrite seqZ_cons by lia. cbn [foldM].
  replace (m + (Z.of_nat (Z.to_nat (i - m)) + 1)) with (i + 1) by lia. replace (m + Z.of_nat (Z.to_nat (i - m))) with i by lia.
  rewrite save_numbered_Ok by lia. cbn [mbind outcome_bind].
  rewrite process_new; [|lia|lia|by rewrite (Hsame (i + 1)) by lia].
  replace (Z.pred (1 + Z.of_nat (Z.to_nat (n - i - 1)))) with (Z.of_nat (Z.to_nat (n - i - 1))) by lia.
  replace (Z.succ (i + 1)) with (i + 1 + 1) by lia. rewrite save_range_same; [|lia..|].
  - do 2 f_equal; lia.
  - intros j' Hj'. by rewrite (Hsame j'), (Hsame (i + 1)) by lia.
Qed.

Lemma build_loop_finds i k f meta : 0 <= i -> i + Z.of_nat k < n < 2 ^ 64 -> turn i <> turn n ->
  (forall j, i < j <= n -> turn j = turn n) -> NumberU64 (hdr n) = n -> (k < f)%nat ->
  build_loop f meta (hdr n) (key n) (i + Z.of_nat k) = Some (save_from meta i n).
Proof.
  intros Hi. revert f. induction k as [|k IH]; intros [|f] Hk Hne Hsame Hn Hf; [lia| |lia|].
  - cbn [build_loop]. rewrite Z.add_0_r, (lc_headers Hchain i), (lc_leaders Hchain i) by lia.
    destruct (_ || _) eqn:E; [by rewrite Hn|]. apply orb_false_iff in E as [E1%negb_false_iff%Z.eqb_eq E2%negb_false_iff%Z.eqb_eq].
    exfalso. apply Hne. unfold turn. by rewrite E1, E2.
  - set (j := i + Z.of_nat (S k)) in *. assert (turn j = turn n) as E by (apply Hsame; lia).
    pose proof (lc_headers Hchain j ltac:(lia)) as E1. pose proof (lc_leaders Hchain j ltac:(lia)) as E2.
    unfold turn in E. injection E as Ea Eb. cbn [build_loop]. rewrite E1, E2, Ea, Eb, !Z.eqb_refl. cbn [negb orb].
    rewrite u64_small by lia. replace (j - 1) with (i + Z.of_nat k) by lia. apply IH; [lia|done..|lia].
Qed.

(** C19: A restarted node counts its leader's turn as a running one does.  On
    a chain whose blocks [i+1] to [n] have one leader and epoch that block [i]
    does not share, rebuilding the rotation meta from the headers ends within
    [n] turns of its backward search without an error, with the leader of
    block [n] and the count [n - i]; and a node that saved the meta block by
    block, from whatever meta and whatever block up to [i] on, has that meta
    too. *)
Theorem rotation_rebuilt i : 0 <= i < n -> n < 2 ^ 64 ->
  IsLeaderRotationInternalValidators config (Some (Epoch (hdr n))) = true -> NumberU64 (hdr n) = n ->
  turn i <> turn n -> (forall j, i < j <= n -> turn j = turn n) ->
  buildLeaderRotationMeta (Z.to_nat n) no_meta (hdr n) = Some (Ok (meta_of n (n - i))) /\
  forall m s, 0 <= m <= i -> save_from s m n = Ok (meta_of n (n - i)).
Proof.
  intros Hi Hb Hrot Hn Hne Hsame. split; [|intros m s Hm; apply (save_from_turns i); [lia|lia|done|done]].
  unfold buildLeaderRotationMeta. rewrite Hrot, Hn, (lc_leaders Hchain n) by lia. cbn [negb].
  destruct (Z.eqb_spec n 0); [lia|].
  replace (n - 1) with (i + Z.of_nat (Z.to_nat (n - i - 1))) at 1 by lia.
  rewrite build_loop_finds; [|lia..|done|done|done|lia].
  f_equal. apply (save_from_turns i); [lia|lia|done|done].
Qed.
End leader.

(** ** Witness *)

(** Three blocks of a committee of two keys, 5 and 6: the second key leads the
    last two. *)
Definition turn_header (j : Z) : Header :=
  SetNumber (SetCoinbase (NewHeader (NewFactory MainnetChainConfig) 20000000) (if j =? 0 then 5 else 6)) j.
Definition turn_state (epoch : Z) : outcome State :=
  Ok (mkState (Some epoch) [mkCommittee 0 [mkSlot 1 5 None; mkSlot 2 6 None]]).
Definition turn_lookup (j : Z) : option Header := if (0 <=? j) && (j <=? 2) then Some (turn_header j) else None.
Definition turn_key (j : Z) : @PublicKeyWrapper ZBLS := if j =? 0 then mkWrapper 5 5 else mkWrapper 6 6.

Lemma rotation_rebuilt_witness :
  buildLeaderRotationMeta (L := ZBLS) (fun k => k) MainnetChainConfig turn_state turn_lookup 2 no_meta (turn_header 2) =
    Some (Ok (mkMeta (Bytes 6) 20000000 2)).
Proof.
  assert (forall j, 0 <= j <= 2 -> j = 0 \/ j = 1 \/ j = 2) as Hj by lia.
  refine (proj1 (rotation_rebuilt (L := ZBLS) (fun k => k) MainnetChainConfig turn_state turn_lookup 2 turn_header turn_key _
    0 _ _ _ _ _ _)).
  - split; intros j H; destruct (Hj j H) as [->|[->| ->]]; done.
  - lia.
  - lia.
  - done.
  - done.
  - done.
  - intros j H. assert (j = 1 \/ j = 2) as [->| ->] by lia; done.
Defined.
