(* ===== verification/Consensus.v ===== *)
(** * The state of a consensus node (consensus/consensus.go, consensus/consensus_service.go, consensus/config.go, consensus/enums.go)

    [Consensus] is the struct of the same name.  A method is a value of
    [SM Consensus]: it runs under the consensus mutex, so one method at a time.
    A method without result that returns early does so with [stop]; its callers
    wrap it in [handled].  A goroutine that a method starts is an [Event]
    [Spawn] with its [Task], run later by whoever schedules it; other effects on
    the outside world are events too, and messages go through [msgSender].

    The blockchain is the interface [core.BlockChain], of which [ChainLib] has
    the methods the consensus calls; protobuf's encoder and the address of a BLS
    key are foreign ([NodeLib]).  [now] is the clock, in nanoseconds; it stands
    still within a method.  Metrics, logging and webhooks are left out. *)
From S2P Require Import Prelude Dec Bls SigBitmap Mask Params Sharding Shard Header CXReceipt Block VotePower Quorum Decider.
From S2P Require Import FbftLog FbftMessage ViewChange MsgSender LeaderRotation.
Local Open Scope Z_scope.

(** ** enums.go, config.go *)

Inductive Mode := Normal | ViewChanging | Syncing | Listening.
#[export] Instance Mode_eq_dec : EqDecision Mode.
Proof. solve_decision. Defined.
Inductive FBFTPhase := FBFTAnnounce | FBFTPrepare | FBFTCommit.
#[export] Instance FBFTPhase_eq_dec : EqDecision FBFTPhase.
Proof. solve_decision. Defined.

Definition second : Z := 1000000000.
Definition viewChangeTimeout : Z := 27.
Definition viewChangeSlot : Z := 45.
Definition viewChangeDuration : Z := viewChangeTimeout * second.
Definition phaseDuration : Z := viewChangeTimeout * second.
Definition bootstrapDuration : Z := 120 * second.

Inductive TimeoutType := timeoutConsensus | timeoutViewChange | timeoutBootstrap.
#[export] Instance TimeoutType_eq_dec : EqDecision TimeoutType.
Proof. solve_decision. Defined.

(** [map[TimeoutType]*utils.Timeout], all three keys always present. *)
Record Timeouts := mkTimeouts { tConsensus : Timeout; tViewChange : Timeout; tBootstrap : Timeout }.
Definition timeout_of (t : Timeouts) (k : TimeoutType) : Timeout :=
  match k with timeoutConsensus => t.(tConsensus) | timeoutViewChange => t.(tViewChange) | timeoutBootstrap => t.(tBootstrap) end.
Definition with_timeout (k : TimeoutType) (f : Timeout -> Timeout) (t : Timeouts) : Timeouts :=
  match k with
  | timeoutConsensus => mkTimeouts (f t.(tConsensus)) t.(tViewChange) t.(tBootstrap)
  | timeoutViewChange => mkTimeouts t.(tConsensus) (f t.(tViewChange)) t.(tBootstrap)
  | timeoutBootstrap => mkTimeouts t.(tConsensus) t.(tViewChange) (f t.(tBootstrap))
  end.
Definition createTimeout (now : Z) : Timeouts :=
  mkTimeouts (NewTimeout now phaseDuration) (NewTimeout now viewChangeDuration) (NewTimeout now bootstrapDuration).

(** ** view_change.go: State *)

Record State := mkCurrent { mode : Mode; blockViewID : Z; viewChangingID : Z }.
Definition NewState (m : Mode) : State := mkCurrent m 0 0.
Definition SetMode (m : Mode) (s : State) : State := mkCurrent m s.(blockViewID) s.(viewChangingID).
Definition SetCurBlockViewID (v : Z) (s : State) : State := mkCurrent s.(mode) v s.(viewChangingID).
Definition SetViewChangingID (v : Z) (s : State) : State := mkCurrent s.(mode) s.(blockViewID) v.
(** The product is on 64 bits. *)
Definition GetViewChangeDuraion (s : State) : Z :=
  let diff := i64 (u64 (s.(viewChangingID) - s.(blockViewID))) in i64 (i64 (diff * diff) * viewChangeDuration).

Inductive ProposalType := SyncProposal | AsyncProposal.

Definition vdFAndProofSize : nat := 516.
Definition vdfAndSeedSize : nat := 548.

Definition ErrKnownBlock : string := "block already known".
Definition ErrViewIDNotMatch : string := "viewID not match".
Definition errLeaderPriKeyNotFound : string := "leader private key not found locally".
Definition errGetPreparedBlock : string := "failed to get prepared block for self commit".
Definition errReadBitmapPayload : string := "failed to read signature bitmap payload".

(** p2p/host.go, api/proto/common.go: the framing of a message. *)
Definition ConstructMessage (content : list Z) : list Z := 17 :: be_bytes 4 (Z.of_nat (length content)) ++ content.
Definition ConstructConsensusMessage (payload : list Z) : list Z := 0 :: payload.

(** ** What the consensus relies on *)

Section libs.
Context {L : BLSLib} {H : Hashes} {T : TxLib}.
Class ChainLib := {
  Chain : Type;
  bc_Config : Chain -> ChainConfig;
  bc_CurrentHeader : Chain -> option Header;
  bc_CurrentBlock : Chain -> Block;
  bc_GetHeaderByNumber : Chain -> Z -> option Header;
  bc_GetBlockByHash : Chain -> Z -> option Block;
  bc_ReadShardState : Chain -> Z -> outcome Shard.State;
  bc_ReadCommitSig : Chain -> Z -> outcome (list Z);
  bc_WriteCommitSig : Chain -> Z -> list Z -> Chain * outcome unit;
  bc_InsertChain : Chain -> Block -> bool -> Chain * outcome unit;
  bc_ValidateNewBlock : Chain -> Block -> outcome unit;
  bc_VerifyHeaderSignature : Chain -> Header -> list Z -> list Z -> outcome unit;
  bc_LeaderRotationMeta : Chain -> LeaderRotationMeta
}.
Class NodeLib := {
  pb_Marshal : Message -> outcome (list Z);
  pk_GetAddress : PublicKey -> Address
}.
End libs.

Section consensus.
Context {L : BLSLib} {S : SigCheck L} {G : Signer L} {H : Hashes} {T : TxLib} {R : BlockRLP} {W : Walk}.
Context {C : ChainLib} {N : NodeLib} {SR : ShardRLP} (of_bytes : list Z -> Data) (schedule : Schedule).

(** Goroutines. *)
Inductive Task :=
| ValidateNewBlock_ (recvMsg : FBFTMessage)
| RetryCommitted (blockObj : Block)
| GracePeriod (viewID : Z)
| PreCommit (blk : Block) (bareMinimumCommit msgToSend : list Z)
| ReadySignal (t : ProposalType)
| CommitSigSignal (commitSigAndBitmap : list Z).

Inductive Event :=
| DownloadAsync
| Spawn (t : Task)
| BroadcastNewBlock (newBlock : Block)
| BroadcastCXReceipts (newBlock : Block)
| ValidatorBroadcast (newBlock : Block)
| BroadcastMissingCXReceipts
| VerifiedNewBlock (blk : Block).

(** ** The struct *)

Record Consensus := mkConsensus {
  priKey : list PrivateKeyWrapper;
  myShardID : Z;
  AggregateSigning : bool;
  network : NetworkType;
  now : Z;
  decider : Decider;
  fBFTLog : FBFTLog;
  phase : FBFTPhase;
  current : State;
  isBackup : bool;
  consensusTimeout : Timeouts;
  aggregatedPrepareSig : option Sign;
  aggregatedCommitSig : option Sign;
  prepareBitmap : option Mask;
  commitBitmap : option Mask;
  multiSigBitmap : option Mask;
  leaderPubKey : option PublicKeyWrapper;
  blockNum : Z;
  blockHash : Z;
  block : list Z;
  IgnoreViewIDCheck : bool;
  vc : viewChange_;
  pendingRnds : list (list Z);
  msgSender : MessageSender;
  BlockPeriod : Z;
  NextBlockDue : Z;
  finality : Z;
  finalityCounter : option Z;
  start : bool;
  isInitialLeader : bool;
  chain : Chain;
  events : list Event
}.

(** Assignments to the fields. *)
Definition set_decider (v : Decider) (c : Consensus) : Consensus :=
  mkConsensus c.(priKey) c.(myShardID) c.(AggregateSigning) c.(network) c.(now) v c.(fBFTLog) c.(phase) c.(current)
    c.(isBackup) c.(consensusTimeout) c.(aggregatedPrepareSig) c.(aggregatedCommitSig) c.(prepareBitmap)
    c.(commitBitmap) c.(multiSigBitmap) c.(leaderPubKey) c.(blockNum) c.(blockHash) c.(block) c.(IgnoreViewIDCheck)
    c.(vc) c.(pendingRnds) c.(msgSender) c.(BlockPeriod) c.(NextBlockDue) c.(finality) c.(finalityCounter)
    c.(start) c.(isInitialLeader) c.(chain) c.(events).
Definition set_fBFTLog (v : FBFTLog) (c : Consensus) : Consensus :=
  mkConsensus c.(priKey) c.(myShardID) c.(AggregateSigning) c.(network) c.(now) c.(decider) v c.(phase) c.(current)
    c.(isBackup) c.(consensusTimeout) c.(aggregatedPrepareSig) c.(aggregatedCommitSig) c.(prepareBitmap)
    c.(commitBitmap) c.(multiSigBitmap) c.(leaderPubKey) c.(blockNum) c.(blockHash) c.(block) c.(IgnoreViewIDCheck)
    c.(vc) c.(pendingRnds) c.(msgSender) c.(BlockPeriod) c.(NextBlockDue) c.(finality) c.(finalityCounter)
    c.(start) c.(isInitialLeader) c.(chain) c.(events).
Definition set_phase (v : FBFTPhase) (c : Consensus) : Consensus :=
  mkConsensus c.(priKey) c.(myShardID) c.(AggregateSigning) c.(network) c.(now) c.(decider) c.(fBFTLog) v
    c.(current) c.(isBackup) c.(consensusTimeout) c.(aggregatedPrepareSig) c.(aggregatedCommitSig)
    c.(prepareBitmap) c.(commitBitmap) c.(multiSigBitmap) c.(leaderPubKey) c.(blockNum) c.(blockHash) c.(block)
    c.(IgnoreViewIDCheck) c.(vc) c.(pendingRnds) c.(msgSender) c.(BlockPeriod) c.(NextBlockDue) c.(finality)
    c.(finalityCounter) c.(start) c.(isInitialLeader) c.(chain) c.(events).
Definition set_current (v : State) (c : Consensus) : Consensus :=
  mkConsensus c.(priKey) c.(myShardID) c.(AggregateSigning) c.(network) c.(now) c.(decider) c.(fBFTLog) c.(phase) v
    c.(isBackup) c.(consensusTimeout) c.(aggregatedPrepareSig) c.(aggregatedCommitSig) c.(prepareBitmap)
    c.(commitBitmap) c.(multiSigBitmap) c.(leaderPubKey) c.(blockNum) c.(blockHash) c.(block) c.(IgnoreViewIDCheck)
    c.(vc) c.(pendingRnds) c.(msgSender) c.(BlockPeriod) c.(NextBlockDue) c.(finality) c.(finalityCounter)
    c.(start) c.(isInitialLeader) c.(chain) c.(events).
Definition set_isBackup (v : bool) (c : Consensus) : Consensus :=
  mkConsensus c.(priKey) c.(myShardID) c.(AggregateSigning) c.(network) c.(now) c.(decider) c.(fBFTLog) c.(phase)
    c.(current) v c.(consensusTimeout) c.(aggregatedPrepareSig) c.(aggregatedCommitSig) c.(prepareBitmap)
    c.(commitBitmap) c.(multiSigBitmap) c.(leaderPubKey) c.(blockNum) c.(blockHash) c.(block) c.(IgnoreViewIDCheck)
    c.(vc) c.(pendingRnds) c.(msgSender) c.(BlockPeriod) c.(NextBlockDue) c.(finality) c.(finalityCounter)
    c.(start) c.(isInitialLeader) c.(chain) c.(events).
Definition set_consensusTimeout (v : Timeouts) (c : Consensus) : Consensus :=
  mkConsensus c.(priKey) c.(myShardID) c.(AggregateSigning) c.(network) c.(now) c.(decider) c.(fBFTLog) c.(phase)
    c.(current) c.(isBackup) v c.(aggregatedPrepareSig) c.(aggregatedCommitSig) c.(prepareBitmap) c.(commitBitmap)
    c.(multiSigBitmap) c.(leaderPubKey) c.(blockNum) c.(blockHash) c.(block) c.(IgnoreViewIDCheck) c.(vc)
    c.(pendingRnds) c.(msgSender) c.(BlockPeriod) c.(NextBlockDue) c.(finality) c.(finalityCounter) c.(start)
    c.(isInitialLeader) c.(chain) c.(events).
Definition set_aggregatedPrepareSig (v : option Sign) (c : Consensus) : Consensus :=
  mkConsensus c.(priKey) c.(myShardID) c.(AggregateSigning) c.(network) c.(now) c.(decider) c.(fBFTLog) c.(phase)
    c.(current) c.(isBackup) c.(consensusTimeout) v c.(aggregatedCommitSig) c.(prepareBitmap) c.(commitBitmap)
    c.(multiSigBitmap) c.(leaderPubKey) c.(blockNum) c.(blockHash) c.(block) c.(IgnoreViewIDCheck) c.(vc)
    c.(pendingRnds) c.(msgSender) c.(BlockPeriod) c.(NextBlockDue) c.(finality) c.(finalityCounter) c.(start)
    c.(isInitialLeader) c.(chain) c.(events).
Definition set_aggregatedCommitSig (v : option Sign) (c : Consensus) : Consensus :=
  mkConsensus c.(priKey) c.(myShardID) c.(AggregateSigning) c.(network) c.(now) c.(decider) c.(fBFTLog) c.(phase)
    c.(current) c.(isBackup) c.(consensusTimeout) c.(aggregatedPrepareSig) v c.(prepareBitmap) c.(commitBitmap)
    c.(multiSigBitmap) c.(leaderPubKey) c.(blockNum) c.(blockHash) c.(block) c.(IgnoreViewIDCheck) c.(vc)
    c.(pendingRnds) c.(msgSender) c.(BlockPeriod) c.(NextBlockDue) c.(finality) c.(finalityCounter) c.(start)
    c.(isInitialLeader) c.(chain) c.(events).
Definition set_prepareBitmap (v : option Mask) (c : Consensus) : Consensus :=
  mkConsensus c.(priKey) c.(myShardID) c.(AggregateSigning) c.(network) c.(now) c.(decider) c.(fBFTLog) c.(phase)
    c.(current) c.(isBackup) c.(consensusTimeout) c.(aggregatedPrepareSig) c.(aggregatedCommitSig) v
    c.(commitBitmap) c.(multiSigBitmap) c.(leaderPubKey) c.(blockNum) c.(blockHash) c.(block) c.(IgnoreViewIDCheck)
    c.(vc) c.(pendingRnds) c.(msgSender) c.(BlockPeriod) c.(NextBlockDue) c.(finality) c.(finalityCounter)
    c.(start) c.(isInitialLeader) c.(chain) c.(events).
Definition set_commitBitmap (v : option Mask) (c : Consensus) : Consensus :=
  mkConsensus c.(priKey) c.(myShardID) c.(AggregateSigning) c.(network) c.(now) c.(decider) c.(fBFTLog) c.(phase)
    c.(current) c.(isBackup) c.(consensusTimeout) c.(aggregatedPrepareSig) c.(aggregatedCommitSig)
    c.(prepareBitmap) v c.(multiSigBitmap) c.(leaderPubKey) c.(blockNum) c.(blockHash) c.(block)
    c.(IgnoreViewIDCheck) c.(vc) c.(pendingRnds) c.(msgSender) c.(BlockPeriod) c.(NextBlockDue) c.(finality)
    c.(finalityCounter) c.(start) c.(isInitialLeader) c.(chain) c.(events).
Definition set_multiSigBitmap (v : option Mask) (c : Consensus) : Consensus :=
  mkConsensus c.(priKey) c.(myShardID) c.(AggregateSigning) c.(network) c.(now) c.(decider) c.(fBFTLog) c.(phase)
    c.(current) c.(isBackup) c.(consensusTimeout) c.(aggregatedPrepareSig) c.(aggregatedCommitSig)
    c.(prepareBitmap) c.(commitBitmap) v c.(leaderPubKey) c.(blockNum) c.(blockHash) c.(block)
    c.(IgnoreViewIDCheck) c.(vc) c.(pendingRnds) c.(msgSender) c.(BlockPeriod) c.(NextBlockDue) c.(finality)
    c.(finalityCounter) c.(start) c.(isInitialLeader) c.(chain) c.(events).
Definition set_leaderPubKey (v : option PublicKeyWrapper) (c : Consensus) : Consensus :=
  mkConsensus c.(priKey) c.(myShardID) c.(AggregateSigning) c.(network) c.(now) c.(decider) c.(fBFTLog) c.(phase)
    c.(current) c.(isBackup) c.(consensusTimeout) c.(aggregatedPrepareSig) c.(aggregatedCommitSig)
    c.(prepareBitmap) c.(commitBitmap) c.(multiSigBitmap) v c.(blockNum) c.(blockHash) c.(block)
    c.(IgnoreViewIDCheck) c.(vc) c.(pendingRnds) c.(msgSender) c.(BlockPeriod) c.(NextBlockDue) c.(finality)
    c.(finalityCounter) c.(start) c.(isInitialLeader) c.(chain) c.(events).
Definition set_blockNum (v : Z) (c : Consensus) : Consensus :=
  mkConsensus c.(priKey) c.(myShardID) c.(AggregateSigning) c.(network) c.(now) c.(decider) c.(fBFTLog) c.(phase)
    c.(current) c.(isBackup) c.(consensusTimeout) c.(aggregatedPrepareSig) c.(aggregatedCommitSig)
    c.(prepareBitmap) c.(commitBitmap) c.(multiSigBitmap) c.(leaderPubKey) v c.(blockHash) c.(block)
    c.(IgnoreViewIDCheck) c.(vc) c.(pendingRnds) c.(msgSender) c.(BlockPeriod) c.(NextBlockDue) c.(finality)
    c.(finalityCounter) c.(start) c.(isInitialLeader) c.(chain) c.(events).
Definition set_blockHash (v : Z) (c : Consensus) : Consensus :=
  mkConsensus c.(priKey) c.(myShardID) c.(AggregateSigning) c.(network) c.(now) c.(decider) c.(fBFTLog) c.(phase)
    c.(current) c.(isBackup) c.(consensusTimeout) c.(aggregatedPrepareSig) c.(aggregatedCommitSig)
    c.(prepareBitmap) c.(commitBitmap) c.(multiSigBitmap) c.(leaderPubKey) c.(blockNum) v c.(block)
    c.(IgnoreViewIDCheck) c.(vc) c.(pendingRnds) c.(msgSender) c.(BlockPeriod) c.(NextBlockDue) c.(finality)
    c.(finalityCounter) c.(start) c.(isInitialLeader) c.(chain) c.(events).
Definition set_block (v : list Z) (c : Consensus) : Consensus :=
  mkConsensus c.(priKey) c.(myShardID) c.(AggregateSigning) c.(network) c.(now) c.(decider) c.(fBFTLog) c.(phase)
    c.(current) c.(isBackup) c.(consensusTimeout) c.(aggregatedPrepareSig) c.(aggregatedCommitSig)
    c.(prepareBitmap) c.(commitBitmap) c.(multiSigBitmap) c.(leaderPubKey) c.(blockNum) c.(blockHash) v
    c.(IgnoreViewIDCheck) c.(vc) c.(pendingRnds) c.(msgSender) c.(BlockPeriod) c.(NextBlockDue) c.(finality)
    c.(finalityCounter) c.(start) c.(isInitialLeader) c.(chain) c.(events).
Definition set_IgnoreViewIDCheck (v : bool) (c : Consensus) : Consensus :=
  mkConsensus c.(priKey) c.(myShardID) c.(AggregateSigning) c.(network) c.(now) c.(decider) c.(fBFTLog) c.(phase)
    c.(current) c.(isBackup) c.(consensusTimeout) c.(aggregatedPrepareSig) c.(aggregatedCommitSig)
    c.(prepareBitmap) c.(commitBitmap) c.(multiSigBitmap) c.(leaderPubKey) c.(blockNum) c.(blockHash) c.(block) v
    c.(vc) c.(pendingRnds) c.(msgSender) c.(BlockPeriod) c.(NextBlockDue) c.(finality) c.(finalityCounter)
    c.(start) c.(isInitialLeader) c.(chain) c.(events).
Definition set_vc (v : viewChange_) (c : Consensus) : Consensus :=
  mkConsensus c.(priKey) c.(myShardID) c.(AggregateSigning) c.(network) c.(now) c.(decider) c.(fBFTLog) c.(phase)
    c.(current) c.(isBackup) c.(consensusTimeout) c.(aggregatedPrepareSig) c.(aggregatedCommitSig)
    c.(prepareBitmap) c.(commitBitmap) c.(multiSigBitmap) c.(leaderPubKey) c.(blockNum) c.(blockHash) c.(block)
    c.(IgnoreViewIDCheck) v c.(pendingRnds) c.(msgSender) c.(BlockPeriod) c.(NextBlockDue) c.(finality)
    c.(finalityCounter) c.(start) c.(isInitialLeader) c.(chain) c.(events).
Definition set_pendingRnds (v : list (list Z)) (c : Consensus) : Consensus :=
  mkConsensus c.(priKey) c.(myShardID) c.(AggregateSigning) c.(network) c.(now) c.(decider) c.(fBFTLog) c.(phase)
    c.(current) c.(isBackup) c.(consensusTimeout) c.(aggregatedPrepareSig) c.(aggregatedCommitSig)
    c.(prepareBitmap) c.(commitBitmap) c.(multiSigBitmap) c.(leaderPubKey) c.(blockNum) c.(blockHash) c.(block)
    c.(IgnoreViewIDCheck) c.(vc) v c.(msgSender) c.(BlockPeriod) c.(NextBlockDue) c.(finality) c.(finalityCounter)
    c.(start) c.(isInitialLeader) c.(chain) c.(events).
Definition set_msgSender (v : MessageSender) (c : Consensus) : Consensus :=
  mkConsensus c.(priKey) c.(myShardID) c.(AggregateSigning) c.(network) c.(now) c.(decider) c.(fBFTLog) c.(phase)
    c.(current) c.(isBackup) c.(consensusTimeout) c.(aggregatedPrepareSig) c.(aggregatedCommitSig)
    c.(prepareBitmap) c.(commitBitmap) c.(multiSigBitmap) c.(leaderPubKey) c.(blockNum) c.(blockHash) c.(block)
    c.(IgnoreViewIDCheck) c.(vc) c.(pendingRnds) v c.(BlockPeriod) c.(NextBlockDue) c.(finality)
    c.(finalityCounter) c.(start) c.(isInitialLeader) c.(chain) c.(events).
Definition set_BlockPeriod (v : Z) (c : Consensus) : Consensus :=
  mkConsensus c.(priKey) c.(myShardID) c.(AggregateSigning) c.(network) c.(now) c.(decider) c.(fBFTLog) c.(phase)
    c.(current) c.(isBackup) c.(consensusTimeout) c.(aggregatedPrepareSig) c.(aggregatedCommitSig)
    c.(prepareBitmap) c.(commitBitmap) c.(multiSigBitmap) c.(leaderPubKey) c.(blockNum) c.(blockHash) c.(block)
    c.(IgnoreViewIDCheck) c.(vc) c.(pendingRnds) c.(msgSender) v c.(NextBlockDue) c.(finality) c.(finalityCounter)
    c.(start) c.(isInitialLeader) c.(chain) c.(events).
Definition set_NextBlockDue (v : Z) (c : Consensus) : Consensus :=
  mkConsensus c.(priKey) c.(myShardID) c.(AggregateSigning) c.(network) c.(now) c.(decider) c.(fBFTLog) c.(phase)
    c.(current) c.(isBackup) c.(consensusTimeout) c.(aggregatedPrepareSig) c.(aggregatedCommitSig)
    c.(prepareBitmap) c.(commitBitmap) c.(multiSigBitmap) c.(leaderPubKey) c.(blockNum) c.(blockHash) c.(block)
    c.(IgnoreViewIDCheck) c.(vc) c.(pendingRnds) c.(msgSender) c.(BlockPeriod) v c.(finality) c.(finalityCounter)
    c.(start) c.(isInitialLeader) c.(chain) c.(events).
Definition set_finality (v : Z) (c : Consensus) : Consensus :=
  mkConsensus c.(priKey) c.(myShardID) c.(AggregateSigning) c.(network) c.(now) c.(decider) c.(fBFTLog) c.(phase)
    c.(current) c.(isBackup) c.(consensusTimeout) c.(aggregatedPrepareSig) c.(aggregatedCommitSig)
    c.(prepareBitmap) c.(commitBitmap) c.(multiSigBitmap) c.(leaderPubKey) c.(blockNum) c.(blockHash) c.(block)
    c.(IgnoreViewIDCheck) c.(vc) c.(pendingRnds) c.(msgSender) c.(BlockPeriod) c.(NextBlockDue) v
    c.(finalityCounter) c.(start) c.(isInitialLeader) c.(chain) c.(events).
Definition set_finalityCounter (v : option Z) (c : Consensus) : Consensus :=
  mkConsensus c.(priKey) c.(myShardID) c.(AggregateSigning) c.(network) c.(now) c.(decider) c.(fBFTLog) c.(phase)
    c.(current) c.(isBackup) c.(consensusTimeout) c.(aggregatedPrepareSig) c.(aggregatedCommitSig)
    c.(prepareBitmap) c.(commitBitmap) c.(multiSigBitmap) c.(leaderPubKey) c.(blockNum) c.(blockHash) c.(block)
    c.(IgnoreViewIDCheck) c.(vc) c.(pendingRnds) c.(msgSender) c.(BlockPeriod) c.(NextBlockDue) c.(finality) v
    c.(start) c.(isInitialLeader) c.(chain) c.(events).
Definition set_start (v : bool) (c : Consensus) : Consensus :=
  mkConsensus c.(priKey) c.(myShardID) c.(AggregateSigning) c.(network) c.(now) c.(decider) c.(fBFTLog) c.(phase)
    c.(current) c.(isBackup) c.(consensusTimeout) c.(aggregatedPrepareSig) c.(aggregatedCommitSig)
    c.(prepareBitmap) c.(commitBitmap) c.(multiSigBitmap) c.(leaderPubKey) c.(blockNum) c.(blockHash) c.(block)
    c.(IgnoreViewIDCheck) c.(vc) c.(pendingRnds) c.(msgSender) c.(BlockPeriod) c.(NextBlockDue) c.(finality)
    c.(finalityCounter) v c.(isInitialLeader) c.(chain) c.(events).
Definition set_isInitialLeader (v : bool) (c : Consensus) : Consensus :=
  mkConsensus c.(priKey) c.(myShardID) c.(AggregateSigning) c.(network) c.(now) c.(decider) c.(fBFTLog) c.(phase)
    c.(current) c.(isBackup) c.(consensusTimeout) c.(aggregatedPrepareSig) c.(aggregatedCommitSig)
    c.(prepareBitmap) c.(commitBitmap) c.(multiSigBitmap) c.(leaderPubKey) c.(blockNum) c.(blockHash) c.(block)
    c.(IgnoreViewIDCheck) c.(vc) c.(pendingRnds) c.(msgSender) c.(BlockPeriod) c.(NextBlockDue) c.(finality)
    c.(finalityCounter) c.(start) v c.(chain) c.(events).
Definition set_chain (v : Chain) (c : Consensus) : Consensus :=
  mkConsensus c.(priKey) c.(myShardID) c.(AggregateSigning) c.(network) c.(now) c.(decider) c.(fBFTLog) c.(phase)
    c.(current) c.(isBackup) c.(consensusTimeout) c.(aggregatedPrepareSig) c.(aggregatedCommitSig)
    c.(prepareBitmap) c.(commitBitmap) c.(multiSigBitmap) c.(leaderPubKey) c.(blockNum) c.(blockHash) c.(block)
    c.(IgnoreViewIDCheck) c.(vc) c.(pendingRnds) c.(msgSender) c.(BlockPeriod) c.(NextBlockDue) c.(finality)
    c.(finalityCounter) c.(start) c.(isInitialLeader) v c.(events).
Definition set_events (v : list Event) (c : Consensus) : Consensus :=
  mkConsensus c.(priKey) c.(myShardID) c.(AggregateSigning) c.(network) c.(now) c.(decider) c.(fBFTLog) c.(phase)
    c.(current) c.(isBackup) c.(consensusTimeout) c.(aggregatedPrepareSig) c.(aggregatedCommitSig)
    c.(prepareBitmap) c.(commitBitmap) c.(multiSigBitmap) c.(leaderPubKey) c.(blockNum) c.(blockHash) c.(block)
    c.(IgnoreViewIDCheck) c.(vc) c.(pendingRnds) c.(msgSender) c.(BlockPeriod) c.(NextBlockDue) c.(finality)
    c.(finalityCounter) c.(start) c.(isInitialLeader) c.(chain) v.

Notation M := (SM Consensus).

(** ** Access *)

Definition get_mode : M Mode := gets (fun c => c.(current).(mode)).
Definition setMode (m : Mode) : M unit := modify (fun c => set_current (SetMode m c.(current)) c).
Definition setCurBlockViewID (v : Z) : M unit := modify (fun c => set_current (SetCurBlockViewID v c.(current)) c).
Definition setViewChangingID (v : Z) : M unit := modify (fun c => set_current (SetViewChangingID v c.(current)) c).
Definition setViewIDs (height : Z) : M unit := let! _ := setCurBlockViewID height in setViewChangingID height.
Definition setLeaderPubKey (pub : option PublicKeyWrapper) : M unit := modify (set_leaderPubKey pub).
Definition setBlockNum (n : Z) : M unit := modify (set_blockNum n).
Definition switchPhase (desired : FBFTPhase) : M unit := modify (set_phase desired).
Definition SetIsBackup (b : bool) : M unit := modify (set_isBackup b).
Definition emit (e : Event) : M unit := modify (fun c => set_events (c.(events) ++ [e]) c).
Definition spawn (t : Task) : M unit := emit (Spawn t).

Definition timer (k : TimeoutType) (f : Z -> Timeout -> Timeout) : M unit :=
  modify (fun c => set_consensusTimeout (with_timeout k (f c.(now)) c.(consensusTimeout)) c).
Definition startTimer (k : TimeoutType) : M unit := timer k Start.
Definition stopTimer (k : TimeoutType) : M unit := timer k Stop.

Definition on_log (f : FBFTLog -> FBFTLog) : M unit := modify (fun c => set_fBFTLog (f c.(fBFTLog)) c).
Definition on_decider (f : Decider -> Decider) : M unit := modify (fun c => set_decider (f c.(decider)) c).

(** Calls of the parts. *)
Definition sending {A} (m : SM MessageSender A) : M A := fun c =>
  let '(s, r) := m c.(msgSender) in (set_msgSender s c, r).
Definition AddNewVote_ (p : Phase) (keys : list PublicKeyWrapper) (sig : Sign) (headerHash height viewID : Z) : M Ballot := fun c =>
  let '(d, r) := d_AddNewVote c.(decider) p keys sig headerHash height viewID in (set_decider d c, r).
Definition on_chain {A} (f : Chain -> Chain * outcome A) : M A := fun c =>
  let '(ch, r) := f c.(chain) in (set_chain ch c, r).
(** The view change bookkeeping works on its own state and the log. *)
Definition viewchanging {A} (m : SM VCState A) : M A := fun c =>
  let '(s, r) := m (c.(vc), c.(fBFTLog)) in (set_fBFTLog s.2 (set_vc s.1 c), r).

Definition cur_header : M Header := let! c := gets (fun c => c) in lift (deref (bc_CurrentHeader c.(chain))).
Definition chain_config (c : Consensus) : ChainConfig := bc_Config c.(chain).
Definition participants (c : Consensus) : list PublicKeyWrapper := d_Participants c.(decider).
Definition header_view (h : Header) : Z := Big.Uint64 (Header.ViewID h).
Definition block_view (b : Block) : Z := header_view (Block_Header b).

(** [shard.Schedule.InstanceForEpoch] *)
Definition instance_for (epoch : option Z) : M instance := lift (InstanceForEpoch schedule epoch).

(** ** consensus.go *)

Definition isViewChangingMode (c : Consensus) : bool := bool_decide (c.(current).(mode) = ViewChanging).

(** [BlockVerifier] asks the chain; a block it knows is fine. *)
Definition BlockVerifier (ch : Chain) (newBlock : Block) : outcome unit :=
  match bc_ValidateNewBlock ch newBlock with
  | Err e => if bool_decide (e = ErrKnownBlock) then Ok tt else Err "[VerifyNewBlock] Cannot Verify New Block!!!"
  | r => r
  end.
Definition verifyBlock_on (ch : Chain) (log : FBFTLog) (block : Block) : FBFTLog * outcome unit :=
  if IsBlockVerified log (Block_Hash block) then (log, Ok tt)
  else match BlockVerifier ch block with
       | Ok _ => (MarkBlockVerified log block, Ok tt)
       | Err _ => (log, Err "Block verification failed")
       | Panic w => (log, Panic w)
       end.
Definition verifyBlock (block : Block) : M unit := fun c =>
  let '(log, r) := verifyBlock_on c.(chain) c.(fBFTLog) block in (set_fBFTLog log c, r).

Definition getPublicKeys (c : Consensus) : list PublicKeyWrapper := GetPublicKeys c.(priKey).
Definition getLeaderPrivateKey (c : Consensus) (leaderKey : PublicKey) : outcome PrivateKeyWrapper :=
  match find (fun key => bool_decide (key.(Pub).(Object) = leaderKey)) c.(priKey) with
  | Some key => Ok key
  | None => Err errLeaderPriKeyNotFound
  end.
Definition getConsensusLeaderPrivateKey : M PrivateKeyWrapper :=
  let! c := gets (fun c => c) in
  let! leader := lift (deref c.(leaderPubKey)) in
  lift (getLeaderPrivateKey c leader.(Object)).

Definition VdfSeedSize (c : Consensus) : Z := Z.quot (d_ParticipantsCount c.(decider) * 2) 3.

(** ** consensus_service.go *)

Definition GetNextRnd : M (list Z * list Z) :=
  let! c := gets (fun c => c) in
  match c.(pendingRnds) with
  | [] => stop "No available randomness"
  | vdfOutput :: rest =>
      let! _ := modify (set_pendingRnds rest) in
      mret (take vdFAndProofSize vdfOutput, drop vdFAndProofSize vdfOutput)
  end.

(** [signMessage]; a nil signature panics when it is serialised. *)
Definition signMessage (message : list Z) (priKey : SecretKey) : outcome (list Z) :=
  let! signature := deref (SignHash priKey (Keccak256 message)) in Ok (sig_Serialize signature).
Definition with_signature (m : Message) (s : list Z) : Message :=
  mkMessage m.(msgServiceType) m.(msgType) s m.(msgRequest).
Definition signConsensusMessage (message : Message) (priKey : SecretKey) : outcome Message :=
  let! marshaledMessage := pb_Marshal (with_signature message []) in
  let! signature := signMessage marshaledMessage priKey in
  Ok (with_signature message signature).
Definition signAndMarshalConsensusMessage (message : Message) (priKey : SecretKey) : outcome (list Z) :=
  let! message := signConsensusMessage message priKey in pb_Marshal message.

Definition updateBitmaps : M unit := modify (fun c =>
  let fresh := Some (NewMask (participants c)) in set_multiSigBitmap fresh (set_commitBitmap fresh (set_prepareBitmap fresh c))).

(** [mask.Clear()] of a mask that may be nil, which nobody else holds. *)
Definition clear_mask (m : option Mask) : option Mask := Clear <$> m.
Definition resetState : M unit :=
  let! _ := switchPhase FBFTAnnounce in
  let! _ := modify (fun c => set_block [] (set_blockHash 0 c)) in
  let! _ := on_decider d_ResetPrepareAndCommitVotes in
  modify (fun c => set_aggregatedCommitSig None (set_aggregatedPrepareSig None
    (set_commitBitmap (clear_mask c.(commitBitmap)) (set_prepareBitmap (clear_mask c.(prepareBitmap)) c)))).

(** view_change.go *)
Definition resetViewChangeState : M unit :=
  let! _ := setMode Normal in
  let! _ := modify (set_vc ViewChange.Reset) in
  on_decider d_ResetViewChangeVotes.

Definition isValidatorInCommittee (c : Consensus) (pubKey : SerializedPublicKey) : bool :=
  negb (d_IndexOf c.(decider) pubKey =? -1).

Definition updatePublicKeys (pubKeys allowlist : list PublicKeyWrapper) : M Z :=
  let! _ := on_decider (fun d => d_UpdateParticipants d pubKeys allowlist) in
  let! allKeys := gets participants in
  let! _ := match allKeys with k :: _ => setLeaderPubKey (Some k) | [] => mret tt end in
  let! _ := updateBitmaps in
  let! _ := resetState in
  let! (vcm : bool) := gets isViewChangingMode in
  let! _ := sm_when (negb vcm) resetViewChangeState in
  gets (fun c => d_ParticipantsCount c.(decider)).

Definition checkViewID (msg : FBFTMessage) : M unit :=
  let! c := gets (fun c => c) in
  if c.(IgnoreViewIDCheck) then
    let! _ := setMode Normal in
    let! _ := setViewIDs msg.(ViewID) in
    if negb (HasSingleSender msg) then stop "Leader message can not have multiple sender keys"
    else
      let! k := lift (idx msg.(SenderPubkeys) 0) in
      let! _ := setLeaderPubKey (Some k) in
      let! _ := modify (set_IgnoreViewIDCheck false) in
      startTimer timeoutConsensus
  else if c.(current).(blockViewID) <? msg.(ViewID) then stop ErrViewIDNotMatch
  else if msg.(ViewID) <? c.(current).(blockViewID) then stop "view ID belongs to the past"
  else mret tt.

Definition readSignatureBitmapPayload (recvPayload : list Z) (offset : nat) (members : list PublicKeyWrapper)
    : outcome (Sign * Mask) :=
  if (length recvPayload <? offset + BLSSignatureSizeInBytes)%nat then Err "payload not have enough length"
  else ReadSignatureBitmapByPublicKeys (drop offset recvPayload) members.

Definition isLeader (c : Consensus) : bool :=
  match c.(leaderPubKey) with
  | None => false
  | Some pub => existsb (fun key => bool_decide (key.(Pub).(Object) = pub.(Object))) c.(priKey)
  end.

(** The committee the next block needs: that of the next epoch after the last
    block of an epoch (the genesis block excepted). *)
Definition committee_to_set (curHeader : Header) (nextEpoch : Z) (curShardState : Shard.State) (ch : Chain)
    : outcome (Committee * Z) :=
  if IsLastBlockInEpoch curHeader && (0 <? Number curHeader) then
    let! nextShardState := bc_ReadShardState ch nextEpoch in
    let! subComm := FindCommitteeByID (Some nextShardState) (Header.ShardID curHeader) in
    Ok (subComm, nextEpoch)
  else
    let! subComm := FindCommitteeByID (Some curShardState) (Header.ShardID curHeader) in
    Ok (subComm, Epoch curHeader).

(** A failing call answers [Syncing]. *)
Definition or_syncing {A} (m : outcome A) (k : A -> M Mode) : M Mode :=
  match m with Ok a => k a | Err _ => mret Syncing | Panic w => lift (Panic w) end.

Definition leader_changed (old new : option PublicKeyWrapper) : bool :=
  match old, new with Some o, Some n => negb (bool_decide (n.(Object) = o.(Object))) | _, _ => false end.

Definition updateConsensusInformation : M Mode :=
  let! curHeader := cur_header in
  let! c := gets (fun c => c) in
  let config := chain_config c in
  let curEpoch := Epoch curHeader in
  or_syncing (if IsLastBlockInEpoch curHeader
              then let! nextShardState := GetShardState of_bytes curHeader in
                   Ok (default (curEpoch + 1) nextShardState.(Shard.Epoch))
              else Ok (curEpoch + 1)) (fun nextEpoch =>
  let! _ := modify (set_BlockPeriod (if IsTwoSeconds config (Some nextEpoch) then 2 * second else 5 * second)) in
  let isFirstTimeStaking := IsStaking config (Some nextEpoch) && IsLastBlockInEpoch curHeader &&
                            negb (IsStaking config (Some curEpoch)) in
  let haventUpdatedDecider := IsStaking config (Some curEpoch) &&
                              match d_Policy c.(decider) with SuperMajorityStake => false | _ => true end in
  let! _ := sm_when (isFirstTimeStaking || haventUpdatedDecider)
              (on_decider (fun d => default d (NewDecider SuperMajorityStake c.(myShardID)))) in
  or_syncing (bc_ReadShardState c.(chain) curEpoch) (fun curShardState =>
  or_syncing (committee_to_set curHeader nextEpoch curShardState c.(chain)) (fun ce =>
  let '(committeeToSet, epochToSet) := ce in
  let noMembers := match committeeToSet.(Slots) with [] => true | _ => false end in
  let oldLeader := c.(leaderPubKey) in
  let! pubKeys := lift (match BLSPublicKeys (Some committeeToSet) with Err _ => Ok [] | r => r end) in
  let! _ := instance_for (Some nextEpoch) in
  let! _ := updatePublicKeys pubKeys [] in
  let! e := caught (fun c => let '(d, r) := d_SetVoters schedule c.(decider) committeeToSet (Some epochToSet) in (set_decider d c, r)) in
  match e with Some _ => mret Syncing | None =>
  let! (noLeader : bool) :=
    if negb (IsLastBlockInEpoch curHeader) && negb (NumberU64 curHeader =? 0) then
      match GetLeaderPubKeyFromCoinbase pk_GetAddress config (bc_ReadShardState c.(chain)) curHeader with
      | Ok leader => let! _ := setLeaderPubKey (Some leader) in mret false
      | Err _ => let! _ := modify (set_IgnoreViewIDCheck true) in mret true
      | Panic w => lift (Panic w)
      end
    else mret false in
  let hasError := noMembers || noLeader in
  if existsb (fun key => Contains (getPublicKeys c) key.(Object)) pubKeys then
    if hasError then mret Syncing
    else
      let! c := gets (fun c => c) in
      let! _ := sm_when (leader_changed oldLeader c.(leaderPubKey) && isLeader c) (spawn (ReadySignal SyncProposal)) in
      mret Normal
  else mret Listening
  end))).

(** ** construct.go *)

Record NetworkMessage := mkNetwork {
  nmType : Z; nmBytes : list Z; nmFBFTMsg : FBFTMessage; nmOptionalAggregateSignature : option Sign
}.

(** [sig.Add] over the keys that can sign. *)
Definition sign_with (priKeys : list PrivateKeyWrapper) (payload : list Z) : Sign :=
  foldl (fun sig key => match SignHash key.(Pri) payload with Some s => sig_add sig s | None => sig end) sig_zero priKeys.

Definition constructQuorumSigAndBitmap (c : Consensus) (p : Phase) : outcome (list Z) :=
  let aggSig := sig_Serialize (d_AggregateVotes c.(decider) p) in
  match p with
  | Prepare => let! m := deref c.(prepareBitmap) in Ok (aggSig ++ m.(Bitmap))
  | Commit => let! m := deref c.(commitBitmap) in Ok (aggSig ++ m.(Bitmap))
  | _ => Ok []
  end.

(** The senders of a message: one key, or the bitmap of several; an error of
    [SetKey] is ignored. *)
Definition senders_bitmap (c : Consensus) (priKeys : list PrivateKeyWrapper) : outcome (list Z) :=
  let! mask := foldM (fun m (key : PrivateKeyWrapper) => match SetKey m key.(Pub).(wBytes) true with Err _ => Ok m | r => r end)
                 priKeys (NewMask (participants c)) in
  Ok mask.(Bitmap).

(** Block and payload by type; PREPARE and COMMIT go without a message
    signature. *)
Definition block_and_payload (c : Consensus) (p : Z) (payloadForSign : list Z) (priKeys : list PrivateKeyWrapper)
    : outcome (list Z * list Z * bool) :=
  let hash := be_bytes 32 c.(blockHash) in
  if p =? MessageType_ANNOUNCE then Ok (c.(block), hash, true)
  else if p =? MessageType_PREPARE then Ok ([], sig_Serialize (sign_with priKeys hash), false)
  else if p =? MessageType_COMMIT then Ok ([], sig_Serialize (sign_with priKeys payloadForSign), false)
  else if p =? MessageType_PREPARED then let! payload := constructQuorumSigAndBitmap c Prepare in Ok (c.(block), payload, true)
  else if p =? MessageType_COMMITTED then let! payload := constructQuorumSigAndBitmap c Commit in Ok ([], payload, true)
  else Ok ([], [], true).

(** The message of a type, before it is signed. *)
Definition unsigned_message (c : Consensus) (p : Z) (payloadForSign : list Z) (priKeys : list PrivateKeyWrapper)
    : outcome (Message * bool) :=
  let! senders := match priKeys with
                  | [key] => Ok (Bytes key.(Pub).(wBytes), [])
                  | _ => let! bitmap := senders_bitmap c priKeys in Ok ([], bitmap)
                  end in
  let! (bps : list Z * list Z * bool) := block_and_payload c p payloadForSign priKeys in
  let '(block, payload, needMsgSig) := bps in
  Ok (mkMessage ServiceType_CONSENSUS p [] (Message_Consensus
        (mkConsensusRequest c.(current).(blockViewID) c.(blockNum) c.(myShardID) (be_bytes 32 c.(blockHash))
           block senders.1 payload senders.2)), needMsgSig).

(** [None] is the nil message that is returned, with a nil error, when the
    node cannot parse its own message. *)
Definition construct_on (c : Consensus) (p : Z) (payloadForSign : list Z) (priKeys : list PrivateKeyWrapper)
    : outcome (option NetworkMessage) :=
  match priKeys with
  | [] => Err "no elected bls keys provided"
  | first :: _ =>
      let! (mn : Message * bool) := unsigned_message c p payloadForSign priKeys in
      let '(message, needMsgSig) := mn in
      let! marshaledMessage := if needMsgSig then signAndMarshalConsensusMessage message first.(Pri) else pb_Marshal message in
      match parseFBFTMessage c.(multiSigBitmap) message with
      | Ok FBFTMsg => Ok (Some (mkNetwork p (ConstructConsensusMessage marshaledMessage) FBFTMsg None))
      | Err _ => Ok None
      | Panic w => Panic w
      end
  end.
Definition construct (p : Z) (payloadForSign : list Z) (priKeys : list PrivateKeyWrapper) : M (option NetworkMessage) :=
  let! c := gets (fun c => c) in lift (construct_on c p payloadForSign priKeys).

(** Every caller follows the pointer it gets. *)
Definition construct_single (p : Z) (priKey : PrivateKeyWrapper) : M NetworkMessage :=
  let! m := construct p [] [priKey] in lift (deref m).

(** The group of the node's shard. *)
Definition shard_group (c : Consensus) : list GroupID := [NewGroupIDByShardID c.(network) c.(myShardID)].
Definition send_retrying (blockNum msgType : Z) (msgToSend : list Z) : M unit :=
  let! c := gets (fun c => c) in
  sending (SendWithRetry blockNum msgType (shard_group c) (ConstructMessage msgToSend)).

Definition commit_payload (c : Consensus) (b : Block) : list Z :=
  ConstructCommitPayload (chain_config c) (Some (Block_Epoch b)) (Block_Hash b) (Block_NumberU64 b) (block_view b).

(** [consensus.commitBitmap.SetKey]: whether it went well. *)
Definition set_commit_key (key : SerializedPublicKey) : M bool :=
  let! c := gets (fun c => c) in
  let! mask := lift (deref c.(commitBitmap)) in
  match SetKey mask key true with
  | Ok m => let! _ := modify (set_commitBitmap (Some m)) in mret true
  | Err _ => mret false
  | Panic w => lift (Panic w)
  end.

(** consensus_service.go *)
Definition selfCommit (payload : list Z) : M unit :=
  if (length payload <? 32)%nat then lift (Panic "slice bounds out of range") else
  let hash := be_value (take 32 payload) in
  let! c := gets (fun c => c) in
  match GetBlockByHash c.(fBFTLog) hash with
  | None => stop errGetPreparedBlock
  | Some block =>
      match readSignatureBitmapPayload payload 32 (participants c) with
      | Panic w => lift (Panic w)
      | Err _ => stop errReadBitmapPayload
      | Ok (aggSig, mask) =>
          let! _ := resetState in
          let! _ := modify (set_blockHash hash) in
          let! _ := switchPhase FBFTCommit in
          let! _ := modify (fun c => set_prepareBitmap (Some mask) (set_aggregatedPrepareSig (Some aggSig) c)) in
          sm_for c.(priKey) (fun key =>
            let! (ok : bool) := set_commit_key key.(Pub).(wBytes) in
            if ok then
              let! sig := lift (deref (SignHash key.(Pri) (commit_payload c block))) in
              handled (AddNewVote_ Commit [key.(Pub)] sig hash (Block_NumberU64 block) (block_view block))
            else mret tt)
      end
  end.

Definition NumSignaturesIncludedInBlock (c : Consensus) (b : Block) : outcome Z :=
  match SetMask (NewMask (participants c)) (LastCommitBitmap (Block_Header b)) with
  | Err _ => Ok 0
  | Panic w => Panic w
  | Ok mask => foldM (fun (count : Z) (key : PublicKeyWrapper) =>
      match KeyEnabled mask key.(wBytes) with
      | Ok true => Ok (u32 (count + 1)) | Panic w => Panic w | _ => Ok count
      end) (getPublicKeys c) 0
  end.

Definition StartFinalityCount : M unit := modify (fun c => set_finalityCounter (Some c.(now)) c).
Definition FinishFinalityCount : M unit := modify (fun c =>
  match c.(finalityCounter) with
  | Some prior => set_finality (Z.quot (i64 (c.(now) - prior)) 1000000) c
  | None => c
  end).

(** downloader.go *)
Definition spinUpStateSync : M unit :=
  let! _ := emit DownloadAsync in
  let! _ := setMode Syncing in
  let! _ := stopTimer timeoutConsensus in
  let! _ := stopTimer timeoutViewChange in
  stopTimer timeoutBootstrap.

(** ** New (consensus.go) *)

(** A nil slice of keys is [None]. *)
Definition New (now myShardID : Z) (multiBLSPriKey : option (list PrivateKeyWrapper)) (d : Decider) (aggregateSig : bool)
    (network : NetworkType) (ch : Chain) (replies : list bool) : outcome Consensus :=
  match multiBLSPriKey with
  | None => Err "nil bls key, aborting"
  | Some priKey =>
      Ok (mkConsensus priKey myShardID aggregateSig network now d NewFBFTLog FBFTAnnounce (NewState Normal) false
            (createTimeout now) None None None None None None 0 0 [] false newViewChange []
            (NewMessageSender (Z.quot phaseDuration second) replies) 0 0 0 None false false ch [])
  end.
End consensus.
