(* ===== verification/FbftView.v ===== *)
(** * Changing the view (consensus/view_change.go, consensus/view_change_msg.go, consensus/checks.go)

    When a timer expires a node moves to view change mode, computes the next
    view from the clock and the next leader from the chain, and sends VIEWCHANGE
    messages; the next leader collects them and answers with NEWVIEW. *)
From S2P Require Import Prelude Dec Bls SigBitmap Mask Params Sharding Shard Header CXReceipt Block VotePower Quorum Decider.
From S2P Require Import FbftLog FbftMessage ViewChange MsgSender LeaderRotation Consensus.
Local Open Scope Z_scope.

Definition MaxViewIDDiff : Z := 249.
Definition MaxBlockNumDiff : Z := 100.

Section view.
Context {L : BLSLib} {S : SigCheck L} {G : Signer L} {H : Hashes} {T : TxLib} {R : BlockRLP} {W : Walk}.
Context {C : ChainLib} {N : NodeLib} (schedule : Schedule).
Notation M := (SM Consensus).

(** ** The next view and its leader *)

Definition fallbackNextViewID (c : Consensus) : Z * Z :=
  let s := c.(current) in
  let diff := i64 (u64 (s.(viewChangingID) + 1 - s.(blockViewID))) in
  let diff := if diff <=? 0 then 1 else diff in
  (u64 (s.(viewChangingID) + 1), i64 (i64 (diff * diff) * viewChangeDuration)).

Definition getNextViewID (c : Consensus) : Z * Z :=
  match bc_CurrentHeader c.(chain) with
  | None => fallbackNextViewID c
  | Some curHeader =>
      let blockTimestamp := Big.Int64 (Time curHeader) in
      let stuckBlockViewID := u64 (header_view curHeader + 1) in
      let curTimestamp := c.(now) / second in
      if curTimestamp <=? blockTimestamp then fallbackNextViewID c
      else
        let diff := u64 (Z.quot (i64 (curTimestamp - blockTimestamp)) viewChangeSlot + 1) in
        (u64 (diff + stuckBlockViewID), viewChangeDuration)
  end.

(** Where the count starts: the leader of the last block, the first member at
    an epoch's start, or the leader the node knows. *)
Definition last_leader (c : Consensus) (curHeader : Header) : outcome PublicKeyWrapper :=
  if IsLastBlockInEpoch curHeader then
    let! i := InstanceForEpoch schedule (Some (Epoch curHeader)) in d_FirstParticipant c.(decider) i
  else
    match GetLeaderPubKeyFromCoinbase pk_GetAddress (chain_config c) (bc_ReadShardState c.(chain)) curHeader with
    | Ok leader => Ok leader
    | Err _ => deref c.(leaderPubKey)
    | Panic w => Panic w
    end.

Definition getNextLeaderKey (c : Consensus) (viewID : Z) (committee : Committee) : outcome PublicKeyWrapper :=
  let config := chain_config c in
  let! (base : PublicKeyWrapper * Z * Z) :=
    match bc_CurrentHeader c.(chain) with
    | None =>
        let cur := c.(current).(blockViewID) in
        let! leader := deref c.(leaderPubKey) in
        Ok (leader, (if cur <? viewID then i64 (u64 (viewID - cur)) else 1), 0)
    | Some curHeader =>
        let! leader := last_leader c curHeader in
        Ok (leader, i64 (u64 (viewID - u64 (header_view curHeader + 1))), Epoch curHeader)
    end in
  let '(lastLeaderPubKey, gap, epoch) := base in
  let! _ := deref c.(leaderPubKey) in
  let! (next : bool * PublicKeyWrapper) :=
    if IsLeaderRotationInternalValidators config (Some epoch) && IsLeaderRotationExternalValidatorsAllowed config (Some epoch)
    then d_NthNextValidator c.(decider) committee.(Slots) lastLeaderPubKey gap
    else let! i := InstanceForEpoch schedule (Some epoch) in d_NthNextItc c.(decider) i lastLeaderPubKey gap in
  Ok next.2.

(** ** Messages (view_change_msg.go) *)

(** The prepared block this node can show, encoded; empty when there is none. *)
Definition prepared_block : M (option FBFTMessage * list Z) :=
  let! c := gets (fun c => c) in
  match FindMessageByMaxViewID (GetMessagesByTypeSeq c.(fBFTLog) MessageType_PREPARED c.(blockNum)) with
  | None => mret (None, [])
  | Some preparedMsg =>
      match GetBlockByHash c.(fBFTLog) preparedMsg.(BlockHash) with
      | None => mret (Some preparedMsg, [])
      | Some block =>
          let! e := caught (verifyBlock block) in
          match e with
          | Some _ => mret (Some preparedMsg, [])
          | None => match Block_EncodeRLP block with
                    | Ok encodedBlock => mret (Some preparedMsg, encodedBlock)
                    | Err _ => mret (Some preparedMsg, [])
                    | Panic w => lift (Panic w)
                    end
          end
      end
  end.

Definition sig_bytes (s : option Sign) : list Z := match s with Some s => sig_Serialize s | None => [] end.

(** A message that cannot be marshalled is sent empty. *)
Definition marshal_or_empty (message : Message) (priKey : SecretKey) : outcome (list Z) :=
  match signAndMarshalConsensusMessage message priKey with Err _ => Ok [] | r => r end.

Definition constructViewChangeMessage (priKey : PrivateKeyWrapper) : M (list Z) :=
  let! c := gets (fun c => c) in
  let! leader := lift (deref c.(leaderPubKey)) in
  let view := c.(current).(viewChangingID) in
  let! (pb : option FBFTMessage * list Z) := prepared_block in
  let msgToSign := match pb with
                   | (Some preparedMsg, _ :: _) => be_bytes 32 preparedMsg.(BlockHash) ++ preparedMsg.(Payload)
                   | _ => NIL
                   end in
  let payload := match pb.2 with [] => [] | _ => msgToSign end in
  let message := mkMessage ServiceType_CONSENSUS MessageType_VIEWCHANGE [] (Message_Viewchange
    (mkViewChangeRequest view c.(blockNum) c.(myShardID) (Bytes priKey.(Pub).(wBytes)) (Bytes leader.(wBytes)) payload
       (sig_bytes (SignHash priKey.(Pri) msgToSign)) (sig_bytes (SignHash priKey.(Pri) (PutUint64 view))) [] [] [] [] pb.2)) in
  let! bytes := lift (marshal_or_empty message priKey.(Pri)) in
  mret (ConstructConsensusMessage bytes).

Definition pair_or_empty (p : option (list Z * list Z)) : list Z * list Z := default ([], []) p.

(** [None] is nil: there is no M3 signature. *)
Definition newview_message (c : Consensus) (viewID : Z) (priKey : PrivateKeyWrapper) : outcome (option Message) :=
  let pp := pair_or_empty (GetPreparedBlock c.(vc) c.(fBFTLog)) in
  let! m2 := GetM2Bitmap c.(vc) viewID in
  let! m3 := GetM3Bitmap c.(vc) viewID in
  Ok match m3 with
     | None => None
     | Some (m3sig, m3bitmap) =>
         Some (mkMessage ServiceType_CONSENSUS MessageType_NEWVIEW [] (Message_Viewchange
           (mkViewChangeRequest viewID c.(blockNum) c.(myShardID) (Bytes priKey.(Pub).(wBytes)) [] pp.1 [] []
              (pair_or_empty m2).1 (pair_or_empty m2).2 m3sig m3bitmap pp.2)))
     end.
Definition constructNewViewMessage (viewID : Z) (priKey : PrivateKeyWrapper) : M (option (list Z)) :=
  let! c := gets (fun c => c) in
  let! m := lift (newview_message c viewID priKey) in
  match m with
  | None => mret None
  | Some message =>
      let! bytes := lift (marshal_or_empty message priKey.(Pri)) in
      mret (Some (ConstructConsensusMessage bytes))
  end.

(** ** Starting a view change *)

(** [vc.InitPayload] with the node's keys and committee. *)
Definition init_payload (viewID num : Z) : M unit :=
  let! c := gets (fun c => c) in
  viewchanging (InitPayload (verifyBlock_on c.(chain)) viewID num c.(priKey) (participants c)).

Definition send_view_change (key : PrivateKeyWrapper) : M unit :=
  let! c := gets (fun c => c) in
  sm_when (isValidatorInCommittee c key.(Pub).(wBytes))
    (let! msgToSend := constructViewChangeMessage key in
     handled (send_retrying c.(blockNum) MessageType_VIEWCHANGE msgToSend)).

Definition startViewChange : M unit :=
  let! (backup : bool) := gets isBackup in
  if backup then mret tt else
  let! _ := stopTimer timeoutConsensus in
  let! _ := stopTimer timeoutBootstrap in
  let! _ := setMode ViewChanging in
  let! c := gets (fun c => c) in
  let '(nextViewID, duration) := getNextViewID c in
  let! _ := setViewChangingID nextViewID in
  let! header := cur_header in
  match (let! ss := bc_ReadShardState c.(chain) (Epoch header) in FindCommitteeByID (Some ss) c.(myShardID)) with
  | Err _ => mret tt
  | Panic w => lift (Panic w)
  | Ok committee =>
      let! c := gets (fun c => c) in
      let! next := lift (getNextLeaderKey c nextViewID committee) in
      let! _ := setLeaderPubKey (Some next) in
      let! _ := timer timeoutViewChange (fun _ => SetDuration duration) in
      let! _ := modify (fun c => set_vc (AddViewIDKeyIfNotExist c.(vc) nextViewID (participants c)) c) in
      let! _ := handled (init_payload nextViewID c.(blockNum)) in
      let! _ := sm_for c.(priKey) send_view_change in
      startTimer timeoutViewChange
  end.

(** ** The new leader *)

Definition startNewView (viewID : Z) (newLeaderPriKey : PrivateKeyWrapper) (reset : bool) : M unit :=
  let! (vcm : bool) := gets isViewChangingMode in
  if negb vcm then stop "not in view changing mode anymore" else
  let! m := constructNewViewMessage viewID newLeaderPriKey in
  match m with
  | None => stop "failed to construct NewView message"
  | Some msgToSend =>
      let! num := gets blockNum in
      let! e := caught (send_retrying num MessageType_NEWVIEW msgToSend) in
      match e with
      | Some _ => stop "failed to send out the NewView message"
      | None =>
          let! _ := sending (StopRetry MessageType_VIEWCHANGE) in
          let! _ := setMode Normal in
          let! _ := stopTimer timeoutViewChange in
          let! _ := setViewIDs viewID in
          let! _ := resetViewChangeState in
          let! _ := startTimer timeoutConsensus in
          let! _ := sm_when reset resetState in
          setLeaderPubKey (Some newLeaderPriKey.(Pub))
      end
  end.

(** checks.go *)
Definition onViewChangeSanityCheck (c : Consensus) (recvMsg : FBFTMessage) : outcome bool :=
  let s := c.(current) in
  if recvMsg.(BlockNum) <? c.(blockNum) then Ok false
  else if c.(blockNum) <? recvMsg.(BlockNum) then Ok false
  else if isViewChangingMode c && (recvMsg.(ViewID) <? s.(blockViewID)) then Ok false
  else if (s.(viewChangingID) <? recvMsg.(ViewID)) && (MaxViewIDDiff <? u64 (recvMsg.(ViewID) - s.(viewChangingID))) then Ok false
  else if negb (HasSingleSender recvMsg) then Ok false
  else
    let! senderKey := idx recvMsg.(SenderPubkeys) 0 in
    let! sig := deref recvMsg.(ViewidSig) in
    Ok (VerifyHash sig senderKey.(Object) (PutUint64 recvMsg.(ViewID))).
Definition onNewViewSanityCheck (c : Consensus) (recvMsg : FBFTMessage) : bool :=
  negb (recvMsg.(ViewID) <? c.(current).(blockViewID)).

Definition view_quorum (viewID : Z) : M bool :=
  let! c := gets (fun c => c) in
  lift (d_IsQuorumAchievedByMask c.(decider) (GetViewIDBitmap c.(vc) viewID)).

Definition onViewChange (recvMsg : FBFTMessage) : M unit :=
  let! c := gets (fun c => c) in
  let view := recvMsg.(ViewID) in
  let! newLeaderKey := lift (deref recvMsg.(LeaderPubkey)) in
  let! newLeaderPriKey := lift (getLeaderPrivateKey c newLeaderKey.(Object)) in
  let! (enough : bool) := view_quorum view in
  if enough then mret tt else
  let! (sane : bool) := lift (onViewChangeSanityCheck c recvMsg) in
  if negb sane then mret tt else
  let! _ := modify (fun c => set_vc (AddViewIDKeyIfNotExist c.(vc) view (participants c)) c) in
  let! _ := init_payload view recvMsg.(BlockNum) in
  let! _ := viewchanging (ProcessViewChangeMsg (verifyBlock_on c.(chain)) c.(decider) recvMsg) in
  let! (enough : bool) := view_quorum view in
  let! c := gets (fun c => c) in
  if enough && isViewChangingMode c then
    if isM1PayloadEmpty c.(vc) then
      let! _ := startNewView view newLeaderPriKey true in
      spawn (ReadySignal SyncProposal)
    else
      let! _ := selfCommit (GetM1Payload c.(vc)) in
      startNewView view newLeaderPriKey false
  else mret tt.
End view.
