(* ===== verification/FbftCommit.v ===== *)
(** * Committing blocks (consensus/consensus_v2.go, consensus/post_processing.go)

    What happens once a block has its commit signatures: the leader's early and
    final commit, a validator's catching up with the blocks the log has, and the
    set-up of the next round with its possible change of leader. *)
From S2P Require Import Prelude Dec Bls SigBitmap Mask Params Sharding Shard Header CXReceipt Block VotePower Quorum Decider.
From S2P Require Import FbftLog FbftMessage ViewChange MsgSender LeaderRotation Consensus.
Local Open Scope Z_scope.

Definition blocksCountAliveness : nat := 4.
Definition minimumBlocksForLeaderInRow : Z := Z.of_nat blocksCountAliveness.

Section commit.
Context {L : BLSLib} {S : SigCheck L} {G : Signer L} {H : Hashes} {T : TxLib} {R : BlockRLP} {W : Walk}.
Context {C : ChainLib} {N : NodeLib} {SR : ShardRLP} (of_bytes : list Z -> Data) (schedule : Schedule).
Notation M := (SM Consensus).

(** ** The blocks the log can add *)

(** Block after block while a COMMITTED message and its block are in the log;
    each turn finds another message, so their number plus one is fuel enough. *)
Fixpoint lastMile_loop (fuel : nat) (log : FBFTLog) (num : Z) : option (list (Block * FBFTMessage)) :=
  match fuel with
  | O => None
  | Datatypes.S fuel =>
      match GetCommittedBlockAndMsgsFromNumber log num with
      | Ok bm => cons bm <$> lastMile_loop fuel log (u64 (num + 1))
      | _ => Some []
      end
  end.
Definition getLastMileBlocksAndMsg (log : FBFTLog) (bnStart : Z) : list (Block * FBFTMessage) :=
  default [] (lastMile_loop (Datatypes.S (size log.(messages))) log bnStart).

(** [LastMileBlockIter.Next]: one turn, with the candidates that remain. *)
Definition LastMile_Next (ch : Chain) (s : list Block * FBFTLog) : list Block * FBFTLog * outcome (option Block) :=
  match s with
  | ([], log) => ([], log, Ok None)
  | (block :: rest, log) =>
      if IsBlockVerified log (Block_Hash block) then (rest, log, Ok (Some block))
      else match BlockVerifier ch block with
           | Ok _ => (rest, MarkBlockVerified log block, Ok (Some block))
           | Err _ => (rest, log, Ok None)
           | Panic w => (rest, log, Panic w)
           end
  end.

Definition ErrNotLastBlockInEpoch : string := "not last block in epoch".

(** downloader.go: [AddConsensusLastMile]; insertions go on while [Next] gives a
    block and no error but the two harmless ones stops them. *)
Definition insert_block (blk : Block) (verifyHeaders : bool) : M unit :=
  on_chain (fun ch => bc_InsertChain ch blk verifyHeaders).
Fixpoint last_mile_insert (candidates : list Block) : M unit :=
  match candidates with
  | [] => mret tt
  | block :: rest =>
      let! c := gets (fun c => c) in
      let '(_, log, next) := LastMile_Next c.(chain) (candidates, c.(fBFTLog)) in
      let! _ := modify (set_fBFTLog log) in
      let! b := lift next in
      match b with
      | None => mret tt
      | Some block =>
          let! e := caught (insert_block block true) in
          match e with
          | Some e => if bool_decide (e = ErrKnownBlock) || bool_decide (e = ErrNotLastBlockInEpoch) then last_mile_insert rest
                      else stop "failed to InsertChain"
          | None => last_mile_insert rest
          end
      end
  end.
Definition AddConsensusLastMile : M unit :=
  let! c := gets (fun c => c) in
  let curBN := Block_NumberU64 (bc_CurrentBlock c.(chain)) in
  last_mile_insert (map fst (getLastMileBlocksAndMsg c.(fBFTLog) (u64 (curBN + 1)))).

(** ** Rotating the leader *)

(** How many of the last blocks the next leader did not sign: [None] when a
    header is missing or its bitmap does not fit; the blocks of another epoch
    end the count.  The mask is set anew by each header. *)
Fixpoint count_skipped (c : Consensus) (mask : Mask) (next : SerializedPublicKey) (curNumber curEpoch : Z)
    (i : nat) (todo : nat) (skipped : Z) : outcome (option Z) :=
  match todo with
  | O => Ok (Some skipped)
  | Datatypes.S todo =>
      match bc_GetHeaderByNumber c.(chain) (u64 (curNumber - Z.of_nat i)) with
      | None => Ok None
      | Some header =>
          if negb (Big.Uint64 (Epoch header) =? curEpoch) then Ok (Some skipped)
          else match SetMask mask (LastCommitBitmap header) with
               | Err _ => Ok None
               | Panic w => Panic w
               | Ok mask =>
                   match KeyEnabled mask next with
                   | Err _ => Ok None
                   | Panic w => Panic w
                   | Ok ok => count_skipped c mask next curNumber curEpoch (Datatypes.S i) todo (if ok then skipped else skipped + 1)
                   end
               end
      end
  end.

(** The search of the first candidate that signs; one turn per slot. *)
Fixpoint rotate_loop (c : Consensus) (epoch : Z) (committee : Committee) (leader defaultKey : PublicKeyWrapper)
    (curNumber curEpoch : Z) (turns : nat) (offset : Z) : outcome PublicKeyWrapper :=
  match turns with
  | O => Ok defaultKey
  | Datatypes.S turns =>
      let! (wn : bool * PublicKeyWrapper) :=
        if IsLeaderRotationExternalValidatorsAllowed (chain_config c) (Some epoch)
        then d_NthNextValidator c.(decider) committee.(Slots) leader offset
        else let! i := InstanceForEpoch schedule (Some epoch) in d_NthNextItc c.(decider) i leader offset in
      let '(wasFound, next) := wn in
      if negb wasFound then Ok defaultKey
      else
        let! skipped := count_skipped c (NewMask (participants c)) next.(wBytes) curNumber curEpoch 0 blocksCountAliveness 0 in
        match skipped with
        | None => Ok defaultKey
        | Some skipped =>
            if Z.of_nat blocksCountAliveness <=? skipped
            then rotate_loop c epoch committee leader defaultKey curNumber curEpoch turns (offset + 1)
            else Ok next
        end
  end.

(** How many blocks a leader proposes before it hands over. *)
Definition blocks_by_leader (blocksPerEpoch slotsCount : Z) : Z :=
  let n := blocksPerEpoch / slotsCount in
  if n <? minimumBlocksForLeaderInRow then minimumBlocksForLeaderInRow else n.

Definition rotateLeader (c : Consensus) (epoch : Z) (defaultKey : PublicKeyWrapper) : outcome PublicKeyWrapper :=
  let bc := c.(chain) in
  let curBlock := bc_CurrentBlock bc in
  let curEpoch := Big.Uint64 (Block_Epoch curBlock) in
  if negb (Big.Uint64 epoch =? curEpoch) then Ok defaultKey
  else match (let! ss := bc_ReadShardState bc epoch in FindCommitteeByID (Some ss) c.(myShardID)) with
  | Err _ => Ok defaultKey
  | Panic w => Panic w
  | Ok committee =>
      let slotsCount := Z.of_nat (length committee.(Slots)) in
      let! i := InstanceForEpoch schedule (Some epoch) in
      if (BlocksPerEpoch i =? 0) || (slotsCount =? 0) then Ok defaultKey
      else
        let s := bc_LeaderRotationMeta bc in
        let! leader := deref c.(leaderPubKey) in
        if negb (bool_decide (Bytes leader.(wBytes) = s.(lrPub))) then Ok defaultKey
        else if s.(lrCount) <? blocks_by_leader (BlocksPerEpoch i) slotsCount then Ok defaultKey
        else rotate_loop c epoch committee leader defaultKey (Block_NumberU64 curBlock) curEpoch (length committee.(Slots)) 1
  end.

Definition setupForNewConsensus (blk : Block) (committedMsg : FBFTMessage) : M unit :=
  let! _ := setBlockNum (u64 (Block_NumberU64 blk + 1)) in
  let! _ := setCurBlockViewID (u64 (committedMsg.(ViewID) + 1)) in
  let epoch := if Block_IsLastBlockInEpoch blk then Block_Epoch blk + 1 else Block_Epoch blk in
  let! c := gets (fun c => c) in
  let! _ := sm_when (IsLeaderRotationInternalValidators (chain_config c) (Some epoch))
    (let! sender := lift (idx committedMsg.(SenderPubkeys) 0) in
     let! next := lift (rotateLeader c epoch sender) in
     let prev := c.(leaderPubKey) in
     let! _ := setLeaderPubKey (Some next) in
     let! c := gets (fun c => c) in
     sm_when (isLeader c)
       (let! prev := lift (deref prev) in
        sm_when (negb (bool_decide (next.(Object) = prev.(Object)))) (spawn (ReadySignal SyncProposal)))) in
  let! _ := sm_when (Block_IsLastBlockInEpoch blk) (let! m := updateConsensusInformation of_bytes schedule in setMode m) in
  let! _ := Consensus.on_log (fun log => PruneCacheBeforeBlock log (Block_NumberU64 blk)) in
  resetState.

(** ** After a block (post_processing.go)

    The broadcasts are events; one validator in a hundred makes them, at
    random.  Only what follows touches the consensus. *)
Definition PostConsensusProcessing (newBlock : Block) : M unit :=
  let! c := gets (fun c => c) in
  let! _ :=
    if isLeader c then
      let! _ := sm_when (c.(myShardID) =? BeaconChainShardID) (emit (BroadcastNewBlock newBlock)) in
      emit (BroadcastCXReceipts newBlock)
    else
      sm_when (negb (bool_decide (c.(current).(mode) = Listening)))
        (let! _ := lift (NumSignaturesIncludedInBlock c newBlock) in
         let! _ := sm_when (bool_decide (c.(current).(mode) = Syncing))
                     (let! m := updateConsensusInformation of_bytes schedule in setMode m) in
         emit (ValidatorBroadcast newBlock)) in
  emit BroadcastMissingCXReceipts.

Definition commitBlock (blk : Block) (committedMsg : FBFTMessage) : M unit :=
  let! c := gets (fun c => c) in
  let! _ := sm_when (Block_NumberU64 (bc_CurrentBlock c.(chain)) <? Block_NumberU64 blk)
    (let! e := caught (insert_block blk (negb (IsBlockVerified c.(fBFTLog) (Block_Hash blk)))) in
     match e with
     | Some e => if bool_decide (e = ErrKnownBlock) then mret tt else stop e
     | None => mret tt
     end) in
  if negb (HasSingleSender committedMsg) then stop errIncorrectSender
  else
    let! _ := FinishFinalityCount in
    let! _ := PostConsensusProcessing blk in
    setupForNewConsensus blk committedMsg.

(** ** Catching up *)

(** [blk.SetCurrentCommitSig] of a block the log may share. *)
Definition set_commit_sig (blk : Block) (payload : list Z) : M Block :=
  let blk' := SetCurrentCommitSig blk payload in
  let! _ := Consensus.on_log (fun log =>
    mkLog (alter (fun b => SetCurrentCommitSig b payload) (Block_Hash blk) log.(blocks)) log.(verifiedBlocks) log.(messages)) in
  mret blk'.

Definition postCatchup (initBN : Z) : M unit :=
  let! c := gets (fun c => c) in
  let! _ := sm_when (initBN <? c.(blockNum)) (switchPhase FBFTAnnounce) in
  sm_when ((initBN <? c.(blockNum)) && isViewChangingMode c)
    (let! _ := setMode Normal in stopTimer timeoutViewChange).

Fixpoint catch_up (todo : list (Block * FBFTMessage)) : M unit :=
  match todo with
  | [] => mret tt
  | (blk, msg) :: rest =>
      let! blk := set_commit_sig blk msg.(Payload) in
      let! _ := verifyBlock blk in
      let! _ := commitBlock blk msg in
      let! _ := emit (VerifiedNewBlock blk) in
      catch_up rest
  end.
(** [defer consensus.postCatchup(initBN)] *)
Definition tryCatchup : M unit :=
  let! c := gets (fun c => c) in
  let initBN := c.(blockNum) in
  let! e := caught (catch_up (getLastMileBlocksAndMsg c.(fBFTLog) initBN)) in
  let! _ := postCatchup initBN in
  match e with Some e => stop e | None => mret tt end.

(** ** The leader's commits *)

Definition verifyLastCommitSig (c : Consensus) (lastCommitSig : list Z) (blk : Block) : outcome unit :=
  if (length lastCommitSig <? BLSSignatureSizeInBytes)%nat then Err "lastCommitSig not have enough length"
  else match sig_Deserialize (take BLSSignatureSizeInBytes lastCommitSig) with
       | None => Err "unable to deserialize multi-signature from payload"
       | Some aggSig =>
           let! mask := deref c.(commitBitmap) in
           if VerifyHash aggSig mask.(AggregatePublic) (commit_payload c blk) then Ok tt
           else Err "Failed to verify the multi signature for last commit sig"
       end.

(** The COMMITTED message is built and logged before its signature is checked. *)
Definition construct_committed : M NetworkMessage :=
  let! leaderPriKey := getConsensusLeaderPrivateKey in
  let! network := construct_single MessageType_COMMITTED leaderPriKey in
  let! _ := Consensus.on_log (fun log => AddVerifiedMessage log network.(nmFBFTMsg)) in
  mret network.

Definition preCommitAndPropose (blk : Block) : M unit :=
  let! network := construct_committed in
  let bareMinimumCommit := network.(nmFBFTMsg).(Payload) in
  let! c := gets (fun c => c) in
  let! _ := lift (verifyLastCommitSig c bareMinimumCommit blk) in
  spawn (PreCommit blk bareMinimumCommit network.(nmBytes)).

(** The goroutine of [preCommitAndPropose]. *)
Definition run_PreCommit (blk : Block) (bareMinimumCommit msgToSend : list Z) : M unit :=
  let! blk := set_commit_sig blk bareMinimumCommit in
  let! _ := handled (send_retrying (Block_NumberU64 blk) MessageType_COMMITTED msgToSend) in
  let! c := gets (fun c => c) in
  let! e := caught (insert_block blk (negb (IsBlockVerified c.(fBFTLog) (Block_Hash blk)))) in
  let go := let! _ := startTimer timeoutConsensus in spawn (ReadySignal AsyncProposal) in
  match e with
  | Some e => if bool_decide (e = ErrKnownBlock) then go else mret tt
  | None => go
  end.

Definition finalCommit : M unit :=
  let! network := construct_committed in
  let msg := network.(nmFBFTMsg) in
  let commitSigAndBitmap := msg.(Payload) in
  let! c := gets (fun c => c) in
  match GetBlockByHash c.(fBFTLog) c.(blockHash) with
  | None => stop "[finalCommit] Cannot find block by hash"
  | Some block =>
      let! _ := lift (verifyLastCommitSig c commitSigAndBitmap block) in
      let! _ := handled (on_chain (fun ch => bc_WriteCommitSig ch (Block_NumberU64 block) commitSigAndBitmap)) in
      let! _ :=
        if negb (isLeader c) || Block_IsLastBlockInEpoch block then
          let! _ := handled (send_retrying (Block_NumberU64 block) MessageType_COMMITTED network.(nmBytes)) in
          startTimer timeoutConsensus
        else
          sending (DelayedSendWithRetry (Block_NumberU64 block) MessageType_COMMITTED (shard_group c)
                     (ConstructMessage network.(nmBytes))) in
      let! block := set_commit_sig block commitSigAndBitmap in
      let! _ := handled (commitBlock block msg) in
      let! c := gets (fun c => c) in
      let! _ := sm_when (IsActive c.(consensusTimeout).(tBootstrap)) (stopTimer timeoutBootstrap) in
      sm_when (isLeader c)
        (spawn (if Block_IsLastBlockInEpoch block then ReadySignal SyncProposal else CommitSigSignal commitSigAndBitmap))
  end.

(** The log is read through a wrapper that locks the mutex this method holds;
    a [sync.RWMutex] is not reentrant. *)
Definition deadlock : string := "deadlock".
Definition BlockCommitSigs (num : Z) : M (list Z) :=
  let! c := gets (fun c => c) in
  if c.(blockNum) <=? 1 then mret []
  else match bc_ReadCommitSig c.(chain) num with
       | Panic w => lift (Panic w)
       | Err _ => lift (Panic deadlock)
       | Ok lastCommits => if (length lastCommits <? BLSSignatureSizeInBytes)%nat then lift (Panic deadlock) else mret lastCommits
       end.

(** ** Synchronisation *)

Definition in_sync : M unit :=
  let! m := updateConsensusInformation of_bytes schedule in
  let! _ := setMode m in
  startTimer timeoutConsensus.

Definition syncReadyChan : M unit :=
  let! header := cur_header in
  let! c := gets (fun c => c) in
  let next := u64 (Big.Uint64 (Number header) + 1) in
  if c.(blockNum) <? next then
    let! _ := setBlockNum next in
    let! _ := setViewIDs (u64 (header_view header + 1)) in
    in_sync
  else sm_when (bool_decide (c.(current).(mode) = Syncing)) in_sync.

Definition syncNotReadyChan : M unit :=
  let! header := cur_header in
  let! _ := setBlockNum (u64 (Big.Uint64 (Number header) + 1)) in
  setMode Syncing.

Definition BlocksSynchronized : M unit :=
  let! _ := handled AddConsensusLastMile in syncReadyChan.
Definition BlocksNotSynchronized : M unit := syncNotReadyChan.
End commit.
