(* ===== verification/FbftHandlers.v ===== *)
(** * The handlers of the consensus (consensus/leader.go, threshold.go, validator.go, checks.go, consensus_v2.go, view_change.go)

    One round: the leader announces a block, validators answer PREPARE, the
    leader collects a quorum of them into PREPARED, validators answer COMMIT, the
    leader collects those into COMMITTED and everybody adds the block.
    [HandleMessageUpdate] routes a received message to its handler, [run_task]
    runs a goroutine a handler started, [tick] looks at the timers. *)
From S2P Require Import Prelude Dec Bls SigBitmap Mask Params Sharding Shard Header CXReceipt Block VotePower Quorum Decider.
From S2P Require Import FbftLog FbftMessage ViewChange MsgSender LeaderRotation Consensus FbftView FbftCommit.
Local Open Scope Z_scope.

Definition errSenderPubKeyNotLeader : string := "sender pubkey doesn't match leader".
Definition errVerifyMessageSignature : string := "verify message signature failed".

Section handlers.
Context {L : BLSLib} {S : SigCheck L} {G : Signer L} {H : Hashes} {T : TxLib} {R : BlockRLP} {W : Walk}.
Context {C : ChainLib} {N : NodeLib} {SR : ShardRLP} (of_bytes : list Z -> Data) (schedule : Schedule).
Notation M := (SM Consensus).

(** ** checks.go *)

Definition verifyMessageSig (signerPubKey : PublicKey) (message : Message) : outcome unit :=
  let! messageBytes := pb_Marshal (with_signature message []) in
  let! msgSig := parse_sig message.(msgSignature) in
  if VerifyHash msgSig signerPubKey (Keccak256 messageBytes) then Ok tt else Err "failed to verify the signature".

Definition senderKeySanityChecks (msg : Message) (senderKey : SerializedPublicKey) : outcome bool :=
  match (let! pubkey := deserialize_key (Bytes senderKey) in verifyMessageSig pubkey msg) with
  | Ok _ => Ok true
  | Err _ => Ok false
  | Panic w => Panic w
  end.

Definition isRightBlockNumAndViewID (c : Consensus) (recvMsg : FBFTMessage) : bool :=
  (recvMsg.(ViewID) =? c.(current).(blockViewID)) && (recvMsg.(BlockNum) =? c.(blockNum)).

Definition isRightBlockNumCheck (c : Consensus) (recvMsg : FBFTMessage) : bool :=
  if recvMsg.(BlockNum) <? c.(blockNum) then false
  else if MaxBlockNumDiff <? u64 (recvMsg.(BlockNum) - c.(blockNum)) then false
  else true.

(** A second announcement of a view for another block by the same sender makes
    a node change the view. *)
Definition onAnnounceSanityChecks (recvMsg : FBFTMessage) : M bool :=
  let! c := gets (fun c => c) in
  match GetMessagesByTypeSeqView c.(fBFTLog) MessageType_ANNOUNCE recvMsg.(BlockNum) recvMsg.(ViewID) with
  | [] => mret (isRightBlockNumCheck c recvMsg)
  | logMsg :: _ =>
      if negb (HasSingleSender logMsg) || negb (HasSingleSender recvMsg) then mret false
      else
        let! k1 := lift (idx logMsg.(SenderPubkeys) 0) in
        let! k2 := lift (idx recvMsg.(SenderPubkeys) 0) in
        let! _ := sm_when (negb (logMsg.(BlockHash) =? recvMsg.(BlockHash)) && (k1.(wBytes) =? k2.(wBytes)) &&
                           negb (isViewChangingMode c)) (startViewChange schedule) in
        let! c := gets (fun c => c) in
        mret (isRightBlockNumCheck c recvMsg)
  end.

Definition newBlockSanityChecks (c : Consensus) (blockObj : Block) (recvMsg : FBFTMessage) : bool :=
  if negb (Block_NumberU64 blockObj =? recvMsg.(BlockNum)) || (recvMsg.(BlockNum) <? c.(blockNum)) then false
  else header_Hash (Block_Header blockObj) =? recvMsg.(BlockHash).

(** ** A validator's messages (validator.go) *)

Definition getPriKeysInCommittee (c : Consensus) : outcome (list PrivateKeyWrapper) :=
  match c.(priKey) with
  | [] => Err "no private keys in the committee"
  | _ => Ok (List.filter (fun key => isValidatorInCommittee c key.(Pub).(wBytes)) c.(priKey))
  end.

(** A message that cannot be constructed is left out; a nil one is kept. *)
Definition constructP2pMessages (c : Consensus) (msgType : Z) (payloadForSign : list Z) (priKeys : list PrivateKeyWrapper)
    : outcome (list (option NetworkMessage)) :=
  foldM (fun msgs keys =>
      match construct_on c msgType payloadForSign keys with
      | Ok m => Ok (msgs ++ [m])
      | Err _ => Ok msgs
      | Panic w => Panic w
      end)
    (if c.(AggregateSigning) then [priKeys] else map (fun key => [key]) priKeys) [].

Definition broadcastConsensusP2pMessages (p2pMsgs : list (option NetworkMessage)) : M unit :=
  sm_for p2pMsgs (fun p2pMsg =>
    let! c := gets (fun c => c) in
    sm_when (negb (bool_decide (c.(current).(mode) = Listening)))
      (let! m := lift (deref p2pMsg) in
       sending (SendWithoutRetry (shard_group c) (ConstructMessage m.(nmBytes))))).

(** [prepare] and [sendCommitMessages]. *)
Definition send_votes (msgType : Z) (payloadForSign : Consensus -> list Z) : M unit :=
  let! c := gets (fun c => c) in
  if c.(isBackup) then mret tt
  else match getPriKeysInCommittee c with
       | Panic w => lift (Panic w)
       | Err _ => mret tt
       | Ok priKeys =>
           let! p2pMsgs := lift (constructP2pMessages c msgType (payloadForSign c) priKeys) in
           handled (broadcastConsensusP2pMessages p2pMsgs)
       end.
Definition prepare_ : M unit := send_votes MessageType_PREPARE (fun _ => []).
Definition sendCommitMessages (blockObj : option Block) : M unit :=
  match blockObj with
  | None => mret tt
  | Some b => send_votes MessageType_COMMIT (fun c => commit_payload c b)
  end.

(** ** A validator's handlers *)

Definition decode_new_block (bs : list Z) : M Block :=
  match Block_DecodeRLP bs with Ok b => mret b | Err _ => stop "Failed parsing new block" | Panic w => lift (Panic w) end.

Definition validateNewBlock (recvMsg : FBFTMessage) : M Block :=
  let! c := gets (fun c => c) in
  if IsBlockVerified c.(fBFTLog) recvMsg.(BlockHash) then
    match GetBlockByHash c.(fBFTLog) recvMsg.(BlockHash) with
    | Some blockObj => mret blockObj
    | None => decode_new_block recvMsg.(mBlock)
    end
  else
    let! blockObj := decode_new_block recvMsg.(mBlock) in
    let! _ := Consensus.on_log (fun log => AddBlock log blockObj) in
    if negb (newBlockSanityChecks c blockObj recvMsg) then stop "new block failed sanity checks"
    else
      let! _ := modify (set_block recvMsg.(mBlock)) in
      let! _ := Consensus.on_log (fun log => AddVerifiedMessage log (with_mBlock recvMsg [])) in
      let! _ := verifyBlock blockObj in
      mret blockObj.

(** An unparseable message is logged with the fields of a nil pointer. *)
Definition onAnnounce (msg : Message) : M unit :=
  let! c := gets (fun c => c) in
  let! recvMsg := lift (match parseFBFTMessage c.(multiSigBitmap) msg with Err _ => Panic nil_deref | r => r end) in
  let! (ok : bool) := onAnnounceSanityChecks recvMsg in
  let! c := gets (fun c => c) in
  if negb ok then
    sm_when (isViewChangingMode c && (c.(blockNum) <? recvMsg.(BlockNum))) spinUpStateSync
  else
    let! _ := StartFinalityCount in
    let! _ := Consensus.on_log (fun log => AddVerifiedMessage log recvMsg) in
    let! _ := modify (set_blockHash recvMsg.(BlockHash)) in
    if isViewChangingMode c then mret tt
    else
      let! _ := checkViewID recvMsg in
      let! _ := prepare_ in
      let! _ := switchPhase FBFTPrepare in
      sm_when (negb (length recvMsg.(mBlock) =? 0)%nat) (spawn (ValidateNewBlock_ (with_verified recvMsg true))).

(** The last goroutine returns at once when there is no block. *)
Definition onPrepared (recvMsg : FBFTMessage) : M unit :=
  let! c := gets (fun c => c) in
  if recvMsg.(BlockNum) <? c.(blockNum) then mret tt else
  let! _ := sm_when (c.(blockNum) <? recvMsg.(BlockNum)) spinUpStateSync in
  let! (am : Sign * Mask) := lift (readSignatureBitmapPayload recvMsg.(Payload) 0 (participants c)) in
  let '(aggSig, mask) := am in
  let! (q : bool) := lift (d_IsQuorumAchievedByMask c.(decider) (Some mask)) in
  if negb q then mret tt
  else if negb (VerifyHash aggSig mask.(AggregatePublic) (be_bytes 32 recvMsg.(BlockHash))) then mret tt
  else
    let! blockObj := (fun c => match validateNewBlock recvMsg c with
                               | (c, Ok b) => (c, Ok (Some b)) | (c, Err _) => (c, Ok None) | (c, Panic w) => (c, Panic w)
                               end) in
    let! _ := checkViewID recvMsg in
    let! c := gets (fun c => c) in
    if c.(blockNum) <? recvMsg.(BlockNum) then mret tt
    else
      let! _ := modify (fun c => set_blockHash recvMsg.(BlockHash) (set_prepareBitmap (Some mask) (set_aggregatedPrepareSig (Some aggSig) c))) in
      let! (m : Mode) := get_mode in
      let! _ := sm_when (bool_decide (m = Normal)) (let! _ := sendCommitMessages blockObj in switchPhase FBFTCommit) in
      match blockObj with Some b => spawn (RetryCommitted b) | None => mret tt end.

(** The commit signature kept is replaced by one with more signers; to compare,
    the mask that was just installed is set to the old bitmap. *)
Definition override_commit_sig (recvMsg : FBFTMessage) (blockObj : Block) (mask : Mask) : M unit :=
  let! c := gets (fun c => c) in
  let num := Block_NumberU64 blockObj in
  match bc_ReadCommitSig c.(chain) num, bc_GetBlockByHash c.(chain) (Block_Hash blockObj) with
  | Ok commitSigBitmap, Some _ =>
      sm_when (length commitSigBitmap =? length recvMsg.(Payload))%nat
        (let! (new : Z) := lift (CountEnabled mask) in
         let! mask := lift (match SetMask mask (drop BLSSignatureSizeInBytes commitSigBitmap) with Err _ => Ok mask | r => r end) in
         let! _ := modify (set_commitBitmap (Some mask)) in
         let! (cur : Z) := lift (CountEnabled mask) in
         sm_when (cur <? new) (handled (on_chain (fun ch => bc_WriteCommitSig ch num recvMsg.(Payload)))))
  | Panic w, _ => lift (Panic w)
  | _, _ => mret tt
  end.

Definition onCommitted (recvMsg : FBFTMessage) : M unit :=
  let! c := gets (fun c => c) in
  if recvMsg.(BlockNum) <? u64 (c.(blockNum) - 1) then mret tt else
  let! _ := sm_when (c.(blockNum) <? recvMsg.(BlockNum)) spinUpStateSync in
  let! _ := Consensus.on_log (fun log => AddNotVerifiedMessage log recvMsg) in
  match GetBlockByHash c.(fBFTLog) recvMsg.(BlockHash) with
  | None => mret tt
  | Some blockObj =>
      let! (sb : list Z * list Z) := lift (ParseCommitSigAndBitmap recvMsg.(Payload)) in
      let! _ := lift (bc_VerifyHeaderSignature c.(chain) (Block_Header blockObj) sb.1 sb.2) in
      let! (am : Sign * Mask) := lift (DecodeSigBitmap sb.1 sb.2 (participants c)) in
      let '(aggSig, mask) := am in
      let! _ := Consensus.on_log (fun log => AddVerifiedMessage log recvMsg) in
      let! _ := modify (fun c => set_commitBitmap (Some mask) (set_aggregatedCommitSig (Some aggSig) c)) in
      let! _ := override_commit_sig recvMsg blockObj mask in
      let! (initBn : Z) := gets blockNum in
      let! _ := handled (tryCatchup of_bytes schedule) in
      let! c := gets (fun c => c) in
      if c.(blockNum) <? recvMsg.(BlockNum) then mret tt
      else if isViewChangingMode c then mret tt
      else
        let! _ := sm_when (IsActive c.(consensusTimeout).(tBootstrap)) (stopTimer timeoutBootstrap) in
        sm_when (initBn <? c.(blockNum)) (startTimer timeoutConsensus)
  end.

(** ** The leader *)

(** Leader's own signatures of a phase: [vote] runs for each key the bitmap
    takes, and may stop the rest. *)
Definition announce_key (blk : Block) (hash : Z) (key : PrivateKeyWrapper) : M unit :=
  let! c := gets (fun c => c) in
  let! mask := lift (deref c.(prepareBitmap)) in
  match SetKey mask key.(Pub).(wBytes) true with
  | Err _ => mret tt
  | Panic w => lift (Panic w)
  | Ok mask =>
      let! _ := modify (set_prepareBitmap (Some mask)) in
      let! sig := lift (deref (SignHash key.(Pri) (be_bytes 32 hash))) in
      let! _ := AddNewVote_ Prepare [key.(Pub)] sig (Block_Hash blk) (Block_NumberU64 blk) (block_view blk) in
      mret tt
  end.

Definition announce (block : Block) : M unit :=
  match Block_EncodeRLP block with
  | Panic w => lift (Panic w)
  | Err _ => mret tt
  | Ok encodedBlock =>
      let! _ := modify (fun c => set_block encodedBlock (set_blockHash (Block_Hash block) c)) in
      let! key := getConsensusLeaderPrivateKey in
      let! network := construct_single MessageType_ANNOUNCE key in
      let! _ := Consensus.on_log (fun log => AddVerifiedMessage log network.(nmFBFTMsg)) in
      let! _ := Consensus.on_log (fun log => AddBlock log block) in
      let! c := gets (fun c => c) in
      let! _ := sm_for c.(priKey) (announce_key block c.(blockHash)) in
      let! _ := handled (send_retrying c.(blockNum) MessageType_ANNOUNCE network.(nmBytes)) in
      switchPhase FBFTPrepare
  end.

(** threshold.go: the leader's own commit signatures. *)
Definition prepared_key (blockObj : Block) (key : PrivateKeyWrapper) : M unit :=
  let! c := gets (fun c => c) in
  let! (ok : bool) := set_commit_key key.(Pub).(wBytes) in
  sm_when ok
    (let! sig := lift (deref (SignHash key.(Pri) (commit_payload c blockObj))) in
     let! _ := AddNewVote_ Commit [key.(Pub)] sig (Block_Hash blockObj) (Block_NumberU64 blockObj) (block_view blockObj) in
     mret tt).

Definition didReachPrepareQuorum : M unit :=
  let! leaderPriKey := getConsensusLeaderPrivateKey in
  let! network := construct_single MessageType_PREPARED leaderPriKey in
  let! _ := modify (set_aggregatedPrepareSig network.(nmOptionalAggregateSignature)) in
  let! _ := Consensus.on_log (fun log => AddVerifiedMessage log network.(nmFBFTMsg)) in
  let! c := gets (fun c => c) in
  let! blockObj := lift (Block_DecodeRLP c.(block)) in
  let! _ := sm_for c.(priKey) (prepared_key blockObj) in
  let! _ := handled (send_retrying c.(blockNum) MessageType_PREPARED network.(nmBytes)) in
  let! _ := sending (StopRetry MessageType_ANNOUNCE) in
  sending (StopRetry MessageType_COMMITTED).

(** One of the senders has voted in the phase already. *)
Definition already_voted (c : Consensus) (p : Phase) (recvMsg : FBFTMessage) : bool :=
  existsb (fun signer => bool_decide (is_Some (d_ReadBallot c.(decider) p signer.(wBytes)))) recvMsg.(SenderPubkeys).

(** The key a vote's signature is checked against. *)
Definition signerPubKey (recvMsg : FBFTMessage) : outcome PublicKey :=
  if HasSingleSender recvMsg then let! k := idx recvMsg.(SenderPubkeys) 0 in Ok k.(Object)
  else Ok (foldl (fun pk k => pk_add pk k.(Object)) pk_zero recvMsg.(SenderPubkeys)).

Definition onPrepare (recvMsg : FBFTMessage) : M unit :=
  let! c := gets (fun c => c) in
  if negb (isRightBlockNumAndViewID c recvMsg) then mret tt
  else if already_voted c Prepare recvMsg then mret tt
  else if d_IsQuorumAchieved c.(decider) Prepare then mret tt
  else
    let! sign := lift (parse_sig recvMsg.(Payload)) in
    let! pk := lift (signerPubKey recvMsg) in
    if negb (VerifyHash sign pk (be_bytes 32 c.(blockHash))) then mret tt
    else
      let! _ := AddNewVote_ Prepare recvMsg.(SenderPubkeys) sign recvMsg.(BlockHash) recvMsg.(BlockNum) recvMsg.(ViewID) in
      let! prepareBitmap := lift (deref c.(prepareBitmap)) in
      let! mask := lift (SetKeysAtomic prepareBitmap recvMsg.(SenderPubkeys) true) in
      let! _ := modify (set_prepareBitmap (Some mask)) in
      let! c := gets (fun c => c) in
      sm_when (d_IsQuorumAchieved c.(decider) Prepare)
        (let! _ := didReachPrepareQuorum in switchPhase FBFTCommit).

Definition onCommit (recvMsg : FBFTMessage) : M unit :=
  let! c := gets (fun c => c) in
  if negb (isRightBlockNumAndViewID c recvMsg) then mret tt
  else if already_voted c Commit recvMsg then mret tt
  else
    let quorumWasMet := d_IsQuorumAchieved c.(decider) Commit in
    let! sign := lift (parse_sig recvMsg.(Payload)) in
    match GetBlockByHash c.(fBFTLog) recvMsg.(BlockHash) with
    | None => mret tt
    | Some blockObj =>
        let! pk := lift (signerPubKey recvMsg) in
        if negb (VerifyHash sign pk (commit_payload c blockObj)) then mret tt
        else
          let! _ := AddNewVote_ Commit recvMsg.(SenderPubkeys) sign recvMsg.(BlockHash) recvMsg.(BlockNum) recvMsg.(ViewID) in
          let! commitBitmap := lift (deref c.(commitBitmap)) in
          let! mask := lift (SetKeysAtomic commitBitmap recvMsg.(SenderPubkeys) true) in
          let! _ := modify (set_commitBitmap (Some mask)) in
          let! c := gets (fun c => c) in
          sm_when (negb quorumWasMet && d_IsQuorumAchieved c.(decider) Commit)
            (let! _ := Consensus.on_log (fun log => MarkBlockVerified log blockObj) in
             let! _ := sm_when (negb (Block_IsLastBlockInEpoch blockObj)) (handled (preCommitAndPropose blockObj)) in
             let! _ := spawn (GracePeriod c.(current).(blockViewID)) in
             sending (StopRetry MessageType_PREPARED))
    end.

(** ** NEWVIEW (view_change.go) *)

(** M1 is there when M2 has fewer signers than M3. *)
Definition has_M1 (recvMsg : FBFTMessage) : outcome bool :=
  match recvMsg.(M2Bitmap) with
  | None => Ok true
  | Some m2Mask =>
      let! m3Mask := deref recvMsg.(M3Bitmap) in
      let! n3 := CountOneBits m3Mask.(Bitmap) in
      let! n2 := CountOneBits m2Mask.(Bitmap) in
      Ok (n2 <? n3)
  end.

Definition adopt_M1 (recvMsg : FBFTMessage) (senderKey : PublicKeyWrapper) (preparedBlock : option Block) : M unit :=
  if (length recvMsg.(Payload) <? 32)%nat then lift (Panic "slice bounds out of range") else
  let hash := take 32 recvMsg.(Payload) in
  let! c := gets (fun c => c) in
  let! (am : Sign * Mask) := lift (readSignatureBitmapPayload recvMsg.(Payload) 32 (participants c)) in
  let '(aggSig, mask) := am in
  if negb (VerifyHash aggSig mask.(AggregatePublic) hash) then stop "[onNewView] Failed to Verify Signature for M1 (prepare) message"
  else
    let! _ := modify (fun c => set_prepareBitmap (Some mask) (set_aggregatedPrepareSig (Some aggSig) (set_blockHash (be_value hash) c))) in
    let preparedMsg := mkMsg MessageType_PREPARED recvMsg.(ViewID) recvMsg.(BlockNum) (be_value hash) []
      [senderKey] [] None (drop 32 recvMsg.(Payload)) None None None None None None false in
    let! _ := Consensus.on_log (fun log => AddVerifiedMessage log preparedMsg) in
    match preparedBlock with Some b => Consensus.on_log (fun log => AddBlock log b) | None => mret tt end.

Definition onNewView (recvMsg : FBFTMessage) : M unit :=
  let! c := gets (fun c => c) in
  if negb (c.(blockNum) =? recvMsg.(BlockNum)) then mret tt
  else if negb (HasSingleSender recvMsg) then mret tt
  else
    let! senderKey := lift (idx recvMsg.(SenderPubkeys) 0) in
    if negb (onNewViewSanityCheck c recvMsg) then mret tt
    else
      let! preparedBlock := viewchanging (VerifyNewViewMsg (verifyBlock_on c.(chain)) recvMsg) in
      let! (q : bool) := lift (d_IsQuorumAchievedByMask c.(decider) recvMsg.(M3Bitmap)) in
      if negb q then mret tt
      else
        let! (m1 : bool) := lift (has_M1 recvMsg) in
        let! _ := sm_when m1 (adopt_M1 recvMsg senderKey preparedBlock) in
        let! (vcm : bool) := gets isViewChangingMode in
        if negb vcm then mret tt
        else
          let! _ := stopTimer timeoutViewChange in
          let! _ := setViewIDs recvMsg.(ViewID) in
          let! _ := setLeaderPubKey (Some senderKey) in
          let! _ := resetViewChangeState in
          let! _ := sending (StopRetry MessageType_VIEWCHANGE) in
          let! _ := match preparedBlock with
                    | Some b => let! _ := sendCommitMessages (Some b) in switchPhase FBFTCommit
                    | None => resetState
                    end in
          startTimer timeoutConsensus.

(** ** The main loop (consensus_v2.go) *)

Definition is_type (msg : Message) (ts : list Z) : bool := existsb (Z.eqb msg.(msgType)) ts.

Definition parse_message (c : Consensus) (msg : Message) : outcome FBFTMessage :=
  if msg.(msgType) =? MessageType_VIEWCHANGE then ParseViewChangeMessage (Some msg)
  else if msg.(msgType) =? MessageType_NEWVIEW then ParseNewViewMessage (Some msg) (participants c)
  else parseFBFTMessage c.(multiSigBitmap) msg.

(** Which handler runs. *)
Definition route (c : Consensus) (msg : Message) (fbftMsg : FBFTMessage) : M unit :=
  let t := msg.(msgType) in
  let canHandleViewChange := negb c.(isBackup) in
  let intendedForValidator := negb (isLeader c) in
  let intendedForLeader := isLeader c && negb c.(isBackup) in
  if (t =? MessageType_ANNOUNCE) && intendedForValidator then handled (onAnnounce msg)
  else if (t =? MessageType_PREPARED) && intendedForValidator then handled (onPrepared fbftMsg)
  else if (t =? MessageType_COMMITTED) && intendedForValidator then handled (onCommitted fbftMsg)
  else if (t =? MessageType_PREPARE) && intendedForLeader then handled (onPrepare fbftMsg)
  else if (t =? MessageType_COMMIT) && intendedForLeader then handled (onCommit fbftMsg)
  else if (t =? MessageType_VIEWCHANGE) && canHandleViewChange then handled (onViewChange fbftMsg)
  else if (t =? MessageType_NEWVIEW) && canHandleViewChange then handled (onNewView fbftMsg)
  else mret tt.

Definition from_leader : list Z := [MessageType_ANNOUNCE; MessageType_PREPARED; MessageType_COMMITTED].
Definition from_validator : list Z := [MessageType_PREPARE; MessageType_COMMIT].

Definition HandleMessageUpdate (msg : Message) (senderKey : SerializedPublicKey) : M unit :=
  let! c := gets (fun c => c) in
  if isViewChangingMode c && is_type msg from_validator then mret tt
  else
    let! _ := lift (if is_type msg from_leader then
        let! leader := deref c.(leaderPubKey) in
        if negb (senderKey =? leader.(wBytes)) && bool_decide (c.(current).(mode) = Normal) && negb c.(IgnoreViewIDCheck)
        then Err errSenderPubKeyNotLeader else Ok tt
      else Ok tt) in
    let! _ := lift (if negb (is_type msg from_validator) then
        let! (ok : bool) := senderKeySanityChecks msg senderKey in
        if ok then Ok tt else Err errVerifyMessageSignature
      else Ok tt) in
    let! fbftMsg := lift (parse_message c msg) in
    route c msg fbftMsg.

(** Goroutines, when they get the mutex.  [RetryCommitted] reads the block
    number before that: [curBlockNum]. *)
Fixpoint retry_committed (curBlockNum : Z) (msgs : list FBFTMessage) : M unit :=
  match msgs with
  | [] => mret tt
  | committedMsg :: rest =>
      let! _ := handled (onCommitted committedMsg) in
      let! (n : Z) := gets blockNum in
      if curBlockNum <? n then mret tt else retry_committed curBlockNum rest
  end.
Definition run_task (curBlockNum : Z) (t : Task) : M unit :=
  match t with
  | ValidateNewBlock_ recvMsg => let! _ := caught (validateNewBlock recvMsg) in mret tt
  | RetryCommitted blockObj =>
      let! c := gets (fun c => c) in
      retry_committed curBlockNum
        (GetNotVerifiedCommittedMessages c.(fBFTLog) (Block_NumberU64 blockObj) (block_view blockObj) (Block_Hash blockObj))
  | GracePeriod viewID =>
      let! c := gets (fun c => c) in
      sm_when (viewID =? c.(current).(blockViewID)) (handled (finalCommit of_bytes schedule))
  | PreCommit blk bareMinimumCommit msgToSend => handled (run_PreCommit blk bareMinimumCommit msgToSend)
  | ReadySignal _ | CommitSigSignal _ => mret tt
  end.

(** One timer of [tick]'s loop; the answer tells whether the loop goes on. *)
Definition tick_timer (k : TimeoutType) : M bool :=
  let! c := gets (fun c => c) in
  let m := c.(current).(mode) in
  if bool_decide (m = Listening) then let! _ := stopTimer k in mret true
  else if bool_decide (m = Syncing) && negb (bool_decide (k = timeoutBootstrap)) then let! _ := stopTimer k in mret true
  else
    let (t, expired) := CheckExpired c.(now) (timeout_of c.(consensusTimeout) k) in
    let! _ := timer k (fun _ _ => t) in
    if expired then let! _ := startViewChange schedule in mret false else mret true.
Fixpoint tick_loop (order : list TimeoutType) : M unit :=
  match order with
  | [] => mret tt
  | k :: rest => let! (go_on : bool) := tick_timer k in if go_on then tick_loop rest else mret tt
  end.
(** [order] is the order in which the map of timers is walked. *)
Definition tick (order : list TimeoutType) : M unit :=
  let! c := gets (fun c => c) in
  if negb c.(start) && c.(isInitialLeader) then mret tt else tick_loop order.

Definition Start_ : M unit :=
  let! _ := startTimer timeoutBootstrap in
  modify (fun c => set_NextBlockDue (c.(now) + c.(BlockPeriod)) c).
Definition StartChannel : M unit :=
  let! c := gets (fun c => c) in
  let! _ := modify (set_isInitialLeader (isLeader c)) in
  sm_when (isLeader c) (let! _ := modify (set_start true) in spawn (ReadySignal SyncProposal)).

(** [BlockChannel] refuses an old block; [run_BlockChannel] is what it does when
    the block's time has come. *)
Definition BlockChannel_accepts (c : Consensus) (newBlock : Block) : bool := negb (Block_NumberU64 newBlock <? c.(blockNum)).
Definition run_BlockChannel (newBlock : Block) : M unit :=
  let! _ := StartFinalityCount in
  let! _ := modify (fun c => set_NextBlockDue (c.(now) + c.(BlockPeriod)) c) in
  let! _ := sending (MsgSender.Reset (Block_NumberU64 newBlock)) in
  handled (announce newBlock).
End handlers.
