(* ===== verification/FbftSafety.v ===== *)
(** * The proofs of a leader are accepted

    First the votes of a round and the bitmaps beside them, then the handlers.

    The leader keeps, for each phase, a ballot box in its decider and a bitmap.
    [phase_votes] says that the ballots are signatures of what the phase signs
    and that the bitmap marks exactly who voted; voting keeps it, and it is what
    makes the proof the leader sends out acceptable. *)
From S2P Require Import Prelude Dec Params Sharding Bls Mask SigBitmap Shard Header CXReceipt Block FbftLog FbftMessage VotePower Quorum QuorumSafety Aggregate Decider ViewChange MsgSender LeaderRotation Consensus FbftView FbftCommit FbftHandlers.
Local Open Scope Z_scope.

Section votes.
Context {L : BLSLib} {S : SigCheck L} {G : Signer L} (laws : BLSLaws L) (slaws : SigLaws L S G).
Context (members : list PublicKeyWrapper) (Hnd : NoDup (map wBytes members)).

(** The committee's roster: its voters are the members. *)
Record committee_roster (r : Roster) : Prop := {
  cr_powers : powers_ok r;
  cr_voters : forall k, is_Some (r.(Voters) !! k) <-> k ∈ map wBytes members
}.
Context (r : Roster) (Hr : committee_roster r).

Record committee_decider (v : stakedVoteWeight) : Prop := {
  cd_inv : decider_inv v;
  cd_roster : v.(roster) = r;
  cd_keys : v.(cid).(publicKeys) = members
}.

Definition phase_votes (p : Phase) (h : list Z) (v : stakedVoteWeight) (m : Mask) : Prop :=
  box_signed members h (box v.(cid) p) /\ marks members (box v.(cid) p) m.

(** A key that claims to be a member's is the member's. *)
Definition genuine (w : PublicKeyWrapper) : Prop := w.(wBytes) ∈ map wBytes members -> w ∈ members.

Lemma in_bytes (w : PublicKeyWrapper) keys : w ∈ keys -> w.(wBytes) ∈ map wBytes keys.
Proof. intros Hw. by apply list_elem_of_In, in_map, list_elem_of_In. Qed.

Lemma publicKeys_with_round s p rd : (with_round s p rd).(publicKeys) = s.(publicKeys).
Proof. by destruct p. Qed.

Lemma box_signed_record h b keys sig hh height view :
  box_signed members h b -> NoDup (map wBytes keys) -> (forall k, k ∈ map wBytes keys -> b !! k = None) ->
  (forall w, w ∈ keys -> w ∈ members) -> signs h (sig, keys) ->
  box_signed members h (record_votes b (ballot_of (map wBytes keys) sig hh height view) (map wBytes keys)).
Proof.
  intros [Hc Hs] Hndk Hfree Hin Hsig. split; [exact (coherent_record b (ballot_of (map wBytes keys) sig hh height view) Hc Hfree)|].
  intros k v. rewrite lookup_record_votes. case_decide as Hk; [|apply Hs]. intros E. injection E as <-. split; [done|].
  exists keys. split; [done|]. split; [done|]. unfold signs, sig_of in *. cbn [Signature ballot_of fst snd] in *.
  by rewrite sig_roundtrip.
Qed.

Lemma SetKeys_mask_of m keys : mask_of members m -> (forall k, k ∈ map wBytes keys -> k ∈ map wBytes members) ->
  exists m', SetKeysAtomic m keys true = Ok m' /\ mask_of members m' /\
    forall k, key_bit m' k = true <-> k ∈ map wBytes keys \/ key_bit m k = true.
Proof.
  intros [Hwf Hsk] Hin. pose proof (SetKeysAtomic_total laws m keys true Hwf) as Ht.
  assert (forall k, k ∈ map wBytes members -> is_Some (PublicsIndex m !! k)) as Hidx.
  { intros k (w & -> & Hw)%list_elem_of_fmap. apply (wf_keys m Hwf). by destruct Hsk as [-> _]. }
  rewrite decide_True in Ht.
  2: { apply Forall_forall. intros w Hw. apply Hidx, Hin. by apply in_bytes. }
  destruct Ht as (m' & E & Hwf' & Hsk' & Hbits). exists m'. split; [done|].
  split; [split; [done|by eapply same_keys_trans]|]. intros k.
  destruct (PublicsIndex m !! k) as [i|] eqn:Hk.
  - rewrite Hbits by (by rewrite Hk). case_decide; [split; [by left|done]|]. split; [by right|by intros [?|?]].
  - assert (key_bit m' k = false) as -> by (unfold key_bit; destruct Hsk' as [_ ->]; by rewrite Hk).
    assert (key_bit m k = false) as -> by (unfold key_bit; by rewrite Hk).
    split; [done|]. intros [Hk'%Hin%Hidx|?]; [rewrite Hk in Hk'; by destruct Hk'|done].
Qed.

Lemma Clear_NewMask m : mask_of members m -> Clear m = NewMask members.
Proof. intros [_ [Ep Ex]]. destruct m. cbn in *. subst. done. Qed.

Lemma SetKey_mask_of m m' k : mask_of members m -> SetKey m k true = Ok m' -> mask_of members m'.
Proof.
  intros [Hwf Hsk]. unfold SetKey. destruct (PublicsIndex m !! k) as [i|] eqn:Hi; [|done]. intros E.
  destruct (SetBit_wf laws m i true Hwf (index_range m k i Hwf Hi)) as (m2 & E2 & Hwf2 & Hsk2 & _).
  assert (m2 = m') as <- by congruence. split; [done|by eapply same_keys_trans].
Qed.

Lemma SetKeys_marks b m keys ballot : marks members b m -> (forall k, k ∈ map wBytes keys -> k ∈ map wBytes members) ->
  exists m', SetKeysAtomic m keys true = Ok m' /\ marks members (record_votes b ballot (map wBytes keys)) m'.
Proof.
  intros [Hm Hb] Hin. destruct (SetKeys_mask_of m keys Hm Hin) as (m' & E & Hm' & Hbits). exists m'. split; [done|].
  split; [done|]. intros k. rewrite lookup_record_votes, Hbits, Hb.
  case_decide; [split; [by eexists|by left]|]. split; [by intros [?|?]|by right].
Qed.

(** A vote: [AddNewVote] and then [SetKeysAtomic]. *)
Lemma vote_recorded p h v m keys sig hh height view v' b :
  committee_decider v -> phase_votes p h v m -> (forall w, w ∈ keys -> genuine w) -> signs h (sig, keys) ->
  AddNewVote v p keys sig hh height view = (v', Ok b) ->
  committee_decider v' /\ (forall q, p <> q -> box v'.(cid) q = box v.(cid) q) /\
  exists m', SetKeysAtomic m keys true = Ok m' /\ phase_votes p h v' m'.
Proof.
  intros [Hinv Ero Epk] [Hbox Hmarks] Hgen Hsig E.
  pose proof (AddNewVote_cases _ _ _ _ _ _ _ _ _ Hinv ltac:(rewrite Ero; apply Hr) E) as (Hp & Hndk & Hfree & -> & Hvoters & Er & Ec).
  assert (forall k, k ∈ map wBytes keys -> k ∈ map wBytes members) as Hin.
  { intros k Hk. apply (cr_voters r Hr). rewrite <- Ero. by apply Hvoters. }
  split; [|split].
  - split; [by apply (AddNewVote_inv _ _ _ _ _ _ _ _ _ Hinv E)|congruence|]. by rewrite Ec, publicKeys_with_round.
  - intros q Hq. rewrite Ec. by apply box_with_round_ne.
  - destruct (SetKeys_marks _ m keys (ballot_of (map wBytes keys) sig hh height view) Hmarks Hin) as (m' & Em & Hm').
    exists m'. split; [done|]. unfold phase_votes. rewrite Ec, box_with_round by done. cbn [BallotBox]. split; [|done].
    apply box_signed_record; [done..| |done]. intros w Hw. apply Hgen; [done|]. apply Hin. by apply in_bytes.
Qed.

(** Any vote, accepted or not. *)
Lemma AddNewVote_any v p keys sig hh height view v' res :
  committee_decider v -> AddNewVote v p keys sig hh height view = (v', res) ->
  committee_decider v' /\ (forall q, p <> q -> box v'.(cid) q = box v.(cid) q) /\
  match res with
  | Ok _ => forall k, k ∈ map wBytes keys -> k ∈ map wBytes members
  | Err _ => v' = v
  | Panic _ => False
  end.
Proof.
  intros Hv E. pose proof Hv as [Hinv Ero Epk].
  pose proof (AddNewVote_cases _ _ _ _ _ _ _ _ _ Hinv ltac:(rewrite Ero; apply Hr) E) as Hc.
  destruct res as [b|e|w]; [|by subst v'|done]. destruct Hc as (Hp & _ & _ & _ & Hvoters & Er & Ec). split_and!.
  - split; [by apply (AddNewVote_inv _ _ _ _ _ _ _ _ _ Hinv E)|congruence|]. by rewrite Ec, publicKeys_with_round.
  - intros q Hq. rewrite Ec. by apply box_with_round_ne.
  - intros k Hk. apply (cr_voters r Hr). rewrite <- Ero. by apply Hvoters.
Qed.

(** The leader's own vote: [SetKey] and then [AddNewVote], which fails only for
    a key that has voted. *)
Lemma AddNewVote_single v p (w : PublicKeyWrapper) sig hh height view v' e :
  committee_decider v -> known p -> w.(wBytes) ∈ map wBytes members ->
  AddNewVote v p [w] sig hh height view = (v', Err e) -> v' = v /\ is_Some (box v.(cid) p !! w.(wBytes)).
Proof.
  intros [Hinv Ero Epk] Hp Hw E.
  pose proof (AddNewVote_cases _ _ _ _ _ _ _ _ _ Hinv ltac:(rewrite Ero; apply Hr) E) as ->. split; [done|].
  destruct (box (cid v) p !! wBytes w) as [b|] eqn:Hb; [by exists b|]. exfalso. revert E. unfold AddNewVote.
  assert (is_Some (Voters (roster v) !! wBytes w)) as [vt Hvt] by (rewrite Ero; by apply Hr).
  cbn [check_signers map]. rewrite Hvt. unfold submitVote.
  assert (check_votes (cid v) p ∅ [wBytes w] = Ok tt) as ->.
  { apply check_votes_spec. split; [apply NoDup_singleton|]. intros k ->%list_elem_of_singleton. split; [set_solver|done]. }
  cbn [mbind outcome_bind]. rewrite submit_loop by done. cbn [mbind outcome_bind roster].
  rewrite additional_power_total; [|by rewrite Ero; apply Hr|apply NoDup_singleton|].
  2: { intros k ->%list_elem_of_singleton. by exists vt. }
  cbn [voteTally]. destruct (tally_of (voteTally v) p) as [tq|] eqn:Etq; [|by destruct p].
  destruct (Dec.Add _ _) eqn:Ea; [done|by apply Add_not_Err in Ea|done].
Qed.

Lemma own_vote p h v m m1 w sig hh height view v' res :
  committee_decider v -> known p -> phase_votes p h v m -> genuine w -> signs h (sig, [w]) ->
  SetKey m w.(wBytes) true = Ok m1 -> AddNewVote v p [w] sig hh height view = (v', res) ->
  committee_decider v' /\ (forall q, p <> q -> box v'.(cid) q = box v.(cid) q) /\ phase_votes p h v' m1.
Proof.
  intros Hv Hp Hpv Hgen Hsig Em E. pose proof Hpv as [Hbox [Hm Hb]].
  assert (wBytes w ∈ map wBytes members) as Hw.
  { destruct (decide (wBytes w ∈ map wBytes members)) as [|Hn]; [done|]. by rewrite (SetKey_absent members m _ Hm Hn) in Em. }
  destruct res as [b|e|why].
  - destruct (vote_recorded p h v m [w] sig hh height view v' b Hv Hpv) as (? & ? & m2 & E2 & Hm2); [|done..|].
    { by intros ? ->%list_elem_of_singleton. }
    split; [done|]. split; [done|]. assert (m1 = m2) as ->; [|done].
    unfold SetKeysAtomic, SetKey in *. cbn [foldM] in E2. destruct (PublicsIndex m !! wBytes w); [|done].
    cbn [mbind outcome_bind app foldM] in E2. apply bind_Ok in E2 as (? & E2 & [= <-]). congruence.
  - destruct (AddNewVote_single _ _ _ _ _ _ _ _ _ Hv Hp Hw E) as [-> Hvoted]. split; [done|]. split; [done|]. split; [done|].
    destruct (SetKey_marks laws members m w Hm (Hgen Hw)) as (m2 & E2 & Hm2 & Hb2). assert (m2 = m1) as -> by congruence.
    split; [done|]. intros k. rewrite Hb2, Hb. split; [|by right]. by intros [->|].
  - destruct Hv as [Hinv Ero Epk].
    by pose proof (AddNewVote_cases _ _ _ _ _ _ _ _ _ Hinv ltac:(rewrite Ero; apply Hr) E).
Qed.
End votes.

(** ** What a leader sends, validators accept

    From the announcement of a block on, whatever PREPARE and COMMIT messages
    arrive, the leader's ballot boxes hold verified signatures of the round's
    block and its bitmaps mark their signers ([round_inv]).  So the PREPARED
    proof it builds when it reaches the quorum passes every check of a
    validator, and so does the COMMITTED proof when the COMMIT messages are for
    the announced block - which [onCommit] does not check. *)

(** ** Running a method from a state that satisfies an invariant *)

Section at_state.
Context {St : Type} (I : St -> Prop).
Lemma at_lift {A B} (x : outcome A) (f : A -> SM St B) s :
  I s -> (forall a, x = Ok a -> I (fst (f a s))) -> I (fst ((let! a := lift x in f a) s)).
Proof. intros Hs Hf. unfold mbind, SM_bind, lift. destruct x as [a|e|w]; [by apply Hf|done|done]. Qed.
Lemma at_keeps {A B} (m : SM St A) (f : A -> SM St B) s :
  I s -> keeps I m -> (forall a s', I s' -> I (fst (f a s'))) -> I (fst ((let! a := m in f a) s)).
Proof.
  intros Hs Hm Hf. unfold mbind, SM_bind. specialize (Hm s Hs). destruct (m s) as [s' [a|e|w]]; [by apply Hf|done|done].
Qed.
End at_state.

Section round.
Context {L : BLSLib} {S : SigCheck L} {G : Signer L} {H : Hashes} {T : TxLib} {R : BlockRLP} {W : Walk}.
Context {C : ChainLib} {N : NodeLib} {SR : ShardRLP} (of_bytes : list Z -> Data) (schedule : Schedule).
Context (laws : BLSLaws L) (slaws : SigLaws L S G).
Context (members : list PublicKeyWrapper) (Hnd : NoDup (map wBytes members)).
Context (r : Roster) (Hr : committee_roster members r).
Notation M := (SM Consensus).

(** The leader's own keys, which sign whatever they are given. *)
Definition own_keys (own : list PrivateKeyWrapper) : Prop :=
  forall k, k ∈ own -> genuine members k.(Pub) /\ k.(Pub).(Object) = GetPublicKey k.(Pri) /\
    forall msg, is_Some (SignHash k.(Pri) msg).
Context (own : list PrivateKeyWrapper) (Hown : own_keys own).

(** The block of the round, the chain it is to extend, and what is signed:
    [strict] rounds have COMMIT messages for this block only. *)
Context (b : Block) (ch : Chain) (strict : bool).
Definition prepare_payload : list Z := be_bytes 32 (Block_Hash b).
Definition commit_payload_on (b : Block) : list Z :=
  ConstructCommitPayload (bc_Config ch) (Some (Block_Epoch b)) (Block_Hash b) (Block_NumberU64 b) (block_view b).

Record round_inv (c : Consensus) : Prop := {
  ri_own : c.(priKey) = own;
  ri_chain : c.(chain) = ch;
  ri_hash : c.(blockHash) = Block_Hash b;
  ri_block b' : Block_DecodeRLP c.(block) = Ok b' -> commit_payload_on b' = commit_payload_on b;
  ri_log b' : GetBlockByHash c.(fBFTLog) (Block_Hash b) = Some b' -> commit_payload_on b' = commit_payload_on b;
  ri_votes : exists v mp mc, c.(decider) = inr v /\ committee_decider members r v /\
    c.(prepareBitmap) = Some mp /\ phase_votes members Prepare prepare_payload v mp /\
    c.(commitBitmap) = Some mc /\ mask_of members mc /\
    (strict = true -> phase_votes members Commit (commit_payload_on b) v mc)
}.
Notation I := round_inv.
Notation cpl := (commit_payload_on b).

(** Assignments to other fields. *)
Ltac frame := apply keeps_modify; intros ? []; by split.
Lemma log_keeps f : (forall log, (f log).(blocks) = log.(blocks)) -> keeps I (Consensus.on_log f).
Proof.
  intros Hf. apply keeps_modify. intros c []. split; try done. intros b'. unfold GetBlockByHash. cbn. rewrite Hf. apply ri_log0.
Qed.
Lemma AddVerifiedMessage_keeps m : keeps I (Consensus.on_log (fun log => AddVerifiedMessage log m)).
Proof. by apply log_keeps. Qed.
Lemma MarkBlockVerified_keeps blk : keeps I (Consensus.on_log (fun log => MarkBlockVerified log blk)).
Proof. by apply log_keeps. Qed.
Lemma AddBlock_keeps : keeps I (Consensus.on_log (fun log => AddBlock log b)).
Proof.
  apply keeps_modify. intros c []. split; try done. intros b'. unfold GetBlockByHash, AddBlock. cbn.
  rewrite lookup_insert_eq. by intros [= <-].
Qed.
Lemma switchPhase_keeps p : keeps I (switchPhase p).
Proof. frame. Qed.
Lemma emit_keeps e : keeps I (emit e).
Proof. frame. Qed.
Lemma aggregatedPrepareSig_keeps s : keeps I (modify (set_aggregatedPrepareSig s)).
Proof. frame. Qed.
Lemma sending_keeps {A} (m : SM MessageSender A) : keeps I (sending m).
Proof. intros c []. unfold sending. destruct (m (msgSender c)). by split. Qed.
Lemma StartFinalityCount_keeps : keeps I StartFinalityCount.
Proof. frame. Qed.
Hint Resolve AddVerifiedMessage_keeps MarkBlockVerified_keeps AddBlock_keeps switchPhase_keeps emit_keeps
  aggregatedPrepareSig_keeps sending_keeps StartFinalityCount_keeps : sm.

Lemma getConsensusLeaderPrivateKey_keeps : keeps I getConsensusLeaderPrivateKey.
Proof. unfold getConsensusLeaderPrivateKey. sm_keeps. Qed.
Lemma construct_single_keeps p k : keeps I (construct_single p k).
Proof. unfold construct_single, construct. sm_keeps. Qed.
Lemma send_retrying_keeps n t m : keeps I (send_retrying n t m).
Proof. unfold send_retrying. sm_keeps. Qed.
Hint Resolve getConsensusLeaderPrivateKey_keeps construct_single_keeps send_retrying_keeps : sm.
Lemma construct_committed_keeps : keeps I construct_committed.
Proof. unfold construct_committed. sm_keeps. Qed.
Hint Resolve construct_committed_keeps : sm.
Lemma preCommitAndPropose_keeps blk : keeps I (preCommitAndPropose blk).
Proof. unfold preCommitAndPropose, spawn. sm_keeps. Qed.
Hint Resolve preCommitAndPropose_keeps : sm.

(** ** Votes *)

Lemma signerPubKey_sum m pk : signerPubKey m = Ok pk -> pk = pk_sum m.(SenderPubkeys).
Proof.
  unfold signerPubKey, HasSingleSender. destruct (SenderPubkeys m) as [|k [|k' ks]] eqn:E; cbn [length Nat.eqb].
  - by intros [= <-].
  - cbn. intros [= <-]. by rewrite pk_add_0.
  - intros [= <-]. by rewrite <- (foldl_pk_add laws).
Qed.
(** A received vote: the decider takes it, then its signers are marked. *)
Lemma vote_prepare keys sig hh n view (tail : M unit) c :
  I c -> (forall w, w ∈ keys -> genuine members w) -> signs prepare_payload (sig, keys) -> keeps I tail ->
  I (fst ((let! _ := AddNewVote_ Prepare keys sig hh n view in
           let! bm := lift (deref c.(prepareBitmap)) in
           let! mask := lift (SetKeysAtomic bm keys true) in
           let! _ := modify (set_prepareBitmap (Some mask)) in tail) c)).
Proof.
  intros Hc Hg Hs Ht. pose proof Hc as [H1 H2 H3 H4 H5 (v & mp & mc & Ev & Hv & Ep & Hp & Ec & Hmc & Hcm)].
  unfold mbind at 1, SM_bind, AddNewVote_. rewrite Ev. cbn [d_AddNewVote].
  destruct (AddNewVote v Prepare keys sig hh n view) as [v' [ballot|e|w]] eqn:E.
  - destruct (vote_recorded laws members r Hr _ _ _ _ _ _ _ _ _ _ _ Hv Hp Hg Hs E) as (Hv' & Hbox & m' & Em & Hp').
    rewrite Ep. cbn [deref]. unfold lift, mbind, SM_bind. cbn. rewrite Em. cbn.
    apply Ht. split; [done..|]. exists v', m', mc. split_and!; [done..|]. intros Hst. destruct (Hcm Hst) as [Hb Hm].
    split; by rewrite Hbox.
  - destruct (AddNewVote_any members r Hr _ _ _ _ _ _ _ _ _ Hv E) as (_ & _ & ->). cbn. split; [done..|]. by exists v, mp, mc.
  - by destruct (AddNewVote_any members r Hr _ _ _ _ _ _ _ _ _ Hv E) as (_ & _ & []).
Qed.

Lemma vote_commit keys sig hh n view (tail : M unit) c :
  I c -> (forall w, w ∈ keys -> genuine members w) -> (strict = true -> signs cpl (sig, keys)) -> keeps I tail ->
  I (fst ((let! _ := AddNewVote_ Commit keys sig hh n view in
           let! bm := lift (deref c.(commitBitmap)) in
           let! mask := lift (SetKeysAtomic bm keys true) in
           let! _ := modify (set_commitBitmap (Some mask)) in tail) c)).
Proof.
  intros Hc Hg Hs Ht. pose proof Hc as [H1 H2 H3 H4 H5 (v & mp & mc & Ev & Hv & Ep & [Hpb Hpm] & Ec & Hmc & Hcm)].
  unfold mbind at 1, SM_bind, AddNewVote_. rewrite Ev. cbn [d_AddNewVote].
  destruct (AddNewVote v Commit keys sig hh n view) as [v' [ballot|e|w]] eqn:E;
    pose proof (AddNewVote_any members r Hr _ _ _ _ _ _ _ _ _ Hv E) as (Hv' & Hbox & Hres).
  - assert (exists m', SetKeysAtomic mc keys true = Ok m' /\ mask_of members m' /\
              (strict = true -> phase_votes members Commit cpl v' m')) as (m' & Em & Hm' & Hst').
    { destruct strict.
      - destruct (vote_recorded laws members r Hr _ _ _ _ _ _ _ _ _ _ _ Hv (Hcm eq_refl) Hg (Hs eq_refl) E)
          as (_ & _ & m' & Em & Hp'). exists m'. split_and!; [done|apply Hp'|done].
      - destruct (SetKeys_mask_of laws members mc keys Hmc Hres) as (m' & Em & Hm' & _). by exists m'. }
    rewrite Ec. cbn [deref]. unfold lift, mbind, SM_bind. cbn. rewrite Em. cbn.
    apply Ht. split; [done..|]. exists v', mp, m'. do 3 (split; [done|]). split; [split; by rewrite Hbox|]. by split_and!.
  - subst v'. cbn. split; [done..|]. by exists v, mp, mc.
  - done.
Qed.

(** The leader's own votes. *)
Lemma own_signs k msg : k ∈ own -> exists sig, SignHash k.(Pri) msg = Some sig /\ signs msg (sig, [k.(Pub)]).
Proof.
  intros Hk. destruct (Hown k Hk) as (_ & Eo & Hs). destruct (Hs msg) as [sig Es]. exists sig. split; [done|].
  unfold signs. cbn. rewrite pk_add_0, Eo. by apply (SignHash_verifies (SigLaws := slaws)).
Qed.

(** A vote of the leader's own that may fail: the rest runs only when it did not. *)
Lemma own_vote_keeps_prepare k sig m1 mp hh n view c (tail : Ballot -> M unit) :
  I c -> k ∈ own -> signs prepare_payload (sig, [k.(Pub)]) -> c.(prepareBitmap) = Some mp ->
  SetKey mp k.(Pub).(wBytes) true = Ok m1 -> (forall x, keeps I (tail x)) ->
  I (fst ((let! x := AddNewVote_ Prepare [k.(Pub)] sig hh n view in tail x) (set_prepareBitmap (Some m1) c))).
Proof.
  intros [H1 H2 H3 H4 H5 (v & mp' & mc & Ev & Hv & Ep & Hp & Ec & Hmc & Hcm)] Hk Hs Ep' Em Ht.
  assert (mp' = mp) as -> by congruence. unfold mbind at 1, SM_bind, AddNewVote_. cbn [decider set_prepareBitmap].
  rewrite Ev. cbn [d_AddNewVote]. destruct (AddNewVote v Prepare [Pub k] sig hh n view) as [v' res] eqn:E.
  destruct (own_vote laws slaws members Hnd r Hr Prepare prepare_payload v mp m1 (Pub k) sig hh n view v' res) as (Hv' & Hbox & Hp'); try done.
  { by apply Hown. }
  assert (I (set_decider (inr v') (set_prepareBitmap (Some m1) c))) as Hc'.
  { split; [done..|]. exists v', m1, mc. split_and!; [done..|]. intros Hst. destruct (Hcm Hst). split; by rewrite Hbox. }
  destruct res as [x|e|w]; [by apply Ht|done|done].
Qed.

Lemma announce_key_keeps k : k ∈ own -> keeps I (announce_key b (Block_Hash b) k).
Proof.
  intros Hk c Hc. pose proof Hc as [_ _ _ _ _ (v & mp & mc & _ & _ & Ep & _)].
  unfold announce_key. unfold mbind at 1, SM_bind at 1, gets at 1. rewrite Ep. cbn [deref].
  apply at_lift; [done|]. intros ? [= <-]. destruct (SetKey mp (wBytes (Pub k)) true) as [m1|e|w] eqn:Em; [|done..].
  unfold mbind at 1, SM_bind at 1, modify. cbn [fst snd]. destruct (own_signs k prepare_payload Hk) as (sig & Es & Hs).
  unfold prepare_payload in Es. rewrite Es. cbn [deref]. unfold mbind at 1, SM_bind at 1, lift.
  apply (own_vote_keeps_prepare k sig m1 mp); try done. intros x. sm_keeps.
Qed.

Lemma own_vote_keeps_commit k sig m1 mc hh n view c (tail : Ballot -> M unit) :
  I c -> k ∈ own -> signs cpl (sig, [k.(Pub)]) -> c.(commitBitmap) = Some mc ->
  SetKey mc k.(Pub).(wBytes) true = Ok m1 -> (forall x, keeps I (tail x)) ->
  I (fst ((let! x := AddNewVote_ Commit [k.(Pub)] sig hh n view in tail x) (set_commitBitmap (Some m1) c))).
Proof.
  intros [H1 H2 H3 H4 H5 (v & mp & mc' & Ev & Hv & Ep & [Hpb Hpm] & Ec & Hmc & Hcm)] Hk Hs Ec' Em Ht.
  assert (mc' = mc) as -> by congruence. unfold mbind at 1, SM_bind, AddNewVote_. cbn [decider set_commitBitmap].
  rewrite Ev. cbn [d_AddNewVote]. destruct (AddNewVote v Commit [Pub k] sig hh n view) as [v' res] eqn:E.
  destruct (AddNewVote_any members r Hr _ _ _ _ _ _ _ _ _ Hv E) as (Hv' & Hbox & _).
  assert (mask_of members m1) as Hm1 by (by eapply (SetKey_mask_of laws members)).
  assert (I (set_decider (inr v') (set_commitBitmap (Some m1) c))) as Hc'.
  { split; [done..|]. exists v', mp, m1. do 3 (split; [done|]). split; [split; by rewrite Hbox|]. split_and!; [done..|].
    intros Hst. destruct (own_vote laws slaws members Hnd r Hr Commit cpl v mc m1 (Pub k) sig hh n view v' res) as (_ & _ & Hp'); try done.
    - by apply Hcm.
    - by apply Hown. }
  destruct res as [x|e|w]; [by apply Ht|done|done].
Qed.

Lemma prepared_key_keeps blockObj k : commit_payload_on blockObj = cpl -> k ∈ own -> keeps I (prepared_key blockObj k).
Proof.
  intros Epl Hk c Hc. pose proof Hc as [_ Ech _ _ _ (v & mp & mc & _ & _ & _ & _ & Ec & _)].
  unfold prepared_key, set_commit_key. unfold mbind at 1, SM_bind at 1, gets at 1. unfold mbind at 1, SM_bind at 1.
  unfold mbind at 1, SM_bind at 1, gets at 1. rewrite Ec. cbn [deref]. unfold mbind at 1, SM_bind at 1, lift at 1.
  destruct (SetKey mc (wBytes (Pub k)) true) as [m1|e|w] eqn:Em; [|done..].
  unfold mbind at 1, SM_bind at 1, modify. cbn [fst snd mret SM_ret sm_when].
  unfold commit_payload, chain_config. rewrite Ech. change (ConstructCommitPayload _ _ _ _ _) with (commit_payload_on blockObj).
  rewrite Epl. destruct (own_signs k cpl Hk) as (sig & Es & Hs). rewrite Es. cbn [deref]. unfold mbind at 1, SM_bind at 1, lift.
  apply (own_vote_keeps_commit k sig m1 mc); try done. intros x. sm_keeps.
Qed.

(** ** The handlers *)

Lemma didReachPrepareQuorum_keeps : keeps I didReachPrepareQuorum.
Proof.
  unfold didReachPrepareQuorum. do 4 (apply keeps_bind; [auto 2 with sm nocore|intros ?]). intros c Hc.
  unfold mbind at 1, SM_bind at 1, gets at 1. apply at_lift; [done|]. intros blockObj Hdec.
  apply (at_keeps I); [done| |].
  - apply keeps_for. intros k Hk. apply prepared_key_keeps; [by apply (ri_block c Hc)|]. by rewrite <- (ri_own c Hc).
  - intros ? c' Hc'. apply (at_keeps I); [done|sm_keeps|]. intros ? c2 Hc2. apply (at_keeps I); [done|sm_keeps|].
    intros ? c3 Hc3. by apply sending_keeps.
Qed.
Hint Resolve didReachPrepareQuorum_keeps : sm.

Definition genuine_msg (m : FBFTMessage) : Prop := forall w, w ∈ m.(SenderPubkeys) -> genuine members w.

Lemma onPrepare_keeps m : genuine_msg m -> keeps I (onPrepare m).
Proof.
  intros Hg c Hc. unfold onPrepare. unfold mbind at 1, SM_bind at 1, gets at 1.
  destruct (negb _); [done|]. destruct (already_voted _ _ _); [done|]. destruct (d_IsQuorumAchieved _ _); [done|].
  apply at_lift; [done|]. intros sign _. apply at_lift; [done|]. intros pk ->%signerPubKey_sum.
  destruct (negb _) eqn:Hv; [done|]. apply negb_false_iff in Hv. apply vote_prepare; [done|done| |].
  - unfold signs, prepare_payload. cbn. by rewrite <- (ri_hash c Hc).
  - sm_keeps.
Qed.

Lemma onCommit_keeps m : genuine_msg m -> (strict = true -> m.(BlockHash) = Block_Hash b) -> keeps I (onCommit m).
Proof.
  intros Hg Hst c Hc. unfold onCommit. unfold mbind at 1, SM_bind at 1, gets at 1.
  destruct (negb _); [done|]. destruct (already_voted _ _ _); [done|].
  apply at_lift; [done|]. intros sign _. destruct (GetBlockByHash _ _) as [blockObj|] eqn:Eb; [|done].
  apply at_lift; [done|]. intros pk ->%signerPubKey_sum. destruct (negb _) eqn:Hv; [done|]. apply negb_false_iff in Hv.
  apply vote_commit; [done|done| |].
  - intros E. unfold signs. cbn. rewrite (Hst E) in Eb. rewrite <- (ri_log c Hc _ Eb).
    revert Hv. unfold commit_payload, chain_config. by rewrite (ri_chain c Hc).
  - unfold spawn. sm_keeps.
Qed.

(** The messages of a round: PREPARE and COMMIT, from whomever, whose sender
    keys that are members' decode to the members' points; in a [strict] round
    the COMMIT messages name the announced block. *)
Definition round_msg (c : Consensus) (msg : Message) : Prop :=
  is_type msg from_validator = true /\
  forall f, parse_message c msg = Ok f ->
    genuine_msg f /\ (strict = true -> msg.(msgType) = MessageType_COMMIT -> f.(BlockHash) = Block_Hash b).

Lemma HandleMessageUpdate_keeps c msg k : I c -> round_msg c msg -> I (fst (HandleMessageUpdate of_bytes schedule msg k c)).
Proof.
  intros Hc [Ht Hmsg]. unfold HandleMessageUpdate. unfold mbind at 1, SM_bind at 1, gets at 1.
  destruct (_ && _); [done|]. apply at_lift; [done|]. intros _ _. apply at_lift; [done|]. intros _ _.
  apply at_lift; [done|]. intros f Hf. destruct (Hmsg f Hf) as [Hg Hst]. unfold route.
  assert (msgType msg = MessageType_PREPARE \/ msgType msg = MessageType_COMMIT) as [E|E].
  { unfold is_type, from_validator in Ht. cbn [existsb] in Ht. rewrite orb_false_r, orb_true_iff, !Z.eqb_eq in Ht. done. }
  - rewrite E. unfold MessageType_ANNOUNCE, MessageType_PREPARED, MessageType_COMMITTED, MessageType_PREPARE, MessageType_COMMIT,
      MessageType_VIEWCHANGE, MessageType_NEWVIEW. cbn [Z.eqb Pos.eqb andb]. destruct (_ && _); [|done]. apply keeps_handled; [by apply onPrepare_keeps|done].
  - rewrite E. unfold MessageType_ANNOUNCE, MessageType_PREPARED, MessageType_COMMITTED, MessageType_PREPARE, MessageType_COMMIT,
      MessageType_VIEWCHANGE, MessageType_NEWVIEW. cbn [Z.eqb Pos.eqb andb]. destruct (_ && _); [|done]. apply keeps_handled; [|done]. apply onCommit_keeps; [done|].
    intros Hs. by apply Hst.
Qed.

(** What happens in the leader's round: such messages, and turns of the message
    sender's goroutines. *)
Inductive round_step : Consensus -> Consensus -> Prop :=
| step_message c msg k : round_msg c msg -> round_step c (fst (HandleMessageUpdate of_bytes schedule msg k c))
| step_retry c p : round_step c (fst (sending (Retry_turn p) c)).

Lemma round_step_inv c c' : round_step c c' -> I c -> I c'.
Proof. intros [c0 msg k Hm|c0 p] Hc; [by apply HandleMessageUpdate_keeps|by apply sending_keeps]. Qed.

(** ** The round starts *)

(** A node of the committee, on the chain, that knows no other block with the
    new block's hash. *)
Record member_node (c : Consensus) : Prop := {
  mn_own : c.(priKey) = own;
  mn_chain : c.(chain) = ch;
  mn_decider : exists v, c.(decider) = inr v /\ committee_decider members r v;
  mn_prepare : exists m, c.(prepareBitmap) = Some m /\ mask_of members m;
  mn_commit : exists m, c.(commitBitmap) = Some m /\ mask_of members m;
  mn_log b' : GetBlockByHash c.(fBFTLog) (Block_Hash b) = Some b' -> commit_payload_on b' = cpl
}.

(** [resetState], which ends every round. *)
Lemma resetState_state c : fst (resetState c) =
  set_aggregatedCommitSig None (set_aggregatedPrepareSig None
    (set_commitBitmap (clear_mask c.(commitBitmap)) (set_prepareBitmap (clear_mask c.(prepareBitmap))
      (set_decider (d_ResetPrepareAndCommitVotes c.(decider)) (set_block [] (set_blockHash 0 (set_phase FBFTAnnounce c))))))).
Proof. done. Qed.
Lemma reset_decider v : committee_decider members r v -> committee_decider members r (ResetPrepareAndCommitVotes v).
Proof. intros [Hi Er Ek]. split; [by apply ResetPrepareAndCommitVotes_inv|done|done]. Qed.

Lemma phase_votes_empty p h v : box v.(cid) p = ∅ -> phase_votes members p h v (NewMask members).
Proof. intros E. unfold phase_votes. rewrite E. split; [apply box_signed_empty|apply marks_empty]. Qed.

(** The block's bytes decode to what was encoded. *)
Context (Hcodec : forall eb, to_ext b = Ok eb -> registry_Decode (registry_Encode eb) = Some eb).

(** A node at the start of a round. *)
Record fresh (c : Consensus) : Prop := {
  fr_own : c.(priKey) = own;
  fr_chain : c.(chain) = ch;
  fr_votes : exists v, c.(decider) = inr v /\ committee_decider members r v /\
    box v.(cid) Prepare = ∅ /\ box v.(cid) Commit = ∅;
  fr_prepare : c.(prepareBitmap) = Some (NewMask members);
  fr_commit : c.(commitBitmap) = Some (NewMask members);
  fr_log b' : GetBlockByHash c.(fBFTLog) (Block_Hash b) = Some b' -> commit_payload_on b' = cpl
}.
Lemma resetState_fresh c : member_node c -> fresh (fst (resetState c)).
Proof.
  intros [H1 H2 (v & Ev & Hv) (mp & Ep & Hmp) (mc & Ec & Hmc) Hlog]. rewrite resetState_state. split; [done|done| |..|done].
  - exists (ResetPrepareAndCommitVotes v). cbn [decider set_block set_blockHash set_aggregatedCommitSig
      set_aggregatedPrepareSig set_commitBitmap set_prepareBitmap set_decider set_phase]. rewrite Ev.
    split_and!; [done|by apply reset_decider|done|done].
  - cbn [prepareBitmap set_aggregatedCommitSig set_aggregatedPrepareSig set_commitBitmap set_prepareBitmap].
    rewrite Ep. cbn. by rewrite (Clear_NewMask members).
  - cbn [commitBitmap set_aggregatedCommitSig set_aggregatedPrepareSig set_commitBitmap].
    rewrite Ec. cbn. by rewrite (Clear_NewMask members).
Qed.

Lemma fresh_inv c bytes : fresh c -> Block_EncodeRLP b = Ok bytes ->
  I (set_block bytes (set_blockHash (Block_Hash b) c)).
Proof.
  intros [H1 H2 (v & Ev & Hv & Bp & Bc) Ep Ec Hlog] Hb. split; [done|done|done| |done|].
  - intros b' Hb'. cbn in Hb'. unfold Block_EncodeRLP in Hb. apply bind_Ok in Hb as (eb & Eb & [= <-]).
    unfold Block_DecodeRLP in Hb'. rewrite (Hcodec eb Eb) in Hb'. injection Hb' as <-.
    assert (header (of_ext eb) = header b) as Eh by (by apply of_to_ext).
    unfold commit_payload_on, Block_Epoch, Block_Hash, Block_NumberU64, block_view, Block_Header. by rewrite Eh.
  - exists v, (NewMask members), (NewMask members).
    split_and!; [done|done|done|by apply phase_votes_empty|done|apply NewMask_mask_of|]. intros _. by apply phase_votes_empty.
Qed.

Lemma announce_inv c bytes : fresh c -> Block_EncodeRLP b = Ok bytes -> I (fst (announce b c)).
Proof.
  intros Hf Hb. pose proof (fresh_inv c bytes Hf Hb) as Hc. clear Hf.
  unfold announce. rewrite Hb. unfold mbind at 1, SM_bind at 1, modify at 1. clear Hb.
  set (c1 := set_block _ _) in *. clearbody c1. apply (at_keeps I); [done|auto 2 with sm nocore|].
  intros key c2 Hc2. clear Hc c1. do 3 (apply (at_keeps I); [done|auto 2 with sm nocore|]; clear dependent c2; intros ? c2 Hc2).
  unfold mbind at 1, SM_bind at 1, gets at 1. apply (at_keeps I); [done| |].
  - apply keeps_for. rewrite (ri_own c2 Hc2), (ri_hash c2 Hc2). intros k Hk. by apply announce_key_keeps.
  - intros ? c3 Hc3. apply (at_keeps I); [done|sm_keeps|]. intros ? c4 Hc4. by apply switchPhase_keeps.
Qed.

Definition round_reachable (c : Consensus) : Prop :=
  exists c0 bytes, member_node c0 /\ Block_EncodeRLP b = Ok bytes /\ rtc round_step (fst (announce b (fst (resetState c0)))) c.
Lemma round_reachable_inv c : round_reachable c -> I c.
Proof.
  intros (c0 & bytes & Hm & Hb & Hs).
  pose proof (announce_inv _ bytes (resetState_fresh c0 Hm) Hb) as Hi.
  induction Hs as [|c1 c2 c3 Hs _ IH]; [done|]. apply IH. by eapply round_step_inv.
Qed.

(** ** The proofs *)

(** What a validator with the same committee checks of a proof on [msg]. *)
Definition proof_accepted (payload msg : list Z) : Prop :=
  exists s m, readSignatureBitmapPayload payload 0 members = Ok (s, m) /\
    VerifyHash s m.(AggregatePublic) msg = true /\
    forall v, v.(roster) = r -> d_IsQuorumAchievedByMask (inr v) (Some m) = Ok true.

Lemma quorum_proof p msg v m : committee_decider members r v -> phase_votes members p msg v m -> known p ->
  IsQuorumAchieved v p = true ->
  VerifyHash (AggregateVotes v.(cid) p) m.(AggregatePublic) msg = true /\
  proof_accepted (sig_Serialize (AggregateVotes v.(cid) p) ++ m.(Bitmap)) msg.
Proof.
  intros [Hinv Er Ek] [Hbox Hm] Hp Hq.
  assert (twoThird < power_set r (dom (box v.(cid) p))) as Hpow.
  { unfold IsQuorumAchieved in Hq. destruct (tally_of (voteTally v) p) as [tq|] eqn:Et; [|done].
    rewrite <- Er, <- (di_tally v Hinv p tq Et). apply (di_above v Hinv) with p; [|done|done].
    intros k. apply overall_nonneg. rewrite Er. apply Hr. }
  assert (dom (box v.(cid) p) = enabled_set m) as Edom.
  { apply set_eq. intros k. rewrite elem_of_dom, elem_of_enabled_set. symmetry. apply Hm. }
  assert (VerifyHash (AggregateVotes v.(cid) p) m.(AggregatePublic) msg = true) as Hver.
  { apply (votes_verify laws slaws members); [done..|]. intros E. rewrite E, dom_empty_L in Hpow.
    assert (twoThird = 666666666666666667) as E2 by by vm_compute. rewrite power_set_empty in Hpow. unfold Dec in *. lia. }
  split; [done|]. exists (AggregateVotes v.(cid) p), m. split; [|split; [done|]].
  - unfold readSignatureBitmapPayload. rewrite length_app, (sig_Serialize_length (SigLaws := slaws)). cbn [drop].
    unfold BLSSignatureSizeInBytes. rewrite (proj2 (Nat.ltb_ge _ _)) by lia.
    apply (ReadSignatureBitmap_written laws S G slaws). apply Hm.
  - intros v' Er'. cbn [d_IsQuorumAchievedByMask]. rewrite mask_quorum; [|apply Hm|rewrite Er'; apply Hr].
    rewrite Er', <- Edom. by rewrite bool_decide_true.
Qed.

(** The payload of the message the leader makes of its proof. *)
Lemma constructed_proof c p ph key net :
  (p = MessageType_PREPARED /\ ph = Prepare \/ p = MessageType_COMMITTED /\ ph = Commit) ->
  construct_on c p [] [key] = Ok (Some net) ->
  constructQuorumSigAndBitmap c ph = Ok net.(nmFBFTMsg).(Payload) /\
  be_bytes 32 net.(nmFBFTMsg).(BlockHash) = be_bytes 32 c.(blockHash).
Proof.
  intros Hp. unfold construct_on, unsigned_message. cbn [mbind outcome_bind]. intros Hc.
  apply bind_Ok in Hc as ([message needs] & Hm & Hc). apply bind_Ok in Hm as (((bl & payload) & ns) & Hbp & Hm).
  apply Ok_inj in Hm. assert (needs = ns) as -> by (by apply (f_equal snd) in Hm). apply (f_equal fst) in Hm. cbn [fst] in Hm. subst message.
  apply bind_Ok in Hc as (bytes & _ & Hc). cbn [fst snd] in Hc.
  destruct (parseFBFTMessage _ _) as [f|e|w] eqn:Ef; [|done..]. injection Hc as <-. cbn [nmFBFTMsg].
  unfold parseFBFTMessage in Ef. cbn [GetConsensus msgRequest nilable mbind outcome_bind] in Ef.
  apply bind_Ok in Ef as (keys & _ & Ef). apply Ok_inj in Ef as <-. cbn [Payload BlockHash crPayload crBlockHash].
  split.
  - unfold block_and_payload in Hbp. destruct Hp as [[-> ->]|[-> ->]]; cbn -[constructQuorumSigAndBitmap be_bytes] in Hbp;
      by apply bind_Ok in Hbp as (pl & -> & [= <- <- <-]).
  - apply be_bytes_copy.
Qed.

(** C1: What a leader prepares, validators accept.  From the announcement of a
    block on, whatever PREPARE and COMMIT messages a leader handles, honest or
    not, and however its retries are scheduled: once its prepare tally reaches
    the quorum it has a proof (the aggregated signature and the bitmap of the
    PREPARED message) which every validator of the committee parses, verifies on
    the block's hash and finds to hold more than two thirds of the voting power;
    and the PREPARED message it constructs carries a proof so accepted for the
    hash it names. *)
Theorem PREPARED_accepted c : round_reachable c -> d_IsQuorumAchieved c.(decider) Prepare = true ->
  (exists payload, constructQuorumSigAndBitmap c Prepare = Ok payload /\ proof_accepted payload (be_bytes 32 (Block_Hash b))) /\
  forall key net, construct_on c MessageType_PREPARED [] [key] = Ok (Some net) ->
    proof_accepted net.(nmFBFTMsg).(Payload) (be_bytes 32 net.(nmFBFTMsg).(BlockHash)).
Proof.
  intros Hc Hq. apply round_reachable_inv in Hc. pose proof Hc as [_ _ Eh _ _ (v & mp & mc & Ev & Hv & Ep & Hp & _)].
  rewrite Ev in Hq. destruct (quorum_proof Prepare prepare_payload v mp Hv Hp Logic.I Hq) as [_ Hacc].
  assert (constructQuorumSigAndBitmap c Prepare = Ok (sig_Serialize (AggregateVotes v.(cid) Prepare) ++ mp.(Bitmap))) as E.
  { unfold constructQuorumSigAndBitmap. rewrite Ev, Ep. done. }
  split; [by eexists|]. intros key net Hnet.
  destruct (constructed_proof c MessageType_PREPARED Prepare key net ltac:(by left) Hnet) as [Epl ->].
  rewrite Eh. by assert (Payload (nmFBFTMsg net) = sig_Serialize (AggregateVotes v.(cid) Prepare) ++ mp.(Bitmap)) as -> by congruence.
Qed.

(** C2: What a leader commits, validators and the leader itself accept - when the
    COMMIT messages it handled name the announced block.  Once the commit tally
    reaches the quorum, the aggregated signature with its bitmap passes the
    leader's own check before it inserts the block, verifies at every validator
    on the block's commit payload with more than two thirds of the power, and is
    what the COMMITTED message carries. *)
Theorem COMMITTED_accepted c : strict = true -> round_reachable c -> d_IsQuorumAchieved c.(decider) Commit = true ->
  (exists payload, constructQuorumSigAndBitmap c Commit = Ok payload /\ verifyLastCommitSig c payload b = Ok tt /\
     proof_accepted payload (commit_payload c b)) /\
  forall key net, construct_on c MessageType_COMMITTED [] [key] = Ok (Some net) ->
    verifyLastCommitSig c net.(nmFBFTMsg).(Payload) b = Ok tt /\
    proof_accepted net.(nmFBFTMsg).(Payload) (commit_payload c b).
Proof.
  intros Hst Hc Hq. apply round_reachable_inv in Hc. pose proof Hc as [_ Ech _ _ _ (v & mp & mc & Ev & Hv & _ & _ & Ec & _ & Hcm)].
  rewrite Ev in Hq. destruct (quorum_proof Commit cpl v mc Hv (Hcm Hst) Logic.I Hq) as [Hver Hacc].
  set (payload := sig_Serialize (AggregateVotes v.(cid) Commit) ++ mc.(Bitmap)) in *.
  assert (constructQuorumSigAndBitmap c Commit = Ok payload) as E.
  { unfold constructQuorumSigAndBitmap. rewrite Ev, Ec. done. }
  assert (commit_payload c b = cpl) as Epl by (unfold commit_payload, chain_config; by rewrite Ech).
  assert (verifyLastCommitSig c payload b = Ok tt) as Eown.
  { unfold verifyLastCommitSig, payload. rewrite length_app, (sig_Serialize_length (SigLaws := slaws)). unfold BLSSignatureSizeInBytes.
    rewrite (proj2 (Nat.ltb_ge _ _)) by lia. rewrite take_app_le, take_ge by (rewrite (sig_Serialize_length (SigLaws := slaws)); lia).
    rewrite sig_roundtrip, Ec. cbn [deref mbind outcome_bind]. by rewrite Epl, Hver. }
  rewrite Epl. split; [by exists payload|]. intros key net Hnet.
  destruct (constructed_proof c MessageType_COMMITTED Commit key net ltac:(by right) Hnet) as [Enet _].
  by assert (Payload (nmFBFTMsg net) = payload) as -> by congruence.
Qed.
End round.
