(* ===== verification/FbftToy.v ===== *)
(** * A small committee

    Concrete instances of the foreign code - signatures that depend on what is
    signed, a chain that accepts every block - and a leader with a committee of
    three keys, on which the witnesses evaluate the protocol. *)
From S2P Require Import Prelude Dec Bls Mask SigBitmap Params Sharding Networks Shard Header CXReceipt Block VotePower Quorum QuorumSafety.
From S2P Require Import FbftLog FbftMessage Aggregate Decider ViewChange MsgSender LeaderRotation Consensus.
From S2P Require Import FbftView FbftCommit FbftHandlers FbftSafety.
Local Open Scope Z_scope.

(** A signature of [h] is the secret times a number made of [h]. *)
Definition hash_value (h : list Z) : Z := 1 + be_value h.
#[export] Instance HCheck : SigCheck ZBLS :=
  {| VerifyHash := fun s pk h => s =? pk * hash_value h; Keccak256 := fun bs => bs |}.
#[export] Instance HSigner : Signer ZBLS :=
  {| SecretKey := Z; SignHash := fun sk h => Some (sk * hash_value h); GetPublicKey := fun sk => sk |}.
#[export] Instance HSig_laws : SigLaws ZBLS HCheck HSigner.
Proof.
  split; [done| |].
  - intros s1 s2 k1 k2 h. cbn. rewrite !Z.eqb_eq. intros -> ->. ring.
  - intros sk h s [= <-]. apply Z.eqb_refl.
Qed.

Definition toy_header (num : Z) : Header := SetNumber (NewHeader (NewFactory MainnetChainConfig) 20000000) num.
Definition toy_block (num : Z) : Block (T := toy_txs) := mkBlock (toy_header num) [] [] [] [] [].
(** Block number 5 is what the network carries. *)
#[export] Instance toy_codec : BlockRLP (T := toy_txs) := {|
  registry_Encode := fun _ => [5];
  registry_Decode := fun _ => Some (ext2 (toy_header 5) [] [] [] [])
|}.
Definition toy_encoded : list Z := [5].

#[export] Instance toy_chain : ChainLib := {|
  Chain := unit;
  bc_Config := fun _ => MainnetChainConfig;
  bc_CurrentHeader := fun _ => Some (toy_header 4);
  bc_CurrentBlock := fun _ => toy_block 4;
  bc_GetHeaderByNumber := fun _ _ => None;
  bc_GetBlockByHash := fun _ _ => None;
  bc_ReadShardState := fun _ _ => Err "not found";
  bc_ReadCommitSig := fun _ _ => Err "not found";
  bc_WriteCommitSig := fun c _ _ => (c, Ok tt);
  bc_InsertChain := fun c _ _ => (c, Ok tt);
  bc_ValidateNewBlock := fun _ _ => Ok tt;
  bc_VerifyHeaderSignature := fun _ _ _ _ => Ok tt;
  bc_LeaderRotationMeta := fun _ => no_meta
|}.
#[export] Instance toy_lib : NodeLib := {| pb_Marshal := fun m => Ok [m.(msgType)]; pk_GetAddress := fun pk => pk |}.

(** Three keys that are their bytes; powers 0.4, 0.3 and 0.3. *)
Definition toy_wrapper (k : Z) : PublicKeyWrapper (L := ZBLS) := mkWrapper (L := ZBLS) k k.
Definition toy_members : list (PublicKeyWrapper (L := ZBLS)) := [toy_wrapper 11; toy_wrapper 12; toy_wrapper 13].
Definition toy_voters : gmap SerializedPublicKey AccommodateIntelchainVote :=
  list_to_map [(11, mkVote (mkPureStakedVote 1 11 0 0 0) true (4 * 10 ^ 17));
               (12, mkVote (mkPureStakedVote 2 12 0 0 0) true (3 * 10 ^ 17));
               (13, mkVote (mkPureStakedVote 3 13 0 0 0) true (3 * 10 ^ 17))].
Definition toy_roster : Roster := mkRoster toy_voters 0 [11; 12; 13] OneDec 0 0 3.
Definition toy_staked : stakedVoteWeight :=
  mkStaked (L := ZBLS) (UpdateParticipants newCIdentities toy_members []) toy_roster newVoteTally ∅.

Definition toy_key (k : Z) : PrivateKeyWrapper := mkPrivate (G := HSigner) k (toy_wrapper k).
Definition toy_consensus (own : list PrivateKeyWrapper) (log : FBFTLog) : Consensus :=
  mkConsensus own 0 false Mainnet 0 (inr toy_staked) log FBFTAnnounce (mkCurrent Normal 7 7) false (createTimeout 0) None None
    (Some (NewMask toy_members)) (Some (NewMask toy_members)) (Some (NewMask toy_members)) (head toy_members) 5 0 [] false
    newViewChange [] (NewMessageSender 27 []) 0 0 0 None true true tt [].

Lemma toy_keys_distinct : NoDup (map wBytes toy_members).
Proof. apply (bool_decide_unpack _). by vm_compute. Qed.

Lemma toy_committee : committee_roster toy_members toy_roster.
Proof.
  split.
  - split; [|by vm_compute]. intros k v Hk. apply elem_of_list_to_map_2 in Hk.
    repeat (apply elem_of_cons in Hk as [[= -> ->]|Hk]; [by vm_compute|]). by apply elem_of_nil in Hk.
  - intros k. cbn [map toy_members wBytes Voters toy_roster]. split.
    + intros [v Hk%elem_of_list_to_map_2].
      repeat (apply elem_of_cons in Hk as [[= -> ->]|Hk]; [rewrite !elem_of_cons; auto|]). by apply elem_of_nil in Hk.
    + rewrite !elem_of_cons. unfold toy_voters. intros [->|[->|[->|[]%elem_of_nil]]]; cbn [list_to_map foldr fst snd uncurry];
        repeat (rewrite lookup_insert_eq || rewrite lookup_insert_ne by done); by eexists.
Qed.

Lemma toy_decider_ok : committee_decider toy_members toy_roster toy_staked.
Proof.
  split; [|done|done]. apply decider_inv_phases. intros p. destruct p; apply phase_inv_empty; first [by left|by right].
Qed.

Lemma toy_genuine k : genuine toy_members (toy_wrapper k).
Proof.
  unfold genuine. cbn [map toy_members wBytes toy_wrapper]. rewrite !elem_of_cons. unfold toy_wrapper.
  intros [->|[->|[->|[]%elem_of_nil]]]; unfold toy_members, toy_wrapper; rewrite !elem_of_cons; auto.
Qed.
Lemma toy_own_keys own : (forall k, k ∈ own -> exists i, k = toy_key i) -> own_keys toy_members own.
Proof.
  intros Hown k Hk. destruct (Hown k Hk) as (i & ->). split; [apply toy_genuine|]. split; [done|]. intros msg. by eexists.
Qed.

(** The leader of the witnesses, with no block in its log. *)
Lemma toy_member_node own log :
  (forall b', GetBlockByHash log (Block_Hash (toy_block 5)) = Some b' -> commit_payload_on tt b' = commit_payload_on tt (toy_block 5)) ->
  member_node toy_members toy_roster own (toy_block 5) tt (toy_consensus own log).
Proof.
  intros Hlog. split; [done|done| | | |done].
  - exists toy_staked. split; [done|apply toy_decider_ok].
  - exists (NewMask toy_members). split; [done|apply NewMask_mask_of].
  - exists (NewMask toy_members). split; [done|apply NewMask_mask_of].
Qed.
Lemma toy_codec_ok eb : to_ext (toy_block 5) = Ok eb -> registry_Decode (registry_Encode eb) = Some eb.
Proof. intros E. by apply Ok_inj in E as <-. Qed.

(** A leader with some of the keys announces block 5; votes of the others. *)
Definition toy_start (own : list PrivateKeyWrapper) (log : FBFTLog) : Consensus :=
  fst (announce (toy_block 5) (fst (resetState (toy_consensus own log)))).
Definition toy_vote (typ sender hash : Z) (signed : list Z) : Message :=
  mkMessage ServiceType_CONSENSUS typ [] (Message_Consensus
    (mkConsensusRequest 7 5 0 (be_bytes 32 hash) [] (Bytes sender) (sig_Serialize (BLSLib := ZBLS) (sender * hash_value signed)) [])).
Definition toy_handle (msg : Message) (c : Consensus) : Consensus :=
  fst (HandleMessageUpdate (SR := toy_rlp) (fun _ => inr []) (NewFixedSchedule sample_instance) msg 0 c).

Definition toy_hash : Z := Block_Hash (toy_block 5).
Definition toy_prepared : Consensus :=
  toy_handle (toy_vote MessageType_PREPARE 12 toy_hash (be_bytes 32 toy_hash)) (toy_start [toy_key 11] NewFBFTLog).
Definition toy_committed : Consensus :=
  toy_handle (toy_vote MessageType_COMMIT 12 toy_hash (commit_payload_on tt (toy_block 5))) toy_prepared.

Lemma parse_toy_key k : key_ok k -> parse_key (Bytes k) = Ok (toy_wrapper k).
Proof.
  intros Hk. assert (length (Bytes k) = 48%nat) as Hl by apply be_bytes_length.
  assert (be_value (Bytes k) = k) as Ev.
  { unfold Bytes. rewrite be_bytes_value. change (Z.of_nat PublicKeySizeInBytes) with 48. by apply Z.mod_small. }
  unfold parse_key, deserialize_key, toy_wrapper, key_bytes, copy_into. cbn [pk_Deserialize ZBLS]. unfold PublicKeySizeInBytes.
  destruct (Bytes k) as [|x bs]; [done|]. rewrite decide_True by done. cbn [mbind outcome_bind].
  by rewrite Hl, Nat.sub_diag, app_nil_r, take_ge, Ev by (by rewrite Hl).
Qed.

Lemma toy_round_msg strict c typ sender signed :
  is_type (toy_vote typ sender toy_hash signed) from_validator = true -> key_ok sender ->
  round_msg toy_members (toy_block 5) strict c (toy_vote typ sender toy_hash signed).
Proof.
  intros Ht Hk. split; [done|]. intros f Hf.
  assert (parse_message c (toy_vote typ sender toy_hash signed) = parseFBFTMessage c.(multiSigBitmap) (toy_vote typ sender toy_hash signed)) as E.
  { unfold parse_message. unfold is_type, from_validator in Ht. cbn [existsb] in Ht. rewrite orb_false_r, orb_true_iff, !Z.eqb_eq in Ht.
    by destruct Ht as [->| ->]. }
  rewrite E in Hf. clear E. unfold parseFBFTMessage in Hf. cbn [GetConsensus msgRequest nilable mbind outcome_bind toy_vote crSenderPubkey] in Hf.
  pose proof (parse_toy_key sender Hk) as E. destruct (Bytes sender) as [|x bs]; [done|].
  rewrite E in Hf. cbn [mbind outcome_bind] in Hf. apply Ok_inj in Hf as <-. split.
  - intros w ->%list_elem_of_singleton. apply toy_genuine.
  - intros _ _. cbn [BlockHash crBlockHash]. change (be_value (copy_into 32 (be_bytes 32 toy_hash)) = toy_hash). by vm_compute.
Qed.

Lemma toy_handle_step strict c msg : round_msg toy_members (toy_block 5) strict c msg ->
  round_step (SR := toy_rlp) (fun _ => inr []) (NewFixedSchedule sample_instance) toy_members (toy_block 5) strict c (toy_handle msg c).
Proof. intros Hm. unfold toy_handle. by apply step_message. Qed.

Lemma toy_steps strict c : rtc (round_step (SR := toy_rlp) (fun _ => inr []) (NewFixedSchedule sample_instance) toy_members (toy_block 5) strict)
  c (toy_handle (toy_vote MessageType_COMMIT 12 toy_hash (commit_payload_on tt (toy_block 5)))
       (toy_handle (toy_vote MessageType_PREPARE 12 toy_hash (be_bytes 32 toy_hash)) c)).
Proof.
  eapply rtc_l; [|apply rtc_once]; apply toy_handle_step; (apply toy_round_msg; [done|by unfold key_ok]).
Qed.

Lemma toy_reachable strict : round_reachable (SR := toy_rlp) (fun _ => inr []) (NewFixedSchedule sample_instance)
  toy_members toy_roster [toy_key 11] (toy_block 5) tt strict toy_committed.
Proof.
  exists (toy_consensus [toy_key 11] NewFBFTLog), [5]. split; [|split; [done|]].
  { apply toy_member_node. intros b'. unfold GetBlockByHash, NewFBFTLog. cbn [blocks]. by rewrite lookup_empty. }
  unfold toy_committed, toy_prepared, toy_start. apply toy_steps.
Qed.

Lemma toy_own : own_keys toy_members [toy_key 11].
Proof. apply toy_own_keys. intros k ->%list_elem_of_singleton. by eexists. Qed.

Lemma PREPARED_accepted_witness : exists payload, constructQuorumSigAndBitmap toy_committed Prepare = Ok payload /\
  proof_accepted toy_members toy_roster payload (be_bytes 32 toy_hash).
Proof.
  refine (proj1 (PREPARED_accepted (SR := toy_rlp) (fun _ => inr []) (NewFixedSchedule sample_instance) ZBLS_laws HSig_laws toy_members
    toy_keys_distinct toy_roster toy_committee [toy_key 11] toy_own (toy_block 5) tt false toy_codec_ok toy_committed
    (toy_reachable false) _)).
  by vm_compute.
Defined.

Lemma COMMITTED_accepted_witness : exists payload, constructQuorumSigAndBitmap toy_committed Commit = Ok payload /\
  verifyLastCommitSig toy_committed payload (toy_block 5) = Ok tt /\
  proof_accepted toy_members toy_roster payload (commit_payload toy_committed (toy_block 5)).
Proof.
  refine (proj1 (COMMITTED_accepted (SR := toy_rlp) (fun _ => inr []) (NewFixedSchedule sample_instance) ZBLS_laws HSig_laws toy_members
    toy_keys_distinct toy_roster toy_committee [toy_key 11] toy_own (toy_block 5) tt true toy_codec_ok toy_committed eq_refl
    (toy_reachable true) _)).
  by vm_compute.
Defined.

(** One vote for another block spoils the leader's commit.  The second member
    signs block 4, which the log still has, and sends it as its COMMIT of the
    round: [onCommit] takes it, the tally reaches the quorum, and the aggregate
    does not verify, so the leader neither commits early nor at the end of the
    grace period. *)
Definition toy_spoiled : Consensus :=
  toy_handle (toy_vote MessageType_COMMIT 12 (Block_Hash (toy_block 4)) (commit_payload_on tt (toy_block 4)))
    (toy_handle (toy_vote MessageType_PREPARE 12 toy_hash (be_bytes 32 toy_hash))
       (toy_start [toy_key 11] (AddBlock NewFBFTLog (toy_block 4)))).
Lemma onCommit_foreign_block :
  d_IsQuorumAchieved toy_spoiled.(decider) Commit = true /\
  (let! payload := constructQuorumSigAndBitmap toy_spoiled Commit in verifyLastCommitSig toy_spoiled payload (toy_block 5)) =
    Err "Failed to verify the multi signature for last commit sig".
Proof. split; by vm_compute. Qed.
