(* ===== verification/AccessList.v ===== *)
(** * Access lists and transient storage (core/state: access_list.go, transient_storage.go)

    An access list keeps, for each address, the position of its set of slots or
    -1 when no slot was added.  Additions return what changed and deletions undo
    additions in the opposite order: [al_undo_address] and [al_undo_slot] say
    that they restore the very same list, in every list that additions can build
    ([al_wf]). *)
From S2P Require Import Prelude Bls.
Local Open Scope Z_scope.

Record accessList := mkAccessList {
  addresses : gmap Address Z;
  slots : list (gset Z)
}.

Definition newAccessList : accessList := mkAccessList ∅ [].

Definition ContainsAddress (al : accessList) (address : Address) : bool :=
  bool_decide (is_Some (al.(addresses) !! address)).

(** A position outside the slice panics. *)
Definition slots_at (al : accessList) (idx : Z) : outcome (gset Z) :=
  if idx <? 0 then Panic "index out of range"
  else match al.(slots) !! Z.to_nat idx with
       | Some m => Ok m
       | None => Panic "index out of range"
       end.

Definition Contains (al : accessList) (address : Address) (slot : Z) : outcome (bool * bool) :=
  match al.(addresses) !! address with
  | None => Ok (false, false)
  | Some idx =>
      if idx =? -1 then Ok (true, false)
      else let! slotmap := slots_at al idx in Ok (true, bool_decide (slot ∈ slotmap))
  end.

Definition Copy (a : accessList) : accessList := mkAccessList a.(addresses) a.(slots).

Definition AddAddress (address : Address) (al : accessList) : accessList * bool :=
  match al.(addresses) !! address with
  | Some _ => (al, false)
  | None => (mkAccessList (<[address := -1]> al.(addresses)) al.(slots), true)
  end.

(** The first slot of an address. *)
Definition add_slotmap (address : Address) (slot : Z) (al : accessList) : accessList :=
  mkAccessList (<[address := Z.of_nat (length al.(slots))]> al.(addresses)) (al.(slots) ++ [{[slot]}]).

Definition AddSlot (address : Address) (slot : Z) (al : accessList) : outcome (accessList * (bool * bool)) :=
  match al.(addresses) !! address with
  | None => Ok (add_slotmap address slot al, (true, true))
  | Some idx =>
      if idx =? -1 then Ok (add_slotmap address slot al, (false, true))
      else
        let! slotmap := slots_at al idx in
        if bool_decide (slot ∈ slotmap) then Ok (al, (false, false))
        else Ok (mkAccessList al.(addresses) (<[Z.to_nat idx := slotmap ∪ {[slot]}]> al.(slots)), (false, true))
  end.

Definition DeleteSlot (address : Address) (slot : Z) (al : accessList) : outcome accessList :=
  match al.(addresses) !! address with
  | None => Panic "reverting slot change, address not present in list"
  | Some idx =>
      let! slotmap := slots_at al idx in
      let slotmap := slotmap ∖ {[slot]} in
      if bool_decide (slotmap = ∅)
      then Ok (mkAccessList (<[address := -1]> al.(addresses)) (take (Z.to_nat idx) al.(slots)))
      else Ok (mkAccessList al.(addresses) (<[Z.to_nat idx := slotmap]> al.(slots)))
  end.

Definition DeleteAddress (address : Address) (al : accessList) : accessList :=
  mkAccessList (delete address al.(addresses)) al.(slots).

(** ** What additions build *)

Record al_wf (al : accessList) : Prop := {
  al_range a idx : al.(addresses) !! a = Some idx -> -1 <= idx < Z.of_nat (length al.(slots));
  al_nonempty i m : al.(slots) !! i = Some m -> m <> ∅
}.

Lemma newAccessList_wf : al_wf newAccessList.
Proof. split; cbn; intros ?? H; [by rewrite lookup_empty in H|done]. Qed.

Lemma slots_at_Ok al a idx : al_wf al -> al.(addresses) !! a = Some idx -> idx <> -1 ->
  0 <= idx /\ exists m, slots_at al idx = Ok m /\ al.(slots) !! Z.to_nat idx = Some m /\ m <> ∅.
Proof.
  intros [Hr Hn] Ha Hi. specialize (Hr _ _ Ha). split; [lia|].
  destruct (al.(slots) !! Z.to_nat idx) as [m|] eqn:E.
  - exists m. split_and!; [|done|by eapply Hn]. unfold slots_at. destruct (Z.ltb_spec idx 0); [lia|]. by rewrite E.
  - apply lookup_ge_None in E. lia.
Qed.

Lemma AddAddress_wf a al : al_wf al -> al_wf (fst (AddAddress a al)).
Proof.
  intros [Hr Hn]. unfold AddAddress. destruct (al.(addresses) !! a) eqn:E; [done|]. split; [|done].
  cbn. intros b idx [[<- <-]|[Hb Hi]]%lookup_insert_Some; [lia|by eapply Hr].
Qed.

Lemma add_slotmap_wf a s al : al_wf al -> al_wf (add_slotmap a s al).
Proof.
  intros [Hr Hn]. split; cbn; intros b idx.
  - rewrite length_app. cbn. intros [[<- <-]|[Hb Hi]]%lookup_insert_Some; [lia|]. apply Hr in Hi. lia.
  - intros Hm. apply lookup_app_Some in Hm as [Hm|[_ Hm]]; [by eapply Hn|].
    apply list_lookup_singleton_Some in Hm as [_ <-]. set_solver.
Qed.

Lemma AddSlot_total a s al : al_wf al -> exists al' r, AddSlot a s al = Ok (al', r) /\ al_wf al'.
Proof.
  intros Hwf. unfold AddSlot. destruct (al.(addresses) !! a) as [idx|] eqn:E.
  2:{ eexists _, _. split; [done|]. by apply add_slotmap_wf. }
  destruct (Z.eqb_spec idx (-1)) as [->|Hi]. { eexists _, _. split; [done|]. by apply add_slotmap_wf. }
  destruct (slots_at_Ok al a idx Hwf E Hi) as (H0 & m & -> & Hm & Hne). rewrite bind_ret.
  case_bool_decide; [by eexists _, _|]. eexists _, _. split; [done|]. destruct Hwf as [Hr Hn]. split; cbn.
  - rewrite length_insert. apply Hr.
  - intros i m' Hi'. apply list_lookup_insert_Some in Hi' as [(<- & <- & _)|[_ Hi']]; [set_solver|by eapply Hn].
Qed.

Lemma Contains_total a s al : al_wf al -> exists r, Contains al a s = Ok r.
Proof.
  intros Hwf. unfold Contains. destruct (al.(addresses) !! a) as [idx|] eqn:E; [|by eexists].
  destruct (Z.eqb_spec idx (-1)) as [->|Hi]; [by eexists|].
  destruct (slots_at_Ok al a idx Hwf E Hi) as (H0 & m & -> & Hm & Hne). by eexists.
Qed.

(** ** Undoing *)

Lemma al_undo_address a al : snd (AddAddress a al) = true -> DeleteAddress a (fst (AddAddress a al)) = al.
Proof.
  unfold AddAddress, DeleteAddress. destruct al as [A S]. cbn. destruct (A !! a) eqn:E; [done|]. intros _. cbn.
  by rewrite delete_insert_id.
Qed.

Lemma add_slotmap_undo a s al :
  DeleteSlot a s (add_slotmap a s al) = Ok (mkAccessList (<[a := -1]> al.(addresses)) al.(slots)).
Proof.
  unfold DeleteSlot, add_slotmap, slots_at. cbn. rewrite lookup_insert_eq.
  destruct (Z.ltb_spec (Z.of_nat (length (slots al))) 0); [lia|].
  rewrite Nat2Z.id, lookup_app_r, Nat.sub_diag by lia. cbn.
  rewrite bool_decide_true by set_solver. by rewrite take_app_length, insert_insert_eq.
Qed.

(** What undoing the changes that [AddSlot] reports, last first, gives. *)
Lemma al_undo_slot a s al al' ra rs : al_wf al -> AddSlot a s al = Ok (al', (ra, rs)) ->
  (if rs then DeleteSlot a s al' else Ok al') =
  Ok (if ra then mkAccessList (<[a := -1]> al.(addresses)) al.(slots) else al) /\
  (ra = true -> rs = true /\ al.(addresses) !! a = None).
Proof.
  intros Hwf. unfold AddSlot. destruct (al.(addresses) !! a) as [idx|] eqn:E.
  2:{ intros [= <- <- <-]. by rewrite add_slotmap_undo. }
  destruct (Z.eqb_spec idx (-1)) as [->|Hi].
  { intros [= <- <- <-]. rewrite add_slotmap_undo. destruct al as [A S]. cbn in *. by rewrite insert_id. }
  destruct (slots_at_Ok al a idx Hwf E Hi) as (H0 & m & -> & Hm & Hne). rewrite bind_ret.
  case_bool_decide as Hs; [by intros [= <- <- <-]|]. intros [= <- <- <-]. split; [|done].
  unfold DeleteSlot, slots_at. cbn. rewrite E. destruct (Z.ltb_spec idx 0); [lia|].
  pose proof (lookup_lt_Some _ _ _ Hm) as Hlt.
  rewrite list_lookup_insert_eq by done. cbn.
  replace ((m ∪ {[s]}) ∖ {[s]}) with m by set_solver.
  rewrite bool_decide_false by done. rewrite list_insert_insert_eq, list_insert_id by done. by destruct al.
Qed.

(** ** Transient storage *)

Notation Storage := (gmap Z Z).
Notation transientStorage := (gmap Address Storage).

Definition tsSet (t : transientStorage) (addr : Address) (key value : Z) : transientStorage :=
  <[addr := <[key := value]> (t !!! addr)]> t.
Definition tsGet (t : transientStorage) (addr : Address) (key : Z) : Z :=
  match t !! addr with None => 0 | Some val => match val !! key with Some v => v | None => 0 end end.

Lemma tsGet_Set t a k v b j : tsGet (tsSet t a k v) b j = if decide (a = b /\ k = j) then v else tsGet t b j.
Proof.
  unfold tsGet, tsSet. destruct (decide (a = b)) as [->|Hab].
  - rewrite lookup_insert_eq, lookup_total_alt. destruct (decide (k = j)) as [->|Hkj].
    + by rewrite lookup_insert_eq, decide_True.
    + rewrite decide_False by naive_solver. rewrite lookup_insert_ne by done. by destruct (t !! b).
  - rewrite decide_False by naive_solver. by rewrite lookup_insert_ne.
Qed.
