(* ===== verification/StateObject.v ===== *)
(** * State objects and the state database (core/state: state_object.go, database.go, the types of
      statedb.go and journal.go; core/rawdb: accessors_state.go, schema.go)

    A state database caches accounts ([Object]) read from a trie, collects the
    changes of a transaction in a journal, and writes them back.  An [*Object]
    is the object of its address in [stateObjects]: a method that only changes
    the object is a function on [Object]; one that also reads or writes the
    database is a value of [SM (Object * DB)], and [on_object] runs it on the
    object of an address.

    Tries, their node database, the snapshot tree and RLP are foreign
    ([StateLib]); contract code is read from the key-value store [disk] with
    rawdb's keys.  The database's code caches, the prefetcher, metrics and
    logging are left out: what they hold is what a read would give.  Errors are
    named by the start of their text. *)
From S2P Require Import Prelude Dec Bls Delegation Validator Header CXReceipt Receipt AccessList.
Local Open Scope Z_scope.

(** go-ethereum's [types.StateAccount]: a nil balance or code hash is [None]. *)
Record StateAccount := mkStateAccount {
  saNonce : Z; saBalance : option Z; saRoot : Z; saCodeHash : option Z
}.
(** The same once [newObject] has filled the gaps. *)
Record Account := mkAccount { Nonce : Z; Balance : Z; Root : Z; CodeHash : Z }.
#[export] Instance Account_eq_dec : EqDecision Account.
Proof. solve_decision. Defined.
Definition to_StateAccount (a : Account) : StateAccount :=
  mkStateAccount a.(Nonce) (Some a.(Balance)) a.(Root) (Some a.(CodeHash)).

Notation Disk := (gmap (list Z) (list Z)).

Class StateLib := {
  Trie : Type; TrieDB : Type; NodeSet : Type; MergedNodeSet : Type; Snap : Type; SnapTree : Type;
  NewStateTrie : TrieDB -> Z -> outcome Trie;                      (* trie.StateTrieID *)
  NewStorageTrie : TrieDB -> Z -> Z -> Z -> outcome Trie;          (* trie.StorageTrieID *)
  TryGet : Trie -> Z -> outcome (list Z);
  TryGetAccount : Trie -> Address -> outcome (option StateAccount);
  TryUpdate : Trie -> Z -> list Z -> Trie * option string;
  TryUpdateAccount : Trie -> Address -> StateAccount -> Trie * option string;
  TryDelete : Trie -> Z -> Trie * option string;
  TryDeleteAccount : Trie -> Address -> Trie * option string;
  Trie_Hash : Trie -> Z;
  Trie_Commit : Trie -> bool -> Trie * (Z * option NodeSet);
  NewMergedNodeSet : MergedNodeSet;
  Merge : MergedNodeSet -> NodeSet -> MergedNodeSet * option string;
  TrieDB_Update : TrieDB -> MergedNodeSet -> TrieDB * option string;
  tree_Snapshot : SnapTree -> Z -> option Snap;
  tree_Update : SnapTree -> Z -> Z -> gset Z -> gmap Z (list Z) -> gmap Z (gmap Z (list Z)) -> SnapTree * option string;
  tree_Cap : SnapTree -> Z -> Z -> SnapTree * option string;
  snap_Root : Snap -> Z;
  snap_Account : Snap -> Z -> outcome (option StateAccount);
  snap_Storage : Snap -> Z -> Z -> outcome (list Z);
  SlimAccountRLP : Account -> list Z;
  rlp_Split : list Z -> outcome (list Z);                          (* the content of the first value *)
  rlp_slot : Z -> list Z                                           (* of [common.TrimLeftZeroes(value[:])] *)
}.

(** [common.BytesToHash], [Hash.SetBytes]: the last 32 bytes. *)
Definition BytesToHash (b : list Z) : Z := be_value (drop (length b - HashLength) b).

(** ** rawdb: code by hash *)

Definition CodePrefix : list Z := string_bytes "c".
Definition ValidatorCodePrefix : list Z := string_bytes "vc".
Definition codeKey (hash : Z) : list Z := CodePrefix ++ hash_bytes hash.
Definition validatorCodeKey (hash : Z) : list Z := ValidatorCodePrefix ++ hash_bytes hash.

(** [db.Get] gives nil for a key that is not there. *)
Definition disk_Get (db : Disk) (key : list Z) : list Z := match db !! key with Some v => v | None => [] end.
Definition ReadCodeWithPrefix (db : Disk) (hash : Z) : list Z := disk_Get db (codeKey hash).
Definition ReadCode (db : Disk) (hash : Z) : list Z :=
  match ReadCodeWithPrefix db hash with [] => disk_Get db (hash_bytes hash) | data => data end.
Definition ReadValidatorCodeWithPrefix (db : Disk) (hash : Z) : list Z := disk_Get db (validatorCodeKey hash).
Definition ReadValidatorCode (db : Disk) (hash : Z) : list Z :=
  match ReadValidatorCodeWithPrefix db hash with [] => disk_Get db (hash_bytes hash) | data => data end.
Definition HasCodeWithPrefix (db : Disk) (hash : Z) : bool := bool_decide (is_Some (db !! codeKey hash)).
Definition HasCode (db : Disk) (hash : Z) : bool :=
  HasCodeWithPrefix db hash || bool_decide (is_Some (db !! hash_bytes hash)).
Definition HasValidatorCodeWithPrefix (db : Disk) (hash : Z) : bool := bool_decide (is_Some (db !! validatorCodeKey hash)).
Definition HasValidatorCode (db : Disk) (hash : Z) : bool :=
  HasValidatorCodeWithPrefix db hash || bool_decide (is_Some (db !! hash_bytes hash)).
Definition WriteCode (hash : Z) (code : list Z) (db : Disk) : Disk := <[codeKey hash := code]> db.
Definition WriteValidatorCode (hash : Z) (code : list Z) (db : Disk) : Disk := <[validatorCodeKey hash := code]> db.
Definition DeleteCode (hash : Z) (db : Disk) : Disk := delete (codeKey hash) db.
Definition DeleteValidatorCode (hash : Z) (db : Disk) : Disk := delete (validatorCodeKey hash) db.

(** ** database.go: the readers of [cachingDB] *)

Definition found (code : list Z) : outcome (list Z) := match code with [] => Err "not found" | _ => Ok code end.
Definition ContractCode (db : Disk) (codeHash : Z) : outcome (list Z) := found (ReadCode db codeHash).
Definition ContractCodeWithPrefix (db : Disk) (codeHash : Z) : outcome (list Z) := found (ReadCodeWithPrefix db codeHash).
Definition ValidatorCode (db : Disk) (codeHash : Z) : outcome (list Z) := found (ReadValidatorCode db codeHash).
Definition ValidatorCodeWithPrefix (db : Disk) (codeHash : Z) : outcome (list Z) :=
  found (ReadValidatorCodeWithPrefix db codeHash).
Definition ContractCodeSize (db : Disk) (codeHash : Z) : outcome Z :=
  let! code := ContractCode db codeHash in Ok (Z.of_nat (length code)).
Definition ValidatorCodeSize (db : Disk) (codeHash : Z) : outcome Z :=
  let! code := ValidatorCode db codeHash in Ok (Z.of_nat (length code)).

Section state.
Context {H : Hashes} {SL : StateLib}.

(** ** The types *)

Definition emptyRoot : Z := 0x56e81f171bcc55a6ff8345e692c0f86e5b48e01b996cadc001622fb5e363b421.
Definition EmptyRootHash : Z := emptyRoot.
Definition EmptyCodeHash : Z := Keccak256Hash [].
Definition ripemd : Address := 3.

Record Object := mkObject {
  address : Address;
  addrHash : Z;
  data : Account;
  obj_dbErr : option string;
  obj_trie : option Trie;
  code : option (list Z);
  originStorage : Storage;
  pendingStorage : Storage;
  dirtyStorage : Storage;
  fakeStorage : option Storage;
  validatorWrapper : bool;
  dirtyCode : bool;
  suicided : bool;
  deleted : bool
}.
Definition with_data (x : Account) (o : Object) : Object :=
    mkObject o.(address) o.(addrHash) x o.(obj_dbErr) o.(obj_trie) o.(code) o.(originStorage) o.(pendingStorage)
    o.(dirtyStorage) o.(fakeStorage) o.(validatorWrapper) o.(dirtyCode) o.(suicided) o.(deleted).
Definition with_obj_dbErr (x : option string) (o : Object) : Object :=
    mkObject o.(address) o.(addrHash) o.(data) x o.(obj_trie) o.(code) o.(originStorage) o.(pendingStorage)
    o.(dirtyStorage) o.(fakeStorage) o.(validatorWrapper) o.(dirtyCode) o.(suicided) o.(deleted).
Definition with_obj_trie (x : option Trie) (o : Object) : Object :=
    mkObject o.(address) o.(addrHash) o.(data) o.(obj_dbErr) x o.(code) o.(originStorage) o.(pendingStorage)
    o.(dirtyStorage) o.(fakeStorage) o.(validatorWrapper) o.(dirtyCode) o.(suicided) o.(deleted).
Definition with_code (x : option (list Z)) (o : Object) : Object :=
    mkObject o.(address) o.(addrHash) o.(data) o.(obj_dbErr) o.(obj_trie) x o.(originStorage) o.(pendingStorage)
    o.(dirtyStorage) o.(fakeStorage) o.(validatorWrapper) o.(dirtyCode) o.(suicided) o.(deleted).
Definition with_originStorage (x : Storage) (o : Object) : Object :=
    mkObject o.(address) o.(addrHash) o.(data) o.(obj_dbErr) o.(obj_trie) o.(code) x o.(pendingStorage)
    o.(dirtyStorage) o.(fakeStorage) o.(validatorWrapper) o.(dirtyCode) o.(suicided) o.(deleted).
Definition with_pendingStorage (x : Storage) (o : Object) : Object :=
    mkObject o.(address) o.(addrHash) o.(data) o.(obj_dbErr) o.(obj_trie) o.(code) o.(originStorage) x
    o.(dirtyStorage) o.(fakeStorage) o.(validatorWrapper) o.(dirtyCode) o.(suicided) o.(deleted).
Definition with_dirtyStorage (x : Storage) (o : Object) : Object :=
    mkObject o.(address) o.(addrHash) o.(data) o.(obj_dbErr) o.(obj_trie) o.(code) o.(originStorage)
    o.(pendingStorage) x o.(fakeStorage) o.(validatorWrapper) o.(dirtyCode) o.(suicided) o.(deleted).
Definition with_fakeStorage (x : option Storage) (o : Object) : Object :=
    mkObject o.(address) o.(addrHash) o.(data) o.(obj_dbErr) o.(obj_trie) o.(code) o.(originStorage)
    o.(pendingStorage) o.(dirtyStorage) x o.(validatorWrapper) o.(dirtyCode) o.(suicided) o.(deleted).
Definition with_validatorWrapper (x : bool) (o : Object) : Object :=
    mkObject o.(address) o.(addrHash) o.(data) o.(obj_dbErr) o.(obj_trie) o.(code) o.(originStorage)
    o.(pendingStorage) o.(dirtyStorage) o.(fakeStorage) x o.(dirtyCode) o.(suicided) o.(deleted).
Definition with_dirtyCode (x : bool) (o : Object) : Object :=
    mkObject o.(address) o.(addrHash) o.(data) o.(obj_dbErr) o.(obj_trie) o.(code) o.(originStorage)
    o.(pendingStorage) o.(dirtyStorage) o.(fakeStorage) o.(validatorWrapper) x o.(suicided) o.(deleted).
Definition with_suicided (x : bool) (o : Object) : Object :=
    mkObject o.(address) o.(addrHash) o.(data) o.(obj_dbErr) o.(obj_trie) o.(code) o.(originStorage)
    o.(pendingStorage) o.(dirtyStorage) o.(fakeStorage) o.(validatorWrapper) o.(dirtyCode) x o.(deleted).
Definition with_deleted (x : bool) (o : Object) : Object :=
    mkObject o.(address) o.(addrHash) o.(data) o.(obj_dbErr) o.(obj_trie) o.(code) o.(originStorage)
    o.(pendingStorage) o.(dirtyStorage) o.(fakeStorage) o.(validatorWrapper) o.(dirtyCode) o.(suicided) x.

Inductive journalEntry :=
| createObjectChange (account : Address)
| resetObjectChange (prev : Object) (prevdestruct : bool)
| suicideChange (account : Address) (prev : bool) (prevbalance : Z)
| balanceChange (account : Address) (prev : Z)
| nonceChange (account : Address) (prev : Z)
| storageChange (account : Address) (key prevalue : Z)
| codeChange (account : Address) (prevcode : option (list Z)) (prevhash : Z)
| validatorWrapperChange (account : Address) (prev : option ValidatorWrapper)
| refundChange (prev : Z)
| addLogChange (txhash : Z)
| addPreimageChange (hash : Z)
| touchChange (account : Address)
| accessListAddAccountChange (account : Address)
| accessListAddSlotChange (account : Address) (slot : Z)
| transientStorageChange (account : Address) (key prevalue : Z).

Definition dirtied (e : journalEntry) : option Address :=
  match e with
  | validatorWrapperChange a _ | createObjectChange a | suicideChange a _ _ | touchChange a | balanceChange a _
  | nonceChange a _ | codeChange a _ _ | storageChange a _ _ => Some a
  | resetObjectChange _ _ | transientStorageChange _ _ _ | refundChange _ | addLogChange _ | addPreimageChange _
  | accessListAddAccountChange _ | accessListAddSlotChange _ _ => None
  end.

Record Journal := mkJournal { entries : list journalEntry; dirties : gmap Address Z }.
Definition newJournal : Journal := mkJournal [] ∅.
Definition j_dirty (addr : Address) (j : Journal) : Journal :=
  mkJournal j.(entries) (<[addr := default 0 (j.(dirties) !! addr) + 1]> j.(dirties)).
Definition j_append (entry : journalEntry) (j : Journal) : Journal :=
  let j := mkJournal (j.(entries) ++ [entry]) j.(dirties) in
  match dirtied entry with Some addr => j_dirty addr j | None => j end.
Definition j_length (j : Journal) : nat := length j.(entries).

Record revision := mkRevision { rev_id : Z; journalIndex : nat }.

Record DB := mkDB {
  disk : Disk;
  triedb : TrieDB;
  trie : Trie;
  originalRoot : Z;
  snaps : option SnapTree;
  snap : option Snap;
  snapAccounts : gmap Z (list Z);
  snapStorage : gmap Z (gmap Z (list Z));
  stateObjects : gmap Address Object;
  stateObjectsPending : gset Address;
  stateObjectsDirty : gset Address;
  stateObjectsDestruct : gset Address;
  stateValidators : gmap Address (option ValidatorWrapper);
  dbErr : option string;
  refund : Z;
  thash : Z;
  bhash : Z;
  ethTxHash : Z;
  txIndex : Z;
  logs : gmap Z (list Log);
  logSize : Z;
  preimages : gmap Z (list Z);
  acl : accessList;
  transient : transientStorage;
  journal : Journal;
  validRevisions : list revision;
  nextRevisionId : Z;
  AccountUpdated : Z;
  StorageUpdated : Z;
  AccountDeleted : Z;
  StorageDeleted : Z
}.
Definition set_disk (x : Disk) (d : DB) : DB :=
    mkDB x d.(triedb) d.(trie) d.(originalRoot) d.(snaps) d.(snap) d.(snapAccounts) d.(snapStorage)
    d.(stateObjects) d.(stateObjectsPending) d.(stateObjectsDirty) d.(stateObjectsDestruct) d.(stateValidators)
    d.(dbErr) d.(refund) d.(thash) d.(bhash) d.(ethTxHash) d.(txIndex) d.(logs) d.(logSize) d.(preimages) d.(acl)
    d.(transient) d.(journal) d.(validRevisions) d.(nextRevisionId) d.(AccountUpdated) d.(StorageUpdated)
    d.(AccountDeleted) d.(StorageDeleted).
Definition set_triedb (x : TrieDB) (d : DB) : DB :=
    mkDB d.(disk) x d.(trie) d.(originalRoot) d.(snaps) d.(snap) d.(snapAccounts) d.(snapStorage) d.(stateObjects)
    d.(stateObjectsPending) d.(stateObjectsDirty) d.(stateObjectsDestruct) d.(stateValidators) d.(dbErr)
    d.(refund) d.(thash) d.(bhash) d.(ethTxHash) d.(txIndex) d.(logs) d.(logSize) d.(preimages) d.(acl)
    d.(transient) d.(journal) d.(validRevisions) d.(nextRevisionId) d.(AccountUpdated) d.(StorageUpdated)
    d.(AccountDeleted) d.(StorageDeleted).
Definition set_trie (x : Trie) (d : DB) : DB :=
    mkDB d.(disk) d.(triedb) x d.(originalRoot) d.(snaps) d.(snap) d.(snapAccounts) d.(snapStorage)
    d.(stateObjects) d.(stateObjectsPending) d.(stateObjectsDirty) d.(stateObjectsDestruct) d.(stateValidators)
    d.(dbErr) d.(refund) d.(thash) d.(bhash) d.(ethTxHash) d.(txIndex) d.(logs) d.(logSize) d.(preimages) d.(acl)
    d.(transient) d.(journal) d.(validRevisions) d.(nextRevisionId) d.(AccountUpdated) d.(StorageUpdated)
    d.(AccountDeleted) d.(StorageDeleted).
Definition set_originalRoot (x : Z) (d : DB) : DB :=
    mkDB d.(disk) d.(triedb) d.(trie) x d.(snaps) d.(snap) d.(snapAccounts) d.(snapStorage) d.(stateObjects)
    d.(stateObjectsPending) d.(stateObjectsDirty) d.(stateObjectsDestruct) d.(stateValidators) d.(dbErr)
    d.(refund) d.(thash) d.(bhash) d.(ethTxHash) d.(txIndex) d.(logs) d.(logSize) d.(preimages) d.(acl)
    d.(transient) d.(journal) d.(validRevisions) d.(nextRevisionId) d.(AccountUpdated) d.(StorageUpdated)
    d.(AccountDeleted) d.(StorageDeleted).
Definition set_snaps (x : option SnapTree) (d : DB) : DB :=
    mkDB d.(disk) d.(triedb) d.(trie) d.(originalRoot) x d.(snap) d.(snapAccounts) d.(snapStorage)
    d.(stateObjects) d.(stateObjectsPending) d.(stateObjectsDirty) d.(stateObjectsDestruct) d.(stateValidators)
    d.(dbErr) d.(refund) d.(thash) d.(bhash) d.(ethTxHash) d.(txIndex) d.(logs) d.(logSize) d.(preimages) d.(acl)
    d.(transient) d.(journal) d.(validRevisions) d.(nextRevisionId) d.(AccountUpdated) d.(StorageUpdated)
    d.(AccountDeleted) d.(StorageDeleted).
Definition set_snap (x : option Snap) (d : DB) : DB :=
    mkDB d.(disk) d.(triedb) d.(trie) d.(originalRoot) d.(snaps) x d.(snapAccounts) d.(snapStorage)
    d.(stateObjects) d.(stateObjectsPending) d.(stateObjectsDirty) d.(stateObjectsDestruct) d.(stateValidators)
    d.(dbErr) d.(refund) d.(thash) d.(bhash) d.(ethTxHash) d.(txIndex) d.(logs) d.(logSize) d.(preimages) d.(acl)
    d.(transient) d.(journal) d.(validRevisions) d.(nextRevisionId) d.(AccountUpdated) d.(StorageUpdated)
    d.(AccountDeleted) d.(StorageDeleted).
Definition set_snapAccounts (x : gmap Z (list Z)) (d : DB) : DB :=
    mkDB d.(disk) d.(triedb) d.(trie) d.(originalRoot) d.(snaps) d.(snap) x d.(snapStorage) d.(stateObjects)
    d.(stateObjectsPending) d.(stateObjectsDirty) d.(stateObjectsDestruct) d.(stateValidators) d.(dbErr)
    d.(refund) d.(thash) d.(bhash) d.(ethTxHash) d.(txIndex) d.(logs) d.(logSize) d.(preimages) d.(acl)
    d.(transient) d.(journal) d.(validRevisions) d.(nextRevisionId) d.(AccountUpdated) d.(StorageUpdated)
    d.(AccountDeleted) d.(StorageDeleted).
Definition set_snapStorage (x : gmap Z (gmap Z (list Z))) (d : DB) : DB :=
    mkDB d.(disk) d.(triedb) d.(trie) d.(originalRoot) d.(snaps) d.(snap) d.(snapAccounts) x d.(stateObjects)
    d.(stateObjectsPending) d.(stateObjectsDirty) d.(stateObjectsDestruct) d.(stateValidators) d.(dbErr)
    d.(refund) d.(thash) d.(bhash) d.(ethTxHash) d.(txIndex) d.(logs) d.(logSize) d.(preimages) d.(acl)
    d.(transient) d.(journal) d.(validRevisions) d.(nextRevisionId) d.(AccountUpdated) d.(StorageUpdated)
    d.(AccountDeleted) d.(StorageDeleted).
Definition set_stateObjects (x : gmap Address Object) (d : DB) : DB :=
    mkDB d.(disk) d.(triedb) d.(trie) d.(originalRoot) d.(snaps) d.(snap) d.(snapAccounts) d.(snapStorage) x
    d.(stateObjectsPending) d.(stateObjectsDirty) d.(stateObjectsDestruct) d.(stateValidators) d.(dbErr)
    d.(refund) d.(thash) d.(bhash) d.(ethTxHash) d.(txIndex) d.(logs) d.(logSize) d.(preimages) d.(acl)
    d.(transient) d.(journal) d.(validRevisions) d.(nextRevisionId) d.(AccountUpdated) d.(StorageUpdated)
    d.(AccountDeleted) d.(StorageDeleted).
Definition set_stateObjectsPending (x : gset Address) (d : DB) : DB :=
    mkDB d.(disk) d.(triedb) d.(trie) d.(originalRoot) d.(snaps) d.(snap) d.(snapAccounts) d.(snapStorage)
    d.(stateObjects) x d.(stateObjectsDirty) d.(stateObjectsDestruct) d.(stateValidators) d.(dbErr) d.(refund)
    d.(thash) d.(bhash) d.(ethTxHash) d.(txIndex) d.(logs) d.(logSize) d.(preimages) d.(acl) d.(transient)
    d.(journal) d.(validRevisions) d.(nextRevisionId) d.(AccountUpdated) d.(StorageUpdated) d.(AccountDeleted)
    d.(StorageDeleted).
Definition set_stateObjectsDirty (x : gset Address) (d : DB) : DB :=
    mkDB d.(disk) d.(triedb) d.(trie) d.(originalRoot) d.(snaps) d.(snap) d.(snapAccounts) d.(snapStorage)
    d.(stateObjects) d.(stateObjectsPending) x d.(stateObjectsDestruct) d.(stateValidators) d.(dbErr) d.(refund)
    d.(thash) d.(bhash) d.(ethTxHash) d.(txIndex) d.(logs) d.(logSize) d.(preimages) d.(acl) d.(transient)
    d.(journal) d.(validRevisions) d.(nextRevisionId) d.(AccountUpdated) d.(StorageUpdated) d.(AccountDeleted)
    d.(StorageDeleted).
Definition set_stateObjectsDestruct (x : gset Address) (d : DB) : DB :=
    mkDB d.(disk) d.(triedb) d.(trie) d.(originalRoot) d.(snaps) d.(snap) d.(snapAccounts) d.(snapStorage)
    d.(stateObjects) d.(stateObjectsPending) d.(stateObjectsDirty) x d.(stateValidators) d.(dbErr) d.(refund)
    d.(thash) d.(bhash) d.(ethTxHash) d.(txIndex) d.(logs) d.(logSize) d.(preimages) d.(acl) d.(transient)
    d.(journal) d.(validRevisions) d.(nextRevisionId) d.(AccountUpdated) d.(StorageUpdated) d.(AccountDeleted)
    d.(StorageDeleted).
Definition set_stateValidators (x : gmap Address (option ValidatorWrapper)) (d : DB) : DB :=
    mkDB d.(disk) d.(triedb) d.(trie) d.(originalRoot) d.(snaps) d.(snap) d.(snapAccounts) d.(snapStorage)
    d.(stateObjects) d.(stateObjectsPending) d.(stateObjectsDirty) d.(stateObjectsDestruct) x d.(dbErr) d.(refund)
    d.(thash) d.(bhash) d.(ethTxHash) d.(txIndex) d.(logs) d.(logSize) d.(preimages) d.(acl) d.(transient)
    d.(journal) d.(validRevisions) d.(nextRevisionId) d.(AccountUpdated) d.(StorageUpdated) d.(AccountDeleted)
    d.(StorageDeleted).
Definition set_dbErr (x : option string) (d : DB) : DB :=
    mkDB d.(disk) d.(triedb) d.(trie) d.(originalRoot) d.(snaps) d.(snap) d.(snapAccounts) d.(snapStorage)
    d.(stateObjects) d.(stateObjectsPending) d.(stateObjectsDirty) d.(stateObjectsDestruct) d.(stateValidators) x
    d.(refund) d.(thash) d.(bhash) d.(ethTxHash) d.(txIndex) d.(logs) d.(logSize) d.(preimages) d.(acl)
    d.(transient) d.(journal) d.(validRevisions) d.(nextRevisionId) d.(AccountUpdated) d.(StorageUpdated)
    d.(AccountDeleted) d.(StorageDeleted).
Definition set_refund (x : Z) (d : DB) : DB :=
    mkDB d.(disk) d.(triedb) d.(trie) d.(originalRoot) d.(snaps) d.(snap) d.(snapAccounts) d.(snapStorage)
    d.(stateObjects) d.(stateObjectsPending) d.(stateObjectsDirty) d.(stateObjectsDestruct) d.(stateValidators)
    d.(dbErr) x d.(thash) d.(bhash) d.(ethTxHash) d.(txIndex) d.(logs) d.(logSize) d.(preimages) d.(acl)
    d.(transient) d.(journal) d.(validRevisions) d.(nextRevisionId) d.(AccountUpdated) d.(StorageUpdated)
    d.(AccountDeleted) d.(StorageDeleted).
Definition set_thash (x : Z) (d : DB) : DB :=
    mkDB d.(disk) d.(triedb) d.(trie) d.(originalRoot) d.(snaps) d.(snap) d.(snapAccounts) d.(snapStorage)
    d.(stateObjects) d.(stateObjectsPending) d.(stateObjectsDirty) d.(stateObjectsDestruct) d.(stateValidators)
    d.(dbErr) d.(refund) x d.(bhash) d.(ethTxHash) d.(txIndex) d.(logs) d.(logSize) d.(preimages) d.(acl)
    d.(transient) d.(journal) d.(validRevisions) d.(nextRevisionId) d.(AccountUpdated) d.(StorageUpdated)
    d.(AccountDeleted) d.(StorageDeleted).
Definition set_bhash (x : Z) (d : DB) : DB :=
    mkDB d.(disk) d.(triedb) d.(trie) d.(originalRoot) d.(snaps) d.(snap) d.(snapAccounts) d.(snapStorage)
    d.(stateObjects) d.(stateObjectsPending) d.(stateObjectsDirty) d.(stateObjectsDestruct) d.(stateValidators)
    d.(dbErr) d.(refund) d.(thash) x d.(ethTxHash) d.(txIndex) d.(logs) d.(logSize) d.(preimages) d.(acl)
    d.(transient) d.(journal) d.(validRevisions) d.(nextRevisionId) d.(AccountUpdated) d.(StorageUpdated)
    d.(AccountDeleted) d.(StorageDeleted).
Definition set_ethTxHash (x : Z) (d : DB) : DB :=
    mkDB d.(disk) d.(triedb) d.(trie) d.(originalRoot) d.(snaps) d.(snap) d.(snapAccounts) d.(snapStorage)
    d.(stateObjects) d.(stateObjectsPending) d.(stateObjectsDirty) d.(stateObjectsDestruct) d.(stateValidators)
    d.(dbErr) d.(refund) d.(thash) d.(bhash) x d.(txIndex) d.(logs) d.(logSize) d.(preimages) d.(acl)
    d.(transient) d.(journal) d.(validRevisions) d.(nextRevisionId) d.(AccountUpdated) d.(StorageUpdated)
    d.(AccountDeleted) d.(StorageDeleted).
Definition set_txIndex (x : Z) (d : DB) : DB :=
    mkDB d.(disk) d.(triedb) d.(trie) d.(originalRoot) d.(snaps) d.(snap) d.(snapAccounts) d.(snapStorage)
    d.(stateObjects) d.(stateObjectsPending) d.(stateObjectsDirty) d.(stateObjectsDestruct) d.(stateValidators)
    d.(dbErr) d.(refund) d.(thash) d.(bhash) d.(ethTxHash) x d.(logs) d.(logSize) d.(preimages) d.(acl)
    d.(transient) d.(journal) d.(validRevisions) d.(nextRevisionId) d.(AccountUpdated) d.(StorageUpdated)
    d.(AccountDeleted) d.(StorageDeleted).
Definition set_logs (x : gmap Z (list Log)) (d : DB) : DB :=
    mkDB d.(disk) d.(triedb) d.(trie) d.(originalRoot) d.(snaps) d.(snap) d.(snapAccounts) d.(snapStorage)
    d.(stateObjects) d.(stateObjectsPending) d.(stateObjectsDirty) d.(stateObjectsDestruct) d.(stateValidators)
    d.(dbErr) d.(refund) d.(thash) d.(bhash) d.(ethTxHash) d.(txIndex) x d.(logSize) d.(preimages) d.(acl)
    d.(transient) d.(journal) d.(validRevisions) d.(nextRevisionId) d.(AccountUpdated) d.(StorageUpdated)
    d.(AccountDeleted) d.(StorageDeleted).
Definition set_logSize (x : Z) (d : DB) : DB :=
    mkDB d.(disk) d.(triedb) d.(trie) d.(originalRoot) d.(snaps) d.(snap) d.(snapAccounts) d.(snapStorage)
    d.(stateObjects) d.(stateObjectsPending) d.(stateObjectsDirty) d.(stateObjectsDestruct) d.(stateValidators)
    d.(dbErr) d.(refund) d.(thash) d.(bhash) d.(ethTxHash) d.(txIndex) d.(logs) x d.(preimages) d.(acl)
    d.(transient) d.(journal) d.(validRevisions) d.(nextRevisionId) d.(AccountUpdated) d.(StorageUpdated)
    d.(AccountDeleted) d.(StorageDeleted).
Definition set_preimages (x : gmap Z (list Z)) (d : DB) : DB :=
    mkDB d.(disk) d.(triedb) d.(trie) d.(originalRoot) d.(snaps) d.(snap) d.(snapAccounts) d.(snapStorage)
    d.(stateObjects) d.(stateObjectsPending) d.(stateObjectsDirty) d.(stateObjectsDestruct) d.(stateValidators)
    d.(dbErr) d.(refund) d.(thash) d.(bhash) d.(ethTxHash) d.(txIndex) d.(logs) d.(logSize) x d.(acl)
    d.(transient) d.(journal) d.(validRevisions) d.(nextRevisionId) d.(AccountUpdated) d.(StorageUpdated)
    d.(AccountDeleted) d.(StorageDeleted).
Definition set_acl (x : accessList) (d : DB) : DB :=
    mkDB d.(disk) d.(triedb) d.(trie) d.(originalRoot) d.(snaps) d.(snap) d.(snapAccounts) d.(snapStorage)
    d.(stateObjects) d.(stateObjectsPending) d.(stateObjectsDirty) d.(stateObjectsDestruct) d.(stateValidators)
    d.(dbErr) d.(refund) d.(thash) d.(bhash) d.(ethTxHash) d.(txIndex) d.(logs) d.(logSize) d.(preimages) x
    d.(transient) d.(journal) d.(validRevisions) d.(nextRevisionId) d.(AccountUpdated) d.(StorageUpdated)
    d.(AccountDeleted) d.(StorageDeleted).
Definition set_transient (x : transientStorage) (d : DB) : DB :=
    mkDB d.(disk) d.(triedb) d.(trie) d.(originalRoot) d.(snaps) d.(snap) d.(snapAccounts) d.(snapStorage)
    d.(stateObjects) d.(stateObjectsPending) d.(stateObjectsDirty) d.(stateObjectsDestruct) d.(stateValidators)
    d.(dbErr) d.(refund) d.(thash) d.(bhash) d.(ethTxHash) d.(txIndex) d.(logs) d.(logSize) d.(preimages) d.(acl)
    x d.(journal) d.(validRevisions) d.(nextRevisionId) d.(AccountUpdated) d.(StorageUpdated) d.(AccountDeleted)
    d.(StorageDeleted).
Definition set_journal (x : Journal) (d : DB) : DB :=
    mkDB d.(disk) d.(triedb) d.(trie) d.(originalRoot) d.(snaps) d.(snap) d.(snapAccounts) d.(snapStorage)
    d.(stateObjects) d.(stateObjectsPending) d.(stateObjectsDirty) d.(stateObjectsDestruct) d.(stateValidators)
    d.(dbErr) d.(refund) d.(thash) d.(bhash) d.(ethTxHash) d.(txIndex) d.(logs) d.(logSize) d.(preimages) d.(acl)
    d.(transient) x d.(validRevisions) d.(nextRevisionId) d.(AccountUpdated) d.(StorageUpdated) d.(AccountDeleted)
    d.(StorageDeleted).
Definition set_validRevisions (x : list revision) (d : DB) : DB :=
    mkDB d.(disk) d.(triedb) d.(trie) d.(originalRoot) d.(snaps) d.(snap) d.(snapAccounts) d.(snapStorage)
    d.(stateObjects) d.(stateObjectsPending) d.(stateObjectsDirty) d.(stateObjectsDestruct) d.(stateValidators)
    d.(dbErr) d.(refund) d.(thash) d.(bhash) d.(ethTxHash) d.(txIndex) d.(logs) d.(logSize) d.(preimages) d.(acl)
    d.(transient) d.(journal) x d.(nextRevisionId) d.(AccountUpdated) d.(StorageUpdated) d.(AccountDeleted)
    d.(StorageDeleted).
Definition set_nextRevisionId (x : Z) (d : DB) : DB :=
    mkDB d.(disk) d.(triedb) d.(trie) d.(originalRoot) d.(snaps) d.(snap) d.(snapAccounts) d.(snapStorage)
    d.(stateObjects) d.(stateObjectsPending) d.(stateObjectsDirty) d.(stateObjectsDestruct) d.(stateValidators)
    d.(dbErr) d.(refund) d.(thash) d.(bhash) d.(ethTxHash) d.(txIndex) d.(logs) d.(logSize) d.(preimages) d.(acl)
    d.(transient) d.(journal) d.(validRevisions) x d.(AccountUpdated) d.(StorageUpdated) d.(AccountDeleted)
    d.(StorageDeleted).
Definition set_AccountUpdated (x : Z) (d : DB) : DB :=
    mkDB d.(disk) d.(triedb) d.(trie) d.(originalRoot) d.(snaps) d.(snap) d.(snapAccounts) d.(snapStorage)
    d.(stateObjects) d.(stateObjectsPending) d.(stateObjectsDirty) d.(stateObjectsDestruct) d.(stateValidators)
    d.(dbErr) d.(refund) d.(thash) d.(bhash) d.(ethTxHash) d.(txIndex) d.(logs) d.(logSize) d.(preimages) d.(acl)
    d.(transient) d.(journal) d.(validRevisions) d.(nextRevisionId) x d.(StorageUpdated) d.(AccountDeleted)
    d.(StorageDeleted).
Definition set_StorageUpdated (x : Z) (d : DB) : DB :=
    mkDB d.(disk) d.(triedb) d.(trie) d.(originalRoot) d.(snaps) d.(snap) d.(snapAccounts) d.(snapStorage)
    d.(stateObjects) d.(stateObjectsPending) d.(stateObjectsDirty) d.(stateObjectsDestruct) d.(stateValidators)
    d.(dbErr) d.(refund) d.(thash) d.(bhash) d.(ethTxHash) d.(txIndex) d.(logs) d.(logSize) d.(preimages) d.(acl)
    d.(transient) d.(journal) d.(validRevisions) d.(nextRevisionId) d.(AccountUpdated) x d.(AccountDeleted)
    d.(StorageDeleted).
Definition set_AccountDeleted (x : Z) (d : DB) : DB :=
    mkDB d.(disk) d.(triedb) d.(trie) d.(originalRoot) d.(snaps) d.(snap) d.(snapAccounts) d.(snapStorage)
    d.(stateObjects) d.(stateObjectsPending) d.(stateObjectsDirty) d.(stateObjectsDestruct) d.(stateValidators)
    d.(dbErr) d.(refund) d.(thash) d.(bhash) d.(ethTxHash) d.(txIndex) d.(logs) d.(logSize) d.(preimages) d.(acl)
    d.(transient) d.(journal) d.(validRevisions) d.(nextRevisionId) d.(AccountUpdated) d.(StorageUpdated) x
    d.(StorageDeleted).
Definition set_StorageDeleted (x : Z) (d : DB) : DB :=
    mkDB d.(disk) d.(triedb) d.(trie) d.(originalRoot) d.(snaps) d.(snap) d.(snapAccounts) d.(snapStorage)
    d.(stateObjects) d.(stateObjectsPending) d.(stateObjectsDirty) d.(stateObjectsDestruct) d.(stateValidators)
    d.(dbErr) d.(refund) d.(thash) d.(bhash) d.(ethTxHash) d.(txIndex) d.(logs) d.(logSize) d.(preimages) d.(acl)
    d.(transient) d.(journal) d.(validRevisions) d.(nextRevisionId) d.(AccountUpdated) d.(StorageUpdated)
    d.(AccountDeleted) x.

(** ** Objects *)

Definition with_Nonce (n : Z) (a : Account) : Account := mkAccount n a.(Balance) a.(Root) a.(CodeHash).
Definition with_Balance (b : Z) (a : Account) : Account := mkAccount a.(Nonce) b a.(Root) a.(CodeHash).
Definition with_Root (r : Z) (a : Account) : Account := mkAccount a.(Nonce) a.(Balance) r a.(CodeHash).
Definition with_CodeHash (h : Z) (a : Account) : Account := mkAccount a.(Nonce) a.(Balance) a.(Root) h.

Definition empty (s : Object) : bool :=
  (s.(data).(Nonce) =? 0) && (Z.sgn s.(data).(Balance) =? 0) && (s.(data).(CodeHash) =? EmptyCodeHash).

Definition newObject (addr : Address) (d : StateAccount) : Object := {|
  address := addr;
  addrHash := Keccak256Hash (address_bytes addr);
  data := {|
    Nonce := d.(saNonce);
    Balance := match d.(saBalance) with Some b => b | None => 0 end;
    Root := if d.(saRoot) =? 0 then EmptyRootHash else d.(saRoot);
    CodeHash := match d.(saCodeHash) with Some h => h | None => EmptyCodeHash end |};
  obj_dbErr := None; obj_trie := None; code := None;
  originStorage := ∅; pendingStorage := ∅; dirtyStorage := ∅; fakeStorage := None;
  validatorWrapper := false; dirtyCode := false; suicided := false; deleted := false
|}.

Definition obj_setError (err : string) (s : Object) : Object :=
  match s.(obj_dbErr) with None => with_obj_dbErr (Some err) s | Some _ => s end.
Definition markSuicided (s : Object) : Object := with_suicided true s.
Definition setBalance (amount : Z) (s : Object) : Object := with_data (with_Balance amount s.(data)) s.
Definition setNonce (nonce : Z) (s : Object) : Object := with_data (with_Nonce nonce s.(data)) s.
Definition setState (key value : Z) (s : Object) : Object := with_dirtyStorage (<[key := value]> s.(dirtyStorage)) s.
Definition setCode (codeHash : Z) (c : option (list Z)) (isValidatorCode : bool) (s : Object) : Object :=
  with_validatorWrapper isValidatorCode
    (with_dirtyCode true (with_data (with_CodeHash codeHash s.(data)) (with_code c s))).
(** [for key, value := range storage { s.fakeStorage[key] = value }] *)
Definition obj_SetStorage (storage : Storage) (s : Object) : Object :=
  with_fakeStorage (Some (storage ∪ match s.(fakeStorage) with None => ∅ | Some f => f end)) s.
Definition deepCopy (s : Object) : Object :=
  let c := newObject s.(address) (to_StateAccount s.(data)) in
  with_deleted s.(deleted) (with_dirtyCode s.(dirtyCode) (with_suicided s.(suicided)
    (with_pendingStorage s.(pendingStorage) (with_originStorage s.(originStorage)
      (with_dirtyStorage s.(dirtyStorage) (with_code s.(code) (with_obj_trie s.(obj_trie) c))))))).

(** *** Methods that reach the database *)

#[local] Notation OM := (SM (Object * DB)).
Definition omod (f : Object -> Object) : OM unit := modify (fun '(o, db) => (f o, db)).
Definition dmod (f : DB -> DB) : OM unit := modify (fun '(o, db) => (o, f db)).
Definition self : OM Object := gets fst.
Definition the_db : OM DB := gets snd.
(** An error the object remembers, and the caller goes on with [d]. *)
Definition or_setError {A} (m : OM A) (d : A) : OM A := fun od =>
  match m od with
  | (od, Err e) => ((obj_setError e od.1, od.2), Ok d)
  | r => r
  end.

Definition append (e : journalEntry) (db : DB) : DB := set_journal (j_append e db.(journal)) db.

Definition touch : OM unit :=
  let! s := self in
  let! _ := dmod (append (touchChange s.(address))) in
  sm_when (s.(address) =? ripemd) (dmod (fun db => set_journal (j_dirty s.(address) db.(journal)) db)).

Definition getTrie : OM Trie :=
  let! s := self in
  match s.(obj_trie) with
  | Some tr => mret tr
  | None =>
      let! db := the_db in
      let! tr := lift (NewStorageTrie db.(triedb) db.(originalRoot) s.(addrHash) s.(data).(Root)) in
      let! _ := omod (with_obj_trie (Some tr)) in
      mret tr
  end.

(** The snapshot's answer, or the trie's when there is none or it fails. *)
Definition storage_enc (key : Z) : OM (list Z) :=
  let! s := self in
  let! db := the_db in
  let from_trie := let! tr := getTrie in lift (TryGet tr key) in
  match db.(snap) with
  | None => from_trie
  | Some sn => match snap_Storage sn s.(addrHash) (Keccak256Hash (hash_bytes key)) with
               | Ok enc => mret enc
               | Err _ => from_trie
               | Panic w => lift (Panic w)
               end
  end.

(** The value a stored slot decodes to, and whether that fails. *)
Definition decode_slot (enc : list Z) : outcome Z * option string :=
  match enc with
  | [] => (Ok 0, None)
  | _ => match rlp_Split enc with
         | Ok content => (Ok (BytesToHash content), None)
         | Err e => (Ok 0, Some e)
         | Panic w => (Panic w, None)
         end
  end.

Definition obj_GetCommittedState (key : Z) : OM Z :=
  let! s := self in
  match s.(fakeStorage) with
  | Some fake => mret (default 0 (fake !! key))
  | None =>
      match s.(pendingStorage) !! key, s.(originStorage) !! key with
      | Some value, _ => mret value
      | None, Some value => mret value
      | None, None =>
          let! db := the_db in
          if bool_decide (s.(address) ∈ db.(stateObjectsDestruct)) then mret 0
          else or_setError
            (let! enc := storage_enc key in
             let '(v, err) := decode_slot enc in
             let! _ := omod (match err with Some e => obj_setError e | None => Datatypes.id end) in
             let! value := lift v in
             let! _ := omod (fun s => with_originStorage (<[key := value]> s.(originStorage)) s) in
             mret value) 0
      end
  end.

Definition obj_GetState (key : Z) : OM Z :=
  let! s := self in
  match s.(fakeStorage) with
  | Some fake => mret (default 0 (fake !! key))
  | None => match s.(dirtyStorage) !! key with
            | Some value => mret value
            | None => obj_GetCommittedState key
            end
  end.

Definition obj_SetState (key value : Z) : OM unit :=
  let! s := self in
  match s.(fakeStorage) with
  | Some fake => omod (with_fakeStorage (Some (<[key := value]> fake)))
  | None =>
      let! prev := obj_GetState key in
      if prev =? value then mret tt
      else
        let! _ := dmod (append (storageChange s.(address) key prev)) in
        omod (setState key value)
  end.

(** The slots to prefetch are only used by the prefetcher. *)
Definition finalise (s : Object) : Object :=
  with_dirtyStorage ∅ (with_pendingStorage (s.(dirtyStorage) ∪ s.(pendingStorage)) s).

(** One turn of the loop over the pending slots. *)
Definition update_slot (kv : Z * Z) : OM unit :=
  let '(key, value) := kv in
  let! s := self in
  if value =? default 0 (s.(originStorage) !! key) then mret tt
  else
    let! _ := omod (with_originStorage (<[key := value]> s.(originStorage))) in
    let! tr := getTrie in
    let v := if value =? 0 then [] else rlp_slot value in
    let '(tr, err) := if value =? 0 then TryDelete tr key else TryUpdate tr key v in
    let! _ := omod (with_obj_trie (Some tr)) in
    match err with
    | Some e => let! _ := omod (obj_setError e) in stop e
    | None =>
        let! _ := dmod (fun db => if value =? 0 then set_StorageDeleted (db.(StorageDeleted) + 1) db
                                  else set_StorageUpdated (db.(StorageUpdated) + 1) db) in
        dmod (fun db => match db.(snap) with
                        | None => db
                        | Some _ =>
                            let storage := default ∅ (db.(snapStorage) !! s.(addrHash)) in
                            set_snapStorage (<[s.(addrHash) :=
                              <[Keccak256Hash (hash_bytes key) := v]> storage]> db.(snapStorage)) db
                        end)
    end.

Definition updateTrie {W : Walk} : OM (option Trie) :=
  let! _ := omod finalise in
  let! s := self in
  if bool_decide (s.(pendingStorage) = ∅) then mret s.(obj_trie)
  else
    let! _ := fun od => match getTrie od with
                        | (od, Err e) => ((obj_setError e od.1, od.2), Err e)
                        | r => r
                        end in
    let! _ := sm_for (walk s.(pendingStorage)) update_slot in
    let! _ := omod (with_pendingStorage ∅) in
    let! s := self in
    mret s.(obj_trie).

Definition updateRoot {W : Walk} : OM unit := fun od =>
  match updateTrie od with
  | (od, Ok (Some tr)) => ((with_data (with_Root (Trie_Hash tr) od.1.(data)) od.1, od.2), Ok tt)
  | (od, Ok None) => (od, Ok tt)
  | (od, Err e) => ((obj_setError ("updateRoot error: " ++ e) od.1, od.2), Ok tt)
  | (od, Panic w) => (od, Panic w)
  end.

Definition commitTrie {W : Walk} : OM (option NodeSet) :=
  let! otr := updateTrie in
  let! s := self in
  match s.(obj_dbErr), otr with
  | Some e, _ => stop e
  | None, None => mret None
  | None, Some tr =>
      let '(tr, (root, nodes)) := Trie_Commit tr false in
      let! _ := omod (fun s => with_data (with_Root root s.(data)) (with_obj_trie (Some tr) s)) in
      mret nodes
  end.

Definition obj_SetBalance (amount : Z) : OM unit :=
  let! s := self in
  let! _ := dmod (append (balanceChange s.(address) s.(data).(Balance))) in
  omod (setBalance amount).

Definition obj_AddBalance (amount : Z) : OM unit :=
  let! s := self in
  if Z.sgn amount =? 0 then sm_when (empty s) touch
  else obj_SetBalance (s.(data).(Balance) + amount).

Definition obj_SubBalance (amount : Z) : OM unit :=
  let! s := self in
  if Z.sgn amount =? 0 then mret tt else obj_SetBalance (s.(data).(Balance) - amount).

Definition obj_SetNonce (nonce : Z) : OM unit :=
  let! s := self in
  let! _ := dmod (append (nonceChange s.(address) s.(data).(Nonce))) in
  omod (setNonce nonce).

Definition no_code : string := "can't load contract/validator code hash".
Definition no_validator_code : string := "can't load validator code hash".

(** nil is [None]. *)
Definition Code : OM (option (list Z)) :=
  let! s := self in
  match s.(code) with
  | Some c => mret (Some c)
  | None =>
      if s.(data).(CodeHash) =? EmptyCodeHash then mret None
      else
        let! db := the_db in
        let hash := s.(data).(CodeHash) in
        let '(c, err) := if s.(validatorWrapper) then (Some [], false)
                         else match ContractCode db.(disk) hash with Ok c => (Some c, false) | _ => (None, true) end in
        if s.(validatorWrapper) || err then
          match ValidatorCode db.(disk) hash with
          | Ok vCode => let! _ := omod (with_code (Some vCode)) in mret (Some vCode)
          | _ =>
              let! _ := omod (obj_setError (if s.(validatorWrapper) then no_validator_code else no_code)) in
              let! _ := omod (with_code c) in mret c
          end
        else let! _ := omod (with_code c) in mret c
  end.

Definition no_code_size : string := "can't load contract/validator code size".
Definition no_validator_code_size : string := "can't load validator code size".

Definition CodeSize : OM Z :=
  let! s := self in
  match s.(code) with
  | Some c => mret (Z.of_nat (length c))
  | None =>
      if s.(data).(CodeHash) =? EmptyCodeHash then mret 0
      else
        let! db := the_db in
        let hash := s.(data).(CodeHash) in
        let '(size, err) := if s.(validatorWrapper) then (0, false)
                            else match ContractCodeSize db.(disk) hash with Ok n => (n, false) | _ => (0, true) end in
        if s.(validatorWrapper) || err then
          match ValidatorCodeSize db.(disk) hash with
          | Ok vcSize =>
              if 0 <? vcSize then mret vcSize
              else let! _ := omod (obj_setError (if s.(validatorWrapper) then no_validator_code_size else no_code_size)) in
                   mret size
          | _ => let! _ := omod (obj_setError (if s.(validatorWrapper) then no_validator_code_size else no_code_size)) in
                 mret size
          end
        else mret size
  end.

Definition obj_SetCode (codeHash : Z) (c : option (list Z)) (isValidatorCode : bool) : OM unit :=
  let! prevcode := Code in
  let! s := self in
  let! _ := dmod (append (codeChange s.(address) prevcode s.(data).(CodeHash))) in
  omod (setCode codeHash c isValidatorCode).

Definition IsValidatorKey : Z := Keccak256Hash (string_bytes "Intelchain/IsValidator/Key/v1").
Definition IsValidatorValue : Z := Keccak256Hash (string_bytes "Intelchain/IsValidator/Value/v1").
Definition FirstElectionEpochKey : Z := Keccak256Hash (string_bytes "Intelchain/FirstElectionEpoch/Key/v1").

Definition obj_IsValidator : OM bool :=
  let! value := obj_GetState IsValidatorKey in mret (negb (value =? 0)).

(** [obj.Method()] for the object of an address. *)
Definition on_object {A} (addr : Address) (m : OM A) : SM DB A := fun db =>
  match db.(stateObjects) !! addr with
  | None => (db, Panic nil_deref)
  | Some o => let '((o, db), r) := m (o, db) in (set_stateObjects (<[addr := o]> db.(stateObjects)) db, r)
  end.
Definition on_object_ (addr : Address) (f : Object -> Object) : SM DB unit := on_object addr (omod f).

End state.
#[global] Notation OM := (SM (Object * DB)).
