(* ===== verification/StateDB.v ===== *)
(** * The state database (core/state: statedb.go, journal.go; the wrapper copies of staking/types/test/copy.go)

    Every method of the database: reading and changing accounts, snapshots and
    reverting to them through the journal, refunds, logs, preimages, access
    list, transient storage, validator wrappers, rewards, and the way to the
    trie ([Finalise], [IntermediateRoot], [Commit]).

    A validator wrapper is a value here, and [stateValidators] holds what the
    cached pointer points to; [AddReward], which changes the cached wrapper in
    place, writes it back.  A nil pointer in that map is [Some None].  The RLP of
    a wrapper is foreign ([WrapperRLP]).  [deepCopy]'s objects of a copied
    database belong to that database. *)
From S2P Require Import Prelude Dec Bls Effective Delegation Validator Header CXReceipt Receipt AccessList StateObject.
Local Open Scope Z_scope.

(** The RLP codec of validator wrappers. *)
Class WrapperRLP := {
  wrapper_Encode : ValidatorWrapper -> outcome (list Z);
  wrapper_Decode : list Z -> outcome ValidatorWrapper
}.

Section statedb.
Context {H : Hashes} {SL : StateLib} {VR : WrapperRLP} {W : Walk}.
Implicit Types (addr : Address) (db : DB).

Definition New (root : Z) (disk : Disk) (tdb : TrieDB) (snaps : option SnapTree) : outcome DB :=
  let! tr := NewStateTrie tdb root in
  Ok (mkDB disk tdb tr root snaps (t ← snaps; tree_Snapshot t root) ∅ ∅ ∅ ∅ ∅ ∅ ∅ None 0 0 0 0 0 ∅ 0 ∅
        newAccessList ∅ newJournal [] 0 0 0 0 0).

Definition setError (err : string) (db : DB) : DB :=
  match db.(dbErr) with None => set_dbErr (Some err) db | Some _ => db end.
Definition Error (db : DB) : option string := db.(dbErr).

Definition journal_append (e : journalEntry) : SM DB unit := modify (append e).

Definition clearJournalAndRefund (db : DB) : DB :=
  let db := match db.(journal).(entries) with [] => db | _ => set_refund 0 (set_journal newJournal db) end in
  set_validRevisions [] db.

Definition Reset (root : Z) : SM DB unit := fun db =>
  match NewStateTrie db.(triedb) root with
  | Ok tr =>
      (clearJournalAndRefund (set_preimages ∅ (set_logSize 0 (set_logs ∅ (set_txIndex 0 (set_ethTxHash 0 (set_bhash 0
        (set_thash 0 (set_stateValidators ∅ (set_stateObjectsDirty ∅ (set_stateObjectsPending ∅ (set_stateObjects ∅
          (set_trie tr db)))))))))))), Ok tt)
  | Err e => (db, Err e)
  | Panic w => (db, Panic w)
  end.

(** ** Logs, preimages and refunds *)

Definition AddLog (log : Log) : SM DB unit :=
  let! db := gets Datatypes.id in
  let! _ := journal_append (addLogChange db.(thash)) in
  let log := mkLog log.(lAddress) log.(lTopics) log.(lData) log.(lBlockNumber) db.(thash) (u64 db.(txIndex)) db.(bhash)
               db.(logSize) log.(lRemoved) in
  let! _ := modify (fun db => set_logs (<[db.(thash) := default [] (db.(logs) !! db.(thash)) ++ [log]]> db.(logs)) db) in
  modify (fun db => set_logSize (u64 (db.(logSize) + 1)) db).

(** The stored logs are annotated in place. *)
Definition annotate (blockNumber blockHash : Z) (l : Log) : Log :=
  mkLog l.(lAddress) l.(lTopics) l.(lData) blockNumber l.(lTxHash) l.(lTxIndex) blockHash l.(lIndex) l.(lRemoved).
Definition GetLogs (hash blockNumber blockHash : Z) : SM DB (list Log) := fun db =>
  match db.(logs) !! hash with
  | None => (db, Ok [])
  | Some ls => let ls := map (annotate blockNumber blockHash) ls in (set_logs (<[hash := ls]> db.(logs)) db, Ok ls)
  end.
Definition AllLogs (db : DB) : list Log := concat (map snd (walk db.(logs))).

Definition AddPreimage (hash : Z) (preimage : list Z) : SM DB unit :=
  let! db := gets Datatypes.id in
  match db.(preimages) !! hash with
  | Some _ => mret tt
  | None =>
      let! _ := journal_append (addPreimageChange hash) in
      modify (fun db => set_preimages (<[hash := preimage]> db.(preimages)) db)
  end.
Definition Preimages (db : DB) : gmap Z (list Z) := db.(preimages).

Definition AddRefund (gas : Z) : SM DB unit :=
  let! r := gets refund in
  let! _ := journal_append (refundChange r) in
  modify (fun db => set_refund (u64 (db.(refund) + gas)) db).
Definition SubRefund (gas : Z) : SM DB unit :=
  let! r := gets refund in
  let! _ := journal_append (refundChange r) in
  if r <? gas then lift (Panic "Refund counter below zero")
  else modify (fun db => set_refund (u64 (db.(refund) - gas)) db).
Definition GetRefund (db : DB) : Z := db.(refund).

(** ** Finding objects *)

Definition setStateObject (object : Object) (db : DB) : DB :=
  set_stateObjects (<[object.(address) := object]> db.(stateObjects)) db.

(** The snapshot's account with its gaps filled. *)
Definition slim_account (acc : StateAccount) : StateAccount :=
  mkStateAccount acc.(saNonce) acc.(saBalance) (if acc.(saRoot) =? 0 then EmptyRootHash else acc.(saRoot))
    (match acc.(saCodeHash) with None => Some EmptyCodeHash | h => h end).

(** The account in the snapshot, or in the trie where there is no snapshot or
    reading from it failed. *)
Definition read_account (db : DB) (addr : Address) : outcome (option StateAccount) :=
  let from_trie := TryGetAccount db.(trie) addr in
  match db.(snap) with
  | None => from_trie
  | Some sn => match snap_Account sn (Keccak256Hash (address_bytes addr)) with
               | Ok None => Ok None
               | Ok (Some acc) => Ok (Some (slim_account acc))
               | Err _ => from_trie
               | Panic w => Panic w
               end
  end.

Definition getDeletedStateObject (addr : Address) : SM DB (option Object) := fun db =>
  match db.(stateObjects) !! addr with
  | Some obj => (db, Ok (Some obj))
  | None =>
      match read_account db addr with
      | Err e => (setError ("getDeleteStateObject error: " ++ e) db, Ok None)
      | Panic w => (db, Panic w)
      | Ok None => (db, Ok None)
      | Ok (Some data) => let obj := newObject addr data in (setStateObject obj db, Ok (Some obj))
      end
  end.

Definition getStateObject (addr : Address) : SM DB (option Object) :=
  let! obj := getDeletedStateObject addr in
  mret (match obj with Some o => if o.(deleted) then None else Some o | None => None end).

Definition createObject (addr : Address) : SM DB (Object * option Object) :=
  let! prev := getDeletedStateObject addr in
  let! prevdestruct := gets (fun db => match prev with
                                       | Some p => bool_decide (p.(address) ∈ db.(stateObjectsDestruct))
                                       | None => false end) in
  let! _ := modify (fun db => match prev with
                              | Some p => set_stateObjectsDestruct ({[p.(address)]} ∪ db.(stateObjectsDestruct)) db
                              | None => db end) in
  let newobj := newObject addr (mkStateAccount 0 None 0 None) in
  let! _ := journal_append (match prev with
                            | None => createObjectChange addr
                            | Some p => resetObjectChange p prevdestruct end) in
  let! _ := modify (setStateObject newobj) in
  mret (newobj, match prev with Some p => if p.(deleted) then None else Some p | None => None end).

(** The object is then the one at [addr]. *)
Definition GetOrNewStateObject (addr : Address) : SM DB unit :=
  let! obj := getStateObject addr in
  match obj with
  | Some _ => mret tt
  | None => let! _ := createObject addr in mret tt
  end.

Definition CreateAccount (addr : Address) : SM DB unit :=
  let! '(newObj, prev) := createObject addr in
  match prev with
  | Some prev => on_object_ addr (setBalance prev.(data).(Balance))
  | None => mret tt
  end.

(** ** Reading *)

Definition reading {A} (addr : Address) (d : A) (m : OM A) : SM DB A :=
  let! obj := getStateObject addr in
  match obj with
  | Some _ => on_object addr m
  | None => mret d
  end.

Definition Exist (addr : Address) : SM DB bool := reading addr false (mret true).
Definition Empty (addr : Address) : SM DB bool := reading addr true (let! o := self in mret (empty o)).
Definition GetBalance (addr : Address) : SM DB Z := reading addr 0 (let! o := self in mret o.(data).(Balance)).
Definition GetNonce (addr : Address) : SM DB Z := reading addr 0 (let! o := self in mret o.(data).(Nonce)).
Definition GetCode (addr : Address) : SM DB (option (list Z)) := reading addr None Code.
Definition GetCodeSize (addr : Address) : SM DB Z := reading addr 0 CodeSize.
Definition GetCodeHash (addr : Address) : SM DB Z := reading addr 0 (let! o := self in mret o.(data).(CodeHash)).
Definition GetState (addr : Address) (hash : Z) : SM DB Z := reading addr 0 (obj_GetState hash).
Definition GetCommittedState (addr : Address) (hash : Z) : SM DB Z := reading addr 0 (obj_GetCommittedState hash).
Definition HasSuicided (addr : Address) : SM DB bool := reading addr false (let! o := self in mret o.(suicided)).
Definition IsValidator (addr : Address) : SM DB bool := reading addr false obj_IsValidator.

(** The trie of a copy of the object: only what the copy's methods do to the
    database stays. *)
Definition on_copy {A} (o : Object) (m : OM A) : SM DB A := fun db =>
  let '((_, db), r) := m (deepCopy o, db) in (db, r).
Definition StorageTrie (addr : Address) : SM DB (option Trie) :=
  let! obj := getStateObject addr in
  match obj with
  | None => mret None
  | Some o => on_copy o (let! _ := updateTrie in let! tr := getTrie in mret (Some tr))
  end.

(** ** Writing *)

Definition writing (addr : Address) (m : OM unit) : SM DB unit :=
  let! _ := GetOrNewStateObject addr in on_object addr m.

Definition AddBalance (addr : Address) (amount : Z) : SM DB unit := writing addr (obj_AddBalance amount).
Definition SubBalance (addr : Address) (amount : Z) : SM DB unit := writing addr (obj_SubBalance amount).
Definition SetBalance (addr : Address) (amount : Z) : SM DB unit := writing addr (obj_SetBalance amount).
Definition SetNonce (addr : Address) (nonce : Z) : SM DB unit := writing addr (obj_SetNonce nonce).
Definition SetCode (addr : Address) (c : option (list Z)) (isValidatorCode : bool) : SM DB unit :=
  writing addr (obj_SetCode (Keccak256Hash (default [] c)) c isValidatorCode).
Definition SetState (addr : Address) (key value : Z) : SM DB unit := writing addr (obj_SetState key value).

Definition SetStorage (addr : Address) (storage : Storage) : SM DB unit :=
  let! _ := modify (fun db => set_stateObjectsDestruct ({[addr]} ∪ db.(stateObjectsDestruct)) db) in
  let! _ := GetOrNewStateObject addr in
  sm_for (walk storage) (fun kv => on_object addr (obj_SetState kv.1 kv.2)).

Definition Suicide (addr : Address) : SM DB bool :=
  let! obj := getStateObject addr in
  match obj with
  | None => mret false
  | Some o =>
      let! _ := journal_append (suicideChange addr o.(suicided) o.(data).(Balance)) in
      let! _ := on_object_ addr (fun o => setBalance 0 (markSuicided o)) in
      mret true
  end.

Definition GetTransientState (db : DB) (addr : Address) (key : Z) : Z := tsGet db.(transient) addr key.
Definition setTransientState (addr : Address) (key value : Z) : SM DB unit :=
  modify (fun db => set_transient (tsSet db.(transient) addr key value) db).
Definition SetTransientState (addr : Address) (key value : Z) : SM DB unit :=
  let! prev := gets (fun db => GetTransientState db addr key) in
  if prev =? value then mret tt
  else
    let! _ := journal_append (transientStorageChange addr key prev) in
    setTransientState addr key value.

Definition AddAddressToAccessList (addr : Address) : SM DB unit := fun db =>
  let '(al, changed) := AddAddress addr db.(acl) in
  sm_when changed (journal_append (accessListAddAccountChange addr)) (set_acl al db).
Definition AddSlotToAccessList (addr : Address) (slot : Z) : SM DB unit :=
  let! al := gets acl in
  let! '(al, (addrMod, slotMod)) := lift (AddSlot addr slot al) in
  let! _ := modify (set_acl al) in
  let! _ := sm_when addrMod (journal_append (accessListAddAccountChange addr)) in
  sm_when slotMod (journal_append (accessListAddSlotChange addr slot)).
Definition AddressInAccessList (db : DB) (addr : Address) : bool := ContainsAddress db.(acl) addr.
Definition SlotInAccessList (db : DB) (addr : Address) (slot : Z) : outcome (bool * bool) := Contains db.(acl) addr slot.

Definition Prepare (th bh ti : Z) (db : DB) : DB := set_txIndex ti (set_bhash bh (set_thash th db)).
Definition SetTxContext (th ti : Z) (db : DB) : DB := set_txIndex ti (set_thash th db).
Definition SetTxHashETH (h : Z) (db : DB) : DB := set_ethTxHash h db.

(** ** The journal *)

(** [s.getStateObject(a).f()]: nil panics. *)
Definition on_account (a : Address) (f : Object -> Object) : SM DB unit :=
  let! obj := getStateObject a in
  match obj with
  | Some _ => on_object_ a f
  | None => lift (Panic nil_deref)
  end.

Definition revert (e : journalEntry) : SM DB unit :=
  match e with
  | validatorWrapperChange a prev => modify (fun db => set_stateValidators (<[a := prev]> db.(stateValidators)) db)
  | createObjectChange a => modify (fun db => set_stateObjectsDirty (db.(stateObjectsDirty) ∖ {[a]})
                                                (set_stateObjects (delete a db.(stateObjects)) db))
  | resetObjectChange prev prevdestruct =>
      modify (fun db => let db := setStateObject prev db in
                        if prevdestruct then db
                        else set_stateObjectsDestruct (db.(stateObjectsDestruct) ∖ {[prev.(address)]}) db)
  | suicideChange a prev prevbalance =>
      let! obj := getStateObject a in
      match obj with
      | Some _ => on_object_ a (fun o => setBalance prevbalance (with_suicided prev o))
      | None => mret tt
      end
  | touchChange _ => mret tt
  | balanceChange a prev => on_account a (setBalance prev)
  | nonceChange a prev => on_account a (setNonce prev)
  | codeChange a prevcode prevhash => on_account a (setCode prevhash prevcode false)
  | storageChange a key prevalue => on_account a (setState key prevalue)
  | transientStorageChange a key prevalue => setTransientState a key prevalue
  | refundChange prev => modify (set_refund prev)
  | addLogChange txhash =>
      let! ls := gets (fun db => default [] (db.(logs) !! txhash)) in
      let! _ := match length ls with
                | 0%nat => lift (Panic "slice bounds out of range")
                | 1%nat => modify (fun db => set_logs (delete txhash db.(logs)) db)
                | n => modify (fun db => set_logs (<[txhash := take (n - 1) ls]> db.(logs)) db)
                end in
      modify (fun db => set_logSize (u64 (db.(logSize) - 1)) db)
  | addPreimageChange hash => modify (fun db => set_preimages (delete hash db.(preimages)) db)
  | accessListAddAccountChange a => modify (fun db => set_acl (DeleteAddress a db.(acl)) db)
  | accessListAddSlotChange a slot =>
      let! al := gets acl in
      let! al := lift (DeleteSlot a slot al) in
      modify (set_acl al)
  end.

Definition drop_dirty (addr : Address) (d : gmap Address Z) : gmap Address Z :=
  let n := default 0 (d !! addr) - 1 in
  if n =? 0 then delete addr d else <[addr := n]> d.

Definition revert_entry (e : journalEntry) : SM DB unit :=
  let! _ := revert e in
  modify (fun db => match dirtied e with
                    | Some addr => set_journal (mkJournal db.(journal).(entries) (drop_dirty addr db.(journal).(dirties))) db
                    | None => db
                    end).

Definition journal_revert (snapshot : nat) : SM DB unit :=
  let! es := gets (fun db => db.(journal).(entries)) in
  let! _ := sm_for (rev (drop snapshot es)) revert_entry in
  modify (fun db => set_journal (mkJournal (take snapshot db.(journal).(entries)) db.(journal).(dirties)) db).

Definition Snapshot : SM DB Z := fun db =>
  let id := db.(nextRevisionId) in
  (set_validRevisions (db.(validRevisions) ++ [mkRevision id (j_length db.(journal))])
     (set_nextRevisionId (id + 1) db), Ok id).

(** [sort.Search]: the binary search of the standard library; [n] turns are
    enough for [n] elements. *)
Fixpoint Search_loop (fuel : nat) (f : nat -> bool) (i j : nat) : nat :=
  match fuel with
  | 0%nat => i
  | S fuel => if (i <? j)%nat then
                let h := ((i + j) / 2)%nat in
                if f h then Search_loop fuel f i h else Search_loop fuel f (h + 1)%nat j
              else i
  end.
Definition Search (n : nat) (f : nat -> bool) : nat := Search_loop n f 0 n.

Definition id_at_least (revs : list revision) (revid : Z) (i : nat) : bool :=
  match revs !! i with Some r => revid <=? r.(rev_id) | None => true end.

Definition RevertToSnapshot (revid : Z) : SM DB unit :=
  let! revs := gets validRevisions in
  let idx := Search (length revs) (id_at_least revs revid) in
  match revs !! idx with
  | None => lift (Panic "revision id cannot be reverted")
  | Some r =>
      if negb (r.(rev_id) =? revid) then lift (Panic "revision id cannot be reverted")
      else
        let! _ := journal_revert r.(journalIndex) in
        modify (set_validRevisions (take idx revs))
  end.

(** ** Validator wrappers *)

Definition ErrAddressNotPresent : string := "address not present in state".

(** [copyValidatorWrapperIfNeeded]: copies are equal values; copying nil panics. *)
Definition copyValidatorWrapperIfNeeded (wrapper : option ValidatorWrapper) (sendOriginal : bool)
    : outcome (option ValidatorWrapper) :=
  match wrapper with
  | None => if sendOriginal then Ok None else Panic nil_deref
  | Some w => Ok (Some w)
  end.

Definition ValidatorWrapper_ (addr : Address) (sendOriginal copyDelegations : bool) : SM DB (option ValidatorWrapper) :=
  if sendOriginal && copyDelegations then lift (Panic "'Cannot revert' must not expect copy of delegations")
  else
    let! vs := gets stateValidators in
    match vs !! addr with
    | Some cached => lift (copyValidatorWrapperIfNeeded cached sendOriginal)
    | None =>
        let! by_ := GetCode addr in
        match by_ with
        | None | Some [] => stop ErrAddressNotPresent
        | Some by_ =>
            match wrapper_Decode by_ with
            | Err e => stop ("could not decode for: " ++ e)
            | Panic w => lift (Panic w)
            | Ok val =>
                let! _ := modify (fun db => set_stateValidators (<[addr := Some val]> db.(stateValidators)) db) in
                lift (copyValidatorWrapperIfNeeded (Some val) sendOriginal)
            end
        end
    end.

Definition UpdateValidatorWrapper (addr : Address) (val : ValidatorWrapper) : SM DB unit :=
  let! _ := lift (SanityCheck val) in
  let! by_ := lift (wrapper_Encode val) in
  let! _ := SetCode addr (Some by_) true in
  modify (fun db => set_stateValidators (<[addr := Some val]> db.(stateValidators)) db).

(** [ValidatorWrapper] where an absent validator gives nil and no error. *)
Definition wrapper_or_nil (addr : Address) : SM DB (option ValidatorWrapper) := fun db =>
  match ValidatorWrapper_ addr true false db with
  | (db, Err e) => if String.eqb e ErrAddressNotPresent then (db, Ok None) else (db, Err e)
  | r => r
  end.

Definition UpdateValidatorWrapperWithRevert (addr : Address) (val : ValidatorWrapper) : SM DB unit :=
  let! _ := lift (SanityCheck val) in
  let! prev := wrapper_or_nil addr in
  let! _ := UpdateValidatorWrapper addr val in
  journal_append (validatorWrapperChange addr prev).

Definition GetValidatorFirstElectionEpoch (addr : Address) : SM DB Z :=
  let! so := getStateObject addr in
  match so with
  | None => lift (Panic nil_deref)
  | Some _ => on_object addr (obj_GetState FirstElectionEpochKey)
  end.
Definition BigToHash (b : Z) : Z := Z.abs b mod 2 ^ 256.
Definition SetValidatorFirstElectionEpoch (addr : Address) (epoch : Z) : SM DB unit :=
  let! firstEpoch := GetValidatorFirstElectionEpoch addr in
  if Big.Uint64 firstEpoch =? 0 then SetState addr FirstElectionEpochKey (BigToHash epoch) else mret tt.
Definition SetValidatorFlag (addr : Address) : SM DB unit := SetState addr IsValidatorKey IsValidatorValue.
Definition UnsetValidatorFlag (addr : Address) : SM DB unit := SetState addr IsValidatorKey 0.

(** *** Rewards *)

(** [Delegations[i].Reward.Add(Delegations[i].Reward, amount)] *)
Definition add_reward_at (i : nat) (amount : Z) : SM ValidatorWrapper unit := fun w =>
  match w.(Delegations) !! i with
  | None => (w, Panic "index out of range")
  | Some d =>
      (mkWrapper_ w.(validator)
         (<[i := mkDelegation d.(DelegatorAddress) d.(Amount) (d.(Reward) + amount) d.(Undelegations)]> w.(Delegations))
         w.(Counters) w.(BlockReward), Ok tt)
  end.
Definition add_block_reward (reward : Z) (w : ValidatorWrapper) : ValidatorWrapper :=
  mkWrapper_ w.(validator) w.(Delegations) w.(Counters) (w.(BlockReward) + reward).

(** The loop over the snapshot's delegations; a delegator without a share ends
    the whole call, with [Ok None]. *)
Fixpoint pay_delegators (shareLookup : gmap Address Dec) (total : Z) (i : nat) (ds : list Delegation) (rewardPool : Z)
    : SM ValidatorWrapper (option Z) :=
  match ds with
  | [] => mret (Some rewardPool)
  | delegation :: ds =>
      match shareLookup !! delegation.(DelegatorAddress) with
      | None => mret None
      | Some percentage =>
          let! share := lift (MulInt percentage total) in
          let rewardInt := RoundInt share in
          let! _ := add_reward_at i rewardInt in
          pay_delegators shareLookup total (S i) ds (rewardPool - rewardInt)
      end
  end.

Definition commission_of (snapshot : ValidatorWrapper) (reward : Z) : outcome Z :=
  let r := snapshot.(validator).(commission).(rates).(Rate) in
  if GT r ZeroDec then let! c := MulInt r reward in Ok (RoundInt c) else Ok 0.

Definition distribute (snapshot : ValidatorWrapper) (reward : Z) (shareLookup : gmap Address Dec) : SM ValidatorWrapper unit :=
  let! _ := modify (add_block_reward reward) in
  let! commissionInt := lift (commission_of snapshot reward) in
  let! _ := sm_when (GT snapshot.(validator).(commission).(rates).(Rate) ZeroDec) (add_reward_at 0 commissionInt) in
  let rewardPool := reward - commissionInt in
  let! rest := pay_delegators shareLookup rewardPool 0 snapshot.(Delegations) rewardPool in
  match rest with
  | None => mret tt
  | Some rewardPool => sm_when (0 <? rewardPool) (add_reward_at 0 rewardPool)
  end.

Definition AddReward (snapshot : ValidatorWrapper) (reward : Z) (shareLookup : gmap Address Dec) : SM DB unit :=
  if reward =? 0 then mret tt
  else fun db =>
    let a := snapshot.(validator).(vAddress) in
    match ValidatorWrapper_ a true false db with
    | (db, Err e) => (db, Err ("failed to distribute rewards: validator does not exist: " ++ e))
    | (db, Panic w) => (db, Panic w)
    | (db, Ok None) => (db, Panic nil_deref)
    | (db, Ok (Some curValidator)) =>
        if decide (curValidator.(validator).(Validator.Status) = Banned) then (db, Ok tt)
        else
          let '(w, r) := distribute snapshot reward shareLookup curValidator in
          (set_stateValidators (<[a := Some w]> db.(stateValidators)) db, r)
    end.

(** ** To the trie *)

Definition walk_set (X : gset Address) : list Address := map fst (walk (gset_to_gmap tt X)).

Definition finalise_wrapper (av : Address * option ValidatorWrapper) : SM DB unit :=
  match av.2 with
  | None => lift (Panic nil_deref)
  | Some wrapper => handled (UpdateValidatorWrapper av.1 wrapper)
  end.

(** What a suicided or empty object is to [Finalise]. *)
Definition to_delete (deleteEmptyObjects : bool) (obj : Object) : bool :=
  obj.(suicided) || (deleteEmptyObjects && empty obj).
Definition finalise_object (deleteEmptyObjects : bool) (addr : Address) (db : DB) : DB :=
  match db.(stateObjects) !! addr with
  | None => db
  | Some obj =>
      let db :=
        if to_delete deleteEmptyObjects obj then
          let db := set_stateObjectsDestruct ({[obj.(address)]} ∪ db.(stateObjectsDestruct))
                      (set_stateObjects (<[addr := with_deleted true obj]> db.(stateObjects)) db) in
          match db.(snap) with
          | None => db
          | Some _ => set_snapStorage (delete obj.(addrHash) db.(snapStorage))
                        (set_snapAccounts (delete obj.(addrHash) db.(snapAccounts)) db)
          end
        else set_stateObjects (<[addr := finalise obj]> db.(stateObjects)) db in
      set_stateObjectsDirty ({[addr]} ∪ db.(stateObjectsDirty))
        (set_stateObjectsPending ({[addr]} ∪ db.(stateObjectsPending)) db)
  end.

Definition Finalise (deleteEmptyObjects : bool) : SM DB unit :=
  let! vs := gets stateValidators in
  let! _ := sm_for (walk vs) finalise_wrapper in
  let! dirty := gets (fun db => map fst (walk db.(journal).(dirties))) in
  let! _ := modify (fun db => foldl (fun db addr => finalise_object deleteEmptyObjects addr db) db dirty) in
  modify clearJournalAndRefund.

Definition setError_if (err : option string) (db : DB) : DB := match err with Some e => setError e db | None => db end.

Definition updateStateObject (obj : Object) (db : DB) : DB :=
  let '(tr, err) := TryUpdateAccount db.(trie) obj.(address) (to_StateAccount obj.(data)) in
  let db := setError_if err (set_trie tr db) in
  match db.(snap) with
  | None => db
  | Some _ => set_snapAccounts (<[obj.(addrHash) := SlimAccountRLP obj.(data)]> db.(snapAccounts)) db
  end.
Definition deleteStateObject (obj : Object) (db : DB) : DB :=
  let '(tr, err) := TryDeleteAccount db.(trie) obj.(address) in setError_if err (set_trie tr db).

(** [db.stateObjects[addr]], whose fields are read at once. *)
Definition live_object (addr : Address) : SM DB Object :=
  let! objs := gets stateObjects in
  match objs !! addr with Some o => mret o | None => lift (Panic nil_deref) end.

Definition root_pending (addr : Address) : SM DB unit :=
  let! obj := live_object addr in
  if obj.(deleted) then mret tt else on_object addr updateRoot.
Definition write_pending (addr : Address) : SM DB unit :=
  let! obj := live_object addr in
  if obj.(deleted)
  then modify (fun db => set_AccountDeleted (db.(AccountDeleted) + 1) (deleteStateObject obj db))
  else modify (fun db => set_AccountUpdated (db.(AccountUpdated) + 1) (updateStateObject obj db)).

Definition IntermediateRoot (deleteEmptyObjects : bool) : SM DB Z :=
  let! _ := Finalise deleteEmptyObjects in
  let! pending := gets (fun db => walk_set db.(stateObjectsPending)) in
  let! _ := sm_for pending root_pending in
  let! pending := gets (fun db => walk_set db.(stateObjectsPending)) in
  let! _ := sm_for pending write_pending in
  let! _ := modify (set_stateObjectsPending ∅) in
  gets (fun db => Trie_Hash db.(trie)).

(** The batch of code to write, and the nodes collected. *)
Record Batch := mkBatch { codeWriter : Disk; nodes : MergedNodeSet }.
Definition merge_nodes (set : option NodeSet) (b : Batch) : outcome Batch :=
  match set with
  | None => Ok b
  | Some s => let '(m, err) := Merge b.(nodes) s in
              match err with Some e => Err e | None => Ok (mkBatch b.(codeWriter) m) end
  end.
Definition write_code (obj : Object) (b : Batch) : Batch :=
  match obj.(code) with
  | Some c => if obj.(dirtyCode)
              then mkBatch ((if obj.(validatorWrapper) then WriteValidatorCode else WriteCode) obj.(data).(CodeHash) c b.(codeWriter))
                     b.(nodes)
              else b
  | None => b
  end.
Definition clean_code (obj : Object) : Object :=
  match obj.(code) with Some _ => if obj.(dirtyCode) then with_dirtyCode false obj else obj | None => obj end.
Fixpoint commit_objects (l : list Address) (b : Batch) : SM DB Batch :=
  match l with
  | [] => mret b
  | addr :: l =>
      let! obj := live_object addr in
      if obj.(deleted) then commit_objects l b
      else
        let! _ := on_object_ addr clean_code in
        let! set := on_object addr commitTrie in
        let! b := lift (merge_nodes set (write_code obj b)) in
        commit_objects l b
  end.

Definition convertAccountSet (db : DB) (set : gset Address) : gset Z :=
  set_map (fun addr => match db.(stateObjects) !! addr with
                       | None => Keccak256Hash (address_bytes addr)
                       | Some obj => obj.(addrHash) end) set.

(** Both errors of the snapshot tree are only logged. *)
Definition commit_snapshot (root : Z) (db : DB) : DB :=
  match db.(snap) with
  | None => db
  | Some sn =>
      let db := match db.(snaps) with
                | Some t => if snap_Root sn =? root then db
                            else set_snaps (Some (fst (tree_Cap (fst (tree_Update t root (snap_Root sn)
                                   (convertAccountSet db db.(stateObjectsDestruct)) db.(snapAccounts) db.(snapStorage)))
                                   root 128))) db
                | None => db
                end in
      set_snapStorage ∅ (set_snapAccounts ∅ (set_snap None db))
  end.

Definition or_empty (root : Z) : Z := if root =? 0 then EmptyRootHash else root.

Definition update_triedb (root : Z) (b : Batch) : SM DB Z :=
  let! db := gets Datatypes.id in
  if root =? or_empty db.(originalRoot) then mret root
  else
    let '(tdb, err) := TrieDB_Update db.(triedb) b.(nodes) in
    let! _ := modify (set_triedb tdb) in
    match err with
    | Some e => stop e
    | None => let! _ := modify (set_originalRoot root) in mret root
    end.

Definition Commit (deleteEmptyObjects : bool) : SM DB Z :=
  let! err := gets dbErr in
  match err with
  | Some e => stop ("commit aborted due to earlier error: " ++ e)
  | None =>
      let! _ := IntermediateRoot deleteEmptyObjects in
      let! l := gets (fun db => walk_set db.(stateObjectsDirty)) in
      let! b := commit_objects l (mkBatch ∅ NewMergedNodeSet) in
      let! _ := modify (set_stateObjectsDirty ∅) in
      let! _ := modify (fun db => set_disk (b.(codeWriter) ∪ db.(disk)) db) in
      let! tr := gets trie in
      let '(tr, (root, set)) := Trie_Commit tr true in
      let! _ := modify (set_trie tr) in
      let! b := lift (merge_nodes set b) in
      let! _ := modify (commit_snapshot root) in
      let! _ := modify (set_stateObjectsDestruct ∅) in
      update_triedb (or_empty root) b
  end.

(** ** Copying *)

Definition copy_objects (from : gmap Address Object) (addrs : list Address) (acc : gmap Address Object)
    : outcome (gmap Address Object) :=
  foldM (fun acc addr =>
    match acc !! addr with
    | Some _ => Ok acc
    | None => match from !! addr with
              | Some o => Ok (<[addr := deepCopy o]> acc)
              | None => Panic nil_deref
              end
    end) addrs acc.

(** The objects of the journal's dirty accounts. *)
Definition dirty_objects (db : DB) : gmap Address Object :=
  deepCopy <$> filter (fun ao => is_Some (db.(journal).(dirties) !! ao.1)) db.(stateObjects).

Definition copy_wrappers (vs : gmap Address (option ValidatorWrapper)) : outcome (gmap Address (option ValidatorWrapper)) :=
  if bool_decide (map_Forall (fun _ w => is_Some w) vs) then Ok vs else Panic nil_deref.

Definition DB_Copy (db : DB) : outcome DB :=
  let dirty := dirty_objects db in
  let! objs := copy_objects db.(stateObjects) (walk_set db.(stateObjectsPending)) dirty in
  let! objs := copy_objects db.(stateObjects) (walk_set db.(stateObjectsDirty)) objs in
  let! vs := copy_wrappers db.(stateValidators) in
  Ok (mkDB db.(disk) db.(triedb) db.(trie) db.(originalRoot) db.(snaps)
        (match db.(snaps) with Some _ => db.(snap) | None => None end)
        (match db.(snaps) with Some _ => db.(snapAccounts) | None => ∅ end)
        (match db.(snaps) with Some _ => db.(snapStorage) | None => ∅ end)
        objs (dom dirty ∪ db.(stateObjectsPending)) (dom dirty ∪ db.(stateObjectsDirty)) db.(stateObjectsDestruct)
        vs None db.(refund) 0 0 0 0 db.(logs) db.(logSize) db.(preimages) (AccessList.Copy db.(acl)) db.(transient)
        newJournal [] 0 0 0 0 0).

End statedb.
