(* ===== verification/StateView.v ===== *)
(** * What a state database shows

    Reading caches: it loads objects, slots, tries and code.  The functions
    [acct], [committed], [slot_of] and [code_of] give what a read returns without
    the caching; two states that agree on them are [sim]ilar, and every getter
    answers the same in similar states ([sim_answers]). *)
From S2P Require Import Prelude Dec Bls Effective Delegation Validator Header CXReceipt Receipt AccessList StateObject StateDB.
Local Open Scope Z_scope.

Create Rewrite HintDb om.

Section view.
Context {H : Hashes} {SL : StateLib} {VR : WrapperRLP} {W : Walk}.
Implicit Types (a : Address) (s db : DB) (o : Object).

(** ** Reading without caching *)

Definition enc_of s o key : outcome (list Z) :=
  let from_trie := let! tr := match o.(obj_trie) with
                              | Some tr => Ok tr
                              | None => NewStorageTrie s.(triedb) s.(originalRoot) o.(addrHash) o.(data).(Root)
                              end in TryGet tr key in
  match s.(snap) with
  | None => from_trie
  | Some sn => match snap_Storage sn o.(addrHash) (Keccak256Hash (hash_bytes key)) with
               | Ok enc => Ok enc
               | Err _ => from_trie
               | Panic w => Panic w
               end
  end.
Definition committed s o key : outcome Z :=
  match o.(pendingStorage) !! key, o.(originStorage) !! key with
  | Some v, _ => Ok v
  | None, Some v => Ok v
  | None, None =>
      if bool_decide (o.(address) ∈ s.(stateObjectsDestruct)) then Ok 0
      else match enc_of s o key with Ok enc => fst (decode_slot enc) | Err _ => Ok 0 | Panic w => Panic w end
  end.
Definition slot_of s o key : outcome Z :=
  match o.(dirtyStorage) !! key with Some v => Ok v | None => committed s o key end.
Definition code_of s o : option (list Z) :=
  match o.(code) with
  | Some c => Some c
  | None =>
      let hash := o.(data).(CodeHash) in
      if hash =? EmptyCodeHash then None
      else
        match (if o.(validatorWrapper) then Err "" else ContractCode s.(disk) hash) with
        | Ok c => Some c
        | _ => match ValidatorCode s.(disk) hash with
               | Ok c => Some c
               | _ => if o.(validatorWrapper) then Some [] else None
               end
        end
  end.
Definition acct s a : outcome (option Object) :=
  match s.(stateObjects) !! a with
  | Some o => Ok (Some o)
  | None => match read_account s a with
            | Ok (Some d) => Ok (Some (newObject a d))
            | Ok None | Err _ => Ok None
            | Panic w => Panic w
            end
  end.

(** A validator's code that is not loaded is read from the database. *)
Definition unloaded o : bool :=
  o.(validatorWrapper) && bool_decide (o.(code) = None) && negb (o.(data).(CodeHash) =? EmptyCodeHash).

(** ** Similar objects and states *)

Record oeq s o o' : Prop := {
  oeq_address : address o = address o';
  oeq_nonce : Nonce (data o) = Nonce (data o');
  oeq_balance : Balance (data o) = Balance (data o');
  oeq_hash : CodeHash (data o) = CodeHash (data o');
  oeq_suicided : suicided o = suicided o';
  oeq_deleted : deleted o = deleted o';
  oeq_fake : fakeStorage o = fakeStorage o';
  oeq_unloaded : unloaded o = unloaded o';
  oeq_code : code_of s o = code_of s o';
  oeq_committed key : committed s o key = committed s o' key;
  oeq_slot key : slot_of s o key = slot_of s o' key
}.
#[export] Instance oeq_equiv s : Equivalence (oeq s).
Proof.
  split; [done|by intros ?? []; split|]. intros ??? [] []. split; try congruence; intros key; etransitivity; eauto.
Qed.

Definition aeq s (x y : outcome (option Object)) : Prop :=
  match x, y with
  | Ok (Some o), Ok (Some o') => oeq s o o'
  | Ok None, Ok None => True
  | Panic w, Panic w' => w = w'
  | _, _ => False
  end.
Lemma aeq_refl s s' a : aeq s (acct s' a) (acct s' a).
Proof. unfold aeq. by repeat case_match; simplify_eq; (done || unfold acct in *; repeat case_match). Qed.

(** The part of the state that reading goes to. *)
Record same_env s s' : Prop := {
  env_disk : disk s = disk s';
  env_triedb : triedb s = triedb s';
  env_trie : trie s = trie s';
  env_root : originalRoot s = originalRoot s';
  env_snap : snap s = snap s'
}.
#[export] Instance same_env_equiv : Equivalence same_env.
Proof. split; [done|by intros ?? []; split|]. intros ??? [] []. split; congruence. Qed.

Definition logs_of s h : list Log := map (annotate 0 0) (default [] (logs s !! h)).

Record sim s s' : Prop := {
  sim_env : same_env s s';
  sim_destruct : stateObjectsDestruct s = stateObjectsDestruct s';
  sim_acct a : aeq s (acct s a) (acct s' a);
  sim_refund : refund s = refund s';
  sim_logs h : logs_of s h = logs_of s' h;
  sim_logSize : logSize s = logSize s';
  sim_preimages : preimages s = preimages s';
  sim_acl : acl s = acl s';
  sim_transient a k : tsGet (transient s) a k = tsGet (transient s') a k
}.

(** The readers look at nothing else. *)
Lemma enc_of_env s s' o key : same_env s s' -> enc_of s o key = enc_of s' o key.
Proof. intros []. unfold enc_of. by rewrite env_triedb0, env_root0, env_snap0. Qed.
Lemma committed_env s s' o key : same_env s s' ->
  (address o ∈ stateObjectsDestruct s <-> address o ∈ stateObjectsDestruct s') -> committed s o key = committed s' o key.
Proof.
  intros He Hd. unfold committed. rewrite (enc_of_env s s') by done. by rewrite (bool_decide_ext _ _ Hd).
Qed.
Lemma slot_of_env s s' o key : same_env s s' ->
  (address o ∈ stateObjectsDestruct s <-> address o ∈ stateObjectsDestruct s') -> slot_of s o key = slot_of s' o key.
Proof. intros. unfold slot_of. by rewrite (committed_env s s'). Qed.
Lemma code_of_env s s' o : same_env s s' -> code_of s o = code_of s' o.
Proof. intros []. unfold code_of. by rewrite env_disk0. Qed.
Lemma read_account_env s s' a : same_env s s' -> read_account s a = read_account s' a.
Proof. intros []. unfold read_account. by rewrite env_snap0, env_trie0. Qed.

Lemma oeq_env s s' o o' : same_env s s' ->
  (address o ∈ stateObjectsDestruct s <-> address o ∈ stateObjectsDestruct s') -> oeq s o o' -> oeq s' o o'.
Proof.
  intros He Hd []. assert (address o' ∈ stateObjectsDestruct s <-> address o' ∈ stateObjectsDestruct s') as Hd'
    by (by rewrite <- oeq_address0).
  split; try done; [|intros key..].
  - by rewrite <- !(code_of_env s s').
  - by rewrite <- !(committed_env s s').
  - by rewrite <- !(slot_of_env s s').
Qed.

Lemma aeq_env s s' x y : same_env s s' -> stateObjectsDestruct s = stateObjectsDestruct s' -> aeq s x y -> aeq s' x y.
Proof.
  intros He Hd. unfold aeq. repeat case_match; try done. apply oeq_env; [done|by rewrite Hd].
Qed.

#[export] Instance sim_equiv : Equivalence sim.
Proof.
  split.
  - intros s. split; try done. intros a. apply aeq_refl.
  - intros s s' []. split; try done. intros a. apply (aeq_env s s'); [done|done|].
    specialize (sim_acct0 a). unfold aeq in *. by repeat case_match.
  - intros s1 s2 s3 [] [e ????????]. split; try (etransitivity; eauto).
    intros a. specialize (sim_acct0 a). assert (aeq s1 (acct s2 a) (acct s3 a)) as H2.
    { by apply (aeq_env s2 s1); [by symmetry|by symmetry|]. }
    unfold aeq in *. repeat case_match; simplify_eq; try done. by etransitivity.
Qed.

(** ** Reading is caching *)

Lemma oeq_setError s o e : oeq s o (obj_setError e o).
Proof. unfold obj_setError. by destruct (obj_dbErr o). Qed.

Lemma oeq_trie s o tr : obj_trie o = None ->
  NewStorageTrie (triedb s) (originalRoot s) (addrHash o) (Root (data o)) = Ok tr -> oeq s o (with_obj_trie (Some tr) o).
Proof.
  intros Ho Htr. assert (forall key, enc_of s o key = enc_of s (with_obj_trie (Some tr) o) key) as He.
  { intros key. unfold enc_of. cbn. by rewrite Ho, Htr. }
  assert (forall key, committed s o key = committed s (with_obj_trie (Some tr) o) key) as Hc.
  { intros key. unfold committed. by rewrite He. }
  split; try done. intros key. unfold slot_of. by rewrite Hc.
Qed.

Lemma oeq_origin s o key v : pendingStorage o !! key = None -> originStorage o !! key = None ->
  committed s o key = Ok v -> oeq s o (with_originStorage (<[key := v]> (originStorage o)) o).
Proof.
  intros Hp Ho Hc.
  assert (forall k, committed s o k = committed s (with_originStorage (<[key := v]> (originStorage o)) o) k) as Hk.
  { intros k. destruct (decide (k = key)) as [->|Hne].
    - rewrite Hc. unfold committed. cbn. by rewrite Hp, lookup_insert_eq.
    - unfold committed. cbn. by rewrite lookup_insert_ne by done. }
  split; try done. intros k. unfold slot_of. by rewrite Hk.
Qed.

Lemma oeq_code_cached s o c : unloaded o = false -> code o = None -> code_of s o = c -> oeq s o (with_code c o).
Proof.
  intros Hu Ho Hc. split; try done.
  - rewrite Hu. unfold unloaded in *. cbn. rewrite Ho in Hu. rewrite bool_decide_true, andb_true_r in Hu by done.
    destruct (validatorWrapper o), (bool_decide (c = None)); by cbn in *.
  - destruct c as [c|]; [exact Hc|]. unfold code_of. cbn. by rewrite Ho.
Qed.

(** [caching m r]: the database stays, the object stays similar, the answer is [r]. *)
Definition caching {A} (m : OM A) (r : DB -> Object -> outcome A) : Prop :=
  forall o s, fakeStorage o = None -> unloaded o = false ->
  exists o', m (o, s) = ((o', s), r s o) /\ oeq s o o'.

(** Running a method step by step. *)
Lemma bind_self {A} (f : Object -> OM A) o s : mbind f self (o, s) = f o (o, s).
Proof. done. Qed.
Lemma bind_the_db {A} (f : DB -> OM A) o s : mbind f the_db (o, s) = f s (o, s).
Proof. done. Qed.
Lemma bind_omod {A} (f : unit -> OM A) g o s : mbind f (omod g) (o, s) = f tt (g o, s).
Proof. done. Qed.
Lemma bind_dmod {A} (f : unit -> OM A) g o s : mbind f (dmod g) (o, s) = f tt (o, g s).
Proof. done. Qed.
Lemma bind_SM {St A B} (m : SM St A) (f : A -> SM St B) st st' r : m st = (st', r) ->
  mbind f m st = match r with Ok a => f a st' | Err e => (st', Err e) | Panic w => (st', Panic w) end.
Proof. intros E. unfold mbind, SM_bind. rewrite E. by destruct r. Qed.
#[local] Hint Rewrite @bind_self @bind_the_db @bind_omod @bind_dmod @bind_ret : om.

Lemma Code_caching : caching Code (fun s o => Ok (code_of s o)).
Proof.
  intros o s _ Hu. unfold Code. autorewrite with om.
  destruct (code o) as [c|] eqn:Ec.
  { exists o. split; [|done]. unfold code_of. by rewrite Ec. }
  destruct (CodeHash (data o) =? EmptyCodeHash) eqn:Eh.
  { exists o. split; [|done]. unfold code_of. by rewrite Ec, Eh. }
  assert (validatorWrapper o = false) as Ev.
  { unfold unloaded in Hu. rewrite Ec, Eh in Hu. by destruct (validatorWrapper o). }
  pose proof (oeq_code_cached s o _ Hu Ec eq_refl) as Ho. autorewrite with om.
  assert (code_of s o = match ContractCode (disk s) (CodeHash (data o)) with
    | Ok c => Some c
    | _ => match ValidatorCode (disk s) (CodeHash (data o)) with Ok c => Some c | _ => None end end) as Hc.
  { unfold code_of. by rewrite Ec, Eh, Ev. }
  rewrite Hc in Ho |- *. rewrite Ev.
  destruct (ContractCode _ _) as [c| |]; [eexists; by split|..];
    (destruct (ValidatorCode _ _) as [c| |]; [eexists; by split|..]);
    (eexists; split; [done|]); (etransitivity; [apply (oeq_setError s o no_code)|]);
    (apply oeq_code_cached; unfold obj_setError; by case_match).
Qed.

Lemma getTrie_caching : forall o s, exists o',
  getTrie (o, s) = ((o', s), match o.(obj_trie) with
                             | Some tr => Ok tr
                             | None => NewStorageTrie s.(triedb) s.(originalRoot) o.(addrHash) o.(data).(Root)
                             end) /\ oeq s o o' /\ o' = with_obj_trie (obj_trie o') o.
Proof.
  intros o s. unfold getTrie. autorewrite with om. destruct (obj_trie o) as [tr|] eqn:Et.
  { exists o. split_and!; [done|done|]. rewrite Et. destruct o. cbn in *. by subst. }
  autorewrite with om. destruct (NewStorageTrie _ _ _ _) as [tr|e|w] eqn:En.
  - eexists. split_and!; [done|by apply oeq_trie|done].
  - exists o. split_and!; [done|done|]. rewrite Et. destruct o. cbn in *. by subst.
  - exists o. split_and!; [done|done|]. rewrite Et. destruct o. cbn in *. by subst.
Qed.

Lemma storage_enc_caching o s key : exists o',
  storage_enc key (o, s) = ((o', s), enc_of s o key) /\ oeq s o o' /\ o' = with_obj_trie (obj_trie o') o.
Proof.
  assert (exists o', (let! tr := getTrie in lift (TryGet tr key)) (o, s) = ((o', s),
    let! tr := match o.(obj_trie) with
               | Some tr => Ok tr
               | None => NewStorageTrie s.(triedb) s.(originalRoot) o.(addrHash) o.(data).(Root)
               end in TryGet tr key) /\ oeq s o o' /\ o' = with_obj_trie (obj_trie o') o) as Ht.
  { destruct (getTrie_caching o s) as (o' & E & Ho & Ho'). exists o'. split; [|done].
    rewrite (bind_SM _ _ _ _ _ E). by destruct (match obj_trie o with Some _ => _ | None => _ end). }
  unfold storage_enc, enc_of. autorewrite with om. destruct (snap s) as [sn|]; [|exact Ht].
  destruct (snap_Storage _ _ _) as [enc|e|w]; [|exact Ht|];
    (exists o; split_and!; [done|done|]; by destruct o).
Qed.

Lemma GetCommittedState_caching key : caching (obj_GetCommittedState key) (fun s o => committed s o key).
Proof.
  intros o s Hf Hu. unfold obj_GetCommittedState. autorewrite with om. rewrite Hf.
  destruct (pendingStorage o !! key) as [v|] eqn:Ep.
  { exists o. split; [|done]. unfold committed. by rewrite Ep. }
  destruct (originStorage o !! key) as [v|] eqn:Eo.
  { exists o. split; [|done]. unfold committed. by rewrite Ep, Eo. }
  autorewrite with om. destruct (bool_decide (address o ∈ stateObjectsDestruct s)) eqn:Ed.
  { exists o. split; [|done]. unfold committed. by rewrite Ep, Eo, Ed. }
  assert (committed s o key = match enc_of s o key with
    | Ok enc => fst (decode_slot enc) | Err _ => Ok 0 | Panic w => Panic w end) as Hc.
  { unfold committed. by rewrite Ep, Eo, Ed. }
  destruct (storage_enc_caching o s key) as (o1 & E & Ho & Ho1). rewrite Hc.
  unfold or_setError. rewrite (bind_SM _ _ _ _ _ E). destruct (enc_of s o key) as [enc|e|w].
  2:{ eexists. split; [done|]. etransitivity; [exact Ho|apply oeq_setError]. }
  2:{ by exists o1. }
  set (o2 := match snd (decode_slot enc) with Some e => obj_setError e o1 | None => o1 end).
  assert (oeq s o o2) as Ho2.
  { unfold o2. case_match; [|done]. etransitivity; [exact Ho|apply oeq_setError]. }
  assert (pendingStorage o2 !! key = None /\ originStorage o2 !! key = None) as [Hp2 Hor2].
  { unfold o2, obj_setError. rewrite Ho1 in *. repeat case_match; by cbn. }
  assert (forall v, fst (decode_slot enc) = Ok v ->
    oeq s o (with_originStorage (<[key := v]> (originStorage o2)) o2)) as Hfin.
  { intros v Hv. etransitivity; [exact Ho2|]. apply oeq_origin; [done|done|].
    by rewrite <- (oeq_committed _ _ _ Ho2), Hc. }
  unfold o2 in *. clear o2 Ho2 Hp2 Hor2. unfold decode_slot in *.
  destruct enc as [|b enc]; [by eexists; split; [|by apply Hfin]|].
  destruct (rlp_Split (b :: enc)) as [content|e|w]; cbn in Hfin |- *.
  - by eexists; split; [|by apply Hfin].
  - by eexists; split; [|by apply Hfin].
  - by exists o1.
Qed.

Lemma GetState_caching key : caching (obj_GetState key) (fun s o => slot_of s o key).
Proof.
  intros o s Hf Hu. unfold obj_GetState. autorewrite with om. rewrite Hf. unfold slot_of.
  destruct (dirtyStorage o !! key) as [v|]; [by exists o|].
  by destruct (GetCommittedState_caching key o s Hf Hu) as (o' & E & Ho); exists o'.
Qed.

End view.
#[export] Hint Rewrite @bind_self @bind_the_db @bind_omod @bind_dmod @bind_ret : om.
