(* ===== verification/StateJournal.v ===== *)
(** * Undoing the journal

    [good_step s s' es]: going from [s] to [s'] appended the entries [es], and
    reverting them gives a state similar to [s].  Reverting respects similarity
    ([undo_sim]), so steps compose ([good_step_trans]); every method of the
    database that a transaction uses is a good step. *)
From S2P Require Import Prelude Dec Bls Effective Delegation Validator Header CXReceipt Receipt AccessList StateObject StateDB StateView.
Local Open Scope Z_scope.

Section journal.
Context {H : Hashes} {SL : StateLib} {VR : WrapperRLP} {W : Walk}.
Implicit Types (a : Address) (s db : DB) (o : Object) (e : journalEntry).

(** ** Well-formed states *)

Record obj_ok a o : Prop := {
  ok_address : address o = a;
  ok_fake : fakeStorage o = None;
  ok_unloaded : unloaded o = false
}.
Record wf s : Prop := {
  wf_objs : map_Forall obj_ok (stateObjects s);
  wf_acl : al_wf (acl s);
  wf_logSize : 0 <= logSize s < 2 ^ 64
}.
Definition addr_ok s : Prop := map_Forall (fun a o => address o = a) (stateObjects s).
Lemma wf_addr_ok s : wf s -> addr_ok s.
Proof. intros [Ho _ _] a o Ha. by destruct (Ho a o Ha). Qed.

Lemma newObject_ok a d : obj_ok a (newObject a d).
Proof. done. Qed.
Lemma acct_ok s a o : wf s -> acct s a = Ok (Some o) -> obj_ok a o.
Proof.
  intros [Ho _ _]. unfold acct. destruct (stateObjects s !! a) as [o'|] eqn:E.
  - intros [= <-]. by apply Ho.
  - repeat case_match; intros; simplify_eq. apply newObject_ok.
Qed.
Lemma acct_live s a o : stateObjects s !! a = Some o -> acct s a = Ok (Some o).
Proof. unfold acct. by intros ->. Qed.
Lemma oeq_ok s a o o' : oeq s o o' -> obj_ok a o -> obj_ok a o'.
Proof. intros [] []. split; congruence. Qed.

Lemma wf_sim s s' : sim s s' -> wf s -> wf s'.
Proof.
  intros Hs Hw. split.
  - intros a o' Ha. pose proof (sim_acct _ _ Hs a) as Hx. rewrite (acct_live s' a o' Ha) in Hx.
    destruct (acct s a) as [[o|]| |] eqn:E; try done. eapply oeq_ok; [exact Hx|]. by eapply acct_ok.
  - rewrite <- (sim_acl _ _ Hs). apply Hw.
  - rewrite <- (sim_logSize _ _ Hs). apply Hw.
Qed.

(** ** States that differ in their objects or their bookkeeping *)

(** Everything but objects and bookkeeping. *)
Record same_rest s s' : Prop := {
  rest_env : same_env s s';
  rest_destruct : stateObjectsDestruct s = stateObjectsDestruct s';
  rest_refund : refund s = refund s';
  rest_logs : logs s = logs s';
  rest_logSize : logSize s = logSize s';
  rest_preimages : preimages s = preimages s';
  rest_acl : acl s = acl s';
  rest_transient : transient s = transient s'
}.
Lemma sim_rest s s' : same_rest s s' -> (forall a, aeq s (acct s a) (acct s' a)) -> sim s s'.
Proof. intros [] Ha. split; try done. - intros h. unfold logs_of. by rewrite rest_logs0. - intros ??. by rewrite rest_transient0. Qed.

Lemma aeq_objs s s' a : same_env s s' -> stateObjects s !! a = stateObjects s' !! a -> aeq s (acct s a) (acct s' a).
Proof. intros He Ho. unfold acct. rewrite Ho, (read_account_env s s' a He). apply (aeq_refl s s'). Qed.

Lemma sim_same_objs s s' : same_rest s s' -> stateObjects s = stateObjects s' -> sim s s'.
Proof. intros Hr Ho. apply sim_rest; [done|]. intros a. apply aeq_objs; [apply Hr|by rewrite Ho]. Qed.

(** An object replaced by, or first cached as, a similar one. *)
Lemma sim_insert s s' a o o' : same_rest s s' -> acct s a = Ok (Some o) -> oeq s o o' ->
  stateObjects s' = <[a := o']> (stateObjects s) -> sim s s'.
Proof.
  intros Hr Ha Ho Hs. apply sim_rest; [done|]. intros b. destruct (decide (a = b)) as [<-|Hne].
  - rewrite Ha, (acct_live s' a o'); [done|]. by rewrite Hs, lookup_insert_eq.
  - apply aeq_objs; [apply Hr|]. by rewrite Hs, lookup_insert_ne.
Qed.

(** ** Steps *)

Definition undo (es : list journalEntry) : SM DB unit := sm_for (rev es) revert_entry.

Record grows s s' (es : list journalEntry) : Prop := {
  gr_entries : entries (journal s') = entries (journal s) ++ es;
  gr_revs : validRevisions s' = validRevisions s;
  gr_next : nextRevisionId s' = nextRevisionId s
}.
Lemma grows_refl s : grows s s [].
Proof. by split; rewrite ?app_nil_r. Qed.
Lemma grows_trans s1 s2 s3 es es' : grows s1 s2 es -> grows s2 s3 es' -> grows s1 s3 (es ++ es').
Proof. intros [] []. split; [|congruence..]. by rewrite gr_entries1, gr_entries0, app_assoc. Qed.

(** How often the entries dirty an address; [touch] counts [ripemd] once more. *)
Definition dirty_count (es : list journalEntry) a : nat := length (List.filter (fun e => bool_decide (dirtied e = Some a)) es).
#[local] Arguments dirty_count : simpl never.
Definition dirties_are (d : gmap Address Z) (es : list journalEntry) : Prop :=
  forall a, a <> ripemd -> d !! a = match dirty_count es a with 0%nat => None | n => Some (Z.of_nat n) end.
Definition jwf (j : Journal) : Prop := dirties_are j.(dirties) j.(entries).

Lemma dirty_count_app es e a : dirty_count (es ++ [e]) a = (dirty_count es a + if decide (dirtied e = Some a) then 1 else 0)%nat.
Proof.
  unfold dirty_count. rewrite List.filter_app, length_app. f_equal. cbn.
  by destruct (decide (dirtied e = Some a)); [rewrite bool_decide_true|rewrite bool_decide_false].
Qed.

Lemma j_dirty_ripemd j es : dirties_are j.(dirties) es -> dirties_are (j_dirty ripemd j).(dirties) es.
Proof. intros Hj a Ha. cbn. rewrite lookup_insert_ne by done. by apply Hj. Qed.

Lemma j_append_wf e j : jwf j -> jwf (j_append e j).
Proof.
  intros Hj a Ha. unfold jwf, j_append in *. destruct (dirtied e) as [b|] eqn:E; cbn.
  - rewrite dirty_count_app, E. destruct (decide (b = a)) as [->|Hne].
    + rewrite decide_True, lookup_insert_eq, (Hj a Ha) by done.
      destruct (dirty_count (entries j) a) as [|n]; cbn; f_equal; lia.
    + rewrite decide_False, lookup_insert_ne, (Hj a Ha), Nat.add_0_r by congruence. done.
  - rewrite dirty_count_app, E, decide_False, Nat.add_0_r by done. by apply Hj.
Qed.

Lemma drop_dirty_are e d es : dirties_are d (es ++ [e]) ->
  dirties_are (match dirtied e with Some a => drop_dirty a d | None => d end) es.
Proof.
  intros Hd a Ha. specialize (Hd a Ha). rewrite dirty_count_app in Hd. destruct (dirtied e) as [b|].
  - unfold drop_dirty. destruct (decide (b = a)) as [->|Hne].
    + rewrite decide_True in Hd by done. destruct (dirty_count es a) as [|n].
      * rewrite Hd. cbn [Nat.add default from_option]. unfold Datatypes.id.
        destruct (Z.eqb_spec (Z.of_nat 1 - 1) 0); [by rewrite lookup_delete_eq|lia].
      * rewrite Hd. cbn [Nat.add default from_option]. unfold Datatypes.id.
        destruct (Z.eqb_spec (Z.of_nat (S (n + 1)) - 1) 0); [lia|]. rewrite lookup_insert_eq. f_equal. lia.
    + rewrite decide_False, Nat.add_0_r in Hd by congruence. rewrite <- Hd.
      destruct (_ =? 0); [by rewrite lookup_delete_ne|by rewrite lookup_insert_ne].
  - by rewrite decide_False, Nat.add_0_r in Hd.
Qed.

Record good_step s s' (es : list journalEntry) : Prop := {
  gs_grows : grows s s' es;
  gs_jwf : jwf (journal s) -> jwf (journal s');
  gs_wf : wf s';
  gs_undo : exists s'', undo es s' = (s'', Ok tt) /\ sim s s''
}.

(** A step that changes nothing a getter shows. *)
Record quiet s s' : Prop := {
  q_sim : sim s s';
  q_journal : journal s' = journal s;
  q_revs : validRevisions s' = validRevisions s;
  q_next : nextRevisionId s' = nextRevisionId s
}.
Lemma quiet_refl s : quiet s s.
Proof. done. Qed.
Lemma quiet_trans s1 s2 s3 : quiet s1 s2 -> quiet s2 s3 -> quiet s1 s3.
Proof. intros [] []. split; [by etransitivity|congruence..]. Qed.
Lemma quiet_good s s' : wf s -> quiet s s' -> good_step s s' [].
Proof.
  intros Hw []. split; [split; rewrite ?app_nil_r; congruence|by rewrite q_journal0|by eapply wf_sim|].
  by exists s'.
Qed.

(** ** Reverting respects similarity *)

Lemma getDeleted_spec s a : exists s', getDeletedStateObject a s = (s', acct s a) /\ quiet s s' /\
  (forall o, acct s a = Ok (Some o) -> stateObjects s' !! a = Some o) /\
  (acct s a = Ok None -> stateObjects s' !! a = None) /\ (addr_ok s -> addr_ok s').
Proof.
  unfold getDeletedStateObject, acct. destruct (stateObjects s !! a) as [o|] eqn:E.
  { exists s. split_and!; [done|done|by intros ? [= <-]|done|done]. }
  destruct (read_account s a) as [[d|]|err|w] eqn:Er.
  - eexists. split_and!; [done| |cbn; intros o [= <-]; by rewrite lookup_insert_eq|done|].
    2:{ intros Hs. by apply map_Forall_insert_2. }
    split; try done. eapply (sim_insert s _ a (newObject a d)); [done| |done|done].
    unfold acct. by rewrite E, Er.
  - by exists s.
  - eexists. split_and!; [done| |done|intros _; unfold setError; by destruct (dbErr s)|unfold setError; by destruct (dbErr s)].
    unfold setError. destruct (dbErr s); by split; [apply sim_same_objs|..].
  - by exists s.
Qed.

Lemma getStateObject_spec s a : exists s',
  getStateObject a s = (s', match acct s a with
                            | Ok (Some o) => Ok (if deleted o then None else Some o)
                            | Ok None => Ok None | Err e => Err e | Panic w => Panic w end) /\ quiet s s' /\
  (forall o, acct s a = Ok (Some o) -> stateObjects s' !! a = Some o) /\
  (acct s a = Ok None -> stateObjects s' !! a = None) /\ (addr_ok s -> addr_ok s').
Proof.
  destruct (getDeleted_spec s a) as (s' & E & Hq & Ho & Hn & Hok). exists s'. split_and!; [|done..].
  unfold getStateObject. rewrite (bind_SM _ _ _ _ _ E). by destruct (acct s a) as [[o|]| |].
Qed.

Lemma on_object_run {A} a (m : OM A) s o o' s' r : stateObjects s !! a = Some o -> m (o, s) = ((o', s'), r) ->
  on_object a m s = (set_stateObjects (<[a := o']> (stateObjects s')) s', r).
Proof. intros Ho E. unfold on_object. by rewrite Ho, E. Qed.

(** [on_account] succeeds exactly on a live account. *)
Lemma on_account_spec s a f : exists s1, quiet s s1 /\
  (forall o, acct s a = Ok (Some o) -> stateObjects s1 !! a = Some o) /\ (addr_ok s -> addr_ok s1) /\
  on_account a f s = match acct s a with
    | Ok (Some o) => if deleted o then (s1, Panic nil_deref)
                     else (set_stateObjects (<[a := f o]> (stateObjects s1)) s1, Ok tt)
    | Ok None => (s1, Panic nil_deref)
    | Err e => (s1, Err e)
    | Panic w => (s1, Panic w)
    end.
Proof.
  destruct (getStateObject_spec s a) as (s1 & E & Hq & Ho & Hn & Hok). exists s1. split_and!; [done..|].
  unfold on_account. rewrite (bind_SM _ _ _ _ _ E). destruct (acct s a) as [[o|]| |] eqn:Ea; try done.
  destruct (deleted o); [done|]. unfold on_object_. by rewrite (on_object_run a _ s1 o _ _ _ (Ho o eq_refl) eq_refl).
Qed.

(** A change of an object that respects similarity. *)
Class Updates (f : Object -> Object) : Prop := {
  upd_oeq s o o' : oeq s o o' -> oeq s (f o) (f o');
  upd_address o : address (f o) = address o
}.
#[local] Instance setBalance_Updates v : Updates (setBalance v).
Proof. by split; [intros s o o' []; split|]. Qed.
#[local] Instance setNonce_Updates v : Updates (setNonce v).
Proof. by split; [intros s o o' []; split|]. Qed.
#[local] Instance setCode_Updates h c b : Updates (setCode h c b).
Proof. by split; [intros s o o' []; split|]. Qed.
#[local] Instance setState_Updates k v : Updates (setState k v).
Proof.
  split; [|done]. intros s o o' Ho. split; try apply Ho. intros key. pose proof (oeq_slot _ _ _ Ho key) as Hk.
  unfold slot_of in *. cbn. destruct (decide (k = key)) as [<-|Hne]; [by rewrite !lookup_insert_eq|].
  by rewrite !lookup_insert_ne.
Qed.
#[local] Instance suicide_Updates b v : Updates (fun o => setBalance v (with_suicided b o)).
Proof. by split; [intros s o o' []; split|]. Qed.

Lemma sim_insert2 s1 s2 a o o' : sim s1 s2 -> oeq s1 o o' ->
  sim (set_stateObjects (<[a := o]> (stateObjects s1)) s1) (set_stateObjects (<[a := o']> (stateObjects s2)) s2).
Proof.
  intros Hs Ho. set (t1 := set_stateObjects _ s1). set (t2 := set_stateObjects _ s2).
  assert (same_env s1 t1 /\ same_env s2 t2) as [E1 E2] by (split; split; reflexivity). destruct Hs as [He Hd Ha ??????]. split; try done.
  { etransitivity; [symmetry; exact E1|]. etransitivity; [exact He|exact E2]. }
  intros b. apply (aeq_env s1); [done|done|]. unfold acct. cbn. destruct (decide (a = b)) as [<-|Hne].
  - by rewrite !lookup_insert_eq.
  - rewrite !lookup_insert_ne by done. rewrite <- (read_account_env s1 t1), <- (read_account_env s2 t2) by done. exact (Ha b).
Qed.
Lemma sim_acct_live s1 s2 a o : sim s1 s2 -> acct s1 a = Ok (Some o) -> exists o', acct s2 a = Ok (Some o') /\ oeq s1 o o'.
Proof. intros Hs Ha. pose proof (sim_acct _ _ Hs a) as Hx. rewrite Ha in Hx. destruct (acct s2 a) as [[o'|]| |]; try done. by exists o'. Qed.

Definition reverts_alike (m : SM DB unit) : Prop := forall s1 s2 s1',
  sim s1 s2 -> addr_ok s1 -> addr_ok s2 -> m s1 = (s1', Ok tt) ->
  exists s2', m s2 = (s2', Ok tt) /\ sim s1' s2' /\ addr_ok s1' /\ addr_ok s2'.

Lemma addr_ok_insert s a o : addr_ok s -> address o = a -> addr_ok (set_stateObjects (<[a := o]> (stateObjects s)) s).
Proof. intros Hs <-. by apply map_Forall_insert_2. Qed.
Lemma acct_address s a o : addr_ok s -> acct s a = Ok (Some o) -> address o = a.
Proof.
  intros Hs. unfold acct. destruct (stateObjects s !! a) as [o'|] eqn:E; [intros [= <-]; by apply Hs|].
  repeat case_match; intros; by simplify_eq.
Qed.

Lemma on_account_alike a f : Updates f -> reverts_alike (on_account a f).
Proof.
  intros Hf s1 s2 s1' Hs A1 A2 E1.
  destruct (on_account_spec s1 a f) as (t1 & Q1 & L1 & K1 & E1'). rewrite E1' in E1. clear E1'.
  destruct (acct s1 a) as [[o|]| |] eqn:Ea; try done. destruct (deleted o) eqn:Ed; [done|]. injection E1 as <-.
  destruct (sim_acct_live s1 s2 a o Hs Ea) as (o' & Ea' & Ho).
  destruct (on_account_spec s2 a f) as (t2 & Q2 & L2 & K2 & E2). rewrite Ea', <- (oeq_deleted _ _ _ Ho), Ed in E2.
  eexists. split; [exact E2|]. assert (sim t1 t2) as Ht.
  { etransitivity; [symmetry; apply Q1|]. etransitivity; [exact Hs|apply Q2]. }
  split_and!.
  - apply sim_insert2; [done|]. apply Hf. apply (oeq_env s1); [apply Q1|by rewrite (sim_destruct _ _ (q_sim _ _ Q1))|done].
  - apply addr_ok_insert; [by apply K1|]. rewrite upd_address. exact (acct_address s1 a o A1 Ea).
  - apply addr_ok_insert; [by apply K2|]. rewrite upd_address. exact (acct_address s2 a o' A2 Ea').
Qed.

Lemma suicide_alike a b v : reverts_alike (revert (suicideChange a b v)).
Proof.
  intros s1 s2 s1' Hs A1 A2 E1. cbn [revert] in *.
  destruct (acct s1 a) as [[o|]|e|w] eqn:Ea.
  - destruct (deleted o) eqn:Ed.
    + destruct (getStateObject_spec s1 a) as (t1 & G1 & Q1 & L1 & N1 & K1). rewrite Ea, Ed in G1.
      destruct (sim_acct_live s1 s2 a o Hs Ea) as (o' & Ea' & Ho).
      destruct (getStateObject_spec s2 a) as (t2 & G2 & Q2 & L2 & N2 & K2). rewrite Ea', <- (oeq_deleted _ _ _ Ho), Ed in G2.
      rewrite (bind_SM _ _ _ _ _ G1) in E1. rewrite (bind_SM _ _ _ _ _ G2). injection E1 as <-. exists t2. split_and!; [done| |by apply K1|by apply K2].
      etransitivity; [symmetry; apply Q1|]. etransitivity; [exact Hs|apply Q2].
    + destruct (on_account_alike a _ (suicide_Updates b v) s1 s2 s1' Hs A1 A2) as (s2' & E2 & R).
      * destruct (getStateObject_spec s1 a) as (t1 & G1 & _). rewrite Ea, Ed in G1. unfold on_account.
        rewrite (bind_SM _ _ _ _ _ G1) in E1. rewrite (bind_SM _ _ _ _ _ G1). exact E1.
      * destruct (sim_acct_live s1 s2 a o Hs Ea) as (o' & Ea' & Ho).
        destruct (getStateObject_spec s2 a) as (t2 & G2 & _). rewrite Ea', <- (oeq_deleted _ _ _ Ho), Ed in G2. unfold on_account in E2.
        exists s2'. split; [|exact R]. rewrite (bind_SM _ _ _ _ _ G2) in E2. rewrite (bind_SM _ _ _ _ _ G2). exact E2.
  - destruct (getStateObject_spec s1 a) as (t1 & G1 & Q1 & L1 & N1 & K1). rewrite Ea in G1.
    destruct (getStateObject_spec s2 a) as (t2 & G2 & Q2 & L2 & N2 & K2).
    pose proof (sim_acct _ _ Hs a) as Hx. rewrite Ea in Hx. destruct (acct s2 a) as [[o'|]| |]; try done.
    rewrite (bind_SM _ _ _ _ _ G1) in E1. rewrite (bind_SM _ _ _ _ _ G2). injection E1 as <-. exists t2. split_and!; [done| |by apply K1|by apply K2].
    etransitivity; [symmetry; apply Q1|]. etransitivity; [exact Hs|apply Q2].
  - destruct (getStateObject_spec s1 a) as (t1 & G1 & _). rewrite Ea in G1. by rewrite (bind_SM _ _ _ _ _ G1) in E1.
  - destruct (getStateObject_spec s1 a) as (t1 & G1 & _). rewrite Ea in G1. by rewrite (bind_SM _ _ _ _ _ G1) in E1.
Qed.

(** Two states whose objects and environment are changed alike. *)
Lemma modify_alike f :
  (forall s, stateObjects (f s) = stateObjects s /\ same_env s (f s) /\ stateObjectsDestruct (f s) = stateObjectsDestruct s) ->
  (forall s1 s2, sim s1 s2 -> refund (f s1) = refund (f s2) /\ (forall h, logs_of (f s1) h = logs_of (f s2) h) /\
     logSize (f s1) = logSize (f s2) /\ preimages (f s1) = preimages (f s2) /\ acl (f s1) = acl (f s2) /\
     forall a k, tsGet (transient (f s1)) a k = tsGet (transient (f s2)) a k) ->
  reverts_alike (modify f).
Proof.
  intros Hf Hr s1 s2 s1' Hs A1 A2 [= <-]. exists (f s2). split; [done|].
  destruct (Hf s1) as (O1 & E1 & D1), (Hf s2) as (O2 & E2 & D2). destruct (Hr s1 s2 Hs) as (R1 & R2 & R3 & R4 & R5 & R6).
  split_and!; [|by unfold addr_ok; rewrite O1|by unfold addr_ok; rewrite O2].
  split; try done.
  - etransitivity; [symmetry; exact E1|]. etransitivity; [apply Hs|exact E2].
  - rewrite D1, D2. apply Hs.
  - intros a. apply (aeq_env s1); [done|done|].
    assert (forall s, acct (f s) a = acct s a) as Ha.
    { intros s. destruct (Hf s) as (O & E & _). unfold acct. by rewrite O, (read_account_env s (f s)). }
    rewrite !Ha. apply Hs.
Qed.

(** Objects and the destructed accounts changed alike at one address. *)
Lemma sim_replace s1 s2 t1 t2 p : sim s1 s2 -> addr_ok s1 -> same_env s1 t1 -> same_env s2 t2 ->
  stateObjectsDestruct t1 = stateObjectsDestruct t2 ->
  (forall b, b <> p -> b ∈ stateObjectsDestruct s1 <-> b ∈ stateObjectsDestruct t1) ->
  (forall b, b <> p -> stateObjects t1 !! b = stateObjects s1 !! b /\ stateObjects t2 !! b = stateObjects s2 !! b) ->
  aeq t1 (acct t1 p) (acct t2 p) ->
  refund t1 = refund s1 -> logs t1 = logs s1 -> logSize t1 = logSize s1 -> preimages t1 = preimages s1 ->
  acl t1 = acl s1 -> transient t1 = transient s1 ->
  refund t2 = refund s2 -> logs t2 = logs s2 -> logSize t2 = logSize s2 -> preimages t2 = preimages s2 ->
  acl t2 = acl s2 -> transient t2 = transient s2 -> sim t1 t2.
Proof.
  intros Hs A1 E1 E2 Hd Hd1 Hb Hp; intros. pose proof Hs as [He _ Ha Hrf Hlg Hls Hpi Hal Htr].
  split; [|done| |congruence| |congruence..|].
  - etransitivity; [symmetry; exact E1|]. etransitivity; [exact He|exact E2].
  - intros b. destruct (decide (b = p)) as [->|Hne]; [done|]. destruct (Hb b Hne) as [O1 O2].
    assert (acct t1 b = acct s1 b) as -> by (unfold acct; by rewrite O1, (read_account_env s1 t1)).
    assert (acct t2 b = acct s2 b) as -> by (unfold acct; by rewrite O2, (read_account_env s2 t2)).
    specialize (Ha b). destruct (acct s1 b) as [[o|]| |] eqn:Eb, (acct s2 b) as [[o'|]| |]; try done.
    apply (oeq_env s1); [done| |done]. rewrite (acct_address s1 b o A1 Eb). by apply Hd1.
  - intros h. specialize (Hlg h). unfold logs_of in *. congruence.
  - intros a k. specialize (Htr a k). congruence.
Qed.

Lemma create_alike a : reverts_alike (revert (createObjectChange a)).
Proof.
  intros s1 s2 s1' Hs A1 A2 [= <-]. eexists. split; [done|]. split_and!; [|by apply map_Forall_delete..].
  eapply (sim_replace s1 s2 _ _ a); try (done || by split).
  - exact (sim_destruct _ _ Hs).
  - intros b Hb. cbn. by rewrite !lookup_delete_ne.
  - set (t1 := set_stateObjectsDirty _ (set_stateObjects _ s1)). set (t2 := set_stateObjectsDirty _ (set_stateObjects _ s2)).
    assert (same_env t1 t2) as Ht by (destruct (sim_env _ _ Hs); by split).
    assert (acct t1 a = acct t2 a) as ->; [|apply aeq_refl].
    unfold acct. rewrite (read_account_env t1 t2 a Ht). cbn. by rewrite !lookup_delete_eq.
Qed.

Lemma reset_alike prev b : reverts_alike (revert (resetObjectChange prev b)).
Proof.
  intros s1 s2 s1' Hs A1 A2 [= <-]. eexists. split; [done|].
  split_and!; [|by destruct b; apply map_Forall_insert_2..].
  eapply (sim_replace s1 s2 _ _ (address prev)); try (done || by destruct b || by destruct b; split).
  - pose proof (sim_destruct _ _ Hs) as Hd. destruct b; cbn; congruence.
  - intros c Hc. destruct b; cbn; set_solver.
  - intros c Hc. destruct b; cbn; by rewrite !lookup_insert_ne.
  - destruct b; unfold acct; cbn; rewrite !lookup_insert_eq; done.
Qed.

Ltac keeps_env := intros ?; split_and!; [done|by split|done].

(** What reverting a log does when there is one. *)
Definition unlog h s : DB :=
  let ls := default [] (logs s !! h) in
  set_logSize (u64 (logSize s - 1))
    (if (length ls =? 1)%nat then set_logs (delete h (logs s)) s else set_logs (<[h := take (length ls - 1) ls]> (logs s)) s).
Lemma revert_log h s : revert (addLogChange h) s =
  if (length (default [] (logs s !! h)) =? 0)%nat then (s, Panic "slice bounds out of range") else (unlog h s, Ok tt).
Proof.
  cbn [revert]. unfold unlog, mbind, SM_bind, gets, modify, lift.
  by destruct (length (default [] (logs s !! h))) as [|[|n]].
Qed.
Lemma logs_of_unlog h s k : length (default [] (logs s !! h)) <> 0%nat ->
  logs_of (unlog h s) k = if decide (h = k) then take (length (logs_of s h) - 1) (logs_of s h) else logs_of s k.
Proof.
  intros Hn. unfold logs_of. rewrite length_map.
  destruct (length (default [] (logs s !! h)) =? 1)%nat eqn:E; unfold unlog; rewrite E; cbn;
    (destruct (decide (h = k)) as [<-|Hne]; [|by rewrite ?lookup_delete_ne, ?lookup_insert_ne]).
  - apply Nat.eqb_eq in E. by rewrite lookup_delete_eq, E.
  - by rewrite lookup_insert_eq, firstn_map.
Qed.

Lemma log_alike h : reverts_alike (revert (addLogChange h)).
Proof.
  assert (forall s1 s2, sim s1 s2 -> length (default [] (logs s1 !! h)) = length (default [] (logs s2 !! h))) as Hl.
  { intros s1 s2 Hs. pose proof (sim_logs _ _ Hs h) as E%(f_equal length). unfold logs_of in E. by rewrite !length_map in E. }
  intros s1 s2 s1' Hs A1 A2 E1. rewrite revert_log, (Hl s1 s2 Hs) in *.
  destruct (Nat.eqb_spec (length (default [] (logs s2 !! h))) 0) as [|Hn]; [done|].
  assert (forall s, stateObjects (unlog h s) = stateObjects s /\ same_env s (unlog h s) /\
            stateObjectsDestruct (unlog h s) = stateObjectsDestruct s) as Hu.
  { intros s. unfold unlog. destruct (_ =? 1)%nat; split_and!; (done || by split). }
  injection E1 as <-. eexists. split; [done|].
  split_and!; [|by unfold addr_ok; rewrite (proj1 (Hu s1))|by unfold addr_ok; rewrite (proj1 (Hu s2))].
  pose proof (Hl s1 s2 Hs) as Hl12. destruct Hs as [He Hd Ha Hrf Hlg Hls Hpi Hal Htr].
  assert (forall s, refund (unlog h s) = refund s /\ logSize (unlog h s) = u64 (logSize s - 1) /\
            preimages (unlog h s) = preimages s /\ acl (unlog h s) = acl s /\ transient (unlog h s) = transient s) as Hk.
  { intros s. unfold unlog. by destruct (_ =? 1)%nat. }
  destruct (Hu s1) as (O1 & E1 & D1), (Hu s2) as (O2 & E2 & D2).
  destruct (Hk s1) as (F1 & F2 & F3 & F4 & F5), (Hk s2) as (G1 & G2 & G3 & G4 & G5).
  split; try congruence.
  - etransitivity; [symmetry; exact E1|]. etransitivity; [exact He|exact E2].
  - intros a. apply (aeq_env s1); [done|done|]. unfold acct. rewrite O1, O2, <- (read_account_env _ _ a E1), <- (read_account_env _ _ a E2).
    apply Ha.
  - intros k. rewrite !logs_of_unlog by lia. by rewrite !Hlg.
Qed.

Lemma slot_alike a slot : reverts_alike (revert (accessListAddSlotChange a slot)).
Proof.
  intros s1 s2 s1' Hs A1 A2. cbn [revert]. unfold mbind, SM_bind, gets, modify, lift. rewrite (sim_acl _ _ Hs).
  destruct (DeleteSlot a slot (acl s2)) as [al| |]; [|done|done]. intros E.
  refine (modify_alike (set_acl al) _ _ s1 s2 s1' Hs A1 A2 E); [keeps_env|by intros t1 t2 []].
Qed.

Lemma revert_alike e : reverts_alike (revert e).
Proof.
  destruct e; try (apply modify_alike; [keeps_env|intros t1 t2 []; cbn; split_and!; try done; congruence]).
  - apply create_alike.
  - apply reset_alike.
  - apply suicide_alike.
  - by apply on_account_alike, _.
  - by apply on_account_alike, _.
  - by apply on_account_alike, _.
  - by apply on_account_alike, _.
  - apply log_alike.
  - apply slot_alike.
  - apply modify_alike; [keeps_env|]. intros t1 t2 []. split_and!; try done. intros b k. cbn. rewrite !tsGet_Set. by case_decide.
Qed.

(** ** Undoing a list of entries *)

Lemma sm_for_app {St A} (l1 l2 : list A) (f : A -> SM St unit) (st : St) :
  sm_for (l1 ++ l2) f st = (let! _ := sm_for l1 f in sm_for l2 f) st.
Proof.
  revert st. induction l1 as [|x l1 IH]; intros st; [done|]. cbn [app sm_for]. unfold mbind, SM_bind in *.
  destruct (f x st) as [s1 [| |]]; [|done|done]. apply IH.
Qed.
Lemma undo_app es es' s s1 : undo es' s = (s1, Ok tt) -> undo (es ++ es') s = undo es s1.
Proof. unfold undo. intros E. rewrite rev_app_distr, sm_for_app. by rewrite (bind_SM _ _ _ _ _ E). Qed.
Lemma undo_snoc es e s s1 : revert_entry e s = (s1, Ok tt) -> undo (es ++ [e]) s = undo es s1.
Proof. intros E. apply undo_app. unfold undo. cbn. by rewrite (bind_SM _ _ _ _ _ E). Qed.

Lemma sim_set_journal j s : sim s (set_journal j s).
Proof. apply sim_same_objs; [|done]. by split; [split|..]. Qed.

Lemma revert_entry_alike e : reverts_alike (revert_entry e).
Proof.
  intros s1 s2 s1' Hs A1 A2 E. unfold revert_entry in *.
  destruct (revert e s1) as [t1 r1] eqn:E1. rewrite (bind_SM _ _ _ _ _ E1) in E. destruct r1 as [[]| |]; [|done|done].
  destruct (revert_alike e s1 s2 t1 Hs A1 A2 E1) as (t2 & E2 & Ht & B1 & B2). rewrite (bind_SM _ _ _ _ _ E2).
  injection E as <-. eexists. split; [done|]. destruct (dirtied e); [|done]. split_and!; [|done|done].
  etransitivity; [symmetry; apply sim_set_journal|]. etransitivity; [exact Ht|apply sim_set_journal].
Qed.

Lemma for_alike {A} (l : list A) f : (forall x, reverts_alike (f x)) -> reverts_alike (sm_for l f).
Proof.
  intros Hf. induction l as [|x l IH]; intros s1 s2 s1' Hs A1 A2 E.
  - injection E as <-. by exists s2.
  - cbn [sm_for] in *. destruct (f x s1) as [t1 r1] eqn:E1. rewrite (bind_SM _ _ _ _ _ E1) in E. destruct r1 as [[]| |]; [|done|done].
    destruct (Hf x s1 s2 t1 Hs A1 A2 E1) as (t2 & E2 & Ht & B1 & B2). rewrite (bind_SM _ _ _ _ _ E2). by eapply IH.
Qed.
Lemma undo_alike es : reverts_alike (undo es).
Proof. apply for_alike. intros. apply revert_entry_alike. Qed.

Lemma good_step_trans s1 s2 s3 es es' : wf s1 -> good_step s1 s2 es -> good_step s2 s3 es' -> good_step s1 s3 (es ++ es').
Proof.
  intros Hw [G1 J1 W1 (u1 & U1 & S1)] [G2 J2 W2 (u2 & U2 & S2)]. split; [by eapply grows_trans|by auto|done|].
  destruct (undo_alike es s2 u2 u1 S2) as (u & U & S & _); [by apply wf_addr_ok|by apply wf_addr_ok; eapply wf_sim|done|].
  exists u. split; [by rewrite (undo_app _ _ _ _ U2)|]. by etransitivity.
Qed.

(** One entry. *)
Lemma revert_entry_eq e s t : revert e s = (t, Ok tt) -> exists t', revert_entry e s = (t', Ok tt) /\ sim t t'.
Proof.
  intros E. unfold revert_entry. rewrite (bind_SM _ _ _ _ _ E). eexists. split; [done|].
  destruct (dirtied e); [apply sim_set_journal|done].
Qed.
Lemma good_entry s s' e t : wf s' -> journal s' = j_append e (journal s) \/ (exists j, dirtied e = Some ripemd /\ j = j_append e (journal s) /\ journal s' = j_dirty ripemd j) ->
  validRevisions s' = validRevisions s -> nextRevisionId s' = nextRevisionId s ->
  revert e s' = (t, Ok tt) -> sim s t -> good_step s s' [e].
Proof.
  intros Hw Hj Hr Hn Hrev Hs. split; [|..|done|].
  - split; [|done..]. destruct Hj as [->|(j & E & -> & ->)]; unfold j_append; by destruct (dirtied e).
  - intros Hj0. destruct Hj as [->|(j & E & -> & ->)]; [by apply j_append_wf|]. apply j_dirty_ripemd. by apply j_append_wf.
  - destruct (revert_entry_eq e s' t Hrev) as (t' & E & Ht). exists t'. split; [|by etransitivity].
    unfold undo. cbn. by rewrite (bind_SM _ _ _ _ _ E).
Qed.

End journal.
