(* ===== verification/StateSafety.v ===== *)
(** * The operations of a transaction are undone by the journal

    Every method of the database that a transaction uses is [undone]: whatever
    it did before it returned, with a value or an error, is a good step of
    StateJournal.v.  The methods on objects come first ([undone_live]), then
    creating accounts, and the rest of the state. *)
From S2P Require Import Prelude Dec Bls Effective Delegation Validator Header CXReceipt Receipt AccessList StateObject StateDB StateView StateJournal.
Local Open Scope Z_scope.

Section safety.
Context {H : Hashes} {SL : StateLib} {VR : WrapperRLP} {W : Walk}.
Implicit Types (a : Address) (s db : DB) (o : Object) (e : journalEntry).

(** A call that did not panic. *)
Definition returns {A} (r : outcome A) : Prop := forall w, r <> Panic w.

Definition undone {A} (m : SM DB A) : Prop := forall s s' r,
  wf s -> m s = (s', r) -> returns r -> exists es, good_step s s' es.

Lemma undone_bind {A B} (m : SM DB A) (f : A -> SM DB B) : undone m -> (forall x, undone (f x)) -> undone (mbind f m).
Proof.
  intros Hm Hf s s' r Hw E Hr. destruct (m s) as [s1 r1] eqn:E1. rewrite (bind_SM _ _ _ _ _ E1) in E.
  destruct r1 as [x|err|w].
  - destruct (Hm s s1 _ Hw E1) as (es & G1); [done|].
    destruct (Hf x s1 s' r (gs_wf _ _ _ G1) E Hr) as (es' & G2). eexists. by eapply good_step_trans.
  - injection E as <- <-. exact (Hm s s1 (Err err) Hw E1 ltac:(done)).
  - injection E as <- <-. by destruct (Hr w).
Qed.

Lemma undone_quiet {A} (m : SM DB A) : (forall s s' r, wf s -> m s = (s', r) -> returns r -> quiet s s') -> undone m.
Proof. intros Hm s s' r Hw E Hr. exists []. apply quiet_good; [done|by eapply Hm]. Qed.

(** ** Reading *)

Lemma quiet_insert s a o o' : stateObjects s !! a = Some o -> oeq s o o' ->
  quiet s (set_stateObjects (<[a := o']> (stateObjects s)) s).
Proof. intros Ho Hoo. split; [|done..]. eapply sim_insert; [|by apply acct_live|exact Hoo|done]. by split; [split|..]. Qed.

(** What [reading] answers. *)
Definition answer {A} s a (d : A) (r : DB -> Object -> outcome A) : outcome A :=
  match acct s a with
  | Ok (Some o) => if deleted o then Ok d else r s o
  | Ok None => Ok d
  | Err e => Err e
  | Panic w => Panic w
  end.

(** The answer depends on what a similar object shows. *)
Definition shows {A} (r : DB -> Object -> outcome A) : Prop := forall s s' o o',
  same_env s s' -> stateObjectsDestruct s = stateObjectsDestruct s' -> oeq s o o' -> r s o = r s' o'.

Lemma reading_spec {A} a (d : A) (m : OM A) r s : wf s -> caching m r -> shows r ->
  exists s', reading a d m s = (s', answer s a d r) /\ quiet s s'.
Proof.
  intros Hw Hm Hr. unfold reading. destruct (getStateObject_spec s a) as (s1 & E & Hq & Ho & Hn & _).
  rewrite (bind_SM _ _ _ _ _ E). unfold answer. destruct (acct s a) as [[o|]| |] eqn:Ea; try by exists s1.
  destruct (deleted o); [by exists s1|]. specialize (Ho o eq_refl).
  pose proof (acct_ok s a o Hw Ea) as [_ Hf Hu]. destruct (Hm o s1 Hf Hu) as (o1 & Eo & Ho1).
  eexists. split; [erewrite (on_object_run a m s1 o) by done; f_equal|].
  - symmetry. apply Hr; [apply Hq|apply (sim_destruct _ _ (q_sim _ _ Hq))|done].
  - eapply quiet_trans; [exact Hq|]. by eapply quiet_insert.
Qed.

Lemma answer_sim {A} s s' a (d : A) r : shows r -> sim s s' -> answer s a d r = answer s' a d r.
Proof.
  intros Hr Hs. unfold answer. pose proof (sim_acct _ _ Hs a) as Hx.
  destruct (acct s a) as [[o|]| |], (acct s' a) as [[o'|]| |]; try done; cbn in Hx; [|congruence].
  rewrite (oeq_deleted _ _ _ Hx). destruct (deleted o'); [done|]. apply Hr; [apply Hs|apply Hs|done].
Qed.

Lemma pure_caching {A} (f : Object -> A) : caching (let! o := self in mret (f o)) (fun _ o => Ok (f o)).
Proof. intros o s _ _. by exists o. Qed.

Lemma shows_code : shows (fun s o => Ok (code_of s o)).
Proof. intros s s' o o' He Hd Ho. by rewrite (oeq_code _ _ _ Ho), (code_of_env s s'). Qed.
Lemma shows_slot key : shows (fun s o => slot_of s o key).
Proof. intros s s' o o' He Hd Ho. rewrite (oeq_slot _ _ _ Ho). apply slot_of_env; [done|by rewrite Hd]. Qed.
Lemma shows_committed key : shows (fun s o => committed s o key).
Proof. intros s s' o o' He Hd Ho. rewrite (oeq_committed _ _ _ Ho). apply committed_env; [done|by rewrite Hd]. Qed.

Lemma reading_undone {A} a (d : A) m r : caching m r -> shows r -> undone (reading a d m).
Proof.
  intros Hm Hr. apply undone_quiet. intros s s' x Hw E _. destruct (reading_spec a d m r s Hw Hm Hr) as (t & Et & Hq).
  rewrite Et in E. by injection E as <- _.
Qed.

(** ** Changing an object *)

Lemma wf_insert s a o : wf s -> obj_ok a o -> wf (set_stateObjects (<[a := o]> (stateObjects s)) s).
Proof. intros [] Ho. split; [by apply map_Forall_insert_2|done|done]. Qed.
Lemma wf_append s e : wf s -> wf (append e s).
Proof. by intros []. Qed.

Lemma good_change s a o o1 f g e : wf s -> stateObjects s !! a = Some o -> deleted o = false -> oeq s o o1 ->
  obj_ok a (f o1) -> deleted (f o1) = false -> oeq s (g (f o1)) o1 ->
  (forall t o', stateObjects t !! a = Some o' -> deleted o' = false ->
     revert e t = (set_stateObjects (<[a := g o']> (stateObjects t)) t, Ok tt)) ->
  good_step s (set_stateObjects (<[a := f o1]> (stateObjects s)) (append e s)) [e].
Proof.
  intros Hw Ho Hd Ho1 Hok Hdel Hg Hrev. eapply (good_entry _ _ e).
  - apply (wf_insert (append e s) a (f o1)); [by apply wf_append|done].
  - by left.
  - done.
  - done.
  - rewrite (Hrev _ (f o1)); [done|cbn; by rewrite lookup_insert_eq|done].
  - eapply (sim_insert s _ a o (g (f o1))); [by split; [split|..]|by apply acct_live| |cbn; by rewrite insert_insert_eq].
    etransitivity; [exact Ho1|by symmetry].
Qed.

Lemma on_account_live t a o' g : stateObjects t !! a = Some o' -> deleted o' = false ->
  on_account a g t = (set_stateObjects (<[a := g o']> (stateObjects t)) t, Ok tt).
Proof.
  intros Ho Hd. unfold on_account, getStateObject, getDeletedStateObject, on_object_, on_object, mbind, SM_bind.
  rewrite Ho. cbn. by rewrite Hd, Ho.
Qed.
Lemma suicide_live t a o' b v : stateObjects t !! a = Some o' -> deleted o' = false ->
  revert (suicideChange a b v) t = (set_stateObjects (<[a := setBalance v (with_suicided b o')]> (stateObjects t)) t, Ok tt).
Proof. intros Ho Hd. rewrite <- (on_account_live t a o' (fun o => setBalance v (with_suicided b o))) by done.
  cbn. unfold on_account, mbind, SM_bind. destruct (getStateObject a t) as [? [[|]| |]] eqn:E; try done.
  unfold getStateObject, getDeletedStateObject, mbind, SM_bind in E. rewrite Ho in E. cbn in E. by rewrite Hd in E.
Qed.

(** A method on a live object whose address is [a]. *)
Definition undone_live a (m : OM unit) : Prop := forall s o s' r,
  wf s -> stateObjects s !! a = Some o -> deleted o = false -> on_object a m s = (s', r) -> returns r ->
  exists es, good_step s s' es.

(** The method reads, caching, and then logs one entry and changes the object. *)
Lemma live_change a o s o1 f g e m : wf s -> stateObjects s !! a = Some o -> deleted o = false -> oeq s o o1 ->
  m (o, s) = ((f o1, append e s), Ok tt) ->
  (obj_ok a o1 -> obj_ok a (f o1)) -> deleted (f o1) = deleted o1 -> oeq s (g (f o1)) o1 ->
  (forall t o', stateObjects t !! a = Some o' -> deleted o' = false ->
     revert e t = (set_stateObjects (<[a := g o']> (stateObjects t)) t, Ok tt)) ->
  exists s' es, on_object a m s = (s', Ok tt) /\ good_step s s' es.
Proof.
  intros Hw Ho Hd Ho1 E Hok Hdel Hg Hrev. exists (set_stateObjects (<[a := f o1]> (stateObjects s)) (append e s)), [e].
  split; [by rewrite (on_object_run a m s o _ _ _ Ho E)|]. eapply good_change; try done.
  - apply Hok. eapply oeq_ok; [exact Ho1|]. by apply (wf_objs s Hw).
  - by rewrite Hdel, <- (oeq_deleted _ _ _ Ho1).
Qed.

Lemma done_step a (m : OM unit) s s' r : (exists t es, on_object a m s = (t, Ok tt) /\ good_step s t es) ->
  on_object a m s = (s', r) -> exists es, good_step s s' es.
Proof. intros (t & es & E & G) E'. rewrite E in E'. injection E' as <- _. by exists es. Qed.

Ltac live_revert := intros ? ? ? ?; first [by apply on_account_live | by apply suicide_live].

(** The address of the object is the address it is found at. *)
Lemma wf_address s a o : wf s -> stateObjects s !! a = Some o -> address o = a.
Proof. intros Hw Ho. by destruct (wf_objs s Hw a o Ho). Qed.

Lemma SetBalance_live a v : undone_live a (obj_SetBalance v).
Proof.
  intros s o s' r Hw Ho Hd E _. pose proof (wf_address s a o Hw Ho) as <-. eapply done_step; [|exact E].
  eapply (live_change _ o s o (setBalance v) (setBalance (Balance (data o))) (balanceChange (address o) (Balance (data o))));
    try first [done | by intros [] | by split | live_revert].
Qed.

Lemma SetNonce_live a n : undone_live a (obj_SetNonce n).
Proof.
  intros s o s' r Hw Ho Hd E _. pose proof (wf_address s a o Hw Ho) as <-. eapply done_step; [|exact E].
  eapply (live_change _ o s o (setNonce n) (setNonce (Nonce (data o))) (nonceChange (address o) (Nonce (data o))));
    try first [done | by intros [] | by split | live_revert].
Qed.

Lemma quiet_live a o s r s' (m : OM unit) : stateObjects s !! a = Some o -> wf s -> m (o, s) = ((o, s), Ok tt) ->
  on_object a m s = (s', r) -> exists es, good_step s s' es.
Proof.
  intros Ho Hw Em E. rewrite (on_object_run a m s o _ _ _ Ho Em) in E. injection E as <- _. exists [].
  apply quiet_good; [done|]. by eapply quiet_insert.
Qed.

Definition touched o s : DB :=
  let db := append (touchChange (address o)) s in
  if address o =? ripemd then set_journal (j_dirty (address o) (journal db)) db else db.
Lemma touch_run o s : touch (o, s) = ((o, touched o s), Ok tt).
Proof. unfold touch, touched. autorewrite with om. by destruct (address o =? ripemd). Qed.

Lemma touch_live a : undone_live a touch.
Proof.
  intros s o s' r Hw Ho Hd E _. pose proof (wf_address s a o Hw Ho) as <-. exists [touchChange (address o)].
  rewrite (on_object_run _ _ _ _ _ _ _ Ho (touch_run o s)) in E. injection E as <- _.
  assert (same_rest s (touched o s) /\ stateObjects (touched o s) = stateObjects s) as [Hr Eo].
  { unfold touched. destruct (address o =? ripemd); by split_and!; [split; [split|..]|]. }
  rewrite Eo, insert_id by done. eapply (good_entry _ _ (touchChange (address o))); [| | | |done|].
  - destruct Hw as [Wo Wa Wl]. split; [exact Wo|change (al_wf (acl (touched o s)))|change (0 <= logSize (touched o s) < 2 ^ 64)].
    + by rewrite <- (rest_acl _ _ Hr).
    + by rewrite <- (rest_logSize _ _ Hr).
  - unfold touched. destruct (Z.eqb_spec (address o) ripemd) as [Er|]; [right|by left]. eexists. cbn. by rewrite Er.
  - unfold touched. by destruct (address o =? ripemd).
  - unfold touched. by destruct (address o =? ripemd).
  - apply sim_same_objs; [|done]. destruct Hr as [[] ? ? ? ? ? ? ?]. by split; [split|..].
Qed.

Lemma AddBalance_live a v : undone_live a (obj_AddBalance v).
Proof.
  intros s o s' r Hw Ho Hd E Hr. destruct (Z.sgn v =? 0) eqn:Ev.
  - destruct (empty o) eqn:Ee.
    + apply (touch_live a s o s' r); [done..| |done]. unfold on_object in *. rewrite Ho in *. unfold obj_AddBalance in E.
      autorewrite with om in E. by rewrite Ev, Ee in E.
    + eapply (quiet_live a o s); [done|done| |exact E]. unfold obj_AddBalance. autorewrite with om. by rewrite Ev, Ee.
  - apply (SetBalance_live a (Balance (data o) + v) s o s' r); [done..| |done]. unfold on_object in *. rewrite Ho in *.
    unfold obj_AddBalance in E. autorewrite with om in E. by rewrite Ev in E.
Qed.

Lemma SubBalance_live a v : undone_live a (obj_SubBalance v).
Proof.
  intros s o s' r Hw Ho Hd E Hr. destruct (Z.sgn v =? 0) eqn:Ev.
  - eapply (quiet_live a o s); [done|done| |exact E]. unfold obj_SubBalance. autorewrite with om. by rewrite Ev.
  - apply (SetBalance_live a (Balance (data o) - v) s o s' r); [done..| |done]. unfold on_object in *. rewrite Ho in *.
    unfold obj_SubBalance in E. autorewrite with om in E. by rewrite Ev in E.
Qed.

Lemma oeq_restore_slot s o key v : slot_of s o key = Ok v -> forall v', oeq s (setState key v (setState key v' o)) o.
Proof.
  intros Hk v'. split; try done. intros k. unfold slot_of in *. cbn. destruct (decide (key = k)) as [<-|Hne].
  - by rewrite lookup_insert_eq.
  - by rewrite !lookup_insert_ne.
Qed.

Lemma SetState_live a key v : undone_live a (obj_SetState key v).
Proof.
  intros s o s' r Hw Ho Hd E Hr. pose proof (wf_objs s Hw a o Ho) as [<- Hf Hu].
  destruct (GetState_caching key o s Hf Hu) as (o1 & Eg & Ho1). pose proof (oeq_slot _ _ _ Ho1 key) as Hk.
  assert (obj_SetState key v (o, s) = match slot_of s o key with
    | Ok prev => if prev =? v then ((o1, s), Ok tt) else ((setState key v o1, append (storageChange (address o) key prev) s), Ok tt)
    | Err e => ((o1, s), Err e) | Panic w => ((o1, s), Panic w) end) as Em.
  { unfold obj_SetState. autorewrite with om. rewrite Hf, (bind_SM _ _ _ _ _ Eg).
    destruct (slot_of s o key) as [prev| |]; try done. by destruct (prev =? v). }
  destruct (slot_of s o key) as [prev|err|w] eqn:Es.
  - destruct (prev =? v).
    + rewrite (on_object_run _ _ _ _ _ _ _ Ho Em) in E. injection E as <- _. exists []. apply quiet_good; [done|by eapply quiet_insert].
    + eapply done_step; [|exact E]. eapply (live_change _ o s o1 (setState key v) (setState key prev)); try first [done | live_revert].
      * by intros [].
      * by apply oeq_restore_slot.
  - rewrite (on_object_run _ _ _ _ _ _ _ Ho Em) in E. injection E as <- _. exists []. apply quiet_good; [done|by eapply quiet_insert].
  - rewrite (on_object_run _ _ _ _ _ _ _ Ho Em) in E. injection E as _ <-. by destruct (Hr w).
Qed.

Lemma oeq_restore_code s o h c b : unloaded o = false ->
  oeq s (setCode (CodeHash (data o)) (code_of s o) false (setCode h c b o)) o.
Proof.
  intros Hu. split; try done.
  assert (code_of s (setCode (CodeHash (data o)) (code_of s o) false (setCode h c b o)) =
    match code_of s o with Some c => Some c | None => code_of s (setCode (CodeHash (data o)) None false o) end) as ->.
  { by destruct (code_of s o). }
  destruct (code_of s o) as [c'|] eqn:Ec; [done|]. revert Ec. unfold code_of, unloaded in *. cbn.
  destruct (code o); [done|]. destruct (CodeHash (data o) =? EmptyCodeHash); [done|]. cbn in Hu. rewrite andb_true_r in Hu.
  by destruct (validatorWrapper o).
Qed.

Lemma SetCode_live a c b : undone_live a (obj_SetCode (Keccak256Hash (default [] c)) c b).
Proof.
  intros s o s' r Hw Ho Hd E Hr. pose proof (wf_objs s Hw a o Ho) as [<- Hf Hu].
  destruct (Code_caching o s Hf Hu) as (o1 & Eg & Ho1).
  assert (unloaded o1 = false) as Hu1 by (by rewrite <- (oeq_unloaded _ _ _ Ho1)).
  eapply done_step; [|exact E].
  eapply (live_change _ o s o1 (setCode (Keccak256Hash (default [] c)) c b) (setCode (CodeHash (data o1)) (code_of s o1) false)
            (codeChange (address o1) (code_of s o1) (CodeHash (data o1)))); try first [done | live_revert].
  - unfold obj_SetCode. rewrite (bind_SM _ _ _ _ _ Eg). autorewrite with om. by rewrite (oeq_code _ _ _ Ho1).
  - intros [? ? _]. split; [done|done|]. unfold unloaded. cbn. destruct c as [c|]; cbn; [by rewrite andb_false_r|].
    unfold EmptyCodeHash. by rewrite Z.eqb_refl, andb_false_r.
  - by apply oeq_restore_code.
  - intros t o' Ht Hd'. rewrite <- (oeq_address _ _ _ Ho1). by apply on_account_live.
Qed.

(** ** Creating accounts *)

(** The state after a new object [o2] took the place of [prev] at [a]. *)
Definition created s a (prev : option Object) o2 : DB :=
  let e := match prev with
           | None => createObjectChange a
           | Some p => resetObjectChange p (bool_decide (a ∈ stateObjectsDestruct s)) end in
  let d := match prev with None => stateObjectsDestruct s | Some _ => {[a]} ∪ stateObjectsDestruct s end in
  set_stateObjects (<[a := o2]> (stateObjects s)) (append e (set_stateObjectsDestruct d s)).

Lemma created_good s a prev o2 : wf s -> stateObjects s !! a = prev -> (prev = None -> acct s a = Ok None) -> obj_ok a o2 ->
  exists es, good_step s (created s a prev o2) es.
Proof.
  intros Hw Hp Hn Ho2.
  assert (wf (created s a prev o2)) as Hw'.
  { unfold created. apply (wf_insert (append _ (set_stateObjectsDestruct _ s))); [|done]. apply wf_append. by destruct Hw. }
  destruct prev as [p|].
  - pose proof (wf_address s a p Hw Hp) as Ha. eexists [_].
    eapply good_entry; [done|by left|done|done|reflexivity|].
    apply sim_same_objs.
    2:{ case_bool_decide; cbn; by rewrite Ha, insert_insert_eq, insert_id. }
    case_bool_decide as Hd; (split; [by split| |done..]); cbn; rewrite ?Ha; set_solver.
  - eexists [_]. eapply good_entry; [done|by left|done|done|reflexivity|].
    apply sim_same_objs; [by split; [split|..]|]. cbn. by rewrite delete_insert_id.
Qed.

Lemma createObject_eq s a s1 x : wf s -> acct s a = Ok x -> getDeletedStateObject a s = (s1, Ok x) -> stateObjects s1 !! a = x -> quiet s s1 ->
  createObject a s = (created s1 a x (newObject a (mkStateAccount 0 None 0 None)),
    Ok (newObject a (mkStateAccount 0 None 0 None), match x with Some p => if deleted p then None else Some p | None => None end)).
Proof.
  intros Hw Ha E Hx Hq. unfold createObject. rewrite (bind_SM _ _ _ _ _ E). destruct x as [p|]; [|done].
  assert (wf s1) as Hw1 by (eapply wf_sim; [apply Hq|done]). pose proof (wf_address s1 a p Hw1 Hx) as Hp.
  unfold created. rewrite <- Hp. done.
Qed.

(** [createObject], and then a change of the new object. *)
Lemma create_step s a x f : wf s -> acct s a = Ok x -> (forall o, obj_ok a o -> obj_ok a (f o)) ->
  exists s1 es, let o2 := newObject a (mkStateAccount 0 None 0 None) in
    createObject a s = (created s1 a x o2, Ok (o2, match x with Some p => if deleted p then None else Some p | None => None end)) /\
    good_step s (set_stateObjects (<[a := f o2]> (stateObjects (created s1 a x o2))) (created s1 a x o2)) es.
Proof.
  intros Hw Ha Hf. destruct (getDeleted_spec s a) as (s1 & E & Hq & Ho & Hn & _). rewrite Ha in E.
  assert (wf s1) as Hw1 by (eapply wf_sim; [apply Hq|done]).
  assert (stateObjects s1 !! a = x) as Hx by (destruct x; [by apply Ho|by apply Hn]).
  set (o2 := newObject a (mkStateAccount 0 None 0 None)).
  destruct (created_good s1 a x (f o2) Hw1 Hx) as (es & G); [|by apply Hf|].
  { intros ->. pose proof (sim_acct _ _ (q_sim _ _ Hq) a) as Hs. rewrite Ha in Hs. by destruct (acct s1 a) as [[|]| |]. }
  exists s1, ([] ++ es). split; [by apply (createObject_eq s)|].
  eapply good_step_trans; [done|by apply quiet_good|]. unfold created in *. cbn in *. by rewrite insert_insert_eq.
Qed.

Lemma GetOrNew_spec s a s' r : wf s -> GetOrNewStateObject a s = (s', r) -> returns r ->
  r = Ok tt /\ exists es, good_step s s' es /\ exists o, stateObjects s' !! a = Some o /\ deleted o = false.
Proof.
  intros Hw E Hr. unfold GetOrNewStateObject in E. destruct (getStateObject_spec s a) as (s1 & Eg & Hq & Ho & Hn & _).
  rewrite (bind_SM _ _ _ _ _ Eg) in E. assert (wf s1) as Hw1 by (eapply wf_sim; [apply Hq|done]).
  assert (forall x, acct s1 a = Ok x -> (let! _ := createObject a in mret tt) s1 = (s', r) ->
    r = Ok tt /\ exists es, good_step s s' es /\ exists o, stateObjects s' !! a = Some o /\ deleted o = false) as Hc.
  { intros x Hx Ec. destruct (create_step s1 a x Datatypes.id Hw1 Hx) as (s2 & es & E2 & G); [done|].
    rewrite (bind_SM _ _ _ _ _ E2) in Ec. injection Ec as <- <-. split; [done|]. exists ([] ++ es). split.
    - eapply good_step_trans; [done|by apply quiet_good|]. unfold Datatypes.id, created in *. cbn in *. by rewrite insert_insert_eq in G.
    - eexists. split; [cbn; by rewrite lookup_insert_eq|done]. }
  destruct (acct s a) as [[o|]|err|w] eqn:Ea.
  - destruct (deleted o) eqn:Ed; [apply (Hc (Some o)); [by apply acct_live, Ho|done]|]. injection E as <- <-. split; [done|].
    exists []. split; [by apply quiet_good|]. exists o. split; [by apply Ho|done].
  - apply (Hc None); [|done]. pose proof (sim_acct _ _ (q_sim _ _ Hq) a) as Hs. rewrite Ea in Hs. by destruct (acct s1 a) as [[|]| |].
  - unfold acct in Ea. by repeat case_match.
  - injection E as _ <-. by destruct (Hr w).
Qed.

Lemma writing_undone a m : undone_live a m -> undone (writing a m).
Proof.
  intros Hm s s' r Hw E Hr. unfold writing in E. destruct (GetOrNewStateObject a s) as [s1 r1] eqn:E1.
  rewrite (bind_SM _ _ _ _ _ E1) in E. assert (returns r1) as Hr1.
  { intros w ->. injection E as _ <-. by apply (Hr w). }
  destruct (GetOrNew_spec s a s1 r1 Hw E1 Hr1) as (-> & es & G & o & Ho & Hd).
  destruct (Hm s1 o s' r (gs_wf _ _ _ G) Ho Hd E Hr) as (es' & G'). eexists. by eapply good_step_trans.
Qed.

Lemma CreateAccount_undone a : undone (CreateAccount a).
Proof.
  intros s s' r Hw E Hr. unfold CreateAccount in E. destruct (acct s a) as [x|err|w] eqn:Ea.
  - destruct (create_step s a x (match x with Some p => if deleted p then Datatypes.id else setBalance (Balance (data p)) | None => Datatypes.id end) Hw Ea)
      as (s2 & es & E2 & G).
    { intros o []. by destruct x as [p|]; [destruct (deleted p)|]. }
    rewrite (bind_SM _ _ _ _ _ E2) in E. exists es. set (o2 := newObject a _) in *.
    destruct x as [p|]; [destruct (deleted p)|]; cbn beta iota in E.
    + injection E as <- _. unfold Datatypes.id, created in *. cbn in *. by rewrite insert_insert_eq in G.
    + unfold on_object_ in E. erewrite (on_object_run a _ _ o2) in E; [|cbn; by rewrite lookup_insert_eq|done].
      injection E as <- _. done.
    + injection E as <- _. unfold Datatypes.id, created in *. cbn in *. by rewrite insert_insert_eq in G.
  - unfold acct in Ea. by repeat case_match.
  - destruct (getDeleted_spec s a) as (s1 & E1 & _). rewrite Ea in E1. unfold createObject in E.
    destruct (createObject a s) as [s2 r2] eqn:E2. unfold createObject in E2. rewrite (bind_SM _ _ _ _ _ E1) in E2. injection E2 as <- <-.
    exfalso. eapply Hr. unfold mbind, SM_bind in E. rewrite E1 in E. by injection E as _ <-.
Qed.

Lemma Suicide_undone a : undone (Suicide a).
Proof.
  intros s s' r Hw E Hr. unfold Suicide in E. destruct (getStateObject_spec s a) as (s1 & Eg & Hq & Ho & Hn & _).
  rewrite (bind_SM _ _ _ _ _ Eg) in E. destruct (acct s a) as [[o|]|err|w] eqn:Ea.
  - destruct (deleted o) eqn:Ed; [injection E as <- _; exists []; by apply quiet_good|]. specialize (Ho o eq_refl).
    assert (wf s1) as Hw1 by (eapply wf_sim; [apply Hq|done]). exists ([] ++ [suicideChange a (suicided o) (Balance (data o))]).
    eapply good_step_trans; [done|by apply quiet_good|]. unfold mbind, SM_bind, journal_append, modify, on_object_ in E.
    erewrite (on_object_run a _ _ o) in E; [|exact Ho|done]. injection E as <- _.
    pose proof (wf_objs s1 Hw1 a o Ho) as Hok.
    eapply (good_change s1 a o o (fun o => setBalance 0 (markSuicided o)) (fun o' => setBalance (Balance (data o)) (with_suicided (suicided o) o')));
      try first [done | by destruct Hok | by split | live_revert].
  - injection E as <- _. exists []. by apply quiet_good.
  - unfold acct in Ea. by repeat case_match.
  - injection E as _ <-. by destruct (Hr w).
Qed.

(** ** The rest of the state *)

(** Changes of fields that no getter of this file shows. *)
Lemma undone_hidden f : (forall s, same_rest s (f s) /\ stateObjects (f s) = stateObjects s /\ journal (f s) = journal s /\
  validRevisions (f s) = validRevisions s /\ nextRevisionId (f s) = nextRevisionId s) -> undone (modify f).
Proof.
  intros Hf. apply undone_quiet. intros s s' r _ [= <- _] _. destruct (Hf s) as (Hr & Ho & Hj & Hv & Hn).
  split; [by apply sim_same_objs|done..].
Qed.
Ltac hidden := apply undone_hidden; intros ?; split_and!; [by split; [split|..]|done..].

Lemma AddRefund_undone gas : undone (AddRefund gas).
Proof.
  intros s s' r Hw [= <- _] _. exists [refundChange (refund s)]. eapply good_entry; [by destruct Hw|by left|done|done|done|].
  apply sim_same_objs; [by split; [split|..]|done].
Qed.
Lemma SubRefund_undone gas : undone (SubRefund gas).
Proof.
  intros s s' r Hw E Hr. unfold SubRefund, mbind, SM_bind, journal_append, gets, modify in E. cbn in E.
  destruct (refund s <? gas); [injection E as _ <-; by destruct (Hr "Refund counter below zero")|]. injection E as <- _.
  exists [refundChange (refund s)]. eapply good_entry; [by destruct Hw|by left|done|done|done|].
  apply sim_same_objs; [by split; [split|..]|done].
Qed.

Lemma AddPreimage_undone h p : undone (AddPreimage h p).
Proof.
  intros s s' r Hw E _. unfold AddPreimage, mbind, SM_bind, journal_append, gets, modify, Datatypes.id in E. cbn in E.
  destruct (preimages s !! h) eqn:Eh; injection E as <- _; [exists []; by apply quiet_good|].
  exists [addPreimageChange h]. eapply good_entry; [by destruct Hw|by left|done|done|done|].
  apply sim_same_objs; [|done]. split; try (done || by split). cbn. by rewrite delete_insert_id.
Qed.

Lemma u64_pred n : 0 <= n < 2 ^ 64 -> u64 (u64 (n + 1) - 1) = n.
Proof. intros Hn. unfold u64. rewrite Zminus_mod_idemp_l. replace (n + 1 - 1) with n by lia. by apply Z.mod_small. Qed.

Lemma sim_shown s t : same_env s t -> stateObjects t = stateObjects s -> stateObjectsDestruct s = stateObjectsDestruct t ->
  refund s = refund t -> (forall h, logs_of s h = logs_of t h) -> logSize s = logSize t -> preimages s = preimages t ->
  acl s = acl t -> (forall a k, tsGet (transient s) a k = tsGet (transient t) a k) -> sim s t.
Proof. intros He Ho; intros. split; try done. intros a. by apply aeq_objs; [|rewrite Ho]. Qed.

Lemma AddLog_undone l : undone (AddLog l).
Proof.
  intros s s' r Hw E _. unfold AddLog, mbind, SM_bind, journal_append, gets, modify, Datatypes.id in E. cbn in E. injection E as <- _.
  set (ls := default [] (logs s !! thash s)). set (l' := mkLog _ _ _ _ _ _ _ _ _).
  set (s' := set_logSize _ _). exists [addLogChange (thash s)].
  assert (default [] (logs s' !! thash s) = ls ++ [l']) as El by (cbn; by rewrite lookup_insert_eq).
  eapply (good_entry s s' _ (unlog (thash s) s')); [|by left|done|done|rewrite revert_log, El, length_app; cbn; by rewrite Nat.add_1_r|].
  { destruct Hw. split; [done|done|apply u64_range]. }
  assert (same_env s (unlog (thash s) s') /\ stateObjects (unlog (thash s) s') = stateObjects s) as [He Ho].
  { unfold unlog. destruct (_ =? 1)%nat; split; (done || by split). }
  apply sim_shown; try (unfold unlog; by destruct (_ =? 1)%nat).
  - intros h. rewrite logs_of_unlog by (rewrite El, length_app; cbn; lia). case_decide as Eh; [|by unfold logs_of; cbn; rewrite lookup_insert_ne].
    unfold logs_of. rewrite El, map_app, length_app. cbn. rewrite Nat.add_sub, take_app_length. by subst h.
  - unfold unlog. rewrite El. destruct (_ =? 1)%nat; cbn; (rewrite u64_pred; [done|apply Hw]).
Qed.

Lemma GetLogs_undone h n bh : undone (GetLogs h n bh).
Proof.
  apply undone_quiet. intros s s' r Hw E _. unfold GetLogs in E. destruct (logs s !! h) as [ls|] eqn:El; [|by injection E as <- _].
  injection E as <- _. split; [|done..].
  apply sim_shown; try (done || by split). intros k. unfold logs_of. cbn. destruct (decide (h = k)) as [<-|Hne].
  - rewrite lookup_insert_eq, El. cbn. unfold Datatypes.id. rewrite map_map. by apply map_ext.
  - by rewrite lookup_insert_ne.
Qed.

Lemma SetTransientState_undone a k v : undone (SetTransientState a k v).
Proof.
  intros s s' r Hw E _. unfold SetTransientState, setTransientState, GetTransientState, mbind, SM_bind, journal_append, gets, modify in E.
  cbn in E. destruct (_ =? v); injection E as <- _; [exists []; by apply quiet_good|].
  exists [transientStorageChange a k (tsGet (transient s) a k)]. set (s' := set_transient _ _).
  eapply (good_entry s s'); [by destruct Hw|by left|done|done|done|]. cbn.
  apply sim_shown; try (done || by split). intros b j. cbn. rewrite !tsGet_Set. case_decide as Hk; [by destruct Hk as [<- <-]|done].
Qed.

Lemma AddAddress_undone a : undone (AddAddressToAccessList a).
Proof.
  intros s s' r Hw E _. unfold AddAddressToAccessList in E. pose proof (AddAddress_wf a _ (wf_acl s Hw)) as Ha.
  pose proof (al_undo_address a (acl s)) as Hu. destruct (AddAddress a (acl s)) as [al b] eqn:Ea. cbn in *.
  assert (wf (set_acl al s)) as Hw' by (by destruct Hw).
  destruct b; injection E as <- _.
  - exists [accessListAddAccountChange a]. eapply good_entry; [by destruct Hw'|by left|done|done|done|].
    apply sim_same_objs; [|done]. split; try (done || by split). cbn. by rewrite Hu.
  - exists []. apply quiet_good; [done|]. assert (al = acl s) as -> by (unfold AddAddress in Ea; by destruct (_ !! a); injection Ea).
    split; [|done..]. apply sim_same_objs; [by split; [split|..]|done].
Qed.

Lemma AddSlot_undone a slot : undone (AddSlotToAccessList a slot).
Proof.
  intros s s' r Hw E _. destruct (AddSlot_total a slot (acl s) (wf_acl s Hw)) as (al & [ra rs] & Ea & Hal).
  destruct (al_undo_slot a slot (acl s) al ra rs (wf_acl s Hw) Ea) as [Hu Hab].
  unfold AddSlotToAccessList, mbind, SM_bind, gets, lift, modify in E. rewrite Ea in E.
  assert (forall j, wf (set_journal j (set_acl al s))) as Hw' by (intros; by destruct Hw).
  destruct rs.
  2:{ destruct ra; [by destruct Hab|]. injection E as <- _. injection Hu as ->. exists []. apply quiet_good; [done|].
      split; [|done..]. apply sim_shown; (done || by split). }
  set (e2 := accessListAddSlotChange a slot).
  destruct ra; injection E as <- _.
  - exists ([accessListAddAccountChange a] ++ [e2]). destruct Hab as [_ Hab]; [done|].
    set (mid := append (accessListAddAccountChange a) (set_acl (mkAccessList (<[a := -1]> (addresses (acl s))) (slots (acl s))) s)).
    assert (wf mid) as Hmid.
    { destruct Hw as [Ho Ha Hl]. split; [done| |done]. cbn. pose proof (AddAddress_wf a _ Ha) as Hx. unfold AddAddress in Hx. by rewrite Hab in Hx. }
    apply (good_step_trans s mid); [done| |].
    + eapply good_entry; [done|by left|done|done|done|]. apply sim_shown; try (done || by split).
      cbn. unfold DeleteAddress. cbn. rewrite delete_insert_id by done. by destruct (acl s).
    + eapply (good_entry mid _ e2 (set_acl (acl mid) _)); [|by left|done|done| |].
      * by apply (Hw' (j_append e2 (j_append (accessListAddAccountChange a) (journal s)))).
      * unfold e2. cbn [revert]. unfold mbind, SM_bind, gets, lift, modify. cbn. by rewrite Hu.
      * apply sim_same_objs; [by split; [split|..]|done].
  - exists [e2]. eapply (good_entry s _ e2 (set_acl (acl s) _)); [|by left|done|done| |].
    + by apply (Hw' (j_append e2 (journal s))).
    + unfold e2. cbn [revert]. unfold mbind, SM_bind, gets, lift, modify. cbn. by rewrite Hu.
    + apply sim_same_objs; [by split; [split|..]|done].
Qed.

(** ** Validator wrappers *)

Lemma undone_lift {A} (r : outcome A) : undone (lift r).
Proof. apply undone_quiet. intros s s' x _ [= <- _] _. apply quiet_refl. Qed.
Lemma undone_gets {A} (f : DB -> A) : undone (gets f).
Proof. apply undone_quiet. intros s s' x _ [= <- _] _. apply quiet_refl. Qed.
Lemma undone_ret {A} (x : A) : undone (mret x).
Proof. apply (undone_lift (Ok x)). Qed.

Lemma undone_outcome {A B} (m : SM DB A) (k : SM DB B) :
  (forall s s' r, k s = (s', r) -> returns r -> exists r', m s = (s', r') /\ returns r') -> undone m -> undone k.
Proof. intros Hk Hm s s' r Hw E Hr. destruct (Hk s s' r E Hr) as (r' & E' & Hr'). by eapply Hm. Qed.

Lemma GetCode_undone a : undone (GetCode a).
Proof. apply (reading_undone _ _ _ _ Code_caching shows_code). Qed.
Lemma GetState_undone a k : undone (GetState a k).
Proof. apply (reading_undone _ _ _ _ (GetState_caching k) (shows_slot k)). Qed.
Lemma GetCommittedState_undone a k : undone (GetCommittedState a k).
Proof. apply (reading_undone _ _ _ _ (GetCommittedState_caching k) (shows_committed k)). Qed.
Lemma SetCode_undone a c b : undone (SetCode a c b).
Proof. apply writing_undone, SetCode_live. Qed.
Lemma SetState_undone a k v : undone (SetState a k v).
Proof. apply writing_undone, SetState_live. Qed.

Lemma set_stateValidators_undone f : undone (modify (fun db => set_stateValidators (f db) db)).
Proof. hidden. Qed.
#[local] Hint Resolve undone_lift undone_gets undone_ret GetCode_undone GetState_undone SetCode_undone SetState_undone
  set_stateValidators_undone : undone.

Ltac undone_steps := repeat match goal with
  | |- undone (mbind _ _) => apply undone_bind; [|intros ?]
  | |- undone (stop _) => apply undone_lift
  | |- undone (if ?b then _ else _) => destruct b eqn:?
  | |- undone (match ?x with _ => _ end) => destruct x eqn:?
  | |- undone _ => solve [auto with undone nocore]
  end.

Lemma ValidatorWrapper_undone a b c : undone (ValidatorWrapper_ a b c).
Proof. unfold ValidatorWrapper_. undone_steps. Qed.
Lemma UpdateValidatorWrapper_undone a w : undone (UpdateValidatorWrapper a w).
Proof. unfold UpdateValidatorWrapper. undone_steps. Qed.

Lemma wrapper_or_nil_undone a : undone (wrapper_or_nil a).
Proof.
  eapply undone_outcome; [|apply (ValidatorWrapper_undone a true false)]. intros s s' r E Hr. unfold wrapper_or_nil in E.
  destruct (ValidatorWrapper_ a true false s) as [s1 [w|e|w]]; [injection E as <- <-; by eexists| |injection E as <- <-; by eexists].
  destruct (String.eqb _ _); injection E as <- <-; by eexists.
Qed.

Lemma journal_wrapper_undone a prev : undone (journal_append (validatorWrapperChange a prev)).
Proof.
  intros s s' r Hw [= <- _] _. exists [validatorWrapperChange a prev]. eapply good_entry; [by destruct Hw|by left|done|done|done|].
  apply sim_same_objs; [by split; [split|..]|done].
Qed.
#[local] Hint Resolve wrapper_or_nil_undone UpdateValidatorWrapper_undone journal_wrapper_undone : undone.

Lemma UpdateWithRevert_undone a w : undone (UpdateValidatorWrapperWithRevert a w).
Proof. unfold UpdateValidatorWrapperWithRevert. undone_steps. Qed.

Lemma FirstElectionEpoch_undone a : undone (GetValidatorFirstElectionEpoch a).
Proof.
  apply (undone_outcome (GetState a FirstElectionEpochKey)); [|apply GetState_undone]. intros s s' r E Hr.
  unfold GetState, reading, GetValidatorFirstElectionEpoch in *. destruct (getStateObject a s) as [s1 r1] eqn:E1.
  rewrite (bind_SM _ _ _ _ _ E1) in E. rewrite (bind_SM _ _ _ _ _ E1). destruct r1 as [[o|]|e|w]; [by eexists| |by eexists|by eexists].
  injection E as <- <-. by destruct (Hr nil_deref).
Qed.
#[local] Hint Resolve FirstElectionEpoch_undone : undone.
Lemma SetFirstElectionEpoch_undone a n : undone (SetValidatorFirstElectionEpoch a n).
Proof. unfold SetValidatorFirstElectionEpoch. undone_steps. Qed.

Lemma AddReward_undone w n sh : undone (AddReward w n sh).
Proof.
  unfold AddReward. destruct (n =? 0); [apply undone_ret|]. intros s s' r Hw E Hr.
  destruct (ValidatorWrapper_ (vAddress (validator w)) true false s) as [s1 r1] eqn:E1.
  assert (returns r1) as Hr1. { intros p ->. injection E as _ <-. by apply (Hr p). }
  destruct (ValidatorWrapper_undone _ _ _ s s1 r1 Hw E1 Hr1) as (es & G).
  destruct r1 as [[cur|]|e|p]; [|by destruct (Hr nil_deref); injection E|injection E as <- _; by exists es|by destruct (Hr1 p)].
  case_decide; [injection E as <- _; by exists es|]. destruct (distribute w n sh cur) as [w' r']. injection E as <- _.
  destruct (set_stateValidators_undone (fun db => <[vAddress (validator w) := Some w']> (stateValidators db)) s1 _ _ (gs_wf _ _ _ G) eq_refl)
    as (es' & G'); [done|]. eexists. by eapply good_step_trans.
Qed.

End safety.
