(* ===== verification/StateRevert.v ===== *)
(** * Reverting restores the state

    Whatever a state database made by [New] goes through, [RevertToSnapshot]
    of a snapshot that is still valid gives a state in which every getter
    answers as when the snapshot was taken ([RevertToSnapshot_restores]).  [Op]
    lists the methods, with nested snapshots, reverts and the way to the trie
    included; [SetStorage], which is for debugging and bypasses the journal, is
    not among them.  The cache of validator wrappers is not part of what a
    revert restores: [UpdateValidatorWrapperWithRevert] is there for that
    ([wrapper_restored]). *)
From S2P Require Import Prelude Dec Bls Effective Delegation Validator Header CXReceipt Receipt AccessList StateObject StateDB StateView StateJournal StateSafety.
Local Open Scope Z_scope.

Section revert.
Context {H : Hashes} {SL : StateLib} {VR : WrapperRLP} {W : Walk}.
Implicit Types (a : Address) (s db : DB) (o : Object) (e : journalEntry).

(** ** Operations *)

Inductive Op :=
| OpAddBalance a (v : Z) | OpSubBalance a (v : Z) | OpSetBalance a (v : Z) | OpSetNonce a (n : Z)
| OpSetCode a (c : option (list Z)) (b : bool) | OpSetState a (k v : Z) | OpSuicide a | OpCreateAccount a
| OpAddRefund (gas : Z) | OpSubRefund (gas : Z) | OpAddLog (l : Log) | OpAddPreimage (h : Z) (p : list Z)
| OpSetTransientState a (k v : Z) | OpAddAddress a | OpAddSlot a (slot : Z)
| OpUpdateValidatorWrapper a (w : ValidatorWrapper) | OpUpdateWithRevert a (w : ValidatorWrapper)
| OpValidatorWrapper a (original copyDelegations : bool) | OpAddReward (w : ValidatorWrapper) (n : Z) (shares : gmap Address Dec)
| OpFirstElection a (epoch : Z) | OpGetCode a | OpGetState a (k : Z) | OpGetCommitted a (k : Z) | OpGetLogs (h n bh : Z)
| OpPrepare (th bh ti : Z) | OpSnapshot | OpRevert (id : Z)
| OpFinalise (b : bool) | OpIntermediateRoot (b : bool) | OpCommit (b : bool) | OpReset (root : Z).

(** The caller looks at an error and goes on; a panic ends the run. *)
Definition call {A} (m : SM DB A) : SM DB unit := fun db =>
  match m db with (db, Panic w) => (db, Panic w) | (db, _) => (db, Ok tt) end.

Definition run_op (op : Op) : SM DB unit :=
  match op with
  | OpAddBalance a v => call (AddBalance a v) | OpSubBalance a v => call (SubBalance a v)
  | OpSetBalance a v => call (SetBalance a v) | OpSetNonce a n => call (SetNonce a n)
  | OpSetCode a c b => call (SetCode a c b) | OpSetState a k v => call (SetState a k v)
  | OpSuicide a => call (Suicide a) | OpCreateAccount a => call (CreateAccount a)
  | OpAddRefund g => call (AddRefund g) | OpSubRefund g => call (SubRefund g)
  | OpAddLog l => call (AddLog l) | OpAddPreimage h p => call (AddPreimage h p)
  | OpSetTransientState a k v => call (SetTransientState a k v)
  | OpAddAddress a => call (AddAddressToAccessList a) | OpAddSlot a k => call (AddSlotToAccessList a k)
  | OpUpdateValidatorWrapper a w => call (UpdateValidatorWrapper a w)
  | OpUpdateWithRevert a w => call (UpdateValidatorWrapperWithRevert a w)
  | OpValidatorWrapper a b c => call (ValidatorWrapper_ a b c) | OpAddReward w n sh => call (AddReward w n sh)
  | OpFirstElection a n => call (SetValidatorFirstElectionEpoch a n)
  | OpGetCode a => call (GetCode a) | OpGetState a k => call (GetState a k) | OpGetCommitted a k => call (GetCommittedState a k)
  | OpGetLogs h n bh => call (GetLogs h n bh) | OpPrepare th bh ti => modify (Prepare th bh ti)
  | OpSnapshot => call Snapshot | OpRevert id => RevertToSnapshot id
  | OpFinalise b => call (Finalise b) | OpIntermediateRoot b => call (IntermediateRoot b)
  | OpCommit b => call (Commit b) | OpReset root => call (Reset root)
  end.
Definition run (ops : list Op) : SM DB unit := sm_for ops run_op.

Lemma call_undone {A} (m : SM DB A) : undone m -> undone (call m).
Proof.
  apply undone_outcome. intros s s' r E Hr. unfold call in E. destruct (m s) as [s1 [x|err|w]]; injection E as <- <-;
    [by eexists|by eexists|by destruct (Hr w)].
Qed.

(** ** Undoing leaves the bookkeeping alone *)

Definition books J V N s : Prop := entries (journal s) = J /\ validRevisions s = V /\ nextRevisionId s = N.

Section books.
Context (J : list journalEntry) (V : list revision) (N : Z).
Notation same_books := (books J V N).

Lemma getDeleted_books a : keeps same_books (getDeletedStateObject a).
Proof.
  intros s Hs. unfold getDeletedStateObject. repeat case_match; try done. unfold setError. by case_match.
Qed.
Lemma getStateObject_books a : keeps same_books (getStateObject a).
Proof. apply keeps_bind; [apply getDeleted_books|]. intros. apply keeps_ret. Qed.
Lemma on_object_books a f : keeps same_books (on_object_ a f).
Proof. intros s Hs. unfold on_object_, on_object. by destruct (stateObjects s !! a). Qed.
Lemma modify_books f : (forall s, books (entries (journal s)) (validRevisions s) (nextRevisionId s) (f s)) -> keeps same_books (modify f).
Proof. intros Hf. apply keeps_modify. intros s (<- & <- & <-). apply Hf. Qed.
#[local] Hint Resolve getStateObject_books on_object_books : sm.

Lemma revert_books e : keeps same_books (revert e).
Proof.
  destruct e; cbn [revert]; unfold on_account, setTransientState; sm_keeps; apply modify_books; intros s; try done.
  by destruct prevdestruct.
Qed.
Lemma revert_entry_books e : keeps same_books (revert_entry e).
Proof. apply keeps_bind; [apply revert_books|]. intros _. apply modify_books. intros s. by destruct (dirtied e). Qed.
Lemma undo_books es : keeps same_books (undo es).
Proof. apply keeps_for. intros. apply revert_entry_books. Qed.
End books.

Lemma undo_keeps_books es s t : undo es s = (t, Ok tt) ->
  entries (journal t) = entries (journal s) /\ validRevisions t = validRevisions s /\ nextRevisionId t = nextRevisionId s.
Proof.
  intros E. pose proof (undo_books (entries (journal s)) (validRevisions s) (nextRevisionId s) es s ltac:(done)) as K.
  by rewrite E in K.
Qed.

(** The journal itself is not touched by [revert]. *)
Lemma revert_journal e s : journal (fst (revert e s)) = journal s.
Proof.
  assert (keeps (fun t => journal t = journal s) (revert e)) as K; [|by apply K].
  assert (forall a, keeps (fun t => journal t = journal s) (getStateObject a)) as Hg.
  { intros a. apply keeps_bind; [|intros; apply keeps_ret]. intros t Ht. unfold getDeletedStateObject.
    repeat case_match; try done. unfold setError. by case_match. }
  assert (forall a f, keeps (fun t => journal t = journal s) (on_object_ a f)) as Ho.
  { intros a f t Ht. unfold on_object_, on_object. by destruct (stateObjects t !! a). }
  destruct e; cbn [revert]; unfold on_account, setTransientState; sm_keeps; try apply Hg; try apply Ho;
    apply keeps_modify; intros t Ht; try done. by destruct prevdestruct.
Qed.

Lemma undo_dirties es s t l : undo es s = (t, Ok tt) -> dirties_are (dirties (journal s)) (l ++ es) ->
  dirties_are (dirties (journal t)) l.
Proof.
  revert s. induction es as [|e es IH] using rev_ind; intros s E Hd.
  { injection E as <-. by rewrite app_nil_r in Hd. }
  unfold undo in E. rewrite rev_app_distr in E. cbn in E. destruct (revert_entry e s) as [s1 r1] eqn:E1.
  rewrite (bind_SM _ _ _ _ _ E1) in E. destruct r1 as [[]| |]; [|done|done]. apply (IH s1); [exact E|].
  rewrite app_assoc in Hd. apply drop_dirty_are in Hd. unfold revert_entry in E1.
  pose proof (revert_journal e s) as Hj. destruct (revert e s) as [s2 r2] eqn:E2. rewrite (bind_SM _ _ _ _ _ E2) in E1.
  destruct r2 as [[]| |]; [|done|done]. cbn in Hj. injection E1 as <-. destruct (dirtied e); cbn; by rewrite Hj.
Qed.

(** ** Going back *)

(** Undoing the journal down to [n] entries gives the state [u]. *)
Record Back s (n : nat) u : Prop := {
  back_entries : take n (entries (journal s)) = entries (journal u);
  back_length : n = length (entries (journal u));
  back_undo : exists t, undo (drop n (entries (journal s))) s = (t, Ok tt) /\ sim u t
}.
Lemma back_le s n u : Back s n u -> (n <= length (entries (journal s)))%nat.
Proof. intros [E Hn _]. apply (f_equal length) in E. rewrite length_take in E. lia. Qed.

Lemma Back_here s : Back s (length (entries (journal s))) s.
Proof. split; [apply take_ge; lia|done|]. exists s. rewrite drop_ge by lia. done. Qed.

Lemma Back_step s s' es n u : wf s -> wf u -> good_step s s' es -> Back s n u -> Back s' n u.
Proof.
  intros Hw Hu [G _ Hw' (t & U & S)] B. pose proof (back_le _ _ _ B) as Hle. destruct B as [Ht Hn (t' & U' & S')].
  split; [by rewrite (gr_entries _ _ _ G), take_app_le by lia|done|].
  rewrite (gr_entries _ _ _ G), drop_app_le by lia.
  destruct (undo_alike (drop n (entries (journal s))) s t t' S) as (t2 & E2 & S2 & _); [by apply wf_addr_ok|by apply wf_addr_ok; eapply wf_sim|exact U'|].
  exists t2. split; [by rewrite (undo_app _ _ _ _ U)|]. by etransitivity.
Qed.

(** What reverting to [n] entries does. *)
Lemma journal_revert_spec s n t : undo (drop n (entries (journal s))) s = (t, Ok tt) ->
  journal_revert n s = (set_journal (mkJournal (take n (entries (journal s))) (dirties (journal t))) t, Ok tt).
Proof.
  intros E. unfold journal_revert, mbind, SM_bind, gets. cbn. unfold undo in E. rewrite E. unfold modify.
  destruct (undo_keeps_books _ _ _ E) as (-> & _). done.
Qed.

Lemma Back_revert s s' m n u v : wf s -> Back s m v -> wf v -> journal_revert m s = (s', Ok tt) -> (n <= m)%nat -> Back s n u -> Back s' n u.
Proof.
  intros Hw Bm Hv E Hnm B. pose proof (back_le _ _ _ Bm) as Hm. destruct Bm as [_ _ (t & U & S)].
  rewrite (journal_revert_spec s m t U) in E. injection E as <-. destruct B as [Ht Hn (t' & U' & S')].
  split; [by cbn; rewrite take_take, Nat.min_l by lia|done|]. cbn.
  assert (drop n (entries (journal s)) = drop n (take m (entries (journal s))) ++ drop m (entries (journal s))) as Ed.
  { rewrite <- (take_drop m (entries (journal s))) at 1. rewrite drop_app_le; [done|]. rewrite length_take. lia. }
  rewrite Ed, (undo_app _ _ _ _ U) in U'. set (j := mkJournal _ _).
  assert (wf t) as Hwt by (eapply wf_sim; done).
  destruct (undo_alike (drop n (take m (entries (journal s)))) t (set_journal j t) t' (sim_set_journal j t)) as (t2 & E2 & S2 & _);
    [by apply wf_addr_ok|by apply (wf_addr_ok t)|exact U'|].
  exists t2. split; [exact E2|]. by etransitivity.
Qed.

(** ** The invariant of a run *)

Definition rev_lt (r r' : revision) : Prop := rev_id r < rev_id r' /\ (journalIndex r <= journalIndex r')%nat.

(** [G] gives the state in which a snapshot was taken. *)
Record inv (G : Z -> option DB) s : Prop := {
  inv_wf : wf s;
  inv_jwf : jwf (journal s);
  inv_sorted : StronglySorted rev_lt (validRevisions s);
  inv_next r : r ∈ validRevisions s -> rev_id r < nextRevisionId s;
  inv_back r : r ∈ validRevisions s -> exists u, G (rev_id r) = Some u /\ wf u /\ jwf (journal u) /\ Back s (journalIndex r) u
}.

Lemma inv_good_step G s s' es : inv G s -> good_step s s' es -> inv G s'.
Proof.
  intros [Hw Hj Hs Hn Hb] Hg. pose proof (gs_grows _ _ _ Hg) as [_ Hv Hx]. split.
  - apply Hg.
  - by apply Hg.
  - by rewrite Hv.
  - intros r. rewrite Hv, Hx. apply Hn.
  - intros r. rewrite Hv. intros Hr. destruct (Hb r Hr) as (u & Eu & Hu & Hju & B). exists u. split_and!; [done..|].
    exact (Back_step s s' es _ u Hw Hu Hg B).
Qed.

Lemma inv_undone {A} G (m : SM DB A) s s' r : undone m -> inv G s -> m s = (s', r) -> returns r ->
  inv G s' /\ nextRevisionId s' = nextRevisionId s.
Proof.
  intros Hm Hi E Hr. destruct (Hm s s' r (inv_wf _ _ Hi) E Hr) as (es & Hg). split; [by eapply inv_good_step|apply Hg].
Qed.

(** A state that has no snapshots, the next one being [N]. *)
Record settled (N : Z) s : Prop := {
  set_wf_ : wf s; set_jwf : jwf (journal s); set_revs : validRevisions s = []; set_next : nextRevisionId s = N
}.
Lemma settled_inv G N s : settled N s -> inv G s.
Proof. intros [Hw Hj Hr _]. split; [done|done|rewrite Hr; constructor|by rewrite Hr; set_solver|by rewrite Hr; set_solver]. Qed.

(** ** Snapshots *)

(** [sort.Search] finds the least index that satisfies a monotone predicate. *)
Lemma Search_loop_spec f fuel i j n : (forall x y, (x <= y)%nat -> f x = true -> f y = true) ->
  (i <= j <= n)%nat -> (j - i <= fuel)%nat -> (forall x, (x < i)%nat -> f x = false) -> ((j < n)%nat -> f j = true) ->
  let r := Search_loop fuel f i j in (r <= n)%nat /\ (forall x, (x < r)%nat -> f x = false) /\ ((r < n)%nat -> f r = true).
Proof.
  intros Hf. revert i j. induction fuel as [|fuel IH]; intros i j Hij Hfu Hlo Hhi; cbn [Search_loop].
  { assert (i = j) as -> by lia. split_and!; [lia|done|done]. }
  destruct (Nat.ltb_spec i j) as [Hlt|Hge]; [|assert (i = j) as -> by lia; split_and!; [lia|done|done]].
  assert (i <= (i + j) / 2 < j)%nat as Hh.
  { split; [apply Nat.div_le_lower_bound; lia|apply Nat.Div0.div_lt_upper_bound; lia]. }
  destruct (f ((i + j) / 2)%nat) eqn:E; apply IH; try lia; try done.
  intros x Hx. destruct (f x) eqn:Ex; [|done]. rewrite (Hf x ((i + j) / 2)%nat ltac:(lia) Ex) in E. done.
Qed.
Lemma Search_spec n f : (forall x y, (x <= y)%nat -> f x = true -> f y = true) ->
  (Search n f <= n)%nat /\ (forall x, (x < Search n f)%nat -> f x = false) /\ ((Search n f < n)%nat -> f (Search n f) = true).
Proof. intros Hf. apply Search_loop_spec; [done|lia|lia|lia|lia]. Qed.

Lemma rev_lt_lookup revs i j r r' : StronglySorted rev_lt revs -> revs !! i = Some r -> revs !! j = Some r' -> (i < j)%nat -> rev_lt r r'.
Proof.
  intros Hs. revert i j. induction Hs as [|x revs Hs IH Hx]; intros i j Hi Hj Hij; [done|].
  destruct j as [|j]; [lia|]. destruct i as [|i].
  - injection Hi as ->. rewrite Forall_forall in Hx. apply Hx. by eapply list_elem_of_lookup_2.
  - by apply (IH i j); [..|lia].
Qed.

Lemma id_at_least_mono revs id : StronglySorted rev_lt revs ->
  forall x y, (x <= y)%nat -> id_at_least revs id x = true -> id_at_least revs id y = true.
Proof.
  intros Hs x y Hxy. unfold id_at_least. destruct (revs !! y) as [r'|] eqn:Ey; [|done].
  destruct (revs !! x) as [r|] eqn:Ex; [|apply lookup_ge_None in Ex; apply lookup_lt_Some in Ey; lia].
  intros Hr. destruct (decide (x = y)) as [->|Hne]; [congruence|].
  destruct (rev_lt_lookup revs x y r r' Hs Ex Ey ltac:(lia)) as [Hlt _]. lia.
Qed.

(** The revision that is searched for, when it is there. *)
Lemma Search_finds revs id k r : StronglySorted rev_lt revs -> revs !! k = Some r -> rev_id r = id ->
  Search (length revs) (id_at_least revs id) = k.
Proof.
  intros Hs Hk Hid. destruct (Search_spec (length revs) (id_at_least revs id) (id_at_least_mono revs id Hs)) as (Hle & Hlo & Hhi).
  set (x := Search _ _) in *. assert (id_at_least revs id k = true) as Hfk by (unfold id_at_least; rewrite Hk; lia).
  destruct (Nat.lt_trichotomy x k) as [Hlt|[?|Hgt]]; [|done|].
  - pose proof (lookup_lt_Some _ _ _ Hk). destruct (lookup_lt_is_Some_2 revs x) as [rx Hx]; [lia|].
    destruct (rev_lt_lookup revs x k rx r Hs Hx Hk Hlt) as [Hi _]. specialize (Hhi ltac:(lia)). unfold id_at_least in Hhi. rewrite Hx in Hhi. lia.
  - by rewrite (Hlo k Hgt) in Hfk.
Qed.

Lemma Revert_runs s id k r : StronglySorted rev_lt (validRevisions s) -> validRevisions s !! k = Some r -> rev_id r = id ->
  RevertToSnapshot id s = (let! _ := journal_revert (journalIndex r) in modify (set_validRevisions (take k (validRevisions s)))) s.
Proof.
  intros Hs Hk Hid. unfold RevertToSnapshot. unfold mbind at 1, SM_bind at 1, gets.
  rewrite (Search_finds _ _ _ _ Hs Hk Hid), Hk, Hid, Z.eqb_refl. done.
Qed.

(** What it comes back to. *)
Lemma Revert_back G s id k r : inv G s -> validRevisions s !! k = Some r -> rev_id r = id ->
  exists u s', G id = Some u /\ RevertToSnapshot id s = (s', Ok tt) /\ sim u s' /\ inv G s' /\
    nextRevisionId s' = nextRevisionId s /\ entries (journal s') = entries (journal u) /\
    (forall a, a <> ripemd -> dirties (journal s') !! a = dirties (journal u) !! a).
Proof.
  intros [Hw Hj Hs Hn Hb] Hk Hid. assert (r ∈ validRevisions s) as Hr by (by eapply list_elem_of_lookup_2).
  destruct (Hb r Hr) as (u & Eu & Hu & Hju & B). pose proof (back_le _ _ _ B) as Hle. pose proof B as [Ht Hl (t & U & S)].
  exists u. rewrite (Revert_runs s id k r Hs Hk Hid), (bind_SM _ _ _ _ _ (journal_revert_spec s _ t U)).
  set (s1 := set_journal _ t). exists (set_validRevisions (take k (validRevisions s)) s1).
  assert (wf t) as Hwt by (eapply wf_sim; done).
  assert (jwf (journal s1)) as Hj1.
  { unfold jwf. cbn. eapply undo_dirties; [exact U|]. by rewrite take_drop. }
  assert (forall r', r' ∈ take k (validRevisions s) -> r' ∈ validRevisions s /\ (journalIndex r' <= journalIndex r)%nat) as Hsub.
  { intros r' Hr'. apply list_elem_of_lookup in Hr' as (i & Hi). apply lookup_take_Some in Hi as [Hi Hik].
    split; [by eapply list_elem_of_lookup_2|]. eapply rev_lt_lookup; [exact Hs|exact Hi|exact Hk|done]. }
  split_and!; [by rewrite <- Hid|done| | |by apply (undo_keeps_books _ _ _ U)|done|].
  - etransitivity; [exact S|]. etransitivity; [apply (sim_set_journal (journal s1))|]. apply sim_same_objs; [by split; [split|..]|done].
  - split; cbn.
    + by destruct Hwt.
    + done.
    + apply (StronglySorted_app_1_l _ _ (drop k (validRevisions s))). by rewrite take_drop.
    + intros r' Hr'. destruct (undo_keeps_books _ _ _ U) as (_ & _ & ->). by apply Hn, Hsub.
    + intros r' Hr'. destruct (Hsub r' Hr') as [Hin Hle']. destruct (Hb r' Hin) as (u' & Eu' & Hu' & Hju' & B').
      exists u'. split_and!; [done..|].
      pose proof (Back_revert s s1 _ _ u' u Hw B Hu (journal_revert_spec s _ t U) Hle' B') as [X1 X2 (x & Ux & Sx)]. 
      split; [done|done|]. cbn in *.
      destruct (undo_alike (drop (journalIndex r') (take (journalIndex r) (entries (journal s)))) s1 (set_validRevisions (take k (validRevisions s)) s1) x)
        as (x2 & E2 & S2 & _); [|by apply (wf_addr_ok t)|by apply (wf_addr_ok t)|exact Ux|].
      * apply sim_same_objs; [by split; [split|..]|done].
      * exists x2. split; [exact E2|]. by etransitivity.
  - intros a Ha. cbn. pose proof (Hj1 a Ha) as E1. pose proof (Hju a Ha) as E2. cbn in E1. by rewrite E1, E2, Ht.
Qed.

Lemma Snapshot_inv G s s' id : inv G s -> Snapshot s = (s', Ok id) ->
  id = nextRevisionId s /\ nextRevisionId s' = nextRevisionId s + 1 /\ sim s s' /\
  inv (fun i => if decide (i = id) then Some s else G i) s'.
Proof.
  intros [Hw Hj Hs Hn Hb] [= <- <-]. set (s' := set_validRevisions _ _).
  assert (sim s s') as Hsim by (apply sim_same_objs; [by split; [split|..]|done]).
  split_and!; [done|done|done|]. split.
  - by eapply wf_sim.
  - done.
  - cbn. apply StronglySorted_app_2; [|done|by repeat constructor].
    intros r r' Hr ->%list_elem_of_singleton. split; [by apply Hn|]. destruct (Hb r Hr) as (u & _ & _ & _ & B). by apply (back_le _ _ _ B).
  - cbn. intros r [Hr| ->%list_elem_of_singleton]%elem_of_app; [specialize (Hn r Hr); lia|cbn; lia].
  - assert (forall n u, Back s n u -> Back s' n u) as Hback.
    { intros n u [B1 B2 (t & U & S)]. split; [done|done|].
      destruct (undo_alike _ s s' t Hsim (wf_addr_ok s Hw) (wf_addr_ok s Hw) U) as (t' & U' & S' & _).
      exists t'. split; [done|by etransitivity]. }
    cbn. intros r [Hr| ->%list_elem_of_singleton]%elem_of_app.
    + destruct (Hb r Hr) as (u & Eu & Hu & Hju & B). exists u. specialize (Hn r Hr).
      rewrite decide_False by lia. split_and!; [done..|]. by apply Hback.
    + exists s. cbn. rewrite decide_True by done. split_and!; [done..|]. apply Hback, Back_here.
Qed.

(** ** The way to the trie leaves a settled state *)

Lemma undone_for {A} (l : list A) f : (forall x, undone (f x)) -> undone (sm_for l f).
Proof. intros Hf. induction l as [|x l IH]; [apply undone_ret|]. apply undone_bind; [apply Hf|]. by intros _. Qed.
Lemma undone_handled {A} (m : SM DB A) : undone m -> undone (handled m).
Proof.
  apply undone_outcome. intros s s' r E Hr. unfold handled, caught, mbind, SM_bind in E.
  destruct (m s) as [s1 [x|err|w]]; injection E as <- <-; [by eexists|by eexists|by destruct (Hr w)].
Qed.
Lemma finalise_wrapper_undone av : undone (finalise_wrapper av).
Proof. unfold finalise_wrapper. destruct (av.2); [apply undone_handled, UpdateValidatorWrapper_undone|apply undone_lift]. Qed.

Lemma finalise_object_wf b a s : wf s ->
  let s' := finalise_object b a s in wf s' /\ journal s' = journal s /\ nextRevisionId s' = nextRevisionId s.
Proof.
  intros Hw. cbv zeta. unfold finalise_object. destruct (stateObjects s !! a) as [o|] eqn:Eo; [|done].
  assert (forall o', obj_ok a o' -> wf (set_stateObjects (<[a := o']> (stateObjects s)) s)) as Hi by (intros; by apply wf_insert).
  pose proof (wf_objs s Hw a o Eo) as Hok.
  assert (forall o' t, obj_ok a o' -> stateObjects t = <[a := o']> (stateObjects s) -> acl t = acl s -> logSize t = logSize s -> wf t) as Hx.
  { intros o' t Ho' E1 E2 E3. destruct (Hi o' Ho') as [X1 X2 X3]. split; [by rewrite E1|by rewrite E2|by rewrite E3]. }
  destruct (to_delete b o); [case_match|]; (split; [|done]).
  - apply (Hx (with_deleted true o)); [by destruct Hok|done..].
  - apply (Hx (with_deleted true o)); [by destruct Hok|done..].
  - apply (Hx (finalise o)); [by destruct Hok|done..].
Qed.
Lemma finalise_objects_wf b l s : wf s ->
  let s' := foldl (fun db a => finalise_object b a db) s l in
  wf s' /\ journal s' = journal s /\ nextRevisionId s' = nextRevisionId s.
Proof.
  revert s. induction l as [|a l IH]; intros s Hw; [done|]. cbn [foldl]. destruct (finalise_object_wf b a s Hw) as (Hw' & Hj' & Hn').
  destruct (IH _ Hw') as (? & -> & ->). done.
Qed.
Lemma clear_settled s : wf s -> jwf (journal s) -> settled (nextRevisionId s) (clearJournalAndRefund s).
Proof.
  intros [] Hj. unfold clearJournalAndRefund. destruct (entries (journal s)); split; try done; by split.
Qed.

Lemma Finalise_settled G b s s' r : inv G s -> Finalise b s = (s', r) -> returns r ->
  settled (nextRevisionId s) s' /\ r = Ok tt.
Proof.
  intros Hi E Hr. unfold Finalise, gets in E. unfold mbind at 1, SM_bind at 1 in E.
  destruct (sm_for (walk (stateValidators s)) finalise_wrapper s) as [s1 r1] eqn:E1. rewrite (bind_SM _ _ _ _ _ E1) in E.
  assert (returns r1) as Hr1 by (intros w ->; injection E as _ <-; by apply (Hr w)).
  assert (inv G s1 /\ nextRevisionId s1 = nextRevisionId s) as [[Hw1 Hj1 _ _ _] Hn1]
    by (eapply inv_undone; [|exact Hi|exact E1|done]; apply undone_for, finalise_wrapper_undone).
  destruct r1 as [[]|err|w]; [|exfalso|by destruct (Hr1 w)].
  - injection E as <- <-. split; [|done]. destruct (finalise_objects_wf b (map fst (walk (dirties (journal s1)))) s1 Hw1) as (Hw2 & Hj2 & Hn2).
    rewrite <- Hn1, <- Hn2. apply clear_settled; [done|by rewrite Hj2].
  - clear -E1. revert E1. generalize (walk (stateValidators s)) as l. intros l. revert s. induction l as [|x l IH]; intros s E1; [done|].
    cbn [sm_for] in E1. destruct (finalise_wrapper x s) as [s2 r2] eqn:E2. rewrite (bind_SM _ _ _ _ _ E2) in E1.
    destruct r2 as [[]|e2|w]; [by apply (IH s2)| |done]. unfold finalise_wrapper in E2. destruct (x.2); [|done].
    unfold handled, caught, mbind, SM_bind in E2. by destruct (UpdateValidatorWrapper x.1 v s) as [? [| |]].
Qed.

Ltac goal_match := repeat match goal with |- context [match ?x with _ => _ end] => destruct x end.
Ltac settled_with lem := apply keeps_modify; intros ? Hset; eapply lem; [exact Hset|..];
  unfold deleteStateObject, updateStateObject, setError_if, setError, commit_snapshot; by goal_match.

Section settled.
Context (N : Z).
Notation settled := (settled N).

(** An object of the address and a settled database. *)
Definition settled_at a (od : Object * DB) : Prop := obj_ok a od.1 /\ settled od.2.

Lemma settled_omod a f : (forall o, obj_ok a o -> obj_ok a (f o)) -> keeps (settled_at a) (omod f).
Proof. intros Hf. apply keeps_modify. intros [o s] [Ho Hs]. split; [by apply Hf|done]. Qed.
Lemma settled_dmod a f : (forall s, settled s -> settled (f s)) -> keeps (settled_at a) (dmod f).
Proof. intros Hf. apply keeps_modify. intros [o s] [Ho Hs]. split; [done|by apply Hf]. Qed.
Lemma settled_set s t : settled s -> stateObjects t = stateObjects s -> acl t = acl s -> logSize t = logSize s ->
  journal t = journal s -> validRevisions t = validRevisions s -> nextRevisionId t = nextRevisionId s -> settled t.
Proof.
  intros [[Ho Ha Hl] Hj Hv Hn] E1 E2 E3 E4 E5 E6.
  split; [split; [by rewrite E1|by rewrite E2|by rewrite E3]|by rewrite E4|by rewrite E5|by rewrite E6].
Qed.

Lemma self_settled a : keeps (settled_at a) self.
Proof. by intros od Hod. Qed.
Lemma the_db_settled a : keeps (settled_at a) the_db.
Proof. by intros od Hod. Qed.
#[local] Hint Resolve self_settled the_db_settled : sm.
Lemma obj_setError_ok a err o : obj_ok a o -> obj_ok a (obj_setError err o).
Proof. intros []. unfold obj_setError. by case_match. Qed.
Ltac settled_step := first
  [ apply settled_omod; first [apply obj_setError_ok | intros ? []; by split]
  | apply settled_dmod; intros ? Hset; eapply settled_set; [exact Hset|..]; by goal_match ].
Ltac settled_steps := sm_keeps; try settled_step.

Lemma getTrie_settled a : keeps (settled_at a) getTrie.
Proof. unfold getTrie. settled_steps. Qed.
#[local] Hint Resolve getTrie_settled : sm.
Lemma update_slot_settled a kv : keeps (settled_at a) (update_slot kv).
Proof. unfold update_slot. settled_steps. Qed.
#[local] Hint Resolve update_slot_settled : sm.
Lemma updateTrie_settled a : keeps (settled_at a) updateTrie.
Proof.
  unfold updateTrie. settled_steps. intros od Hod. pose proof (getTrie_settled a od Hod) as Hg.
  destruct (getTrie od) as [od' [| |]]; try done. destruct Hg. split; [by apply obj_setError_ok|done].
Qed.
#[local] Hint Resolve updateTrie_settled : sm.
Lemma updateRoot_settled a : keeps (settled_at a) updateRoot.
Proof.
  intros od Hod. unfold updateRoot. pose proof (updateTrie_settled a od Hod) as Hu. destruct (updateTrie od) as [od' [[tr|]| |]]; try done.
  - destruct Hu as [[] ?]. by split.
  - destruct Hu. split; [by apply obj_setError_ok|done].
Qed.
Lemma commitTrie_settled a : keeps (settled_at a) commitTrie.
Proof. unfold commitTrie. settled_steps. Qed.

Lemma on_object_settled {A} a (m : OM A) : keeps (settled_at a) m -> keeps settled (on_object a m).
Proof.
  intros Hm s Hs. unfold on_object. destruct (stateObjects s !! a) as [o|] eqn:Eo; [|done].
  specialize (Hm (o, s) (conj (wf_objs s (set_wf_ _ s Hs) a o Eo) Hs)). destruct (m (o, s)) as [[o' s'] r]. destruct Hm as [Ho [Hw Hj Hv Hn]].
  split; [by apply wf_insert|done..].
Qed.
Lemma live_object_settled a : keeps settled (live_object a).
Proof. unfold live_object. sm_keeps. Qed.
#[local] Hint Resolve live_object_settled : sm.


Lemma root_pending_settled a : keeps settled (root_pending a).
Proof. unfold root_pending. sm_keeps. apply on_object_settled, updateRoot_settled. Qed.
Lemma write_pending_settled a : keeps settled (write_pending a).
Proof. unfold write_pending. sm_keeps; settled_with settled_set. Qed.
#[local] Hint Resolve root_pending_settled write_pending_settled : sm.

Lemma clean_code_ok a o : obj_ok a o -> obj_ok a (clean_code o).
Proof. intros []. unfold clean_code. by repeat case_match. Qed.
Lemma commit_objects_settled l bt : keeps settled (commit_objects l bt).
Proof.
  revert bt. induction l as [|a l IH]; intros bt; cbn [commit_objects]; sm_keeps; try apply IH.
  - apply on_object_settled, settled_omod, clean_code_ok.
  - apply on_object_settled, commitTrie_settled.
Qed.
Lemma update_triedb_settled root bt : keeps settled (update_triedb root bt).
Proof. unfold update_triedb. sm_keeps; settled_with settled_set. Qed.
#[local] Hint Resolve commit_objects_settled update_triedb_settled : sm.

End settled.
#[local] Hint Resolve root_pending_settled write_pending_settled commit_objects_settled update_triedb_settled : sm.

Lemma IntermediateRoot_settled G b s s' r : inv G s -> IntermediateRoot b s = (s', r) -> returns r ->
  settled (nextRevisionId s) s'.
Proof.
  intros Hi E Hr. unfold IntermediateRoot in E. destruct (Finalise b s) as [s1 r1] eqn:E1. rewrite (bind_SM _ _ _ _ _ E1) in E.
  assert (returns r1) as Hr1 by (intros w ->; injection E as _ <-; by apply (Hr w)).
  destruct (Finalise_settled G b s s1 r1 Hi E1 Hr1) as [Hs ->].
  match type of E with ?m s1 = _ => assert (keeps (settled (nextRevisionId s)) m) as K end.
  { sm_keeps. settled_with settled_set. }
  specialize (K s1 Hs). by rewrite E in K.
Qed.

Lemma Commit_inv G b s s' r : inv G s -> Commit b s = (s', r) -> returns r ->
  inv G s' /\ nextRevisionId s' = nextRevisionId s.
Proof.
  intros Hi E Hr. unfold Commit in E. unfold mbind at 1, SM_bind at 1, gets at 1 in E.
  destruct (dbErr s) as [err|]; [by injection E as <- _|].
  destruct (IntermediateRoot b s) as [s1 r1] eqn:E1. rewrite (bind_SM _ _ _ _ _ E1) in E.
  assert (returns r1) as Hr1 by (intros w ->; injection E as _ <-; by apply (Hr w)).
  pose proof (IntermediateRoot_settled G b s s1 r1 Hi E1 Hr1) as Hs.
  destruct r1 as [root|err|w]; [|injection E as <- _; split; [by eapply settled_inv|apply Hs]|by destruct (Hr1 w)].
  match type of E with ?m s1 = _ => assert (keeps (settled (nextRevisionId s)) m) as K end.
  { sm_keeps; try settled_with settled_set. }
  specialize (K s1 Hs). rewrite E in K. split; [by eapply settled_inv|apply K].
Qed.

Lemma Reset_run_inv G root s s' r : inv G s -> Reset root s = (s', r) -> returns r ->
  inv G s' /\ nextRevisionId s' = nextRevisionId s.
Proof.
  intros Hi E Hr. unfold Reset in E. destruct (NewStateTrie _ _); [|by injection E as <- _|by injection E as _ <-; destruct (Hr why)].
  injection E as <- _. match goal with |- inv _ (clearJournalAndRefund ?t) /\ _ => destruct (clear_settled t) as [] end.
  - split; [by apply map_Forall_empty|apply Hi|done].
  - apply Hi.
  - split; [by eapply settled_inv|done].
Qed.

(** ** Runs *)

Lemma call_returns {A} (m : SM DB A) s s' : call m s = (s', Ok tt) -> exists r, m s = (s', r) /\ returns r.
Proof. unfold call. destruct (m s) as [s1 [x|err|w]]; [| |done]; intros [= <-]; by eexists. Qed.

(** The methods of a transaction. *)
Lemma tx_op_undone op : match op with
  | OpSnapshot | OpRevert _ | OpFinalise _ | OpIntermediateRoot _ | OpCommit _ | OpReset _ => True
  | _ => undone (run_op op) end.
Proof.
  destruct op; cbn [run_op]; try apply call_undone; try done.
  - apply writing_undone, AddBalance_live.
  - apply writing_undone, SubBalance_live.
  - apply writing_undone, SetBalance_live.
  - apply writing_undone, SetNonce_live.
  - apply SetCode_undone.
  - apply SetState_undone.
  - apply Suicide_undone.
  - apply CreateAccount_undone.
  - apply AddRefund_undone.
  - apply SubRefund_undone.
  - apply AddLog_undone.
  - apply AddPreimage_undone.
  - apply SetTransientState_undone.
  - apply AddAddress_undone.
  - apply AddSlot_undone.
  - apply UpdateValidatorWrapper_undone.
  - apply UpdateWithRevert_undone.
  - apply ValidatorWrapper_undone.
  - apply AddReward_undone.
  - apply SetFirstElectionEpoch_undone.
  - apply GetCode_undone.
  - apply GetState_undone.
  - apply GetCommittedState_undone.
  - apply GetLogs_undone.
  - apply undone_hidden. intros s. split_and!; [by split; [split|..]|done..].
Qed.

(** What is known of the snapshots taken so far stays known. *)
Definition knows (G G' : Z -> option DB) s s' : Prop :=
  nextRevisionId s <= nextRevisionId s' /\ forall i, i < nextRevisionId s -> G' i = G i.
Lemma knows_same G s s' : nextRevisionId s' = nextRevisionId s -> knows G G s s'.
Proof. intros E. split; [lia|done]. Qed.

Lemma Revert_invalid s id s' : StronglySorted rev_lt (validRevisions s) -> RevertToSnapshot id s = (s', Ok tt) ->
  exists k r, validRevisions s !! k = Some r /\ rev_id r = id.
Proof.
  intros Hs E. unfold RevertToSnapshot in E. unfold mbind at 1, SM_bind at 1, gets in E.
  destruct (validRevisions s !! _) as [r|] eqn:Ek; [|done]. eexists _, r. split; [exact Ek|].
  by destruct (Z.eqb_spec (rev_id r) id).
Qed.

Lemma run_op_inv G op s s' : inv G s -> run_op op s = (s', Ok tt) -> exists G', inv G' s' /\ knows G G' s s'.
Proof.
  intros Hi E.
  assert (undone (run_op op) -> exists G', inv G' s' /\ knows G G' s s') as Htx.
  { intros Hu. destruct (inv_undone G (run_op op) s s' (Ok tt) Hu Hi E) as [Hi' Hn]; [done|]. exists G. split; [done|by apply knows_same]. }
  assert (inv G s' /\ nextRevisionId s' = nextRevisionId s -> exists G', inv G' s' /\ knows G G' s s') as Hst.
  { intros [Hi' Hn]. exists G. split; [done|by apply knows_same]. }
  pose proof (tx_op_undone op) as Hop. destruct op; try (by apply Htx); cbn [run_op] in E.
  - destruct (call_returns _ _ _ E) as (r & Es & Hr). pose proof Es as Es'. unfold Snapshot in Es'. injection Es' as <- <-.
    destruct (Snapshot_inv G s _ _ Hi Es) as (_ & Hn & _ & Hi'). eexists. split; [exact Hi'|].
    split; [lia|]. intros i Hlt. by rewrite decide_False by lia.
  - destruct (Revert_invalid s id s' (inv_sorted _ _ Hi) E) as (k & r & Hk & Hid).
    destruct (Revert_back G s id k r Hi Hk Hid) as (u & s1 & _ & E1 & _ & Hi' & Hn & _). rewrite E1 in E. injection E as <-.
    by apply Hst.
  - destruct (call_returns _ _ _ E) as (r & Es & Hr). destruct (Finalise_settled G b s s' r Hi Es Hr) as [Hs _].
    apply Hst. split; [by eapply settled_inv|apply Hs].
  - destruct (call_returns _ _ _ E) as (r & Es & Hr). pose proof (IntermediateRoot_settled G b s s' r Hi Es Hr) as Hs.
    apply Hst. split; [by eapply settled_inv|apply Hs].
  - destruct (call_returns _ _ _ E) as (r & Es & Hr). apply Hst. by eapply Commit_inv.
  - destruct (call_returns _ _ _ E) as (r & Es & Hr). apply Hst. by eapply Reset_run_inv.
Qed.

Lemma run_inv G ops s s' : inv G s -> run ops s = (s', Ok tt) -> exists G', inv G' s' /\ knows G G' s s'.
Proof.
  revert G s. induction ops as [|op ops IH]; intros G s Hi E.
  { injection E as <-. exists G. split; [done|by apply knows_same]. }
  cbn [run sm_for] in E. unfold run in E. cbn [sm_for] in E. destruct (run_op op s) as [s1 r1] eqn:E1.
  rewrite (bind_SM _ _ _ _ _ E1) in E. destruct r1 as [[]| |]; [|done|done].
  destruct (run_op_inv G op s s1 Hi E1) as (G1 & Hi1 & Hn1 & Hk1). destruct (IH G1 s1 Hi1 E) as (G2 & Hi2 & Hn2 & Hk2).
  exists G2. split; [done|]. split; [lia|]. intros i Hlt. rewrite Hk2, Hk1 by lia. done.
Qed.

Lemma New_inv root dsk tdb tree s G : New root dsk tdb tree = Ok s -> inv G s.
Proof.
  unfold New. intros (tr & _ & [= <-])%bind_Ok. split; cbn; [|by intros a Ha|constructor|set_solver|set_solver].
  split; [by apply map_Forall_empty|apply newAccessList_wf|cbn; lia].
Qed.

(** ** What getters answer *)

Record same_answers s s' : Prop := {
  same_Exist a : snd (Exist a s') = snd (Exist a s);
  same_Empty a : snd (Empty a s') = snd (Empty a s);
  same_GetBalance a : snd (GetBalance a s') = snd (GetBalance a s);
  same_GetNonce a : snd (GetNonce a s') = snd (GetNonce a s);
  same_GetCode a : snd (GetCode a s') = snd (GetCode a s);
  same_GetCodeHash a : snd (GetCodeHash a s') = snd (GetCodeHash a s);
  same_HasSuicided a : snd (HasSuicided a s') = snd (HasSuicided a s);
  same_IsValidator a : snd (IsValidator a s') = snd (IsValidator a s);
  same_GetState a k : snd (GetState a k s') = snd (GetState a k s);
  same_GetCommittedState a k : snd (GetCommittedState a k s') = snd (GetCommittedState a k s);
  same_GetTransientState a k : GetTransientState s' a k = GetTransientState s a k;
  same_GetLogs h n bh : snd (GetLogs h n bh s') = snd (GetLogs h n bh s);
  same_GetRefund : GetRefund s' = GetRefund s;
  same_Preimages : Preimages s' = Preimages s;
  same_AddressInAccessList a : AddressInAccessList s' a = AddressInAccessList s a;
  same_SlotInAccessList a k : SlotInAccessList s' a k = SlotInAccessList s a k
}.

Lemma reading_same {A} a (d : A) m r s s' : wf s -> sim s s' -> caching m r -> shows r ->
  snd (reading a d m s') = snd (reading a d m s).
Proof.
  intros Hw Hs Hm Hr. destruct (reading_spec a d m r s Hw Hm Hr) as (t & -> & _).
  destruct (reading_spec a d m r s' (wf_sim _ _ Hs Hw) Hm Hr) as (t' & -> & _). cbn. symmetry. by apply answer_sim.
Qed.

Lemma IsValidator_caching : caching obj_IsValidator (fun s o => (fun v => negb (v =? 0)) <$> slot_of s o IsValidatorKey).
Proof.
  intros o s Hf Hu. destruct (GetState_caching IsValidatorKey o s Hf Hu) as (o' & E & Ho). exists o'. split; [|done].
  unfold obj_IsValidator. rewrite (bind_SM _ _ _ _ _ E). by destruct (slot_of s o IsValidatorKey).
Qed.

Lemma sim_answers s s' : wf s -> sim s s' -> same_answers s s'.
Proof.
  intros Hw Hs. split; intros.
  - apply (reading_same _ _ _ (fun _ _ => Ok true)); [done|done|by intros o t _ _; exists o|by intros ?].
  - apply (reading_same _ _ _ (fun _ o => Ok (empty o))); [done|done|apply pure_caching|]. intros t t' o o' _ _ [].
    unfold empty. congruence.
  - apply (reading_same _ _ _ (fun _ o => Ok (Balance (data o)))); [done|done|apply pure_caching|]. intros t t' o o' _ _ []. congruence.
  - apply (reading_same _ _ _ (fun _ o => Ok (Nonce (data o)))); [done|done|apply pure_caching|]. intros t t' o o' _ _ []. congruence.
  - apply (reading_same _ _ _ _ _ _ Hw Hs Code_caching shows_code).
  - apply (reading_same _ _ _ (fun _ o => Ok (CodeHash (data o)))); [done|done|apply pure_caching|]. intros t t' o o' _ _ []. congruence.
  - apply (reading_same _ _ _ (fun _ o => Ok (suicided o))); [done|done|apply pure_caching|]. intros t t' o o' _ _ []. congruence.
  - apply (reading_same _ _ _ _ _ _ Hw Hs IsValidator_caching). intros t t' o o' He Hd Ho.
    by rewrite (shows_slot IsValidatorKey t t' o o').
  - apply (reading_same _ _ _ _ _ _ Hw Hs (GetState_caching k) (shows_slot k)).
  - apply (reading_same _ _ _ _ _ _ Hw Hs (GetCommittedState_caching k) (shows_committed k)).
  - symmetry. apply Hs.
  - pose proof (sim_logs _ _ Hs h) as E%(f_equal (map (annotate n bh))). unfold logs_of in E. rewrite !map_map in E. unfold GetLogs.
    by destruct (logs s !! h), (logs s' !! h); cbn in *; f_equal; symmetry.
  - symmetry. apply Hs.
  - symmetry. apply Hs.
  - unfold AddressInAccessList. by rewrite (sim_acl _ _ Hs).
  - unfold SlotInAccessList. by rewrite (sim_acl _ _ Hs).
Qed.


(** ** The wrapper cache *)

(** The journal entries of an update are the ones of its [SetCode], and the
    wrapper that was cached. *)
Lemma revert_stateValidators e s : (forall a w, e <> validatorWrapperChange a w) ->
  stateValidators (fst (revert e s)) = stateValidators s.
Proof.
  intros He. assert (keeps (fun t => stateValidators t = stateValidators s) (revert e)) as K; [|by apply K].
  assert (forall a, keeps (fun t => stateValidators t = stateValidators s) (getStateObject a)) as Hg.
  { intros a. apply keeps_bind; [|intros; apply keeps_ret]. intros t Ht. unfold getDeletedStateObject.
    repeat case_match; try done. unfold setError. by case_match. }
  assert (forall a f, keeps (fun t => stateValidators t = stateValidators s) (on_object_ a f)) as Ho.
  { intros a f t Ht. unfold on_object_, on_object. by destruct (stateObjects t !! a). }
  destruct e; cbn [revert]; unfold on_account, setTransientState; sm_keeps; try apply Hg; try apply Ho;
    apply keeps_modify; intros t Ht; try done; [by destruct prevdestruct|by destruct (He account prev)].
Qed.
Definition plain_entry e : Prop := forall a w, e <> validatorWrapperChange a w.
(** Only plain entries after [J], and the cache as it was. *)
Definition plain_since (J : list journalEntry) V s : Prop :=
  stateValidators s = V /\ exists es, entries (journal s) = J ++ es /\ Forall plain_entry es.

Lemma plain_append J V e s : plain_entry e -> plain_since J V s -> plain_since J V (append e s).
Proof.
  intros He [Hv (es & E & Hes)]. split; [done|]. exists (es ++ [e]). split; [|by apply Forall_app; split; [|constructor]].
  unfold append. cbn. unfold j_append. destruct (dirtied e); cbn; by rewrite E, app_assoc.
Qed.
Lemma plain_same J V s t : stateValidators t = stateValidators s -> journal t = journal s -> plain_since J V s -> plain_since J V t.
Proof. intros E1 E2 [Hv He]. split; [by rewrite E1|by rewrite E2]. Qed.

Lemma getDeleted_plain J V a : keeps (plain_since J V) (getDeletedStateObject a).
Proof.
  intros s Hs. unfold getDeletedStateObject. repeat case_match; try done. unfold setError. by case_match.
Qed.
Lemma SetCode_plain J V a c b : keeps (plain_since J V) (SetCode a c b).
Proof.
  unfold SetCode, writing, GetOrNewStateObject, getStateObject, createObject. sm_keeps; try apply getDeleted_plain.
  - apply keeps_modify. intros s Hs. by case_match.
  - apply keeps_modify. intros s Hs. apply plain_append; [|done]. by destruct a1.
  - by apply keeps_modify.
  - intros s Hs. unfold on_object. destruct (stateObjects s !! a) as [o|]; [|done].
    assert (exists o1 r, Code (o, s) = ((o1, s), r)) as (o1 & r & E).
    { unfold Code. autorewrite with om. repeat (case_match; autorewrite with om); by eexists _, _. }
    unfold obj_SetCode. rewrite (bind_SM _ _ _ _ _ E). destruct r as [x| |]; [|done|done]. autorewrite with om. cbn.
    by apply (plain_append J V (codeChange (address o1) x (CodeHash (data o1)))).
Qed.

Lemma undo_plain es s t : Forall plain_entry es -> undo es s = (t, Ok tt) -> stateValidators t = stateValidators s.
Proof.
  revert s. induction es as [|e es IH] using rev_ind; intros s Hp E; [by injection E as <-|].
  apply Forall_app in Hp as [Hp He]. inversion_clear He as [|? ? He0 _]. unfold undo in E. rewrite rev_app_distr in E. cbn in E.
  destruct (revert_entry e s) as [s1 r1] eqn:E1. rewrite (bind_SM _ _ _ _ _ E1) in E. destruct r1 as [[]| |]; [|done|done].
  rewrite (IH s1 Hp E). pose proof (revert_stateValidators e s He0) as K. unfold revert_entry in E1.
  destruct (revert e s) as [s2 r2] eqn:E2. rewrite (bind_SM _ _ _ _ _ E2) in E1. destruct r2 as [[]| |]; [|done|done].
  injection E1 as <-. rewrite <- K. by destruct (dirtied e).
Qed.

(** What the cache holds after an update is reverted: what it held before, and a
    nil pointer when the address had no validator. *)
Lemma wrapper_restored G s a w s1 id s2 s3 t prev : inv G s -> wrapper_or_nil a s = (s1, Ok prev) ->
  Snapshot s1 = (s2, Ok id) -> wrapper_or_nil a s2 = (t, Ok prev) -> journal t = journal s2 -> UpdateValidatorWrapperWithRevert a w s2 = (s3, Ok tt) ->
  exists s4, RevertToSnapshot id s3 = (s4, Ok tt) /\ stateValidators s4 !! a = Some prev.
Proof.
  intros Hi Ew Es Et Ht Eu. destruct (inv_undone G _ s s1 _ (wrapper_or_nil_undone a) Hi Ew) as [Hi1 _]; [done|].
  destruct (Snapshot_inv G s1 s2 id Hi1 Es) as (Hid & _ & _ & Hi2). pose proof Eu as Eu'.
  destruct (inv_undone _ _ s2 s3 _ (UpdateWithRevert_undone a w) Hi2 Eu) as [Hi3 _]; [done|].
  unfold UpdateValidatorWrapperWithRevert, lift in Eu. unfold mbind at 1, SM_bind at 1 in Eu.
  destruct (SanityCheck w) as [[]| |]; [|done|done]. rewrite (bind_SM _ _ _ _ _ Et) in Eu.
  unfold UpdateValidatorWrapper, lift in Eu. unfold mbind, SM_bind in Eu. destruct (SanityCheck w) as [[]| |]; [|done|done].
  destruct (wrapper_Encode w) as [by_| |]; [|done|done].
  pose proof (SetCode_plain (entries (journal t)) (stateValidators t) a (Some by_) true t) as Hp.
  destruct (SetCode a (Some by_) true t) as [u r]. destruct r as [[]| |]; [|done|done].
  destruct Hp as [_ (es & Ee & Hes)]. { split; [done|]. exists []. by rewrite app_nil_r. }
  cbn in Eu. assert (exists k r, validRevisions s3 !! k = Some r /\ rev_id r = id /\ journalIndex r = length (entries (journal t))) as (k & r & Hk & Hr & Hx).
  { destruct (UpdateWithRevert_undone a w s2 s3 (Ok tt) (inv_wf _ _ Hi2) Eu') as (es' & Hg); [done|].
    pose proof (gr_revs _ _ _ (gs_grows _ _ _ Hg)) as ->. injection Es as <- <-. cbn.
    exists (length (validRevisions s1)), (mkRevision (nextRevisionId s1) (j_length (journal s1))).
    split_and!; [by rewrite lookup_app_r, Nat.sub_diag by lia|done|]. by rewrite Ht. }
  destruct (Revert_back _ s3 id k r Hi3 Hk Hr) as (u0 & s4 & _ & E4 & _). exists s4. split; [done|].
  rewrite (Revert_runs s3 id k r (inv_sorted _ _ Hi3) Hk Hr) in E4. destruct (journal_revert (journalIndex r) s3) as [s5 r5] eqn:E5.
  rewrite (bind_SM _ _ _ _ _ E5) in E4. destruct r5 as [[]| |]; [|done|done]. injection E4 as <-. cbn.
  injection Eu as <-. unfold journal_revert, gets in E5. cbn in E5. unfold mbind, SM_bind in E5.
  match type of E5 with context [sm_for ?l ?f ?x] => destruct (sm_for l f x) as [s6 r6] eqn:E6 end. destruct r6 as [[]| |]; [|done|done].
  injection E5 as <-. cbn. rewrite Hx in E6. cbn in E6. unfold j_append in E6. cbn in E6. cbn in Ee. rewrite Ee in E6.
  rewrite <- app_assoc, drop_app_length, rev_app_distr in E6. cbn [rev app sm_for] in E6.
  unfold revert_entry in E6 at 1. cbn in E6. change (sm_for (rev es) revert_entry) with (undo es) in E6.
  erewrite (undo_plain es _ s6 Hes); [|exact E6]. cbn. by rewrite lookup_insert_eq.
Qed.

End revert.
