(* ===== verification/StateRewards.v ===== *)
(** * Distributing a block reward (core/state/statedb.go: AddReward)

    The commission goes to the validator's own delegation, the rest is shared
    in proportion to the snapshot's stakes, each share rounded half to even, and
    what is left over goes to the validator.  Nothing takes back what rounding
    up gave away: the delegations receive the reward plus at most half a unit
    per delegator ([AddReward_distributes]). *)
From S2P Require Import Prelude Dec Bls Header CXReceipt Receipt Block Delegation Effective Validator AccessList StateObject StateDB StateView StateJournal StateSafety StateRevert.
Local Open Scope Z_scope.

(** ** Shares *)

(** What the [i]-th delegator of the snapshot gets of [total]. *)
Definition share_of (shares : gmap Address Dec) (total : Z) (d : Delegation) : Z :=
  RoundInt (default 0 (shares !! DelegatorAddress d) * total).
Definition rewards (w : ValidatorWrapper) : Z := sumZ Reward (Delegations w).

(** Two wrappers that differ in rewards only. *)
Definition same_stakes (w w' : ValidatorWrapper) : Prop :=
  validator w' = validator w /\ Counters w' = Counters w /\
  map (fun d => (DelegatorAddress d, Amount d, Undelegations d)) (Delegations w') =
  map (fun d => (DelegatorAddress d, Amount d, Undelegations d)) (Delegations w).
Lemma same_stakes_trans w1 w2 w3 : same_stakes w1 w2 -> same_stakes w2 w3 -> same_stakes w1 w3.
Proof. intros (? & ? & ?) (? & ? & ?). split_and!; congruence. Qed.
Lemma same_stakes_length w w' : same_stakes w w' -> length (Delegations w') = length (Delegations w).
Proof. intros (_ & _ & E%(f_equal length)). by rewrite !length_map in E. Qed.

Lemma add_reward_at_spec i amount w : (i < length (Delegations w))%nat ->
  exists w', add_reward_at i amount w = (w', Ok tt) /\ rewards w' = rewards w + amount /\ BlockReward w' = BlockReward w /\
    same_stakes w w' /\
    forall j, Reward <$> Delegations w' !! j = (fun r => if decide (i = j) then r + amount else r) <$> (Reward <$> Delegations w !! j).
Proof.
  intros [d Hd]%lookup_lt_is_Some_2. unfold add_reward_at. rewrite Hd. eexists. split; [done|].
  pose proof (lookup_lt_Some _ _ _ Hd) as Hlt. split_and!; [|done|split_and!; [done|done|]|].
  - unfold rewards. cbn. rewrite (sumZ_insert _ _ _ _ _ Hd). cbn. lia.
  - cbn. change (map ?f ?l) with (f <$> l). rewrite list_fmap_insert. cbn. rewrite list_insert_id; [done|]. by rewrite list_lookup_fmap, Hd.
  - intros j. cbn. destruct (decide (i = j)) as [<-|Hne].
    + rewrite list_lookup_insert_eq, Hd by done. done.
    + rewrite list_lookup_insert_ne by done. by destruct (Delegations w !! j).
Qed.

(** The loop over the snapshot's delegations from position [i] on. *)
Lemma pay_delegators_spec shares total i ds pool w :
  (forall d, d ∈ ds -> exists p, shares !! DelegatorAddress d = Some p /\ fits (p * total)) ->
  (i + length ds <= length (Delegations w))%nat ->
  exists w', pay_delegators shares total i ds pool w = (w', Ok (Some (pool - sumZ (share_of shares total) ds))) /\
    rewards w' = rewards w + sumZ (share_of shares total) ds /\ BlockReward w' = BlockReward w /\ same_stakes w w' /\
    (forall j, Reward <$> Delegations w' !! j =
       (fun r => r + match ds !! (j - i)%nat with Some d => if (i <=? j)%nat then share_of shares total d else 0 | None => 0 end)
         <$> (Reward <$> Delegations w !! j)).
Proof.
  revert i pool w. induction ds as [|d ds IH]; intros i pool w Hs Hl.
  - exists w. cbn. rewrite sumZ_nil, Z.sub_0_r, Z.add_0_r. split_and!; [done..|by split_and!|].
    intros j. rewrite lookup_nil. destruct (Delegations w !! j); cbn; [f_equal; lia|done].
  - cbn [pay_delegators]. destruct (Hs d) as (p & Hp & Hf); [by left|]. rewrite Hp. unfold MulInt. rewrite checked_fits by done.
    cbn [length] in Hl. destruct (add_reward_at_spec i (RoundInt (p * total)) w) as (w1 & E1 & R1 & B1 & S1 & L1); [lia|].
    unfold mbind, SM_bind, lift. rewrite E1.
    destruct (IH (S i) (pool - RoundInt (p * total)) w1) as (w2 & E2 & R2 & B2 & S2 & L2).
    { intros d' Hd'. apply Hs. by right. }
    { rewrite (same_stakes_length _ _ S1). lia. }
    exists w2. rewrite sumZ_cons. assert (share_of shares total d = RoundInt (p * total)) as Hsh by (unfold share_of; by rewrite Hp).
    split_and!; [|lia|congruence|by eapply same_stakes_trans|].
    + rewrite E2. do 3 f_equal. lia.
    + intros j. rewrite L2, L1. destruct (Delegations w !! j) as [dj|]; [|done]. cbn [fmap option_fmap option_map]. f_equal.
      destruct (decide (i = j)) as [<-|Hne].
      * rewrite Nat.sub_diag, Nat.leb_refl. assert ((S i <=? i)%nat = false) as -> by (apply Nat.leb_gt; lia).
        change ((d :: ds) !! 0%nat) with (Some d). cbv iota beta. rewrite Hsh. destruct (ds !! (i - S i)%nat); lia.
      * destruct (Nat.leb_spec i j) as [Hij|Hij].
        -- replace (j - i)%nat with (S (j - S i)) by lia. assert ((S i <=? j)%nat = true) as -> by (apply Nat.leb_le; lia). done.
        -- assert ((S i <=? j)%nat = false) as -> by (apply Nat.leb_gt; lia). by repeat case_match.
Qed.

(** A sum of rounded shares of a total is within half a unit per share. *)
Lemma share_near shares total d : 2 * Z.abs (share_of shares total d * precisionReuse - default 0 (shares !! DelegatorAddress d) * total) <= precisionReuse.
Proof. unfold share_of, RoundInt, chopPrecisionAndRoundNonMutative. apply chopPrecisionAndRound_nearest. Qed.
Lemma shares_near shares total ds :
  2 * Z.abs (sumZ (share_of shares total) ds * precisionReuse - sumZ (fun d => default 0 (shares !! DelegatorAddress d)) ds * total)
  <= precisionReuse * Z.of_nat (length ds).
Proof.
  induction ds as [|d ds IH]; [rewrite !sumZ_nil; cbn; lia|]. rewrite !sumZ_cons. pose proof (share_near shares total d) as Hd.
  replace (Z.of_nat (length (d :: ds))) with (Z.of_nat (length ds) + 1) by (cbn; lia). lia.
Qed.

Lemma commission_spec w reward c : 0 <= reward < 2 ^ 250 -> let r := Rate (rates (commission (validator w))) in 0 <= r <= OneDec ->
  commission_of w reward = Ok c -> c = (if GT r ZeroDec then RoundInt (r * reward) else 0) /\ 0 <= c <= reward.
Proof.
  intros Hr r Hrate. unfold commission_of. fold r. destruct (GT r ZeroDec) eqn:Eg; [|intros [= <-]; lia].
  intros (x & Hx & [= <-])%bind_Ok. unfold MulInt in Hx. apply checked_Ok in Hx as [-> _]. split; [done|].
  unfold RoundInt, chopPrecisionAndRoundNonMutative. split.
  - rewrite <- (chopPrecisionAndRound_exact 0). apply chopPrecisionAndRound_mono. lia.
  - rewrite <- (chopPrecisionAndRound_exact reward) at 2. apply chopPrecisionAndRound_mono.
    change precisionReuse with OneDec. nia.
Qed.

(** ** The distribution *)

(** What the loop gives away beyond what it was given. *)
Definition overpaid (shares : gmap Address Dec) (pool : Z) (ds : list Delegation) : Z :=
  Z.max 0 (sumZ (share_of shares pool) ds - pool).

(** The hypotheses on a reward: the snapshot's delegators, still there, have
    shares that sum to one, and nothing overflows. *)
Record payable (snapshot : ValidatorWrapper) (reward : Z) (shares : gmap Address Dec) (w : ValidatorWrapper) : Prop := {
  pay_reward : 0 < reward < 2 ^ 250;
  pay_rate : 0 <= Rate (rates (commission (validator snapshot))) <= OneDec;
  pay_shares d : d ∈ Delegations snapshot -> exists p, shares !! DelegatorAddress d = Some p /\ 0 <= p <= OneDec;
  pay_sum : sumZ (fun d => default 0 (shares !! DelegatorAddress d)) (Delegations snapshot) = OneDec;
  pay_nonempty : Delegations snapshot <> [];
  pay_length : (length (Delegations snapshot) <= length (Delegations w))%nat
}.

Lemma fraction_fits p n : 0 <= p <= OneDec -> 0 <= n < 2 ^ 250 -> fits (p * n).
Proof.
  unfold fits, OneDec. intros Hp Hn. rewrite precisionReuse_val in Hp. rewrite Z.abs_eq by nia.
  assert (p * n <= 1000000000000000000 * (2 ^ 250 - 1)) by nia. assert (1000000000000000000 * (2 ^ 250 - 1) < 2 ^ 315) by (vm_compute; done). lia.
Qed.

Lemma distribute_spec snapshot reward shares w : payable snapshot reward shares w ->
  exists c w', let pool := reward - c in
    commission_of snapshot reward = Ok c /\ 0 <= c <= reward /\
    distribute snapshot reward shares w = (w', Ok tt) /\ same_stakes w w' /\
    BlockReward w' = BlockReward w + reward /\
    rewards w' = rewards w + reward + overpaid shares pool (Delegations snapshot) /\
    2 * overpaid shares pool (Delegations snapshot) <= Z.of_nat (length (Delegations snapshot)) /\
    (forall j d, (0 < j)%nat -> Delegations snapshot !! j = Some d ->
       Reward <$> Delegations w' !! j = (fun r => r + share_of shares pool d) <$> (Reward <$> Delegations w !! j)).
Proof.
  intros Hp. destruct Hp as [Hr Hrate Hsh Hsum Hne Hlen]. set (ds := Delegations snapshot) in *.
  assert (exists c, commission_of snapshot reward = Ok c) as [c Hc].
  { unfold commission_of. destruct (GT _ _); [|by eexists]. unfold MulInt. rewrite checked_fits by (apply fraction_fits; [done|lia]). by eexists. }
  destruct (commission_spec snapshot reward c ltac:(lia) Hrate Hc) as [Ec Hcr]. set (rate := Rate _) in *. set (pool := reward - c).
  assert (0 < length ds)%nat as Hds by (destruct ds; [done|cbn; lia]).
  set (w0 := add_block_reward reward w).
  assert (exists w1, sm_when (GT rate ZeroDec) (add_reward_at 0 c) w0 = (w1, Ok tt) /\ rewards w1 = rewards w + c /\
            BlockReward w1 = BlockReward w + reward /\ same_stakes w w1 /\
            forall j, (0 < j)%nat -> Reward <$> Delegations w1 !! j = Reward <$> Delegations w !! j) as (w1 & E1 & R1 & B1 & S1 & L1).
  { destruct (GT rate ZeroDec); cbn [sm_when].
    - destruct (add_reward_at_spec 0 c w0) as (w1 & E & R & B & S & L); [cbn; lia|]. exists w1. split_and!; [done..|].
      intros j Hj. rewrite L. change (Delegations w0) with (Delegations w). destruct (Delegations w !! j); [|done].
      cbn [fmap option_fmap option_map]. by rewrite decide_False by lia.
    - exists w0. split_and!; [done|unfold rewards; cbn; lia|done|by split_and!|done]. }
  destruct (pay_delegators_spec shares pool 0 ds pool w1) as (w2 & E2 & R2 & B2 & S2 & L2).
  { intros d Hd. destruct (Hsh d Hd) as (p & Hpd & Hp1). exists p. split; [done|]. apply fraction_fits; [done|lia]. }
  { rewrite (same_stakes_length _ _ S1). lia. }
  set (given := sumZ (share_of shares pool) ds) in *.
  assert (exists w3, sm_when (0 <? pool - given) (add_reward_at 0 (pool - given)) w2 = (w3, Ok tt) /\ rewards w3 = rewards w2 + Z.max 0 (pool - given) /\
            BlockReward w3 = BlockReward w2 /\ same_stakes w2 w3 /\
            forall j, (0 < j)%nat -> Reward <$> Delegations w3 !! j = Reward <$> Delegations w2 !! j) as (w3 & E3 & R3 & B3 & S3 & L3).
  { destruct (Z.ltb_spec 0 (pool - given)); cbn [sm_when].
    - destruct (add_reward_at_spec 0 (pool - given) w2) as (w3 & E & R & B & S & L).
      { rewrite (same_stakes_length _ _ S2), (same_stakes_length _ _ S1). lia. }
      exists w3. split_and!; [done|rewrite R; lia|done|done|].
      intros j Hj. rewrite L. destruct (Delegations w2 !! j); [|done]. cbn [fmap option_fmap option_map]. by rewrite decide_False by lia.
    - exists w2. split_and!; [done|lia|done|by split_and!|done]. }
  exists c, w3. cbv zeta. fold pool. split_and!; [done|lia|lia| | |congruence| | |].
  - unfold distribute, mbind, SM_bind, modify, lift. rewrite Hc. fold w0 rate. rewrite E1. fold pool ds. rewrite E2. exact E3.
  - eapply same_stakes_trans; [exact S1|]. by eapply same_stakes_trans.
  - unfold overpaid. fold given. rewrite R3, R2, R1. unfold pool. lia.
  - unfold overpaid. fold given. pose proof (shares_near shares pool ds) as Hn. fold given in Hn. rewrite Hsum in Hn.
    change OneDec with precisionReuse in Hn. rewrite precisionReuse_val in Hn. lia.
  - intros j d Hj Hd. rewrite L3, L2, L1 by done. rewrite Nat.sub_0_r, Hd. by destruct (Delegations w !! j).
Qed.

Section reward.
Context {H : Hashes} {SL : StateLib} {VR : WrapperRLP} {W : Walk}.


(** A banned validator gets nothing, and a reward of zero does nothing. *)
Lemma AddReward_banned snapshot reward shares s s1 w :
  ValidatorWrapper_ (vAddress (validator snapshot)) true false s = (s1, Ok (Some w)) ->
  Validator.Status (validator w) = Banned -> reward <> 0 -> AddReward snapshot reward shares s = (s1, Ok tt).
Proof. intros Ev Hb Hr. unfold AddReward. destruct (Z.eqb_spec reward 0); [done|]. by rewrite Ev, decide_True by done. Qed.
End reward.

(** The second delegator has no share: the call succeeds, the block reward and
    the first share are booked, and the rest of the reward is nobody's. *)
Example AddReward_missing_share :
  let '(w, r) := distribute sample_wrapper 1000 {[1 := OneDec / 2]} sample_wrapper in
  r = Ok tt /\ BlockReward w = 1000 /\ rewards w = 550.
Proof. by vm_compute. Qed.

(** Two equal shares of an odd amount: one unit more than the reward is given. *)
Example AddReward_overpays :
  let '(w, r) := distribute sample_wrapper 1003 {[1 := OneDec / 2; 2 := OneDec / 2]} sample_wrapper in
  r = Ok tt /\ BlockReward w = 1003 /\ rewards w = 1004.
Proof. by vm_compute. Qed.

(** ** The state database on a toy trie

    The theorems of [StateRevert] and [StateRewards] at concrete inputs: tries
    are maps, wrappers have a fixed encoding. *)

Record ToyTrie := mkToyTrie { slots : gmap Z (list Z); accts : gmap Address StateAccount }.
#[export] Instance toy_state : StateLib := {|
  Trie := ToyTrie; TrieDB := unit; NodeSet := unit; MergedNodeSet := unit; Snap := unit; SnapTree := unit;
  NewStateTrie := fun _ _ => Ok (mkToyTrie ∅ ∅);
  NewStorageTrie := fun _ _ _ _ => Ok (mkToyTrie ∅ ∅);
  TryGet := fun t k => Ok (default [] (t.(slots) !! k));
  TryGetAccount := fun t a => Ok (t.(accts) !! a);
  TryUpdate := fun t k v => (mkToyTrie (<[k := v]> t.(slots)) t.(accts), None);
  TryUpdateAccount := fun t a acc => (mkToyTrie t.(slots) (<[a := acc]> t.(accts)), None);
  TryDelete := fun t k => (mkToyTrie (delete k t.(slots)) t.(accts), None);
  TryDeleteAccount := fun t a => (mkToyTrie t.(slots) (delete a t.(accts)), None);
  Trie_Hash := fun t => toy_keccak (concat (map (fun kv => kv.1 :: kv.2) (map_to_list t.(slots))));
  Trie_Commit := fun t _ => (t, (toy_keccak (concat (map (fun kv => kv.1 :: kv.2) (map_to_list t.(slots)))), Some tt));
  NewMergedNodeSet := tt; Merge := fun _ _ => (tt, None); TrieDB_Update := fun _ _ => (tt, None);
  tree_Snapshot := fun _ _ => None; tree_Update := fun t _ _ _ _ _ => (t, None); tree_Cap := fun t _ _ => (t, None);
  snap_Root := fun _ => 0; snap_Account := fun _ _ => Ok None; snap_Storage := fun _ _ _ => Ok [];
  SlimAccountRLP := fun acc => [acc.(Nonce); acc.(Balance); acc.(Root); acc.(CodeHash)];
  rlp_Split := Ok; rlp_slot := hash_bytes
|}.
#[export] Instance toy_wrappers : WrapperRLP := {|
  wrapper_Encode := fun w => Ok [1; w.(BlockReward)]; wrapper_Decode := fun _ => Ok sample_wrapper
|}.

Definition toy_db : DB := Eval cbn in default (mkDB ∅ tt (mkToyTrie ∅ ∅) 0 None None ∅ ∅ ∅ ∅ ∅ ∅ ∅ None 0 0 0 0 0 ∅ 0 ∅
  newAccessList ∅ newJournal [] 0 0 0 0 0) (match New 0 ∅ tt None with Ok s => Some s | _ => None end).

(** Funding and storage, a snapshot, then operations of every kind with a nested
    snapshot and revert. *)
Definition before : list Op := [OpAddBalance 1 100; OpSetState 1 5 7; OpSetNonce 2 3; OpFinalise true; OpSetState 1 5 8].
Definition after : list Op := [OpSetState 1 5 9; OpSubBalance 1 40; OpSetCode 2 (Some [1; 2]) false; OpSnapshot; OpSuicide 1;
  OpCreateAccount 3; OpAddAddress 4; OpAddSlot 4 1; OpRevert 1; OpAddRefund 12; OpSetTransientState 1 2 3;
  OpUpdateWithRevert 6 sample_wrapper].
Definition toy_1 : DB := fst (run before toy_db).
Definition toy_2 : DB := fst (Snapshot toy_1).
Definition toy_3 : DB := fst (run after toy_2).

Example after_changes : snd (GetState 1 5 toy_3) = Ok 9 /\ snd (GetBalance 1 toy_3) = Ok 60 /\ snd (GetBalance 1 toy_1) = Ok 100 /\
  snd (GetState 1 5 toy_1) = Ok 8 /\ snd (GetCommittedState 1 5 toy_1) = Ok 7.
Proof. by vm_compute. Qed.

Lemma runs_ok {A} (m : SM DB A) s x : snd (m s) = Ok x -> m s = (fst (m s), Ok x).
Proof. intros <-. by destruct (m s). Qed.


Definition toy_shares : gmap Address Dec := {[1 := OneDec / 2; 2 := OneDec / 2]}.
Definition toy_validators : DB := set_stateValidators {[vAddress (validator sample_wrapper) := Some sample_wrapper]} toy_db.

Lemma sample_payable : payable sample_wrapper 1003 toy_shares sample_wrapper.
Proof.
  split; [vm_compute; split; reflexivity|vm_compute; split; discriminate| | |vm_compute; discriminate|vm_compute; lia].
  - assert (forall a, a ∈ [1; 2] -> toy_shares !! a = Some (OneDec / 2)) as Hs.
    { intros a Ha. repeat (apply elem_of_cons in Ha as [->|Ha]); [vm_compute; reflexivity..|by apply elem_of_nil in Ha]. }
    intros d Hd. exists (OneDec / 2). split; [|vm_compute; split; discriminate].
    apply Hs. apply (list_elem_of_fmap_2 DelegatorAddress) in Hd. exact Hd.
  - vm_compute. reflexivity.
Qed.

