(* ===== verification/Opcodes.v ===== *)
(** * Opcodes (core/vm/opcodes.go)

    An opcode is a byte; the constants keep the values that iota gives them. *)
From S2P Require Import Prelude.
Local Open Scope Z_scope.

Notation OpCode := Z.

Definition STOP : OpCode := 0x00.
Definition ADD : OpCode := 0x01.
Definition MUL : OpCode := 0x02.
Definition SUB : OpCode := 0x03.
Definition DIV : OpCode := 0x04.
Definition SDIV : OpCode := 0x05.
Definition MOD : OpCode := 0x06.
Definition SMOD : OpCode := 0x07.
Definition ADDMOD : OpCode := 0x08.
Definition MULMOD : OpCode := 0x09.
Definition EXP : OpCode := 0x0a.
Definition SIGNEXTEND : OpCode := 0x0b.
Definition LT : OpCode := 0x10.
Definition GT : OpCode := 0x11.
Definition SLT : OpCode := 0x12.
Definition SGT : OpCode := 0x13.
Definition EQ : OpCode := 0x14.
Definition ISZERO : OpCode := 0x15.
Definition AND : OpCode := 0x16.
Definition OR : OpCode := 0x17.
Definition XOR : OpCode := 0x18.
Definition NOT : OpCode := 0x19.
Definition BYTE : OpCode := 0x1a.
Definition SHL : OpCode := 0x1b.
Definition SHR : OpCode := 0x1c.
Definition SAR : OpCode := 0x1d.
Definition SHA3 : OpCode := 0x20.
Definition ADDRESS : OpCode := 0x30.
Definition BALANCE : OpCode := 0x31.
Definition ORIGIN : OpCode := 0x32.
Definition CALLER : OpCode := 0x33.
Definition CALLVALUE : OpCode := 0x34.
Definition CALLDATALOAD : OpCode := 0x35.
Definition CALLDATASIZE : OpCode := 0x36.
Definition CALLDATACOPY : OpCode := 0x37.
Definition CODESIZE : OpCode := 0x38.
Definition CODECOPY : OpCode := 0x39.
Definition GASPRICE : OpCode := 0x3a.
Definition EXTCODESIZE : OpCode := 0x3b.
Definition EXTCODECOPY : OpCode := 0x3c.
Definition RETURNDATASIZE : OpCode := 0x3d.
Definition RETURNDATACOPY : OpCode := 0x3e.
Definition EXTCODEHASH : OpCode := 0x3f.
Definition BLOCKHASH : OpCode := 0x40.
Definition COINBASE : OpCode := 0x41.
Definition TIMESTAMP : OpCode := 0x42.
Definition NUMBER : OpCode := 0x43.
Definition DIFFICULTY : OpCode := 0x44.
Definition GASLIMIT : OpCode := 0x45.
Definition CHAINID : OpCode := 0x46.
Definition SELFBALANCE : OpCode := 0x47.
Definition POP : OpCode := 0x50.
Definition MLOAD : OpCode := 0x51.
Definition MSTORE : OpCode := 0x52.
Definition MSTORE8 : OpCode := 0x53.
Definition SLOAD : OpCode := 0x54.
Definition SSTORE : OpCode := 0x55.
Definition JUMP : OpCode := 0x56.
Definition JUMPI : OpCode := 0x57.
Definition PC : OpCode := 0x58.
Definition MSIZE : OpCode := 0x59.
Definition GAS : OpCode := 0x5a.
Definition JUMPDEST : OpCode := 0x5b.
Definition PUSH1 : OpCode := 0x60.
Definition PUSH2 : OpCode := 0x61.
Definition PUSH3 : OpCode := 0x62.
Definition PUSH4 : OpCode := 0x63.
Definition PUSH5 : OpCode := 0x64.
Definition PUSH6 : OpCode := 0x65.
Definition PUSH7 : OpCode := 0x66.
Definition PUSH8 : OpCode := 0x67.
Definition PUSH9 : OpCode := 0x68.
Definition PUSH10 : OpCode := 0x69.
Definition PUSH11 : OpCode := 0x6a.
Definition PUSH12 : OpCode := 0x6b.
Definition PUSH13 : OpCode := 0x6c.
Definition PUSH14 : OpCode := 0x6d.
Definition PUSH15 : OpCode := 0x6e.
Definition PUSH16 : OpCode := 0x6f.
Definition PUSH17 : OpCode := 0x70.
Definition PUSH18 : OpCode := 0x71.
Definition PUSH19 : OpCode := 0x72.
Definition PUSH20 : OpCode := 0x73.
Definition PUSH21 : OpCode := 0x74.
Definition PUSH22 : OpCode := 0x75.
Definition PUSH23 : OpCode := 0x76.
Definition PUSH24 : OpCode := 0x77.
Definition PUSH25 : OpCode := 0x78.
Definition PUSH26 : OpCode := 0x79.
Definition PUSH27 : OpCode := 0x7a.
Definition PUSH28 : OpCode := 0x7b.
Definition PUSH29 : OpCode := 0x7c.
Definition PUSH30 : OpCode := 0x7d.
Definition PUSH31 : OpCode := 0x7e.
Definition PUSH32 : OpCode := 0x7f.
Definition DUP1 : OpCode := 0x80.
Definition DUP2 : OpCode := 0x81.
Definition DUP3 : OpCode := 0x82.
Definition DUP4 : OpCode := 0x83.
Definition DUP5 : OpCode := 0x84.
Definition DUP6 : OpCode := 0x85.
Definition DUP7 : OpCode := 0x86.
Definition DUP8 : OpCode := 0x87.
Definition DUP9 : OpCode := 0x88.
Definition DUP10 : OpCode := 0x89.
Definition DUP11 : OpCode := 0x8a.
Definition DUP12 : OpCode := 0x8b.
Definition DUP13 : OpCode := 0x8c.
Definition DUP14 : OpCode := 0x8d.
Definition DUP15 : OpCode := 0x8e.
Definition DUP16 : OpCode := 0x8f.
Definition SWAP1 : OpCode := 0x90.
Definition SWAP2 : OpCode := 0x91.
Definition SWAP3 : OpCode := 0x92.
Definition SWAP4 : OpCode := 0x93.
Definition SWAP5 : OpCode := 0x94.
Definition SWAP6 : OpCode := 0x95.
Definition SWAP7 : OpCode := 0x96.
Definition SWAP8 : OpCode := 0x97.
Definition SWAP9 : OpCode := 0x98.
Definition SWAP10 : OpCode := 0x99.
Definition SWAP11 : OpCode := 0x9a.
Definition SWAP12 : OpCode := 0x9b.
Definition SWAP13 : OpCode := 0x9c.
Definition SWAP14 : OpCode := 0x9d.
Definition SWAP15 : OpCode := 0x9e.
Definition SWAP16 : OpCode := 0x9f.
Definition LOG0 : OpCode := 0xa0.
Definition LOG1 : OpCode := 0xa1.
Definition LOG2 : OpCode := 0xa2.
Definition LOG3 : OpCode := 0xa3.
Definition LOG4 : OpCode := 0xa4.
Definition PUSH : OpCode := 0xb0.
Definition DUP : OpCode := 0xb1.
Definition SWAP : OpCode := 0xb2.
Definition CREATE : OpCode := 0xf0.
Definition CALL : OpCode := 0xf1.
Definition CALLCODE : OpCode := 0xf2.
Definition RETURN : OpCode := 0xf3.
Definition DELEGATECALL : OpCode := 0xf4.
Definition CREATE2 : OpCode := 0xf5.
Definition STATICCALL : OpCode := 0xfa.
Definition REVERT : OpCode := 0xfd.
Definition SELFDESTRUCT : OpCode := 0xff.

Definition pushes : list OpCode :=
  [PUSH1; PUSH2; PUSH3; PUSH4; PUSH5; PUSH6; PUSH7; PUSH8; PUSH9; PUSH10; PUSH11; PUSH12; PUSH13; PUSH14; PUSH15; PUSH16; PUSH17; PUSH18; PUSH19; PUSH20; PUSH21; PUSH22; PUSH23; PUSH24; PUSH25; PUSH26; PUSH27; PUSH28; PUSH29; PUSH30; PUSH31; PUSH32].
Definition IsPush (op : OpCode) : bool := bool_decide (op ∈ pushes).
Definition IsStaticJump (op : OpCode) : bool := op =? JUMP.

Definition opCodeToString : list (OpCode * string) :=
  [(STOP, "STOP"); (ADD, "ADD"); (MUL, "MUL"); (SUB, "SUB"); (DIV, "DIV"); (SDIV, "SDIV"); (MOD, "MOD");
   (SMOD, "SMOD"); (EXP, "EXP"); (NOT, "NOT"); (LT, "LT"); (GT, "GT"); (SLT, "SLT"); (SGT, "SGT");
   (EQ, "EQ"); (ISZERO, "ISZERO"); (SIGNEXTEND, "SIGNEXTEND"); (AND, "AND"); (OR, "OR"); (XOR, "XOR");
   (BYTE, "BYTE"); (SHL, "SHL"); (SHR, "SHR"); (SAR, "SAR"); (ADDMOD, "ADDMOD"); (MULMOD, "MULMOD");
   (SHA3, "SHA3"); (ADDRESS, "ADDRESS"); (BALANCE, "BALANCE"); (ORIGIN, "ORIGIN"); (CALLER, "CALLER");
   (CALLVALUE, "CALLVALUE"); (CALLDATALOAD, "CALLDATALOAD"); (CALLDATASIZE, "CALLDATASIZE");
   (CALLDATACOPY, "CALLDATACOPY"); (CODESIZE, "CODESIZE"); (CODECOPY, "CODECOPY"); (GASPRICE, "GASPRICE");
   (EXTCODESIZE, "EXTCODESIZE"); (EXTCODECOPY, "EXTCODECOPY"); (RETURNDATASIZE, "RETURNDATASIZE");
   (RETURNDATACOPY, "RETURNDATACOPY"); (EXTCODEHASH, "EXTCODEHASH"); (BLOCKHASH, "BLOCKHASH");
   (COINBASE, "COINBASE"); (TIMESTAMP, "TIMESTAMP"); (NUMBER, "NUMBER"); (DIFFICULTY, "DIFFICULTY");
   (GASLIMIT, "GASLIMIT"); (CHAINID, "CHAINID"); (SELFBALANCE, "SELFBALANCE"); (POP, "POP");
   (MLOAD, "MLOAD"); (MSTORE, "MSTORE"); (MSTORE8, "MSTORE8"); (SLOAD, "SLOAD"); (SSTORE, "SSTORE");
   (JUMP, "JUMP"); (JUMPI, "JUMPI"); (PC, "PC"); (MSIZE, "MSIZE"); (GAS, "GAS"); (JUMPDEST, "JUMPDEST");
   (PUSH1, "PUSH1"); (PUSH2, "PUSH2"); (PUSH3, "PUSH3"); (PUSH4, "PUSH4"); (PUSH5, "PUSH5");
   (PUSH6, "PUSH6"); (PUSH7, "PUSH7"); (PUSH8, "PUSH8"); (PUSH9, "PUSH9"); (PUSH10, "PUSH10");
   (PUSH11, "PUSH11"); (PUSH12, "PUSH12"); (PUSH13, "PUSH13"); (PUSH14, "PUSH14"); (PUSH15, "PUSH15");
   (PUSH16, "PUSH16"); (PUSH17, "PUSH17"); (PUSH18, "PUSH18"); (PUSH19, "PUSH19"); (PUSH20, "PUSH20");
   (PUSH21, "PUSH21"); (PUSH22, "PUSH22"); (PUSH23, "PUSH23"); (PUSH24, "PUSH24"); (PUSH25, "PUSH25");
   (PUSH26, "PUSH26"); (PUSH27, "PUSH27"); (PUSH28, "PUSH28"); (PUSH29, "PUSH29"); (PUSH30, "PUSH30");
   (PUSH31, "PUSH31"); (PUSH32, "PUSH32"); (DUP1, "DUP1"); (DUP2, "DUP2"); (DUP3, "DUP3"); (DUP4, "DUP4");
   (DUP5, "DUP5"); (DUP6, "DUP6"); (DUP7, "DUP7"); (DUP8, "DUP8"); (DUP9, "DUP9"); (DUP10, "DUP10");
   (DUP11, "DUP11"); (DUP12, "DUP12"); (DUP13, "DUP13"); (DUP14, "DUP14"); (DUP15, "DUP15");
   (DUP16, "DUP16"); (SWAP1, "SWAP1"); (SWAP2, "SWAP2"); (SWAP3, "SWAP3"); (SWAP4, "SWAP4");
   (SWAP5, "SWAP5"); (SWAP6, "SWAP6"); (SWAP7, "SWAP7"); (SWAP8, "SWAP8"); (SWAP9, "SWAP9");
   (SWAP10, "SWAP10"); (SWAP11, "SWAP11"); (SWAP12, "SWAP12"); (SWAP13, "SWAP13"); (SWAP14, "SWAP14");
   (SWAP15, "SWAP15"); (SWAP16, "SWAP16"); (LOG0, "LOG0"); (LOG1, "LOG1"); (LOG2, "LOG2"); (LOG3, "LOG3");
   (LOG4, "LOG4"); (CREATE, "CREATE"); (CALL, "CALL"); (RETURN, "RETURN"); (CALLCODE, "CALLCODE");
   (DELEGATECALL, "DELEGATECALL"); (CREATE2, "CREATE2"); (STATICCALL, "STATICCALL"); (REVERT, "REVERT");
   (SELFDESTRUCT, "SELFDESTRUCT"); (PUSH, "PUSH"); (DUP, "DUP"); (SWAP, "SWAP")].
Definition stringToOp : list (string * OpCode) :=
  [("STOP", STOP); ("ADD", ADD); ("MUL", MUL); ("SUB", SUB); ("DIV", DIV); ("SDIV", SDIV); ("MOD", MOD);
   ("SMOD", SMOD); ("EXP", EXP); ("NOT", NOT); ("LT", LT); ("GT", GT); ("SLT", SLT); ("SGT", SGT);
   ("EQ", EQ); ("ISZERO", ISZERO); ("SIGNEXTEND", SIGNEXTEND); ("AND", AND); ("OR", OR); ("XOR", XOR);
   ("BYTE", BYTE); ("SHL", SHL); ("SHR", SHR); ("SAR", SAR); ("ADDMOD", ADDMOD); ("MULMOD", MULMOD);
   ("SHA3", SHA3); ("ADDRESS", ADDRESS); ("BALANCE", BALANCE); ("ORIGIN", ORIGIN); ("CALLER", CALLER);
   ("CALLVALUE", CALLVALUE); ("CALLDATALOAD", CALLDATALOAD); ("CALLDATASIZE", CALLDATASIZE);
   ("CALLDATACOPY", CALLDATACOPY); ("CHAINID", CHAINID); ("DELEGATECALL", DELEGATECALL);
   ("STATICCALL", STATICCALL); ("CODESIZE", CODESIZE); ("CODECOPY", CODECOPY); ("GASPRICE", GASPRICE);
   ("EXTCODESIZE", EXTCODESIZE); ("EXTCODECOPY", EXTCODECOPY); ("RETURNDATASIZE", RETURNDATASIZE);
   ("RETURNDATACOPY", RETURNDATACOPY); ("EXTCODEHASH", EXTCODEHASH); ("BLOCKHASH", BLOCKHASH);
   ("COINBASE", COINBASE); ("TIMESTAMP", TIMESTAMP); ("NUMBER", NUMBER); ("DIFFICULTY", DIFFICULTY);
   ("GASLIMIT", GASLIMIT); ("SELFBALANCE", SELFBALANCE); ("POP", POP); ("MLOAD", MLOAD); ("MSTORE", MSTORE);
   ("MSTORE8", MSTORE8); ("SLOAD", SLOAD); ("SSTORE", SSTORE); ("JUMP", JUMP); ("JUMPI", JUMPI); ("PC", PC);
   ("MSIZE", MSIZE); ("GAS", GAS); ("JUMPDEST", JUMPDEST); ("PUSH1", PUSH1); ("PUSH2", PUSH2);
   ("PUSH3", PUSH3); ("PUSH4", PUSH4); ("PUSH5", PUSH5); ("PUSH6", PUSH6); ("PUSH7", PUSH7);
   ("PUSH8", PUSH8); ("PUSH9", PUSH9); ("PUSH10", PUSH10); ("PUSH11", PUSH11); ("PUSH12", PUSH12);
   ("PUSH13", PUSH13); ("PUSH14", PUSH14); ("PUSH15", PUSH15); ("PUSH16", PUSH16); ("PUSH17", PUSH17);
   ("PUSH18", PUSH18); ("PUSH19", PUSH19); ("PUSH20", PUSH20); ("PUSH21", PUSH21); ("PUSH22", PUSH22);
   ("PUSH23", PUSH23); ("PUSH24", PUSH24); ("PUSH25", PUSH25); ("PUSH26", PUSH26); ("PUSH27", PUSH27);
   ("PUSH28", PUSH28); ("PUSH29", PUSH29); ("PUSH30", PUSH30); ("PUSH31", PUSH31); ("PUSH32", PUSH32);
   ("DUP1", DUP1); ("DUP2", DUP2); ("DUP3", DUP3); ("DUP4", DUP4); ("DUP5", DUP5); ("DUP6", DUP6);
   ("DUP7", DUP7); ("DUP8", DUP8); ("DUP9", DUP9); ("DUP10", DUP10); ("DUP11", DUP11); ("DUP12", DUP12);
   ("DUP13", DUP13); ("DUP14", DUP14); ("DUP15", DUP15); ("DUP16", DUP16); ("SWAP1", SWAP1);
   ("SWAP2", SWAP2); ("SWAP3", SWAP3); ("SWAP4", SWAP4); ("SWAP5", SWAP5); ("SWAP6", SWAP6);
   ("SWAP7", SWAP7); ("SWAP8", SWAP8); ("SWAP9", SWAP9); ("SWAP10", SWAP10); ("SWAP11", SWAP11);
   ("SWAP12", SWAP12); ("SWAP13", SWAP13); ("SWAP14", SWAP14); ("SWAP15", SWAP15); ("SWAP16", SWAP16);
   ("LOG0", LOG0); ("LOG1", LOG1); ("LOG2", LOG2); ("LOG3", LOG3); ("LOG4", LOG4); ("CREATE", CREATE);
   ("CREATE2", CREATE2); ("CALL", CALL); ("RETURN", RETURN); ("CALLCODE", CALLCODE); ("REVERT", REVERT);
   ("SELFDESTRUCT", SELFDESTRUCT)].

(** Looking up a map literal. *)
Fixpoint assoc {A B} `{EqDecision A} (k : A) (l : list (A * B)) : option B :=
  match l with [] => None | (a, b) :: l => if decide (a = k) then Some b else assoc k l end.

(** One hexadecimal digit, and [%x] of a byte. *)
Definition hex_digit (d : Z) : string :=
  match Stdlib.Strings.String.get (Z.to_nat d) "0123456789abcdef" with Some c => String c EmptyString | None => "" end.
Definition hex_byte (b : Z) : string :=
  if b <? 16 then hex_digit b else (hex_digit (b / 16) ++ hex_digit (b mod 16))%string.

Definition op_String (op : OpCode) : string :=
  match assoc op opCodeToString with
  | Some str => str
  | None => ("Missing opcode 0x" ++ hex_byte op)%string
  end.
(** An unknown name gives the zero value, which is STOP. *)
Definition StringToOp (str : string) : OpCode := default 0 (assoc str stringToOp).

(** ** Facts *)

(** The names of the official opcodes are read back; the three unofficial ones
    are not in the table and read as STOP. *)
Lemma StringToOp_String op : op ∈ map fst opCodeToString ->
  StringToOp (op_String op) = if bool_decide (op ∈ [PUSH; DUP; SWAP]) then STOP else op.
Proof.
  revert op. apply Forall_forall. apply (bool_decide_eq_true_1 _). vm_compute. reflexivity.
Qed.
Lemma opcode_names : NoDup (map fst opCodeToString) /\ NoDup (map snd opCodeToString) /\
  Forall (fun op => 0 <= op < 256) (map fst opCodeToString).
Proof. split_and!; [apply (bool_decide_eq_true_1 _); vm_compute; reflexivity..|]. repeat constructor; vm_compute; congruence. Qed.

Lemma IsPush_range op : IsPush op = (PUSH1 <=? op) && (op <=? PUSH32).
Proof.
  unfold IsPush. apply eq_true_iff_eq. rewrite bool_decide_eq_true, andb_true_iff, !Z.leb_le. unfold pushes. split.
  - intros Ho. repeat (apply elem_of_cons in Ho as [->|Ho]); [vm_compute; split; discriminate..|]. by apply elem_of_nil in Ho.
  - intros [Hl Hu]. assert (exists n : nat, (n < 32)%nat /\ op = PUSH1 + Z.of_nat n) as (n & Hn & ->).
    { exists (Z.to_nat (op - PUSH1)). unfold PUSH1, PUSH32 in *. lia. }
    do 32 (destruct n as [|n]; [by repeat (try apply list_elem_of_here; apply list_elem_of_further)|]). lia.
Qed.
