(* ===== verification/EvmCode.v ===== *)
(** * Code analysis (core/vm/analysis.go)

    The bit vector that tells the bytes of code from the data of PUSH
    instructions.  [is_data] is the reference: reading the code from its start,
    the [n] bytes after a PUSHn are data. *)
From S2P Require Import Prelude Opcodes.
Local Open Scope Z_scope.

Notation bitvec := (list Z).

(** [bits[i] |= m]: out of range it panics. *)
Definition or_at (i : Z) (m : Z) (bits : bitvec) : outcome bitvec :=
  let! b := idx bits i in upd bits i (Z.lor b m).
Definition bv_set (pos : Z) (bits : bitvec) : outcome bitvec := or_at (pos / 8) (Z.shiftr 0x80 (pos mod 8)) bits.
(** [^x] of a byte is [255 - x]. *)
Definition bv_set8 (pos : Z) (bits : bitvec) : outcome bitvec :=
  let m := Z.shiftr 0xFF (pos mod 8) in
  let! bits := or_at (pos / 8) m bits in
  or_at (pos / 8 + 1) (255 - m) bits.
Definition codeSegment (bits : bitvec) (pos : Z) : outcome bool :=
  let! b := idx bits (pos / 8) in Ok (Z.land b (Z.shiftr 0x80 (pos mod 8)) =? 0).

(** The two loops over [numbits]: by eights while there are eight, then one by
    one. *)
Fixpoint mark (numbits : nat) (pc : Z) (bits : bitvec) : outcome bitvec :=
  match numbits with
  | O => Ok bits
  | S (S (S (S (S (S (S (S n))))))) => let! bits := bv_set8 pc bits in mark n (pc + 8) bits
  | S n => let! bits := bv_set pc bits in mark n (pc + 1) bits
  end.

(** How many bytes of data follow an opcode. *)
Definition push_size (op : OpCode) : nat :=
  if (PUSH1 <=? op) && (op <=? PUSH32) then Z.to_nat (op - PUSH1 + 1) else 0%nat.

(** Each turn advances [pc]: the length of the code is fuel enough. *)
Fixpoint codeBitmap_loop (fuel : nat) (code : list Z) (pc : Z) (bits : bitvec) : outcome bitvec :=
  if pc <? Z.of_nat (length code) then
    match fuel with
    | O => Err "out of fuel"
    | S fuel =>
        let! op := idx code pc in
        let! bits := mark (push_size op) (pc + 1) bits in
        codeBitmap_loop fuel code (pc + 1 + Z.of_nat (push_size op)) bits
    end
  else Ok bits.
Definition codeBitmap (code : list Z) : outcome bitvec :=
  codeBitmap_loop (length code) code 0 (replicate (length code / 8 + 1 + 4) 0).

(** ** The reference *)

(** Is the byte at [pos] data, [skip] bytes of data being due? *)
Fixpoint data_at (code : list Z) (skip pos : nat) : bool :=
  match code, pos with
  | [], _ => false
  | _ :: _, O => bool_decide (0 < skip)%nat
  | op :: code, S pos => data_at code (match skip with O => push_size op | S k => k end) pos
  end.
Definition is_data (code : list Z) (pos : nat) : bool := data_at code 0 pos.

(** ** Bits *)

(** The bit of position [p], most significant first. *)
Definition bit_at (bits : bitvec) (p : nat) : bool :=
  match bits !! (p / 8)%nat with Some b => Z.testbit b (7 - Z.of_nat (p mod 8)) | None => false end.

Lemma push_size_le op : (push_size op <= 32)%nat.
Proof. unfold push_size, PUSH1, PUSH32. destruct (_ && _) eqn:E; [|lia]. apply andb_true_iff in E as [?%Z.leb_le ?%Z.leb_le]. lia. Qed.

Lemma or_at_Ok i m (bits : bitvec) : (i < length bits)%nat ->
  exists b, bits !! i = Some b /\ or_at (Z.of_nat i) m bits = Ok (<[i := Z.lor b m]> bits).
Proof.
  intros [b Hb]%lookup_lt_is_Some_2. exists b. split; [done|]. unfold or_at. rewrite (idx_nat _ _ _ Hb). cbn.
  apply lookup_lt_Some in Hb. rewrite upd_Ok, Nat2Z.id by lia. done.
Qed.

Lemma bit_insert (bits : bitvec) i b m p : bits !! i = Some b ->
  bit_at (<[i := Z.lor b m]> bits) p = bit_at bits p || (bool_decide (p / 8 = i)%nat && Z.testbit m (7 - Z.of_nat (p mod 8))).
Proof.
  intros Hb. unfold bit_at. destruct (decide (p / 8 = i)%nat) as [<-|Hne].
  - rewrite list_lookup_insert_eq, Hb, Z.lor_spec by (by eapply lookup_lt_Some). by rewrite bool_decide_eq_true_2.
  - rewrite list_lookup_insert_ne by done. rewrite bool_decide_eq_false_2 by done. cbn. by rewrite orb_false_r.
Qed.

(** The masks, bit by bit. *)
Lemma mask1_bits (r j : nat) : (r < 8)%nat -> (j < 8)%nat ->
  Z.testbit (Z.shiftr 0x80 (Z.of_nat r)) (7 - Z.of_nat j) = bool_decide (j = r).
Proof.
  intros Hr Hj. do 8 (destruct r as [|r]; [do 8 (destruct j as [|j]; [reflexivity|]); lia|]). lia.
Qed.
Lemma mask8_bits (r j : nat) : (r < 8)%nat -> (j < 8)%nat ->
  Z.testbit (Z.shiftr 0xFF (Z.of_nat r)) (7 - Z.of_nat j) = bool_decide (r <= j)%nat /\
  Z.testbit (255 - Z.shiftr 0xFF (Z.of_nat r)) (7 - Z.of_nat j) = bool_decide (j < r)%nat.
Proof.
  intros Hr Hj. do 8 (destruct r as [|r]; [do 8 (destruct j as [|j]; [split; reflexivity|]); lia|]). lia.
Qed.

Lemma mask_test b (r : nat) : (r < 8)%nat ->
  (Z.land b (Z.shiftr 0x80 (Z.of_nat r)) =? 0) = negb (Z.testbit b (7 - Z.of_nat r)).
Proof.
  intros Hr. assert (Z.shiftr 0x80 (Z.of_nat r) = 2 ^ (7 - Z.of_nat r)) as ->.
  { do 8 (destruct r as [|r]; [reflexivity|]). lia. }
  set (k := 7 - Z.of_nat r). assert (0 <= k) as Hk by lia. destruct (Z.testbit b k) eqn:E; cbn.
  - apply Z.eqb_neq. intros H0. apply (f_equal (fun x => Z.testbit x k)) in H0.
    by rewrite Z.land_spec, E, Z.pow2_bits_true, Z.bits_0 in H0.
  - apply Z.eqb_eq. apply Z.bits_inj'. intros i Hi. rewrite Z.land_spec, Z.bits_0, Z.pow2_bits_eqb by done.
    destruct (Z.eqb_spec k i) as [<-|]; [by rewrite E|apply andb_false_r].
Qed.

Lemma div_nat (p : nat) : Z.of_nat p / 8 = Z.of_nat (p / 8) /\ Z.of_nat p mod 8 = Z.of_nat (p mod 8).
Proof. rewrite Nat2Z.inj_div, Nat2Z.inj_mod. done. Qed.

Lemma bv_set_spec pos (bits : bitvec) : (pos / 8 < length bits)%nat ->
  exists bits', bv_set (Z.of_nat pos) bits = Ok bits' /\ length bits' = length bits /\
    forall p, bit_at bits' p = bit_at bits p || bool_decide (p = pos).
Proof.
  intros Hp. unfold bv_set. destruct (div_nat pos) as [-> ->]. set (m := Z.shiftr 0x80 _).
  destruct (or_at_Ok (pos / 8) m bits Hp) as (b & Hb & ->). eexists. split; [done|]. split; [by rewrite length_insert|].
  intros p. rewrite (bit_insert _ _ _ _ _ Hb). f_equal. subst m.
  rewrite mask1_bits by (apply Nat.mod_upper_bound; lia). apply eq_true_iff_eq.
  rewrite andb_true_iff, !bool_decide_eq_true. split; [intros [Ha Hm]; rewrite (Nat.div_mod_eq p 8), (Nat.div_mod_eq pos 8); congruence|by intros ->].
Qed.

Lemma bv_set8_spec pos (bits : bitvec) : (pos / 8 + 1 < length bits)%nat ->
  exists bits', bv_set8 (Z.of_nat pos) bits = Ok bits' /\ length bits' = length bits /\
    forall p, bit_at bits' p = bit_at bits p || bool_decide (pos <= p < pos + 8)%nat.
Proof.
  intros Hp. unfold bv_set8. destruct (div_nat pos) as [-> ->]. set (m := Z.shiftr 0xFF _).
  destruct (or_at_Ok (pos / 8) m bits) as (b & Hb & ->); [lia|]. cbn [mbind outcome_bind].
  replace (Z.of_nat (pos / 8) + 1) with (Z.of_nat (pos / 8 + 1)) by lia.
  set (bits1 := <[_ := _]> bits). destruct (or_at_Ok (pos / 8 + 1) (255 - m) bits1) as (b1 & Hb1 & ->).
  { subst bits1. rewrite length_insert. lia. }
  eexists. split; [done|]. split; [by rewrite length_insert; subst bits1; rewrite length_insert|].
  intros p. rewrite (bit_insert _ _ _ _ _ Hb1). subst bits1. rewrite (bit_insert _ _ _ _ _ Hb), <- orb_assoc. f_equal. subst m.
  destruct (mask8_bits (pos mod 8) (p mod 8)) as [-> ->]; [apply Nat.mod_upper_bound; lia..|].
  pose proof (Nat.div_mod_eq p 8). pose proof (Nat.div_mod_eq pos 8). pose proof (Nat.mod_upper_bound p 8). pose proof (Nat.mod_upper_bound pos 8).
  apply eq_true_iff_eq. rewrite orb_true_iff, !andb_true_iff, !bool_decide_eq_true. lia.
Qed.

(** All [n] positions from [pos] are marked. *)
Lemma mark_spec n pos (bits : bitvec) : ((pos + n) / 8 < length bits)%nat ->
  exists bits', mark n (Z.of_nat pos) bits = Ok bits' /\ length bits' = length bits /\
    forall p, bit_at bits' p = bit_at bits p || bool_decide (pos <= p < pos + n)%nat.
Proof.
  revert pos bits. induction n as [n IH] using lt_wf_ind. intros pos bits Hl.
  assert (forall k, (k <= n)%nat -> ((pos + k) / 8 <= (pos + n) / 8)%nat) as Hmono by (intros; apply Nat.Div0.div_le_mono; lia).
  assert (forall k bits1, (0 < k <= n)%nat -> length bits1 = length bits ->
    (forall p, bit_at bits1 p = bit_at bits p || bool_decide (pos <= p < pos + k)%nat) ->
    exists bits', mark (n - k) (Z.of_nat pos + Z.of_nat k) bits1 = Ok bits' /\ length bits' = length bits /\
    forall p, bit_at bits' p = bit_at bits p || bool_decide (pos <= p < pos + n)%nat) as Hrest.
  { intros k bits1 Hk Hl1 Hb. destruct (IH (n - k)%nat ltac:(lia) (pos + k)%nat bits1) as (bits' & E & Hl' & Hb').
    { rewrite Hl1. by replace (pos + k + (n - k))%nat with (pos + n)%nat by lia. }
    exists bits'. split; [by rewrite <- Nat2Z.inj_add|]. split; [congruence|]. intros p. rewrite Hb', Hb, <- orb_assoc. f_equal.
    apply eq_true_iff_eq. rewrite orb_true_iff, !bool_decide_eq_true. lia. }
  pose proof (Hmono 0%nat ltac:(lia)) as H0. rewrite Nat.add_0_r in H0.
  destruct (bv_set_spec pos bits) as (b1 & E1 & L1 & B1); [lia|].
  assert ((0 < n)%nat -> exists bits', mark (n - 1) (Z.of_nat pos + 1) b1 = Ok bits' /\ length bits' = length bits /\
    forall p, bit_at bits' p = bit_at bits p || bool_decide (pos <= p < pos + n)%nat) as Hone.
  { intros Hn. apply (Hrest 1%nat); [lia|done|]. intros p. rewrite B1. f_equal. apply bool_decide_ext. lia. }
  destruct n as [|[|[|[|[|[|[|[|n]]]]]]]]; cbn [mark].
  - exists bits. split_and!; [done|done|]. intros p. rewrite bool_decide_eq_false_2 by lia. by rewrite orb_false_r.
  - rewrite E1. apply Hone. lia.
  - rewrite E1. apply Hone. lia.
  - rewrite E1. apply Hone. lia.
  - rewrite E1. apply Hone. lia.
  - rewrite E1. apply Hone. lia.
  - rewrite E1. apply Hone. lia.
  - rewrite E1. apply Hone. lia.
  - destruct (bv_set8_spec pos bits) as (b8 & E8 & L8 & B8).
    { pose proof (Hmono 8%nat ltac:(lia)) as H8. change 8%nat with (1 * 8)%nat in H8 at 1. rewrite Nat.div_add in H8 by lia. lia. }
    rewrite E8. cbn [mbind outcome_bind]. assert (S (S (S (S (S (S (S (S n))))))) - 8 = n)%nat as Hn by lia.
    pose proof (Hrest 8%nat b8 ltac:(lia) L8 B8) as Hx. by rewrite Hn in Hx.
Qed.

(** ** The analysis *)

Lemma data_at_app code1 code2 skip p : data_at (code1 ++ code2) skip (length code1 + p) =
  data_at code2 (foldl (fun k op => match k with O => push_size op | S k => k end) skip code1) p.
Proof. revert skip. induction code1 as [|op code1 IH]; intros skip; [done|]. cbn. by rewrite IH. Qed.

Lemma data_at_skip code skip p : (p < length code)%nat -> (p < skip)%nat -> data_at code skip p = true.
Proof.
  revert skip p. induction code as [|op code IH]; intros skip [|p] Hl Hs; cbn in *; [lia|lia|by rewrite bool_decide_eq_true_2|].
  destruct skip as [|k]; [lia|]. apply IH; lia.
Qed.
Lemma data_at_drop code skip p : (skip <= p)%nat -> data_at code skip p = data_at (drop skip code) 0 (p - skip).
Proof.
  revert code p. induction skip as [|k IH]; intros code p Hp; [by rewrite Nat.sub_0_r|].
  destruct p as [|p]; [lia|]. destruct code as [|op code]; [done|]. cbn. apply IH. lia.
Qed.

(** What is data before [pc], where an instruction starts. *)
Definition marked (code : list Z) (bits : bitvec) (pc : nat) : Prop :=
  length bits = (length code / 8 + 1 + 4)%nat /\
  (forall p, (pc <= p < length code)%nat -> bit_at bits p = false) /\
  (forall p, (p < pc)%nat -> (p < length code)%nat -> bit_at bits p = is_data code p) /\
  (forall p, (pc <= p)%nat -> is_data code p = data_at (drop pc code) 0 (p - pc)).

Lemma codeBitmap_loop_spec fuel code pc bits : marked code bits pc -> (length code <= pc + fuel)%nat ->
  exists bits', codeBitmap_loop fuel code (Z.of_nat pc) bits = Ok bits' /\ length bits' = length bits /\
    forall p, (p < length code)%nat -> bit_at bits' p = is_data code p.
Proof.
  revert pc bits. induction fuel as [|fuel IH]; intros pc bits (Hl & Hz & Hd & Hr) Hf; cbn [codeBitmap_loop].
  { destruct (Z.ltb_spec (Z.of_nat pc) (Z.of_nat (length code))); [lia|]. exists bits. split_and!; [done..|]. intros p Hp. apply Hd; lia. }
  destruct (Z.ltb_spec (Z.of_nat pc) (Z.of_nat (length code))) as [Hpc|Hpc].
  2:{ exists bits. split_and!; [done..|]. intros p Hp. apply Hd; lia. }
  destruct (lookup_lt_is_Some_2 code pc ltac:(lia)) as [op Hop]. rewrite (idx_nat _ _ _ Hop). cbn [mbind outcome_bind].
  set (n := push_size op). pose proof (push_size_le op) as Hn. fold n in Hn.
  replace (Z.of_nat pc + 1) with (Z.of_nat (pc + 1)) by lia.
  destruct (mark_spec n (pc + 1) bits) as (b1 & E1 & L1 & B1).
  { rewrite Hl. assert ((pc + 1 + n) / 8 <= (length code + 4 * 8) / 8)%nat as Hle by (apply Nat.Div0.div_le_mono; lia).
    rewrite Nat.div_add in Hle by lia. lia. }
  rewrite E1. cbn [mbind outcome_bind]. replace (Z.of_nat (pc + 1) + Z.of_nat n) with (Z.of_nat (pc + 1 + n)) by lia.
  assert (drop pc code = op :: drop (pc + 1) code) as Hdrop by (rewrite (drop_S code op pc) by done; by rewrite Nat.add_1_r).
  assert (forall p, (pc < p)%nat -> is_data code p = data_at (drop (pc + 1) code) n (p - (pc + 1))) as Hnext.
  { intros p Hp. rewrite Hr, Hdrop by lia. replace (p - pc)%nat with (S (p - (pc + 1))) by lia. done. }
  rewrite <- L1. apply IH; [|lia]. split_and!; [congruence|..].
  - intros p Hp. rewrite B1, Hz, bool_decide_eq_false_2 by lia. done.
  - intros p Hp Hpl. rewrite B1. destruct (decide (p < pc)%nat).
    { rewrite Hd, bool_decide_eq_false_2 by lia. by rewrite orb_false_r. }
    rewrite Hz by lia. cbn. destruct (decide (p = pc)) as [->|Hne].
    { rewrite bool_decide_eq_false_2, Hr, Hdrop, Nat.sub_diag by lia. done. }
    rewrite bool_decide_eq_true_2, Hnext by lia. symmetry. apply data_at_skip; [rewrite length_drop; lia|lia].
  - intros p Hp. rewrite Hnext, data_at_drop, drop_drop by lia. f_equal. lia.
Qed.

Lemma codeBitmap_bits (code : list Z) : exists bits, codeBitmap code = Ok bits /\ length bits = (length code / 8 + 1 + 4)%nat /\
  forall p, (p < length code)%nat -> bit_at bits p = is_data code p.
Proof.
  destruct (codeBitmap_loop_spec (length code) code 0 (replicate (length code / 8 + 1 + 4) 0)) as (bits & E & Hlen & Hb).
  - split_and!; [by rewrite length_replicate| |lia|].
    + intros p Hp. unfold bit_at. destruct (_ !! _) as [b|] eqn:Eb; [|done]. apply lookup_replicate in Eb as [-> _]. apply Z.testbit_0_l.
    + intros p _. by rewrite Nat.sub_0_r.
  - lia.
  - exists bits. rewrite length_replicate in Hlen. done.
Qed.
(** Looking up a position of the code never panics. *)
Lemma codeSegment_bit (code : list Z) (bits : bitvec) (p : nat) : length bits = (length code / 8 + 1 + 4)%nat -> (p < length code)%nat ->
  codeSegment bits (Z.of_nat p) = Ok (negb (bit_at bits p)).
Proof.
  intros Hlen Hp. unfold codeSegment. destruct (div_nat p) as [-> ->].
  assert (p / 8 <= length code / 8)%nat by (apply Nat.Div0.div_le_mono; lia).
  destruct (lookup_lt_is_Some_2 bits (p / 8)) as [b Eb]; [lia|]. rewrite (idx_nat _ _ _ Eb). cbn [mbind outcome_bind].
  f_equal. unfold bit_at. rewrite Eb. apply mask_test, Nat.mod_upper_bound. lia.
Qed.

(** C39: The bitmap of any code, a truncated PUSH at its end included, is
    built without an access out of range, and tells code from data as reading
    the code from its start does. *)
Theorem codeBitmap_is_data (code : list Z) : exists bits, codeBitmap code = Ok bits /\
  forall p : nat, (p < length code)%nat -> codeSegment bits (Z.of_nat p) = Ok (negb (is_data code p)).
Proof.
  destruct (codeBitmap_bits code) as (bits & E & Hlen & Hb). exists bits. split; [exact E|]. intros p Hp.
  by rewrite (codeSegment_bit code), Hb.
Qed.
