(* ===== verification/Gas.v ===== *)
(** * Gas (internal/params/protocol_params.go, core/vm/gas.go)

    The protocol's constants, the intrinsic gas of a transaction and the gas a
    call may take with it. *)
From S2P Require Import Prelude.
Local Open Scope Z_scope.

Definition GasLimitBoundDivisor : Z := 1024.
Definition MinGasLimit : Z := 5000.
Definition GenesisGasLimit : Z := 4712388.
Definition TestGenesisGasLimit : Z := 80000000.
Definition MaximumExtraDataSize : Z := 32.
Definition ExpByteGas : Z := 10.
Definition SloadGas : Z := 50.
Definition CallValueTransferGas : Z := 9000.
Definition CallNewAccountGas : Z := 25000.
Definition TxGas : Z := 21000.
Definition TxGasXShard : Z := 23000.
Definition TxGasContractCreation : Z := 53000.
Definition TxGasValidatorCreation : Z := 5300000.
Definition TxDataZeroGas : Z := 4.
Definition QuadCoeffDiv : Z := 512.
Definition LogDataGas : Z := 8.
Definition CallStipend : Z := 2300.
Definition Sha3Gas : Z := 30.
Definition Sha3WordGas : Z := 6.
Definition SstoreSetGas : Z := 20000.
Definition SstoreResetGas : Z := 5000.
Definition SstoreClearGas : Z := 5000.
Definition SstoreRefundGas : Z := 15000.
Definition NetSstoreNoopGas : Z := 200.
Definition NetSstoreInitGas : Z := 20000.
Definition NetSstoreCleanGas : Z := 5000.
Definition NetSstoreDirtyGas : Z := 200.
Definition NetSstoreClearRefund : Z := 15000.
Definition NetSstoreResetRefund : Z := 4800.
Definition NetSstoreResetClearRefund : Z := 19800.
Definition SstoreSentryGasEIP2200 : Z := 2300.
Definition SstoreNoopGasEIP2200 : Z := 800.
Definition SstoreDirtyGasEIP2200 : Z := 800.
Definition SstoreInitGasEIP2200 : Z := 20000.
Definition SstoreInitRefundEIP2200 : Z := 19200.
Definition SstoreCleanGasEIP2200 : Z := 5000.
Definition SstoreCleanRefundEIP2200 : Z := 4200.
Definition SstoreClearRefundEIP2200 : Z := 15000.
Definition JumpdestGas : Z := 1.
Definition EpochDuration : Z := 30000.
Definition CallGas : Z := 40.
Definition CreateDataGas : Z := 200.
Definition CallCreateDepth : Z := 1024.
Definition ExpGas : Z := 10.
Definition LogGas : Z := 375.
Definition CopyGas : Z := 3.
Definition StackLimit : Z := 1024.
Definition TierStepGas : Z := 0.
Definition LogTopicGas : Z := 375.
Definition CreateGas : Z := 32000.
Definition Create2Gas : Z := 32000.
Definition SelfdestructRefundGas : Z := 24000.
Definition MemoryGas : Z := 3.
Definition TxDataNonZeroGasFrontier : Z := 68.
Definition TxDataNonZeroGasEIP2028 : Z := 16.
Definition CallGasFrontier : Z := 40.
Definition CallGasEIP150 : Z := 700.
Definition BalanceGasFrontier : Z := 20.
Definition BalanceGasEIP150 : Z := 400.
Definition BalanceGasEIP1884 : Z := 700.
Definition ExtcodeSizeGasFrontier : Z := 20.
Definition ExtcodeSizeGasEIP150 : Z := 700.
Definition SloadGasFrontier : Z := 50.
Definition SloadGasEIP150 : Z := 200.
Definition SloadGasEIP1884 : Z := 800.
Definition ExtcodeHashGasConstantinople : Z := 400.
Definition ExtcodeHashGasEIP1884 : Z := 700.
Definition SelfdestructGasEIP150 : Z := 5000.
Definition ExpByteFrontier : Z := 10.
Definition ExpByteEIP158 : Z := 50.
Definition ExtcodeCopyBaseFrontier : Z := 20.
Definition ExtcodeCopyBaseEIP150 : Z := 700.
Definition CreateBySelfdestructGas : Z := 25000.
Definition MaxCodeSize : Z := 24576.
Definition EcrecoverGas : Z := 3000.
Definition Sha256BaseGas : Z := 60.
Definition Sha256PerWordGas : Z := 12.
Definition Ripemd160BaseGas : Z := 600.
Definition Ripemd160PerWordGas : Z := 120.
Definition IdentityBaseGas : Z := 15.
Definition IdentityPerWordGas : Z := 3.
Definition ModExpQuadCoeffDiv : Z := 20.
Definition Bn256AddGasByzantium : Z := 500.
Definition Bn256AddGasIstanbul : Z := 150.
Definition Bn256ScalarMulGasByzantium : Z := 40000.
Definition Bn256ScalarMulGasIstanbul : Z := 6000.
Definition Bn256PairingBaseGasByzantium : Z := 100000.
Definition Bn256PairingBaseGasIstanbul : Z := 45000.
Definition Bn256PairingPerPointGasByzantium : Z := 80000.
Definition Bn256PairingPerPointGasIstanbul : Z := 34000.
Definition Sha3FipsGas : Z := 30.
Definition Sha3FipsWordGas : Z := 6.

(** ** gas.go *)

Definition GasQuickStep : Z := 2.
Definition GasFastestStep : Z := 3.
Definition GasFastStep : Z := 5.
Definition GasMidStep : Z := 8.
Definition GasSlowStep : Z := 10.
Definition GasExtStep : Z := 20.

Definition ErrOutOfGas : string := "out of gas".
Definition errGasUintOverflow : string := "gas uint64 overflow".
Definition MaxUint64 : Z := 2 ^ 64 - 1.

Definition callGas (isEip150 : bool) (availableGas base callCost : Z) : outcome Z :=
  let available := u64 (availableGas - base) in
  let gas := u64 (available - available / 64) in
  if isEip150 && (negb (Big.IsUint64 callCost) || (gas <? Big.Uint64 callCost)) then Ok gas
  else if negb (Big.IsUint64 callCost) then Err errGasUintOverflow
  else Ok (Big.Uint64 callCost).

(** The number of bytes that are not zero. *)
Definition nonzero (data : list Z) : Z := Z.of_nat (length (List.filter (fun b => negb (b =? 0)) data)).

Definition IntrinsicGas (data : list Z) (contractCreation homestead istanbul isValidatorCreation : bool) : outcome Z :=
  let gas := if contractCreation && homestead then TxGasContractCreation
             else if isValidatorCreation then TxGasValidatorCreation else TxGas in
  match data with
  | [] => Ok gas
  | _ =>
      let nz := u64 (nonzero data) in
      let nonZeroGas := if istanbul then TxDataNonZeroGasEIP2028 else TxDataNonZeroGasFrontier in
      if (MaxUint64 - gas) / nonZeroGas <? nz then Err ErrOutOfGas
      else
        let gas := u64 (gas + u64 (nz * nonZeroGas)) in
        let z := u64 (u64 (Z.of_nat (length data)) - nz) in
        if (MaxUint64 - gas) / TxDataZeroGas <? z then Err ErrOutOfGas
        else Ok (u64 (gas + u64 (z * TxDataZeroGas)))
  end.

(** ** Facts *)

(** What a transaction costs before it runs, over the integers. *)
Definition intrinsic (data : list Z) (contractCreation homestead istanbul isValidatorCreation : bool) : Z :=
  (if contractCreation && homestead then TxGasContractCreation
   else if isValidatorCreation then TxGasValidatorCreation else TxGas) +
  nonzero data * (if istanbul then TxDataNonZeroGasEIP2028 else TxDataNonZeroGasFrontier) +
  (Z.of_nat (length data) - nonzero data) * TxDataZeroGas.

Lemma nonzero_range data : 0 <= nonzero data <= Z.of_nat (length data).
Proof.
  unfold nonzero. split; [lia|]. induction data as [|b data IH]; [done|]. cbn. destruct (negb (b =? 0)); cbn [length]; lia.
Qed.

(** The guard of an addition is exact. *)
Lemma guard_exact gas price n : 0 <= gas <= MaxUint64 -> 0 < price -> 0 <= n ->
  ((MaxUint64 - gas) / price <? n) = (MaxUint64 <? gas + n * price).
Proof.
  intros Hg Hp Hn. apply eq_true_iff_eq. rewrite !Z.ltb_lt. split; intros Hlt.
  - apply Z.lt_nge. intros Hle. assert (n <= (MaxUint64 - gas) / price); [|lia]. apply Z.div_le_lower_bound; lia.
  - apply Z.div_lt_upper_bound; lia.
Qed.

(** The intrinsic gas is the sum over the integers whenever that fits in a
    uint64, and the call fails exactly when it does not. *)
Lemma IntrinsicGas_exact data c h i v : Z.of_nat (length data) < 2 ^ 63 ->
  IntrinsicGas data c h i v =
    (if intrinsic data c h i v <=? MaxUint64 then Ok (intrinsic data c h i v) else Err ErrOutOfGas).
Proof.
  intros Hl. unfold IntrinsicGas, intrinsic. set (gas := if c && h then _ else _).
  assert (0 <= gas <= 5300000) as Hg by (subst gas; destruct (c && h); [|destruct v]; vm_compute; split; discriminate).
  pose proof (nonzero_range data) as Hz. unfold MaxUint64 in *.
  destruct data as [|b data]; [change (nonzero []) with 0; cbn [length]; destruct (Z.leb_spec (gas + 0 * (if i then TxDataNonZeroGasEIP2028 else TxDataNonZeroGasFrontier) + (Z.of_nat 0 - 0) * TxDataZeroGas) (2 ^ 64 - 1)); f_equal; lia|].
  set (data' := b :: data) in *. set (price := if i then _ else _).
  assert (16 <= price <= 68) as Hp by (subst price; destruct i; vm_compute; split; discriminate).
  set (n := Z.of_nat (length data')) in *. set (nz := nonzero data') in *. rewrite (u64_small nz), (u64_small n) by lia.
  fold MaxUint64. rewrite guard_exact by (unfold MaxUint64; lia). unfold MaxUint64. unfold TxDataZeroGas.
  destruct (Z.ltb_spec (2 ^ 64 - 1) (gas + nz * price)) as [H1|H1].
  { destruct (Z.leb_spec (gas + nz * price + (n - nz) * 4) (2 ^ 64 - 1)); [lia|done]. }
  rewrite (u64_small (nz * price)), (u64_small (gas + nz * price)), (u64_small (n - nz)) by nia.
  fold MaxUint64. rewrite guard_exact by (unfold MaxUint64; nia). unfold MaxUint64.
  destruct (Z.ltb_spec (2 ^ 64 - 1) (gas + nz * price + (n - nz) * 4)) as [H2|H2].
  { destruct (Z.leb_spec (gas + nz * price + (n - nz) * 4) (2 ^ 64 - 1)); [lia|done]. }
  destruct (Z.leb_spec (gas + nz * price + (n - nz) * 4) (2 ^ 64 - 1)); [|lia].
  rewrite (u64_small ((n - nz) * 4)), u64_small by nia. done.
Qed.

(** After EIP-150 a call never takes more than all but one 64th of what is left
    after [base]; before, it takes exactly what it asks for. *)
Lemma callGas_eip150 available base cost : 0 <= base <= available -> available < 2 ^ 64 -> 0 <= cost ->
  callGas true available base cost = Ok (Z.min cost ((available - base) - (available - base) / 64)).
Proof.
  intros Hb Ha Hc. unfold callGas. cbn. rewrite (u64_small (available - base)) by lia. set (left := available - base).
  assert (0 <= left / 64 <= left) by (split; [apply Z.div_pos; lia|apply Z.div_le_upper_bound; lia]).
  rewrite u64_small by lia. unfold Big.IsUint64, Big.Uint64. destruct (Z.leb_spec 0 cost), (Z.ltb_spec cost (2 ^ 64)); try lia; cbn.
  - rewrite (u64_small cost) by lia. destruct (Z.ltb_spec (left - left / 64) cost); f_equal; lia.
  - f_equal. lia.
Qed.
