(* ===== verification/EvmMemory.v ===== *)
(** * Memory of the virtual machine (core/vm/memory.go, memory_table.go,
      common.go, memoryGasCost of gas_table.go)

    A frame's memory is a slice that only grows.  Growing past its capacity
    moves it to a new array; a slice taken before ([GetPtr]) stays with the old
    one, so a memory keeps the arrays it has left.  How far [append] grows an
    array is the runtime's choice ([growslice]). *)
From S2P Require Import Prelude Bls Gas.
Local Open Scope Z_scope.

Class GoRuntime := {
  growslice : Z -> Z -> Z;   (* the old capacity, the length needed *)
  growslice_enough old need : need <= growslice old need
}.

Definition zeros (n : Z) : list Z := replicate (Z.to_nat n) 0.

(** ** common.go *)

(** go-ethereum's [math.SafeMul] and [math.SafeAdd]: the result and whether it
    overflowed. *)
Definition SafeMul (x y : Z) : Z * bool := (u64 (x * y), MaxUint64 <? x * y).
Definition SafeAdd (x y : Z) : Z * bool := (u64 (x + y), MaxUint64 <? x + y).
(** go-ethereum's [common.RightPadBytes] and [common.LeftPadBytes]. *)
Definition RightPadBytes (b : list Z) (l : Z) : list Z := b ++ zeros (l - Z.of_nat (length b)).
Definition LeftPadBytes (b : list Z) (l : Z) : list Z := zeros (l - Z.of_nat (length b)) ++ b.

(** [b[low:high]] of a slice with that capacity; the bytes past its end are
    zero here. *)
Definition slice_cap (b : list Z) (cap low high : Z) : outcome (list Z) :=
  if (0 <=? low) && (low <=? high) && (high <=? cap)
  then Ok (take (Z.to_nat (high - low)) (drop (Z.to_nat low) (b ++ zeros (high - Z.of_nat (length b)))))
  else Panic "slice bounds out of range".
Definition slice (b : list Z) (low high : Z) : outcome (list Z) := slice_cap b (Z.of_nat (length b)) low high.

Definition calcMemSize64WithUint (off length64 : Z) : Z * bool :=
  if length64 =? 0 then (0, false)
  else if negb (Big.IsUint64 off) then (0, true)
  else let offset64 := Big.Uint64 off in
       let val := u64 (offset64 + length64) in (val, val <? offset64).
Definition calcMemSize64 (off l : Z) : Z * bool :=
  if negb (Big.IsUint64 l) then (0, true) else calcMemSize64WithUint off (Big.Uint64 l).

Definition getData (data : list Z) (start size : Z) : outcome (list Z) :=
  let length := u64 (Z.of_nat (length data)) in
  let start := if length <? start then length else start in
  let end_ := u64 (start + size) in
  let end_ := if length <? end_ then length else end_ in
  let! b := slice data start end_ in Ok (RightPadBytes b (i64 size)).
Definition getDataBig (data : list Z) (start size : Z) : outcome (list Z) :=
  let dlen := Z.of_nat (length data) in
  let s := Z.min start dlen in
  let e := Z.min (s + size) dlen in
  let! b := slice data (Big.Uint64 s) (Big.Uint64 e) in Ok (RightPadBytes b (i64 (Big.Uint64 size))).

Definition bigUint64 (v : Z) : Z * bool := (Big.Uint64 v, negb (Big.IsUint64 v)).
Definition toWordSize (size : Z) : Z :=
  if MaxUint64 - 31 <? size then MaxUint64 / 32 + 1 else (size + 31) / 32.
Definition allZero (b : list Z) : bool := forallb (fun x => x =? 0) b.

(** ** memory.go *)

Record Memory := mkMemory { left_arrays : list (list Z); store : list Z; mcap : Z; lastGasCost : Z }.
Definition NewMemory : Memory := mkMemory [] [] 0 0.
Definition with_store (s : list Z) (m : Memory) : Memory := mkMemory m.(left_arrays) s m.(mcap) m.(lastGasCost).
Definition with_lastGasCost (c : Z) (m : Memory) : Memory := mkMemory m.(left_arrays) m.(store) m.(mcap) c.
Definition Len (m : Memory) : Z := Z.of_nat (length m.(store)).

(** [copy(b[off:off+size], value)], inside the slice. *)
Definition copy_at (b : list Z) (off size : Z) (value : list Z) : list Z :=
  let n := Nat.min (Z.to_nat size) (length value) in
  take (Z.to_nat off) b ++ take n value ++ drop (Z.to_nat off + n) b.

Definition mem_Set (offset size : Z) (value : list Z) (m : Memory) : outcome Memory :=
  if 0 <? size then
    if Len m <? u64 (offset + size) then Panic "invalid memory: store empty"
    else if u64 (offset + size) <? offset then Panic "slice bounds out of range"
    else Ok (with_store (copy_at m.(store) offset size value) m)
  else Ok m.
(** [math.ReadBits]: the absolute value, big endian. *)
Definition Set32 (offset val : Z) (m : Memory) : outcome Memory :=
  if Len m <? u64 (offset + 32) then Panic "invalid memory: store empty"
  else if u64 (offset + 32) <? offset then Panic "slice bounds out of range"
  else Ok (with_store (copy_at m.(store) offset 32 (be_bytes 32 (Z.abs val))) m).

Definition Resize {G : GoRuntime} (size : Z) (m : Memory) : Memory :=
  if Len m <? size then
    let grown := m.(store) ++ zeros (size - Len m) in
    if size <=? m.(mcap) then with_store grown m
    else mkMemory (m.(left_arrays) ++ [m.(store)]) grown (growslice m.(mcap) size) m.(lastGasCost)
  else m.

(** A slice: bytes of its own, or a view of an array of the frame's memory. *)
Inductive Slice := Bytes (b : list Z) | View (arr : nat) (off len : Z).
(** Its bytes now. *)
Definition resolve (m : Memory) (s : Slice) : list Z :=
  match s with
  | Bytes b => b
  | View arr off len =>
      let a := match m.(left_arrays) !! arr with Some a => a | None => m.(store) end in
      take (Z.to_nat len) (drop (Z.to_nat off) (a ++ zeros (off + len - Z.of_nat (length a))))
  end.

Definition GetPtr (offset size : Z) (m : Memory) : outcome Slice :=
  if size =? 0 then Ok (Bytes [])
  else if offset <? Len m then
    let! _ := slice_cap m.(store) m.(mcap) offset (offset + size) in
    Ok (View (length m.(left_arrays)) offset size)
  else Ok (Bytes []).
Definition GetCopy (offset size : Z) (m : Memory) : outcome (list Z) :=
  if size =? 0 then Ok []
  else if offset <? Len m then slice_cap m.(store) m.(mcap) offset (offset + size)
  else Ok [].

(** ** memory_table.go: what an operation needs, on a stack with the top first *)

Notation Stack := (list Z).
(** [stack.Back(n)]. *)
Definition Back (st : Stack) (n : nat) : outcome Z :=
  match st !! n with Some v => Ok v | None => Panic "index out of range" end.

Definition mem_at (off len : nat) (st : Stack) : outcome (Z * bool) :=
  let! o := Back st off in let! l := Back st len in Ok (calcMemSize64 o l).
Definition mem_fixed (off : nat) (n : Z) (st : Stack) : outcome (Z * bool) :=
  let! o := Back st off in Ok (calcMemSize64WithUint o n).
(** The larger of two areas. *)
Definition mem_both (o1 l1 o2 l2 : nat) (st : Stack) : outcome (Z * bool) :=
  let! (x : Z * bool) := mem_at o1 l1 st in
  if x.2 then Ok (0, true)
  else
    let! (y : Z * bool) := mem_at o2 l2 st in
    if y.2 then Ok (0, true) else if y.1 <? x.1 then Ok (x.1, false) else Ok (y.1, false).

Definition memorySha3 := mem_at 0 1.
Definition memoryCallDataCopy := mem_at 0 2.
Definition memoryReturnDataCopy := mem_at 0 2.
Definition memoryCodeCopy := mem_at 0 2.
Definition memoryExtCodeCopy := mem_at 1 3.
Definition memoryMLoad := mem_fixed 0 32.
Definition memoryMStore8 := mem_fixed 0 1.
Definition memoryMStore := mem_fixed 0 32.
Definition memoryCreate := mem_at 1 2.
Definition memoryCreate2 := mem_at 1 2.
Definition memoryCall := mem_both 5 6 3 4.
Definition memoryDelegateCall := mem_both 4 5 2 3.
Definition memoryStaticCall := mem_both 4 5 2 3.
Definition memoryReturn := mem_at 0 1.
Definition memoryRevert := mem_at 0 1.
Definition memoryLog := mem_at 0 1.

(** ** gas_table.go: memoryGasCost *)

Definition memoryGasCost (mem : Memory) (newMemSize : Z) : outcome (Memory * Z) :=
  if newMemSize =? 0 then Ok (mem, 0)
  else if 0x1FFFFFFFE0 <? newMemSize then Err errGasUintOverflow
  else
    let newMemSizeWords := toWordSize newMemSize in
    let newMemSize := u64 (newMemSizeWords * 32) in
    if Len mem <? newMemSize then
      let square := u64 (newMemSizeWords * newMemSizeWords) in
      let linCoef := u64 (newMemSizeWords * MemoryGas) in
      let quadCoef := square / QuadCoeffDiv in
      let newTotalFee := u64 (linCoef + quadCoef) in
      let fee := u64 (newTotalFee - mem.(lastGasCost)) in
      Ok (with_lastGasCost newTotalFee mem, fee)
    else Ok (mem, 0).

(** ** Facts *)

(** The price of a memory of [w] words. *)
Definition memory_fee (w : Z) : Z := 3 * w + w * w / 512.
(** A memory of whole words that is paid for. *)
Record mem_ok (m : Memory) : Prop := {
  mem_words : Len m = 32 * (Len m / 32);
  mem_paid : lastGasCost m = memory_fee (Len m / 32);
  mem_small : Len m <= 0x1FFFFFFFE0
}.

Lemma NewMemory_ok : mem_ok NewMemory.
Proof. by split. Qed.

Lemma memory_fee_mono w1 w2 : 0 <= w1 <= w2 -> 0 <= memory_fee w1 <= memory_fee w2.
Proof.
  intros Hw. unfold memory_fee. assert (w1 * w1 / 512 <= w2 * w2 / 512) by (apply Z.div_le_mono; nia).
  assert (0 <= w1 * w1 / 512) by (apply Z.div_pos; nia). lia.
Qed.

Lemma fee_small w : 0 <= w <= 0xFFFFFFFF -> 0 <= memory_fee w /\ memory_fee w < 2 ^ 60.
Proof.
  intros Hw. unfold memory_fee. assert (w * w / 512 <= 2 ^ 64 / 512) as Hq by (apply Z.div_le_mono; nia).
  change (2 ^ 64 / 512) with (2 ^ 55) in Hq. assert (0 <= w * w / 512) by (apply Z.div_pos; nia). lia.
Qed.

Lemma toWordSize_small n : 0 <= n <= 0x1FFFFFFFE0 -> toWordSize n = (n + 31) / 32.
Proof. intros Hn. unfold toWordSize, MaxUint64. destruct (Z.ltb_spec (2 ^ 64 - 1 - 31) n); [lia|done]. Qed.

(** [words n] is the size of the memory once an operation that needs [n] bytes
    has run. *)
Definition word_bytes (n : Z) : Z := 32 * ((n + 31) / 32).
Lemma word_bytes_range n : 0 <= n -> n <= word_bytes n < n + 32.
Proof. intros Hn. unfold word_bytes. pose proof (Z.div_mod (n + 31) 32 ltac:(lia)). pose proof (Z.mod_pos_bound (n + 31) 32 ltac:(lia)). lia. Qed.

Lemma Len_nonneg m : 0 <= Len m.
Proof. unfold Len. lia. Qed.

(** The gas of growing to [n] words is exactly the difference of the fees: no
    wrap-around below the limit, an error above it. *)
Lemma memoryGasCost_spec m n : mem_ok m -> 0 <= n -> n mod 32 = 0 ->
  memoryGasCost m n =
    (if n =? 0 then Ok (m, 0) else if 0x1FFFFFFFE0 <? n then Err errGasUintOverflow
     else if Len m <? n then Ok (with_lastGasCost (memory_fee (n / 32)) m, memory_fee (n / 32) - memory_fee (Len m / 32))
     else Ok (m, 0)).
Proof.
  intros [Hw Hp Hs] Hn Hd. unfold memoryGasCost. destruct (n =? 0); [done|]. destruct (Z.ltb_spec 0x1FFFFFFFE0 n) as [|Hl]; [done|].
  rewrite toWordSize_small by lia. pose proof (Z.div_mod n 32 ltac:(lia)) as En. rewrite Hd in En.
  assert ((n + 31) / 32 = n / 32) as -> by (symmetry; apply (Z.div_unique _ _ _ 31); lia).
  set (w := n / 32) in *. assert (0 <= w <= 0xFFFFFFFF) as Hwr by (subst w; lia). rewrite (u64_small (w * 32)) by lia.
  replace (w * 32) with n by lia. destruct (Z.ltb_spec (Len m) n) as [Hlt|]; [|done].
  unfold MemoryGas, QuadCoeffDiv. rewrite (u64_small (w * w)), (u64_small (w * 3)) by nia.
  pose proof (fee_small w Hwr) as [Hf0 Hf1]. unfold memory_fee in Hf0, Hf1.
  assert (0 <= w * w / 512) by (apply Z.div_pos; nia). rewrite (u64_small (w * 3 + w * w / 512)) by lia. replace (w * 3 + w * w / 512) with (memory_fee w) by (unfold memory_fee; lia).
  rewrite Hp. pose proof (Len_nonneg m) as H0. assert (0 <= Len m / 32 <= w) as Hm by (split; [apply Z.div_pos; lia|apply Z.div_le_mono; lia]).
  pose proof (memory_fee_mono _ _ Hm) as Hf. pose proof (fee_small w Hwr) as [_ Hf2].
  rewrite u64_small by lia. done.
Qed.
Lemma Resize_Len {G : GoRuntime} n m : Len (Resize n m) = Z.max (Len m) n.
Proof.
  unfold Resize. pose proof (Len_nonneg m). destruct (Z.ltb_spec (Len m) n) as [Hl|Hl]; [|lia].
  assert (Z.of_nat (length (store m ++ zeros (n - Len m))) = n) as E.
  { unfold zeros. rewrite length_app, length_replicate. unfold Len in *. lia. }
  destruct (n <=? mcap m); change (Z.of_nat (length (store m ++ zeros (n - Len m))) = Z.max (Len m) n); lia.
Qed.
Lemma Resize_paid {G : GoRuntime} n m : lastGasCost (Resize n m) = lastGasCost m.
Proof. unfold Resize. destruct (_ <? _); [|done]. by destruct (_ <=? _). Qed.

(** Paying for [n] bytes and growing to them keeps a memory in order. *)
Lemma grow_ok {G : GoRuntime} m n m1 cost : mem_ok m -> 0 <= n -> n mod 32 = 0 -> memoryGasCost m n = Ok (m1, cost) ->
  mem_ok (Resize n m1) /\ 0 <= cost < 2 ^ 64 /\ n <= Len (Resize n m1) /\ Len m <= Len (Resize n m1).
Proof.
  intros Hm Hn Hd E. pose proof Hm as [Hw Hp Hs]. rewrite (memoryGasCost_spec m n Hm Hn Hd) in E.
  pose proof (Len_nonneg m) as H0. pose proof (Z.div_mod n 32 ltac:(lia)) as En.
  destruct (Z.eqb_spec n 0) as [->|Hn0].
  { injection E as <- <-. unfold Resize. destruct (Z.ltb_spec (Len m) 0); [lia|]. split_and!; [done|lia..]. }
  destruct (Z.ltb_spec 0x1FFFFFFFE0 n); [done|]. destruct (Z.ltb_spec (Len m) n) as [Hl|Hl].
  - injection E as <- <-. assert (0 <= Len m / 32 <= n / 32) as Hm2 by (split; [apply Z.div_pos; lia|apply Z.div_le_mono; lia]).
    pose proof (memory_fee_mono _ _ Hm2). destruct (fee_small (n / 32)) as [_ Hf]; [split; [lia|apply Z.div_le_upper_bound; lia]|].
    assert (Len (Resize n (with_lastGasCost (memory_fee (n / 32)) m)) = n) as EL by (rewrite Resize_Len; unfold Len in *; cbn; lia).
    split; [|lia]. split; rewrite EL; [lia|by rewrite Resize_paid|lia].
  - injection E as <- <-. unfold Resize. destruct (Z.ltb_spec (Len m) n); [lia|]. split_and!; [done|lia..].
Qed.
