(* ===== verification/Precompiles.v ===== *)
(** * Precompiled contracts (core/vm/contracts.go)

    Gas and result of the contracts that are implemented natively, and the table
    of each fork.  The cryptography they call is foreign ([CryptoLib]); the
    parsing, padding and pricing around it is here.  [dataCopy] returns the very
    slice it is given ([returns_input]). *)
From Stdlib Require Import Zpow_facts.
From S2P Require Import Prelude Bls CXReceipt Gas EvmMemory.
Local Open Scope Z_scope.

(** go-ethereum's [crypto], [blake2b] and [bn256], [crypto/sha256], and
    golang.org/x/crypto's [ripemd160] and [sha3]. *)
Class CryptoLib := {
  Ecrecover : list Z -> list Z -> outcome (list Z);               (* hash, signature: the public key *)
  ValidateSignatureValues : Z -> Z -> Z -> bool -> bool;
  Sum256 : list Z -> list Z;                                      (* SHA-256 *)
  Ripemd160 : list Z -> list Z;
  Sha3_Sum256 : list Z -> list Z;                                 (* FIPS 202 *)
  G1 : Type; G2 : Type;
  G1_Unmarshal : list Z -> outcome G1;
  G2_Unmarshal : list Z -> outcome G2;
  G1_Marshal : G1 -> list Z;
  G1_Add : G1 -> G1 -> G1;
  G1_ScalarMult : G1 -> Z -> G1;
  PairingCheck : list G1 -> list G2 -> bool;
  blake2b_F : list Z -> list Z -> list Z -> bool -> Z -> list Z    (* h, m, t, final, rounds: the new h *)
}.

(** The contracts; the fork is in the name where there are several. *)
Inductive PrecompiledContract :=
| ecrecover | sha256hash | ripemd160hash | dataCopy | bigModExp
| bn256AddByzantium | bn256AddIstanbul | bn256ScalarMulByzantium | bn256ScalarMulIstanbul
| bn256PairingByzantium | bn256PairingIstanbul | blake2F | epoch_ | vrf_ | sha3fip | ecrecoverPublicKey.
#[export] Instance PrecompiledContract_eq_dec : EqDecision PrecompiledContract.
Proof. solve_decision. Defined.

Section precompiles.
Context {H : Hashes} {C : CryptoLib}.
Implicit Types (input : list Z).

(** [input[low:high]] where the input is known to be long enough. *)
Definition part (low high : nat) input : list Z := take (high - low) (drop low input).

(** ** Gas *)

(** [uint64(len(input)+31)/32*word + base]. *)
Definition per_word (word base : Z) input : Z :=
  u64 (u64 (u64 (Z.of_nat (length input) + 31) / 32 * word) + base).

Definition sha256hash_RequiredGas := per_word Sha256PerWordGas Sha256BaseGas.
Definition ripemd160hash_RequiredGas := per_word Ripemd160PerWordGas Ripemd160BaseGas.
Definition dataCopy_RequiredGas := per_word IdentityPerWordGas IdentityBaseGas.
Definition sha3fip_RequiredGas := per_word Sha3FipsWordGas Sha3FipsGas.
Definition pairing_gas (base point : Z) input : Z :=
  u64 (base + u64 (Z.of_nat (length input / 192) * point)).
Definition bn256PairingIstanbul_RequiredGas := pairing_gas Bn256PairingBaseGasIstanbul Bn256PairingPerPointGasIstanbul.
Definition bn256PairingByzantium_RequiredGas := pairing_gas Bn256PairingBaseGasByzantium Bn256PairingPerPointGasByzantium.
Definition blake2FInputLength : nat := 213.
Definition blake2F_RequiredGas input : Z :=
  if negb (length input =? blake2FInputLength)%nat then 0 else be_value (part 0 4 input).

(** The three lengths at the head of the input, and what follows them. *)
Definition modexp_length (i : Z) input : outcome Z := let! b := getData input (32 * i) 32 in Ok (be_value b).
Definition modexp_body input : list Z := if (96 <? length input)%nat then drop 96 input else [].

Definition modexp_expHead (baseLen expLen : Z) (body : list Z) : outcome Z :=
  if Z.of_nat (length body) <=? baseLen then Ok 0
  else if 32 <? expLen then let! b := getData body (Big.Uint64 baseLen) 32 in Ok (be_value b)
  else let! b := getData body (Big.Uint64 baseLen) (Big.Uint64 expLen) in Ok (be_value b).
Definition modexp_complexity (x : Z) : Z :=
  if x <=? 64 then x * x
  else if x <=? 1024 then x * x / 4 + (96 * x - 3072)
  else x * x / 16 + (480 * x - 199680).
Definition bigModExp_RequiredGas input : outcome Z :=
  let! baseLen := modexp_length 0 input in
  let! expLen := modexp_length 1 input in
  let! modLen := modexp_length 2 input in
  let! expHead := modexp_expHead baseLen expLen (modexp_body input) in
  let bitlen := Big.BitLen expHead in
  let msb := if 0 <? bitlen then bitlen - 1 else 0 in
  let adjExpLen := (if 32 <? expLen then 8 * (expLen - 32) else 0) + msb in
  let gas := modexp_complexity (Z.max modLen baseLen) * Z.max adjExpLen 1 / ModExpQuadCoeffDiv in
  Ok (if 64 <? Big.BitLen gas then MaxUint64 else Big.Uint64 gas).

Definition RequiredGas (p : PrecompiledContract) input : outcome Z :=
  match p with
  | ecrecover | ecrecoverPublicKey => Ok EcrecoverGas
  | sha256hash => Ok (sha256hash_RequiredGas input)
  | ripemd160hash => Ok (ripemd160hash_RequiredGas input)
  | dataCopy => Ok (dataCopy_RequiredGas input)
  | bigModExp => bigModExp_RequiredGas input
  | bn256AddByzantium => Ok Bn256AddGasByzantium
  | bn256AddIstanbul => Ok Bn256AddGasIstanbul
  | bn256ScalarMulByzantium => Ok Bn256ScalarMulGasByzantium
  | bn256ScalarMulIstanbul => Ok Bn256ScalarMulGasIstanbul
  | bn256PairingByzantium => Ok (bn256PairingByzantium_RequiredGas input)
  | bn256PairingIstanbul => Ok (bn256PairingIstanbul_RequiredGas input)
  | blake2F => Ok (blake2F_RequiredGas input)
  | epoch_ | vrf_ => Ok GasQuickStep
  | sha3fip => Ok (sha3fip_RequiredGas input)
  end.

(** ** Results: an error is [Err] *)

(** The public key of the signature, when its values are well formed and it can
    be recovered. *)
Definition recover_key (v : Z) input : option (list Z) :=
  let r := be_value (part 64 96 input) in
  let s := be_value (part 96 128 input) in
  if negb (allZero (part 32 63 input)) || negb (ValidateSignatureValues v r s false) then None
  else match Ecrecover (part 0 32 input) (part 64 128 input ++ [v]) with Ok pubKey => Some pubKey | _ => None end.
Definition byte_63 input : Z := match input !! 63%nat with Some b => b | None => 0 end.

Definition ecrecover_Run input : list Z :=
  let input := RightPadBytes input 128 in
  match recover_key (u8 (byte_63 input - 27)) input with
  | None => []
  | Some pubKey => LeftPadBytes (drop 12 (hash_bytes (Keccak256Hash (drop 1 pubKey)))) 32
  end.
Definition ecrecoverPublicKey_Run input : list Z :=
  let input := RightPadBytes input 128 in default [] (recover_key (byte_63 input) input).
Definition sha256hash_Run input : list Z := Sum256 input.
Definition ripemd160hash_Run input : list Z := LeftPadBytes (Ripemd160 input) 32.
Definition dataCopy_Run input : list Z := input.
(** The input goes through hexadecimal and back. *)
Definition sha3fip_Run input : list Z := Sha3_Sum256 input.
Definition epoch_Run input : list Z := LeftPadBytes input 32.
Definition vrf_Run input : list Z := input.

(** [big.Int.Bytes]: no leading zeros. *)
Definition big_Bytes (v : Z) : list Z := be_bytes (Z.to_nat ((Big.BitLen v + 7) / 8)) v.
Definition bigModExp_Run input : outcome (list Z) :=
  let! baseLen := modexp_length 0 input in
  let! expLen := modexp_length 1 input in
  let! modLen := modexp_length 2 input in
  let baseLen := Big.Uint64 baseLen in let expLen := Big.Uint64 expLen in let modLen := Big.Uint64 modLen in
  let body := modexp_body input in
  if (baseLen =? 0) && (modLen =? 0) then Ok []
  else
    let! base := getData body 0 baseLen in
    let! exp := getData body baseLen expLen in
    let! mod_ := getData body (u64 (baseLen + expLen)) modLen in
    if be_value mod_ =? 0 then Ok (LeftPadBytes [] (i64 modLen))
    else Ok (LeftPadBytes (big_Bytes (Zpow_mod (be_value base) (be_value exp) (be_value mod_))) (i64 modLen)).

Definition newCurvePoint (blob : list Z) : outcome G1 := G1_Unmarshal blob.
Definition newTwistPoint (blob : list Z) : outcome G2 := G2_Unmarshal blob.
Definition runBn256Add input : outcome (list Z) :=
  let! b := getData input 0 64 in let! x := newCurvePoint b in
  let! b := getData input 64 64 in let! y := newCurvePoint b in
  Ok (G1_Marshal (G1_Add x y)).
Definition runBn256ScalarMul input : outcome (list Z) :=
  let! b := getData input 0 64 in let! p := newCurvePoint b in
  let! s := getData input 64 32 in
  Ok (G1_Marshal (G1_ScalarMult p (be_value s))).

Definition true32Byte : list Z := be_bytes 32 1.
Definition false32Byte : list Z := be_bytes 32 0.
Definition errBadPairingInput : string := "bad elliptic curve pairing size".
(** One turn of the loop per 192 bytes. *)
Fixpoint pairing_points (n : nat) input : outcome (list G1 * list G2) :=
  match n with
  | O => Ok ([], [])
  | S n =>
      let! c := newCurvePoint (take 64 input) in
      let! t := newTwistPoint (part 64 192 input) in
      let! (rest : list G1 * list G2) := pairing_points n (drop 192 input) in
      Ok (c :: rest.1, t :: rest.2)
  end.
Definition runBn256Pairing input : outcome (list Z) :=
  if (0 <? length input mod 192)%nat then Err errBadPairingInput
  else
    let! (points : list G1 * list G2) := pairing_points (length input / 192) input in
    Ok (if PairingCheck points.1 points.2 then true32Byte else false32Byte).

Definition errBlake2FInvalidInputLength : string := "invalid input length".
Definition errBlake2FInvalidFinalFlag : string := "invalid final flag".
(** Little-endian words of eight bytes. *)
Definition le_word (b : list Z) : Z := be_value (rev b).
Definition le_words (n from : nat) input : list Z :=
  map (fun i => le_word (part (from + i * 8) (from + i * 8 + 8) input)) (seq 0 n).
Definition blake2F_Run input : outcome (list Z) :=
  if negb (length input =? blake2FInputLength)%nat then Err errBlake2FInvalidInputLength
  else
    let! flag := idx input 212 in
    if negb (flag =? 0) && negb (flag =? 1) then Err errBlake2FInvalidFinalFlag
    else
      let rounds := be_value (part 0 4 input) in
      let h := blake2b_F (le_words 8 4 input) (le_words 16 68 input) (le_words 2 196 input) (flag =? 1) rounds in
      Ok (concat (map (fun w => rev (be_bytes 8 w)) h)).

Definition Run_precompile (p : PrecompiledContract) input : outcome (list Z) :=
  match p with
  | ecrecover => Ok (ecrecover_Run input)
  | sha256hash => Ok (sha256hash_Run input)
  | ripemd160hash => Ok (ripemd160hash_Run input)
  | dataCopy => Ok (dataCopy_Run input)
  | bigModExp => bigModExp_Run input
  | bn256AddByzantium | bn256AddIstanbul => runBn256Add input
  | bn256ScalarMulByzantium | bn256ScalarMulIstanbul => runBn256ScalarMul input
  | bn256PairingByzantium | bn256PairingIstanbul => runBn256Pairing input
  | blake2F => blake2F_Run input
  | epoch_ => Ok (epoch_Run input)
  | vrf_ => Ok (vrf_Run input)
  | sha3fip => Ok (sha3fip_Run input)
  | ecrecoverPublicKey => Ok (ecrecoverPublicKey_Run input)
  end.
(** Only [dataCopy] hands the caller's slice back. *)
Definition returns_input (p : PrecompiledContract) : bool := bool_decide (p = dataCopy).
End precompiles.

(** ** The tables

    [None] where the Go map has no entry or the entry [nil], which a lookup
    does not tell apart. *)

Definition PrecompiledTable : Type := list (Address * option PrecompiledContract).
Definition precompile_at (t : PrecompiledTable) (a : Address) : option PrecompiledContract :=
  match List.find (fun x => x.1 =? a) t with Some (_, p) => p | None => None end.
Definition PrecompiledContractsHomestead : PrecompiledTable :=
  [(1, Some ecrecover); (2, Some sha256hash); (3, Some ripemd160hash); (4, Some dataCopy)].
Definition PrecompiledContractsByzantium : PrecompiledTable :=
  [(1, Some ecrecover); (2, Some sha256hash); (3, Some ripemd160hash); (4, Some dataCopy); (5, Some bigModExp);
   (6, Some bn256AddByzantium); (7, Some bn256ScalarMulByzantium); (8, Some bn256PairingByzantium)].
Definition PrecompiledContractsIstanbul : PrecompiledTable :=
  [(1, Some ecrecover); (2, Some sha256hash); (3, Some ripemd160hash); (4, Some dataCopy); (5, Some bigModExp);
   (6, Some bn256AddIstanbul); (7, Some bn256ScalarMulIstanbul); (8, Some bn256PairingIstanbul); (9, Some blake2F)].
Definition PrecompiledContractsVRF : PrecompiledTable :=
  [(1, Some ecrecover); (2, Some sha256hash); (3, Some ripemd160hash); (4, Some dataCopy); (5, Some bigModExp);
   (6, Some bn256AddIstanbul); (7, Some bn256ScalarMulIstanbul); (8, Some bn256PairingIstanbul); (9, Some blake2F);
   (255, Some vrf_)].
Definition PrecompiledContractsSHA3FIPS : PrecompiledTable :=
  [(1, Some ecrecover); (2, Some sha256hash); (3, Some ripemd160hash); (4, Some dataCopy); (5, Some bigModExp);
   (6, Some bn256AddIstanbul); (7, Some bn256ScalarMulIstanbul); (8, Some bn256PairingIstanbul); (9, Some blake2F);
   (255, Some vrf_); (253, Some sha3fip); (254, Some ecrecoverPublicKey)].
Definition PrecompiledContractsStaking : PrecompiledTable :=
  [(1, Some ecrecover); (2, Some sha256hash); (3, Some ripemd160hash); (4, Some dataCopy); (5, Some bigModExp);
   (6, Some bn256AddIstanbul); (7, Some bn256ScalarMulIstanbul); (8, Some bn256PairingIstanbul); (9, Some blake2F);
   (251, Some epoch_); (252, None); (253, Some sha3fip); (254, Some ecrecoverPublicKey); (255, Some vrf_)].

(** ** contracts_write.go: the contracts that change the state *)

Inductive WriteCapablePrecompiledContract := stakingPrecompile | crossShardXferPrecompile.
Definition WriteCapableTable : Type := list (Address * WriteCapablePrecompiledContract).
Definition write_capable_at (t : WriteCapableTable) (a : Address) : option WriteCapablePrecompiledContract :=
  snd <$> List.find (fun x => x.1 =? a) t.
Definition WriteCapablePrecompiledContractsStaking : WriteCapableTable := [(252, stakingPrecompile)].
Definition WriteCapablePrecompiledContractsCrossXfer : WriteCapableTable :=
  [(249, crossShardXferPrecompile); (252, stakingPrecompile)].
(** The check of [init]: does any address have two contracts? *)
Definition tables_overlap (t : PrecompiledTable) (w : WriteCapableTable) : bool :=
  existsb (fun x => bool_decide (is_Some (precompile_at t x.1)) && bool_decide (is_Some (write_capable_at w x.1))) t
  || existsb (fun x => bool_decide (is_Some (precompile_at t x.1))) w.

Lemma tables_disjoint a :
  precompile_at PrecompiledContractsStaking a = None \/ write_capable_at WriteCapablePrecompiledContractsCrossXfer a = None.
Proof.
  destruct (decide (a = 249)) as [->|H1]; [by left|]. destruct (decide (a = 252)) as [->|H2]; [by left|]. right.
  unfold write_capable_at, WriteCapablePrecompiledContractsCrossXfer. cbn [List.find fst].
  rewrite (proj2 (Z.eqb_neq 249 a)), (proj2 (Z.eqb_neq 252 a)) by congruence. done.
Qed.
(** [init] does not panic. *)
Lemma init_does_not_panic : tables_overlap PrecompiledContractsStaking WriteCapablePrecompiledContractsStaking = false.
Proof. reflexivity. Qed.
