(* ===== verification/StakingAbi.v ===== *)
(** * Calls to the native staking and cross-shard contracts (staking/precompile.go,
      accounts/abi, the parser of core/vm/contracts_write.go)

    A call names a method by the first four bytes of the hash of its signature;
    the arguments follow, one word of 32 bytes each.  Of accounts/abi what
    methods with static arguments need is modelled. *)
From S2P Require Import Prelude Dec Bls Effective Delegation Validator CXReceipt StakingVerifier.
Local Open Scope Z_scope.
Local Open Scope string_scope.

Inductive ArgType := AddressTy | Uint256Ty | Uint32Ty.
Inductive ArgValue := AddressVal (a : Address) | BigVal (v : Z) | Uint32Val (v : Z).
Record Argument := mkArgument { argName : string; argType : ArgType }.
Record Method := mkMethod { mName : string; mInputs : list Argument }.

(** The message a call is parsed into; a [MigrationMsg] is never one. *)
Record CollectRewardsMsg := mkCollectRewards { crDelegatorAddress : Address }.
Inductive StakeMsg := DelegateM (m : Delegate) | UndelegateM (m : Undelegate_) | CollectRewardsM (m : CollectRewardsMsg).

Section abi.
Context {H : Hashes}.
Implicit Types (data input : list Z).

Definition type_String (t : ArgType) : string :=
  match t with AddressTy => "address" | Uint256Ty => "uint256" | Uint32Ty => "uint32" end.
Fixpoint join (sep : string) (l : list string) : string :=
  match l with [] => "" | [s] => s | s :: l => s ++ sep ++ join sep l end.
Definition Sig (m : Method) : string :=
  m.(mName) ++ "(" ++ join "," (map (fun a => type_String a.(argType)) m.(mInputs)) ++ ")".
Definition method_ID (m : Method) : list Z := take 4 (hash_bytes (Keccak256Hash (string_bytes (Sig m)))).

(** The methods are a map: with two equal identifiers the runtime would choose. *)
Definition MethodById (methods : list Method) (sigdata : list Z) : outcome Method :=
  if (length sigdata <? 4)%nat then Err "data too short for abi method lookup"
  else match List.find (fun m => bool_decide (method_ID m = take 4 sigdata)) methods with
       | Some m => Ok m
       | None => Err "no method with id"
       end.

(** [ReadInteger] of a uint32 looks at the last four bytes only; so does
    [BytesToAddress] at the last twenty. *)
Definition toGoType (index : nat) (t : ArgType) (output : list Z) : outcome ArgValue :=
  if (length output <? index + 32)%nat then Err "abi: cannot marshal in to go type: length insufficient"
  else
    let word := take 32 (drop index output) in
    Ok (match t with
        | AddressTy => AddressVal (be_value (drop 12 word))
        | Uint256Ty => BigVal (be_value word)
        | Uint32Ty => Uint32Val (be_value (drop 28 word))
        end).
Fixpoint UnpackValues (index : nat) (args : list Argument) data : outcome (list (string * ArgValue)) :=
  match args with
  | [] => Ok []
  | a :: args =>
      let! v := toGoType (index * 32) a.(argType) data in
      let! rest := UnpackValues (S index) args data in
      Ok ((a.(argName), v) :: rest)
  end.
Definition UnpackIntoMap (args : list Argument) data : outcome (gmap string ArgValue) :=
  match data, args with
  | [], _ :: _ => Err "abi: attempting to unmarshall an empty string while arguments are expected"
  | [], [] => Ok ∅
  | _, _ => let! vs := UnpackValues 0 args data in Ok (list_to_map vs)
  end.

Definition ParseAddressFromKey (args : gmap string ArgValue) (key : string) : outcome Address :=
  match args !! key with Some (AddressVal a) => Ok a | _ => Err "Cannot parse address" end.
Definition ParseBigIntFromKey (args : gmap string ArgValue) (key : string) : outcome Z :=
  match args !! key with Some (BigVal v) => Ok v | _ => Err "Cannot parse BigInt" end.
Definition ParseUint32FromKey (args : gmap string ArgValue) (key : string) : outcome Z :=
  match args !! key with Some (Uint32Val v) => Ok v | _ => Err "Cannot parse uint32" end.

(** ** staking/precompile.go *)

Definition CollectRewards_method : Method := mkMethod "CollectRewards" [mkArgument "delegatorAddress" AddressTy].
Definition stake_inputs : list Argument :=
  [mkArgument "delegatorAddress" AddressTy; mkArgument "validatorAddress" AddressTy; mkArgument "amount" Uint256Ty].
Definition abiStaking : list Method :=
  [CollectRewards_method; mkMethod "Delegate" stake_inputs; mkMethod "Undelegate" stake_inputs].

Definition ValidateContractAddress (contractCaller : Address) (args : gmap string ArgValue) (key : string) : outcome Address :=
  let! address := ParseAddressFromKey args key in
  if negb (contractCaller =? address)%Z then Err "[StakingPrecompile] Address mismatch" else Ok address.

Definition ParseStakeMsg (contractCaller : Address) input : outcome StakeMsg :=
  let! method := MethodById abiStaking input in
  let! args := UnpackIntoMap method.(mInputs) (drop 4 input) in
  if bool_decide (method.(mName) = "Delegate") then
    let! address := ValidateContractAddress contractCaller args "delegatorAddress" in
    let! validatorAddress := ParseAddressFromKey args "validatorAddress" in
    let! amount := ParseBigIntFromKey args "amount" in
    Ok (DelegateM (mkDelegate address validatorAddress amount))
  else if bool_decide (method.(mName) = "Undelegate") then
    let! address := ValidateContractAddress contractCaller args "delegatorAddress" in
    let! validatorAddress := ParseAddressFromKey args "validatorAddress" in
    let! amount := ParseBigIntFromKey args "amount" in
    Ok (UndelegateM (mkUndelegate address validatorAddress amount))
  else if bool_decide (method.(mName) = "CollectRewards") then
    let! address := ValidateContractAddress contractCaller args "delegatorAddress" in
    Ok (CollectRewardsM (mkCollectRewards address))
  else Err "[StakingPrecompile] Invalid method name from ABI selector".

(** ** contracts_write.go: the cross-shard transfer *)

Definition abiCrossShardXfer : list Method :=
  [mkMethod "crossShardTransfer" [mkArgument "value" Uint256Ty; mkArgument "to" AddressTy; mkArgument "toShardID" Uint32Ty]].
(** The value, the receiver and its shard. *)
Definition parseCrossShardXferData input : outcome (Z * Address * Z) :=
  let! method := MethodById abiCrossShardXfer input in
  let! args := UnpackIntoMap method.(mInputs) (drop 4 input) in
  let! value := ParseBigIntFromKey args "value" in
  let! toAddress := ParseAddressFromKey args "to" in
  let! toShardID := ParseUint32FromKey args "toShardID" in
  Ok (value, toAddress, toShardID).

(** ** Facts *)

(** What a caller encodes. *)
Definition pack_word (v : Z) : list Z := be_bytes 32 v.
Definition pack_call (m : Method) (words : list Z) : list Z := method_ID m ++ concat (map pack_word words).
Definition stake_call (name : string) (delegator validator_ : Address) (amount : Z) : list Z :=
  pack_call (mkMethod name stake_inputs) [delegator; validator_; amount].

Definition selectors_differ : Prop := NoDup (map method_ID abiStaking).

Lemma method_ID_length m : length (method_ID m) = 4%nat.
Proof. unfold method_ID. rewrite length_take. unfold hash_bytes. by rewrite be_bytes_length. Qed.

Lemma MethodById_pack ms m words : NoDup (map method_ID ms) -> m ∈ ms -> MethodById ms (pack_call m words) = Ok m.
Proof.
  intros Hnd Hm. unfold MethodById, pack_call. rewrite length_app, method_ID_length, take_app_le by (rewrite method_ID_length; lia).
  rewrite (take_ge (method_ID m)) by (rewrite method_ID_length; lia). cbn [Nat.ltb Nat.leb Nat.add].
  induction ms as [|m1 ms IH]; [by apply elem_of_nil in Hm|]. apply NoDup_cons in Hnd as [Hn Hnd].
  cbn [List.find]. destruct (bool_decide_reflect (method_ID m1 = method_ID m)) as [E|Hne].
  - apply elem_of_cons in Hm as [->|Hm]; [done|]. destruct Hn. rewrite E. by apply list_elem_of_fmap_2.
  - apply elem_of_cons in Hm as [->|Hm]; [done|]. by apply IH.
Qed.

Lemma pack_call_words m words : drop 4 (pack_call m words) = concat (map pack_word words).
Proof. unfold pack_call. apply drop_app_length'. by rewrite method_ID_length. Qed.

Lemma pack_words_length words : length (concat (map pack_word words)) = (32 * length words)%nat.
Proof. induction words as [|w ws IH]; [done|]. cbn [map concat]. rewrite length_app, IH. unfold pack_word. rewrite be_bytes_length. cbn [length]. lia. Qed.

(** The [i]-th word of a packed call. *)
Lemma packed_word words i w : words !! i = Some w -> take 32 (drop (i * 32) (concat (map pack_word words))) = pack_word w.
Proof.
  revert i. induction words as [|v ws IH]; intros [|i] Hi; [done..| |]; cbn [map concat].
  - injection Hi as ->. cbn [Nat.mul]. rewrite drop_0, take_app_le, take_ge by (unfold pack_word; by rewrite be_bytes_length). done.
  - rewrite drop_app_ge by (unfold pack_word; rewrite be_bytes_length; lia). unfold pack_word at 1. rewrite be_bytes_length.
    replace (S i * 32 - 32)%nat with (i * 32)%nat by lia. by apply IH.
Qed.
Lemma toGoType_packed words i w t : words !! i = Some w ->
  toGoType (i * 32) t (concat (map pack_word words)) =
    Ok (match t with AddressTy => AddressVal (be_value (drop 12 (pack_word w))) | Uint256Ty => BigVal (be_value (pack_word w))
        | Uint32Ty => Uint32Val (be_value (drop 28 (pack_word w))) end).
Proof.
  intros Hi. unfold toGoType. rewrite (packed_word _ _ _ Hi), pack_words_length. apply lookup_lt_Some in Hi.
  destruct (Nat.ltb_spec (32 * length words) (i * 32 + 32)); [lia|]. by destruct t.
Qed.

(** The low bytes of a word. *)
Lemma be_bytes_drop k n v : (k <= n)%nat -> drop k (be_bytes n v) = be_bytes (n - k) v.
Proof.
  intros Hk. replace n with (k + (n - k))%nat at 1 by lia. generalize (n - k)%nat as j. clear n Hk. intros j.
  revert j. induction k as [|k IH]; intros j; [done|]. apply IH.
Qed.
Lemma low_bytes k v : (k <= 32)%nat -> 0 <= v < 256 ^ Z.of_nat (32 - k) -> be_value (drop k (pack_word v)) = v.
Proof. intros Hk Hv. unfold pack_word. rewrite be_bytes_drop, be_bytes_value by done. by apply Z.mod_small. Qed.

Definition is_address (a : Address) : Prop := (0 <= a < 2 ^ 160)%Z.

End abi.
