(* ===== verification/EvmState.v ===== *)
(** * State of the virtual machine (core/vm: interface.go, evm.go, contract.go,
      stack.go, interpreter.go)

    What an [EVM] keeps, what a running frame keeps, and the interface of the
    state database ([VMState], Go's [vm.StateDB]).  A method of the machine is a
    value of [SM (EVM S)], an instruction one of [SM (Frame * EVM S)].  A Go
    error is an ordinary result ([inr]); [Panic] is a run-time panic; [Err] is
    kept for running out of the interpreter's fuel, which [EvmCalls] excludes.

    Integers on the stack are values: the pool that recycles them is left out,
    and so are the tracer, the logger and the alternative interpreters, which
    do not exist in this code base.  [Cancel] is the flag [abort]. *)
From S2P Require Import Prelude Dec Bls Params Delegation Validator CXReceipt Receipt StakingVerifier Opcodes EvmCode Gas EvmMemory Precompiles StakingAbi.
Local Open Scope Z_scope.

Inductive TransactionType :=
| SameShardTx | SubtractionOnly | InvalidTx | StakeCreateVal | StakeEditVal | DelegateTx | UndelegateTx | CollectRewardsTx.
#[export] Instance TransactionType_eq_dec : EqDecision TransactionType.
Proof. solve_decision. Defined.

(** ** interface.go *)

Class VMState (S : Type) := {
  CreateAccount : Address -> SM S unit;
  SubBalance : Address -> Z -> SM S unit;
  AddBalance : Address -> Z -> SM S unit;
  GetBalance : Address -> SM S Z;
  GetNonce : Address -> SM S Z;
  SetNonce : Address -> Z -> SM S unit;
  GetCodeHash : Address -> SM S Z;
  GetCode : Address -> SM S (list Z);
  SetCode : Address -> list Z -> bool -> SM S unit;
  GetCodeSize : Address -> SM S Z;
  AddRefund : Z -> SM S unit;
  SubRefund : Z -> SM S unit;
  GetRefund : SM S Z;
  GetCommittedState : Address -> Z -> SM S Z;
  GetState : Address -> Z -> SM S Z;
  SetState : Address -> Z -> Z -> SM S unit;
  Suicide : Address -> SM S bool;
  HasSuicided : Address -> SM S bool;
  Exist : Address -> SM S bool;
  Empty : Address -> SM S bool;
  IsValidator : Address -> SM S bool;
  RevertToSnapshot : Z -> SM S unit;
  Snapshot : SM S Z;
  AddLog : Log -> SM S unit;
  AddPreimage : Z -> list Z -> SM S unit
}.

(** ** The context of a transaction (evm.go: Context) and the options *)

Record Context (S : Type) := mkContext {
  CanTransfer : Address -> Z -> SM S bool;
  Transfer : Address -> Address -> Z -> TransactionType -> SM S unit;
  GetHash : Z -> Z;
  GetVRF : Z -> Z;
  ctx_IsValidator : Address -> SM S bool;
  Origin : Address; GasPrice : Z;
  Coinbase : Address; GasLimit : Z; BlockNumber : Z; EpochNumber : Z; Time : Z; VRF : Z;
  TxType : TransactionType;
  (* a Go error is [Err] *)
  ctx_CreateValidator : CreateValidator -> SM S unit;
  ctx_EditValidator : EditValidator -> SM S unit;
  ctx_Delegate : Delegate -> SM S unit;
  ctx_Undelegate : Undelegate_ -> SM S unit;
  ctx_CollectRewards : CollectRewardsMsg -> SM S unit;
  ShardID : Z; NumShards : Z
}.
Arguments CanTransfer {S} _ _ _. Arguments Transfer {S} _ _ _ _ _. Arguments GetHash {S} _ _. Arguments GetVRF {S} _ _.
Arguments ctx_IsValidator {S} _ _. Arguments Origin {S} _. Arguments GasPrice {S} _. Arguments Coinbase {S} _.
Arguments GasLimit {S} _. Arguments BlockNumber {S} _. Arguments EpochNumber {S} _. Arguments Time {S} _.
Arguments VRF {S} _. Arguments TxType {S} _. Arguments ctx_CreateValidator {S} _ _. Arguments ctx_EditValidator {S} _ _.
Arguments ctx_Delegate {S} _ _. Arguments ctx_Undelegate {S} _ _. Arguments ctx_CollectRewards {S} _ _.
Arguments ShardID {S} _. Arguments NumShards {S} _.

Record VMConfig := mkVMConfig { NoRecursion : bool; EnablePreimageRecording : bool; ExtraEips : list Z }.

(** What is fixed while a transaction runs. *)
Record Env (S : Type) := mkEnv { ctx : Context S; chainConfig : ChainConfig; vmConfig : VMConfig }.
Arguments ctx {S} _. Arguments chainConfig {S} _. Arguments vmConfig {S} _.
Definition chainRules {S} (e : Env S) : RulesT := Rules e.(chainConfig) (Some e.(ctx).(EpochNumber)).
(** [evm.ChainConfig().IsS3(evm.EpochNumber)] and its likes. *)
Definition active {S} (e : Env S) (f : ChainConfig -> option Z -> bool) : bool := f e.(chainConfig) (Some e.(ctx).(EpochNumber)).

(** go-ethereum's addresses of new contracts, and the encoding of a staking
    message. *)
Class EvmLib := {
  CreateAddress : Address -> Z -> Address;
  CreateAddress2 : Address -> Z -> list Z -> Address;   (* the salt, the hash of the code *)
  rlp_StakeMsg : StakeMsg -> list Z
}.

(** ** Contracts *)

(** A caller is an account or a running contract; of the latter its address, its
    own caller and its value are looked at. *)
Inductive ContractRef :=
| AccountRef (a : Address)
| ContractR (self_ callerAddress : Address) (value : Z).
Definition ref_Address (r : ContractRef) : Address := match r with AccountRef a => a | ContractR a _ _ => a end.

Record Contract := mkContract {
  CallerAddress : Address; caller : ContractRef; self_ : Address;
  cCode : list Z; cCodeHash : Z; CodeAddr : option Address; Input : list Z;
  cGas : Z; cValue : Z; WithDataCopyFix : bool
}.
Definition as_ref (c : Contract) : ContractRef := ContractR c.(self_) c.(CallerAddress) c.(cValue).

Definition with_Gas (g : Z) (c : Contract) : Contract :=
  mkContract c.(CallerAddress) c.(caller) c.(self_) c.(cCode) c.(cCodeHash) c.(CodeAddr) c.(Input) g c.(cValue) c.(WithDataCopyFix).
Definition with_Input (i : list Z) (c : Contract) : Contract :=
  mkContract c.(CallerAddress) c.(caller) c.(self_) c.(cCode) c.(cCodeHash) c.(CodeAddr) i c.(cGas) c.(cValue) c.(WithDataCopyFix).
Definition with_CopyFix (b : bool) (c : Contract) : Contract :=
  mkContract c.(CallerAddress) c.(caller) c.(self_) c.(cCode) c.(cCodeHash) c.(CodeAddr) c.(Input) c.(cGas) c.(cValue) b.
(** [SetCallCode], [SetCodeOptionalHash]. *)
Definition SetCallCode (addr : Address) (hash : Z) (code : list Z) (c : Contract) : Contract :=
  mkContract c.(CallerAddress) c.(caller) c.(self_) code hash (Some addr) c.(Input) c.(cGas) c.(cValue) c.(WithDataCopyFix).
(** The caller of a delegate is a contract: anything else panics. *)
Definition AsDelegate (c : Contract) : outcome Contract :=
  match c.(caller) with
  | AccountRef _ => Panic "interface conversion"
  | ContractR _ parentCaller parentValue =>
      Ok (mkContract parentCaller c.(caller) c.(self_) c.(cCode) c.(cCodeHash) c.(CodeAddr) c.(Input)
            c.(cGas) parentValue c.(WithDataCopyFix))
  end.
Definition GetByte (n : Z) (c : Contract) : Z :=
  if n <? Z.of_nat (length c.(cCode)) then default 0 (c.(cCode) !! Z.to_nat n) else 0.
Definition GetOp (n : Z) (c : Contract) : OpCode := GetByte n c.
Definition UseGas (gas : Z) (c : Contract) : Contract * bool :=
  if c.(cGas) <? gas then (c, false) else (with_Gas (c.(cGas) - gas) c, true).

(** ** The machine *)

Record EVM (S : Type) := mkEVM {
  StateDB : S; depth : Z; callGasTemp : Z; abort : bool;
  readOnly : bool; returnData : Slice;     (* of the interpreter *)
  jumpdests : gmap Z bitvec;               (* shared by the contracts of one call tree *)
  StakeMsgs : list Delegate; cxReceipt : option CXReceipt
}.
Arguments mkEVM {S} _ _ _ _ _ _ _ _ _. Arguments StateDB {S} _. Arguments depth {S} _. Arguments callGasTemp {S} _.
Arguments abort {S} _. Arguments readOnly {S} _. Arguments returnData {S} _. Arguments jumpdests {S} _.
Arguments StakeMsgs {S} _. Arguments cxReceipt {S} _.

Section setters.
Context {S : Type}.
Implicit Types e : EVM S.
Definition set_StateDB (x : S) e : EVM S := mkEVM x e.(depth) e.(callGasTemp) e.(abort) e.(readOnly) e.(returnData) e.(jumpdests) e.(StakeMsgs) e.(cxReceipt).
Definition set_depth (x : Z) e : EVM S := mkEVM e.(StateDB) x e.(callGasTemp) e.(abort) e.(readOnly) e.(returnData) e.(jumpdests) e.(StakeMsgs) e.(cxReceipt).
Definition set_callGasTemp (x : Z) e : EVM S := mkEVM e.(StateDB) e.(depth) x e.(abort) e.(readOnly) e.(returnData) e.(jumpdests) e.(StakeMsgs) e.(cxReceipt).
Definition set_readOnly (x : bool) e : EVM S := mkEVM e.(StateDB) e.(depth) e.(callGasTemp) e.(abort) x e.(returnData) e.(jumpdests) e.(StakeMsgs) e.(cxReceipt).
Definition set_returnData (x : Slice) e : EVM S := mkEVM e.(StateDB) e.(depth) e.(callGasTemp) e.(abort) e.(readOnly) x e.(jumpdests) e.(StakeMsgs) e.(cxReceipt).
Definition set_jumpdests (x : gmap Z bitvec) e : EVM S := mkEVM e.(StateDB) e.(depth) e.(callGasTemp) e.(abort) e.(readOnly) e.(returnData) x e.(StakeMsgs) e.(cxReceipt).
Definition set_StakeMsgs (x : list Delegate) e : EVM S := mkEVM e.(StateDB) e.(depth) e.(callGasTemp) e.(abort) e.(readOnly) e.(returnData) e.(jumpdests) x e.(cxReceipt).
Definition set_cxReceipt (x : option CXReceipt) e : EVM S := mkEVM e.(StateDB) e.(depth) e.(callGasTemp) e.(abort) e.(readOnly) e.(returnData) e.(jumpdests) e.(StakeMsgs) x.
End setters.

(** [NewContract]: the analysis is shared with the caller when that is a
    contract. *)
Definition NewContract {S} (caller : ContractRef) (object : Address) (value gas : Z) : SM (EVM S) Contract :=
  let! _ := modify (fun e => match caller with AccountRef _ => set_jumpdests ∅ e | _ => e end) in
  mret (mkContract (ref_Address caller) caller object [] 0 None [] gas value false).

(** ** Frames *)

Record Frame := mkFrame { pc : Z; contract : Contract; memory : Memory; stack : Stack }.

Notation EM S := (SM (Frame * EVM S)).
Section frame.
Context {S : Type}.
(** A method of the state database or of the machine, from an instruction. *)
Definition on_evm {A} (m : SM (EVM S) A) : EM S A := fun fe => let '(e, r) := m fe.2 in ((fe.1, e), r).
Definition in_state {A} (m : SM S A) : SM (EVM S) A := fun e => let '(s, r) := m e.(StateDB) in (set_StateDB s e, r).
Definition on_state {A} (m : SM S A) : EM S A := on_evm (in_state m).
Definition fmod (f : Frame -> Frame) : EM S unit := modify (fun fe => (f fe.1, fe.2)).
Definition emod (f : EVM S -> EVM S) : EM S unit := modify (fun fe => (fe.1, f fe.2)).
Definition fget {A} (f : Frame -> A) : EM S A := gets (fun fe => f fe.1).
Definition eget {A} (f : EVM S -> A) : EM S A := gets (fun fe => f fe.2).
Definition set_pc (x : Z) (f : Frame) : Frame := mkFrame x f.(contract) f.(memory) f.(stack).
Definition set_contract (x : Contract) (f : Frame) : Frame := mkFrame f.(pc) x f.(memory) f.(stack).
Definition set_memory (x : Memory) (f : Frame) : Frame := mkFrame f.(pc) f.(contract) x f.(stack).
Definition set_stack (x : Stack) (f : Frame) : Frame := mkFrame f.(pc) f.(contract) f.(memory) x.

(** ** stack.go, the top first *)

Definition push (d : Z) : EM S unit := fmod (fun f => set_stack (d :: f.(stack)) f).
Definition pop : EM S Z :=
  let! st := fget stack in
  match st with
  | [] => lift (Panic "index out of range")
  | d :: rest => let! _ := fmod (set_stack rest) in mret d
  end.
Definition peek : EM S Z :=
  let! st := fget stack in match st with [] => lift (Panic "index out of range") | d :: _ => mret d end.
(** Overwriting the integer at the top. *)
Definition set_top (d : Z) : EM S unit := let! _ := pop in push d.
Definition back (n : nat) : EM S Z := let! st := fget stack in lift (Back st n).
(** [n] counts from 1 at the top. *)
Definition dup (n : nat) : EM S unit := let! d := back (n - 1) in push d.
Definition swap (n : nat) : EM S unit :=
  let! st := fget stack in
  let! a := back 0 in let! b := back (n - 1) in
  fmod (set_stack (<[0%nat := b]> (<[(n - 1)%nat := a]> st))).

(** ** Memory, from an instruction *)

Definition mem_update (f : Memory -> outcome Memory) : EM S unit :=
  let! m := fget memory in let! m := lift (f m) in fmod (set_memory m).
Definition mem_read {A} (f : Memory -> outcome A) : EM S A := let! m := fget memory in lift (f m).
(** The bytes of a slice now. *)
Definition bytes_of (s : Slice) : EM S (list Z) := let! m := fget memory in mret (resolve m s).
End frame.

(** A call's results: the bytes, whether they are the caller's own input slice,
    the gas left and the error. *)
Record CallResult := mkCall { ret : list Z; ret_is_input : bool; leftOverGas : Z; callErr : option string }.
(** What the instructions call. *)
Record Calls (S : Type) := mkCalls {
  do_Call : ContractRef -> Address -> list Z -> Z -> Z -> SM (EVM S) CallResult;
  do_CallCode : ContractRef -> Address -> list Z -> Z -> Z -> SM (EVM S) CallResult;
  do_DelegateCall : ContractRef -> Address -> list Z -> Z -> SM (EVM S) CallResult;
  do_StaticCall : ContractRef -> Address -> list Z -> Z -> SM (EVM S) CallResult;
  do_Create : ContractRef -> list Z -> Z -> Z -> SM (EVM S) (Address * CallResult);
  do_Create2 : ContractRef -> list Z -> Z -> Z -> Z -> SM (EVM S) (Address * CallResult)
}.
Arguments do_Call {S} _ _ _ _ _ _. Arguments do_CallCode {S} _ _ _ _ _ _. Arguments do_DelegateCall {S} _ _ _ _ _.
Arguments do_StaticCall {S} _ _ _ _ _. Arguments do_Create {S} _ _ _ _ _. Arguments do_Create2 {S} _ _ _ _ _ _.
