(* ===== verification/EvmGas.v ===== *)
(** * Dynamic gas (core/vm/gas_table.go)

    The part of an instruction's gas that depends on its operands, its memory
    and the state.  An error ([inr]) makes the interpreter report that the gas
    has run out. *)
From S2P Require Import Prelude Bls Params Opcodes Gas EvmMemory EvmState.
Local Open Scope Z_scope.

(** [if err != nil { return ..., err }]. *)
Notation "'let?' x ':=' m 'in' k" := (mbind (fun r => match r with inl x => k | inr err => mret (inr err) end) m)
  (at level 10, x name, m at level 200, k at level 200) : go_scope.

(** go-ethereum's [common.BigToHash] and [common.BigToAddress]: the low bytes of
    the absolute value. *)
Definition BigToHash (b : Z) : Z := Z.abs b mod 2 ^ 256.
Definition BigToAddress (b : Z) : Address := Z.abs b mod 2 ^ 160.

Section gas.
Context {S : Type} {V : VMState S} (env : Env S).
Notation EM := (EM S).
Notation gasFunc := (Z -> EM (Z + string)).

(** The cost of growing the frame's memory; the memory remembers what has been
    paid. *)
Definition mem_gas (memorySize : Z) : EM (Z + string) :=
  let! m := fget memory in
  match memoryGasCost m memorySize with
  | Ok (m, fee) => let! _ := fmod (set_memory m) in mret (inl fee)
  | Err e => mret (inr e)
  | Panic w => lift (Panic w)
  end.
(** [math.SafeAdd], the overflow being an error. *)
Definition safe_add (x y : Z) : EM (Z + string) :=
  let '(r, overflow) := SafeAdd x y in mret (if overflow : bool then inr errGasUintOverflow else inl r).
Definition safe_mul (x y : Z) : EM (Z + string) :=
  let '(r, overflow) := SafeMul x y in mret (if overflow : bool then inr errGasUintOverflow else inl r).
(** An operand that must be a uint64. *)
Definition back_uint64 (n : nat) : EM (Z + string) :=
  let! v := back n in mret (if Big.IsUint64 v then inl (Big.Uint64 v) else inr errGasUintOverflow).

Definition memoryCopierGas (stackpos : nat) : gasFunc := fun memorySize =>
  let? gas := mem_gas memorySize in
  let? words := back_uint64 stackpos in
  let? words := safe_mul (toWordSize words) CopyGas in
  safe_add gas words.
Definition gasCallDataCopy := memoryCopierGas 2.
Definition gasCodeCopy := memoryCopierGas 2.
Definition gasExtCodeCopy := memoryCopierGas 3.
Definition gasReturnDataCopy := memoryCopierGas 2.

Definition self_address : EM Address := fget (fun f => f.(contract).(self_)).

(** EIP-1283's net metering, which only applies before S3 here. *)
Definition net_sstore (current : Z) (original_of : EM Z) (value : Z) : EM Z :=
  if current =? value then mret NetSstoreNoopGas
  else
    let! original := original_of in
    if original =? current then
      if original =? 0 then mret NetSstoreInitGas
      else
        let! _ := sm_when (value =? 0) (on_state (AddRefund NetSstoreClearRefund)) in
        mret NetSstoreCleanGas
    else
      let! _ := sm_when (negb (original =? 0))
                  (if current =? 0 then on_state (SubRefund NetSstoreClearRefund)
                   else sm_when (value =? 0) (on_state (AddRefund NetSstoreClearRefund))) in
      let! _ := sm_when (original =? value)
                  (if original =? 0 then on_state (AddRefund NetSstoreResetClearRefund)
                   else on_state (AddRefund NetSstoreResetRefund)) in
      mret NetSstoreDirtyGas.
Definition gasSStore : gasFunc := fun _ =>
  let! y := back 1 in let! x := back 0 in
  let! self_ := self_address in
  let! current := on_state (GetState self_ (BigToHash x)) in
  if (chainRules env).(rIsS3) then
    if (current =? 0) && negb (y =? 0) then mret (inl SstoreSetGas)
    else if negb (current =? 0) && (y =? 0) then
      let! _ := on_state (AddRefund SstoreRefundGas) in mret (inl SstoreClearGas)
    else mret (inl SstoreResetGas)
  else
    let! gas := net_sstore current (on_state (GetCommittedState self_ (BigToHash x))) (BigToHash y) in
    mret (inl gas).

Definition gasSStoreEIP2200 : gasFunc := fun _ =>
  let! gas := fget (fun f => f.(contract).(cGas)) in
  if gas <=? SstoreSentryGasEIP2200 then mret (inr "not enough gas for reentrancy sentry"%string)
  else
    let! y := back 1 in let! x := back 0 in
    let! self_ := self_address in
    let! current := on_state (GetState self_ (BigToHash x)) in
    let value := BigToHash y in
    if current =? value then mret (inl SstoreNoopGasEIP2200)
    else
      let! original := on_state (GetCommittedState self_ (BigToHash x)) in
      if original =? current then
        if original =? 0 then mret (inl SstoreInitGasEIP2200)
        else
          let! _ := sm_when (value =? 0) (on_state (AddRefund SstoreClearRefundEIP2200)) in
          mret (inl SstoreCleanGasEIP2200)
      else
        let! _ := sm_when (negb (original =? 0))
                    (if current =? 0 then on_state (SubRefund SstoreClearRefundEIP2200)
                     else sm_when (value =? 0) (on_state (AddRefund SstoreClearRefundEIP2200))) in
        let! _ := sm_when (original =? value)
                    (if original =? 0 then on_state (AddRefund SstoreInitRefundEIP2200)
                     else on_state (AddRefund SstoreCleanRefundEIP2200)) in
        mret (inl SstoreDirtyGasEIP2200).

Definition makeGasLog (n : Z) : gasFunc := fun memorySize =>
  let? requestedSize := back_uint64 1 in
  let? gas := mem_gas memorySize in
  let? gas := safe_add gas LogGas in
  let? gas := safe_add gas (u64 (n * LogTopicGas)) in
  let? memorySizeGas := safe_mul requestedSize LogDataGas in
  safe_add gas memorySizeGas.

Definition word_gas (stackpos : nat) : gasFunc := fun memorySize =>
  let? gas := mem_gas memorySize in
  let? wordGas := back_uint64 stackpos in
  let? wordGas := safe_mul (toWordSize wordGas) Sha3WordGas in
  safe_add gas wordGas.
Definition gasSha3 : gasFunc := word_gas 1.
Definition gasCreate2 : gasFunc := word_gas 2.

Definition pureMemoryGascost : gasFunc := mem_gas.
Definition gasReturn := pureMemoryGascost.
Definition gasRevert := pureMemoryGascost.
Definition gasMLoad := pureMemoryGascost.
Definition gasMStore8 := pureMemoryGascost.
Definition gasMStore := pureMemoryGascost.
Definition gasCreate := pureMemoryGascost.

Definition exp_gas (perByte : Z) : gasFunc := fun _ =>
  let! exponent := back 1 in
  let expByteLen := u64 ((Big.BitLen exponent + 7) / 8) in
  safe_add (u64 (expByteLen * perByte)) ExpGas.
Definition gasExpFrontier : gasFunc := exp_gas ExpByteFrontier.
Definition gasExpEIP158 : gasFunc := exp_gas ExpByteEIP158.

(** The gas for the callee, remembered in [callGasTemp], on top of [gas]. *)
Definition call_gas (gas : Z) : EM (Z + string) :=
  let! available := fget (fun f => f.(contract).(cGas)) in
  let! requested := back 0 in
  match callGas (chainRules env).(rIsS3) available gas requested with
  | Err e => let! _ := emod (set_callGasTemp 0) in mret (inr e)
  | Panic w => lift (Panic w)
  | Ok temp => let! _ := emod (set_callGasTemp temp) in safe_add gas temp
  end.
Definition gasCall : gasFunc := fun memorySize =>
  let! value := back 2 in
  let transfersValue := negb (value =? 0) in
  let! to := back 1 in
  let address := BigToAddress to in
  let! newAccount := (if (chainRules env).(rIsS3)
                      then (if transfersValue then on_state (Empty address) else mret false)
                      else (let! ex := on_state (Exist address) in mret (negb ex))) in
  let gas := (if newAccount : bool then CallNewAccountGas else 0) + (if transfersValue then CallValueTransferGas else 0) in
  let? memoryGas := mem_gas memorySize in
  let? gas := safe_add gas memoryGas in
  call_gas gas.
Definition gasCallCode : gasFunc := fun memorySize =>
  let? memoryGas := mem_gas memorySize in
  let! value := back 2 in
  let gas := if negb (value =? 0) then CallValueTransferGas else 0 in
  let? gas := safe_add gas memoryGas in
  call_gas gas.
Definition gasDelegateCall : gasFunc := fun memorySize => let? gas := mem_gas memorySize in call_gas gas.
Definition gasStaticCall : gasFunc := gasDelegateCall.

Definition gasSelfdestruct : gasFunc := fun _ =>
  let! self_ := self_address in
  let! gas :=
    (if (chainRules env).(rIsS3) then
       let! beneficiary := back 0 in
       let! isEmpty := on_state (Empty (BigToAddress beneficiary)) in
       let! richer := (if isEmpty : bool then (let! b := on_state (GetBalance self_) in mret (negb (b =? 0))) else mret false) in
       mret (SelfdestructGasEIP150 + if richer : bool then CreateBySelfdestructGas else 0)
     else mret 0) in
  let! gone := on_state (HasSuicided self_) in
  let! _ := sm_when (negb gone) (on_state (AddRefund SelfdestructRefundGas)) in
  mret (inl gas).
End gas.
