(* ===== verification/EvmOps.v ===== *)
(** * Instructions (core/vm/instructions.go, eips.go)

    One definition per instruction.  An instruction answers with the slice it
    returns, or with the error that ends the frame. *)
From Stdlib Require Import Zpow_facts.
From S2P Require Import Prelude Bls Params Shard CXReceipt Receipt Opcodes EvmCode Gas EvmMemory StakingAbi EvmState EvmGas.
Local Open Scope Z_scope.

(** go-ethereum's [math]: two's complement on 256 bits. *)
Definition U256 (x : Z) : Z := x mod 2 ^ 256.
Definition S256 (x : Z) : Z := if x <? 2 ^ 255 then x else x - 2 ^ 256.
(** [math.Exp]: the power, truncated to 256 bits. *)
Definition math_Exp (base exponent : Z) : Z := Zpow_mod base exponent (2 ^ 256).
(** [math.Byte] of 32 bytes: the [n]-th from the left. *)
Definition math_Byte (v n : Z) : Z := Z.land (Z.shiftr v (8 * (31 - n))) 0xFF.
Definition tt255 : Z := 2 ^ 255.
Definition bool_word (b : bool) : Z := if b then 1 else 0.

Definition errWriteProtection : string := "evm: write protection".
Definition errReturnDataOutOfBounds : string := "evm: return data out of bounds".
Definition ErrExecutionReverted : string := "evm: execution reverted".
Definition errMaxCodeSizeExceeded : string := "evm: max code size exceeded".
Definition errInvalidJump : string := "evm: invalid jump destination".
Definition ErrCodeStoreOutOfGas : string := "contract creation code storage out of gas".
Definition ErrDepth : string := "max call depth exceeded".
Definition ErrInsufficientBalance : string := "insufficient balance for transfer".
Definition ErrContractAddressCollision : string := "contract address collision".

Section ops.
Context {S : Type} {V : VMState S} {H : Hashes} (env : Env S).
Notation EM := (EM S).
(** The bytes an instruction returns, or its error. *)
Notation exec := (EM (Slice + string)).

Definition nil_slice : Slice := Bytes [].
Definition done_ : exec := mret (inl nil_slice).

(** [x, y := stack.pop(), stack.peek()], the result replacing [y]. *)
Definition binop (f : Z -> Z -> Z) : exec :=
  let! x := pop in let! y := peek in let! _ := set_top (f x y) in done_.
Definition unop (f : Z -> Z) : exec := let! x := peek in let! _ := set_top (f x) in done_.
Definition ternop (f : Z -> Z -> Z -> Z) : exec :=
  let! x := pop in let! y := pop in let! z := pop in let! _ := push (f x y z) in done_.
Definition constant (m : EM Z) : exec := let! v := m in let! _ := push v in done_.

(** ** Arithmetic *)

Definition opAdd := binop (fun x y => U256 (x + y)).
Definition opSub := binop (fun x y => U256 (x - y)).
Definition opMul := binop (fun x y => U256 (x * y)).
Definition opDiv := binop (fun x y => if negb (y =? 0) then U256 (x / y) else 0).
Definition opSdiv := binop (fun x y =>
  let x := S256 x in let y := S256 y in
  if (Z.sgn y =? 0) || (Z.sgn x =? 0) then 0
  else if negb (Z.sgn x =? Z.sgn y) then U256 (- (Z.abs x / Z.abs y)) else U256 (Z.abs x / Z.abs y)).
Definition opMod := binop (fun x y => if y =? 0 then 0 else U256 (x mod y)).
Definition opSmod := binop (fun x y =>
  let x := S256 x in let y := S256 y in
  if Z.sgn y =? 0 then 0
  else if Z.sgn x <? 0 then U256 (- (Z.abs x mod Z.abs y)) else U256 (Z.abs x mod Z.abs y)).
Definition opExp := binop (fun base exponent =>
  if exponent <? 1 then 1 else if base =? 0 then 0 else if exponent =? 1 then base else math_Exp base exponent).
Definition opSignExtend := binop (fun back num =>
  if back <? 31 then
    let bit := back * 8 + 7 in
    let mask := Z.shiftl 1 bit - 1 in
    if Z.testbit num bit then U256 (Z.lor num (Z.lnot mask)) else U256 (Z.land num mask)
  else num).
Definition opNot := unop (fun x => U256 (Z.lnot x)).
Definition opLt := binop (fun x y => bool_word (x <? y)).
Definition opGt := binop (fun x y => bool_word (y <? x)).
Definition opSlt := binop (fun x y =>
  if (tt255 <=? x) && (y <? tt255) then 1 else if (x <? tt255) && (tt255 <=? y) then 0 else bool_word (x <? y)).
Definition opSgt := binop (fun x y =>
  if (tt255 <=? x) && (y <? tt255) then 0 else if (x <? tt255) && (tt255 <=? y) then 1 else bool_word (y <? x)).
Definition opEq := binop (fun x y => bool_word (x =? y)).
Definition opIszero := unop (fun x => if 0 <? x then 0 else 1).
Definition opAnd := binop Z.land.
Definition opOr := binop Z.lor.
Definition opXor := binop Z.lxor.
Definition opByte := binop (fun th val => if th <? 32 then math_Byte val th else 0).
Definition opAddmod := ternop (fun x y z => if 0 <? z then U256 ((x + y) mod z) else 0).
Definition opMulmod := ternop (fun x y z => if 0 <? z then U256 ((x * y) mod z) else 0).
Definition opSHL := binop (fun shift value =>
  let shift := U256 shift in let value := U256 value in if 256 <=? shift then 0 else U256 (Z.shiftl value (Big.Uint64 shift))).
Definition opSHR := binop (fun shift value =>
  let shift := U256 shift in let value := U256 value in if 256 <=? shift then 0 else U256 (Z.shiftr value (Big.Uint64 shift))).
Definition opSAR := binop (fun shift value =>
  let shift := U256 shift in let value := S256 value in
  if 256 <=? shift then (if 0 <=? value then 0 else U256 (-1)) else U256 (Z.shiftr value (Big.Uint64 shift))).

(** ** Hashing and the environment *)

Definition opSha3 : exec :=
  let! offset := pop in let! size := pop in
  let! data := mem_read (GetPtr (Big.Int64 offset) (Big.Int64 size)) in
  let! data := bytes_of data in
  let hash := Keccak256Hash data in
  let! _ := sm_when env.(vmConfig).(EnablePreimageRecording) (on_state (AddPreimage hash data)) in
  let! _ := push hash in done_.
Definition opAddress := constant self_address.
Definition opBalance : exec :=
  let! slot := peek in let! b := on_state (GetBalance (BigToAddress slot)) in let! _ := set_top b in done_.
Definition opOrigin := constant (mret env.(ctx).(Origin)).
Definition opCaller := constant (fget (fun f => f.(contract).(CallerAddress))).
Definition opCallValue := constant (fget (fun f => f.(contract).(cValue))).
Definition the_input : EM (list Z) := fget (fun f => f.(contract).(Input)).
Definition the_code : EM (list Z) := fget (fun f => f.(contract).(cCode)).
Definition opCallDataLoad : exec :=
  let! start := pop in let! input := the_input in
  let! data := lift (getDataBig input start 32) in
  let! _ := push (be_value data) in done_.
Definition opCallDataSize := constant (let! input := the_input in mret (Z.of_nat (length input))).
(** [memory.Set] of a part of [data], padded. *)
Definition copy_data (data : EM (list Z)) : exec :=
  let! memOffset := pop in let! dataOffset := pop in let! length := pop in
  let! data := data in
  let! part := lift (getDataBig data dataOffset length) in
  let! _ := mem_update (mem_Set (Big.Uint64 memOffset) (Big.Uint64 length) part) in done_.
Definition opCallDataCopy := copy_data the_input.
Definition return_data : EM (list Z) := let! s := eget returnData in bytes_of s.
Definition opReturnDataSize := constant (let! d := return_data in mret (Z.of_nat (length d))).
Definition opReturnDataCopy : exec :=
  let! memOffset := pop in let! dataOffset := pop in let! len := pop in
  let end_ := dataOffset + len in
  let! data := return_data in
  if negb (Big.IsUint64 end_) || (Z.of_nat (length data) <? Big.Uint64 end_) then mret (inr errReturnDataOutOfBounds)
  else
    let! part := lift (slice data (Big.Uint64 dataOffset) (Big.Uint64 end_)) in
    let! _ := mem_update (mem_Set (Big.Uint64 memOffset) (Big.Uint64 len) part) in done_.
(** Since the fix a validator's account has no code for a contract that asks on
    the beacon chain. *)
Definition fixValidatorCode (address : Address) : EM bool :=
  if (chainRules env).(rIsValidatorCodeFix) && (env.(ctx).(ShardID) =? BeaconChainShardID)
  then on_state (IsValidator address) else mret false.
Definition opExtCodeSize : exec :=
  let! slot := peek in
  let address := BigToAddress slot in
  let! fix_ := fixValidatorCode address in
  let! size := (if fix_ : bool then mret 0 else on_state (GetCodeSize address)) in
  let! _ := set_top (u64 size) in done_.
Definition opCodeSize := constant (let! code := the_code in mret (Z.of_nat (length code))).
Definition opCodeCopy := copy_data the_code.
Definition opExtCodeCopy : exec :=
  let! a := pop in
  let addr := BigToAddress a in
  copy_data (let! fix_ := fixValidatorCode addr in if fix_ : bool then mret [] else on_state (GetCode addr)).
Definition opExtCodeHash : exec :=
  let! slot := peek in
  let address := BigToAddress slot in
  let! isEmpty := on_state (Empty address) in
  let! hash := (if isEmpty : bool then mret 0
                else (let! fix_ := fixValidatorCode address in
                      if fix_ : bool then mret (Keccak256Hash []) else on_state (GetCodeHash address))) in
  let! _ := set_top hash in done_.
Definition opGasprice := constant (mret env.(ctx).(GasPrice)).
Definition opBlockhash := unop (fun num =>
  if (env.(ctx).(BlockNumber) - 257 <? num) && (num <? env.(ctx).(BlockNumber)) then env.(ctx).(GetHash) (Big.Uint64 num) else 0).
Definition opCoinbase := constant (mret env.(ctx).(Coinbase)).
Definition opTimestamp := constant (mret (U256 env.(ctx).(Time))).
Definition opNumber := constant (mret (U256 env.(ctx).(BlockNumber))).
Definition opDifficulty := constant (mret (U256 0)).
Definition opGasLimit := constant (mret (U256 env.(ctx).(GasLimit))).
Definition opSelfBalance := constant (let! a := self_address in on_state (GetBalance a)).
Definition opChainID := constant
  (mret (default 0 (if active env IsChainIdFix then env.(chainConfig).(EthCompatibleChainID) else env.(chainConfig).(ChainID)))).

(** ** Stack, memory, storage *)

Definition opPop : exec := let! _ := pop in done_.
Definition opMload : exec :=
  let! v := peek in
  let! s := mem_read (GetPtr (Big.Int64 v) 32) in
  let! b := bytes_of s in
  let! _ := set_top (be_value b) in done_.
Definition opMstore : exec :=
  let! mStart := pop in let! val := pop in
  let! _ := mem_update (Set32 (Big.Uint64 mStart) val) in done_.
Definition opMstore8 : exec :=
  let! off := pop in let! val := pop in
  let! _ := mem_update (fun m => let! s := upd m.(store) (Big.Int64 off) (Z.land (Big.Int64 val) 0xff) in Ok (with_store s m)) in done_.
Definition opSload : exec :=
  let! loc := peek in let! self_ := self_address in
  let! val := on_state (GetState self_ (BigToHash loc)) in
  let! _ := set_top val in done_.
Definition opSstore : exec :=
  let! loc := pop in let! val := pop in let! self_ := self_address in
  let! _ := on_state (SetState self_ (BigToHash loc) (BigToHash val)) in done_.

(** ** Jumps *)

(** The analysis of code with a hash is shared; code under creation is analysed
    for its own contract, which gives the same bits each time. *)
Definition analysis_of (c : Contract) : EM bitvec :=
  let analyse := lift (codeBitmap c.(cCode)) in
  if negb (c.(cCodeHash) =? 0) then
    let! known := eget jumpdests in
    match known !! c.(cCodeHash) with
    | Some a => mret a
    | None =>
        let! a := analyse in
        let! _ := emod (fun e => set_jumpdests (<[c.(cCodeHash) := a]> e.(jumpdests)) e) in mret a
    end
  else analyse.
Definition validJumpdest (dest : Z) : EM bool :=
  let! c := fget contract in
  let udest := Big.Uint64 dest in
  if (63 <=? Big.BitLen dest) || (Z.of_nat (length c.(cCode)) <=? udest) then mret false
  else
    let! op := lift (idx c.(cCode) udest) in
    if negb (op =? JUMPDEST) then mret false
    else let! a := analysis_of c in lift (codeSegment a udest).
Definition opJump : exec :=
  let! pos := pop in
  let! ok := validJumpdest pos in
  if negb ok then mret (inr errInvalidJump)
  else let! _ := fmod (set_pc (Big.Uint64 pos)) in done_.
Definition opJumpi : exec :=
  let! pos := pop in let! cond := pop in
  if negb (cond =? 0) then
    let! ok := validJumpdest pos in
    if negb ok then mret (inr errInvalidJump)
    else let! _ := fmod (set_pc (Big.Uint64 pos)) in done_
  else let! _ := fmod (fun f => set_pc (u64 (f.(pc) + 1)) f) in done_.
Definition opJumpdest : exec := done_.
Definition opPc := constant (fget pc).
Definition opMsize := constant (let! m := fget memory in mret (Len m)).
Definition opGas := constant (fget (fun f => f.(contract).(cGas))).

(** ** Calls *)

Section calls.
Context (calls : Calls S).
Definition add_gas (g : Z) : EM unit :=
  fmod (fun f => set_contract (with_Gas (u64 (f.(contract).(cGas) + g)) f.(contract)) f).
(** [UseGas] where the answer is not looked at. *)
Definition take_gas (g : Z) : EM unit := fmod (fun f => set_contract (UseGas g f.(contract)).1 f).

Definition reverted (r : CallResult) : bool := bool_decide (r.(callErr) = Some ErrExecutionReverted).
(** A creation hands on what it returned only when it was reverted. *)
Definition created (r : CallResult) : exec :=
  let! _ := add_gas r.(leftOverGas) in
  mret (inl (if reverted r then Bytes r.(ret) else nil_slice)).
Definition opCreate : exec :=
  let! value := pop in let! offset := pop in let! size := pop in
  let! input := mem_read (GetCopy (Big.Int64 offset) (Big.Int64 size)) in
  let! c := fget contract in
  let gas := if active env IsS3 then u64 (c.(cGas) - c.(cGas) / 64) else c.(cGas) in
  let! _ := take_gas gas in
  let! '(addr, r) := on_evm (calls.(do_Create) (as_ref c) input gas value) in
  let codeStore := bool_decide (r.(callErr) = Some ErrCodeStoreOutOfGas) in
  let! _ := push (if active env IsS3 && codeStore then 0
                  else if bool_decide (is_Some r.(callErr)) && negb codeStore then 0 else addr) in
  created r.
Definition opCreate2 : exec :=
  let! endowment := pop in let! offset := pop in let! size := pop in let! salt := pop in
  let! input := mem_read (GetCopy (Big.Int64 offset) (Big.Int64 size)) in
  let! c := fget contract in
  let gas := u64 (c.(cGas) - c.(cGas) / 64) in
  let! _ := take_gas gas in
  let! '(addr, r) := on_evm (calls.(do_Create2) (as_ref c) input gas endowment salt) in
  let! _ := push (if bool_decide (is_Some r.(callErr)) then 0 else addr) in
  created r.

(** The end of the four calls: the flag, the copy into memory, the gas.  What is
    returned is copied since the fix; before, it may be a view of the caller's
    own memory, where the call's input was. *)
Definition called (args : Slice) (retOffset retSize : Z) (r : CallResult) : exec :=
  let! _ := push (bool_word (bool_decide (r.(callErr) = None))) in
  let! c := fget contract in
  let copies := bool_decide (r.(callErr) = None) || reverted r in
  let! _ := sm_when copies (mem_update (mem_Set (Big.Uint64 retOffset) (Big.Uint64 retSize) r.(ret))) in
  let! _ := add_gas r.(leftOverGas) in
  mret (inl (if r.(ret_is_input) && negb (copies && c.(WithDataCopyFix)) then args else Bytes r.(ret))).
Definition the_args (inOffset inSize : Z) : EM Slice := mem_read (GetPtr (Big.Int64 inOffset) (Big.Int64 inSize)).

Definition opCall : exec :=
  let! _ := pop in
  let! gas := eget callGasTemp in
  let! addr := pop in let! value := pop in let! inOffset := pop in let! inSize := pop in
  let! retOffset := pop in let! retSize := pop in
  let value := U256 value in
  let! args := the_args inOffset inSize in
  let! input := bytes_of args in
  let! c := fget contract in
  let gas := if negb (value =? 0) then u64 (gas + CallStipend) else gas in
  let! r := on_evm (calls.(do_Call) (as_ref c) (BigToAddress addr) input gas value) in
  called args retOffset retSize r.
Definition opCallCode : exec :=
  let! _ := pop in
  let! gas := eget callGasTemp in
  let! addr := pop in let! value := pop in let! inOffset := pop in let! inSize := pop in
  let! retOffset := pop in let! retSize := pop in
  let value := U256 value in
  let! args := the_args inOffset inSize in
  let! input := bytes_of args in
  let! c := fget contract in
  let gas := if negb (value =? 0) then u64 (gas + CallStipend) else gas in
  let! r := on_evm (calls.(do_CallCode) (as_ref c) (BigToAddress addr) input gas value) in
  called args retOffset retSize r.
Definition opDelegateCall : exec :=
  let! _ := pop in
  let! gas := eget callGasTemp in
  let! addr := pop in let! inOffset := pop in let! inSize := pop in
  let! retOffset := pop in let! retSize := pop in
  let! args := the_args inOffset inSize in
  let! input := bytes_of args in
  let! c := fget contract in
  let! r := on_evm (calls.(do_DelegateCall) (as_ref c) (BigToAddress addr) input gas) in
  called args retOffset retSize r.
Definition opStaticCall : exec :=
  let! _ := pop in
  let! gas := eget callGasTemp in
  let! addr := pop in let! inOffset := pop in let! inSize := pop in
  let! retOffset := pop in let! retSize := pop in
  let! args := the_args inOffset inSize in
  let! input := bytes_of args in
  let! c := fget contract in
  let! r := on_evm (calls.(do_StaticCall) (as_ref c) (BigToAddress addr) input gas) in
  called args retOffset retSize r.
End calls.

(** ** The rest *)

Definition return_mem : exec :=
  let! offset := pop in let! size := pop in
  let! s := mem_read (GetPtr (Big.Int64 offset) (Big.Int64 size)) in mret (inl s).
Definition opReturn := return_mem.
Definition opRevert := return_mem.
Definition opStop : exec := done_.
Definition opSuicide : exec :=
  let! self_ := self_address in
  let! balance := on_state (GetBalance self_) in
  let! beneficiary := pop in
  let! _ := on_state (AddBalance (BigToAddress beneficiary) balance) in
  let! _ := on_state (Suicide self_) in done_.

Fixpoint pop_topics (size : nat) : EM (list Z) :=
  match size with
  | O => mret []
  | Datatypes.S size => let! t := pop in let! rest := pop_topics size in mret (BigToHash t :: rest)
  end.
Definition makeLog (size : nat) : exec :=
  let! mStart := pop in let! mSize := pop in
  let! topics := pop_topics size in
  let! d := mem_read (GetCopy (Big.Int64 mStart) (Big.Int64 mSize)) in
  let! self_ := self_address in
  let! _ := on_state (AddLog (mkLog self_ topics d (Big.Uint64 env.(ctx).(BlockNumber)) 0 0 0 0 false)) in done_.

Definition opPush1 : exec :=
  let! code := the_code in
  let! p := fget pc in
  let p := u64 (p + 1) in
  let! _ := fmod (set_pc p) in
  let! _ := push (if p <? u64 (Z.of_nat (length code)) then default 0 (code !! Z.to_nat p) else 0) in done_.
Definition makePush (size pushByteSize : Z) : exec :=
  let! code := the_code in
  let! p := fget pc in
  let codeLen := Z.of_nat (length code) in
  let startMin := Z.min codeLen (i64 (p + 1)) in
  let endMin := Z.min codeLen (startMin + pushByteSize) in
  let! part := lift (slice code startMin endMin) in
  let! _ := push (be_value (RightPadBytes part pushByteSize)) in
  let! _ := fmod (set_pc (u64 (p + size))) in done_.
Definition makeDup (size : nat) : exec := let! _ := dup size in done_.
Definition makeSwap (size : nat) : exec := let! _ := swap (size + 1) in done_.
End ops.
