(* ===== verification/EvmTable.v ===== *)
(** * The instruction tables (core/vm/jump_table.go, stack_table.go, eips.go,
      NewEVMInterpreter of interpreter.go)

    A table gives each byte its [operation].  The tables are those of the code,
    entry by entry; an entry the code leaves out is the zero value, which is
    not [valid]. *)
From S2P Require Import Prelude Params CXReceipt Opcodes Gas EvmMemory EvmState EvmGas EvmOps.
Local Open Scope Z_scope.

(** ** stack_table.go; the limit is go-ethereum's, 1024 *)

Definition maxStack (pop push : Z) : Z := StackLimit + pop - push.
Definition minStack (pops push : Z) : Z := pops.
Definition minSwapStack (n : Z) : Z := minStack n n.
Definition maxSwapStack (n : Z) : Z := maxStack n n.
Definition minDupStack (n : Z) : Z := minStack n (n + 1).
Definition maxDupStack (n : Z) : Z := maxStack n (n + 1).

(** ** jump_table.go *)

Record operation (S : Type) := mkOperation {
  execute : Calls S -> EM S (Slice + string);
  constantGas : Z;
  dynamicGas : option (Z -> EM S (Z + string));
  op_minStack : Z; op_maxStack : Z;
  memorySize : option (Stack -> outcome (Z * bool));
  halts : bool; jumps : bool; writes : bool; valid : bool; reverts : bool; returns : bool
}.
Arguments mkOperation {S} _ _ _ _ _ _ _ _ _ _ _ _. Arguments execute {S} _ _ _. Arguments constantGas {S} _.
Arguments dynamicGas {S} _. Arguments op_minStack {S} _. Arguments op_maxStack {S} _. Arguments memorySize {S} _.
Arguments halts {S} _. Arguments jumps {S} _. Arguments writes {S} _. Arguments valid {S} _. Arguments reverts {S} _.
Arguments returns {S} _.

Notation JumpTable S := (OpCode -> operation S).

Section tables.
Context {S : Type} {V : VMState S} {H : Hashes} (env : Env S).
Implicit Types jt : JumpTable S.

(** Go's zero value: a nil [execute] panics. *)
Definition no_operation : operation S :=
  mkOperation (fun _ => lift (Panic "nil function")) 0 None 0 0 None false false false false false false.
Definition set_op (op : OpCode) (o : operation S) jt : JumpTable S := fun b => if b =? op then o else jt b.
Definition with_constantGas (g : Z) (o : operation S) : operation S :=
  mkOperation o.(execute) g o.(dynamicGas) o.(op_minStack) o.(op_maxStack) o.(memorySize)
    o.(halts) o.(jumps) o.(writes) o.(valid) o.(reverts) o.(returns).
Definition with_dynamicGas (g : Z -> EM S (Z + string)) (o : operation S) : operation S :=
  mkOperation o.(execute) o.(constantGas) (Some g) o.(op_minStack) o.(op_maxStack) o.(memorySize)
    o.(halts) o.(jumps) o.(writes) o.(valid) o.(reverts) o.(returns).
Definition set_gas (op : OpCode) (g : Z) jt : JumpTable S := set_op op (with_constantGas g (jt op)) jt.

Fixpoint table_of (l : list (OpCode * operation S)) : JumpTable S :=
  match l with
  | [] => fun _ => no_operation
  | (op, o) :: l => set_op op o (table_of l)
  end.

(** STOP to SIGNEXTEND. *)
Definition frontier_arithmetic : list (OpCode * operation S) := [
  (STOP, mkOperation (fun _ => opStop) 0 None (minStack 0 0) (maxStack 0 0) None true false false true false false);
  (ADD, mkOperation (fun _ => opAdd) GasFastestStep None (minStack 2 1) (maxStack 2 1) None false false false true false false);
  (MUL, mkOperation (fun _ => opMul) GasFastStep None (minStack 2 1) (maxStack 2 1) None false false false true false false);
  (SUB, mkOperation (fun _ => opSub) GasFastestStep None (minStack 2 1) (maxStack 2 1) None false false false true false false);
  (DIV, mkOperation (fun _ => opDiv) GasFastStep None (minStack 2 1) (maxStack 2 1) None false false false true false false);
  (SDIV, mkOperation (fun _ => opSdiv) GasFastStep None (minStack 2 1) (maxStack 2 1) None false false false true false false);
  (MOD, mkOperation (fun _ => opMod) GasFastStep None (minStack 2 1) (maxStack 2 1) None false false false true false false);
  (SMOD, mkOperation (fun _ => opSmod) GasFastStep None (minStack 2 1) (maxStack 2 1) None false false false true false false);
  (ADDMOD, mkOperation (fun _ => opAddmod) GasMidStep None (minStack 3 1) (maxStack 3 1) None false false false true false false);
  (MULMOD, mkOperation (fun _ => opMulmod) GasMidStep None (minStack 3 1) (maxStack 3 1) None false false false true false false);
  (EXP, mkOperation (fun _ => opExp) 0 (Some gasExpFrontier) (minStack 2 1) (maxStack 2 1) None false false false true false false);
  (SIGNEXTEND, mkOperation (fun _ => opSignExtend) GasFastStep None (minStack 2 1) (maxStack 2 1) None false false false true false false)].
(** LT to SHA3. *)
Definition frontier_comparison : list (OpCode * operation S) := [
  (LT, mkOperation (fun _ => opLt) GasFastestStep None (minStack 2 1) (maxStack 2 1) None false false false true false false);
  (GT, mkOperation (fun _ => opGt) GasFastestStep None (minStack 2 1) (maxStack 2 1) None false false false true false false);
  (SLT, mkOperation (fun _ => opSlt) GasFastestStep None (minStack 2 1) (maxStack 2 1) None false false false true false false);
  (SGT, mkOperation (fun _ => opSgt) GasFastestStep None (minStack 2 1) (maxStack 2 1) None false false false true false false);
  (EQ, mkOperation (fun _ => opEq) GasFastestStep None (minStack 2 1) (maxStack 2 1) None false false false true false false);
  (ISZERO, mkOperation (fun _ => opIszero) GasFastestStep None (minStack 1 1) (maxStack 1 1) None false false false true false false);
  (AND, mkOperation (fun _ => opAnd) GasFastestStep None (minStack 2 1) (maxStack 2 1) None false false false true false false);
  (XOR, mkOperation (fun _ => opXor) GasFastestStep None (minStack 2 1) (maxStack 2 1) None false false false true false false);
  (OR, mkOperation (fun _ => opOr) GasFastestStep None (minStack 2 1) (maxStack 2 1) None false false false true false false);
  (NOT, mkOperation (fun _ => opNot) GasFastestStep None (minStack 1 1) (maxStack 1 1) None false false false true false false);
  (BYTE, mkOperation (fun _ => opByte) GasFastestStep None (minStack 2 1) (maxStack 2 1) None false false false true false false);
  (SHA3, mkOperation (fun _ => opSha3 env) Sha3Gas (Some gasSha3) (minStack 2 1) (maxStack 2 1) (Some memorySha3) false false false true false false)].
(** ADDRESS to EXTCODECOPY. *)
Definition frontier_environment : list (OpCode * operation S) := [
  (ADDRESS, mkOperation (fun _ => opAddress) GasQuickStep None (minStack 0 1) (maxStack 0 1) None false false false true false false);
  (BALANCE, mkOperation (fun _ => opBalance) BalanceGasFrontier None (minStack 1 1) (maxStack 1 1) None false false false true false false);
  (ORIGIN, mkOperation (fun _ => opOrigin env) GasQuickStep None (minStack 0 1) (maxStack 0 1) None false false false true false false);
  (CALLER, mkOperation (fun _ => opCaller) GasQuickStep None (minStack 0 1) (maxStack 0 1) None false false false true false false);
  (CALLVALUE, mkOperation (fun _ => opCallValue) GasQuickStep None (minStack 0 1) (maxStack 0 1) None false false false true false false);
  (CALLDATALOAD, mkOperation (fun _ => opCallDataLoad) GasFastestStep None (minStack 1 1) (maxStack 1 1) None false false false true false false);
  (CALLDATASIZE, mkOperation (fun _ => opCallDataSize) GasQuickStep None (minStack 0 1) (maxStack 0 1) None false false false true false false);
  (CALLDATACOPY, mkOperation (fun _ => opCallDataCopy) GasFastestStep (Some gasCallDataCopy) (minStack 3 0) (maxStack 3 0) (Some memoryCallDataCopy) false false false true false false);
  (CODESIZE, mkOperation (fun _ => opCodeSize) GasQuickStep None (minStack 0 1) (maxStack 0 1) None false false false true false false);
  (CODECOPY, mkOperation (fun _ => opCodeCopy) GasFastestStep (Some gasCodeCopy) (minStack 3 0) (maxStack 3 0) (Some memoryCodeCopy) false false false true false false);
  (GASPRICE, mkOperation (fun _ => opGasprice env) GasQuickStep None (minStack 0 1) (maxStack 0 1) None false false false true false false);
  (EXTCODESIZE, mkOperation (fun _ => opExtCodeSize env) ExtcodeSizeGasFrontier None (minStack 1 1) (maxStack 1 1) None false false false true false false);
  (EXTCODECOPY, mkOperation (fun _ => opExtCodeCopy env) ExtcodeCopyBaseFrontier (Some gasExtCodeCopy) (minStack 4 0) (maxStack 4 0) (Some memoryExtCodeCopy) false false false true false false)].
(** BLOCKHASH to GASLIMIT. *)
Definition frontier_block : list (OpCode * operation S) := [
  (BLOCKHASH, mkOperation (fun _ => opBlockhash env) GasExtStep None (minStack 1 1) (maxStack 1 1) None false false false true false false);
  (COINBASE, mkOperation (fun _ => opCoinbase env) GasQuickStep None (minStack 0 1) (maxStack 0 1) None false false false true false false);
  (TIMESTAMP, mkOperation (fun _ => opTimestamp env) GasQuickStep None (minStack 0 1) (maxStack 0 1) None false false false true false false);
  (NUMBER, mkOperation (fun _ => opNumber env) GasQuickStep None (minStack 0 1) (maxStack 0 1) None false false false true false false);
  (DIFFICULTY, mkOperation (fun _ => opDifficulty) GasQuickStep None (minStack 0 1) (maxStack 0 1) None false false false true false false);
  (GASLIMIT, mkOperation (fun _ => opGasLimit env) GasQuickStep None (minStack 0 1) (maxStack 0 1) None false false false true false false)].
(** POP to JUMPDEST. *)
Definition frontier_memory : list (OpCode * operation S) := [
  (POP, mkOperation (fun _ => opPop) GasQuickStep None (minStack 1 0) (maxStack 1 0) None false false false true false false);
  (MLOAD, mkOperation (fun _ => opMload) GasFastestStep (Some gasMLoad) (minStack 1 1) (maxStack 1 1) (Some memoryMLoad) false false false true false false);
  (MSTORE, mkOperation (fun _ => opMstore) GasFastestStep (Some gasMStore) (minStack 2 0) (maxStack 2 0) (Some memoryMStore) false false false true false false);
  (MSTORE8, mkOperation (fun _ => opMstore8) GasFastestStep (Some gasMStore8) (minStack 2 0) (maxStack 2 0) (Some memoryMStore8) false false false true false false);
  (SLOAD, mkOperation (fun _ => opSload) SloadGasFrontier None (minStack 1 1) (maxStack 1 1) None false false false true false false);
  (SSTORE, mkOperation (fun _ => opSstore) 0 (Some (gasSStore env)) (minStack 2 0) (maxStack 2 0) None false false true true false false);
  (JUMP, mkOperation (fun _ => opJump) GasMidStep None (minStack 1 0) (maxStack 1 0) None false true false true false false);
  (JUMPI, mkOperation (fun _ => opJumpi) GasSlowStep None (minStack 2 0) (maxStack 2 0) None false true false true false false);
  (PC, mkOperation (fun _ => opPc) GasQuickStep None (minStack 0 1) (maxStack 0 1) None false false false true false false);
  (MSIZE, mkOperation (fun _ => opMsize) GasQuickStep None (minStack 0 1) (maxStack 0 1) None false false false true false false);
  (GAS, mkOperation (fun _ => opGas) GasQuickStep None (minStack 0 1) (maxStack 0 1) None false false false true false false);
  (JUMPDEST, mkOperation (fun _ => opJumpdest) JumpdestGas None (minStack 0 0) (maxStack 0 0) None false false false true false false)].
(** PUSH1 to PUSH16. *)
Definition frontier_push : list (OpCode * operation S) := [
  (PUSH1, mkOperation (fun _ => opPush1) GasFastestStep None (minStack 0 1) (maxStack 0 1) None false false false true false false);
  (PUSH2, mkOperation (fun _ => makePush 2 2) GasFastestStep None (minStack 0 1) (maxStack 0 1) None false false false true false false);
  (PUSH3, mkOperation (fun _ => makePush 3 3) GasFastestStep None (minStack 0 1) (maxStack 0 1) None false false false true false false);
  (PUSH4, mkOperation (fun _ => makePush 4 4) GasFastestStep None (minStack 0 1) (maxStack 0 1) None false false false true false false);
  (PUSH5, mkOperation (fun _ => makePush 5 5) GasFastestStep None (minStack 0 1) (maxStack 0 1) None false false false true false false);
  (PUSH6, mkOperation (fun _ => makePush 6 6) GasFastestStep None (minStack 0 1) (maxStack 0 1) None false false false true false false);
  (PUSH7, mkOperation (fun _ => makePush 7 7) GasFastestStep None (minStack 0 1) (maxStack 0 1) None false false false true false false);
  (PUSH8, mkOperation (fun _ => makePush 8 8) GasFastestStep None (minStack 0 1) (maxStack 0 1) None false false false true false false);
  (PUSH9, mkOperation (fun _ => makePush 9 9) GasFastestStep None (minStack 0 1) (maxStack 0 1) None false false false true false false);
  (PUSH10, mkOperation (fun _ => makePush 10 10) GasFastestStep None (minStack 0 1) (maxStack 0 1) None false false false true false false);
  (PUSH11, mkOperation (fun _ => makePush 11 11) GasFastestStep None (minStack 0 1) (maxStack 0 1) None false false false true false false);
  (PUSH12, mkOperation (fun _ => makePush 12 12) GasFastestStep None (minStack 0 1) (maxStack 0 1) None false false false true false false);
  (PUSH13, mkOperation (fun _ => makePush 13 13) GasFastestStep None (minStack 0 1) (maxStack 0 1) None false false false true false false);
  (PUSH14, mkOperation (fun _ => makePush 14 14) GasFastestStep None (minStack 0 1) (maxStack 0 1) None false false false true false false);
  (PUSH15, mkOperation (fun _ => makePush 15 15) GasFastestStep None (minStack 0 1) (maxStack 0 1) None false false false true false false);
  (PUSH16, mkOperation (fun _ => makePush 16 16) GasFastestStep None (minStack 0 1) (maxStack 0 1) None false false false true false false)].
(** PUSH17 to PUSH32. *)
Definition frontier_push_more : list (OpCode * operation S) := [
  (PUSH17, mkOperation (fun _ => makePush 17 17) GasFastestStep None (minStack 0 1) (maxStack 0 1) None false false false true false false);
  (PUSH18, mkOperation (fun _ => makePush 18 18) GasFastestStep None (minStack 0 1) (maxStack 0 1) None false false false true false false);
  (PUSH19, mkOperation (fun _ => makePush 19 19) GasFastestStep None (minStack 0 1) (maxStack 0 1) None false false false true false false);
  (PUSH20, mkOperation (fun _ => makePush 20 20) GasFastestStep None (minStack 0 1) (maxStack 0 1) None false false false true false false);
  (PUSH21, mkOperation (fun _ => makePush 21 21) GasFastestStep None (minStack 0 1) (maxStack 0 1) None false false false true false false);
  (PUSH22, mkOperation (fun _ => makePush 22 22) GasFastestStep None (minStack 0 1) (maxStack 0 1) None false false false true false false);
  (PUSH23, mkOperation (fun _ => makePush 23 23) GasFastestStep None (minStack 0 1) (maxStack 0 1) None false false false true false false);
  (PUSH24, mkOperation (fun _ => makePush 24 24) GasFastestStep None (minStack 0 1) (maxStack 0 1) None false false false true false false);
  (PUSH25, mkOperation (fun _ => makePush 25 25) GasFastestStep None (minStack 0 1) (maxStack 0 1) None false false false true false false);
  (PUSH26, mkOperation (fun _ => makePush 26 26) GasFastestStep None (minStack 0 1) (maxStack 0 1) None false false false true false false);
  (PUSH27, mkOperation (fun _ => makePush 27 27) GasFastestStep None (minStack 0 1) (maxStack 0 1) None false false false true false false);
  (PUSH28, mkOperation (fun _ => makePush 28 28) GasFastestStep None (minStack 0 1) (maxStack 0 1) None false false false true false false);
  (PUSH29, mkOperation (fun _ => makePush 29 29) GasFastestStep None (minStack 0 1) (maxStack 0 1) None false false false true false false);
  (PUSH30, mkOperation (fun _ => makePush 30 30) GasFastestStep None (minStack 0 1) (maxStack 0 1) None false false false true false false);
  (PUSH31, mkOperation (fun _ => makePush 31 31) GasFastestStep None (minStack 0 1) (maxStack 0 1) None false false false true false false);
  (PUSH32, mkOperation (fun _ => makePush 32 32) GasFastestStep None (minStack 0 1) (maxStack 0 1) None false false false true false false)].
(** DUP1 to DUP16. *)
Definition frontier_dup : list (OpCode * operation S) := [
  (DUP1, mkOperation (fun _ => makeDup 1%nat) GasFastestStep None (minDupStack 1) (maxDupStack 1) None false false false true false false);
  (DUP2, mkOperation (fun _ => makeDup 2%nat) GasFastestStep None (minDupStack 2) (maxDupStack 2) None false false false true false false);
  (DUP3, mkOperation (fun _ => makeDup 3%nat) GasFastestStep None (minDupStack 3) (maxDupStack 3) None false false false true false false);
  (DUP4, mkOperation (fun _ => makeDup 4%nat) GasFastestStep None (minDupStack 4) (maxDupStack 4) None false false false true false false);
  (DUP5, mkOperation (fun _ => makeDup 5%nat) GasFastestStep None (minDupStack 5) (maxDupStack 5) None false false false true false false);
  (DUP6, mkOperation (fun _ => makeDup 6%nat) GasFastestStep None (minDupStack 6) (maxDupStack 6) None false false false true false false);
  (DUP7, mkOperation (fun _ => makeDup 7%nat) GasFastestStep None (minDupStack 7) (maxDupStack 7) None false false false true false false);
  (DUP8, mkOperation (fun _ => makeDup 8%nat) GasFastestStep None (minDupStack 8) (maxDupStack 8) None false false false true false false);
  (DUP9, mkOperation (fun _ => makeDup 9%nat) GasFastestStep None (minDupStack 9) (maxDupStack 9) None false false false true false false);
  (DUP10, mkOperation (fun _ => makeDup 10%nat) GasFastestStep None (minDupStack 10) (maxDupStack 10) None false false false true false false);
  (DUP11, mkOperation (fun _ => makeDup 11%nat) GasFastestStep None (minDupStack 11) (maxDupStack 11) None false false false true false false);
  (DUP12, mkOperation (fun _ => makeDup 12%nat) GasFastestStep None (minDupStack 12) (maxDupStack 12) None false false false true false false);
  (DUP13, mkOperation (fun _ => makeDup 13%nat) GasFastestStep None (minDupStack 13) (maxDupStack 13) None false false false true false false);
  (DUP14, mkOperation (fun _ => makeDup 14%nat) GasFastestStep None (minDupStack 14) (maxDupStack 14) None false false false true false false);
  (DUP15, mkOperation (fun _ => makeDup 15%nat) GasFastestStep None (minDupStack 15) (maxDupStack 15) None false false false true false false);
  (DUP16, mkOperation (fun _ => makeDup 16%nat) GasFastestStep None (minDupStack 16) (maxDupStack 16) None false false false true false false)].
(** SWAP1 to SWAP16. *)
Definition frontier_swap : list (OpCode * operation S) := [
  (SWAP1, mkOperation (fun _ => makeSwap 1%nat) GasFastestStep None (minSwapStack 2) (maxSwapStack 2) None false false false true false false);
  (SWAP2, mkOperation (fun _ => makeSwap 2%nat) GasFastestStep None (minSwapStack 3) (maxSwapStack 3) None false false false true false false);
  (SWAP3, mkOperation (fun _ => makeSwap 3%nat) GasFastestStep None (minSwapStack 4) (maxSwapStack 4) None false false false true false false);
  (SWAP4, mkOperation (fun _ => makeSwap 4%nat) GasFastestStep None (minSwapStack 5) (maxSwapStack 5) None false false false true false false);
  (SWAP5, mkOperation (fun _ => makeSwap 5%nat) GasFastestStep None (minSwapStack 6) (maxSwapStack 6) None false false false true false false);
  (SWAP6, mkOperation (fun _ => makeSwap 6%nat) GasFastestStep None (minSwapStack 7) (maxSwapStack 7) None false false false true false false);
  (SWAP7, mkOperation (fun _ => makeSwap 7%nat) GasFastestStep None (minSwapStack 8) (maxSwapStack 8) None false false false true false false);
  (SWAP8, mkOperation (fun _ => makeSwap 8%nat) GasFastestStep None (minSwapStack 9) (maxSwapStack 9) None false false false true false false);
  (SWAP9, mkOperation (fun _ => makeSwap 9%nat) GasFastestStep None (minSwapStack 10) (maxSwapStack 10) None false false false true false false);
  (SWAP10, mkOperation (fun _ => makeSwap 10%nat) GasFastestStep None (minSwapStack 11) (maxSwapStack 11) None false false false true false false);
  (SWAP11, mkOperation (fun _ => makeSwap 11%nat) GasFastestStep None (minSwapStack 12) (maxSwapStack 12) None false false false true false false);
  (SWAP12, mkOperation (fun _ => makeSwap 12%nat) GasFastestStep None (minSwapStack 13) (maxSwapStack 13) None false false false true false false);
  (SWAP13, mkOperation (fun _ => makeSwap 13%nat) GasFastestStep None (minSwapStack 14) (maxSwapStack 14) None false false false true false false);
  (SWAP14, mkOperation (fun _ => makeSwap 14%nat) GasFastestStep None (minSwapStack 15) (maxSwapStack 15) None false false false true false false);
  (SWAP15, mkOperation (fun _ => makeSwap 15%nat) GasFastestStep None (minSwapStack 16) (maxSwapStack 16) None false false false true false false);
  (SWAP16, mkOperation (fun _ => makeSwap 16%nat) GasFastestStep None (minSwapStack 17) (maxSwapStack 17) None false false false true false false)].
(** LOG0 to LOG4. *)
Definition frontier_log : list (OpCode * operation S) := [
  (LOG0, mkOperation (fun _ => makeLog env 0%nat) 0 (Some (makeGasLog 0)) (minStack 2 0) (maxStack 2 0) (Some memoryLog) false false true true false false);
  (LOG1, mkOperation (fun _ => makeLog env 1%nat) 0 (Some (makeGasLog 1)) (minStack 3 0) (maxStack 3 0) (Some memoryLog) false false true true false false);
  (LOG2, mkOperation (fun _ => makeLog env 2%nat) 0 (Some (makeGasLog 2)) (minStack 4 0) (maxStack 4 0) (Some memoryLog) false false true true false false);
  (LOG3, mkOperation (fun _ => makeLog env 3%nat) 0 (Some (makeGasLog 3)) (minStack 5 0) (maxStack 5 0) (Some memoryLog) false false true true false false);
  (LOG4, mkOperation (fun _ => makeLog env 4%nat) 0 (Some (makeGasLog 4)) (minStack 6 0) (maxStack 6 0) (Some memoryLog) false false true true false false)].
(** CREATE to SELFDESTRUCT. *)
Definition frontier_system : list (OpCode * operation S) := [
  (CREATE, mkOperation (opCreate env) CreateGas (Some gasCreate) (minStack 3 1) (maxStack 3 1) (Some memoryCreate) false false true true false true);
  (CALL, mkOperation opCall CallGasFrontier (Some (gasCall env)) (minStack 7 1) (maxStack 7 1) (Some memoryCall) false false false true false true);
  (CALLCODE, mkOperation opCallCode CallGasFrontier (Some (gasCallCode env)) (minStack 7 1) (maxStack 7 1) (Some memoryCall) false false false true false true);
  (RETURN, mkOperation (fun _ => opReturn) 0 (Some gasReturn) (minStack 2 0) (maxStack 2 0) (Some memoryReturn) true false false true false false);
  (SELFDESTRUCT, mkOperation (fun _ => opSuicide) 0 (Some (gasSelfdestruct env)) (minStack 1 0) (maxStack 1 0) None true false true true false false)].
Definition newFrontierInstructionSet : JumpTable S :=
  table_of (frontier_arithmetic ++ frontier_comparison ++ frontier_environment ++ frontier_block ++ frontier_memory ++ frontier_push ++ frontier_push_more ++ frontier_dup ++ frontier_swap ++ frontier_log ++ frontier_system).

Definition newHomesteadInstructionSet : JumpTable S :=
  set_op DELEGATECALL (mkOperation opDelegateCall CallGasFrontier (Some (gasDelegateCall env)) (minStack 6 1) (maxStack 6 1) (Some memoryDelegateCall) false false false true false true) newFrontierInstructionSet.
Definition newTangerineWhistleInstructionSet : JumpTable S :=
  let jt := set_gas BALANCE BalanceGasEIP150 newHomesteadInstructionSet in
  let jt := set_gas EXTCODESIZE ExtcodeSizeGasEIP150 jt in
  let jt := set_gas SLOAD SloadGasEIP150 jt in
  let jt := set_gas EXTCODECOPY ExtcodeCopyBaseEIP150 jt in
  let jt := set_gas CALL CallGasEIP150 jt in
  let jt := set_gas CALLCODE CallGasEIP150 jt in
  let jt := set_gas DELEGATECALL CallGasEIP150 jt in jt.
Definition newSpuriousDragonInstructionSet : JumpTable S :=
  let jt := newTangerineWhistleInstructionSet in set_op EXP (with_dynamicGas gasExpEIP158 (jt EXP)) jt.
Definition newByzantiumInstructionSet : JumpTable S :=
  let jt := set_op STATICCALL (mkOperation opStaticCall CallGasEIP150 (Some (gasStaticCall env)) (minStack 6 1) (maxStack 6 1) (Some memoryStaticCall) false false false true false true) newSpuriousDragonInstructionSet in
  let jt := set_op RETURNDATASIZE (mkOperation (fun _ => opReturnDataSize) GasQuickStep None (minStack 0 1) (maxStack 0 1) None false false false true false false) jt in
  let jt := set_op RETURNDATACOPY (mkOperation (fun _ => opReturnDataCopy) GasFastestStep (Some gasReturnDataCopy) (minStack 3 0) (maxStack 3 0) (Some memoryReturnDataCopy) false false false true false false) jt in
  let jt := set_op REVERT (mkOperation (fun _ => opRevert) 0 (Some gasRevert) (minStack 2 0) (maxStack 2 0) (Some memoryRevert) false false false true true true) jt in jt.
Definition newConstantinopleInstructionSet : JumpTable S :=
  let jt := set_op SHL (mkOperation (fun _ => opSHL) GasFastestStep None (minStack 2 1) (maxStack 2 1) None false false false true false false) newByzantiumInstructionSet in
  let jt := set_op SHR (mkOperation (fun _ => opSHR) GasFastestStep None (minStack 2 1) (maxStack 2 1) None false false false true false false) jt in
  let jt := set_op SAR (mkOperation (fun _ => opSAR) GasFastestStep None (minStack 2 1) (maxStack 2 1) None false false false true false false) jt in
  let jt := set_op EXTCODEHASH (mkOperation (fun _ => opExtCodeHash env) ExtcodeHashGasConstantinople None (minStack 1 1) (maxStack 1 1) None false false false true false false) jt in
  let jt := set_op CREATE2 (mkOperation opCreate2 Create2Gas (Some gasCreate2) (minStack 4 1) (maxStack 4 1) (Some memoryCreate2) false false true true false true) jt in jt.

(** ** eips.go *)

Definition plain (m : EM S (Slice + string)) (gas pops pushes : Z) : operation S :=
  mkOperation (fun _ => m) gas None (minStack pops pushes) (maxStack pops pushes) None false false false true false false.
Definition enable1344 jt : JumpTable S := set_op CHAINID (plain (opChainID env) GasQuickStep 0 1) jt.
Definition enable1884 jt : JumpTable S :=
  let jt := set_gas BALANCE BalanceGasEIP1884 jt in
  let jt := set_gas EXTCODEHASH ExtcodeHashGasEIP1884 jt in
  let jt := set_gas SLOAD SloadGasEIP1884 jt in
  set_op SELFBALANCE (plain opSelfBalance GasFastStep 0 1) jt.
Definition enable2200 jt : JumpTable S := set_op SSTORE (with_dynamicGas gasSStoreEIP2200 (jt SSTORE)) jt.
(** [None] for an undefined EIP. *)
Definition EnableEIP (eipNum : Z) jt : option (JumpTable S) :=
  if eipNum =? 2200 then Some (enable2200 jt)
  else if eipNum =? 1884 then Some (enable1884 jt)
  else if eipNum =? 1344 then Some (enable1344 jt)
  else None.

Definition newIstanbulInstructionSet : JumpTable S := enable2200 (enable1884 (enable1344 newConstantinopleInstructionSet)).

(** ** NewEVMInterpreter

    An EIP that is not defined is cut out of [cfg.ExtraEips].  The loop keeps
    ranging over the slice it began with, whose array the cut shifts: the EIP
    after the one cut is skipped.  [kept] is the slice's array, [len] the length
    left. *)
Fixpoint extra_eips (n i : nat) (kept : list Z) (len : nat) jt : outcome (JumpTable S) :=
  match n with
  | O => Ok jt
  | Datatypes.S n =>
      match kept !! i with
      | None => Panic "index out of range"
      | Some eip =>
          match EnableEIP eip jt with
          | Some jt => extra_eips n (Datatypes.S i) kept len jt
          | None =>
              if Nat.ltb len (Datatypes.S i) then Panic "slice bounds out of range"
              else extra_eips n (Datatypes.S i)
                     (take i kept ++ take (len - Datatypes.S i) (drop (Datatypes.S i) kept) ++ drop (len - 1) kept) (len - 1) jt
          end
      end
  end.
Definition NewEVMInterpreter : outcome (JumpTable S) :=
  let jt := if (chainRules env).(rIsIstanbul) then newIstanbulInstructionSet
            else if (chainRules env).(rIsS3) then newConstantinopleInstructionSet
            else newFrontierInstructionSet in
  let eips := env.(vmConfig).(ExtraEips) in
  extra_eips (length eips) 0 eips (length eips) jt.
End tables.
