(* ===== verification/Evm.v ===== *)
(** * The virtual machine (core/vm: interpreter.go, evm.go, contracts.go's and
      contracts_write.go's runners)

    [step] is one turn of the interpreter's loop, [loop] the loop with fuel and
    [Call], [CallCode], [DelegateCall], [StaticCall], [Create] and [Create2] the
    calls a frame or a transaction makes.  The loop and the calls recurse
    through each other: the calls take the loop of the callee, and [loop] ties
    the knot, one unit of fuel for a turn or a nested frame.  [Call_ends] of
    [EvmCalls] shows that fuel above the gas of the call is enough.

    The numbers in the messages of an invalid opcode or stack are left out. *)
From S2P Require Import Prelude Dec Bls Params Shard Delegation Validator CXReceipt Receipt StakingVerifier Opcodes EvmCode Gas EvmMemory Precompiles StakingAbi EvmState EvmGas EvmOps EvmTable.
Local Open Scope Z_scope.

Definition out_of_fuel : string := "out of fuel".
Definition zero_address : Address := 0.

Section evm.
Context {S : Type} {V : VMState S} {H : Hashes} {C : CryptoLib} {L : EvmLib} {G : GoRuntime}.
Context (env : Env S) (table : JumpTable S).
Notation VM := (SM (EVM S)).
(** What ends a frame: the bytes and the error. *)
Notation Halt := (Slice * option string)%type.

(** ** Running a contract *)

Definition returned (c : Contract) (ret : list Z) : CallResult := mkCall ret false c.(cGas) None.
Definition failed (c : Contract) (err : string) : CallResult := mkCall [] false c.(cGas) (Some err).

Definition RunPrecompiledContract (p : PrecompiledContract) (input : list Z) (c : Contract) : VM CallResult :=
  let! gas := lift (RequiredGas p input) in
  let '(c, ok) := UseGas gas c in
  if ok : bool then
    match Run_precompile p input with
    | Ok b => mret (mkCall b (returns_input p) c.(cGas) None)
    | Err e => mret (failed c e)
    | Panic w => lift (Panic w)
    end
  else mret (failed c ErrOutOfGas).

(** *** The staking precompile *)

Definition stakingPrecompile_RequiredGas (c : Contract) (input : list Z) : outcome Z :=
  let payload :=
    if env.(ctx).(ShardID) =? BeaconChainShardID then
      match ParseStakeMsg c.(CallerAddress) input with Ok m => rlp_StakeMsg m | _ => [] end
    else [] in
  IntrinsicGas payload false (active env IsS3) (active env IsIstanbul) false.
(** The error of a method of the chain, which the caller looks at. *)
Definition chain_call (m : SM S unit) (then_ : VM unit) : VM (option string) :=
  let! err := in_state (caught m) in
  match err with Some e => mret (Some e) | None => let! _ := then_ in mret None end.
Definition stakingPrecompile_RunWriteCapable (c : Contract) (input : list Z) : VM (option string) :=
  if negb (env.(ctx).(ShardID) =? BeaconChainShardID) then mret (Some "Staking not supported on this shard"%string)
  else
    match ParseStakeMsg c.(CallerAddress) input with
    | Panic w => lift (Panic w)
    | Err e => mret (Some e)
    | Ok (DelegateM d) =>
        chain_call (env.(ctx).(ctx_Delegate) d) (modify (fun e => set_StakeMsgs (e.(StakeMsgs) ++ [d]) e))
    | Ok (UndelegateM u) => chain_call (env.(ctx).(ctx_Undelegate) u) (mret tt)
    | Ok (CollectRewardsM r) => chain_call (env.(ctx).(ctx_CollectRewards) r) (mret tt)
    end.

(** *** The cross-shard transfer *)

Definition crossShardXferPrecompile_RunWriteCapable (c : Contract) (input : list Z) : VM (option string) :=
  let! already := gets cxReceipt in
  if bool_decide (is_Some already) then mret (Some "cannot call cross shard precompile again in same tx"%string)
  else
    match parseCrossShardXferData input with
    | Panic w => lift (Panic w)
    | Err e => mret (Some e)
    | Ok (value, toAddress, toShardID) =>
        let fromAddress := c.(CallerAddress) in
        let fromShardID := env.(ctx).(ShardID) in
        let! code := in_state (GetCode fromAddress) in
        let! is_contract := (if (0 <? length code)%nat
                             then (let! v := in_state (env.(ctx).(ctx_IsValidator) fromAddress) in mret (negb v))
                             else mret false) in
        if is_contract : bool then mret (Some "cross shard xfer not yet implemented for contracts"%string)
        else if env.(ctx).(NumShards) <=? toShardID then mret (Some "toShardId out of bounds"%string)
        else if fromShardID =? toShardID then mret (Some "from and to shard id can't be equal"%string)
        else if negb (c.(cValue) =? value) then mret (Some "argument value and msg.value not equal"%string)
        else
          let! enough := in_state (env.(ctx).(CanTransfer) c.(self_) value) in
          if negb enough then mret (Some "not enough balance received"%string)
          else
            let! _ := in_state (env.(ctx).(Transfer) c.(self_) toAddress value SubtractionOnly) in
            let! _ := modify (set_cxReceipt (Some (mkCXReceipt 0 fromAddress (Some toAddress) fromShardID toShardID value))) in
            mret None
    end.

Definition wc_RequiredGas (p : WriteCapablePrecompiledContract) (c : Contract) (input : list Z) : outcome Z :=
  match p with stakingPrecompile => stakingPrecompile_RequiredGas c input | crossShardXferPrecompile => Ok 0 end.
Definition wc_RunWriteCapable (p : WriteCapablePrecompiledContract) (c : Contract) (input : list Z) : VM (option string) :=
  match p with
  | stakingPrecompile => stakingPrecompile_RunWriteCapable c input
  | crossShardXferPrecompile => crossShardXferPrecompile_RunWriteCapable c input
  end.
Definition RunWriteCapablePrecompiledContract (p : WriteCapablePrecompiledContract) (c : Contract) (input : list Z) (readOnly : bool)
    : VM CallResult :=
  if readOnly then mret (failed c errWriteProtection)
  else
    match wc_RequiredGas p c input with
    | Panic w => lift (Panic w)
    | Err e => mret (failed c e)
    | Ok gas =>
        let '(c, ok) := UseGas gas c in
        if negb ok then mret (failed c ErrOutOfGas)
        else let! err := wc_RunWriteCapable p c input in
             mret (match err with Some e => failed c e | None => returned c [] end)
    end.

(** *** The contracts of the epoch *)

Definition precompiles : PrecompiledTable :=
  let rules := chainRules env in
  if rules.(rIsStakingPrecompile) then PrecompiledContractsStaking
  else if rules.(rIsSHA3) then PrecompiledContractsSHA3FIPS
  else if rules.(rIsVRF) then PrecompiledContractsVRF
  else if rules.(rIsIstanbul) then PrecompiledContractsIstanbul
  else if active env IsS3 then PrecompiledContractsByzantium
  else PrecompiledContractsHomestead.
Definition writeCapablePrecompiles : WriteCapableTable :=
  let rules := chainRules env in
  if rules.(rIsCrossShardXferPrecompile) then WriteCapablePrecompiledContractsCrossXfer
  else if rules.(rIsStakingPrecompile) then WriteCapablePrecompiledContractsStaking
  else [].
(** What is put in place of the input: the randomness of a block, the epoch. *)
Definition precompile_input (p : PrecompiledContract) (input : list Z) : list Z :=
  match p with
  | vrf_ =>
      let current := be_bytes 32 env.(ctx).(VRF) in
      if (chainRules env).(rIsPrevVRF) then
        let requested := be_value input in
        let number := env.(ctx).(BlockNumber) in
        if requested =? number then current
        else if (number - 257 <? requested) && (requested <? number) then be_bytes 32 (env.(ctx).(GetVRF) (Big.Uint64 requested))
        else current
      else current
  | epoch_ => big_Bytes env.(ctx).(EpochNumber)
  | _ => input
  end.

(** ** Calls, given the loop of the callee *)

Section calls.
Context (loop : EM S Halt).

(** A frame of its own on the machine. *)
Definition in_frame {A} (m : EM S A) (f : Frame) : VM (Frame * A) := fun e =>
  match m (f, e) with
  | ((f, e), Ok a) => (e, Ok (f, a))
  | ((_, e), Err w) => (e, Err w)
  | ((_, e), Panic w) => (e, Panic w)
  end.
Definition run_code (contract : Contract) (input : list Z) : VM CallResult :=
  match contract.(cCode) with
  | [] => mret (returned contract [])
  | _ =>
      let! '(f, (res, err)) := in_frame loop (mkFrame 0 (with_Input input contract) NewMemory []) in
      mret (mkCall (resolve f.(memory) res) false f.(EvmState.contract).(cGas) err)
  end.
(** [EVMInterpreter.Run]. *)
Definition Run (contract : Contract) (input : list Z) (readOnly_ : bool) : VM CallResult :=
  let! _ := modify (fun e => set_depth (e.(depth) + 1) e) in
  let! was := gets readOnly in
  let sets := readOnly_ && negb was in
  let! _ := sm_when sets (modify (set_readOnly true)) in
  let! _ := modify (set_returnData nil_slice) in
  let! r := run_code contract input in
  let! _ := sm_when sets (modify (set_readOnly false)) in
  let! _ := modify (fun e => set_depth (e.(depth) - 1) e) in
  mret r.
Definition run (contract : Contract) (input : list Z) (readOnly_ : bool) : VM CallResult :=
  let interpret := Run (with_CopyFix (contract.(WithDataCopyFix) || active env IsDataCopyFixEpoch) contract) input readOnly_ in
  match contract.(CodeAddr) with
  | None => interpret
  | Some addr =>
      match precompile_at precompiles addr with
      | Some p => RunPrecompiledContract p (precompile_input p input) contract
      | None =>
          match write_capable_at writeCapablePrecompiles addr with
          | Some p => RunWriteCapablePrecompiledContract p contract input readOnly_
          | None => interpret
          end
      end
  end.

(** After an error the state is put back, and the gas is gone unless the code
    asked for the revert. *)
Definition revert_to (snapshot : Z) (r : CallResult) : VM CallResult :=
  let! _ := in_state (RevertToSnapshot snapshot) in
  mret (if bool_decide (r.(callErr) = Some ErrExecutionReverted) then r else mkCall r.(ret) r.(ret_is_input) 0 r.(callErr)).
Definition settle (snapshot : Z) (r : CallResult) : VM CallResult :=
  match r.(callErr) with None => mret r | Some _ => revert_to snapshot r end.
Definition no_call (gas : Z) (err : option string) : CallResult := mkCall [] false gas err.
(** The two tests all calls begin with. *)
Definition guarded (gas : Z) (k : VM CallResult) : VM CallResult :=
  let! d := gets depth in
  if env.(vmConfig).(NoRecursion) && (0 <? d) then mret (no_call gas None)
  else if CallCreateDepth <? d then mret (no_call gas (Some ErrDepth))
  else k.

Definition Call (caller : ContractRef) (addr : Address) (input : list Z) (gas value : Z) : VM CallResult :=
  guarded gas (
    let txType := env.(ctx).(TxType) in
    let! enough := in_state (env.(ctx).(CanTransfer) (ref_Address caller) value) in
    if negb enough then mret (no_call gas (Some ErrInsufficientBalance))
    else
      let! snapshot := in_state Snapshot in
      let! exists_ := in_state (Exist addr) in
      let new := negb exists_ && negb (bool_decide (txType = SubtractionOnly)) in
      let nothing := bool_decide (write_capable_at writeCapablePrecompiles addr = None)
                     && bool_decide (precompile_at precompiles addr = None) && active env IsS3 && (Z.sgn value =? 0) in
      if new && nothing then mret (no_call gas None)
      else
        let! _ := sm_when new (in_state (CreateAccount addr)) in
        let! _ := in_state (env.(ctx).(Transfer) (ref_Address caller) addr value txType) in
        let! codeHash := in_state (GetCodeHash addr) in
        let! code := in_state (GetCode addr) in
        let! validator := in_state (env.(ctx).(ctx_IsValidator) addr) in
        let '(codeHash, code) := if validator : bool then (Keccak256Hash [], []) else (codeHash, code) in
        let! contract := NewContract caller addr value gas in
        let! r := run (SetCallCode addr codeHash code contract) input false in
        settle snapshot r).
Definition CallCode (caller : ContractRef) (addr : Address) (input : list Z) (gas value : Z) : VM CallResult :=
  guarded gas (
    let! enough := in_state (env.(ctx).(CanTransfer) (ref_Address caller) value) in
    if negb enough then mret (no_call gas (Some ErrInsufficientBalance))
    else
      let! snapshot := in_state Snapshot in
      let! contract := NewContract caller (ref_Address caller) value gas in
      let! codeHash := in_state (GetCodeHash addr) in
      let! code := in_state (GetCode addr) in
      let! r := run (SetCallCode addr codeHash code contract) input false in
      settle snapshot r).
Definition DelegateCall (caller : ContractRef) (addr : Address) (input : list Z) (gas : Z) : VM CallResult :=
  guarded gas (
    let! snapshot := in_state Snapshot in
    let! contract := NewContract caller (ref_Address caller) 0 gas in
    let! contract := lift (AsDelegate contract) in
    let! codeHash := in_state (GetCodeHash addr) in
    let! code := in_state (GetCode addr) in
    let! r := run (SetCallCode addr codeHash code contract) input false in
    settle snapshot r).
Definition StaticCall (caller : ContractRef) (addr : Address) (input : list Z) (gas : Z) : VM CallResult :=
  guarded gas (
    let! snapshot := in_state Snapshot in
    let! contract := NewContract caller addr 0 gas in
    let! codeHash := in_state (GetCodeHash addr) in
    let! code := in_state (GetCode addr) in
    let! _ := in_state (AddBalance addr 0) in
    let! r := run (SetCallCode addr codeHash code contract) input true in
    settle snapshot r).

(** *** Creation *)

(** [SetCodeOptionalHash]: a zero hash where [Hash] has not been asked for. *)
Record codeAndHash := mkCodeAndHash { ch_code : list Z; ch_hash : Z }.
Definition ch_Hash (c : codeAndHash) : codeAndHash :=
  if c.(ch_hash) =? 0 then mkCodeAndHash c.(ch_code) (Keccak256Hash c.(ch_code)) else c.
(** The code that is returned is stored, if there is gas for it. *)
Definition store_code (address : Address) (r : CallResult) : VM CallResult :=
  let cost := u64 (u64 (Z.of_nat (length r.(ret))) * CreateDataGas) in
  if r.(leftOverGas) <? cost then mret (mkCall r.(ret) false r.(leftOverGas) (Some ErrCodeStoreOutOfGas))
  else
    let! _ := in_state (SetCode address r.(ret) false) in
    mret (mkCall r.(ret) false (r.(leftOverGas) - cost) None).
Definition create (caller : ContractRef) (c : codeAndHash) (gas value : Z) (address : Address) : VM (Address * CallResult) :=
  let! d := gets depth in
  if CallCreateDepth <? d then mret (zero_address, no_call gas (Some ErrDepth))
  else
    let! enough := in_state (env.(ctx).(CanTransfer) (ref_Address caller) value) in
    if negb enough then mret (zero_address, no_call gas (Some ErrInsufficientBalance))
    else
      let! nonce := in_state (GetNonce (ref_Address caller)) in
      let! _ := in_state (SetNonce (ref_Address caller) (u64 (nonce + 1))) in
      let! contractHash := in_state (GetCodeHash address) in
      let! nonce := in_state (GetNonce address) in
      if negb (nonce =? 0) || (negb (contractHash =? 0) && negb (contractHash =? Keccak256Hash []))
      then mret (zero_address, no_call 0 (Some ErrContractAddressCollision))
      else
        let! snapshot := in_state Snapshot in
        let! _ := in_state (CreateAccount address) in
        let! _ := sm_when (active env IsEIP155) (in_state (SetNonce address 1)) in
        let! _ := in_state (env.(ctx).(Transfer) (ref_Address caller) address value SameShardTx) in
        let! contract := NewContract caller address value gas in
        if env.(vmConfig).(NoRecursion) && (0 <? d) then mret (address, no_call gas None)
        else
          let! r := run (SetCallCode address c.(ch_hash) c.(ch_code) contract) [] false in
          let maxCodeSizeExceeded := active env IsEIP155 && (MaxCodeSize <? Z.of_nat (length r.(ret))) in
          let! r := (if bool_decide (r.(callErr) = None) && negb maxCodeSizeExceeded then store_code address r else mret r) in
          let! r :=
            (if maxCodeSizeExceeded
                || bool_decide (is_Some r.(callErr)) && (active env IsS3 || negb (bool_decide (r.(callErr) = Some ErrCodeStoreOutOfGas)))
             then revert_to snapshot r else mret r) in
          mret (address,
                if maxCodeSizeExceeded && bool_decide (r.(callErr) = None)
                then mkCall r.(ret) false r.(leftOverGas) (Some errMaxCodeSizeExceeded) else r).
Definition Create (caller : ContractRef) (code : list Z) (gas value : Z) : VM (Address * CallResult) :=
  let! nonce := in_state (GetNonce (ref_Address caller)) in
  create caller (mkCodeAndHash code 0) gas value (CreateAddress (ref_Address caller) nonce).
Definition Create2 (caller : ContractRef) (code : list Z) (gas endowment salt : Z) : VM (Address * CallResult) :=
  let c := ch_Hash (mkCodeAndHash code 0) in
  create caller c gas endowment (CreateAddress2 (ref_Address caller) (BigToHash salt) (be_bytes 32 c.(ch_hash))).

Definition calls : Calls S := mkCalls S Call CallCode DelegateCall StaticCall Create Create2.

(** ** One turn of the loop *)

Notation continue := (mret None : EM S (option Halt)).
Definition halt (s : Slice) (err : option string) : EM S (option Halt) := mret (Some (s, err)).
Definition throw (err : string) : EM S (option Halt) := halt nil_slice (Some err).
(** [contract.UseGas]. *)
Definition charge (gas : Z) : EM S bool :=
  let! c := fget contract in
  let '(c, ok) := UseGas gas c in
  let! _ := fmod (set_contract c) in mret ok.

(** The size the operation needs, in whole words. *)
Definition needed_memory (o : operation S) : EM S (Z + string) :=
  match o.(memorySize) with
  | None => mret (inl 0)
  | Some size =>
      let! st := fget stack in
      let! '(memSize, overflow) := lift (size st) in
      if overflow : bool then mret (inr errGasUintOverflow)
      else
        let '(memorySize, overflow) := SafeMul (toWordSize memSize) 32 in
        mret (if overflow : bool then inr errGasUintOverflow else inl memorySize)
  end.
(** The dynamic gas; [false] when it cannot be computed or paid. *)
Definition charge_dynamic (o : operation S) (memorySize : Z) : EM S bool :=
  match o.(dynamicGas) with
  | None => mret true
  | Some gas =>
      let! cost := gas memorySize in
      match cost with inr _ => mret false | inl cost => charge cost end
  end.
Definition execute_op (o : operation S) : EM S (option Halt) :=
  let! res := o.(execute) calls in
  let! _ := sm_when o.(returns) (emod (set_returnData (match res with inl s => s | inr _ => nil_slice end))) in
  match res with
  | inr err => throw err
  | inl s =>
      if o.(reverts) then halt s (Some ErrExecutionReverted)
      else if o.(halts) then halt s None
      else let! _ := sm_when (negb o.(jumps)) (fmod (fun f => set_pc (u64 (f.(pc) + 1)) f)) in continue
  end.
(** Does the operation write where writing is forbidden? *)
Definition violates (op : OpCode) (o : operation S) : EM S bool :=
  let! ro := eget readOnly in
  if ro && (chainRules env).(rIsS3) then
    if o.(writes) then mret true
    else if op =? CALL then (let! value := back 2 in mret (negb (Z.sgn value =? 0))) else mret false
  else mret false.
Definition step : EM S (option Halt) :=
  let! f := fget id in
  let op := GetOp f.(pc) f.(contract) in
  let o := table op in
  let sLen := Z.of_nat (length f.(stack)) in
  if negb o.(valid) then throw "invalid opcode"
  else if sLen <? o.(op_minStack) then throw "stack underflow"
  else if o.(op_maxStack) <? sLen then throw "stack limit reached"
  else
    let! forbidden := violates op o in
    if forbidden : bool then throw errWriteProtection
    else
      let! paid := charge o.(constantGas) in
      if negb paid then throw ErrOutOfGas
      else
        let! needed := needed_memory o in
        match needed with
        | inr err => throw err
        | inl memorySize =>
            let! paid := charge_dynamic o memorySize in
            if negb paid then throw ErrOutOfGas
            else
              let! _ := sm_when (0 <? memorySize) (fmod (fun f => set_memory (Resize memorySize f.(memory)) f)) in
              execute_op o
        end.
End calls.

(** ** The loop *)

Fixpoint loop (fuel : nat) : EM S Halt :=
  match fuel with
  | O => lift (Err out_of_fuel)
  | Datatypes.S n =>
      let! aborted := eget abort in
      if aborted : bool then mret (nil_slice, None)
      else
        let! r := step (loop n) in
        match r with Some r => mret r | None => loop n end
  end.
End evm.

(** ** The machine of a transaction *)

Definition NewEVM {S} (statedb : S) : EVM S := mkEVM statedb 0 0 false false nil_slice ∅ [] None.
Definition Cancel {S} (e : EVM S) : EVM S :=
  mkEVM e.(StateDB) e.(depth) e.(callGasTemp) true e.(readOnly) e.(returnData) e.(jumpdests) e.(StakeMsgs) e.(cxReceipt).
Definition Cancelled {S} (e : EVM S) : bool := e.(abort).
