(* ===== verification/EvmWp.v ===== *)
(** * A program logic for the virtual machine

    [wp W m Q s]: from the state [s] the call [m] gives a result that satisfies
    [Q], or panics with a message in [W]; it never ends with [Err], which in the
    machine stands for running out of fuel.  [state_laws] is what the machine
    asks of the state database and of the chain; [frame_ok] and [evm_ok] are the
    invariants of a running frame and of the machine. *)
From S2P Require Import Prelude Bls Params Delegation Validator CXReceipt Receipt StakingVerifier Opcodes EvmCode Gas EvmMemory Precompiles StakingAbi EvmState EvmGas EvmOps.
Local Open Scope Z_scope.

(** ** Postconditions of stateful calls *)

Section wp.
Context {T : Type} (W : string -> Prop).
Definition wp {A} (m : SM T A) (Q : A -> T -> Prop) (s : T) : Prop :=
  match (m s).2 with Ok a => Q a (m s).1 | Err _ => False | Panic w => W w end.

Lemma wp_ret {A} (a : A) (Q : A -> T -> Prop) s : Q a s -> wp (mret a) Q s.
Proof. done. Qed.
Lemma wp_bind {A B} (m : SM T A) (k : A -> SM T B) Q s : wp m (fun a => wp (k a) Q) s -> wp (mbind k m) Q s.
Proof. unfold wp, mbind, SM_bind. by destruct (m s) as [s1 [a|e|w]]. Qed.
Lemma wp_mono {A} (m : SM T A) (Q Q' : A -> T -> Prop) s : wp m Q s -> (forall a s', Q a s' -> Q' a s') -> wp m Q' s.
Proof. unfold wp. destruct (m s).2; naive_solver. Qed.
Lemma wp_conj {A} (m : SM T A) (Q1 Q2 : A -> T -> Prop) s : wp m Q1 s -> wp m Q2 s -> wp m (fun a s' => Q1 a s' /\ Q2 a s') s.
Proof. unfold wp. by destruct (m s).2. Qed.
Lemma wp_lift {A} (r : outcome A) (Q : A -> T -> Prop) s :
  match r with Ok a => Q a s | Err _ => False | Panic w => W w end -> wp (lift r) Q s.
Proof. done. Qed.
Lemma wp_lift_Ok {A} (r : outcome A) a (Q : A -> T -> Prop) s : r = Ok a -> Q a s -> wp (lift r) Q s.
Proof. by intros -> HQ. Qed.
Lemma wp_gets {A} (f : T -> A) (Q : A -> T -> Prop) s : Q (f s) s -> wp (gets f) Q s.
Proof. done. Qed.
Lemma wp_modify (f : T -> T) (Q : unit -> T -> Prop) s : Q tt (f s) -> wp (modify f) Q s.
Proof. done. Qed.
Lemma wp_when (b : bool) (m : SM T unit) (Q : unit -> T -> Prop) s :
  (b = true -> wp m Q s) -> (b = false -> Q tt s) -> wp (sm_when b m) Q s.
Proof. destruct b; intros H1 H2; [by apply H1|by apply H2]. Qed.
Lemma wp_if {A} (b : bool) (m1 m2 : SM T A) (Q : A -> T -> Prop) s :
  (b = true -> wp m1 Q s) -> (b = false -> wp m2 Q s) -> wp (if b then m1 else m2) Q s.
Proof. destruct b; intros H1 H2; [by apply H1|by apply H2]. Qed.
End wp.

(** ** From an instruction *)

Section frames.
Context {S : Type} (W : string -> Prop).
Notation EM := (EM S).
Notation wp := (wp W).
Implicit Types (f : Frame) (e : EVM S) (p : Z) (c : Contract) (m : Memory) (st : Stack).

Lemma wp_fget {A} (g : Frame -> A) (Q : A -> Frame * EVM S -> Prop) f e : Q (g f) (f, e) -> wp (fget g : EM A) Q (f, e).
Proof. done. Qed.
Lemma wp_eget {A} (g : EVM S -> A) (Q : A -> Frame * EVM S -> Prop) f e : Q (g e) (f, e) -> wp (eget g : EM A) Q (f, e).
Proof. done. Qed.
Lemma wp_fmod (g : Frame -> Frame) (Q : unit -> Frame * EVM S -> Prop) f e : Q tt (g f, e) -> wp (fmod g : EM unit) Q (f, e).
Proof. done. Qed.
Lemma wp_emod (g : EVM S -> EVM S) (Q : unit -> Frame * EVM S -> Prop) f e : Q tt (f, g e) -> wp (emod g : EM unit) Q (f, e).
Proof. done. Qed.
Lemma wp_push d (Q : unit -> Frame * EVM S -> Prop) p c m st e :
  Q tt (mkFrame p c m (d :: st), e) -> wp (push d : EM unit) Q (mkFrame p c m st, e).
Proof. done. Qed.
Lemma wp_pop (Q : Z -> Frame * EVM S -> Prop) d p c m st e :
  Q d (mkFrame p c m st, e) -> wp (pop : EM Z) Q (mkFrame p c m (d :: st), e).
Proof. done. Qed.
Lemma wp_peek (Q : Z -> Frame * EVM S -> Prop) d p c m st e :
  Q d (mkFrame p c m (d :: st), e) -> wp (peek : EM Z) Q (mkFrame p c m (d :: st), e).
Proof. done. Qed.
Lemma wp_set_top x (Q : unit -> Frame * EVM S -> Prop) d p c m st e :
  Q tt (mkFrame p c m (x :: st), e) -> wp (set_top x : EM unit) Q (mkFrame p c m (d :: st), e).
Proof. done. Qed.
Lemma wp_back n (Q : Z -> Frame * EVM S -> Prop) v f e : stack f !! n = Some v -> Q v (f, e) -> wp (back n : EM Z) Q (f, e).
Proof. intros Hn HQ. unfold back, Back. apply wp_bind, wp_fget. rewrite Hn. exact HQ. Qed.
Lemma wp_mem_read {A} (g : Memory -> outcome A) a (Q : A -> Frame * EVM S -> Prop) f e :
  g (memory f) = Ok a -> Q a (f, e) -> wp (mem_read g : EM A) Q (f, e).
Proof. intros Hg HQ. unfold mem_read. apply wp_bind, wp_fget. by eapply wp_lift_Ok. Qed.
Lemma wp_mem_update g m' (Q : unit -> Frame * EVM S -> Prop) p c m st e :
  g m = Ok m' -> Q tt (mkFrame p c m' st, e) -> wp (mem_update g : EM unit) Q (mkFrame p c m st, e).
Proof. intros Hg HQ. unfold mem_update. apply wp_bind, wp_fget, wp_bind. by eapply wp_lift_Ok. Qed.
Lemma wp_bytes_of s (Q : list Z -> Frame * EVM S -> Prop) f e : Q (resolve (memory f) s) (f, e) -> wp (bytes_of s : EM (list Z)) Q (f, e).
Proof. done. Qed.

Lemma wp_in_state {A} (x : SM S A) (Q : A -> EVM S -> Prop) e :
  EvmWp.wp W x (fun a s => Q a (set_StateDB s e)) (StateDB e) -> EvmWp.wp W (in_state x) Q e.
Proof. unfold EvmWp.wp, in_state. by destruct (x (StateDB e)) as [s [a|err|w]]. Qed.
Lemma wp_on_evm {A} (x : SM (EVM S) A) (Q : A -> Frame * EVM S -> Prop) f e :
  EvmWp.wp W x (fun a e' => Q a (f, e')) e -> wp (on_evm x) Q (f, e).
Proof. unfold EvmWp.wp, on_evm. cbn. by destruct (x e) as [s [a|err|w]]. Qed.
Lemma wp_on_state {A} (x : SM S A) (Q : A -> Frame * EVM S -> Prop) f e :
  EvmWp.wp W x (fun a s => Q a (f, set_StateDB s e)) (StateDB e) -> wp (on_state x) Q (f, e).
Proof. intros Hx. by apply wp_on_evm, wp_in_state. Qed.
End frames.

(** ** What the machine is given *)

Notation any := (fun _ => True).
Definition nonneg (v : Z) : Prop := 0 <= v.
(** Bytes that fit in Go's memory. *)
Definition data_ok (b : list Z) : Prop := Forall is_byte b /\ Z.of_nat (length b) < 2 ^ 63.

Section laws.
Context {S : Type} {V : VMState S} {H : Hashes} {C : CryptoLib} {L : EvmLib}.
Context (W : string -> Prop) (env : Env S).

Definition meth (I : S -> Prop) {A} (m : SM S A) (R : A -> Prop) : Prop :=
  forall s, I s -> wp W m (fun a s' => I s' /\ R a) s.
(** The hash belongs to the code, unless there is none. *)
Definition hash_of (h : Z) (code : list Z) : Prop := code = [] \/ h = 0 \/ Keccak256Hash code = h.

(** [SI] is the state database's invariant and [funded a v] says that [a] can
    spend [v]. *)
Record state_laws (SI : S -> Prop) (funded : Address -> Z -> S -> Prop) : Prop := {
  law_CreateAccount a : meth SI (CreateAccount a) any;
  law_AddBalance a x : nonneg x -> meth SI (AddBalance a x) any;
  law_GetBalance a : meth SI (GetBalance a) nonneg;
  law_GetNonce a : meth SI (GetNonce a) any;
  law_SetNonce a n : meth SI (SetNonce a n) any;
  law_GetCodeHash a : meth SI (GetCodeHash a) nonneg;
  law_GetCode a : meth SI (GetCode a) data_ok;
  law_code a : meth SI (let! h := GetCodeHash a in let! c := GetCode a in mret (h, c))
                 (fun hc => data_ok hc.2 /\ hash_of hc.1 hc.2);
  law_SetCode a c b : data_ok c -> meth SI (SetCode a c b) any;
  law_GetCodeSize a : meth SI (GetCodeSize a) any;
  law_AddRefund g : meth SI (AddRefund g) any;
  law_SubRefund g : meth SI (SubRefund g) any;
  law_GetCommittedState a k : meth SI (GetCommittedState a k) any;
  law_GetState a k : meth SI (GetState a k) nonneg;
  law_SetState a k v : meth SI (SetState a k v) any;
  law_Suicide a : meth SI (Suicide a) any;
  law_HasSuicided a : meth SI (HasSuicided a) any;
  law_Exist a : meth SI (Exist a) any;
  law_Empty a : meth SI (Empty a) any;
  law_IsValidator a : meth SI (IsValidator a) any;
  law_Snapshot : meth SI Snapshot any;
  law_RevertToSnapshot i : meth SI (RevertToSnapshot i) any;
  law_AddLog l : meth SI (AddLog l) any;
  law_AddPreimage h c : meth SI (AddPreimage h c) any;
  (* what the transaction's context is made of *)
  law_CanTransfer a v s : SI s -> wp W (env.(ctx).(CanTransfer) a v) (fun ok s' => SI s' /\ (ok = true -> funded a v s')) s;
  law_Transfer a b v t s : SI s -> nonneg v -> funded a v s -> wp W (env.(ctx).(Transfer) a b v t) (fun _ s' => SI s') s;
  law_ctx_IsValidator a : meth SI (env.(ctx).(ctx_IsValidator) a) any;
  law_Delegate m : meth SI (caught (env.(ctx).(ctx_Delegate) m)) any;
  law_Undelegate m : meth SI (caught (env.(ctx).(ctx_Undelegate) m)) any;
  law_CollectRewards m : meth SI (caught (env.(ctx).(ctx_CollectRewards) m)) any;
  (* what a check of the balance outlives *)
  funded_CreateAccount a v b : meth (funded a v) (CreateAccount b) any;
  funded_GetNonce a v b : meth (funded a v) (GetNonce b) any;
  funded_SetNonce a v b n : meth (funded a v) (SetNonce b n) any;
  funded_GetCodeHash a v b : meth (funded a v) (GetCodeHash b) any;
  funded_Exist a v b : meth (funded a v) (Exist b) any;
  funded_Snapshot a v : meth (funded a v) Snapshot any
}.

(** Numbers the machine takes from outside. *)
Record env_ok : Prop := {
  env_Origin : nonneg env.(ctx).(Origin);
  env_GasPrice : nonneg env.(ctx).(GasPrice);
  env_Epoch : 0 <= env.(ctx).(EpochNumber) < 256 ^ 8;
  env_Coinbase : nonneg env.(ctx).(Coinbase);
  env_GetHash n : nonneg (env.(ctx).(GetHash) n);
  env_ChainID : nonneg (default 0 env.(chainConfig).(ChainID)) /\ nonneg (default 0 env.(chainConfig).(EthCompatibleChainID));
  env_Keccak b : nonneg (Keccak256Hash b);
  env_CreateAddress a n : nonneg (CreateAddress a n);
  env_CreateAddress2 a s h : nonneg (CreateAddress2 a s h);
  env_rlp m : data_ok (rlp_StakeMsg m)
}.
(** The cryptographic libraries return bytes. *)
Record crypto_ok : Prop := {
  crypto_Ecrecover h s k : Ecrecover h s = Ok k -> data_ok k;
  crypto_Sum256 b : data_ok (Sum256 b);
  crypto_Ripemd160 b : data_ok (Ripemd160 b);
  crypto_Sha3 b : data_ok (Sha3_Sum256 b);
  crypto_G1_Unmarshal b w : G1_Unmarshal b <> Panic w;
  crypto_G2_Unmarshal b w : G2_Unmarshal b <> Panic w;
  crypto_G1_Marshal p : data_ok (G1_Marshal p);
  crypto_blake2b h m t final rounds : Z.of_nat (length (blake2b_F h m t final rounds)) < 2 ^ 32
}.
End laws.

(** ** Invariants *)

Section invariants.
Context {S : Type} {V : VMState S} {H : Hashes} (SI : S -> Prop).

(** No frame has this much gas: the gas limits of blocks are far below. *)
Definition max_gas : Z := 2 ^ 61.
Definition ref_ok (r : ContractRef) : Prop :=
  match r with AccountRef a => nonneg a | ContractR a c v => nonneg a /\ nonneg c /\ nonneg v end.
Record contract_ok (c : Contract) : Prop := {
  ck_gas : 0 <= c.(cGas) < max_gas;
  ck_code : data_ok c.(cCode);
  ck_hash : hash_of c.(cCodeHash) c.(cCode);
  ck_input : data_ok c.(Input);
  ck_caller : nonneg c.(CallerAddress);
  ck_self : nonneg c.(self_);
  ck_value : nonneg c.(cValue);
  ck_ref : ref_ok c.(caller)
}.
Record memory_ok (m : Memory) : Prop := {
  mk_ok : mem_ok m;
  mk_store : Forall is_byte m.(store);
  mk_left : Forall (Forall is_byte) m.(left_arrays);
  mk_cap : Len m <= m.(mcap)
}.
Record frame_ok (f : Frame) : Prop := {
  fk_pc : 0 <= f.(pc) < 2 ^ 64;
  fk_contract : contract_ok f.(contract);
  fk_memory : memory_ok f.(memory);
  fk_stack : Forall nonneg f.(stack);
  fk_length : Z.of_nat (length f.(stack)) <= StackLimit
}.
Definition slice_ok (s : Slice) : Prop := match s with Bytes b => data_ok b | View _ _ len => len < 2 ^ 63 end.
Definition analysed (h : Z) (bits : bitvec) : Prop := exists code, Keccak256Hash code = h /\ codeBitmap code = Ok bits.
Record evm_ok (e : EVM S) : Prop := {
  ek_state : SI e.(StateDB);
  ek_temp : 0 <= e.(callGasTemp) < 2 ^ 64;
  ek_data : slice_ok e.(returnData);
  ek_jumpdests : map_Forall analysed e.(jumpdests)
}.
(** What a call leaves as it was. *)
Record same_ctx (e e' : EVM S) : Prop := {
  sc_depth : depth e' = depth e; sc_readOnly : readOnly e' = readOnly e; sc_abort : abort e' = abort e
}.
#[export] Instance same_ctx_po : PreOrder same_ctx.
Proof. split; [by intros e|intros e1 e2 e3 [] []; split; congruence]. Qed.
End invariants.
