(* ===== verification/EvmBytes.v ===== *)
(** * Bytes and memory that are in order

    The slices the machine takes of code, input and memory are in range, and
    what it stores are bytes. *)
From S2P Require Import Prelude Bls CXReceipt Opcodes EvmCode Gas EvmMemory Precompiles StakingAbi EvmState EvmWp.
Local Open Scope Z_scope.

(** ** Lists of bytes *)

Notation bytes := (Forall is_byte).
Lemma zeros_bytes n : bytes (zeros n).
Proof. apply Forall_replicate. unfold is_byte. lia. Qed.
Lemma be_bytes_bytes n v : bytes (be_bytes n v).
Proof. revert v. induction n as [|n IH]; intros v; cbn [be_bytes]; constructor; [|apply IH]. unfold is_byte. apply Z.mod_pos_bound. lia. Qed.
Lemma be_value_nonneg b : bytes b -> nonneg (be_value b).
Proof. intros Hb. destruct (be_value_range b Hb). done. Qed.
Lemma app_bytes a b : bytes a -> bytes b -> bytes (a ++ b).
Proof. intros. by apply Forall_app. Qed.
Lemma RightPadBytes_bytes b l : bytes b -> bytes (RightPadBytes b l).
Proof. intros Hb. apply app_bytes; [done|apply zeros_bytes]. Qed.
Lemma LeftPadBytes_bytes b l : bytes b -> bytes (LeftPadBytes b l).
Proof. intros Hb. apply app_bytes; [apply zeros_bytes|done]. Qed.
Lemma big_Bytes_bytes v : bytes (big_Bytes v).
Proof. apply be_bytes_bytes. Qed.
Create HintDb evm discriminated.
#[export] Hint Resolve zeros_bytes be_bytes_bytes be_value_nonneg app_bytes RightPadBytes_bytes LeftPadBytes_bytes big_Bytes_bytes
  Forall_take Forall_drop Forall_nil_2 : evm.

Lemma slice_cap_ok b cap low high : bytes b -> 0 <= low <= high -> high <= cap ->
  exists s, slice_cap b cap low high = Ok s /\ bytes s /\ Z.of_nat (length s) = high - low.
Proof.
  intros Hb Hl Hh. unfold slice_cap. destruct (Z.leb_spec 0 low), (Z.leb_spec low high), (Z.leb_spec high cap); try lia. cbn.
  eexists. split; [done|]. split; [eauto 6 with evm|].
  rewrite length_take, length_drop, length_app. unfold zeros. rewrite length_replicate. lia.
Qed.
Lemma slice_ok_range b low high : bytes b -> 0 <= low <= high -> high <= Z.of_nat (length b) ->
  exists s, slice b low high = Ok s /\ bytes s /\ Z.of_nat (length s) = high - low.
Proof. apply slice_cap_ok. Qed.

(** ** common.go *)

Lemma getDataBig_ok data start size : data_ok data -> nonneg start -> nonneg size ->
  exists b, getDataBig data start size = Ok b /\ bytes b.
Proof.
  intros [Hb Hl] Hs Hz. unfold nonneg in *. unfold getDataBig, Big.Uint64. set (s := Z.min start _). set (e := Z.min (s + size) _).
  assert (0 <= s <= e /\ e <= Z.of_nat (length data)) as [Hse He] by lia. rewrite !(u64_small s), !(u64_small e) by lia.
  destruct (slice_ok_range data s e Hb Hse He) as (b & -> & Hbb & _). eexists. split; [done|auto with evm].
Qed.
Lemma getData_ok data start size : data_ok data -> 0 <= start -> 0 <= size < 2 ^ 63 -> start + size < 2 ^ 64 ->
  exists b, getData data start size = Ok b /\ bytes b /\ Z.of_nat (length b) = size.
Proof.
  intros [Hb Hl] Hs Hz Ho. unfold getData. rewrite (u64_small (Z.of_nat _)) by lia. set (len := Z.of_nat (length data)) in *.
  set (s := if len <? start then len else start). assert (0 <= s <= len /\ s <= start) as [Hsl Hss] by (subst s; destruct (Z.ltb_spec len start); lia).
  rewrite (u64_small (s + size)) by lia. set (e := if len <? s + size then len else s + size).
  assert (s <= e <= len /\ e <= s + size) as [He Hes] by (subst e; destruct (Z.ltb_spec len (s + size)); lia).
  destruct (slice_ok_range data s e Hb ltac:(lia) ltac:(lia)) as (b & -> & Hbb & Hbl). eexists. split; [done|]. split; [auto with evm|].
  rewrite i64_small by lia. unfold RightPadBytes, zeros. rewrite length_app, length_replicate. lia.
Qed.

(** Data of a bounded length. *)
Lemma data_bytes b : data_ok b -> bytes b.
Proof. by intros []. Qed.
Lemma be_bytes_data n v : Z.of_nat n < 2 ^ 63 -> data_ok (be_bytes n v).
Proof. intros Hn. split; [apply be_bytes_bytes|by rewrite be_bytes_length]. Qed.
Lemma LeftPadBytes_data b l : data_ok b -> l < 2 ^ 63 -> data_ok (LeftPadBytes b l).
Proof. intros [Hb Hl] Hn. split; [auto with evm|]. unfold LeftPadBytes, zeros. rewrite length_app, length_replicate. lia. Qed.
Lemma drop_data n b : data_ok b -> data_ok (drop n b).
Proof. intros [Hb Hl]. split; [auto with evm|]. rewrite length_drop. lia. Qed.
Lemma nil_data : data_ok [].
Proof. by split. Qed.
(** Numbers of [n] bytes. *)
Lemma big_Bytes_data v n : 0 <= v < 256 ^ n -> 0 <= n < 2 ^ 60 -> data_ok (big_Bytes v).
Proof.
  intros Hv Hn. split; [apply big_Bytes_bytes|]. unfold big_Bytes. rewrite be_bytes_length. pose proof (Big.BitLen_nonneg v).
  assert (Big.BitLen v <= 8 * n) as Hb.
  { apply Big.BitLen_le; [lia|]. rewrite Z.abs_eq by lia. rewrite Z.pow_mul_r by lia. exact (proj2 Hv). }
  assert ((Big.BitLen v + 7) / 8 <= n + 1) by (apply Z.div_le_upper_bound; lia). lia.
Qed.
#[export] Hint Resolve data_bytes LeftPadBytes_data drop_data nil_data : evm.

(** ** memory.go *)

(** The memory holds the [size] bytes from [off]. *)
Definition covered (off size : Z) (m : Memory) : Prop := size = 0 \/ 0 <= off /\ 0 < size /\ off + size <= Len m.

Lemma calcMemSize64_covered off l n m : calcMemSize64 off l = (n, false) -> n <= Len m -> covered off l m.
Proof.
  unfold calcMemSize64, calcMemSize64WithUint, Big.IsUint64, Big.Uint64. intros E Hn.
  destruct (Z.leb_spec 0 l), (Z.ltb_spec l (2 ^ 64)); cbn in E; try done. rewrite (u64_small l) in E by lia.
  destruct (Z.eqb_spec l 0) as [->|Hl0]; [by left|]. right.
  destruct (Z.leb_spec 0 off), (Z.ltb_spec off (2 ^ 64)); cbn in E; try done. rewrite (u64_small off) in E by lia.
  injection E as <- E2. apply Z.ltb_ge in E2. pose proof (Z.mod_le (off + l) (2 ^ 64)).
  assert (u64 (off + l) = off + l); [|lia]. apply u64_small. split; [lia|]. apply Z.lt_nge. intros Ho.
  assert (u64 (off + l) = off + l - 2 ^ 64); [|lia]. unfold u64. symmetry. apply Z.mod_unique with 1; lia.
Qed.
Lemma calcFixed_covered off l n m : 0 < l < 2 ^ 64 -> calcMemSize64WithUint off l = (n, false) -> n <= Len m -> covered off l m.
Proof.
  intros Hl E Hn. apply (calcMemSize64_covered off l n); [|done]. unfold calcMemSize64, Big.IsUint64, Big.Uint64.
  rewrite u64_small by lia. by destruct (Z.leb_spec 0 l), (Z.ltb_spec l (2 ^ 64)); try lia.
Qed.

Section memory.
Implicit Types (m : Memory).
Lemma memory_small m : memory_ok m -> 0 <= Len m <= 0x1FFFFFFFE0.
Proof. intros [[] ]. split; [apply Len_nonneg|done]. Qed.

Lemma resolve_ok m s : memory_ok m -> slice_ok s -> data_ok (resolve m s).
Proof.
  intros [_ Hst Hle _] Hs. destruct s as [b|arr off l]; [done|]. cbn in *. set (a := match _ with Some a => a | None => _ end).
  assert (bytes a) as Ha. { subst a. destruct (left_arrays m !! arr) as [a|] eqn:E; [|done]. by eapply (proj1 (Forall_lookup _ _) Hle). }
  split; [eauto 6 with evm|]. rewrite length_take. lia.
Qed.

Lemma GetPtr_ok m off size : memory_ok m -> covered off size m ->
  exists s, GetPtr (Big.Int64 off) (Big.Int64 size) m = Ok s /\ slice_ok s /\ data_ok (resolve m s).
Proof.
  intros Hm Hc. pose proof (memory_small m Hm) as Hl. unfold GetPtr, Big.Int64. destruct Hc as [->|(Ho & Hs & Hos)].
  { exists (Bytes []). split; [done|]. repeat split; constructor. }
  rewrite !i64_small by lia. destruct (Z.eqb_spec size 0); [lia|]. destruct (Z.ltb_spec off (Len m)); [|lia].
  destruct (slice_cap_ok (store m) (mcap m) off (off + size)) as (b & -> & _); [apply Hm|lia|destruct Hm; lia|].
  eexists. split; [done|]. assert (slice_ok (View (length (left_arrays m)) off size)) as Hs' by (cbn; lia). split; [done|by apply resolve_ok].
Qed.
Lemma GetCopy_ok m off size : memory_ok m -> covered off size m ->
  exists b, GetCopy (Big.Int64 off) (Big.Int64 size) m = Ok b /\ data_ok b.
Proof.
  intros Hm Hc. pose proof (memory_small m Hm) as Hl. unfold GetCopy, Big.Int64. destruct Hc as [->|(Ho & Hs & Hos)].
  { exists []. split; [done|]. split; [constructor|done]. }
  rewrite !i64_small by lia. destruct (Z.eqb_spec size 0); [lia|]. destruct (Z.ltb_spec off (Len m)); [|lia].
  destruct (slice_cap_ok (store m) (mcap m) off (off + size)) as (b & -> & Hb & Hbl); [apply Hm|lia|destruct Hm; lia|].
  eexists. split; [done|]. split; [done|lia].
Qed.

Lemma copy_at_length b off size v : (0 <= off)%Z -> off + size <= Z.of_nat (length b) -> length (copy_at b off size v) = length b.
Proof. intros Ho Hs. unfold copy_at. rewrite !length_app, !length_take, length_drop. lia. Qed.
Lemma with_store_ok m s : memory_ok m -> bytes s -> length s = length (store m) -> memory_ok (with_store s m).
Proof.
  intros [[Hw Hp Hs] Hst Hle Hc] Hb El. assert (Len (with_store s m) = Len m) as E by (unfold Len; cbn; by rewrite El).
  split; [split; rewrite E; done|done|done|by rewrite E].
Qed.
Lemma copy_at_ok m off size v : memory_ok m -> 0 <= off -> 0 <= size -> off + size <= Len m -> bytes v ->
  memory_ok (with_store (copy_at (store m) off size v) m) /\ Len (with_store (copy_at (store m) off size v) m) = Len m.
Proof.
  intros Hm Ho Hs Hl Hv. assert (length (copy_at (store m) off size v) = length (store m)) as E by (apply copy_at_length; unfold Len in *; lia).
  split; [|unfold Len; cbn; by rewrite E]. apply with_store_ok; [done| |done]. pose proof (mk_store _ Hm). unfold copy_at. eauto 7 with evm.
Qed.
Lemma mem_Set_ok m off size v : memory_ok m -> covered off size m -> bytes v ->
  exists m', mem_Set (Big.Uint64 off) (Big.Uint64 size) v m = Ok m' /\ memory_ok m' /\ Len m' = Len m.
Proof.
  intros Hm Hc Hv. pose proof (memory_small m Hm) as Hl. unfold mem_Set, Big.Uint64. destruct Hc as [->|(Ho & Hs & Hos)].
  { exists m. done. }
  rewrite (u64_small off), (u64_small size), (u64_small (off + size)) by lia. destruct (Z.ltb_spec 0 size); [|lia].
  destruct (Z.ltb_spec (Len m) (off + size)); [lia|]. destruct (Z.ltb_spec (off + size) off); [lia|].
  eexists. split; [done|]. apply copy_at_ok; [done|lia..|done].
Qed.
Lemma Set32_ok m off v : memory_ok m -> covered off 32 m ->
  exists m', Set32 (Big.Uint64 off) v m = Ok m' /\ memory_ok m' /\ Len m' = Len m.
Proof.
  intros Hm [|(Ho & _ & Hos)]; [done|]. pose proof (memory_small m Hm) as Hl. unfold Set32, Big.Uint64.
  rewrite (u64_small off), (u64_small (off + 32)) by lia.
  destruct (Z.ltb_spec (Len m) (off + 32)); [lia|]. destruct (Z.ltb_spec (off + 32) off); [lia|].
  eexists. split; [done|]. apply copy_at_ok; [done|lia..|apply be_bytes_bytes].
Qed.
Lemma store8_ok m off v : memory_ok m -> covered off 1 m ->
  exists m', (let! s := upd m.(store) (Big.Int64 off) (Z.land (Big.Int64 v) 0xff) in Ok (with_store s m)) = Ok m' /\ memory_ok m' /\ Len m' = Len m.
Proof.
  intros Hm [|(Ho & _ & Hos)]; [done|]. pose proof (memory_small m Hm) as Hl. unfold Big.Int64. rewrite (i64_small off) by lia.
  rewrite upd_Ok by (unfold Len in *; lia). eexists. split; [done|]. split; [|unfold Len; cbn; by rewrite length_insert].
  apply with_store_ok; [done| |apply length_insert]. apply Forall_insert; [apply Hm|]. unfold is_byte.
  change 0xff with (Z.ones 8). rewrite Z.land_ones by lia. apply Z.mod_pos_bound. lia.
Qed.

(** Growing. *)
Lemma Resize_ok {G : GoRuntime} m n : mem_ok (Resize n m) -> bytes (store m) -> Forall bytes (left_arrays m) -> Len m <= mcap m ->
  memory_ok (Resize n m).
Proof.
  intros Hm Hst Hle Hc. split; [done|..].
  - unfold Resize. repeat case_match; cbn; eauto with evm.
  - unfold Resize. repeat case_match; cbn; [done| |done]. apply Forall_app. auto.
  - rewrite Resize_Len. unfold Resize. destruct (Z.ltb_spec (Len m) n); [|lia]. destruct (Z.leb_spec n (mcap m)); cbn; [lia|].
    pose proof (growslice_enough (mcap m) n). lia.
Qed.
Lemma NewMemory_memory_ok : memory_ok NewMemory.
Proof. split; [apply NewMemory_ok|constructor|constructor|done]. Qed.
End memory.

(** ** The precompiled contracts are total

    Every contract prices every input, and on an input that has been paid for it
    returns bytes or an error: no slice of the input is out of range and no
    length overflows. *)

(** Bytes or an error. *)
Definition bytes_or_error (r : outcome (list Z)) : Prop :=
  match r with Ok b => data_ok b | Err _ => True | Panic _ => False end.
Definition no_panic {A} (r : outcome A) : Prop := forall w, r <> Panic w.

Section precompiles.
Context {H : Hashes} {C : CryptoLib} (HC : crypto_ok).
Implicit Types (input : list Z).

Lemma part_bytes low high input : bytes input -> bytes (part low high input).
Proof. intros Hb. unfold part. auto with evm. Qed.

(** ** The price *)

Lemma modexp_length_ok i input : data_ok input -> 0 <= i <= 2 -> exists v, modexp_length i input = Ok v /\ nonneg v.
Proof.
  intros Hd Hi. unfold modexp_length. destruct (getData_ok input (32 * i) 32 Hd) as (b & -> & Hb & _); [lia..|].
  eexists. split; [done|]. by apply be_value_nonneg.
Qed.
Lemma modexp_body_ok input : data_ok input -> data_ok (modexp_body input).
Proof. intros Hd. unfold modexp_body. destruct (_ <? _)%nat; [by apply drop_data|]. split; [constructor|done]. Qed.
Lemma modexp_expHead_ok baseLen expLen body : data_ok body -> nonneg baseLen -> nonneg expLen ->
  exists v, modexp_expHead baseLen expLen body = Ok v.
Proof.
  intros Hd Hb He. unfold nonneg in *. unfold modexp_expHead, Big.Uint64. destruct (Z.leb_spec (Z.of_nat (length body)) baseLen) as [|Hl]; [by eexists|].
  destruct Hd as [Hd1 Hd2]. destruct (Z.ltb_spec 32 expLen).
  - rewrite u64_small by lia. destruct (getData_ok body baseLen 32 (conj Hd1 Hd2)) as (b & -> & _); [lia..|]. by eexists.
  - rewrite !u64_small by lia. destruct (getData_ok body baseLen expLen (conj Hd1 Hd2)) as (b & -> & _); [lia..|]. by eexists.
Qed.

(** The price of the modular exponentiation bounds the lengths it is given. *)
Lemma modexp_price input : data_ok input -> exists baseLen expLen modLen g,
  modexp_length 0 input = Ok baseLen /\ modexp_length 1 input = Ok expLen /\ modexp_length 2 input = Ok modLen /\
  nonneg baseLen /\ nonneg expLen /\ nonneg modLen /\
  bigModExp_RequiredGas input = Ok g /\ 0 <= g < 2 ^ 64 /\
  (g < max_gas -> baseLen < 2 ^ 40 /\ modLen < 2 ^ 40 /\ (baseLen = 0 /\ modLen = 0 \/ expLen < 2 ^ 63)).
Proof.
  intros Hd. unfold bigModExp_RequiredGas.
  destruct (modexp_length_ok 0 input Hd) as (bl & -> & Hb); [lia|]. destruct (modexp_length_ok 1 input Hd) as (el & -> & He); [lia|].
  destruct (modexp_length_ok 2 input Hd) as (ml & -> & Hm); [lia|]. cbn [mbind outcome_bind].
  destruct (modexp_expHead_ok bl el _ (modexp_body_ok _ Hd) Hb He) as (hd & ->). cbn [mbind outcome_bind]. unfold nonneg in *.
  set (msb := if 0 <? Big.BitLen hd then _ else _). assert (0 <= msb) as Hmsb by (subst msb; pose proof (Big.BitLen_nonneg hd); destruct (Z.ltb_spec 0 (Big.BitLen hd)); lia).
  set (adj := (if 32 <? el then _ else _) + msb). set (x := Z.max ml bl). set (gas := modexp_complexity x * Z.max adj 1 / ModExpQuadCoeffDiv).
  assert (0 <= x) as Hx by lia. assert (x <= modexp_complexity x /\ (2 ^ 40 <= x -> 2 ^ 70 <= modexp_complexity x)) as [Hc1 Hc2].
  { unfold modexp_complexity. destruct (Z.leb_spec x 64); [nia|]. destruct (Z.leb_spec x 1024).
    - assert (0 <= x * x / 4) by (apply Z.div_pos; nia). nia.
    - assert (0 <= x * x / 16) by (apply Z.div_pos; nia). split; [nia|]. intros. assert (2 ^ 76 <= x * x / 16) by (apply Z.div_le_lower_bound; nia). nia. }
  assert (8 * (el - 32) <= adj) as Hadj by (subst adj; destruct (Z.ltb_spec 32 el); lia).
  assert (0 <= gas) as Hg0 by (apply Z.div_pos; [nia|reflexivity]). exists bl, el, ml. eexists. do 7 (split; [done|]).
  assert (forall n, gas < n -> modexp_complexity x * Z.max adj 1 < 20 * n) as Hgas.
  { intros n Hn. apply Z.lt_nge. intros Hle. assert (n <= gas); [|lia]. apply Z.div_le_lower_bound; [reflexivity|unfold ModExpQuadCoeffDiv; lia]. }
  assert (forall n, 0 <= n -> Big.BitLen gas <= n <-> gas < 2 ^ n) as Hbits by (intros n Hn; rewrite Big.BitLen_le by done; by rewrite Z.abs_eq by done).
  destruct (Z.ltb_spec 64 (Big.BitLen gas)) as [Hbig|Hsmall].
  { unfold MaxUint64. split; [lia|]. unfold max_gas. lia. }
  apply Hbits in Hsmall; [|lia]. unfold Big.Uint64. rewrite u64_small by lia. split; [lia|]. intros Hlow. apply Hgas in Hlow. unfold max_gas in Hlow.
  assert (x < 2 ^ 40) as Hx40 by (apply Z.lt_nge; intros Hge; specialize (Hc2 Hge); nia).
  split_and!; [lia|lia|]. destruct (Z.eq_dec x 0) as [|Hx0]; [left; lia|]. right.
  assert (Z.max adj 1 < 20 * 2 ^ 61) by nia. lia.
Qed.

Lemma per_word_range word base input : 0 <= per_word word base input < 2 ^ 64.
Proof. apply u64_range. Qed.
Lemma blake2F_price input : data_ok input -> 0 <= blake2F_RequiredGas input < 2 ^ 64.
Proof.
  intros Hd. unfold blake2F_RequiredGas. destruct (Nat.eqb_spec (length input) blake2FInputLength) as [E|]; [|done]. cbn [negb].
  destruct (be_value_range (part 0 4 input)) as [H0 H1]; [apply part_bytes, Hd|]. split; [done|].
  assert (length (part 0 4 input) = 4%nat) as El by (unfold part; rewrite drop_0, length_take, E; done). rewrite El in H1.
  change (256 ^ Z.of_nat 4) with (2 ^ 32) in H1. lia.
Qed.
Lemma RequiredGas_ok p input : data_ok input -> exists g, RequiredGas p input = Ok g /\ 0 <= g < 2 ^ 64.
Proof.
  intros Hd. destruct p; cbn [RequiredGas].
  5: { destruct (modexp_price input Hd) as (bl & el & ml & g & _ & _ & _ & _ & _ & _ & E & Hg & _). by exists g. }
  11: eexists; split; [reflexivity|]; by apply blake2F_price.
  all: eexists; split; [reflexivity|]; first [apply u64_range|split; [discriminate|reflexivity]].
Qed.

(** ** The result *)

Lemma recover_key_bytes v input k : recover_key v input = Some k -> data_ok k.
Proof.
  unfold recover_key. destruct (_ || _); [done|]. destruct (Ecrecover _ _) as [k'| |] eqn:E; [|done|done]. intros [= <-]. by eapply crypto_Ecrecover.
Qed.
Lemma bind_bytes {A} (m : outcome A) (k : A -> outcome (list Z)) :
  no_panic m -> (forall a, m = Ok a -> bytes_or_error (k a)) -> bytes_or_error (mbind k m).
Proof. intros Hm Hk. destruct m as [a|e|w]; [by apply Hk|done|by destruct (Hm w)]. Qed.
Lemma getData_no_panic input start size : data_ok input -> 0 <= start -> 0 <= size < 2 ^ 63 -> start + size < 2 ^ 64 -> no_panic (getData input start size).
Proof. intros Hd H1 H2 H3 w. by destruct (getData_ok input start size Hd H1 H2 H3) as (b & -> & _). Qed.
Lemma curve_no_panic b : no_panic (newCurvePoint b).
Proof. intros w. apply crypto_G1_Unmarshal, HC. Qed.

Lemma bigModExp_Run_ok input g : data_ok input -> bigModExp_RequiredGas input = Ok g -> g < max_gas -> bytes_or_error (bigModExp_Run input).
Proof.
  intros Hd Eg Hg. destruct (modexp_price input Hd) as (bl & el & ml & g' & E1 & E2 & E3 & Hb & He & Hm & E & _ & Hs).
  rewrite Eg in E. injection E as <-. destruct (Hs Hg) as (Hb40 & Hm40 & Hel). unfold nonneg in *.
  unfold bigModExp_Run. rewrite E1, E2, E3. cbn [mbind outcome_bind]. unfold Big.Uint64. rewrite !(u64_small bl), !(u64_small ml) by lia.
  destruct (Z.eqb_spec bl 0), (Z.eqb_spec ml 0); cbn [andb]; try apply nil_data.
  all: assert (el < 2 ^ 63) as He63 by lia; rewrite (u64_small el), (u64_small (bl + el)) by lia; pose proof (modexp_body_ok _ Hd) as Hbd.
  all: destruct (getData_ok (modexp_body input) 0 bl Hbd) as (b1 & -> & _ & _); [lia..|].
  all: destruct (getData_ok (modexp_body input) bl el Hbd) as (b2 & -> & _ & _); [lia..|].
  all: destruct (getData_ok (modexp_body input) (bl + el) ml Hbd) as (b3 & -> & Hb3 & Hl3); [lia..|]; cbn [mbind outcome_bind].
  all: rewrite i64_small by lia; destruct (Z.eqb_spec (be_value b3) 0) as [|Hne]; cbn [bytes_or_error]; apply LeftPadBytes_data; try apply nil_data; try lia.
  all: pose proof (be_value_range b3 Hb3) as Hr; rewrite Zpow_facts.Zpow_mod_correct by lia.
  all: apply (big_Bytes_data _ ml); [|lia]; pose proof (Z.mod_pos_bound (be_value b1 ^ be_value b2) (be_value b3)); rewrite Hl3 in Hr; lia.
Qed.

Lemma pairing_no_panic n input : no_panic (pairing_points n input).
Proof.
  revert input. induction n as [|n IH]; intros input w; [done|]. cbn [pairing_points].
  pose proof (curve_no_panic (take 64 input)) as Hc. pose proof (crypto_G2_Unmarshal HC (part 64 192 input)) as Ht. unfold newTwistPoint.
  destruct (newCurvePoint _) as [c|e|w']; [|done|by destruct (Hc w')]. destruct (G2_Unmarshal _) as [t|e|w']; [|done|by destruct (Ht w')]. cbn [mbind outcome_bind].
  specialize (IH (drop 192 input)). destruct (pairing_points n _) as [r|e|w']; [done|done|by destruct (IH w')].
Qed.

Lemma words_data (l : list Z) : Z.of_nat (length l) < 2 ^ 32 -> data_ok (concat (map (fun w => rev (be_bytes 8 w)) l)).
Proof.
  intros Hl. assert (bytes (concat (map (fun w => rev (be_bytes 8 w)) l)) /\ length (concat (map (fun w => rev (be_bytes 8 w)) l)) = (8 * length l)%nat) as [Hb E].
  { clear Hl. induction l as [|w l [IH IHl]]; [done|]. cbn [map concat]. split; [apply Forall_app; split; [apply Forall_rev, be_bytes_bytes|done]|].
    rewrite length_app, length_rev, be_bytes_length, IHl. cbn [length]. lia. }
  split; [done|]. rewrite E. lia.
Qed.

Lemma runBn256Add_ok input : data_ok input -> bytes_or_error (runBn256Add input).
Proof.
  intros Hd. unfold runBn256Add. repeat (apply bind_bytes; [first [apply getData_no_panic; [done|lia..]|apply curve_no_panic]|intros ? _]). apply HC.
Qed.
Lemma runBn256ScalarMul_ok input : data_ok input -> bytes_or_error (runBn256ScalarMul input).
Proof.
  intros Hd. unfold runBn256ScalarMul. repeat (apply bind_bytes; [first [apply getData_no_panic; [done|lia..]|apply curve_no_panic]|intros ? _]). apply HC.
Qed.
Lemma runBn256Pairing_ok input : bytes_or_error (runBn256Pairing input).
Proof.
  unfold runBn256Pairing. destruct (_ <? _)%nat; [done|]. apply bind_bytes; [apply pairing_no_panic|]. intros [cs ts] _. cbn [bytes_or_error].
  destruct (PairingCheck _ _); by apply be_bytes_data.
Qed.

Lemma Run_precompile_ok p input g : data_ok input -> RequiredGas p input = Ok g -> g < max_gas ->
  bytes_or_error (Run_precompile p input).
Proof.
  intros Hd Eg Hg. destruct p; cbn [Run_precompile].
  - unfold ecrecover_Run. destruct (recover_key _ _); [|apply nil_data]. apply LeftPadBytes_data; [|done]. by apply drop_data, be_bytes_data.
  - apply HC.
  - apply LeftPadBytes_data; [apply HC|done].
  - done.
  - by eapply bigModExp_Run_ok.
  - by apply runBn256Add_ok.
  - by apply runBn256Add_ok.
  - by apply runBn256ScalarMul_ok.
  - by apply runBn256ScalarMul_ok.
  - apply runBn256Pairing_ok.
  - apply runBn256Pairing_ok.
  - unfold blake2F_Run. destruct (Nat.eqb_spec (length input) blake2FInputLength) as [E|]; [|done]. cbn [negb].
    apply bind_bytes; [intros w; by destruct (idx_total input 212) as [v ->]; [rewrite E; unfold blake2FInputLength; lia|]|]. intros flag _.
    destruct (_ && _); [done|]. apply words_data, HC.
  - by apply LeftPadBytes_data.
  - done.
  - apply HC.
  - unfold ecrecoverPublicKey_Run. destruct (recover_key _ _) eqn:E; [|apply nil_data]. by eapply recover_key_bytes.
Qed.
End precompiles.
