(* ===== verification/EvmOpsSafety.v ===== *)
(** * Instructions are safe

    Every instruction that makes no call, run on a stack of the height its
    table entry asks for and with the memory it needs, ends without a panic of
    its own, changes the height of the stack by what the entry says, and leaves
    frame and machine in order. *)
From S2P Require Import Prelude Bls Params Delegation Validator CXReceipt Receipt StakingVerifier Opcodes EvmCode Gas EvmMemory Precompiles StakingAbi EvmState EvmGas EvmOps EvmWp EvmBytes.
Local Open Scope Z_scope.

(** ** Values *)

Lemma nonneg_u64 x : nonneg (u64 x).
Proof. apply u64_range. Qed.
Lemma nonneg_U256 x : nonneg (U256 x).
Proof. apply Z.mod_pos_bound. lia. Qed.
Lemma nonneg_bool b : nonneg (bool_word b).
Proof. by destruct b. Qed.
Lemma nonneg_land x y : nonneg x -> nonneg y -> nonneg (Z.land x y).
Proof. intros. apply Z.land_nonneg. by left. Qed.
Lemma nonneg_lor x y : nonneg x -> nonneg y -> nonneg (Z.lor x y).
Proof. intros. by apply Z.lor_nonneg. Qed.
Lemma nonneg_lxor x y : nonneg x -> nonneg y -> nonneg (Z.lxor x y).
Proof. intros. by apply Z.lxor_nonneg. Qed.
Lemma nonneg_math_Exp x y : nonneg (math_Exp x y).
Proof. unfold math_Exp. rewrite Zpow_facts.Zpow_mod_correct by lia. apply Z.mod_pos_bound. lia. Qed.
Lemma nonneg_math_Byte v n : nonneg (math_Byte v n).
Proof. apply Z.land_nonneg. by right. Qed.
Lemma nonneg_0 : nonneg 0.
Proof. done. Qed.
Lemma nonneg_1 : nonneg 1.
Proof. done. Qed.
Lemma nonneg_if (b : bool) x y : nonneg x -> nonneg y -> nonneg (if b then x else y).
Proof. by destruct b. Qed.
Lemma nonneg_length {A} (l : list A) : nonneg (Z.of_nat (length l)).
Proof. unfold nonneg. lia. Qed.
Lemma nonneg_BigToHash x : nonneg (BigToHash x).
Proof. apply Z.mod_pos_bound. lia. Qed.
Lemma nonneg_BigToAddress x : nonneg (BigToAddress x).
Proof. apply Z.mod_pos_bound. lia. Qed.
#[export] Hint Resolve nonneg_u64 nonneg_U256 nonneg_bool nonneg_land nonneg_lor nonneg_lxor nonneg_math_Exp nonneg_math_Byte nonneg_0 nonneg_1
  nonneg_if nonneg_length nonneg_BigToHash nonneg_BigToAddress : evm.

(** ** Rules as a tactic *)

Ltac wp_rule :=
  lazymatch goal with
  | |- wp _ (mbind _ _) _ _ => apply wp_bind
  | |- wp _ (mret _) _ _ => apply wp_ret
  | |- wp _ (push _) _ _ => apply wp_push
  | |- wp _ pop _ (mkFrame _ _ _ (_ :: _), _) => apply wp_pop
  | |- wp _ peek _ (mkFrame _ _ _ (_ :: _), _) => apply wp_peek
  | |- wp _ (set_top _) _ (mkFrame _ _ _ (_ :: _), _) => apply wp_set_top
  | |- wp _ (fget _) _ _ => apply wp_fget; cbn [contract memory stack pc]
  | |- wp _ (eget _) _ _ => apply wp_eget
  | |- wp _ (fmod _) _ _ => apply wp_fmod; cbn [contract memory stack pc]
  | |- wp _ (emod _) _ _ => apply wp_emod
  | |- wp _ (bytes_of _) _ _ => apply wp_bytes_of; cbn [memory]
  | |- wp _ (sm_when _ _) _ _ => apply wp_when; intros ?
  | |- wp _ (if _ then _ else _) _ _ => apply wp_if; intros ?
  end.
Ltac wp_go := repeat wp_rule.
(** What calls leave as it was, through several of them. *)
Ltac same := repeat match goal with H : same_ctx _ _ |- _ => destruct H end; split; congruence.

Section safety.
Context {S : Type} {V : VMState S} {H : Hashes} {C : CryptoLib} {L : EvmLib} {G : GoRuntime}.
Context (W : string -> Prop) (env : Env S) (SI : S -> Prop) (funded : Address -> Z -> S -> Prop).
Context (Hcollision : collision -> forall w, W w) (Hlaws : state_laws W env SI funded) (Henv : env_ok env).
Notation EM := (EM S).
Notation exec := (EM (Slice + string)).
Notation evm_ok := (evm_ok SI).
Implicit Types (e : EVM S) (s : S) (st xs ys : list Z).

(** What an operation needs of the memory. *)
Definition covers (size : option (Stack -> outcome (Z * bool))) (f : Frame) : Prop :=
  match size with None => True | Some size => exists n, size f.(stack) = Ok (n, false) /\ n <= Len f.(memory) end.

(** The frame after an instruction: the stack has grown by [delta] and the
    contract has at most [bound] gas left. *)
Record op_post_upto (bound : Z) (f : Frame) (e : EVM S) (delta : Z) (r : Slice + string) (fe : Frame * EVM S) : Prop := {
  op_evm : evm_ok fe.2;
  op_ctx : same_ctx e fe.2;
  op_pc : 0 <= pc fe.1 < 2 ^ 64;
  op_contract : exists g, contract fe.1 = with_Gas g (contract f) /\ 0 <= g <= bound;
  op_memory : memory_ok (memory fe.1);
  op_stack : Forall nonneg (stack fe.1);
  op_result : match r with
              | inl s => slice_ok s /\ Z.of_nat (length (stack fe.1)) = Z.of_nat (length (stack f)) + delta
              | inr _ => True end
}.
(** An instruction that makes no call charges nothing. *)
Definition op_post (f : Frame) := op_post_upto f.(contract).(cGas) f.
(** The program counter is at an instruction of the code. *)
Definition in_code (f : Frame) : Prop := f.(pc) < Z.of_nat (length f.(contract).(cCode)).
Definition op_safe (pops : nat) (pushes : nat) (size : option (Stack -> outcome (Z * bool))) (x : exec) : Prop :=
  forall f e, frame_ok f -> in_code f -> evm_ok e -> (pops <= length f.(stack))%nat -> covers size f ->
  wp W x (op_post f e (Z.of_nat pushes - Z.of_nat pops)) (f, e).

Lemma gas_kept c : contract_ok c -> exists g, c = with_Gas g c /\ 0 <= g <= cGas c.
Proof. intros Hc. exists (cGas c). split; [by destruct c|]. destruct (ck_gas _ Hc). lia. Qed.
Lemma evm_ok_state e s : evm_ok e -> SI s -> evm_ok (set_StateDB s e).
Proof. intros [] Hs. by split. Qed.
Lemma same_ctx_state e s : same_ctx e (set_StateDB s e).
Proof. by split. Qed.

(** An instruction that only replaces the top of the stack. *)
Lemma op_intro p c m xs ys st e e' sl pops pushes (f := mkFrame p c m (xs ++ st)) p' :
  frame_ok f -> 0 <= p' < 2 ^ 64 -> evm_ok e' -> same_ctx e e' -> length xs = pops -> length ys = pushes -> Forall nonneg ys -> slice_ok sl ->
  op_post f e (Z.of_nat pushes - Z.of_nat pops) (inl sl) (mkFrame p' c m (ys ++ st), e').
Proof.
  intros [_ Hc Hm Hst _] Hp He Hctx Hx Hy Hys Hs. cbn in *. split; cbn; [done..|by apply gas_kept|done| |].
  - apply Forall_app in Hst as [_ Hst]. by apply Forall_app.
  - split; [done|]. rewrite !length_app. lia.
Qed.
Lemma op_intro_memory p c m m' xs ys st e e' sl pops pushes (f := mkFrame p c m (xs ++ st)) p' :
  frame_ok f -> 0 <= p' < 2 ^ 64 -> evm_ok e' -> same_ctx e e' -> length xs = pops -> length ys = pushes -> Forall nonneg ys -> slice_ok sl -> memory_ok m' ->
  op_post f e (Z.of_nat pushes - Z.of_nat pops) (inl sl) (mkFrame p' c m' (ys ++ st), e').
Proof.
  intros [_ Hc Hm Hst _] Hp He Hctx Hx Hy Hys Hs Hm'. cbn in *. split; cbn; [done..|by apply gas_kept|done| |].
  - apply Forall_app in Hst as [_ Hst]. by apply Forall_app.
  - split; [done|]. rewrite !length_app. lia.
Qed.
Lemma op_intro_error p c m xs st st' e e' pops pushes w (f := mkFrame p c m (xs ++ st)) p' :
  frame_ok f -> 0 <= p' < 2 ^ 64 -> evm_ok e' -> same_ctx e e' -> Forall nonneg st' ->
  op_post f e (Z.of_nat pushes - Z.of_nat pops) (inr w) (mkFrame p' c m st', e').
Proof. intros [_ Hc Hm Hst _] Hp He Hctx Hst'. split; cbn; [done..|by apply gas_kept|done|done|done]. Qed.

(** A stack of at least [n] entries. *)
Lemma split_stack (n : nat) (st : Stack) : (n <= length st)%nat -> exists xs rest, st = xs ++ rest /\ length xs = n.
Proof. intros Hn. exists (take n st), (drop n st). rewrite take_drop, length_take. split; [done|lia]. Qed.

Lemma op_safe_stack pops pushes x :
  (forall p c m xs st e, 0 <= p < Z.of_nat (length (cCode c)) -> length xs = pops -> Forall nonneg xs -> contract_ok c -> memory_ok m -> evm_ok e ->
     wp W x (fun r fe => exists ys e' p', r = inl nil_slice /\ fe = (mkFrame p' c m (ys ++ st), e') /\ 0 <= p' < 2 ^ 64 /\ length ys = pushes /\
                         Forall nonneg ys /\ evm_ok e' /\ same_ctx e e') (mkFrame p c m (xs ++ st), e)) ->
  op_safe pops pushes None x.
Proof.
  intros Hx [p c m st0] e Hf Hat He Hn _. unfold in_code in Hat. destruct (split_stack pops st0 Hn) as (xs & st & -> & Hl). pose proof Hf as [Hp Hc Hm Hst _]. cbn in *.
  apply Forall_app in Hst as [Hxs _]. eapply wp_mono; [by apply Hx; [lia|..]|].
  intros r fe (ys & e' & p' & -> & -> & Hp' & Hy & Hys & He' & Hctx). apply op_intro; try done.
Qed.
(** ** Arithmetic *)

Lemma binop_safe f : (forall x y, nonneg x -> nonneg y -> nonneg (f x y)) -> op_safe 2 1 None (binop f).
Proof.
  intros Hf. apply op_safe_stack. intros p c m [|x [|y [|]]] st e Hp [=] Hxs Hc Hm He. pose proof (proj2 (ck_code _ Hc)) as Hsmall. inversion_clear Hxs as [|? ? Hx Hy0]. inversion_clear Hy0 as [|? ? Hy _].
  unfold binop, done_. cbn [app]. wp_go. exists [f x y], e, p. split_and!; try done; try lia. by repeat constructor; apply Hf.
Qed.
Lemma unop_safe f : (forall x, nonneg x -> nonneg (f x)) -> op_safe 1 1 None (unop f).
Proof.
  intros Hf. apply op_safe_stack. intros p c m [|x [|]] st e Hp [=] Hxs Hc Hm He. pose proof (proj2 (ck_code _ Hc)) as Hsmall. inversion_clear Hxs as [|? ? Hx _].
  unfold unop, done_. cbn [app]. wp_go. exists [f x], e, p. split_and!; try done; try lia. by repeat constructor; apply Hf.
Qed.
Lemma ternop_safe f : (forall x y z, nonneg x -> nonneg y -> nonneg z -> nonneg (f x y z)) -> op_safe 3 1 None (ternop f).
Proof.
  intros Hf. apply op_safe_stack. intros p c m [|x [|y [|z [|]]]] st e Hp [=] Hxs Hc Hm He. pose proof (proj2 (ck_code _ Hc)) as Hsmall.
  inversion_clear Hxs as [|? ? Hx Hy0]. inversion_clear Hy0 as [|? ? Hy Hz0]. inversion_clear Hz0 as [|? ? Hz _].
  unfold ternop, done_. cbn [app]. wp_go. exists [f x y z], e, p. split_and!; try done; try lia. by repeat constructor; apply Hf.
Qed.
Lemma constant_safe v : (forall p c m st e (Q : Z -> Frame * EVM S -> Prop), 0 <= p -> contract_ok c -> memory_ok m -> evm_ok e ->
    (forall a e', nonneg a -> evm_ok e' -> same_ctx e e' -> Q a (mkFrame p c m st, e')) -> wp W v Q (mkFrame p c m st, e)) ->
  op_safe 0 1 None (constant v).
Proof.
  intros Hv. apply op_safe_stack. intros p c m [|] st e Hp [=] Hxs Hc Hm He. pose proof (proj2 (ck_code _ Hc)) as Hsmall. unfold constant, done_. cbn [app]. wp_go.
  apply Hv; [lia|done..|]. intros a e' Ha He' Hctx. wp_go. exists [a], e', p. split_and!; try done; try lia. by repeat constructor.
Qed.

Lemma opAdd_safe : op_safe 2 1 None opAdd. Proof. apply binop_safe. auto with evm. Qed.
Lemma opSub_safe : op_safe 2 1 None opSub. Proof. apply binop_safe. auto with evm. Qed.
Lemma opMul_safe : op_safe 2 1 None opMul. Proof. apply binop_safe. auto with evm. Qed.
Lemma opDiv_safe : op_safe 2 1 None opDiv. Proof. apply binop_safe. auto with evm. Qed.
Lemma opSdiv_safe : op_safe 2 1 None opSdiv. Proof. apply binop_safe. cbn. auto 7 with evm. Qed.
Lemma opMod_safe : op_safe 2 1 None opMod. Proof. apply binop_safe. auto with evm. Qed.
Lemma opSmod_safe : op_safe 2 1 None opSmod. Proof. apply binop_safe. cbn. auto 7 with evm. Qed.
Lemma opExp_safe : op_safe 2 1 None opExp. Proof. apply binop_safe. auto 7 with evm. Qed.
Lemma opSignExtend_safe : op_safe 2 1 None opSignExtend. Proof. apply binop_safe. cbn. auto 7 with evm. Qed.
Lemma opNot_safe : op_safe 1 1 None opNot. Proof. apply unop_safe. auto with evm. Qed.
Lemma opLt_safe : op_safe 2 1 None opLt. Proof. apply binop_safe. auto with evm. Qed.
Lemma opGt_safe : op_safe 2 1 None opGt. Proof. apply binop_safe. auto with evm. Qed.
Lemma opSlt_safe : op_safe 2 1 None opSlt. Proof. apply binop_safe. auto 7 with evm. Qed.
Lemma opSgt_safe : op_safe 2 1 None opSgt. Proof. apply binop_safe. auto 7 with evm. Qed.
Lemma opEq_safe : op_safe 2 1 None opEq. Proof. apply binop_safe. auto with evm. Qed.
Lemma opIszero_safe : op_safe 1 1 None opIszero. Proof. apply unop_safe. auto with evm. Qed.
Lemma opAnd_safe : op_safe 2 1 None opAnd. Proof. apply binop_safe. auto with evm. Qed.
Lemma opOr_safe : op_safe 2 1 None opOr. Proof. apply binop_safe. auto with evm. Qed.
Lemma opXor_safe : op_safe 2 1 None opXor. Proof. apply binop_safe. auto with evm. Qed.
Lemma opByte_safe : op_safe 2 1 None opByte. Proof. apply binop_safe. auto with evm. Qed.
Lemma opAddmod_safe : op_safe 3 1 None opAddmod. Proof. apply ternop_safe. auto with evm. Qed.
Lemma opMulmod_safe : op_safe 3 1 None opMulmod. Proof. apply ternop_safe. auto with evm. Qed.
Lemma opSHL_safe : op_safe 2 1 None opSHL. Proof. apply binop_safe. cbn. auto with evm. Qed.
Lemma opSHR_safe : op_safe 2 1 None opSHR. Proof. apply binop_safe. cbn. auto with evm. Qed.
Lemma opSAR_safe : op_safe 2 1 None opSAR. Proof. apply binop_safe. cbn. auto 7 with evm. Qed.

(** ** The environment *)

Ltac const_safe := apply constant_safe; intros p c m st e Q Hp Hc Hm He HQ; wp_go; cbn [contract];
  (apply HQ; [|done|done]).
Lemma opAddress_safe : op_safe 0 1 None opAddress. Proof. unfold opAddress, self_address. const_safe. apply Hc. Qed.
Lemma opOrigin_safe : op_safe 0 1 None (opOrigin env). Proof. const_safe. apply Henv. Qed.
Lemma opCaller_safe : op_safe 0 1 None opCaller. Proof. const_safe. apply Hc. Qed.
Lemma opCallValue_safe : op_safe 0 1 None opCallValue. Proof. const_safe. apply Hc. Qed.
Lemma opCallDataSize_safe : op_safe 0 1 None opCallDataSize. Proof. unfold opCallDataSize, the_input. const_safe. auto with evm. Qed.
Lemma opReturnDataSize_safe : op_safe 0 1 None opReturnDataSize. Proof. unfold opReturnDataSize, return_data. const_safe. auto with evm. Qed.
Lemma opCodeSize_safe : op_safe 0 1 None opCodeSize. Proof. unfold opCodeSize, the_code. const_safe. auto with evm. Qed.
Lemma opGasprice_safe : op_safe 0 1 None (opGasprice env). Proof. const_safe. apply Henv. Qed.
Lemma opCoinbase_safe : op_safe 0 1 None (opCoinbase env). Proof. const_safe. apply Henv. Qed.
Lemma opTimestamp_safe : op_safe 0 1 None (opTimestamp env). Proof. const_safe. auto with evm. Qed.
Lemma opNumber_safe : op_safe 0 1 None (opNumber env). Proof. const_safe. auto with evm. Qed.
Lemma opDifficulty_safe : op_safe 0 1 None opDifficulty. Proof. const_safe. auto with evm. Qed.
Lemma opGasLimit_safe : op_safe 0 1 None (opGasLimit env). Proof. const_safe. auto with evm. Qed.
Lemma opChainID_safe : op_safe 0 1 None (opChainID env). Proof. const_safe. destruct (active _ _); apply Henv. Qed.
Lemma opMsize_safe : op_safe 0 1 None opMsize. Proof. const_safe. apply Len_nonneg. Qed.
Lemma opGas_safe : op_safe 0 1 None opGas. Proof. const_safe. apply Hc. Qed.
Lemma opPc_safe : op_safe 0 1 None opPc. Proof. const_safe. done. Qed.
Lemma opBlockhash_safe : op_safe 1 1 None (opBlockhash env).
Proof. apply unop_safe. intros x _. apply nonneg_if; [apply Henv|done]. Qed.
(** ** The state *)

Lemma ok_state e : evm_ok e -> SI (StateDB e).
Proof. apply ek_state. Qed.
Hint Resolve evm_ok_state same_ctx_state ok_state : evm.

(** A method of the state database, from an instruction. *)
Lemma wp_law {A} (x : SM S A) (R : A -> Prop) (Q : A -> Frame * EVM S -> Prop) f e : meth W SI x R -> evm_ok e ->
  (forall a e', R a -> evm_ok e' -> same_ctx e e' -> callGasTemp e' = callGasTemp e -> returnData e' = returnData e -> Q a (f, e')) ->
  wp W (on_state x) Q (f, e).
Proof.
  intros Hx He HQ. apply wp_on_state. eapply wp_mono; [by apply Hx, ok_state|]. intros a s [Hs Ha]. apply HQ; auto with evm.
Qed.
Ltac law l := eapply wp_law; [eapply l; exact Hlaws|eassumption|intros ? ? ? ? ? ? ?; cbn beta].
(** [finish ys p]: the instruction has put [ys] on the stack. *)
Ltac finish_with ys p := exists ys; eexists _, p; split_and!; [reflexivity|reflexivity|lia|lia|reflexivity|repeat constructor; auto with evm|assumption|same].

Lemma opBalance_safe : op_safe 1 1 None opBalance.
Proof.
  apply op_safe_stack. intros p c m [|x [|]] st e Hp [=] Hxs Hc Hm He. pose proof (proj2 (ck_code _ Hc)) as Hsmall. unfold opBalance, done_. cbn [app]. wp_go.
  law law_GetBalance. wp_go. finish_with [a] p.
Qed.
Lemma opSelfBalance_safe : op_safe 0 1 None opSelfBalance.
Proof.
  apply constant_safe. intros p c m st e Q Hp Hc Hm He HQ. unfold self_address. wp_go. law law_GetBalance. apply HQ; [done|done|same].
Qed.
Lemma opSload_safe : op_safe 1 1 None opSload.
Proof.
  apply op_safe_stack. intros p c m [|x [|]] st e Hp [=] Hxs Hc Hm He. pose proof (proj2 (ck_code _ Hc)) as Hsmall. unfold opSload, done_, self_address. cbn [app]. wp_go.
  law law_GetState. wp_go. finish_with [a] p.
Qed.
Lemma opSstore_safe : op_safe 2 0 None opSstore.
Proof.
  apply op_safe_stack. intros p c m [|x [|y [|]]] st e Hp [=] Hxs Hc Hm He. pose proof (proj2 (ck_code _ Hc)) as Hsmall. unfold opSstore, done_, self_address. cbn [app]. wp_go.
  law law_SetState. wp_go. finish_with (@nil Z) p.
Qed.
Lemma opPop_safe : op_safe 1 0 None opPop.
Proof.
  apply op_safe_stack. intros p c m [|x [|]] st e Hp [=] Hxs Hc Hm He. pose proof (proj2 (ck_code _ Hc)) as Hsmall. unfold opPop, done_. cbn [app]. wp_go.
  assert (same_ctx e e) by done. finish_with (@nil Z) p.
Qed.
Lemma done_safe : op_safe 0 0 None done_.
Proof.
  apply op_safe_stack. intros p c m [|] st e Hp [=] Hxs Hc Hm He. pose proof (proj2 (ck_code _ Hc)) as Hsmall. unfold done_. cbn [app]. wp_go.
  assert (same_ctx e e) by done. finish_with (@nil Z) p.
Qed.
Lemma opJumpdest_safe : op_safe 0 0 None opJumpdest. Proof. exact done_safe. Qed.
Lemma opStop_safe : op_safe 0 0 None opStop. Proof. exact done_safe. Qed.
Lemma opSuicide_safe : op_safe 1 0 None opSuicide.
Proof.
  apply op_safe_stack. intros p c m [|x [|]] st e Hp [=] Hxs Hc Hm He. pose proof (proj2 (ck_code _ Hc)) as Hsmall. unfold opSuicide, done_, self_address. cbn [app]. wp_go.
  law law_GetBalance. wp_go. eapply wp_law; [by eapply law_AddBalance; [exact Hlaws|]|eassumption|]. intros [] e2 _ He2 Hc2 _ _. wp_go.
  law law_Suicide. wp_go. finish_with (@nil Z) p.
Qed.

(** The fix for validators' code only asks the state. *)
Lemma fixValidatorCode_wp address (Q : bool -> Frame * EVM S -> Prop) f e : evm_ok e ->
  (forall b e', evm_ok e' -> same_ctx e e' -> callGasTemp e' = callGasTemp e -> returnData e' = returnData e -> Q b (f, e')) ->
  wp W (fixValidatorCode env address) Q (f, e).
Proof.
  intros He HQ. unfold fixValidatorCode. wp_go; [|by apply HQ]. law law_IsValidator. by apply HQ.
Qed.
Lemma opExtCodeSize_safe : op_safe 1 1 None (opExtCodeSize env).
Proof.
  apply op_safe_stack. intros p c m [|x [|]] st e Hp [=] Hxs Hc Hm He. pose proof (proj2 (ck_code _ Hc)) as Hsmall. unfold opExtCodeSize, done_. cbn [app]. wp_go.
  apply fixValidatorCode_wp; [done|]. intros b e1 He1 Hctx _ _. destruct b; wp_go.
  - finish_with [u64 0] p.
  - law law_GetCodeSize. wp_go. finish_with [u64 a] p.
Qed.
Lemma opExtCodeHash_safe : op_safe 1 1 None (opExtCodeHash env).
Proof.
  apply op_safe_stack. intros p c m [|x [|]] st e Hp [=] Hxs Hc Hm He. pose proof (proj2 (ck_code _ Hc)) as Hsmall. unfold opExtCodeHash, done_. cbn [app]. wp_go.
  law law_Empty. destruct a; wp_go; [finish_with [0] p|].
  apply fixValidatorCode_wp; [done|]. intros b e1 He1 Hctx _ _. destruct b; wp_go.
  - exists [Keccak256Hash []]. eexists _, p. split_and!; [done|done|lia|lia|done| |done|same]. repeat constructor. apply Henv.
  - law law_GetCodeHash. wp_go. finish_with [a] p.
Qed.

(** ** The stack and the code *)

Lemma makeDup_safe n : (0 < n)%nat -> op_safe n (Datatypes.S n) None (makeDup n).
Proof.
  intros Hn. apply op_safe_stack. intros p c m xs st e Hp Hl Hxs Hc Hm He. pose proof (proj2 (ck_code _ Hc)) as Hsmall. unfold makeDup, dup, done_.
  destruct (lookup_lt_is_Some_2 xs (n - 1)) as [v Hv]; [lia|]. wp_go. eapply wp_back; [cbn; by apply lookup_app_l_Some|]. wp_go.
  exists (v :: xs), e, p. split_and!; [done|done|lia|lia|by cbn; rewrite Hl| |done|done]. constructor; [|done]. by eapply Forall_lookup.
Qed.
Lemma makeSwap_safe n : (0 < n)%nat -> op_safe (Datatypes.S n) (Datatypes.S n) None (makeSwap n).
Proof.
  intros Hn. apply op_safe_stack. intros p c m xs st e Hp Hl Hxs Hc Hm He. pose proof (proj2 (ck_code _ Hc)) as Hsmall. unfold makeSwap, swap, done_.
  replace (n + 1 - 1)%nat with n by lia.
  destruct (lookup_lt_is_Some_2 xs 0) as [a Ha]; [lia|]. destruct (lookup_lt_is_Some_2 xs n) as [b Hb]; [lia|]. wp_go.
  eapply wp_back; [cbn; by apply lookup_app_l_Some|]. wp_go. eapply wp_back; [cbn; by apply lookup_app_l_Some|]. wp_go.
  exists (<[0%nat := b]> (<[n := a]> xs)), e, p. split_and!; [done| |lia|lia|by rewrite !length_insert| |done|done].
  - unfold set_stack. cbn. by rewrite (insert_app_l _ st n), (insert_app_l _ st 0) by (rewrite ?length_insert; lia).
  - repeat apply Forall_insert; [done|..]; by eapply Forall_lookup.
Qed.
Lemma opPush1_safe : op_safe 0 1 None opPush1.
Proof.
  apply op_safe_stack. intros p c m [|] st e Hp [=] Hxs Hc Hm He. pose proof (proj2 (ck_code _ Hc)) as Hsmall. unfold opPush1, done_, the_code. cbn [app]. wp_go.
  eexists [_], e, (u64 (p + 1)). split_and!; [done|reflexivity|apply u64_range|apply u64_range|done| |done|done]. repeat constructor.
  destruct (_ <? _); [|done]. destruct (cCode c !! _) as [b|] eqn:E; cbn; [|done].
  destruct (proj1 (Forall_lookup _ _) (proj1 (ck_code _ Hc)) _ _ E). done.
Qed.
Lemma makePush_safe size k : 0 <= k -> op_safe 0 1 None (makePush size k).
Proof.
  intros Hk. apply op_safe_stack. intros p c m [|] st e Hp [=] Hxs Hc Hm He. unfold makePush, done_, the_code. cbn [app]. wp_go.
  destruct (ck_code _ Hc) as [Hb Hl]. rewrite i64_small by lia. set (len := Z.of_nat (length (cCode c))) in *. set (a := Z.min len (p + 1)).
  destruct (slice_ok_range (cCode c) a (Z.min len (a + k))) as (part & E & Hpart & _); [done|lia|lia|].
  eapply wp_lift_Ok; [exact E|]. wp_go. eexists [_], e, (u64 (p + size)).
  split_and!; [done|reflexivity|apply u64_range|apply u64_range|done|repeat constructor; auto with evm|done|done].
Qed.
(** ** Jumps *)

Lemma analysis_wp c udest (Q : bool -> Frame * EVM S -> Prop) f e : contract_ok c -> 0 <= udest < Z.of_nat (length c.(cCode)) -> evm_ok e ->
  (forall b e', evm_ok e' -> same_ctx e e' -> Q b (f, e')) ->
  wp W (let! a := analysis_of c in lift (codeSegment a udest)) Q (f, e).
Proof.
  intros Hc Hu He HQ. destruct (codeBitmap_bits (cCode c)) as (bits & Eb & Hlen & _).
  assert (exists b, codeSegment bits udest = Ok b) as [b Es].
  { rewrite <- (Z2Nat.id udest) by lia. eexists. apply (codeSegment_bit (cCode c)); [done|lia]. }
  unfold analysis_of. rewrite Eb. apply wp_bind. destruct (Z.eqb_spec (cCodeHash c) 0) as [Hz|Hnz]; cbn [negb].
  { eapply wp_lift_Ok; [done|]. eapply wp_lift_Ok; [exact Es|]. by apply HQ. }
  wp_go. destruct (jumpdests e !! cCodeHash c) as [known|] eqn:Ek.
  - wp_go. apply wp_lift. destruct (codeSegment known udest) as [b'|err|w] eqn:Es'; [by apply HQ| |].
    { unfold codeSegment, idx in Es'. destruct (_ <? _); [done|]. by destruct (known !! _). }
    destruct (ek_jumpdests _ _ He _ _ Ek) as (code & Eh & Ec). destruct (decide (code = cCode c)) as [->|Hne].
    { rewrite Eb in Ec. injection Ec as <-. by rewrite Es in Es'. }
    apply Hcollision. destruct (ck_hash _ Hc) as [E0|[E0|E0]]; [|done|].
    + rewrite E0 in Hu. cbn in Hu. lia.
    + exists code, (cCode c). split; [done|congruence].
  - wp_go. eapply wp_lift_Ok; [done|]. wp_go. eapply wp_lift_Ok; [exact Es|]. apply HQ; [|by split].
    destruct He as [? ? ? Hj]. split; try done. cbn. apply map_Forall_insert_2; [|done].
    destruct (ck_hash _ Hc) as [E0|[E0|E0]]; [rewrite E0 in Hu; cbn in Hu; lia|done|]. by exists (cCode c).
Qed.
Lemma validJumpdest_wp dest p c m st (Q : bool -> Frame * EVM S -> Prop) e : contract_ok c -> nonneg dest -> evm_ok e ->
  (forall b e', evm_ok e' -> same_ctx e e' -> Q b (mkFrame p c m st, e')) ->
  wp W (validJumpdest dest) Q (mkFrame p c m st, e).
Proof.
  intros Hc Hd He HQ. unfold validJumpdest. wp_go; [by apply HQ|].
  match goal with H : _ || _ = false |- _ => apply orb_false_iff in H as [Hb Hl] end. apply Z.leb_gt in Hb, Hl.
  pose proof (proj1 (Big.BitLen_le dest 63 ltac:(lia)) ltac:(lia)) as Hs. unfold nonneg, Big.Uint64 in *. rewrite Z.abs_eq in Hs by done.
  rewrite u64_small in * by lia. destruct (idx_total (cCode c) dest) as [op Hop]; [lia|]. eapply wp_lift_Ok; [exact Hop|].
  apply wp_if; intros _; [by apply wp_ret, HQ|]. by apply analysis_wp.
Qed.
Lemma opJump_safe : op_safe 1 0 None opJump.
Proof.
  intros [p c m st] e Hf Hat He Hn _. pose proof Hf as [Hp Hc Hm Hst _]. cbn in *. destruct st as [|x st]; [cbn in Hn; lia|]. inversion_clear Hst as [|? ? Hx Hst0].
  unfold opJump, done_. wp_go. apply validJumpdest_wp; [done..|]. intros b e' He' Hctx. wp_go.
  - by apply (op_intro_error p c m [x] st st e e' 1 0).
  - apply (op_intro p c m [x] [] st e e' nil_slice 1 0); try done; apply u64_range.
Qed.
Lemma opJumpi_safe : op_safe 2 0 None opJumpi.
Proof.
  intros [p c m st] e Hf Hat He Hn _. pose proof Hf as [Hp Hc Hm Hst _]. cbn in *. destruct st as [|x [|y st]]; [cbn in Hn; lia..|].
  inversion_clear Hst as [|? ? Hx Hst1]. inversion_clear Hst1 as [|? ? Hy Hst0]. unfold opJumpi, done_. wp_go.
  - apply validJumpdest_wp; [done..|]. intros b e' He' Hctx. wp_go.
    + by apply (op_intro_error p c m [x; y] st st e e' 2 0).
    + apply (op_intro p c m [x; y] [] st e e' nil_slice 2 0); try done; apply u64_range.
  - apply (op_intro p c m [x; y] [] st e e nil_slice 2 0); try done; apply u64_range.
Qed.

(** ** The memory *)

Lemma mem_at_covered o l st a b n m : mem_at o l st = Ok (n, false) -> st !! o = Some a -> st !! l = Some b -> n <= Len m -> covered a b m.
Proof. unfold mem_at, Back. intros E Ha Hb. rewrite Ha, Hb in E. cbn in E. injection E as E. by apply calcMemSize64_covered. Qed.
Lemma mem_fixed_covered o k st a n m : 0 < k < 2 ^ 64 -> mem_fixed o k st = Ok (n, false) -> st !! o = Some a -> n <= Len m -> covered a k m.
Proof. unfold mem_fixed, Back. intros Hk E Ha. rewrite Ha in E. cbn in E. injection E as E. by apply calcFixed_covered. Qed.
Lemma mem_both_covered o1 l1 o2 l2 st n m : mem_both o1 l1 o2 l2 st = Ok (n, false) -> n <= Len m ->
  (forall a b, st !! o1 = Some a -> st !! l1 = Some b -> covered a b m) /\ (forall a b, st !! o2 = Some a -> st !! l2 = Some b -> covered a b m).
Proof.
  unfold mem_both. intros E Hn. destruct (mem_at o1 l1 st) as [[n1 b1]| |] eqn:E1; [|done|done]. cbn in E. destruct b1; [done|].
  destruct (mem_at o2 l2 st) as [[n2 b2]| |] eqn:E2; [|done|done]. cbn in E. destruct b2; [done|].
  assert (n1 <= n /\ n2 <= n) as [H1 H2] by (destruct (Z.ltb_spec n2 n1); injection E as <-; lia).
  split; intros a b Ha Hb; [eapply mem_at_covered; [exact E1|done|done|lia]|eapply mem_at_covered; [exact E2|done|done|lia]].
Qed.

(** Unpacks the hypotheses of an instruction that uses memory. *)
Ltac mem_start f := 
  let p := fresh "p" in let c := fresh "c" in let m := fresh "m" in let st := fresh "st" in
  intros [p c m st] e Hf Hat He Hn (n & En & Hl); pose proof Hf as [Hp Hc Hm Hst _]; cbn [pc contract memory stack] in *.
Ltac stack_cell Hst Hn st := destruct st as [|? st]; [cbn in Hn; lia|]; apply Forall_cons in Hst as [? Hst].

Lemma opSha3_safe : op_safe 2 1 (Some memorySha3) (opSha3 env).
Proof.
  mem_start f. do 2 stack_cell Hst Hn st. rename z into off, z0 into size. assert (covered off size m) as Hcov by by eapply mem_at_covered.
  unfold opSha3, done_. wp_go. destruct (GetPtr_ok m off size Hm Hcov) as (s & E & _ & Hd). eapply wp_mem_read; [exact E|].
  wp_go; [law law_AddPreimage|]; wp_go.
  all: apply (op_intro p c m [off; size] [_] st e _ nil_slice 2 1); try done; repeat constructor; apply Henv.
Qed.
Lemma opMload_safe : op_safe 1 1 (Some memoryMLoad) opMload.
Proof.
  mem_start f. stack_cell Hst Hn st. rename z into off. assert (covered off 32 m) as Hcov by by eapply mem_fixed_covered.
  unfold opMload, done_. wp_go. destruct (GetPtr_ok m off 32 Hm Hcov) as (s & E & _ & Hd & _). change (Big.Int64 32) with 32 in E.
  eapply wp_mem_read; [exact E|]. wp_go.
  apply (op_intro p c m [off] [_] st e e nil_slice 1 1); try done; repeat constructor; auto with evm.
Qed.
Lemma opMstore_safe : op_safe 2 0 (Some memoryMStore) opMstore.
Proof.
  mem_start f. do 2 stack_cell Hst Hn st. rename z into off. assert (covered off 32 m) as Hcov by by eapply mem_fixed_covered.
  unfold opMstore, done_. wp_go. destruct (Set32_ok m off z0 Hm Hcov) as (m' & E & Hm' & _). eapply wp_mem_update; [exact E|]. wp_go.
  apply (op_intro_memory p c m m' [off; z0] [] st e e nil_slice 2 0); try done.
Qed.
Lemma opMstore8_safe : op_safe 2 0 (Some memoryMStore8) opMstore8.
Proof.
  mem_start f. do 2 stack_cell Hst Hn st. rename z into off. assert (covered off 1 m) as Hcov by by eapply mem_fixed_covered.
  unfold opMstore8, done_. wp_go. destruct (store8_ok m off z0 Hm Hcov) as (m' & E & Hm' & _). eapply wp_mem_update; [exact E|]. wp_go.
  apply (op_intro_memory p c m m' [off; z0] [] st e e nil_slice 2 0); try done.
Qed.
Lemma return_mem_safe size : size = mem_at 0 1 -> op_safe 2 0 (Some size) return_mem.
Proof.
  intros ->. mem_start f. do 2 stack_cell Hst Hn st. assert (covered z z0 m) as Hcov by by eapply mem_at_covered.
  unfold return_mem. wp_go. destruct (GetPtr_ok m z z0 Hm Hcov) as (s & E & Hs & _). eapply wp_mem_read; [exact E|]. wp_go.
  by apply (op_intro p c m [z; z0] [] st e e s 2 0).
Qed.
Lemma opReturn_safe : op_safe 2 0 (Some memoryReturn) opReturn. Proof. by apply return_mem_safe. Qed.
Lemma opRevert_safe : op_safe 2 0 (Some memoryRevert) opRevert. Proof. by apply return_mem_safe. Qed.

(** What is copied from: it asks the frame's contract or the state. *)
Definition source_ok (data : EM (list Z)) : Prop := forall f e (Q : list Z -> Frame * EVM S -> Prop), contract_ok (contract f) -> evm_ok e ->
  (forall d e', data_ok d -> evm_ok e' -> same_ctx e e' -> Q d (f, e')) -> wp W data Q (f, e).
Lemma copy_data_wp data memOff dataOff len p c m st (Q : Slice + string -> Frame * EVM S -> Prop) e : source_ok data ->
  contract_ok c -> memory_ok m -> evm_ok e -> covered memOff len m -> nonneg dataOff -> nonneg len ->
  (forall m' e', memory_ok m' -> evm_ok e' -> same_ctx e e' -> Q (inl nil_slice) (mkFrame p c m' st, e')) ->
  wp W (copy_data data) Q (mkFrame p c m (memOff :: dataOff :: len :: st), e).
Proof.
  intros Hsrc Hc Hm He Hcov Hd Hl HQ. unfold copy_data, done_. wp_go. apply Hsrc; [done..|]. intros d e' Hdok He' Hctx.
  destruct (getDataBig_ok d dataOff len Hdok Hd Hl) as (b & E & Hb). wp_go. eapply wp_lift_Ok; [exact E|]. wp_go.
  destruct (mem_Set_ok m memOff len b Hm Hcov Hb) as (m' & E' & Hm' & _). eapply wp_mem_update; [exact E'|]. wp_go. by apply HQ.
Qed.
Lemma copy_data_safe data size : source_ok data -> size = mem_at 0 2 -> op_safe 3 0 (Some size) (copy_data data).
Proof.
  intros Hsrc ->. mem_start f. do 3 stack_cell Hst Hn st. assert (covered z z1 m) as Hcov by by eapply mem_at_covered.
  apply copy_data_wp; [done..|]. intros m' e' Hm' He' Hctx.
  apply (op_intro_memory p c m m' [z; z0; z1] [] st e e' nil_slice 3 0); try done.
Qed.
Lemma input_source : source_ok the_input.
Proof. intros f e Q Hc He HQ. unfold the_input. wp_go. apply HQ; [apply Hc|done|done]. Qed.
Lemma code_source : source_ok the_code.
Proof. intros f e Q Hc He HQ. unfold the_code. wp_go. apply HQ; [apply Hc|done|done]. Qed.
Lemma nil_data_ok : data_ok [].
Proof. by split. Qed.
Lemma ext_code_source addr :
  source_ok (let! fix_ := fixValidatorCode env addr in if fix_ : bool then mret [] else on_state (GetCode addr)).
Proof.
  intros f e Q Hc He HQ. apply wp_bind, fixValidatorCode_wp; [done|]. intros b e1 He1 Hctx _ _. destruct b; wp_go.
  - apply HQ; [apply nil_data_ok|done|done].
  - law law_GetCode. apply HQ; [done|done|same].
Qed.
Lemma opCallDataCopy_safe : op_safe 3 0 (Some memoryCallDataCopy) opCallDataCopy.
Proof. apply copy_data_safe; [apply input_source|done]. Qed.
Lemma opCodeCopy_safe : op_safe 3 0 (Some memoryCodeCopy) opCodeCopy.
Proof. apply copy_data_safe; [apply code_source|done]. Qed.
Lemma opExtCodeCopy_safe : op_safe 4 0 (Some memoryExtCodeCopy) (opExtCodeCopy env).
Proof.
  mem_start f. do 4 stack_cell Hst Hn st. assert (covered z0 z2 m) as Hcov by by eapply mem_at_covered.
  unfold opExtCodeCopy. wp_go. apply copy_data_wp; [apply ext_code_source|done..|]. intros m' e' Hm' He' Hctx.
  apply (op_intro_memory p c m m' [z; z0; z1; z2] [] st e e' nil_slice 4 0); try done.
Qed.
Lemma opCallDataLoad_safe : op_safe 1 1 None opCallDataLoad.
Proof.
  apply op_safe_stack. intros p c m [|x [|]] st e Hp [=] Hxs Hc Hm He. pose proof (proj2 (ck_code _ Hc)) as Hsmall. apply Forall_cons in Hxs as [Hx _]. unfold opCallDataLoad, the_input, done_. cbn [app].
  wp_go. destruct (getDataBig_ok (Input c) x 32) as (b & E & Hb); [apply Hc|done|done|]. eapply wp_lift_Ok; [exact E|]. wp_go.
  assert (same_ctx e e) by done. finish_with [be_value b] p.
Qed.
Lemma opReturnDataCopy_safe : op_safe 3 0 (Some memoryReturnDataCopy) opReturnDataCopy.
Proof.
  mem_start f. do 3 stack_cell Hst Hn st. assert (covered z z1 m) as Hcov by by eapply mem_at_covered.
  pose proof (resolve_ok m (returnData e) Hm (ek_data _ _ He)) as [Hb _]. unfold opReturnDataCopy, return_data, done_. wp_go.
  { by apply (op_intro_error p c m [z; z0; z1] st st e e 3 0). }
  match goal with H : _ || _ = false |- _ => apply orb_false_iff in H as [Hu Hlen] end. apply negb_false_iff in Hu. apply Z.ltb_ge in Hlen.
  unfold Big.IsUint64 in Hu. apply andb_true_iff in Hu as [Hu0%Z.leb_le Hu1%Z.ltb_lt]. unfold nonneg, Big.Uint64 in *.
  rewrite (u64_small (z0 + z1)) in * by lia. rewrite (u64_small z0) by lia.
  destruct (slice_ok_range _ z0 (z0 + z1) Hb) as (part & E & Hpart & _); [lia|done|]. eapply wp_lift_Ok; [exact E|]. wp_go.
  destruct (mem_Set_ok m z z1 part Hm Hcov Hpart) as (m' & E' & Hm' & _). eapply wp_mem_update; [exact E'|]. wp_go.
  apply (op_intro_memory p c m m' [z; z0; z1] [] st e e nil_slice 3 0); try done.
Qed.

Lemma pop_topics_wp n p c m xs st (Q : list Z -> Frame * EVM S -> Prop) e : length xs = n ->
  (forall ts, Q ts (mkFrame p c m st, e)) -> wp W (pop_topics n) Q (mkFrame p c m (xs ++ st), e).
Proof.
  revert xs Q. induction n as [|n IH]; intros [|x xs] Q [=] HQ; cbn [pop_topics app]; wp_go; [apply HQ|].
  apply IH; [done|]. intros ts. wp_go. apply HQ.
Qed.
Lemma makeLog_safe k : op_safe (k + 2) 0 (Some memoryLog) (makeLog env k).
Proof.
  mem_start f. stack_cell Hst Hn st. stack_cell Hst Hn st. assert (covered z z0 m) as Hcov by by eapply mem_at_covered.
  cbn in Hn. destruct (split_stack k st) as (xs & rest & -> & Hlx); [lia|]. unfold makeLog, self_address, done_. wp_go. apply pop_topics_wp; [done|].
  intros ts. wp_go. destruct (GetCopy_ok m z z0 Hm Hcov) as (b & E & Hb). eapply wp_mem_read; [exact E|]. wp_go. law law_AddLog. wp_go.
  apply (op_intro p c m (z :: z0 :: xs) [] rest e _ nil_slice (k + 2) 0); try done; cbn; lia.
Qed.
End safety.
