(* ===== verification/EvmGasSafety.v ===== *)
(** * Dynamic gas is safe

    Every gas function, on a stack of the height its operation asks for, gives
    an error or a cost that fits in a uint64 and is at least what the table
    leaves to it, and pays for the memory the operation grows to. *)
From S2P Require Import Prelude Bls Params Delegation Validator CXReceipt Receipt StakingVerifier Opcodes EvmCode Gas EvmMemory Precompiles StakingAbi EvmState EvmGas EvmOps EvmWp EvmBytes EvmOpsSafety.
Local Open Scope Z_scope.

(** The memory [m] may now be grown to [n] bytes. *)
Record grown {G : GoRuntime} (n : Z) (m : Memory) : Prop := {
  gr_ok : memory_ok (Resize n m);
  gr_len : n <= Len (Resize n m);
  gr_old : memory_ok m \/ 0 < n
}.

Section safety.
Context {S : Type} {V : VMState S} {H : Hashes} {C : CryptoLib} {L : EvmLib} {G : GoRuntime}.
Context (W : string -> Prop) (env : Env S) (SI : S -> Prop) (funded : Address -> Z -> S -> Prop).
Context (Hlaws : state_laws W env SI funded).
Notation EM := (EM S).
Notation evm_ok := (evm_ok SI).
Implicit Types (e : EVM S) (s : S) (st : list Z).

Lemma grown_zero m : memory_ok m -> grown 0 m.
Proof.
  intros Hm. assert (Resize 0 m = m) as E by (unfold Resize; destruct (Z.ltb_spec (Len m) 0); [pose proof (Len_nonneg m); lia|done]).
  split; rewrite ?E; [done|apply Len_nonneg|by left].
Qed.

(** ** The pieces of a gas function *)

Lemma mem_gas_wp n p c m st e (Q : Z + string -> Frame * EVM S -> Prop) : memory_ok m -> 0 <= n -> n mod 32 = 0 ->
  (forall m' fee, grown n m' -> 0 <= fee < 2 ^ 64 -> Q (inl fee) (mkFrame p c m' st, e)) ->
  (forall err, Q (inr err) (mkFrame p c m st, e)) ->
  wp W (mem_gas n) Q (mkFrame p c m st, e).
Proof.
  intros Hm Hn Hd HQ Herr. unfold mem_gas. wp_go. destruct (memoryGasCost m n) as [[m' fee]|err|w] eqn:E; [|wp_go; apply Herr|].
  - pose proof (grow_ok m n m' fee (mk_ok _ Hm) Hn Hd E) as (Hok & Hf & Hl & _).
    assert (m' = m \/ exists x, m' = with_lastGasCost x m) as Hm'.
    { unfold memoryGasCost in E. repeat case_match; simplify_eq; eauto. }
    wp_go. apply HQ; [|done]. split; [|done|].
    + destruct Hm as [_ Hst Hle Hc]. destruct Hm' as [->|[x ->]]; by apply Resize_ok.
    + destruct (Z.eq_dec n 0) as [->|]; [|right; lia]. left. by injection E as <- _.
  - unfold memoryGasCost in E. repeat case_match; done.
Qed.
Lemma safe_add_wp x y (Q : Z + string -> Frame * EVM S -> Prop) fe : 0 <= x -> 0 <= y ->
  (x + y < 2 ^ 64 -> Q (inl (x + y)) fe) -> (forall err, Q (inr err) fe) -> wp W (safe_add x y) Q fe.
Proof.
  intros Hx Hy HQ Herr. unfold safe_add, SafeAdd, MaxUint64. destruct (Z.ltb_spec (2 ^ 64 - 1) (x + y)); apply wp_ret; [apply Herr|].
  rewrite u64_small by lia. apply HQ. lia.
Qed.
Lemma safe_mul_wp x y (Q : Z + string -> Frame * EVM S -> Prop) fe : 0 <= x -> 0 <= y ->
  (x * y < 2 ^ 64 -> Q (inl (x * y)) fe) -> (forall err, Q (inr err) fe) -> wp W (safe_mul x y) Q fe.
Proof.
  intros Hx Hy HQ Herr. unfold safe_mul, SafeMul, MaxUint64. destruct (Z.ltb_spec (2 ^ 64 - 1) (x * y)); apply wp_ret; [apply Herr|].
  rewrite u64_small by nia. apply HQ. lia.
Qed.
Lemma back_uint64_wp k v f e (Q : Z + string -> Frame * EVM S -> Prop) : stack f !! k = Some v ->
  (0 <= v < 2 ^ 64 -> Q (inl v) (f, e)) -> (forall err, Q (inr err) (f, e)) -> wp W (back_uint64 k) Q (f, e).
Proof.
  intros Hk HQ Herr. unfold back_uint64. apply wp_bind. eapply wp_back; [exact Hk|]. apply wp_ret. unfold Big.IsUint64, Big.Uint64.
  destruct (Z.leb_spec 0 v), (Z.ltb_spec v (2 ^ 64)); cbn; try apply Herr. rewrite u64_small by lia. by apply HQ.
Qed.
Lemma toWordSize_nonneg n : 0 <= n -> 0 <= toWordSize n.
Proof. intros Hn. unfold toWordSize. destruct (_ <? _); [done|]. apply Z.div_pos; lia. Qed.

(** What a gas function leaves. *)
Record gas_post (lo : Z) (n : Z) (f : Frame) (e : EVM S) (r : Z + string) (fe : Frame * EVM S) : Prop := {
  gp_pc : pc fe.1 = pc f;
  gp_contract : contract fe.1 = contract f;
  gp_stack : stack fe.1 = stack f;
  gp_evm : evm_ok fe.2;
  gp_ctx : same_ctx e fe.2;
  gp_cost : match r with inl cost => lo <= cost < 2 ^ 64 /\ grown n (memory fe.1) | inr _ => True end
}.
(** [priced]: does the operation use memory? *)
Definition gas_safe (lo : Z) (pops : nat) (priced : bool) (g : Z -> EM (Z + string)) : Prop :=
  forall f e n, frame_ok f -> evm_ok e -> (pops <= length f.(stack))%nat -> 0 <= n -> n mod 32 = 0 -> (priced = false -> n = 0) ->
  wp W (g n) (gas_post lo n f e) (f, e).

Ltac pos := try match goal with |- context [toWordSize ?v] => pose proof (toWordSize_nonneg v ltac:(lia)) end;
  try match goal with |- context [u64 ?x] => pose proof (u64_range x) end; lia.
Ltac gas_rule :=
  first [ wp_rule
        | match goal with
          | |- wp _ (mem_gas _) _ _ => apply mem_gas_wp; [eassumption|lia|assumption|intros ? ? ? ?|intros ?]
          | |- wp _ (safe_add _ _) _ _ => apply safe_add_wp; [pos|pos|intros ?|intros ?]
          | |- wp _ (safe_mul _ _) _ _ => apply safe_mul_wp; [pos|pos|intros ?|intros ?]
          | |- wp _ (back_uint64 _) _ _ => eapply back_uint64_wp; [eassumption|intros ?|intros ?]
          | |- wp _ (back _) _ _ => eapply wp_back; [eassumption|]
          end ].
Ltac gas_go := cbv beta iota; repeat (gas_rule; cbv beta iota).
Ltac consts := unfold SstoreSetGas, SstoreClearGas, SstoreResetGas, SstoreNoopGasEIP2200, SstoreInitGasEIP2200, SstoreCleanGasEIP2200,
  SstoreDirtyGasEIP2200, SelfdestructGasEIP150, CreateBySelfdestructGas.
(** Begins a gas function's proof: the frame is taken apart. *)
Ltac gas_start := intros [p c m st] e n Hf He Hl Hn Hd Hz; pose proof Hf as [Hp Hc Hm Hst _]; cbn [pc contract memory stack] in *.
Ltac gas_end := split; cbn [fst snd pc contract memory stack]; try done; try same; try (split; [first [pos|consts; pos]|assumption]).
Ltac cell st i v H := destruct (lookup_lt_is_Some_2 st i) as [v H]; [lia|].

Lemma pure_gas_safe pops : gas_safe 0 pops true mem_gas.
Proof. gas_start. gas_go; gas_end. Qed.
Lemma memoryCopierGas_safe k : gas_safe 0 (Datatypes.S k) true (memoryCopierGas k).
Proof. gas_start. cell st k v Hv. unfold memoryCopierGas, CopyGas. gas_go; gas_end. Qed.
Lemma word_gas_safe k : gas_safe 0 (Datatypes.S k) true (word_gas k).
Proof. gas_start. cell st k v Hv. unfold word_gas, Sha3WordGas. gas_go; gas_end. Qed.
Lemma makeGasLog_safe k : 0 <= k <= 4 -> gas_safe 375 2 true (makeGasLog k).
Proof.
  intros Hk. gas_start. cell st 1%nat v Hv. unfold makeGasLog, LogGas, LogDataGas, LogTopicGas. rewrite (u64_small (k * 375)) by lia. gas_go; gas_end.
Qed.
Lemma exp_gas_safe k : 0 <= k <= 50 -> gas_safe 10 2 false (exp_gas k).
Proof.
  intros Hk. gas_start. rewrite (Hz eq_refl) in *. cell st 1%nat v Hv. unfold exp_gas, ExpGas. gas_go; gas_end.
  split; [pos|by apply grown_zero].
Qed.
Lemma gasExpFrontier_safe : gas_safe 10 2 false gasExpFrontier. Proof. by apply exp_gas_safe. Qed.
Lemma gasExpEIP158_safe : gas_safe 10 2 false gasExpEIP158. Proof. by apply exp_gas_safe. Qed.

(** ** The functions that ask the state *)

Ltac law l := eapply (wp_law W SI); [eapply l; exact Hlaws|eassumption|intros ? ? ? ? ? ? ?; cbn beta].
(** A chain of refunds, with the state as its only effect. *)
Definition only_state {A} (x : EM A) : Prop := forall f e (Q : A -> Frame * EVM S -> Prop), evm_ok e ->
  (forall a e', evm_ok e' -> same_ctx e e' -> Q a (f, e')) -> wp W x Q (f, e).
Lemma only_ret {A} (a : A) : only_state (mret a).
Proof. intros f e Q He HQ. by apply wp_ret, HQ. Qed.
Lemma only_bind {A B} (x : EM A) (k : A -> EM B) : only_state x -> (forall a, only_state (k a)) -> only_state (mbind k x).
Proof.
  intros Hx Hk f e Q He HQ. apply wp_bind, Hx; [done|]. intros a e1 He1 Hc1. apply Hk; [done|]. intros b e2 He2 Hc2. apply HQ; [done|same].
Qed.
Lemma only_when b (x : EM unit) : only_state x -> only_state (sm_when b x).
Proof. intros Hx. destruct b; [done|apply only_ret]. Qed.
Lemma only_law {A} (x : SM S A) R : meth W SI x R -> only_state (on_state x).
Proof. intros Hx f e Q He HQ. eapply wp_law; [exact Hx|done|]. intros. by apply HQ. Qed.
Lemma only_add g : only_state (on_state (AddRefund g)). Proof. eapply only_law, law_AddRefund. exact Hlaws. Qed.
Lemma only_sub g : only_state (on_state (SubRefund g)). Proof. eapply only_law, law_SubRefund. exact Hlaws. Qed.
Lemma only_committed a k : only_state (on_state (GetCommittedState a k)). Proof. eapply only_law, law_GetCommittedState. exact Hlaws. Qed.
Ltac refunds :=
  repeat match goal with
  | |- only_state (mret _) => apply only_ret
  | |- only_state (mbind _ _) => apply only_bind; [|intros ?]
  | |- only_state (sm_when _ _) => apply only_when
  | |- only_state (if _ then _ else _) => case_match
  | |- only_state (on_state (AddRefund _)) => apply only_add
  | |- only_state (on_state (SubRefund _)) => apply only_sub
  | |- only_state (on_state (GetCommittedState _ _)) => apply only_committed
  end.
Lemma net_sstore_wp current original_of value f e (Q : Z -> Frame * EVM S -> Prop) : only_state original_of -> evm_ok e ->
  (forall g e', 200 <= g <= 20000 -> evm_ok e' -> same_ctx e e' -> Q g (f, e')) -> wp W (net_sstore current original_of value) Q (f, e).
Proof.
  intros Ho He HQ. unfold net_sstore. apply wp_if; intros _; [by apply wp_ret, HQ|]. apply wp_bind, Ho; [done|]. intros original e1 He1 Hc1.
  apply wp_if; intros _; [apply wp_if; intros _; [by apply wp_ret, HQ|]|].
  - apply wp_bind. eapply (only_when _ _ (only_add _)); [done|]. intros [] e2 He2 Hc2. apply wp_ret, HQ; [done|done|same].
  - apply wp_bind. eapply only_when; [refunds|done|]. intros [] e2 He2 Hc2. apply wp_bind. eapply only_when; [refunds|done|]. intros [] e3 He3 Hc3.
    apply wp_ret, HQ; [done|done|same].
Qed.
Lemma gasSStore_safe : gas_safe 200 2 false (gasSStore env).
Proof.
  gas_start. rewrite (Hz eq_refl) in *. cell st 0%nat x Hx. cell st 1%nat y Hy. unfold gasSStore, self_address. gas_go. law law_GetState.
  pose proof (grown_zero m Hm). gas_go; try (gas_end; fail).
  - law law_AddRefund. gas_go. gas_end.
  - apply net_sstore_wp; [refunds|done|]. intros g e2 Hg He2 Hc2. gas_go. gas_end.
Qed.
Lemma gasSStoreEIP2200_safe : gas_safe 200 2 false gasSStoreEIP2200.
Proof.
  gas_start. rewrite (Hz eq_refl) in *. cell st 0%nat x Hx. cell st 1%nat y Hy. unfold gasSStoreEIP2200, self_address. pose proof (grown_zero m Hm).
  gas_go; [gas_end|]. law law_GetState. gas_go; [gas_end|]. law law_GetCommittedState.
  apply wp_if; intros _; [apply wp_if; intros _; [gas_go; gas_end|]|].
  - apply wp_bind. eapply only_when; [refunds|done|]. intros [] e2 He2 Hc2. gas_go. gas_end.
  - apply wp_bind. eapply only_when; [refunds|done|]. intros [] e2 He2 Hc2. apply wp_bind. eapply only_when; [refunds|done|]. intros [] e3 He3 Hc3.
    gas_go. gas_end.
Qed.
Lemma gasSelfdestruct_safe : gas_safe 0 1 false (gasSelfdestruct env).
Proof.
  gas_start. rewrite (Hz eq_refl) in *. cell st 0%nat x Hx. unfold gasSelfdestruct, self_address. pose proof (grown_zero m Hm). gas_go.
  - law law_Empty. destruct a; gas_go; [law law_GetBalance; gas_go; destruct (negb (_ =? 0))|].
    all: law law_HasSuicided; apply wp_bind; eapply only_when; [refunds|done|]; intros [] e4 He4 Hc4; gas_go; gas_end.
  - law law_HasSuicided. apply wp_bind. eapply only_when; [refunds|done|]. intros [] e4 He4 Hc4. gas_go. gas_end.
Qed.

(** ** Calls *)

(** The gas set aside for the callee is part of the cost, next to [base]. *)
Definition call_gas_safe (base : Frame -> Z) (pops : nat) (g : Z -> EM (Z + string)) : Prop :=
  forall f e n, frame_ok f -> evm_ok e -> (pops <= length f.(stack))%nat -> 0 <= n -> n mod 32 = 0 ->
  wp W (g n) (fun r fe => gas_post 0 n f e r fe /\
                match r with inl cost => base f + callGasTemp fe.2 <= cost | inr _ => True end) (f, e).
(** What a transfer of value costs the caller. *)
Definition value_gas (f : Frame) : Z := match stack f !! 2%nat with Some v => if v =? 0 then 0 else CallValueTransferGas | None => 0 end.
Definition no_value (_ : Frame) : Z := 0.

Lemma call_gas_wp gas f e v (Q : Z + string -> Frame * EVM S -> Prop) : stack f !! 0%nat = Some v -> 0 <= gas -> evm_ok e ->
  (forall temp e', evm_ok e' -> same_ctx e e' -> callGasTemp e' = temp -> 0 <= temp -> gas + temp < 2 ^ 64 -> Q (inl (gas + temp)) (f, e')) ->
  (forall err e', evm_ok e' -> same_ctx e e' -> Q (inr err) (f, e')) -> wp W (call_gas env gas) Q (f, e).
Proof.
  intros Hv Hg He HQ Herr. unfold call_gas. gas_go.
  assert (forall t, 0 <= t < 2 ^ 64 -> evm_ok (set_callGasTemp t e)) as Hset by (intros t Ht; destruct He; by split).
  assert (forall t, same_ctx e (set_callGasTemp t e)) as Hsame by by split.
  unfold callGas, Big.Uint64. destruct (_ && _); [|destruct (negb _)]; gas_go; try (apply Herr; [apply Hset; first [apply u64_range|lia]|apply Hsame]).
  all: apply (HQ _ _ (Hset _ (u64_range _)) (Hsame _)); [done|apply u64_range|done].
Qed.

Ltac call_start := intros [p c m st] e n Hf He Hl Hn Hd; pose proof Hf as [Hp Hc Hm Hst _]; cbn [pc contract memory stack] in *;
  assert (true = false -> n = 0) as Hz by done.
Ltac call_gas_end Hx :=
  eapply call_gas_wp; [exact Hx|lia|eassumption| |]; intros; (split; [gas_end|]); try done; cbn; lia.
Lemma new_account_only (b1 b2 : bool) a :
  only_state (if b1 then (if b2 then on_state (Empty a) else mret false) else (let! ex := on_state (Exist a) in mret (negb ex))).
Proof.
  destruct b1; [destruct b2; [|apply only_ret]|apply only_bind; [|intros; apply only_ret]].
  - eapply only_law, law_Empty. exact Hlaws.
  - eapply only_law, law_Exist. exact Hlaws.
Qed.
Lemma gasCall_safe : call_gas_safe value_gas 7 (gasCall env).
Proof.
  call_start. cell st 0%nat x Hx. cell st 1%nat t Ht. cell st 2%nat v Hv. unfold gasCall, value_gas. cbn [stack]. rewrite Hv.
  apply wp_bind. eapply wp_back; [exact Hv|]. apply wp_bind. eapply wp_back; [exact Ht|]. apply wp_bind, new_account_only; [done|]. intros new e1 He1 Hc1.
  set (base := (if new then CallNewAccountGas else 0) + _). assert ((if v =? 0 then 0 else CallValueTransferGas) <= base < 2 ^ 20 /\ 0 <= base) as [Hb Hb0].
  { subst base. destruct new, (v =? 0); by vm_compute. }
  gas_go; try (split; [gas_end|done]). call_gas_end Hx.
Qed.
Lemma gasCallCode_safe : call_gas_safe value_gas 7 (gasCallCode env).
Proof.
  call_start. cell st 0%nat x Hx. cell st 2%nat v Hv. unfold gasCallCode, value_gas. cbn [stack]. rewrite Hv.
  assert (0 <= CallValueTransferGas) as Hb0 by done. gas_go; destruct (v =? 0); cbn [negb]; gas_go; try (split; [gas_end|done]); call_gas_end Hx.
Qed.
Lemma gasDelegateCall_safe : call_gas_safe no_value 6 (gasDelegateCall env).
Proof.
  call_start. cell st 0%nat x Hx. unfold gasDelegateCall, no_value. gas_go; try (split; [gas_end|done]); call_gas_end Hx.
Qed.
Lemma gasStaticCall_safe : call_gas_safe no_value 6 (gasStaticCall env).
Proof. exact gasDelegateCall_safe. Qed.
End safety.
