(* ===== verification/EvmSafety.v ===== *)
(** * The virtual machine is safe

    Whatever the code and the input, a call on a machine in order ends: gas
    bounds the turns of the loop and the depth of the frames, so fuel above the
    gas is enough.  It leaves the machine in order, at the depth it began, and
    gives back at most the gas it was given.  The only panics are those of the
    state database and of the chain, unless two codes with one hash are
    exhibited. *)
From S2P Require Import Prelude Bls Params Shard Delegation Validator CXReceipt Receipt StakingVerifier Opcodes EvmCode Gas EvmMemory Precompiles StakingAbi EvmState EvmGas EvmOps EvmTable Evm EvmWp EvmBytes EvmOpsSafety EvmGasSafety.
Local Open Scope Z_scope.

(** ** The messages of the write-capable contracts are parsed without a panic *)

Lemma bind_no_panic {A B} (m : outcome A) (k : A -> outcome B) : no_panic m -> (forall a, no_panic (k a)) -> no_panic (mbind k m).
Proof. intros Hm Hk w. destruct m as [a|e|w']; [apply Hk|done|intros _; by destruct (Hm w')]. Qed.
Ltac quiet :=
  repeat match goal with
  | |- no_panic (mbind _ _) => apply bind_no_panic; [|intros ?]
  | |- no_panic (if _ then _ else _) => case_match
  | |- no_panic (match _ with _ => _ end) => case_match
  | |- no_panic (Ok _) => by intros ?
  | |- no_panic (Err _) => by intros ?
  end.
Section parsing.
Context {H : Hashes}.
Lemma UnpackValues_no_panic i args data : no_panic (UnpackValues i args data).
Proof. revert i. induction args as [|a args IH]; intros i; cbn [UnpackValues]; unfold toGoType; quiet; apply IH. Qed.
Lemma MethodById_no_panic abi input : no_panic (MethodById abi input).
Proof. unfold MethodById. quiet. Qed.
Lemma UnpackIntoMap_no_panic args data : no_panic (UnpackIntoMap args data).
Proof. unfold UnpackIntoMap. quiet; apply UnpackValues_no_panic. Qed.
Lemma ParseStakeMsg_no_panic caller input : no_panic (ParseStakeMsg caller input).
Proof.
  unfold ParseStakeMsg, ValidateContractAddress, ParseAddressFromKey, ParseBigIntFromKey. quiet; try apply UnpackIntoMap_no_panic; apply MethodById_no_panic.
Qed.
Lemma parseCrossShardXferData_no_panic input : no_panic (parseCrossShardXferData input).
Proof.
  unfold parseCrossShardXferData, ParseAddressFromKey, ParseBigIntFromKey, ParseUint32FromKey. quiet; try apply UnpackIntoMap_no_panic; apply MethodById_no_panic.
Qed.
End parsing.
Lemma IntrinsicGas_range data c h i v : Z.of_nat (length data) < 2 ^ 63 ->
  match IntrinsicGas data c h i v with Ok g => 0 <= g < 2 ^ 64 | Err _ => True | Panic _ => False end.
Proof.
  intros Hl. rewrite IntrinsicGas_exact by done. destruct (Z.leb_spec (intrinsic data c h i v) MaxUint64) as [Hm|]; [|done]. unfold MaxUint64 in Hm.
  split; [|lia]. unfold intrinsic. pose proof (nonzero_range data).
  repeat case_match; unfold TxGasContractCreation, TxGasValidatorCreation, TxGas, TxDataNonZeroGasEIP2028, TxDataNonZeroGasFrontier, TxDataZeroGas; lia.
Qed.

Section safety.
Context {S : Type} {V : VMState S} {H : Hashes} {C : CryptoLib} {L : EvmLib} {G : GoRuntime}.
Context (W : string -> Prop) (env : Env S) (SI : S -> Prop) (funded : Address -> Z -> S -> Prop).
Context (Hcollision : collision -> forall w, W w) (Hlaws : state_laws W env SI funded) (Henv : env_ok env) (Hcrypto : crypto_ok).
Notation VM := (SM (EVM S)).
Notation EM := (EM S).
Notation evm_ok := (evm_ok SI).
Notation Halt := (Slice * option string)%type.
Implicit Types (e : EVM S) (s : S) (st : list Z) (c : Contract).

(** ** What a call leaves *)

Record call_post (e : EVM S) (gas : Z) (r : CallResult) (e' : EVM S) : Prop := {
  cp_evm : evm_ok e';
  cp_ctx : same_ctx e e';
  cp_gas : 0 <= r.(leftOverGas) <= gas;
  cp_ret : data_ok r.(ret)
}.
Lemma vm_law {A} (x : SM S A) (R : A -> Prop) (Q : A -> EVM S -> Prop) e : meth W SI x R -> evm_ok e ->
  (forall a e', R a -> evm_ok e' -> same_ctx e e' -> Q a e') -> wp W (in_state x) Q e.
Proof.
  intros Hx He HQ. apply wp_in_state. eapply wp_mono; [apply Hx, He|]. intros a s [Hs Ha]. apply HQ; [done|by apply evm_ok_state|by split].
Qed.
Ltac vlaw l := eapply vm_law; [eapply l; exact Hlaws|eassumption|intros ? ? ? ? ?; cbn beta].

Lemma UseGas_ok gas c : contract_ok c -> 0 <= gas -> contract_ok (UseGas gas c).1 /\ 0 <= cGas (UseGas gas c).1 <= cGas c.
Proof.
  intros [] Hg. unfold UseGas. destruct (Z.ltb_spec (cGas c) gas); cbn; (split; [by split; cbn; [lia|..]|lia]).
Qed.
Lemma ck_with_gas c g : contract_ok c -> 0 <= g < max_gas -> contract_ok (with_Gas g c).
Proof. intros [] Hg. by split. Qed.
Lemma failed_post e c gas err : evm_ok e -> 0 <= cGas c <= gas -> call_post e gas (failed c err) e.
Proof. intros He Hg. split; cbn; [done..|apply nil_data]. Qed.

Lemma RunPrecompiledContract_wp p input c e : contract_ok c -> data_ok input -> evm_ok e ->
  wp W (RunPrecompiledContract p input c) (call_post e (cGas c)) e.
Proof.
  intros Hc Hd He. unfold RunPrecompiledContract. destruct (RequiredGas_ok p input Hd) as (gas & E & Hg). apply wp_bind. eapply wp_lift_Ok; [exact E|].
  pose proof (UseGas_ok gas c Hc ltac:(lia)) as [Hc' Hg']. unfold UseGas in *. destruct (Z.ltb_spec (cGas c) gas) as [|Hle]; cbn in Hc', Hg'.
  { by apply wp_ret, failed_post. }
  pose proof (Run_precompile_ok Hcrypto p input gas Hd E) as Hr. destruct (ck_gas _ Hc). specialize (Hr ltac:(lia)).
  destruct (Run_precompile p input) as [b|err|w]; [|by apply wp_ret, failed_post|done]. apply wp_ret. by split; cbn; [..|done|done].
Qed.
(** ** Write-capable contracts *)

Lemma chain_call_wp (x : SM S unit) (then_ : VM unit) e (Q : option string -> EVM S -> Prop) : meth W SI (caught x) any -> evm_ok e ->
  (forall e', evm_ok e' -> same_ctx e e' -> wp W then_ (fun _ => Q None) e') ->
  (forall err e', evm_ok e' -> same_ctx e e' -> Q (Some err) e') -> wp W (chain_call x then_) Q e.
Proof.
  intros Hx He HQ Herr. unfold chain_call. apply wp_bind. eapply vm_law; [exact Hx|done|]. intros [err|] e' _ He' Hctx.
  - by apply wp_ret, Herr.
  - apply wp_bind. eapply wp_mono; [by apply HQ|]. intros [] e2 HQ2. by apply wp_ret.
Qed.
Lemma stakingPrecompile_wp c input e (Q : option string -> EVM S -> Prop) : evm_ok e ->
  (forall err e', evm_ok e' -> same_ctx e e' -> Q err e') -> wp W (stakingPrecompile_RunWriteCapable env c input) Q e.
Proof.
  intros He HQ. unfold stakingPrecompile_RunWriteCapable. apply wp_if; intros _; [by apply wp_ret, HQ|].
  pose proof (ParseStakeMsg_no_panic (CallerAddress c) input) as Hnp. destruct (ParseStakeMsg _ _) as [[d|u|r]|err|w]; [| | |by apply wp_ret, HQ|by destruct (Hnp w)].
  - apply chain_call_wp; [apply Hlaws|done| |intros; by apply HQ]. intros e' He' Hctx. apply wp_modify, HQ; [destruct He'; by split|destruct Hctx; by split].
  - apply chain_call_wp; [apply Hlaws|done| |intros; by apply HQ]. intros e' He' Hctx. by apply wp_ret, HQ.
  - apply chain_call_wp; [apply Hlaws|done| |intros; by apply HQ]. intros e' He' Hctx. by apply wp_ret, HQ.
Qed.

(** A check of the balance, and what comes between it and the transfer. *)
Lemma CanTransfer_wp a v e (Q : bool -> EVM S -> Prop) : evm_ok e ->
  (forall ok e', evm_ok e' -> same_ctx e e' -> (ok = true -> funded a v (StateDB e')) -> Q ok e') ->
  wp W (in_state (env.(ctx).(CanTransfer) a v)) Q e.
Proof.
  intros He HQ. apply wp_in_state. eapply wp_mono; [apply (law_CanTransfer _ _ _ _ Hlaws), He|]. intros ok s [Hs Hf].
  apply HQ; [by apply evm_ok_state|by split|done].
Qed.
Lemma Transfer_wp a b v t e (Q : unit -> EVM S -> Prop) : evm_ok e -> nonneg v -> funded a v (StateDB e) ->
  (forall e', evm_ok e' -> same_ctx e e' -> Q tt e') -> wp W (in_state (env.(ctx).(Transfer) a b v t)) Q e.
Proof.
  intros He Hv Hf HQ. apply wp_in_state. eapply wp_mono; [apply (law_Transfer _ _ _ _ Hlaws); [apply He|done|done]|]. intros [] s Hs.
  apply HQ; [by apply evm_ok_state|by split].
Qed.
Lemma funded_law {A} (x : SM S A) (R : A -> Prop) a v (Q : A -> EVM S -> Prop) e : meth W SI x R -> meth W (funded a v) x any ->
  evm_ok e -> funded a v (StateDB e) ->
  (forall r e', R r -> evm_ok e' -> same_ctx e e' -> funded a v (StateDB e') -> Q r e') -> wp W (in_state x) Q e.
Proof.
  intros Hx Hf He Hfe HQ. apply wp_in_state. pose proof (wp_conj _ _ _ _ _ (Hx _ (ek_state _ _ He)) (Hf _ Hfe)) as Hw.
  eapply wp_mono; [exact Hw|]. intros r s [[Hs Hr] [Hfs _]]. apply HQ; [done|by apply evm_ok_state|by split|done].
Qed.
Ltac flaw l1 l2 := eapply funded_law; [eapply l1; exact Hlaws|eapply l2; exact Hlaws|eassumption|eassumption|intros ? ? ? ? ? ?; cbn beta].

Lemma crossShardXfer_wp c input e (Q : option string -> EVM S -> Prop) : contract_ok c -> evm_ok e ->
  (forall err e', evm_ok e' -> same_ctx e e' -> Q err e') -> wp W (crossShardXferPrecompile_RunWriteCapable env c input) Q e.
Proof.
  intros Hc He HQ. unfold crossShardXferPrecompile_RunWriteCapable. apply wp_bind, wp_gets, wp_if; intros _; [by apply wp_ret, HQ|].
  pose proof (parseCrossShardXferData_no_panic input) as Hnp. destruct (parseCrossShardXferData input) as [[[v to] sh]|err|w]; [|by apply wp_ret, HQ|by destruct (Hnp w)].
  apply wp_bind. vlaw law_GetCode.
  assert (forall (x : VM bool) (k : bool -> VM (option string)) e1, evm_ok e1 -> same_ctx e e1 ->
    (forall b e2, evm_ok e2 -> same_ctx e e2 -> wp W (k b) Q e2) -> (forall (Q' : bool -> EVM S -> Prop), (forall b e2, evm_ok e2 -> same_ctx e e2 -> Q' b e2) -> wp W x Q' e1) ->
    wp W (mbind k x) Q e1) as Hbind by (intros x k e1 He1 Hc1 Hk Hx; apply wp_bind, Hx; auto).
  apply Hbind; [done|done| |].
  2:{ intros Q' HQ'. apply wp_if; intros _; [|by apply wp_ret, HQ']. apply wp_bind. vlaw law_ctx_IsValidator. apply wp_ret, HQ'; [done|same]. }
  intros b e2 He2 Hc2. do 3 (apply wp_if; intros _; [by apply wp_ret, HQ|]). apply wp_if; intros Hv; [by apply wp_ret, HQ|].
  apply negb_false_iff, Z.eqb_eq in Hv as <-. apply wp_bind, CanTransfer_wp; [done|]. intros ok e3 He3 Hc3 Hf.
  destruct ok; cbn [negb]; [|apply wp_ret, HQ; [done|same]]. apply wp_bind, Transfer_wp; [done|apply Hc|by apply Hf|]. intros e4 He4 Hc4.
  apply wp_bind, wp_modify, wp_ret, HQ; [destruct He4; by split|]. assert (same_ctx e e4) as [] by same. by split.
Qed.

Lemma wc_RequiredGas_ok p c input : match wc_RequiredGas env p c input with Ok g => 0 <= g < 2 ^ 64 | Err _ => True | Panic _ => False end.
Proof.
  destruct p; cbn; [|done]. unfold stakingPrecompile_RequiredGas. apply IntrinsicGas_range. case_match; [case_match|]; try done. apply (env_rlp _ Henv).
Qed.
Lemma RunWriteCapable_wp p c input ro e : contract_ok c -> evm_ok e ->
  wp W (RunWriteCapablePrecompiledContract env p c input ro) (call_post e (cGas c)) e.
Proof.
  intros Hc He. destruct (ck_gas _ Hc) as [Hg0 Hg1]. unfold RunWriteCapablePrecompiledContract. apply wp_if; intros _; [by apply wp_ret, failed_post|].
  pose proof (wc_RequiredGas_ok p c input) as Hr. destruct (wc_RequiredGas env p c input) as [gas|err|w]; [|by apply wp_ret, failed_post|done].
  unfold UseGas. destruct (Z.ltb_spec (cGas c) gas) as [|Hle]; cbn [negb].
  { by apply wp_ret, failed_post. }
  apply wp_bind. assert (forall err e', evm_ok e' -> same_ctx e e' ->
    wp W (mret match err with Some e => failed (with_Gas (cGas c - gas) c) e | None => returned (with_Gas (cGas c - gas) c) [] end) (call_post e (cGas c)) e') as HQ.
  { intros err e' He' Hctx. apply wp_ret. destruct err; split; cbn; try done; try lia; apply nil_data. }
  destruct p; cbn [wc_RunWriteCapable]; [apply stakingPrecompile_wp; [done|exact HQ]|apply crossShardXfer_wp; [apply ck_with_gas; [done|lia]|done|exact HQ]].
Qed.

(** ** Running code *)

Section calls.
Context (N : Z) (loop : EM Halt).
(** What the loop leaves of a frame. *)
Record loop_post (f : Frame) (e : EVM S) (r : Halt) (fe : Frame * EVM S) : Prop := {
  lp_evm : evm_ok fe.2;
  lp_ctx : same_ctx e fe.2;
  lp_gas : 0 <= cGas (contract fe.1) <= cGas (contract f);
  lp_ret : data_ok (resolve (memory fe.1) r.1)
}.
Definition loop_safe : Prop := forall f e, frame_ok f -> evm_ok e -> cGas (contract f) < N -> wp W loop (loop_post f e) (f, e).
Context (Hloop : loop_safe).

Lemma run_code_wp c input e : contract_ok c -> data_ok input -> evm_ok e -> cGas c < N ->
  wp W (run_code loop c input) (call_post e (cGas c)) e.
Proof.
  intros Hc Hd He HN. unfold run_code. destruct (cCode c) as [|b code] eqn:Ecode.
  { apply wp_ret. destruct (ck_gas _ Hc). split; cbn; [done|done|lia|apply nil_data]. }
  apply wp_bind. set (f := mkFrame 0 (with_Input input c) NewMemory []). assert (frame_ok f) as Hf.
  { split; cbn; [done| |apply NewMemory_memory_ok|constructor|done]. destruct Hc. by split. }
  pose proof (Hloop f e Hf He HN) as Hl. unfold wp, in_frame in *. destruct (loop (f, e)) as [[f' e'] [[s err]|err|w]]; [|done|done].
  destruct Hl as [H1 H2 H3 H4]. cbn in *. by split.
Qed.
Lemma Run_wp c input ro e : contract_ok c -> data_ok input -> evm_ok e -> cGas c < N -> wp W (Run loop c input ro) (call_post e (cGas c)) e.
Proof.
  intros Hc Hd He HN. unfold Run. apply wp_bind, wp_modify, wp_bind, wp_gets. cbn. apply wp_bind.
  set (sets := ro && negb (readOnly e)). set (e1 := set_depth (depth e + 1) e).
  set (e2 := if sets then set_readOnly true e1 else e1).
  assert (wp W (sm_when sets (modify (set_readOnly true))) (fun _ x => x = e2) e1) as Hw by (subst e2; by destruct sets).
  eapply wp_mono; [exact Hw|]. intros [] ? ->. apply wp_bind, wp_modify, wp_bind. set (e3 := set_returnData nil_slice e2).
  assert (evm_ok e3) as He3 by (subst e3 e2 e1; destruct He; destruct sets; split; try done).
  eapply wp_mono; [by apply run_code_wp|]. intros r e4 [He4 [Hd4 Hr4 Ha4] Hg Hret]. apply wp_bind.
  set (e5 := if sets then set_readOnly false e4 else e4).
  assert (wp W (sm_when sets (modify (set_readOnly false))) (fun _ x => x = e5) e4) as Hw5 by (subst e5; by destruct sets).
  eapply wp_mono; [exact Hw5|]. intros [] ? ->. apply wp_bind, wp_modify, wp_ret. split; [| |done|done].
  - subst e5. destruct He4. by destruct sets; split.
  - subst e5 e3 e2 e1 sets. destruct ro, (readOnly e) eqn:Ero; split; cbn in *; congruence || lia.
Qed.
Lemma precompile_input_ok p input : data_ok input -> data_ok (precompile_input env p input).
Proof.
  intros Hd. destruct p; cbn [precompile_input]; try done; try (repeat case_match; by apply be_bytes_data).
  apply (big_Bytes_data _ 8); [apply Henv|done].
Qed.
Lemma run_wp c input ro e : contract_ok c -> data_ok input -> evm_ok e -> cGas c < N -> wp W (run env loop c input ro) (call_post e (cGas c)) e.
Proof.
  intros Hc Hd He HN. unfold run.
  assert (wp W (Run loop (with_CopyFix (WithDataCopyFix c || active env IsDataCopyFixEpoch) c) input ro) (call_post e (cGas c)) e) as Hrun.
  { apply (Run_wp (with_CopyFix _ c)); [|done..]. destruct Hc. by split. }
  destruct (CodeAddr c) as [addr|]; [|done]. destruct (precompile_at _ addr) as [p|]; [by apply RunPrecompiledContract_wp; [|apply precompile_input_ok|]|].
  destruct (write_capable_at _ addr) as [p|]; [by apply RunWriteCapable_wp|done].
Qed.

(** ** Calls *)

Lemma revert_to_wp snapshot gas r e0 e : call_post e0 gas r e -> wp W (revert_to snapshot r) (call_post e0 gas) e.
Proof.
  intros [He Hc Hg Hr]. unfold revert_to. apply wp_bind. vlaw law_RevertToSnapshot. apply wp_ret.
  destruct (bool_decide _); split; cbn; try done; try same; lia.
Qed.
Lemma settle_wp snapshot gas r e0 e : call_post e0 gas r e -> wp W (settle snapshot r) (call_post e0 gas) e.
Proof. intros Hp. unfold settle. destruct (callErr r); [by apply revert_to_wp|by apply wp_ret]. Qed.
Lemma no_call_post e gas err : evm_ok e -> 0 <= gas -> call_post e gas (no_call gas err) e.
Proof. intros He Hg. split; cbn; [done..|lia|apply nil_data]. Qed.
Lemma call_post_trans e1 e2 gas r e : same_ctx e1 e2 -> call_post e2 gas r e -> call_post e1 gas r e.
Proof. intros Hs [He Hc Hg Hr]. split; [done|by etrans|done|done]. Qed.
Lemma guarded_wp gas k e : evm_ok e -> 0 <= gas -> wp W k (call_post e gas) e -> wp W (guarded env gas k) (call_post e gas) e.
Proof.
  intros He Hg Hk. unfold guarded. apply wp_bind, wp_gets, wp_if; intros _; [by apply wp_ret, no_call_post|].
  apply wp_if; intros _; [by apply wp_ret, no_call_post|done].
Qed.
Lemma NewContract_wp caller_ object value gas e (Q : Contract -> EVM S -> Prop) : ref_ok caller_ -> nonneg object -> nonneg value -> 0 <= gas < max_gas ->
  evm_ok e -> (forall c e', evm_ok e' -> same_ctx e e' -> StateDB e' = StateDB e -> cGas c = gas ->
    caller c = caller_ -> contract_ok c -> Q c e') -> wp W (NewContract caller_ object value gas) Q e.
Proof.
  intros Hr Ho Hv Hg He HQ. unfold NewContract. apply wp_bind, wp_modify, wp_ret. apply HQ; try done.
  - destruct caller_; [|done]. destruct He. by split.
  - by destruct caller_.
  - by destruct caller_.
  - split; cbn; try done; [by left|]. destruct caller_; [done|apply Hr].
Qed.
Lemma SetCallCode_ok addr h code c : contract_ok c -> data_ok code -> hash_of h code -> contract_ok (SetCallCode addr h code c).
Proof. intros [] Hc Hh. by split. Qed.

(** The code of an account, with its hash. *)
Lemma get_code_wp a (k : Z -> list Z -> VM CallResult) (Q : CallResult -> EVM S -> Prop) e : evm_ok e ->
  (forall h code e', data_ok code -> hash_of h code -> evm_ok e' -> same_ctx e e' -> wp W (k h code) Q e') ->
  wp W (let! h := in_state (GetCodeHash a) in let! code := in_state (GetCode a) in k h code) Q e.
Proof.
  intros He HQ. pose proof (law_code _ _ _ _ Hlaws a _ (ek_state _ _ He)) as Hl. unfold wp, in_state, mbind, SM_bind in *.
  destruct (GetCodeHash a (StateDB e)) as [s1 [h|err|w]]; [|done|done]. cbn in *.
  destruct (GetCode a s1) as [s2 [c|err|w]]; [|done|done]. cbn in *. destruct Hl as (Hs & Hc & Hh).
  apply (HQ h c (set_StateDB s2 (set_StateDB s1 e))); [done|done| |by split]. destruct He. by split.
Qed.

Section one_call.
Context (caller_ : ContractRef) (addr : Address) (input : list Z) (gas : Z) (value : Z).
Context (Hcaller : ref_ok caller_) (Haddr : nonneg addr) (Hinput : data_ok input) (Hgas : 0 <= gas < max_gas) (HN : gas < N) (Hvalue : nonneg value).

Lemma ref_nonneg : nonneg (ref_Address caller_).
Proof. destruct caller_; [done|apply Hcaller]. Qed.
(** The end of every call. *)
Lemma run_settle_wp c h code ro snapshot e0 e : contract_ok c -> cGas c = gas -> data_ok code -> hash_of h code -> evm_ok e -> same_ctx e0 e ->
  wp W (let! r := run env loop (SetCallCode addr h code c) input ro in settle snapshot r) (call_post e0 gas) e.
Proof.
  intros Hc Hg Hd Hh He Hctx. apply wp_bind. eapply wp_mono; [apply run_wp; [by apply SetCallCode_ok|done|done|cbn; lia]|].
  intros r e' Hr. cbn in Hr. rewrite Hg in Hr. apply settle_wp. by eapply call_post_trans.
Qed.

Lemma Call_wp e : evm_ok e -> wp W (Call env loop caller_ addr input gas value) (call_post e gas) e.
Proof.
  intros He. apply guarded_wp; [done|lia|]. apply wp_bind, CanTransfer_wp; [done|]. intros ok e1 He1 Hc1 Hf. destruct ok; cbn [negb].
  2:{ apply wp_ret. eapply call_post_trans; [exact Hc1|]. apply no_call_post; [done|lia]. }
  specialize (Hf eq_refl). apply wp_bind. flaw law_Snapshot funded_Snapshot. apply wp_bind. flaw law_Exist funded_Exist.
  set (new := negb r0 && _). apply wp_if; intros Hnew.
  { apply wp_ret. eapply call_post_trans; [|apply no_call_post; [eassumption|lia]]. same. }
  clear Hnew. apply wp_bind.
  assert (forall (Q : unit -> EVM S -> Prop), (forall e', evm_ok e' -> same_ctx e e' -> funded (ref_Address caller_) value (StateDB e') -> Q tt e') ->
    wp W (sm_when new (in_state (CreateAccount addr))) Q e'0) as Hcreate.
  { intros Q HQ. apply wp_when; intros _; [|apply HQ; [done|same|done]]. flaw law_CreateAccount funded_CreateAccount. destruct r1. apply HQ; [done|same|done]. }
  apply Hcreate. clear Hcreate. intros e4 He4 Hc4 Hf4. apply wp_bind, Transfer_wp; [done..|]. intros e5 He5 Hc5.
  apply get_code_wp; [done|]. intros h code e6 Hcode Hh He6 Hc6. apply wp_bind. vlaw law_ctx_IsValidator.
  assert (exists h' code', (if (a : bool) then (Keccak256Hash [], []) else (h, code)) = (h', code') /\ data_ok code' /\ hash_of h' code') as (h' & code' & E & Hcode' & Hh').
  { destruct a; eexists _, _; (split; [done|split; [|]]); try done. by left. }
  rewrite E. apply wp_bind, NewContract_wp; [done..|]. intros c e8 He8 Hc8 _ Hg8 _ Hck. apply run_settle_wp; try done. same.
Qed.
Lemma CallCode_wp e : evm_ok e -> wp W (CallCode env loop caller_ addr input gas value) (call_post e gas) e.
Proof.
  intros He. apply guarded_wp; [done|lia|]. apply wp_bind, CanTransfer_wp; [done|]. intros ok e1 He1 Hc1 Hf. destruct ok; cbn [negb].
  2:{ apply wp_ret. eapply call_post_trans; [exact Hc1|]. apply no_call_post; [done|lia]. }
  apply wp_bind. vlaw law_Snapshot. apply wp_bind, NewContract_wp; [done|apply ref_nonneg|done..|]. intros c e8 He8 Hc8 _ Hg8 _ Hck.
  apply get_code_wp; [done|]. intros h code e6 Hcode Hh He6 Hc6. apply run_settle_wp; try done. same.
Qed.
Lemma DelegateCall_wp e : (exists a b v, caller_ = ContractR a b v) -> evm_ok e -> wp W (DelegateCall env loop caller_ addr input gas) (call_post e gas) e.
Proof.
  intros (a & b & v & Ec) He. apply guarded_wp; [done|lia|].
  apply wp_bind. vlaw law_Snapshot. apply wp_bind, NewContract_wp; [done|apply ref_nonneg|done..|]. intros c e8 He8 Hc8 _ Hg8 Hcr Hck.
  unfold AsDelegate. rewrite Hcr, Ec. apply wp_bind. eapply wp_lift_Ok; [done|].
  apply get_code_wp; [done|]. intros h code e6 Hcode Hh He6 Hc6. rewrite Ec in Hcaller. destruct Hcaller as (Ha & Hb & Hv).
  apply run_settle_wp; try done; [|same]. destruct Hck. by split.
Qed.
Lemma StaticCall_wp e : evm_ok e -> wp W (StaticCall env loop caller_ addr input gas) (call_post e gas) e.
Proof.
  intros He. apply guarded_wp; [done|lia|].
  apply wp_bind. vlaw law_Snapshot. apply wp_bind, NewContract_wp; [done..|]. intros c e8 He8 Hc8 _ Hg8 _ Hck.
  apply get_code_wp; [done|]. intros h code e6 Hcode Hh He6 Hc6. apply wp_bind.
  eapply vm_law; [eapply law_AddBalance; [exact Hlaws|done]|done|]. intros [] e7 _ He7 Hc7. apply run_settle_wp; try done. same.
Qed.
End one_call.
(** *** Creation *)

Lemma store_code_wp address gas r e0 e : call_post e0 gas r e -> wp W (store_code address r) (call_post e0 gas) e.
Proof.
  intros [He Hc Hg Hr]. unfold store_code. set (cost := u64 _). pose proof (u64_range (u64 (Z.of_nat (length (ret r))) * CreateDataGas)) as Hcost. fold cost in Hcost.
  apply wp_if; intros Hlt; [apply wp_ret; by split|]. apply Z.ltb_ge in Hlt. apply wp_bind.
  eapply vm_law; [eapply law_SetCode; [exact Hlaws|done]|done|]. intros [] e1 _ He1 Hc1. apply wp_ret. split; cbn; [done|same|lia|done].
Qed.
Lemma create_wp caller_ ch gas value address e : ref_ok caller_ -> data_ok (ch_code ch) -> hash_of (ch_hash ch) (ch_code ch) ->
  0 <= gas < max_gas -> gas < N -> nonneg value -> nonneg address -> evm_ok e ->
  wp W (create env loop caller_ ch gas value address) (fun r e' => nonneg r.1 /\ call_post e gas r.2 e') e.
Proof.
  intros Hr Hcode Hh Hgas HN Hv Ha He. unfold create.
  assert (forall g err e1, evm_ok e1 -> same_ctx e e1 -> 0 <= g <= gas -> nonneg (zero_address, no_call g err).1 /\ call_post e gas (zero_address, no_call g err).2 e1) as Hno.
  { intros g err e1 He1 Hc1 Hg. split; [done|]. split; cbn; [done|done|lia|apply nil_data]. }
  apply wp_bind, wp_gets, wp_if; intros _; [apply wp_ret, Hno; [done..|lia]|].
  apply wp_bind, CanTransfer_wp; [done|]. intros ok e1 He1 Hc1 Hf. destruct ok; cbn [negb]; [|apply wp_ret, Hno; [done..|lia]]. specialize (Hf eq_refl).
  apply wp_bind. flaw law_GetNonce funded_GetNonce. apply wp_bind. flaw law_SetNonce funded_SetNonce. apply wp_bind. flaw law_GetCodeHash funded_GetCodeHash.
  apply wp_bind. flaw law_GetNonce funded_GetNonce. apply wp_if; intros _; [apply wp_ret, Hno; [done|same|lia]|].
  apply wp_bind. flaw law_Snapshot funded_Snapshot. apply wp_bind. flaw law_CreateAccount funded_CreateAccount. apply wp_bind.
  match goal with |- wp _ (sm_when _ _) ?Q ?e2 => assert (forall e3, evm_ok e3 -> same_ctx e2 e3 -> funded (ref_Address caller_) value (StateDB e3) -> Q tt e3) as Hrest end.
  2:{ apply wp_when; intros _; [flaw law_SetNonce funded_SetNonce; repeat match goal with u : unit |- _ => destruct u end|]; by apply Hrest. }
  intros e3 He3 Hc3 Hf3. apply wp_bind, Transfer_wp; [done..|]. intros e4 He4 Hc4. apply wp_bind, NewContract_wp; [done..|].
  intros k e5 He5 Hc5 _ Hg5 _ Hk. assert (same_ctx e e5) as Hs5 by same.
  apply wp_if; intros _; [apply wp_ret; split; [done|apply Hno; [done..|lia]]|].
  apply wp_bind. eapply wp_mono; [apply run_wp; [by apply SetCallCode_ok|apply nil_data|done|cbn; lia]|]. cbn [cGas SetCallCode]. rewrite Hg5.
  intros r6' e6 Hp6. pose proof (call_post_trans _ _ _ _ _ Hs5 Hp6) as Hp. set (exceeded := _ && (MaxCodeSize <? _)).
  apply wp_bind.
  assert (wp W (if bool_decide (callErr r6' = None) && negb exceeded then store_code address r6' else mret r6') (call_post e gas) e6) as Hstore
    by (apply wp_if; intros _; [by apply store_code_wp|by apply wp_ret]).
  eapply wp_mono; [exact Hstore|]. intros r7 e7 Hp7. apply wp_bind.
  assert (forall (b : bool) id, wp W (if b then revert_to id r7 else mret r7) (call_post e gas) e7) as Hrev by (intros [] ?; [by apply revert_to_wp|by apply wp_ret]).
  eapply wp_mono; [apply Hrev|]. intros r8 e8 [He8 Hc8 Hg8 Hr8]. apply wp_ret. split; [done|]. destruct (exceeded && _); by split.
Qed.
Lemma Create_wp caller_ code gas value e : ref_ok caller_ -> data_ok code -> 0 <= gas < max_gas -> gas < N -> nonneg value -> evm_ok e ->
  wp W (Create env loop caller_ code gas value) (fun r e' => nonneg r.1 /\ call_post e gas r.2 e') e.
Proof.
  intros Hr Hcode Hgas HN Hv He. unfold Create. apply wp_bind. vlaw law_GetNonce.
  eapply wp_mono; [apply create_wp; try done; [by right; left|apply Henv]|]. intros r e2 [Hn Hp]. split; [done|by eapply call_post_trans].
Qed.
Lemma Create2_wp caller_ code gas value salt e : ref_ok caller_ -> data_ok code -> 0 <= gas < max_gas -> gas < N -> nonneg value -> evm_ok e ->
  wp W (Create2 env loop caller_ code gas value salt) (fun r e' => nonneg r.1 /\ call_post e gas r.2 e') e.
Proof.
  intros Hr Hcode Hgas HN Hv He. unfold Create2. apply create_wp; try done; [|apply Henv]. unfold ch_Hash. cbn. by right; right.
Qed.
(** ** Instructions that call *)

Context (HNmax : N <= max_gas).
Lemma as_ref_ok c : contract_ok c -> ref_ok (as_ref c).
Proof. intros []. by split_and!. Qed.
Lemma with_Gas_twice g g' c : with_Gas g (with_Gas g' c) = with_Gas g c.
Proof. done. Qed.

Lemma called_wp args ro rs r p c m st e (Q : Slice + string -> Frame * EVM S -> Prop) : memory_ok m -> covered ro rs m -> data_ok (ret r) -> slice_ok args ->
  0 <= cGas c + leftOverGas r < 2 ^ 64 ->
  (forall m' sl b, memory_ok m' -> slice_ok sl -> Q (inl sl) (mkFrame p (with_Gas (cGas c + leftOverGas r) c) m' (bool_word b :: st), e)) ->
  wp W (called args ro rs r) Q (mkFrame p c m st, e).
Proof.
  intros Hm Hcov Hret Hargs Hg HQ. unfold called, add_gas. set (copies := _ || reverted r). set (b := bool_decide (callErr r = None)). wp_go.
  - destruct (mem_Set_ok m ro rs (ret r) Hm Hcov (data_bytes _ Hret)) as (m' & E & Hm' & _). eapply wp_mem_update; [exact E|]. wp_go.
    rewrite (u64_small (cGas c + leftOverGas r)) by lia. apply HQ; [done|]. by destruct (_ && _).
  - rewrite (u64_small (cGas c + leftOverGas r)) by lia. apply HQ; [done|]. by destruct (_ && _).
Qed.

(** What a call may use next to what the frame has: the gas set aside and the
    stipend for a transfer of value. *)
Definition stipend (f : Frame) : Z := match stack f !! 2%nat with Some v => if v =? 0 then 0 else CallStipend | None => 0 end.
Definition call_safe (extra : Frame -> Z) (pops : nat) (size : Stack -> outcome (Z * bool)) (x : EM (Slice + string)) : Prop :=
  forall f e, frame_ok f -> in_code f -> evm_ok e -> (pops <= length f.(stack))%nat -> covers (Some size) f ->
  cGas (contract f) + callGasTemp e + extra f < N ->
  wp W x (op_post_upto SI (cGas (contract f) + callGasTemp e + extra f) f e (1 - Z.of_nat pops)) (f, e).
(** From the call's result to the instruction's. *)
Lemma call_end p c m xs st e e' r bound pops (f := mkFrame p c m (xs ++ st)) m' sl b g : frame_ok f -> length xs = pops ->
  call_post e g r e' -> cGas c + g <= bound -> memory_ok m' -> slice_ok sl ->
  op_post_upto SI bound f e (1 - Z.of_nat pops) (inl sl) (mkFrame p (with_Gas (cGas c + leftOverGas r) c) m' (bool_word b :: st), e').
Proof.
  intros [Hp Hc Hm Hst _] Hl [He' Hctx Hg _] Hb Hm' Hsl. cbn in *. apply Forall_app in Hst as [_ Hst]. destruct (ck_gas _ Hc).
  split; cbn; [done..| |done| |].
  - eexists. split; [done|lia].
  - constructor; [apply nonneg_bool|done].
  - split; [done|]. rewrite length_app. lia.
Qed.
Ltac call_start := intros [p c m st] e Hf Hat He Hn (n & En & Hl) Hg; pose proof Hf as [Hp Hc Hm Hst _]; cbn [pc contract memory stack] in *;
  destruct (ck_gas _ Hc) as [Hg0 Hg1]; destruct (ek_temp _ _ He) as [Ht0 Ht1].
Ltac cell_of Hst Hn st := destruct st as [|? st]; [cbn in Hn; lia|]; apply Forall_cons in Hst as [? Hst].

(** CALL and CALLCODE. *)
Lemma value_call_safe (do_call : ContractRef -> Address -> list Z -> Z -> Z -> VM CallResult) :
  (forall r a i g v e, ref_ok r -> nonneg a -> data_ok i -> 0 <= g < max_gas -> g < N -> nonneg v -> evm_ok e -> wp W (do_call r a i g v) (call_post e g) e) ->
  call_safe stipend 7 memoryCall
    (let! _ := pop in let! gas := eget callGasTemp in
     let! addr := pop in let! value := pop in let! inOffset := pop in let! inSize := pop in let! retOffset := pop in let! retSize := pop in
     let value := U256 value in
     let! args := the_args inOffset inSize in
     let! input := bytes_of args in
     let! c := fget contract in
     let gas := if negb (value =? 0) then u64 (gas + CallStipend) else gas in
     let! r := on_evm (do_call (as_ref c) (BigToAddress addr) input gas value) in
     called args retOffset retSize r).
Proof.
  intros Hcall. call_start. do 7 (cell_of Hst Hn st). unfold stipend in *. cbn [stack lookup list_lookup] in *.
  destruct (mem_both_covered _ _ _ _ _ _ m En Hl) as [Hret Hin]. specialize (Hret _ _ eq_refl eq_refl). specialize (Hin _ _ eq_refl eq_refl).
  unfold the_args. wp_go. destruct (GetPtr_ok m z2 z3 Hm Hin) as (args & E & Hargs & Hd). eapply wp_mem_read; [exact E|]. wp_go. apply wp_on_evm.
  set (gas := if negb (U256 z1 =? 0) then _ else _).
  assert (0 <= gas <= callGasTemp e + (if z1 =? 0 then 0 else CallStipend)) as Hgas.
  { subst gas. unfold CallStipend in *. destruct (Z.eqb_spec (U256 z1) 0); cbn [negb]; [destruct (z1 =? 0); lia|].
    destruct (Z.eqb_spec z1 0) as [->|]; [done|]. unfold max_gas in *. rewrite u64_small by lia. lia. }
  eapply wp_mono; [apply Hcall; [by apply as_ref_ok|auto with evm|done|lia|lia|auto with evm|done]|].
  intros r e' Hr. pose proof (cp_gas _ _ _ _ Hr). apply called_wp; [done|done|apply Hr|done|unfold max_gas in *; lia|].
  intros m' sl b Hm' Hsl. by apply (call_end p c m [z; z0; z1; z2; z3; z4; z5] st e e' r _ 7 m' sl b gas); try done; lia.
Qed.
Lemma opCall_safe : call_safe stipend 7 memoryCall (opCall (calls env loop)).
Proof. apply value_call_safe. intros. by apply Call_wp. Qed.
Lemma opCallCode_safe : call_safe stipend 7 memoryCall (opCallCode (calls env loop)).
Proof. apply value_call_safe. intros. by apply CallCode_wp. Qed.

(** DELEGATECALL and STATICCALL. *)
Definition no_stipend (_ : Frame) : Z := 0.
Lemma plain_call_safe (do_call : ContractRef -> Address -> list Z -> Z -> VM CallResult) size : size = mem_both 4 5 2 3 ->
  (forall c a i g e, contract_ok c -> nonneg a -> data_ok i -> 0 <= g < max_gas -> g < N -> evm_ok e -> wp W (do_call (as_ref c) a i g) (call_post e g) e) ->
  call_safe no_stipend 6 size
    (let! _ := pop in let! gas := eget callGasTemp in
     let! addr := pop in let! inOffset := pop in let! inSize := pop in let! retOffset := pop in let! retSize := pop in
     let! args := the_args inOffset inSize in
     let! input := bytes_of args in
     let! c := fget contract in
     let! r := on_evm (do_call (as_ref c) (BigToAddress addr) input gas) in
     called args retOffset retSize r).
Proof.
  intros -> Hcall. call_start. do 6 (cell_of Hst Hn st). unfold no_stipend in *.
  destruct (mem_both_covered _ _ _ _ _ _ m En Hl) as [Hret Hin]. specialize (Hret _ _ eq_refl eq_refl). specialize (Hin _ _ eq_refl eq_refl).
  unfold the_args. wp_go. destruct (GetPtr_ok m z1 z2 Hm Hin) as (args & E & Hargs & Hd). eapply wp_mem_read; [exact E|]. wp_go. apply wp_on_evm.
  eapply wp_mono; [apply Hcall; [done|auto with evm|done|lia|lia|done]|].
  intros r e' Hr. pose proof (cp_gas _ _ _ _ Hr). apply called_wp; [done|done|apply Hr|done|unfold max_gas in *; lia|].
  intros m' sl b Hm' Hsl. apply (call_end p c m [z; z0; z1; z2; z3; z4] st e e' r _ 6 m' sl b (callGasTemp e)); try done; lia.
Qed.
Lemma opDelegateCall_safe : call_safe no_stipend 6 memoryDelegateCall (opDelegateCall (calls env loop)).
Proof. apply plain_call_safe; [done|]. intros. apply DelegateCall_wp; try done; [by apply as_ref_ok|by eexists _, _, _]. Qed.
Lemma opStaticCall_safe : call_safe no_stipend 6 memoryStaticCall (opStaticCall (calls env loop)).
Proof. apply plain_call_safe; [done|]. intros. apply StaticCall_wp; try done. by apply as_ref_ok. Qed.

(** CREATE and CREATE2. *)
Definition create_safe (pops : nat) (size : Stack -> outcome (Z * bool)) (x : EM (Slice + string)) : Prop :=
  forall f e, frame_ok f -> in_code f -> evm_ok e -> (pops <= length f.(stack))%nat -> covers (Some size) f -> cGas (contract f) < N ->
  wp W x (op_post SI f e (1 - Z.of_nat pops)) (f, e).
Lemma created_wp p c m xs st e e1 r addr gas left pops (f := mkFrame p c m (xs ++ st)) : frame_ok f -> length xs = pops -> nonneg addr ->
  call_post e gas r e1 -> 0 <= left -> left + gas <= cGas c ->
  wp W (created r) (op_post SI f e (1 - Z.of_nat pops)) (mkFrame p (with_Gas left c) m (addr :: st), e1).
Proof.
  intros [Hp Hc Hm Hst _] Hl Ha [He1 Hctx Hg Hret] Hleft Hsum. cbn in *. apply Forall_app in Hst as [_ Hst]. destruct (ck_gas _ Hc). unfold max_gas in *.
  unfold created, add_gas. wp_go. cbn [cGas with_Gas]. rewrite u64_small by lia. split; cbn; [done..| |done|by constructor|].
  - eexists. split; [done|lia].
  - split; [by destruct (reverted r)|]. rewrite length_app. lia.
Qed.
(** What all but one 64th is. *)
Lemma most_gas g : 0 <= g < max_gas -> u64 (g - g / 64) = g - g / 64 /\ 0 <= g - g / 64 <= g.
Proof.
  intros Hg. unfold max_gas in *. assert (0 <= g / 64 <= g) by (split; [apply Z.div_pos; lia|apply Z.div_le_upper_bound; lia]). rewrite u64_small by lia. lia.
Qed.
Lemma take_gas_wp gas p c m st e (Q : unit -> Frame * EVM S -> Prop) : gas <= cGas c ->
  Q tt (mkFrame p (with_Gas (cGas c - gas) c) m st, e) -> wp W (take_gas gas) Q (mkFrame p c m st, e).
Proof.
  intros Hg HQ. unfold take_gas, UseGas. wp_go. destruct (Z.ltb_spec (cGas c) gas); [lia|]. exact HQ.
Qed.
Ltac create_start := intros [p c m st] e Hf Hat He Hn (n & En & Hl) Hg; pose proof Hf as [Hp Hc Hm Hst _]; cbn [pc contract memory stack] in *;
  destruct (ck_gas _ Hc) as [Hg0 Hg1]; destruct (most_gas (cGas c) (conj Hg0 Hg1)) as [Em Hmost].
Lemma opCreate_safe : create_safe 3 memoryCreate (opCreate env (calls env loop)).
Proof.
  create_start. do 3 (cell_of Hst Hn st). assert (covered z0 z1 m) as Hcov by by eapply mem_at_covered. unfold opCreate.
  destruct (GetCopy_ok m z0 z1 Hm Hcov) as (b & E & Hb). wp_go. eapply wp_mem_read; [exact E|]. wp_go.
  set (gas := if active env IsS3 then _ else _). assert (0 <= gas <= cGas c) as Hgas by (subst gas; destruct (active env IsS3); lia).
  apply take_gas_wp; [lia|]. wp_go. apply wp_on_evm. eapply wp_mono; [apply Create_wp; [by apply as_ref_ok|done|lia|lia|done|done]|].
  intros [addr r] e1 [Ha Hr]. wp_go. apply (created_wp p c m [z; z0; z1] st e e1 r _ gas (cGas c - gas) 3); try done; try lia. cbn. auto with evm.
Qed.
Lemma opCreate2_safe : create_safe 4 memoryCreate2 (opCreate2 (calls env loop)).
Proof.
  create_start. do 4 (cell_of Hst Hn st). assert (covered z0 z1 m) as Hcov by by eapply mem_at_covered. unfold opCreate2.
  destruct (GetCopy_ok m z0 z1 Hm Hcov) as (b & E & Hb). wp_go. eapply wp_mem_read; [exact E|]. wp_go.
  rewrite Em. apply take_gas_wp; [lia|]. wp_go. apply wp_on_evm. eapply wp_mono; [apply Create2_wp; [by apply as_ref_ok|done|lia|lia|done|done]|].
  intros [addr r] e1 [Ha Hr]. wp_go. apply (created_wp p c m [z; z0; z1; z2] st e e1 r _ (cGas c - cGas c / 64) (cGas c - (cGas c - cGas c / 64)) 4); try done; try lia. cbn. auto with evm.
Qed.
End calls.
End safety.
