(* ===== verification/EvmLoop.v ===== *)
(** * The loop is safe

    [turn_safe]: what is left of a turn of the loop once the constant gas is
    paid.  It holds of every entry of every table that [NewEVMInterpreter] can
    build, so a turn that does not end the frame costs gas, and the loop with
    fuel above the gas of its frame ends. *)
From S2P Require Import Prelude Bls Params Shard Delegation Validator CXReceipt Receipt StakingVerifier Opcodes EvmCode Gas EvmMemory Precompiles StakingAbi EvmState EvmGas EvmOps EvmTable Evm EvmWp EvmBytes EvmOpsSafety EvmGasSafety EvmSafety.
Local Open Scope Z_scope.

(** ** The size of the memory *)

Definition size_ok (pops : nat) (size : Stack -> outcome (Z * bool)) : Prop :=
  forall st, Forall nonneg st -> (pops <= length st)%nat -> exists n b, size st = Ok (n, b) /\ 0 <= n < 2 ^ 64.
Lemma calc_range off l : 0 <= l < 2 ^ 64 -> 0 <= (calcMemSize64WithUint off l).1 < 2 ^ 64.
Proof. intros Hl. unfold calcMemSize64WithUint. repeat case_match; cbn; try lia. apply u64_range. Qed.
Lemma mem_at_size o l pops : (o < pops)%nat -> (l < pops)%nat -> size_ok pops (mem_at o l).
Proof.
  intros Ho Hl st _ Hn. unfold mem_at, Back. destruct (lookup_lt_is_Some_2 st o) as [a ->]; [lia|]. destruct (lookup_lt_is_Some_2 st l) as [b ->]; [lia|].
  cbn. destruct (calcMemSize64 a b) as [n ov] eqn:E. exists n, ov. split; [done|]. unfold calcMemSize64 in E. destruct (negb _); [injection E as <- <-; lia|].
  pose proof (calc_range a (Big.Uint64 b) (u64_range _)) as H. by rewrite E in H.
Qed.
Lemma mem_fixed_size o k pops : (o < pops)%nat -> 0 <= k < 2 ^ 64 -> size_ok pops (mem_fixed o k).
Proof.
  intros Ho Hk st _ Hn. unfold mem_fixed, Back. destruct (lookup_lt_is_Some_2 st o) as [a ->]; [lia|]. cbn.
  destruct (calcMemSize64WithUint a k) as [n ov] eqn:E. exists n, ov. split; [done|]. pose proof (calc_range a k Hk) as H. by rewrite E in H.
Qed.
Lemma mem_both_size o1 l1 o2 l2 pops : (o1 < pops)%nat -> (l1 < pops)%nat -> (o2 < pops)%nat -> (l2 < pops)%nat -> size_ok pops (mem_both o1 l1 o2 l2).
Proof.
  intros H1 H2 H3 H4 st Hst Hn. unfold mem_both. destruct (mem_at_size o1 l1 pops H1 H2 st Hst Hn) as (x & bx & -> & Hx).
  destruct (mem_at_size o2 l2 pops H3 H4 st Hst Hn) as (y & by_ & -> & Hy). cbn. destruct bx; [by exists 0, true|]. cbn.
  destruct by_; [by exists 0, true|]. cbn. destruct (y <? x); by eexists _, _.
Qed.
(** Whole words. *)
Lemma words_ok n : 0 <= n < 2 ^ 64 -> let '(k, overflow) := SafeMul (toWordSize n) 32 in overflow = false -> n <= k /\ k mod 32 = 0.
Proof.
  intros Hn. unfold SafeMul, toWordSize, MaxUint64. destruct (Z.ltb_spec (2 ^ 64 - 1 - 31) n); [done|]. intros Ho. apply Z.ltb_ge in Ho.
  assert (0 <= (n + 31) / 32 * 32) by (apply Z.mul_nonneg_nonneg; [apply Z.div_pos|]; lia). rewrite u64_small by lia.
  split; [|apply Z.mod_mul; lia]. pose proof (Z.div_mod (n + 31) 32 ltac:(lia)). pose proof (Z.mod_pos_bound (n + 31) 32 ltac:(lia)). lia.
Qed.

Section turns.
Context {S : Type} {V : VMState S} {H : Hashes} {C : CryptoLib} {L : EvmLib} {G : GoRuntime}.
Context (W : string -> Prop) (env : Env S) (SI : S -> Prop) (funded : Address -> Z -> S -> Prop).
Context (Hcollision : collision -> forall w, W w) (Hlaws : state_laws W env SI funded) (Henv : env_ok env) (Hcrypto : crypto_ok).
Notation EM := (EM S).
Notation evm_ok := (evm_ok SI).
Notation Halt := (Slice * option string)%type.
Implicit Types (e : EVM S) (s : S) (st : list Z) (c : Contract) (o : operation S) (jt : JumpTable S).

(** A turn once the constant gas is paid. *)
Definition turn (loop : EM Halt) o : EM (option Halt) :=
  let! needed := needed_memory o in
  match needed with
  | inr err => throw err
  | inl memorySize =>
      let! paid := charge_dynamic o memorySize in
      if negb paid then throw ErrOutOfGas
      else
        let! _ := sm_when (0 <? memorySize) (fmod (fun f => set_memory (Resize memorySize f.(memory)) f)) in
        execute_op env loop o
  end.
Definition ends o : bool := o.(halts) || o.(reverts).
(** After a turn: the frame has halted, or it goes on with at most [bound] gas. *)
Definition turn_post (bound : Z) o (f : Frame) e (r : option Halt) (fe : Frame * EVM S) : Prop :=
  match r with
  | Some h => loop_post SI f e h fe
  | None => ends o = false /\ frame_ok fe.1 /\ evm_ok fe.2 /\ same_ctx e fe.2 /\ cGas (contract fe.1) <= bound
  end.
Definition turn_safe (lo : Z) o : Prop := forall N loop, loop_safe W SI N loop -> N <= max_gas ->
  forall f e, frame_ok f -> in_code f -> evm_ok e -> op_minStack o <= Z.of_nat (length f.(stack)) <= op_maxStack o ->
  cGas (contract f) - lo < N \/ ends o -> wp W (turn loop o) (turn_post (cGas (contract f) - lo) o f e) (f, e).

Lemma throw_wp err bound o f f' e e' : contract f' = contract f -> contract_ok (contract f) -> evm_ok e' -> same_ctx e e' ->
  wp W (throw err) (turn_post bound o f e) (f', e').
Proof. intros Ec Hc He' Hctx. apply wp_ret. destruct (ck_gas _ Hc). split; cbn; [done|done|rewrite Ec; lia|apply nil_data]. Qed.

Lemma with_Gas_self c : c = with_Gas (cGas c) c.
Proof. by destruct c. Qed.

(** *** The size *)

Lemma needed_wp o pops f e (Q : Z + string -> Frame * EVM S -> Prop) : match memorySize o with Some size => size_ok pops size | None => True end ->
  Forall nonneg f.(stack) -> (pops <= length f.(stack))%nat ->
  (forall n, 0 <= n -> n mod 32 = 0 -> (memorySize o = None -> n = 0) ->
     match memorySize o with Some size => exists k, size f.(stack) = Ok (k, false) /\ k <= n | None => True end -> Q (inl n) (f, e)) ->
  (forall err, Q (inr err) (f, e)) -> wp W (needed_memory o) Q (f, e).
Proof.
  intros Hsize Hst Hn HQ Herr. unfold needed_memory. destruct (memorySize o) as [size|]; [|by apply wp_ret, HQ].
  destruct (Hsize _ Hst Hn) as (k & b & E & Hk). apply wp_bind, wp_fget, wp_bind. eapply wp_lift_Ok; [exact E|]. apply wp_if; intros ->; [apply wp_ret, Herr|].
  pose proof (words_ok k Hk) as Hw. destruct (SafeMul (toWordSize k) 32) as [n ov]. apply wp_ret. destruct ov; [apply Herr|].
  destruct (Hw eq_refl) as [Hkn Hd]. apply HQ; [lia|done|done|by exists k].
Qed.

(** *** The dynamic gas *)

(** What the operation may use next to the frame's gas: what is set aside for a
    callee. *)
Definition dyn_safe (lo : Z) (pops : nat) (room : Frame -> EVM S -> Z) o : Prop :=
  forall f e n, frame_ok f -> evm_ok e -> (pops <= length f.(stack))%nat -> 0 <= n -> n mod 32 = 0 -> (memorySize o = None -> n = 0) ->
  wp W (charge_dynamic o n) (fun paid fe => exists g, pc fe.1 = pc f /\ contract fe.1 = with_Gas g (contract f) /\ stack fe.1 = stack f /\
     evm_ok fe.2 /\ same_ctx e fe.2 /\ 0 <= g <= cGas (contract f) /\
     (paid = true -> g + room fe.1 fe.2 <= cGas (contract f) - lo /\ grown n (memory fe.1))) (f, e).
Definition no_room (_ : Frame) (_ : EVM S) : Z := 0.
Definition call_room (extra : Frame -> Z) (f : Frame) e : Z := callGasTemp e + extra f.

Lemma dyn_none pops o : dynamicGas o = None -> memorySize o = None -> dyn_safe 0 pops no_room o.
Proof.
  intros Hg Hm f e n Hf He _ Hn Hd Hz. unfold charge_dynamic. rewrite Hg. apply wp_ret. rewrite (Hz Hm). exists (cGas (contract f)).
  destruct Hf as [_ Hc Hmem _ _]. pose proof (ck_gas _ Hc). split_and!; try done; try lia; [apply with_Gas_self|]. intros _. split; [unfold no_room; lia|by apply grown_zero].
Qed.
(** From a gas function to the charge. *)
Lemma dyn_some lo pops room o g : 0 <= lo -> dynamicGas o = Some g ->
  (forall f e, frame_ok f -> evm_ok e -> 0 <= room f e) -> (forall f1 f2 e, stack f1 = stack f2 -> room f1 e = room f2 e) ->
  (forall f e n, frame_ok f -> evm_ok e -> (pops <= length f.(stack))%nat -> 0 <= n -> n mod 32 = 0 -> (memorySize o = None -> n = 0) ->
     wp W (g n) (fun r fe => gas_post SI 0 n f e r fe /\ match r with inl cost => lo + room f fe.2 <= cost | inr _ => True end) (f, e)) ->
  dyn_safe lo pops room o.
Proof.
  intros Hlo Hg Hr0 Hr Hgas f e n Hf He Hp Hn Hd Hz. unfold charge_dynamic. rewrite Hg. apply wp_bind. eapply wp_mono; [by apply Hgas|].
  intros [cost|err] [f' e'] [[Hpc Hc Hs He' Hctx Hcost] Hroom]; cbn [fst snd] in *; pose proof (ck_gas _ (fk_contract _ Hf)) as Hcg.
  2:{ apply wp_ret. exists (cGas (contract f)). cbn. rewrite Hc. split_and!; try done; try lia. apply with_Gas_self. }
  destruct Hcost as [Hcost Hgrown]. unfold charge, UseGas. apply wp_bind, wp_fget. rewrite Hc. destruct (Z.ltb_spec (cGas (contract f)) cost).
  - apply wp_bind, wp_fmod, wp_ret. exists (cGas (contract f)). cbn. split_and!; try done; try lia. apply with_Gas_self.
  - apply wp_bind, wp_fmod, wp_ret. exists (cGas (contract f) - cost). cbn. split_and!; try done; try lia. intros _. split; [|done].
    rewrite (Hr (set_contract _ f') f) by done. lia.
Qed.
Lemma dyn_gas lo pops priced o g gp : 0 <= lo -> dynamicGas o = Some g -> gas_safe W SI lo gp priced g -> (gp <= pops)%nat ->
  (memorySize o = None <-> priced = false) -> dyn_safe lo pops no_room o.
Proof.
  intros Hlo Hg Hs Hp Hz. eapply dyn_some; [done|done|done|done|]. intros f e n Hf He Hl Hn Hd Hn0.
  eapply wp_mono; [apply Hs; [done..|lia|done|done|intros Hpr; apply Hn0; by apply Hz]|]. intros [cost|err] fe [? ? ? ? ? Hc]; [|split; [by split|done]].
  destruct Hc as [Hc Hgr]. split; [split; try done; split; [lia|done]|unfold no_room; lia].
Qed.
Lemma dyn_call base extra pops o g : dynamicGas o = Some g -> call_gas_safe W SI base pops g ->
  (forall f, 0 <= extra f <= base f) -> (forall f1 f2, stack f1 = stack f2 -> extra f1 = extra f2) -> dyn_safe 0 pops (call_room extra) o.
Proof.
  intros Hg Hs Hb Hx. eapply dyn_some; [done|done| | |].
  - intros f e _ He. unfold call_room. pose proof (Hb f). destruct (ek_temp _ _ He). lia.
  - intros f1 f2 e E. unfold call_room. by rewrite (Hx f1 f2).
  - intros f e n Hf He Hl Hn Hd _. eapply wp_mono; [by apply Hs|]. intros [cost|err] fe [Hp Hc]; [|done]. split; [done|]. unfold call_room. pose proof (Hb f). lia.
Qed.

(** *** The whole turn *)

Lemma execute_op_wp loop o f0 f e0 e bound pops pushes lo : op_minStack o = Z.of_nat pops -> op_maxStack o = StackLimit + Z.of_nat pops - Z.of_nat pushes ->
  Z.of_nat (length f.(stack)) <= op_maxStack o -> bound <= cGas (contract f0) - lo -> 0 <= lo ->
  (exists g, contract f = with_Gas g (contract f0)) -> contract_ok (contract f0) -> same_ctx e0 e ->
  wp W (execute o (calls env loop)) (op_post_upto SI bound f e (Z.of_nat pushes - Z.of_nat pops)) (f, e) ->
  wp W (execute_op env loop o) (turn_post (cGas (contract f0) - lo) o f0 e0) (f, e).
Proof.
  intros Hmin Hmax Hlen Hbound Hlo (g0 & Eg0) Hc0 Hctx0 Hx. unfold execute_op. apply wp_bind. eapply wp_mono; [exact Hx|]. clear Hx.
  intros r [f' e'] [He' Hctx [Hp0 Hp1] (g & Ec & Hg) Hm Hst Hres]. cbn in *. rewrite Eg0, with_Gas_twice in Ec. apply wp_bind.
  set (e2 := if returns o then set_returnData (match r with inl s => s | inr _ => nil_slice end) e' else e').
  assert (evm_ok e2) as He2.
  { subst e2. destruct (returns o); [|done]. destruct He'. split; try done. cbn. destruct r as [s|]; [by destruct Hres|apply nil_data]. }
  assert (same_ctx e0 e2) as Hctx2.
  { etrans; [exact Hctx0|]. etrans; [exact Hctx|]. subst e2. by destruct (returns o). }
  assert (wp W (sm_when (returns o) (emod (set_returnData (match r with inl s => s | inr _ => nil_slice end)))) (fun _ fe => fe = (f', e2)) (f', e')) as Hw
    by (subst e2; by destruct (returns o)).
  eapply wp_mono; [exact Hw|]. intros [] ? ->. destruct (ck_gas _ Hc0) as [Hg0 Hg1].
  assert (forall (s : Slice) err, slice_ok s -> loop_post SI f0 e0 (s, err) (f', e2)) as Hend.
  { intros s err Hs. split; cbn; [done|done|rewrite Ec; cbn; lia|by apply resolve_ok]. }
  destruct r as [s|err]; [|apply wp_ret, Hend, nil_data]. destruct Hres as [Hs Hl].
  apply wp_if; intros Hrev; [by apply wp_ret, Hend|]. apply wp_if; intros Hhal; [by apply wp_ret, Hend|]. apply wp_bind.
  assert (forall p, 0 <= p < 2 ^ 64 -> turn_post (cGas (contract f0) - lo) o f0 e0 None (set_pc p f', e2)) as Hcont.
  { intros p Hp. unfold turn_post, ends. rewrite Hrev, Hhal. split; [done|]. cbn. rewrite Ec. split; [|split; [done|split; [done|cbn; lia]]].
    split; cbn; [done|rewrite Ec; apply ck_with_gas; [done|lia]|done|done|]. unfold StackLimit in *. lia. }
  apply wp_when; intros _; [apply wp_fmod|]; apply wp_ret; [apply Hcont, u64_range|]. destruct f'. by apply (Hcont pc).
Qed.
Definition exec_safe (pops pushes : nat) (room : Frame -> EVM S -> Z) o : Prop := forall N loop, loop_safe W SI N loop -> N <= max_gas ->
  forall f e, frame_ok f -> in_code f -> evm_ok e -> (pops <= length f.(stack))%nat -> covers (memorySize o) f ->
  cGas (contract f) + room f e < N \/ ends o -> 
  wp W (execute o (calls env loop)) (op_post_upto SI (cGas (contract f) + room f e) f e (Z.of_nat pushes - Z.of_nat pops)) (f, e).

Lemma turn_intro pops pushes lo room o : op_minStack o = Z.of_nat pops -> op_maxStack o = StackLimit + Z.of_nat pops - Z.of_nat pushes -> 0 <= lo ->
  match memorySize o with Some size => size_ok pops size | None => True end -> (forall f1 f2 e, stack f1 = stack f2 -> room f1 e = room f2 e) ->
  dyn_safe lo pops room o -> exec_safe pops pushes room o -> turn_safe lo o.
Proof.
  intros Hmin Hmax Hlo Hsize Hroom Hdyn Hexec N loop Hloop HN f e Hf Hat He [Hl1 Hl2] Hgas. pose proof Hf as [Hp Hc Hm Hst Hlen]. rewrite Hmin in Hl1.
  unfold turn. apply wp_bind. eapply needed_wp; [exact Hsize|done|lia| |].
  2:{ intros err. by apply throw_wp. }
  intros n Hn Hd Hz Hcov. apply wp_bind. eapply wp_mono; [apply Hdyn; try done; lia|].
  intros paid [f1 e1] (g & Epc & Ec & Est & He1 & Hctx & Hg & Hpaid). cbn in *. destruct paid; cbn [negb].
  2:{ apply wp_ret. split; cbn; [done|done|rewrite Ec; cbn; lia|apply nil_data]. }
  destruct (Hpaid eq_refl) as [Hle [Hok Hlen' Hold]]. apply wp_bind. set (f2 := if 0 <? n then set_memory (Resize n (memory f1)) f1 else f1).
  assert (wp W (sm_when (0 <? n) (fmod (fun f => set_memory (Resize n f.(memory)) f))) (fun _ fe => fe = (f2, e1)) (f1, e1)) as Hw by (subst f2; by destruct (0 <? n)).
  eapply wp_mono; [exact Hw|]. intros [] ? ->.
  assert (contract f2 = contract f1 /\ stack f2 = stack f1 /\ pc f2 = pc f1) as (Ec2 & Es2 & Ep2) by (subst f2; by destruct (0 <? n)).
  assert (memory_ok (memory f2) /\ n <= Len (memory f2)) as [Hm2 Hn2].
  { subst f2. destruct (Z.ltb_spec 0 n); [done|]. destruct Hold; [|lia]. split; [done|]. pose proof (Len_nonneg (memory f1)). lia. }
  assert (contract f2 = with_Gas g (contract f)) as Ec' by congruence. destruct (ck_gas _ Hc) as [Hc0 Hc1].
  apply (execute_op_wp loop o f f2 e e1 (cGas (contract f2) + room f2 e1) pops pushes lo); try done.
  - rewrite Es2, Est. lia.
  - rewrite Ec', (Hroom f2 f1) by done. cbn. lia.
  - by exists g.
  - apply (Hexec N loop); try done.
    + split; [congruence|rewrite Ec'; apply ck_with_gas; [done|lia]|done|congruence|congruence].
    + unfold in_code in *. rewrite Ep2, Epc, Ec'. done.
    + rewrite Es2, Est. lia.
    + unfold covers. rewrite Es2, Est. destruct (memorySize o) as [size|]; [|done]. destruct Hcov as (k & E & Hk). exists k. split; [done|lia].
    + destruct Hgas as [Hgas|Hends]; [left|by right]. rewrite Ec', (Hroom f2 f1) by done. cbn. lia.
Qed.

(** ** The turn of an operation *)

Lemma op_exec pops pushes o x : execute o = (fun _ => x) -> op_safe W SI pops pushes (memorySize o) x -> exec_safe pops pushes no_room o.
Proof. intros Ex Hx N loop _ _ f e Hf Hat He Hn Hcov _. rewrite Ex. unfold no_room. rewrite Z.add_0_r. by apply Hx. Qed.
Lemma plain_turn pops pushes o x : execute o = (fun _ => x) -> dynamicGas o = None -> memorySize o = None ->
  op_minStack o = Z.of_nat pops -> op_maxStack o = StackLimit + Z.of_nat pops - Z.of_nat pushes -> op_safe W SI pops pushes None x -> turn_safe 0 o.
Proof.
  intros Ex Hg Hm Hmin Hmax Hx. apply (turn_intro pops pushes 0 no_room); try done; [by rewrite Hm|by apply dyn_none|].
  eapply op_exec; [exact Ex|]. by rewrite Hm.
Qed.
Lemma priced_turn lo gp (priced : bool) pops pushes o x g : execute o = (fun _ => x) -> dynamicGas o = Some g ->
  match memorySize o with Some size => size_ok pops size /\ priced = true | None => priced = false end ->
  op_minStack o = Z.of_nat pops -> op_maxStack o = StackLimit + Z.of_nat pops - Z.of_nat pushes -> 0 <= lo ->
  gas_safe W SI lo gp priced g -> (gp <= pops)%nat -> op_safe W SI pops pushes (memorySize o) x -> turn_safe lo o.
Proof.
  intros Ex Hg Hm Hmin Hmax Hlo Hgs Hgp Hx. apply (turn_intro pops pushes lo no_room); try done; [by destruct (memorySize o); [destruct Hm|]| |by eapply op_exec].
  eapply dyn_gas; try done. destruct (memorySize o); [by destruct Hm as [_ ->]|by subst].
Qed.
Lemma call_turn base extra pops o size g : (forall f, 0 <= extra f <= base f) -> (forall f1 f2, stack f1 = stack f2 -> extra f1 = extra f2) ->
  dynamicGas o = Some g -> memorySize o = Some size -> size_ok pops size -> ends o = false ->
  op_minStack o = Z.of_nat pops -> op_maxStack o = StackLimit + Z.of_nat pops - 1 -> call_gas_safe W SI base pops g ->
  (forall N loop, loop_safe W SI N loop -> N <= max_gas -> call_safe W SI N extra pops size (execute o (calls env loop))) -> turn_safe 0 o.
Proof.
  intros Hb Hx Hg Hm Hsize Hends Hmin Hmax Hgs Hcall. apply (turn_intro pops 1 0 (call_room extra)); try done; [by rewrite Hm| |by eapply dyn_call|].
  - intros f1 f2 e E. unfold call_room. by rewrite (Hx f1 f2).
  - intros N loop Hloop HN f e Hf Hat He Hn Hcov [Hgas|Hc]; [|by rewrite Hends in Hc]. unfold call_room in *. rewrite Z.add_assoc in *.
    apply (Hcall N loop); try done. by rewrite <- Hm.
Qed.
Lemma create_turn pops o size g : dynamicGas o = Some g -> memorySize o = Some size -> size_ok pops size -> ends o = false ->
  op_minStack o = Z.of_nat pops -> op_maxStack o = StackLimit + Z.of_nat pops - 1 -> (exists gp, (gp <= pops)%nat /\ gas_safe W SI 0 gp true g) ->
  (forall N loop, loop_safe W SI N loop -> N <= max_gas -> create_safe W SI N pops size (execute o (calls env loop))) -> turn_safe 0 o.
Proof.
  intros Hg Hm Hsize Hends Hmin Hmax (gp & Hgp & Hgs) Hcall. apply (turn_intro pops 1 0 no_room); try done; [by rewrite Hm| |].
  - eapply dyn_gas; try done. by rewrite Hm.
  - intros N loop Hloop HN f e Hf Hat He Hn Hcov [Hgas|Hc]; [|by rewrite Hends in Hc]. unfold no_room in *. rewrite Z.add_0_r in *.
    apply (Hcall N loop); try done. by rewrite <- Hm.
Qed.

(** ** The entries of a table *)

(** A turn that does not end the frame costs gas; CALL's entry asks for the
    value that the write protection looks at. *)
Definition entry_ok (b : OpCode) o : Prop := valid o = true ->
  0 <= constantGas o /\ (b = CALL -> 3 <= op_minStack o) /\ exists lo, 0 <= lo /\ (1 <= constantGas o + lo \/ ends o) /\ turn_safe lo o.
Definition stop_operation : operation S :=
  mkOperation (fun _ => opStop) 0 None (minStack 0 0) (maxStack 0 0) None true false false true false false.
Definition sstore_operation (g : Z -> EM (Z + string)) : operation S :=
  mkOperation (fun _ => opSstore) 0 (Some g) (minStack 2 0) (maxStack 2 0) None false false true true false false.
Record table_ok jt : Prop := {
  tk_entries : forall b, b <> STOP -> entry_ok b (jt b);
  tk_stop : jt STOP = stop_operation;
  tk_sstore : exists g, jt SSTORE = sstore_operation g
}.
Lemma set_op_ok op o jt : op <> STOP -> op <> SSTORE -> entry_ok op o -> table_ok jt -> table_ok (set_op op o jt).
Proof.
  intros H1 H2 Ho [He Hs Hss]. unfold set_op. split.
  - intros b Hb. destruct (Z.eqb_spec b op) as [->|]; [done|by apply He].
  - by destruct (Z.eqb_spec STOP op).
  - destruct (Z.eqb_spec SSTORE op); [congruence|done].
Qed.
Lemma set_gas_ok op g jt : op <> STOP -> op <> SSTORE -> 1 <= g -> table_ok jt -> table_ok (set_gas op g jt).
Proof.
  intros H1 H2 Hg Hj. apply set_op_ok; [done..| |done]. intros Hv. destruct (tk_entries _ Hj op H1 Hv) as (_ & Hcall & lo & Hlo & _ & Ht).
  split; [cbn; lia|]. split; [exact Hcall|]. exists lo. split; [done|]. split; [left; cbn; lia|exact Ht].
Qed.
Lemma sstore_ok g jt : gas_safe W SI 200 2 false g -> table_ok jt -> table_ok (set_op SSTORE (sstore_operation g) jt).
Proof.
  intros Hg [He Hs _]. unfold set_op. split.
  - intros b Hb. destruct (Z.eqb_spec b SSTORE) as [->|]; [|by apply He]. intros _. split; [done|]. split; [done|]. exists 200. split; [done|]. split; [by left|].
    apply (priced_turn 200 2 false 2 0 _ opSstore g); try done. by eapply opSstore_safe.
  - done.
  - by exists g.
Qed.
End turns.
