(* ===== verification/EvmCalls.v ===== *)
(** * Calls and creations end

    [Call_ends] and [Create_ends], from the safety of the tables: every entry of every table of [EvmTable] is in order: a turn of it ends
    without a panic of the machine's own, keeps the frame's invariant and, when
    it does not end the frame, costs gas.  Hence the loop with fuel above the
    gas of its frame ends. *)
From S2P Require Import Prelude Params Bls Shard CXReceipt Receipt Delegation Validator StakingVerifier Opcodes EvmCode Gas EvmMemory Precompiles StakingAbi EvmState EvmGas EvmOps EvmTable Evm EvmWp EvmBytes EvmOpsSafety EvmGasSafety EvmSafety EvmLoop.
Local Open Scope Z_scope.

Create HintDb evm_ops.
#[export] Hint Resolve opAdd_safe opSub_safe opMul_safe opDiv_safe opSdiv_safe opMod_safe opSmod_safe opExp_safe opSignExtend_safe opNot_safe
  opLt_safe opGt_safe opSlt_safe opSgt_safe opEq_safe opIszero_safe opAnd_safe opOr_safe opXor_safe opByte_safe opAddmod_safe opMulmod_safe
  opSHL_safe opSHR_safe opSAR_safe opAddress_safe opOrigin_safe opCaller_safe opCallValue_safe opCallDataSize_safe opReturnDataSize_safe
  opCodeSize_safe opGasprice_safe opCoinbase_safe opTimestamp_safe opNumber_safe opDifficulty_safe opGasLimit_safe opChainID_safe opMsize_safe
  opGas_safe opPc_safe opBlockhash_safe opBalance_safe opSelfBalance_safe opSload_safe opSstore_safe opPop_safe opJumpdest_safe
  opSuicide_safe opExtCodeSize_safe opExtCodeHash_safe makeDup_safe makeSwap_safe opPush1_safe makePush_safe opJump_safe opJumpi_safe
  opSha3_safe opMload_safe opMstore_safe opMstore8_safe opReturn_safe opRevert_safe opCallDataCopy_safe opCodeCopy_safe opExtCodeCopy_safe
  opCallDataLoad_safe opReturnDataCopy_safe makeLog_safe : evm_ops.
#[export] Hint Resolve gasExpFrontier_safe gasExpEIP158_safe gasSStore_safe gasSStoreEIP2200_safe gasSelfdestruct_safe : evm_ops.
#[export] Hint Extern 1 (_ < _)%nat => lia : evm_ops.
#[export] Hint Extern 1 (0 <= _) => lia : evm_ops.

(** The least cost of an operation, over what its constant gas is. *)
Ltac least_gas g :=
  lazymatch g with
  | Some (makeGasLog _) => constr:(375) | Some gasExpFrontier => constr:(10) | Some gasExpEIP158 => constr:(10)
  | Some (gasSStore _) => constr:(200) | _ => constr:(0)
  end.
Ltac size_rule := first [apply mem_at_size; lia|apply mem_fixed_size; lia|apply mem_both_size; lia].
Ltac gas_rules :=
  first [ solve [eauto with evm_ops] | apply makeGasLog_safe; lia | apply memoryCopierGas_safe | apply word_gas_safe | apply (pure_gas_safe _ _ 0) ].
(** The pieces of an entry but the one that [turn] proves. *)
Ltac entry_start lo :=
  intros _; cbn [constantGas op_minStack]; split; [done|]; split; [first [done|intros [=]|intros _; done]|];
  exists lo; split; [done|]; split; [first [by left|by right]|].
Ltac plain_entry := entry_start 0; eapply plain_turn; [cbn [execute]; reflexivity|reflexivity|reflexivity| | |solve [eauto with evm_ops]]; reflexivity.
Ltac priced_entry :=
  match goal with |- entry_ok _ _ _ _ (mkOperation _ _ ?g _ _ _ _ _ _ _ _ _) => let lo := least_gas g in entry_start lo end;
  eapply priced_turn;
  [cbn [execute]; reflexivity|cbn [dynamicGas]; reflexivity| | | |done|gas_rules| |cbn [memorySize]; solve [eauto with evm_ops]];
  [first [reflexivity|split; [size_rule|reflexivity]]|reflexivity|reflexivity|lia].
Ltac entry := first [plain_entry|priced_entry].

Lemma stipend_value f : 0 <= stipend f <= value_gas f.
Proof. unfold stipend, value_gas, CallStipend, CallValueTransferGas. repeat case_match; lia. Qed.
Lemma stipend_stack f1 f2 : stack f1 = stack f2 -> stipend f1 = stipend f2.
Proof. unfold stipend. by intros ->. Qed.

Section tables.
Context {S : Type} {V : VMState S} {H : Hashes} {C : CryptoLib} {L : EvmLib} {G : GoRuntime}.
Context (W : string -> Prop) (env : Env S) (SI : S -> Prop) (funded : Address -> Z -> S -> Prop).
Context (Hcollision : collision -> forall w, W w) (Hlaws : state_laws W env SI funded) (Henv : env_ok env) (Hcrypto : crypto_ok).
Notation EM := (EM S).
Notation evm_ok := (evm_ok SI).
Notation Halt := (Slice * option string)%type.
Notation entry_ok := (entry_ok W env SI).
Notation table_ok := (table_ok W env SI).
Implicit Types (e : EVM S) (c : Contract) (jt : JumpTable S).

Definition entries_ok (l : list (OpCode * operation S)) : Prop := Forall (fun bo => bo.1 <> STOP -> entry_ok bo.1 bo.2) l.
Lemma table_of_ok l : entries_ok l -> forall b, b <> STOP -> entry_ok b (table_of l b).
Proof.
  induction 1 as [|[op o] l Ho _ IH]; intros b Hb; [by intros Hv|]. cbn [table_of]. unfold set_op. destruct (Z.eqb_spec b op) as [->|]; [by apply Ho|by apply IH].
Qed.
Ltac entries := unfold entries_ok; repeat (apply Forall_cons; split; [cbn [fst snd]; intros ?|]); [..|by apply Forall_nil].

Lemma arithmetic_ok : entries_ok frontier_arithmetic.
Proof. entries; [done|entry..]. Qed.
Lemma comparison_ok : entries_ok (frontier_comparison env).
Proof. entries; entry. Qed.
Lemma environment_ok : entries_ok (frontier_environment env).
Proof. entries; entry. Qed.
Lemma block_ok : entries_ok (frontier_block env).
Proof. entries; entry. Qed.
Lemma memory_entries_ok : entries_ok (frontier_memory env).
Proof. entries; entry. Qed.
Lemma push_ok : entries_ok frontier_push.
Proof. entries; entry. Qed.
Lemma push_more_ok : entries_ok frontier_push_more.
Proof. entries; entry. Qed.
Lemma dup_ok : entries_ok frontier_dup.
Proof. entries; entry. Qed.
Lemma swap_ok : entries_ok frontier_swap.
Proof. entries; entry. Qed.
Lemma log_ok : entries_ok (frontier_log env).
Proof. entries; entry. Qed.

(** *** Calls *)

Lemma call_entry_ok g : 1 <= g -> entry_ok CALL (mkOperation opCall g (Some (gasCall env)) (minStack 7 1) (maxStack 7 1) (Some memoryCall) false false false true false true).
Proof.
  intros Hg _. split; [cbn; lia|]. split; [done|]. exists 0. split; [done|]. split; [left; cbn; lia|].
  apply (call_turn W env SI value_gas stipend 7 _ memoryCall (gasCall env)); try done; [apply stipend_value|apply stipend_stack|size_rule|by eapply gasCall_safe|].
  intros. by eapply opCall_safe.
Qed.
Lemma system_ok : entries_ok (frontier_system env).
Proof.
  entries; [| | |entry|entry].
  - entry_start 0. apply (create_turn W env SI 3 _ memoryCreate gasCreate); try done; [size_rule|exists 0%nat; split; [lia|apply pure_gas_safe]|].
    intros. by eapply opCreate_safe.
  - by apply call_entry_ok.
  - entry_start 0. apply (call_turn W env SI value_gas stipend 7 _ memoryCall (gasCallCode env)); try done; [apply stipend_value|apply stipend_stack|size_rule|by eapply gasCallCode_safe|].
    intros. by eapply opCallCode_safe.
Qed.
Lemma no_stipend_le f : 0 <= no_stipend f <= no_value f.
Proof. done. Qed.
Lemma delegatecall_entry : entry_ok DELEGATECALL (mkOperation opDelegateCall CallGasFrontier (Some (gasDelegateCall env)) (minStack 6 1) (maxStack 6 1) (Some memoryDelegateCall) false false false true false true).
Proof.
  entry_start 0. apply (call_turn W env SI no_value no_stipend 6 _ memoryDelegateCall (gasDelegateCall env)); try done; [size_rule|by eapply gasDelegateCall_safe|].
  intros. by eapply opDelegateCall_safe.
Qed.
Lemma staticcall_entry : entry_ok STATICCALL (mkOperation opStaticCall CallGasEIP150 (Some (gasStaticCall env)) (minStack 6 1) (maxStack 6 1) (Some memoryStaticCall) false false false true false true).
Proof.
  entry_start 0. apply (call_turn W env SI no_value no_stipend 6 _ memoryStaticCall (gasStaticCall env)); try done; [size_rule|by eapply gasStaticCall_safe|].
  intros. by eapply opStaticCall_safe.
Qed.
Lemma create2_entry : entry_ok CREATE2 (mkOperation opCreate2 Create2Gas (Some gasCreate2) (minStack 4 1) (maxStack 4 1) (Some memoryCreate2) false false true true false true).
Proof.
  entry_start 0. apply (create_turn W env SI 4 _ memoryCreate2 gasCreate2); try done; [size_rule|exists 3%nat; split; [lia|apply word_gas_safe]|].
  intros. by eapply opCreate2_safe.
Qed.

(** *** The tables of the forks *)

Lemma frontier_ok : table_ok (newFrontierInstructionSet env).
Proof.
  split; [|reflexivity|by eexists]. unfold newFrontierInstructionSet. apply table_of_ok. unfold entries_ok. rewrite !Forall_app.
  split_and!; [apply arithmetic_ok|apply comparison_ok|apply environment_ok|apply block_ok|apply memory_entries_ok|apply push_ok|apply push_more_ok|
    apply dup_ok|apply swap_ok|apply log_ok|apply system_ok].
Qed.
Lemma homestead_ok : table_ok (newHomesteadInstructionSet env).
Proof. apply set_op_ok; [done..|apply delegatecall_entry|apply frontier_ok]. Qed.
Lemma tangerine_ok : table_ok (newTangerineWhistleInstructionSet env).
Proof. unfold newTangerineWhistleInstructionSet. cbv zeta. do 7 (apply set_gas_ok; [done..|]). apply homestead_ok. Qed.
Lemma spurious_ok : table_ok (newSpuriousDragonInstructionSet env).
Proof.
  unfold newSpuriousDragonInstructionSet. cbv zeta. apply set_op_ok; [done..| |apply tangerine_ok].
  change (newTangerineWhistleInstructionSet env EXP) with
    (mkOperation (fun _ => opExp) 0 (Some (gasExpFrontier : Z -> EM (Z + string))) (minStack 2 1) (maxStack 2 1) None false false false true false false).
  cbv [with_dynamicGas execute constantGas op_minStack op_maxStack memorySize halts jumps writes valid reverts returns].
  entry_start 10. apply (priced_turn W env SI 10 2 false 2 1 _ opExp gasExpEIP158); try done; [apply gasExpEIP158_safe|apply opExp_safe].
Qed.
Lemma byzantium_ok : table_ok (newByzantiumInstructionSet env).
Proof.
  unfold newByzantiumInstructionSet. cbv zeta. do 3 (apply set_op_ok; [done..|entry|]). apply set_op_ok; [done..|apply staticcall_entry|apply spurious_ok].
Qed.
Lemma constantinople_ok : table_ok (newConstantinopleInstructionSet env).
Proof.
  unfold newConstantinopleInstructionSet. cbv zeta. apply set_op_ok; [done..|apply create2_entry|]. do 4 (apply set_op_ok; [done..|entry|]). apply byzantium_ok.
Qed.

(** *** Improvements *)

Lemma enable1344_ok jt : table_ok jt -> table_ok (enable1344 env jt).
Proof. intros Hj. apply set_op_ok; [done..| |done]. unfold plain. entry. Qed.
Lemma enable1884_ok jt : table_ok jt -> table_ok (enable1884 jt).
Proof.
  intros Hj. unfold enable1884. cbv zeta. apply set_op_ok; [done..|unfold plain; entry|]. by do 3 (apply set_gas_ok; [done..|]).
Qed.
Lemma enable2200_ok jt : table_ok jt -> table_ok (enable2200 jt).
Proof.
  intros Hj. unfold enable2200. destruct (tk_sstore _ _ _ _ Hj) as [g ->]. change (with_dynamicGas gasSStoreEIP2200 (sstore_operation g)) with (sstore_operation (gasSStoreEIP2200 : Z -> EM (Z + string))).
  eapply sstore_ok; [eassumption| |done]. by eapply gasSStoreEIP2200_safe.
Qed.
Lemma istanbul_ok : table_ok (newIstanbulInstructionSet env).
Proof. apply enable2200_ok, enable1884_ok, enable1344_ok, constantinople_ok. Qed.
Lemma EnableEIP_ok n jt jt' : table_ok jt -> EnableEIP env n jt = Some jt' -> table_ok jt'.
Proof.
  intros Hj. unfold EnableEIP. repeat case_match; intros [=]; subst; [by apply enable2200_ok|by apply enable1884_ok|by apply enable1344_ok].
Qed.
Lemma extra_eips_ok n i kept len jt jt' : table_ok jt -> extra_eips env n i kept len jt = Ok jt' -> table_ok jt'.
Proof.
  revert i kept len jt. induction n as [|n IH]; intros i kept len jt Hj; cbn [extra_eips]; [by intros [= <-]|].
  destruct (kept !! i) as [eip|]; [|done]. destruct (EnableEIP env eip jt) as [jt2|] eqn:E.
  - apply IH. by eapply EnableEIP_ok.
  - destruct (Nat.ltb _ _); [done|by apply IH].
Qed.
Lemma NewEVMInterpreter_ok jt : NewEVMInterpreter env = Ok jt -> table_ok jt.
Proof.
  apply extra_eips_ok. destruct (rIsIstanbul _); [apply istanbul_ok|]. destruct (rIsS3 _); [apply constantinople_ok|apply frontier_ok].
Qed.

(** ** The loop *)

Section loop.
Context (table : JumpTable S) (Htable : table_ok table).
(** After a turn: the frame has halted, or it has less gas. *)
Definition step_post (f : Frame) e (r : option Halt) (fe : Frame * EVM S) : Prop :=
  match r with
  | Some h => loop_post SI f e h fe
  | None => frame_ok fe.1 /\ evm_ok fe.2 /\ same_ctx e fe.2 /\ cGas (contract fe.1) < cGas (contract f)
  end.
Lemma throw_step err f e : frame_ok f -> evm_ok e -> wp W (throw err) (step_post f e) (f, e).
Proof. intros Hf He. apply wp_ret. destruct (ck_gas _ (fk_contract _ Hf)). split; cbn; [done|done|lia|apply nil_data]. Qed.
Lemma violates_wp b o f e (Q : bool -> Frame * EVM S -> Prop) : (b = CALL -> 3 <= op_minStack o) -> op_minStack o <= Z.of_nat (length f.(stack)) ->
  (forall r, Q r (f, e)) -> wp W (violates env b o) Q (f, e).
Proof.
  intros Hb Hl HQ. unfold violates. apply wp_bind, wp_eget, wp_if; intros _; [|by apply wp_ret]. apply wp_if; intros _; [by apply wp_ret|].
  apply wp_if; intros Hc; [|by apply wp_ret]. apply Z.eqb_eq in Hc. specialize (Hb Hc). destruct (lookup_lt_is_Some_2 (stack f) 2) as [v Hv]; [lia|].
  apply wp_bind. eapply wp_back; [exact Hv|]. by apply wp_ret.
Qed.
Lemma stop_turn loop f e (Q : option Halt -> Frame * EVM S -> Prop) : Q (Some (nil_slice, None)) (f, e) -> wp W (turn env loop stop_operation) Q (f, e).
Proof.
  intros HQ. assert (turn env loop stop_operation (f, e) = ((f, e), Ok (Some (nil_slice, None)))) as E by reflexivity. unfold wp. by rewrite E.
Qed.
Lemma step_wp loop f e : loop_safe W SI (cGas (contract f)) loop -> frame_ok f -> evm_ok e -> wp W (step env table loop) (step_post f e) (f, e).
Proof.
  intros Hloop Hf He. unfold step. apply wp_bind, wp_fget. cbn [id]. set (b := GetOp _ _).
  assert (b <> STOP -> in_code f) as Hat.
  { unfold in_code, b, GetOp, GetByte. destruct (Z.ltb_spec (pc f) (Z.of_nat (length (cCode (contract f))))); [done|]. intros Hb. by destruct Hb. }
  destruct (ck_gas _ (fk_contract _ Hf)) as [Hg0 Hg1]. destruct (decide (b = STOP)) as [->|Hb].
  { rewrite (tk_stop _ _ _ _ Htable). cbn [valid op_minStack op_maxStack stop_operation negb]. apply wp_if; intros _; [by apply throw_step|].
    apply wp_if; intros _; [by apply throw_step|]. apply wp_bind. destruct f as [p c m st]. cbn [contract stack] in *.
    destruct (Z.ltb_spec (Z.of_nat (length st)) (minStack 0 0)) as [Hl|Hl]; [unfold minStack in Hl; lia|].
    apply violates_wp; [done|exact Hl|]. intros r. apply wp_if; intros _; [by apply throw_step|]. apply wp_bind. unfold charge, UseGas.
    apply wp_bind, wp_fget. cbn [contract constantGas stop_operation]. destruct (Z.ltb_spec (cGas c) 0); [lia|]. apply wp_bind, wp_fmod, wp_ret. cbn [negb].
    rewrite Z.sub_0_r, <- with_Gas_self. apply (stop_turn loop (set_contract c (mkFrame p c m st))). split; cbn; [done|done|lia|apply nil_data]. }
  specialize (Hat Hb). pose proof (tk_entries _ _ _ _ Htable b Hb) as Hentry. set (o := table b) in *.
  apply wp_if; intros Hv; [by apply throw_step|]. apply negb_false_iff in Hv. destruct (Hentry Hv) as (Hc0 & Hcall & lo & Hlo & Hcost & Hturn).
  apply wp_if; intros Hl1; [by apply throw_step|]. apply wp_if; intros Hl2; [by apply throw_step|]. apply Z.ltb_ge in Hl1, Hl2.
  apply wp_bind, violates_wp; [done|done|]. intros r. apply wp_if; intros _; [by apply throw_step|]. apply wp_bind. unfold charge, UseGas.
  apply wp_bind, wp_fget. destruct (Z.ltb_spec (cGas (contract f)) (constantGas o)); apply wp_bind, wp_fmod, wp_ret; cbn [negb].
  { assert (set_contract (contract f) f = f) as -> by by destruct f. by apply throw_step. }
  set (f1 := set_contract _ f). change (wp W (turn env loop o) (step_post f e) (f1, e)).
  assert (contract f1 = with_Gas (cGas (contract f) - constantGas o) (contract f)) as Ec by done.
  eapply wp_mono; [apply (Hturn (cGas (contract f)) loop Hloop)|].
  - lia.
  - destruct Hf as [Hp Hc Hm Hst Hl]. split; try done. apply ck_with_gas; [done|lia].
  - done.
  - done.
  - cbn. lia.
  - rewrite Ec. cbn [cGas with_Gas]. destruct Hcost; [left; lia|by right].
  - rewrite Ec. cbn [cGas with_Gas]. intros [h|] fe; cbn [turn_post step_post].
    + intros [H1 H2 H3 H4]. split; try done. rewrite Ec in H3. cbn in H3. lia.
    + intros (He' & Hf' & Hev & Hctx & Hg). split_and!; try done. destruct Hcost as [|Hcost]; [lia|]. by rewrite He' in Hcost.
Qed.
Lemma loop_is_safe fuel N : N <= Z.of_nat fuel -> N <= max_gas -> loop_safe W SI N (loop env table fuel).
Proof.
  revert N. induction fuel as [|n IH]; intros N HN Hmax f e Hf He Hg; destruct (ck_gas _ (fk_contract _ Hf)) as [Hg0 Hg1]; [lia|].
  cbn [loop]. apply wp_bind, wp_eget, wp_if; intros _.
  { apply wp_ret. split; cbn; [done|done|lia|apply nil_data]. }
  assert (loop_safe W SI (cGas (contract f)) (loop env table n)) as Hn by (apply IH; lia).
  apply wp_bind. eapply wp_mono; [by apply step_wp|]. intros [h|] [f' e']; cbn [step_post fst snd]; [by intros Hp; apply wp_ret|].
  intros (Hf' & He' & Hctx & Hlt). eapply wp_mono; [by apply Hn|]. intros h fe [H1 H2 H3 H4]. split; [done|by etrans|lia|done].
Qed.
End loop.
End tables.

(** ** Calls end

    What [EvmSafety] and [EvmCalls] prove of the machine and its tables,
    put together for a transaction: with any fuel above its gas, a call or a
    creation on the machine that [NewEVMInterpreter] builds ends. *)

Lemma wp_weaken {T A} (W W' : string -> Prop) (m : SM T A) (Q : A -> T -> Prop) s : (forall w, W w -> W' w) -> wp W m Q s -> wp W' m Q s.
Proof. unfold wp. destruct (m s).2; auto. Qed.

Section calls.
Context {S : Type} {V : VMState S} {H : Hashes} {C : CryptoLib} {L : EvmLib} {G : GoRuntime}.
Context (W : string -> Prop) (env : Env S) (SI : S -> Prop) (funded : Address -> Z -> S -> Prop).
Implicit Types (e : EVM S) (c : Contract).

(** The state's own panics, or a collision of the hash. *)
Definition or_collision (w : string) : Prop := W w \/ collision.
Lemma meth_weaken (I : S -> Prop) {A} (m : SM S A) (R : A -> Prop) : meth W I m R -> meth or_collision I m R.
Proof. intros Hm s Hs. eapply wp_weaken; [|by apply Hm]. by left. Qed.
Lemma laws_weaken : state_laws W env SI funded -> state_laws or_collision env SI funded.
Proof.
  intros []; split; intros; try (apply meth_weaken; auto; fail); (eapply wp_weaken; [|auto]; by left).
Qed.

Section at_once.
Context (Hlaws : state_laws W env SI funded) (Henv : env_ok env) (Hcrypto : crypto_ok).
Context (table : JumpTable S) (Htable : NewEVMInterpreter env = Ok table).
(** The loop of the machine, below a gas. *)
Lemma machine_safe fuel : loop_safe or_collision SI (Z.min (Z.of_nat fuel) max_gas) (loop env table fuel).
Proof.
  eapply loop_is_safe; [|lia..]. eapply NewEVMInterpreter_ok; [|by eapply laws_weaken|done..]. by right.
Qed.
End at_once.

(** C9: whatever the code and the input, a call on a machine in order ends when
    the fuel is above its gas: it gives back a result with at most the gas it was
    given, the machine is in order and at the depth, in the mode and with the
    abort flag it had; a panic can only be one of the state database's or of the
    chain's, unless two codes have one hash. *)
Theorem Call_ends table fuel caller_ addr input gas value e :
  state_laws W env SI funded -> env_ok env -> crypto_ok -> NewEVMInterpreter env = Ok table ->
  ref_ok caller_ -> nonneg addr -> data_ok input -> 0 <= gas < max_gas -> nonneg value -> evm_ok SI e -> gas < Z.of_nat fuel ->
  match Call env (loop env table fuel) caller_ addr input gas value e with
  | (e', Ok r) => evm_ok SI e' /\ same_ctx e e' /\ 0 <= leftOverGas r <= gas /\ data_ok (ret r)
  | (_, Panic w) => W w \/ collision
  | (_, Err _) => False
  end.
Proof.
  intros Hlaws Henv Hcrypto Htable Hr Ha Hi Hg Hv He Hf.
  pose proof (Call_wp or_collision env SI funded (laws_weaken Hlaws) Henv Hcrypto _ _ (machine_safe Hlaws Henv Hcrypto table Htable fuel)
    caller_ addr input gas value Hr Ha Hi Hg ltac:(lia) Hv e He) as Hw.
  unfold wp in Hw. destruct (Call _ _ _ _ _ _ _ _) as [e' [r|err|w]]; [|done|done]. by destruct Hw.
Qed.
(** C10: so does a creation, whatever the code that makes the contract. *)
Theorem Create_ends table fuel caller_ code gas value e :
  state_laws W env SI funded -> env_ok env -> crypto_ok -> NewEVMInterpreter env = Ok table ->
  ref_ok caller_ -> data_ok code -> 0 <= gas < max_gas -> nonneg value -> evm_ok SI e -> gas < Z.of_nat fuel ->
  match Create env (loop env table fuel) caller_ code gas value e with
  | (e', Ok (addr, r)) => nonneg addr /\ evm_ok SI e' /\ same_ctx e e' /\ 0 <= leftOverGas r <= gas /\ data_ok (ret r)
  | (_, Panic w) => W w \/ collision
  | (_, Err _) => False
  end.
Proof.
  intros Hlaws Henv Hcrypto Htable Hr Hc Hg Hv He Hf.
  pose proof (Create_wp or_collision env SI funded (laws_weaken Hlaws) Henv Hcrypto _ _ (machine_safe Hlaws Henv Hcrypto table Htable fuel)
    caller_ code gas value e Hr Hc Hg ltac:(lia) Hv He) as Hw.
  unfold wp in Hw. destruct (Create _ _ _ _ _ _ _) as [e' [[addr r]|err|w]]; [|done|done]. by destruct Hw as [? []].
Qed.
End calls.
