(* ===== verification/StateTransition.v ===== *)
(** * Applying a message (core/gaspool.go, core/state_transition.go)

    A message buys its gas from the block's pool and from the sender's balance,
    pays the intrinsic gas, runs, gives back what is left with a refund, and
    its fee goes to the block's producer or to the fee collectors of the epoch.

    [TransitionDb] answers with a result or with the error the block is refused
    for ([inr]); the state is then as far as the transition came, and the caller
    goes back to its own snapshot.  RLP decoding of staking messages is a
    parameter. *)
From S2P Require Import Prelude Dec Params Sharding Bls CXReceipt Receipt Delegation Validator StakingVerifier Opcodes EvmCode Gas EvmMemory Precompiles StakingAbi EvmState EvmGas EvmOps EvmTable Evm EvmWp EvmBytes EvmOpsSafety EvmSafety EvmLoop EvmCalls.
Local Open Scope Z_scope.

(** ** gaspool.go *)

Definition ErrGasLimitReached : string := "gas limit reached".
Definition GasPool_AddGas (amount gp : Z) : outcome Z :=
  if MaxUint64 - amount <? gp then Panic "gas pool pushed above uint64" else Ok (gp + amount).
Definition GasPool_SubGas (amount gp : Z) : Z * option string :=
  if gp <? amount then (gp, Some ErrGasLimitReached) else (gp - amount, None).

(** ** state_transition.go *)

Definition ErrNonceTooHigh : string := "nonce too high".
Definition ErrNonceTooLow : string := "nonce too low".
Definition ErrIntrinsicGas : string := "intrinsic gas too low".
Definition errInvalidSigner : string := "invalid signer for staking transaction".
Definition errInsufficientBalanceForGas : string := "insufficient balance to pay for gas".
Definition ErrInvalidStakingKind : string := "bad staking kind".

Record Message := mkMessage {
  mFrom : Address; mTo : option Address; mGasPrice : Z; mGas : Z; mValue : Z; mNonce : Z; mCheckNonce : bool;
  mData : list Z; mType : TransactionType
}.
Record ExecutionResult := mkResult { ReturnData : list Z; UsedGas : Z; VMErr : option string }.
Definition Unwrap (r : ExecutionResult) : option string := r.(VMErr).
Definition Failed (r : ExecutionResult) : bool := bool_decide (is_Some r.(VMErr)).
Definition Return (r : ExecutionResult) : list Z := match r.(VMErr) with Some _ => [] | None => r.(ReturnData) end.
Definition Revert (r : ExecutionResult) : list Z :=
  if bool_decide (r.(VMErr) = Some ErrExecutionReverted) then r.(ReturnData) else [].

(** go-ethereum's RLP, for the messages of staking transactions. *)
Class StakeRLP := {
  decode_CreateValidator : list Z -> CreateValidator + string;
  decode_EditValidator : list Z -> EditValidator + string;
  decode_Delegate : list Z -> Delegate + string;
  decode_Undelegate : list Z -> Undelegate_ + string;
  decode_CollectRewards : list Z -> CollectRewardsMsg + string
}.

Record StateTransition (S : Type) := mkST { gp : Z; gas : Z; initialGas : Z; evm : EVM S }.
Arguments mkST {S} _ _ _ _. Arguments gp {S} _. Arguments gas {S} _. Arguments initialGas {S} _. Arguments evm {S} _.

Section transition.
Context {S : Type} {V : VMState S} {H : Hashes} {C : CryptoLib} {L : EvmLib} {R : StakeRLP} {WK : Walk}.
(** [loop] is the interpreter's; the fee collectors are a map, walked in any
    order. *)
Context (env : Env S) (loop : EM S (Slice * option string)) (Schedule : Schedule) (msg : Message).
Notation ST := (SM (StateTransition S)).

Definition NewStateTransition (evm : EVM S) (gp : Z) : StateTransition S := mkST gp 0 0 evm.
Definition set_gp (x : Z) (t : StateTransition S) : StateTransition S := mkST x t.(gas) t.(initialGas) t.(evm).
Definition set_gas (x : Z) (t : StateTransition S) : StateTransition S := mkST t.(gp) x t.(initialGas) t.(evm).
Definition set_initialGas (x : Z) (t : StateTransition S) : StateTransition S := mkST t.(gp) t.(gas) x t.(evm).
Definition on_machine {A} (m : SM (EVM S) A) : ST A := fun t => let '(e, r) := m t.(evm) in (mkST t.(gp) t.(gas) t.(initialGas) e, r).
Definition on_db {A} (m : SM S A) : ST A := on_machine (in_state m).

Definition to : Address := default zero_address msg.(mTo).
Definition useGas (amount : Z) : ST (option string) :=
  let! g := gets gas in
  if g <? amount then mret (Some ErrOutOfGas)
  else let! _ := modify (set_gas (g - amount)) in mret None.
Definition gasUsed (t : StateTransition S) : Z := u64 (t.(initialGas) - t.(gas)).

Definition buyGas : ST (option string) :=
  let mgval := msg.(mGas) * msg.(mGasPrice) in
  let! have := on_db (GetBalance msg.(mFrom)) in
  if have <? mgval then mret (Some errInsufficientBalanceForGas)
  else
    let! pool := gets gp in
    let '(pool, err) := GasPool_SubGas msg.(mGas) pool in
    match err with
    | Some e => mret (Some e)
    | None =>
        let! _ := modify (set_gp pool) in
        let! g := gets gas in
        let! _ := modify (set_gas (u64 (g + msg.(mGas)))) in
        let! _ := modify (set_initialGas msg.(mGas)) in
        let! _ := on_db (SubBalance msg.(mFrom) mgval) in
        mret None
    end.
Definition preCheck : ST (option string) :=
  if msg.(mCheckNonce) then
    let! nonce := on_db (GetNonce msg.(mFrom)) in
    if nonce <? msg.(mNonce) then mret (Some ErrNonceTooHigh)
    else if msg.(mNonce) <? nonce then mret (Some ErrNonceTooLow)
    else buyGas
  else buyGas.

(** The refund is capped to half of the gas used. *)
Definition refundGas : ST unit :=
  let! used := gets gasUsed in
  let! counter := on_db GetRefund in
  let refund := if counter <? used / 2 then counter else used / 2 in
  let! _ := modify (fun t => set_gas (u64 (t.(gas) + refund)) t) in
  let! g := gets gas in
  let! _ := on_db (AddBalance msg.(mFrom) (g * msg.(mGasPrice))) in
  let! pool := gets gp in
  let! pool := lift (GasPool_AddGas g pool) in
  modify (set_gp pool).
Fixpoint collect (collectors : list (Address * Dec)) (txFee : Dec) : ST unit :=
  match collectors with
  | [] => mret tt
  | (address, percent) :: collectors =>
      let! collectedFee := lift (Dec.Mul percent txFee) in
      let! _ := on_db (AddBalance address (TruncateInt collectedFee)) in
      collect collectors txFee
  end.
Definition collectGas : ST unit :=
  let! used := gets gasUsed in
  if negb (active env IsStaking) then on_db (AddBalance env.(ctx).(Coinbase) (used * msg.(mGasPrice)))
  else
    let! inst := lift (Sharding.InstanceForEpoch Schedule (Some env.(ctx).(EpochNumber))) in
    if (0 <? size inst.(feeCollectors))%nat
    then collect (walk inst.(feeCollectors)) (NewDecFromBigInt (used * msg.(mGasPrice)))
    else mret tt.

(** A contract for a message without a receiver. *)
Definition execute_message : ST CallResult :=
  let! g := gets gas in
  match msg.(mTo) with
  | None =>
      let! '(_, r) := on_machine (Create env loop (AccountRef msg.(mFrom)) msg.(mData) g msg.(mValue)) in
      let! _ := modify (set_gas r.(leftOverGas)) in mret r
  | Some _ =>
      let! nonce := on_db (GetNonce msg.(mFrom)) in
      let! _ := on_db (SetNonce msg.(mFrom) (u64 (nonce + 1))) in
      let! r := on_machine (Call env loop (AccountRef msg.(mFrom)) to msg.(mData) g msg.(mValue)) in
      let! _ := modify (set_gas r.(leftOverGas)) in mret r
  end.
Definition TransitionDb : ST (ExecutionResult + string) :=
  let! err := preCheck in
  match err with
  | Some e => mret (inr e)
  | None =>
      match IntrinsicGas msg.(mData) (bool_decide (msg.(mTo) = None)) (active env IsS3) (active env IsIstanbul) false with
      | Panic w => lift (Panic w)
      | Err e => mret (inr e)
      | Ok intrinsic =>
          let! err := useGas intrinsic in
          match err with
          | Some _ => mret (inr ErrIntrinsicGas)
          | None =>
              let! r := execute_message in
              if bool_decide (r.(callErr) = Some ErrInsufficientBalance) then mret (inr ErrInsufficientBalance)
              else
                let! _ := refundGas in
                let! _ := collectGas in
                let! used := gets gasUsed in
                mret (inl (mkResult r.(ret) used r.(callErr)))
          end
      end
  end.
(** ApplyMessage: the transition on a fresh StateTransition. *)
Definition ApplyMessage (evm : EVM S) (gp : Z) : StateTransition S * outcome (ExecutionResult + string) := TransitionDb (NewStateTransition evm gp).

(** *** Staking *)

(** Decodes, checks the signer and runs; the error ends the transition when it is
    one of decoding or of the signer ([inr]). *)
Definition staking_call {M} (decoded : M + string) (signer : M -> Address) (run : M -> SM S unit) : ST (option string + string) :=
  match decoded with
  | inr e => mret (inr e)
  | inl m =>
      if negb (msg.(mFrom) =? signer m) then mret (inr errInvalidSigner)
      else let! err := on_db (caught (run m)) in mret (inl err)
  end.
Definition execute_staking : ST (option string + string) :=
  let data := msg.(mData) in
  match msg.(mType) with
  | StakeCreateVal => staking_call (decode_CreateValidator data) cvValidatorAddress env.(ctx).(ctx_CreateValidator)
  | StakeEditVal => staking_call (decode_EditValidator data) evValidatorAddress env.(ctx).(ctx_EditValidator)
  | DelegateTx => staking_call (decode_Delegate data) dDelegatorAddress env.(ctx).(ctx_Delegate)
  | UndelegateTx => staking_call (decode_Undelegate data) unDelegatorAddress env.(ctx).(ctx_Undelegate)
  | CollectRewardsTx => staking_call (decode_CollectRewards data) crDelegatorAddress env.(ctx).(ctx_CollectRewards)
  | _ => mret (inr ErrInvalidStakingKind)
  end.
(** The gas used, and the error. *)
Definition StakingTransitionDb : ST (Z * option string) :=
  let! err := preCheck in
  match err with
  | Some e => mret (0, Some e)
  | None =>
      match IntrinsicGas msg.(mData) false (active env IsS3) (active env IsIstanbul) (bool_decide (msg.(mType) = StakeCreateVal)) with
      | Panic w => lift (Panic w)
      | Err e => mret (0, Some e)
      | Ok intrinsic =>
          let! err := useGas intrinsic in
          match err with
          | Some e => mret (0, Some e)
          | None =>
              let! nonce := on_db (GetNonce msg.(mFrom)) in
              let! _ := on_db (SetNonce msg.(mFrom) (u64 (nonce + 1))) in
              let! r := execute_staking in
              match r with
              | inr e => mret (0, Some e)
              | inl err =>
                  let! _ := refundGas in
                  let! _ := collectGas in
                  let! used := gets gasUsed in
                  mret (used, err)
              end
          end
      end
  end.
Definition ApplyStakingMessage (evm : EVM S) (gp : Z) : StateTransition S * outcome (Z * option string) := StakingTransitionDb (NewStateTransition evm gp).
End transition.

(** ** Messages settle

    On a state with a ledger of balances, a message that is applied takes the
    price of its gas from the sender, runs, gives back the price of what is
    left, and the fee for exactly the gas used is credited; the block's pool
    loses exactly the gas used. *)

(** What a collector of the share [p] gets of a fee. *)
Definition fee_share (fee : Z) (p : Dec) : Z := p * fee / OneDec.

Section ledger.
Context {S : Type} {V : VMState S} (W : string -> Prop) (SI : S -> Prop) (bal : S -> Address -> Z).
Definition credit (a : Address) (x : Z) (f : Address -> Z) (b : Address) : Z := f b + (if b =? a then x else 0).
(** What the transition asks of the state's balances. *)
Record ledger_laws : Prop := {
  led_GetBalance a s : SI s -> wp W (GetBalance a) (fun v s' => v = bal s a /\ SI s' /\ forall b, bal s' b = bal s b) s;
  led_AddBalance a x s : SI s -> 0 <= x -> wp W (AddBalance a x) (fun _ s' => SI s' /\ forall b, bal s' b = credit a x (bal s) b) s;
  led_SubBalance a x s : SI s -> 0 <= x <= bal s a -> wp W (SubBalance a x) (fun _ s' => SI s' /\ forall b, bal s' b = credit a (- x) (bal s) b) s;
  led_GetRefund s : SI s -> wp W GetRefund (fun v s' => 0 <= v /\ SI s' /\ forall b, bal s' b = bal s b) s;
  led_GetNonce a s : SI s -> wp W (GetNonce a) (fun _ s' => SI s' /\ forall b, bal s' b = bal s b) s
}.
End ledger.

Section transition.
Context {S : Type} {V : VMState S} {H : Hashes} {C : CryptoLib} {L : EvmLib} {G : GoRuntime} {WK : Walk}.
Context (W : string -> Prop) (env : Env S) (SI : S -> Prop) (funded : Address -> Z -> S -> Prop) (bal : S -> Address -> Z).
Context (Hlaws : state_laws W env SI funded) (Hled : ledger_laws W SI bal) (Henv : env_ok env) (Hcrypto : crypto_ok).
Context (table : JumpTable S) (Htable : NewEVMInterpreter env = Ok table) (fuel : nat).
Context (Schedule : Schedule) (msg : Message).
Notation W' := (or_collision W).
Notation ST := (SM (StateTransition S)).
Notation the_loop := (loop env table fuel).
Notation evm_ok := (evm_ok SI).
Notation db t := (StateDB (evm t)).
Implicit Types (t : StateTransition S) (e : EVM S) (s : S).

(** The epoch's fee collectors have shares of a whole. *)
Definition collectors_ok : Prop := active env IsStaking = true -> exists inst,
  Sharding.InstanceForEpoch Schedule (Some env.(ctx).(EpochNumber)) = Ok inst /\ map_Forall (fun _ p => 0 <= p <= OneDec) inst.(feeCollectors).
Record message_ok : Prop := {
  mo_from : nonneg msg.(mFrom);
  mo_to : nonneg (to msg);
  mo_gas : 0 <= msg.(mGas) < max_gas;
  mo_fuel : msg.(mGas) < Z.of_nat fuel;
  mo_price : 0 <= msg.(mGasPrice) < 2 ^ 190;
  mo_value : nonneg msg.(mValue);
  mo_data : data_ok msg.(mData)
}.
Context (Hmsg : message_ok) (Hcollectors : collectors_ok).
(** What each account gets of a fee. *)
Definition fee_to (fee : Z) (b : Address) : Z :=
  if negb (active env IsStaking) then (if b =? env.(ctx).(Coinbase) then fee else 0)
  else match Sharding.InstanceForEpoch Schedule (Some env.(ctx).(EpochNumber)) with
       | Ok inst => match inst.(feeCollectors) !! b with Some p => fee_share fee p | None => 0 end
       | _ => 0
       end.

(** ** Rules *)

Lemma wp_on_db {A} (m : SM S A) (Q : A -> StateTransition S -> Prop) t :
  wp W' m (fun a s => Q a (mkST (gp t) (gas t) (initialGas t) (set_StateDB s (evm t)))) (db t) -> wp W' (on_db m) Q t.
Proof. unfold wp, on_db, on_machine, in_state. destruct (m (db t)) as [s [a|err|w]]; done. Qed.
Lemma wp_on_machine {A} (m : SM (EVM S) A) (Q : A -> StateTransition S -> Prop) t :
  wp W' m (fun a e => Q a (mkST (gp t) (gas t) (initialGas t) e)) (evm t) -> wp W' (on_machine m) Q t.
Proof. unfold wp, on_machine. destruct (m (evm t)) as [e [a|err|w]]; done. Qed.
Lemma weaken {A} (m : SM S A) (Q : A -> S -> Prop) s : wp W m Q s -> wp W' m Q s.
Proof. apply wp_weaken. by left. Qed.
Lemma wp_eq {T A} (m : SM T A) (Q : A -> T -> Prop) (x : T) : wp W' m Q x -> wp W' m (fun a y => m x = (y, Ok a) /\ Q a y) x.
Proof. unfold wp. by destruct (m x) as [y [a|err|w]]. Qed.

(** The machine with another state. *)
Definition with_db t s : StateTransition S := mkST (gp t) (gas t) (initialGas t) (set_StateDB s (evm t)).
Ltac led l := apply wp_on_db; eapply wp_mono; [apply weaken, (l _ _ _ Hled)|].

Definition in_order t : Prop := evm_ok (evm t).
Lemma in_order_db t s : in_order t -> SI s -> in_order (with_db t s).
Proof. intros [] Hs. by split. Qed.

(** ** Fees *)

Lemma Mul_fee p fee : 0 <= p <= OneDec -> 0 <= fee < 2 ^ 251 -> exists c, Dec.Mul p (NewDecFromBigInt fee) = Ok c /\ TruncateInt c = fee_share fee p.
Proof.
  intros Hp Hf. exists (p * fee). unfold Dec.Mul, NewDecFromBigInt. rewrite Z.mul_assoc.
  assert (chopPrecisionAndRound (p * fee * precisionReuse) = p * fee) as -> by apply chopPrecisionAndRound_exact. change OneDec with (10 ^ 18) in Hp.
  split.
  - apply checked_fits. unfold fits. nia.
  - rewrite TruncateInt_spec, Z.quot_div_nonneg; [done|nia|done].
Qed.
Lemma collect_wp l fee t (Q : unit -> StateTransition S -> Prop) : NoDup l.*1 -> Forall (fun kv => 0 <= kv.2 <= OneDec) l -> 0 <= fee < 2 ^ 251 -> in_order t ->
  (forall s, SI s -> (forall b, bal s b = bal (db t) b + match (list_to_map l : gmap Address Dec) !! b with Some p => fee_share fee p | None => 0 end) ->
     Q tt (with_db t s)) ->
  wp W' (collect l (NewDecFromBigInt fee)) Q t.
Proof.
  revert t. induction l as [|[a p] l IH]; intros t Hnd Hl Hf Ht HQ.
  - apply wp_ret. replace t with (with_db t (db t)) by (destruct t as [? ? ? []]; done). apply HQ; [apply Ht|]. intros b. cbn. rewrite lookup_empty. lia.
  - cbn [collect]. apply Forall_cons in Hl as [Hp Hl]. cbn [fmap list_fmap fst] in Hnd. apply NoDup_cons in Hnd as [Hn Hnd]. cbn in Hp.
    destruct (Mul_fee p fee Hp Hf) as (c & E & Ec). apply wp_bind. eapply wp_lift_Ok; [exact E|]. rewrite Ec. apply wp_bind.
    led led_AddBalance; [apply Ht|unfold fee_share; apply Z.div_pos; [nia|done]|]. intros [] s [Hs Hb]. apply (IH (with_db t s)); [done|done|done|by apply in_order_db|].
    intros s' Hs' Hb'. apply HQ; [done|]. intros b. rewrite Hb'. cbn [with_db evm StateDB set_StateDB]. rewrite Hb. unfold credit. cbn [list_to_map foldr uncurry fst snd].
    destruct (Z.eqb_spec b a) as [->|Hne]; [|rewrite lookup_insert_ne by congruence; lia].
    rewrite lookup_insert_eq, (not_elem_of_list_to_map_1 l a Hn). lia.
Qed.
Lemma walk_to_map (m : gmap Address Dec) : (list_to_map (walk m) : gmap Address Dec) = m.
Proof.
  assert (NoDup (walk m).*1) as Hnd by (rewrite walk_perm; apply NoDup_fst_map_to_list).
  rewrite (list_to_map_proper _ _ Hnd (walk_perm m)). apply list_to_map_to_list.
Qed.
Lemma collectGas_wp t (Q : unit -> StateTransition S -> Prop) : in_order t -> 0 <= gasUsed t <= msg.(mGas) ->
  (forall s, SI s -> (forall b, bal s b = bal (db t) b + fee_to (gasUsed t * msg.(mGasPrice)) b) -> Q tt (with_db t s)) ->
  wp W' (collectGas env Schedule msg) Q t.
Proof.
  intros Ht Hu HQ. unfold collectGas. apply wp_bind, wp_gets. destruct Hmsg as [_ _ Hg _ Hp _ _]. unfold max_gas in Hg.
  assert (0 <= gasUsed t * mGasPrice msg < 2 ^ 251) as Hfee by nia. unfold fee_to in HQ.
  destruct (active env IsStaking) eqn:Es; cbn [negb] in *.
  - destruct (Hcollectors Es) as (inst & Ei & Hall). apply wp_bind. eapply wp_lift_Ok; [exact Ei|]. rewrite Ei in HQ.
    apply wp_if; intros Hsz.
    + apply collect_wp; [rewrite walk_perm; apply NoDup_fst_map_to_list| |done|done|].
      * rewrite walk_perm. apply map_Forall_to_list in Hall. by eapply Forall_impl; [exact Hall|intros []].
      * intros s Hs Hb. apply HQ; [done|]. intros b. by rewrite Hb, walk_to_map.
    + apply wp_ret. replace t with (with_db t (db t)) by (destruct t as [? ? ? []]; done). apply HQ; [apply Ht|]. intros b.
      apply Nat.ltb_ge, Nat.le_0_r in Hsz. apply map_size_empty_iff in Hsz. assert (feeCollectors inst !! b = None) as -> by (rewrite Hsz; apply lookup_empty). lia.
  - led led_AddBalance; [apply Ht|lia|]. intros [] s [Hs Hb]. by apply HQ.
Qed.

(** ** Buying gas *)

Record bought t t' : Prop := {
  by_gp : gp t' = gp t - msg.(mGas) /\ 0 <= gp t';
  by_gas : gas t' = msg.(mGas) /\ initialGas t' = msg.(mGas);
  by_order : in_order t';
  by_bal b : bal (db t') b = credit msg.(mFrom) (- (msg.(mGas) * msg.(mGasPrice))) (bal (db t)) b
}.
Definition checked_post t (r : option string) t' : Prop :=
  match r with Some _ => gp t' = gp t /\ in_order t' | None => bought t t' end.
Lemma buyGas_wp t : in_order t -> gas t = 0 -> wp W' (buyGas msg) (checked_post t) t.
Proof.
  intros Ht H0. destruct Hmsg as [_ _ Hg _ Hp _ _]. unfold buyGas. apply wp_bind. led led_GetBalance; [apply Ht|]. intros have s (-> & Hs & Hb).
  apply wp_if; intros Hlt; [by apply wp_ret; split; [|apply (in_order_db t)]|]. apply Z.ltb_ge in Hlt. apply wp_bind, wp_gets. unfold GasPool_SubGas. cbn [gp].
  destruct (Z.ltb_spec (gp t) (mGas msg)); [by apply wp_ret; split; [|apply (in_order_db t)]|].
  apply wp_bind, wp_modify, wp_bind, wp_gets, wp_bind, wp_modify, wp_bind, wp_modify, wp_bind. cbn [set_gp set_gas set_initialGas gp gas initialGas evm].
  led led_SubBalance; [exact Hs|cbn [evm StateDB set_StateDB]; rewrite Hb; nia|]. intros [] s2 [Hs2 Hb2]. apply wp_ret.
  cbn [gp gas initialGas evm] in *. unfold max_gas in Hg. rewrite H0 in *. rewrite u64_small by lia. split; cbn [set_initialGas set_gas set_gp gp gas initialGas evm StateDB set_StateDB].
  - lia.
  - done.
  - destruct Ht. by split.
  - intros b. rewrite Hb2. cbn [StateDB set_StateDB]. unfold credit. by rewrite Hb.
Qed.
Lemma preCheck_wp t : in_order t -> gas t = 0 -> wp W' (preCheck msg) (checked_post t) t.
Proof.
  intros Ht H0. unfold preCheck. apply wp_if; intros _; [|by apply buyGas_wp]. apply wp_bind. led led_GetNonce; [apply Ht|]. intros nonce s [Hs Hb].
  pose proof (in_order_db t s Ht Hs) as Ht'. apply wp_if; intros _; [by apply wp_ret|]. apply wp_if; intros _; [by apply wp_ret|].
  eapply wp_mono; [by apply (buyGas_wp (with_db t s))|]. intros [err|] t'; [done|]. intros [Hgp Hgas Hord Hbal]. split; try done. intros b. rewrite Hbal. unfold credit.
  by rewrite <- (Hb b).
Qed.

(** ** Running *)

Definition runs_post t (r : CallResult) t' : Prop :=
  in_order t' /\ gp t' = gp t /\ initialGas t' = initialGas t /\ gas t' = r.(leftOverGas) /\ 0 <= gas t' <= gas t.
Lemma execute_message_wp t : in_order t -> 0 <= gas t <= msg.(mGas) -> wp W' (execute_message env the_loop msg) (runs_post t) t.
Proof.
  intros Ht Hg. destruct Hmsg as [Hfrom Hto Hgas Hfuel _ Hval Hdata]. pose proof (laws_weaken W env SI funded Hlaws) as Hlaws'.
  pose proof (machine_safe W env SI funded Hlaws Henv Hcrypto table Htable fuel) as Hsafe. unfold execute_message. apply wp_bind, wp_gets.
  destruct (mTo msg) as [addr|] eqn:Eto.
  - apply wp_bind. led led_GetNonce; [apply Ht|]. intros nonce s [Hs Hb]. apply wp_bind, wp_on_db. eapply wp_mono; [apply (law_SetNonce _ _ _ _ Hlaws'), Hs|].
    intros [] s2 [Hs2 _]. apply wp_bind, wp_on_machine. cbn [evm gp gas initialGas].
    eapply wp_mono; [eapply (Call_wp W' env SI funded Hlaws' Henv Hcrypto); [exact Hsafe|done|done|done|lia|lia|done|]|].
    + destruct Ht. by split.
    + intros r e [He _ Hleft _]. apply wp_bind, wp_modify, wp_ret. unfold runs_post. cbn in *. split_and!; try done; lia.
  - apply wp_bind, wp_on_machine.
    eapply wp_mono; [eapply (Create_wp W' env SI funded Hlaws' Henv Hcrypto); [exact Hsafe|done|done|lia|lia|done|exact Ht]|].
    intros [a r] e [_ [He _ Hleft _]]. apply wp_bind, wp_modify, wp_ret. unfold runs_post. cbn in *. split_and!; try done; lia.
Qed.

(** ** Giving back *)

Record refunded t t' : Prop := {
  rf_gas : exists refund, gas t' = gas t + refund /\ 0 <= refund <= (msg.(mGas) - gas t) / 2;
  rf_gp : gp t' = gp t + gas t';
  rf_initial : initialGas t' = msg.(mGas);
  rf_order : in_order t';
  rf_bal b : bal (db t') b = credit msg.(mFrom) (gas t' * msg.(mGasPrice)) (bal (db t)) b
}.
Lemma refundGas_wp t : in_order t -> initialGas t = msg.(mGas) -> 0 <= gas t <= msg.(mGas) -> 0 <= gp t -> gp t + msg.(mGas) < 2 ^ 64 ->
  wp W' (refundGas msg) (fun _ t' => refunded t t') t.
Proof.
  intros Ht Hi Hg Hgp Hmax. destruct Hmsg as [_ _ Hgas _ Hp _ _]. unfold max_gas in Hgas. unfold refundGas. apply wp_bind, wp_gets, wp_bind.
  led led_GetRefund; [apply Ht|]. intros counter s (Hc & Hs & Hb). unfold gasUsed. rewrite Hi, u64_small by lia.
  assert (0 <= (mGas msg - gas t) / 2) as Hh by (apply Z.div_pos; lia). assert ((mGas msg - gas t) / 2 <= mGas msg - gas t) as Hh2 by (apply Z.div_le_upper_bound; lia).
  set (refund := if counter <? _ then _ else _). assert (0 <= refund <= (mGas msg - gas t) / 2) as Hr by (subst refund; destruct (Z.ltb_spec counter ((mGas msg - gas t) / 2)); lia).
  apply wp_bind, wp_modify, wp_bind, wp_gets. cbn [set_gas gas]. rewrite u64_small by lia. apply wp_bind. led led_AddBalance; [exact Hs|nia|]. intros [] s2 [Hs2 Hb2].
  apply wp_bind, wp_gets, wp_bind. unfold GasPool_AddGas, MaxUint64. cbn [set_gas gp]. destruct (Z.ltb_spec (2 ^ 64 - 1 - (gas t + refund)) (gp t)); [lia|].
  eapply wp_lift_Ok; [done|]. apply wp_modify. split; cbn.
  - by exists refund.
  - done.
  - done.
  - destruct Ht. by split.
  - intros b. rewrite Hb2. cbn. unfold credit. by rewrite Hb.
Qed.

(** ** The transition *)

Definition intrinsic_gas : outcome Z :=
  IntrinsicGas msg.(mData) (bool_decide (msg.(mTo) = None)) (active env IsS3) (active env IsIstanbul) false.
(** What an applied message did: between [t1] and [t2] it ran. *)
Record settled t0 (r : ExecutionResult) t' : Prop := {
  se_ran : exists t1 t2 cr intrinsic refund,
    intrinsic_gas = Ok intrinsic /\ gas t1 = msg.(mGas) - intrinsic /\
    (forall b, bal (db t1) b = credit msg.(mFrom) (- (msg.(mGas) * msg.(mGasPrice))) (bal (db t0)) b) /\
    execute_message env the_loop msg t1 = (t2, Ok cr) /\ VMErr r = callErr cr /\ ReturnData r = ret cr /\
    r.(UsedGas) = msg.(mGas) - gas t2 - refund /\ 0 <= refund <= (msg.(mGas) - gas t2) / 2 /\ intrinsic <= msg.(mGas) - gas t2 <= msg.(mGas) /\
    forall b, bal (db t') b = bal (db t2) b + (if b =? msg.(mFrom) then (msg.(mGas) - r.(UsedGas)) * msg.(mGasPrice) else 0) + fee_to (r.(UsedGas) * msg.(mGasPrice)) b;
  se_pool : gp t' = gp t0 - r.(UsedGas);
  se_order : in_order t'
}.
Definition transition_post t0 (r : ExecutionResult + string) t' : Prop :=
  match r with inl r => settled t0 r t' | inr _ => gp t0 - msg.(mGas) <= gp t' <= gp t0 /\ in_order t' end.
(** After the run: what is left, and the fee. *)
Lemma settlement_wp t1 t2 (Q : Z -> StateTransition S -> Prop) : in_order t2 -> initialGas t2 = msg.(mGas) -> 0 <= gas t2 <= msg.(mGas) ->
  0 <= gp t2 -> gp t2 + msg.(mGas) < 2 ^ 64 ->
  (forall used refund t', used = msg.(mGas) - gas t2 - refund -> 0 <= refund <= (msg.(mGas) - gas t2) / 2 -> in_order t' -> gp t' = gp t2 + (msg.(mGas) - used) ->
     (forall b, bal (db t') b = bal (db t2) b + (if b =? msg.(mFrom) then (msg.(mGas) - used) * msg.(mGasPrice) else 0) + fee_to (used * msg.(mGasPrice)) b) -> Q used t') ->
  wp W' (let! _ := refundGas msg in let! _ := collectGas env Schedule msg in gets gasUsed) Q t2.
Proof.
  intros Ht Hi Hg Hgp Hmax HQ. apply wp_bind. eapply wp_mono; [by apply refundGas_wp|]. intros [] t3 [(refund & Er & Hr) Egp Ei Hord Hbal].
  destruct Hmsg as [_ _ Hgas _ _ _ _]. unfold max_gas in Hgas.
  assert ((mGas msg - gas t2) / 2 <= mGas msg - gas t2) as Hh by (apply Z.div_le_upper_bound; lia).
  assert (gasUsed t3 = msg.(mGas) - gas t3) as Eu by (unfold gasUsed; rewrite Ei; apply u64_small; lia).
  apply wp_bind, collectGas_wp; [done|lia|]. intros s Hs Hb. apply wp_gets. change (gasUsed (with_db t3 s)) with (gasUsed t3).
  apply (HQ _ refund); [lia|done|by apply in_order_db|cbn; lia|]. intros b. change (db (with_db t3 s)) with s. rewrite Hb, Hbal. unfold credit. rewrite Eu.
  by replace (mGas msg - (mGas msg - gas t3)) with (gas t3) by lia.
Qed.
Lemma TransitionDb_wp t : in_order t -> gas t = 0 -> 0 <= gp t < 2 ^ 64 -> wp W' (TransitionDb env the_loop Schedule msg) (transition_post t) t.
Proof.
  intros Ht H0 Hgp. destruct (mo_gas Hmsg) as [Hg0 Hg1]. unfold max_gas in Hg1. unfold TransitionDb. apply wp_bind. eapply wp_mono; [by apply preCheck_wp|].
  intros [err|] t1; [intros [Egp Hord]; apply wp_ret; split; [lia|done]|]. intros [[Egp Hgp1] [Egas Ei] Hord Hbal].
  pose proof (IntrinsicGas_range (mData msg) (bool_decide (mTo msg = None)) (active env IsS3) (active env IsIstanbul) false (proj2 (mo_data Hmsg))) as Hin.
  fold intrinsic_gas in Hin |- *. destruct intrinsic_gas as [intrinsic|err|w] eqn:Ein; [|apply wp_ret; split; [lia|done]|done].
  apply wp_bind. unfold useGas. apply wp_bind, wp_gets. rewrite Egas. destruct (Z.ltb_spec (mGas msg) intrinsic) as [|Hle]; [apply wp_ret, wp_ret; split; [lia|done]|].
  apply wp_bind, wp_modify, wp_ret. set (t1' := set_gas _ t1). apply wp_bind.
  eapply wp_mono; [apply wp_eq, (execute_message_wp t1'); [done|cbn; lia]|]. intros cr t2 (Erun & Hord2 & Egp2 & Ei2 & Egas2 & Hg2). cbn in Egp2, Ei2, Hg2.
  apply wp_if; intros _; [apply wp_ret; split; [lia|done]|].
  assert (forall used refund t', used = mGas msg - gas t2 - refund -> 0 <= refund <= (mGas msg - gas t2) / 2 -> in_order t' -> gp t' = gp t2 + (mGas msg - used) ->
     (forall b, bal (db t') b = bal (db t2) b + (if b =? mFrom msg then (mGas msg - used) * mGasPrice msg else 0) + fee_to (used * mGasPrice msg) b) ->
     transition_post t (inl (mkResult (ret cr) used (callErr cr))) t') as HQ.
  { intros used refund t' Eu Hr Hord' Egp' Hb. split; [|cbn; lia|done]. exists t1', t2, cr, intrinsic, refund. cbn [UsedGas VMErr ReturnData]. split_and!; try done; cbn; lia. }
  pose proof (settlement_wp t1' t2 _ Hord2 ltac:(lia) ltac:(lia) ltac:(lia) ltac:(lia) HQ) as Hs. revert Hs. unfold wp, mbind, SM_bind.
  destruct (refundGas msg t2) as [t3 [[]|err|w]]; [|done|done]. destruct (collectGas env Schedule msg t3) as [t4 [[]|err|w]]; done.
Qed.

(** C11: a message is applied, or refused with at most its gas missing from the
    pool; nothing panics but the state and the chain.  An applied message has
    paid the price of its gas, run, got back the price of what it did not use,
    with a refund of at most half of what it used, and its fee, the gas used at
    its price, is what the producer or the fee collectors are credited; the
    pool has lost exactly the gas used. *)
Theorem ApplyMessage_settles e pool : evm_ok e -> 0 <= pool < 2 ^ 64 ->
  match ApplyMessage env the_loop Schedule msg e pool with
  | (t', Ok (inl r)) => settled (NewStateTransition e pool) r t'
  | (t', Ok (inr _)) => pool - msg.(mGas) <= gp t' <= pool
  | (_, Panic w) => W w \/ collision
  | (_, Err _) => False
  end.
Proof.
  intros He Hpool. pose proof (TransitionDb_wp (NewStateTransition e pool) He eq_refl Hpool) as Hw. unfold wp in Hw. unfold ApplyMessage.
  destruct (TransitionDb _ _ _ _ _) as [t' [[r|err]|err|w]]; [done|apply Hw|done|done].
Qed.
End transition.
