(* ===== verification/EvmToy.v ===== *)
(** * The virtual machine on a toy state

    The theorems of [EvmCalls] at a concrete machine: a state that keeps the
    delegations made and one contract's slots, three contracts, mainnet's
    configuration.  Two contracts show what a nested call does to the write
    protection of a static call.  A message is applied at the end. *)
From S2P Require Import Prelude Dec Params Sharding Bls Shard Header CXReceipt Receipt Block CrossSafety Delegation Validator StakingVerifier Opcodes EvmCode Gas EvmMemory Precompiles StakingAbi EvmState EvmGas EvmOps EvmTable Evm EvmWp EvmBytes EvmSafety EvmCalls StateTransition.
Local Open Scope Z_scope.

(** Delegations made, the slots of every account in one list, balances, and what
    the snapshots saved. *)
Record ToyVM := mkToyVM { made : list Delegate; cells : list (Z * Z); bals : Address -> Z; saved : list (list Delegate * list (Z * Z) * (Address -> Z)) }.
Definition add_bal (a : Address) (x : Z) (s : ToyVM) : ToyVM := mkToyVM s.(made) s.(cells) (fun b => s.(bals) b + (if b =? a then x else 0)) s.(saved).
(** Calls the contract of account 11. *)
Definition code_10 : list Z := [96; 0; 96; 0; 54; 96; 0; 96; 11; 90; 250; 0].
(** Passes its input to the staking precompile, without value. *)
Definition code_11 : list Z := [54; 96; 0; 96; 0; 55; 96; 0; 96; 0; 54; 96; 0; 96; 0; 96; 252; 90; 241; 96; 0; 82; 96; 32; 96; 0; 243].
(** Stores 7 at 5. *)
Definition code_12 : list Z := [96; 7; 96; 5; 85; 0].
Definition toy_code (a : Address) : list Z :=
  if a =? 10 then code_10 else if a =? 11 then code_11 else if a =? 12 then code_12 else [].
Definition look (k : Z) (l : list (Z * Z)) : Z := match List.find (fun kv => kv.1 =? k) l with Some kv => kv.2 mod 2 ^ 256 | None => 0 end.
#[export] Instance toy_vm : VMState ToyVM := {|
  CreateAccount := fun _ => mret tt; SubBalance := fun a x => modify (add_bal a (- x)); AddBalance := fun a x => modify (add_bal a x);
  GetBalance := fun a => gets (fun s => s.(bals) a); GetNonce := fun _ => mret 0; SetNonce := fun _ _ => mret tt;
  GetCodeHash := fun a => mret (if (length (toy_code a) =? 0)%nat then 0 else toy_keccak (toy_code a));
  GetCode := fun a => mret (toy_code a); SetCode := fun _ _ _ => mret tt; GetCodeSize := fun a => mret (Z.of_nat (length (toy_code a)));
  AddRefund := fun _ => mret tt; SubRefund := fun _ => mret tt; GetRefund := mret 0;
  GetCommittedState := fun _ _ => mret 0; GetState := fun _ k => gets (fun s => look k s.(cells));
  SetState := fun _ k v => modify (fun s => mkToyVM s.(made) ((k, v) :: s.(cells)) s.(bals) s.(saved));
  Suicide := fun _ => mret true; HasSuicided := fun _ => mret false; Exist := fun _ => mret true; Empty := fun _ => mret false;
  IsValidator := fun _ => mret false;
  RevertToSnapshot := fun i => modify (fun s => match s.(saved) !! Z.to_nat i with Some old => mkToyVM old.1.1 old.1.2 old.2 s.(saved) | None => s end);
  Snapshot := fun s => (mkToyVM s.(made) s.(cells) s.(bals) (s.(saved) ++ [(s.(made), s.(cells), s.(bals))]), Ok (Z.of_nat (length s.(saved))));
  AddLog := fun _ => mret tt; AddPreimage := fun _ _ => mret tt
|}.
#[export] Instance toy_crypto : CryptoLib := {|
  Ecrecover := fun _ _ => Ok (zeros 65); ValidateSignatureValues := fun _ _ _ _ => true; Sum256 := fun _ => zeros 32; Ripemd160 := fun _ => zeros 20;
  Sha3_Sum256 := fun _ => zeros 32; G1 := unit; G2 := unit; G1_Unmarshal := fun _ => Ok tt; G2_Unmarshal := fun _ => Ok tt;
  G1_Marshal := fun _ => zeros 64; G1_Add := fun _ _ => tt; G1_ScalarMult := fun _ _ => tt; PairingCheck := fun _ _ => true;
  blake2b_F := fun _ _ _ _ _ => zeros 8
|}.
#[export] Instance toy_evm_lib : EvmLib := {|
  CreateAddress := fun _ _ => 20; CreateAddress2 := fun _ _ _ => 21; rlp_StakeMsg := fun _ => [1; 2; 3]
|}.
#[export] Instance toy_runtime : GoRuntime := {| growslice := Z.max; growslice_enough := Z.le_max_r |}.

Definition toy_context : Context ToyVM := mkContext ToyVM (fun a v => gets (fun s => v <=? s.(bals) a)) (fun a b v _ => modify (fun s => add_bal b v (add_bal a (- v) s))) (fun _ => 0) (fun _ => 0)
  (fun _ => mret false) 1 1 9 8000000 100 1000000 0 0 SameShardTx (fun _ => mret tt) (fun _ => mret tt)
  (fun d => modify (fun s => mkToyVM (s.(made) ++ [d]) s.(cells) s.(bals) s.(saved))) (fun _ => mret tt) (fun _ => mret tt) 0 2.
Definition toy_env : Env ToyVM := mkEnv _ toy_context MainnetChainConfig (mkVMConfig false false []).
Definition toy_table : JumpTable ToyVM := newIstanbulInstructionSet toy_env.
Definition toy_machine : EVM ToyVM := NewEVM (mkToyVM [] [] (fun _ => 2 ^ 60) []).

Lemma toy_code_ok a : data_ok (toy_code a).
Proof.
  unfold toy_code, data_ok. repeat case_match; (split; [|by vm_compute]); unfold code_10, code_11, code_12;
  repeat (apply Forall_cons; split; [done|]); by apply Forall_nil.
Qed.
Definition positive (f : Address -> Z) : Prop := forall a, 0 <= f a.
Definition toy_ok (s : ToyVM) : Prop := positive s.(bals) /\ Forall (fun old => positive old.2) s.(saved).
Definition toy_funded (a : Address) (v : Z) (s : ToyVM) : Prop := v <= s.(bals) a.
Lemma toy_laws_of_state : state_laws (fun _ => False) toy_env toy_ok toy_funded.
Proof.
  split; intros; unfold meth, wp; cbn; intros; try done; try (split; [done|]); try done.
  all: match goal with Hs : toy_ok ?s |- _ => destruct Hs as [Hb Hold] | _ => idtac end.
  - split; [|done]. split; [|done]. intros b. cbn. specialize (Hb b). unfold nonneg in *. case_match; lia.
  - apply Hb.
  - destruct (_ =? 0)%nat; [done|]. unfold toy_keccak. apply toy_keccak_range.
  - apply toy_code_ok.
  - split; [apply toy_code_ok|]. unfold hash_of. cbn. destruct (toy_code a); [by left|right; by right].
  - unfold look. destruct (List.find _ _); [|done]. apply Z.mod_pos_bound. lia.
  - split; [|done]. split; [done|]. cbn. apply Forall_app. split; [done|]. by apply Forall_singleton.
  - split; [|done]. destruct (saved _ !! _) as [old|] eqn:E; [|done]. split; [|done]. eapply Forall_lookup in Hold; [|exact E]. done.
  - intros Hle. by apply Z.leb_le in Hle.
  - unfold nonneg, toy_funded in *. split; [|done]. intros x. cbn. specialize (Hb x). destruct (Z.eqb_spec x a), (x =? b); subst; lia.
Qed.
Lemma toy_env_ok : env_ok toy_env.
Proof.
  split; try done; try (by intros).
  - intros b. apply toy_keccak_range.
  - intros m. split; [|by vm_compute]. cbn. repeat (apply Forall_cons; split; [done|]). by apply Forall_nil.
Qed.
Lemma zeros_ok n : 0 <= n < 2 ^ 63 -> data_ok (zeros n).
Proof. intros Hn. unfold zeros. split; [by apply Forall_replicate|]. rewrite length_replicate. lia. Qed.
Lemma toy_crypto_ok : crypto_ok.
Proof.
  split; intros; cbn in *; try (by apply zeros_ok); try done. simplify_eq. by apply zeros_ok.
Qed.
Lemma toy_machine_ok : evm_ok toy_ok toy_machine.
Proof. split; [split; [by intros a|by apply Forall_nil]|done| |by apply map_Forall_empty]. split; [by apply Forall_nil|by vm_compute]. Qed.
Lemma toy_table_is : NewEVMInterpreter toy_env = Ok toy_table.
Proof. reflexivity. Qed.
Lemma nil_data_ok' : data_ok [].
Proof. split; [by apply Forall_nil|done]. Qed.

(** ** The theorems at work *)

(** A staking call through two contracts, a thousand units of gas. *)
Definition ask : list Z := stake_call "Delegate" 11 7 500.
Lemma ask_ok : data_ok ask.
Proof.
  unfold data_ok. split; [|by vm_compute]. assert (forallb (fun x => (0 <=? x) && (x <? 256)) ask = true) as E by (vm_compute; reflexivity).
  apply Forall_forall. intros x Hx. apply list_elem_of_In in Hx. apply (proj1 (forallb_forall _ _) E) in Hx. unfold is_byte. lia.
Qed.
Lemma Call_ends_witness :
  match Call toy_env (loop toy_env toy_table 1001) (AccountRef 1) 10 ask 1000 5 toy_machine with
  | (e', Ok r) => evm_ok toy_ok e' /\ same_ctx toy_machine e' /\ 0 <= leftOverGas r <= 1000 /\ data_ok (ret r)
  | (_, Panic w) => (fun _ : string => False) w \/ collision
  | (_, Err _) => False
  end.
Proof.
  apply (Call_ends (fun _ => False) toy_env toy_ok toy_funded toy_table 1001 (AccountRef 1) 10 ask 1000 5 toy_machine);
    [exact toy_laws_of_state|exact toy_env_ok|exact toy_crypto_ok|exact toy_table_is|done|done|exact ask_ok|done|done|exact toy_machine_ok|lia].
Defined.
Lemma code_12_ok : data_ok code_12.
Proof. exact (toy_code_ok 12). Qed.
Lemma Create_ends_witness :
  match Create toy_env (loop toy_env toy_table 1001) (AccountRef 1) code_12 1000 5 toy_machine with
  | (e', Ok (addr, r)) => nonneg addr /\ evm_ok toy_ok e' /\ same_ctx toy_machine e' /\ 0 <= leftOverGas r <= 1000 /\ data_ok (ret r)
  | (_, Panic w) => (fun _ : string => False) w \/ collision
  | (_, Err _) => False
  end.
Proof.
  apply (Create_ends (fun _ => False) toy_env toy_ok toy_funded toy_table 1001 (AccountRef 1) code_12 1000 5 toy_machine);
    [exact toy_laws_of_state|exact toy_env_ok|exact toy_crypto_ok|exact toy_table_is|done|exact code_12_ok|done|done|exact toy_machine_ok|lia].
Defined.

(** ** The write protection and the staking precompile

    A static call of a contract that stores fails; one of a contract that calls
    the staking precompile makes the delegation: [Call] runs the precompile
    with [readOnly] false, whatever the mode of the machine. *)
Definition static_call (a : Address) : EVM ToyVM * outcome CallResult :=
  StaticCall toy_env (loop toy_env toy_table 100) (AccountRef 1) a ask 200000 toy_machine.
Definition state_and_error (r : EVM ToyVM * outcome CallResult) : ToyVM * option (option string) :=
  (r.1.(StateDB), match r.2 with Ok r => Some r.(callErr) | _ => None end).
Example static_call_of_a_store : cells (state_and_error (static_call 12)).1 = [] /\ (state_and_error (static_call 12)).2 = Some (Some errWriteProtection).
Proof. split; vm_compute; reflexivity. Qed.
Example static_call_of_the_precompile : made (state_and_error (static_call 252)).1 = [] /\ (state_and_error (static_call 252)).2 = Some (Some errWriteProtection).
Proof. split; vm_compute; reflexivity. Qed.
Example static_call_delegates : made (state_and_error (static_call 11)).1 = [mkDelegate 11 7 500] /\ (state_and_error (static_call 11)).2 = Some None.
Proof. split; vm_compute; reflexivity. Qed.

(** The last four bytes of a uint32 argument are all that is looked at. *)
Definition far_shard : list Z := pack_call (mkMethod "crossShardTransfer" [mkArgument "value" Uint256Ty; mkArgument "to" AddressTy; mkArgument "toShardID" Uint32Ty])
  [5; 7; 2 ^ 32 + 1].
Example uint32_is_cut : parseCrossShardXferData far_shard = Ok (5, 7, 1).
Proof. vm_compute. reflexivity. Qed.

(** ** Staking calls *)


(** ** Messages on the toy machine

    [ApplyMessage_settles] at concrete messages, and what it comes to when the
    transition is run. *)

(** Two collectors, with three and seven tenths. *)
Definition toy_fees : FeeCollectors := {[ 5 := 3 * 10 ^ 17; 6 := 7 * 10 ^ 17 ]}.
Definition toy_instance : instance := mkInstance 2 10 5 0 OneDec [] [] [] 100 0 localnetAllowlist toy_fees 0 0.
Definition toy_schedule : Schedule :=
  mkSchedule (fun _ => Ok toy_instance) (fun _ => Ok 0) (fun _ => Ok false) (fun _ => Ok 0) 0 TestNet (fun _ _ => []) (fun _ _ => Ok false) 1.
(** A call of the contract that stores, at a price of 3. *)
Definition toy_message : Message := mkMessage 1 (Some 12) 3 50000 0 0 true [] SameShardTx.

Lemma toy_ledger : ledger_laws (fun _ => False) toy_ok bals.
Proof.
  split; intros; unfold wp; cbn; match goal with Hs : toy_ok _ |- _ => destruct Hs as [Hb Hold] end; try done.
  - split; [|done]. split; [|done]. intros b. cbn. specialize (Hb b). case_match; lia.
  - split; [|done]. split; [|done]. intros b. cbn. specialize (Hb b). destruct (Z.eqb_spec b a); subst; lia.
Qed.
Definition toy_fuel : nat := Z.to_nat 50001.
Lemma toy_fuel_is : Z.of_nat toy_fuel = 50001.
Proof. by apply Z2Nat.id. Qed.
Lemma toy_message_ok : message_ok toy_fuel toy_message.
Proof. split; cbn [mFrom mGas mGasPrice mValue mData toy_message to mTo default]; try done; by rewrite toy_fuel_is. Qed.
Lemma toy_collectors_ok : collectors_ok toy_env toy_schedule.
Proof.
  intros _. exists toy_instance. split; [done|]. cbn [feeCollectors toy_instance]. intros k p Hk. unfold toy_fees in Hk.
  apply lookup_insert_Some in Hk as [[_ <-]|[_ Hk]]; [by vm_compute|]. apply lookup_singleton_Some in Hk as [_ <-]. by vm_compute.
Qed.
Lemma ApplyMessage_settles_witness :
  match ApplyMessage toy_env (loop toy_env toy_table toy_fuel) toy_schedule toy_message toy_machine 8000000 with
  | (t', Ok (inl r)) => settled toy_env toy_ok bals toy_table toy_fuel toy_schedule toy_message (NewStateTransition toy_machine 8000000) r t'
  | (t', Ok (inr _)) => 8000000 - mGas toy_message <= gp t' <= 8000000
  | (_, Panic w) => (fun _ : string => False) w \/ collision
  | (_, Err _) => False
  end.
Proof.
  apply (ApplyMessage_settles (fun _ => False) toy_env toy_ok toy_funded bals toy_laws_of_state toy_ledger toy_env_ok toy_crypto_ok toy_table toy_table_is toy_fuel
    toy_schedule toy_message toy_message_ok toy_collectors_ok toy_machine 8000000 toy_machine_ok). done.
Defined.

(** ** Runs *)

Definition outcome_of (m : Message) : outcome (ExecutionResult + string) * Z * list Z :=
  let '(t, r) := ApplyMessage toy_env (loop toy_env toy_table 100) toy_schedule m toy_machine 8000000 in
  (r, gp t, map (fun a => bals (StateDB (evm t)) a - 2 ^ 60) [1; 5; 6; 9]).
(** 21000 units for the message, 6 for two PUSHes, 20000 for the new slot.  Of
    the fee of 123018 one unit is lost between the two collectors. *)
Example applied : outcome_of toy_message = (Ok (inl (mkResult [] 41006 None)), 8000000 - 41006, [-123018; 36905; 86112; 0]).
Proof. vm_compute. reflexivity. Qed.
(** A wrong nonce, too little gas for the message itself. *)
Example refused : outcome_of (mkMessage 1 (Some 12) 3 50000 0 7 true [] SameShardTx) = (Ok (inr ErrNonceTooHigh), 8000000, [0; 0; 0; 0]) /\
  outcome_of (mkMessage 1 (Some 12) 3 20000 0 0 true [] SameShardTx) = (Ok (inr ErrIntrinsicGas), 8000000 - 20000, [-60000; 0; 0; 0]) /\
  outcome_of (mkMessage 1 (Some 12) 3 9000000 0 0 true [] SameShardTx) = (Ok (inr ErrGasLimitReached), 8000000, [0; 0; 0; 0]).
Proof. split; [|split]; vm_compute; reflexivity. Qed.
