(* ===== verification/Election.v ===== *)
(** * Electing the committees of an epoch (shard/committee/assignment.go)

    Before staking the committees are tables of accounts.  With staking every
    shard gets its operated nodes and the winners of the auction whose keys fall
    on it; if nobody wins, the committees of the previous epoch serve again.

    [ReadShardState] hands out the chain's cached state, so a committee that is
    read is the cache's entry ([Cached]) and setting its epoch changes the
    entry.  Deserialising a key from its hexadecimal text and parsing an address
    are parameters; the orders are a map, walked in any order. *)
From S2P Require Import Prelude Dec Params Sharding Networks Bls Shard Delegation Effective Validator Availability.
Local Open Scope Z_scope.

(** [DeserializeHexStr] is the BLS library's; [ParseAddr] of internal/common
    decodes bech32. *)
Class AccountLib (L : BLSLib) := {
  DeserializeHexStr : string -> outcome PublicKey;
  ParseAddr : string -> outcome Address
}.

Definition ErrComputeForEpochInPast : string := "cannot compute for epoch in past".

Section assignment.
Context {L : BLSLib} {A : AccountLib L} {W : Walk}.

(** [SerializedPublicKey.FromLibBLSPublicKey]. *)
Definition FromLibBLSPublicKey (key : PublicKey) : outcome SerializedPublicKey :=
  let bytes := pk_Serialize key in
  if negb (length bytes =? PublicKeySizeInBytes)%nat then Err "key size (BLS) size mismatch" else Ok (be_value bytes).
Definition key_of_account (a : DeployAccount) : outcome SerializedPublicKey :=
  let! pub := DeserializeHexStr a.(daBLSPublicKey) in FromLibBLSPublicKey pub.

(** What is asked of the chain. *)
Record DataProvider := mkProvider {
  CurrentBlock_Epoch : Z;
  CurrentHeader_Epoch : Z;
  StateAt : outcome (option unit);     (* of the current block's root; the state may be nil *)
  ValidatorCandidates : list Address;
  ReadValidatorInformationAtState : Address -> outcome ValidatorWrapper;
  ReadValidatorSnapshot : Address -> outcome ValidatorSnapshot;
  Config : ChainConfig;
  is_testnet : bool                    (* the default configuration's network type *)
}.
(** The cached shard states. *)
Notation ShardStates := (gmap Z State).
Context (Schedule : Schedule).

(** ** The candidates *)

Definition IsEligibleForEPoSAuction (snapshot : ValidatorSnapshot) (v : ValidatorWrapper) : outcome bool :=
  let active := bool_decide (v.(validator).(Status) = Active) in
  match snapshot.(snapEpoch) with
  | None => Panic nil_deref
  | Some epoch =>
      if v.(validator).(LastEpochInCommittee) =? epoch then
        let! computed := ComputeCurrentSigning snapshot.(snapValidator) v in
        Ok (if computed.(IsBelowThreshold) then false else active)
      else Ok active
  end.

(** The keys already taken, whether one of the validator's was, the slots used
    on each shard and the keys that are kept. *)
Record KeyScan := mkScan { blsKeys : gset SerializedPublicKey; found : bool; shardSlotsCount : list Z; slotPubKeysLimited : list SerializedPublicKey }.
Definition scan_key (slotsLimit shardCount : Z) (s : KeyScan) (key : SerializedPublicKey) : outcome KeyScan :=
  if decide (key ∈ s.(blsKeys)) then Ok (mkScan s.(blsKeys) true s.(shardSlotsCount) s.(slotPubKeysLimited))
  else
    let! shard := Big.Mod key shardCount in
    let! n := idx s.(shardSlotsCount) shard in
    let limited := if (slotsLimit =? 0) || (n <? slotsLimit) then s.(slotPubKeysLimited) ++ [key] else s.(slotPubKeysLimited) in
    let! counts := upd s.(shardSlotsCount) shard (n + 1) in
    Ok (mkScan ({[key]} ∪ s.(blsKeys)) s.(found) counts limited).
Definition scan_keys (slotsLimit shardCount : Z) (taken : gset SerializedPublicKey) (keys : list SerializedPublicKey) : outcome KeyScan :=
  if shardCount <? 0 then Panic "makeslice: len out of range"
  else foldM (scan_key slotsLimit shardCount) keys (mkScan taken false (replicate (Z.to_nat shardCount) 0) []).

(** The keys taken, the orders and the stake so far. *)
Definition Orders : Type := gset SerializedPublicKey * gmap Address SlotOrder * Z.
Definition order_of (reader : DataProvider) (slotsLimit shardCount : Z) (acc : Orders) (candidate : Address) : outcome Orders :=
  let '(taken, essentials, totalStaked) := acc in
  let! v := ReadValidatorInformationAtState reader candidate in
  let! snapshot := ReadValidatorSnapshot reader candidate in
  let! eligible := IsEligibleForEPoSAuction snapshot v in
  if negb eligible then Ok acc
  else
    let! scan := scan_keys slotsLimit shardCount taken v.(validator).(SlotPubKeys) in
    if scan.(found) then Ok (scan.(blsKeys), essentials, totalStaked)
    else
      let validatorStake := TotalDelegation v in
      Ok (scan.(blsKeys), <[v.(validator).(vAddress) := mkOrder validatorStake scan.(slotPubKeysLimited) ZeroDec]> essentials, totalStaked + validatorStake).
Definition set_percentage (totalStaked : Dec) (essentials : gmap Address SlotOrder) (ao : Address * SlotOrder) : outcome (gmap Address SlotOrder) :=
  let! p := Dec.Quo (NewDecFromBigInt ao.2.(Stake)) totalStaked in
  Ok (<[ao.1 := mkOrder ao.2.(Stake) ao.2.(SpreadAmong) p]> essentials).
(** The keys of Intelchain's own nodes; one that cannot be read is skipped. *)
Definition operated_keys (accounts : list DeployAccount) : gset SerializedPublicKey :=
  list_to_set (omap (fun a => match key_of_account a with Ok k => Some k | _ => None end) accounts).
Definition prepareOrders (reader : DataProvider) (slotsLimit shardCount : Z) : outcome (gmap Address SlotOrder) :=
  let! instance := InstanceForEpoch Schedule (Some reader.(CurrentBlock_Epoch)) in
  let taken := operated_keys (ItcAccounts instance) in
  match reader.(StateAt) with
  | Panic w => Panic w
  | Err e => Err e
  | Ok None => Ok ∅     (* errors.Wrapf of a nil error is nil *)
  | Ok (Some _) =>
      let! '(_, essentials, totalStaked) := foldM (order_of reader slotsLimit shardCount) reader.(ValidatorCandidates) (taken, ∅, 0) in
      foldM (set_percentage (NewDecFromBigInt totalStaked)) (walk essentials) essentials
  end.

(** ** The auction *)

Record CandidateOrder := mkCandidateOrder { coOrder : SlotOrder; StakePerKey : Z; coValidator : Address }.
Record CompletedEPoSRound := mkRound {
  MedianStake : Dec; MaximumExternalSlot : Z; AuctionWinners : list SlotPurchase; AuctionCandidates : list CandidateOrder
}.
Definition candidate_order (ao : Address * SlotOrder) : CandidateOrder :=
  let l := Z.of_nat (length ao.2.(SpreadAmong)) in
  mkCandidateOrder ao.2 (if 0 <? l then ao.2.(Stake) / l else 0) ao.1.
Definition NewEPoSRound (epoch : Z) (reader : DataProvider) (isExtendedBound : bool) (slotsLimit shardCount : Z) : outcome CompletedEPoSRound :=
  let! eligibleCandidate := prepareOrders reader slotsLimit shardCount in
  let! maxExternalSlots := ExternalSlotsAvailableForEpoch Schedule (Some epoch) in
  let! '(median, winners) := Effective.Apply eligibleCandidate maxExternalSlots isExtendedBound in
  Ok (mkRound median maxExternalSlots winners (map candidate_order (walk eligibleCandidate))).

(** ** Committees *)

(** The slot of an account; [strict] is false before staking, when an unreadable
    key is taken as it is, without an error. *)
Definition account_slot (strict : bool) (a : DeployAccount) : outcome Slot :=
  let! pubKey :=
    (match key_of_account a with
     | Panic w => Panic w
     | Err e => if strict then Err e
                else match DeserializeHexStr a.(daBLSPublicKey) with
                     | Ok _ => Ok 0     (* its length is wrong: pubKey stays zero *)
                     | _ => match FromLibBLSPublicKey pk_zero with Ok k => Ok k | _ => Ok 0 end
                     end
     | Ok k => Ok k
     end) in
  let! addr := ParseAddr a.(daAddress) in
  Ok (mkSlot addr pubKey None).
(** [n] accounts of a table for the shard [i]: every [shardNum]-th one. *)
Definition account_slots (strict : bool) (accounts : list DeployAccount) (i shardNum n : Z) : outcome SlotList :=
  mapM (fun j => let! a := idx accounts (i + j * shardNum) in account_slot strict a) (seqZ 0 n).
Definition preStakingEnabledCommittee (s : instance) : outcome State :=
  let shardNum := NumShards s in
  let! shards := mapM (fun i =>
    let! operated := account_slots false (ItcAccounts s) i shardNum (NumIntelchainOperatedNodesPerShard s) in
    let! runners := account_slots false (FnAccounts s) i shardNum (NumNodesPerShard s - NumIntelchainOperatedNodesPerShard s) in
    Ok (mkCommittee (u32 i) (operated ++ runners))) (seqZ 0 shardNum) in
  Ok (mkState None shards).

Definition add_winner (shardCount : Z) (shards : list Committee) (w : SlotPurchase) : outcome (list Committee) :=
  let! shardID := Big.Mod w.(Key) shardCount in
  let! com := idx shards shardID in
  upd shards shardID (mkCommittee com.(ShardID) (com.(Slots) ++ [mkSlot w.(Addr) w.(Key) (Some w.(EPoSStake))])).
(** A committee that was computed, or the cache's entry of an epoch. *)
Inductive SuperCommittee := Computed_ (s : State) | Cached (epoch : Z).
Definition eposStakedCommittee (epoch : Z) (s : instance) (reader : DataProvider) (states : ShardStates) : outcome SuperCommittee :=
  let shardCount := NumShards s in
  let! shards := mapM (fun i =>
    let! slots := account_slots true (ItcAccounts s) i shardCount (NumIntelchainOperatedNodesPerShard s) in
    Ok (mkCommittee (u32 i) slots)) (seqZ 0 shardCount) in
  let! round := NewEPoSRound epoch reader (IsEPoSBound35 reader.(Config) (Some epoch)) (SlotsLimit s) shardCount in
  let! shards := foldM (add_winner shardCount) round.(AuctionWinners) shards in
  match round.(AuctionWinners) with
  | [] =>
      let! instance := InstanceForEpoch Schedule (Some epoch) in
      let! preInstance := InstanceForEpoch Schedule (Some (epoch - 1)) in
      if reader.(is_testnet) && negb (NumShards preInstance =? NumShards instance) then Ok (Computed_ (mkState None shards))
      else match states !! (epoch - 1) with Some _ => Ok (Cached (epoch - 1)) | None => Err "no shard state" end
  | _ => Ok (Computed_ (mkState None shards))
  end.

Definition ReadFromDB (epoch : Z) (states : ShardStates) : outcome State :=
  match states !! epoch with Some s => Ok s | None => Err "no shard state" end.
(** The super-committee and the cache afterwards; without a reader the
    computation is that before staking. *)
Definition Compute (epoch : Z) (reader : option DataProvider) (states : ShardStates) : outcome (State * ShardStates) :=
  let staking := match reader with Some r => if IsStaking r.(Config) (Some epoch) then Some r else None | None => None end in
  let! instance := InstanceForEpoch Schedule (Some epoch) in
  match staking with
  | None => let! s := preStakingEnabledCommittee instance in Ok (s, states)
  | Some reader =>
      if epoch <? reader.(CurrentHeader_Epoch) then Err ErrComputeForEpochInPast
      else
        let! com := eposStakedCommittee epoch instance reader states in
        match com with
        | Computed_ s => Ok (mkState (Some epoch) s.(Shards), states)
        | Cached e =>
            match states !! e with
            | Some s => let s := mkState (Some epoch) s.(Shards) in Ok (s, <[e := s]> states)
            | None => Panic nil_deref
            end
        end
  end.
End assignment.

(** ** Elections are fair

    [prepareOrders] gives every eligible validator the keys that nobody else has
    offered, at most the limit on each shard; [Effective.Apply] sells the slots,
    and every winner is put on the shard its key falls on.  A concrete election
    is at the end. *)

(** ** Lists *)

Lemma mapM_outcome {A B} (f : A -> outcome B) l : (forall x, x ∈ l -> exists y, f x = Ok y) ->
  exists ys, mapM f l = Ok ys /\ Forall2 (fun x y => f x = Ok y) l ys.
Proof.
  induction l as [|x l IH]; intros Hf; [by exists []; split; [|constructor]|].
  destruct (Hf x) as [y Hy]; [by left|]. destruct IH as (ys & E & HF); [intros z Hz; apply Hf; by right|].
  exists (y :: ys). split; [|by constructor]. cbn [mapM]. rewrite Hy. cbn [mbind outcome_bind]. by rewrite E.
Qed.
(** Lists of disjoint lists without repetitions. *)
Lemma NoDup_concat_map {A B} (f : A -> list B) l : NoDup l -> (forall x, x ∈ l -> NoDup (f x)) ->
  (forall x y b, x ∈ l -> y ∈ l -> b ∈ f x -> b ∈ f y -> x = y) -> NoDup (concat (map f l)).
Proof.
  induction 1 as [|x l Hx Hl IH]; intros Hf Hd; [constructor|]. cbn [map concat]. apply NoDup_app. split_and!.
  - apply Hf. by left.
  - intros b Hb Hb'. apply list_elem_of_In, in_concat in Hb' as (bs & Hbs & Hb'). apply in_map_iff in Hbs as (y & <- & Hy).
    apply list_elem_of_In in Hy, Hb'. rewrite (Hd x y b) in Hx; [done|by left|by right|done|done].
  - apply IH; [intros y Hy; apply Hf; by right|]. intros y z b Hy Hz. apply Hd; by right.
Qed.

Section safety.
Context {L : BLSLib} {A : AccountLib L} {W : Walk} (Schedule : Schedule).
Context (reader : DataProvider) (limit n : Z) (Hn : 0 < n) (Hlimit : 0 <= limit).
Notation on_shard j := (fun k : SerializedPublicKey => k mod n = j).

(** ** Scanning a validator's keys *)

Definition shard_count (j : Z) (l : list SerializedPublicKey) : Z := Z.of_nat (length (filter (on_shard j) l)).
Lemma shard_count_snoc j l key : shard_count j (l ++ [key]) = shard_count j l + if decide (key mod n = j) then 1 else 0.
Proof. unfold shard_count. rewrite filter_app, length_app, Nat2Z.inj_add. f_equal. unfold filter. cbn. by destruct (decide _). Qed.

Section scan.
Context (taken : gset SerializedPublicKey).
Record scan_inv (d : list SerializedPublicKey) (s : KeyScan) : Prop := {
  si_keys : s.(blsKeys) = taken ∪ list_to_set d;
  si_counts : Z.of_nat (length s.(shardSlotsCount)) = n;
  si_limited : NoDup s.(slotPubKeysLimited) /\ forall k, k ∈ s.(slotPubKeysLimited) -> k ∈ d /\ k ∉ taken;
  si_slots : forall j c, 0 <= j -> s.(shardSlotsCount) !! Z.to_nat j = Some c ->
    0 <= c /\ shard_count j s.(slotPubKeysLimited) <= c /\
    (limit <> 0 -> shard_count j s.(slotPubKeysLimited) <= limit)
}.
Lemma mod_range k : 0 <= k mod Z.abs n < n.
Proof. rewrite Z.abs_eq by lia. apply Z.mod_pos_bound. lia. Qed.
Lemma scan_key_inv d key s : scan_inv d s -> exists s', scan_key limit n s key = Ok s' /\ scan_inv (d ++ [key]) s'.
Proof.
  intros [Hk Hc [Hnd Hl] Hs]. unfold scan_key. destruct (decide (key ∈ blsKeys s)) as [Hin|Hin].
  { eexists. split; [done|]. split; cbn; [|done| |done].
    - rewrite Hk in *. set_solver.
    - split; [done|]. intros k Hkl. destruct (Hl k Hkl). split; [set_solver|done]. }
  unfold Big.Mod. destruct (Z.eqb_spec n 0); [lia|]. cbn [mbind outcome_bind]. pose proof (mod_range key) as Hm.
  set (j := key mod Z.abs n) in *. destruct (idx_total (shardSlotsCount s) j) as [c Ec]; [lia|]. rewrite Ec. cbn [mbind outcome_bind].
  apply idx_inv in Ec as [Hj Ec]. rewrite upd_Ok by lia. cbn [mbind outcome_bind]. eexists. split; [done|].
  assert (key ∉ taken /\ key ∉ d) as [Ht Hd] by (rewrite Hk in Hin; set_solver).
  assert (key ∉ slotPubKeysLimited s) as Hnew by (intros Hkl; by destruct (Hl key Hkl)).
  assert (key mod n = j) as Ej by (unfold j; by rewrite Z.abs_eq by lia).
  split; cbn.
  - rewrite Hk. set_solver.
  - by rewrite length_insert.
  - destruct (_ || _); [|split; [done|]; intros k Hkl; destruct (Hl k Hkl); split; [set_solver|done]].
    split; [apply NoDup_app; split_and!; [done|set_solver|apply NoDup_singleton]|]. intros k [Hkl| ->%list_elem_of_singleton]%elem_of_app; [|set_solver].
    destruct (Hl k Hkl). split; [set_solver|done].
  - intros i c' Hi0 Hi. destruct (decide (i = j)) as [->|Hne].
    + rewrite list_lookup_insert_eq in Hi by (apply lookup_lt_Some in Ec; done). injection Hi as <-. destruct (Hs _ _ Hi0 Ec) as (H0 & H1 & H2).
      split; [lia|]. destruct (_ || _) eqn:Eb; [|split; [lia|done]].
      rewrite shard_count_snoc, decide_True by done. split; [lia|]. intros Hnz. apply orb_true_iff in Eb as [Eb|Eb]; [lia|].
      apply Z.ltb_lt in Eb. lia.
    + rewrite list_lookup_insert_ne in Hi by lia. destruct (Hs _ _ Hi0 Hi) as (H0 & H1 & H2). split; [done|]. destruct (_ || _); [|done].
      rewrite shard_count_snoc, decide_False by lia. by rewrite Z.add_0_r.
Qed.
Lemma scan_keys_ok keys : exists s, scan_keys limit n taken keys = Ok s /\ scan_inv keys s.
Proof.
  unfold scan_keys. destruct (Z.ltb_spec n 0); [lia|]. apply (foldM_total scan_inv).
  - split; cbn; [set_solver|rewrite length_replicate; lia|split; [apply NoDup_nil; exact I|set_solver]|]. intros j c _ Hj. apply lookup_replicate in Hj as [-> _]. unfold shard_count. cbn. lia.
  - intros d key rest s _ Hs. by apply scan_key_inv.
Qed.
End scan.

(** ** The orders *)

(** What can be read of a candidate. *)
Record readable (c : Address) (v : ValidatorWrapper) (snapshot : ValidatorSnapshot) : Prop := {
  rd_wrapper : ReadValidatorInformationAtState reader c = Ok v;
  rd_snapshot : ReadValidatorSnapshot reader c = Ok snapshot
}.
(** A candidate's counters, epoch and stake are within their bounds. *)
Record candidate_ok (v : ValidatorWrapper) (snapshot : ValidatorSnapshot) : Prop := {
  co_epoch : is_Some snapshot.(snapEpoch);
  co_signed : 0 <= v.(Counters).(NumBlocksSigned) - snapshot.(snapValidator).(Counters).(NumBlocksSigned)
                <= v.(Counters).(NumBlocksToSign) - snapshot.(snapValidator).(Counters).(NumBlocksToSign);
  co_tosign : v.(Counters).(NumBlocksToSign) - snapshot.(snapValidator).(Counters).(NumBlocksToSign) <= 10 ^ 17;
  co_stake : 0 < TotalDelegation v < 2 ^ 200
}.
Context (Hcandidates : forall c, c ∈ ValidatorCandidates reader -> exists v snapshot, readable c v snapshot /\ candidate_ok v snapshot).

Lemma eligible_total v snapshot : candidate_ok v snapshot -> exists b, IsEligibleForEPoSAuction snapshot v = Ok b.
Proof.
  intros [[e He] Hs Ht _]. unfold IsEligibleForEPoSAuction. rewrite He. destruct (_ =? e); [|by eexists]. unfold ComputeCurrentSigning.
  set (signed := _ - _) in *. set (toSign := NumBlocksToSign _ - _) in *. destruct (Z.eqb_spec toSign 0); [by eexists|].
  destruct (signing_quotient signed toSign) as (q & Hq & _); [done|lia|]. rewrite Hq. by eexists.
Qed.

(** An order of one of the candidates [d]. *)
Record order_ok (d : list Address) (a : Address) (o : SlotOrder) : Prop := {
  or_candidate : exists c v snapshot, c ∈ d /\ readable c v snapshot /\ candidate_ok v snapshot /\ IsEligibleForEPoSAuction snapshot v = Ok true /\
    v.(validator).(vAddress) = a /\ o.(Stake) = TotalDelegation v /\ (forall k, k ∈ o.(SpreadAmong) -> k ∈ v.(validator).(SlotPubKeys));
  or_keys : NoDup o.(SpreadAmong);
  or_limit : limit <> 0 -> forall j, 0 <= j < n -> shard_count j o.(SpreadAmong) <= limit
}.
Lemma order_ok_mono d d' a o : (forall c, c ∈ d -> c ∈ d') -> order_ok d a o -> order_ok d' a o.
Proof. intros Hd [(c & v & s & Hc & Hr) Hk Hl]. split; [|done|done]. exists c, v, s. split; [by apply Hd|done]. Qed.
Record orders_ok (taken0 : gset SerializedPublicKey) (d : list Address) (acc : Orders) : Prop := {
  oo_taken : forall k, k ∈ taken0 -> k ∈ acc.1.1;
  oo_orders : forall a o, acc.1.2 !! a = Some o -> order_ok d a o /\ o.(Stake) <= acc.2 /\ forall k, k ∈ o.(SpreadAmong) -> k ∈ acc.1.1 /\ k ∉ taken0;
  oo_total : 0 <= acc.2;
  oo_disjoint : forall a b oa ob k, acc.1.2 !! a = Some oa -> acc.1.2 !! b = Some ob -> k ∈ oa.(SpreadAmong) -> k ∈ ob.(SpreadAmong) -> a = b
}.
Lemma orders_ok_mono taken0 d d' taken taken' ess tot : (forall c, c ∈ d -> c ∈ d') -> (forall k, k ∈ taken -> k ∈ taken') ->
  orders_ok taken0 d (taken, ess, tot) -> orders_ok taken0 d' (taken', ess, tot).
Proof.
  intros Hd Ht [H1 H2 H3 H4]. split; cbn in *; [auto| |done|done]. intros a o Ha. destruct (H2 a o Ha) as (Ho & Hs & Hk).
  split; [by eapply order_ok_mono|]. split; [done|]. intros k Hkk. destruct (Hk k Hkk). split; [by apply Ht|done].
Qed.
Lemma order_of_ok taken0 d c acc : c ∈ ValidatorCandidates reader -> orders_ok taken0 d acc ->
  exists acc', order_of reader limit n acc c = Ok acc' /\ orders_ok taken0 (d ++ [c]) acc'.
Proof.
  intros Hc. destruct acc as [[taken ess] tot]. intros Hacc. destruct (Hcandidates c Hc) as (v & snap & [Hv Hsnap] & Hok). unfold order_of. rewrite Hv, Hsnap.
  cbn [mbind outcome_bind]. destruct (eligible_total v snap Hok) as [b Eb]. rewrite Eb. cbn [mbind outcome_bind].
  assert (forall x, x ∈ d -> x ∈ d ++ [c]) as Hd by (intros x Hx; apply elem_of_app; by left).
  destruct b; cbn [negb]; [|eexists; split; [done|]; by eapply orders_ok_mono].
  destruct (scan_keys_ok taken (SlotPubKeys (validator v))) as (s & Es & [Hkeys Hcounts [Hnd Hl] Hslots]). rewrite Es. cbn [mbind outcome_bind].
  assert (forall k, k ∈ taken -> k ∈ blsKeys s) as Ht by (rewrite Hkeys; set_solver).
  destruct (found s); [eexists; split; [done|]; by eapply orders_ok_mono|]. eexists. split; [done|].
  destruct (orders_ok_mono taken0 d (d ++ [c]) taken (blsKeys s) ess tot Hd Ht Hacc) as [H1 H2 H3 H4]. destruct Hacc as [H1' H2' _ _]. cbn in *.
  pose proof (co_stake _ _ Hok) as Hstake.
  assert (forall b o k, ess !! b = Some o -> k ∈ SpreadAmong o -> k ∉ slotPubKeysLimited s) as Hfresh.
  { intros b o k Hb Hk Hkl. destruct (H2' b o Hb) as (_ & _ & Hin). destruct (Hin k Hk) as [Hkt _]. by destruct (Hl k Hkl). }
  split; cbn [fst snd]; [done| |lia|].
  - intros a o [[<- <-]|[Hne Ha]]%lookup_insert_Some.
    + split; [|split; [cbn; lia|]].
      * split; cbn; [|done|].
        -- exists c, v, snap. split; [apply elem_of_app; right; by apply list_elem_of_singleton|]. split_and!; try done. intros k Hk. by destruct (Hl k Hk).
        -- intros Hnz j Hj. destruct (lookup_lt_is_Some_2 (shardSlotsCount s) (Z.to_nat j)) as [m Em]; [lia|]. destruct (Hslots j m) as (_ & _ & Hx); [lia|done|]. by apply Hx.
      * cbn. intros k Hk. destruct (Hl k Hk) as [Hk1 Hk2]. split; [rewrite Hkeys; set_solver|]. intros Hk0. by apply Hk2, H1'.
    + destruct (H2 a o Ha) as (Ho & Hs & Hk). split; [done|]. split; [lia|done].
  - intros a b oa ob k [[<- <-]|[Ha1 Ha]]%lookup_insert_Some [[<- <-]|[Hb1 Hb]]%lookup_insert_Some; cbn; intros Hka Hkb; try done.
    + by destruct (Hfresh b ob k).
    + by destruct (Hfresh a oa k).
    + by eapply H4.
Qed.

(** Percentages change nothing else. *)
Definition same_order (o o' : SlotOrder) : Prop := o'.(Stake) = o.(Stake) /\ o'.(SpreadAmong) = o.(SpreadAmong).
Lemma percentages_ok (ess : gmap Address SlotOrder) tot : (forall a o, ess !! a = Some o -> 0 < o.(Stake) <= tot) ->
  exists ess', foldM (set_percentage (NewDecFromBigInt tot)) (walk ess) ess = Ok ess' /\
    forall a, option_relation same_order (fun _ => False) (fun _ => False) (ess !! a) (ess' !! a).
Proof.
  intros Hst. apply (foldM_total (fun _ m => forall a, option_relation same_order (fun _ => False) (fun _ => False) (ess !! a) (m !! a))).
  - intros a. destruct (ess !! a); cbn; by try split.
  - intros d [a o] rest m El Hm. assert (ess !! a = Some o) as Ha by (apply elem_of_walk; rewrite El; apply elem_of_app; right; by left).
    pose proof (Hst a o Ha) as Hs. unfold set_percentage. cbn [fst snd]. pose proof precisionReuse_pos.
    destruct (Quo_fraction (NewDecFromBigInt (Stake o)) (NewDecFromBigInt tot)) as (q & Hq & _); [unfold NewDecFromBigInt; nia..|].
    rewrite Hq. cbn [mbind outcome_bind]. eexists. split; [done|]. intros b. destruct (decide (b = a)) as [->|Hne].
    + rewrite lookup_insert_eq, Ha. by split.
    + rewrite lookup_insert_ne by done. apply Hm.
Qed.

(** Orders that share no key, from eligible candidates. *)
Record fair_orders (taken0 : gset SerializedPublicKey) (orders : gmap Address SlotOrder) : Prop := {
  fo_order a o : orders !! a = Some o -> order_ok (ValidatorCandidates reader) a o /\ forall k, k ∈ o.(SpreadAmong) -> k ∉ taken0;
  fo_disjoint a b oa ob k : orders !! a = Some oa -> orders !! b = Some ob -> k ∈ oa.(SpreadAmong) -> k ∈ ob.(SpreadAmong) -> a = b
}.
Lemma prepareOrders_ok current : InstanceForEpoch Schedule (Some (CurrentBlock_Epoch reader)) = Ok current -> StateAt reader = Ok (Some tt) ->
  exists orders, prepareOrders Schedule reader limit n = Ok orders /\ fair_orders (operated_keys (ItcAccounts current)) orders.
Proof.
  intros Hi Hs. unfold prepareOrders. rewrite Hi, Hs. cbn [mbind outcome_bind]. set (taken0 := operated_keys _).
  destruct (foldM_total (orders_ok taken0) (order_of reader limit n) (ValidatorCandidates reader) (taken0, ∅, 0)) as ([[taken ess] tot] & E & [_ Ho _ Hd]).
  - split; cbn; [done|by intros a o|done|by intros a b oa ob k].
  - intros d c rest acc El Hacc. apply order_of_ok; [|done]. rewrite El. apply elem_of_app. right. by left.
  - rewrite E. cbn [mbind outcome_bind]. cbn in *. destruct (percentages_ok ess tot) as (ess' & E' & Hsame).
    { intros a o Ha. destruct (Ho a o Ha) as ([(c & v & sn & _ & _ & Hok & _ & _ & Est & _) _ _] & Hle & _). destruct (co_stake _ _ Hok). lia. }
    exists ess'. split; [done|]. assert (forall a o, ess' !! a = Some o -> exists o0, ess !! a = Some o0 /\ same_order o0 o) as Hback.
    { intros a o Ha. specialize (Hsame a). rewrite Ha in Hsame. destruct (ess !! a) as [o0|]; [by exists o0|done]. }
    split.
    + intros a o Ha. destruct (Hback a o Ha) as (o0 & H0 & Est & Esp). destruct (Ho a o0 H0) as ([(c & v & sn & Hr) Hnd Hl] & _ & Hk).
      split; [split; rewrite ?Esp; [|done|done]|rewrite Esp; intros k Hkk; by apply Hk]. exists c, v, sn. by rewrite Est.
    + intros a b oa ob k Ha Hb. destruct (Hback a oa Ha) as (a0 & Ha0 & _ & ->). destruct (Hback b ob Hb) as (b0 & Hb0 & _ & ->). by apply Hd.
Qed.

(** ** The winners *)

Lemma NoDup_map_filter {B C} (f : B -> C) (P : B -> Prop) `{forall x, Decision (P x)} l : NoDup (map f l) -> NoDup (map f (filter P l)).
Proof.
  induction l as [|x l IH]; [done|]. cbn [map]. intros [Hx Hl]%NoDup_cons. rewrite filter_cons. destruct (decide (P x)); [|by apply IH].
  cbn [map]. apply NoDup_cons. split; [|by apply IH]. intros (y & Ey & [_ Hy]%list_elem_of_filter)%list_elem_of_fmap. apply Hx. rewrite Ey. by apply list_elem_of_fmap_2.
Qed.
Lemma NoDup_count (P : SerializedPublicKey -> Prop) `{forall x, Decision (P x)} l l' : NoDup l -> (forall k, k ∈ l -> k ∈ l') -> (length (filter P l) <= length (filter P l'))%nat.
Proof.
  intros Hnd Hl. apply submseteq_length, NoDup_submseteq; [by apply NoDup_filter|]. intros k [Hp Hk]%list_elem_of_filter. apply list_elem_of_filter. auto.
Qed.

(** The keys of the bids are those of the orders. *)
Lemma keys_of_bids ao : map Key (bids_of ao) = SpreadAmong ao.2.
Proof. unfold bids_of. rewrite map_map. cbn. apply map_id. Qed.
Lemma keys_of_all_bids l : map Key (concat (map bids_of l)) = concat (map (fun ao => SpreadAmong ao.2) l).
Proof. rewrite concat_map, map_map. f_equal. apply map_ext. apply keys_of_bids. Qed.
Lemma elem_of_bids (orders : gmap Address SlotOrder) b : b ∈ concat (map bids_of (map_to_list orders)) ->
  exists o, orders !! b.(Addr) = Some o /\ b.(Key) ∈ o.(SpreadAmong).
Proof.
  intros (bs & Hbs & Hb)%list_elem_of_In%in_concat. apply in_map_iff in Hbs as ([a o] & <- & Ho%list_elem_of_In%elem_of_map_to_list).
  apply in_map_iff in Hb as (k & <- & Hk%list_elem_of_In). by exists o.
Qed.

(** The auction is one of the eligible validators' keys, nobody's key is sold
    twice or is an operated node's, and nobody has more than the limit on a shard. *)
Record fair_winners (taken0 : gset SerializedPublicKey) (slots : Z) (ext : bool) (median : Dec) (winners : list SlotPurchase) : Prop := {
  fw_auction : exists orders, fair_orders taken0 orders /\ auction_result (concat (map bids_of (map_to_list orders))) slots ext median winners;
  fw_keys : NoDup (map Key winners);
  fw_owner w : w ∈ winners -> w.(Key) ∉ taken0 /\ exists c v snapshot, c ∈ ValidatorCandidates reader /\ readable c v snapshot /\
    IsEligibleForEPoSAuction snapshot v = Ok true /\ v.(validator).(vAddress) = w.(Addr) /\ w.(Key) ∈ v.(validator).(SlotPubKeys);
  fw_limit a j : limit <> 0 -> 0 <= j < n -> shard_count j (map Key (filter (fun w => w.(Addr) = a) winners)) <= limit
}.
Lemma auction_fair taken0 slots ext orders median winners : fair_orders taken0 orders ->
  auction_result (concat (map bids_of (map_to_list orders))) slots ext median winners -> fair_winners taken0 slots ext median winners.
Proof.
  intros Hfair Hres. destruct (ar_best _ _ _ _ _ Hres) as (losers & HP & _). destruct Hfair as [Ho Hd] eqn:Ef. clear Ef.
  assert (NoDup (map Key winners)) as Hnd.
  { assert (NoDup (map Key (concat (map bids_of (map_to_list orders))))) as Hb.
    - rewrite keys_of_all_bids. apply NoDup_concat_map; [apply NoDup_map_to_list| |].
      + intros [a o] Ha%elem_of_map_to_list. by destruct (Ho a o Ha) as [[] _].
      + intros [a oa] [b ob] k Ha%elem_of_map_to_list Hb%elem_of_map_to_list Hka Hkb. assert (a = b) as -> by (by eapply Hd). congruence.
    - rewrite <- HP, map_app in Hb. apply NoDup_app in Hb as [Hb _]. rewrite map_map in Hb. exact Hb. }
  assert (forall w, w ∈ winners -> exists o, orders !! w.(Addr) = Some o /\ w.(Key) ∈ o.(SpreadAmong)) as Hown.
  { intros w Hw. apply (elem_of_bids orders (with_EPoSStake w (RawStake w))). rewrite <- HP. apply elem_of_app. left. by apply (list_elem_of_fmap_2 (fun x => with_EPoSStake x (RawStake x))). }
  split; [by exists orders|done| |].
  - intros w Hw. destruct (Hown w Hw) as (o & Hor & Hk). destruct (Ho _ _ Hor) as [[(c & v & sn & Hc & Hr & _ & He & Ha & _ & Hin) _ _] Ht].
    split; [by apply Ht|]. exists c, v, sn. split_and!; auto.
  - intros a j Hnz Hj. destruct (orders !! a) as [o|] eqn:Ea.
    + destruct (Ho a o Ea) as [[_ _ Hl] _]. etrans; [|by apply (Hl Hnz j)]. unfold shard_count. apply inj_le, NoDup_count; [by apply NoDup_map_filter|].
      intros k (w & -> & [Hwa Hw]%list_elem_of_filter)%list_elem_of_fmap. destruct (Hown w Hw) as (o' & Ho' & Hk). rewrite Hwa in Ho'. congruence.
    + assert (filter (fun w => Addr w = a) winners = []) as ->; [|done].
      destruct (filter _ winners) as [|w0 l] eqn:El; [done|]. exfalso. assert (w0 ∈ filter (fun w => Addr w = a) winners) as Hw0 by (rewrite El; by left).
      apply list_elem_of_filter in Hw0 as [Hwa Hw]. destruct (Hown w0 Hw) as (o' & Ho' & _). congruence.
Qed.

(** ** Seating them *)

Definition slot_of (w : SlotPurchase) : Slot := mkSlot w.(Addr) w.(Key) (Some w.(EPoSStake)).
Definition with_winners (winners : list SlotPurchase) (shards : list Committee) : list Committee :=
  imap (fun i com => mkCommittee com.(ShardID) (com.(Slots) ++ map slot_of (filter (fun w => w.(Key) mod n = Z.of_nat i) winners))) shards.
Lemma with_winners_nil shards : with_winners [] shards = shards.
Proof. apply list_eq. intros i. unfold with_winners. rewrite list_lookup_imap. destruct (shards !! i) as [[]|]; [|done]. cbn. by rewrite app_nil_r. Qed.
Lemma add_winners_eq winners shards : Z.of_nat (length shards) = n ->
  foldM (add_winner n) winners shards = Ok (with_winners winners shards).
Proof.
  intros Hlen. destruct (foldM_total (fun d acc => acc = with_winners d shards) (add_winner n) winners shards) as (r & -> & ->); [by rewrite with_winners_nil| |done].
  intros d w rest _ _ ->. eexists. split; [|done]. unfold add_winner, Big.Mod. destruct (Z.eqb_spec n 0); [lia|]. cbn [mbind outcome_bind].
  rewrite Z.abs_eq by lia. pose proof (Z.mod_pos_bound (Key w) n Hn) as Hm. set (j := Key w mod n) in *.
  assert (Z.to_nat j < length shards)%nat as Hj by lia. destruct (lookup_lt_is_Some_2 shards _ Hj) as [com Hcom].
  set (seated := fun l : list SlotPurchase => filter (fun w => Key w mod n = Z.of_nat (Z.to_nat j)) l).
  rewrite (idx_Ok _ _ (mkCommittee (ShardID com) (Slots com ++ map slot_of (seated d)))); [|lia|unfold with_winners; by rewrite list_lookup_imap, Hcom].
  cbn [mbind outcome_bind]. rewrite upd_Ok by (unfold with_winners; rewrite length_imap; lia). f_equal. apply list_eq. intros i.
  unfold with_winners at 2. rewrite list_lookup_imap. destruct (decide (i = Z.to_nat j)) as [->|Hne].
  - rewrite list_lookup_insert_eq by (unfold with_winners; by rewrite length_imap). rewrite Hcom. cbn. f_equal. f_equal.
    rewrite <- app_assoc. f_equal. rewrite filter_app, map_app. f_equal. rewrite filter_cons, decide_True by (rewrite Z2Nat.id by lia; done). done.
  - rewrite list_lookup_insert_ne by done. unfold with_winners. rewrite list_lookup_imap. destruct (shards !! i) as [com'|] eqn:Ei; [|done]. cbn. f_equal. f_equal. f_equal. f_equal.
    rewrite filter_app, filter_cons, decide_False by (fold j; lia). symmetry. apply app_nil_r.
Qed.
End safety.

(** ** The committees of an epoch *)

Section elects.
Context {L : BLSLib} {A : AccountLib L} {W : Walk} (Schedule : Schedule) (reader : DataProvider) (states : gmap Z State).
Context (epoch : Z) (current next previous : instance).

(** What an election reads is there and within bounds. *)
Record electable : Prop := {
  el_current : InstanceForEpoch Schedule (Some reader.(CurrentBlock_Epoch)) = Ok current;
  el_next : InstanceForEpoch Schedule (Some epoch) = Ok next;
  el_previous : InstanceForEpoch Schedule (Some (epoch - 1)) = Ok previous;
  el_valid : instance_valid next = true /\ NumShards next < 2 ^ 32;
  el_accounts : forall a, a ∈ ItcAccounts next -> exists slot, account_slot true a = Ok slot;
  el_enough : NumIntelchainOperatedNodesPerShard next * NumShards next <= Z.of_nat (length (ItcAccounts next));
  el_state : reader.(StateAt) = Ok (Some tt);
  el_candidates : forall c, c ∈ reader.(ValidatorCandidates) -> exists v snapshot, readable reader c v snapshot /\ candidate_ok v snapshot;
  el_old : is_Some (states !! (epoch - 1))
}.

(** The slots of the operated nodes of shard [i]. *)
Record operated_slots (i : Z) (slots : SlotList) : Prop := {
  op_count : Z.of_nat (length slots) = NumIntelchainOperatedNodesPerShard next;
  op_slot j slot : slots !! j = Some slot -> exists a,
    ItcAccounts next !! Z.to_nat (i + Z.of_nat j * NumShards next) = Some a /\ account_slot true a = Ok slot
}.
(** Every shard has its operated nodes and the winners its keys fall on. *)
Record seated (winners : list SlotPurchase) (shards : list Committee) : Prop := {
  se_shards : Z.of_nat (length shards) = NumShards next;
  se_shard i com : shards !! i = Some com -> com.(ShardID) = Z.of_nat i /\ exists operated, operated_slots (Z.of_nat i) operated /\
    com.(Slots) = operated ++ map slot_of (filter (fun w => w.(Key) mod NumShards next = Z.of_nat i) winners)
}.
Definition electing_slots : Z := (NumNodesPerShard next - NumIntelchainOperatedNodesPerShard next) * NumShards next.
Definition fair (median : Dec) (winners : list SlotPurchase) : Prop :=
  fair_winners reader (SlotsLimit next) (NumShards next) (operated_keys (ItcAccounts current)) electing_slots
    (IsEPoSBound35 reader.(Config) (Some epoch)) median winners.

Context (H : electable).

Lemma next_bounds : 0 < NumShards next < 2 ^ 32 /\ 0 <= SlotsLimit next /\ 0 <= NumIntelchainOperatedNodesPerShard next <= NumNodesPerShard next.
Proof.
  destruct (el_valid H) as [Hv Hs]. unfold instance_valid in Hv. repeat (apply andb_true_iff in Hv as [Hv ?]).
  unfold NumShards, SlotsLimit, NumIntelchainOperatedNodesPerShard, NumNodesPerShard in *. lia.
Qed.
Lemma account_slots_ok i : 0 <= i < NumShards next -> exists slots,
  account_slots true (ItcAccounts next) i (NumShards next) (NumIntelchainOperatedNodesPerShard next) = Ok slots /\ operated_slots i slots.
Proof.
  intros Hi. destruct next_bounds as (Hn & _ & Hm). pose proof (el_enough H) as He. unfold account_slots.
  set (m := NumIntelchainOperatedNodesPerShard next) in *. set (n := NumShards next) in *.
  destruct (mapM_outcome (fun j => let! a := idx (ItcAccounts next) (i + j * n) in account_slot true a) (seqZ 0 m)) as (slots & E & HF).
  - intros j Hj%elem_of_seqZ. destruct (idx_total (ItcAccounts next) (i + j * n)) as [a Ea]; [nia|]. rewrite Ea. cbn [mbind outcome_bind].
    apply (el_accounts H). apply idx_inv in Ea as [_ Ea]. by eapply list_elem_of_lookup_2.
  - exists slots. split; [exact E|]. pose proof (Forall2_length _ _ _ HF) as Hlen. rewrite length_seqZ in Hlen. split; [lia|]. intros j slot Hj.
    destruct (Forall2_lookup_r _ _ _ _ _ HF Hj) as (z & Hz & Ez). apply lookup_seqZ in Hz as [-> _]. outcome_inv.
    match goal with Hx : idx _ _ = Ok ?a |- _ => apply idx_inv in Hx as [_ Hx]; exists a end. by split.
Qed.
Lemma operated_ok : exists shards, mapM (fun i =>
    let! slots := account_slots true (ItcAccounts next) i (NumShards next) (NumIntelchainOperatedNodesPerShard next) in
    Ok (mkCommittee (u32 i) slots)) (seqZ 0 (NumShards next)) = Ok shards /\
  Z.of_nat (length shards) = NumShards next /\
  forall i com, shards !! i = Some com -> com.(ShardID) = Z.of_nat i /\ operated_slots (Z.of_nat i) com.(Slots).
Proof.
  destruct next_bounds as (Hn & _ & _).
  destruct (mapM_outcome (fun i => let! slots := account_slots true (ItcAccounts next) i (NumShards next) (NumIntelchainOperatedNodesPerShard next) in
    Ok (mkCommittee (u32 i) slots)) (seqZ 0 (NumShards next))) as (shards & E & HF).
  - intros i Hi%elem_of_seqZ. destruct (account_slots_ok i) as (slots & Es & _); [lia|]. rewrite Es. by eexists.
  - exists shards. split; [exact E|]. pose proof (Forall2_length _ _ _ HF) as Hlen. rewrite length_seqZ in Hlen. split; [lia|]. intros i com Hi.
    destruct (Forall2_lookup_r _ _ _ _ _ HF Hi) as (z & Hz & Ez). apply lookup_seqZ in Hz as [-> Hz].
    destruct (account_slots_ok (0 + Z.of_nat i)) as (slots & Es & Hs); [lia|]. rewrite Es in Ez. injection Ez as <-. cbn. split; [|exact Hs].
    apply Z.mod_small. lia.
Qed.
Lemma NewEPoSRound_ok : exists round,
  NewEPoSRound Schedule epoch reader (IsEPoSBound35 reader.(Config) (Some epoch)) (SlotsLimit next) (NumShards next) = Ok round /\
  fair round.(MedianStake) round.(AuctionWinners).
Proof.
  destruct next_bounds as (Hn & Hl & Hm). unfold NewEPoSRound.
  destruct (prepareOrders_ok Schedule reader (SlotsLimit next) (NumShards next) (proj1 Hn) Hl (el_candidates H) current (el_current H) (el_state H)) as (orders & -> & Hfair).
  cbn [mbind outcome_bind]. assert (ExternalSlotsAvailableForEpoch Schedule (Some epoch) = Ok electing_slots) as ->.
  { unfold ExternalSlotsAvailableForEpoch. rewrite (el_next H). cbn [mbind outcome_bind]. fold electing_slots. by destruct (_ =? 0). }
  cbn [mbind outcome_bind]. destruct (Apply_gives orders electing_slots (IsEPoSBound35 (Config reader) (Some epoch))) as (median & winners & E & Hres).
  - intros a o Ha. destruct (fo_order _ _ _ _ _ Hfair a o Ha) as [[(c & v & sn & _ & _ & Hok & _ & _ & Est & _) _ _] _]. unfold small_stake. destruct (co_stake _ _ Hok). lia.
  - unfold electing_slots. nia.
  - rewrite E. cbn [mbind outcome_bind]. eexists. split; [done|]. by apply (auction_fair reader _ _ Hl _ _ _ orders).
Qed.

(** What [eposStakedCommittee] gives. *)
Lemma eposStakedCommittee_ok : exists r median winners, eposStakedCommittee Schedule epoch next reader states = Ok r /\ fair median winners /\
  ((exists shards, r = Computed_ (mkState None shards) /\ seated winners shards /\
     (winners <> [] \/ reader.(is_testnet) = true /\ NumShards previous <> NumShards next)) \/
   (r = Cached (epoch - 1) /\ winners = [] /\ (reader.(is_testnet) = false \/ NumShards previous = NumShards next))).
Proof.
  unfold eposStakedCommittee. destruct operated_ok as (shards & -> & Hlen & Hops). cbn [mbind outcome_bind].
  destruct NewEPoSRound_ok as (round & -> & Hf). cbn [mbind outcome_bind]. destruct next_bounds as (Hn & _ & _).
  rewrite add_winners_eq by lia. cbn [mbind outcome_bind].
  assert (seated (AuctionWinners round) (with_winners (NumShards next) (AuctionWinners round) shards)) as Hseat.
  { split; [unfold with_winners; by rewrite length_imap|]. intros i com. unfold with_winners. rewrite list_lookup_imap. destruct (shards !! i) as [com0|] eqn:E; [|done].
    intros [= <-]. destruct (Hops i com0 E) as [Hid Ho]. split; [exact Hid|]. by exists (Slots com0). }
  destruct (AuctionWinners round) as [|w ws].
  - rewrite (el_next H), (el_previous H). cbn [mbind outcome_bind]. destruct (el_old H) as [old ->].
    destruct (is_testnet reader) eqn:Et; cbn [andb]; [destruct (Z.eqb_spec (NumShards previous) (NumShards next)) as [En|En]; cbn [negb]|];
      eexists _, _, []; (split; [done|]); (split; [exact Hf|]).
    + right. auto.
    + left. eexists. split; [done|]. auto.
    + right. auto.
  - eexists _, _, (w :: ws). split; [done|]. split; [exact Hf|]. left. eexists. split; [done|]. by split; [|left].
Qed.
End elects.

(** C14: with staking the committees of an epoch that is not past are elected
    when what is read is there and within bounds: the auction sells the epoch's
    external slots to eligible validators only, no key twice and none of an
    operated node, at most the limit of slots of a shard to each; every shard
    gets its operated nodes and then the winners whose keys fall on it.  Only
    when nobody wins, and no testnet changes its number of shards, the shards of
    the epoch before serve again; then the chain's cached state of that epoch
    is given the new one. *)
Theorem Compute_elects {L : BLSLib} {A : AccountLib L} {W : Walk} (Schedule : Schedule) reader (states : gmap Z State) epoch current next previous :
  electable Schedule reader states epoch current next previous ->
  IsStaking reader.(Config) (Some epoch) = true -> reader.(CurrentHeader_Epoch) <= epoch ->
  exists s states' median winners, Compute Schedule epoch (Some reader) states = Ok (s, states') /\
    s.(Epoch) = Some epoch /\ fair reader epoch current next median winners /\
    ((seated next winners s.(Shards) /\ states' = states /\ (winners <> [] \/ reader.(is_testnet) = true /\ NumShards previous <> NumShards next)) \/
     (winners = [] /\ (reader.(is_testnet) = false \/ NumShards previous = NumShards next) /\
      exists old, states !! (epoch - 1) = Some old /\ s.(Shards) = old.(Shards) /\ states' = <[epoch - 1 := s]> states)).
Proof.
  intros H Hst Hep. destruct (eposStakedCommittee_ok _ _ _ _ _ _ _ H) as (r & median & winners & E & Hf & Hr). unfold Compute. rewrite Hst, (el_next _ _ _ _ _ _ _ H).
  cbn [mbind outcome_bind]. rewrite (proj2 (Z.ltb_ge _ _) Hep), E. cbn [mbind outcome_bind]. destruct Hr as [(shards & -> & Hs & Hw)|(-> & Hw & Ht)].
  - eexists _, _, median, winners. split; [done|]. split; [done|]. split; [exact Hf|]. by left.
  - destruct (el_old _ _ _ _ _ _ _ H) as [old Ho]. rewrite Ho. eexists _, _, median, winners. split; [done|]. split; [done|]. split; [exact Hf|]. right.
    split; [exact Hw|]. split; [exact Ht|]. by exists old.
Qed.

(** ** A concrete election

    Two shards of three nodes, one of them operated, a limit of one slot per
    shard, and four candidates: one with two keys on one shard, one whose key is
    an operated node's, one whose key is taken by the first, and an inactive
    one.  An epoch without candidates reuses the cached committees. *)

(** Keys and addresses are numbers in unary. *)
#[export] Instance toy_accounts : AccountLib ZBLS := {|
  DeserializeHexStr s := Ok (Z.of_nat (Stdlib.Strings.String.length s));
  ParseAddr s := Ok (Z.of_nat (Stdlib.Strings.String.length s))
|}.
Definition election_instance : instance :=
  mkInstance 2 3 1 0 OneDec [mkDeployAccount "0" "1" "1234567890" 0; mkDeployAccount "1" "12" "12345678901" 1] [] [] 100 1 emptyAllowlist ∅ 0 0.
Definition election_schedule : Schedule := NewFixedSchedule election_instance.
Definition toy_candidate (address stake : Z) (keys : list SerializedPublicKey) (status : Eligibility) : ValidatorWrapper :=
  mkWrapper_ (mkValidator address keys 4 None None status (mkCommission (mkRates 0 0 0) 0) (mkDescription "" "" "" "" "") 0)
    [NewDelegation address stake] (mkCounters 9 9) 0.
Definition toy_candidates (address : Address) : ValidatorWrapper :=
  match address with
  | 100 => toy_candidate 100 900 [20; 21; 22] Active
  | 101 => toy_candidate 101 800 [10] Active          (* an operated node's *)
  | 102 => toy_candidate 102 700 [31; 21] Active      (* the second is the first candidate's *)
  | 103 => toy_candidate 103 100 [33; 40] Active
  | _ => toy_candidate 104 999 [50] Inactive
  end.
Definition election_reader (candidates : list Address) : DataProvider :=
  mkProvider 4 4 (Ok (Some tt)) candidates (fun a => Ok (toy_candidates a)) (fun a => Ok (mkSnapshot (toy_candidate a 1 [] Active) (Some 3))) AllProtocolChanges false.
Definition old_state : State := mkState (Some 4) [mkCommittee 0 [mkSlot 1 10 None]; mkCommittee 1 [mkSlot 2 11 None]].
Definition election_states : gmap Z State := {[4 := old_state]}.

Definition elected_shards (r : outcome (State * gmap Z State)) : outcome (list (Z * list (Address * SerializedPublicKey))) :=
  let! '(s, _) := r in Ok (map (fun c => (c.(ShardID), map (fun sl => (sl.(EcdsaAddress), sl.(BLSPublicKey))) c.(Slots))) s.(Shards)).
(** 100 loses its second key of shard 0; 101, 102 and 104 are out. *)
Example elected_by_stake : elected_shards (Compute election_schedule 5 (Some (election_reader [100; 101; 102; 103; 104])) election_states) =
  Ok [(0, [(1, 10); (100, 20); (103, 40)]); (1, [(2, 11); (100, 21); (103, 33)])].
Proof. by vm_compute. Qed.
(** Without winners the committees of epoch 4 serve again, and the cache's entry
    of epoch 4 says it is of epoch 5. *)
Example cached_epoch_changes :
  (let! '(s, states) := Compute election_schedule 5 (Some (election_reader [101])) election_states in
   Ok (s.(Epoch), Shards s, match states !! 4 with Some old => old.(Epoch) | None => None end)) = Ok (Some 5, old_state.(Shards), Some 5).
Proof. by vm_compute. Qed.
Example past_refused : Compute election_schedule 3 (Some (election_reader [100])) election_states = Err ErrComputeForEpochInPast.
Proof. by vm_compute. Qed.

Lemma toy_electable candidates : electable election_schedule (election_reader candidates) election_states 5 election_instance election_instance election_instance.
Proof.
  split; try reflexivity.
  - split; [by vm_compute|]. unfold NumShards. cbn. lia.
  - intros a _. by eexists.
  - intros c _. exists (toy_candidates c), (mkSnapshot (toy_candidate c 1 [] Active) (Some 3)). split; [by split|].
    assert (forall w, w = toy_candidates c -> Counters w = mkCounters 9 9 /\ 0 < TotalDelegation w < 2 ^ 200) as Hw.
    { intros w ->. unfold toy_candidates. repeat case_match; split; try reflexivity; cbn; lia. }
    destruct (Hw _ eq_refl) as [Hc Ht]. split; [by eexists| | |exact Ht]; rewrite Hc; cbn; lia.
  - by eexists.
Qed.
Lemma Compute_elects_witness : exists s states' median winners,
  Compute election_schedule 5 (Some (election_reader [100; 101; 102; 103; 104])) election_states = Ok (s, states') /\
  s.(Epoch) = Some 5 /\ fair (election_reader [100; 101; 102; 103; 104]) 5 election_instance election_instance median winners.
Proof.
  destruct (Compute_elects election_schedule (election_reader [100; 101; 102; 103; 104]) election_states 5 election_instance election_instance election_instance)
    as (s & st & m & w & H1 & H2 & H3 & _); [apply toy_electable|reflexivity|cbn; lia|]. exists s, st, m, w. split; [exact H1|]. split; [exact H2|exact H3].
Defined.
