(* ===== verification/Reward.v ===== *)
(** * Block rewards

    The token release plan (consensus/reward/schedule.go), the rewards of the
    eras (staking/reward/values.go), how much is staked (staking/network) and
    paying the signers of a block and of the cross links it carries
    (internal/chain/reward.go).

    The state is the part that paying touches, as in [Slash], with the two LRU
    caches of the package.  [sigs] is what the channel of commit signatures
    gives: a success, or nothing before the timeout; the header is the one after
    the signatures are in it.  An error discards the block and the state. *)
From S2P Require Import Prelude Dec DecText Params Sharding Networks Bls Shard Header CXReceipt VotePower Delegation Effective Validator Availability Slash StateObject StateDB StateRewards.
Local Open Scope Z_scope.

(** ** The release plan *)

(** Days from 1970-01-01, in the Gregorian calendar. *)
Definition days (y m d : Z) : Z :=
  let y' := if m <=? 2 then y - 1 else y in
  let era := y' / 400 in
  let yoe := y' - era * 400 in
  let doy := (153 * (if 2 <? m then m - 3 else m + 9) + 2) / 5 + d - 1 in
  era * 146097 + (yoe * 365 + yoe / 4 - yoe / 100 + doy) - 719468.
(** [mustParse] of "y-month-d". *)
Definition mustParse (y m d : Z) : Z := 86400 * days y m d.
Definition planned (y m d : Z) (share : string) : Z * Dec := (mustParse y m d, unwrap (NewDecFromStr share)).
Definition plan_entries : list (Z * Dec) := [
  planned 2019 5 31 "0.242864761904762"; planned 2019 6 30 "0.248805938375350"; planned 2019 7 31 "0.254747114845938";
  planned 2019 8 31 "0.260688291316526"; planned 2019 9 30 "0.266629467787115"; planned 2019 10 31 "0.272570644257703";
  planned 2019 11 30 "0.378471820728291"; planned 2019 12 31 "0.384412997198879"; planned 2020 1 31 "0.395055284780578";
  planned 2020 2 29 "0.404667810457516"; planned 2020 3 31 "0.414280336134453"; planned 2020 4 30 "0.423892861811391";
  planned 2020 5 31 "0.533465387488328"; planned 2020 6 30 "0.543077913165265"; planned 2020 7 31 "0.552690438842203";
  planned 2020 8 31 "0.562302964519140"; planned 2020 9 30 "0.571915490196078"; planned 2020 10 31 "0.581528015873015";
  planned 2020 11 30 "0.688159365079364"; planned 2020 12 31 "0.694830714285714"; planned 2021 1 31 "0.701502063492063";
  planned 2021 2 28 "0.708173412698412"; planned 2021 3 31 "0.714844761904761"; planned 2021 4 30 "0.721516111111110";
  planned 2021 5 31 "0.772147460317459"; planned 2021 6 30 "0.778818809523809"; planned 2021 7 31 "0.785490158730158";
  planned 2021 8 31 "0.792161507936507"; planned 2021 9 30 "0.798832857142856"; planned 2021 10 31 "0.805504206349205";
  planned 2021 11 30 "0.856135555555555"; planned 2021 12 31 "0.862806904761904"; planned 2022 1 31 "0.869478253968253";
  planned 2022 2 28 "0.876149603174602"; planned 2022 3 31 "0.882820952380951"; planned 2022 4 30 "0.889492301587301";
  planned 2022 5 31 "0.896163650793650"; planned 2022 6 30 "0.902834999999999"; planned 2022 7 31 "0.909506349206348";
  planned 2022 8 31 "0.916177698412697"; planned 2022 9 30 "0.922849047619047"; planned 2022 10 31 "0.929520396825396";
  planned 2022 11 30 "0.936191746031745"; planned 2022 12 31 "0.942863095238094"; planned 2023 1 31 "0.944833333333332";
  planned 2023 2 28 "0.946803571428570"; planned 2023 3 31 "0.948773809523808"; planned 2023 4 30 "0.950744047619047";
  planned 2023 5 31 "0.952714285714285"; planned 2023 6 30 "0.954684523809523"; planned 2023 7 31 "0.956654761904761";
  planned 2023 8 31 "0.958624999999999"; planned 2023 9 30 "0.960595238095237"; planned 2023 10 31 "0.962565476190475";
  planned 2023 11 30 "0.964535714285713"; planned 2023 12 31 "0.966505952380951"; planned 2024 1 31 "0.968476190476189";
  planned 2024 2 29 "0.970446428571428"; planned 2024 3 31 "0.972416666666666"; planned 2024 4 30 "0.974386904761904";
  planned 2024 5 31 "0.976357142857142"; planned 2024 6 30 "0.978327380952380"; planned 2024 7 31 "0.980297619047618";
  planned 2024 8 31 "0.982267857142856"; planned 2024 9 30 "0.984238095238094"; planned 2024 10 31 "0.986208333333332";
  planned 2024 11 30 "0.988178571428570"; planned 2024 12 31 "0.990148809523809"; planned 2025 1 31 "0.992119047619047";
  planned 2025 2 28 "0.994089285714285"; planned 2025 3 31 "0.996059523809523"; planned 2025 4 30 "0.998029761904761";
  planned 2025 5 31 "1.000000000000000"].
Definition releasePlan : gmap Z Dec := list_to_map plan_entries.
Definition sorted {W : Walk} : list (Z * Dec) := SliceStable (fun a b => a.1 <? b.1) (walk releasePlan).

(** The loop of [PercentageForTimeStamp] from an entry on. *)
Fixpoint pick_bucket (first : Z) (ts : Z) (first_entry : Z * Dec) (l : list (Z * Dec)) : Z * Dec :=
  match l with
  | [] => (0, ZeroDec)
  | [p] => if ts <? first then first_entry else p
  | p :: (q :: _) as rest => if (p.1 <=? ts) && (ts <? q.1) then p else pick_bucket first ts first_entry rest
  end.
Definition PercentageForTimeStamp {W : Walk} (schedule : Schedule) (ts : Z) : Dec :=
  if negb (bool_decide (GetNetworkID schedule = MainNet)) then OneDec
  else match sorted with [] => ZeroDec | p :: _ => (pick_bucket p.1 ts p sorted).2 end.

(** ** Results (consensus/reward/rewarder.go, staking/network/reward.go) *)

Record Payout := mkPayout { poAddr : Address; NewlyEarned : Z; EarningKey : SerializedPublicKey }.
Record CompletedRound := mkCompleted { Total : Z; Payouts : list Payout }.
Inductive RewardReader := noReward | preStakingEra (payout : Z) | stakingEra (r : CompletedRound).
Definition ReadRoundResult (r : RewardReader) : CompletedRound :=
  match r with noReward => mkCompleted 0 [] | preStakingEra payout => mkCompleted payout [] | stakingEra r => r end.
Definition NewPreStakingEraRewarded (totalAmount : Z) : RewardReader := preStakingEra totalAmount.
Definition NewStakingEraRewardForRound (totalPayout : Z) (payouts : list Payout) : RewardReader := stakingEra (mkCompleted totalPayout payouts).
Definition ErrPayoutNotEqualBlockReward : string := "total payout not equal to blockreward".

Definition Itc : Z := 10 ^ 18.
Definition Intello : Z := 10 ^ 9.
Definition targetStakedPercentage : Dec := unwrap (NewDecFromStr "0.35").
Definition dynamicAdjust : Dec := unwrap (NewDecFromStr "0.4").
Definition adjust (amount : Dec) : outcome Dec := MulTruncate amount (NewDecFromBigInt Itc).
Definition Adjustment (percentageStaked : Dec) : outcome (Dec * Dec) :=
  let! howMuchOff := Dec.Sub targetStakedPercentage percentageStaked in
  let! m := MulTruncate howMuchOff (NewDec 100) in
  let! m := Dec.Mul m dynamicAdjust in
  let! adjustBy := adjust m in
  Ok (howMuchOff, adjustBy).
(** What the beacon chain answers; [initial] is [TotalInitialTokens]. *)
Definition WhatPercentStakedNow {W : Walk} (schedule : Schedule) (initial : Dec) (active : outcome State) (accumulated : outcome Z)
    (ReadValidatorInformation : Address -> outcome ValidatorWrapper) (timestamp : Z) : outcome (Z * Dec) :=
  let! active := active in
  let! soFarDoledOut := accumulated in
  let! dole := NewDecFromBigIntWithPrec soFarDoledOut 18 in
  let! staked := StakedValidators_State active in
  let! stakedNow := foldM (fun stakedNow a =>
    let! wrapper := ReadValidatorInformation a in
    let! d := NewDecFromBigIntWithPrec (TotalDelegation wrapper) 18 in
    Dec.Add stakedNow d) staked.(Addrs) ZeroDec in
  let! released := Dec.Mul initial (PercentageForTimeStamp schedule timestamp) in
  let! supply := Dec.Add released dole in
  let! percentage := Dec.Quo stakedNow supply in
  Ok (soFarDoledOut, percentage).

(** ** The rewards of the eras (staking/reward/values.go) *)

Definition PreStakedBlocks : Z := 24 * Itc.
Definition StakedBlocks : Dec := NewDecFromBigInt (28 * Itc).
Definition FiveSecStakedBlocks : Dec := NewDecFromBigInt (175 * Intello / 10 * Intello).
Definition TwoSecStakedBlocks : Dec := NewDecFromBigInt (7 * Intello * Intello).
Definition HIP30StakedBlocks : Dec := NewDecFromBigInt (14 * Intello * Intello).
Definition ErrInvalidBeaconChain : string := "given chain is not beaconchain".

(** The tokens injected before staking, up to a block; the staking epochs of the
    networks are configured. *)
Definition last_pre_staking (last : Z -> outcome Z) (c : ChainConfig) : outcome Z :=
  match c.(StakingEpoch) with None => Panic nil_deref | Some e => last (u64 (Big.Uint64 e - 1)) end.
Definition getPreStakingRewardsFromBlockNumber (id : NetworkID) (blockNum : Z) : outcome Z :=
  if blockNum <? 2 then Ok 0
  else
    let! lastBlockInEpoch :=
      (match id with
       | MainNet => last_pre_staking mainnet_EpochLastBlock MainnetChainConfig
       | TestNet => last_pre_staking testnet_EpochLastBlock TestnetChainConfig
       | LocalNet => last_pre_staking localnet_EpochLastBlock LocalnetChainConfig
       | _ => Ok blockNum
       end) in
    Ok (PreStakedBlocks * ((if lastBlockInEpoch <? blockNum then lastBlockInEpoch else blockNum) - 1)).
Definition pre_staking_blocks (id : NetworkID) : list Z :=
  match id with
  | MainNet => [3375103; 3286737; 3326153; 3313572]
  | TestNet => [999999; 999999; 999999; 999999]
  | LocalNet => [999999; 999999]
  | _ => []
  end.
(** [getTotalPreStakingNetworkRewards] with the table it sums up. *)
Definition getTotalPreStakingNetworkRewards (id : NetworkID) : outcome Z :=
  foldM (fun total b => let! r := getPreStakingRewardsFromBlockNumber id b in Ok (r + total)) (pre_staking_blocks id) 0.
Definition GetTotalPreStakingTokens (schedule : Schedule) (initial : Dec) : outcome Dec :=
  let! total := getTotalPreStakingNetworkRewards (GetNetworkID schedule) in
  let! preStakingRewards := NewDecFromBigIntWithPrec total 18 in
  Dec.Add initial preStakingRewards.
Definition GetTotalTokens (schedule : Schedule) (initial : Dec) (config : ChainConfig) (currHeader : Header) (chainShard : Z) (accumulated : outcome Z) : outcome Dec :=
  if negb (IsStaking config (Some (Epoch currHeader))) then GetTotalPreStakingTokens schedule initial
  else if negb (chainShard =? BeaconChainShardID) then Err ErrInvalidBeaconChain
  else
    let! stakingRewards := accumulated in
    let! before := GetTotalPreStakingTokens schedule initial in
    let! d := NewDecFromBigIntWithPrec stakingRewards 18 in
    Dec.Add before d.

(** ** Paying signers (internal/chain/reward.go) *)

(** hashicorp's LRU, as in [Bls] but for any keys and values. *)
Class KeyedLRU (K V : Type) := {
  KCache : Type;
  k_Get : KCache -> K -> option V * KCache;
  k_Add : KCache -> K -> V -> KCache
}.
Class KeyedLRULaws {K V} (C : KeyedLRU K V) : Prop := {
  k_Get_keeps c k k' v : fst (k_Get (snd (k_Get c k)) k') = Some v -> fst (k_Get c k') = Some v;
  k_Add_keeps c k v k' v' : fst (k_Get (k_Add c k v) k') = Some v' -> (k' = k /\ v' = v) \/ fst (k_Get c k') = Some v'
}.

Fixpoint sm_fold {S A B} (f : B -> A -> SM S B) (l : list A) (b : B) : SM S B :=
  match l with [] => mret b | a :: l => let! b := f b a in sm_fold f l b end.

Record slotPayable := mkPayable { spSlot : Slot; spPayout : Z; spBucket : Z; spIndex : Z; spShardID : Z }.
Record slotMissing := mkMissing { smSlot : Slot; smBucket : Z; smIndex : Z }.

Section reward.
Context {L : BLSLib} {W : Walk}.
Context {VC : KeyedLRU (Z * Z) Roster} {DC : KeyedLRU (Z * Address) (gmap Address Dec)}.

(** What is asked of the chain; [decode_crosslinks] is RLP's. *)
Record RewardChain := mkRewardChain {
  rcConfig : ChainConfig;
  rcCurrentHeader : Header;
  rcGetHeaderByHash : Z -> option Header;
  rcGetHeaderByNumber : Z -> option Header;
  rcReadShardState : Z -> outcome State;
  rcReadValidatorSnapshot : Address -> outcome ValidatorSnapshot;
  decode_crosslinks : list Z -> outcome (list CrossLink)
}.
Record RewardState := mkRewardState {
  rsState : SlashState;
  votingPowerCache : @KCache _ _ VC;
  delegateShareCache : @KCache _ _ DC
}.
Definition on_state (f : SlashState -> SlashState) (s : RewardState) : RewardState :=
  mkRewardState (f s.(rsState)) s.(votingPowerCache) s.(delegateShareCache).
Context (bc : RewardChain) (schedule : Schedule).

Definition ballotResultBeaconchain (beaconChain : RewardChain) (header : Header) : outcome (Z * SlotList * SlotList * SlotList) :=
  match beaconChain.(rcGetHeaderByHash) (ParentHash header) with
  | None => Err "cannot find parent block header in DB"
  | Some parentHeader =>
      match beaconChain.(rcReadShardState) (Epoch parentHeader) with
      | Err _ => Err "cannot read shard state"
      | Panic w => Panic w
      | Ok parentShardState =>
          let! '(members, payable, missing) := BallotResult (LastCommitBitmap header) (Some parentShardState) BeaconChainShardID in
          Ok (Epoch parentHeader, members, payable, missing)
      end
  end.

(** The keys are texts made of the two numbers. *)
Definition lookupVotingPower (epoch : Z) (subComm : Committee) : SM RewardState Roster := fun s =>
  let key := (epoch, subComm.(Shard.ShardID)) in
  let '(hit, c) := k_Get s.(votingPowerCache) key in
  let s := mkRewardState s.(rsState) c s.(delegateShareCache) in
  match hit with
  | Some votingPower => (s, Ok votingPower)
  | None =>
      match VotePower.Compute schedule subComm (Some epoch) with
      | Ok votingPower => (mkRewardState s.(rsState) (k_Add c key votingPower) s.(delegateShareCache), Ok votingPower)
      | r => (s, r)
      end
  end.

(** A delegator's share; one that is listed twice gets the later. *)
Definition delegator_shares (snapshot : ValidatorWrapper) (totalDelegationDec : Dec) : outcome (gmap Address Dec) :=
  foldM (fun result (d : Delegation) =>
    let! percentage := Dec.Quo (NewDecFromBigInt d.(Amount)) totalDelegationDec in
    Ok (<[d.(DelegatorAddress) := percentage]> result)) snapshot.(Delegations) ∅.
Definition lookupDelegatorShares (snapshot : ValidatorSnapshot) : SM RewardState (gmap Address Dec) := fun s =>
  match snapshot.(snapEpoch) with
  | None => (s, Panic nil_deref)
  | Some epoch =>
      let key := (epoch, snapshot.(snapValidator).(validator).(vAddress)) in
      let '(hit, c) := k_Get s.(delegateShareCache) key in
      let s := mkRewardState s.(rsState) s.(votingPowerCache) c in
      match hit with
      | Some result => (s, Ok result)
      | None =>
          let totalDelegationDec := NewDecFromBigInt (TotalDelegation snapshot.(snapValidator)) in
          if IsZero totalDelegationDec then (s, Ok ∅)
          else
            match delegator_shares snapshot.(snapValidator) totalDelegationDec with
            | Ok result => (mkRewardState s.(rsState) s.(votingPowerCache) (k_Add c key result), Ok result)
            | r => (s, r)
            end
      end
  end.

(** [state.AddReward] and [availability.IncrementValidatorSigningCounts] on this state. *)
Definition AddReward_at (snapshot : ValidatorWrapper) (reward : Z) (shareLookup : gmap Address Dec) : SM RewardState unit :=
  if reward =? 0 then mret tt
  else fun s =>
    let a := snapshot.(validator).(vAddress) in
    match ValidatorWrapperAt s.(rsState).(validators) a with
    | Err e => (s, Err ("failed to distribute rewards: validator does not exist: " ++ e))
    | Panic w => (s, Panic w)
    | Ok curValidator =>
        if decide (curValidator.(validator).(Validator.Status) = Banned) then (s, Ok tt)
        else
          let '(w, r) := distribute snapshot reward shareLookup curValidator in
          (on_state (fun st => mkSlashState (<[a := w]> st.(validators)) st.(balances)) s, r)
    end.
Definition count_signing (staked : StakedSlots) (signers missing : SlotList) : SM RewardState unit := fun s =>
  let '(vs, r) := IncrementValidatorSigningCounts staked s.(rsState).(validators) signers missing in
  (on_state (fun st => mkSlashState vs st.(balances)) s, r).

(** One payment: the snapshot, its shares and the reward. *)
Definition pay_validator (addr : Address) (due : Z) : SM RewardState unit :=
  let! snapshot := lift (bc.(rcReadValidatorSnapshot) addr) in
  let! shares := lookupDelegatorShares snapshot in
  AddReward_at snapshot.(snapValidator) due shares.

Definition waitForCommitSigs (sigs : option bool) : outcome unit :=
  match sigs with
  | None => Err "Timeout waiting for commit sigs for reward calculation"
  | Some false => Err "Failed to get commit sigs"
  | Some true => Ok tt
  end.

(** Before staking every signer gets an equal share, differences of rounded
    totals. *)
Definition pre_staking_payout (count : Z) (acc : SlashState * Z * Z) (ia : Z * Slot) : outcome (SlashState * Z * Z) :=
  let '(st, last, totalAmount) := acc in
  let! cur := Big.Div (PreStakedBlocks * (ia.1 + 1)) count in
  let diff := cur - last in
  Ok (Slash.AddBalance st ia.2.(EcdsaAddress) diff, cur, totalAmount + diff).
Definition accumulateRewardsAndCountSigsBeforeStaking (header : Header) (sigs : option bool) : SM RewardState (Dec * RewardReader) :=
  match bc.(rcGetHeaderByHash) (ParentHash header) with
  | None => stop "cannot find parent block header in DB at parent hash"
  | Some parentHeader =>
      if Number parentHeader =? 0 then mret (ZeroDec, noReward)
      else
        let! parentShardState := lift (match bc.(rcReadShardState) (Epoch parentHeader) with
                                       | Err _ => Err "cannot read shard state" | r => r end) in
        let! _ := lift (waitForCommitSigs sigs) in
        let! '(_, signers, _) := lift (BallotResult (LastCommitBitmap header) (Some parentShardState) (ShardID header)) in
        let! st := gets rsState in
        let! '(st, _, totalAmount) := lift (foldM (pre_staking_payout (Z.of_nat (length signers))) (zip (range signers) signers) (st, 0, 0)) in
        let! _ := modify (on_state (fun _ => st)) in
        if negb (totalAmount =? PreStakedBlocks) then stop ErrPayoutNotEqualBlockReward
        else mret (ZeroDec, NewPreStakingEraRewarded totalAmount)
  end.

(** The chain identifier is compared as a pointer; the testnet configurations
    share it. *)
Definition getDefaultStakingReward (config : ChainConfig) (epoch : Z) (blockNum : Z) : outcome Dec :=
  let! (one_off : bool) :=
    (if bool_decide (config.(ChainID) = Some TestnetChainID)
     then match config.(FiveSecondsEpoch) with None => Panic nil_deref | Some e => Ok (e =? 16500) end
     else Ok false) in
  Ok (if one_off then
        let defaultReward :=
          (if 634644 <? blockNum then
             if 636507 <? blockNum then (if 639341 <? blockNum then FiveSecStakedBlocks else StakedBlocks) else FiveSecStakedBlocks
           else StakedBlocks) in
        if IsTwoSeconds config (Some epoch) then TwoSecStakedBlocks else defaultReward
      else if IsHIP30 config (Some epoch) then HIP30StakedBlocks
      else if IsTwoSeconds config (Some epoch) then TwoSecStakedBlocks
      else if IsFiveSeconds config (Some epoch) then FiveSecStakedBlocks
      else StakedBlocks).

Definition voter_of (votingPower : Roster) (slot : Slot) : outcome AccommodateIntelchainVote :=
  match votingPower.(Voters) !! slot.(BLSPublicKey) with Some voter => Ok voter | None => Panic nil_deref end.
(** The power of the signers who are not Intelchain's. *)
Definition signers_share (votingPower : Roster) (payable : SlotList) : outcome Dec :=
  foldM (fun allSignersShare slot =>
    let! voter := voter_of votingPower slot in
    if voter.(IsIntelchainNode) then Ok allSignersShare else Dec.Add allSignersShare voter.(OverallPercent)) payable ZeroDec.
Definition due_of (defaultReward allSignersShare : Dec) (voter : AccommodateIntelchainVote) : outcome Dec :=
  let! q := Dec.Quo voter.(OverallPercent) allSignersShare in Dec.Mul defaultReward q.
Definition slot_payable (votingPower : Roster) (defaultReward allSignersShare : Dec) (bucket shardID : Z) (allPayables : list slotPayable) (js : Z * Slot)
    : outcome (list slotPayable) :=
  let! voter := voter_of votingPower js.2 in
  if negb voter.(IsIntelchainNode) && negb (IsZero voter.(OverallPercent)) then
    let! due := due_of defaultReward allSignersShare voter in
    Ok (allPayables ++ [mkPayable js.2 (TruncateInt due) bucket js.1 shardID])
  else Ok allPayables.
Definition processOneCrossLink (cxLink : CrossLink) (defaultReward : Dec) (bucket : Z) : SM RewardState (list slotPayable * list slotMissing) :=
  let epoch := cxLink.(EpochF) in
  let shardID := cxLink.(ShardIDF) in
  if negb (IsStaking bc.(rcConfig) (Some epoch)) then mret ([], [])
  else
    let! shardState := lift (bc.(rcReadShardState) epoch) in
    let! subComm := lift (FindCommitteeByID (Some shardState) shardID) in
    let! '(payableSigners, missing) := lift (BlockSigners cxLink.(BitmapF) (Some subComm)) in
    let! staked := lift (StakedValidators subComm) in
    let! _ := count_signing staked payableSigners missing in
    let! votingPower := lookupVotingPower epoch subComm in
    let! allSignersShare := lift (signers_share votingPower payableSigners) in
    let! allPayables := lift (foldM (slot_payable votingPower defaultReward allSignersShare bucket shardID) (zip (range payableSigners) payableSigners) []) in
    mret (allPayables, map (fun jm => mkMissing jm.2 bucket jm.1) (zip (range missing) missing)).

(** The payables of a list of cross links, each a bucket; those before staking are left out by [skip]. *)
Definition process_crosslinks (skip : CrossLink -> bool) (defaultReward : Dec) (crossLinks : list CrossLink) : SM RewardState (list slotPayable) :=
  sm_fold (fun allPayables (ic : Z * CrossLink) =>
    if skip ic.2 then mret allPayables
    else
      let! '(payables, _) := processOneCrossLink ic.2 defaultReward ic.1 in
      mret (allPayables ++ payables)) (zip (range crossLinks) crossLinks) [].

(** What every validator is due. *)
Definition add_due (dues : gmap Address Z) (p : slotPayable) : gmap Address Z :=
  let a := p.(spSlot).(EcdsaAddress) in
  match dues !! a with None => <[a := Z.abs p.(spPayout)]> dues | Some d => <[a := d + p.(spPayout)]> dues end.
Definition payout_of (p : slotPayable) : Payout := mkPayout p.(spSlot).(EcdsaAddress) p.(spPayout) p.(spSlot).(BLSPublicKey).
Definition pay_all (dues : gmap Address Z) : SM RewardState Z :=
  sm_fold (fun newRewards (a : Address) =>
    let due := default 0 (dues !! a) in
    let! _ := pay_validator a due in
    mret (newRewards + due)) (SliceStable (fun a b => a <? b) (map fst (walk dues))) 0.

(** The cross links of the blocks of a period; the header of the last is given. *)
Definition crosslinks_of (header : Header) (i : Z) : outcome (list CrossLink) :=
  match (if i =? Big.Uint64 (Number header) then Some header else bc.(rcGetHeaderByNumber) i) with
  | None => Panic nil_deref
  | Some curHeader =>
      let own := NewCrossLink curHeader (bc.(rcGetHeaderByHash) (ParentHash curHeader)) in
      match CrossLinks curHeader with
      | [] => Ok [own]
      | cxLinks => let! crossLinks := bc.(decode_crosslinks) cxLinks in Ok (own :: crossLinks)
      end
  end.
(** [for i := curBlockNum - frequency + 1; i <= curBlockNum; i++], for block
    numbers below 2^64 - 1. *)
Definition period (frequency curBlockNum : Z) : list Z :=
  let first := u64 (curBlockNum - frequency + 1) in seqZ first (curBlockNum - first + 1).
Definition distributeRewardAfterAggregateEpoch (header : Header) (rewardToDistribute : Dec) : SM RewardState (Dec * RewardReader) :=
  let epoch := Some (Epoch header) in
  let! '(defaultReward, remainingReward) := lift
    (if IsHIP30 bc.(rcConfig) epoch then
       let! instance := InstanceForEpoch schedule epoch in
       let fractionToRecovery := HIP30EmissionFraction instance in
       let! fractionToValidators := Dec.Sub OneDec fractionToRecovery in
       let! d := Dec.Mul rewardToDistribute fractionToValidators in
       let! r := Dec.Mul rewardToDistribute fractionToRecovery in
       Ok (d, r)
     else Ok (rewardToDistribute, ZeroDec)) in
  let! links := lift (mapM (crosslinks_of header) (period (RewardFrequency schedule) (Big.Uint64 (Number header)))) in
  let allCrossLinks := concat links in
  let! allPayables := process_crosslinks (fun c => negb (IsStaking bc.(rcConfig) (Some c.(EpochF)))) defaultReward allCrossLinks in
  let! newRewards := pay_all (foldl add_due ∅ allPayables) in
  let! remainder := lift (MulInt remainingReward (Z.of_nat (length allCrossLinks))) in
  mret (remainder, NewStakingEraRewardForRound newRewards (map payout_of allPayables)).

(** The buckets in order, each by index. *)
Definition by_bucket (n : Z) (allPayables : list slotPayable) : list slotPayable :=
  concat (map (fun b => SliceStable (fun p q => p.(spIndex) <? q.(spIndex)) (List.filter (fun p => p.(spBucket) =? b) allPayables)) (seqZ 0 n)).
Definition pay_slot (acc : Z * list Payout) (p : slotPayable) : SM RewardState (Z * list Payout) :=
  let! _ := pay_validator p.(spSlot).(EcdsaAddress) p.(spPayout) in
  mret (acc.1 + p.(spPayout), acc.2 ++ [payout_of p]).
(** A member of the beacon chain's own committee. *)
Definition pay_member (votingPower : Roster) (defaultReward allSignersShare : Dec) (acc : Z * list Payout) (slot : Slot) : SM RewardState (Z * list Payout) :=
  let! voter := lift (voter_of votingPower slot) in
  if voter.(IsIntelchainNode) then mret acc
  else
    let account := voter.(pure_vote).(EarningAccount) in
    let! snapshot := lift (bc.(rcReadValidatorSnapshot) account) in
    let! d := lift (due_of defaultReward allSignersShare voter) in
    let due := RoundInt d in
    let! shares := lookupDelegatorShares snapshot in
    let! _ := AddReward_at snapshot.(snapValidator) due shares in
    mret (acc.1 + due, acc.2 ++ [mkPayout account due voter.(pure_vote).(VotePower.Identity)]).
Definition distributeRewardBeforeAggregateEpoch (header : Header) (beaconChain : RewardChain) (defaultReward : Dec) (sigs : option bool)
    : SM RewardState (Dec * RewardReader) :=
  let! paid :=
    match CrossLinks header with
    | [] => mret (0, [])
    | cxLinks =>
        let! crossLinks := lift (bc.(decode_crosslinks) cxLinks) in
        let! allPayables := process_crosslinks (fun _ => false) defaultReward crossLinks in
        sm_fold pay_slot (by_bucket (Z.of_nat (length crossLinks)) allPayables) (0, [])
    end in
  let! _ := lift (waitForCommitSigs sigs) in
  let! '(parentE, members, payable, missing) := lift (ballotResultBeaconchain beaconChain header) in
  let subComm := mkCommittee BeaconChainShardID members in
  let! staked := lift (StakedValidators subComm) in
  let! _ := count_signing staked payable missing in
  let! votingPower := lookupVotingPower parentE subComm in
  let! allSignersShare := lift (signers_share votingPower payable) in
  let! '(newRewards, payouts) := sm_fold (pay_member votingPower defaultReward allSignersShare) payable paid in
  mret (ZeroDec, NewStakingEraRewardForRound newRewards payouts).

Definition AccumulateRewardsAndCountSigs (header : Header) (beaconChain : RewardChain) (sigs : option bool) : SM RewardState (Dec * RewardReader) :=
  let blockNum := Big.Uint64 (Number header) in
  let epoch := Some (Epoch header) in
  if blockNum =? 0 then let! _ := lift (waitForCommitSigs sigs) in mret (ZeroDec, noReward)
  else if negb (IsStaking bc.(rcConfig) epoch) then accumulateRewardsAndCountSigsBeforeStaking header sigs
  else if negb (ShardID bc.(rcCurrentHeader) =? BeaconChainShardID) then
    let! _ := lift (waitForCommitSigs sigs) in mret (ZeroDec, noReward)
  else
    let! defaultReward := lift (getDefaultStakingReward bc.(rcConfig) (Epoch header) blockNum) in
    if IsNegative defaultReward then mret (ZeroDec, noReward)
    else if negb (IsAggregatedRewardEpoch bc.(rcConfig) epoch)
    then distributeRewardBeforeAggregateEpoch header beaconChain defaultReward sigs
    else
      let! _ := lift (waitForCommitSigs sigs) in
      let frequency := RewardFrequency schedule in
      if frequency =? 0 then lift (Panic "integer divide by zero")
      else if negb (blockNum mod frequency =? u64 (frequency - 1)) then mret (ZeroDec, noReward)
      else distributeRewardAfterAggregateEpoch header defaultReward.
End reward.

(** ** Block rewards are booked as they are reported

    Whatever the era, what a block's reward says was newly earned is what the
    block rewards of the validators grew by, but for banned validators, who are
    reported a reward they do not get; nothing else of a validator changes but
    its counters and what its delegators are owed.  What the signers of one
    cross link get is the block's reward, up to a few attos of rounding each. *)

(** ** Rounding *)

Section budget.
Context (votingPower : Roster) (D : Dec) (HD : 0 <= D).
Notation P := precisionReuse.

(** The power a signer is paid for. *)
Definition paid_power (slot : Slot) : Z :=
  match votingPower.(Voters) !! slot.(BLSPublicKey) with Some v => if v.(IsIntelchainNode) then 0 else v.(OverallPercent) | None => 0 end.
Definition nonneg_roster (r : Roster) : Prop := forall k v, r.(Voters) !! k = Some v -> 0 <= v.(OverallPercent).

Lemma signers_share_sum payable A : signers_share votingPower payable = Ok A -> A = sumZ paid_power payable.
Proof.
  unfold signers_share. apply (foldM_inv (fun d acc => acc = sumZ paid_power d)); [done|].
  intros d slot acc acc' -> _. unfold voter_of. destruct (Voters votingPower !! BLSPublicKey slot) as [v|] eqn:E; [|done]. cbn [mbind outcome_bind].
  rewrite sumZ_app, sumZ_cons. change (sumZ paid_power []) with 0.
  assert (paid_power slot = if IsIntelchainNode v then 0 else OverallPercent v) as -> by (unfold paid_power; by rewrite E). destruct (IsIntelchainNode v).
  - intros [= <-]. by rewrite !Z.add_0_r.
  - intros [-> _]%Add_Ok. by rewrite Z.add_0_r.
Qed.

Lemma quotient_near p A q : 0 <= p -> 0 <= A -> Dec.Quo p A = Ok q -> 0 < A /\ 0 <= q /\ p * P - A <= q * A <= p * P + A.
Proof.
  intros Hp HA0 HQ. assert (0 < A) as HA by (destruct (proj1 (Quo_Ok _ _ _) HQ) as [Hne _]; unfold Dec in *; lia). split; [done|]. split; [by apply (Quo_nonneg p A)|]. apply Quo_Ok in HQ as (_ & -> & _).
  pose proof precisionReuse_pos as HP. assert (0 <= p * P * P) as H0 by nia. rewrite Z.quot_div_nonneg by lia.
  pose proof (Z.div_mod (p * P * P) A ltac:(lia)) as Ex. pose proof (Z.mod_pos_bound (p * P * P) A HA) as Hm.
  set (x := p * P * P / A) in *. destruct (chopPrecisionAndRound_nearest x) as [Hn _]. set (q := chopPrecisionAndRound x) in *. clearbody x q.
  rewrite precisionReuse_val in *. split; nia.
Qed.
Lemma due_near v A d : 0 <= v.(OverallPercent) -> 0 <= A -> due_of D A v = Ok d ->
  0 <= TruncateInt d /\
  D * (v.(OverallPercent) * P - A) - A * (P * P + P) <= A * (P * P) * TruncateInt d <= D * (v.(OverallPercent) * P + A) + A * P.
Proof.
  intros Hp HA0. unfold due_of. intros (q & HQ & HM)%bind_Ok. destruct (quotient_near _ _ _ Hp HA0 HQ) as (HA & Hq0 & Hq).
  apply Mul_Ok in HM as [-> _]. rewrite TruncateInt_spec. pose proof precisionReuse_pos as HP.
  assert (0 <= chopPrecisionAndRound (D * q)) as Hd0 by (apply chopPrecisionAndRound_nonneg; nia).
  destruct (chopPrecisionAndRound_nearest (D * q)) as [Hn _]. set (d := chopPrecisionAndRound (D * q)) in *. clearbody d.
  destruct (quot_rem_P d Hd0) as (Ed & Hr & Ht). set (t := Z.quot d P) in *. clearbody t. set (r := Z.rem d P) in *. clearbody r.
  split; [done|]. assert (D * q * A <= D * (OverallPercent v * P + A)) as H1 by nia. assert (D * (OverallPercent v * P - A) <= D * q * A) as H2 by nia.
  assert (2 * (P * (P * t)) <= 2 * (D * q) + P) as H3 by nia. assert (2 * (D * q) - P - 2 * (P * P) <= 2 * (P * (P * t))) as H4 by nia.
  split; nia.
Qed.

(** The payables of the signers [d]. *)
Lemma payables_near A bucket shardID payable ps : nonneg_roster votingPower -> 0 <= A ->
  foldM (slot_payable votingPower D A bucket shardID) (zip (range payable) payable) [] = Ok ps ->
  (forall p, p ∈ ps -> 0 <= p.(spPayout)) /\ (length ps <= length payable)%nat /\
  let n := Z.of_nat (length ps) in let s := P * sumZ paid_power payable in
  D * (s - n * A) - n * A * (P * P + P) <= A * (P * P) * sumZ spPayout ps <= D * (s + n * A) + n * A * P.
Proof.
  intros Hnn HA HF. assert (sumZ paid_power payable = sumZ (fun js => paid_power js.2) (zip (range payable) payable)) as ->.
  { rewrite <- (sumZ_map paid_power snd). f_equal. symmetry. apply snd_zip. unfold range. rewrite length_seqZ. lia. }
  assert (length (zip (range payable) payable) = length payable) as Hlen.
  { rewrite length_zip_with. unfold range. rewrite length_seqZ. lia. }
  rewrite <- Hlen. revert HF. apply (foldM_inv (fun d ps => (forall p, p ∈ ps -> 0 <= p.(spPayout)) /\ (length ps <= length d)%nat /\
    let n := Z.of_nat (length ps) in let s := P * sumZ (fun js => paid_power js.2) d in
    D * (s - n * A) - n * A * (P * P + P) <= A * (P * P) * sumZ spPayout ps <= D * (s + n * A) + n * A * P)).
  { split; [by intros p ?%elem_of_nil|]. cbn. rewrite !sumZ_nil. split; [done|]. lia. }
  intros d js acc acc' (H1 & H2 & H3) _. unfold slot_payable, voter_of. destruct (Voters votingPower !! BLSPublicKey js.2) as [v|] eqn:E; [|done].
  cbn [mbind outcome_bind]. rewrite sumZ_app, sumZ_cons. change (sumZ (fun js => paid_power js.2) []) with 0. rewrite Z.add_0_r.
  assert (paid_power js.2 = if IsIntelchainNode v then 0 else OverallPercent v) as -> by (unfold paid_power; by rewrite E).
  destruct (IsIntelchainNode v); cbn [negb andb].
  { intros [= <-]. rewrite Z.add_0_r. split; [done|]. rewrite length_app. split; [cbn; lia|done]. }
  unfold IsZero, Big.Sign. destruct (Z.eqb_spec (Z.sgn (OverallPercent v)) 0) as [Ez|Ez]; cbn [negb].
  { apply (proj1 (Z.sgn_null_iff _)) in Ez. rewrite Ez. intros [= <-]. rewrite Z.add_0_r. split; [done|]. rewrite length_app. split; [cbn; lia|done]. }
  intros (due & Hdue & [= <-])%bind_Ok. destruct (due_near v A due (Hnn _ _ E) HA Hdue) as [Hd0 Hd].
  split; [intros p [Hp| ->%list_elem_of_singleton]%elem_of_app; [by apply H1|done]|]. rewrite !length_app. split; [cbn; lia|].
  cbv zeta in *. rewrite sumZ_app, sumZ_cons, sumZ_nil. cbn [spPayout length]. rewrite Nat2Z.inj_add. change (Z.of_nat 1) with 1.
  set (t := TruncateInt due) in *. set (n := Z.of_nat (length acc)) in *. set (o := OverallPercent v) in *. set (S1 := sumZ spPayout acc) in *. set (S2 := sumZ _ d) in *.
  clearbody t n o S1 S2. lia.
Qed.
Lemma payables_power A bucket shardID payable ps : nonneg_roster votingPower -> 0 <= A ->
  foldM (slot_payable votingPower D A bucket shardID) (zip (range payable) payable) [] = Ok ps -> ps = [] \/ 0 < A.
Proof.
  intros Hnn HA. apply (foldM_inv (fun _ ps => ps = [] \/ 0 < A)); [by left|]. intros d js acc acc' Hacc _. unfold slot_payable, voter_of.
  destruct (Voters votingPower !! BLSPublicKey js.2) as [v|] eqn:E; [|done]. cbn [mbind outcome_bind]. destruct (_ && _); [|by intros [= <-]].
  intros (due & (q & HQ & _)%bind_Ok & [= <-])%bind_Ok. right. by destruct (quotient_near _ _ _ (Hnn _ _ E) HA HQ).
Qed.
(** What the signers of a cross link get together. *)
Lemma payables_budget bucket shardID payable A ps : nonneg_roster votingPower -> 0 <= A -> signers_share votingPower payable = Ok A ->
  foldM (slot_payable votingPower D A bucket shardID) (zip (range payable) payable) [] = Ok ps ->
  ps = [] \/ let n := Z.of_nat (length ps) in Z.abs (sumZ spPayout ps * (P * P) - D * P) <= n * (D + P * P + P).
Proof.
  intros Hnn HA Hs HF. destruct (payables_power _ _ _ _ _ Hnn HA HF) as [->|HA']; [by left|right].
  destruct (payables_near _ _ _ _ _ Hnn HA HF) as (_ & _ & Hb). cbv zeta in *. rewrite <- (signers_share_sum _ _ Hs) in Hb.
  pose proof precisionReuse_pos as HP. set (n := Z.of_nat (length ps)) in *. assert (0 <= n) as Hn by lia.
  set (S1 := sumZ spPayout ps) in *. clearbody n S1. destruct Hb as [Hb1 Hb2].
  assert (A * (D * P - n * (D + P * P + P)) <= A * (P * P * S1)) as H1 by lia. assert (A * (P * P * S1) <= A * (D * P + n * (D + P))) as H2 by lia.
  apply Z.mul_le_mono_pos_l in H1, H2; [|done..]. assert (n * (D + P) <= n * (D + P * P + P)) by nia. lia.
Qed.
End budget.

(** ** What paying changes *)

Definition stakes (w : ValidatorWrapper) : list (Address * Z * list Undelegation) :=
  map (fun d => (d.(DelegatorAddress), d.(Amount), d.(Undelegations))) w.(Delegations).
Definition earns (w : ValidatorWrapper) (e : Z) : Z := if decide (w.(validator).(Validator.Status) = Banned) then 0 else e.
(** A wrapper that was rewarded [e]; a banned one is not. *)
Definition rewarded (e : Z) (w w' : ValidatorWrapper) : Prop :=
  w'.(validator) = w.(validator) /\ stakes w' = stakes w /\ w'.(BlockReward) = w.(BlockReward) + earns w e.
Definition booked (e : Address -> Z) (vs vs' : ValidatorState) : Prop :=
  forall a, option_relation (rewarded (e a)) (fun _ => False) (fun _ => False) (vs !! a) (vs' !! a).
Lemma rewarded_refl w : rewarded 0 w w.
Proof. split_and!; [done|done|]. unfold earns. case_decide; lia. Qed.
Lemma booked_trans e1 e2 vs1 vs2 vs3 : booked e1 vs1 vs2 -> booked e2 vs2 vs3 -> booked (fun a => e1 a + e2 a) vs1 vs3.
Proof.
  intros H1 H2 a. specialize (H1 a). specialize (H2 a). destruct (vs1 !! a), (vs2 !! a), (vs3 !! a); try done.
  destruct H1 as (V1 & S1 & B1), H2 as (V2 & S2 & B2). unfold earns in *. rewrite V1 in *. split_and!; [congruence..|]. unfold earns. case_decide; lia.
Qed.
Lemma booked_refl vs : booked (fun _ => 0) vs vs.
Proof. intros a. destruct (vs !! a); [apply rewarded_refl|done]. Qed.
Lemma booked_insert e vs a w w' : vs !! a = Some w -> rewarded e w w' -> booked (fun b => if decide (b = a) then e else 0) vs (<[a := w']> vs).
Proof.
  intros Ha Hw b. destruct (decide (b = a)) as [->|Hne].
  - by rewrite Ha, lookup_insert_eq.
  - rewrite lookup_insert_ne by done. destruct (vs !! b); [apply rewarded_refl|done].
Qed.
Lemma booked_ext e e' vs vs' : (forall a, e a = e' a) -> booked e vs vs' -> booked e' vs vs'.
Proof. intros He Hb a. rewrite <- He. apply Hb. Qed.

(** Distributing a reward, however it ends. *)
Definition paid_part (B : Z) (w0 w : ValidatorWrapper) : Prop := w.(validator) = w0.(validator) /\ stakes w = stakes w0 /\ w.(BlockReward) = B.
Lemma add_reward_at_keeps B w0 i x : keeps (paid_part B w0) (add_reward_at i x).
Proof.
  intros w (V & S & R). unfold add_reward_at. destruct (Delegations w !! i) as [d|] eqn:E; [|by split_and!]. cbn [fst]. split_and!; [done| |done].
  rewrite <- S. unfold stakes. cbn [Delegations]. change (map ?f ?l) with (f <$> l). rewrite list_fmap_insert. apply list_insert_id. by rewrite list_lookup_fmap, E.
Qed.
Lemma pay_delegators_keeps B w0 shares total ds : forall i pool, keeps (paid_part B w0) (pay_delegators shares total i ds pool).
Proof.
  induction ds as [|d ds IH]; intros i pool; cbn [pay_delegators]; [apply keeps_ret|]. destruct (shares !! _); [|apply keeps_ret].
  apply keeps_bind; [apply keeps_lift|intros share]. apply keeps_bind; [apply add_reward_at_keeps|intros _; apply IH].
Qed.
Lemma distribute_keeps snapshot reward shares w w' r : distribute snapshot reward shares w = (w', r) -> paid_part (w.(BlockReward) + reward) w w'.
Proof.
  assert (keeps (paid_part (BlockReward w + reward) w)
    (let! commissionInt := lift (commission_of snapshot reward) in
     let! _ := sm_when (GT snapshot.(validator).(commission).(rates).(Rate) ZeroDec) (add_reward_at 0 commissionInt) in
     let rewardPool := reward - commissionInt in
     let! rest := pay_delegators shares rewardPool 0 snapshot.(Delegations) rewardPool in
     match rest with None => mret tt | Some rewardPool => sm_when (0 <? rewardPool) (add_reward_at 0 rewardPool) end)) as Hk.
  { apply keeps_bind; [apply keeps_lift|intros c]. apply keeps_bind; [apply keeps_when, add_reward_at_keeps|intros _].
    apply keeps_bind; [apply pay_delegators_keeps|intros [rest|]; [apply keeps_when, add_reward_at_keeps|apply keeps_ret]]. }
  intros E. assert (fst (distribute snapshot reward shares w) = w') as <- by (by rewrite E). refine (Hk (add_block_reward reward w) _). by split_and!.
Qed.

(** ** Folds *)

Lemma sm_fold_inv {S A B} (P : list A -> B -> S -> Prop) (f : B -> A -> SM S B) l b s s' b' :
  P [] b s -> (forall d a b s s' b', a ∈ l -> P d b s -> f b a s = (s', Ok b') -> P (d ++ [a]) b' s') -> sm_fold f l b s = (s', Ok b') -> P l b' s'.
Proof.
  intros H0 Hs. enough (forall d b s, P d b s -> sm_fold f l b s = (s', Ok b') -> P (d ++ l) b' s') as Hgen by apply (Hgen [] b s H0).
  clear H0 b s. induction l as [|a l IH]; intros d b s Hd; cbn [sm_fold]; [intros [= <- <-]; by rewrite app_nil_r|].
  intros (s1 & b1 & H1 & H2)%SM_bind_Ok. replace (d ++ a :: l) with ((d ++ [a]) ++ l) by (by rewrite <- app_assoc).
  eapply IH; [intros d' c x t t' x' Hc; apply Hs; by right|eapply Hs; [by left|exact Hd|exact H1]|exact H2].
Qed.

(** ** Steps *)

Section reward.
Context {L : BLSLib} {W : Walk}.
Context {VC : KeyedLRU (Z * Z) Roster} {DC : KeyedLRU (Z * Address) (gmap Address Dec)} (vlaws : KeyedLRULaws VC).
Context (bc : RewardChain) (schedule : Schedule).

(** No voter of a cached roster, or of a committee of the chain, has negative power. *)
Definition powers_cached (s : RewardState) : Prop := forall k r, fst (k_Get s.(votingPowerCache) k) = Some r -> nonneg_roster r.
Record step (e : Address -> Z) (s s' : RewardState) : Prop := {
  st_booked : booked e s.(rsState).(validators) s'.(rsState).(validators);
  st_balances : s'.(rsState).(balances) = s.(rsState).(balances);
}.
Lemma step_refl s : step (fun _ => 0) s s.
Proof. split; [apply booked_refl|done]. Qed.
Lemma step_trans e1 e2 s1 s2 s3 : step e1 s1 s2 -> step e2 s2 s3 -> step (fun a => e1 a + e2 a) s1 s3.
Proof. intros [H1 H2] [H3 H4]. split; [by eapply booked_trans|congruence]. Qed.
Lemma step_ext e e' s s' : (forall a, e a = e' a) -> step e s s' -> step e' s s'.
Proof. intros He [H1 H2]. split; [by eapply booked_ext|done]. Qed.
Lemma step_zero s s' e : step (fun _ => 0) s s' -> (forall a, e a = 0) -> step e s s'.
Proof. intros H He. by apply (step_ext (fun _ => 0)). Qed.

Definition good_committee (epoch : Z) (com : Committee) : Prop := forall r, VotePower.Compute schedule com (Some epoch) = Ok r -> nonneg_roster r.
Lemma lookupVotingPower_step epoch com s s' r : lookupVotingPower schedule epoch com s = (s', Ok r) ->
  step (fun _ => 0) s s' /\ (powers_cached s -> good_committee epoch com -> powers_cached s' /\ nonneg_roster r).
Proof.
  unfold lookupVotingPower. destruct (k_Get (votingPowerCache s) _) as [[hit|] c] eqn:E; [|destruct (VotePower.Compute _ _ _) as [r0| |] eqn:EC; [|done..]]; intros [= <- <-];
    (split; [split; [apply booked_refl|done]|]); intros Hc Hg.
  - split; [|apply (Hc (epoch, Shard.ShardID com)); by rewrite E]. intros k r1 Hk. apply (Hc k). eapply (k_Get_keeps (KeyedLRULaws := vlaws)). rewrite E. exact Hk.
  - pose proof (Hg r0 EC) as Hn. split; [|exact Hn]. intros k r1 [[-> ->]|Hk]%(k_Add_keeps (KeyedLRULaws := vlaws)); [done|].
    apply (Hc k). eapply (k_Get_keeps (KeyedLRULaws := vlaws)). rewrite E. exact Hk.
Qed.
Lemma lookupDelegatorShares_step snapshot s s' r : lookupDelegatorShares snapshot s = (s', Ok r) -> step (fun _ => 0) s s' /\ votingPowerCache s' = votingPowerCache s.
Proof.
  unfold lookupDelegatorShares. destruct (snapEpoch snapshot); [|done]. destruct (k_Get _ _) as [[hit|] c]; [by intros [= <- <-]; split; [split; [apply booked_refl|]|]|].
  destruct (IsZero _); [by intros [= <- <-]; split; [split; [apply booked_refl|]|]|]. destruct (delegator_shares _ _); [|done..].
  by intros [= <- <-]; split; [split; [apply booked_refl|]|].
Qed.
Lemma AddReward_step snapshot due shares s s' : AddReward_at snapshot due shares s = (s', Ok tt) ->
  step (fun a => if decide (a = snapshot.(validator).(vAddress)) then due else 0) s s' /\ votingPowerCache s' = votingPowerCache s.
Proof.
  unfold AddReward_at. destruct (Z.eqb_spec due 0) as [->|_].
  { intros [= <-]. split; [|done]. apply step_zero; [apply step_refl|]. intros a. by case_decide. }
  unfold ValidatorWrapperAt. set (a := vAddress _). destruct (validators (rsState s) !! a) as [w|] eqn:E; [|done].
  case_decide as Hb.
  { intros [= <-]. split; [|done]. split; [|done]. apply (booked_ext (fun b => if decide (b = a) then due else 0)); [done|].
    rewrite <- (insert_id _ a w E) at 2. apply booked_insert with (w := w); [done|]. split_and!; [done|done|]. unfold earns. rewrite decide_True by done. lia. }
  destruct (distribute _ _ _ w) as [w' r] eqn:Ed. intros [= <- ->]. split; [|done]. split; [|done]. cbn. apply booked_insert with (w := w); [done|].
  destruct (distribute_keeps _ _ _ _ _ _ Ed) as (V & S & R). split_and!; [done|done|]. unfold earns. rewrite decide_False by done. exact R.
Qed.

(** Counting changes counters only. *)
Lemma bump_slots_booked vs did addrs slots vs' r : bump_slots vs did addrs slots = (vs', r) -> booked (fun _ => 0) vs vs'.
Proof.
  revert vs. induction slots as [|slot slots IH]; intros vs; cbn [bump_slots]; [intros [= <- _]; apply booked_refl|]. case_decide; [|apply IH].
  unfold ValidatorWrapperAt. destruct (vs !! EcdsaAddress slot) as [w|] eqn:E; [|intros [= <- _]; apply booked_refl].
  intros Hb%IH. apply (booked_ext (fun a => (if decide (a = EcdsaAddress slot) then 0 else 0) + 0)); [intros a; by case_decide|].
  eapply booked_trans; [apply booked_insert with (w := w); [done|]|exact Hb]. split_and!; [done|done|]. unfold earns. cbn. case_decide; lia.
Qed.
Lemma count_signing_step staked signers missing s s' : count_signing staked signers missing s = (s', Ok tt) ->
  step (fun _ => 0) s s' /\ votingPowerCache s' = votingPowerCache s.
Proof.
  unfold count_signing, IncrementValidatorSigningCounts. cbn [bumpCount]. destruct (bump_slots _ false _ _) as [vs1 [u1|e1|w1]] eqn:E1; [|done..].
  destruct (bump_slots vs1 true _ _) as [vs2 [u2|e2|w2]] eqn:E2; [|done..]. intros [= <-]. split; [|done]. split; [|done]. cbn.
  eapply (booked_trans (fun _ => 0) (fun _ => 0)); eapply bump_slots_booked; eassumption.
Qed.

(** Snapshots are their addresses'. *)
Context (Hsnapshots : forall a snapshot, rcReadValidatorSnapshot bc a = Ok snapshot -> snapshot.(snapValidator).(validator).(vAddress) = a).
Definition only (a : Address) (x : Z) : Address -> Z := fun b => if decide (b = a) then x else 0.
Lemma pay_validator_step a due s s' : pay_validator bc a due s = (s', Ok tt) -> step (only a due) s s' /\ votingPowerCache s' = votingPowerCache s.
Proof.
  intros (s1 & snapshot & [= <- Hs] & H)%SM_bind_Ok. apply SM_bind_Ok in H as (s2 & shares & [H2 C2]%lookupDelegatorShares_step & [H3 C3]%AddReward_step).
  rewrite (Hsnapshots a snapshot Hs) in H3. split; [|congruence]. eapply step_ext; [|by eapply step_trans]. done.
Qed.

(** *** Cross links *)

Definition good_chain (ch : RewardChain) : Prop := forall epoch st shardID com,
  rcReadShardState ch epoch = Ok st -> FindCommitteeByID (Some st) shardID = Ok com -> good_committee epoch com.
Lemma share_nonneg r payable A : nonneg_roster r -> signers_share r payable = Ok A -> 0 <= A.
Proof.
  intros Hn HA. rewrite (signers_share_sum _ _ _ HA). apply sumZ_nonneg. intros slot _. unfold paid_power.
  destruct (Voters r !! _) as [v|] eqn:E; [|done]. destruct (IsIntelchainNode v); [done|]. by eapply Hn.
Qed.
Lemma processOneCrossLink_step cx D b s s' ps ms : 0 <= D -> good_chain bc -> processOneCrossLink bc schedule cx D b s = (s', Ok (ps, ms)) ->
  step (fun _ => 0) s s' /\ (powers_cached s -> powers_cached s' /\ forall p, p ∈ ps -> 0 <= p.(spPayout)).
Proof.
  intros HD Hg. unfold processOneCrossLink. destruct (negb _); [intros [= <- <- <-]; split; [apply step_refl|]; intros Hc; split; [done|by intros p ?%elem_of_nil]|].
  intros (s1 & st & [= <- Hst] & H)%SM_bind_Ok. apply SM_bind_Ok in H as (s2 & com & [= <- Hcom] & H).
  apply SM_bind_Ok in H as (s3 & [payable missing] & [= <- _] & H). apply SM_bind_Ok in H as (s4 & staked & [= <- _] & H).
  apply SM_bind_Ok in H as (s5 & [] & [H5 C5]%count_signing_step & H). apply SM_bind_Ok in H as (s6 & power & [H6 C6]%lookupVotingPower_step & H).
  apply SM_bind_Ok in H as (s7 & A & [= <- HA] & H). apply SM_bind_Ok in H as (s8 & all & [= <- Hall] & H). injection H as <- <- <-.
  split; [eapply step_ext; [|by eapply step_trans]; done|]. intros Hc.
  destruct C6 as [Hc' Hn]; [intros k r; rewrite C5; apply Hc|by eapply Hg|]. split; [done|].
  by destruct (payables_near _ _ HD _ _ _ _ _ Hn (share_nonneg _ _ _ Hn HA) Hall) as [Hp _].
Qed.
Lemma process_crosslinks_step skip D links s s' ps : 0 <= D -> good_chain bc -> process_crosslinks bc schedule skip D links s = (s', Ok ps) ->
  step (fun _ => 0) s s' /\ (powers_cached s -> powers_cached s' /\ forall p, p ∈ ps -> 0 <= p.(spPayout)).
Proof.
  intros HD Hg. unfold process_crosslinks.
  apply (sm_fold_inv (fun _ acc s1 => step (fun _ => 0) s s1 /\ (powers_cached s -> powers_cached s1 /\ forall p, p ∈ acc -> 0 <= p.(spPayout)))).
  { split; [apply step_refl|]. intros Hc. split; [done|by intros p ?%elem_of_nil]. }
  intros d [b cx] acc s1 s2 acc' _ [H1 C1]. cbn [snd fst]. destruct (skip cx); [by intros [= <- <-]|].
  intros (s3 & [ps3 ms3] & H3 & [= <- <-])%SM_bind_Ok. apply processOneCrossLink_step in H3 as [H3 C3]; [|done..].
  split; [eapply step_ext; [|by eapply step_trans]; done|]. intros Hc. destruct (C1 Hc) as [Hc1 Hp1]. destruct (C3 Hc1) as [Hc3 Hp3]. split; [done|].
  intros p [Hp|Hp]%elem_of_app; auto.
Qed.

(** *** Paying *)

Definition earned (payouts : list Payout) (a : Address) : Z := sumZ (fun p => if decide (a = p.(poAddr)) then p.(NewlyEarned) else 0) payouts.
Lemma earned_snoc payouts p a : earned (payouts ++ [p]) a = earned payouts a + only p.(poAddr) p.(NewlyEarned) a.
Proof. unfold earned, only. rewrite sumZ_app, sumZ_cons, sumZ_nil. lia. Qed.
(** The report so far is what was booked. *)
Definition reported (s0 : RewardState) (acc : Z * list Payout) (s : RewardState) : Prop :=
  step (earned acc.2) s0 s /\ acc.1 = sumZ NewlyEarned acc.2.
Lemma reported_pay s0 acc s s' p : reported s0 acc s -> step (only p.(poAddr) p.(NewlyEarned)) s s' -> reported s0 (acc.1 + p.(NewlyEarned), acc.2 ++ [p]) s'.
Proof.
  intros [H1 H2] H. split; cbn.
  - eapply step_ext; [|by eapply step_trans]. intros a. cbn. by rewrite earned_snoc.
  - rewrite sumZ_app, sumZ_cons, sumZ_nil, H2. lia.
Qed.
Lemma reported_silent s0 acc s s' : reported s0 acc s -> step (fun _ => 0) s s' -> reported s0 acc s'.
Proof. intros [H1 H2] H. split; [|done]. eapply step_ext; [|by eapply step_trans]. intros a. cbn. lia. Qed.
Lemma reported_nil s : reported s (0, []) s.
Proof. split; [apply step_refl|done]. Qed.
Lemma pay_slot_reported s0 acc p s s' acc' : reported s0 acc s -> pay_slot bc acc p s = (s', Ok acc') -> reported s0 acc' s'.
Proof.
  intros Hr. unfold pay_slot. intros (s1 & [] & [H _]%pay_validator_step & [= <- <-])%SM_bind_Ok. by apply (reported_pay s0 acc s s1 (payout_of p)).
Qed.
Lemma pay_member_reported power D A s0 acc slot s s' acc' : reported s0 acc s -> pay_member bc power D A acc slot s = (s', Ok acc') -> reported s0 acc' s'.
Proof.
  intros Hr. unfold pay_member. intros (s1 & voter & [= <- _] & H)%SM_bind_Ok. destruct (IsIntelchainNode voter); [by injection H as <- <-|].
  apply SM_bind_Ok in H as (s2 & snapshot & [= <- Hsn] & H). apply SM_bind_Ok in H as (s3 & d & [= <- _] & H).
  apply SM_bind_Ok in H as (s4 & shares & [H4 _]%lookupDelegatorShares_step & H). apply SM_bind_Ok in H as (s5 & [] & [H5 _]%AddReward_step & [= <- <-]).
  rewrite (Hsnapshots _ _ Hsn) in H5.
  apply (reported_pay s0 acc s s5 (mkPayout (EarningAccount (pure_vote voter)) (RoundInt d) (VotePower.Identity (pure_vote voter))) Hr).
  eapply step_ext; [|by eapply step_trans]. done.
Qed.

(** Every validator is due what its slots earned. *)
Lemma add_due_earned ps dues a : (forall p, p ∈ ps -> 0 <= p.(spPayout)) ->
  default 0 (foldl add_due dues ps !! a) = default 0 (dues !! a) + earned (map payout_of ps) a.
Proof.
  revert dues. induction ps as [|p ps IH]; intros dues Hp; cbn [foldl map]; [unfold earned; rewrite sumZ_nil; lia|].
  rewrite IH by (intros q Hq; apply Hp; by right). unfold earned. rewrite sumZ_cons. fold (earned (map payout_of ps) a).
  cbn [poAddr NewlyEarned payout_of]. specialize (Hp p ltac:(by left)). unfold add_due. set (b := EcdsaAddress (spSlot p)).
  destruct (dues !! b) as [x|] eqn:E; (destruct (decide (a = b)) as [->|Hne]; [rewrite lookup_insert_eq, E|rewrite lookup_insert_ne by done]); cbn; lia.
Qed.
Lemma sum_only (l : list Address) a x : NoDup l -> a ∈ l -> sumZ (fun b => if decide (b = a) then x else 0) l = x.
Proof.
  induction 1 as [|c l Hc Hl IH]; [by intros ?%elem_of_nil|]. intros [->|Ha]%elem_of_cons; rewrite sumZ_cons.
  - rewrite decide_True, sumZ_zero by (intros; rewrite ?decide_False; congruence). lia.
  - rewrite decide_False, IH by congruence. done.
Qed.
Lemma earned_total (l : list Address) payouts : NoDup l -> (forall p, p ∈ payouts -> p.(poAddr) ∈ l) -> sumZ (earned payouts) l = sumZ NewlyEarned payouts.
Proof.
  intros Hl. induction payouts as [|p ps IH]; intros Hp; [by apply sumZ_zero|]. rewrite sumZ_cons, <- IH by (intros q Hq; apply Hp; by right).
  rewrite <- (sum_only l (poAddr p) (NewlyEarned p)) by (done || (apply Hp; by left)). rewrite <- sumZ_plus. apply sumZ_ext. intros a _.
  unfold earned. by rewrite sumZ_cons.
Qed.
Lemma earned_absent payouts a : (forall p, p ∈ payouts -> p.(poAddr) <> a) -> earned payouts a = 0.
Proof. intros Hp. apply sumZ_zero. intros p Hpp. rewrite decide_False; [done|]. intros ->. by eapply Hp. Qed.
Lemma add_due_dom ps dues a : is_Some (foldl add_due dues ps !! a) <-> is_Some (dues !! a) \/ exists p, p ∈ ps /\ EcdsaAddress (spSlot p) = a.
Proof.
  revert dues. induction ps as [|p ps IH]; intros dues; cbn [foldl]; [split; [by left|intros [?|(p & ?%elem_of_nil & _)]; done]|].
  rewrite IH. assert (is_Some (add_due dues p !! a) <-> is_Some (dues !! a) \/ EcdsaAddress (spSlot p) = a) as ->.
  { unfold add_due. destruct (dues !! EcdsaAddress (spSlot p)) eqn:E; rewrite lookup_insert_is_Some; destruct (decide (EcdsaAddress (spSlot p) = a)) as [<-|]; naive_solver. }
  set_solver.
Qed.

Definition payees (dues : gmap Address Z) : list Address := SliceStable (fun a b => a <? b) (map fst (walk dues)).
Lemma payees_perm dues : payees dues ≡ₚ map fst (map_to_list dues).
Proof. unfold payees. rewrite SliceStable_perm. change (map fst ?l) with (fst <$> l). by rewrite walk_perm. Qed.
Lemma NoDup_payees dues : NoDup (payees dues).
Proof. rewrite payees_perm. apply NoDup_fst_map_to_list. Qed.
Lemma elem_of_payees dues a : a ∈ payees dues <-> is_Some (dues !! a).
Proof.
  rewrite payees_perm. change (map fst ?l) with (fst <$> l). rewrite list_elem_of_fmap. split.
  - intros ([b x] & -> & Hb%elem_of_map_to_list). by exists x.
  - intros [x Hx]. exists (a, x). by rewrite elem_of_map_to_list.
Qed.
Lemma pay_all_reported ps s s' total : (forall p, p ∈ ps -> 0 <= p.(spPayout)) -> pay_all bc (foldl add_due ∅ ps) s = (s', Ok total) ->
  reported s (total, map payout_of ps) s'.
Proof.
  intros Hp. set (dues := foldl add_due ∅ ps). assert (forall a, default 0 (dues !! a) = earned (map payout_of ps) a) as Hdue.
  { intros a. unfold dues. rewrite add_due_earned, lookup_empty by done. done. }
  assert (forall a, a ∈ payees dues <-> exists p, p ∈ ps /\ EcdsaAddress (spSlot p) = a) as Hin.
  { intros a. rewrite elem_of_payees. unfold dues. rewrite add_due_dom, lookup_empty. split; [intros [[? ?]|?]; done|by right]. }
  unfold pay_all. fold (payees dues). intros H.
  assert (step (fun b => sumZ (fun a => only a (default 0 (dues !! a)) b) (payees dues)) s s' /\ total = sumZ (fun a => default 0 (dues !! a)) (payees dues)) as [Hs Ht].
  { revert H. apply (sm_fold_inv (fun d acc s1 => step (fun b => sumZ (fun a => only a (default 0 (dues !! a)) b) d) s s1 /\ acc = sumZ (fun a => default 0 (dues !! a)) d)).
    - split; [|done]. apply step_zero; [apply step_refl|done].
    - intros d a acc s1 s2 acc' _ [H1 ->] (s3 & [] & [H3 _]%pay_validator_step & [= <- <-])%SM_bind_Ok. split.
      + eapply step_ext; [|by eapply step_trans]. intros b. cbn. rewrite sumZ_app, sumZ_cons, sumZ_nil. lia.
      + rewrite sumZ_app, sumZ_cons, sumZ_nil. lia. }
  split; cbn [fst snd].
  - eapply step_ext; [|exact Hs]. intros b. cbn. rewrite <- Hdue. unfold only. destruct (decide (b ∈ payees dues)) as [Hb|Hb].
    + rewrite <- (sum_only (payees dues) b (default 0 (dues !! b))) by (done || apply NoDup_payees). apply sumZ_ext. intros a _.
      destruct (decide (b = a)) as [->|]; [by rewrite decide_True|by rewrite decide_False].
    + rewrite elem_of_payees in Hb. destruct (dues !! b) as [x|] eqn:E; [by destruct Hb; exists x|]. apply sumZ_zero. intros a Ha. rewrite decide_False; [done|].
      intros ->. apply elem_of_payees in Ha as [x Hx]. congruence.
  - rewrite Ht, (sumZ_ext _ (earned (map payout_of ps))) by (intros; apply Hdue). apply earned_total; [apply NoDup_payees|].
    intros p (q & -> & Hq)%list_elem_of_fmap. apply Hin. by exists q.
Qed.

(** *** The eras *)

Lemma distributeBefore_reported header beacon D sigs s s' rem reader : 0 <= D -> good_chain bc ->
  distributeRewardBeforeAggregateEpoch bc schedule header beacon D sigs s = (s', Ok (rem, reader)) ->
  exists acc, reader = NewStakingEraRewardForRound acc.1 acc.2 /\ rem = ZeroDec /\ reported s acc s'.
Proof.
  intros HD Hg. unfold distributeRewardBeforeAggregateEpoch. intros (s1 & acc & H1 & H)%SM_bind_Ok.
  assert (reported s acc s1) as Hr1.
  { destruct (CrossLinks header); [injection H1 as <- <-; apply reported_nil|]. apply SM_bind_Ok in H1 as (s2 & links & [= <- _] & H1).
    apply SM_bind_Ok in H1 as (s3 & ps & [H3 _]%process_crosslinks_step & H1); [|done..]. revert H1.
    apply (sm_fold_inv (fun _ acc s' => reported s acc s')); [by apply (reported_silent s (0, []) s); [apply reported_nil|]|]. intros _ p b t t' b' _. apply pay_slot_reported. }
  apply SM_bind_Ok in H as (s2 & [] & [= <- _] & H). apply SM_bind_Ok in H as (s3 & [[[pe members] payable] missing] & [= <- _] & H).
  apply SM_bind_Ok in H as (s4 & staked & [= <- _] & H). apply SM_bind_Ok in H as (s5 & [] & [H5 _]%count_signing_step & H).
  apply SM_bind_Ok in H as (s6 & power & [H6 _]%lookupVotingPower_step & H). apply SM_bind_Ok in H as (s7 & A & [= <- _] & H).
  apply SM_bind_Ok in H as (s8 & acc' & H8 & H).
  assert (reported s acc' s8) as Hr8.
  { revert H8. apply (sm_fold_inv (fun _ acc s' => reported s acc s')); [eapply reported_silent; [eapply reported_silent|]; eassumption|]. intros _ slot b t t' b' _. apply pay_member_reported. }
  destruct acc' as [newRewards payouts]. injection H as <- <- <-. by exists (newRewards, payouts).
Qed.
Context (Hvalid : forall e i, InstanceForEpoch schedule e = Ok i -> instance_valid i = true).
Lemma distributeAfter_reported header D s s' rem reader : 0 <= D -> good_chain bc -> powers_cached s ->
  distributeRewardAfterAggregateEpoch bc schedule header D s = (s', Ok (rem, reader)) ->
  exists acc, reader = NewStakingEraRewardForRound acc.1 acc.2 /\ 0 <= rem /\ reported s acc s'.
Proof.
  intros HD Hg Hc. unfold distributeRewardAfterAggregateEpoch. intros (s1 & [D' R] & [= <- H1] & H)%SM_bind_Ok.
  assert (0 <= D' /\ 0 <= R) as [HD' HR].
  { destruct (IsHIP30 _ _); [|injection H1 as <- <-; split; done]. apply bind_Ok in H1 as (i & Hi & H1). apply bind_Ok in H1 as (v & Hv & H1).
    apply bind_Ok in H1 as (d & Hd & H1). apply bind_Ok in H1 as (r & Hr & [= <- <-]).
    pose proof (Hvalid _ _ Hi) as Hval. unfold instance_valid in Hval. repeat (apply andb_true_iff in Hval as [Hval ?]).
    apply Sub_Ok in Hv as [-> _]. unfold HIP30EmissionFraction in *. split; [eapply Mul_nonneg; [| |exact Hd]|eapply Mul_nonneg; [| |exact Hr]]; unfold Dec in *; lia. }
  apply SM_bind_Ok in H as (s2 & links & [= <- _] & H). apply SM_bind_Ok in H as (s3 & ps & [H3 C3]%process_crosslinks_step & H); [|done..].
  destruct (C3 Hc) as [_ Hps]. apply SM_bind_Ok in H as (s4 & total & H4%pay_all_reported & H); [|done].
  apply SM_bind_Ok in H as (s5 & r & [= <- Hr] & [= <- <- <-]). exists (total, map payout_of ps). split; [done|]. split.
  - unfold MulInt in Hr. apply checked_Ok in Hr as [-> _]. nia.
  - destruct H4 as [H4 Ht]. split; [|exact Ht]. eapply step_ext; [|by eapply step_trans]. done.
Qed.
Lemma getDefaultStakingReward_nonneg c e n D : getDefaultStakingReward c e n = Ok D -> 0 <= D.
Proof.
  unfold getDefaultStakingReward. intros (b & _ & [= <-])%bind_Ok.
  assert (0 <= HIP30StakedBlocks /\ 0 <= TwoSecStakedBlocks /\ 0 <= FiveSecStakedBlocks /\ 0 <= StakedBlocks) as (? & ? & ? & ?) by (split_and!; by vm_compute).
  by repeat case_match.
Qed.

(** What a block's report says of the state before and after it. *)
Record rewards_booked (s s' : RewardState) (remainder : Dec) (reader : RewardReader) : Prop := {
  rb_total : (ReadRoundResult reader).(Total) = sumZ NewlyEarned (ReadRoundResult reader).(Payouts);
  rb_remainder : 0 <= remainder;
  rb_booked : booked (earned (ReadRoundResult reader).(Payouts)) s.(rsState).(validators) s'.(rsState).(validators);
  rb_balances : s'.(rsState).(balances) = s.(rsState).(balances)
}.
Lemma booked_nothing s : rewards_booked s s ZeroDec noReward.
Proof. split; [done|done|apply booked_refl|done]. Qed.
Lemma booked_round s s' remainder acc : 0 <= remainder -> reported s acc s' -> rewards_booked s s' remainder (NewStakingEraRewardForRound acc.1 acc.2).
Proof. intros Hr [[Hb Hbal] Ht]. by split. Qed.
End reward.

(** C15: in the staking era a block's rewards are booked as they are reported:
    when [AccumulateRewardsAndCountSigs] succeeds the reported total is the sum
    of the reported payouts, the block reward of every validator grew by exactly
    the payouts in its name, or not at all if it is banned, no stake,
    undelegation or other trait of a validator changed, no balance did, and the
    share set aside for recovery is not negative. *)
Theorem AccumulateRewardsAndCountSigs_reported {L : BLSLib} {W : Walk} {VC : KeyedLRU (Z * Z) Roster} {DC : KeyedLRU (Z * Address) (gmap Address Dec)}
    (vlaws : KeyedLRULaws VC) bc schedule header beacon sigs s s' remainder reader :
  (forall e i, InstanceForEpoch schedule e = Ok i -> instance_valid i = true) ->
  (forall a snapshot, rcReadValidatorSnapshot bc a = Ok snapshot -> snapshot.(snapValidator).(validator).(vAddress) = a) ->
  good_chain schedule bc -> powers_cached s -> IsStaking bc.(rcConfig) (Some (Epoch header)) = true ->
  AccumulateRewardsAndCountSigs bc schedule header beacon sigs s = (s', Ok (remainder, reader)) ->
  rewards_booked s s' remainder reader.
Proof.
  intros Hvalid Hsn Hg Hc Hst. unfold AccumulateRewardsAndCountSigs. rewrite Hst. cbn [negb].
  destruct (_ =? 0); [intros (s1 & [] & [= <- _] & [= <- <- <-])%SM_bind_Ok; apply booked_nothing|].
  destruct (negb (_ =? _)); [intros (s1 & [] & [= <- _] & [= <- <- <-])%SM_bind_Ok; apply booked_nothing|].
  intros (s1 & D & [= <- HD%getDefaultStakingReward_nonneg] & H)%SM_bind_Ok. destruct (IsNegative D); [injection H as <- <- <-; apply booked_nothing|].
  destruct (negb (IsAggregatedRewardEpoch _ _)).
  - destruct (distributeBefore_reported vlaws bc schedule Hsn _ _ _ _ _ _ _ _ HD Hg H) as (acc & -> & -> & Hr). by apply booked_round.
  - apply SM_bind_Ok in H as (s2 & [] & [= <- _] & H). destruct (_ =? 0); [done|]. destruct (negb _); [injection H as <- <- <-; apply booked_nothing|].
    destruct (distributeAfter_reported vlaws bc schedule Hsn Hvalid _ _ _ _ _ _ HD Hg Hc H) as (acc & -> & Hrem & Hr). by apply booked_round.
Qed.

(** C16: the signers of a cross link share one block's reward.  When
    [processOneCrossLink] succeeds no payout is negative, and if anybody is paid
    the payouts sum to the reward but for the rounding of [n] payouts, each by
    less than the reward's tokens and two in attos (29 and 1 for the reward of
    28 tokens); only counters of validators change. *)
Theorem processOneCrossLink_budget {L : BLSLib} {VC : KeyedLRU (Z * Z) Roster} {DC : KeyedLRU (Z * Address) (gmap Address Dec)}
    (vlaws : KeyedLRULaws VC) bc schedule cxLink defaultReward bucket s s' payables missing :
  0 <= defaultReward -> good_chain schedule bc -> powers_cached s ->
  processOneCrossLink bc schedule cxLink defaultReward bucket s = (s', Ok (payables, missing)) ->
  (forall p, p ∈ payables -> 0 <= p.(spPayout)) /\
  (payables = [] \/ Z.abs (sumZ spPayout payables * (OneDec * OneDec) - defaultReward * OneDec) <=
     Z.of_nat (length payables) * (defaultReward + OneDec * OneDec + OneDec)) /\
  booked (fun _ => 0) s.(rsState).(validators) s'.(rsState).(validators) /\ s'.(rsState).(balances) = s.(rsState).(balances).
Proof.
  intros HD Hg Hc H. destruct (processOneCrossLink_step vlaws bc schedule _ _ _ _ _ _ _ HD Hg H) as [[Hb Hbal] Hps]. destruct (Hps Hc) as [_ Hp].
  split; [exact Hp|]. split; [|by split]. revert H. unfold processOneCrossLink. destruct (negb _); [intros [= <- <- <-]; by left|].
  intros (s1 & st & [= <- Hst] & H)%SM_bind_Ok. apply SM_bind_Ok in H as (s2 & com & [= <- Hcom] & H).
  apply SM_bind_Ok in H as (s3 & [payable miss] & [= <- _] & H). apply SM_bind_Ok in H as (s4 & staked & [= <- _] & H).
  apply SM_bind_Ok in H as (s5 & [] & [_ C5]%count_signing_step & H). apply SM_bind_Ok in H as (s6 & power & [_ C6]%(lookupVotingPower_step vlaws) & H).
  apply SM_bind_Ok in H as (s7 & A & [= <- HA] & H). apply SM_bind_Ok in H as (s8 & all & [= <- Hall] & H). injection H as <- <- <-.
  destruct C6 as [_ Hn]; [intros k r; rewrite C5; apply Hc|by eapply Hg|]. change OneDec with precisionReuse.
  exact (payables_budget _ _ HD _ _ _ _ _ Hn (share_nonneg _ _ _ Hn HA) HA Hall).
Qed.

(** *** Before staking *)

(** The first [k] of [n] signers' part of the reward. *)
Definition pre_share (n k : Z) : Z := PreStakedBlocks * k / n.
Lemma pre_staking_exact st signers : signers <> [] -> let n := Z.of_nat (length signers) in
  exists st', foldM (pre_staking_payout n) (zip (range signers) signers) (st, 0, 0) = Ok (st', PreStakedBlocks, PreStakedBlocks) /\ st'.(validators) = st.(validators) /\
    forall a, balance st' a = balance st a + sumZ (fun ia => if decide (a = EcdsaAddress ia.2) then pre_share n (ia.1 + 1) - pre_share n ia.1 else 0) (zip (range signers) signers).
Proof.
  intros Hne n. assert (0 < n) as Hn by (unfold n; destruct signers; [done|cbn; lia]).
  set (paid := fun a ia => if decide (a = EcdsaAddress ia.2) then pre_share n (ia.1 + 1) - pre_share n ia.1 else 0).
  set (l := zip (range signers) signers). assert (length l = length signers) as Hlen by (unfold l; rewrite length_zip_with; unfold range; rewrite length_seqZ; lia).
  destruct (foldM_total (fun d acc => let k := Z.of_nat (length d) in acc.1.2 = pre_share n k /\ acc.2 = pre_share n k /\ validators acc.1.1 = validators st /\
    forall a, balance acc.1.1 a = balance st a + sumZ (paid a) d) (pre_staking_payout n) l (st, 0, 0)) as ([[st' last] total] & E & H1 & H2 & H3 & H4).
  - cbn. split_and!; [done|done|done|]. intros a. rewrite sumZ_nil. lia.
  - intros d [i slot] rest [[st1 last1] total1] El (H1 & H2 & H3 & H4). cbn in *. subst last1 total1.
    assert (i = Z.of_nat (length d)) as ->.
    { assert (l !! length d = Some (i, slot)) as Hl by (rewrite El; by apply list_lookup_middle). apply lookup_zip_with_Some in Hl as (x & y & [= -> ->] & Hx & _).
      apply lookup_seqZ in Hx as [-> _]. lia. }
    unfold pre_staking_payout, Big.Div. destruct (Z.eqb_spec n 0); [lia|]. rewrite (proj2 (Z.ltb_lt 0 n) Hn). cbn [mbind outcome_bind fst snd].
    fold (pre_share n (Z.of_nat (length d) + 1)). eexists. split; [done|]. cbn [fst snd]. rewrite length_app. cbn [length]. rewrite Nat2Z.inj_add. change (Z.of_nat 1) with 1.
    split_and!; [done|lia|done|]. intros a. rewrite sumZ_app, sumZ_cons, sumZ_nil. unfold paid at 2. cbn [fst snd].
    unfold balance, Slash.AddBalance. cbn [balances]. unfold balance in H4. destruct (decide (a = EcdsaAddress slot)) as [->|Hne'].
    + rewrite lookup_insert_eq. cbn. rewrite H4. lia.
    + rewrite lookup_insert_ne by done. rewrite H4. lia.
  - cbn in *. rewrite Hlen in H1, H2. fold n in H1, H2. unfold pre_share in H1, H2. rewrite Z.div_mul in H1, H2 by lia. subst. by exists st'.
Qed.

(** ** On the state database

    Where a wrapper is cached, [AddReward_at] is [StateDB.AddReward]. *)
Section database.
Context {H : Hashes} {SL : StateLib} {VR : WrapperRLP} {W : Walk}.
Context {VC : KeyedLRU (Z * Z) Roster} {DC : KeyedLRU (Z * Address) (gmap Address Dec)}.
Lemma AddReward_refined snapshot due shares db (s : RewardState) w : let a := snapshot.(validator).(vAddress) in
  db.(stateValidators) !! a = Some (Some w) -> s.(rsState).(validators) !! a = Some w ->
  snd (AddReward snapshot due shares db) = snd (AddReward_at snapshot due shares s) /\
  (fst (AddReward snapshot due shares db)).(stateValidators) !! a = Some <$> (fst (AddReward_at snapshot due shares s)).(rsState).(validators) !! a.
Proof.
  intros a Hdb Hs. unfold AddReward, AddReward_at. destruct (due =? 0); [cbn; by rewrite Hdb, Hs|]. fold a. unfold ValidatorWrapperAt. rewrite Hs.
  assert (ValidatorWrapper_ a true false db = (db, Ok (Some w))) as -> by (unfold ValidatorWrapper_, mbind, SM_bind, gets; cbn [andb]; by rewrite Hdb).
  destruct (decide (Validator.Status (validator w) = Banned)); [cbn; by rewrite Hdb, Hs|].
  destruct (distribute snapshot due shares w) as [w' r]. cbn. by rewrite !lookup_insert_eq.
Qed.
End database.

(** ** A block that pays

    The committee of two validators and one operated node signs the 64 blocks up
    to block 63, all but the second validator. *)

#[export] Instance list_lru {K V} `{EqDecision K} : KeyedLRU K V := {|
  KCache := list (K * V);
  k_Get l k := (snd <$> List.find (fun kv => bool_decide (kv.1 = k)) l, l);
  k_Add l k v := (k, v) :: l
|}.
#[export] Instance list_lru_laws {K V} `{EqDecision K} : KeyedLRULaws (list_lru (K := K) (V := V)).
Proof.
  split; cbn; [done|]. intros l k v k' v'. destruct (bool_decide_reflect (k = k')) as [->|]; cbn; [intros [= <-]; by left|by right].
Qed.
Definition paying_instance : instance := mkInstance 1 3 1 (OneDec / 2) (OneDec / 2) [] [] [] 100 0 emptyAllowlist ∅ 0 0.
Definition paying_schedule : Schedule := NewFixedSchedule paying_instance.
Definition paying_committee : Committee := mkCommittee 0 [mkSlot 1 10 None; mkSlot 2 11 (Some (3 * OneDec)); mkSlot 3 12 (Some OneDec)].
Definition paying_header (num : Z) : Header := SetLastCommitBitmap (SetNumber (NewHeader (NewFactory AllProtocolChanges) 5) num) [3].
Definition paid_validator (a : Address) : ValidatorWrapper :=
  mkWrapper_ (mkValidator a [a + 9] 4 None None Active (mkCommission (mkRates (OneDec / 10) OneDec OneDec) 0) (mkDescription "" "" "" "" "") 0)
    [NewDelegation a 600; NewDelegation 8 300] (mkCounters 9 9) 0.
Definition paying_chain : RewardChain := {|
  rcConfig := AllProtocolChanges; rcCurrentHeader := paying_header 62;
  rcGetHeaderByHash := fun _ => Some (paying_header 7); rcGetHeaderByNumber := fun n => Some (paying_header n);
  rcReadShardState := fun _ => Ok (mkState (Some 5) [paying_committee]);
  rcReadValidatorSnapshot := fun a => Ok (mkSnapshot (paid_validator a) (Some 5));
  decode_crosslinks := fun _ => Err "no cross links"
|}.
Definition paying_state : RewardState :=
  mkRewardState (mkSlashState {[2 := paid_validator 2; 3 := paid_validator 3]} {[2 := 50]}) [] [].
Definition paid_block : RewardState * outcome (Dec * RewardReader) :=
  AccumulateRewardsAndCountSigs (L := ZBLS) paying_chain paying_schedule (paying_header 63) paying_chain (Some true) paying_state.
Definition paid_round : CompletedRound := mkCompleted (64 * 14 * Itc) (replicate 64 (mkPayout 2 (14 * Itc) 11)).
(** 64 rewards of 14 tokens, all to the only validator who signed. *)
Lemma paid_block_result : snd paid_block = Ok (ZeroDec, stakingEra paid_round).
Proof. by vm_compute. Qed.
Lemma paying_roster_ok r : VotePower.Compute paying_schedule paying_committee (Some 0) = Ok r -> nonneg_roster r.
Proof.
  intros E. assert (match VotePower.Compute paying_schedule paying_committee (Some 0) with
    | Ok r => bool_decide (map_Forall (fun _ v => 0 <= v.(OverallPercent)) r.(Voters)) | _ => false end = true) as Hb by (by vm_compute).
  rewrite E in Hb. apply bool_decide_eq_true in Hb. intros k v Hk. exact (Hb k v Hk).
Qed.
Lemma paying_good : good_chain paying_schedule paying_chain.
Proof.
  intros epoch st shardID com [= <-]. unfold FindCommitteeByID. cbn [Shards find]. destruct (_ =? shardID); [|done]. intros [= <-] r.
  exact (paying_roster_ok r).
Qed.
Lemma paying_valid e i : InstanceForEpoch paying_schedule e = Ok i -> instance_valid i = true.
Proof. intros [= <-]. by vm_compute. Qed.
Lemma paying_uncached : powers_cached paying_state.
Proof. by intros k r. Qed.
Lemma pair_of_snd {A B} (p : A * B) b : snd p = b -> p = (fst p, b).
Proof. by destruct p; intros <-. Qed.
Lemma AccumulateRewardsAndCountSigs_reported_witness : snd paid_block = Ok (ZeroDec, stakingEra paid_round) /\
  rewards_booked paying_state (fst paid_block) ZeroDec (stakingEra paid_round).
Proof.
  split; [exact paid_block_result|].
  apply (AccumulateRewardsAndCountSigs_reported (L := ZBLS) list_lru_laws paying_chain paying_schedule (paying_header 63) paying_chain (Some true) paying_state);
    [exact paying_valid|by intros a snapshot [= <-]|exact paying_good|exact paying_uncached|reflexivity|].
  exact (pair_of_snd paid_block _ paid_block_result).
Defined.

Definition paying_link : CrossLink := mkCrossLink 1 62 3 [] [7] 0 5.
Definition one_link : RewardState * outcome (list slotPayable * list slotMissing) :=
  processOneCrossLink (L := ZBLS) paying_chain paying_schedule paying_link StakedBlocks 0 paying_state.
Definition two_payables : list slotPayable :=
  [mkPayable (mkSlot 2 11 (Some (3 * OneDec))) (21 * Itc) 0 1 0; mkPayable (mkSlot 3 12 (Some OneDec)) (7 * Itc) 0 2 0].
(** 28 tokens for both validators' signatures: 21 and 7. *)
Lemma one_link_result : snd one_link = Ok (two_payables, []).
Proof. by vm_compute. Qed.
Lemma processOneCrossLink_budget_witness : snd one_link = Ok (two_payables, []) /\
  (forall p, p ∈ two_payables -> 0 <= p.(spPayout)).
Proof.
  split; [exact one_link_result|].
  apply (processOneCrossLink_budget (L := ZBLS) list_lru_laws paying_chain paying_schedule paying_link StakedBlocks 0 paying_state (fst one_link) two_payables []);
    [by vm_compute|exact paying_good|exact paying_uncached|exact (pair_of_snd one_link _ one_link_result)].
Defined.

(** A banned validator is reported what it does not get. *)
Example banned_reported :
  let banned := mkWrapper_ (with_Status (validator (paid_validator 2)) Banned) (Delegations (paid_validator 2)) (mkCounters 9 9) 0 in
  let s := mkRewardState (mkSlashState {[2 := banned; 3 := paid_validator 3]} ∅) [] [] in
  let '(s', r) := AccumulateRewardsAndCountSigs (L := ZBLS) paying_chain paying_schedule (paying_header 63) paying_chain (Some true) s in
  (let! '(_, reader) := r in Ok (Total (ReadRoundResult reader)), BlockReward <$> validators (rsState s') !! 2) = (Ok (64 * 14 * Itc), Some 0).
Proof. by vm_compute. Qed.
