(* ===== verification/Engine.v ===== *)
(** * The consensus engine (internal/chain/engine.go, supply.go)

    Verifying headers, seals and cross links behind two LRU caches, and
    finalising a block: paying out what is unlocked, the epoch's fees and
    statuses, rewards and slashes.

    [verifiedSigCache] is keyed by the block's hash, the signature and 64 bytes
    of the bitmap; [epochCtxCache] by the shard and the epoch.  The state is the
    part that finalising touches, with the first election epochs; the root of
    the trie and the VRF are parameters.  [VerifyHeaders] sends the answers of
    [VerifyHeader] over a channel. *)
From S2P Require Import Prelude Dec DecText Params Sharding Networks Bls Mask SigBitmap Shard Header CXReceipt Receipt Block VotePower Quorum Delegation Effective Validator Availability Slash LeaderRotation StateDB Election Reward.
Local Open Scope Z_scope.

Definition verifiedSigCache_size : Z := 100.
Definition epochCtxCache_size : Z := 20.
Definition vrfBeta : nat := 32.
Definition vrfProof : nat := 96.
Definition bitmapKeyBytes : nat := 64.
Definition ErrUnknownAncestor : string := "unknown ancestor".

(** ** Verification *)

Record payloadArgs := mkPayload { blockHash : Z; paShardID : Z; paEpoch : Z; paNumber : Z; paViewID : Z }.
Record sigArgs := mkSigArgs { saSig : list Z; saBitmap : list Z }.
Definition verifiedSigKey : Type := Z * list Z * list Z.
Definition newVerifiedSigKey (blockHash : Z) (sig bitmap : list Z) : verifiedSigKey := (blockHash, sig, copy_into bitmapKeyBytes bitmap).
Record epochCtx {L : BLSLib} := mkEpochCtx { qrVerifier : uniformVerifier + stakeVerifier; pubKeys : list PublicKeyWrapper }.
Arguments epochCtx : clear implicits.

(** The VRF of a public key: the hash a proof proves. *)
Class VRFLib (L : BLSLib) := { ProofToHash : PublicKey -> list Z -> list Z -> outcome (list Z) }.

Section verify.
Context {L : BLSLib} {A : AccountLib L} {S : SigCheck L} {H : Hashes} {R : ShardRLP} {W : Walk} {V : VRFLib L}.
Context {EC : KeyedLRU (Z * Z) (epochCtx L)} {VS : KeyedLRU verifiedSigKey unit}.
Context (pk_GetAddress : PublicKey -> Address) (of_bytes : list Z -> Data) (to_bytes : Data -> list Z).

(** What the engine asks of the chain; [ecReader] is the chain as a reader of
    committees. *)
Record EngineChain := mkEngineChain {
  ecConfig : ChainConfig;
  ecShardID : Z;
  ecCurrentHeader : Header;
  ecGetHeader : Z -> Z -> option Header;
  ecGetHeaderByNumber : Z -> option Header;
  ecStates : gmap Z State;
  ecReader : DataProvider;
  ecSuperCommittee : Header -> outcome State    (* SuperCommitteeForNextEpoch *)
}.
Context (chain : EngineChain) (schedule : Schedule).

Record engineImpl := mkEngine { epochCtxCache : @KCache _ _ EC; verifiedSigCache : @KCache _ _ VS }.

Definition payloadArgsFromHeader (header : Header) : payloadArgs :=
  mkPayload (header_Hash header) (ShardID header) (Epoch header) (Big.Uint64 (Number header)) (Big.Uint64 (Header.ViewID header)).
Definition payloadArgsFromCrossLink (cl : CrossLink) : payloadArgs :=
  mkPayload cl.(HashF) cl.(ShardIDF) cl.(EpochF) (Big.Uint64 cl.(BlockNumberF)) (Big.Uint64 cl.(ViewIDF)).
Definition constructPayload (args : payloadArgs) : list Z :=
  ConstructCommitPayload chain.(ecConfig) (Some args.(paEpoch)) args.(blockHash) args.(paNumber) args.(paViewID).

Definition needRecalculateStateShard (epoch targetShardID : Z) : bool :=
  if IsStaking chain.(ecConfig) (Some epoch) then false else negb (targetShardID =? chain.(ecShardID)).
Definition readShardState (epoch targetShardID : Z) : outcome State :=
  if needRecalculateStateShard epoch targetShardID then
    match Election.Compute schedule epoch (Some chain.(ecReader)) chain.(ecStates) with
    | Ok (shardState, _) => Ok shardState | Err _ => Err "compute shard state for epoch" | Panic w => Panic w
    end
  else
    match ReadFromDB epoch chain.(ecStates) with Err _ => Err "read shard state for epoch" | r => r end.
Definition readEpochCtxFromChain (key : Z * Z) : outcome (epochCtx L) :=
  let '(targetShardID, epoch) := key in
  let! ss := readShardState epoch targetShardID in
  let! shardComm := FindCommitteeByID (Some ss) targetShardID in
  let! pubKeys := BLSPublicKeys (Some shardComm) in
  let! qrVerifier := NewVerifier schedule shardComm (Some epoch) (IsStaking chain.(ecConfig) (Some epoch)) in
  Ok (mkEpochCtx _ qrVerifier pubKeys).
Definition getEpochCtxCached (shardID epoch : Z) : SM engineImpl (epochCtx L) := fun e =>
  let key := (shardID, epoch) in
  let '(hit, c) := k_Get e.(epochCtxCache) key in
  let e := mkEngine c e.(verifiedSigCache) in
  match hit with
  | Some ec => (e, Ok ec)
  | None =>
      match readEpochCtxFromChain key with
      | Ok ec => (mkEngine (k_Add c key ec) e.(verifiedSigCache), Ok ec)
      | r => (e, r)
      end
  end.

(** [Verifier.IsQuorumAchievedByMask]. *)
Definition quorum_achieved (v : uniformVerifier + stakeVerifier) (mask : Mask) : outcome bool :=
  match v with inl uv => uvIsQuorumAchievedByMask uv (Some mask) | inr sv => svIsQuorumAchievedByMask sv (Some mask) end.
(** A signature against a committee's context. *)
Definition check_signature (ec : epochCtx L) (pas : payloadArgs) (sas : sigArgs) : outcome unit :=
  match DecodeSigBitmap sas.(saSig) sas.(saBitmap) ec.(pubKeys) with
  | Err _ => Err "deserialize signature and bitmap"
  | Panic w => Panic w
  | Ok (aggSig, mask) =>
      let! (quorum : bool) := quorum_achieved ec.(qrVerifier) mask in
      if negb quorum then Err "not enough signature collected"
      else if negb (VerifyHash aggSig mask.(AggregatePublic) (constructPayload pas)) then Err "Unable to verify aggregated signature for block"
      else Ok tt
  end.
Definition verifySignature (pas : payloadArgs) (sas : sigArgs) : SM engineImpl unit :=
  let! ec := getEpochCtxCached pas.(paShardID) (Big.Uint64 pas.(paEpoch)) in
  lift (check_signature ec pas sas).
Definition verifySignatureCached (pas : payloadArgs) (sas : sigArgs) : SM engineImpl unit := fun e =>
  let verifiedKey := newVerifiedSigKey pas.(blockHash) sas.(saSig) sas.(saBitmap) in
  let '(hit, c) := k_Get e.(verifiedSigCache) verifiedKey in
  let e := mkEngine e.(epochCtxCache) c in
  match hit with
  | Some _ => (e, Ok tt)
  | None =>
      match verifySignature pas sas e with
      | (e, Ok _) => (mkEngine e.(epochCtxCache) (k_Add e.(verifiedSigCache) verifiedKey tt), Ok tt)
      | r => r
      end
  end.

Definition VerifyHeaderSignature (header : Header) (commitSig commitBitmap : list Z) : SM engineImpl unit :=
  if Big.Uint64 (Number chain.(ecCurrentHeader)) <=? 1 then mret tt
  else verifySignatureCached (payloadArgsFromHeader header) (mkSigArgs commitSig commitBitmap).
Definition VerifyCrossLink (cl : CrossLink) : SM engineImpl unit :=
  if BlockNum cl <=? 1 then stop "crossLink BlockNumber should greater than 1"
  else if negb (IsCrossLink chain.(ecConfig) (Some cl.(EpochF))) then stop "not cross-link epoch"
  else verifySignatureCached (payloadArgsFromCrossLink cl) (mkSigArgs cl.(SignatureF) cl.(BitmapF)).
Definition VerifySeal (header : option Header) : SM engineImpl unit :=
  if Big.Uint64 (Number chain.(ecCurrentHeader)) <=? 1 then mret tt
  else
    match header with
    | None => stop "[VerifySeal] nil block header"
    | Some header =>
        match chain.(ecGetHeader) (ParentHash header) (u64 (Big.Uint64 (Number header) - 1)) with
        | None => stop "[VerifySeal] no parent header found"
        | Some parentHeader =>
            fun e => match verifySignatureCached (payloadArgsFromHeader parentHeader) (mkSigArgs (LastCommitSignature header) (LastCommitBitmap header)) e with
                     | (e, Err _) => (e, Err "verify signature for parent") | r => r end
        end
    end.
Definition VerifyHeader (header : Header) (seal : bool) : SM engineImpl unit :=
  match chain.(ecGetHeader) (ParentHash header) (u64 (Big.Uint64 (Number header) - 1)) with
  | None => stop ErrUnknownAncestor
  | Some _ => if seal then VerifySeal (Some header) else mret tt
  end.
(** [chain] is its own beacon's view through [ecSuperCommittee]. *)
Definition VerifyShardState (header : Header) : outcome unit :=
  if negb (chain.(ecShardID) =? ShardID header) then Err "[VerifyShardState] shardID not match"
  else
    match ShardState header with
    | [] => Ok tt
    | headerShardStateBytes =>
        let! shardState := chain.(ecSuperCommittee) header in
        let isStaking := match shardState.(Shard.Epoch) with Some e => IsStaking chain.(ecConfig) (Some e) | None => false end in
        match EncodeWrapper shardState isStaking with
        | Err _ => Err "[VerifyShardState] ShardState Encoding had error"
        | Panic w => Panic w
        | Ok shardStateBytes =>
            if negb (bool_decide (to_bytes shardStateBytes = headerShardStateBytes)) then Err "shard state header did not match as expected" else Ok tt
        end
    end.
Definition VerifyVRF (header : Header) : outcome unit :=
  let isVRF := IsVRF chain.(ecConfig) (Some (Epoch header)) in
  if negb (chain.(ecShardID) =? ShardID header) then Err "[VerifyVRF] shardID not match"
  else if isVRF && negb (length (Vrf header) =? vrfBeta + vrfProof)%nat then Err "[VerifyVRF] invalid vrf data format or no vrf proposed"
  else if negb isVRF then
    if negb (length (Vrf header) =? 0)%nat then Err "[VerifyVRF] vrf data present in pre-vrf epoch" else Ok tt
  else
    let! leaderPubKey := GetLeaderPubKeyFromCoinbase pk_GetAddress chain.(ecConfig)
      (fun e => match chain.(ecStates) !! e with Some s => Ok s | None => Err "no shard state" end) header in
    match chain.(ecGetHeaderByNumber) (u64 (Big.Uint64 (Number header) - 1)) with
    | None => Err "[VerifyVRF] no parent header found"
    | Some previousHeader =>
        match ProofToHash leaderPubKey.(Object) (be_bytes 32 (header_Hash previousHeader)) (copy_into vrfProof (drop vrfBeta (Vrf header))) with
        | Err _ => Err "[VerifyVRF] Failed VRF verification"
        | Panic w => Panic w
        | Ok hash => if negb (bool_decide (hash = take vrfBeta (Vrf header))) then Err "[VerifyVRF] VRF proof is not valid" else Ok tt
        end
    end.
End verify.

(** ** Lock periods *)

Definition GetLockPeriodInEpoch (config : ChainConfig) (epoch : Z) : Z :=
  if IsRedelegation config (Some epoch) then LockPeriodInEpoch
  else if IsQuickUnlock config (Some epoch) then LockPeriodInEpochV2
  else LockPeriodInEpoch.

(** ** Finalising a block *)

(** The validators, balances and caches of [Reward], and the slot of a
    validator's storage that holds its first election epoch. *)
Record FinalState {VC : KeyedLRU (Z * Z) Roster} {DC : KeyedLRU (Z * Address) (gmap Address Dec)} := mkFinal {
  fsReward : RewardState; firstElection : gmap Address Z
}.
Arguments FinalState : clear implicits.

Definition with_LastEpochInCommittee (v : Validator) (e : Z) : Validator :=
  mkValidator v.(vAddress) v.(SlotPubKeys) e v.(MinSelfDelegation) v.(MaxTotalDelegation) v.(Validator.Status) v.(commission) v.(description) v.(CreationHeight).

Record keyStruct := mkKey { ksHeight : Z; ksViewID : Z; ksShardID : Z; ksEpoch : Z }.
#[export] Instance keyStruct_eq_dec : EqDecision keyStruct.
Proof. solve_decision. Defined.
#[export] Instance keyStruct_countable : Countable keyStruct.
Proof.
  refine (inj_countable' (fun k => (k.(ksHeight), k.(ksViewID), k.(ksShardID), k.(ksEpoch))) (fun t => mkKey t.1.1.1 t.1.1.2 t.1.2 t.2) _).
  by intros [].
Defined.
(** Grouped by the signed block, in the order of the slashes. *)
Definition key_of_record (r : Record_) : outcome keyStruct :=
  let m := r.(evidence).(moment) in
  match m.(mEpoch) with None => Panic nil_deref | Some e => Ok (mkKey m.(mHeight) m.(mViewID) m.(mShardID) (Big.Uint64 e)) end.
Definition group_record (groups : gmap keyStruct (list Record_)) (r : Record_) : outcome (gmap keyStruct (list Record_)) :=
  let! k := key_of_record r in Ok (<[k := default [] (groups !! k) ++ [r]]> groups).
(** The comparison is no order: each of two keys may be less than the other. *)
Definition key_less (a b : keyStruct) : bool :=
  if a.(ksShardID) <? b.(ksShardID) then true
  else if a.(ksHeight) <? b.(ksHeight) then true
  else a.(ksViewID) <? b.(ksViewID).
(** What [sort.SliceStable] does to up to twenty elements, whatever [less] is:
    each sinks to the left past those it is less than. *)
Fixpoint sink {A} (less : A -> A -> bool) (x : A) (rev_sorted : list A) : list A :=
  match rev_sorted with [] => [x] | y :: l => if less x y then y :: sink less x l else x :: rev_sorted end.
Definition insertionSort {A} (less : A -> A -> bool) (l : list A) : list A := rev (foldl (fun acc x => sink less x acc) [] l).

Section finalize.
Context {L : BLSLib} {R : ShardRLP} {W : Walk} {H : Hashes} {T : TxLib}.
Context {VC : KeyedLRU (Z * Z) Roster} {DC : KeyedLRU (Z * Address) (gmap Address Dec)}.
Context (of_bytes : list Z -> Data) (IntermediateRoot : bool -> FinalState VC DC -> FinalState VC DC * outcome Z).

Record FinalChain := mkFinalChain {
  fcReward : RewardChain;                        (* rewards' view of the chain *)
  fcReadValidatorList : outcome (list Address);
  fcValidatorCandidates : list Address;
  fcCurrentBlockEpoch : Z;
  fcSnapshotAtEpoch : option Z -> Address -> outcome ValidatorSnapshot
}.
Context (chain : FinalChain) (beacon : RewardChain) (schedule : Schedule).
Notation config := chain.(fcReward).(rcConfig).
Notation FS := (SM (FinalState VC DC)).

Definition on_final (f : SlashState -> SlashState) (s : FinalState VC DC) : FinalState VC DC :=
  mkFinal _ _ (on_state f s.(fsReward)) s.(firstElection).
Definition on_wrappers {B} (f : ValidatorState -> ValidatorState * outcome B) : FS B := fun s =>
  let st := s.(fsReward).(rsState) in
  let '(vs, r) := f st.(validators) in
  (on_final (fun st => mkSlashState vs st.(balances)) s, r).
Definition on_reward {B} (m : SM RewardState B) : FS B := fun s =>
  let '(rs, r) := m s.(fsReward) in (mkFinal _ _ rs s.(firstElection), r).
Definition add_balance (a : Address) (x : Z) : FS unit := modify (on_final (fun st => Slash.AddBalance st a x)).
(** [state.ValidatorWrapper] hands out the original. *)
Definition wrapper_to_finalize (a : Address) : FS ValidatorWrapper := fun s =>
  match ValidatorWrapperAt s.(fsReward).(rsState).(validators) a with
  | Ok w => (s, Ok w)
  | Err _ => (s, Err "[Finalize] failed to get validator from state to finalize")
  | Panic w => (s, Panic w)
  end.
Definition put_wrapper (a : Address) (w : ValidatorWrapper) : FS unit :=
  modify (on_final (fun st => mkSlashState (<[a := w]> st.(validators)) st.(balances))).

Definition IsCommitteeSelectionBlock (header : Header) : bool :=
  (ShardID header =? BeaconChainShardID) && IsLastBlockInEpoch header && IsPreStaking config (Some (Epoch header)).
Definition new_shard_state (header : Header) : outcome State :=
  match GetShardState of_bytes header with Err _ => Err "[Finalize] failed to read shard state" | r => r end.

(** What is unlocked of one delegation goes to its delegator. *)
Definition payout_delegation (header : Header) (lockPeriod : Z) (noEarlyUnlock isMaxRate : bool) (lastEpochInCommittee : Z)
    (acc : list Delegation) (delegation : Delegation) : FS (list Delegation) :=
  let '(delegation', totalWithdraw) := RemoveUnlockedUndelegations (Epoch header) lastEpochInCommittee lockPeriod noEarlyUnlock isMaxRate delegation in
  let! _ := sm_when (negb (Big.Sign totalWithdraw =? 0)) (add_balance delegation'.(DelegatorAddress) totalWithdraw) in
  mret (acc ++ [delegation']).
Definition payoutUndelegations (header : Header) : FS unit :=
  let! validators := lift (match chain.(fcReadValidatorList) with Err _ => Err "[Finalize] failed to read all validators" | r => r end) in
  let lockPeriod := GetLockPeriodInEpoch config (Epoch header) in
  let noEarlyUnlock := IsNoEarlyUnlock config (Some (Epoch header)) in
  let! newShardState := lift (new_shard_state header) in
  let isMaxRate := IsMaxRate config newShardState.(Shard.Epoch) in
  sm_for validators (fun a =>
    let! wrapper := wrapper_to_finalize a in
    let! ds := sm_fold (payout_delegation header lockPeriod noEarlyUnlock isMaxRate wrapper.(validator).(LastEpochInCommittee)) wrapper.(Delegations) [] in
    put_wrapper a (mkWrapper_ wrapper.(validator) ds wrapper.(Counters) wrapper.(BlockReward))).

Definition SetFirstElectionEpoch (a : Address) (epoch : Z) : FS unit := modify (fun s =>
  if Big.Uint64 (default 0 (s.(firstElection) !! a)) =? 0 then mkFinal _ _ s.(fsReward) (<[a := BigToHash epoch]> s.(firstElection)) else s).
Definition update_minimum (electionEpoch : Z) (a : Address) (minRate : Dec) : FS unit :=
  let! first := gets (fun s => default 0 (s.(firstElection) !! a)) in
  let! promo := lift (Sharding.Uint64 config.(MinCommissionPromoPeriod)) in
  let! _ := on_wrappers (fun vs => UpdateMinimumCommissionFee electionEpoch first vs a minRate promo) in
  mret tt.
Definition update_maximums (epoch : option Z) (minRate : Dec) : FS unit :=
  sm_for chain.(fcValidatorCandidates) (fun a => on_wrappers (fun vs => UpdateMaxCommissionFee (IsTopMaxRate config epoch) vs a minRate)).
(** A state without an epoch is a legacy one, which has no staked validator. *)
Definition elected_validator (epoch : option Z) (minRate : Dec) (a : Address) : FS unit :=
  let! wrapper := wrapper_to_finalize a in
  match epoch with
  | None => lift (Panic nil_deref)
  | Some e =>
      let! _ := put_wrapper a (with_validator wrapper (with_LastEpochInCommittee wrapper.(validator) e)) in
      if negb (Dec.Equal minRate ZeroDec) then
        let! _ := SetFirstElectionEpoch a e in update_minimum e a minRate
      else mret tt
  end.
Definition setElectionEpochAndMinFee (header : Header) : FS unit :=
  let! newShardState := lift (new_shard_state header) in
  let epoch := newShardState.(Shard.Epoch) in
  let minRate := MinCommissionRate (IsMinCommissionRate config epoch) (IsHIP30 config epoch) in
  let minRateNotZero := negb (Dec.Equal minRate ZeroDec) in
  let! staked := lift (StakedValidators_State newShardState) in
  let! _ := sm_for staked.(Addrs) (elected_validator epoch minRate) in
  let! _ := sm_when (IsMaxRate config epoch) (update_maximums epoch minRate) in
  let! _ := sm_when (IsHIP30 config epoch && minRateNotZero) (sm_for chain.(fcValidatorCandidates) (fun a =>
    if decide (a ∈ staked.(Addrs)) then mret tt
    else match epoch with None => lift (Panic nil_deref) | Some e => update_minimum e a minRate end)) in
  sm_when (IsMaxRate config epoch && minRateNotZero) (update_maximums epoch minRate).

Definition apply_group (beneficiary : Address) (groups : gmap keyStruct (list Record_)) (k : keyStruct) : FS unit := fun s =>
  match Slash.Apply chain.(fcSnapshotAtEpoch) s.(fsReward).(rsState) (default [] (groups !! k)) beneficiary with
  | Ok (st, _) => (on_final (fun _ => st) s, Ok tt)
  | Err _ => (s, Err "[Finalize] could not apply slash")
  | Panic w => (s, Panic w)
  end.
Definition applySlashes (header : Header) (doubleSigners : list Record_) : FS unit :=
  let! groups := lift (foldM group_record doubleSigners ∅) in
  sm_for (insertionSort key_less (map fst (walk groups))) (apply_group (Coinbase header) groups).

(** The statuses of the current committees' validators. *)
Definition mutate_status (a : Address) : FS unit :=
  on_wrappers (fun vs => ComputeAndMutateEPOSStatus chain.(fcReward).(rcReadValidatorSnapshot) vs a).
Definition epoch_changes (header : Header) : FS unit :=
  let! _ := payoutUndelegations header in
  let! _ := setElectionEpochAndMinFee header in
  let! curShardState := lift (chain.(fcReward).(rcReadShardState) chain.(fcCurrentBlockEpoch)) in
  let! staked := lift (StakedValidators_State curShardState) in
  sm_for staked.(Addrs) mutate_status.
Definition Finalize (header : Header) (txs : list Transaction) (receipts : list Receipt) (outcxs : CXReceipts) (incxs : CXReceiptsProofs)
    (stks : list StakingTransaction) (doubleSigners : list Record_) (sigs : option bool) (viewID : Z) : FS (option Block * RewardReader) :=
  let isBeaconChain := ShardID header =? BeaconChainShardID in
  let inStakingEra := IsStaking config (Some (Epoch header)) in
  let! _ := sm_when (IsCommitteeSelectionBlock header) (epoch_changes header) in
  let! '(remainder, payout) := on_reward (AccumulateRewardsAndCountSigs chain.(fcReward) schedule header beacon sigs) in
  let some := (0 <? length doubleSigners)%nat in
  let! _ := (if isBeaconChain && inStakingEra && some then applySlashes header doubleSigners
             else if some then stop "slashes proposed in non-beacon chain or non-staking epoch"
             else mret tt) in
  let header := Header.SetViewID header viewID in
  let! _ := sm_when (IsHIP30 config (Some (Epoch header)))
    (let! remainderOne := lift (Big.Div remainder Itc) in
     let! instance := lift (InstanceForEpoch schedule (Some (Epoch header))) in
     add_balance (HIP30RecoveryAddress instance) remainderOne) in
  let! root := IntermediateRoot (IsS3 config (Some (Epoch header))) in
  let! block := lift (NewBlock (SetRoot header root) txs receipts outcxs incxs stks) in
  mret (block, payout).
End finalize.

(** ** The circulating supply (supply.go) *)

Definition InaccessibleAddresses : list Address := [0x7bDeF7Bdef7BDeF7BDEf7bDef7bdef7bdeF6E7AD].
Definition getTotalCirculatingSupply {W : Walk} (schedule : Schedule) (initial : Dec) (config : ChainConfig) (currHeader : Header) (shardID : Z)
    (accumulated : outcome Z) (timestamp : Z) : outcome Dec :=
  let! stakingBlockRewards :=
    (if IsStaking config (Some (Epoch currHeader)) then
       if negb (shardID =? BeaconChainShardID) then Err ErrInvalidBeaconChain else accumulated
     else Ok 0) in
  let! releasedInitSupply := Dec.Mul initial (PercentageForTimeStamp schedule timestamp) in
  let! before := GetTotalPreStakingTokens schedule initial in
  let! preStakingBlockRewards := Dec.Sub before initial in
  let! sum := Dec.Add releasedInitSupply preStakingBlockRewards in
  let! d := NewDecFromBigIntWithPrec stakingBlockRewards 18 in
  Dec.Add sum d.
(** [balance]: of the state of the current block, if it can be read. *)
Definition getAllInaccessibleTokens (balance : outcome (Address -> Z)) : outcome Dec :=
  let! balance := balance in
  let! accs := mapM (fun a => NewDecFromBigIntWithPrec (balance a) Precision) InaccessibleAddresses in
  let! zero := NewDecFromBigIntWithPrec 0 Precision in
  foldM Dec.Add accs zero.
Definition GetCirculatingSupply {W : Walk} (schedule : Schedule) (initial : Dec) (config : ChainConfig) (currHeader : Header) (shardID : Z)
    (accumulated : outcome Z) (timestamp : Z) (balance : outcome (Address -> Z)) : outcome Dec :=
  let! total := getTotalCirculatingSupply schedule initial config currHeader shardID accumulated timestamp in
  let! invalid := getAllInaccessibleTokens balance in
  if LT total invalid then Err "FATAL: negative circulating supply" else Dec.Sub total invalid.

(** ** What the engine accepts is signed by a quorum *)

Section sound.
Context {L : BLSLib} {A : AccountLib L} {S : SigCheck L} {W : Walk}.
Context {EC : KeyedLRU (Z * Z) (epochCtx L)} {VS : KeyedLRU verifiedSigKey unit} (eclaws : KeyedLRULaws EC) (vslaws : KeyedLRULaws VS).
Context (chain : EngineChain) (schedule : Schedule).

(** The committee of the arguments' shard and epoch signed the payload: its
    quorum's aggregated signature verifies. *)
Record quorum_signed (pas : payloadArgs) (sas : sigArgs) : Prop := {
  qs_committee : exists ss com keys verifier agg mask,
    readShardState chain schedule (Big.Uint64 pas.(paEpoch)) pas.(paShardID) = Ok ss /\ FindCommitteeByID (Some ss) pas.(paShardID) = Ok com /\
    BLSPublicKeys (Some com) = Ok keys /\
    NewVerifier schedule com (Some (Big.Uint64 pas.(paEpoch))) (IsStaking chain.(ecConfig) (Some (Big.Uint64 pas.(paEpoch)))) = Ok verifier /\
    sig_Deserialize sas.(saSig) = Some agg /\ SetMask (NewMask keys) sas.(saBitmap) = Ok mask /\
    quorum_achieved verifier mask = Ok true /\ VerifyHash agg mask.(AggregatePublic) (constructPayload chain pas) = true
}.
Lemma check_signature_signed ec pas sas : readEpochCtxFromChain chain schedule (pas.(paShardID), Big.Uint64 pas.(paEpoch)) = Ok ec ->
  check_signature chain ec pas sas = Ok tt -> quorum_signed pas sas.
Proof.
  unfold readEpochCtxFromChain. intros (ss & Hss & H)%bind_Ok. apply bind_Ok in H as (com & Hcom & H). apply bind_Ok in H as (keys & Hkeys & H).
  apply bind_Ok in H as (v & Hv & [= <-]). unfold check_signature, DecodeSigBitmap. cbn [pubKeys qrVerifier].
  destruct (sig_Deserialize (saSig sas)) as [agg|] eqn:Es; [|done]. destruct (SetMask _ _) as [mask| |] eqn:Em; [|done..]. cbn [mbind outcome_bind].
  intros (q & Hq & H)%bind_Ok. destruct q; cbn [negb] in H; [|done]. destruct (VerifyHash _ _ _) eqn:Ev; cbn [negb] in H; [|done].
  split. exists ss, com, keys, v, agg, mask. by split_and!.
Qed.

Definition request : Type := payloadArgs * sigArgs.
Definition same_key (q q' : request) : Prop :=
  q.1.(blockHash) = q'.1.(blockHash) /\ q.2.(saSig) = q'.2.(saSig) /\ copy_into bitmapKeyBytes q.2.(saBitmap) = copy_into bitmapKeyBytes q'.2.(saBitmap).
(** The caches after some requests: contexts are the chain's, and a verified key
    is that of a request that was signed. *)
Record caches_ok (reqs : list request) (e : engineImpl) : Prop := {
  ck_ctx k ec : fst (k_Get e.(epochCtxCache) k) = Some ec -> readEpochCtxFromChain chain schedule k = Ok ec;
  ck_sig k : fst (k_Get e.(verifiedSigCache) k) = Some tt -> exists q, q ∈ reqs /\ k = newVerifiedSigKey q.1.(blockHash) q.2.(saSig) q.2.(saBitmap) /\ quorum_signed q.1 q.2
}.
Lemma caches_ok_mono reqs reqs' e : (forall q, q ∈ reqs -> q ∈ reqs') -> caches_ok reqs e -> caches_ok reqs' e.
Proof. intros Hr [H1 H2]. split; [done|]. intros k Hk. destruct (H2 k Hk) as (q & Hq & Hrest). exists q. auto. Qed.
Lemma getEpochCtxCached_ok reqs shardID epoch e e' r : caches_ok reqs e -> getEpochCtxCached chain schedule shardID epoch e = (e', r) ->
  caches_ok reqs e' /\ (forall ec, r = Ok ec -> readEpochCtxFromChain chain schedule (shardID, epoch) = Ok ec).
Proof.
  intros [H1 H2]. unfold getEpochCtxCached. destruct (k_Get (epochCtxCache e) _) as [hit c] eqn:E.
  assert (caches_ok reqs (mkEngine c e.(verifiedSigCache))) as Hc.
  { split; [|exact H2]. intros k ec Hk. apply H1. eapply (k_Get_keeps (KeyedLRULaws := eclaws)). rewrite E. exact Hk. }
  destruct hit as [ec|].
  - intros [= <- <-]. split; [done|]. intros ec' [= <-]. apply H1. by rewrite E.
  - destruct (readEpochCtxFromChain chain schedule (shardID, epoch)) as [ec| |] eqn:Er; intros [= <- <-]; (split; [|done]); [|done..].
    destruct Hc as [H3 H4]. split; [|exact H4]. intros k ec' [[-> ->]|Hk]%(k_Add_keeps (KeyedLRULaws := eclaws)); [done|by apply H3].
Qed.
Lemma verifySignatureCached_ok reqs pas sas e e' r : caches_ok reqs e -> verifySignatureCached chain schedule pas sas e = (e', r) ->
  caches_ok ((pas, sas) :: reqs) e' /\ (r = Ok tt -> exists q, q ∈ (pas, sas) :: reqs /\ same_key (pas, sas) q /\ quorum_signed q.1 q.2).
Proof.
  intros Hok. unfold verifySignatureCached. destruct (k_Get (verifiedSigCache e) _) as [hit c] eqn:E. set (key := newVerifiedSigKey _ _ _) in *.
  assert (caches_ok reqs (mkEngine e.(epochCtxCache) c)) as Hc.
  { destruct Hok as [H1 H2]. split; [exact H1|]. intros k Hk. apply H2. eapply (k_Get_keeps (KeyedLRULaws := vslaws)). rewrite E. exact Hk. }
  assert (forall q, q ∈ reqs -> q ∈ (pas, sas) :: reqs) as Hmono by (intros q Hq; by right).
  destruct hit as [[]|].
  - intros [= <- <-]. split; [by eapply caches_ok_mono|]. intros _. destruct (ck_sig _ _ Hok key) as (q & Hq & Ek & Hs); [by rewrite E|].
    exists q. split; [by right|]. split; [|exact Hs]. by injection Ek.
  - unfold verifySignature, mbind, SM_bind, lift. destruct (getEpochCtxCached chain schedule _ _ _) as [e1 r1] eqn:Eg.
    destruct (getEpochCtxCached_ok _ _ _ _ _ _ Hc Eg) as [Hc1 Hctx]. destruct r1 as [ec| |]; [|by intros [= <- <-]; split; [by eapply caches_ok_mono|]..].
    specialize (Hctx ec eq_refl). destruct (check_signature chain ec pas sas) as [[]| |] eqn:Ec; [|by intros [= <- <-]; split; [by eapply caches_ok_mono|]..].
    pose proof (check_signature_signed _ _ _ Hctx Ec) as Hs. intros [= <- <-]. split; [|intros _; exists (pas, sas); split; [by left|]; by split].
    destruct Hc1 as [H1 H2]. split; [exact H1|]. intros k [[-> _]|Hk]%(k_Add_keeps (KeyedLRULaws := vslaws)); [exists (pas, sas); by split; [left|]|].
    destruct (H2 k Hk) as (q & Hq & Hrest). exists q. split; [by right|done].
Qed.

(** Engines that have served requests, from one with empty caches on. *)
Inductive served : list request -> engineImpl -> Prop :=
| served_new e : (forall k, fst (k_Get e.(epochCtxCache) k) = None) -> (forall k, fst (k_Get e.(verifiedSigCache) k) = None) -> served [] e
| served_next reqs e pas sas e' r : served reqs e -> verifySignatureCached chain schedule pas sas e = (e', r) -> served ((pas, sas) :: reqs) e'.
Lemma served_ok reqs e : served reqs e -> caches_ok reqs e.
Proof.
  induction 1 as [e H1 H2|reqs e pas sas e' r _ IH Hv]; [|by destruct (verifySignatureCached_ok _ _ _ _ _ _ IH Hv)].
  split; [intros k ec; by rewrite H1|intros k; by rewrite H2].
Qed.
End sound.

(** C12: in an engine that has served any requests, a request it accepts has the
    block hash, signature and (first 64 bytes of the) bitmap of one, this or an
    earlier one, whose committee's quorum signed its payload; when a block's hash
    determines the rest of the arguments, as that of a header does, the quorum
    signed this very block.  Without that nothing ties a cross link's shard,
    epoch and number to the signature ([forged_crosslink_accepted]). *)
Theorem verifySignatureCached_sound {L : BLSLib} {A : AccountLib L} {S : SigCheck L} {W : Walk}
    {EC : KeyedLRU (Z * Z) (epochCtx L)} {VS : KeyedLRU verifiedSigKey unit} (eclaws : KeyedLRULaws EC) (vslaws : KeyedLRULaws VS)
    (chain : EngineChain) schedule reqs e pas sas e' :
  served chain schedule reqs e -> verifySignatureCached chain schedule pas sas e = (e', Ok tt) ->
  exists q, q ∈ (pas, sas) :: reqs /\ same_key (pas, sas) q /\ quorum_signed chain schedule q.1 q.2 /\
    ((forall q', q' ∈ reqs -> q'.1.(blockHash) = pas.(blockHash) -> q'.1 = pas) -> quorum_signed chain schedule pas q.2).
Proof.
  intros Hs Hv. destruct (verifySignatureCached_ok eclaws vslaws chain schedule _ _ _ _ _ _ (served_ok eclaws vslaws chain schedule _ _ Hs) Hv) as [_ Hq].
  destruct (Hq eq_refl) as (q & Hin & Hk & Hsig). exists q. split; [done|]. split; [done|]. split; [done|]. intros Hdet.
  apply elem_of_cons in Hin as [->|Hin]; [done|]. rewrite <- (Hdet q Hin); [done|]. symmetry. apply Hk.
Qed.

(** A genuine cross link is verified; then one that claims another block number
    and epoch, with its hash, signature and bitmap, is accepted unread. *)
#[export] Instance engine_hashes : SigCheck ZBLS := {| VerifyHash := fun s pk h => s =? pk + foldr Z.add 0 h; Keccak256 := fun bs => bs |}.
Definition engine_chain : EngineChain := {|
  ecConfig := AllProtocolChanges; ecShardID := 0; ecCurrentHeader := paying_header 62; ecGetHeader := fun _ n => Some (paying_header n);
  ecGetHeaderByNumber := fun n => Some (paying_header n); ecStates := {[5 := mkState (Some 5) [paying_committee]]};
  ecReader := election_reader []; ecSuperCommittee := fun _ => Err "none"
|}.
Definition fresh_engine : engineImpl (L := ZBLS) (EC := list_lru) (VS := list_lru) := mkEngine (EC := list_lru) (VS := list_lru) [] [].
Definition genuine_link : CrossLink :=
  let pas := mkPayload 77 0 5 62 3 in
  mkCrossLink 77 62 3 (sig_Serialize (BLSLib := ZBLS) (33 + foldr Z.add 0 (constructPayload engine_chain pas))) [7] 0 5.
Definition forged_link : CrossLink := mkCrossLink 77 1000 9 genuine_link.(SignatureF) [7] 3 6.
Definition verify_link (e : engineImpl) (cl : CrossLink) : engineImpl * outcome unit :=
  VerifyCrossLink (L := ZBLS) (EC := list_lru) (VS := list_lru) engine_chain paying_schedule cl e.
Example forged_crosslink_accepted :
  snd (verify_link fresh_engine genuine_link) = Ok tt /\ snd (verify_link (fst (verify_link fresh_engine genuine_link)) forged_link) = Ok tt /\
  is_Ok (snd (verify_link fresh_engine forged_link)) = false.
Proof. by vm_compute. Qed.
Definition genuine_request : request := (payloadArgsFromCrossLink genuine_link, mkSigArgs genuine_link.(SignatureF) [7]).
Definition served_link : engineImpl * outcome unit :=
  verifySignatureCached (L := ZBLS) (EC := list_lru) (VS := list_lru) engine_chain paying_schedule genuine_request.1 genuine_request.2 fresh_engine.
Lemma verifySignatureCached_sound_witness : exists q, q ∈ [genuine_request] /\ quorum_signed (L := ZBLS) engine_chain paying_schedule q.1 q.2.
Proof.
  assert (snd served_link = Ok tt) as E by (by vm_compute).
  destruct (verifySignatureCached_sound (L := ZBLS) (EC := list_lru) (VS := list_lru) list_lru_laws list_lru_laws engine_chain paying_schedule []
    fresh_engine genuine_request.1 genuine_request.2 (fst served_link)) as (q & Hq & _ & Hs & _).
  - by apply served_new.
  - exact (pair_of_snd served_link _ E).
  - exists q. split; [exact Hq|exact Hs].
Defined.

(** ** Paying out what is unlocked *)

Lemma sm_fold_total {S A B} (P : list A -> B -> S -> Prop) (f : B -> A -> SM S B) l b s : P [] b s ->
  (forall d a rest b s, l = d ++ a :: rest -> P d b s -> exists b' s', f b a s = (s', Ok b') /\ P (d ++ [a]) b' s') ->
  exists b' s', sm_fold f l b s = (s', Ok b') /\ P l b' s'.
Proof.
  intros H0 Hs. enough (forall d l' b s, l = d ++ l' -> P d b s -> exists b' s', sm_fold f l' b s = (s', Ok b') /\ P l b' s') as Hgen by by apply (Hgen [] l b s).
  clear H0 b s. intros d l'. revert d. induction l' as [|a l' IH]; intros d b s El Hd; cbn [sm_fold].
  - rewrite app_nil_r in El. subst. by exists b, s.
  - destruct (Hs d a l' b s El Hd) as (b' & s' & E & Hd'). unfold mbind, SM_bind. rewrite E. apply (IH (d ++ [a])); [by rewrite <- app_assoc|done].
Qed.
Lemma sm_for_fold {S A} (l : list A) (f : A -> SM S unit) s : sm_for l f s = sm_fold (fun _ a => f a) l tt s.
Proof.
  revert s. induction l as [|a l IH]; intros s; [done|]. cbn [sm_for sm_fold]. unfold mbind, SM_bind. destruct (f a s) as [s1 [[]| |]]; [apply IH|done..].
Qed.

Section payout.
Context {L : BLSLib} {R : ShardRLP} {VC : KeyedLRU (Z * Z) Roster} {DC : KeyedLRU (Z * Address) (gmap Address Dec)}.
Context (of_bytes : list Z -> Data) (chain : FinalChain) (header : Header) (newShardState : State).
Notation config := chain.(fcReward).(rcConfig).
Notation wrappers s := (s.(fsReward).(rsState).(validators)).
Notation balance_of s := (balance s.(fsReward).(rsState)).

(** What is released of a delegation of a wrapper: what is left of it, and the amount. *)
Definition released (w : ValidatorWrapper) : Delegation -> Delegation * Z :=
  RemoveUnlockedUndelegations (Epoch header) w.(validator).(LastEpochInCommittee) (GetLockPeriodInEpoch config (Epoch header))
    (IsNoEarlyUnlock config (Some (Epoch header))) (IsMaxRate config newShardState.(Shard.Epoch)).
Definition after_release (w : ValidatorWrapper) : ValidatorWrapper :=
  mkWrapper_ w.(validator) (map (fun d => fst (released w d)) w.(Delegations)) w.(Counters) w.(BlockReward).
Definition released_to (b : Address) (w : ValidatorWrapper) (ds : list Delegation) : Z :=
  sumZ (fun d => if decide (b = d.(DelegatorAddress)) then snd (released w d) else 0) ds.
Lemma balance_add st a x b : balance (Slash.AddBalance st a x) b = balance st b + if decide (b = a) then x else 0.
Proof.
  unfold balance, Slash.AddBalance. cbn [balances]. destruct (decide (b = a)) as [->|]; [by rewrite lookup_insert_eq|]. rewrite lookup_insert_ne by done. lia.
Qed.

(** Two states but for balances and wrappers. *)
Definition same_rest (s s' : FinalState VC DC) : Prop :=
  s'.(firstElection) = s.(firstElection) /\ s'.(fsReward).(votingPowerCache) = s.(fsReward).(votingPowerCache) /\
  s'.(fsReward).(delegateShareCache) = s.(fsReward).(delegateShareCache).
Lemma payout_delegations_spec (w : ValidatorWrapper) ds (s : FinalState VC DC) : exists s',
  sm_fold (payout_delegation header (GetLockPeriodInEpoch config (Epoch header)) (IsNoEarlyUnlock config (Some (Epoch header)))
    (IsMaxRate config newShardState.(Shard.Epoch)) w.(validator).(LastEpochInCommittee)) ds [] s = (s', Ok (map (fun d => fst (released w d)) ds)) /\
  wrappers s' = wrappers s /\ same_rest s s' /\ forall b, balance_of s' b = balance_of s b + released_to b w ds.
Proof.
  destruct (sm_fold_total (fun d acc s1 => acc = map (fun d => fst (released w d)) d /\ wrappers s1 = wrappers s /\ same_rest s s1 /\
      forall b, balance_of s1 b = balance_of s b + released_to b w d)
    (payout_delegation header (GetLockPeriodInEpoch config (Epoch header)) (IsNoEarlyUnlock config (Some (Epoch header)))
      (IsMaxRate config newShardState.(Shard.Epoch)) w.(validator).(LastEpochInCommittee)) ds [] s) as (acc & s' & E & -> & Hrest); [| |by exists s'].
  - split_and!; [done|done|by split_and!|]. intros b. unfold released_to. rewrite sumZ_nil. lia.
  - intros d del rest acc s1 _ (-> & Hw & Hs & Hb). unfold payout_delegation. change (RemoveUnlockedUndelegations _ _ _ _ _ del) with (released w del).
    assert (DelegatorAddress (fst (released w del)) = DelegatorAddress del) as Ha by (unfold released, RemoveUnlockedUndelegations; by destruct (unlock_loop _ _ _ _ _ _ _)).
    destruct (released w del) as [del' x] eqn:Er. cbn [fst] in Ha. rewrite Ha.
    assert (forall b, released_to b w (d ++ [del]) = released_to b w d + if decide (b = DelegatorAddress del) then x else 0) as Hto.
    { intros b. unfold released_to. rewrite sumZ_app, sumZ_cons, sumZ_nil, Er. cbn [snd]. lia. }
    unfold mbind, SM_bind, sm_when. destruct (Z.eqb_spec (Big.Sign x) 0) as [Ex|Ex]; cbn [negb]; eexists _, _; (split; [done|]); rewrite map_app; cbn [map]; rewrite Er; cbn [fst];
      (split; [done|]); (split; [exact Hw|]); (split; [exact Hs|]); intros b; rewrite Hto.
    + assert (x = 0) as -> by (unfold Big.Sign in Ex; lia). rewrite Hb. case_decide; lia.
    + cbn. rewrite balance_add, Hb. lia.
Qed.
Lemma payoutUndelegations_gives l (s : FinalState VC DC) : chain.(fcReadValidatorList) = Ok l -> NoDup l -> new_shard_state of_bytes header = Ok newShardState ->
  (forall a, a ∈ l -> is_Some (wrappers s !! a)) ->
  exists s', payoutUndelegations of_bytes chain header s = (s', Ok tt) /\ same_rest s s' /\
    (forall a, wrappers s' !! a = if decide (a ∈ l) then after_release <$> wrappers s !! a else wrappers s !! a) /\
    forall b, balance_of s' b = balance_of s b + sumZ (fun a => match wrappers s !! a with Some w => released_to b w w.(Delegations) | None => 0 end) l.
Proof.
  intros Hl Hnd Hss Hin. unfold payoutUndelegations. rewrite Hl, Hss. unfold mbind at 1, SM_bind at 1, lift at 1. cbv zeta. unfold mbind at 1, SM_bind at 1, lift at 1.
  rewrite sm_for_fold. set (body := fun (_ : unit) a => _). 
  destruct (sm_fold_total (fun d (_ : unit) s1 => same_rest s s1 /\
      (forall a, wrappers s1 !! a = if decide (a ∈ d) then after_release <$> wrappers s !! a else wrappers s !! a) /\
      forall b, balance_of s1 b = balance_of s b + sumZ (fun a => match wrappers s !! a with Some w => released_to b w w.(Delegations) | None => 0 end) d) body l tt s)
    as ([] & s' & E & Hrest); [| |by exists s'].
  - split_and!; [by split_and!|done|]. intros b. rewrite sumZ_nil. lia.
  - intros d a rest [] s1 El (Hs & Hw & Hb). assert (a ∉ d) as Ha by (rewrite El in Hnd; apply NoDup_app in Hnd as (_ & Hnd & _); intros Ha; apply (Hnd a Ha); by left).
    destruct (Hin a) as [w Hwa]; [rewrite El; apply elem_of_app; right; by left|]. pose proof (Hw a) as Hwa1. rewrite decide_False, Hwa in Hwa1 by done.
    unfold body, mbind, SM_bind at 1, wrapper_to_finalize, ValidatorWrapperAt. rewrite Hwa1.
    destruct (payout_delegations_spec w w.(Delegations) s1) as (s2 & E2 & Hw2 & Hs2 & Hb2). unfold SM_bind. rewrite E2. eexists tt, _. split; [done|].
    split_and!.
    + cbn. destruct Hs as (? & ? & ?), Hs2 as (? & ? & ?). split_and!; cbn; congruence.
    + intros a'. cbn. rewrite Hw2. destruct (decide (a' = a)) as [->|Hne].
      * rewrite lookup_insert_eq, decide_True, Hwa by (apply elem_of_app; right; by left). done.
      * rewrite lookup_insert_ne, Hw by done. destruct (decide (a' ∈ d)) as [Hd|Hd]; [by rewrite decide_True by (apply elem_of_app; by left)|].
        rewrite decide_False; [done|]. intros [?|?%list_elem_of_singleton]%elem_of_app; done.
    + intros b. cbn. rewrite sumZ_app, sumZ_cons, sumZ_nil, Hwa. pose proof (Hb2 b) as Hb2'. unfold balance in *. cbn. rewrite Hb2'. pose proof (Hb b) as Hb'. unfold balance in Hb'. lia.
Qed.
(** Nothing is lost or made, unless the max-rate rule forfeits it. *)
Lemma released_conserves w d : IsMaxRate config newShardState.(Shard.Epoch) = false ->
  locked d.(Undelegations) = locked (fst (released w d)).(Undelegations) + snd (released w d) /\
  (fst (released w d)).(Amount) = d.(Amount) /\ (fst (released w d)).(Reward) = d.(Reward).
Proof.
  intros Hm. unfold released, RemoveUnlockedUndelegations. rewrite Hm.
  destruct (unlock_loop_spec (Epoch header) w.(validator).(LastEpochInCommittee) (GetLockPeriodInEpoch config (Epoch header))
    (IsNoEarlyUnlock config (Some (Epoch header))) false 0 d.(Undelegations)) as (taken & rest & El & -> & _).
  cbn [fst snd Undelegations Amount Reward]. split; [|done]. rewrite El. unfold locked. rewrite sumZ_app.
  
  rewrite (sumZ_ext (fun u => if negb (maxRateApplies (Epoch header) (GetLockPeriodInEpoch config (Epoch header)) false u) then uAmount u else 0) uAmount taken) by done. lia.
Qed.
End payout.

(** C13: at the end of an epoch [payoutUndelegations] pays every delegator of
    every listed validator what is unlocked: it ends if the list, the new shard
    state and the validators can be read, each wrapper keeps the undelegations
    that stay locked and everything else, each balance grows by exactly what was
    released to it, and before the max-rate era what is released is what leaves
    the undelegations. *)
Theorem payoutUndelegations_pays {R : ShardRLP} {VC : KeyedLRU (Z * Z) Roster} {DC : KeyedLRU (Z * Address) (gmap Address Dec)}
    of_bytes chain header newShardState l (s : FinalState VC DC) :
  chain.(fcReadValidatorList) = Ok l -> NoDup l -> new_shard_state of_bytes header = Ok newShardState ->
  (forall a, a ∈ l -> is_Some (s.(fsReward).(rsState).(validators) !! a)) ->
  exists s', payoutUndelegations of_bytes chain header s = (s', Ok tt) /\ same_rest s s' /\
    (forall a, s'.(fsReward).(rsState).(validators) !! a =
       if decide (a ∈ l) then after_release chain header newShardState <$> s.(fsReward).(rsState).(validators) !! a
       else s.(fsReward).(rsState).(validators) !! a) /\
    (forall b, balance s'.(fsReward).(rsState) b = balance s.(fsReward).(rsState) b +
       sumZ (fun a => match s.(fsReward).(rsState).(validators) !! a with
                      | Some w => released_to chain header newShardState b w w.(Delegations) | None => 0 end) l) /\
    (IsMaxRate chain.(fcReward).(rcConfig) newShardState.(Shard.Epoch) = false -> forall w d, let r := released chain header newShardState w d in
       locked d.(Undelegations) = locked (fst r).(Undelegations) + snd r /\ (fst r).(Amount) = d.(Amount) /\ (fst r).(Reward) = d.(Reward)).
Proof.
  intros Hl Hnd Hss Hin. destruct (payoutUndelegations_gives of_bytes chain header newShardState l s Hl Hnd Hss Hin) as (s' & E & Hr & Hw & Hb).
  exists s'. split; [exact E|]. split; [exact Hr|]. split; [exact Hw|]. split; [exact Hb|]. intros Hm w d. by apply released_conserves.
Qed.

(** Two slashes, and two orders they are applied in: Go's walk of the map
    decides. *)
Example slash_order_depends_on_walk :
  let a := mkKey 5 1 0 7 in let b := mkKey 3 1 1 7 in
  key_less a b = true /\ key_less b a = true /\ insertionSort key_less [a; b] = [b; a] /\ insertionSort key_less [b; a] = [a; b].
Proof. by vm_compute. Qed.

(** A validator whose two delegators wait for 5 and 6 tokens. *)
#[export] Instance state_rlp : ShardRLP := {|
  Data := State; rlp_Encode := fun s => Ok s; rlp_EncodeLegacy := fun _ => Err "no legacy"; rlp_Decode := fun s => Ok s; rlp_DecodeLegacy := fun _ => Err "no legacy"
|}.
Definition waiting_validator : ValidatorWrapper :=
  with_Delegations (paid_validator 2) [mkDelegation 2 600 0 [mkUndelegation 5 13]; mkDelegation 8 300 0 [mkUndelegation 6 13; mkUndelegation 7 19]].
Definition next_state : State := mkState (Some 21) [paying_committee].
Definition final_chain : FinalChain := {|
  fcReward := paying_chain; fcReadValidatorList := Ok [2]; fcValidatorCandidates := [2]; fcCurrentBlockEpoch := 20;
  fcSnapshotAtEpoch := fun _ a => Ok (mkSnapshot (paid_validator a) (Some 5))
|}.
Definition final_state : FinalState list_lru list_lru := mkFinal list_lru list_lru (mkRewardState (mkSlashState {[2 := waiting_validator]} {[2 := 50]}) [] []) ∅.
Definition epoch_header : Header := NewHeader (NewFactory AllProtocolChanges) 20.
Lemma payoutUndelegations_pays_witness : exists s',
  payoutUndelegations (R := state_rlp) (fun _ => next_state) final_chain epoch_header final_state = (s', Ok tt) /\
  balance s'.(fsReward).(rsState) 2 = 55 /\ balance s'.(fsReward).(rsState) 8 = 6.
Proof.
  destruct (payoutUndelegations_pays (R := state_rlp) (fun _ => next_state) final_chain epoch_header next_state [2] final_state)
    as (s' & E & _ & _ & Hb & _); [reflexivity|apply NoDup_singleton|reflexivity| |].
  - intros a ->%list_elem_of_singleton. eexists. reflexivity.
  - exists s'. split; [exact E|]. rewrite !Hb. by vm_compute.
Defined.
